(* ===== verification/_CoqProject ===== *)
-Q . S2P
Prelude.v
CMem.v
CStr.v
Crc.v
Device.v
Queue.v
PluginApi.v
VentPlugins.v
AcdPlugins.v
CurtainPlugins.v
MiscPlugins.v
Echo.v
Dpt9.v
KnxPlugins.v
KnxAddr.v
KnxPacket.v
KnxBus.v
Registry.v
Nodes.v
Monitor.v
Serial.v
ModbusWrite.v
Receiver.v
KnxDevs.v
KnxCtrl.v
KnxReport.v
KnxLoop.v
DioScan.v
Gateway.v
Groups.v
KnxMonitor.v
Composed.v
Xml.v
Cells.v
CellRules.v
ParseModbus.v
ModbusConfig.v
XmlPrint.v
ModbusPrint.v
ConfigMonitor.v
ParseKnx.v
KnxConfig.v
ParsePanels.v
PanelPrint.v
PanelConfig.v
ParseMisc.v
GroupConfig.v
InputConfig.v
ThreadPool.v
PoolRules.v
PoolRuns.v
AdList.v
Startup.v
Loader.v
ThreadDog.v
Identity.v
CloudEvents.v
XmlUpdate.v
