(* ===== verification/Prelude.v ===== *)
(** Formal model of the HiMax smart home gateway.

    * The program

    The gateway joins three worlds: Modbus devices on four serial ports, KNX
    devices on a bus that is reached through an EIB server, and a cloud that
    sends commands and receives reports.  Threads work on queues:

    - the cloud calls back (main.c) with a command for a device; a command for
      a Modbus device is written at once by ModbusDevWrite (modbusHandle.c),
      one for a KNX device is put into the queue of the writer thread
      KNX_DevWriteEntry (knxHandle.c), which sends a group write to the bus;
    - a receiver per serial line (SerialRcvEntry, serialHandle.c) lets the
      plugin of the device parse what it reads, and puts the objects into the
      queue of ModbusDevMonitor (modbusHandle.c), which stores them, passes them
      on to the KNX twin of the device and reports them to the cloud;
    - the bus monitor (knxHandle.c) parses telegrams; a group that is debounced
      goes through a table (point.c) and a debouncer thread, the others go to the
      queue of KNX_DevMonitorEntry, which stores the value, reports it to the
      cloud, or writes it to the Modbus device the KNX device stands for;
    - a plugin (plugin/compile/*.c, a shared library) knows a product: for
      Modbus it builds frames and parses answers, for KNX it translates values.

    * The files

    Shared:
    - Prelude.v: machine integers, the monads, their rules, generic lemmas;
    - CMem.v: byte blocks and the allocator; CStr.v: strtol, sscanf, strstr;
    - Device.v: point.h, device.h, misc_dev_plugins.h (data);
    - PluginApi.v: plugin/utils.c and the interface MbusIf; its classes are what
      the gateway needs of a plugin.

    Plugins:
    - Crc.v: crc16.c;
    - VentPlugins.v, AcdPlugins.v, CurtainPlugins.v, MiscPlugins.v: the 23 Modbus
      plugins, a Module each, with the static variables of the library as its
      state; Registry.v: the tables they export and what all of them satisfy;
    - Echo.v: a command of the cloud to the device and back, through a plugin;
    - Dpt9.v: temperatures of the KNX bus, in IEEE 754 arithmetic;
      KnxPlugins.v: the eleven KNX plugins.

    Queues and ports:
    - Queue.v: queue.c and queue_internal.c over a store of blocks, then turns of
      any number of threads around the mutex and the conditions;
    - AdList.v: list.c over a store of nodes and lists, and that every function
      does to its chain what its name says of a list;
    - ThreadPool.v: thpool.c, the queue of jobs as blocks, a thread as a program
      counter, a critical section as a turn; PoolRules.v: the invariants;
      PoolRuns.v: what the pool promises;
    - Serial.v: serialHandle.c, the ports and their mutexes over an oracle for
      the system calls; Receiver.v: SerialRcvEntry in rounds.

    The Modbus side (modbusHandle.c):
    - Nodes.v: the device list and the search by id; ModbusWrite.v:
      ModbusDevWrite with the members of a group, Modbus_DevHealth,
      Mbus_SyncAllDevStatus; Monitor.v: ModbusDevMonitor.

    The KNX side (knxHandle.c, point.c):
    - KnxAddr.v: group and physical addresses; KnxPacket.v: KNX_ParsePacket;
    - KnxBus.v: the bus monitor, the table of point.c and the debouncer, as
      interleaved critical sections;
    - KnxDevs.v: the devices, the state of the KNX side, an APDU, the limited
      queues; KnxCtrl.v: the seven Knx_*Ctrl functions and the writer thread;
      KnxReport.v: the seven Knx_*Report functions, the monitor thread, the
      requests for the state;
    - KnxLoop.v: writer, telegram and monitor in a row; KnxMonitor.v: safety of
      the monitor thread against an interface of the Modbus side; Composed.v:
      ModbusDevWrite implements that interface.

    The main program (main.c):
    - DioScan.v: the digital inputs; Gateway.v: commands, binding and unbinding;
      CloudEvents.v: positions, heartbeats, Zigbee devices and the button, over what
      the cloud is asked in order; Groups.v: the links between devices made at the
      start;
    - Identity.v: the address and the licence (hal_wired.c, production_utils.c);
    - Startup.v: the configuration is read, and the jobs go to the pool (main,
      KnxInit, ModbusInit); Loader.v: the loaders of the plugins and the libraries
      of the build; ThreadDog.v: the loop of the bus monitor and the dog that
      restarts it, over the pool.

    The configuration (parseXML.c): one parser per kind of device walks the tree
    libxml2 makes of a document and adds structures to a list.
    - Xml.v: the functions of libxml2 as a class, the loops over nodes, the
      parser monad and its rules; Cells.v: DeviceElement_t and the elements every
      parser knows;
    - ParseModbus.v: the eight parsers of Modbus devices and SerialInit;
      ParseKnx.v: those of KNX climate devices; ParsePanels.v: panels, smart
      panels, dimmers and curtains; ParseMisc.v: the gateway, Zigbee devices,
      inputs, outputs, scenes and groups;
    - CellRules.v, ModbusConfig.v, KnxConfig.v, PanelConfig.v, InputConfig.v: what
      holds of the structures whatever the document is;
    - XmlPrint.v, ModbusPrint.v, PanelPrint.v, GroupConfig.v: writers of
      documents, and that the parsers read them back;
    - ConfigMonitor.v: a configured device in the monitor;
    - XmlUpdate.v: the Update* functions, which change a node of the file; what an
      XPath expression selects, and the library as a class over files.

    * How the code is modelled

    Integers are [Z] and wrapped where the C type wraps ([u8] ... [i32]); what C
    leaves undefined (a signed overflow, a load outside a block or through a null
    pointer, a conversion that does not fit) is a value of its own: [Undef] of
    [outcome], [Fault] of [io].  [Blocked] of [io] is a thread that waits for
    ever.  So "never faults" below means: no undefined behaviour.

    - A plugin or queue function is of type [C S A]: explicit state passing with
      [Undef]; [wp m Q s] says that [m] ends in a state with [Q].
    - A function that can wait is of type [io S A]; [runs m Q s]: it ends with
      [Q]; [iwp m Q s]: it ends with [Q] or waits.
    - The kernel, the cloud and the EIB library are oracles: lists of the results
      of the calls to come, over which the theorems quantify; what the program
      asks of them is a log ([trace], [klog], [log]), in order.
    - A parser of the configuration is of type [par S A]: it gives a value or
      stops, because the process exits, hangs in a round it repeats for ever, or
      does what is undefined; [pwp ok m Q s]: it ends with [Q] or stops for a
      reason of [ok].  A round that is repeated consumes an entry of the oracle of
      calloc or hangs, so the fuel of [while_nodes] is the length of that oracle.
    - calloc is an oracle as well; [live] counts the blocks, so that a theorem
      that equates [live] before and after excludes leaks.

    - Threads that share a store take turns: a type of turns, a function that
      runs one and a test of when it can be taken ([run_turn] and [enabled] of
      ThreadPool.v, [sys_run] and [sys_enabled] of ThreadDog.v); theorems hold of
      every state turns in any order lead to ([reachable], [sys_reachable]).  A
      signal wakes a thread of the turn's choice.

    The recursions are those of the code over its lists, and structural; the
    loops without a bound are turns ([monitor_turn], [write_turn], [bus_turn],
    [debounce_turn], [rcv_round]) composed by recursion over the events, so no
    result depends on fuel.  Fuel occurs where the code counts: [conv_loop] of
    Dpt9.v has the 16 exponents of the format, [unbind_loop] of Gateway.v the
    calls, and [unbind_loop_ends] says how many are enough, and when none are.
    The loops of AdList.v over a list turn once more than it has nodes, and without
    fuel left they are [Undef], which [lists_refine] excludes; [jobqueue_clear] has
    one turn more than jobs ([pool_freed]).

    * The theorems

    - Safety against everything outside: [plugins_build], [plugins_parse] (every
      plugin), [modbus_write_safe], [knx_write_safe], [gateway_monitor_safe],
      [parse_packet_bounds].  A client is proved
      against a class ([IfOk], [KnxControlOk], [KnxReportOk], [ModbusSafe]) and
      the implementations are its instances.
    - Round trips: [plugins_echo], [knx_plugins_echo], [knx_command_report],
      [telegram_parsed]; of the configuration [modbus_lines_read],
      [modbus_owns_read], [panels_read], [groups_read] and [smart_mode_kept] (a mode
      that was stored is read at the next start); [licence_read].
    - The main program: [start_devices] (what [main] has when the configuration is
      read), [plugins_loaded], [main_pool_serves] and [main_pool_starves] (whether a
      thread is left for the jobs of the cloud), [key_presses] (the button).
    - Every configuration gives well-formed devices: [modbus_cfg_typed],
      [knx_cfg_typed], [panel_cfg_typed], [curtain_cfg_typed]; these are the
      hypotheses of the theorems on the KNX side ([dev_ok]).
    - What a turn does: [monitor_updates], [configured_point_reported],
      [knx_cloud_commands], [knx_addresses], [serial_open_half],
      [group_is_chain].
    - Refinement and equivalence: [lists_refine] and [queue_put_refines] (the
      linked lists implement lists), [debounce_refines] (the table implements a
      timer per group, under every interleaving), [crc16_is_modbus].
    - Invariants over interleavings: [queue_threads_fifo],
      [queue_threads_sorted], [pool_jobs] (jobs start in order, once),
      [pool_wait], [bus_monitor_kept] (there is one monitor of the bus),
      [associated_both_ways], [bind_positions] (bound devices are placed in order).
    - Termination and liveness: [receiver_ends], [unbind_loop_ends],
      [pool_comes_to_rest], [pool_freed], [debounce_delivers], [di_debounced], [configured_input_debounced].
    - Errors, stated as the code behaves: [knx_command_lost],
      [groups_never_formed], [bind_heartbeat], [panel_keys_leak], [air_sensor_silent],
      [licence_asked]; the bounds of a temperature are [temp_command_bounds], those of
      a key [key_bounds].  The files hold more of this kind:
      [monitor_frees], [bus_leaks], [receiver_read_error], [member_frames_lost],
      [member_failure_locks], [knx_delete_unbinds_all], [knx_env_temp_sign_lost],
      [zhonghong_speed_swapped].

    * Not modelled

    - libxml2: the trees it makes are arguments, and what is used of it when a file
      is changed are hypotheses.
    - The rest of main.c (LEDs, dumps, logs, upgrades of the gateway, the
      registration of the callbacks), hal_*.c but for GetMac, wrapper.c, common.c,
      upgrade.c (which nothing calls) and fakeServer.c: calls of the operating system, of the shell and of
      the cloud SDK, with no state of their own.
    - KnxDestroy and ModbusDestroy, which free the queues at the exit;
      thpool_pause and thpool_resume, which nothing calls; the function [init] of
      a plugin, which one plugin has.
    - uthash.h is a copy of a public library; the table of point.c is a list of
      its items.  The clients of list.c are modelled over Rocq lists, as
      [lists_refine] allows.
    - lib/include, sub, test and tools: headers of other projects, separate
      programs and drivers.
    - Log messages have no effect and are left out. *)

From Stdlib Require Export ZArith Lia Bool.
From stdpp Require Export base list list_numbers option strings.

#[export] Set Default Goal Selector "!".

Close Scope string_scope.
Open Scope Z_scope.

(** ** Machine integers

    A w-bit unsigned integer of the C code is a [Z] in [0, 2^w); the
    conversions below are the ones C applies on assignment. *)

Definition u8 (z : Z) : Z := z mod 2 ^ 8.
Definition u16 (z : Z) : Z := z mod 2 ^ 16.
Definition u32 (z : Z) : Z := z mod 2 ^ 32.
Definition u64 (z : Z) : Z := z mod 2 ^ 64.

(** The value of a 32-bit pattern read as [int32_t] (two's complement). *)
Definition i32 (z : Z) : Z :=
  let w := u32 z in if w <? 2 ^ 31 then w else w - 2 ^ 32.

(** The C conversion of a truth value to an integer. *)
Definition b2z (b : bool) : Z := if b then 1 else 0.

(** A [Z] that is a byte. *)
Definition is_u8 (z : Z) : Prop := 0 <= z < 256.

#[export] Instance is_u8_dec z : Decision (is_u8 z).
Proof. unfold is_u8. apply _. Defined.

(** ** Undefined behaviour

    [Undef] is the outcome of an execution C gives no meaning to: an access
    outside an object, a null dereference.  Everything else is [Done]. *)

Inductive outcome (A : Type) : Type :=
| Done (a : A)
| Undef.
Arguments Done {A} a.
Arguments Undef {A}.

(** A computation of the C code over a state of type [S]. *)
Definition C (S A : Type) : Type := S -> outcome (A * S).

#[export] Instance C_ret S : MRet (C S) := fun A a s => Done (a, s).
#[export] Instance C_bind S : MBind (C S) :=
  fun A B f m s => match m s with Done (a, s') => f a s' | Undef => Undef end.

(** Computations that do not touch the state. *)
Definition lift {S A} (o : outcome A) : C S A :=
  fun s => match o with Done a => Done (a, s) | Undef => Undef end.

Definition undef {S A} : C S A := fun _ => Undef.

Definition obind {A B} (o : outcome A) (f : A -> outcome B) : outcome B :=
  match o with Done a => f a | Undef => Undef end.

Declare Scope c_scope.
Delimit Scope c_scope with C.

(** [x <-? m; k]: the C idiom [x = m; if (!x) return NULL; k]. *)
Notation "x '<-?' m ; k" :=
  (mbind (fun r => match r with Some x => k | None => mret None end) m)
  (at level 20, m at level 100, k at level 200) : c_scope.

(** [x <-! o; k]: bind of a state-free outcome. *)
Notation "x '<-!' o ; k" := (obind o (fun x => k))
  (at level 20, o at level 100, k at level 200) : c_scope.

Open Scope c_scope.

(** ** Weakest preconditions

    [wp m Q s]: running [m] from [s] is defined and its result satisfies
    [Q].  A proof of [wp] is a proof of memory safety and termination too. *)

Definition wp {S A} (m : C S A) (Q : A -> S -> Prop) (s : S) : Prop :=
  match m s with Done (a, s') => Q a s' | Undef => False end.

Definition owp {A} (o : outcome A) (Q : A -> Prop) : Prop :=
  match o with Done a => Q a | Undef => False end.

Create HintDb cwp discriminated.

Section Wp.
Context {S : Type}.
Implicit Types s : S.

Lemma wp_ret {A} (a : A) (Q : A -> S -> Prop) s : Q a s -> wp (mret a) Q s.
Proof. done. Qed.

Lemma wp_bind {A B} (m : C S A) (f : A -> C S B) (Q : B -> S -> Prop) s :
  wp m (fun a s' => wp (f a) Q s') s -> wp (m ≫= f) Q s.
Proof. unfold wp, mbind, C_bind. by destruct (m s) as [[a s']|]. Qed.

Lemma wp_lift {A} (o : outcome A) (Q : A -> S -> Prop) s :
  owp o (fun a => Q a s) -> wp (lift o) Q s.
Proof. unfold wp, lift. by destruct o. Qed.

Lemma wp_mono {A} (m : C S A) (P Q : A -> S -> Prop) s :
  wp m P s -> (forall a s', P a s' -> Q a s') -> wp m Q s.
Proof. unfold wp. destruct (m s) as [[a s']|]; naive_solver. Qed.

Lemma wp_done {A} (m : C S A) (Q : A -> S -> Prop) s :
  wp m Q s <-> exists a s', m s = Done (a, s') /\ Q a s'.
Proof.
  unfold wp. split.
  - destruct (m s) as [[a s']|]; [eauto|done].
  - intros (a & s' & -> & ?). done.
Qed.
End Wp.

(** Running a bind whose first part is known. *)
Lemma bind_done {S A B} (m : C S A) (f : A -> C S B) s a s' :
  m s = Done (a, s') -> (m ≫= f) s = f a s'.
Proof. unfold mbind, C_bind. by intros ->. Qed.

Lemma bind_inv {S A B} (m : C S A) (f : A -> C S B) s r :
  (m ≫= f) s = Done r -> exists a s', m s = Done (a, s') /\ f a s' = Done r.
Proof. unfold mbind, C_bind. destruct (m s) as [[a s']|]; [eauto|done]. Qed.

Lemma owp_mono {A} (o : outcome A) (P Q : A -> Prop) :
  owp o P -> (forall a, P a -> Q a) -> owp o Q.
Proof. destruct o; simpl; auto. Qed.

Lemma owp_bind {A B} (o : outcome A) (f : A -> outcome B) (Q : B -> Prop) :
  owp o (fun a => owp (f a) Q) -> owp (obind o f) Q.
Proof. by destruct o. Qed.

Lemma owp_done {A} (o : outcome A) (Q : A -> Prop) :
  owp o Q <-> exists a, o = Done a /\ Q a.
Proof.
  split; [destruct o; [eauto|done]|intros (a & -> & ?); done].
Qed.

(** ** Computations that may wait

    [Blocked]: the thread waits for a mutex another one holds. *)

Inductive res (S A : Type) : Type :=
| Ran (a : A) (s : S)
| Blocked
| Fault.
Arguments Ran {S A} a s.
Arguments Blocked {S A}.
Arguments Fault {S A}.

Definition io (S A : Type) : Type := S -> res S A.

#[export] Instance io_ret S : MRet (io S) := fun A a s => Ran a s.
#[export] Instance io_bind S : MBind (io S) :=
  fun A B f m s => match m s with Ran a s' => f a s' | Blocked => Blocked | Fault => Fault end.

Definition fault {S A} : io S A := fun _ => Fault.

(** Either the thread waits or it ends, without a fault, in [Q]. *)
Definition iwp {S A} (m : io S A) (Q : A -> S -> Prop) (s : S) : Prop :=
  match m s with Ran a s' => Q a s' | Blocked => True | Fault => False end.

Section Iwp.
Context {S : Type}.
Implicit Types s : S.

Lemma iwp_ret {A} (a : A) (Q : A -> S -> Prop) s : Q a s -> iwp (mret a) Q s.
Proof. done. Qed.

Lemma iwp_bind {A B} (m : io S A) (f : A -> io S B) (Q : B -> S -> Prop) s :
  iwp m (fun a s' => iwp (f a) Q s') s -> iwp (m ≫= f) Q s.
Proof. unfold iwp, mbind, io_bind. by destruct (m s). Qed.

Lemma iwp_mono {A} (m : io S A) (Q Q' : A -> S -> Prop) s :
  iwp m Q s -> (forall a s', Q a s' -> Q' a s') -> iwp m Q' s.
Proof. unfold iwp. destruct (m s); auto. Qed.
End Iwp.

(** ** Total correctness

    [runs m Q s]: [m] ends, without waiting and without a fault, in [Q]. *)

Definition runs {S A} (m : io S A) (Q : A -> S -> Prop) (s : S) : Prop :=
  match m s with Ran a s' => Q a s' | _ => False end.

Section Runs.
Context {S : Type}.
Implicit Types s : S.

Lemma runs_ret {A} (a : A) (Q : A -> S -> Prop) s : Q a s -> runs (mret a) Q s.
Proof. done. Qed.

Lemma runs_bind {A B} (m : io S A) (f : A -> io S B) (Q : B -> S -> Prop) s :
  runs m (fun a s' => runs (f a) Q s') s -> runs (m ≫= f) Q s.
Proof. unfold runs, mbind, io_bind. by destruct (m s). Qed.

Lemma runs_mono {A} (m : io S A) (Q Q' : A -> S -> Prop) s :
  runs m Q s -> (forall a s', Q a s' -> Q' a s') -> runs m Q' s.
Proof. unfold runs. destruct (m s); auto. Qed.

Lemma runs_done {A} (m : io S A) (Q : A -> S -> Prop) s :
  runs m Q s <-> exists a s', m s = Ran a s' /\ Q a s'.
Proof.
  unfold runs. split; [destruct (m s); [eauto|done..]|]. intros (a & s' & -> & H). done.
Qed.

Lemma iwp_runs {A} (m : io S A) (Q : A -> S -> Prop) s : m s <> Blocked -> iwp m Q s -> runs m Q s.
Proof. unfold iwp, runs. by destruct (m s). Qed.
End Runs.

(** ** Arithmetic of the machine integers *)

Lemma u8_range z : is_u8 (u8 z).
Proof. apply Z.mod_pos_bound. lia. Qed.

Lemma u16_range z : 0 <= u16 z < 65536.
Proof. apply Z.mod_pos_bound. lia. Qed.

Lemma u32_range z : 0 <= u32 z < 2 ^ 32.
Proof. apply Z.mod_pos_bound. lia. Qed.

Lemma u8_small z : is_u8 z -> u8 z = z.
Proof. intros ?. apply Z.mod_small. done. Qed.

Lemma u16_small z : 0 <= z < 65536 -> u16 z = z.
Proof. intros ?. apply Z.mod_small. done. Qed.

Lemma u32_small z : 0 <= z < 2 ^ 32 -> u32 z = z.
Proof. intros ?. apply Z.mod_small. done. Qed.

Lemma u8_idemp z : u8 (u8 z) = u8 z.
Proof. apply u8_small, u8_range. Qed.

Lemma u32_idemp z : u32 (u32 z) = u32 z.
Proof. apply u32_small, u32_range. Qed.

Lemma u8_u16 z : u8 (u16 z) = u8 z.
Proof. unfold u8, u16. apply Z.mod_mod_divide. exists 256. reflexivity. Qed.

Lemma hi_u8 z : 0 <= z < 65536 -> is_u8 (z / 256).
Proof. intros ?. split; [apply Z.div_pos|apply Z.div_lt_upper_bound]; lia. Qed.

Lemma is_u8_0 : is_u8 0.
Proof. done. Qed.

Lemma u8_b2z b : u8 (b2z b) = b2z b.
Proof. by destruct b. Qed.

Lemma lxor_u8 a b : is_u8 a -> is_u8 b -> is_u8 (Z.lxor a b).
Proof.
  unfold is_u8. intros Ha Hb. split.
  - apply Z.lxor_nonneg. lia.
  - destruct (decide (Z.lxor a b = 0)) as [->|Hne]; [lia|].
    apply (Z.log2_lt_pow2 _ 8).
    { assert (0 <= Z.lxor a b) by (apply Z.lxor_nonneg; lia). lia. }
    eapply Z.le_lt_trans; [apply Z.log2_lxor; lia|].
    assert (forall x, 0 <= x < 256 -> Z.log2 x < 8) as H.
    { intros x Hx. destruct (decide (x = 0)) as [->|]; [done|].
      apply Z.log2_lt_pow2; lia. }
    pose proof (H a Ha). pose proof (H b Hb). lia.
Qed.

Lemma land_shl8 x y : 0 <= y < 256 -> Z.land (Z.shiftl x 8) y = 0.
Proof.
  intros Hy. apply Z.bits_inj'. intros n Hn. rewrite Z.land_spec, Z.bits_0.
  destruct (decide (n < 8)); [by rewrite Z.shiftl_spec_low|].
  replace (Z.testbit y n) with false; [apply andb_false_r|].
  symmetry. destruct (decide (y = 0)) as [->|]; [apply Z.bits_0|].
  apply Z.bits_above_log2; [lia|].
  apply Z.lt_le_trans with 8; [apply Z.log2_lt_pow2; lia|lia].
Qed.

Lemma shl8_mul x : Z.shiftl x 8 = x * 256.
Proof. rewrite Z.shiftl_mul_pow2; lia. Qed.

(** [h << 8 | l] is the 16-bit number with bytes [h] and [l]. *)
Lemma lor_shl8 h l : 0 <= l < 256 -> Z.lor (Z.shiftl h 8) l = h * 256 + l.
Proof.
  intros Hl. rewrite <- Z.add_nocarry_lor by (by apply land_shl8).
  by rewrite shl8_mul.
Qed.

Lemma lxor_shl8 h l : 0 <= l < 256 -> Z.lxor (h * 256) l = h * 256 + l.
Proof.
  intros Hl. rewrite <- shl8_mul, <- Z.add_nocarry_lxor by (by apply land_shl8).
  done.
Qed.

#[export] Hint Resolve u8_range u16_range u32_range hi_u8 is_u8_0 lxor_u8 : cwp.

Arguments u8 : simpl never.
Arguments u16 : simpl never.
Arguments u32 : simpl never.
Arguments u64 : simpl never.
Arguments i32 : simpl never.

(** Takes a hypothesis [(m ≫= f) s = Done r] apart. *)
Tactic Notation "bind_case" hyp(H) ident(a) ident(s') ident(Ha) :=
  apply bind_inv in H as (a & s' & Ha & H).

(** ** Case analysis on the conditions of the code *)

(** Turns the boolean tests of the context into propositions. *)
Ltac bprop :=
  repeat match goal with
  | H : (_ =? _) = true |- _ => apply Z.eqb_eq in H
  | H : (_ =? _) = false |- _ => apply Z.eqb_neq in H
  | H : (_ <? _) = true |- _ => apply Z.ltb_lt in H
  | H : (_ <? _) = false |- _ => apply Z.ltb_ge in H
  | H : (_ <=? _) = true |- _ => apply Z.leb_le in H
  | H : (_ <=? _) = false |- _ => apply Z.leb_gt in H
  | H : (_ <? _)%nat = true |- _ => apply Nat.ltb_lt in H
  | H : (_ <? _)%nat = false |- _ => apply Nat.ltb_ge in H
  | H : (_ || _) = true |- _ => apply orb_true_iff in H
  | H : (_ || _) = false |- _ => apply orb_false_iff in H as [? ?]
  | H : (_ && _) = true |- _ => apply andb_true_iff in H as [? ?]
  | H : (_ && _) = false |- _ => apply andb_false_iff in H
  | H : negb _ = true |- _ => apply negb_true_iff in H
  | H : negb _ = false |- _ => apply negb_false_iff in H
  end.
