(* ===== verification/CMem.v ===== *)
(** Byte buffers and the allocator.

    A heap block of bytes is a [list Z]; its length is the size it was
    allocated with, so a load or store at an offset past it is [Undef].  The
    allocator is an oracle for the calls of [calloc] still to come (some fail)
    and a count of the live blocks, which the theorems about leaks read.  [env
    S] adds the static variables [S] of one shared library. *)

From S2P Require Import Prelude.

(** ** Loads and stores

    The code stores a 16-bit number with [htons] through a [uint16_t] pointer
    and loads it back with [ntohs]: on any host the high byte is the one at the
    lower address.  [st16be] and [rd16be] are these two idioms. *)

Definition rd8 (buf : list Z) (k : nat) : outcome Z :=
  match buf !! k with Some b => Done b | None => Undef end.

Definition rd16be (buf : list Z) (k : nat) : outcome Z :=
  hi <-! rd8 buf k; lo <-! rd8 buf (S k); Done (hi * 256 + lo).

(** [(p[k + 1] << 8) + p[k]] *)
Definition rd16le (buf : list Z) (k : nat) : outcome Z :=
  hi <-! rd8 buf (S k); lo <-! rd8 buf k; Done (Z.shiftl hi 8 + lo).

Definition st8 (buf : list Z) (k : nat) (v : Z) : outcome (list Z) :=
  if (k <? length buf)%nat then Done (<[k := u8 v]> buf) else Undef.

Definition st16be (buf : list Z) (k : nat) (v : Z) : outcome (list Z) :=
  buf <-! st8 buf k (u16 v / 256); st8 buf (S k) (u16 v).

(** [p[k] op= v] on a byte: the sum is taken in [int] and truncated. *)
Definition add8 (buf : list Z) (k : nat) (v : Z) : outcome (list Z) :=
  x <-! rd8 buf k; st8 buf k (x + v).

Definition and8 (buf : list Z) (k : nat) (v : Z) : outcome (list Z) :=
  x <-! rd8 buf k; st8 buf k (Z.land x v).

(** ** The allocator *)

Record heap := Heap { plan : list bool; live : Z }.

Record env (S : Type) := Env { mem : heap; st : S }.
Arguments Env {S} mem st.
Arguments mem {S} e.
Arguments st {S} e.

Definition calloc {S} : C (env S) bool := fun e =>
  match plan (mem e) with
  | [] => Done (true, Env (Heap [] (live (mem e) + 1)) (st e))
  | true :: p => Done (true, Env (Heap p (live (mem e) + 1)) (st e))
  | false :: p => Done (false, Env (Heap p (live (mem e))) (st e))
  end.

(** [free(p)] of a live block. *)
Definition free {S} : C (env S) unit := fun e =>
  Done (tt, Env (Heap (plan (mem e)) (live (mem e) - 1)) (st e)).

Definition getS {S} : C (env S) S := fun e => Done (st e, e).
Definition putS {S} (s : S) : C (env S) unit := fun e => Done (tt, Env (mem e) s).

(** ** Facts about buffers *)

Definition bytes (l : list Z) : Prop := Forall is_u8 l.

Lemma bytes_replicate n : bytes (replicate n 0).
Proof. apply Forall_replicate. done. Qed.

Lemma bytes_insert l k v : bytes l -> is_u8 v -> bytes (<[k := v]> l).
Proof. intros. by apply Forall_insert. Qed.

Lemma bytes_take n l : bytes l -> bytes (take n l).
Proof. apply Forall_take. Qed.

Lemma bytes_drop n l : bytes l -> bytes (drop n l).
Proof. apply Forall_drop. Qed.

Lemma bytes_lookup l k b : bytes l -> l !! k = Some b -> is_u8 b.
Proof. intros Hl Hk. by eapply Forall_lookup_1. Qed.

#[export] Hint Resolve bytes_replicate bytes_insert bytes_take bytes_drop : cwp.

Lemma owp_rd8 buf k Q :
  (k < length buf)%nat -> (forall b, buf !! k = Some b -> Q b) -> owp (rd8 buf k) Q.
Proof.
  intros Hk HQ. unfold rd8.
  destruct (lookup_lt_is_Some_2 buf k Hk) as [b Hb]. rewrite Hb. by apply HQ.
Qed.

Lemma owp_rd16be buf k Q :
  (S k < length buf)%nat ->
  (forall hi lo, buf !! k = Some hi -> buf !! (S k) = Some lo -> Q (hi * 256 + lo)) ->
  owp (rd16be buf k) Q.
Proof.
  intros Hk HQ. apply owp_bind, owp_rd8; [lia|]. intros hi Hhi.
  apply owp_bind, owp_rd8; [lia|]. intros lo Hlo. by apply HQ.
Qed.

Lemma owp_st8 buf k v Q :
  (k < length buf)%nat -> Q (<[k := u8 v]> buf) -> owp (st8 buf k v) Q.
Proof.
  intros Hk HQ. unfold st8.
  destruct (k <? length buf)%nat eqn:E; [done|]. apply Nat.ltb_ge in E. lia.
Qed.

Lemma rd8_undef buf k : rd8 buf k = Undef <-> (length buf <= k)%nat.
Proof.
  unfold rd8. destruct (buf !! k) eqn:E.
  - split; [done|]. apply lookup_lt_Some in E. lia.
  - by apply lookup_ge_None in E.
Qed.

Lemma wp_calloc {S} (Q : bool -> env S -> Prop) e :
  (forall p, Q true (Env (Heap p (live (mem e) + 1)) (st e))) ->
  (forall p, Q false (Env (Heap p (live (mem e))) (st e))) ->
  wp calloc Q e.
Proof.
  intros Ht Hf. unfold wp, calloc.
  destruct (plan (mem e)) as [|[] p]; [apply Ht|apply Ht|apply Hf].
Qed.

Lemma wp_free {S} (Q : unit -> env S -> Prop) e :
  Q tt (Env (Heap (plan (mem e)) (live (mem e) - 1)) (st e)) -> wp free Q e.
Proof. done. Qed.

Lemma wp_getS {S} (Q : S -> env S -> Prop) e : Q (st e) e -> wp getS Q e.
Proof. done. Qed.

Lemma wp_putS {S} (s : S) (Q : unit -> env S -> Prop) e :
  Q tt (Env (mem e) s) -> wp (putS s) Q e.
Proof. done. Qed.
