(* ===== verification/CStr.v ===== *)
(** The string functions of the C library the gateway uses: strtol, sscanf with
    integer conversions, strstr.

    A C string is a [string], its characters up to the terminating zero.  The
    target has a [long] of 32 bits. *)

From S2P Require Import Prelude.

Local Open Scope string_scope.
Local Open Scope Z_scope.

Definition is_space (a : Ascii.ascii) : bool :=
  let n := Ascii.nat_of_ascii a in (n =? 32)%nat || ((9 <=? n)%nat && (n <=? 13)%nat).
Definition digit_of (a : Ascii.ascii) : option Z :=
  let n := Z.of_nat (Ascii.nat_of_ascii a) in
  if (48 <=? n) && (n <=? 57) then Some (n - 48) else None.

Fixpoint skip_spaces (s : string) : string :=
  match s with
  | String a r => if is_space a then skip_spaces r else s
  | EmptyString => s
  end.

(** ** strtol in base 10 *)

(** The value of the leading digits and their number. *)
Fixpoint digits (s : string) (acc : Z) (n : nat) : Z * nat :=
  match s with
  | String a r => match digit_of a with Some d => digits r (acc * 10 + d) (S n) | None => (acc, n) end
  | EmptyString => (acc, n)
  end.

(** [None]: no conversion ([endptr] is the start); otherwise the value and
    whether [errno] is [ERANGE]. *)
Definition strtol (s : string) : option (Z * bool) :=
  let s := skip_spaces s in
  let '(neg, s) :=
    match s with
    | String a r =>
        if (Ascii.nat_of_ascii a =? 45)%nat then (true, r)
        else if (Ascii.nat_of_ascii a =? 43)%nat then (false, r) else (false, s)
    | EmptyString => (false, s)
    end in
  let '(v, n) := digits s 0 0 in
  if (n =? 0)%nat then None else
  let v := if neg then - v else v in
  if v <? - 2 ^ 31 then Some (- 2 ^ 31, true)
  else if 2 ^ 31 - 1 <? v then Some (2 ^ 31 - 1, true)
  else Some (v, false).

Fixpoint drop_string (n : nat) (s : string) : string :=
  match n, s with
  | O, _ => s
  | S n, String _ r => drop_string n r
  | S _, EmptyString => EmptyString
  end.

Fixpoint take_string (n : nat) (s : string) : string :=
  match n, s with
  | S n, String a r => String a (take_string n r)
  | _, _ => EmptyString
  end.

(** ** strstr

    The offset of the first occurrence of the key. *)

Fixpoint prefix_of (key s : string) : bool :=
  match key, s with
  | EmptyString, _ => true
  | String a k, String b r => Ascii.eqb a b && prefix_of k r
  | String _ _, EmptyString => false
  end.

Fixpoint strstr (s key : string) : option nat :=
  if prefix_of key s then Some 0%nat else
  match s with
  | String _ r => match strstr r key with Some n => Some (S n) | None => None end
  | EmptyString => None
  end.

(** ** sscanf with integer conversions *)

Definition hex_of (a : Ascii.ascii) : option Z :=
  let n := Z.of_nat (Ascii.nat_of_ascii a) in
  if (48 <=? n) && (n <=? 57) then Some (n - 48)
  else if (65 <=? n) && (n <=? 70) then Some (n - 55)
  else if (97 <=? n) && (n <=? 102) then Some (n - 87)
  else None.

(** [%u], [%x] and [%d] with a field width, a blank, any other character. *)
Inductive conversion := CU | CX | CD.
Inductive directive := Num (c : conversion) (width : nat) | Blank | Lit (a : Ascii.ascii).

Definition digit_in (c : conversion) : Ascii.ascii -> option Z :=
  match c with CX => hex_of | _ => digit_of end.
Definition base_of (c : conversion) : Z := match c with CX => 16 | _ => 10 end.

(** At most [w] digits: the value, their number and the rest of the input. *)
Fixpoint scan_digits (c : conversion) (w : nat) (s : string) (acc : Z) (n : nat) : Z * nat * string :=
  match w, s with
  | S w, String a r =>
      match digit_in c a with
      | Some d => scan_digits c w r (acc * base_of c + d) (S n)
      | None => (acc, n, s)
      end
  | _, _ => (acc, n, s)
  end.

(** What strtoul and strtol make of a number too large: the largest value. *)
Definition int_value (c : conversion) (neg : bool) (v : Z) : Z :=
  match c with
  | CD => let v := if neg then - v else v in Z.max (- 2 ^ 31) (Z.min (2 ^ 31 - 1) v)
  | _ => if 2 ^ 32 <=? v then 2 ^ 32 - 1 else if neg then u32 (- v) else v
  end.

Definition scan_int (c : conversion) (w : nat) (s : string) : option (Z * string) :=
  let '(neg, s, w) :=
    match s, w with
    | String a r, S w' =>
        if (Ascii.nat_of_ascii a =? 45)%nat then (true, r, w')
        else if (Ascii.nat_of_ascii a =? 43)%nat then (false, r, w') else (false, s, w)
    | _, _ => (false, s, w)
    end in
  let '(s, w) :=
    match c, s, w with
    | CX, String a (String b r), S (S w') =>
        if (Ascii.nat_of_ascii a =? 48)%nat &&
           ((Ascii.nat_of_ascii b =? 120)%nat || (Ascii.nat_of_ascii b =? 88)%nat)
        then (r, w') else (s, w)
    | _, _, _ => (s, w)
    end in
  let '(v, n, rest) := scan_digits c w s 0 0 in
  if (n =? 0)%nat then None else Some (int_value c neg v, rest).

(** The values stored; [None] in the second component: the input ended before
    a conversion or a mismatch. *)
Fixpoint scan (fmt : list directive) (s : string) (acc : list Z) : list Z * bool :=
  match fmt with
  | [] => (acc, false)
  | Blank :: fmt => scan fmt (skip_spaces s) acc
  | Lit a :: fmt =>
      match s with
      | EmptyString => (acc, true)
      | String b r => if Ascii.eqb a b then scan fmt r acc else (acc, false)
      end
  | Num c w :: fmt =>
      match skip_spaces s with
      | EmptyString => (acc, true)
      | s =>
          match scan_int c w s with
          | Some (v, r) => scan fmt r (acc ++ [v])
          | None => (acc, false)
          end
      end
  end.

(** The result of sscanf, [EOF] being -1, and the values it stored. *)
Definition sscanf (s : string) (fmt : list directive) : Z * list Z :=
  let '(l, eof) := scan fmt s [] in
  (if eof && (length l =? 0)%nat then -1 else Z.of_nat (length l), l).

(** A conversion without a width. *)
Definition NOWIDTH : nat := Z.to_nat 1000.

(** ** Facts *)

Fixpoint has_char (a : Ascii.ascii) (s : string) : bool :=
  match s with
  | EmptyString => false
  | String b r => Ascii.eqb a b || has_char a r
  end.

Lemma app_cons a s t : String a s +:+ t = String a (s +:+ t).
Proof. done. Qed.

(** A key is not found inside a text without its first character. *)
Lemma strstr_skip a key s t :
  has_char a s = false ->
  strstr (s +:+ t) (String a key) =
  match strstr t (String a key) with Some n => Some (String.length s + n)%nat | None => None end.
Proof.
  induction s as [|b s IH]; intros H.
  { change ("" +:+ t) with t. by destruct (strstr t (String a key)). }
  cbn in H. apply orb_false_iff in H as [Hb Hs].
  rewrite app_cons. cbn [strstr prefix_of].
  rewrite Hb. cbn [andb]. rewrite IH by done. by destruct (strstr t (String a key)).
Qed.

Lemma drop_string_app s t : drop_string (String.length s) (s +:+ t) = t.
Proof. by induction s. Qed.

Lemma take_string_all n s : (String.length s <= n)%nat -> take_string n s = s.
Proof. revert n. induction s as [|a s IH]; intros [|n] H; cbn in *; try done; try lia. by rewrite IH by lia. Qed.

Lemma take_string_app s t : take_string (String.length s) (s +:+ t) = s.
Proof. induction s as [|a s IH]; [by destruct t|]. rewrite app_cons. simpl. by f_equal. Qed.

Lemma prefix_of_app key s : prefix_of key (key +:+ s) = true.
Proof. induction key as [|a k IH]; [done|]. rewrite app_cons. simpl. by rewrite Ascii.eqb_refl. Qed.

Lemma string_app_assoc (s t u : string) : (s +:+ t) +:+ u = s +:+ (t +:+ u).
Proof. induction s as [|a s IH]; [done|]. rewrite !app_cons. by f_equal. Qed.

Lemma string_length_app (s t : string) : String.length (s +:+ t) = (String.length s + String.length t)%nat.
Proof. induction s as [|a s IH]; [done|]. rewrite app_cons. simpl. by f_equal. Qed.

Lemma string_app_nil (s : string) : s +:+ "" = s.
Proof. induction s as [|a s IH]; [done|]. rewrite app_cons. by f_equal. Qed.

(** ** Searching a text with parts that are not known

    A part whose characters do not occur in the key separates the text: an
    occurrence lies before it or after it. *)

Lemma prefix_of_chunk d key w t :
  has_char d key = false -> prefix_of key (w +:+ String d t) = prefix_of key w.
Proof.
  revert w. induction key as [|k key IH]; intros w H; [done|].
  cbn in H. apply orb_false_iff in H as [Hk H].
  destruct w as [|a w].
  - change ("" +:+ String d t) with (String d t). cbn [prefix_of]. by rewrite Ascii.eqb_sym, Hk.
  - rewrite app_cons. cbn [prefix_of]. by rewrite IH.
Qed.

Fixpoint disjoint_chars (u key : string) : bool :=
  match u with
  | EmptyString => true
  | String d u => negb (has_char d key) && disjoint_chars u key
  end.

Lemma strstr_disjoint u t k key :
  disjoint_chars u (String k key) = true ->
  strstr (u +:+ t) (String k key) = (match strstr t (String k key) with Some n => Some (String.length u + n)%nat | None => None end).
Proof.
  intros H. apply strstr_skip. induction u as [|d u IH]; [done|].
  cbn in H |- *. apply andb_true_iff in H as [H1 H2]. rewrite (IH H2), orb_false_r.
  apply negb_true_iff, orb_false_iff in H1 as [H1 _]. by rewrite Ascii.eqb_sym.
Qed.

Lemma strstr_before d u w t k key :
  has_char d (String k key) = false ->
  strstr (w +:+ String d u +:+ t) (String k key) =
  match strstr w (String k key) with
  | Some n => Some n
  | None => match strstr (String d u +:+ t) (String k key) with
            | Some n => Some (String.length w + n)%nat | None => None end
  end.
Proof.
  intros H. induction w as [|a w IH].
  { change ("" +:+ String d u +:+ t) with (String d u +:+ t).
    cbn [strstr prefix_of]. by destruct (strstr (String d u +:+ t) _). }
  rewrite app_cons. cbn [strstr]. rewrite <- (app_cons a w).
  rewrite (app_cons d u t), prefix_of_chunk by done.
  destruct (prefix_of (String k key) (String a w)); [done|].
  rewrite <- (app_cons d u t), IH. destruct (strstr w _); [done|]. by destruct (strstr (String d u +:+ t) _).
Qed.

(** The key in [w ++ u ++ t], where [u] is not empty and shares no character
    with it. *)
Lemma strstr_around w u t k key :
  u <> "" -> disjoint_chars u (String k key) = true ->
  strstr (w +:+ u +:+ t) (String k key) =
  match strstr w (String k key) with
  | Some n => Some n
  | None => match strstr t (String k key) with
            | Some n => Some (String.length w + (String.length u + n))%nat | None => None end
  end.
Proof.
  intros Hu H. destruct u as [|d u]; [done|].
  rewrite strstr_before; [|by cbn in H; apply andb_true_iff in H as [H _]; apply negb_true_iff in H].
  rewrite strstr_disjoint by done. destruct (strstr w _); [done|]. by destruct (strstr t _).
Qed.

(** A last part that does not hold the key and whose first character can only be
    the first of it. *)
Lemma strstr_tail w d u k key :
  has_char d key = false -> strstr (String d u) (String k key) = None ->
  strstr (w +:+ String d u) (String k key) = strstr w (String k key).
Proof.
  intros H Hn. induction w as [|a w IH].
  { by change ("" +:+ String d u) with (String d u). }
  rewrite app_cons. cbn [strstr]. rewrite IH.
  replace (prefix_of (String k key) (String a (w +:+ String d u)))
    with (prefix_of (String k key) (String a w)); [done|].
  cbn [prefix_of]. by rewrite prefix_of_chunk.
Qed.

Lemma strstr_short s key : (String.length s < String.length key)%nat -> strstr s key = None.
Proof.
  assert (forall s, (String.length s < String.length key)%nat -> prefix_of key s = false) as Hp.
  { clear. induction key as [|k key IH]; intros s H; [cbn in H; lia|].
    destruct s as [|a s]; [done|]. cbn in H |- *. rewrite IH by lia. by rewrite andb_false_r. }
  induction s as [|a s IH]; intros H; cbn [strstr]; rewrite Hp by done; [done|].
  cbn in H. by rewrite IH by lia.
Qed.

Lemma drop_string_add n m s : drop_string (n + m) s = drop_string m (drop_string n s).
Proof. revert s. induction n as [|n IH]; intros [|a s]; try done; [by destruct m|]. simpl. apply IH. Qed.

Lemma drop_string_chunk u t n : drop_string (String.length u + n) (u +:+ t) = drop_string n t.
Proof. by rewrite drop_string_add, drop_string_app. Qed.
