(* ===== verification/Crc.v ===== *)
(** Frame checks (source/crc16.c).

    [crc16] is the table-driven CRC of the C code; [modbus_crc] is the bit by
    bit definition of the Modbus CRC (reflected polynomial 0xA001, start
    0xFFFF) it has to agree with, up to the byte order [crc16] returns.  [cs]
    and [BCC8] are the 8-bit sum and the 8-bit xor used by the other devices. *)

From S2P Require Import Prelude CMem.

(** ** The code *)

Definition tableHigh : list Z :=
  [0x00; 0xC1; 0x81; 0x40; 0x01; 0xC0; 0x80; 0x41; 0x01; 0xC0; 0x80; 0x41;
   0x00; 0xC1; 0x81; 0x40; 0x01; 0xC0; 0x80; 0x41; 0x00; 0xC1; 0x81; 0x40;
   0x00; 0xC1; 0x81; 0x40; 0x01; 0xC0; 0x80; 0x41; 0x01; 0xC0; 0x80; 0x41;
   0x00; 0xC1; 0x81; 0x40; 0x00; 0xC1; 0x81; 0x40; 0x01; 0xC0; 0x80; 0x41;
   0x00; 0xC1; 0x81; 0x40; 0x01; 0xC0; 0x80; 0x41; 0x01; 0xC0; 0x80; 0x41;
   0x00; 0xC1; 0x81; 0x40; 0x01; 0xC0; 0x80; 0x41; 0x00; 0xC1; 0x81; 0x40;
   0x00; 0xC1; 0x81; 0x40; 0x01; 0xC0; 0x80; 0x41; 0x00; 0xC1; 0x81; 0x40;
   0x01; 0xC0; 0x80; 0x41; 0x01; 0xC0; 0x80; 0x41; 0x00; 0xC1; 0x81; 0x40;
   0x00; 0xC1; 0x81; 0x40; 0x01; 0xC0; 0x80; 0x41; 0x01; 0xC0; 0x80; 0x41;
   0x00; 0xC1; 0x81; 0x40; 0x01; 0xC0; 0x80; 0x41; 0x00; 0xC1; 0x81; 0x40;
   0x00; 0xC1; 0x81; 0x40; 0x01; 0xC0; 0x80; 0x41; 0x01; 0xC0; 0x80; 0x41;
   0x00; 0xC1; 0x81; 0x40; 0x00; 0xC1; 0x81; 0x40; 0x01; 0xC0; 0x80; 0x41;
   0x00; 0xC1; 0x81; 0x40; 0x01; 0xC0; 0x80; 0x41; 0x01; 0xC0; 0x80; 0x41;
   0x00; 0xC1; 0x81; 0x40; 0x00; 0xC1; 0x81; 0x40; 0x01; 0xC0; 0x80; 0x41;
   0x01; 0xC0; 0x80; 0x41; 0x00; 0xC1; 0x81; 0x40; 0x01; 0xC0; 0x80; 0x41;
   0x00; 0xC1; 0x81; 0x40; 0x00; 0xC1; 0x81; 0x40; 0x01; 0xC0; 0x80; 0x41;
   0x00; 0xC1; 0x81; 0x40; 0x01; 0xC0; 0x80; 0x41; 0x01; 0xC0; 0x80; 0x41;
   0x00; 0xC1; 0x81; 0x40; 0x01; 0xC0; 0x80; 0x41; 0x00; 0xC1; 0x81; 0x40;
   0x00; 0xC1; 0x81; 0x40; 0x01; 0xC0; 0x80; 0x41; 0x01; 0xC0; 0x80; 0x41;
   0x00; 0xC1; 0x81; 0x40; 0x00; 0xC1; 0x81; 0x40; 0x01; 0xC0; 0x80; 0x41;
   0x00; 0xC1; 0x81; 0x40; 0x01; 0xC0; 0x80; 0x41; 0x01; 0xC0; 0x80; 0x41;
   0x00; 0xC1; 0x81; 0x40].

Definition tableLow : list Z :=
  [0x00; 0xC0; 0xC1; 0x01; 0xC3; 0x03; 0x02; 0xC2; 0xC6; 0x06; 0x07; 0xC7;
   0x05; 0xC5; 0xC4; 0x04; 0xCC; 0x0C; 0x0D; 0xCD; 0x0F; 0xCF; 0xCE; 0x0E;
   0x0A; 0xCA; 0xCB; 0x0B; 0xC9; 0x09; 0x08; 0xC8; 0xD8; 0x18; 0x19; 0xD9;
   0x1B; 0xDB; 0xDA; 0x1A; 0x1E; 0xDE; 0xDF; 0x1F; 0xDD; 0x1D; 0x1C; 0xDC;
   0x14; 0xD4; 0xD5; 0x15; 0xD7; 0x17; 0x16; 0xD6; 0xD2; 0x12; 0x13; 0xD3;
   0x11; 0xD1; 0xD0; 0x10; 0xF0; 0x30; 0x31; 0xF1; 0x33; 0xF3; 0xF2; 0x32;
   0x36; 0xF6; 0xF7; 0x37; 0xF5; 0x35; 0x34; 0xF4; 0x3C; 0xFC; 0xFD; 0x3D;
   0xFF; 0x3F; 0x3E; 0xFE; 0xFA; 0x3A; 0x3B; 0xFB; 0x39; 0xF9; 0xF8; 0x38;
   0x28; 0xE8; 0xE9; 0x29; 0xEB; 0x2B; 0x2A; 0xEA; 0xEE; 0x2E; 0x2F; 0xEF;
   0x2D; 0xED; 0xEC; 0x2C; 0xE4; 0x24; 0x25; 0xE5; 0x27; 0xE7; 0xE6; 0x26;
   0x22; 0xE2; 0xE3; 0x23; 0xE1; 0x21; 0x20; 0xE0; 0xA0; 0x60; 0x61; 0xA1;
   0x63; 0xA3; 0xA2; 0x62; 0x66; 0xA6; 0xA7; 0x67; 0xA5; 0x65; 0x64; 0xA4;
   0x6C; 0xAC; 0xAD; 0x6D; 0xAF; 0x6F; 0x6E; 0xAE; 0xAA; 0x6A; 0x6B; 0xAB;
   0x69; 0xA9; 0xA8; 0x68; 0x78; 0xB8; 0xB9; 0x79; 0xBB; 0x7B; 0x7A; 0xBA;
   0xBE; 0x7E; 0x7F; 0xBF; 0x7D; 0xBD; 0xBC; 0x7C; 0xB4; 0x74; 0x75; 0xB5;
   0x77; 0xB7; 0xB6; 0x76; 0x72; 0xB2; 0xB3; 0x73; 0xB1; 0x71; 0x70; 0xB0;
   0x50; 0x90; 0x91; 0x51; 0x93; 0x53; 0x52; 0x92; 0x96; 0x56; 0x57; 0x97;
   0x55; 0x95; 0x94; 0x54; 0x9C; 0x5C; 0x5D; 0x9D; 0x5F; 0x9F; 0x9E; 0x5E;
   0x5A; 0x9A; 0x9B; 0x5B; 0x99; 0x59; 0x58; 0x98; 0x88; 0x48; 0x49; 0x89;
   0x4B; 0x8B; 0x8A; 0x4A; 0x4E; 0x8E; 0x8F; 0x4F; 0x8D; 0x4D; 0x4C; 0x8C;
   0x44; 0x84; 0x85; 0x45; 0x87; 0x47; 0x46; 0x86; 0x82; 0x42; 0x43; 0x83;
   0x41; 0x81; 0x80; 0x40].

(** The body of [while (len--)], from [*pBuf++] at offset [p]. *)
Fixpoint crc16_loop (pBuf : list Z) (len p : nat) (crcH crcL : Z) : outcome (Z * Z) :=
  match len with
  | O => Done (crcH, crcL)
  | S len =>
      b <-! rd8 pBuf p;
      let idx := Z.to_nat (Z.lxor crcH b) in
      hi <-! rd8 tableHigh idx;
      lo <-! rd8 tableLow idx;
      crc16_loop pBuf len (S p) (Z.lxor crcL hi) lo
  end.

(** A negative [len] never reaches 0 before the loop leaves the buffer. *)
Definition crc16 (pBuf : list Z) (len : Z) : outcome Z :=
  if len <? 0 then Undef else
  c <-! crc16_loop pBuf (Z.to_nat len) 0 0xFF 0xFF;
  let (crcH, crcL) := c : Z * Z in
  Done (u16 (Z.lor (Z.shiftl crcH 8) crcL)).

Fixpoint cs_loop (pData : list Z) (n p : nat) (ret : Z) : outcome Z :=
  match n with
  | O => Done ret
  | S n => b <-! rd8 pData p; cs_loop pData n (S p) (u8 (ret + b))
  end.

(** [size] is a [uint8_t] parameter. *)
Definition cs (pData : list Z) (size : Z) : outcome Z :=
  cs_loop pData (Z.to_nat (u8 size)) 0 0.

Fixpoint BCC8_loop (data : list Z) (n i : nat) (ret : Z) : outcome Z :=
  match n with
  | O => Done ret
  | S n => b <-! rd8 data i; BCC8_loop data n (S i) (u8 (Z.lxor ret b))
  end.

Definition BCC8 (data : list Z) (size : Z) : outcome Z :=
  BCC8_loop data (Z.to_nat (u8 size)) 0 0.

(** ** The specification *)

(** One bit of the reflected CRC with polynomial 0xA001. *)
Definition crc_bit (c : Z) : Z :=
  if Z.odd c then Z.lxor (Z.div2 c) 0xA001 else Z.div2 c.

Definition crc_byte (c b : Z) : Z := Nat.iter 8 crc_bit (Z.lxor c b).

Definition modbus_crc (l : list Z) : Z := fold_left crc_byte l 0xFFFF.

(** The two bytes of a 16-bit number exchanged. *)
Definition swap16 (c : Z) : Z := (c mod 256) * 256 + c / 256.

Arguments tableHigh : simpl never.
Arguments tableLow : simpl never.

(** ** The loop as a fold *)

Definition tget (t : list Z) (i : Z) : Z := nth (Z.to_nat i) t 0.
Arguments tget : simpl never.

Definition crc_upd (c : Z * Z) (b : Z) : Z * Z :=
  let idx := Z.lxor c.1 b in (Z.lxor c.2 (tget tableHigh idx), tget tableLow idx).

Definition crc_fold (l : list Z) (c : Z * Z) : Z * Z := fold_left crc_upd l c.

(** The 16 bits [crc16] returns for the bytes [l]. *)
Definition crc_of (l : list Z) : Z :=
  let c := crc_fold l (0xFF, 0xFF) in c.1 * 256 + c.2.

Definition crc_state (c : Z * Z) : Prop := is_u8 c.1 /\ is_u8 c.2.

Lemma tables_ok :
  length tableHigh = 256%nat /\ length tableLow = 256%nat /\
  bytes tableHigh /\ bytes tableLow.
Proof.
  split; [reflexivity|]. split; [reflexivity|].
  split; apply (bool_decide_unpack _); vm_compute; exact I.
Qed.

Lemma tableLow_NoDup : NoDup tableLow.
Proof. apply (bool_decide_unpack _). vm_compute. exact I. Qed.


Lemma table_rd8 t i :
  length t = 256%nat -> is_u8 i -> rd8 t (Z.to_nat i) = Done (tget t i).
Proof.
  intros Ht Hi. unfold rd8. unfold is_u8 in Hi.
  destruct (nth_lookup_or_length t (Z.to_nat i) 0) as [->|?]; [done|lia].
Qed.

Lemma table_u8 t i : bytes t -> length t = 256%nat -> is_u8 i -> is_u8 (tget t i).
Proof.
  intros Hb Ht Hi. eapply bytes_lookup; [exact Hb|].
  destruct (nth_lookup_or_length t (Z.to_nat i) 0) as [E|?]; [exact E|].
  unfold is_u8 in Hi. lia.
Qed.

Lemma crc_upd_state c b : crc_state c -> is_u8 b -> crc_state (crc_upd c b).
Proof.
  intros [Hh Hl] Hb. destruct tables_ok as (? & ? & ? & ?).
  split; simpl; [apply lxor_u8; [done|]|]; apply table_u8; auto with cwp.
Qed.

Lemma crc_fold_state l c : crc_state c -> bytes l -> crc_state (crc_fold l c).
Proof.
  intros Hc Hl. revert c Hc. induction Hl; intros c Hc; [done|].
  simpl. apply IHHl. by apply crc_upd_state.
Qed.

(** The loop reads exactly the bytes [p .. p + n) and folds [crc_upd]. *)
Lemma crc16_loop_fold buf n p h l :
  bytes buf -> is_u8 h -> is_u8 l -> (p + n <= length buf)%nat ->
  crc16_loop buf n p h l = Done (crc_fold (take n (drop p buf)) (h, l)).
Proof.
  intros Hb. revert p h l. induction n as [|n IH]; intros p h l Hh Hl Hlen; [done|].
  destruct (lookup_lt_is_Some_2 buf p) as [b Hp]; [lia|].
  assert (is_u8 b) by (by eapply bytes_lookup).
  destruct tables_ok as (? & ? & ? & ?).
  assert (is_u8 (Z.lxor h b)) by auto with cwp.
  simpl. unfold rd8 at 1. rewrite Hp. simpl.
  rewrite !table_rd8 by done. simpl.
  rewrite IH; [|auto using table_u8 with cwp|by apply table_u8|lia].
  rewrite (drop_S _ _ _ Hp). done.
Qed.

Lemma crc_of_range l : bytes l -> 0 <= crc_of l < 65536.
Proof.
  intros Hl. destruct (crc_fold_state l (0xFF, 0xFF)) as [? ?]; [done|done|].
  unfold crc_of, is_u8 in *. lia.
Qed.

(** [crc16] on a prefix of a buffer; the entry point of every frame proof. *)
Lemma crc16_eval buf n :
  bytes buf -> (n <= length buf)%nat ->
  crc16 buf (Z.of_nat n) = Done (crc_of (take n buf)).
Proof.
  intros Hb Hn. unfold crc16.
  destruct (Z.of_nat n <? 0) eqn:E; bprop; [lia|].
  rewrite Nat2Z.id, crc16_loop_fold by (done || lia).
  rewrite drop_0. simpl. unfold crc_of.
  destruct (crc_fold_state (take n buf) (0xFF, 0xFF)) as [Hh Hl]; [done|auto with cwp|].
  destruct (crc_fold _ _) as [h l]; simpl in *. rewrite lor_shl8 by done.
  rewrite u16_small; [done|]. unfold is_u8 in *. lia.
Qed.

Lemma crc16_undef buf n :
  n < 0 \/ (length buf < Z.to_nat n)%nat -> bytes buf -> crc16 buf n = Undef.
Proof.
  intros Hn Hb. unfold crc16. destruct (n <? 0) eqn:E; bprop; [done|].
  destruct Hn as [?|Hn]; [lia|].
  assert (forall k p h l, is_u8 h -> is_u8 l -> (length buf < p + k)%nat ->
    (p <= length buf)%nat -> crc16_loop buf k p h l = Undef) as H.
  { intros k. induction k as [|k IH]; intros p h l Hh Hl Hk Hp; [lia|].
    simpl. destruct (decide (p = length buf)) as [->|].
    { unfold rd8 at 1. rewrite lookup_ge_None_2 by lia. done. }
    destruct (lookup_lt_is_Some_2 buf p) as [b Hb']; [lia|].
    assert (is_u8 b) by (by eapply bytes_lookup).
    destruct tables_ok as (? & ? & ? & ?).
    unfold rd8 at 1. rewrite Hb'. simpl.
    rewrite !table_rd8 by auto with cwp. simpl.
    apply IH; [apply lxor_u8; [done|]|..|lia|lia]; apply table_u8; auto with cwp. }
  rewrite H; [done|done|done|lia|lia].
Qed.

(** ** The table implements the polynomial *)

(** Equalities between xor terms, bit by bit. *)
Ltac lxor_ring :=
  apply Z.bits_inj'; intros ? _; rewrite ?Z.lxor_spec;
  repeat match goal with |- context [Z.testbit ?x ?n] => destruct (Z.testbit x n) end;
  reflexivity.

Lemma crc_bit_lxor a b : crc_bit (Z.lxor a b) = Z.lxor (crc_bit a) (crc_bit b).
Proof.
  unfold crc_bit. rewrite !Z.div2_spec, Z.shiftr_lxor.
  rewrite <- !Z.bit0_odd, Z.lxor_spec.
  destruct (Z.testbit a 0), (Z.testbit b 0); cbn [xorb]; lxor_ring.
Qed.

Lemma crc_bits_lxor n a b :
  Nat.iter n crc_bit (Z.lxor a b) = Z.lxor (Nat.iter n crc_bit a) (Nat.iter n crc_bit b).
Proof. induction n as [|n IH]; simpl; [done|]. by rewrite IH, crc_bit_lxor. Qed.

Lemma crc_bit_double x : crc_bit (2 * x) = x.
Proof.
  unfold crc_bit. rewrite Z.odd_mul. simpl. rewrite Z.div2_div, Z.mul_comm.
  apply Z.div_mul. lia.
Qed.

Lemma crc_bits_high x : Nat.iter 8 crc_bit (x * 256) = x.
Proof.
  replace (x * 256) with (2 * (2 * (2 * (2 * (2 * (2 * (2 * (2 * x)))))))) by lia.
  simpl Nat.iter. by rewrite !crc_bit_double.
Qed.


Lemma table_polynomial i :
  is_u8 i ->
  Nat.iter 8 crc_bit i = tget tableLow i * 256 + tget tableHigh i.
Proof.
  intros Hi. pose (f := fun i => Nat.iter 8 crc_bit (Z.of_nat i) =?
    tget tableLow (Z.of_nat i) * 256 + tget tableHigh (Z.of_nat i)).
  assert (forallb f (seq 0 256) = true) as H by (vm_compute; reflexivity).
  rewrite forallb_forall in H. unfold is_u8 in Hi.
  specialize (H (Z.to_nat i)). rewrite in_seq in H. specialize (H ltac:(lia)).
  unfold f in H. rewrite Z2Nat.id in H by lia. by apply Z.eqb_eq.
Qed.

(** One byte: the pair [(crcH, crcL)] is the bitwise register with [crcH] its
    low byte. *)
Lemma crc_upd_byte c b :
  crc_state c -> is_u8 b ->
  crc_byte (c.2 * 256 + c.1) b = (crc_upd c b).2 * 256 + (crc_upd c b).1.
Proof.
  intros [Hh Hl] Hb. destruct c as [h l]. cbn [fst snd crc_upd] in *.
  assert (is_u8 (Z.lxor h b)) as Hx by auto with cwp.
  destruct tables_ok as (? & ? & ? & ?).
  assert (is_u8 (tget tableHigh (Z.lxor h b))) by (by apply table_u8).
  unfold crc_byte. rewrite <- (lxor_shl8 l h), Z.lxor_assoc by done.
  rewrite crc_bits_lxor, crc_bits_high, table_polynomial by done.
  assert (is_u8 (Z.lxor l (tget tableHigh (Z.lxor h b)))) by auto with cwp.
  unfold crc_upd. cbn [fst snd].
  rewrite <- !lxor_shl8 by done. lxor_ring.
Qed.

Lemma crc_fold_modbus l c :
  crc_state c -> bytes l ->
  fold_left crc_byte l (c.2 * 256 + c.1) = (crc_fold l c).2 * 256 + (crc_fold l c).1.
Proof.
  intros Hc Hl. revert c Hc. induction Hl as [|b l Hb Hl IH]; intros c Hc; [done|].
  simpl. rewrite crc_upd_byte by done. apply IH. by apply crc_upd_state.
Qed.

Lemma crc_of_modbus l : bytes l -> crc_of l = swap16 (modbus_crc l).
Proof.
  intros Hl. unfold modbus_crc.
  change 0xFFFF with ((0xFF, 0xFF).2 * 256 + (0xFF, 0xFF).1).
  rewrite crc_fold_modbus by done.
  destruct (crc_fold_state l (0xFF, 0xFF)) as [Hh Hl']; [done|done|].
  unfold crc_of, swap16. destruct (crc_fold _ _) as [h lo]; simpl in *.
  rewrite (Z.add_comm (lo * 256)), Z.mod_add, Z.div_add by lia.
  rewrite Z.mod_small, Z.div_small by done. lia.
Qed.

(** ** Error detection *)

Lemma table_inj i j :
  is_u8 i -> is_u8 j ->
  tget tableLow i = tget tableLow j -> i = j.
Proof.
  unfold is_u8. intros Hi Hj E. destruct tables_ok as (_ & Hlen & _).
  assert (Z.to_nat i = Z.to_nat j) as ?; [|lia].
  eapply NoDup_nth; [apply NoDup_ListNoDup, tableLow_NoDup|lia|lia|exact E].
Qed.

Lemma lxor_inj_l a b c : Z.lxor a b = Z.lxor a c -> b = c.
Proof.
  intros E. rewrite <- (Z.lxor_0_l b), <- (Z.lxor_0_l c), <- (Z.lxor_nilpotent a).
  by rewrite !Z.lxor_assoc, E.
Qed.

(** A step loses nothing of the register and of the byte read. *)
Lemma crc_upd_inj c c' b b' :
  crc_state c -> crc_state c' -> is_u8 b -> is_u8 b' ->
  crc_upd c b = crc_upd c' b' -> c.2 = c'.2 /\ Z.lxor c.1 b = Z.lxor c'.1 b'.
Proof.
  intros [? ?] [? ?] ? ? [= E1 E2].
  apply table_inj in E2; auto with cwp. split; [|done].
  rewrite E2 in E1. rewrite !(Z.lxor_comm _ (tget _ _)) in E1.
  by apply lxor_inj_l in E1.
Qed.

Lemma crc_fold_inj l c c' :
  bytes l -> crc_state c -> crc_state c' -> crc_fold l c = crc_fold l c' -> c = c'.
Proof.
  intros Hl. revert c c'. induction Hl as [|b l Hb Hl IH]; intros c c' Hc Hc' E; [done|].
  simpl in E. apply IH in E; auto using crc_upd_state.
  apply crc_upd_inj in E as [E2 E1]; auto.
  rewrite !(Z.lxor_comm _ b) in E1. apply lxor_inj_l in E1.
  destruct c, c'; simpl in *; congruence.
Qed.

Lemma crc_of_inj l l' :
  bytes l -> bytes l' -> crc_of l = crc_of l' ->
  crc_fold l (0xFF, 0xFF) = crc_fold l' (0xFF, 0xFF).
Proof.
  intros Hl Hl' E. unfold crc_of in E.
  destruct (crc_fold_state l (0xFF, 0xFF)) as [H1 H2]; [done|done|].
  destruct (crc_fold_state l' (0xFF, 0xFF)) as [H3 H4]; [done|done|].
  destruct (crc_fold l _), (crc_fold l' _). unfold is_u8 in *. simpl in *. f_equal; lia.
Qed.

Lemma crc_fold_app l l' c : crc_fold (l ++ l') c = crc_fold l' (crc_fold l c).
Proof. apply fold_left_app. Qed.

(** The two bytes of the CRC bring the register to 0. *)
Lemma crc_fold_own l :
  bytes l ->
  crc_fold [crc_of l / 256; crc_of l mod 256] (crc_fold l (0xFF, 0xFF)) = (0, 0).
Proof.
  intros Hl. destruct (crc_fold_state l (0xFF, 0xFF)) as [Hh Hlo]; [done|done|].
  unfold crc_of. destruct (crc_fold l _) as [h lo]. cbn [fst snd] in *.
  rewrite (Z.add_comm (h * 256)), Z.div_add, Z.mod_add by lia.
  rewrite Z.div_small, Z.mod_small by done.
  unfold crc_fold. cbn [fold_left]. unfold crc_upd. cbn [fst snd].
  rewrite Z.lxor_nilpotent. change (tget tableHigh 0) with 0.
  change (tget tableLow 0) with 0. by rewrite Z.lxor_0_r, Z.lxor_nilpotent.
Qed.

Lemma lxor_eq_0 a b : Z.lxor a b = 0 -> a = b.
Proof. intros E. apply (lxor_inj_l b). by rewrite Z.lxor_comm, E, Z.lxor_nilpotent. Qed.

(** The register is 0 after two more bytes exactly when they are the CRC. *)
Lemma crc_of_own_iff t h l :
  bytes t -> is_u8 h -> is_u8 l ->
  crc_of (t ++ [h; l]) = 0 <-> crc_of t = h * 256 + l.
Proof.
  intros Ht Hh Hl. destruct (crc_fold_state t (0xFF, 0xFF)) as [Hsh Hsl]; [done|done|].
  assert (bytes (t ++ [h; l])) as Hb.
  { apply Forall_app. split; [done|]. by apply Forall_cons; split; [|apply Forall_singleton]. }
  destruct (crc_fold_state _ (0xFF, 0xFF) ltac:(done) Hb) as [H1 H2].
  unfold crc_of in *. rewrite crc_fold_app in *.
  destruct (crc_fold t (0xFF, 0xFF)) as [sh sl]. cbn [fst snd] in *.
  unfold crc_fold, crc_upd in *. cbn [fold_left fst snd] in *.
  destruct tables_ok as (? & ? & ? & ?).
  assert (is_u8 (Z.lxor sh h)) as Hi by auto with cwp.
  assert (is_u8 (tget tableHigh (Z.lxor sh h))) by by apply table_u8.
  assert (is_u8 (Z.lxor (Z.lxor sl (tget tableHigh (Z.lxor sh h))) l)) as Hi2 by auto with cwp.
  unfold is_u8 in H1, H2. split; intros E.
  - assert (tget tableLow (Z.lxor (Z.lxor sl (tget tableHigh (Z.lxor sh h))) l) = tget tableLow 0)
      as E2 by (change (tget tableLow 0) with 0; lia).
    apply table_inj in E2; [|done|done]. rewrite E2 in E.
    change (tget tableHigh 0) with 0 in E. change (tget tableLow 0) with 0 in E.
    rewrite Z.lxor_0_r in E.
    assert (tget tableLow (Z.lxor sh h) = tget tableLow 0) as E3
      by (change (tget tableLow 0) with 0; lia).
    apply table_inj in E3; [|done|done]. rewrite E3 in E2.
    change (tget tableHigh 0) with 0 in E2. rewrite Z.lxor_0_r in E2.
    apply lxor_eq_0 in E2, E3. congruence.
  - assert (sh = h /\ sl = l) as [-> ->] by (unfold is_u8 in *; lia).
    rewrite Z.lxor_nilpotent. change (tget tableHigh 0) with 0. change (tget tableLow 0) with 0.
    rewrite Z.lxor_0_r, Z.lxor_nilpotent. reflexivity.
Qed.

(** ** The 8-bit sum and the 8-bit xor *)

Definition sum_of (l : list Z) : Z := fold_right Z.add 0 l.
Definition bcc_of (l : list Z) : Z := fold_right Z.lxor 0 l.

Lemma sum_of_app l l' : sum_of (l ++ l') = sum_of l + sum_of l'.
Proof. induction l as [|x l IH]; simpl; [done|]. rewrite IH. lia. Qed.

Lemma bcc_of_app l l' : bcc_of (l ++ l') = Z.lxor (bcc_of l) (bcc_of l').
Proof. induction l as [|x l IH]; simpl; [done|]. by rewrite IH, Z.lxor_assoc. Qed.

Lemma bcc_of_u8 l : bytes l -> is_u8 (bcc_of l).
Proof. induction 1; simpl; auto with cwp. Qed.

Lemma u8_add_l a b : u8 (u8 a + b) = u8 (a + b).
Proof. unfold u8. apply Z.add_mod_idemp_l. lia. Qed.

Lemma cs_loop_sum buf n p r :
  (p + n <= length buf)%nat ->
  cs_loop buf n p (u8 r) = Done (u8 (r + sum_of (take n (drop p buf)))).
Proof.
  revert p r. induction n as [|n IH]; intros p r Hn; simpl.
  - by rewrite Z.add_0_r.
  - destruct (lookup_lt_is_Some_2 buf p) as [b Hb]; [lia|].
    unfold rd8. rewrite Hb. simpl. rewrite u8_add_l, IH by lia.
    rewrite (drop_S _ _ _ Hb). simpl. do 2 f_equal. lia.
Qed.

Lemma cs_eval buf n :
  (n <= 255)%nat -> (n <= length buf)%nat ->
  cs buf (Z.of_nat n) = Done (u8 (sum_of (take n buf))).
Proof.
  intros Hn Hl. unfold cs. rewrite u8_small by (unfold is_u8; lia).
  rewrite Nat2Z.id. change 0 with (u8 0) at 1. rewrite cs_loop_sum by lia.
  by rewrite drop_0, Z.add_0_l.
Qed.

Lemma BCC8_loop_xor buf n p r :
  bytes buf -> is_u8 r -> (p + n <= length buf)%nat ->
  BCC8_loop buf n p r = Done (Z.lxor r (bcc_of (take n (drop p buf)))).
Proof.
  intros Hb. revert p r. induction n as [|n IH]; intros p r Hr Hn; simpl.
  - by rewrite Z.lxor_0_r.
  - destruct (lookup_lt_is_Some_2 buf p) as [b Hp]; [lia|].
    assert (is_u8 b) by (by eapply bytes_lookup).
    unfold rd8. rewrite Hp. simpl. rewrite u8_small by auto with cwp.
    rewrite IH by (auto with cwp || lia). rewrite (drop_S _ _ _ Hp). simpl.
    by rewrite Z.lxor_assoc.
Qed.

Lemma BCC8_eval buf n :
  bytes buf -> (n <= 255)%nat -> (n <= length buf)%nat ->
  BCC8 buf (Z.of_nat n) = Done (bcc_of (take n buf)).
Proof.
  intros Hb Hn Hl. unfold BCC8. rewrite u8_small by (unfold is_u8; lia).
  rewrite Nat2Z.id, BCC8_loop_xor by (done || lia). by rewrite drop_0, Z.lxor_0_l.
Qed.

(** ** Properties *)

(** C39: The table-driven [crc16] computes the CRC of the Modbus specification
    (polynomial 0xA001 reflected, initial value 0xFFFF), bit by bit, with its
    two bytes exchanged: the high byte of the result is the one sent first. *)
Theorem crc16_is_modbus buf n :
  bytes buf -> (n <= length buf)%nat ->
  crc16 buf (Z.of_nat n) = Done (swap16 (modbus_crc (take n buf))).
Proof.
  intros Hb Hn. rewrite crc16_eval by done. by rewrite crc_of_modbus by (by apply bytes_take).
Qed.

Definition read_req : list Z := [1; 3; 0; 0; 0; 1].

Lemma crc16_is_modbus_witness :
  bytes read_req /\ crc16 read_req 6 = Done (swap16 (modbus_crc read_req)) /\
  crc16 read_req 6 = Done 0x840A.
Proof.
  assert (bytes read_req) as H by (by repeat constructor).
  split; [exact H|]. split; [exact (crc16_is_modbus read_req 6 H (le_n _))|reflexivity].
Defined.

(** A receiver that runs [crc16] over a whole frame gets 0 exactly when the
    last two bytes are the CRC of the bytes before them, high byte first. *)
Theorem crc16_residue t h l :
  bytes t -> is_u8 h -> is_u8 l ->
  crc16 (t ++ [h; l]) (Z.of_nat (length t + 2)) = Done 0 <->
  crc16 (t ++ [h; l]) (Z.of_nat (length t)) = Done (h * 256 + l).
Proof.
  intros Ht Hh Hl.
  assert (bytes (t ++ [h; l])) as Hb
    by (apply Forall_app; split; [done|]; apply Forall_cons; split; [done|by apply Forall_singleton]).
  rewrite !crc16_eval by (done || rewrite length_app; simpl; lia).
  rewrite take_ge by (rewrite length_app; simpl; lia). rewrite take_app_length.
  pose proof (crc_of_own_iff t h l Ht Hh Hl) as H.
  split; intros [= E]; f_equal; by apply H.
Qed.

Lemma crc16_residue_witness :
  bytes read_req /\
  (crc16 (read_req ++ [0x84; 0x0A]) 8 = Done 0 <->
   crc16 (read_req ++ [0x84; 0x0A]) 6 = Done (0x84 * 256 + 0x0A)) /\
  crc16 (read_req ++ [0x84; 0x0A]) 8 = Done 0.
Proof.
  assert (bytes read_req) as H by (by repeat constructor).
  split; [exact H|]. split; [|reflexivity].
  refine (crc16_residue read_req 0x84 0x0A H _ _); split; reflexivity || discriminate.
Defined.

(** [crc16] detects every error confined to two neighbouring bytes: two
    buffers that agree outside them and have the same CRC are equal. *)
Theorem crc16_detects_bursts l r a b a' b' n :
  bytes (l ++ [a; b] ++ r) -> bytes (l ++ [a'; b'] ++ r) ->
  n = Z.of_nat (length (l ++ [a; b] ++ r)) ->
  crc16 (l ++ [a; b] ++ r) n = crc16 (l ++ [a'; b'] ++ r) n -> a = a' /\ b = b'.
Proof.
  intros Hb Hb' -> E.
  rewrite !crc16_eval in E by (done || rewrite !length_app; simpl; lia).
  rewrite !take_ge in E by (rewrite !length_app; simpl; lia). injection E as E.
  apply crc_of_inj in E; [|done..].
  apply Forall_app in Hb as [Hl Hb]. apply Forall_app in Hb as [Hab Hr].
  apply Forall_app in Hb' as [_ Hb']. apply Forall_app in Hb' as [Hab' _].
  inversion_clear Hab as [|? ? Ha Hb1]. inversion_clear Hb1 as [|? ? Hb _].
  inversion_clear Hab' as [|? ? Ha' Hb1]. inversion_clear Hb1 as [|? ? Hb' _].
  rewrite !crc_fold_app in E.
  destruct (crc_fold_state l (0xFF, 0xFF)) as [Hh Hlo]; [done|done|].
  set (c := crc_fold l _) in *.
  assert (crc_state c) as Hc by done.
  apply (crc_fold_inj r (crc_upd (crc_upd c a) b) (crc_upd (crc_upd c a') b')) in E;
    [|done|by repeat apply crc_upd_state..].
  apply crc_upd_inj in E as [E2 E1]; try done; try by repeat apply crc_upd_state.
  cbn in E1, E2. apply table_inj in E2; auto with cwp.
  apply lxor_inj_l in E2 as ->. split; [done|]. by apply lxor_inj_l in E1.
Qed.

Lemma crc16_detects_bursts_witness :
  crc16 [1; 3; 0; 1] 4 = crc16 [1; 3; 0; 1] 4 /\ 3 = 3 /\ 0 = 0.
Proof.
  split; [reflexivity|].
  assert (bytes ([1] ++ [3; 0] ++ [1])) as H by (by repeat constructor).
  exact (crc16_detects_bursts [1] [1] 3 0 3 0 4 H H eq_refl eq_refl).
Defined.

(** [cs] is the sum of the bytes modulo 256 and [BCC8] their exclusive or,
    for any size up to 255; a longer size would be truncated. *)
Theorem checksums_eval buf n :
  bytes buf -> (n <= 255)%nat -> (n <= length buf)%nat ->
  cs buf (Z.of_nat n) = Done (u8 (sum_of (take n buf))) /\
  BCC8 buf (Z.of_nat n) = Done (bcc_of (take n buf)) /\
  cs buf (Z.of_nat (n + 256)) = cs buf (Z.of_nat n).
Proof.
  intros Hb Hn Hl. split; [by apply cs_eval|]. split; [by apply BCC8_eval|].
  unfold cs. do 2 f_equal. unfold u8. rewrite Nat2Z.inj_add.
  change (Z.of_nat 256) with (1 * 2 ^ 8). by rewrite Z_mod_plus_full.
Qed.

Lemma checksums_eval_witness :
  bytes [0x55; 0xAA; 2] /\ cs [0x55; 0xAA; 2] 3 = Done 1 /\ BCC8 [0x55; 0xAA; 2] 3 = Done 0xFD.
Proof.
  assert (bytes [0x55; 0xAA; 2]) as H by (by repeat constructor).
  destruct (checksums_eval [0x55; 0xAA; 2] 3 H) as (H1 & H2 & _); [lia|simpl; lia|].
  split; [exact H|]. split; [exact H1|exact H2].
Defined.
