(* ===== verification/Device.v ===== *)
(** Data shared by the device plugins and the gateway (source/point.h,
    source/device.h, source/misc_dev_plugins.h, source/common.h).

    A C enumeration is its numbers: the code stores them in integers, compares
    them with integers and, in several plugins, writes numbers no enumerator
    has. *)

From S2P Require Import Prelude CMem.

(** ** PointFeature_u *)

Definition FEATURE_UNKNOWN : Z := 0.
Definition FEATURE_SCENE : Z := 1.
Definition FREATURE_FAULT : Z := 2.
Definition FEATURE_POS : Z := 3.
Definition FEATURE_MODE : Z := 4.
Definition PANEL_SWITCH : Z := 100.
Definition PANEL_SWITCH_STATUS : Z := 101.
Definition DIMMING_BRIGHTNESS : Z := 102.
Definition DIMMING_BRIGHTNESS_STATUS : Z := 103.
Definition ACD_SWITCH : Z := 200.
Definition ACD_SWITCH_STATUS : Z := 201.
Definition ACD_TEMP : Z := 202.
Definition ACD_TEMP_STATUS : Z := 203.
Definition ACD_MODE : Z := 204.
Definition ACD_MODE_STATUS : Z := 205.
Definition ACD_SPEED : Z := 206.
Definition ACD_SPEED_STATUS : Z := 207.
Definition ACD_WIND_DIR : Z := 208.
Definition ACD_WIND_DIR_STATUS : Z := 209.
Definition ACD_MODE_OUTDOOR : Z := 210.
Definition ACD_MODE_OUTDOOR_STATUS : Z := 211.
Definition ACD_ENV_TEMP : Z := 212.
Definition ACD_ERROR_CODE : Z := 213.
Definition HEAT_SWITCH : Z := 300.
Definition HEAT_SWITCH_STATUS : Z := 301.
Definition HEAT_TEMP : Z := 302.
Definition HEAT_TEMP_STATUS : Z := 303.
Definition HEAT_ENV_TEMP : Z := 304.
Definition HEAT_VALVE_STATUS : Z := 305.
Definition HEAT_ERROR_CODE : Z := 306.
Definition VENT_SWITCH : Z := 400.
Definition VENT_SWITCH_STATUS : Z := 401.
Definition VENT_SPEED : Z := 402.
Definition VENT_SPEED_STATUS : Z := 403.
Definition VENT_WIND_DIR : Z := 404.
Definition VENT_WIND_DIR_STATUS : Z := 405.
Definition VENT_MODE : Z := 406.
Definition VENT_MODE_STATUS : Z := 407.
Definition VENT_VALVE : Z := 408.
Definition VENT_VALVE_STATUS : Z := 409.
Definition VENT_HUMI : Z := 410.
Definition VENT_HUMI_STATUS : Z := 411.
Definition VENT_ENV_TEMP : Z := 412.
Definition VENT_ENV_HUMI : Z := 413.
Definition VENT_ERROR_CODE : Z := 414.
Definition CURTAIN_SWITCH : Z := 500.
Definition CURTAIN_SWITCH_STATUS : Z := 501.
Definition CURTAIN_OPEN_CLOSE : Z := 502.
Definition CURTAIN_OPEN : Z := 503.
Definition CURTAIN_CLOSE : Z := 504.
Definition CURTAIN_STOP_CONTINUOUS : Z := 505.
Definition CURTAIN_STOP : Z := 506.
Definition CURTAIN_CONTINUOUS : Z := 507.
Definition CURTAIN_PERCENT : Z := 508.
Definition CURTAIN_DIRECTION : Z := 509.
Definition AQI_TEMP : Z := 600.
Definition AQI_HUMI : Z := 601.
Definition AQI_PM25 : Z := 602.
Definition AQI_CO2 : Z := 603.
Definition HUMIDIFIER_SWITCH : Z := 700.
Definition HUMIDIFIER_HUMIDITY_SET : Z := 701.
Definition PURIFIER_SWITCH : Z := 800.
Definition PURIFIER_FLOW : Z := 801.
Definition PURIFIER_TDS : Z := 802.
Definition PURIFIER_PP_FILTER_TIME : Z := 803.
Definition PURIFIER_RESET : Z := 804.

(** The enumerators, in the order of the header. *)
Definition PointFeature_u : list Z :=
  [FEATURE_UNKNOWN; FEATURE_SCENE; FREATURE_FAULT; FEATURE_POS;
   FEATURE_MODE; PANEL_SWITCH; PANEL_SWITCH_STATUS; DIMMING_BRIGHTNESS;
   DIMMING_BRIGHTNESS_STATUS; ACD_SWITCH; ACD_SWITCH_STATUS; ACD_TEMP;
   ACD_TEMP_STATUS; ACD_MODE; ACD_MODE_STATUS; ACD_SPEED;
   ACD_SPEED_STATUS; ACD_WIND_DIR; ACD_WIND_DIR_STATUS; ACD_MODE_OUTDOOR;
   ACD_MODE_OUTDOOR_STATUS; ACD_ENV_TEMP; ACD_ERROR_CODE; HEAT_SWITCH;
   HEAT_SWITCH_STATUS; HEAT_TEMP; HEAT_TEMP_STATUS; HEAT_ENV_TEMP;
   HEAT_VALVE_STATUS; HEAT_ERROR_CODE; VENT_SWITCH; VENT_SWITCH_STATUS;
   VENT_SPEED; VENT_SPEED_STATUS; VENT_WIND_DIR; VENT_WIND_DIR_STATUS;
   VENT_MODE; VENT_MODE_STATUS; VENT_VALVE; VENT_VALVE_STATUS;
   VENT_HUMI; VENT_HUMI_STATUS; VENT_ENV_TEMP; VENT_ENV_HUMI;
   VENT_ERROR_CODE; CURTAIN_SWITCH; CURTAIN_SWITCH_STATUS; CURTAIN_OPEN_CLOSE;
   CURTAIN_OPEN; CURTAIN_CLOSE; CURTAIN_STOP_CONTINUOUS; CURTAIN_STOP;
   CURTAIN_CONTINUOUS; CURTAIN_PERCENT; CURTAIN_DIRECTION; AQI_TEMP;
   AQI_HUMI; AQI_PM25; AQI_CO2; HUMIDIFIER_SWITCH;
   HUMIDIFIER_HUMIDITY_SET; PURIFIER_SWITCH; PURIFIER_FLOW; PURIFIER_TDS;
   PURIFIER_PP_FILTER_TIME; PURIFIER_RESET].

(** ** DeviceType_u: the types the Modbus and KNX monitors branch on *)

Definition MODBUS_PANEL_ONE_KEY : Z := 16.
Definition MODBUS_PANEL_TWO_KEY : Z := 17.
Definition MODBUS_PANEL_THREE_KEY : Z := 18.
Definition MODBUS_PANEL_FOUR_KEY : Z := 19.
Definition MODBUS_PANEL_FIVE_KEY : Z := 20.
Definition MODBUS_PANEL_SIX_KEY : Z := 21.
Definition MODBUS_PANEL_SEVEN_KEY : Z := 22.
Definition MODBUS_PANEL_EIGHT_KEY : Z := 23.
Definition KNX_DEVICE_AIRCONDITION : Z := 27.
Definition KNX_DEVICE_VENTILATION : Z := 28.
Definition KNX_DEVICE_FLOORHEATING : Z := 29.
Definition KNX_DEVICE_CURTAIN : Z := 30.
Definition MODBUS_DEVICE_AIRCONDITION : Z := 31.
Definition MODBUS_DEVICE_VENTILATION : Z := 32.
Definition MODBUS_DEVICE_FLOORHEATING : Z := 33.
Definition MODBUS_DEVICE_CURTAIN : Z := 34.
Definition MODBUS_DEVICE_AQI : Z := 35.
Definition MODBUS_DEVICE_PANNEL : Z := 36.
Definition MODBUS_DEVICE_HUMIDIFIER : Z := 37.
Definition MODBUS_DEVICE_PURIFIER : Z := 38.

(** ** ModbusDataType_e *)

Definition PROP_BOOL : Z := 0.
Definition PROP_VALUE : Z := 1.
Definition PROP_STR : Z := 2.
Definition PROP_ENUM : Z := 3.
Definition PROP_BITMAP : Z := 4.

(** ** Data points from the cloud

    [ty_obj_dp_value_u] is a union of 32-bit members and a [bool]; [dpvalue] is
    its 32-bit pattern on the little-endian target, so [dp_bool] is the low
    byte. *)

Record ty_obj_dp_s := Dp { dpid : Z; dptype : Z; dpvalue : Z; time_stamp : Z }.

Definition dp_value (o : ty_obj_dp_s) : Z := i32 (dpvalue o).
Definition dp_enum (o : ty_obj_dp_s) : Z := u32 (dpvalue o).
Definition dp_bool (o : ty_obj_dp_s) : bool := negb (u8 (dpvalue o) =? 0).

(** ** Messages for the serial line

    [pBuf] is the block [calloc] returned (its length is the size asked for),
    [len] the length the sender will use. *)

Record Msg_t := Msg { key : Z; pBuf : option (list Z); len : Z; timestamp : Z }.

(** ** Objects reported by a plugin *)

Record MbusObj_t := MbusObj {
  pPrimaryKey : option string;
  ePrimaryType : Z;
  localPoint : Z;
  type : Z;
  rcvValue : Z;
  sndValue : Z;
  value : Z;
  valueOld : Z;
  forceSync : Z;
  cloudPoint : Z;
  flag : Z
}.

(** A block [calloc] has just returned. *)
Definition MbusObj0 : MbusObj_t := MbusObj None 0 0 0 0 0 0 0 0 0 0.

(** Assignments to the fields the code writes; [value] and the like are
    [uint32_t]. *)
Definition set_pPrimaryKey v o :=
  MbusObj v (ePrimaryType o) (localPoint o) (type o) (rcvValue o) (sndValue o)
    (value o) (valueOld o) (forceSync o) (cloudPoint o) (flag o).
Definition set_ePrimaryType v o :=
  MbusObj (pPrimaryKey o) v (localPoint o) (type o) (rcvValue o) (sndValue o)
    (value o) (valueOld o) (forceSync o) (cloudPoint o) (flag o).
Definition set_localPoint v o :=
  MbusObj (pPrimaryKey o) (ePrimaryType o) v (type o) (rcvValue o) (sndValue o)
    (value o) (valueOld o) (forceSync o) (cloudPoint o) (flag o).
Definition set_type v o :=
  MbusObj (pPrimaryKey o) (ePrimaryType o) (localPoint o) v (rcvValue o) (sndValue o)
    (value o) (valueOld o) (forceSync o) (cloudPoint o) (flag o).
Definition set_rcvValue v o :=
  MbusObj (pPrimaryKey o) (ePrimaryType o) (localPoint o) (type o) (u32 v) (sndValue o)
    (value o) (valueOld o) (forceSync o) (cloudPoint o) (flag o).
Definition set_sndValue v o :=
  MbusObj (pPrimaryKey o) (ePrimaryType o) (localPoint o) (type o) (rcvValue o) (u32 v)
    (value o) (valueOld o) (forceSync o) (cloudPoint o) (flag o).
Definition set_value v o :=
  MbusObj (pPrimaryKey o) (ePrimaryType o) (localPoint o) (type o) (rcvValue o) (sndValue o)
    (u32 v) (valueOld o) (forceSync o) (cloudPoint o) (flag o).
Definition set_valueOld v o :=
  MbusObj (pPrimaryKey o) (ePrimaryType o) (localPoint o) (type o) (rcvValue o) (sndValue o)
    (value o) (u32 v) (forceSync o) (cloudPoint o) (flag o).
Definition set_forceSync v o :=
  MbusObj (pPrimaryKey o) (ePrimaryType o) (localPoint o) (type o) (rcvValue o) (sndValue o)
    (value o) (valueOld o) v (cloudPoint o) (flag o).
Definition set_cloudPoint v o :=
  MbusObj (pPrimaryKey o) (ePrimaryType o) (localPoint o) (type o) (rcvValue o) (sndValue o)
    (value o) (valueOld o) (forceSync o) v (flag o).

(** [o->localPoint = lp; o->value = v] on a fresh object. *)
Definition reported (lp v : Z) : MbusObj_t := set_value v (set_localPoint lp MbusObj0).
