(* ===== verification/Queue.v ===== *)
(** The message queue (source/queue.c, source/queue_internal.c).

    The queue is modelled at the level of its pointers: [cells] are the live
    [queue_element_t] blocks, so that a load through a pointer to a freed block
    is [Undef].  The functions on the locked queue are [C qst] computations; a
    caller that would sleep on a condition variable gets [None] and runs the
    same function again when it is woken, which is what the [while] around
    [pthread_cond_wait] does.  The last part lets any number of threads take
    such turns. *)

From S2P Require Import Prelude CMem.
From stdpp Require Import gmap fin_maps.
From Stdlib Require Import Sorted.

Open Scope Z_scope.

Definition Q_OK : Z := 0.
Definition Q_ERR_INVALID : Z := -1.
Definition Q_ERR_LOCK : Z := -2.
Definition Q_ERR_MEM : Z := -3.
Definition Q_ERR_NONEWDATA : Z := -4.
Definition Q_ERR_INVALID_ELEMENT : Z := -5.
Definition Q_ERR_INVALID_CB : Z := -6.
Definition Q_ERR_NUM_ELEMENTS : Z := -7.
Definition UINTX_MAX : Z := 65535.

(** [data] is the value of a [void *]; 0 is the null pointer. *)
Record queue_element_t := El { data : Z; next : option nat }.

Record queue_t := Queue {
  first_el : option nat;
  last_el : option nat;
  num_els : Z;
  max_els : Z;
  new_data : Z;
  sort : Z;
  asc_order : Z;
  cmp_el : option (Z -> Z -> Z)
}.

Definition set_ends f l n (q : queue_t) : queue_t :=
  Queue f l n (max_els q) (new_data q) (sort q) (asc_order q) (cmp_el q).
Definition set_new_data v (q : queue_t) : queue_t :=
  Queue (first_el q) (last_el q) (num_els q) (max_els q) v (sort q) (asc_order q) (cmp_el q).

(** [mallocs] is the oracle of the element allocations, [released] the data
    handed to [free] or to the caller's function by a flush. *)
Record qst := QSt {
  cells : gmap nat queue_element_t;
  mallocs : list bool;
  released : list Z;
  queue : queue_t
}.

(** ** Memory *)

Definition getq : C qst queue_t := fun s => Done (queue s, s).
Definition putq (q : queue_t) : C qst unit := fun s =>
  Done (tt, QSt (cells s) (mallocs s) (released s) q).
Definition load (p : nat) : C qst queue_element_t := fun s =>
  match cells s !! p with Some e => Done (e, s) | None => Undef end.
Definition store (p : nat) (e : queue_element_t) : C qst unit := fun s =>
  match cells s !! p with
  | Some _ => Done (tt, QSt (<[p := e]> (cells s)) (mallocs s) (released s) (queue s))
  | None => Undef
  end.
Definition malloc_el (e : queue_element_t) : C qst (option nat) := fun s =>
  match mallocs s with
  | false :: l => Done (None, QSt (cells s) l (released s) (queue s))
  | ml => let p := fresh (dom (cells s)) in
      Done (Some p, QSt (<[p := e]> (cells s)) (tail ml) (released s) (queue s))
  end.
Definition free_el (p : nat) : C qst unit := fun s =>
  match cells s !! p with
  | Some _ => Done (tt, QSt (delete p (cells s)) (mallocs s) (released s) (queue s))
  | None => Undef
  end.
Definition release (d : Z) : C qst unit := fun s =>
  Done (tt, QSt (cells s) (mallocs s) (released s ++ [d]) (queue s)).
(** The number of live elements, which bounds every walk of the list. *)
Definition fuel : C qst nat := fun s => Done (S (size (cells s)), s).

(** A call through the comparison pointer of the queue. *)
Definition call_cmp (q : queue_t) (a b : Z) : C qst Z :=
  match cmp_el q with Some f => mret (f a b) | None => undef end.

(** ** queue_put_internal *)

Definition full (q : queue_t) : bool :=
  (num_els q =? UINTX_MAX - 1) || (negb (max_els q =? 0) && (num_els q =? max_els q)).

(** The [for] that looks for the neighbours of a sorted element; [None] is the
    null [t]. *)
Fixpoint sort_walk (q : queue_t) (el : Z) (n : nat) (s : nat) (t : option nat)
    : C qst (nat * option nat) :=
  match n with
  | O => undef
  | S n =>
      match t with
      | None => mret (s, None)
      | Some t' =>
          es ← load s;
          et ← load t';
          brk ← (
            if negb (asc_order q =? 0) then
              c1 ← call_cmp q (data es) el;
              if c1 <=? 0 then c2 ← call_cmp q el (data et); mret (c2 <=? 0) else mret false
            else
              c1 ← call_cmp q (data es) el;
              if 0 <=? c1 then c2 ← call_cmp q el (data et); mret (0 <=? c2) else mret false);
          if (brk : bool) then mret (s, t) else sort_walk q el n t' (next et)
      end
  end.

(** [asc_first_el || desc_first_el] *)
Definition goes_first (q : queue_t) (s : nat) (el : Z) : C qst bool :=
  es ← load s;
  c ← call_cmp q (data es) el;
  mret (if negb (asc_order q =? 0) then 0 <=? c else c <=? 0).

Definition link_end (q : queue_t) (new_el : nat) : C qst queue_t :=
  match last_el q with
  | None => mret (set_ends (Some new_el) (Some new_el) (num_els q) q)
  | Some l =>
      e ← load l;
      _ ← store l (El (data e) (Some new_el));
      mret (set_ends (first_el q) (Some new_el) (num_els q) q)
  end.

(** [s] is the first element. *)
Definition link_sorted (q : queue_t) (new_el s : nat) (el : Z) : C qst queue_t :=
  fst_ ← goes_first q s el;
  if (fst_ : bool) then
    _ ← store new_el (El el (Some s));
    mret (set_ends (Some new_el) (last_el q) (num_els q) q)
  else
    es ← load s;
    n ← fuel;
    st ← sort_walk q el n s (next es);
    es ← load st.1;
    _ ← store st.1 (El (data es) (Some new_el));
    _ ← store new_el (El el st.2);
    mret (set_ends (first_el q) (match st.2 with None => Some new_el | _ => last_el q end)
            (num_els q) q).

(** Links the new element in; the result is the queue with its new ends. *)
Definition link (q : queue_t) (new_el : nat) (el : Z) : C qst queue_t :=
  match first_el q with
  | None => link_end q new_el
  | Some s =>
      if sort q =? 0 then link_end q new_el else link_sorted q new_el s el
  end.

Definition queue_put_internal (wait : bool) (el : Z) : C qst (option Z) :=
  q ← getq;
  if new_data q =? 0 then mret (Some Q_ERR_NONEWDATA) else
  if full q then mret (if wait then None else Some Q_ERR_NUM_ELEMENTS) else
  new_el ← malloc_el (El el None);
  match new_el with
  | None => mret (Some Q_ERR_MEM)
  | Some new_el =>
      q' ← link q new_el el;
      _ ← putq (set_ends (first_el q') (last_el q') (u16 (num_els q' + 1)) q');
      mret (Some Q_OK)
  end.

(** ** queue_get_internal *)

(** [while (cmp != NULL && el != NULL && 0 != cmp(el, cmpel))]: the callback
    gets the element, not its data. *)
Fixpoint find_walk (cmp : queue_element_t -> Z -> Z) (cmpel : Z) (n : nat)
    (prev el : option nat) : C qst (option nat * option nat) :=
  match n with
  | O => undef
  | S n =>
      match el with
      | None => mret (prev, None)
      | Some p =>
          e ← load p;
          if cmp e cmpel =? 0 then mret (prev, Some p)
          else find_walk cmp cmpel n (Some p) (next e)
      end
  end.

(** The result is the return code and the value stored through [e]. *)
Definition queue_get_internal (wait : bool) (cmp : option (queue_element_t -> Z -> Z))
    (cmpel : Z) : C qst (option (Z * Z)) :=
  q ← getq;
  if (num_els q =? 0) && negb wait then mret (Some (Q_ERR_NUM_ELEMENTS, 0)) else
  if num_els q =? 0 then
    mret (if new_data q =? 0 then Some (Q_ERR_NONEWDATA, 0) else None)
  else
  pe ← (match cmp with
        | None => mret (None, first_el q)
        | Some f => n ← fuel; find_walk f cmpel n None (first_el q)
        end);
  match pe.2, pe.1 with
  | Some el, None =>
      e ← load el;
      _ ← putq (set_ends (next e) (match next e with None => None | _ => last_el q end)
                  (u16 (num_els q - 1)) q);
      _ ← free_el el;
      mret (Some (Q_OK, data e))
  | Some el, Some prev =>
      e ← load el;
      ep ← load prev;
      _ ← store prev (El (data ep) (next e));
      _ ← putq (set_ends (first_el q) (last_el q) (u16 (num_els q - 1)) q);
      _ ← free_el el;
      mret (Some (Q_OK, data e))
  | None, _ => mret (Some (Q_ERR_INVALID_ELEMENT, 0))
  end.

(** ** queue_flush_internal *)

Fixpoint flush_walk (fd : bool) (n : nat) (qe : option nat) : C qst unit :=
  match n with
  | O => undef
  | S n =>
      match qe with
      | None => mret tt
      | Some p =>
          e ← load p;
          _ ← (if fd then release (data e) else mret tt);
          _ ← free_el p;
          flush_walk fd n (next e)
      end
  end.

Definition queue_flush_internal (fd : bool) : C qst Z :=
  q ← getq;
  n ← fuel;
  _ ← flush_walk fd n (first_el q);
  _ ← putq (set_ends None None 0 q);
  mret Q_OK.

(** ** The functions of queue.c

    Each of them takes the lock, runs one function above and releases the lock;
    the calls of [pthread] are taken to succeed. *)

Definition queue_put (el : Z) : C qst (option Z) := queue_put_internal false el.
Definition queue_put_wait (el : Z) : C qst (option Z) := queue_put_internal true el.
Definition queue_get : C qst (option (Z * Z)) := queue_get_internal false None 0.
Definition queue_get_wait : C qst (option (Z * Z)) := queue_get_internal true None 0.
Definition queue_get_filtered (cmp : queue_element_t -> Z -> Z) (cmpel : Z)
    : C qst (option (Z * Z)) := queue_get_internal false (Some cmp) cmpel.
Definition queue_flush : C qst Z := queue_flush_internal false.
Definition queue_flush_complete : C qst Z := queue_flush_internal true.
Definition queue_elements : C qst Z := q ← getq; mret (num_els q).
Definition queue_empty : C qst Z :=
  q ← getq;
  mret (match first_el q, last_el q with Some _, Some _ => 0 | _, _ => 1 end).
Definition queue_set_new_data (v : Z) : C qst Z :=
  q ← getq; _ ← putq (set_new_data (u8 v) q); mret Q_OK.
Definition queue_flush_put (e : Z) : C qst (option Z) :=
  _ ← queue_flush_internal false; queue_put_internal false e.
Definition queue_flush_complete_put (e : Z) : C qst (option Z) :=
  _ ← queue_flush_internal true; queue_put_internal false e.

(** [queue_create] and the variants built on it; the four blocks are the queue,
    its mutex and its two condition variables. *)
Definition queue_create : C (env unit) (option queue_t) :=
  ok ← calloc; if negb ok then mret None else
  ok ← calloc; if negb ok then _ ← free; mret None else
  ok ← calloc; if negb ok then _ ← free; _ ← free; mret None else
  ok ← calloc; if negb ok then _ ← free; _ ← free; _ ← free; mret None else
  mret (Some (Queue None None 0 0 1 0 1 None)).

Definition with_max (m : Z) (q : queue_t) : queue_t :=
  Queue (first_el q) (last_el q) (num_els q) m (new_data q) (sort q) (asc_order q) (cmp_el q).
Definition with_sort (a : Z) (cmp : option (Z -> Z -> Z)) (q : queue_t) : queue_t :=
  Queue (first_el q) (last_el q) (num_els q) (max_els q) (new_data q) 1 a cmp.

Definition queue_create_limited (max_elements : Z) : C (env unit) (option queue_t) :=
  q ← queue_create; mret (with_max max_elements <$> q).
Definition queue_create_sorted (asc : Z) (cmp : option (Z -> Z -> Z)) : C (env unit) (option queue_t) :=
  match cmp with
  | None => mret None
  | Some _ => q ← queue_create; mret (with_sort asc cmp <$> q)
  end.
Definition queue_create_limited_sorted (max_elements asc : Z) (cmp : option (Z -> Z -> Z))
    : C (env unit) (option queue_t) :=
  match cmp with
  | None => mret None
  | Some _ => q ← queue_create; mret ((fun q => with_sort asc cmp (with_max max_elements q)) <$> q)
  end.

(** ** Representation

    [chain ds r] is the heap of the list whose elements are at the addresses and
    with the data of [ds], the last one linked to [r]. *)

Definition hd_ptr (ds : list (nat * Z)) (r : option nat) : option nat :=
  match ds with (k, _) :: _ => Some k | [] => r end.

Fixpoint chain (ds : list (nat * Z)) (r : option nat) : gmap nat queue_element_t :=
  match ds with
  | [] => ∅
  | (k, d) :: ds => <[k := El d (hd_ptr ds r)]> (chain ds r)
  end.

(** The queue holds exactly the elements [ds]: there is no other live block. *)
Record rep (s : qst) (ds : list (nat * Z)) : Prop := {
  rep_cells : cells s = chain ds None;
  rep_nodup : NoDup ds.*1;
  rep_first : first_el (queue s) = hd_ptr ds None;
  rep_last : last_el (queue s) = last ds.*1;
  rep_num : num_els (queue s) = Z.of_nat (length ds);
  rep_bound : Z.of_nat (length ds) <= 65534
}.

(** The data in the queue, first to last. *)
Definition contents (s : qst) (l : list Z) : Prop := exists ds, rep s ds /\ ds.*2 = l.

Definition empty_qst (ml : list bool) (q : queue_t) : qst := QSt ∅ ml [] (set_ends None None 0 q).

Lemma rep_empty ml q : rep (empty_qst ml q) [].
Proof. split; simpl; try done. constructor. Qed.

Lemma chain_app a b r : chain (a ++ b) r = chain a (hd_ptr b r) ∪ chain b r.
Proof.
  induction a as [|[k d] a IH]; simpl; [by rewrite map_empty_union|].
  rewrite IH, insert_union_l. do 2 f_equal. by destruct a as [|[k' d'] a].
Qed.

Lemma dom_chain ds r : dom (chain ds r) = list_to_set ds.*1.
Proof.
  induction ds as [|[k d] ds IH]; simpl; [by rewrite dom_empty_L|].
  by rewrite dom_insert_L, IH.
Qed.

Lemma chain_none ds r k : k ∉ ds.*1 -> chain ds r !! k = None.
Proof. intros Hk. apply not_elem_of_dom. rewrite dom_chain. set_solver. Qed.

Lemma size_chain ds r : NoDup ds.*1 -> size (chain ds r) = length ds.
Proof.
  intros Hd. rewrite <- size_dom, dom_chain, size_list_to_set by done.
  apply length_fmap.
Qed.

Lemma chain_lookup a k d b r :
  NoDup (a ++ (k, d) :: b).*1 ->
  chain (a ++ (k, d) :: b) r !! k = Some (El d (hd_ptr b r)).
Proof.
  intros Hd. rewrite fmap_app, fmap_cons in Hd. apply NoDup_app in Hd as (_ & Hn & _).
  rewrite chain_app, lookup_union_r; [by simpl; rewrite lookup_insert_eq|].
  apply chain_none. intros Hk. apply (Hn k Hk). simpl. set_solver.
Qed.

(** Linking a new cell after [k]: the stores of the code, in their order. *)
Lemma chain_insert_after a k d b new el :
  NoDup (a ++ (k, d) :: b).*1 -> new ∉ (a ++ (k, d) :: b).*1 ->
  <[new := El el (hd_ptr b None)]> (<[k := El d (Some new)]>
     (<[new := El el None]> (chain (a ++ (k, d) :: b) None)))
  = chain (a ++ (k, d) :: (new, el) :: b) None.
Proof.
  intros Hd Hnew. rewrite fmap_app, fmap_cons in Hd, Hnew.
  apply NoDup_app in Hd as (Ha & Hn & Hb).
  assert (k ∉ a.*1) as Hka by (intros Hk; apply (Hn k Hk); set_solver).
  assert (new ∉ a.*1 /\ new <> k /\ new ∉ b.*1) as (Hna & Hnk & Hnb).
  { simpl in Hnew. set_solver. }
  rewrite (insert_insert_ne _ k new) by done.
  rewrite insert_insert_eq. rewrite !chain_app. simpl.
  rewrite insert_union_r by (by apply chain_none). rewrite insert_insert_eq.
  rewrite insert_union_r by (by apply chain_none). f_equal.
  by rewrite (insert_insert_ne _ new k).
Qed.

(** Unlinking the cell after [kp]. *)
Lemma chain_remove a kp dp k d b :
  NoDup (a ++ (kp, dp) :: (k, d) :: b).*1 ->
  delete k (<[kp := El dp (hd_ptr b None)]> (chain (a ++ (kp, dp) :: (k, d) :: b) None))
  = chain (a ++ (kp, dp) :: b) None.
Proof.
  intros Hd. rewrite fmap_app, !fmap_cons in Hd. simpl in Hd.
  apply NoDup_app in Hd as (Ha & Hn & Hb).
  apply NoDup_cons in Hb as [Hkp Hb]. apply NoDup_cons in Hb as [Hk Hb].
  assert (kp ∉ a.*1) by (intros Hi; apply (Hn kp Hi); set_solver).
  assert (k ∉ a.*1) by (intros Hi; apply (Hn k Hi); set_solver).
  assert (k <> kp) by set_solver.
  rewrite !chain_app. simpl.
  rewrite insert_union_r by (by apply chain_none). rewrite insert_insert_eq.
  rewrite delete_union, delete_id by (by apply chain_none).
  rewrite delete_insert_ne by done. rewrite delete_insert_eq.
  by rewrite delete_id by (by apply chain_none).
Qed.

(** ** Rules for the primitives *)

Lemma wp_getq (Q : queue_t -> qst -> Prop) s : Q (queue s) s -> wp getq Q s.
Proof. done. Qed.

Lemma wp_putq q (Q : unit -> qst -> Prop) s :
  Q tt (QSt (cells s) (mallocs s) (released s) q) -> wp (putq q) Q s.
Proof. done. Qed.

Lemma wp_load p e (Q : queue_element_t -> qst -> Prop) s :
  cells s !! p = Some e -> Q e s -> wp (load p) Q s.
Proof. unfold wp, load. by intros ->. Qed.

Lemma wp_store p e e0 (Q : unit -> qst -> Prop) s :
  cells s !! p = Some e0 ->
  Q tt (QSt (<[p := e]> (cells s)) (mallocs s) (released s) (queue s)) -> wp (store p e) Q s.
Proof. unfold wp, store. by intros ->. Qed.

Lemma wp_free_el p e0 (Q : unit -> qst -> Prop) s :
  cells s !! p = Some e0 ->
  Q tt (QSt (delete p (cells s)) (mallocs s) (released s) (queue s)) -> wp (free_el p) Q s.
Proof. unfold wp, free_el. by intros ->. Qed.

Lemma wp_malloc_el e (Q : option nat -> qst -> Prop) s :
  (forall ml, Q None (QSt (cells s) ml (released s) (queue s))) ->
  (forall p ml, p ∉ dom (cells s) ->
     Q (Some p) (QSt (<[p := e]> (cells s)) ml (released s) (queue s))) ->
  wp (malloc_el e) Q s.
Proof.
  intros Hn Hs. unfold wp, malloc_el.
  destruct (mallocs s) as [|[] ml]; [|apply Hs, is_fresh|apply Hn].
  apply Hs, is_fresh.
Qed.

Lemma wp_fuel (Q : nat -> qst -> Prop) s : Q (S (size (cells s))) s -> wp fuel Q s.
Proof. done. Qed.

Lemma wp_call_cmp q f a b (Q : Z -> qst -> Prop) s :
  cmp_el q = Some f -> Q (f a b) s -> wp (call_cmp q a b) Q s.
Proof. unfold call_cmp. by intros ->. Qed.

Lemma wp_load_chain a k d b (Q : queue_element_t -> qst -> Prop) s :
  cells s = chain (a ++ (k, d) :: b) None -> NoDup (a ++ (k, d) :: b).*1 ->
  Q (El d (hd_ptr b None)) s -> wp (load k) Q s.
Proof. intros Hc Hd HQ. eapply wp_load; [|done]. by rewrite Hc, chain_lookup. Qed.

(** ** The specification: a list of data *)

(** [order] is the order of a sorted queue, [cap] the limit (0 for none). *)
Record aqueue := AQ {
  items : list Z;
  accepting : bool;
  cap : Z;
  order : option (Z -> Z -> bool)
}.

Definition a_full (a : aqueue) : bool :=
  let n := Z.of_nat (length (items a)) in
  (n =? UINTX_MAX - 1) || (negb (cap a =? 0) && (n =? cap a)).

Fixpoint ins (le : Z -> Z -> bool) (el : Z) (l : list Z) : list Z :=
  match l with
  | [] => [el]
  | x :: l' => if le el x then el :: l else x :: ins le el l'
  end.

Definition place (a : aqueue) (el : Z) : list Z :=
  match order a with Some le => ins le el (items a) | None => items a ++ [el] end.

Definition with_items l (a : aqueue) : aqueue := AQ l (accepting a) (cap a) (order a).
Definition with_accepting v (a : aqueue) : aqueue := AQ (items a) v (cap a) (order a).

(** [mem] says whether the allocator has room for the element. *)
Definition a_put (mem wait : bool) (el : Z) (a : aqueue) : option Z * aqueue :=
  if negb (accepting a) then (Some Q_ERR_NONEWDATA, a) else
  if a_full a then (if wait then None else Some Q_ERR_NUM_ELEMENTS, a) else
  if mem then (Some Q_OK, with_items (place a el) a) else (Some Q_ERR_MEM, a).

Definition a_get (wait : bool) (a : aqueue) : option (Z * Z) * aqueue :=
  match items a with
  | x :: l => (Some (Q_OK, x), with_items l a)
  | [] => (if negb wait then Some (Q_ERR_NUM_ELEMENTS, 0)
           else if accepting a then None else Some (Q_ERR_NONEWDATA, 0), a)
  end.

(** [le] as the queue's flags and comparison function decide it. *)
Definition leq (asc : Z) (f : Z -> Z -> Z) (x y : Z) : bool :=
  if negb (asc =? 0) then f x y <=? 0 else 0 <=? f x y.

(** What a sorted queue needs of its comparison function. *)
Definition antisym (f : Z -> Z -> Z) : Prop := forall x y, Z.sgn (f y x) = - Z.sgn (f x y).

Definition order_ok (q : queue_t) (o : option (Z -> Z -> bool)) : Prop :=
  match o with
  | None => sort q = 0
  | Some le => sort q <> 0 /\ exists f, cmp_el q = Some f /\ antisym f /\ le = leq (asc_order q) f
  end.

Record refines (s : qst) (a : aqueue) : Prop := {
  ref_items : contents s (items a);
  ref_accepting : accepting a = negb (new_data (queue s) =? 0);
  ref_cap : max_els (queue s) = cap a;
  ref_order : order_ok (queue s) (order a)
}.

Lemma rep_size s ds : rep s ds -> size (cells s) = length ds.
Proof. intros []. by rewrite rep_cells0, size_chain. Qed.

Lemma full_refines s a : refines s a -> full (queue s) = a_full a.
Proof.
  intros [(ds & Hr & Hi) _ Hc _]. unfold full, a_full.
  rewrite (rep_num _ _ Hr), Hc, <- Hi, length_fmap. done.
Qed.

Lemma leq_total asc f x y : antisym f -> leq asc f x y = false -> leq asc f y x = true.
Proof.
  intros Ha. pose proof (Ha x y) as H. unfold leq.
  destruct (negb (asc =? 0)); intros ?; bprop; apply Z.leb_le; lia.
Qed.

(** ** Put *)

Lemma rep_put s s' ds ds' :
  rep s ds -> Z.of_nat (length ds) < 65534 -> length ds' = S (length ds) ->
  cells s' = chain ds' None -> NoDup ds'.*1 ->
  first_el (queue s') = hd_ptr ds' None -> last_el (queue s') = last ds'.*1 ->
  num_els (queue s') = u16 (num_els (queue s) + 1) -> rep s' ds'.
Proof.
  intros Hr Hb Hl Hc Hd Hf Hla Hn. split; [done..| |lia].
  rewrite Hn, (rep_num _ _ Hr), u16_small; lia.
Qed.

Lemma not_full_bound s ds : rep s ds -> full (queue s) = false -> Z.of_nat (length ds) < 65534.
Proof.
  intros Hr Hf. pose proof (rep_bound _ _ Hr). unfold full, UINTX_MAX in Hf. bprop.
  rewrite (rep_num _ _ Hr) in *. lia.
Qed.

Lemma chain_new_last ds new el k d :
  NoDup (ds ++ [(k, d)]).*1 -> new ∉ (ds ++ [(k, d)]).*1 ->
  <[k := El d (Some new)]> (<[new := El el None]> (chain (ds ++ [(k, d)]) None))
  = chain ((ds ++ [(k, d)]) ++ [(new, el)]) None.
Proof.
  intros Hd Hn. rewrite <- app_assoc. simpl.
  rewrite <- (chain_insert_after ds k d [] new el) by done. simpl.
  assert (new <> k) by (intros ->; apply Hn; rewrite fmap_app; set_solver).
  rewrite (insert_insert_ne _ new k) by done. by rewrite insert_insert_eq.
Qed.

(** The walk stops at the place where [ins] puts the element. *)
Lemma wp_sort_walk q f el new b a k d s n (Q : nat * option nat -> qst -> Prop) :
  cmp_el q = Some f -> antisym f ->
  cells s = <[new := El el None]> (chain (a ++ (k, d) :: b) None) ->
  NoDup (a ++ (k, d) :: b).*1 -> new ∉ (a ++ (k, d) :: b).*1 ->
  leq (asc_order q) f el d = false -> (length b < n)%nat ->
  (forall c k' d' b', (k, d) :: b = c ++ (k', d') :: b' ->
     d :: ins (leq (asc_order q) f) el b.*2 = c.*2 ++ d' :: el :: b'.*2 ->
     Q (k', hd_ptr b' None) s) ->
  wp (sort_walk q el n k (hd_ptr b None)) Q s.
Proof.
  intros Hf Ha. revert a k d n Q.
  induction b as [|[kt dt] b IH]; intros a k d n Q Hc Hd Hn Hle Hfuel HQ;
    (destruct n as [|n]; [simpl in Hfuel; lia|]); simpl.
  { apply wp_ret. by apply (HQ [] k d []). }
  assert (forall p e, chain (a ++ (k, d) :: (kt, dt) :: b) None !! p = Some e ->
    cells s !! p = Some e) as Hlk.
  { intros p e Hp. rewrite Hc, lookup_insert_ne; [done|]. intros ->.
    by rewrite chain_none in Hp. }
  apply wp_bind. eapply wp_load; [apply Hlk; by apply chain_lookup|].
  assert (a ++ (k, d) :: (kt, dt) :: b = (a ++ [(k, d)]) ++ (kt, dt) :: b) as Hap
    by (by rewrite <- app_assoc).
  apply wp_bind. eapply wp_load.
  { apply Hlk. rewrite Hap. apply chain_lookup. by rewrite <- Hap. }
  apply wp_bind. simpl.
  assert (wp (if negb (asc_order q =? 0) then
              c1 ← call_cmp q d el;
              if c1 <=? 0 then c2 ← call_cmp q el dt; mret (c2 <=? 0) else mret false
            else
              c1 ← call_cmp q d el;
              if 0 <=? c1 then c2 ← call_cmp q el dt; mret (0 <=? c2) else mret false)
    (fun r s' => r = leq (asc_order q) f el dt /\ s' = s) s) as Hbrk.
  { pose proof (leq_total _ _ _ _ Ha Hle) as Hle'. unfold leq in *.
    destruct (negb (asc_order q =? 0)); apply wp_bind, (wp_call_cmp _ f); try done;
      rewrite Hle'; apply wp_bind, (wp_call_cmp _ f); done. }
  eapply wp_mono; [exact Hbrk|]. intros ? ? [-> ->].
  destruct (leq (asc_order q) f el dt) eqn:Hlt.
  - apply wp_ret. apply (HQ [] k d ((kt, dt) :: b)); [done|]. simpl. by rewrite Hlt.
  - rewrite Hap in Hc, Hd, Hn. simpl in Hfuel.
    apply (IH (a ++ [(k, d)]) kt dt n); try done; [lia|].
    intros c k' d' b' Heq Hins. apply (HQ ((k, d) :: c) k' d' b').
    + by rewrite Heq.
    + simpl. rewrite Hlt. f_equal. exact Hins.
Qed.

Arguments sort_walk : simpl never.

(** Adding at the end. *)
Lemma wp_put_last q el new ml s ds (Q : queue_t -> qst -> Prop) :
  rep s ds -> queue s = q -> new ∉ ds.*1 ->
  (forall ml' q' c', q' = set_ends (hd_ptr (ds ++ [(new, el)]) None) (Some new) (num_els q) q ->
     c' = chain (ds ++ [(new, el)]) None -> Q q' (QSt c' ml' (released s) q)) ->
  wp (link_end q new) Q (QSt (<[new := El el None]> (cells s)) ml (released s) q).
Proof.
  intros [Hc Hd Hf Hl Hn Hb] <- Hnew HQ. unfold link_end. rewrite Hl, Hf, Hc.
  destruct ds as [|[k d] ds] using rev_ind; simpl.
  { by apply wp_ret, HQ. }
  assert (new <> k) by (intros ->; apply Hnew; rewrite fmap_app; set_solver).
  rewrite fmap_app. simpl. rewrite last_snoc.
  assert (<[new := El el None]> (chain (ds ++ [(k, d)]) None) !! k = Some (El d None)) as Hk.
  { rewrite lookup_insert_ne by done. by apply (chain_lookup ds k d []). }
  apply wp_bind. eapply wp_load; [exact Hk|].
  apply wp_bind. eapply wp_store; [exact Hk|]. simpl.
  apply wp_ret. apply HQ.
  - by destruct ds as [|[? ?] ?].
  - by apply chain_new_last.
Qed.

(** Adding to a sorted queue that is not empty. *)
Lemma wp_put_sorted q f el new ml s k d ds (Q : queue_t -> qst -> Prop) :
  rep s ((k, d) :: ds) -> queue s = q -> new ∉ ((k, d) :: ds).*1 ->
  cmp_el q = Some f -> antisym f ->
  (forall ml' q' ds', length ds' = S (S (length ds)) -> NoDup ds'.*1 ->
     ds'.*2 = ins (leq (asc_order q) f) el (d :: ds.*2) ->
     q' = set_ends (hd_ptr ds' None) (last ds'.*1) (num_els q) q ->
     Q q' (QSt (chain ds' None) ml' (released s) q)) ->
  wp (link_sorted q new k el) Q (QSt (<[new := El el None]> (cells s)) ml (released s) q).
Proof.
  intros [Hc Hd Hfi Hl Hn Hb] <- Hnew Hf Ha HQ. unfold link_sorted. rewrite Hc.
  set (cs := <[new := El el None]> (chain ((k, d) :: ds) None)).
  assert (new <> k) by set_solver.
  assert (forall p e, chain ((k, d) :: ds) None !! p = Some e -> cs !! p = Some e) as Hlk.
  { intros p e Hp. unfold cs. rewrite lookup_insert_ne; [done|]. intros ->.
    by rewrite chain_none in Hp. }
  assert (cs !! new = Some (El el None)) as Hcn by apply lookup_insert_eq.
  assert (cs !! k = Some (El d (hd_ptr ds None))) as Hck.
  { apply Hlk. by apply (chain_lookup [] k d ds). }
  apply wp_bind. unfold goes_first.
  apply wp_bind. eapply wp_load; [exact Hck|].
  apply wp_bind. simpl. eapply wp_call_cmp; [exact Hf|]. apply wp_ret.
  assert ((if negb (asc_order (queue s) =? 0) then 0 <=? f d el else f d el <=? 0)
    = leq (asc_order (queue s)) f el d) as ->.
  { unfold leq. pose proof (Ha el d).
    destruct (negb (asc_order (queue s) =? 0)); apply eq_true_iff_eq; rewrite !Z.leb_le; lia. }
  destruct (leq (asc_order (queue s)) f el d) eqn:Hle.
  - apply wp_bind. eapply wp_store; [exact Hcn|]. simpl. apply wp_ret.
    unfold cs. rewrite insert_insert_eq.
    apply (HQ ml _ ((new, el) :: (k, d) :: ds)); simpl.
    + done.
    + by apply NoDup_cons.
    + by rewrite Hle.
    + by rewrite Hl.
  - apply wp_bind. eapply wp_load; [exact Hck|]. apply wp_bind, wp_fuel. apply wp_bind. simpl.
    eapply (wp_sort_walk _ f el new ds [] k d); try done.
    { simpl. unfold cs. rewrite map_size_insert_None by (by apply chain_none).
      rewrite size_chain by done. simpl. lia. }
    intros c k' d' b' Heq Hins. simpl in Heq. rewrite Heq in Hd, Hnew. simpl.
    assert (cs !! k' = Some (El d' (hd_ptr b' None))) as Hk'.
    { apply Hlk. simpl. change (<[k:=_]> (chain ds None)) with (chain ((k, d) :: ds) None).
      rewrite Heq. by apply chain_lookup. }
    assert (new <> k') by (intros ->; apply Hnew; rewrite fmap_app; set_solver).
    apply wp_bind. eapply wp_load; [exact Hk'|].
    apply wp_bind. eapply wp_store; [exact Hk'|].
    apply wp_bind. eapply wp_store.
    { simpl. rewrite lookup_insert_ne by done. exact Hcn. }
    simpl. apply wp_ret. unfold cs. simpl.
    change (<[k:=_]> (chain ds None)) with (chain ((k, d) :: ds) None). rewrite Heq.
    rewrite chain_insert_after by done. apply HQ.
    + apply (f_equal length) in Heq. rewrite length_app in *. simpl in *. lia.
    + rewrite fmap_app, !fmap_cons in *. simpl in *.
      replace (c.*1 ++ k' :: new :: b'.*1) with ((c.*1 ++ [k']) ++ new :: b'.*1)
        by (by rewrite <- app_assoc).
      rewrite <- Permutation_middle, <- app_assoc. by apply NoDup_cons.
    + simpl. rewrite Hle, fmap_app. simpl. done.
    + rewrite Hfi. f_equal.
      * by destruct c as [|[? ?] ?]; simplify_eq/=.
      * rewrite fmap_app, !fmap_cons. simpl. destruct b' as [|[k2 d2] b']; simpl.
        { by rewrite (app_assoc _ [k'] [new]), last_snoc. }
        rewrite Hl, Heq, fmap_app, !fmap_cons. simpl.
        by rewrite !last_app_cons, !last_cons_cons.
Qed.

(** The settings of the queue are those of [a]; only the items may differ. *)
Lemma refines_items s s' a ds l :
  refines s a -> rep s' ds -> ds.*2 = l ->
  new_data (queue s') = new_data (queue s) -> max_els (queue s') = max_els (queue s) ->
  sort (queue s') = sort (queue s) -> asc_order (queue s') = asc_order (queue s) ->
  cmp_el (queue s') = cmp_el (queue s) -> refines s' (with_items l a).
Proof.
  intros [_ Ha Hm Ho] Hr Hl Hn Hx Hs Hasc Hcmp. split; simpl; [by exists ds|congruence..|].
  unfold order_ok in *. by rewrite Hs, Hasc, Hcmp.
Qed.

Lemma refines_queue s s' a :
  refines s a -> cells s' = cells s -> queue s' = queue s -> refines s' a.
Proof.
  intros [(ds & [] & Hi) Ha Hm Ho] Hc Hq. split; rewrite ?Hq; try done.
  exists ds. split; [|done]. split; rewrite ?Hq, ?Hc; done.
Qed.

(** [link] puts the data where [place] does. *)
Lemma wp_link s a ds new ml el (Q : queue_t -> qst -> Prop) :
  refines s a -> rep s ds -> ds.*2 = items a -> new ∉ ds.*1 ->
  (forall ml' ds', length ds' = S (length ds) -> NoDup ds'.*1 -> ds'.*2 = place a el ->
     Q (set_ends (hd_ptr ds' None) (last ds'.*1) (num_els (queue s)) (queue s))
       (QSt (chain ds' None) ml' (released s) (queue s))) ->
  wp (link (queue s) new el) Q (QSt (<[new := El el None]> (cells s)) ml (released s) (queue s)).
Proof.
  intros Hr Hds Hi Hnew HQ.
  assert (NoDup (ds ++ [(new, el)]).*1) as Hnd.
  { rewrite fmap_app. apply NoDup_app. split_and!; [apply Hds| |apply NoDup_singleton].
    intros x Hx ->%list_elem_of_singleton. done. }
  assert (place a el = items a ++ [el] -> forall ml' q' c',
    q' = set_ends (hd_ptr (ds ++ [(new, el)]) None) (Some new) (num_els (queue s)) (queue s) ->
    c' = chain (ds ++ [(new, el)]) None -> Q q' (QSt c' ml' (released s) (queue s))) as Hend.
  { intros Hp ml' q' c' -> ->. specialize (HQ ml' (ds ++ [(new, el)])).
    rewrite length_app, !fmap_app, Hp, Hi in HQ. simpl in HQ. rewrite last_snoc in HQ.
    apply HQ; [lia| |done]. by rewrite fmap_app in Hnd. }
  pose proof (ref_order _ _ Hr) as Ho. unfold place in HQ, Hend. unfold link.
  destruct (order a) as [le|]; simpl in Ho.
  - destruct Ho as (Hso%Z.eqb_neq & f & Hf & Haf & ->). rewrite Hso.
    destruct ds as [|[k d] ds]; rewrite (rep_first _ _ Hds); cbn [hd_ptr].
    + eapply (wp_put_last _ _ _ _ _ []); [done..|]. apply Hend. by rewrite <- Hi.
    + eapply (wp_put_sorted _ f _ _ _ _ k d ds); try done.
      intros ml' q' ds' Hlen Hnd' Hit ->. apply HQ; [done..|]. by rewrite Hit, <- Hi.
  - apply Z.eqb_eq in Ho. rewrite Ho.
    destruct (first_el (queue s)); eapply (wp_put_last _ _ _ _ _ ds); try done; by apply Hend.
Qed.

Lemma wp_put_internal wait el s a :
  refines s a ->
  wp (queue_put_internal wait el) (fun r s' => exists mem,
    r = (a_put mem wait el a).1 /\ refines s' (a_put mem wait el a).2 /\
    released s' = released s) s.
Proof.
  intros Hr. unfold queue_put_internal, a_put. apply wp_bind, wp_getq.
  rewrite (ref_accepting _ _ Hr), negb_involutive.
  destruct (new_data (queue s) =? 0); [by apply wp_ret; exists true|].
  rewrite <- (full_refines _ _ Hr).
  destruct (full (queue s)) eqn:Hfull; [by apply wp_ret; exists true|].
  destruct (ref_items _ _ Hr) as (ds & Hds & Hi).
  pose proof (not_full_bound _ _ Hds Hfull) as Hb.
  apply wp_bind, wp_malloc_el.
  { intros ml. apply wp_ret. exists false. split_and!; try done. by eapply refines_queue. }
  intros new ml Hnew. rewrite (rep_cells _ _ Hds), dom_chain in Hnew.
  apply wp_bind. eapply wp_link; try done; [set_solver|].
  intros ml' ds' Hlen Hnd Hpl. apply wp_bind, wp_putq, wp_ret. exists true.
  split_and!; try done. simpl. eapply refines_items; try done.
  by eapply (rep_put s).
Qed.

(** ** Get *)

(** Taking out the first element. *)
Lemma wp_get_first s k d ds (Q : option (Z * Z) -> qst -> Prop) :
  rep s ((k, d) :: ds) ->
  (forall s', rep s' ds -> queue s' = set_ends (first_el (queue s')) (last_el (queue s'))
      (num_els (queue s')) (queue s) -> released s' = released s -> Q (Some (Q_OK, d)) s') ->
  wp (e ← load k;
      _ ← putq (set_ends (next e) (match next e with None => None | _ => last_el (queue s) end)
                  (u16 (num_els (queue s) - 1)) (queue s));
      _ ← free_el k;
      mret (Some (Q_OK, data e))) Q s.
Proof.
  intros [Hc Hd Hf Hl Hn Hb] HQ.
  apply wp_bind. eapply (wp_load_chain [] k d ds); [done..|].
  apply wp_bind, wp_putq. apply wp_bind. eapply wp_free_el.
  { simpl. rewrite Hc. by apply (chain_lookup [] k d ds). }
  apply wp_ret. simpl. apply NoDup_cons in Hd as [Hk Hd]. simpl in Hb.
  apply HQ; [|done..]. split; simpl.
  - rewrite Hc. simpl. rewrite delete_insert_eq, delete_id; [done|]. by apply chain_none.
  - done.
  - done.
  - rewrite Hl. by destruct ds as [|[? ?] ?].
  - rewrite Hn, u16_small; simpl; lia.
  - lia.
Qed.

Lemma refines_with_items s s' a ds :
  refines s a -> rep s' ds -> queue s' = set_ends (first_el (queue s')) (last_el (queue s'))
      (num_els (queue s')) (queue s) -> refines s' (with_items ds.*2 a).
Proof. intros Hr Hd Hq. eapply refines_items; try done; by rewrite Hq. Qed.

Lemma with_items_same a l : items a = l -> with_items l a = a.
Proof. intros <-. by destruct a. Qed.

Lemma wp_get_internal wait s a :
  refines s a ->
  wp (queue_get_internal wait None 0) (fun r s' =>
    r = (a_get wait a).1 /\ refines s' (a_get wait a).2 /\ released s' = released s) s.
Proof.
  intros Hr. unfold queue_get_internal, a_get. apply wp_bind, wp_getq.
  destruct (ref_items _ _ Hr) as (ds & Hds & Hi). rewrite (ref_accepting _ _ Hr), <- Hi.
  destruct ds as [|[k d] ds]; simpl.
  - rewrite (rep_num _ _ Hds). destruct wait; simpl; apply wp_ret; [|done].
    by destruct (new_data (queue s) =? 0).
  - assert (num_els (queue s) =? 0 = false) as ->.
    { apply Z.eqb_neq. rewrite (rep_num _ _ Hds). simpl. lia. }
    simpl. apply wp_ret. simpl. rewrite (rep_first _ _ Hds). simpl.
    apply (wp_get_first s k d ds); [done|]. intros s' Hs' Hq Hrel.
    split_and!; try done. by eapply refines_with_items.
Qed.

(** ** Get with a filter *)

(** The walk stops at the first element the filter accepts. *)
Lemma wp_find_walk f c pre b s n prev el (Q : option nat * option nat -> qst -> Prop) :
  el = hd_ptr b None ->
  cells s = chain (pre ++ b) None -> NoDup (pre ++ b).*1 -> (length b < n)%nat ->
  prev = last pre.*1 ->
  Forall (fun kd => f kd.2 c <> 0) pre ->
  (forall pre' k d b', pre ++ b = pre' ++ (k, d) :: b' ->
     Forall (fun kd => f kd.2 c <> 0) pre' -> f d c = 0 -> Q (last pre'.*1, Some k) s) ->
  (Forall (fun kd => f kd.2 c <> 0) (pre ++ b) -> forall p, Q (p, None) s) ->
  wp (find_walk (fun e => f (data e)) c n prev el) Q s.
Proof.
  intros ->.
  revert pre n prev. induction b as [|[k d] b IH]; intros pre n prev Hc Hd Hn Hp Hpre Hfound Hnone;
    (destruct n as [|n]; [simpl in Hn; lia|]); simpl in *.
  { apply wp_ret, Hnone. by rewrite app_nil_r. }
  apply wp_bind. eapply wp_load_chain; [done..|]. simpl.
  destruct (f d c =? 0) eqn:Hf; bprop.
  { apply wp_ret. rewrite Hp. by eapply Hfound. }
  assert (pre ++ (k, d) :: b = (pre ++ [(k, d)]) ++ b) as Hap by (by rewrite <- app_assoc).
  rewrite Hap in *. apply (IH (pre ++ [(k, d)]) n); try done; [lia| |].
  - rewrite fmap_app. simpl. by rewrite last_snoc.
  - apply Forall_app. split; [done|]. by apply Forall_singleton.
Qed.

(** [queue_get_filtered] with a filter [f] that reads only the data of the
    element.  [None]: no element is accepted. *)
Fixpoint split_at (f : Z -> Z -> Z) (c : Z) (l : list Z) : option (list Z * Z * list Z) :=
  match l with
  | [] => None
  | x :: l =>
      if f x c =? 0 then Some ([], x, l)
      else match split_at f c l with Some (p, y, r) => Some (x :: p, y, r) | None => None end
  end.

Lemma split_at_found f c (pre : list (nat * Z)) d b :
  Forall (fun kd => f kd.2 c <> 0) pre -> f d c = 0 ->
  split_at f c (pre.*2 ++ d :: b) = Some (pre.*2, d, b).
Proof.
  intros Hpre Hd. induction Hpre as [|[k x] pre Hx Hpre IH].
  - simpl. by rewrite Hd.
  - rewrite fmap_cons, <- app_comm_cons. cbn [split_at snd] in *.
    apply Z.eqb_neq in Hx. by rewrite Hx, IH.
Qed.

Lemma split_at_none f c (l : list (nat * Z)) :
  Forall (fun kd => f kd.2 c <> 0) l -> split_at f c l.*2 = None.
Proof.
  intros Hl. induction Hl as [|[k x] l Hx _ IH]; [done|].
  rewrite fmap_cons. cbn [split_at snd] in *. apply Z.eqb_neq in Hx. by rewrite Hx, IH.
Qed.

(** Taking out an element that is neither the first nor the last. *)
Lemma rep_remove s a kp dp k d b :
  rep s (a ++ (kp, dp) :: (k, d) :: b) -> b <> [] ->
  rep (QSt (delete k (<[kp := El dp (hd_ptr b None)]> (cells s))) (mallocs s) (released s)
         (set_ends (first_el (queue s)) (last_el (queue s)) (u16 (num_els (queue s) - 1)) (queue s)))
    (a ++ (kp, dp) :: b).
Proof.
  intros [Hc Hd Hf Hl Hn Hb] Hne. rewrite length_app in *. simpl in *. split; simpl.
  - rewrite Hc. by apply chain_remove.
  - rewrite fmap_app, !fmap_cons in *. simpl in *.
    apply NoDup_app in Hd as (Ha & Hx & Hd). apply NoDup_cons in Hd as [? Hd].
    apply NoDup_cons in Hd as [? Hd].
    apply NoDup_app. split_and!; [done| |apply NoDup_cons; set_solver].
    intros x Hxa. pose proof (Hx x Hxa). set_solver.
  - rewrite Hf. by destruct a as [|[? ?] ?].
  - rewrite Hl, !fmap_app, !fmap_cons. simpl.
    destruct b as [|[kb db] b]; [done|]. by rewrite !last_app_cons.
  - rewrite Hn, length_app. simpl. rewrite u16_small; lia.
  - rewrite length_app. simpl. lia.
Qed.

(** The unlinking of the element at [k] behind [kp]; what is left of the queue
    when [k] was the last one is in the second conclusion. *)
Lemma wp_get_next s a kp dp k d b (Q : option (Z * Z) -> qst -> Prop) :
  rep s (a ++ (kp, dp) :: (k, d) :: b) ->
  (let s' := QSt (delete k (<[kp := El dp (hd_ptr b None)]> (cells s))) (mallocs s) (released s)
         (set_ends (first_el (queue s)) (last_el (queue s)) (u16 (num_els (queue s) - 1)) (queue s)) in
   Q (Some (Q_OK, d)) s') ->
  wp (e ← load k;
      ep ← load kp;
      _ ← store kp (El (data ep) (next e));
      _ ← putq (set_ends (first_el (queue s)) (last_el (queue s)) (u16 (num_els (queue s) - 1)) (queue s));
      _ ← free_el k;
      mret (Some (Q_OK, data e))) Q s.
Proof.
  intros Hr HQ. pose proof (rep_cells _ _ Hr) as Hc. pose proof (rep_nodup _ _ Hr) as Hd.
  assert (cells s !! kp = Some (El dp (Some k))) as Hkp by (by rewrite Hc, chain_lookup).
  replace (a ++ (kp, dp) :: (k, d) :: b) with ((a ++ [(kp, dp)]) ++ (k, d) :: b) in Hc, Hd
    by (by rewrite <- app_assoc).
  assert (cells s !! k = Some (El d (hd_ptr b None))) as Hk by (by rewrite Hc, chain_lookup).
  assert (kp <> k).
  { rewrite fmap_app, fmap_app in Hd. apply NoDup_app in Hd as (_ & Hx & _).
    intros ->. apply (Hx k); simpl; set_solver. }
  apply wp_bind. eapply wp_load; [exact Hk|].
  apply wp_bind. eapply wp_load; [exact Hkp|].
  apply wp_bind. eapply wp_store; [exact Hkp|].
  apply wp_bind, wp_putq. apply wp_bind. eapply wp_free_el.
  { simpl. rewrite lookup_insert_ne by done. exact Hk. }
  by apply wp_ret.
Qed.

Definition a_get_filtered (f : Z -> Z -> Z) (c : Z) (a : aqueue) : option (Z * Z) * aqueue :=
  match items a with
  | [] => (Some (Q_ERR_NUM_ELEMENTS, 0), a)
  | l => match split_at f c l with
         | Some (p, x, r) => (Some (Q_OK, x), with_items (p ++ r) a)
         | None => (Some (Q_ERR_INVALID_ELEMENT, 0), a)
         end
  end.

(** The element a filter takes out is the last of several. *)
Definition takes_last (f : Z -> Z -> Z) (c : Z) (l : list Z) : bool :=
  match split_at f c l with Some (_ :: _, _, []) => true | _ => false end.

Lemma wp_get_filtered f c s a :
  refines s a -> takes_last f c (items a) = false ->
  wp (queue_get_filtered (fun e => f (data e)) c) (fun r s' =>
    r = (a_get_filtered f c a).1 /\ refines s' (a_get_filtered f c a).2 /\
    released s' = released s) s.
Proof.
  intros Hr Hlast. unfold queue_get_filtered, queue_get_internal, a_get_filtered.
  apply wp_bind, wp_getq. destruct (ref_items _ _ Hr) as (ds & Hds & Hi).
  rewrite <- Hi in *. destruct ds as [|kd0 ds0]; [simpl|].
  { rewrite (rep_num _ _ Hds). by apply wp_ret. }
  rewrite fmap_cons. rewrite <- fmap_cons. remember (kd0 :: ds0) as ds.
  assert (num_els (queue s) =? 0 = false) as ->.
  { apply Z.eqb_neq. rewrite (rep_num _ _ Hds). subst ds. simpl. lia. }
  simpl. apply wp_bind. apply wp_bind, wp_fuel.
  apply (wp_find_walk f c [] ds); try done; simpl; [apply Hds|apply Hds|apply Hds| | |].
  - rewrite (rep_size _ _ Hds). lia.
  - intros pre k d b -> Hpre Hd. rewrite fmap_app, fmap_cons in Hlast |- *. simpl in Hlast |- *.
    unfold takes_last in Hlast.
    rewrite split_at_found in Hlast |- * by done. rewrite <- fmap_app. simpl.
    destruct pre as [|[kp dp] pre _] using rev_ind; simpl.
    + apply (wp_get_first s k d b); [done|]. intros s' Hs' Hq Hrel.
      split_and!; try done. by eapply refines_with_items.
    + rewrite fmap_app. simpl. rewrite last_snoc. rewrite <- app_assoc in *. simpl in *.
      apply (wp_get_next s pre kp dp k d b); [done|]. split_and!; try done.
      eapply refines_with_items; [done|eapply (rep_remove s pre kp dp k d b); [done|]|done].
      intros ->. destruct pre as [|[? ?] ?]; done.
  - intros Hno p. rewrite (split_at_none _ _ _ Hno). by apply wp_ret.
Qed.

(** When it is the last of several, [last_el] is left pointing at the freed
    block, while the other fields are right. *)
Lemma wp_get_filtered_last f c s a :
  refines s a -> takes_last f c (items a) = true ->
  wp (queue_get_filtered (fun e => f (data e)) c) (fun r s' =>
    r = (a_get_filtered f c a).1 /\ (exists k, last_el (queue s') = Some k /\ cells s' !! k = None) /\
    num_els (queue s') = Z.of_nat (length (items (a_get_filtered f c a).2))) s.
Proof.
  intros Hr Hlast. unfold queue_get_filtered, queue_get_internal, a_get_filtered.
  apply wp_bind, wp_getq. destruct (ref_items _ _ Hr) as (ds & Hds & Hi).
  rewrite <- Hi in *. destruct ds as [|kd0 ds0]; [done|].
  rewrite fmap_cons. rewrite <- fmap_cons. remember (kd0 :: ds0) as ds.
  assert (num_els (queue s) =? 0 = false) as ->.
  { apply Z.eqb_neq. rewrite (rep_num _ _ Hds). subst ds. simpl. lia. }
  simpl. apply wp_bind. apply wp_bind, wp_fuel.
  apply (wp_find_walk f c [] ds); try done; simpl; [apply Hds|apply Hds|apply Hds| | |].
  - rewrite (rep_size _ _ Hds). lia.
  - intros pre k d b -> Hpre Hd. rewrite fmap_app, fmap_cons in Hlast |- *. simpl in Hlast |- *.
    unfold takes_last in Hlast. rewrite split_at_found in Hlast |- * by done.
    destruct pre as [|[kp dp] pre _] using rev_ind; [done|]. destruct b as [|kd b].
      2: { by destruct ((pre ++ [(kp, dp)]).*2). }
    rewrite fmap_app. simpl. rewrite last_snoc. rewrite <- app_assoc in *. simpl in *.
    apply (wp_get_next s pre kp dp k d []); [done|]. simpl. split_and!; [done| |].
    + exists k. split; [|by rewrite lookup_delete_eq].
      rewrite (rep_last _ _ Hds), fmap_app, !fmap_cons. by rewrite last_app_cons.
    + rewrite (rep_num _ _ Hds). pose proof (rep_bound _ _ Hds) as Hb.
      rewrite !length_app, ?length_fmap in *. simpl in *.
      rewrite ?length_app, ?length_fmap. simpl. rewrite u16_small; lia.
  - intros Hno p. unfold takes_last in Hlast. by rewrite (split_at_none _ _ _ Hno) in Hlast.
Qed.

(** ** Flush *)

Lemma wp_flush_walk (fd : bool) ds n s (Q : unit -> qst -> Prop) :
  cells s = chain ds None -> NoDup ds.*1 -> (length ds < n)%nat ->
  Q tt (QSt ∅ (mallocs s) (released s ++ (if fd then ds.*2 else [])) (queue s)) ->
  wp (flush_walk fd n (hd_ptr ds None)) Q s.
Proof.
  revert n s. induction ds as [|[k d] ds IH]; intros n s Hc Hd Hn HQ;
    (destruct n as [|n]; [simpl in Hn; lia|]); simpl in *.
  { apply wp_ret. rewrite <- Hc in HQ. destruct s. by destruct fd; rewrite app_nil_r in HQ. }
  apply NoDup_cons in Hd as [Hk Hd].
  apply wp_bind. eapply (wp_load_chain [] k d ds); [done|by apply NoDup_cons|].
  assert (delete k (cells s) = chain ds None) as Hdel.
  { rewrite Hc, delete_insert_eq, delete_id; [done|]. by apply chain_none. }
  assert (cells s !! k = Some (El d (hd_ptr ds None))) as Hlk by (by rewrite Hc, lookup_insert_eq).
  destruct fd; apply wp_bind; [|apply wp_ret]; (apply wp_bind; eapply wp_free_el; [exact Hlk|]);
    apply IH; try done; try lia.
  simpl. by rewrite <- app_assoc.
Qed.

Definition a_flush (a : aqueue) : aqueue := with_items [] a.

Lemma wp_flush_internal (fd : bool) s a :
  refines s a ->
  wp (queue_flush_internal fd) (fun r s' =>
    r = Q_OK /\ refines s' (a_flush a) /\ cells s' = ∅ /\
    released s' = released s ++ (if fd then items a else [])) s.
Proof.
  intros Hr. destruct (ref_items _ _ Hr) as (ds & Hds & Hi).
  apply wp_bind, wp_getq. apply wp_bind, wp_fuel. apply wp_bind.
  rewrite (rep_first _ _ Hds).
  apply wp_flush_walk; [apply Hds|apply Hds|rewrite (rep_size _ _ Hds); lia|].
  apply wp_bind, wp_putq, wp_ret. simpl. rewrite Hi. split_and!; try done.
  unfold a_flush. eapply (refines_items s _ a []); try done. split; simpl; try done. constructor.
Qed.

(** ** Creation *)

Lemma wp_queue_create (Q : option queue_t -> env unit -> Prop) e :
  (forall p, Q (Some (Queue None None 0 0 1 0 1 None)) (Env (Heap p (live (mem e) + 4)) (st e))) ->
  (forall p, Q None (Env (Heap p (live (mem e))) (st e))) ->
  wp queue_create Q e.
Proof.
  intros Hs Hf. unfold queue_create.
  do 4 (apply wp_bind, wp_calloc; intros ?; simpl;
    [|repeat (apply wp_bind, wp_free; simpl); apply wp_ret;
      match goal with |- Q None (Env (Heap _ ?l) _) => replace l with (live (mem e)) by lia end;
      apply Hf]).
  apply wp_ret. match goal with |- Q _ (Env (Heap _ ?l) _) =>
    replace l with (live (mem e) + 4) by lia end. apply Hs.
Qed.

(** The list a new queue stands for. *)
Definition new_aqueue (cap : Z) (o : option (Z -> Z -> bool)) : aqueue := AQ [] true cap o.

Definition created (a : aqueue) (live0 : Z) (r : option queue_t) (e : env unit) : Prop :=
  match r with
  | Some q => live (mem e) = live0 + 4 /\ forall ml, refines (empty_qst ml q) a
  | None => live (mem e) = live0
  end.

Lemma created_intro q a l p u :
  order_ok q (order a) -> accepting a = negb (new_data q =? 0) -> max_els q = cap a ->
  items a = [] -> created a l (Some q) (Env (Heap p (l + 4)) u).
Proof.
  intros Ho Ha Hc Hi. split; [done|]. intros ml. split; simpl; [|done..].
  exists []. split; [apply rep_empty|done].
Qed.

(** ** Threads

    A thread holds the lock for a turn.  [TPut] and [TGet] with [wait] are one
    evaluation of the waiting loops' condition: a turn that finds it true
    changes nothing, and the thread takes the same turn again later. *)

Inductive turn :=
| TPut (wait : bool) (el : Z)
| TGet (wait : bool)
| TFlush
| TNewData (v : Z).

(** [put]: the data put with success, in order; [out]: the data that left the
    queue, in order, to a getter or to the function that releases it. *)
Record sys := Sys { sq : qst; put : list Z; out : list Z }.

Definition run_turn (t : turn) (σ : sys) : outcome sys :=
  match t with
  | TPut wait el =>
      rs <-! queue_put_internal wait el (sq σ);
      let (r, s) := (rs : _ * qst) in
      Done (Sys s (match r with Some 0 => put σ ++ [el] | _ => put σ end) (out σ))
  | TGet wait =>
      rs <-! queue_get_internal wait None 0 (sq σ);
      let (r, s) := (rs : _ * qst) in
      Done (Sys s (put σ) (match r with Some (0, d) => out σ ++ [d] | _ => out σ end))
  | TFlush =>
      rs <-! queue_flush_complete (sq σ);
      let (_, s) := (rs : _ * qst) in
      Done (Sys s (put σ) (out σ ++ drop (length (released (sq σ))) (released s)))
  | TNewData v =>
      rs <-! queue_set_new_data v (sq σ);
      let (_, s) := (rs : _ * qst) in
      Done (Sys s (put σ) (out σ))
  end.

Inductive reachable (σ0 : sys) : sys -> Prop :=
| reach_refl : reachable σ0 σ0
| reach_step σ t σ' : reachable σ0 σ -> run_turn t σ = Done σ' -> reachable σ0 σ'.

Definition start (ml : list bool) (q : queue_t) : sys := Sys (empty_qst ml q) [] [].

(** Every turn of a thread is one operation of the specification. *)
Record tracks (σ : sys) (a : aqueue) : Prop := {
  tr_ref : refines (sq σ) a;
  tr_perm : put σ ≡ₚ out σ ++ items a;
  tr_fifo : order a = None -> put σ = out σ ++ items a;
  tr_sorted : forall le, order a = Some le -> Sorted le (items a)
}.

Lemma ins_perm le el l : ins le el l ≡ₚ el :: l.
Proof.
  induction l as [|x l IH]; simpl; [done|].
  destruct (le el x); [done|]. rewrite IH. apply perm_swap.
Qed.

Lemma place_perm a el : place a el ≡ₚ items a ++ [el].
Proof.
  unfold place. destruct (order a); [|done]. rewrite ins_perm. apply Permutation_cons_append.
Qed.

Lemma ins_sorted (le : Z -> Z -> bool) el l :
  (forall x y, le x y = false -> le y x = true) -> Sorted le l -> Sorted le (ins le el l).
Proof.
  intros Htot. induction 1 as [|x l Hl IH Hx]; simpl.
  { by repeat constructor. }
  destruct (le el x) eqn:E.
  - constructor; [by constructor|]. constructor. by rewrite E.
  - constructor; [done|]. destruct l as [|y l]; simpl.
    + constructor. by rewrite (Htot _ _ E).
    + destruct (le el y); constructor; [by rewrite (Htot _ _ E)|by inversion_clear Hx].
Qed.

Lemma order_total s a le x y :
  refines s a -> order a = Some le -> le x y = false -> le y x = true.
Proof.
  intros Hr Ho. pose proof (ref_order _ _ Hr) as H. rewrite Ho in H. simpl in H.
  destruct H as (_ & f & _ & Hf & ->). by apply leq_total.
Qed.

Lemma tracks_put wait el σ a :
  tracks σ a -> owp (run_turn (TPut wait el) σ) (fun σ' => exists m,
    tracks σ' (a_put m wait el a).2 /\ out σ' = out σ).
Proof.
  intros [Hr Hp Hf Hs]. pose proof (wp_put_internal wait el _ _ Hr) as H. unfold wp, run_turn in *.
  destruct (queue_put_internal wait el (sq σ)) as [[r s]|]; simpl; [|done].
  destruct H as (m & -> & Hr' & _). exists m. revert Hr'. unfold a_put.
  destruct (accepting a); simpl; [|by split].
  destruct (a_full a); simpl; [by destruct wait|]. destruct m; simpl; [|by split].
  intros Hr'. split; [|done]. split; simpl; [done| | |].
  - rewrite place_perm, Hp. by rewrite app_assoc.
  - intros Ho. unfold place. rewrite Ho, app_assoc. by rewrite Hf.
  - intros le Ho. unfold place. rewrite Ho. apply ins_sorted; [|by apply Hs].
    intros x y. by eapply order_total.
Qed.

Lemma tracks_get wait σ a :
  tracks σ a -> owp (run_turn (TGet wait) σ) (fun σ' =>
    tracks σ' (a_get wait a).2 /\ put σ' = put σ).
Proof.
  intros [Hr Hp Hf Hs]. pose proof (wp_get_internal wait _ _ Hr) as H. unfold wp, run_turn in *.
  destruct (queue_get_internal wait None 0 (sq σ)) as [[r s]|]; simpl; [|done].
  destruct H as (-> & Hr' & _). revert Hr' Hp Hf Hs. unfold a_get.
  destruct (items a) as [|x l] eqn:Hi; simpl; intros Hr' Hp Hf Hs.
  - destruct wait; simpl; [destruct (accepting a); simpl|]; split; try done;
      split; simpl; rewrite ?Hi; done.
  - split; [|done]. split; simpl; [done|by rewrite <- app_assoc| |].
    + intros Ho. rewrite <- app_assoc. by apply Hf.
    + intros le Ho. specialize (Hs le Ho). by inversion Hs.
Qed.

Lemma tracks_flush σ a :
  tracks σ a -> owp (run_turn TFlush σ) (fun σ' => tracks σ' (a_flush a) /\ put σ' = put σ).
Proof.
  intros [Hr Hp Hf Hs]. pose proof (wp_flush_internal true _ _ Hr) as H. unfold wp in H.
  unfold run_turn, queue_flush_complete.
  destruct (queue_flush_internal true (sq σ)) as [[r s]|]; simpl; [|done].
  destruct H as (_ & Hr' & _ & ->). rewrite drop_app_length. split; [|done].
  split; simpl; rewrite ?app_nil_r; done.
Qed.

Lemma tracks_new_data v σ a :
  tracks σ a -> owp (run_turn (TNewData v) σ) (fun σ' =>
    tracks σ' (with_accepting (negb (u8 v =? 0)) a) /\ put σ' = put σ).
Proof.
  intros [[(ds & [] & Hi) Ha Hm Ho] Hp Hf Hs]. simpl. split; [|done]. split; simpl; try done.
  split; simpl; try done. exists ds. split; [|done]. by split.
Qed.

Lemma tracks_turn t σ a :
  tracks σ a -> owp (run_turn t σ) (fun σ' => exists a', tracks σ' a' /\
    order a' = order a /\ cap a' = cap a).
Proof.
  intros Ht. destruct t as [wait el|wait| |v].
  - eapply owp_mono; [by apply tracks_put|]. intros σ' (m & Hσ & _). eexists. split; [exact Hσ|].
    unfold a_put. by destruct (accepting a), (a_full a), m.
  - eapply owp_mono; [by apply tracks_get|]. intros σ' (Hσ & _). eexists. split; [exact Hσ|].
    unfold a_get. by destruct (items a).
  - eapply owp_mono; [by apply tracks_flush|]. intros σ' (Hσ & _). by eexists.
  - eapply owp_mono; [by apply tracks_new_data|]. intros σ' (Hσ & _). by eexists.
Qed.

Lemma tracks_reachable σ0 a0 σ :
  tracks σ0 a0 -> reachable σ0 σ ->
  exists a, tracks σ a /\ order a = order a0 /\ cap a = cap a0.
Proof.
  intros H0. induction 1 as [|σ t σ' _ (a & Ha & Ho & Hc) Ht]; [by exists a0|].
  pose proof (tracks_turn t _ _ Ha) as H. rewrite Ht in H. simpl in H.
  destruct H as (a' & Ha' & ? & ?). exists a'. split_and!; [done|congruence..].
Qed.

Lemma tracks_start ml q a :
  refines (empty_qst ml q) a -> items a = [] -> tracks (start ml q) a.
Proof.
  intros Hr Hi. split; simpl; by rewrite ?Hi.
Qed.

(** ** Properties *)

(** C27: [queue_put_internal] implements the list specification: it refuses
    with the right code when new data is switched off, when the queue is full
    (or leaves the caller waiting) and when there is no memory, and otherwise
    adds the data at the end, or at its place in the order of a sorted queue.
    It never reads or writes through a stale pointer. *)
Theorem queue_put_refines wait el s a :
  refines s a ->
  wp (queue_put_internal wait el) (fun r s' => exists mem,
    r = (a_put mem wait el a).1 /\ refines s' (a_put mem wait el a).2 /\
    released s' = released s) s.
Proof. apply wp_put_internal. Qed.

Definition int_cmp (x y : Z) : Z := x - y.

Lemma int_cmp_antisym : antisym int_cmp.
Proof. intros x y. unfold int_cmp. rewrite <- Z.sgn_opp. f_equal. lia. Qed.

Definition q_plain : queue_t := Queue None None 0 2 1 0 1 None.
Definition q_sorted : queue_t := Queue None None 0 0 1 1 1 (Some int_cmp).

Lemma q_plain_refines ml : refines (empty_qst ml q_plain) (new_aqueue 2 None).
Proof. split; try done. exists []. split; [apply rep_empty|done]. Defined.

Lemma q_sorted_refines ml :
  refines (empty_qst ml q_sorted) (new_aqueue 0 (Some (leq 1 int_cmp))).
Proof.
  split; try done; [exists []; split; [apply rep_empty|done]|].
  split; [done|]. exists int_cmp. split_and!; [done|apply int_cmp_antisym|done].
Defined.

Lemma queue_put_refines_witness :
  refines (empty_qst [] q_plain) (new_aqueue 2 None) /\
  wp (queue_put_internal true 7) (fun r s' => exists mem,
    r = (a_put mem true 7 (new_aqueue 2 None)).1 /\
    refines s' (a_put mem true 7 (new_aqueue 2 None)).2 /\
    released s' = []) (empty_qst [] q_plain).
Proof.
  split; [apply q_plain_refines|].
  exact (queue_put_refines true 7 _ _ (q_plain_refines [])).
Defined.

(** [queue_get_internal] takes the first element and gives its data back;
    on an empty queue it returns the right code, or leaves the caller waiting
    as long as new data is accepted. *)
Theorem queue_get_refines wait s a :
  refines s a ->
  wp (queue_get_internal wait None 0) (fun r s' =>
    r = (a_get wait a).1 /\ refines s' (a_get wait a).2 /\ released s' = released s) s.
Proof. apply wp_get_internal. Qed.

Lemma queue_get_refines_witness :
  refines (empty_qst [] q_plain) (new_aqueue 2 None) /\
  wp (queue_get_internal false None 0) (fun r s' =>
    r = Some (Q_ERR_NUM_ELEMENTS, 0) /\ refines s' (new_aqueue 2 None) /\ released s' = [])
    (empty_qst [] q_plain).
Proof.
  split; [apply q_plain_refines|].
  exact (queue_get_refines false _ _ (q_plain_refines [])).
Defined.

(** A queue holding 1 and 2. *)
Definition q_two : qst :=
  QSt (chain [(0%nat, 1); (1%nat, 2)] None) [] []
    (Queue (Some 0%nat) (Some 1%nat) 2 0 1 0 1 None).

Lemma q_two_refines : refines q_two (AQ [1; 2] true 0 None).
Proof.
  split; try done. exists [(0%nat, 1); (1%nat, 2)]. split; [|done]. split; try done.
  simpl. repeat constructor; set_solver.
Defined.

(** [queue_get_filtered], with a filter on the data, takes out the first
    element the filter accepts and keeps the rest in order, unless that element
    is the last of several; when none is accepted it changes nothing. *)
Theorem queue_get_filtered_refines f c s a :
  refines s a -> takes_last f c (items a) = false ->
  wp (queue_get_filtered (fun e => f (data e)) c) (fun r s' =>
    r = (a_get_filtered f c a).1 /\ refines s' (a_get_filtered f c a).2 /\
    released s' = released s) s.
Proof. apply wp_get_filtered. Qed.

Lemma queue_get_filtered_refines_witness :
  takes_last int_cmp 1 [1; 2] = false /\
  wp (queue_get_filtered (fun e => int_cmp (data e)) 1) (fun r s' =>
    r = Some (Q_OK, 1) /\ refines s' (AQ [2] true 0 None) /\ released s' = []) q_two.
Proof.
  split; [reflexivity|].
  exact (queue_get_filtered_refines int_cmp 1 q_two (AQ [1; 2] true 0 None) q_two_refines eq_refl).
Defined.

(** When [queue_get_filtered] takes out the last of several elements, it
    returns the right data but leaves [last_el] pointing at the block it has
    freed, so the queue stands for no list any more: the next [queue_put] on it
    writes through that pointer. *)
Theorem queue_get_filtered_dangles f c s a :
  refines s a -> takes_last f c (items a) = true ->
  wp (queue_get_filtered (fun e => f (data e)) c) (fun r s' =>
    r = (a_get_filtered f c a).1 /\
    (exists k, last_el (queue s') = Some k /\ cells s' !! k = None) /\
    forall a', ~ refines s' a') s.
Proof.
  intros Hr Hl. eapply wp_mono; [by apply (wp_get_filtered_last f c s a)|].
  intros r s' (-> & (k & Hk & Hc) & Hn). split_and!; [done|by exists k|].
  intros a' [(ds & [Hcs Hd Hf Hla _ _] & _) _ _ _]. rewrite Hk in Hla.
  symmetry in Hla. apply last_Some in Hla as (l & Hla).
  assert (k ∈ dom (cells s')) as Hin.
  { rewrite Hcs, dom_chain, elem_of_list_to_set, Hla. set_solver. }
  by apply not_elem_of_dom in Hc.
Qed.

Lemma queue_get_filtered_dangles_witness :
  takes_last int_cmp 2 [1; 2] = true /\
  wp (queue_get_filtered (fun e => int_cmp (data e)) 2) (fun r s' =>
    r = Some (Q_OK, 2) /\
    (exists k, last_el (queue s') = Some k /\ cells s' !! k = None) /\
    forall a', ~ refines s' a') q_two.
Proof.
  split; [reflexivity|].
  exact (queue_get_filtered_dangles int_cmp 2 q_two (AQ [1; 2] true 0 None) q_two_refines eq_refl).
Defined.

(** [queue_flush_complete_put] hands every element of the queue to the
    release function, in order, and then puts its own element into the emptied
    queue; when new data is switched off the old elements are gone all the same
    and the new one is refused. *)
Theorem queue_flush_complete_put_refines el s a :
  refines s a ->
  wp (queue_flush_complete_put el) (fun r s' => exists mem,
    r = (a_put mem false el (a_flush a)).1 /\ refines s' (a_put mem false el (a_flush a)).2 /\
    released s' = released s ++ items a) s.
Proof.
  intros Hr. apply wp_bind. eapply wp_mono; [by apply (wp_flush_internal true)|].
  intros _ s1 (_ & Hr1 & _ & Hrel). eapply wp_mono; [by apply wp_put_internal|].
  intros r s2 (m & ? & ? & Hrel'). exists m. by rewrite Hrel', Hrel.
Qed.

Lemma queue_flush_complete_put_refines_witness :
  refines q_two (AQ [1; 2] true 0 None) /\
  wp (queue_flush_complete_put 9) (fun r s' => exists mem,
    r = (a_put mem false 9 (AQ [] true 0 None)).1 /\
    refines s' (a_put mem false 9 (AQ [] true 0 None)).2 /\ released s' = [1; 2]) q_two.
Proof.
  split; [apply q_two_refines|].
  exact (queue_flush_complete_put_refines 9 q_two (AQ [1; 2] true 0 None) q_two_refines).
Defined.

(** C28: Whatever turns any number of threads take on an unsorted queue, no
    datum is lost, duplicated or reordered: the data put with success are,
    in order, those that left the queue followed by those still in it. *)
Theorem queue_threads_fifo ml q cap σ :
  refines (empty_qst ml q) (new_aqueue cap None) ->
  reachable (start ml q) σ ->
  exists l, contents (sq σ) l /\ put σ = out σ ++ l.
Proof.
  intros Hr Hσ. eapply tracks_reachable in Hσ as (a & [Ha _ Hf _] & Ho & _);
    [|by apply tracks_start].
  exists (items a). split; [apply Ha|by apply Hf].
Qed.

Definition fifo_turns : list turn := [TPut false 1; TPut true 2; TPut true 3; TGet true; TPut true 3].

Definition run_turns (ts : list turn) (σ : sys) : outcome sys :=
  foldl (fun o t => obind o (run_turn t)) (Done σ) ts.

Lemma reachable_run ts σ0 σ : run_turns ts σ0 = Done σ -> reachable σ0 σ.
Proof.
  revert σ. induction ts as [|t ts IH] using rev_ind; unfold run_turns; simpl; intros σ.
  { intros [= ->]. constructor. }
  rewrite foldl_app. simpl. fold (run_turns ts σ0).
  destruct (run_turns ts σ0) as [σ1|]; [|done]. intros H. eapply reach_step; [by apply IH|done].
Qed.

Lemma queue_threads_fifo_witness :
  exists σ, run_turns fifo_turns (start [] q_plain) = Done σ /\ put σ = [1; 2; 3] /\
    exists l, contents (sq σ) l /\ put σ = out σ ++ l.
Proof.
  destruct (run_turns fifo_turns (start [] q_plain)) as [σ|] eqn:E; [|by vm_compute in E].
  exists σ. split; [done|]. split.
  - vm_compute in E. by inversion E.
  - apply (queue_threads_fifo [] q_plain 2 σ (q_plain_refines [])).
    by apply (reachable_run fifo_turns).
Defined.

(** On a sorted queue, whatever turns the threads take, the elements are
    in the order of the comparison function at every moment, and as a multiset
    the data put are those that left and those still in the queue. *)
Theorem queue_threads_sorted ml q cap le σ :
  refines (empty_qst ml q) (new_aqueue cap (Some le)) ->
  reachable (start ml q) σ ->
  exists l, contents (sq σ) l /\ Sorted le l /\ put σ ≡ₚ out σ ++ l.
Proof.
  intros Hr Hσ. eapply tracks_reachable in Hσ as (a & [Ha Hp _ Hs] & Ho & _);
    [|by apply tracks_start].
  exists (items a). split_and!; [apply Ha|by apply Hs|done].
Qed.

Definition sorted_turns : list turn := [TPut false 5; TPut false 2; TPut true 9; TPut false 5].

Lemma queue_threads_sorted_witness :
  exists σ, run_turns sorted_turns (start [] q_sorted) = Done σ /\ put σ = [5; 2; 9; 5] /\
    exists l, contents (sq σ) l /\ Sorted (leq 1 int_cmp) l /\ put σ ≡ₚ out σ ++ l.
Proof.
  destruct (run_turns sorted_turns (start [] q_sorted)) as [σ|] eqn:E; [|by vm_compute in E].
  exists σ. split; [done|]. split.
  - vm_compute in E. by inversion E.
  - apply (queue_threads_sorted [] q_sorted 0 _ σ (q_sorted_refines [])).
    by apply (reachable_run sorted_turns).
Defined.

(** From every state the threads can bring the queue to, every turn is
    defined (no stale or null pointer is followed, every loop ends), and a
    waiting putter and a waiting getter are never both left waiting. *)
Theorem queue_threads_progress ml q a σ :
  refines (empty_qst ml q) a -> items a = [] -> reachable (start ml q) σ ->
  (forall t, exists σ', run_turn t σ = Done σ') /\
  (forall el rp rg sp sg,
     queue_put_internal true el (sq σ) = Done (rp, sp) ->
     queue_get_internal true None 0 (sq σ) = Done (rg, sg) ->
     rp <> None \/ rg <> None).
Proof.
  intros Hr Hi Hσ. eapply tracks_reachable in Hσ as (b & Hb & _); [|by apply tracks_start].
  split.
  - intros t. pose proof (tracks_turn t _ _ Hb) as H. destruct (run_turn t σ); [eauto|done].
  - intros el rp rg sp sg Hp Hg. destruct Hb as [Hb _ _ _].
    pose proof (wp_put_internal true el _ _ Hb) as H1. pose proof (wp_get_internal true _ _ Hb) as H2.
    unfold wp in H1, H2. rewrite Hp in H1. rewrite Hg in H2.
    destruct H1 as (m & -> & _), H2 as (-> & _). unfold a_put, a_get, a_full.
    destruct (items b); simpl; [left|by right].
    destruct (accepting b); [simpl|done].
    destruct (cap b) eqn:Ec; simpl; by destruct m.
Qed.

Lemma queue_threads_progress_witness :
  exists σ, run_turns fifo_turns (start [] q_plain) = Done σ /\
    (forall t, exists σ', run_turn t σ = Done σ').
Proof.
  destruct (run_turns fifo_turns (start [] q_plain)) as [σ|] eqn:E; [|by vm_compute in E].
  exists σ. split; [done|].
  apply (queue_threads_progress [] q_plain (new_aqueue 2 None) σ (q_plain_refines []) eq_refl).
  by apply (reachable_run fifo_turns).
Defined.

(** The four creators give an empty queue with the limit and the order
    asked for, or no queue and no block left behind when an allocation fails; a
    sorted queue without a comparison function is refused. *)
Theorem queue_create_all cap asc f e :
  antisym f ->
  let le := leq asc f in
  let l := live (mem e) in
  wp queue_create (created (new_aqueue 0 None) l) e /\
  wp (queue_create_limited cap) (created (new_aqueue cap None) l) e /\
  wp (queue_create_sorted asc (Some f)) (created (new_aqueue 0 (Some le)) l) e /\
  wp (queue_create_limited_sorted cap asc (Some f)) (created (new_aqueue cap (Some le)) l) e /\
  queue_create_sorted asc None e = Done (None, e) /\
  queue_create_limited_sorted cap asc None e = Done (None, e).
Proof.
  intros Ha le l. split_and!; [|unfold queue_create_limited; apply wp_bind
    |unfold queue_create_sorted; apply wp_bind|unfold queue_create_limited_sorted; apply wp_bind
    |done|done].
  all: apply wp_queue_create; intros p; [|done]; try apply wp_ret;
    apply created_intro; try done.
  all: simpl; split; [lia|by exists f].
Qed.

Lemma queue_create_all_witness :
  antisym int_cmp /\
  wp (queue_create_limited 5) (created (new_aqueue 5 None) 0) (Env (Heap [true; true; false] 0) tt).
Proof.
  split; [apply int_cmp_antisym|].
  exact (proj1 (proj2 (queue_create_all 5 1 int_cmp (Env (Heap [true; true; false] 0) tt)
    int_cmp_antisym))).
Defined.
