(* ===== verification/PluginApi.v ===== *)
(** What the Modbus device plugins share (plugin/utils.c and the interface
    [MbusIf] of source/misc_dev_plugins.h).

    A plugin is a pair of functions over its static variables [S]: [build]
    allocates a message for the serial line, [parse] reads a received buffer
    into an array of objects closed by a null pointer.  The second half of the
    file is what the gateway needs of them, as classes the plugin files
    instantiate. *)

From S2P Require Import Prelude CMem Crc Device.

(** ** The device node passed to a plugin

    The ventilation plugins test the two pointers after the base of the node
    they are given; [None] is the null pointer. *)

Record MbusNode := Node { pSwitch : bool; pSpeed : bool }.

(** An array of object pointers, terminator included. *)
Definition Objs : Type := list (option MbusObj_t).

Definition build_t (S : Type) : Type :=
  Z -> Z -> Z -> option MbusNode -> option ty_obj_dp_s -> C (env S) (option Msg_t).
Definition parse_t (S : Type) : Type :=
  Z -> Z -> option MbusNode -> option (list Z) -> Z -> C (env S) (option Objs).

Record MbusIf (S : Type) := mkMbusIf {
  build : option (build_t S);
  parse : option (parse_t S);
  buildExt : option (Z -> Z -> Z -> option ty_obj_dp_s -> C (env S) (option Msg_t));
  parseExt : option (Z -> Z -> option (list Z) -> Z -> C (env S) (option Objs))
}.
Arguments mkMbusIf {S}.
Arguments build {S}.
Arguments parse {S}.
Arguments buildExt {S}.
Arguments parseExt {S}.

(** ** plugin/utils.c *)

(** [for (j = 0; j <= i; j++) free(ppMbusObj[j])]: the last pointer is null. *)
Fixpoint free_objs {S} (i : nat) : C (env S) unit :=
  match i with O => mret tt | Datatypes.S i => _ ← free; free_objs i end.

Fixpoint NewMbusObjs_loop {S} (n i : nat) : C (env S) bool :=
  match n with
  | O => mret true
  | Datatypes.S n =>
      ok ← calloc;
      if (ok : bool) then NewMbusObjs_loop n (Datatypes.S i)
      else _ ← free_objs i; _ ← free; mret false
  end.

Definition NewMbusObjs {S} (size : nat) : C (env S) (option Objs) :=
  ok ← calloc;
  if (ok : bool) then
    ok ← NewMbusObjs_loop size 0;
    if (ok : bool) then mret (Some (replicate size (Some MbusObj0) ++ [None]))
    else mret None
  else mret None.

(** The loop of [memmatch] with [n] rounds left, at offset [i]. *)
Fixpoint memmatch_loop (pSrc : list Z) (dst : Z) (n i : nat) : outcome (option nat) :=
  match n with
  | O => Done None
  | Datatypes.S n =>
      w <-! rd16be pSrc i;
      if dst =? w then Done (Some i) else memmatch_loop pSrc dst n (Datatypes.S i)
  end.

Definition memmatch (pSrc : list Z) (dst len : Z) : outcome (option nat) :=
  memmatch_loop pSrc dst (Z.to_nat (len - 2)) 0.

(** ** Idioms of the plugins *)

(** [pMsg = calloc(1, sizeof(Msg_t)); if (!pMsg) return NULL;] *)
Definition calloc_Msg {S} : C (env S) (option unit) :=
  ok ← calloc; mret (if (ok : bool) then Some tt else None).

(** [pMsg->pBuf = calloc(n, 1); if (!pMsg->pBuf) { free(pMsg); return NULL; }] *)
Definition calloc_pBuf {S} (n : nat) : C (env S) (option (list Z)) :=
  ok ← calloc;
  if (ok : bool) then mret (Some (replicate n 0)) else _ ← free; mret None.

(** The message with buffer [buf] and length [n]. *)
Definition a_msg (buf : list Z) (n : Z) : Msg_t := Msg 0 (Some buf) n 0.

(** [tmp = crc16(pBuf, n - 2); pBuf[n - 2 ..] = htons(tmp);] *)
Definition seal_crc (buf : list Z) (n : nat) : outcome (list Z) :=
  tmp <-! crc16 buf (Z.of_nat (n - 2)); st16be buf (n - 2) tmp.

(** The search for one of two commands, the second one tried when the first is
    missing or has fewer than [min1] bytes left. *)
Definition find2 (pBuf : list Z) (len key1 min1 key2 min2 : Z) : outcome (option nat) :=
  pos <-! memmatch pBuf key1 len;
  if match pos with Some p => len - Z.of_nat p <? min1 | None => true end then
    pos <-! memmatch pBuf key2 len;
    Done (match pos with
          | Some p => if len - Z.of_nat p <? min2 then None else Some p
          | None => None
          end)
  else Done pos.

(** [ppMbusObj[k]->... = ...;]: undefined past the array or on a null entry. *)
Fixpoint upd_obj (ob : Objs) (k : nat) (f : MbusObj_t -> MbusObj_t) : outcome Objs :=
  match ob, k with
  | Some o :: r, O => Done (Some (f o) :: r)
  | x :: r, Datatypes.S k => r <-! upd_obj r k f; Done (x :: r)
  | _, _ => Undef
  end.

(** [ppMbusObj[k] = NULL;] *)
Fixpoint null_obj (ob : Objs) (k : nat) : outcome Objs :=
  match ob, k with
  | _ :: r, O => Done (None :: r)
  | x :: r, Datatypes.S k => r <-! null_obj r k; Done (x :: r)
  | [], _ => Undef
  end.

(** [ppMbusObj[k]->localPoint = lp; ppMbusObj[k]->value = v;] *)
Definition put (ob : Objs) (k : nat) (lp v : Z) : outcome Objs :=
  upd_obj ob k (fun o => set_value v (set_localPoint lp o)).

(** [reg = pos[2] << 8; reg += pos[3]; reg -= base;] on a [uint16_t]. *)
Definition reg_of (base b2 b3 : Z) : Z := u16 (u16 (u16 (Z.shiftl b2 8) + b3) - base).

(** What the receiver walks: the objects before the first null pointer. *)
Fixpoint delivered (ob : Objs) : list MbusObj_t :=
  match ob with Some o :: r => o :: delivered r | _ => [] end.

(** [int] arithmetic: a result out of range has no meaning in C. *)
Definition int_of (z : Z) : outcome Z :=
  if (- 2 ^ 31 <=? z) && (z <? 2 ^ 31) then Done z else Undef.

(** [p[k] += v] with a signed [v]. *)
Definition add8i (buf : list Z) (k : nat) (v : Z) : outcome (list Z) :=
  x <-! rd8 buf k; s <-! int_of (x + v); st8 buf k s.

(** The first match with at least [min] bytes left. *)
Definition find1 (pBuf : list Z) (len key min : Z) : outcome (option nat) :=
  pos <-! memmatch pBuf key len;
  Done (match pos with
        | Some p => if len - Z.of_nat p <? min then None else Some p
        | None => None
        end).

(** ** Contracts

    A frame the bus accepts: closed by its CRC, which brings the register of
    any receiver to 0. *)
Definition crc_frame (n : nat) (buf : list Z) : Prop :=
  length buf = n /\ bytes buf /\ crc16 buf (Z.of_nat n) = Done 0.

(** The outcome of a [build]: no block is left behind on failure; on success
    the caller owns the message and its buffer, and the [len] bytes it will send
    lie in the buffer. *)
Definition built {S} (inv : S -> Prop) (ok : list Z -> Prop) (l0 : Z)
    (r : option Msg_t) (e : env S) : Prop :=
  inv (st e) /\
  match r with
  | None => live (mem e) = l0
  | Some m => live (mem e) = l0 + 2 /\
      exists buf n, m = a_msg buf (Z.of_nat n) /\ (n <= length buf)%nat /\ ok (take n buf)
  end.

(** What [ModbusDevWrite] relies on: from any state satisfying [inv], for any
    request in [pre], [build] neither faults nor leaks and returns a frame. *)
Class BuildOk {S} (inv : S -> Prop)
    (pre : Z -> Z -> option MbusNode -> option ty_obj_dp_s -> Prop)
    (ok : Z -> list Z -> Prop) (f : build_t S) : Prop :=
  build_ok : forall devId regAddr groupAddr node pObj e,
    is_u8 devId -> 0 <= regAddr < 65536 -> 0 <= groupAddr < 65536 ->
    pre regAddr groupAddr node pObj -> inv (st e) ->
    wp (f devId regAddr groupAddr node pObj) (built inv (ok devId) (live (mem e))) e.

(** The outcome of a [parse]: the blocks it leaves are the array and its
    objects; [leak] bounds what a rejected buffer may leave behind. *)
Definition parsed {S} (inv : S -> Prop) (leak : Z) (l0 : Z)
    (r : option Objs) (e : env S) : Prop :=
  inv (st e) /\
  match r with
  | None => l0 <= live (mem e) <= l0 + leak
  | Some ob => live (mem e) = l0 + Z.of_nat (length ob) /\ last ob = Some None
  end.

(** The same contract for the plugins with a 16-bit device address. *)
Class BuildExtOk {S} (inv : S -> Prop) (ok : Z -> list Z -> Prop)
    (f : Z -> Z -> Z -> option ty_obj_dp_s -> C (env S) (option Msg_t)) : Prop :=
  build_ext_ok : forall devId regAddr groupAddr pObj e,
    0 <= devId < 65536 -> 0 <= regAddr < 65536 -> 0 <= groupAddr < 65536 -> inv (st e) ->
    wp (f devId regAddr groupAddr pObj) (built inv (ok devId) (live (mem e))) e.

(** What [SerialRcvEntry] relies on, for a buffer of which [len] bytes were
    received and inputs in [pre]. *)
Class ParseOk {S} (inv : S -> Prop) (leak : Z)
    (pre : Z -> Z -> option MbusNode -> list Z -> Z -> Prop) (f : parse_t S) : Prop :=
  parse_ok : forall devId regAddr node buf len e,
    is_u8 devId -> 0 <= regAddr < 65536 -> bytes buf ->
    0 <= len < 65536 -> (Z.to_nat len <= length buf)%nat ->
    pre devId regAddr node buf len -> inv (st e) ->
    wp (f devId regAddr node (Some buf) len) (parsed inv leak (live (mem e))) e.

Class ParseExtOk {S} (inv : S -> Prop) (leak : Z)
    (f : Z -> Z -> option (list Z) -> Z -> C (env S) (option Objs)) : Prop :=
  parse_ext_ok : forall devId regAddr buf len e,
    0 <= devId < 65536 -> 0 <= regAddr < 65536 -> bytes buf ->
    0 <= len < 65536 -> (Z.to_nat len <= length buf)%nat -> inv (st e) ->
    wp (f devId regAddr (Some buf) len) (parsed inv leak (live (mem e))) e.

(** What the gateway needs of the table of a plugin, whichever pair of functions
    it fills in. *)
Class IfOk {S} (inv : S -> Prop) (bpre : Z -> Z -> option MbusNode -> option ty_obj_dp_s -> Prop)
    (ok : Z -> list Z -> Prop) (ppre : Z -> Z -> option MbusNode -> list Z -> Z -> Prop) (leak : Z)
    (f : MbusIf S) : Prop := {
  if_build : match build f, buildExt f with
             | Some b, _ => BuildOk inv bpre ok b
             | None, Some b => BuildExtOk inv ok b
             | None, None => True
             end;
  if_parse : match parse f, parseExt f with
             | Some p, _ => ParseOk inv leak ppre p
             | None, Some p => ParseExtOk inv leak p
             | None, None => True
             end
}.

Lemma if_ok_plain {S} inv bpre ok ppre leak (b : build_t S) (p : parse_t S) :
  BuildOk inv bpre ok b -> ParseOk inv leak ppre p ->
  IfOk inv bpre ok ppre leak (mkMbusIf (Some b) (Some p) None None).
Proof. by split. Qed.

Lemma if_ok_ext {S} inv bpre ok ppre leak b p :
  BuildExtOk inv ok b -> ParseExtOk inv leak p ->
  IfOk (S := S) inv bpre ok ppre leak (mkMbusIf None None (Some b) (Some p)).
Proof. by split. Qed.

#[export] Hint Resolve if_ok_plain if_ok_ext : cwp.

(** ** Rules for the idioms *)

Section Rules.
Context {S : Type}.
Implicit Types e : env S.

Lemma wp_calloc_Msg (Q : option unit -> env S -> Prop) e :
  (forall p, Q (Some tt) (Env (Heap p (live (mem e) + 1)) (st e))) ->
  (forall p, Q None (Env (Heap p (live (mem e))) (st e))) ->
  wp calloc_Msg Q e.
Proof. intros Ht Hf. apply wp_bind, wp_calloc; intros p; [apply Ht|apply Hf]. Qed.

Lemma wp_calloc_pBuf n (Q : option (list Z) -> env S -> Prop) e :
  (forall p, Q (Some (replicate n 0)) (Env (Heap p (live (mem e) + 1)) (st e))) ->
  (forall p, Q None (Env (Heap p (live (mem e) - 1)) (st e))) ->
  wp (calloc_pBuf n) Q e.
Proof. intros Ht Hf. apply wp_bind, wp_calloc; intros p; [apply Ht|apply Hf]. Qed.

Lemma free_objs_run n e :
  free_objs n e = Done (tt, Env (Heap (plan (mem e)) (live (mem e) - Z.of_nat n)) (st e)).
Proof.
  revert e. induction n as [|n IH]; intros [[p l] s].
  - simpl. by rewrite Z.sub_0_r.
  - simpl. unfold mbind, C_bind at 1. simpl. rewrite IH. simpl.
    do 4 f_equal. lia.
Qed.

Lemma wp_NewMbusObjs_loop n i (Q : bool -> env S -> Prop) e :
  (forall p, Q true (Env (Heap p (live (mem e) + Z.of_nat n)) (st e))) ->
  (forall p, Q false (Env (Heap p (live (mem e) - Z.of_nat i - 1)) (st e))) ->
  wp (NewMbusObjs_loop n i) Q e.
Proof.
  revert i e. induction n as [|n IH]; intros i e Ht Hf.
  - apply wp_ret. specialize (Ht (plan (mem e))). rewrite Z.add_0_r in Ht.
    by destruct e as [[p l] s].
  - apply wp_bind, wp_calloc; intros p.
    + apply IH; intros q; simpl.
      * replace (live (mem e) + 1 + Z.of_nat n)
          with (live (mem e) + Z.of_nat (Datatypes.S n)) by lia. apply Ht.
      * replace (live (mem e) + 1 - Z.of_nat (Datatypes.S i) - 1)
          with (live (mem e) - Z.of_nat i - 1) by lia. apply Hf.
    + apply wp_bind. unfold wp at 1. rewrite free_objs_run. apply Hf.
Qed.

(** [NewMbusObjs] gives [size] zeroed objects or, whichever allocation
    fails, nothing. *)
Lemma wp_NewMbusObjs n (Q : option Objs -> env S -> Prop) e :
  (forall p, Q (Some (replicate n (Some MbusObj0) ++ [None]))
    (Env (Heap p (live (mem e) + Z.of_nat n + 1)) (st e))) ->
  (forall p, Q None (Env (Heap p (live (mem e))) (st e))) ->
  wp (NewMbusObjs n) Q e.
Proof.
  intros Ht Hf. apply wp_bind, wp_calloc; intros p; [|apply Hf].
  apply wp_bind, wp_NewMbusObjs_loop; intros q; simpl.
  - apply wp_ret. replace (live (mem e) + 1 + Z.of_nat n)
      with (live (mem e) + Z.of_nat n + 1) by lia. apply Ht.
  - apply wp_ret. replace (live (mem e) + 1 - Z.of_nat 0 - 1)
      with (live (mem e)) by (simpl; lia). apply Hf.
Qed.
End Rules.

(** ** [memmatch] finds the first match *)

Definition word_at (pSrc : list Z) (i : nat) (w : Z) : Prop := rd16be pSrc i = Done w.

Lemma rd16be_total buf i :
  (Datatypes.S i < length buf)%nat -> exists w, rd16be buf i = Done w.
Proof.
  intros Hi. assert (owp (rd16be buf i) (fun _ => True)) as H.
  { by apply owp_rd16be. }
  apply owp_done in H as (w & ? & _). eauto.
Qed.

Lemma memmatch_loop_spec pSrc dst n i :
  (i + n + 1 <= length pSrc)%nat \/ n = O ->
  owp (memmatch_loop pSrc dst n i) (fun r =>
    match r with
    | Some k => (i <= k < i + n)%nat /\ word_at pSrc k dst /\
        forall j, (i <= j < k)%nat -> ~ word_at pSrc j dst
    | None => forall j, (i <= j < i + n)%nat -> ~ word_at pSrc j dst
    end).
Proof.
  revert i. induction n as [|n IH]; intros i Hn; simpl.
  - intros j Hj. lia.
  - destruct (rd16be_total pSrc i) as [w Hw]; [lia|]. rewrite Hw. simpl.
    destruct (dst =? w) eqn:E; bprop; simpl.
    + subst. split; [lia|]. split; [done|]. intros j Hj. lia.
    + eapply owp_mono; [apply IH; lia|].
      assert (~ word_at pSrc i dst) by (unfold word_at; congruence).
      intros [k|].
      * intros (? & ? & Hj). split; [lia|]. split; [done|]. intros j ?.
        destruct (decide (j = i)) as [->|]; [done|]. apply Hj. lia.
      * intros Hj j ?. destruct (decide (j = i)) as [->|]; [done|]. apply Hj. lia.
Qed.

Lemma memmatch_ok pSrc dst len :
  (Z.to_nat len <= length pSrc)%nat ->
  owp (memmatch pSrc dst len) (fun r =>
    match r with
    | Some k => Z.of_nat k < len - 2 /\ word_at pSrc k dst /\
        forall j, (j < k)%nat -> ~ word_at pSrc j dst
    | None => forall j, Z.of_nat j < len - 2 -> ~ word_at pSrc j dst
    end).
Proof.
  intros Hlen. unfold memmatch.
  eapply owp_mono; [apply memmatch_loop_spec; lia|]. intros [k|].
  - intros (? & ? & Hj). split; [lia|]. split; [done|]. intros j ?. apply Hj. lia.
  - intros Hj j ?. apply Hj. lia.
Qed.

(** [find2] returns a position of one of the two commands with enough bytes
    after it. *)
Lemma find2_ok pBuf len key1 min1 key2 min2 :
  (Z.to_nat len <= length pBuf)%nat ->
  owp (find2 pBuf len key1 min1 key2 min2) (fun r =>
    forall p, r = Some p ->
      (word_at pBuf p key1 /\ Z.of_nat p + min1 <= len \/
       word_at pBuf p key2 /\ Z.of_nat p + min2 <= len) /\ Z.of_nat p + 2 < len).
Proof.
  intros Hlen. unfold find2.
  apply owp_bind. eapply owp_mono; [by apply memmatch_ok|]. intros r1 H1.
  destruct (match r1 with Some p => len - Z.of_nat p <? min1 | None => true end) eqn:E.
  - apply owp_bind. eapply owp_mono; [by apply memmatch_ok|]. intros r2 H2. simpl.
    intros p Hp. destruct r2 as [p'|]; [|done].
    destruct (len - Z.of_nat p' <? min2) eqn:E2; [done|]. injection Hp as <-. bprop.
    destruct H2 as (? & ? & _). split; [right; split; [done|lia]|lia].
  - simpl. intros p ->. bprop. destruct H1 as (? & ? & _).
    split; [left; split; [done|lia]|lia].
Qed.

(** ** Sealing *)

Lemma crc_fold_own_app l :
  bytes l -> crc_of (l ++ [crc_of l / 256; crc_of l mod 256]) = 0.
Proof.
  intros Hl. unfold crc_of at 1. rewrite crc_fold_app, crc_fold_own by done. done.
Qed.

Lemma st8_app (l r : list Z) x v :
  st8 (l ++ x :: r) (length l) v = Done (l ++ u8 v :: r).
Proof.
  unfold st8. rewrite length_app. simpl.
  destruct (_ <? _)%nat eqn:E; bprop; [|lia].
  f_equal. rewrite insert_app_r_alt by lia. by rewrite Nat.sub_diag.
Qed.

(** The sealed buffer: its head unchanged, then the CRC, high byte first. *)
Lemma seal_crc_eval buf n :
  length buf = n -> (2 <= n)%nat -> bytes buf ->
  let t := take (n - 2) buf in
  seal_crc buf n = Done (t ++ [crc_of t / 256; crc_of t mod 256]).
Proof.
  intros Hlen Hn Hb t. unfold seal_crc. rewrite crc16_eval by (done || lia). simpl.
  fold t. assert (0 <= crc_of t < 65536) as Hc by (apply crc_of_range; subst t; auto with cwp).
  assert (exists x y, buf = t ++ [x; y]) as (x & y & Hbuf).
  { exists (nth (n - 2) buf 0), (nth (n - 1) buf 0). subst t.
    rewrite <- (take_drop (n - 2) buf) at 1. f_equal.
    assert (length (drop (n - 2) buf) = 2%nat) as Hd by (rewrite length_drop; lia).
    destruct (drop (n - 2) buf) as [|x [|y [|]]] eqn:E; try done.
    assert (drop (n - 2) buf !! 0%nat = Some x) as Hx by by rewrite E.
    assert (drop (n - 2) buf !! 1%nat = Some y) as Hy by by rewrite E.
    rewrite lookup_drop in Hx, Hy.
    apply (nth_lookup_Some _ _ 0) in Hx, Hy. rewrite Nat.add_0_r in Hx.
    replace (n - 2 + 1)%nat with (n - 1)%nat in Hy by lia. by rewrite Hx, Hy. }
  assert (length t = n - 2)%nat as Ht by (subst t; rewrite length_take; lia).
  unfold st16be. rewrite Hbuf, <- Ht at 1. rewrite st8_app. simpl.
  replace (t ++ [u8 (u16 (crc_of t) / 256); y])
    with ((t ++ [u8 (u16 (crc_of t) / 256)]) ++ [y]) by by rewrite <- app_assoc.
  replace (Datatypes.S (n - 2)) with (length (t ++ [u8 (u16 (crc_of t) / 256)])).
  2: { rewrite length_app. simpl. lia. }
  rewrite st8_app, <- app_assoc. simpl. rewrite u8_u16, u16_small by done.
  do 3 f_equal. apply u8_small. auto with cwp.
Qed.

Lemma seal_crc_ok buf n :
  length buf = n -> (2 <= n)%nat -> bytes buf ->
  owp (seal_crc buf n) (fun b => crc_frame n b /\ take (n - 2) b = take (n - 2) buf).
Proof.
  intros Hlen Hn Hb. rewrite seal_crc_eval by done. simpl.
  set (t := take (n - 2) buf).
  assert (bytes t) as Ht by (subst t; auto with cwp).
  assert (0 <= crc_of t < 65536) as Hc by by apply crc_of_range.
  assert (length t = n - 2)%nat as Htl by (subst t; rewrite length_take; lia).
  assert (bytes (t ++ [crc_of t / 256; crc_of t mod 256])) as Hb'.
  { apply Forall_app. split; [done|]. repeat constructor; try apply hi_u8; try lia;
      apply Z.mod_pos_bound; lia. }
  assert (length (t ++ [crc_of t / 256; crc_of t mod 256]) = n) as Hl'.
  { rewrite length_app. simpl. lia. }
  split; [split; [done|split; [done|]]|].
  - rewrite crc16_eval by (done || lia). rewrite take_ge by lia.
    by rewrite crc_fold_own_app.
  - rewrite take_app_le by lia. rewrite take_ge by lia. done.
Qed.

(** ** Building frames

    [hdr n pre buf]: [buf] is an [n]-byte buffer that starts with [pre]; the
    rules below follow a sequence of stores, and [frame_auto] applies them. *)

Definition hdr (n : nat) (pre buf : list Z) : Prop :=
  length buf = n /\ bytes buf /\ take (length pre) buf = pre.

(** The frames of the Modbus plugins: a size in [ns], the address, a command
    in [cmds], and a valid CRC. *)
Definition mbus_frame (ns : list nat) (cmds : list Z) (devId : Z) (buf : list Z) : Prop :=
  crc_frame (length buf) buf /\ In (length buf) ns /\
  exists cmd rest, buf = devId :: cmd :: rest /\ In cmd cmds.

Lemma hdr_calloc n : hdr n [] (replicate n 0).
Proof. split; [apply length_replicate|]. split; [apply bytes_replicate|done]. Qed.

Lemma owp_st8_ext n pre buf k v Q :
  hdr n pre buf -> k = length pre -> (k < n)%nat ->
  (forall b, hdr n (pre ++ [u8 v]) b -> Q b) -> owp (st8 buf k v) Q.
Proof.
  intros (Hl & Hb & Hp) -> Hk HQ. apply owp_st8; [lia|]. apply HQ.
  split; [by rewrite length_insert|]. split; [auto with cwp|].
  rewrite length_app. simpl. rewrite Nat.add_1_r.
  rewrite (take_S_r _ _ (u8 v)) by (apply list_lookup_insert_eq; lia).
  rewrite take_insert_ge by lia. by rewrite Hp.
Qed.

Lemma owp_st8_keep n pre buf k v Q :
  hdr n pre buf -> (length pre <= k)%nat -> (k < n)%nat ->
  (forall b, hdr n pre b -> Q b) -> owp (st8 buf k v) Q.
Proof.
  intros (Hl & Hb & Hp) Hle Hk HQ. apply owp_st8; [lia|]. apply HQ.
  split; [by rewrite length_insert|]. split; [auto with cwp|].
  by rewrite take_insert_ge.
Qed.

Lemma owp_st8_within n pre buf k v Q :
  hdr n pre buf -> (k < length pre)%nat -> (k < n)%nat ->
  (forall b, hdr n (<[k := u8 v]> pre) b -> Q b) -> owp (st8 buf k v) Q.
Proof.
  intros (Hl & Hb & Hp) Hle Hk HQ. apply owp_st8; [lia|]. apply HQ.
  split; [by rewrite length_insert|]. split; [auto with cwp|].
  rewrite length_insert, take_insert_lt by lia. by rewrite Hp.
Qed.

Lemma owp_rd8_hdr n pre buf k Q :
  hdr n pre buf -> (k < n)%nat -> (forall b, is_u8 b -> Q b) -> owp (rd8 buf k) Q.
Proof.
  intros (Hl & Hb & _) Hk HQ. apply owp_rd8; [lia|]. intros b Hx.
  apply HQ. by eapply bytes_lookup.
Qed.

Lemma owp_seal_hdr n pre buf Q :
  hdr n pre buf -> (length pre + 2 <= n)%nat ->
  (forall b, crc_frame n b -> take (length pre) b = pre -> Q b) -> owp (seal_crc buf n) Q.
Proof.
  intros (Hl & Hb & Hp) Hn HQ. eapply owp_mono; [apply seal_crc_ok; done || lia|].
  intros b [Hf Ht]. apply HQ; [done|].
  rewrite <- Hp at 2. rewrite <- (Nat.min_l (length pre) (n - 2)) at 2 by lia; rewrite <- take_take.
  rewrite <- Ht. by rewrite take_take, Nat.min_l by lia.
Qed.

(** Sealing a prefix of a longer buffer. *)
Lemma st8_app_l l r k v :
  (k < length l)%nat -> st8 (l ++ r) k v = b <-! st8 l k v; Done (b ++ r).
Proof.
  intros Hk. unfold st8. rewrite length_app.
  destruct (_ <? _)%nat eqn:E1; bprop; [|lia].
  destruct (k <? length l)%nat eqn:E2; bprop; [|lia].
  simpl. by rewrite insert_app_l.
Qed.

Lemma seal_crc_app l r :
  bytes (l ++ r) -> (2 <= length l)%nat ->
  seal_crc (l ++ r) (length l) = b <-! seal_crc l (length l); Done (b ++ r).
Proof.
  intros Hb Hl. apply Forall_app in Hb as [Hbl Hbr]. unfold seal_crc.
  rewrite !crc16_eval by (rewrite ?length_app; try apply Forall_app; done || lia).
  rewrite take_app_le by lia. cbn [obind]. unfold st16be.
  rewrite st8_app_l by lia.
  destruct (st8 l (length l - 2) _) as [b|] eqn:E; [|done]. cbn [obind].
  rewrite st8_app_l; [done|]. unfold st8 in E.
  destruct (_ <? _)%nat; [|done]. injection E as <-. rewrite length_insert. lia.
Qed.

Lemma owp_seal_part N n pre buf Q :
  hdr N pre buf -> (n <= N)%nat -> (length pre + 2 <= n)%nat ->
  (forall b, length b = N -> crc_frame n (take n b) -> take (length pre) (take n b) = pre -> Q b) ->
  owp (seal_crc buf n) Q.
Proof.
  intros (Hl & Hb & Hp) HN Hn HQ.
  rewrite <- (take_drop n buf) in Hb |- *. set (l := take n buf) in *.
  assert (length l = n) as Hll by (subst l; rewrite length_take; lia).
  rewrite <- Hll at 2. rewrite seal_crc_app by (done || lia). rewrite Hll.
  apply owp_bind. eapply (owp_seal_hdr n pre).
  - split; [done|]. split; [by apply Forall_app in Hb as [? _]|].
    subst l. rewrite take_take, Nat.min_l by lia. done.
  - lia.
  - intros b Hf Ht. simpl. apply HQ.
    + rewrite length_app, length_drop. destruct Hf as [-> _]. lia.
    + rewrite take_app_le by (destruct Hf as [-> _]; lia).
      rewrite take_ge by (destruct Hf as [-> _]; lia). done.
    + rewrite take_app_le by (destruct Hf as [-> _]; lia).
      rewrite (take_ge b) by (destruct Hf as [-> _]; lia). done.
Qed.

(** A sealed buffer whose header is the address and a command is a frame. *)
Lemma mbus_frame_intro n ns cmds devId cmd pre b :
  crc_frame n b -> take (length (u8 devId :: u8 cmd :: pre)) b = u8 devId :: u8 cmd :: pre ->
  is_u8 devId -> In n ns -> In (u8 cmd) cmds -> mbus_frame ns cmds devId b.
Proof.
  intros Hf Ht Hd Hn Hc. assert (length b = n) as Hl by apply Hf.
  split; [by rewrite Hl|]. split; [by rewrite Hl|].
  destruct b as [|b0 [|b1 b]]; try done. simpl in Ht. injection Ht as E0 E1 _.
  rewrite E0, E1, u8_small by done. eauto.
Qed.

Lemma owp_eval {A} (o : outcome A) (r : A) (Q : A -> Prop) : o = Done r -> Q r -> owp o Q.
Proof. by intros ->. Qed.

Lemma built_none {S} (inv : S -> Prop) ok l0 e :
  inv (st e) -> live (mem e) = l0 -> built inv ok l0 None e.
Proof. done. Qed.

Lemma built_msg {S} (inv : S -> Prop) (ok : list Z -> Prop) l0 buf n e :
  inv (st e) -> live (mem e) = l0 + 2 -> n = Z.of_nat (length buf) -> ok buf ->
  built inv ok l0 (Some (a_msg buf n)) e.
Proof.
  intros ? ? -> ?. split; [done|]. split; [done|]. exists buf, (length buf).
  by rewrite take_ge by lia.
Qed.

Lemma built_part {S} (inv : S -> Prop) (ok : list Z -> Prop) l0 buf n e :
  inv (st e) -> live (mem e) = l0 + 2 -> (n <= length buf)%nat -> ok (take n buf) ->
  built inv ok l0 (Some (a_msg buf (Z.of_nat n))) e.
Proof. intros ? ? ? ?. split; [done|]. split; [done|]. by exists buf, n. Qed.

Lemma crc_frame_length n b : crc_frame n b -> length b = n.
Proof. by intros [? _]. Qed.

(** ** Frames closed by a sum *)

Definition sum_frame (n : nat) (buf : list Z) : Prop :=
  length buf = n /\ bytes buf /\
  exists body, buf = body ++ [u8 (sum_of body)].

(** [pBuf[n - 1] = cs(pBuf, n - 1);] *)
Definition seal_sum (buf : list Z) (n : nat) : outcome (list Z) :=
  c <-! cs buf (Z.of_nat (n - 1)); st8 buf (n - 1) c.

Lemma split_last (buf : list Z) n :
  length buf = n -> (1 <= n)%nat -> exists x, buf = take (n - 1) buf ++ [x].
Proof.
  intros Hl Hn. destruct (lookup_lt_is_Some_2 buf (n - 1)) as [x Hx]; [lia|].
  exists x. rewrite <- (take_S_r _ _ _ Hx). symmetry. apply take_ge. lia.
Qed.

Lemma owp_seal_sum n pre buf Q :
  hdr n pre buf -> (length pre + 1 <= n)%nat -> (n <= 256)%nat ->
  (forall b, sum_frame n b -> take (length pre) b = pre -> Q b) -> owp (seal_sum buf n) Q.
Proof.
  intros (Hl & Hb & Hp) Hn Hn' HQ. unfold seal_sum.
  rewrite cs_eval by lia. simpl. destruct (split_last buf n Hl) as [x Hx]; [lia|].
  set (t := take (n - 1) buf) in *.
  assert (length t = n - 1)%nat as Ht by (subst t; rewrite length_take; lia).
  rewrite Hx, <- Ht, st8_app, u8_idemp. simpl. apply HQ.
  - split; [rewrite length_app; simpl; lia|]. split; [|by exists t].
    apply Forall_app. split; [by apply bytes_take|]. repeat constructor; apply u8_range.
  - rewrite take_app_le by lia. subst t. rewrite take_take, Nat.min_l by lia. done.
Qed.

Lemma sum_frame_length n b : sum_frame n b -> length b = n.
Proof. by intros [? _]. Qed.

Lemma owp_int_of z Q : - 2 ^ 31 <= z < 2 ^ 31 -> Q z -> owp (int_of z) Q.
Proof.
  intros Hz HQ. unfold int_of.
  destruct ((_ <=? _) && (_ <? _)) eqn:E; [done|]. bprop. destruct E; bprop; lia.
Qed.

(** ** Static arrays of the plugins *)

Definition arr_get {A} (l : list A) (k : nat) : outcome A :=
  match l !! k with Some x => Done x | None => Undef end.
Definition arr_upd {A} (l : list A) (k : nat) (f : A -> A) : outcome (list A) :=
  match l !! k with Some x => Done (<[k := f x]> l) | None => Undef end.
Definition tab_get {A} (t : list (list A)) (i j : nat) : outcome A :=
  r <-! arr_get t i; arr_get r j.
Definition tab_upd {A} (t : list (list A)) (i j : nat) (f : A -> A) : outcome (list (list A)) :=
  r <-! arr_get t i; r <-! arr_upd r j f; arr_upd t i (fun _ => r).

(** An [m] by [n] table. *)
Definition tab_ok {A} (m n : nat) (t : list (list A)) : Prop :=
  length t = m /\ Forall (fun r => length r = n) t.

Lemma owp_arr_get {A} (l : list A) n k Q :
  length l = n -> (k < n)%nat -> (forall x, Q x) -> owp (arr_get l k) Q.
Proof.
  intros Hl Hk HQ. unfold arr_get.
  destruct (lookup_lt_is_Some_2 l k) as [x ->]; [lia|]. apply HQ.
Qed.

Lemma owp_arr_upd {A} (l : list A) n k f Q :
  length l = n -> (k < n)%nat -> (forall l', length l' = n -> Q l') -> owp (arr_upd l k f) Q.
Proof.
  intros Hl Hk HQ. unfold arr_upd.
  destruct (lookup_lt_is_Some_2 l k) as [x ->]; [lia|]. apply HQ. by rewrite length_insert.
Qed.

Lemma owp_tab_get {A} (t : list (list A)) m n i j Q :
  tab_ok m n t -> (i < m)%nat -> (j < n)%nat -> (forall x, Q x) -> owp (tab_get t i j) Q.
Proof.
  intros [Hm Hf] Hi Hj HQ. unfold tab_get, arr_get.
  destruct (lookup_lt_is_Some_2 t i) as [r Hr]; [lia|]. rewrite Hr. simpl.
  assert (length r = n) by (by apply (Forall_lookup_1 _ _ _ _ Hf Hr)).
  by eapply owp_arr_get.
Qed.

Lemma owp_tab_upd {A} (t : list (list A)) m n i j f Q :
  tab_ok m n t -> (i < m)%nat -> (j < n)%nat ->
  (forall t' x, tab_ok m n t' -> tab_get t' i j = Done (f x) -> Q t') ->
  owp (tab_upd t i j f) Q.
Proof.
  intros [Hm Hf] Hi Hj HQ. unfold tab_upd, arr_get.
  destruct (lookup_lt_is_Some_2 t i) as [r Hr]; [lia|]. rewrite Hr. simpl.
  assert (length r = n) as Hl by (by apply (Forall_lookup_1 _ _ _ _ Hf Hr)).
  unfold arr_upd at 1. destruct (lookup_lt_is_Some_2 r j) as [x Hx]; [lia|].
  rewrite Hx. simpl. unfold arr_upd. rewrite Hr. simpl. apply (HQ _ x).
  - split; [by rewrite length_insert|]. apply Forall_insert; [done|].
    by rewrite length_insert.
  - unfold tab_get, arr_get. rewrite list_lookup_insert_eq by lia. simpl.
    by rewrite list_lookup_insert_eq by lia.
Qed.

Lemma owp_known {A} (o : outcome A) (x : A) (Q : A -> Prop) : o = Done x -> Q x -> owp o Q.
Proof. by intros ->. Qed.

Ltac frame_step :=
  match goal with
  | |- wp (mbind _ _) _ _ => apply wp_bind
  | |- wp (mret _) _ _ => apply wp_ret
  | |- wp calloc_Msg _ _ => apply wp_calloc_Msg; intros ?; cbn [mem st live plan fst snd]
  | |- wp (calloc_pBuf ?n) _ _ => pose proof (hdr_calloc n); apply wp_calloc_pBuf; intros ?;
      cbn [mem st live plan fst snd];
      try match goal with |- context [replicate n 0] => generalize dependent (replicate n 0); intros ? ? end
  | |- wp getS _ _ => apply wp_getS; cbn [mem st live plan fst snd]
  | |- wp (putS _) _ _ => apply wp_putS; cbn [mem st live plan fst snd]
  | |- wp free _ _ => apply wp_free; cbn [mem st live plan fst snd]
  | |- wp (lift _) _ _ => apply wp_lift
  | |- wp (match ?x with _ => _ end) _ _ => destruct x eqn:?
  | |- owp (obind _ _) _ => apply owp_bind
  | |- owp (int_of _) _ => apply owp_int_of; [unfold is_u8 in *; bprop; lia|]
  | |- owp (Done _) _ => cbn [owp]
  | H : tab_get ?t ?i ?j = Done _ |- owp (tab_get ?t ?i ?j) _ =>
      apply (owp_known _ _ _ H); cbn [rcvValue set_rcvValue]
  | H : tab_ok _ _ ?t |- owp (tab_get ?t _ _) _ =>
      eapply owp_tab_get; [exact H|solve [bprop; subst; first [lia|eauto]]|vm_compute; lia|intros ?]
  | H : tab_ok _ _ ?t |- owp (tab_upd ?t _ _ _) _ =>
      eapply owp_tab_upd; [exact H|solve [bprop; subst; first [lia|eauto]]|vm_compute; lia|intros ? ? ? ?; clear H]
  | H : length ?t = _ |- owp (arr_get ?t _) _ =>
      eapply owp_arr_get; [exact H|vm_compute; lia|intros ?]
  | H : length ?t = _ |- owp (arr_upd ?t _ _) _ =>
      eapply owp_arr_upd; [exact H|vm_compute; lia|intros ? ?; clear H]
  | |- owp (match ?x with _ => _ end) _ => destruct x eqn:?
  | |- owp (st16be _ _ _) _ => unfold st16be at 1
  | |- owp (add8 _ _ _) _ => unfold add8 at 1
  | |- owp (add8i _ _ _) _ => unfold add8i at 1
  | |- owp (and8 _ _ _) _ => unfold and8 at 1
  | H : hdr _ _ ?b |- owp (rd8 ?b _) _ =>
      eapply owp_rd8_hdr; [exact H|lia|intros ? ?]
  | H : hdr _ _ ?b |- owp (st8 ?b _ _) _ =>
      first [ eapply owp_st8_ext; [exact H|reflexivity|lia|intros ? ?; clear H; cbn [app] in *]
            | eapply owp_st8_keep; [exact H|cbn [length]; lia|lia|intros ? ?; clear H]
            | eapply owp_st8_within; [exact H|cbn [length]; lia|lia
                                     |intros ? ?; clear H; cbn [insert list_insert] in *] ]
  | H : hdr _ _ ?b |- owp (seal_crc ?b _) _ =>
      eapply owp_seal_hdr; [exact H|cbn [length]; lia|intros ? ? ?; clear H]
  | H : hdr _ _ ?b |- owp (seal_sum ?b _) _ =>
      eapply owp_seal_sum; [exact H|cbn [length]; lia|lia|intros ? ? ?; clear H]
  | |- built _ _ _ None _ => apply built_none; cbn [mem st live plan fst snd]
  | |- built _ _ _ (Some _) _ =>
      apply built_msg; cbn [mem st live plan fst snd];
      [ | | first [erewrite crc_frame_length by eassumption | erewrite sum_frame_length by eassumption]; reflexivity
        | try solve [eapply mbus_frame_intro; [eassumption|eassumption|assumption|simpl; auto 6|
            vm_compute; auto 6]] ]
  end.

(** The same walk on a buffer whose bytes are written out. *)
Ltac conc_step :=
  match goal with
  | |- wp (calloc_pBuf _) _ _ => apply wp_calloc_pBuf; intros ?; cbn [mem st live plan replicate]
  | |- owp (st16be _ _ _) _ => unfold st16be at 1
  | |- owp (add8 _ _ _) _ => unfold add8 at 1
  | |- owp (add8i _ _ _) _ => unfold add8i at 1
  | |- owp (and8 _ _ _) _ => unfold and8 at 1
  | |- owp (st8 (_ :: _) _ _) _ =>
      eapply owp_eval;
      [unfold st8; cbn [length Nat.ltb Nat.leb insert list_insert]; reflexivity|]
  | |- owp (rd8 (_ :: _) _) _ =>
      eapply owp_eval; [unfold rd8; cbn [lookup list_lookup]; reflexivity|]
  | |- _ => frame_step
  end.

Ltac conc_auto := cbv zeta; repeat conc_step; try done; try lia.

Ltac frame_auto :=
  cbv zeta; repeat frame_step; try done; try lia; auto with cwp.

(** ** Running [parse] *)

Lemma owp_memmatch pBuf key len (Q : option nat -> Prop) :
  (Z.to_nat len <= length pBuf)%nat ->
  (forall p, word_at pBuf p key -> Z.of_nat p + 2 < len -> Q (Some p)) ->
  Q None -> owp (memmatch pBuf key len) Q.
Proof.
  intros Hl Hs Hn. eapply owp_mono; [by apply memmatch_ok|].
  intros [p|] Hp; [|done]. destruct Hp as (? & ? & _). apply Hs; [done|lia].
Qed.

Lemma wp_undef {S A} (Q : A -> S -> Prop) s : False -> wp undef Q s.
Proof. done. Qed.

Lemma owp_find1 pBuf key len min (Q : option nat -> Prop) :
  (Z.to_nat len <= length pBuf)%nat ->
  (forall p, word_at pBuf p key -> Z.of_nat p + min <= len -> Z.of_nat p + 2 < len -> Q (Some p)) ->
  Q None -> owp (find1 pBuf len key min) Q.
Proof.
  intros Hl Hs Hn. apply owp_bind, owp_memmatch; [done| |done]. intros p Hw Hp. simpl.
  destruct (_ <? _) eqn:E; [done|]. bprop. apply Hs; [done|lia|lia].
Qed.

(** The byte at a matched position plus one is the command looked for. *)
Lemma word_at_bytes buf p h c :
  bytes buf -> is_u8 h -> is_u8 c -> word_at buf p (u16 (h * 256 + c)) ->
  buf !! p = Some h /\ buf !! (p + 1)%nat = Some c.
Proof.
  intros Hb Hh Hc Hw. unfold is_u8 in Hh, Hc. rewrite u16_small in Hw by lia.
  unfold word_at, rd16be, rd8 in Hw. rewrite Nat.add_1_r.
  destruct (buf !! p) as [x|] eqn:Ex; [|done]. simpl in Hw.
  destruct (buf !! Datatypes.S p) as [y|] eqn:Ey; [|done]. simpl in Hw. injection Hw as E.
  apply (bytes_lookup _ _ _ Hb) in Ex. apply (bytes_lookup _ _ _ Hb) in Ey.
  unfold is_u8 in *. split; f_equal; lia.
Qed.

Lemma owp_find2 pBuf len h c1 min1 c2 min2 (Q : option nat -> Prop) :
  (Z.to_nat len <= length pBuf)%nat -> bytes pBuf -> is_u8 h -> is_u8 c1 -> is_u8 c2 ->
  (forall p c, pBuf !! p = Some h -> pBuf !! (p + 1)%nat = Some c ->
             c = c1 /\ Z.of_nat p + min1 <= len \/ c = c2 /\ Z.of_nat p + min2 <= len ->
             Z.of_nat p + 2 < len -> Q (Some p)) ->
  Q None -> owp (find2 pBuf len (u16 (h * 256 + c1)) min1 (u16 (h * 256 + c2)) min2) Q.
Proof.
  intros Hl Hb Hh Hc1 Hc2 Hs Hn. eapply owp_mono; [by apply find2_ok|].
  intros [p|] Hp; [|done]. destruct (Hp p eq_refl) as [[[Hw ?]|[Hw ?]] ?];
    apply word_at_bytes in Hw as [? ?]; eauto.
Qed.

Lemma owp_rd8_known buf k b Q : buf !! k = Some b -> Q b -> owp (rd8 buf k) Q.
Proof. unfold rd8. by intros ->. Qed.

Lemma parsed_none {S} (inv : S -> Prop) k l0 e :
  inv (st e) -> l0 <= live (mem e) <= l0 + k -> parsed inv k l0 None e.
Proof. done. Qed.

Lemma parsed_some {S} (inv : S -> Prop) k l0 ob e :
  inv (st e) -> live (mem e) = l0 + Z.of_nat (length ob) -> last ob = Some None ->
  parsed inv k l0 (Some ob) e.
Proof. done. Qed.


(** Evaluates an array index written with the enumerators of a plugin. *)
Ltac index k := let k' := eval vm_compute in k in try (progress change k with k').

Ltac eval_objs k :=
  eapply owp_eval; [index k; cbn [put upd_obj null_obj obind]; reflexivity|].

Ltac parse_step :=
  match goal with
  | |- wp (mbind _ _) _ _ => apply wp_bind
  | |- wp (mret _) _ _ => apply wp_ret
  | |- wp undef _ _ => apply wp_undef
  | |- wp (NewMbusObjs ?n) _ _ => index n; apply wp_NewMbusObjs; intros ?; cbn [replicate app mem st live plan]
  | |- wp getS _ _ => apply wp_getS; cbn [mem st live plan fst snd]
  | |- wp (putS _) _ _ => apply wp_putS; cbn [mem st live plan fst snd]
  | |- wp free _ _ => apply wp_free; cbn [mem st live plan fst snd]
  | |- wp (lift _) _ _ => apply wp_lift
  | |- wp (match ?x with _ => _ end) _ _ => destruct x eqn:?
  | |- owp (find2 _ _ _ _ _ _) _ =>
      apply owp_find2; [assumption|assumption|assumption|vm_compute; intuition congruence
                       |vm_compute; intuition congruence|intros ? ? ? ? ? ?|]
  | |- owp (memmatch _ _ _) _ => apply owp_memmatch; [assumption|intros ? ? ?|]
  | |- owp (find1 _ _ _ _) _ => apply owp_find1; [assumption|intros ? ? ? ?|]
  | |- owp (obind _ _) _ => apply owp_bind
  | |- owp (int_of _) _ => apply owp_int_of; [unfold is_u8 in *; bprop; lia|]
  | |- owp (Done _) _ => cbn [owp]
  | H : ?b !! ?k = Some _ |- owp (rd8 ?b ?k) _ => apply (owp_rd8_known _ _ _ _ H)
  | |- owp (rd8 _ _) _ => apply owp_rd8; [bprop; lia|intros ? ?]
  | |- owp (rd16be _ _) _ => apply owp_rd16be; [bprop; lia|intros ? ? ? ?]
  | H : tab_get ?t ?i ?j = Done _ |- owp (tab_get ?t ?i ?j) _ =>
      apply (owp_known _ _ _ H); cbn [rcvValue set_rcvValue]
  | H : tab_ok _ _ ?t |- owp (tab_get ?t _ _) _ =>
      eapply owp_tab_get; [exact H|solve [bprop; subst; first [lia|eauto]]|vm_compute; lia|intros ?]
  | H : tab_ok _ _ ?t |- owp (tab_upd ?t _ _ _) _ =>
      eapply owp_tab_upd; [exact H|solve [bprop; subst; first [lia|eauto]]|vm_compute; lia|intros ? ? ? ?; clear H]
  | H : length ?t = _ |- owp (arr_get ?t _) _ =>
      eapply owp_arr_get; [exact H|vm_compute; lia|intros ?]
  | H : length ?t = _ |- owp (arr_upd ?t _ _) _ =>
      eapply owp_arr_upd; [exact H|vm_compute; lia|intros ? ?; clear H]
  | |- owp (match ?x with _ => _ end) _ => destruct x eqn:?
  | |- owp (put _ ?k _ _) _ => eval_objs k
  | |- owp (upd_obj _ ?k _) _ => eval_objs k
  | |- owp (null_obj _ ?k) _ => eval_objs k
  | |- parsed _ _ _ None _ => apply parsed_none; cbn [mem st live plan fst snd]
  | |- parsed _ _ _ (Some _) _ => apply parsed_some; cbn [mem st live plan length fst snd]
  end.

Ltac parse_auto := cbv zeta; repeat parse_step; try done; try lia; auto with cwp.
