(* ===== verification/VentPlugins.v ===== *)
(** Ventilation plugins (plugin/compile/Mbus_Vent_*.c), one Module each. *)

From S2P Require Import Prelude CMem Crc Device PluginApi.

Module DTouch.

Definition SWITCH : nat := 0.
Definition SPEED : nat := 1.
Definition MODE : nat := 2.
Definition MAX_IDX : nat := 3.
Definition READ_CODE : Z := 3.
Definition WRITE_CODE : Z := 6.

Definition build : build_t unit := fun devId regAddr groupAddr pvMbusNode pObj =>
  match pvMbusNode with
  | None => mret None
  | Some pVent =>
  if negb (pSwitch pVent) || negb (pSpeed pVent) then mret None else
  _ <-? calloc_Msg;
  pBuf <-? calloc_pBuf 8;
  pBuf ← lift (
    pBuf <-! st8 pBuf 0 devId;
    match pObj with
    | None =>
        pBuf <-! st8 pBuf 1 READ_CODE;
        pBuf <-! st8 pBuf 3 1;
        pBuf <-! st8 pBuf 5 0x1f;
        seal_crc pBuf 8
    | Some pObj =>
        pBuf <-! st8 pBuf 1 WRITE_CODE;
        pBuf <-! (
          if dpid pObj =? 39 then
            pBuf <-! st8 pBuf 3 1;
            if dp_bool pObj then st8 pBuf 5 1 else st8 pBuf 5 0
          else if dpid pObj =? 28 then
            pBuf <-! st8 pBuf 3 3;
            if dp_enum pObj =? 0 then st8 pBuf 5 1
            else if dp_enum pObj =? 1 then st8 pBuf 5 3
            else Done pBuf
          else if dpid pObj =? 101 then
            pBuf <-! st8 pBuf 3 2;
            if dp_enum pObj =? 0 then st8 pBuf 5 1
            else if dp_enum pObj =? 1 then st8 pBuf 5 3
            else Done pBuf
          else Done pBuf);
        seal_crc pBuf 8
    end);
  mret (Some (a_msg pBuf 8))
  end.

#[export] Instance build_ok : BuildOk (fun _ => True) (fun _ _ _ _ => True)
  (mbus_frame [8%nat] [READ_CODE; WRITE_CODE]) build.
Proof.
  intros devId regAddr groupAddr node pObj e Hd Hr Hg _ _. unfold build.
  frame_auto.
Qed.

Definition parse : parse_t unit := fun devId regAddr pvMbusNode pBuf len =>
  match pBuf with
  | None => mret None
  | Some pBuf =>
  if len <? 8 then mret None else
  match pvMbusNode with
  | None => undef
  | Some pVent =>
  if negb (pSwitch pVent) || negb (pSpeed pVent) then mret None else
  pos <-? lift (find2 pBuf len (u16 (devId * 256 + READ_CODE)) 14
                              (u16 (devId * 256 + WRITE_CODE)) 14);
  c ← lift (rd8 pBuf (pos + 1));
  if negb (c =? READ_CODE) then mret None else
  ob <-? NewMbusObjs (MAX_IDX + 1);
  ob ← lift (
    ob <-! null_obj ob MAX_IDX;
    ob <-! upd_obj ob SWITCH (set_localPoint 39);
    ob <-! upd_obj ob SPEED (set_localPoint 28);
    ob <-! upd_obj ob MODE (set_localPoint 101);
    b <-! rd8 pBuf (pos + 4);
    ob <-! (if b =? 1 then upd_obj ob SWITCH (set_value 1)
            else upd_obj ob SWITCH (set_value 0));
    b <-! rd8 pBuf (pos + 6);
    ob <-! (if b =? 1 then upd_obj ob SPEED (set_value 0)
            else if b =? 3 then upd_obj ob SPEED (set_value 1)
            else Done ob);
    b <-! rd8 pBuf (pos + 8);
    if b =? 3 then upd_obj ob MODE (set_value 1)
    else upd_obj ob MODE (set_value 0));
  mret (Some ob)
  end end.

#[export] Instance parse_ok : ParseOk (fun _ => True) 0 (fun _ _ node _ _ => node <> None) parse.
Proof.
  intros devId regAddr node buf len e Hd Hr Hb Hl Hlen Hn _. unfold parse.
  parse_auto.
Qed.

End DTouch.

Module ERDH.

Definition SWITCH : nat := 0.
Definition SPEED : nat := 1.
Definition MODE : nat := 2.
Definition MAX_IDX : nat := 3.
Definition READ_CODE : Z := 0x10.
Definition WRITE_CODE : Z := 0x11.

(** [static MbusObj_t MbusObj[MAX_IDX];] *)
Definition MbusObj : list MbusObj_t := replicate MAX_IDX MbusObj0.
Definition inv (s : list MbusObj_t) : Prop := length s = MAX_IDX.

Definition build : build_t (list MbusObj_t) := fun devId regAddr groupAddr pvMbusNode pObj =>
  match pvMbusNode with
  | None => mret None
  | Some pVent =>
  if negb (pSwitch pVent) || negb (pSpeed pVent) then mret None else
  _ <-? calloc_Msg;
  match pObj with
  | None =>
      pBuf <-? calloc_pBuf 8;
      pBuf ← lift (
        pBuf <-! st8 pBuf 0 devId;
        pBuf <-! st8 pBuf 1 READ_CODE;
        seal_crc pBuf 8);
      mret (Some (a_msg pBuf 8))
  | Some pObj =>
      pBuf <-? calloc_pBuf 12;
      pBuf ← lift (
        pBuf <-! st8 pBuf 0 devId;
        pBuf <-! st8 pBuf 1 WRITE_CODE;
        pBuf <-! st16be pBuf 4 0x4;
        pBuf <-! (
          if dpid pObj =? 8 then
            pBuf <-! st8 pBuf 6 2; st8 pBuf 8 (dp_value pObj)
          else if dpid pObj =? 22 then
            pBuf <-! st8 pBuf 6 4; st8 pBuf 7 (if dp_bool pObj then 4 else 0)
          else if dpid pObj =? 28 then
            pBuf <-! st8 pBuf 6 8; st8 pBuf 7 (if negb (dp_value pObj =? 0) then 8 else 0)
          else if dpid pObj =? 39 then
            pBuf <-! st8 pBuf 6 5; st8 pBuf 7 (if dp_bool pObj then 5 else 0)
          else if dpid pObj =? 101 then
            pBuf <-! st8 pBuf 6 0x10;
            if dp_enum pObj =? 0 then st8 pBuf 7 0
            else if dp_enum pObj =? 1 then st8 pBuf 7 0x10
            else Done pBuf
          else Done pBuf);
        seal_crc pBuf 12);
      mret (Some (a_msg pBuf 12))
  end
  end.

#[export] Instance build_ok : BuildOk inv (fun _ _ _ _ => True)
  (mbus_frame [8%nat; 12%nat] [READ_CODE; WRITE_CODE]) build.
Proof.
  intros devId regAddr groupAddr node pObj e Hd Hr Hg _ Hi. unfold build. frame_auto.
Qed.

Definition parse : parse_t (list MbusObj_t) := fun devId regAddr pvMbusNode pBuf len =>
  match pBuf with
  | None => mret None
  | Some pBuf =>
  if len <? 8 then mret None else
  match pvMbusNode with
  | None => undef
  | Some pVent =>
  if negb (pSwitch pVent) || negb (pSpeed pVent) then mret None else
  pos <-? lift (find2 pBuf len (u16 (devId * 256 + READ_CODE)) 14
                              (u16 (devId * 256 + WRITE_CODE)) 7);
  ob <-? NewMbusObjs (MAX_IDX + 1);
  ob ← lift (null_obj ob MAX_IDX);
  c ← lift (rd8 pBuf (pos + 1));
  s ← getS;
  if negb (c =? READ_CODE) then
    r ← lift (
      b <-! rd8 pBuf (pos + 6);
      let sw := Z.land b 0x01 in
      let sp := Z.shiftr (Z.land b 0x04) 2 in
      let md := Z.shiftr (Z.land b 0x08) 3 in
      ob <-! put ob SWITCH VENT_SWITCH sw;
      ob <-! put ob SPEED VENT_SPEED sp;
      ob <-! put ob MODE VENT_MODE md;
      s <-! arr_upd s SWITCH (set_value sw);
      s <-! arr_upd s SPEED (set_value sp);
      s <-! arr_upd s MODE (set_value md);
      Done (ob, s));
    _ ← putS r.2;
    mret (Some r.1)
  else if negb (c =? WRITE_CODE) then
    ob ← lift (
      o <-! arr_get s SWITCH; ob <-! put ob SWITCH VENT_SWITCH (value o);
      o <-! arr_get s SPEED; ob <-! put ob SPEED VENT_SPEED (value o);
      o <-! arr_get s MODE; put ob MODE VENT_MODE (value o));
    mret (Some ob)
  else mret (Some ob)
  end end.

#[export] Instance parse_ok : ParseOk inv 0 (fun _ _ node _ _ => node <> None) parse.
Proof.
  intros devId regAddr node buf len e Hd Hr Hb Hl Hlen Hn Hi. unfold parse, inv in *.
  parse_auto.
Qed.

End ERDH.

Module ERDH45.

Definition SWITCH : nat := 0.
Definition SPEED : nat := 1.
Definition HUMIDITY_SET : nat := 2.
Definition HUMIDITY_INDOOR : nat := 3.
Definition FRESH_AIR_VALVE : nat := 4.
Definition MODE : nat := 5.
Definition MAX_IDX : nat := 6.
Definition READ_CODE : Z := 0x10.
Definition WRITE_CODE : Z := 0x11.

Definition build : build_t unit := fun devId regAddr groupAddr pvMbusNode pObj =>
  match pvMbusNode with
  | None => mret None
  | Some pVent =>
  if negb (pSwitch pVent) || negb (pSpeed pVent) then mret None else
  _ <-? calloc_Msg;
  match pObj with
  | None =>
      pBuf <-? calloc_pBuf 8;
      pBuf ← lift (
        pBuf <-! st8 pBuf 0 devId;
        pBuf <-! st8 pBuf 1 READ_CODE;
        seal_crc pBuf 8);
      mret (Some (a_msg pBuf 8))
  | Some pObj =>
      pBuf <-? calloc_pBuf 12;
      pBuf ← lift (
        pBuf <-! st8 pBuf 0 devId;
        pBuf <-! st8 pBuf 1 WRITE_CODE;
        pBuf <-! st16be pBuf 4 0x4;
        pBuf <-! (
          if dpid pObj =? 8 then
            pBuf <-! st8 pBuf 6 2; st8 pBuf 8 (dp_value pObj)
          else if dpid pObj =? 22 then
            pBuf <-! st8 pBuf 6 4; st8 pBuf 7 (if dp_bool pObj then 4 else 0)
          else if dpid pObj =? 28 then
            pBuf <-! st8 pBuf 6 8; st8 pBuf 7 (if negb (dp_value pObj =? 0) then 8 else 0)
          else if dpid pObj =? 39 then
            pBuf <-! st8 pBuf 6 5; st8 pBuf 7 (if dp_bool pObj then 5 else 0)
          else if dpid pObj =? 101 then
            pBuf <-! st8 pBuf 6 0x10;
            if dp_enum pObj =? 0 then st8 pBuf 7 0
            else if dp_enum pObj =? 1 then st8 pBuf 7 0x10
            else Done pBuf
          else Done pBuf);
        seal_crc pBuf 12);
      mret (Some (a_msg pBuf 12))
  end
  end.

#[export] Instance build_ok : BuildOk (fun _ => True) (fun _ _ _ _ => True)
  (mbus_frame [8%nat; 12%nat] [READ_CODE; WRITE_CODE]) build.
Proof.
  intros devId regAddr groupAddr node pObj e Hd Hr Hg _ Hi. unfold build. frame_auto.
Qed.

Definition parse : parse_t unit := fun devId regAddr pvMbusNode pBuf len =>
  match pBuf with
  | None => mret None
  | Some pBuf =>
  if len <? 15 then mret None else
  match pvMbusNode with
  | None => undef
  | Some pVent =>
  if negb (pSwitch pVent) || negb (pSpeed pVent) then mret None else
  pos <-? lift (find2 pBuf len (u16 (devId * 256 + READ_CODE)) 14
                              (u16 (devId * 256 + WRITE_CODE)) 14);
  c ← lift (rd8 pBuf (pos + 1));
  if negb (c =? READ_CODE) then mret None else
  ob <-? NewMbusObjs (MAX_IDX + 1);
  ob ← lift (
    ob <-! null_obj ob MAX_IDX;
    b6 <-! rd8 pBuf (pos + 6);
    b8 <-! rd8 pBuf (pos + 8);
    b9 <-! rd8 pBuf (pos + 9);
    ob <-! put ob SWITCH VENT_SWITCH (Z.land b6 0x01);
    ob <-! put ob SPEED VENT_SPEED (Z.shiftr (Z.land b6 0x04) 2);
    ob <-! put ob FRESH_AIR_VALVE VENT_VALVE (Z.shiftr (Z.land b6 0x02) 1);
    ob <-! put ob MODE VENT_MODE (Z.shiftr (Z.land b6 0x08) 3);
    ob <-! put ob HUMIDITY_SET VENT_HUMI b8;
    put ob HUMIDITY_INDOOR VENT_ENV_HUMI b9);
  mret (Some ob)
  end end.

#[export] Instance parse_ok : ParseOk (fun _ => True) 0 (fun _ _ node _ _ => node <> None) parse.
Proof.
  intros devId regAddr node buf len e Hd Hr Hb Hl Hlen Hn _. unfold parse. parse_auto.
Qed.

End ERDH45.

Module Noah.

Definition SWITCH : nat := 0.
Definition SPEED : nat := 1.
Definition MAX_IDX : nat := 2.

Definition build : build_t unit := fun devId regAddr groupAddr pvMbusNode pObj =>
  match pvMbusNode with
  | None => mret None
  | Some pVent =>
  if negb (pSwitch pVent) || negb (pSpeed pVent) then mret None else
  _ <-? calloc_Msg;
  pBuf <-? calloc_pBuf 11;
  pBuf ← lift (
    pBuf <-! st8 pBuf 0 0xAA;
    pBuf <-! st8 pBuf 1 0x5A;
    pBuf <-! st8 pBuf 2 devId;
    match pObj with
    | None => seal_sum pBuf 11
    | Some pObj =>
        pBuf <-! st8 pBuf 3 1;
        pBuf <-! (
          if dpid pObj =? 39 then
            if dp_bool pObj then pBuf <-! st8 pBuf 4 1; st8 pBuf 5 1 else Done pBuf
          else if (dpid pObj =? 28) || (dpid pObj =? 101) then
            pBuf <-! st8 pBuf 4 1;
            if dp_enum pObj =? 1 then st8 pBuf 5 1
            else if dp_enum pObj =? 2 then st8 pBuf 5 3
            else if dp_enum pObj =? 3 then st8 pBuf 5 5
            else Done pBuf
          else Done pBuf);
        seal_sum pBuf 11
    end);
  mret (Some (a_msg pBuf 11))
  end.

(** The frames of the noah host. *)
Definition frame (devId : Z) (buf : list Z) : Prop :=
  sum_frame 11 buf /\ take 3 buf = [0xAA; 0x5A; devId].

Lemma noah_frame_intro devId pre b :
  is_u8 devId -> sum_frame 11 b ->
  take (length (u8 0xAA :: u8 0x5A :: u8 devId :: pre)) b = u8 0xAA :: u8 0x5A :: u8 devId :: pre ->
  frame devId b.
Proof.
  intros Hd Hf Ht. split; [done|]. rewrite (u8_small devId) in Ht by done.
  apply (f_equal (take 3)) in Ht. rewrite take_take in Ht. exact Ht.
Qed.

#[export] Instance build_ok : BuildOk (fun _ => True) (fun _ _ _ _ => True) frame build.
Proof.
  intros devId regAddr groupAddr node pObj e Hd Hr Hg _ _. unfold build. frame_auto.
  all: by eapply noah_frame_intro.
Qed.

Definition parse : parse_t unit := fun devId regAddr pvMbusNode pBuf len =>
  match pBuf with
  | None => mret None
  | Some pBuf =>
  if len <? 23 then mret None else
  match pvMbusNode with
  | None => undef
  | Some pVent =>
  if negb (pSwitch pVent) || negb (pSpeed pVent) then mret None else
  pos <-? lift (memmatch pBuf 0xAAA5 len);
  if len - Z.of_nat pos <? 22 then mret None else
  ob <-? NewMbusObjs (MAX_IDX + 1);
  ob ← lift (
    ob <-! null_obj ob MAX_IDX;
    b <-! rd8 pBuf (pos + 6);
    ob <-! put ob SWITCH VENT_SWITCH (if b =? 0 then 0 else 1);
    ob <-! (if b <=? 2 then upd_obj ob SPEED (set_value 1)
            else if b =? 3 then upd_obj ob SPEED (set_value 2)
            else upd_obj ob SPEED (set_value 3));
    upd_obj ob SPEED (set_localPoint VENT_SPEED));
  mret (Some ob)
  end end.

#[export] Instance parse_ok : ParseOk (fun _ => True) 0 (fun _ _ node _ _ => node <> None) parse.
Proof.
  intros devId regAddr node buf len e Hd Hr Hb Hl Hlen Hn _. unfold parse. parse_auto.
Qed.

End Noah.

Module VentDaikin.

Definition READ_CODE : Z := 0x4.
Definition WRITE_CODE : Z := 0x6.
Definition REG_ADDR : Z := 0x07D0.
Definition STATUS_REG_LEN : Z := 6.
Definition CTRL_REG_LEN : Z := 3.
Definition MODBUS_MIN_LEN : Z := 7.
Definition CLOUD_VENT_SWTICH : Z := 39.
Definition CLOUD_VENT_SPEED : Z := 28.
Definition SWITCH : nat := 0.
Definition SPEED : nat := 1.
Definition DIR : nat := 2.
Definition MAX_IDX : nat := 3.

(** [static MbusObj_t MbusObj[16][3];] *)
Definition MbusObj : list (list MbusObj_t) := replicate 16 (replicate 3 MbusObj0).
Definition inv : list (list MbusObj_t) -> Prop := tab_ok 16 3.

Definition build : build_t (list (list MbusObj_t)) := fun devId regAddr groupAddr pvMbusNode pObj =>
  _ <-? calloc_Msg;
  pBuf <-? calloc_pBuf 8;
  s ← getS;
  pBuf ← lift (
    pBuf <-! st8 pBuf 0 devId;
    match pObj with
    | None =>
        pBuf <-! st8 pBuf 1 READ_CODE;
        pBuf <-! st16be pBuf 2 (REG_ADDR + STATUS_REG_LEN * regAddr);
        pBuf <-! st8 pBuf 4 0x0;
        pBuf <-! st8 pBuf 5 0x1;
        seal_crc pBuf 8
    | Some pObj =>
        pBuf <-! st8 pBuf 1 WRITE_CODE;
        pBuf <-! (
          if dpid pObj =? CLOUD_VENT_SWTICH then
            pBuf <-! st16be pBuf 2 (REG_ADDR + CTRL_REG_LEN * regAddr + 0);
            sp <-! tab_get s (Z.to_nat groupAddr) SPEED;
            pBuf <-! st8 pBuf 4 (Z.shiftl (rcvValue sp) 4);
            di <-! tab_get s (Z.to_nat groupAddr) DIR;
            pBuf <-! add8 pBuf 4 (rcvValue di);
            st8 pBuf 5 (b2z (dp_bool pObj))
          else if dpid pObj =? CLOUD_VENT_SPEED then
            pBuf <-! st16be pBuf 2 (REG_ADDR + CTRL_REG_LEN * regAddr + 0);
            pBuf <-! (if dp_enum pObj =? 0 then st8 pBuf 4 0x10
                      else if dp_enum pObj =? 1 then st8 pBuf 4 0x50
                      else Done pBuf);
            di <-! tab_get s (Z.to_nat groupAddr) DIR;
            pBuf <-! add8 pBuf 4 (rcvValue di);
            sw <-! tab_get s (Z.to_nat groupAddr) SWITCH;
            st8 pBuf 5 (rcvValue sw)
          else Done pBuf);
        seal_crc pBuf 8
    end);
  mret (Some (a_msg pBuf 8)).

(** The static table has 16 rows and [groupAddr] is not checked. *)
#[export] Instance build_ok : BuildOk inv
  (fun _ groupAddr _ pObj => pObj = None \/ groupAddr < 16)
  (mbus_frame [8%nat] [READ_CODE; WRITE_CODE]) build.
Proof.
  intros devId regAddr groupAddr node pObj e Hd Hr Hg Hpre Hi. unfold build, inv in *.
  destruct Hpre as [->|?]; frame_auto.
Qed.

(** The middle and the high speed of the device from its three bits. *)
Definition parse : parse_t (list (list MbusObj_t)) := fun devId regAddr pvMbusNode pBuf len =>
  match pBuf with
  | None => mret None
  | Some pBuf =>
  if len <? MODBUS_MIN_LEN then mret None else
  pos <-? lift (find2 pBuf len (u16 (devId * 256 + READ_CODE)) MODBUS_MIN_LEN
                              (u16 (devId * 256 + WRITE_CODE)) MODBUS_MIN_LEN);
  c ← lift (rd8 pBuf (pos + 1));
  s ← getS;
  if c =? READ_CODE then
    ob <-? NewMbusObjs MAX_IDX;
    r ← lift (
      let row := Z.to_nat regAddr in
      b3 <-! rd8 pBuf (pos + 3);
      b4 <-! rd8 pBuf (pos + 4);
      s <-! tab_upd s row SWITCH (set_rcvValue (Z.land b4 0x1));
      s <-! tab_upd s row DIR (set_rcvValue (Z.land b3 0xF));
      s <-! tab_upd s row SPEED (set_rcvValue (Z.land (Z.shiftr b3 4) 0x7));
      ob <-! upd_obj ob SWITCH (set_localPoint VENT_SWITCH);
      ob <-! upd_obj ob DIR (set_localPoint VENT_WIND_DIR);
      ob <-! upd_obj ob SPEED (set_localPoint VENT_SPEED);
      sw <-! tab_get s row SWITCH;
      ob <-! upd_obj ob SWITCH (set_value (rcvValue sw));
      sp <-! tab_get s row SPEED;
      if rcvValue sp <=? 3 then
        s <-! tab_upd s row SPEED (set_rcvValue 1);
        ob <-! upd_obj ob SPEED (set_value 0); Done (ob, s)
      else
        s <-! tab_upd s row SPEED (set_rcvValue 5);
        ob <-! upd_obj ob SPEED (set_value 1); Done (ob, s));
    _ ← putS r.2;
    mret (Some r.1)
  else if c =? WRITE_CODE then
    b2 ← lift (rd8 pBuf (pos + 2));
    b3 ← lift (rd8 pBuf (pos + 3));
    let reg := reg_of REG_ADDR b2 b3 in
    let air := Z.to_nat (reg / 3) in
    let idx := reg mod 3 in
    ob <-? NewMbusObjs 2;
    if idx =? 0 then
      r ← lift (
        b4 <-! rd8 pBuf (pos + 4);
        b5 <-! rd8 pBuf (pos + 5);
        s <-! tab_upd s air SWITCH (set_rcvValue (Z.land b5 0x1));
        ob <-! upd_obj ob 0 (set_value (Z.land b5 0x1));
        s <-! tab_upd s air SPEED (set_rcvValue (Z.land (Z.shiftr b4 4) 0x7));
        sp <-! tab_get s air SPEED;
        r <-! (
          if rcvValue sp <=? 3 then
            s <-! tab_upd s air SPEED (set_rcvValue 1);
            ob <-! upd_obj ob 1 (set_value 0); Done (ob, s)
          else
            s <-! tab_upd s air SPEED (set_rcvValue 5);
            ob <-! upd_obj ob 1 (set_value 1); Done (ob, s));
        ob <-! upd_obj r.1 0 (set_localPoint VENT_SWITCH);
        ob <-! upd_obj ob 1 (set_localPoint VENT_SPEED);
        Done (ob, r.2));
      _ ← putS r.2;
      mret (Some r.1)
    else mret (Some ob)
  else mret None
  end.

(** The row a write acknowledgement selects, when it selects one. *)
Definition row_ok (devId : Z) (buf : list Z) : Prop :=
  forall p b2 b3, buf !! p = Some devId -> buf !! (p + 1)%nat = Some WRITE_CODE ->
    buf !! (p + 2)%nat = Some b2 -> buf !! (p + 3)%nat = Some b3 ->
    (Z.to_nat (reg_of REG_ADDR b2 b3 / 3) < 16)%nat.

#[export] Instance parse_ok : ParseOk inv 0
  (fun devId regAddr _ buf _ => regAddr < 16 /\ row_ok devId buf) parse.
Proof.
  intros devId regAddr node buf len e Hd Hr Hb Hl Hlen [Hrow Hreg] Hi.
  unfold parse, inv, row_ok, MODBUS_MIN_LEN in *. parse_auto.
Qed.

End VentDaikin.

Module Dpurat.

Definition READ_CODE : Z := 0x3.
Definition WRITE_CODE : Z := 0x6.
Definition REG_ADDR : Z := 0x0B.
Definition WR_SWITCH_ADDR : Z := 0x01.
Definition WR_SPEED_ADDR : Z := 0x02.
Definition MODBUS_MIN_LEN : Z := 7.
Definition SWITCH : nat := 0.
Definition SPEED : nat := 1.
Definition MAX_IDX : nat := 2.

Definition build : build_t unit := fun devId regAddr groupAddr pvMbusNode pObj =>
  _ <-? calloc_Msg;
  pBuf <-? calloc_pBuf 8;
  pBuf ← lift (
    pBuf <-! st8 pBuf 0 devId;
    match pObj with
    | None =>
        pBuf <-! st8 pBuf 1 READ_CODE;
        pBuf <-! st16be pBuf 2 REG_ADDR;
        pBuf <-! st16be pBuf 4 3;
        seal_crc pBuf 8
    | Some pObj =>
        pBuf <-! st8 pBuf 1 WRITE_CODE;
        pBuf <-! (
          if dpid pObj =? 39 then
            pBuf <-! st16be pBuf 2 WR_SWITCH_ADDR;
            st16be pBuf 4 (b2z (dp_bool pObj))
          else if dpid pObj =? 101 then
            pBuf <-! st16be pBuf 2 WR_SPEED_ADDR;
            st16be pBuf 4 (dp_enum pObj)
          else Done pBuf);
        seal_crc pBuf 8
    end);
  mret (Some (a_msg pBuf 8)).

#[export] Instance build_ok : BuildOk (fun _ => True) (fun _ _ _ _ => True)
  (mbus_frame [8%nat] [READ_CODE; WRITE_CODE]) build.
Proof.
  intros devId regAddr groupAddr node pObj e Hd Hr Hg _ _. unfold build. frame_auto.
Qed.

Definition parse : parse_t unit := fun devId regAddr pvMbusNode pBuf len =>
  match pBuf with
  | None => mret None
  | Some pBuf =>
  if len <? MODBUS_MIN_LEN then mret None else
  pos <-? lift (find2 pBuf len (u16 (devId * 256 + READ_CODE)) MODBUS_MIN_LEN
                              (u16 (devId * 256 + WRITE_CODE)) MODBUS_MIN_LEN);
  c ← lift (rd8 pBuf (pos + 1));
  if c =? READ_CODE then
    ob <-? NewMbusObjs MAX_IDX;
    ob ← lift (
      ob <-! upd_obj ob SWITCH (set_localPoint VENT_SWITCH);
      ob <-! upd_obj ob SPEED (set_localPoint VENT_SPEED);
      b4 <-! rd8 pBuf (pos + 4);
      b6 <-! rd8 pBuf (pos + 6);
      ob <-! upd_obj ob SWITCH (set_value b4);
      upd_obj ob SPEED (set_value b6));
    mret (Some ob)
  else if c =? WRITE_CODE then
    ob <-? NewMbusObjs 1;
    reg ← lift (rd16be pBuf (pos + 2));
    if reg =? WR_SWITCH_ADDR then
      ob ← lift (
        ob <-! upd_obj ob 0 (set_localPoint VENT_SWITCH);
        b5 <-! rd8 pBuf (pos + 5); upd_obj ob 0 (set_value b5));
      mret (Some ob)
    else if reg =? WR_SPEED_ADDR then
      ob ← lift (
        ob <-! upd_obj ob 0 (set_localPoint VENT_SPEED);
        b5 <-! rd8 pBuf (pos + 5); upd_obj ob 0 (set_value b5));
      mret (Some ob)
    else mret None
  else mret None
  end.

(** An unknown register in a write acknowledgement leaks the two blocks. *)
#[export] Instance parse_ok : ParseOk (fun _ => True) 2 (fun _ _ _ _ _ => True) parse.
Proof.
  intros devId regAddr node buf len e Hd Hr Hb Hl Hlen _ _.
  unfold parse, MODBUS_MIN_LEN in *. parse_auto.
Qed.

End Dpurat.

Module Broan.

Definition SWITCH : nat := 0.
Definition SPEED : nat := 1.
Definition MAX_IDX : nat := 2.
Definition READ_CODE : Z := 0x3.
Definition WRITE_CODE : Z := 0x10.

(** [static MbusObj_t MBusVentLocalPoint[MAX_IDX]], with its initialiser. *)
Definition MBusVentLocalPoint : list MbusObj_t :=
  [set_type PROP_BOOL (reported VENT_SWITCH 0); set_type PROP_ENUM (reported VENT_SPEED 0)].
Definition inv (s : list MbusObj_t) : Prop := length s = MAX_IDX.

Definition build : build_t (list MbusObj_t) := fun devId regAddr groupAddr pvMbusNode pObj =>
  match pvMbusNode with
  | None => mret None
  | Some pVent =>
  if negb (pSwitch pVent) || negb (pSpeed pVent) then mret None else
  _ <-? calloc_Msg;
  match pObj with
  | None =>
      pBuf <-? calloc_pBuf 8;
      pBuf ← lift (
        pBuf <-! st8 pBuf 0 devId;
        pBuf <-! st8 pBuf 1 READ_CODE;
        pBuf <-! st16be pBuf 2 0x100;
        pBuf <-! st16be pBuf 4 0x2;
        seal_crc pBuf 8);
      mret (Some (a_msg pBuf 8))
  | Some pObj =>
      pBuf <-? calloc_pBuf 13;
      s ← getS;
      r ← lift (
        pBuf <-! st8 pBuf 0 devId;
        pBuf <-! st8 pBuf 1 WRITE_CODE;
        r <-! (
          if dpid pObj =? 39 then
            pBuf <-! st16be pBuf 2 0x100;
            pBuf <-! st16be pBuf 4 0x2;
            pBuf <-! st8 pBuf 6 4;
            pBuf <-! st16be pBuf 7 (b2z (dp_bool pObj));
            sp <-! arr_get s SPEED;
            pBuf <-! st16be pBuf 9 (value sp);
            s <-! arr_upd s SWITCH (set_value (b2z (dp_bool pObj)));
            Done (pBuf, s)
          else if (dpid pObj =? 28) || (dpid pObj =? 101) then
            pBuf <-! st16be pBuf 2 0x100;
            pBuf <-! st16be pBuf 4 0x2;
            pBuf <-! st8 pBuf 6 4;
            pBuf <-! st16be pBuf 7 1;
            pBuf <-! st16be pBuf 9 (dp_enum pObj);
            s <-! arr_upd s SWITCH (set_value 1);
            s <-! arr_upd s SPEED (set_value (dp_enum pObj));
            Done (pBuf, s)
          else Done (pBuf, s));
        pBuf <-! seal_crc r.1 13;
        Done (pBuf, r.2));
      _ ← putS r.2;
      mret (Some (a_msg r.1 13))
  end
  end.

#[export] Instance build_ok : BuildOk inv (fun _ _ _ _ => True)
  (mbus_frame [8%nat; 13%nat] [READ_CODE; WRITE_CODE]) build.
Proof.
  intros devId regAddr groupAddr node pObj e Hd Hr Hg _ Hi. unfold build, inv in *. frame_auto.
Qed.

Definition parse : parse_t (list MbusObj_t) := fun devId regAddr pvMbusNode pBuf len =>
  match pBuf with
  | None => mret None
  | Some pBuf =>
  if len <? 7 then mret None else
  match pvMbusNode with
  | None => undef
  | Some pVent =>
  if negb (pSwitch pVent) || negb (pSpeed pVent) then mret None else
  pos <-? lift (find2 pBuf len (u16 (devId * 256 + READ_CODE)) 7
                              (u16 (devId * 256 + WRITE_CODE)) 7);
  ob <-? NewMbusObjs (MAX_IDX + 1);
  ob ← lift (null_obj ob MAX_IDX);
  c ← lift (rd8 pBuf (pos + 1));
  s ← getS;
  if c =? READ_CODE then
    r ← lift (
      b4 <-! rd8 pBuf (pos + 4);
      ob <-! put ob SWITCH VENT_SWITCH b4;
      ob <-! upd_obj ob SWITCH (set_sndValue b4);
      s <-! arr_upd s SWITCH (set_value b4);
      if 0 <? b4 then
        b6 <-! rd8 pBuf (pos + 6);
        ob <-! put ob SPEED VENT_SPEED b6;
        ob <-! upd_obj ob SPEED (set_sndValue b6);
        s <-! arr_upd s SPEED (set_value b6);
        Done (ob, s)
      else Done (ob, s));
    _ ← putS r.2;
    mret (Some r.1)
  else if c =? WRITE_CODE then
    ob ← lift (
      b2 <-! rd8 pBuf (pos + 2);
      b3 <-! rd8 pBuf (pos + 3);
      b5 <-! rd8 pBuf (pos + 5);
      if (b2 =? 0x1) && (b3 =? 0x0) && (b5 =? 2) then
        sw <-! arr_get s SWITCH; ob <-! put ob SWITCH VENT_SWITCH (value sw);
        sp <-! arr_get s SPEED; put ob SPEED VENT_SPEED (value sp)
      else Done ob);
    mret (Some ob)
  else mret (Some ob)
  end end.

#[export] Instance parse_ok : ParseOk inv 0 (fun _ _ node _ _ => node <> None) parse.
Proof.
  intros devId regAddr node buf len e Hd Hr Hb Hl Hlen Hn Hi. unfold parse, inv in *. parse_auto.
Qed.

End Broan.

Module TuoLi.

Definition SWITCH : nat := 0.
Definition SPEED : nat := 1.
Definition MAX_IDX : nat := 2.
Definition READ_CODE : Z := 0x3.
Definition WRITE_CODE : Z := 0x10.

(** The CRC stored a byte at a time. *)
Definition seal (pBuf : list Z) : outcome (list Z) :=
  tmp <-! crc16 pBuf 8;
  pBuf <-! st8 pBuf 8 (Z.shiftr tmp 8);
  st8 pBuf 9 (Z.shiftr tmp 0).

Definition build : build_t unit := fun devId regAddr groupAddr pvMbusNode pObj =>
  _ <-? calloc_Msg;
  pBuf <-? calloc_pBuf 10;
  pBuf ← lift (
    pBuf <-! st8 pBuf 0 devId;
    match pObj with
    | None => pBuf <-! st8 pBuf 1 READ_CODE; seal pBuf
    | Some pObj =>
        pBuf <-! st8 pBuf 1 WRITE_CODE;
        pBuf <-! (
          if dpid pObj =? 39 then st8 pBuf 2 (b2z (dp_bool pObj))
          else if dpid pObj =? 101 then
            pBuf <-! st8 pBuf 2 0x1; st8 pBuf 3 (dp_enum pObj)
          else Done pBuf);
        seal pBuf
    end);
  mret (Some (a_msg pBuf 10)).

Lemma seal_is_crc buf : length buf = 10%nat -> bytes buf -> seal buf = seal_crc buf 10.
Proof.
  intros Hl Hb. unfold seal, seal_crc, st16be.
  change (Z.of_nat (10 - 2)) with (Z.of_nat 8). change (crc16 buf 8) with (crc16 buf (Z.of_nat 8)).
  rewrite crc16_eval by (done || lia). cbn [obind Nat.sub].
  assert (0 <= crc_of (take 8 buf) < 65536) by (apply crc_of_range; auto with cwp).
  by rewrite u16_small, Z.shiftr_div_pow2, Z.shiftr_0_r by lia.
Qed.

#[export] Instance build_ok : BuildOk (fun _ => True) (fun _ _ _ _ => True)
  (mbus_frame [10%nat] [READ_CODE; WRITE_CODE]) build.
Proof.
  intros devId regAddr groupAddr node pObj e Hd Hr Hg _ _. unfold build.
  repeat (frame_step || match goal with H : hdr _ _ ?b |- owp (seal ?b) _ =>
    rewrite (seal_is_crc b) by apply H end); try done; lia.
Qed.

Definition parse : parse_t unit := fun devId regAddr pvMbusNode pBuf len =>
  match pBuf with
  | None => mret None
  | Some pBuf =>
  if len <? 14 then mret None else
  pos <-? lift (find2 pBuf len (u16 (devId * 256 + READ_CODE)) 14
                              (u16 (devId * 256 + WRITE_CODE)) 14);
  ob <-? NewMbusObjs MAX_IDX;
  ob ← lift (
    b2 <-! rd8 pBuf (pos + 2);
    b3 <-! rd8 pBuf (pos + 3);
    ob <-! upd_obj ob SWITCH (set_value b2);
    ob <-! upd_obj ob SPEED (set_value b3);
    ob <-! upd_obj ob SWITCH (set_localPoint VENT_SWITCH);
    upd_obj ob SPEED (set_localPoint VENT_SPEED));
  mret (Some ob)
  end.

#[export] Instance parse_ok : ParseOk (fun _ => True) 0 (fun _ _ _ _ _ => True) parse.
Proof.
  intros devId regAddr node buf len e Hd Hr Hb Hl Hlen _ _. unfold parse. parse_auto.
Qed.

End TuoLi.

Module VentBROAN.

Definition HEADER : Z := 0xAA.
Definition FOOTER : Z := 0xF5.
Definition HOST_ID : Z := 2.
Definition TY_SPEED : Z := 28.
Definition TY_SWITCH : Z := 39.
Definition SPEED : nat := 0.
Definition SWITCH : nat := 1.
Definition ENV_TEMP : nat := 2.

Fixpoint checkSum_loop (package : list Z) (n i : nat) (sum : Z) : outcome Z :=
  match n with
  | O => Done sum
  | S n => b <-! rd8 package i; checkSum_loop package n (S i) (u32 (sum + b))
  end.

(** The bytes 1 to 6 of a request, 1 to 8 of an answer. *)
Definition checkSum (package : list Z) (isReceive : nat) : outcome Z :=
  sum <-! checkSum_loop package (6 + 2 * isReceive) 1 0; Done (u8 sum).

(** [length] is a [uint8_t]; [package[length - 1]] of a zero length is outside
    the buffer. *)
Definition checkPackage (package : list Z) (length devId : Z) : outcome Z :=
  let length := u8 length in
  b0 <-! rd8 package 0;
  bl <-! (if b0 =? HEADER then
            if length =? 0 then Undef else rd8 package (Z.to_nat (length - 1))
          else Done FOOTER);
  if negb (b0 =? HEADER) || negb (bl =? FOOTER) then Done (-1) else
  b1 <-! rd8 package 1;
  if negb (b1 =? devId) then Done (-1) else
  b2 <-! rd8 package 2;
  if negb (b2 =? HOST_ID) then Done (-1) else
  check <-! checkSum package 1;
  b9 <-! rd8 package 9;
  if negb (check =? b9) then Done (-1) else Done 0.

Definition build : build_t unit := fun devId regAddr groupAddr modbusNode obj =>
  _ <-? calloc_Msg;
  pBuf <-? calloc_pBuf 9;
  r ← lift (
    pBuf <-! st8 pBuf 0 HEADER;
    pBuf <-! st8 pBuf 1 devId;
    pBuf <-! st8 pBuf 2 HOST_ID;
    match obj with
    | None => pBuf <-! st8 pBuf 6 0xA5; Done (Some pBuf)
    | Some obj =>
        if dpid obj =? TY_SPEED then
          pBuf <-! st8 pBuf 3 (b2z (0 <? dp_enum obj));
          pBuf <-! st8 pBuf 4 (dp_enum obj);
          pBuf <-! st8 pBuf 5 (dp_enum obj);
          pBuf <-! st8 pBuf 6 0x5A; Done (Some pBuf)
        else if dpid obj =? TY_SWITCH then
          pBuf <-! st8 pBuf 3 (b2z (dp_bool obj));
          pBuf <-! st8 pBuf 4 (b2z (dp_bool obj));
          pBuf <-! st8 pBuf 5 (b2z (dp_bool obj));
          pBuf <-! st8 pBuf 6 0x5A; Done (Some pBuf)
        else Done None
    end);
  match r with
  | None => _ ← free; _ ← free; mret None
  | Some pBuf =>
      pBuf ← lift (
        c <-! checkSum pBuf 0;
        pBuf <-! st8 pBuf 7 c;
        st8 pBuf 8 FOOTER);
      mret (Some (a_msg pBuf 9))
  end.

(** Header, six bytes, their sum, footer. *)
Definition frame (devId : Z) (buf : list Z) : Prop :=
  bytes buf /\ length buf = 9%nat /\
  exists body, buf = HEADER :: body ++ [u8 (sum_of body); FOOTER] /\
    take 2 body = [devId; HOST_ID].

Lemma checkSum_loop_sum p n i sum :
  (i + n <= length p)%nat ->
  checkSum_loop p n i (u32 sum) = Done (u32 (sum + sum_of (take n (drop i p)))).
Proof.
  revert i sum. induction n as [|n IH]; intros i sum Hn; simpl.
  - by rewrite Z.add_0_r.
  - destruct (lookup_lt_is_Some_2 p i) as [b Hb]; [lia|].
    unfold rd8. rewrite Hb. simpl.
    replace (u32 (u32 sum + b)) with (u32 (sum + b))
      by (unfold u32; rewrite Z.add_mod_idemp_l; lia).
    rewrite IH by lia. rewrite (drop_S _ _ _ Hb). simpl. do 2 f_equal. lia.
Qed.

Lemma checkSum_eval p r :
  (7 + 2 * r <= length p)%nat ->
  checkSum p r = Done (u8 (sum_of (take (6 + 2 * r) (drop 1 p)))).
Proof.
  intros Hl. unfold checkSum. change 0 with (u32 0).
  rewrite checkSum_loop_sum by lia. simpl. f_equal. rewrite Z.add_0_l.
  unfold u8, u32. apply Z.mod_mod_divide. by exists (2 ^ 24).
Qed.

Lemma broan_frame_intro d a b c x :
  is_u8 d ->
  frame d [u8 HEADER; u8 d; u8 HOST_ID; u8 a; u8 b; u8 c; u8 x;
           u8 (u8 (sum_of [u8 d; u8 HOST_ID; u8 a; u8 b; u8 c; u8 x])); u8 FOOTER].
Proof.
  intros Hd. split; [repeat constructor; apply u8_range|]. split; [done|].
  exists [u8 d; u8 HOST_ID; u8 a; u8 b; u8 c; u8 x].
  rewrite u8_idemp, (u8_small d) by done. done.
Qed.

#[export] Instance build_ok : BuildOk (fun _ => True) (fun _ _ _ _ => True) frame build.
Proof.
  intros devId regAddr groupAddr node pObj e Hd Hr Hg _ _. unfold build.
  repeat (conc_step || match goal with |- owp (checkSum ?b 0) _ =>
    rewrite (checkSum_eval b 0) by (simpl; lia); cbn [Nat.mul Nat.add drop take] end); try done;
    try lia.
  all: apply built_msg; cbn [mem st live length]; [done|lia|lia|].
  all: first [by apply broan_frame_intro | by apply (broan_frame_intro devId 0 0 0 0xA5)].
Qed.

Definition parse : parse_t unit := fun devId regAddr modbusNode package length =>
  match package with
  | None => mret None
  | Some package =>
  chk ← lift (checkPackage package length devId);
  if chk =? -1 then mret None else
  ob <-? NewMbusObjs 3;
  ob ← lift (
    ob <-! upd_obj ob SPEED (set_localPoint VENT_SPEED);
    b4 <-! rd8 package 4;
    ob <-! upd_obj ob SPEED (set_value b4);
    ob <-! upd_obj ob SWITCH (set_localPoint VENT_SWITCH);
    b3 <-! rd8 package 3;
    ob <-! upd_obj ob SWITCH (set_value b3);
    ob <-! upd_obj ob ENV_TEMP (set_localPoint VENT_ENV_TEMP);
    b6 <-! rd8 package 6;
    upd_obj ob ENV_TEMP (set_value (Z.lnot (Z.land b6 0x7F - 1))));
  mret (Some ob)
  end.

(** An answer is at least ten bytes long; a shorter one is read past its end,
    the length is only used to find the footer. *)
#[export] Instance parse_ok : ParseOk (fun _ => True) 0
  (fun _ _ _ buf len => 10 <= len < 256) parse.
Proof.
  intros devId regAddr node buf len e Hd Hr Hb Hl Hlen Hn _. unfold parse, checkPackage.
  rewrite (u8_small len) by (unfold is_u8; lia).
  repeat (parse_step || match goal with |- owp (checkSum ?b 1) _ =>
    rewrite (checkSum_eval b 1) by lia; cbn [owp] end); bprop; try done; lia.
Qed.

End VentBROAN.
