(* ===== verification/AcdPlugins.v ===== *)
(** Air conditioner plugins (plugin/compile/Mbus_Acd_*.c), one Module each. *)

From S2P Require Import Prelude CMem Crc Device PluginApi.

Module AcdDaikin.

Definition READ_CODE : Z := 0x4.
Definition WRITE_CODE : Z := 0x6.
Definition REG_ADDR : Z := 0x07D0.
Definition STATUS_REG_LEN : Z := 6.
Definition CTRL_REG_LEN : Z := 3.
Definition MODBUS_MIN_LEN : Z := 8.
Definition SWITCH : nat := 0.
Definition TEMP : nat := 1.
Definition MODE : nat := 2.
Definition SPEED : nat := 3.
Definition ENV_TEMP : nat := 4.
Definition ERROR_CODE : nat := 5.
Definition DIR : nat := 6.
Definition MODE_OUTDOOR : nat := 7.
Definition AUTHORITY : nat := 8.
Definition MAX_IDX : nat := 9.

(** [static MbusObj_t MbusObj[16][MAX_IDX];] *)
Definition MbusObj : list (list MbusObj_t) := replicate 16 (replicate MAX_IDX MbusObj0).
Definition inv : list (list MbusObj_t) -> Prop := tab_ok 16 MAX_IDX.

(** The characters of the fault display, by the two halves of the code. *)
Definition fault2 : list Z :=
  [0x30; 0x41; 0x43; 0x45; 0x48; 0x46; 0x4A; 0x4C; 0x50; 0x55; 0x39; 0x38; 0x37; 0x36; 0x35;
   0x34; 0x33; 0x32; 0x31; 0x47; 0x4B; 0x4D; 0x4E; 0x52; 0x54; 0x56; 0x57; 0x58; 0x59; 0x5A;
   0x2A; 0x20].
Definition fault1 : list Z :=
  [0x30; 0x31; 0x32; 0x33; 0x34; 0x35; 0x36; 0x37; 0x38; 0x39; 0x41; 0x42; 0x43; 0x44; 0x45;
   0x46].

(** The mode request: whether the unit may choose between hot and cold is read
    from row [regAddr]; a refusal frees both blocks and returns null. *)
Definition set_mode (s : list (list MbusObj_t)) (regAddr : Z) (pBuf : list Z)
    (o : ty_obj_dp_s) : outcome (option (list Z)) :=
  let row := Z.to_nat regAddr in
  pBuf <-! st16be pBuf 2 (REG_ADDR + CTRL_REG_LEN * regAddr + 1);
  mo <-! tab_get s row MODE_OUTDOOR;
  pBuf <-! st8 pBuf 4 (rcvValue mo);
  if dp_enum o =? 1 then
    pBuf <-! st8 pBuf 4 2;
    pBuf <-! st8 pBuf 5 2;
    au <-! tab_get s row AUTHORITY;
    if negb (rcvValue au =? 2) && negb (rcvValue mo =? 2) then Done None
    else Done (Some pBuf)
  else if dp_enum o =? 3 then
    pBuf <-! st8 pBuf 5 7; Done (Some pBuf)
  else if dp_enum o =? 4 then
    pBuf <-! st8 pBuf 4 0;
    pBuf <-! st8 pBuf 5 0; Done (Some pBuf)
  else if dp_enum o =? 2 then
    pBuf <-! st8 pBuf 4 1;
    pBuf <-! st8 pBuf 5 1;
    au <-! tab_get s row AUTHORITY;
    if negb (rcvValue au =? 2) && negb (rcvValue mo =? 1) then Done None
    else Done (Some pBuf)
  else if dp_enum o =? 0 then
    pBuf <-! st8 pBuf 5 3; Done (Some pBuf)
  else Done (Some pBuf).

Definition build : build_t (list (list MbusObj_t)) := fun devId regAddr groupAddr pvMbusNode pObj =>
  _ <-? calloc_Msg;
  pBuf <-? calloc_pBuf 8;
  s ← getS;
  let row := Z.to_nat groupAddr in
  pBuf ← lift (st8 pBuf 0 devId);
  match pObj with
  | None =>
      pBuf ← lift (
        pBuf <-! st8 pBuf 1 READ_CODE;
        pBuf <-! st16be pBuf 2 (REG_ADDR + STATUS_REG_LEN * regAddr);
        pBuf <-! st8 pBuf 4 0x0;
        pBuf <-! st8 pBuf 5 0x5;
        seal_crc pBuf 8);
      mret (Some (a_msg pBuf 8))
  | Some pObj =>
      pBuf ← lift (st8 pBuf 1 WRITE_CODE);
      if dpid pObj =? 1 then
        pBuf ← lift (
          pBuf <-! st16be pBuf 2 (REG_ADDR + CTRL_REG_LEN * regAddr + 0);
          sp <-! tab_get s row SPEED;
          pBuf <-! st8 pBuf 4 (Z.shiftl (Z.land (rcvValue sp) 0x0F) 4);
          di <-! tab_get s row DIR;
          pBuf <-! add8 pBuf 4 (Z.land (rcvValue di) 0x0F);
          pBuf <-! st8 pBuf 5 (if dp_bool pObj then 1 else 0);
          pBuf <-! add8 pBuf 5 (Z.shiftl 6 4);
          seal_crc pBuf 8);
        mret (Some (a_msg pBuf 8))
      else if dpid pObj =? 2 then
        pBuf ← lift (
          pBuf <-! st16be pBuf 2 (REG_ADDR + CTRL_REG_LEN * regAddr + 2);
          t <-! int_of (dp_value pObj * 10);
          pBuf <-! st16be pBuf 4 t;
          seal_crc pBuf 8);
        mret (Some (a_msg pBuf 8))
      else if dpid pObj =? 4 then
        r ← lift (set_mode s regAddr pBuf pObj);
        match r with
        | None => _ ← free; _ ← free; mret None
        | Some pBuf =>
            pBuf ← lift (seal_crc pBuf 8);
            mret (Some (a_msg pBuf 8))
        end
      else if dpid pObj =? 5 then
        r ← lift (
          pBuf <-! st16be pBuf 2 (REG_ADDR + CTRL_REG_LEN * regAddr + 0);
          pBuf <-! st8 pBuf 4 (Z.shiftl (dp_enum pObj) 4);
          di <-! tab_get s row DIR;
          pBuf <-! add8 pBuf 4 (rcvValue di);
          pBuf <-! st8 pBuf 5 1;
          s <-! tab_upd s row SWITCH (set_rcvValue 1);
          pBuf <-! add8 pBuf 5 (Z.shiftl 6 4);
          pBuf <-! seal_crc pBuf 8;
          Done (pBuf, s));
        _ ← putS r.2;
        mret (Some (a_msg r.1 8))
      else
        pBuf ← lift (seal_crc pBuf 8);
        mret (Some (a_msg pBuf 8))
  end.

(** Rows of the static table are selected by unchecked addresses; the
    temperature is multiplied by ten in [int]. *)
Definition build_pre (regAddr groupAddr : Z) (node : option MbusNode)
    (pObj : option ty_obj_dp_s) : Prop :=
  match pObj with
  | None => True
  | Some o => regAddr < 16 /\ groupAddr < 16 /\ - 2 ^ 31 <= dp_value o * 10 < 2 ^ 31
  end.

#[export] Instance build_ok : BuildOk inv build_pre
  (mbus_frame [8%nat] [READ_CODE; WRITE_CODE]) build.
Proof.
  intros devId regAddr groupAddr node pObj e Hd Hr Hg Hpre Hi. unfold build, inv, set_mode in *.
  destruct pObj as [o|]; [destruct Hpre as (? & ? & ?)|]; frame_auto.
Qed.

(** The mode of the device as a cloud value; other codes leave the object as
    it is. *)
Definition put_mode (ob : Objs) (k : nat) (m : Z) : outcome Objs :=
  if m =? 0 then upd_obj ob k (set_value 4)
  else if m =? 1 then upd_obj ob k (set_value 2)
  else if m =? 2 then upd_obj ob k (set_value 1)
  else if m =? 7 then upd_obj ob k (set_value 3)
  else if m =? 3 then upd_obj ob k (set_value 0)
  else Done ob.

(** [pos[1] == READ_CODE]: the status registers into row [regAddr]. *)
Definition parse_read (pBuf : list Z) (pos row : nat) (ob : Objs) (s : list (list MbusObj_t))
    : outcome (Objs * list (list MbusObj_t)) :=
  b4 <-! rd8 pBuf (pos + 4);
  s <-! tab_upd s row SWITCH (set_rcvValue (Z.land b4 0x1));
  b3 <-! rd8 pBuf (pos + 3);
  s <-! tab_upd s row DIR (set_rcvValue (Z.land b3 0xF));
  s <-! tab_upd s row SPEED (set_rcvValue (Z.land (Z.shiftr b3 4) 0x7));
  b6 <-! rd8 pBuf (pos + 6);
  s <-! tab_upd s row MODE (set_rcvValue (Z.land b6 0xF));
  b5 <-! rd8 pBuf (pos + 5);
  s <-! tab_upd s row MODE_OUTDOOR (set_rcvValue (Z.land b5 0x3));
  s <-! tab_upd s row AUTHORITY (set_rcvValue (Z.land (Z.shiftr b5 6) 0x3));
  b7 <-! rd8 pBuf (pos + 7);
  b8 <-! rd8 pBuf (pos + 8);
  s <-! tab_upd s row TEMP (set_rcvValue (Z.shiftl b7 8));
  s <-! tab_upd s row TEMP (fun o => set_rcvValue (rcvValue o + Z.shiftl b8 0) o);
  b11 <-! rd8 pBuf (pos + 11);
  b12 <-! rd8 pBuf (pos + 12);
  s <-! tab_upd s row ENV_TEMP (set_rcvValue (Z.shiftl b11 8));
  s <-! tab_upd s row ENV_TEMP (fun o => set_rcvValue (rcvValue o + Z.shiftl b12 0) o);
  b10 <-! rd8 pBuf (pos + 10);
  s <-! tab_upd s row ERROR_CODE (set_rcvValue b10);
  ob <-! upd_obj ob SWITCH (set_localPoint ACD_SWITCH);
  ob <-! upd_obj ob SPEED (set_localPoint ACD_SPEED);
  ob <-! upd_obj ob MODE (set_localPoint ACD_MODE);
  ob <-! upd_obj ob TEMP (set_localPoint ACD_TEMP);
  ob <-! upd_obj ob ENV_TEMP (set_localPoint ACD_ENV_TEMP);
  ob <-! upd_obj ob ERROR_CODE (set_localPoint ACD_ERROR_CODE);
  sw <-! tab_get s row SWITCH;
  ob <-! upd_obj ob SWITCH (set_value (rcvValue sw));
  te <-! tab_get s row TEMP;
  ob <-! upd_obj ob TEMP (set_value (rcvValue te / 10));
  en <-! tab_get s row ENV_TEMP;
  ob <-! upd_obj ob ENV_TEMP (set_value (rcvValue en / 10));
  er <-! tab_get s row ERROR_CODE;
  c2 <-! arr_get fault2 (Z.to_nat (u8 (Z.shiftr (rcvValue er) 4)));
  c1 <-! arr_get fault1 (Z.to_nat (u8 (Z.land (rcvValue er) 0x0F)));
  ob <-! upd_obj ob ERROR_CODE (set_value c2);
  ob <-! upd_obj ob ERROR_CODE (fun o => set_value (Z.shiftl (value o) 8) o);
  ob <-! upd_obj ob ERROR_CODE (fun o => set_value (value o + c1) o);
  sp <-! tab_get s row SPEED;
  ob <-! upd_obj ob SPEED (set_value (rcvValue sp));
  mo <-! tab_get s row MODE;
  ob <-! put_mode ob MODE (rcvValue mo);
  Done (ob, s).

(** [pos[1] == WRITE_CODE]: the echo of one control register of unit [air]. *)
Definition parse_write (pBuf : list Z) (pos air : nat) (idx : Z) (ob : Objs)
    (s : list (list MbusObj_t)) : outcome (Objs * list (list MbusObj_t)) :=
  if idx =? 0 then
    b5 <-! rd8 pBuf (pos + 5);
    s <-! tab_upd s air SWITCH (set_rcvValue (Z.land b5 0x1));
    ob <-! upd_obj ob 0 (set_value (Z.land b5 0x1));
    b4 <-! rd8 pBuf (pos + 4);
    s <-! tab_upd s air SPEED (set_rcvValue (Z.land (Z.shiftr b4 4) 0x7));
    ob <-! upd_obj ob 1 (set_value (Z.land (Z.shiftr b4 4) 0x7));
    ob <-! upd_obj ob 0 (set_localPoint ACD_SWITCH);
    ob <-! upd_obj ob 1 (set_localPoint ACD_SPEED);
    Done (ob, s)
  else if idx =? 1 then
    b5 <-! rd8 pBuf (pos + 5);
    s <-! tab_upd s air MODE (set_rcvValue (Z.land b5 0xf));
    b4 <-! rd8 pBuf (pos + 4);
    s <-! tab_upd s air MODE_OUTDOOR (set_rcvValue (Z.land b4 0x3));
    mo <-! tab_get s air MODE;
    ob <-! put_mode ob 0 (rcvValue mo);
    ob <-! upd_obj ob 0 (set_localPoint ACD_MODE);
    ob <-! null_obj ob 1;
    Done (ob, s)
  else if idx =? 2 then
    t <-! rd16be pBuf (pos + 4);
    s <-! tab_upd s air TEMP (set_rcvValue t);
    te <-! tab_get s air TEMP;
    ob <-! upd_obj ob 0 (set_value (rcvValue te / 10));
    ob <-! upd_obj ob 0 (set_localPoint ACD_TEMP);
    ob <-! null_obj ob 1;
    Done (ob, s)
  else Done (ob, s).

Definition parse : parse_t (list (list MbusObj_t)) := fun devId regAddr pvMbusNode pBuf len =>
  match pBuf with
  | None => mret None
  | Some pBuf =>
  if len <? MODBUS_MIN_LEN then mret None else
  pos <-? lift (find2 pBuf len (u16 (devId * 256 + READ_CODE)) 8
                              (u16 (devId * 256 + WRITE_CODE)) 8);
  c ← lift (rd8 pBuf (pos + 1));
  s ← getS;
  if c =? READ_CODE then
    ob <-? NewMbusObjs (MAX_IDX - 2);
    r ← lift (parse_read pBuf pos (Z.to_nat regAddr) ob s);
    _ ← putS r.2;
    mret (Some r.1)
  else if c =? WRITE_CODE then
    b2 ← lift (rd8 pBuf (pos + 2));
    b3 ← lift (rd8 pBuf (pos + 3));
    let reg := reg_of REG_ADDR b2 b3 in
    let air := Z.to_nat (reg / 3) in
    let idx := reg mod 3 in
    ob <-? NewMbusObjs 2;
    r ← lift (parse_write pBuf pos air idx ob s);
    _ ← putS r.2;
    mret (Some r.1)
  else mret None
  end.

(** Every write acknowledgement in the buffer names one of the 16 units. *)
Definition row_ok (devId : Z) (buf : list Z) : Prop :=
  forall p b2 b3, buf !! p = Some devId -> buf !! (p + 1)%nat = Some WRITE_CODE ->
    buf !! (p + 2)%nat = Some b2 -> buf !! (p + 3)%nat = Some b3 ->
    (Z.to_nat (reg_of REG_ADDR b2 b3 / 3) < 16)%nat.

Lemma fault_index b (f : Z -> Z) :
  is_u8 b -> f = (fun b => Z.shiftr b 4) \/ f = (fun b => Z.land b 0x0F) ->
  (Z.to_nat (u8 (f (u32 b))) < 16)%nat.
Proof.
  intros Hb Hf. rewrite u32_small by (unfold is_u8 in Hb; lia).
  assert (0 <= f b < 16); [|rewrite u8_small; unfold is_u8; lia].
  unfold is_u8 in Hb. destruct Hf as [-> | ->].
  - rewrite Z.shiftr_div_pow2 by lia. split; [apply Z.div_pos|apply Z.div_lt_upper_bound]; lia.
  - change 0x0F with (Z.ones 4). rewrite Z.land_ones by lia. apply Z.mod_pos_bound. lia.
Qed.

Ltac fault_step :=
  match goal with
  | H : ?buf !! _ = Some ?b |- owp (arr_get fault2 (Z.to_nat (u8 (Z.shiftr (u32 ?b) 4)))) _ =>
      eapply (owp_arr_get _ 32); [done|eapply Nat.lt_le_trans;
        [apply (fault_index b (fun b => Z.shiftr b 4)); [by eapply bytes_lookup|by left]|lia]|intros ?]
  | H : ?buf !! _ = Some ?b |- owp (arr_get fault1 (Z.to_nat (u8 (Z.land (u32 ?b) 0x0F)))) _ =>
      eapply (owp_arr_get _ 16); [done|
        apply (fault_index b (fun b => Z.land b 0x0F)); [by eapply bytes_lookup|by right]|intros ?]
  end.

(** A status answer is read up to its 13th byte, eight are known to be there:
    the buffer must extend five bytes past [len]. *)
#[export] Instance parse_ok : ParseOk inv 0
  (fun devId regAddr _ buf len =>
    regAddr < 16 /\ (Z.to_nat len + 5 <= length buf)%nat /\ row_ok devId buf) parse.
Proof.
  intros devId regAddr node buf len e Hd Hr Hb Hl Hlen (Hrow & Hroom & Hreg) Hi.
  unfold parse, parse_read, parse_write, put_mode, inv, row_ok, MODBUS_MIN_LEN in *.
  cbv zeta. repeat (parse_step || fault_step); try done; lia.
Qed.

End AcdDaikin.

Module TG_A21MC.

Definition READ_CODE : Z := 0x3.
Definition WRITE_CODE : Z := 0x6.
Definition REG_ADDR : Z := 0x64.
Definition STATUS_REG_LEN : Z := 2.
Definition CTRL_REG_LEN : Z := 2.
Definition MODBUS_MIN_LEN : Z := 8.
Definition SWITCH : nat := 0.
Definition TEMP : nat := 1.
Definition MODE : nat := 2.
Definition SPEED : nat := 3.
Definition MAX_IDX : nat := 4.

(** [static uint8_t AcdCache[64][2];] *)
Definition AcdCache : list (list Z) := replicate 64 [0; 0].
Definition inv : list (list Z) -> Prop := tab_ok 64 2.

(** The request on the two bytes of the control register.  The additions are
    made in [int] and truncated to the byte: [2 << 14] and [8 << 5] vanish. *)
Definition set_reg (pBuf : list Z) (o : ty_obj_dp_s) : outcome (list Z) :=
  if dpid o =? 1 then
    pBuf <-! and8 pBuf 4 0x3F;
    add8 pBuf 4 (Z.shiftl (if dp_bool o then 2 else 1) 14)
  else if dpid o =? 2 then
    pBuf <-! and8 pBuf 5 0xE0;
    v <-! int_of (dp_value o + 15);
    add8i pBuf 5 v
  else if dpid o =? 4 then
    pBuf <-! and8 pBuf 4 0xC1;
    if dp_enum o =? 1 then add8 pBuf 4 (Z.shiftl 1 1)
    else if dp_enum o =? 3 then add8 pBuf 4 (Z.shiftl 2 1)
    else if dp_enum o =? 4 then add8 pBuf 4 (Z.shiftl 4 1)
    else if dp_enum o =? 2 then add8 pBuf 4 (Z.shiftl 8 1)
    else if dp_enum o =? 0 then add8 pBuf 4 (Z.shiftl 16 1)
    else Done pBuf
  else if dpid o =? 5 then
    pBuf <-! and8 pBuf 4 0xFE;
    pBuf <-! and8 pBuf 5 0x1F;
    if dp_enum o =? 1 then add8 pBuf 5 (Z.shiftl 1 5)
    else if dp_enum o =? 3 then add8 pBuf 5 (Z.shiftl 4 5)
    else if dp_enum o =? 2 then add8 pBuf 5 (Z.shiftl 2 5)
    else if dp_enum o =? 0 then add8 pBuf 5 (Z.shiftl 8 5)
    else Done pBuf
  else Done pBuf.

Definition build : build_t (list (list Z)) := fun devId regAddr groupAddr pvMbusNode pObj =>
  _ <-? calloc_Msg;
  pBuf <-? calloc_pBuf 8;
  s ← getS;
  pBuf ← lift (
    pBuf <-! st8 pBuf 0 devId;
    match pObj with
    | None =>
        pBuf <-! st8 pBuf 1 READ_CODE;
        pBuf <-! st16be pBuf 2 (REG_ADDR + STATUS_REG_LEN * regAddr);
        pBuf <-! st8 pBuf 4 0x0;
        pBuf <-! st8 pBuf 5 0x1;
        seal_crc pBuf 8
    | Some pObj =>
        pBuf <-! st8 pBuf 1 WRITE_CODE;
        pBuf <-! st16be pBuf 2 (REG_ADDR + CTRL_REG_LEN * regAddr);
        c0 <-! tab_get s (Z.to_nat groupAddr) 0;
        pBuf <-! st8 pBuf 4 c0;
        c1 <-! tab_get s (Z.to_nat groupAddr) 1;
        pBuf <-! st8 pBuf 5 c1;
        pBuf <-! set_reg pBuf pObj;
        seal_crc pBuf 8
    end);
  mret (Some (a_msg pBuf 8)).

Definition build_pre (regAddr groupAddr : Z) (node : option MbusNode)
    (pObj : option ty_obj_dp_s) : Prop :=
  match pObj with
  | None => True
  | Some o => groupAddr < 64 /\ - 2 ^ 31 <= dp_value o + 15 < 2 ^ 31 - 256
  end.

#[export] Instance build_ok : BuildOk inv build_pre
  (mbus_frame [8%nat] [READ_CODE; WRITE_CODE]) build.
Proof.
  intros devId regAddr groupAddr node pObj e Hd Hr Hg Hpre Hi. unfold build, inv, set_reg in *.
  destruct pObj as [o|]; [destruct Hpre as (? & ?)|]; frame_auto.
Qed.

(** The two bytes of a register as cloud values; the same code serves the
    status answer and the write acknowledgement. *)
Definition put_state (ob : Objs) (hi lo : Z) : outcome Objs :=
  ob <-! upd_obj ob SWITCH (set_localPoint ACD_SWITCH);
  ob <-! upd_obj ob SPEED (set_localPoint ACD_SPEED);
  ob <-! upd_obj ob MODE (set_localPoint ACD_MODE);
  ob <-! upd_obj ob TEMP (set_localPoint ACD_TEMP);
  let sw := Z.shiftr hi 14 in
  ob <-! upd_obj ob SWITCH (set_value (if sw =? 1 then 0 else if sw =? 2 then 1 else sw));
  ob <-! upd_obj ob TEMP (set_value (Z.land lo 0x1F - 15));
  let sp := Z.shiftl (Z.land hi 1) 4 + Z.shiftr lo 5 in
  ob <-! upd_obj ob SPEED (set_value
    (if sp =? 8 then 0 else if sp =? 1 then 1 else if sp =? 2 then 2
     else if sp =? 3 then 4 else sp));
  let mo := Z.shiftr (Z.land hi 0x3E) 1 in
  upd_obj ob MODE (set_value
    (if mo =? 4 then 4 else if mo =? 8 then 2 else if mo =? 1 then 1
     else if mo =? 2 then 3 else if mo =? 16 then 0 else mo)).

Definition parse : parse_t (list (list Z)) := fun devId regAddr pvMbusNode pBuf len =>
  match pBuf with
  | None => mret None
  | Some pBuf =>
  if len <? MODBUS_MIN_LEN then mret None else
  pos <-? lift (find2 pBuf len (u16 (devId * 256 + READ_CODE)) 8
                              (u16 (devId * 256 + WRITE_CODE)) 8);
  c ← lift (rd8 pBuf (pos + 1));
  s ← getS;
  if c =? READ_CODE then
    ob <-? NewMbusObjs MAX_IDX;
    r ← lift (
      b3 <-! rd8 pBuf (pos + 3);
      s <-! tab_upd s (Z.to_nat regAddr) 0 (fun _ => b3);
      b4 <-! rd8 pBuf (pos + 4);
      s <-! tab_upd s (Z.to_nat regAddr) 1 (fun _ => b4);
      ob <-! put_state ob b3 b4;
      Done (ob, s));
    _ ← putS r.2;
    mret (Some r.1)
  else if c =? WRITE_CODE then
    ob <-? NewMbusObjs MAX_IDX;
    ob ← lift (
      b4 <-! rd8 pBuf (pos + 4);
      b5 <-! rd8 pBuf (pos + 5);
      put_state ob b4 b5);
    mret (Some ob)
  else mret None
  end.

#[export] Instance parse_ok : ParseOk inv 0 (fun _ regAddr _ _ _ => regAddr < 64) parse.
Proof.
  intros devId regAddr node buf len e Hd Hr Hb Hl Hlen Hrow Hi.
  unfold parse, put_state, inv, MODBUS_MIN_LEN in *. parse_auto.
Qed.

End TG_A21MC.

Module ZhongHong.

Definition WRITE_CMD_SWITCH : Z := 0x31.
Definition WRITE_CMD_TEMP : Z := 0x32.
Definition WRITE_CMD_MODE : Z := 0x33.
Definition WRITE_CMD_SPEED : Z := 0x34.
Definition READ_CMD_STATUS : Z := 0x50.
Definition SWITCH : nat := 0.
Definition TEMP : nat := 1.
Definition MODE : nat := 2.
Definition SPEED : nat := 3.
Definition ROOM_TEMP : nat := 4.
Definition MAX_IDX : nat := 5.

Definition set_cmd (pBuf : list Z) (regAddr : Z) (o : ty_obj_dp_s) : outcome (list Z) :=
  if dpid o =? 1 then
    pBuf <-! st8 pBuf 1 WRITE_CMD_SWITCH;
    pBuf <-! st8 pBuf 2 (b2z (dp_bool o));
    pBuf <-! st8 pBuf 3 1;
    st16be pBuf 4 regAddr
  else if dpid o =? 2 then
    pBuf <-! st8 pBuf 1 WRITE_CMD_TEMP;
    pBuf <-! st8 pBuf 2 (dp_value o);
    pBuf <-! st8 pBuf 3 1;
    st16be pBuf 4 regAddr
  else if dpid o =? 4 then
    pBuf <-! st8 pBuf 1 WRITE_CMD_MODE;
    pBuf <-! st8 pBuf 3 1;
    pBuf <-! st16be pBuf 4 regAddr;
    if dp_enum o =? 0 then st8 pBuf 2 1
    else if dp_enum o =? 1 then st8 pBuf 2 8
    else if dp_enum o =? 2 then st8 pBuf 2 2
    else if dp_enum o =? 3 then st8 pBuf 2 4
    else Done pBuf
  else if dpid o =? 5 then
    pBuf <-! st8 pBuf 1 WRITE_CMD_SPEED;
    pBuf <-! st8 pBuf 3 1;
    pBuf <-! st16be pBuf 4 regAddr;
    if dp_enum o =? 0 then st8 pBuf 2 0
    else if dp_enum o =? 1 then st8 pBuf 2 4
    else if dp_enum o =? 2 then st8 pBuf 2 2
    else if dp_enum o =? 3 then st8 pBuf 2 1
    else Done pBuf
  else Done pBuf.

Definition build : build_t unit := fun devId regAddr groupAddr pvMbusNode pObj =>
  _ <-? calloc_Msg;
  pBuf <-? calloc_pBuf 7;
  pBuf ← lift (
    pBuf <-! st8 pBuf 0 devId;
    match pObj with
    | None =>
        pBuf <-! st8 pBuf 1 READ_CMD_STATUS;
        pBuf <-! st8 pBuf 2 1;
        pBuf <-! st8 pBuf 3 1;
        pBuf <-! st16be pBuf 4 regAddr;
        seal_sum pBuf 7
    | Some pObj =>
        pBuf <-! set_cmd pBuf regAddr pObj;
        seal_sum pBuf 7
    end);
  mret (Some (a_msg pBuf 7)).

(** The frames of the gateway: address first, sum of the six bytes last. *)
Definition frame (devId : Z) (buf : list Z) : Prop :=
  sum_frame 7 buf /\ take 1 buf = [devId].

Lemma zhonghong_frame_intro devId pre b :
  is_u8 devId -> sum_frame 7 b ->
  take (length (u8 devId :: pre)) b = u8 devId :: pre -> frame devId b.
Proof.
  intros Hd Hf Ht. split; [done|]. rewrite (u8_small devId) in Ht by done.
  apply (f_equal (take 1)) in Ht. rewrite take_take in Ht. exact Ht.
Qed.

#[export] Instance build_ok : BuildOk (fun _ => True) (fun _ _ _ _ => True) frame build.
Proof.
  intros devId regAddr groupAddr node pObj e Hd Hr Hg _ _. unfold build, set_cmd. frame_auto.
  all: by eapply zhonghong_frame_intro.
Qed.

(** The five commands in the order the code looks for them. *)
Definition find5 (pBuf : list Z) (len devId : Z) : outcome (option nat) :=
  p <-! find1 pBuf len (u16 (devId * 256 + WRITE_CMD_SWITCH)) 7;
  match p with Some _ => Done p | None =>
  p <-! find1 pBuf len (u16 (devId * 256 + WRITE_CMD_SPEED)) 7;
  match p with Some _ => Done p | None =>
  p <-! find1 pBuf len (u16 (devId * 256 + WRITE_CMD_TEMP)) 7;
  match p with Some _ => Done p | None =>
  p <-! find1 pBuf len (u16 (devId * 256 + WRITE_CMD_MODE)) 7;
  match p with Some _ => Done p | None =>
  find1 pBuf len (u16 (devId * 256 + READ_CMD_STATUS)) 7
  end end end end.

Definition put_mode (ob : Objs) (k : nat) (m : Z) : outcome Objs :=
  if m =? 1 then upd_obj ob k (set_value 0)
  else if m =? 2 then upd_obj ob k (set_value 2)
  else if m =? 4 then upd_obj ob k (set_value 3)
  else if m =? 8 then upd_obj ob k (set_value 1)
  else Done ob.

(** The speed of a status answer: 4 is low, 1 is high. *)
Definition put_speed_status (ob : Objs) (k : nat) (v : Z) : outcome Objs :=
  if v =? 4 then upd_obj ob k (set_value 1)
  else if v =? 2 then upd_obj ob k (set_value 2)
  else if v =? 1 then upd_obj ob k (set_value 3)
  else if v =? 0 then upd_obj ob k (set_value 0)
  else Done ob.

(** The speed of a write acknowledgement: the two ends are exchanged. *)
Definition put_speed_ack (ob : Objs) (k : nat) (v : Z) : outcome Objs :=
  if v =? 4 then upd_obj ob k (set_value 3)
  else if v =? 2 then upd_obj ob k (set_value 2)
  else if v =? 1 then upd_obj ob k (set_value 1)
  else if v =? 0 then upd_obj ob k (set_value 0)
  else Done ob.

Definition parse : parse_t unit := fun devId regAddr pvMbusNode pBuf len =>
  match pBuf with
  | None => mret None
  | Some pBuf =>
  if len <? 7 then mret None else
  pos <-? lift (find5 pBuf len devId);
  c ← lift (rd8 pBuf (pos + 1));
  if c =? READ_CMD_STATUS then
    ob <-? NewMbusObjs MAX_IDX;
    ob ← lift (
      ob <-! upd_obj ob SWITCH (set_localPoint ACD_SWITCH);
      ob <-! upd_obj ob TEMP (set_localPoint ACD_TEMP);
      ob <-! upd_obj ob MODE (set_localPoint ACD_MODE);
      ob <-! upd_obj ob SPEED (set_localPoint ACD_SPEED);
      ob <-! upd_obj ob ROOM_TEMP (set_localPoint ACD_ENV_TEMP);
      b6 <-! rd8 pBuf (pos + 6);
      ob <-! upd_obj ob SWITCH (set_value b6);
      b7 <-! rd8 pBuf (pos + 7);
      ob <-! upd_obj ob TEMP (set_value b7);
      b10 <-! rd8 pBuf (pos + 10);
      ob <-! upd_obj ob ROOM_TEMP (set_value (b10 * 10));
      b8 <-! rd8 pBuf (pos + 8);
      ob <-! put_mode ob MODE b8;
      b9 <-! rd8 pBuf (pos + 9);
      put_speed_status ob SPEED b9);
    mret (Some ob)
  else if c =? WRITE_CMD_SWITCH then
    ob <-? NewMbusObjs 1;
    ob ← lift (
      ob <-! upd_obj ob 0 (set_localPoint ACD_SWITCH);
      b2 <-! rd8 pBuf (pos + 2); upd_obj ob 0 (set_value b2));
    mret (Some ob)
  else if c =? WRITE_CMD_TEMP then
    ob <-? NewMbusObjs 1;
    ob ← lift (
      ob <-! upd_obj ob 0 (set_localPoint ACD_TEMP);
      b2 <-! rd8 pBuf (pos + 2); upd_obj ob 0 (set_value b2));
    mret (Some ob)
  else if c =? WRITE_CMD_MODE then
    ob <-? NewMbusObjs 1;
    ob ← lift (
      ob <-! upd_obj ob 0 (set_localPoint ACD_MODE);
      b2 <-! rd8 pBuf (pos + 2); put_mode ob 0 b2);
    mret (Some ob)
  else if c =? WRITE_CMD_SPEED then
    ob <-? NewMbusObjs 1;
    ob ← lift (
      ob <-! upd_obj ob 0 (set_localPoint ACD_SPEED);
      b2 <-! rd8 pBuf (pos + 2); put_speed_ack ob 0 b2);
    mret (Some ob)
  else mret None
  end.

(** A status answer is read up to its 11th byte, seven are known to be there. *)
#[export] Instance parse_ok : ParseOk (fun _ => True) 0
  (fun _ _ _ buf len => (Z.to_nat len + 4 <= length buf)%nat) parse.
Proof.
  intros devId regAddr node buf len e Hd Hr Hb Hl Hlen Hroom _.
  unfold parse, find5, put_mode, put_speed_status, put_speed_ack. parse_auto.
Qed.

End ZhongHong.
