(* ===== verification/CurtainPlugins.v ===== *)
(** Curtain motor plugins (plugin/compile/Mbus_Curtain_*.c), one Module each.
    All but BinThen use the interface with a 16-bit device address. *)

From S2P Require Import Prelude CMem Crc Device PluginApi.

(** The frames of a motor: a CRC frame with a given header. *)
Definition motor_frame (ns : list nat) (header : list Z) (buf : list Z) : Prop :=
  crc_frame (length buf) buf /\ In (length buf) ns /\ take (length header) buf = header.

Lemma motor_frame_intro n ns header pre b :
  crc_frame n b -> In n ns -> take (length pre) b = pre ->
  take (length header) pre = header -> (length header <= length pre)%nat ->
  motor_frame ns header b.
Proof.
  intros Hf Hn Ht Hh Hl. destruct Hf as (Hlen & Hb & Hc).
  split; [by rewrite Hlen|]. split; [by rewrite Hlen|].
  rewrite <- Hh at 2. rewrite <- Ht, take_take, Nat.min_l by lia. done.
Qed.

(** As [frame_auto], for the two motors that seal 7 of 8 bytes. *)
Ltac motor_auto :=
  cbv zeta;
  repeat (match goal with
    | H : hdr 8 _ ?b |- owp (seal_crc ?b 7) _ =>
        eapply owp_seal_part; [exact H|lia|cbn [length]; lia|intros ? ? ? ?; clear H]
    | |- built _ _ _ (Some (a_msg _ (Z.of_nat 7))) _ => apply built_part; cbn [mem st live fst snd]
    | |- context [(?a, ?b).1] => progress cbn [fst snd]
    end || frame_step);
  try done; try lia;
  try solve [eapply motor_frame_intro; [eassumption|simpl; auto|eassumption|done|simpl; lia]].

(** ** Dooya *)

Module Dooya.

Definition CONTROL : nat := 0.
Definition MAX_IDX : nat := 1.

Definition buildExt (devId regAddr groupAddr : Z) (pObj : option ty_obj_dp_s)
    : C (env unit) (option Msg_t) :=
  _ <-? calloc_Msg;
  match pObj with
  | None =>
      pBuf <-? calloc_pBuf 8;
      pBuf ← lift (
        pBuf <-! st8 pBuf 0 0x55;
        pBuf <-! st16be pBuf 1 devId;
        pBuf <-! st8 pBuf 3 0x1;
        pBuf <-! st8 pBuf 4 0x5;
        pBuf <-! st8 pBuf 5 0x1;
        seal_crc pBuf 8);
      mret (Some (a_msg pBuf 8))
  | Some pObj =>
      pBuf <-? calloc_pBuf 7;
      pBuf ← lift (
        pBuf <-! st8 pBuf 0 0x55;
        pBuf <-! st16be pBuf 1 devId;
        pBuf <-! st8 pBuf 3 0x3;
        pBuf <-! (
          if dpid pObj =? 1 then
            if dp_value pObj =? 0 then st8 pBuf 4 1
            else if dp_value pObj =? 1 then st8 pBuf 4 3
            else if dp_value pObj =? 2 then st8 pBuf 4 2
            else Done pBuf
          else Done pBuf);
        seal_crc pBuf 7);
      mret (Some (a_msg pBuf 7))
  end.

Definition frame (devId : Z) : list Z -> Prop :=
  motor_frame [7%nat; 8%nat] [0x55; u8 (u16 devId / 256); u8 (u16 devId)].

#[export] Instance build_ok : BuildExtOk (fun _ => True) frame buildExt.
Proof.
  intros devId regAddr groupAddr pObj e Hd Hr Hg _. unfold buildExt. frame_auto.
  all: eapply motor_frame_intro; [eassumption|simpl; auto|eassumption|done|simpl; lia].
Qed.

Definition parseExt (devId regAddr : Z) (pBuf : option (list Z)) (len : Z)
    : C (env unit) (option Objs) :=
  match pBuf with
  | None => mret None
  | Some pBuf =>
  if len <? 7 then mret None else
  pos <-? lift (find1 pBuf len devId 7);
  ob <-? NewMbusObjs (MAX_IDX + 1);
  ob ← lift (
    ob <-! null_obj ob MAX_IDX;
    c <-! rd8 pBuf (pos + 2);
    if c =? 1 then
      b4 <-! rd8 pBuf (pos + 4);
      ob <-! upd_obj ob CONTROL (set_value b4);
      upd_obj ob CONTROL (set_localPoint CURTAIN_SWITCH)
    else if c =? 3 then
      b3 <-! rd8 pBuf (pos + 3);
      ob <-! upd_obj ob CONTROL (set_value b3);
      upd_obj ob CONTROL (set_localPoint CURTAIN_SWITCH)
    else Done ob);
  mret (Some ob)
  end.

#[export] Instance parse_ok : ParseExtOk (fun _ => True) 0 parseExt.
Proof.
  intros devId regAddr buf len e Hd Hr Hb Hl Hlen _. unfold parseExt. parse_auto.
Qed.

End Dooya.

(** ** Changming *)

Module Changming.

Definition CONTROL : nat := 0.
Definition MAX_IDX : nat := 1.
Definition MESSAGE_MIN_LEN : Z := 7.

(** A control request sends 7 of the 8 bytes allocated. *)
Definition set_cmd (pBuf : list Z) (o : ty_obj_dp_s) : outcome (list Z * nat) :=
  if dpid o =? 1 then
    pBuf <-! st8 pBuf 3 0x3;
    pBuf <-! (if dp_value o =? 0 then st8 pBuf 4 1
              else if dp_value o =? 1 then st8 pBuf 4 3
              else if dp_value o =? 2 then st8 pBuf 4 2
              else Done pBuf);
    Done (pBuf, 7%nat)
  else if dpid o =? 101 then
    pBuf <-! st8 pBuf 3 0x1;
    pBuf <-! st8 pBuf 4 0x3;
    pBuf <-! st8 pBuf 5 0x1;
    Done (pBuf, 8%nat)
  else Done (pBuf, 8%nat).

Definition buildExt (devId regAddr groupAddr : Z) (pObj : option ty_obj_dp_s)
    : C (env unit) (option Msg_t) :=
  _ <-? calloc_Msg;
  match pObj with
  | None =>
      pBuf <-? calloc_pBuf 8;
      pBuf ← lift (
        pBuf <-! st8 pBuf 0 0xAA;
        pBuf <-! st8 pBuf 1 devId;
        pBuf <-! st8 pBuf 2 devId;
        pBuf <-! st8 pBuf 3 0x1;
        pBuf <-! st8 pBuf 4 0x2;
        pBuf <-! st8 pBuf 5 0x1;
        seal_crc pBuf 8);
      mret (Some (a_msg pBuf 8))
  | Some pObj =>
      pBuf <-? calloc_pBuf 8;
      r ← lift (
        pBuf <-! st8 pBuf 0 0xAA;
        pBuf <-! st8 pBuf 1 devId;
        pBuf <-! st8 pBuf 2 devId;
        r <-! set_cmd pBuf pObj;
        pBuf <-! seal_crc r.1 r.2;
        Done (pBuf, r.2));
      mret (Some (a_msg r.1 (Z.of_nat r.2)))
  end.

Definition frame (devId : Z) : list Z -> Prop :=
  motor_frame [7%nat; 8%nat] [0xAA; u8 devId; u8 devId].

#[export] Instance build_ok : BuildExtOk (fun _ => True) frame buildExt.
Proof.
  intros devId regAddr groupAddr pObj e Hd Hr Hg _. unfold buildExt, set_cmd. motor_auto.
Qed.

(** The position of the motor and the acknowledgements of its commands. *)
Definition parseExt (devId regAddr : Z) (pBuf : option (list Z)) (len : Z)
    : C (env unit) (option Objs) :=
  match pBuf with
  | None => mret None
  | Some pBuf =>
  if len <? MESSAGE_MIN_LEN then mret None else
  let devv := Z.lor (u16 (Z.shiftl devId 8)) devId in
  pos <-? lift (find1 pBuf len devv (MESSAGE_MIN_LEN - 1));
  ob <-? NewMbusObjs (MAX_IDX + 1);
  ob ← lift (
    ob <-! null_obj ob MAX_IDX;
    c <-! rd8 pBuf (pos + 2);
    if c =? 1 then
      ob <-! upd_obj ob CONTROL (set_localPoint CURTAIN_SWITCH);
      b4 <-! rd8 pBuf (pos + 4);
      if b4 =? 0 then upd_obj ob CONTROL (set_value 2)
      else if b4 =? 100 then upd_obj ob CONTROL (set_value 0)
      else Done ob
    else if c =? 3 then
      b3 <-! rd8 pBuf (pos + 3);
      ob <-! upd_obj ob CONTROL (set_value b3);
      ob <-! upd_obj ob CONTROL (set_localPoint CURTAIN_SWITCH);
      if b3 =? 1 then upd_obj ob CONTROL (set_value 0)
      else if b3 =? 2 then upd_obj ob CONTROL (set_value 2)
      else if b3 =? 3 then upd_obj ob CONTROL (set_value 1)
      else Done ob
    else Done ob);
  mret (Some ob)
  end.

#[export] Instance parse_ok : ParseExtOk (fun _ => True) 0 parseExt.
Proof.
  intros devId regAddr buf len e Hd Hr Hb Hl Hlen _.
  unfold parseExt, MESSAGE_MIN_LEN. parse_auto.
Qed.

End Changming.

(** ** HeChuang (Mbus_Curtain_HeChuang.c): the protocol of Changming with another header *)

Module HeChuang.

Definition CONTROL : nat := 0.
Definition MAX_IDX : nat := 1.
Definition MESSAGE_MIN_LEN : Z := 7.

(** A control request sends 7 of the 8 bytes allocated. *)
Definition set_cmd (pBuf : list Z) (o : ty_obj_dp_s) : outcome (list Z * nat) :=
  if dpid o =? 1 then
    pBuf <-! st8 pBuf 3 0x3;
    pBuf <-! (if dp_value o =? 0 then st8 pBuf 4 1
              else if dp_value o =? 1 then st8 pBuf 4 3
              else if dp_value o =? 2 then st8 pBuf 4 2
              else Done pBuf);
    Done (pBuf, 7%nat)
  else if dpid o =? 101 then
    pBuf <-! st8 pBuf 3 0x1;
    pBuf <-! st8 pBuf 4 0x3;
    pBuf <-! st8 pBuf 5 0x1;
    Done (pBuf, 8%nat)
  else Done (pBuf, 8%nat).

Definition buildExt (devId regAddr groupAddr : Z) (pObj : option ty_obj_dp_s)
    : C (env unit) (option Msg_t) :=
  _ <-? calloc_Msg;
  match pObj with
  | None =>
      pBuf <-? calloc_pBuf 8;
      pBuf ← lift (
        pBuf <-! st8 pBuf 0 0x55;
        pBuf <-! st8 pBuf 1 devId;
        pBuf <-! st8 pBuf 2 devId;
        pBuf <-! st8 pBuf 3 0x1;
        pBuf <-! st8 pBuf 4 0x2;
        pBuf <-! st8 pBuf 5 0x1;
        seal_crc pBuf 8);
      mret (Some (a_msg pBuf 8))
  | Some pObj =>
      pBuf <-? calloc_pBuf 8;
      r ← lift (
        pBuf <-! st8 pBuf 0 0x55;
        pBuf <-! st8 pBuf 1 devId;
        pBuf <-! st8 pBuf 2 devId;
        r <-! set_cmd pBuf pObj;
        pBuf <-! seal_crc r.1 r.2;
        Done (pBuf, r.2));
      mret (Some (a_msg r.1 (Z.of_nat r.2)))
  end.

Definition frame (devId : Z) : list Z -> Prop :=
  motor_frame [7%nat; 8%nat] [0x55; u8 devId; u8 devId].

#[export] Instance build_ok : BuildExtOk (fun _ => True) frame buildExt.
Proof.
  intros devId regAddr groupAddr pObj e Hd Hr Hg _. unfold buildExt, set_cmd. motor_auto.
Qed.

(** The position of the motor and the acknowledgements of its commands. *)
Definition parseExt (devId regAddr : Z) (pBuf : option (list Z)) (len : Z)
    : C (env unit) (option Objs) :=
  match pBuf with
  | None => mret None
  | Some pBuf =>
  if len <? MESSAGE_MIN_LEN then mret None else
  let devv := Z.lor (u16 (Z.shiftl devId 8)) devId in
  pos <-? lift (find1 pBuf len devv (MESSAGE_MIN_LEN - 1));
  ob <-? NewMbusObjs (MAX_IDX + 1);
  ob ← lift (
    ob <-! null_obj ob MAX_IDX;
    c <-! rd8 pBuf (pos + 2);
    if c =? 1 then
      ob <-! upd_obj ob CONTROL (set_localPoint CURTAIN_SWITCH);
      b4 <-! rd8 pBuf (pos + 4);
      if b4 =? 0 then upd_obj ob CONTROL (set_value 2)
      else if b4 =? 100 then upd_obj ob CONTROL (set_value 0)
      else Done ob
    else if c =? 3 then
      b3 <-! rd8 pBuf (pos + 3);
      ob <-! upd_obj ob CONTROL (set_value b3);
      ob <-! upd_obj ob CONTROL (set_localPoint CURTAIN_SWITCH);
      if b3 =? 1 then upd_obj ob CONTROL (set_value 0)
      else if b3 =? 2 then upd_obj ob CONTROL (set_value 2)
      else if b3 =? 3 then upd_obj ob CONTROL (set_value 1)
      else Done ob
    else Done ob);
  mret (Some ob)
  end.

#[export] Instance parse_ok : ParseExtOk (fun _ => True) 0 parseExt.
Proof.
  intros devId regAddr buf len e Hd Hr Hb Hl Hlen _.
  unfold parseExt, MESSAGE_MIN_LEN. parse_auto.
Qed.

End HeChuang.

(** ** AOK *)

Module AOK.

Definition CONTROL : nat := 0.
Definition MAX_IDX : nat := 1.
Definition MESSAGE_MIN_LEN : Z := 10.

(** [pBuf[6] = BCC8(pBuf + 1, 5);] *)
Definition seal (pBuf : list Z) : outcome (list Z) :=
  c <-! BCC8 (drop 1 pBuf) 5; st8 pBuf 6 c.

Definition build (devId regAddr groupAddr : Z) (pObj : option ty_obj_dp_s)
    : C (env unit) (option Msg_t) :=
  _ <-? calloc_Msg;
  pBuf <-? calloc_pBuf 7;
  pBuf ← lift (
    pBuf <-! st8 pBuf 0 0x9A;
    pBuf <-! st8 pBuf 1 devId;
    pBuf <-! st8 pBuf 2 0x80;
    pBuf <-! st8 pBuf 3 0x00;
    match pObj with
    | None =>
        pBuf <-! st8 pBuf 4 0xCC;
        pBuf <-! st8 pBuf 5 0x00;
        seal pBuf
    | Some pObj =>
        pBuf <-! (
          if dpid pObj =? 1 then
            pBuf <-! st8 pBuf 4 0x0A;
            if dp_value pObj =? 0 then st8 pBuf 5 0xDD
            else if dp_value pObj =? 1 then st8 pBuf 5 0xCC
            else if dp_value pObj =? 2 then st8 pBuf 5 0xEE
            else Done pBuf
          else if dpid pObj =? 2 then
            pBuf <-! st8 pBuf 4 0x0A;
            st8 pBuf 5 0x02
          else Done pBuf);
        seal pBuf
    end);
  mret (Some (a_msg pBuf 7)).

(** 0x9A, five bytes that start with the address, their xor. *)
Definition frame (devId : Z) (buf : list Z) : Prop :=
  bytes buf /\ exists body, buf = 0x9A :: body ++ [bcc_of body] /\ length body = 5%nat /\
    take 3 body = [u8 devId; 0x80; 0x00].

Lemma aok_seal h d a b x y z (Q : list Z -> Prop) :
  bytes [d; a; b; x; y; z] ->
  Q [h; d; a; b; x; y; bcc_of [d; a; b; x; y]] -> owp (seal [h; d; a; b; x; y; z]) Q.
Proof.
  intros Hb HQ. unfold seal. cbn [drop]. change (BCC8 ?l 5) with (BCC8 l (Z.of_nat 5)).
  rewrite BCC8_eval by (done || simpl; lia). cbn [take obind].
  unfold st8. cbn [length Nat.ltb Nat.leb insert list_insert owp].
  rewrite u8_small; [done|]. apply bcc_of_u8. exact (bytes_take 5 _ Hb).
Qed.

Lemma aok_frame_intro d x y :
  is_u8 x -> is_u8 y ->
  frame d [u8 0x9A; u8 d; u8 0x80; u8 0x00; x; y; bcc_of [u8 d; u8 0x80; u8 0x00; x; y]].
Proof.
  intros Hx Hy. assert (bytes [u8 d; u8 0x80; u8 0x00; x; y]) as Hb.
  { do 3 (apply Forall_cons; split; [apply u8_range|]). by repeat (apply Forall_cons; split). }
  split.
  - apply Forall_cons. split; [apply u8_range|].
    apply (Forall_app _ [_; _; _; _; _] [_]). split; [exact Hb|].
    by apply Forall_singleton, bcc_of_u8.
  - by exists [u8 d; u8 0x80; u8 0x00; x; y].
Qed.

#[export] Instance build_ok : BuildExtOk (fun _ => True) frame build.
Proof.
  intros devId regAddr groupAddr pObj e Hd Hr Hg _. unfold build. cbv zeta.
  repeat (match goal with |- owp (seal _) _ =>
    apply aok_seal; [repeat (apply Forall_cons; split; [first [apply u8_range|done]|]); by apply Forall_nil|] end || conc_step).
  all: try done; try lia.
  all: apply built_msg; cbn [mem st live length]; [done|lia|lia|].
  all: apply aok_frame_intro; first [apply u8_range|done].
Qed.

Definition parse (devId regAddr : Z) (pBuf : option (list Z)) (len : Z)
    : C (env unit) (option Objs) :=
  match pBuf with
  | None => mret None
  | Some pBuf =>
  if len <? MESSAGE_MIN_LEN then mret None else
  let devv := u16 (0xD800 + devId) in
  pos <-? lift (find1 pBuf len devv (MESSAGE_MIN_LEN - 1));
  ob <-? NewMbusObjs MAX_IDX;
  ob ← lift (
    ob <-! upd_obj ob CONTROL (set_localPoint CURTAIN_SWITCH);
    b6 <-! rd8 pBuf (pos + 6);
    if b6 =? 0 then upd_obj ob CONTROL (set_value 0)
    else if b6 =? 100 then upd_obj ob CONTROL (set_value 2)
    else Done ob);
  mret (Some ob)
  end.

#[export] Instance parse_ok : ParseExtOk (fun _ => True) 0 parse.
Proof.
  intros devId regAddr buf len e Hd Hr Hb Hl Hlen _.
  unfold parse, MESSAGE_MIN_LEN. parse_auto.
Qed.

End AOK.

(** ** BinThen *)

Module BinThen.

Definition CMD_TYPE_QUERY : Z := 0x0A01.
Definition CMD_TYPE_EXECUTE : Z := 0x0A02.
Definition ACTION_STOP : Z := 0x02.
Definition ACTION_OPEN : Z := 0x01.
Definition ACTION_CLOSE : Z := 0x00.
Definition MODBUS_OBJ_SIZE : nat := 1.
Definition packageHeader : Z := 0x55AAAA55.
Definition crcHeader : Z := 0x2017.

(** [SN] has three bytes, [undefined] four. *)
Record BinThen_Curtain_UARTPackage_t := UARTPackage {
  header : Z; crc : Z; cmdType : Z; dataLength : Z; protocolVersion : Z;
  deviceType : Z; action : Z; locationPercentage : Z; SN : list Z; undefined : list Z
}.

(** [pBuf[len++] = (uint8_t) v] *)
Definition push (m : list Z * nat) (v : Z) : outcome (list Z * nat) :=
  pBuf <-! st8 m.1 m.2 v; Done (pBuf, S m.2).

(** [for (i = 0; i < n; ++i) pBuf[len++] = (uint8_t) (v >> 8 * i)], from [i]. *)
Fixpoint push_le (m : list Z * nat) (v : Z) (n : nat) (i : Z) : outcome (list Z * nat) :=
  match n with
  | O => Done m
  | S n => m <-! push m (Z.shiftr v (8 * i)); push_le m v n (i + 1)
  end.

Fixpoint push_all (m : list Z * nat) (l : list Z) : outcome (list Z * nat) :=
  match l with [] => Done m | v :: l => m <-! push m v; push_all m l end.

(** [for (i = 0; i < len; ++i) crc += pBuf[i];] on a [uint16_t]. *)
Fixpoint crc_loop (pBuf : list Z) (n i : nat) (c : Z) : outcome Z :=
  match n with
  | O => Done c
  | S n => b <-! rd8 pBuf i; crc_loop pBuf n (S i) (u16 (c + b))
  end.

(** The stores of [generatePackage]: the fields in order, then the sum. *)
Definition serialize (p : BinThen_Curtain_UARTPackage_t) (pBuf : list Z) : outcome (list Z) :=
  m <-! push_le (pBuf, O) (header p) 4 0;
  m <-! push_le m (crc p) 2 0;
  m <-! push_le m (cmdType p) 2 0;
  m <-! push_le m (dataLength p) 2 0;
  m <-! push_le m (protocolVersion p) 2 0;
  m <-! push m (deviceType p);
  m <-! push m (action p);
  m <-! push m (locationPercentage p);
  m <-! push_all m (SN p);
  m <-! push_all m (undefined p);
  c <-! crc_loop m.1 m.2 0 (crc p);
  let c := u16 (c + crcHeader) in
  pBuf <-! st8 m.1 4 (Z.shiftr c 0);
  st8 pBuf 5 (Z.shiftr c 8).

Definition generatePackage (p : BinThen_Curtain_UARTPackage_t) : C (env unit) (option Msg_t) :=
  _ <-? calloc_Msg;
  pBuf <-? calloc_pBuf 22;
  pBuf ← lift (serialize p pBuf);
  mret (Some (a_msg pBuf 22)).

(** [res.x |= (pBuf[i] << 8 * (i - tmp))] for [n] bytes from [offset]; [res] is
    an automatic variable without initialiser, so [x] starts with [junk]. *)
Fixpoint pull_le (pBuf : list Z) (offset n : nat) (i x : Z) : outcome Z :=
  match n with
  | O => Done x
  | S n => b <-! rd8 pBuf offset; pull_le pBuf (S offset) n (i + 1) (Z.lor x (Z.shiftl b (8 * i)))
  end.

Definition BinThen_UnpackPackage (junk : BinThen_Curtain_UARTPackage_t) (pBuf : list Z)
    : outcome BinThen_Curtain_UARTPackage_t :=
  h <-! pull_le pBuf 0 4 0 (header junk);
  c <-! pull_le pBuf 4 2 0 (crc junk);
  t <-! pull_le pBuf 6 2 0 (cmdType junk);
  l <-! pull_le pBuf 8 2 0 (dataLength junk);
  v <-! pull_le pBuf 10 2 0 (protocolVersion junk);
  d <-! rd8 pBuf 12;
  a <-! rd8 pBuf 13;
  p <-! rd8 pBuf 14;
  s0 <-! rd8 pBuf 15; s1 <-! rd8 pBuf 16; s2 <-! rd8 pBuf 17;
  u0 <-! rd8 pBuf 18; u1 <-! rd8 pBuf 19; u2 <-! rd8 pBuf 20; u3 <-! rd8 pBuf 21;
  Done (UARTPackage (u32 h) (u16 c) (u16 t) (u16 l) (u16 v) d a p [s0; s1; s2] [u0; u1; u2; u3]).

Definition BinThen_UART_PackageFactory (cmd act SN3 : Z) : C (env unit) (option Msg_t) :=
  generatePackage (UARTPackage packageHeader 0 cmd 0x000A 0 0x01 act 0
                     [0x01; 0x01; SN3] [0; 0; 0; 0]).

Definition modbus_dev_control : build_t unit := fun modbusId regAddr groupAddr pvMbusNode pCloudObj =>
  match pCloudObj with
  | None => BinThen_UART_PackageFactory CMD_TYPE_QUERY ACTION_OPEN modbusId
  | Some o =>
      let action :=
        if dp_enum o =? 0 then ACTION_OPEN
        else if dp_enum o =? 1 then ACTION_STOP
        else if dp_enum o =? 2 then ACTION_CLOSE
        else 0 in
      BinThen_UART_PackageFactory CMD_TYPE_EXECUTE action modbusId
  end.

Definition modbus_dev_report (junk : BinThen_Curtain_UARTPackage_t) : parse_t unit :=
  fun modbusId regAddr pvMbusNode pBuf len =>
  match pBuf with
  | None => mret None
  | Some pBuf =>
  if len <? 22 then mret None else
  res ← lift (BinThen_UnpackPackage junk pBuf);
  ob <-? NewMbusObjs (MODBUS_OBJ_SIZE + 1);
  ob ← lift (null_obj ob 1);
  ob <-? (
    if action res =? ACTION_OPEN then ob ← lift (upd_obj ob 0 (set_value 0)); mret (Some ob)
    else if action res =? ACTION_STOP then ob ← lift (upd_obj ob 0 (set_value 1)); mret (Some ob)
    else if action res =? ACTION_CLOSE then ob ← lift (upd_obj ob 0 (set_value 2)); mret (Some ob)
    else mret None);
  ob ← lift (
    ob <-! upd_obj ob 0 (set_localPoint CURTAIN_SWITCH);
    upd_obj ob 0 (fun o => set_rcvValue (value o) o));
  mret (Some ob)
  end.

(** The package on the wire: the 16-bit sum of all other bytes and 0x2017 in
    bytes 4 and 5, low byte first. *)
Definition frame (modbusId : Z) (buf : list Z) : Prop :=
  bytes buf /\ exists lo hi cmd act,
    buf = [0x55; 0xAA; 0xAA; 0x55; lo; hi; cmd; 0x0A; 0x0A; 0; 0; 0; 1; act; 0; 1; 1; modbusId;
           0; 0; 0; 0] /\
    lo + 256 * hi = u16 (crcHeader + sum_of (drop 6 buf) + sum_of (take 4 buf)).

Lemma crc_loop_sum pBuf n i c :
  (i + n <= length pBuf)%nat ->
  crc_loop pBuf n i (u16 c) = Done (u16 (c + sum_of (take n (drop i pBuf)))).
Proof.
  revert i c. induction n as [|n IH]; intros i c Hn; simpl.
  - by rewrite Z.add_0_r.
  - destruct (lookup_lt_is_Some_2 pBuf i) as [b Hb]; [lia|].
    unfold rd8. rewrite Hb. simpl.
    replace (u16 (u16 c + b)) with (u16 (c + b))
      by (unfold u16; rewrite Z.add_mod_idemp_l; lia).
    rewrite IH by lia. rewrite (drop_S _ _ _ Hb). simpl. do 2 f_equal. lia.
Qed.

Lemma split16 c :
  0 <= c < 65536 -> u8 (Z.shiftr c 0) + 256 * u8 (Z.shiftr c 8) = c.
Proof.
  intros Hc. rewrite Z.shiftr_0_r, Z.shiftr_div_pow2 by lia.
  rewrite (u8_small (c / 2 ^ 8)) by by apply hi_u8.
  unfold u8. change (2 ^ 8) with 256. pose proof (Z.div_mod c 256). lia.
Qed.

Ltac push_step :=
  match goal with
  | |- owp (obind _ _) _ => apply owp_bind
  | |- owp (push_le _ _ _ _) _ => cbn [push_le]
  | |- owp (push_all _ _) _ => cbn [push_all]
  | |- owp (push _ _) _ => unfold push at 1; cbn [fst snd]
  | |- owp (Done _) _ => cbn [owp]
  | |- owp (st8 (_ :: _) _ _) _ =>
      eapply owp_eval;
      [unfold st8; cbn [length Nat.ltb Nat.leb insert list_insert]; reflexivity|]
  end.

(** The bytes of a package of the factory. *)
Lemma serialize_ok cmd act SN3 :
  is_u8 SN3 -> is_u8 act ->
  (cmd = CMD_TYPE_QUERY \/ cmd = CMD_TYPE_EXECUTE) ->
  owp (serialize (UARTPackage packageHeader 0 cmd 0x000A 0 0x01 act 0
                    [0x01; 0x01; SN3] [0; 0; 0; 0]) (replicate 22 0)) (frame SN3).
Proof.
  intros HS Ha Hcmd. unfold serialize.
  cbn [header crc cmdType dataLength protocolVersion deviceType action
       locationPercentage SN undefined replicate].
  repeat push_step. rewrite (u8_small act), (u8_small SN3) by done.
  assert (exists k, is_u8 k /\ u8 (Z.shiftr cmd (8 * 0)) = k /\
            u8 (Z.shiftr cmd (8 * (0 + 1))) = 0x0A) as (k & Hk & -> & ->).
  { destruct Hcmd as [-> | ->]; [by exists 1|by exists 2]. }
  match goal with |- owp (crc_loop (?l, _).1 _ _ _) _ =>
    change l with [0x55; 0xAA; 0xAA; 0x55; 0; 0; k; 0x0A; 0x0A; 0; 0; 0; 1; act; 0; 1; 1; SN3;
                   0; 0; 0; 0] end.
  cbn [fst snd].
  match goal with |- owp (crc_loop ?l ?n ?i 0) _ =>
    change (crc_loop l n i 0) with (crc_loop l n i (u16 0)) end.
  rewrite crc_loop_sum by (simpl; lia).
  cbn [owp drop take Nat.add].
  set (c := u16 (u16 _ + crcHeader)). assert (0 <= c < 65536) as Hc by apply u16_range.
  repeat push_step. split.
  - repeat (apply Forall_cons; split; [first [done|apply u8_range]|]). by apply Forall_nil.
  - exists (u8 (Z.shiftr c 0)), (u8 (Z.shiftr c 8)), k, act. split; [done|].
    rewrite split16 by done. subst c. cbn [drop take].
    unfold u16. rewrite Z.add_mod_idemp_l by lia. f_equal.
    unfold sum_of. cbn [fold_right]. lia.
Qed.

#[export] Instance build_ok : BuildOk (fun _ => True) (fun _ _ _ _ => True) frame
  modbus_dev_control.
Proof.
  intros modbusId regAddr groupAddr node pObj e Hd Hr Hg _ _.
  assert (forall cmd act, is_u8 act -> cmd = CMD_TYPE_QUERY \/ cmd = CMD_TYPE_EXECUTE ->
    wp (BinThen_UART_PackageFactory cmd act modbusId)
       (built (fun _ => True) (frame modbusId) (live (mem e))) e) as H.
  { intros cmd act Ha Hc. unfold BinThen_UART_PackageFactory, generatePackage.
    apply wp_bind, wp_calloc_Msg; intros p; [|by apply wp_ret, built_none].
    apply wp_bind, wp_calloc_pBuf; intros q; cbn [mem st live].
    - apply wp_bind, wp_lift. eapply owp_mono; [by apply serialize_ok|].
      intros b Hf. apply wp_ret, built_msg; cbn [mem st live]; [done|lia| |done].
      destruct Hf as (_ & lo & hi & k & a & -> & _). done.
    - apply wp_ret, built_none; cbn [mem st live]; [done|lia]. }
  unfold modbus_dev_control. destruct pObj as [o|].
  - repeat match goal with |- wp (let _ := _ in _) _ _ => cbv zeta end.
    apply H; [|by right]. by repeat case_match.
  - apply H; [done|by left].
Qed.

(** An answer with another action leaves all three blocks behind. *)
#[export] Instance parse_ok junk : ParseOk (fun _ => True) 3 (fun _ _ _ _ _ => True)
  (modbus_dev_report junk).
Proof.
  intros devId regAddr node buf len e Hd Hr Hb Hl Hlen _ _.
  unfold modbus_dev_report, BinThen_UnpackPackage, MODBUS_OBJ_SIZE.
  cbn [pull_le]. parse_auto.
Qed.

End BinThen.
