(* ===== verification/MiscPlugins.v ===== *)
(** The remaining Modbus plugins (plugin/compile/Mbus_AQI_*, Mbus_Heat_*,
    Mbus_Panel_*, Modbus_FloorHeating_*, Modbus_Humidifier_*, Modbus_Purifier),
    one Module each. *)

From S2P Require Import Prelude CMem Crc Device PluginApi.

(** ** Air quality sensor *)

Module AQI.

Definition READ_CODE : Z := 0x42.
Definition WRITE_CODE : Z := 0x06.
Definition MODBUS_MIN_LEN : Z := 7.
Definition TEMP : nat := 0.
Definition HUMI : nat := 1.
Definition PM25 : nat := 2.
Definition CO2 : nat := 3.
Definition MAX_IDX : nat := 4.

Definition build : build_t unit := fun devId regAddr groupAddr pvMbusNode pObj => mret None.

#[export] Instance build_ok : BuildOk (fun _ => True) (fun _ _ _ _ => True)
  (fun _ _ => False) build.
Proof. intros devId regAddr groupAddr node pObj e Hd Hr Hg _ _. unfold build. frame_auto. Qed.

Definition parse : parse_t unit := fun devId regAddr pvMbusNode pBuf len =>
  match pBuf with
  | None => mret None
  | Some pBuf =>
  if len <? MODBUS_MIN_LEN then mret None else
  pos <-? lift (find2 pBuf len (u16 (devId * 256 + READ_CODE)) MODBUS_MIN_LEN
                              (u16 (devId * 256 + WRITE_CODE)) MODBUS_MIN_LEN);
  c ← lift (rd8 pBuf (pos + 1));
  if c =? READ_CODE then
    ob <-? NewMbusObjs MAX_IDX;
    ob ← lift (
      ob <-! upd_obj ob HUMI (set_localPoint HEAT_SWITCH);
      ob <-! upd_obj ob TEMP (set_localPoint HEAT_TEMP);
      ob <-! upd_obj ob PM25 (set_localPoint HEAT_ENV_TEMP);
      ob <-! upd_obj ob CO2 (set_localPoint HEAT_ENV_TEMP);
      te <-! rd16be pBuf (pos + 11);
      ob <-! upd_obj ob TEMP (set_value (te - 25));
      hu <-! rd16be pBuf (pos + 13);
      ob <-! upd_obj ob HUMI (set_value hu);
      pm <-! rd16be pBuf (pos + 15);
      ob <-! upd_obj ob PM25 (set_value pm);
      co <-! rd16be pBuf (pos + 19);
      upd_obj ob CO2 (set_value co));
    mret (Some ob)
  else mret None
  end.

(** A report is read up to its 21st byte, seven are known to be there. *)
#[export] Instance parse_ok : ParseOk (fun _ => True) 0
  (fun _ _ _ buf len => (Z.to_nat len + 14 <= length buf)%nat) parse.
Proof.
  intros devId regAddr node buf len e Hd Hr Hb Hl Hlen Hroom _.
  unfold parse, MODBUS_MIN_LEN. parse_auto.
Qed.

End AQI.

(** ** Panel *)

Module Panel.

Definition READ_CODE : Z := 0x3.
Definition WRITE_CODE : Z := 0x6.
Definition MODBUS_MIN_LEN : Z := 8.

Definition build : build_t unit := fun devId regAddr groupAddr pvMbusNode pObj =>
  _ <-? calloc_Msg;
  pBuf <-? calloc_pBuf 8;
  pBuf ← lift (
    pBuf <-! st8 pBuf 0 devId;
    match pObj with
    | None =>
        pBuf <-! st8 pBuf 1 READ_CODE;
        pBuf <-! st16be pBuf 2 0x100B;
        pBuf <-! st16be pBuf 4 0x0001;
        seal_crc pBuf 8
    | Some pObj =>
        pBuf <-! st8 pBuf 1 WRITE_CODE;
        pBuf <-! (
          if dpid pObj =? 1 then
            pBuf <-! st16be pBuf 2 0x1008;
            st16be pBuf 4 (b2z (dp_bool pObj))
          else Done pBuf);
        seal_crc pBuf 8
    end);
  mret (Some (a_msg pBuf 8)).

#[export] Instance build_ok : BuildOk (fun _ => True) (fun _ _ _ _ => True)
  (mbus_frame [8%nat] [READ_CODE; WRITE_CODE]) build.
Proof.
  intros devId regAddr groupAddr node pObj e Hd Hr Hg _ _. unfold build. frame_auto.
Qed.

Definition parse : parse_t unit := fun devId regAddr pvMbusNode pBuf len =>
  match pBuf with
  | None => mret None
  | Some pBuf =>
  if len <? MODBUS_MIN_LEN then mret None else
  pos <-? lift (find2 pBuf len (u16 (devId * 256 + READ_CODE)) MODBUS_MIN_LEN
                              (u16 (devId * 256 + WRITE_CODE)) MODBUS_MIN_LEN);
  c ← lift (rd8 pBuf (pos + 1));
  if c =? READ_CODE then
    ob <-? NewMbusObjs 1;
    ob ← lift (
      ob <-! upd_obj ob 0 (set_localPoint PANEL_SWITCH);
      b5 <-! rd8 pBuf (pos + 5); upd_obj ob 0 (set_value b5));
    mret (Some ob)
  else if c =? WRITE_CODE then
    ob <-? NewMbusObjs 1;
    ob ← lift (
      ob <-! upd_obj ob 0 (set_localPoint PANEL_SWITCH);
      b5 <-! rd8 pBuf (pos + 5); upd_obj ob 0 (set_value b5));
    mret (Some ob)
  else mret None
  end.

#[export] Instance parse_ok : ParseOk (fun _ => True) 0 (fun _ _ _ _ _ => True) parse.
Proof.
  intros devId regAddr node buf len e Hd Hr Hb Hl Hlen _ _.
  unfold parse, MODBUS_MIN_LEN. parse_auto.
Qed.

End Panel.

(** ** Honeywell floor heating *)

Module Honeywell.

Definition READ_CODE : Z := 0x3.
Definition WRITE_CODE : Z := 0x6.
Definition REG_ADDR : Z := 0x01.
Definition WR_SWITCH_ADDR : Z := 0x01.
Definition WR_TEMP_ADDR : Z := 0x04.
Definition MODBUS_MIN_LEN : Z := 7.
Definition SWITCH : nat := 0.
Definition TEMP : nat := 1.
Definition ROOM_TEMP : nat := 2.
Definition MAX_IDX : nat := 3.

Definition build : build_t unit := fun devId regAddr groupAddr pvMbusNode pObj =>
  _ <-? calloc_Msg;
  pBuf <-? calloc_pBuf 8;
  pBuf ← lift (
    pBuf <-! st8 pBuf 0 devId;
    match pObj with
    | None =>
        pBuf <-! st8 pBuf 1 READ_CODE;
        pBuf <-! st16be pBuf 2 REG_ADDR;
        pBuf <-! st16be pBuf 4 4;
        seal_crc pBuf 8
    | Some pObj =>
        pBuf <-! st8 pBuf 1 WRITE_CODE;
        pBuf <-! (
          if dpid pObj =? 1 then
            pBuf <-! st16be pBuf 2 WR_SWITCH_ADDR;
            st16be pBuf 4 (b2z (dp_bool pObj))
          else if dpid pObj =? 2 then
            pBuf <-! st16be pBuf 2 WR_TEMP_ADDR;
            st16be pBuf 4 (u32 (dp_enum pObj * 10))
          else Done pBuf);
        seal_crc pBuf 8
    end);
  mret (Some (a_msg pBuf 8)).

#[export] Instance build_ok : BuildOk (fun _ => True) (fun _ _ _ _ => True)
  (mbus_frame [8%nat] [READ_CODE; WRITE_CODE]) build.
Proof.
  intros devId regAddr groupAddr node pObj e Hd Hr Hg _ _. unfold build. frame_auto.
Qed.

Definition parse : parse_t unit := fun devId regAddr pvMbusNode pBuf len =>
  match pBuf with
  | None => mret None
  | Some pBuf =>
  if len <? MODBUS_MIN_LEN then mret None else
  pos <-? lift (find2 pBuf len (u16 (devId * 256 + READ_CODE)) MODBUS_MIN_LEN
                              (u16 (devId * 256 + WRITE_CODE)) MODBUS_MIN_LEN);
  c ← lift (rd8 pBuf (pos + 1));
  if c =? READ_CODE then
    ob <-? NewMbusObjs MAX_IDX;
    ob ← lift (
      ob <-! upd_obj ob SWITCH (set_localPoint HEAT_SWITCH);
      ob <-! upd_obj ob TEMP (set_localPoint HEAT_TEMP);
      ob <-! upd_obj ob ROOM_TEMP (set_localPoint HEAT_ENV_TEMP);
      b4 <-! rd8 pBuf (pos + 4);
      ob <-! upd_obj ob SWITCH (set_value b4);
      te <-! rd16be pBuf (pos + 9);
      ob <-! upd_obj ob TEMP (set_value (te / 10));
      en <-! rd16be pBuf (pos + 5);
      upd_obj ob ROOM_TEMP (set_value (en / 10)));
    mret (Some ob)
  else if c =? WRITE_CODE then
    ob <-? NewMbusObjs 1;
    reg ← lift (rd16be pBuf (pos + 2));
    if reg =? WR_SWITCH_ADDR then
      ob ← lift (
        ob <-! upd_obj ob 0 (set_localPoint HEAT_SWITCH);
        b5 <-! rd8 pBuf (pos + 5); upd_obj ob 0 (set_value b5));
      mret (Some ob)
    else if reg =? WR_TEMP_ADDR then
      ob ← lift (
        ob <-! upd_obj ob 0 (set_localPoint HEAT_TEMP);
        te <-! rd16be pBuf (pos + 4); upd_obj ob 0 (set_value (te / 10)));
      mret (Some ob)
    else mret None
  else mret None
  end.

(** A status answer is read up to its 11th byte; an unknown register leaks. *)
#[export] Instance parse_ok : ParseOk (fun _ => True) 2
  (fun _ _ _ buf len => (Z.to_nat len + 4 <= length buf)%nat) parse.
Proof.
  intros devId regAddr node buf len e Hd Hr Hb Hl Hlen Hroom _.
  unfold parse, MODBUS_MIN_LEN. parse_auto.
Qed.

End Honeywell.

(** ** A whole-packet check shared by two devices

    [checkPackage] of the floor heating and of the humidifier differ in the
    commands they accept. *)

Definition crc_package (package : list Z) (length devId : Z) (codes : list Z) : outcome Z :=
  let length := u8 length in
  if length <? 3 then Done (-1) else
  crc <-! crc16 package (length - 2);
  h <-! rd8 package (Z.to_nat (length - 2));
  l <-! rd8 package (Z.to_nat (length - 1));
  let packageCRC := u16 (Z.shiftl h 8 + l) in
  if negb (crc =? packageCRC) then Done (-1) else
  b0 <-! rd8 package 0;
  if negb (devId =? b0) then Done (-1) else
  b1 <-! rd8 package 1;
  if forallb (fun c => negb (b1 =? c)) codes then Done (-1) else Done 0.

(** Accepted exactly when the packet is [devId], a known code, ..., and its own
    CRC. *)
Definition accepted (package : list Z) (devId : Z) (codes : list Z) (n : nat) : Prop :=
  (3 <= n)%nat /\ crc16 package (Z.of_nat n) = Done 0 /\
  package !! 0%nat = Some devId /\ exists c, package !! 1%nat = Some c /\ In c codes.


Lemma take_two (p : list Z) n :
  (2 <= n <= length p)%nat -> exists h l,
    p !! (n - 2)%nat = Some h /\ p !! (n - 1)%nat = Some l /\ take n p = take (n - 2) p ++ [h; l].
Proof.
  intros Hn. destruct (lookup_lt_is_Some_2 p (n - 2)) as [h Hh]; [lia|].
  destruct (lookup_lt_is_Some_2 p (n - 1)) as [l Hl]; [lia|].
  exists h, l. split; [done|]. split; [done|].
  replace n with (S (n - 1)) at 1 by lia. rewrite (take_S_r _ _ _ Hl).
  replace (n - 1)%nat with (S (n - 2)) at 1 by lia. rewrite (take_S_r _ _ _ Hh).
  by rewrite <- app_assoc.
Qed.

(** The check decides acceptance, for the lengths a [uint8_t] can hold. *)
Lemma crc_package_ok p n devId codes :
  bytes p -> (n <= length p)%nat -> (n < 256)%nat ->
  (crc_package p (Z.of_nat n) devId codes = Done 0 /\ accepted p devId codes n) \/
  (crc_package p (Z.of_nat n) devId codes = Done (-1) /\ ~ accepted p devId codes n).
Proof.
  intros Hb Hn Hn'. unfold crc_package, accepted. rewrite u8_small by (unfold is_u8; lia).
  destruct (Z.of_nat n <? 3) eqn:E3; bprop; [right; split; [done|lia]|].
  destruct (take_two p n) as (h & l & Hh & Hl & Ht); [lia|].
  assert (is_u8 h /\ is_u8 l) as [Hh8 Hl8] by (split; by eapply bytes_lookup).
  replace (Z.of_nat n - 2) with (Z.of_nat (n - 2)) by lia.
  replace (Z.to_nat (Z.of_nat n - 1)) with (n - 1)%nat by lia.
  rewrite Nat2Z.id, !crc16_eval by (done || lia). unfold rd8. rewrite Hh, Hl.
  cbn [obind]. rewrite shl8_mul, u16_small by (unfold is_u8 in *; lia).
  rewrite Ht. pose proof (crc_of_own_iff (take (n - 2) p) h l
    (bytes_take _ _ Hb) Hh8 Hl8) as Hiff.
  destruct (crc_of (take (n - 2) p) =? h * 256 + l) eqn:Ec; bprop; cbn [negb];
    [|right; split; [done|intros (_ & E & _); injection E as E; tauto]].
  destruct p as [|b0 [|b1 p]]; [simpl in Hn; lia|simpl in Hn; lia|].
  cbn [lookup list_lookup obind].
  destruct (devId =? b0) eqn:E0; bprop; cbn [negb];
    [subst|right; split; [done|intros (_ & _ & E & _); congruence]].
  destruct (forallb _ codes) eqn:Ef.
  - right. split; [done|]. intros (_ & _ & _ & c & [= <-] & Hc).
    rewrite forallb_forall in Ef. specialize (Ef _ Hc). by rewrite Z.eqb_refl in Ef.
  - left. split; [done|]. split; [lia|]. split; [f_equal; tauto|]. split; [done|].
    exists b1. split; [done|]. destruct (in_dec Z.eq_dec b1 codes) as [|Hni]; [done|].
    assert (forallb (fun c => negb (b1 =? c)) codes = true) as Ht'; [|congruence].
    apply forallb_forall. intros c Hc. apply negb_true_iff, Z.eqb_neq. congruence.
Qed.

Lemma u8_of_len len : 0 <= len < 65536 -> (Z.to_nat (u8 len) <= Z.to_nat len)%nat.
Proof.
  intros Hl. pose proof (u8_range len). unfold is_u8, u8 in *.
  pose proof (Z.mod_le len (2 ^ 8)). lia.
Qed.

(** The check never reads outside the [len] bytes received. *)
Lemma owp_crc_package p len devId codes (Q : Z -> Prop) :
  bytes p -> 0 <= len < 65536 -> (Z.to_nat len <= length p)%nat ->
  ((3 <= Z.to_nat len)%nat -> Q 0) -> Q (-1) -> owp (crc_package p len devId codes) Q.
Proof.
  intros Hb Hl Hlen H0 H1. pose proof (u8_range len) as Hr.
  pose proof (u8_of_len len Hl) as Hle. unfold is_u8 in Hr.
  assert (crc_package p len devId codes =
          crc_package p (Z.of_nat (Z.to_nat (u8 len))) devId codes) as ->.
  { unfold crc_package. rewrite Z2Nat.id, u8_idemp by lia. done. }
  destruct (crc_package_ok p (Z.to_nat (u8 len)) devId codes) as [[-> Ha]|[-> _]];
    [done|lia|lia|simpl|done].
  apply H0. destruct Ha. lia.
Qed.

(** ** TOWWIRE floor heating *)

Module FloorHeating.

Definition READ_CODE : Z := 3.
Definition WRITE_CODE : Z := 6.
Definition SWITCH : nat := 0.
Definition TEMP : nat := 1.
Definition ENV_TEMP : nat := 2.
Definition TY_SWITCH : Z := 1.
Definition TY_TEMP : Z := 2.

Definition checkPackage (package : list Z) (length devId : Z) : outcome Z :=
  crc_package package length devId [READ_CODE; WRITE_CODE].

(** [crc = crc16(pBuf, 6); pBuf[6] = crc >> 8; pBuf[7] = crc;] *)
Definition seal8 (pBuf : list Z) : outcome (list Z) :=
  crc <-! crc16 pBuf 6;
  pBuf <-! st8 pBuf 6 (Z.shiftr crc 8);
  st8 pBuf 7 crc.

Definition build : build_t unit := fun devId regAddr groupAddr modbusNode obj =>
  _ <-? calloc_Msg;
  pBuf <-? calloc_pBuf 8;
  pBuf ← lift (st8 pBuf 0 devId);
  match obj with
  | None =>
      pBuf ← lift (
        pBuf <-! st8 pBuf 1 READ_CODE;
        pBuf <-! st8 pBuf 3 (4 + 7 * (regAddr - 1));
        pBuf <-! st8 pBuf 5 5;
        seal8 pBuf);
      mret (Some (a_msg pBuf 8))
  | Some obj =>
      pBuf ← lift (st8 pBuf 1 WRITE_CODE);
      if dpid obj =? TY_SWITCH then
        pBuf ← lift (
          pBuf <-! st8 pBuf 3 ((regAddr - 1) * 7 + 4);
          pBuf <-! st8 pBuf 5 (b2z (dp_bool obj));
          seal8 pBuf);
        mret (Some (a_msg pBuf 8))
      else if dpid obj =? TY_TEMP then
        pBuf ← lift (
          pBuf <-! st8 pBuf 3 ((regAddr - 1) * 7 + 5);
          pBuf <-! st8 pBuf 4 (Z.shiftr (dp_value obj) 8);
          pBuf <-! st8 pBuf 5 (dp_value obj);
          seal8 pBuf);
        mret (Some (a_msg pBuf 8))
      else _ ← free; _ ← free; mret None
  end.

Lemma seal8_is_crc buf : length buf = 8%nat -> bytes buf -> seal8 buf = seal_crc buf 8.
Proof.
  intros Hl Hb. unfold seal8, seal_crc, st16be.
  change (Z.of_nat (8 - 2)) with (Z.of_nat 6). change (crc16 buf 6) with (crc16 buf (Z.of_nat 6)).
  rewrite crc16_eval by (done || lia). cbn [obind Nat.sub].
  assert (0 <= crc_of (take 6 buf) < 65536) by (apply crc_of_range; auto with cwp).
  by rewrite u16_small, Z.shiftr_div_pow2 by lia.
Qed.

#[export] Instance build_ok : BuildOk (fun _ => True) (fun _ _ _ _ => True)
  (mbus_frame [8%nat] [READ_CODE; WRITE_CODE]) build.
Proof.
  intros devId regAddr groupAddr node pObj e Hd Hr Hg _ _. unfold build.
  repeat (frame_step || match goal with H : hdr _ _ ?b |- owp (seal8 ?b) _ =>
    rewrite (seal8_is_crc b) by apply H end); try done; lia.
Qed.

Definition parse : parse_t unit := fun devId regAddr modbusNode package length =>
  match package with
  | None => mret None
  | Some package =>
  chk ← lift (checkPackage package length devId);
  if chk =? -1 then mret None else
  c ← lift (rd8 package 1);
  if c =? READ_CODE then
    ob <-? NewMbusObjs 3;
    ob ← lift (
      ob <-! upd_obj ob SWITCH (set_localPoint HEAT_SWITCH);
      b4 <-! rd8 package 4;
      ob <-! upd_obj ob SWITCH (set_value b4);
      ob <-! upd_obj ob TEMP (set_localPoint HEAT_TEMP);
      b5 <-! rd8 package 5;
      b6 <-! rd8 package 6;
      ob <-! upd_obj ob TEMP (set_value (Z.shiftl b5 8 + b6));
      ob <-! upd_obj ob ENV_TEMP (set_localPoint HEAT_ENV_TEMP);
      b7 <-! rd8 package 7;
      b8 <-! rd8 package 8;
      upd_obj ob ENV_TEMP (set_value (Z.shiftl b7 8 + b8)));
    mret (Some ob)
  else
    ob <-? NewMbusObjs 1;
    b3 ← lift (rd8 package 3);
    let dataPoint := u8 (Z.rem (b3 - 3) 7 - 1) in
    ob ← lift (upd_obj ob 0 (set_localPoint (HEAT_SWITCH + 2 * dataPoint)));
    if dataPoint =? 0 then
      ob ← lift (b5 <-! rd8 package 5; upd_obj ob 0 (set_value b5));
      mret (Some ob)
    else if (dataPoint =? 1) || (dataPoint =? 2) then
      ob ← lift (
        b4 <-! rd8 package 4;
        b5 <-! rd8 package 5;
        upd_obj ob 0 (set_value (Z.shiftl b4 8 + b5)));
      mret (Some ob)
    else _ ← free; _ ← free; mret None
  end.

(** The check only asks for three bytes; a status answer has eleven. *)
#[export] Instance parse_ok : ParseOk (fun _ => True) 0
  (fun _ _ _ buf _ => (9 <= length buf)%nat) parse.
Proof.
  intros devId regAddr node buf len e Hd Hr Hb Hl Hlen Hroom _. unfold parse, checkPackage.
  cbv zeta. repeat (parse_step || match goal with |- owp (crc_package _ _ _ _) _ =>
    apply owp_crc_package; [done|done|done|intros ?|] end); try done; lia.
Qed.

End FloorHeating.

(** ** SPTC humidifier *)

Module Humidifier.

Definition TARGET_POWER_INPUT_REGISTER : Z := 0x91.
Definition READ_COIL : Z := 1.
Definition READ_REGISTER : Z := 4.
Definition WRITE_COIL : Z := 5.
Definition WRITE_REGISTER : Z := 6.
Definition SWITCH : Z := 101.
Definition HUMIDITY_SET : Z := 102.

Definition checkPackage (package : list Z) (length devId : Z) : outcome Z :=
  crc_package package length devId [READ_REGISTER; READ_COIL; WRITE_REGISTER; WRITE_COIL].

(** [static uint8_t count]: successive polls alternate between the two reads. *)
Definition build : build_t Z := fun devId regAddr groupAddr modbusNode obj =>
  _ <-? calloc_Msg;
  pBuf <-? calloc_pBuf 8;
  count ← getS;
  pBuf ← lift (st8 pBuf 0 devId);
  match obj with
  | None =>
      pBuf ← lift (
        if Z.land count 1 =? 1 then
          pBuf <-! st8 pBuf 1 READ_COIL; st8 pBuf 5 1
        else
          pBuf <-! st8 pBuf 1 READ_REGISTER;
          pBuf <-! st8 pBuf 3 TARGET_POWER_INPUT_REGISTER; st8 pBuf 5 1);
      _ ← putS (u8 (count + 1));
      pBuf ← lift (FloorHeating.seal8 pBuf);
      mret (Some (a_msg pBuf 8))
  | Some obj =>
      if dpid obj =? SWITCH then
        pBuf ← lift (
          pBuf <-! st8 pBuf 1 WRITE_COIL;
          pBuf <-! st8 pBuf 4 (if dp_bool obj then 0xFF else 0);
          FloorHeating.seal8 pBuf);
        mret (Some (a_msg pBuf 8))
      else if dpid obj =? HUMIDITY_SET then
        pBuf ← lift (
          pBuf <-! st8 pBuf 1 WRITE_REGISTER;
          pBuf <-! st8 pBuf 3 0x62;
          pBuf <-! st8 pBuf 5 (dp_value obj);
          FloorHeating.seal8 pBuf);
        mret (Some (a_msg pBuf 8))
      else _ ← free; _ ← free; mret None
  end.

#[export] Instance build_ok : BuildOk is_u8 (fun _ _ _ _ => True)
  (mbus_frame [8%nat] [READ_REGISTER; READ_COIL; WRITE_REGISTER; WRITE_COIL]) build.
Proof.
  intros devId regAddr groupAddr node pObj e Hd Hr Hg _ Hi. unfold build.
  repeat (frame_step || match goal with H : hdr _ _ ?b |- owp (FloorHeating.seal8 ?b) _ =>
    rewrite (FloorHeating.seal8_is_crc b) by apply H end); try done; try lia; apply u8_range.
Qed.

Definition parse : parse_t Z := fun devId regAddr modbusNode package length =>
  match package with
  | None => mret None
  | Some package =>
  chk ← lift (checkPackage package length devId);
  if chk =? -1 then mret None else
  ob <-? NewMbusObjs 1;
  c ← lift (rd8 package 1);
  ob ← lift (upd_obj ob 0 (set_localPoint (HUMIDIFIER_SWITCH + b2z (Z.land c 1 =? 0))));
  if c =? READ_COIL then
    ob ← lift (b <-! rd8 package 3; upd_obj ob 0 (set_value (if b =? 0xFF then 1 else 0)));
    mret (Some ob)
  else if c =? READ_REGISTER then
    ob ← lift (b <-! rd8 package 4; upd_obj ob 0 (set_value b));
    mret (Some ob)
  else if c =? WRITE_COIL then
    ob ← lift (b <-! rd8 package 4; upd_obj ob 0 (set_value (if b =? 0xFF then 1 else 0)));
    mret (Some ob)
  else if c =? WRITE_REGISTER then
    ob ← lift (b <-! rd8 package 5; upd_obj ob 0 (set_value b));
    mret (Some ob)
  else _ ← free; _ ← free; mret None
  end.

#[export] Instance parse_ok : ParseOk is_u8 0 (fun _ _ _ buf _ => (6 <= length buf)%nat) parse.
Proof.
  intros devId regAddr node buf len e Hd Hr Hb Hl Hlen Hroom Hi. unfold parse, checkPackage.
  cbv zeta. repeat (parse_step || match goal with |- owp (crc_package _ _ _ _) _ =>
    apply owp_crc_package; [done|done|done|intros ?|] end); try done; lia.
Qed.

End Humidifier.

(** ** Water purifier *)

Module Purifier.

Definition HEADER : Z := 0xAA.
Definition READ_LENGTH : Z := 0x05.
Definition READ_CODE : Z := 0x04.
Definition RESET_LENGTH : Z := 0x09.
Definition RESET_CODE : Z := 0x05.
Definition FLOW : nat := 0.
Definition TDS : nat := 1.
Definition PP_FILTER_TIME : nat := 2.
Definition PP_FILTER_RESET : nat := 3.

Fixpoint checkSum_loop (package : list Z) (n i : nat) (sum : Z) : outcome Z :=
  match n with
  | O => Done sum
  | S n => b <-! rd8 package i; checkSum_loop package n (S i) (u32 (sum + b))
  end.

(** The bytes from 1 to [length - 1]; [length] is a [uint8_t]. *)
Definition checkSum (package : list Z) (length : Z) : outcome Z :=
  sum <-! checkSum_loop package (Z.to_nat (u8 length - 1)) 1 0; Done (u8 sum).

Definition checkPackage (package : list Z) (length devId : Z) : outcome Z :=
  let length := u8 length in
  if length <? 3 then Done (-1) else
  b0 <-! rd8 package 0;
  if negb (b0 =? HEADER) then Done (-1) else
  b1 <-! rd8 package 1;
  if negb (b1 =? devId) then Done (-1) else
  b3 <-! rd8 package 3;
  if negb (b3 =? READ_CODE) && negb (b3 =? RESET_CODE) then Done (-1) else
  b2 <-! rd8 package 2;
  if negb (b2 =? length) then Done (-1) else
  check <-! checkSum package (b2 - 1);
  bl <-! rd8 package (Z.to_nat (length - 1));
  if negb (check =? bl) then Done (-1) else Done 0.

(** [memset(p, v, n)] *)
Fixpoint memset (buf : list Z) (p : nat) (v : Z) (n : nat) : outcome (list Z) :=
  match n with O => Done buf | S n => buf <-! st8 buf p v; memset buf (S p) v n end.

(** The sum is taken before the header and the address are stored. *)
Definition build : build_t unit := fun devId regAddr groupAddr modbusNode obj =>
  _ <-? calloc_Msg;
  match obj with
  | None =>
      pBuf <-? calloc_pBuf 5;
      pBuf ← lift (
        pBuf <-! st8 pBuf 2 READ_LENGTH;
        pBuf <-! st8 pBuf 3 READ_CODE;
        c <-! checkSum pBuf 5;
        pBuf <-! st8 pBuf 4 c;
        pBuf <-! st8 pBuf 0 HEADER;
        st8 pBuf 1 devId);
      mret (Some (a_msg pBuf READ_LENGTH))
  | Some obj =>
      pBuf <-? calloc_pBuf 9;
      pBuf ← lift (
        pBuf <-! st8 pBuf 2 RESET_LENGTH;
        st8 pBuf 3 RESET_CODE);
      if dpid obj =? 104 then
        pBuf ← lift (
          pBuf <-! memset pBuf 4 0x55 4;
          c <-! checkSum pBuf 9;
          pBuf <-! st8 pBuf 8 c;
          pBuf <-! st8 pBuf 0 HEADER;
          st8 pBuf 1 devId);
        mret (Some (a_msg pBuf RESET_LENGTH))
      else _ ← free; _ ← free; mret None
  end.

(** What [build] sends: the sum leaves the address out. *)
Definition frame (devId : Z) (buf : list Z) : Prop :=
  bytes buf /\ exists body, buf = HEADER :: devId :: body ++ [u8 (sum_of body)] /\
    hd_error body = Some (Z.of_nat (length buf)).

Lemma purifier_loop_sum p n i sum :
  (i + n <= length p)%nat ->
  checkSum_loop p n i (u32 sum) = Done (u32 (sum + sum_of (take n (drop i p)))).
Proof.
  revert i sum. induction n as [|n IH]; intros i sum Hn; simpl.
  - by rewrite Z.add_0_r.
  - destruct (lookup_lt_is_Some_2 p i) as [b Hb]; [lia|].
    unfold rd8. rewrite Hb. simpl.
    replace (u32 (u32 sum + b)) with (u32 (sum + b))
      by (unfold u32; rewrite Z.add_mod_idemp_l; lia).
    rewrite IH by lia. rewrite (drop_S _ _ _ Hb). simpl. do 2 f_equal. lia.
Qed.

Lemma purifier_checkSum_eval p n :
  (1 <= n < 256)%nat -> (n <= length p)%nat ->
  checkSum p (Z.of_nat n) = Done (u8 (sum_of (take (n - 1) (drop 1 p)))).
Proof.
  intros Hn Hl. unfold checkSum. rewrite u8_small by (unfold is_u8; lia).
  replace (Z.to_nat (Z.of_nat n - 1)) with (n - 1)%nat by lia.
  change 0 with (u32 0). rewrite purifier_loop_sum by lia. simpl. f_equal.
  rewrite Z.add_0_l. unfold u8, u32. apply Z.mod_mod_divide. by exists (2 ^ 24).
Qed.

#[export] Instance build_ok : BuildOk (fun _ => True) (fun _ _ _ _ => True) frame build.
Proof.
  intros devId regAddr groupAddr node pObj e Hd Hr Hg _ _. unfold build.
  assert (Hh : is_u8 (u8 0xAA)) by done.
  repeat (match goal with
    | |- owp (memset _ _ _ _) _ => cbn [memset]
    | |- owp (checkSum ?l ?n) _ =>
        eapply owp_eval; [apply (purifier_checkSum_eval l (Z.to_nat n)); simpl; lia
                         |cbn [Z.to_nat Pos.to_nat Pos.iter_op Nat.add Nat.sub take drop]]
    end || conc_step); try done; try lia.
  all: apply built_msg; cbn [mem st live length]; [done|lia|done|].
  all: rewrite ?(u8_small devId) by done; split;
    [repeat (apply Forall_cons; split; [first [done|apply u8_range]|]); by apply Forall_nil|].
  - by exists [9; 5; 0x55; 0x55; 0x55; 0x55].
  - by exists [5; 4].
Qed.

(** The check never reads past the received bytes, or past the fourth byte. *)
Lemma owp_checkPackage p len devId (Q : Z -> Prop) :
  bytes p -> 0 <= len < 65536 -> (Z.to_nat len <= length p)%nat -> (4 <= length p)%nat ->
  Q 0 -> Q (-1) -> owp (checkPackage p len devId) Q.
Proof.
  intros Hb Hl Hlen H4 H0 H1. pose proof (u8_range len) as Hr.
  pose proof (u8_of_len len Hl) as Hle. unfold is_u8 in Hr. unfold checkPackage. cbv zeta.
  repeat (match goal with
    | |- owp (checkSum _ _) _ =>
        eapply owp_eval; [apply (purifier_checkSum_eval p (Z.to_nat (u8 len) - 1)); lia|]
    | E : (?b =? u8 len) = true |- owp (checkSum _ (?b - 1)) _ =>
        apply Z.eqb_eq in E; subst b;
        replace (u8 len - 1) with (Z.of_nat (Z.to_nat (u8 len) - 1)) by lia
    | H : negb _ = false |- _ => apply negb_false_iff in H
    | H : (u8 len <? 3) = false |- _ => apply Z.ltb_ge in H
    end || parse_step); try done.
Qed.

(** The byte that selects the answer is the length, not the command. *)
Definition parse : parse_t unit := fun devId regAddr modbusNode package length =>
  match package with
  | None => mret None
  | Some package =>
  chk ← lift (checkPackage package length devId);
  if chk =? -1 then mret None else
  c ← lift (rd8 package 2);
  if c =? READ_CODE then
    ob <-? NewMbusObjs 4;
    ob ← lift (
      ob <-! upd_obj ob FLOW (set_localPoint PURIFIER_FLOW);
      l0 <-! rd16le package 4;
      l1 <-! rd16le package 6;
      l2 <-! rd16le package 8;
      l3 <-! rd16le package 10;
      ob <-! upd_obj ob FLOW (set_value (u16 (u16 (u16 (u16 l0 + l1) + l2) + l3)));
      ob <-! upd_obj ob TDS (set_localPoint PURIFIER_TDS);
      td <-! rd16le package 20;
      ob <-! upd_obj ob TDS (set_value td);
      ob <-! upd_obj ob PP_FILTER_TIME (set_localPoint PURIFIER_PP_FILTER_TIME);
      ft <-! rd16le package 12;
      ob <-! upd_obj ob PP_FILTER_TIME (set_value ft);
      ob <-! upd_obj ob PP_FILTER_RESET (set_localPoint PURIFIER_RESET);
      upd_obj ob PP_FILTER_RESET (set_value 0));
    mret (Some ob)
  else if c =? RESET_CODE then
    ob <-? NewMbusObjs 1;
    ob ← lift (
      b4 <-! rd8 package 4; b5 <-! rd8 package 5;
      b6 <-! rd8 package 6; b7 <-! rd8 package 7;
      if (b4 =? 0) && (b5 =? 0) && (b6 =? 0) && (b7 =? 0) then
        ob <-! upd_obj ob 0 (set_localPoint PURIFIER_RESET);
        upd_obj ob 0 (set_value 1)
      else Done ob);
    mret (Some ob)
  else mret None
  end.

#[export] Instance parse_ok : ParseOk (fun _ => True) 0
  (fun _ _ _ buf _ => (22 <= length buf)%nat) parse.
Proof.
  intros devId regAddr node buf len e Hd Hr Hb Hl Hlen Hroom _. unfold parse, rd16le.
  cbv zeta. repeat (parse_step || match goal with |- owp (checkPackage _ _ _) _ =>
    apply owp_checkPackage; [done|done|done|lia| |] end); try done; lia.
Qed.

End Purifier.
