(* ===== verification/Echo.v ===== *)
(** Commands that the device echoes.

    A Modbus device answers a single write by sending the same frame back; the
    plugin of the device then reports what was written.  [echo] is this round
    trip, from [build] to [parse], with the message freed in between as
    [ModbusDevWrite] does.  [echo_ok] states for a plugin that the value the
    cloud asked for is the value reported, so that the two translations of the
    plugin, of cloud values to registers and back, fit together. *)

From S2P Require Import Prelude CMem Crc Device PluginApi VentPlugins AcdPlugins CurtainPlugins MiscPlugins.

Definition echo {S} (b : build_t S) (p : parse_t S) (devId regAddr groupAddr : Z)
    (node : option MbusNode) (o : ty_obj_dp_s) : C (env S) (option Objs) :=
  m ← b devId regAddr groupAddr node (Some o);
  match m with
  | None => mret None
  | Some m =>
      _ ← free; _ ← free;
      match pBuf m with
      | Some buf => p devId regAddr node (Some (take (Z.to_nat (len m)) buf)) (len m)
      | None => undef
      end
  end.

(** The values reported for a point. *)
Definition reports (ob : Objs) (lp : Z) : list Z :=
  map value (filter (fun o => localPoint o = lp) (delivered ob)).

Definition echoed {S} (l lp v : Z) (r : option Objs) (e : env S) : Prop :=
  exists ob, r = Some ob /\ reports ob lp = [v] /\ live (mem e) = l + Z.of_nat (length ob).

(** [command o] is the point and the value a request of the cloud is for. *)
Class EchoOk {S} (pre : Z -> Z -> Z -> option MbusNode -> S -> ty_obj_dp_s -> Prop)
    (command : ty_obj_dp_s -> option (Z * Z)) (b : build_t S) (p : parse_t S) : Prop :=
  echo_ok : forall devId regAddr groupAddr node o s l lp v,
    pre devId regAddr groupAddr node s o -> command o = Some (lp, v) ->
    wp (echo b p devId regAddr groupAddr node o) (echoed l lp v) (Env (Heap [] l) s).

(** A plugin of the second interface. *)
Definition plain_build {S} (f : Z -> Z -> Z -> option ty_obj_dp_s -> C (env S) (option Msg_t)) :
    build_t S := fun devId regAddr groupAddr _ o => f devId regAddr groupAddr o.
Definition plain_parse {S} (f : Z -> Z -> option (list Z) -> Z -> C (env S) (option Objs)) :
    parse_t S := fun devId regAddr _ buf len => f devId regAddr buf len.

(** ** Running without allocation failures *)

Lemma wp_calloc_Msg_nil {S} (Q : option unit -> env S -> Prop) l s :
  Q (Some tt) (Env (Heap [] (l + 1)) s) -> wp calloc_Msg Q (Env (Heap [] l) s).
Proof. done. Qed.

Lemma wp_calloc_pBuf_nil {S} n (Q : option (list Z) -> env S -> Prop) l s :
  Q (Some (replicate n 0)) (Env (Heap [] (l + 1)) s) -> wp (calloc_pBuf n) Q (Env (Heap [] l) s).
Proof. done. Qed.

Lemma NewMbusObjs_loop_nil {S} n i l (s : S) :
  NewMbusObjs_loop n i (Env (Heap [] l) s) = Done (true, Env (Heap [] (l + Z.of_nat n)) s).
Proof.
  revert i l. induction n as [|n IH]; intros i l; simpl; [by rewrite Z.add_0_r|].
  unfold mbind, C_bind, calloc. simpl. rewrite IH. do 4 f_equal. lia.
Qed.

Lemma wp_NewMbusObjs_nil {S} n (Q : option Objs -> env S -> Prop) l s :
  Q (Some (replicate n (Some MbusObj0) ++ [None])) (Env (Heap [] (l + 1 + Z.of_nat n)) s) ->
  wp (NewMbusObjs n) Q (Env (Heap [] l) s).
Proof.
  intros H. apply wp_bind. unfold wp, calloc. simpl. unfold mbind, C_bind.
  by rewrite NewMbusObjs_loop_nil.
Qed.

Lemma bytes_two t x y : bytes t -> is_u8 x -> is_u8 y -> bytes (t ++ [x; y]).
Proof.
  intros. apply Forall_app. split; [done|]. apply Forall_cons. split; [done|]. by apply Forall_singleton.
Qed.

(** The two bytes a CRC frame is closed with. *)
Lemma owp_seal_body n t x y Q :
  length t = (n - 2)%nat -> (2 <= n)%nat -> bytes t -> is_u8 x -> is_u8 y ->
  (forall h l, is_u8 h -> is_u8 l -> crc16 (t ++ [h; l]) (Z.of_nat n) = Done 0 -> Q (t ++ [h; l])) ->
  owp (seal_crc (t ++ [x; y]) n) Q.
Proof.
  intros Hl Hn Ht Hx Hy HQ.
  pose proof (bytes_two t x y Ht Hx Hy) as Hb.
  assert (length (t ++ [x; y]) = n) as Hlen by (rewrite length_app; simpl; lia).
  assert (0 <= crc_of t < 65536) as Hc by by apply crc_of_range.
  assert (is_u8 (crc_of t / 256)) as Hh by by apply hi_u8.
  assert (is_u8 (crc_of t mod 256)) as Hlo by (apply Z.mod_pos_bound; lia).
  rewrite seal_crc_eval by done. rewrite take_app_le, take_ge by lia. cbn [owp].
  apply HQ; [done..|]. rewrite crc16_eval; [|by apply bytes_two|rewrite length_app; simpl; lia].
  f_equal. rewrite take_ge by (rewrite length_app; simpl; lia). by apply crc_fold_own_app.
Qed.

(** The command of the echo is at the start of the buffer. *)
Lemma memmatch_start buf len h c :
  2 < len -> is_u8 h -> is_u8 c -> buf !! 0%nat = Some h -> buf !! 1%nat = Some c ->
  memmatch buf (u16 (h * 256 + c)) len = Done (Some 0%nat).
Proof.
  intros Hl Hh Hc H0 H1. unfold memmatch.
  destruct (Z.to_nat (len - 2)) as [|n] eqn:E; [lia|]. simpl. unfold rd16be, rd8.
  rewrite H0, H1. simpl. unfold is_u8 in *. rewrite u16_small by lia. by rewrite Z.eqb_refl.
Qed.

Lemma find2_echo buf len h c1 min1 c2 min2 :
  (Z.to_nat len <= length buf)%nat -> bytes buf -> is_u8 h -> is_u8 c1 -> is_u8 c2 ->
  2 < len -> min2 <= len -> buf !! 0%nat = Some h -> buf !! 1%nat = Some c2 ->
  (forall p, buf !! p = Some h -> buf !! (p + 1)%nat = Some c1 -> len - Z.of_nat p < min1) ->
  find2 buf len (u16 (h * 256 + c1)) min1 (u16 (h * 256 + c2)) min2 = Done (Some 0%nat).
Proof.
  intros Hl Hb Hh Hc1 Hc2 Hlen Hm H0 H1 Hno. unfold find2.
  pose proof (memmatch_ok buf (u16 (h * 256 + c1)) len Hl) as H.
  destruct (memmatch buf (u16 (h * 256 + c1)) len) as [r|]; [|done]. cbn [obind].
  assert (match r with Some p => len - Z.of_nat p <? min1 | None => true end = true) as ->.
  { destruct r as [p|]; [|done]. destruct H as (_ & Hw & _).
    apply word_at_bytes in Hw as [? ?]; [|done..]. apply Z.ltb_lt. by apply Hno. }
  rewrite memmatch_start by done. cbn [obind]. destruct (_ <? _) eqn:E; [|done]. bprop. lia.
Qed.

(** ** Running the round trip *)

Ltac bytes_auto :=
  repeat first [apply Forall_nil_2 | apply Forall_cons; split];
  first [assumption | apply u8_range | done].

(** Takes the branch of a test without variables. *)
Ltac decide_test c :=
  lazymatch c with context [dp_enum _] => fail | context [dp_value _] => fail
  | context [rcvValue _] => fail | _ => idtac end;
  let b := eval vm_compute in c in
  match b with true => idtac | false => idtac end; change c with b; cbv iota.

Ltac echo_step :=
  match goal with
  | |- wp (mbind _ _) _ _ => apply wp_bind
  | |- wp (mret _) _ _ => apply wp_ret
  | |- wp calloc_Msg _ _ => apply wp_calloc_Msg_nil
  | |- wp (calloc_pBuf _) _ _ => apply wp_calloc_pBuf_nil; cbn [replicate]
  | |- wp (NewMbusObjs ?n) _ _ => index n; apply wp_NewMbusObjs_nil; cbn [replicate app Z.of_nat]
  | |- wp getS _ _ => apply wp_getS; cbn [mem st]
  | |- wp (putS _) _ _ => apply wp_putS; cbn [mem st fst snd]
  | |- wp free _ _ => apply wp_free; cbn [mem st live plan fst snd]
  | |- wp (lift _) _ _ => apply wp_lift
  | |- wp (let _ := _ in _) _ _ => cbv zeta
  | |- wp (match pBuf _ with _ => _ end) _ _ =>
      cbn [pBuf a_msg Device.len];
      match goal with |- context [take ?n] => index n end; cbn [firstn]
  | |- wp (match Some _ with _ => _ end) _ _ => cbv beta iota
  | |- wp (if ?c then _ else _) _ _ => decide_test c
  | |- owp (if ?c then _ else _) _ => decide_test c
  | |- owp (obind _ _) _ => apply owp_bind
  | |- owp (Done _) _ => cbn [owp fst snd]
  | |- owp (st16be _ _ _) _ => unfold st16be at 1
  | |- owp (rd16be _ _) _ => unfold rd16be at 1
  | |- owp (rd16le _ _) _ => unfold rd16le at 1
  | |- owp (add8 _ _ _) _ => unfold add8 at 1
  | |- owp (and8 _ _ _) _ => unfold and8 at 1
  | |- owp (add8i _ _ _) _ => unfold add8i at 1
  | |- owp (st8 (_ :: _) _ _) _ =>
      eapply owp_eval;
      [unfold st8; cbn [length Nat.ltb Nat.leb insert list_insert]; reflexivity|]
  | |- owp (rd8 (_ :: _) _) _ =>
      eapply owp_eval; [unfold rd8; cbn [lookup list_lookup Nat.add]; reflexivity|]
  | |- owp (seal_crc [?a; ?b; ?c; ?d; ?e; ?f; ?x; ?y] 8) _ =>
      apply (owp_seal_body 8 [a; b; c; d; e; f] x y);
      [reflexivity|lia|bytes_auto|done|done|intros ? ? ? ? ?; cbn [app] in *]
  | |- owp (FloorHeating.seal8 _) _ => rewrite FloorHeating.seal8_is_crc by (done || bytes_auto)
  | |- owp (put _ ?k _ _) _ => eval_objs k
  | |- owp (upd_obj _ ?k _) _ => eval_objs k
  | |- owp (null_obj _ ?k) _ => eval_objs k
  end.

(** The search for the command of an echo: further matches of the first command
    are too close to the end. *)
Ltac find_echo :=
  match goal with |- owp (find2 _ _ _ ?m1 _ ?m2) _ =>
    index m1; index m2;
    eapply owp_eval;
    [ apply find2_echo;
      [cbn; lia|bytes_auto|assumption|done|done|done|done|done|done
      |intros [|[|?]] ? Hno; first [lia | vm_compute in Hno; discriminate Hno]]
    | ] end.

(** A sealed echo passes the whole-packet check. *)
Lemma crc_package_echo p n devId codes c :
  bytes p -> length p = n -> (3 <= n < 256)%nat -> crc16 p (Z.of_nat n) = Done 0 ->
  p !! 0%nat = Some devId -> p !! 1%nat = Some c -> In c codes ->
  crc_package p (Z.of_nat n) devId codes = Done 0.
Proof.
  intros Hb Hl Hn Hc H0 H1 Hin.
  destruct (crc_package_ok p n devId codes) as [[E _]|[_ E]]; [done|lia|lia|done|].
  destruct E. split; [lia|]. eauto.
Qed.

Ltac check_echo :=
  match goal with H : crc16 _ _ = Done 0 |- owp (crc_package _ 8 _ _) _ =>
    eapply owp_eval;
    [ eapply (crc_package_echo _ 8); [bytes_auto|reflexivity|lia|exact H|reflexivity|reflexivity|vm_compute; auto]
    | ] end.

Lemma reports_hit o ob lp :
  (localPoint o =? lp) = true -> reports (Some o :: ob) lp = value o :: reports ob lp.
Proof. intros H. unfold reports. cbn [delivered]. rewrite filter_cons_True by lia. done. Qed.

Lemma reports_miss o ob lp :
  (localPoint o =? lp) = false -> reports (Some o :: ob) lp = reports ob lp.
Proof. intros H. unfold reports. cbn [delivered]. rewrite filter_cons_False by lia. done. Qed.

Lemma echoed_intro {S} (l lp v : Z) ob (e : env S) :
  reports ob lp = [v] -> live (mem e) = l + Z.of_nat (length ob) -> echoed l lp v (Some ob) e.
Proof. intros. by exists ob. Qed.

Ltac echo_done :=
  apply echoed_intro; [|cbn [live mem length]; lia];
  repeat first [rewrite reports_hit by reflexivity | rewrite reports_miss by reflexivity];
  cbn [value set_value set_localPoint set_rcvValue rcvValue MbusObj0];
  change (reports [None] _) with (@nil Z); change (reports [] _) with (@nil Z).

(** What is left is arithmetic on the machine integers. *)
Ltac width :=
  repeat match goal with H : crc16 _ _ = _ |- _ => clear H end; bprop; f_equal;
  unfold dp_enum, u32, u16, u8 in *; Z.to_euclidean_division_equations; lia.

Ltac echo_bool := repeat echo_step; echo_done; match goal with |- context [dp_bool ?o] => by destruct (dp_bool o) end.

(** ** The plugins *)

(** Requests of the cloud: the data point [dp] sets [lp] to the switch position,
    to a number below [n], or to an enumerator below [n]. *)
Inductive ask := Bool (dp lp : Z) | Num (dp lp n : Z) | Enum (dp lp n : Z).

Fixpoint asked (l : list ask) (o : ty_obj_dp_s) : option (Z * Z) :=
  match l with
  | [] => None
  | Bool dp lp :: l => if dpid o =? dp then Some (lp, b2z (dp_bool o)) else asked l o
  | Num dp lp n :: l =>
      if dpid o =? dp then
        if (0 <=? dp_value o) && (dp_value o <? n) then Some (lp, dp_value o) else None
      else asked l o
  | Enum dp lp n :: l =>
      if dpid o =? dp then if dp_enum o <? n then Some (lp, dp_enum o) else None
      else asked l o
  end.

(** The address is a byte. *)
Definition addr_ok {S} (devId regAddr groupAddr : Z) (node : option MbusNode) (s : S)
    (o : ty_obj_dp_s) : Prop := is_u8 devId.

(** One goal for each request of the list. *)
Ltac ask_cases H :=
  unfold addr_ok in *;
  cbn [asked] in H;
  repeat match type of H with
  | (if ?c then _ else _) = _ =>
      let E := fresh "E" in destruct c eqn:E; try rewrite E; try discriminate H; cbn [asked] in H
  end;
  injection H as <- <-.

(** The round trip up to the objects reported, for eight-byte Modbus frames. *)
Ltac echo_run parse :=
  repeat echo_step;
  repeat match goal with Hd : is_u8 ?d |- context [u8 ?d] => rewrite (u8_small d Hd) in * end;
  unfold parse; repeat echo_step;
  try find_echo; repeat echo_step.

#[export] Instance panel_echo : EchoOk addr_ok
  (asked [Bool 1 PANEL_SWITCH]) Panel.build Panel.parse.
Proof.
  intros devId regAddr groupAddr node o s l lp v Hd Hc. unfold echo, Panel.build.
  ask_cases Hc. echo_run Panel.parse. echo_bool.
Qed.

#[export] Instance dpurat_echo : EchoOk addr_ok
  (asked [Bool 39 VENT_SWITCH; Enum 101 VENT_SPEED 256]) Dpurat.build Dpurat.parse.
Proof.
  intros devId regAddr groupAddr node o s l lp v Hd Hc. unfold echo, Dpurat.build.
  ask_cases Hc; echo_run Dpurat.parse.
  - echo_bool.
  - echo_done. width.
Qed.

#[export] Instance honeywell_echo : EchoOk addr_ok
  (asked [Bool 1 HEAT_SWITCH; Enum 2 HEAT_TEMP 6554]) Honeywell.build Honeywell.parse.
Proof.
  intros devId regAddr groupAddr node o s l lp v Hd Hc. unfold echo, Honeywell.build.
  ask_cases Hc; echo_run Honeywell.parse.
  - echo_bool.
  - echo_done. width.
Qed.

(** The point a register of a zone is for, as the acknowledgement decodes it. *)
Lemma zone_point regAddr k :
  1 <= regAddr <= 36 -> 4 <= k <= 5 ->
  u8 (Z.rem (u8 ((regAddr - 1) * 7 + k) - 3) 7 - 1) = k - 4.
Proof.
  intros Hr Hk. rewrite (u8_small (_ * 7 + k)) by (unfold is_u8; lia).
  assert (Z.rem ((regAddr - 1) * 7 + k - 3) 7 = k - 3) as ->.
  { Z.to_euclidean_division_equations. lia. }
  rewrite u8_small; [lia|unfold is_u8; lia].
Qed.

(** The register of the zone fits in a byte. *)
Definition zone_ok {S} (devId regAddr groupAddr : Z) (node : option MbusNode) (s : S)
    (o : ty_obj_dp_s) : Prop := is_u8 devId /\ 1 <= regAddr <= 36.

#[export] Instance floorheating_echo : EchoOk zone_ok
  (asked [Bool 1 HEAT_SWITCH; Num 2 HEAT_TEMP 65536]) FloorHeating.build FloorHeating.parse.
Proof.
  intros devId regAddr groupAddr node o s l lp v [Hd Hr] Hc.
  unfold echo, FloorHeating.build, FloorHeating.TY_SWITCH, FloorHeating.TY_TEMP.
  ask_cases Hc; echo_run FloorHeating.parse; unfold FloorHeating.checkPackage; check_echo;
    repeat echo_step; rewrite zone_point by lia.
  - echo_bool.
  - repeat echo_step. echo_done. rewrite shl8_mul, Z.shiftr_div_pow2 by lia. width.
Qed.

#[export] Instance humidifier_echo : EchoOk addr_ok
  (asked [Bool 101 HUMIDIFIER_SWITCH; Num 102 HUMIDIFIER_HUMIDITY_SET 256])
  Humidifier.build Humidifier.parse.
Proof.
  intros devId regAddr groupAddr node o s l lp v Hd Hc.
  unfold echo, Humidifier.build, Humidifier.SWITCH, Humidifier.HUMIDITY_SET.
  ask_cases Hc; echo_run Humidifier.parse; unfold Humidifier.checkPackage; check_echo;
    repeat echo_step.
  - destruct (dp_bool o); repeat echo_step; echo_done; done.
  - echo_done. bprop. width.
Qed.

(** ** ZhongHong: frames closed by a sum, five commands *)

Lemma owp_seal_sum_body n t x Q :
  length t = (n - 1)%nat -> (1 <= n <= 256)%nat ->
  (forall z, is_u8 z -> Q (t ++ [z])) -> owp (seal_sum (t ++ [x]) n) Q.
Proof.
  intros Hl Hn HQ. unfold seal_sum. rewrite cs_eval by (rewrite ?length_app; simpl; lia).
  cbn [obind]. rewrite <- Hl, st8_app. cbn [owp]. apply HQ, u8_range.
Qed.

Lemma find1_echo buf n h c k :
  length buf = n -> (2 < n)%nat -> bytes buf -> is_u8 h -> is_u8 c -> is_u8 k ->
  buf !! 0%nat = Some h -> buf !! 1%nat = Some c ->
  find1 buf (Z.of_nat n) (u16 (h * 256 + k)) (Z.of_nat n) = Done (if c =? k then Some 0%nat else None).
Proof.
  intros Hl Hn Hb Hh Hc Hk H0 H1. unfold find1.
  destruct (c =? k) eqn:E; bprop.
  - subst k. rewrite memmatch_start by (done || lia). cbn [obind].
    destruct (_ <? _) eqn:E; [|done]. bprop. lia.
  - pose proof (memmatch_ok buf (u16 (h * 256 + k)) (Z.of_nat n)) as H.
    destruct (memmatch _ _ _) as [r|]; [|exfalso; apply H; lia]. cbn [obind].
    destruct r as [p|]; [|done]. destruct H as (_ & Hw & _); [lia|].
    apply word_at_bytes in Hw as [Hp Hp']; [|done..].
    destruct p as [|p]; [simpl in Hp'; congruence|].
    destruct (_ <? _) eqn:E2; [done|]. bprop. lia.
Qed.

Lemma find5_echo buf h c :
  length buf = 7%nat -> bytes buf -> is_u8 h -> buf !! 0%nat = Some h -> buf !! 1%nat = Some c ->
  In c [ZhongHong.WRITE_CMD_SWITCH; ZhongHong.WRITE_CMD_SPEED; ZhongHong.WRITE_CMD_TEMP;
        ZhongHong.WRITE_CMD_MODE; ZhongHong.READ_CMD_STATUS] ->
  ZhongHong.find5 buf 7 h = Done (Some 0%nat).
Proof.
  intros Hl Hb Hh H0 H1 Hc.
  assert (forall k, is_u8 k -> find1 buf 7 (u16 (h * 256 + k)) 7 = Done (if c =? k then Some 0%nat else None))
    as Hf.
  { intros k Hk. apply (find1_echo buf 7); try done; [lia|]. by eapply bytes_lookup. }
  unfold ZhongHong.find5. rewrite !Hf by done. cbn [In] in Hc.
  destruct Hc as [<-|[<-|[<-|[<-|[<-|[]]]]]]; reflexivity.
Qed.

Ltac zh_step :=
  match goal with
  | |- owp (seal_sum [?a; ?b; ?c; ?d; ?e; ?f; ?x] 7) _ =>
      apply (owp_seal_sum_body 7 [a; b; c; d; e; f] x); [reflexivity|lia|intros ? ?; cbn [app]]
  | |- owp (ZhongHong.find5 _ _ _) _ =>
      eapply owp_eval; [eapply find5_echo; [reflexivity|bytes_auto|assumption|reflexivity|reflexivity
                                           |vm_compute; auto 6]|]
  | |- _ => echo_step
  end.

(** One goal for each enumerator the code tells apart. *)
Ltac enum_cases :=
  repeat match goal with
  | |- context [if dp_enum ?o =? ?k then _ else _] =>
      let E := fresh "Ev" in destruct (dp_enum o =? k) eqn:E; [apply Z.eqb_eq in E; rewrite E|]
  | |- context [if dp_value ?o =? ?k then _ else _] =>
      let E := fresh "Ev" in destruct (dp_value o =? k) eqn:E; [apply Z.eqb_eq in E; rewrite E|]
  end.

#[export] Instance zhonghong_echo : EchoOk addr_ok
  (asked [Bool 1 ACD_SWITCH; Num 2 ACD_TEMP 256; Enum 4 ACD_MODE 4]) ZhongHong.build ZhongHong.parse.
Proof.
  intros devId regAddr groupAddr node o s l lp v Hd Hc. unfold echo, ZhongHong.build, ZhongHong.set_cmd.
  ask_cases Hc.
  - repeat zh_step. echo_run ZhongHong.parse. repeat zh_step. echo_bool.
  - repeat zh_step. echo_run ZhongHong.parse. repeat zh_step. echo_done. width.
  - enum_cases; repeat zh_step; echo_run ZhongHong.parse; repeat zh_step; echo_done; first [done|width].
Qed.

(** ** Curtain motors *)

(** The address is repeated after the header byte, so the search finds it at
    offset 1. *)
Lemma find1_motor buf len a min :
  is_u8 a -> 3 < len -> min + 1 <= len ->
  buf !! 0%nat <> Some a -> buf !! 1%nat = Some a -> buf !! 2%nat = Some a -> (2 <= length buf)%nat ->
  find1 buf len (Z.lor (u16 (Z.shiftl a 8)) a) min = Done (Some 1%nat).
Proof.
  intros Ha Hl Hm H0 H1 H2 Hlen.
  assert (Z.lor (u16 (Z.shiftl a 8)) a = a * 256 + a) as ->.
  { unfold is_u8 in Ha. rewrite u16_small by (rewrite shl8_mul; lia). by apply lor_shl8. }
  unfold find1, memmatch. destruct (lookup_lt_is_Some_2 buf 0) as [x Hx]; [lia|].
  assert (exists n, Z.to_nat (len - 2) = S (S n)) as [n ->] by (exists (Z.to_nat (len - 4)); lia).
  cbn [memmatch_loop]. unfold rd16be, rd8. rewrite Hx, H1, H2. cbn [obind].
  unfold is_u8 in Ha. destruct (a * 256 + a =? x * 256 + a) eqn:E; bprop.
  { destruct H0. rewrite Hx. f_equal. lia. }
  cbn [memmatch_loop obind]. rewrite Z.eqb_refl. cbn [obind].
  destruct (_ <? _) eqn:E2; [|done]. bprop. lia.
Qed.

(** A seal of the first seven of eight bytes. *)
Lemma owp_seal_seven t x y z Q :
  length t = 5%nat -> bytes t -> is_u8 x -> is_u8 y -> is_u8 z ->
  (forall h l, is_u8 h -> is_u8 l -> Q (t ++ [h; l; z])) -> owp (seal_crc (t ++ [x; y; z]) 7) Q.
Proof.
  intros Hl Ht Hx Hy Hz HQ.
  assert (length (t ++ [x; y]) = 7%nat) as Hlen by (rewrite length_app; simpl; lia).
  rewrite (app_assoc t [x; y] [z] : t ++ [x; y; z] = _). rewrite <- Hlen.
  rewrite seal_crc_app; [|apply Forall_app; split; [by apply bytes_two|by apply Forall_singleton]|lia].
  rewrite Hlen. apply owp_bind, owp_seal_body; [done|lia|done..|].
  intros h l Hh Hl2 _. cbn [owp]. rewrite <- app_assoc. by apply HQ.
Qed.

Ltac motor_step :=
  match goal with
  | |- owp (seal_crc (?b, ?n).1 _) _ => cbn [fst snd]
  | |- owp (seal_crc [?a; ?b; ?c; ?d; ?e; ?x; ?y; ?z] 7) _ =>
      apply (owp_seal_seven [a; b; c; d; e] x y z);
      [reflexivity|bytes_auto|done|done|done|intros ? ? ? ?; cbn [app]]
  | |- owp (find1 _ _ _ _) _ =>
      eapply owp_eval; [apply find1_motor;
        [assumption|lia|vm_compute; discriminate|intros Hx; injection Hx; vm_compute; congruence|reflexivity|reflexivity|simpl; lia]|]
  | |- _ => echo_step
  end.

(** The address differs from the header byte of the motor. *)
Definition motor_ok {S} (header devId regAddr groupAddr : Z) (node : option MbusNode) (s : S)
    (o : ty_obj_dp_s) : Prop := is_u8 devId /\ devId <> header.

#[export] Instance changming_echo : EchoOk (motor_ok 0xAA)
  (asked [Num 1 CURTAIN_SWITCH 3]) (plain_build Changming.buildExt) (plain_parse Changming.parseExt).
Proof.
  intros devId regAddr groupAddr node o s l lp v [Hd Hne] Hc.
  unfold echo, plain_build, Changming.buildExt, Changming.set_cmd.
  ask_cases Hc. enum_cases; repeat motor_step; rewrite (u8_small devId) by done;
    unfold plain_parse, Changming.parseExt; repeat motor_step; echo_done; first [done|width].
Qed.

#[export] Instance hechuang_echo : EchoOk (motor_ok 0x55)
  (asked [Num 1 CURTAIN_SWITCH 3]) (plain_build HeChuang.buildExt) (plain_parse HeChuang.parseExt).
Proof.
  intros devId regAddr groupAddr node o s l lp v [Hd Hne] Hc.
  unfold echo, plain_build, HeChuang.buildExt, HeChuang.set_cmd.
  ask_cases Hc. enum_cases; repeat motor_step; rewrite (u8_small devId) by done;
    unfold plain_parse, HeChuang.parseExt; repeat motor_step; echo_done; first [done|width].
Qed.

(** ** The Daikin gateways: three registers for each of the 16 units *)

(** The register of unit [r] comes back as it was sent. *)
Lemma reg_hi x : 0x07D0 <= x < 0x0800 -> u8 (u16 x / 256) = 7.
Proof. intros Hx. rewrite u16_small by lia. unfold u8. Z.to_euclidean_division_equations; lia. Qed.

Lemma reg_echo x : 0x07D0 <= x < 0x0800 -> reg_of 0x07D0 7 (u8 (u16 x)) = x - 0x07D0.
Proof.
  intros Hx. unfold reg_of. change (Z.shiftl 7 8) with 1792. change (u16 1792) with 1792.
  unfold u16, u8. Z.to_euclidean_division_equations; lia.
Qed.

(** The speed nibble above a direction. *)
Lemma speed_nibble x n d :
  x = 16 * n -> 0 <= n < 8 -> 0 <= d < 16 -> Z.land (Z.shiftr (u8 (u8 x + d)) 4) 7 = n.
Proof.
  intros -> Hn Hd. rewrite (u8_small (16 * n)) by (unfold is_u8; lia).
  rewrite u8_small by (unfold is_u8; lia). change 7 with (Z.ones 3).
  rewrite Z.land_ones, Z.shiftr_div_pow2 by lia. Z.to_euclidean_division_equations; lia.
Qed.

(** No enumerator is left. *)
Ltac no_enum := exfalso; bprop; unfold dp_enum in *;
  match goal with H : context [u32 ?v] |- _ => pose proof (u32_range v); lia end.

(** What the plugin has heard of unit [r]. *)
Definition heard (s : list (list MbusObj_t)) (r : Z) (k : nat) (x : Z) : Prop :=
  exists o, tab_get s (Z.to_nat r) k = Done o /\ rcvValue o = x.

(** An update keeps the other fields of the unit. *)
Lemma owp_tab_upd_frame {A} (t : list (list A)) m n i j f Q :
  tab_ok m n t -> (i < m)%nat -> (j < n)%nat ->
  (forall t' x, tab_ok m n t' -> tab_get t' i j = Done (f x) ->
     (forall k, k <> j -> tab_get t' i k = tab_get t i k) -> Q t') ->
  owp (tab_upd t i j f) Q.
Proof.
  intros Ht Hi Hj HQ.
  assert (forall t', tab_upd t i j f = Done t' -> forall k, k <> j -> tab_get t' i k = tab_get t i k)
    as Hf.
  { intros t' E k Hk. unfold tab_upd, arr_get, arr_upd, tab_get in *.
    destruct (t !! i) as [r|] eqn:Er; [|done]. cbn [obind] in E.
    destruct (r !! j) as [y|] eqn:Ey; [|done]. cbn [obind] in E.
    injection E as <-. cbn [obind arr_get]. unfold arr_get.
    rewrite list_lookup_insert_eq by (by apply lookup_lt_Some in Er). cbn [obind].
    rewrite Er, list_lookup_insert_ne by done. done. }
  pose proof (owp_tab_upd t m n i j f (fun t' => tab_ok m n t' /\ exists x, tab_get t' i j = Done (f x))
    Ht Hi Hj) as H.
  destruct (tab_upd t i j f) as [t'|]; [|apply H; eauto]. simpl in *.
  destruct H as (Hok & x & Hx); [eauto|]. by apply (HQ t' x); [| |apply Hf].
Qed.

Ltac daikin_step :=
  match goal with
  | F : (forall k, k <> _ -> tab_get ?t' ?i k = tab_get ?t ?i k), H : tab_get ?t ?i ?j = Done _
      |- owp (tab_get ?t' ?i ?j) _ =>
      apply (owp_known _ _ _ (eq_trans (F j ltac:(discriminate)) H))
  | H : tab_get ?t ?i ?j = Done _ |- owp (tab_get ?t ?i ?j) _ => apply (owp_known _ _ _ H)
  | H : tab_ok _ _ ?t |- owp (tab_get ?t _ _) _ =>
      eapply owp_tab_get; [exact H|lia|vm_compute; lia|intros ?]
  | H : tab_ok _ _ ?t |- owp (tab_upd ?t _ _ _) _ =>
      eapply owp_tab_upd_frame; [exact H|lia|vm_compute; lia|intros ? ? ? ? ?; clear H]
  | |- context [u8 (u16 ?x / 256)] => rewrite (reg_hi x) by lia
  | |- context [reg_of _ 7 (u8 (u16 ?x))] => rewrite (reg_echo x) by lia
  | |- context [(2000 + 3 * ?r + ?k - 2000) mod 3] =>
      replace ((2000 + 3 * r + k - 2000) mod 3) with k by (Z.to_euclidean_division_equations; lia);
      replace ((2000 + 3 * r + k - 2000) / 3) with r by (Z.to_euclidean_division_equations; lia)
  | |- context [(?a, ?b).1] => progress cbn [fst snd]
  | |- wp (mbind _ _) _ _ => apply wp_bind
  | |- _ => echo_step
  end.

(** The unit has told its wind direction. *)
Definition vent_heard (devId regAddr groupAddr : Z) (node : option MbusNode)
    (s : list (list MbusObj_t)) (o : ty_obj_dp_s) : Prop :=
  is_u8 devId /\ 0 <= regAddr < 16 /\ 0 <= groupAddr < 16 /\ VentDaikin.inv s /\
  exists d, heard s groupAddr VentDaikin.DIR d /\ 0 <= d < 16.

#[export] Instance vent_daikin_echo : EchoOk vent_heard
  (asked [Bool 39 VENT_SWITCH; Enum 28 VENT_SPEED 2]) VentDaikin.build VentDaikin.parse.
Proof.
  intros devId regAddr groupAddr node o s l lp v (Hd & Hr & Hg & Hi & d & (di & Hdi & Hdv) & Hd16) Hc.
  unfold echo, VentDaikin.build, VentDaikin.CLOUD_VENT_SWTICH, VentDaikin.CLOUD_VENT_SPEED,
    VentDaikin.inv, VentDaikin.REG_ADDR, VentDaikin.CTRL_REG_LEN in *.
  ask_cases Hc.
  - repeat daikin_step. rewrite (u8_small devId) in * by done.
    unfold VentDaikin.parse, VentDaikin.REG_ADDR. repeat daikin_step. find_echo. repeat daikin_step.
    case_match; repeat daikin_step; echo_done; by destruct (dp_bool o).
  - rewrite <- Hdv in Hd16. enum_cases; [| |no_enum];
    repeat daikin_step; rewrite (u8_small devId) in * by done;
    unfold VentDaikin.parse, VentDaikin.REG_ADDR; repeat daikin_step; find_echo; repeat daikin_step;
    [rewrite (speed_nibble _ 1) by (done || lia)|rewrite (speed_nibble _ 5) by (done || lia)];
    cbn [rcvValue set_rcvValue]; repeat daikin_step; echo_done; done.
Qed.

Ltac acd_run :=
  repeat daikin_step; repeat match goal with Hd : is_u8 ?d |- context [u8 ?d] => rewrite (u8_small d Hd) in * end;
  unfold AcdDaikin.parse, AcdDaikin.REG_ADDR, AcdDaikin.parse_write, AcdDaikin.put_mode;
  repeat daikin_step; find_echo; repeat daikin_step; cbn [rcvValue set_rcvValue]; repeat daikin_step.

(** The unit has told its wind direction and that it may choose between heating
    and cooling. *)
Definition acd_heard (devId regAddr groupAddr : Z) (node : option MbusNode)
    (s : list (list MbusObj_t)) (o : ty_obj_dp_s) : Prop :=
  is_u8 devId /\ 0 <= regAddr < 16 /\ 0 <= groupAddr < 16 /\ AcdDaikin.inv s /\
  (exists d, heard s groupAddr AcdDaikin.DIR d /\ 0 <= d < 16) /\
  heard s regAddr AcdDaikin.AUTHORITY 2.

#[export] Instance acd_daikin_echo : EchoOk acd_heard
  (asked [Bool 1 ACD_SWITCH; Num 2 ACD_TEMP 6554; Enum 4 ACD_MODE 5; Enum 5 ACD_SPEED 8])
  AcdDaikin.build AcdDaikin.parse.
Proof.
  intros devId regAddr groupAddr node o s l lp v
    (Hd & Hr & Hg & Hi & (d & (di & Hdi & <-) & Hd16) & (au & Hau & Hau2)) Hc.
  unfold echo, AcdDaikin.build, AcdDaikin.set_mode, AcdDaikin.inv, AcdDaikin.REG_ADDR, AcdDaikin.CTRL_REG_LEN in *.
  ask_cases Hc.
  - destruct (dp_bool o); acd_run; echo_done; done.
  - repeat daikin_step. apply owp_int_of; [bprop; lia|]. acd_run. echo_done. width.
  - enum_cases; [| | | | |no_enum]; repeat daikin_step; rewrite ?Hau2; cbn [negb andb Z.eqb Pos.eqb];
    acd_run; echo_done; done.
  - acd_run. bprop. pose proof (u32_range (dpvalue o)).
    rewrite (speed_nibble _ (dp_enum o)) by (rewrite ?Z.shiftl_mul_pow2; unfold dp_enum in *; lia).
    echo_done. width.
Qed.

(** ** TG_A21MC: the two bytes of a register *)

(** A test of all bytes. *)
Lemma all_bytes (f : Z -> bool) x :
  forallb f (map Z.of_nat (seq 0 256)) = true -> is_u8 x -> f x = true.
Proof.
  intros H Hx. rewrite forallb_forall in H. apply H. rewrite in_map_iff.
  exists (Z.to_nat x). unfold is_u8 in Hx. rewrite in_seq. lia.
Qed.

(** Bits 1 to 5 of the high byte are the mode, bits 0 to 4 of the low one the
    temperature. *)
Lemma tg_mode x m :
  is_u8 x -> In m [1; 2; 4; 8; 16] ->
  Z.shiftr (Z.land (u8 (u8 (Z.land x 0xC1) + Z.shiftl m 1)) 0x3E) 1 = m.
Proof.
  intros Hx Hm. apply Z.eqb_eq.
  apply (all_bytes (fun x => Z.shiftr (Z.land (u8 (u8 (Z.land x 0xC1) + Z.shiftl m 1)) 0x3E) 1 =? m));
    [|done].
  cbn [In] in Hm. destruct Hm as [<-|[<-|[<-|[<-|[<-|[]]]]]]; vm_compute; reflexivity.
Qed.

Lemma tg_temp x t :
  is_u8 x -> 0 <= t < 32 -> Z.land (u8 (u8 (Z.land x 0xE0) + t)) 0x1F = t.
Proof.
  intros Hx Ht. change 0x1F with (Z.ones 5). rewrite Z.land_ones by lia.
  assert (u8 (Z.land x 0xE0) mod 2 ^ 5 = 0) as H.
  { apply Z.eqb_eq. apply (all_bytes (fun x => u8 (Z.land x 0xE0) mod 2 ^ 5 =? 0)); [|done].
    vm_compute. reflexivity. }
  unfold u8 in *. Z.to_euclidean_division_equations. lia.
Qed.

Ltac tg_run :=
  repeat daikin_step; repeat match goal with Hd : is_u8 ?d |- context [u8 ?d] => rewrite (u8_small d Hd) in * end;
  unfold TG_A21MC.parse, TG_A21MC.put_state; try (repeat daikin_step; find_echo; repeat daikin_step).

Definition tg_row (devId regAddr groupAddr : Z) (node : option MbusNode) (s : list (list Z))
    (o : ty_obj_dp_s) : Prop := is_u8 devId /\ 0 <= groupAddr < 64 /\ TG_A21MC.inv s.

#[export] Instance tg_echo : EchoOk tg_row
  (asked [Num 2 ACD_TEMP 17; Enum 4 ACD_MODE 5]) TG_A21MC.build TG_A21MC.parse.
Proof.
  intros devId regAddr groupAddr node o s l lp v (Hd & Hg & Hi) Hc.
  unfold echo, TG_A21MC.build, TG_A21MC.set_reg, TG_A21MC.inv, TG_A21MC.REG_ADDR, TG_A21MC.CTRL_REG_LEN in *.
  ask_cases Hc.
  - apply Z.eqb_eq in E. rewrite E. repeat daikin_step. apply owp_int_of; [bprop; lia|].
    repeat daikin_step. apply owp_int_of; [bprop; pose proof (u8_range (Z.land (u8 x0) 0xE0)); unfold is_u8 in *; lia|].
    tg_run. echo_done. rewrite tg_temp by (first [apply u8_range|bprop; lia]). width.
  - apply Z.eqb_eq in E0. rewrite E0. enum_cases; [| | | | |no_enum]; tg_run; echo_done;
      rewrite tg_mode by (first [apply u8_range|simpl; auto 6]); done.
Qed.

(** ** The plugins together *)

Record echo_case := EchoCase {
  ec_S : Type;
  ec_pre : Z -> Z -> Z -> option MbusNode -> ec_S -> ty_obj_dp_s -> Prop;
  ec_asks : list ask;
  ec_build : build_t ec_S;
  ec_parse : parse_t ec_S
}.

(** The plugins whose device repeats a write, with the requests it covers. *)
Definition echo_cases : list echo_case := [
  EchoCase unit addr_ok [Bool 1 PANEL_SWITCH] Panel.build Panel.parse;
  EchoCase unit addr_ok [Bool 39 VENT_SWITCH; Enum 101 VENT_SPEED 256] Dpurat.build Dpurat.parse;
  EchoCase unit addr_ok [Bool 1 HEAT_SWITCH; Enum 2 HEAT_TEMP 6554] Honeywell.build Honeywell.parse;
  EchoCase unit zone_ok [Bool 1 HEAT_SWITCH; Num 2 HEAT_TEMP 65536] FloorHeating.build FloorHeating.parse;
  EchoCase Z addr_ok [Bool 101 HUMIDIFIER_SWITCH; Num 102 HUMIDIFIER_HUMIDITY_SET 256]
    Humidifier.build Humidifier.parse;
  EchoCase unit addr_ok [Bool 1 ACD_SWITCH; Num 2 ACD_TEMP 256; Enum 4 ACD_MODE 4]
    ZhongHong.build ZhongHong.parse;
  EchoCase unit (motor_ok 0xAA) [Num 1 CURTAIN_SWITCH 3]
    (plain_build Changming.buildExt) (plain_parse Changming.parseExt);
  EchoCase unit (motor_ok 0x55) [Num 1 CURTAIN_SWITCH 3]
    (plain_build HeChuang.buildExt) (plain_parse HeChuang.parseExt);
  EchoCase (list (list MbusObj_t)) vent_heard [Bool 39 VENT_SWITCH; Enum 28 VENT_SPEED 2]
    VentDaikin.build VentDaikin.parse;
  EchoCase (list (list MbusObj_t)) acd_heard
    [Bool 1 ACD_SWITCH; Num 2 ACD_TEMP 6554; Enum 4 ACD_MODE 5; Enum 5 ACD_SPEED 8]
    AcdDaikin.build AcdDaikin.parse;
  EchoCase (list (list Z)) tg_row [Num 2 ACD_TEMP 17; Enum 4 ACD_MODE 5]
    TG_A21MC.build TG_A21MC.parse
].

Lemma echo_cases_ok :
  Forall (fun c => EchoOk (ec_pre c) (asked (ec_asks c)) (ec_build c) (ec_parse c)) echo_cases.
Proof.
  unfold echo_cases. repeat (apply Forall_cons; split; [simpl; apply _|]). apply Forall_nil_2.
Qed.


(** A request to set [dp] to [v]. *)
Definition a_request (dp v : Z) : ty_obj_dp_s := Dp dp PROP_VALUE v 0.


(** ZhongHong writes speed 1 as 4 and 3 as 1 but reads its acknowledgements
    the other way round: the echo of a low speed is reported as high and of a
    high speed as low (the status answer decodes them correctly). *)
Theorem zhonghong_speed_swapped devId regAddr groupAddr node o l :
  is_u8 devId -> dpid o = 5 -> 1 <= dp_enum o <= 3 ->
  wp (echo ZhongHong.build ZhongHong.parse devId regAddr groupAddr node o)
     (echoed l ACD_SPEED (4 - dp_enum o)) (Env (Heap [] l) tt).
Proof.
  intros Hd E Hv. unfold echo, ZhongHong.build, ZhongHong.set_cmd. rewrite E.
  enum_cases; [lia| | | |lia]; repeat zh_step; echo_run ZhongHong.parse; repeat zh_step;
    unfold ZhongHong.put_speed_ack; repeat zh_step; echo_done; done.
Qed.

Lemma zhonghong_speed_swapped_witness :
  wp (echo ZhongHong.build ZhongHong.parse 1 0 0 None (a_request 5 1)) (echoed 0 ACD_SPEED 3)
     (Env (Heap [] 0) tt).
Proof.
  exact (zhonghong_speed_swapped 1 0 0 None (a_request 5 1) 0 ltac:(split; discriminate || reflexivity)
    eq_refl ltac:(split; discriminate)).
Defined.

Lemma byte_shr14 x : is_u8 x -> Z.shiftr x 14 = 0.
Proof. unfold is_u8. intros. rewrite Z.shiftr_div_pow2 by lia. apply Z.div_small. lia. Qed.

Lemma tg_speed x y :
  is_u8 x -> is_u8 y ->
  Z.shiftl (Z.land (u8 (Z.land x 0xFE)) 1) 4 + Z.shiftr (u8 (u8 (Z.land y 0x1F) + Z.shiftl 4 5)) 5 = 4.
Proof.
  intros Hx Hy.
  assert (Z.land (u8 (Z.land x 0xFE)) 1 = 0) as ->.
  { apply Z.eqb_eq. by apply (all_bytes (fun x => Z.land (u8 (Z.land x 0xFE)) 1 =? 0)). }
  apply Z.eqb_eq.
  by apply (all_bytes (fun y => Z.shiftl 0 4 + Z.shiftr (u8 (u8 (Z.land y 0x1F) + Z.shiftl 4 5)) 5 =? 4)).
Qed.

Lemma tg_set_switch p o1 o2 :
  dpid o1 = 1 -> dpid o2 = 1 -> TG_A21MC.set_reg p o1 = TG_A21MC.set_reg p o2.
Proof.
  intros E1 E2. unfold TG_A21MC.set_reg. rewrite E1, E2. cbn [Z.eqb Pos.eqb].
  destruct (and8 p 4 0x3F) as [q|]; [|done]. cbn [obind]. unfold add8, st8.
  destruct (rd8 q 4) as [x|]; [|done]. cbn [obind]. destruct (_ <? _)%nat; [|done].
  assert (forall b : bool, u8 (x + Z.shiftl (if b then 2 else 1) 14) = u8 x) as H.
  { intros b. unfold u8. rewrite Z.shiftl_mul_pow2 by lia.
    destruct b; Z.to_euclidean_division_equations; lia. }
  by rewrite !H.
Qed.

(** TG_A21MC loses the switch: its two bits are added to a byte at weights
    of the 16-bit register and vanish, so that "on" and "off" send the same
    frame, and every answer reports the unit as off.  A command for speed 3 is
    echoed as speed 4. *)
Theorem tg_switch_lost devId regAddr groupAddr node e :
  is_u8 devId -> 0 <= regAddr < 64 -> 0 <= groupAddr < 64 -> TG_A21MC.inv (st e) ->
  (forall o1 o2, dpid o1 = 1 -> dpid o2 = 1 ->
     TG_A21MC.build devId regAddr groupAddr node (Some o1) e =
     TG_A21MC.build devId regAddr groupAddr node (Some o2) e) /\
  (forall buf len, bytes buf -> 0 <= len < 65536 -> (Z.to_nat len <= length buf)%nat ->
     wp (TG_A21MC.parse devId regAddr node (Some buf) len)
        (fun r _ => forall ob, r = Some ob -> reports ob ACD_SWITCH = [0]) e) /\
  (forall o l, dpid o = 5 -> dp_enum o = 3 ->
     wp (echo TG_A21MC.build TG_A21MC.parse devId regAddr groupAddr node o)
        (echoed l ACD_SPEED 4) (Env (Heap [] l) (st e))).
Proof.
  intros Hd Hr Hg Hi. split_and!.
  - intros o1 o2 E1 E2. unfold TG_A21MC.build, mbind, C_bind.
    destruct (calloc_Msg e) as [[[[]|] e1]|]; [|done..].
    destruct (calloc_pBuf 8 e1) as [[[p|] e2]|]; [|done..]. cbn [getS].
    match goal with |- match lift ?A ?s with _ => _ end = match lift ?B ?s with _ => _ end =>
      assert (A = B) as ->; [|done] end.
    repeat match goal with |- obind ?x _ = obind ?x _ => destruct x; [cbn [obind]|done] end.
    by rewrite (tg_set_switch _ o1 o2).
  - intros buf len Hb Hl Hlen. unfold TG_A21MC.parse, TG_A21MC.put_state, TG_A21MC.inv, TG_A21MC.MODBUS_MIN_LEN in *.
    cbv zeta. repeat parse_step; try done.
    all: intros ob [= <-]; rewrite reports_hit by reflexivity;
      repeat (rewrite reports_miss by reflexivity); cbn [value set_value set_localPoint];
      rewrite byte_shr14 by (by eapply bytes_lookup); done.
  - intros o l E Ev. unfold echo, TG_A21MC.build, TG_A21MC.set_reg, TG_A21MC.inv, TG_A21MC.REG_ADDR, TG_A21MC.CTRL_REG_LEN in *.
    rewrite E, Ev. tg_run. echo_done. rewrite tg_speed by apply u8_range. done.
Qed.

Lemma tg_switch_lost_witness :
  TG_A21MC.build 1 3 3 None (Some (Dp 1 PROP_BOOL 1 0)) (Env (Heap [] 0) TG_A21MC.AcdCache) =
  TG_A21MC.build 1 3 3 None (Some (Dp 1 PROP_BOOL 0 0)) (Env (Heap [] 0) TG_A21MC.AcdCache).
Proof.
  assert (is_u8 1) as H1 by (split; [discriminate|reflexivity]).
  assert (0 <= 3 < 64) as H3 by (split; [discriminate|reflexivity]).
  assert (TG_A21MC.inv TG_A21MC.AcdCache) as Hi by (split; [reflexivity|repeat constructor]).
  exact (proj1 (tg_switch_lost 1 3 3 None (Env (Heap [] 0) TG_A21MC.AcdCache) H1 H3 H3 Hi)
    (Dp 1 PROP_BOOL 1 0) (Dp 1 PROP_BOOL 0 0) eq_refl eq_refl).
Defined.
