(* ===== verification/Dpt9.v ===== *)
(** The two-byte temperatures of the KNX plugins (ConvetTemp2Uint16 and
    ConvetUint162Temp, the same text in each of the plugins KNX_*.c and
    knx_*_panel.c under plugin/compile/).

    The code computes in [float] and [double].  Here these are the binary32 and
    binary64 numbers of the specification of IEEE 754 in the Standard Library
    ([SpecFloat]); every operation rounds to nearest, ties to even. *)

From S2P Require Import Prelude.
From Stdlib Require Import SpecFloat.

(** ** float and double *)

Definition float_of_Z (z : Z) : spec_float := binary_normalize 24 128 z 0 false.
Definition double_of_Z (z : Z) : spec_float := binary_normalize 53 1024 z 0 false.

Definition convert (prec emax : Z) (x : spec_float) : spec_float :=
  match x with
  | S754_finite s m e => binary_normalize prec emax (if s then Zneg m else Zpos m) e s
  | _ => x
  end.
Definition to_float : spec_float -> spec_float := convert 24 128.
Definition to_double : spec_float -> spec_float := convert 53 1024.

Definition fdiv := SFdiv 24 128.
Definition fmul := SFmul 24 128.
Definition ddiv := SFdiv 53 1024.
Definition dmul := SFmul 53 1024.

(** The conversion to an integer type drops the fraction; of an infinity or a
    NaN, or when the type cannot hold the integer, it is undefined. *)
Definition sf_trunc (x : spec_float) : outcome Z :=
  match x with
  | S754_zero _ => Done 0
  | S754_finite s m e =>
      let v := if 0 <=? e then Zpos m * 2 ^ e else Zpos m / 2 ^ (- e) in
      Done (if s then - v else v)
  | _ => Undef
  end.
Definition to_int (lo hi : Z) (x : spec_float) : outcome Z :=
  v <-! sf_trunc x; if (lo <=? v) && (v <=? hi) then Done v else Undef.
Definition to_short : spec_float -> outcome Z := to_int (-32768) 32767.
Definition to_int32 : spec_float -> outcome Z := to_int (- 2 ^ 31) (2 ^ 31 - 1).

(** The literal [0.01]. *)
Definition c001 : spec_float := ddiv (double_of_Z 1) (double_of_Z 100).

(** ** The conversions *)

(** One round of the loop: the mantissa for the exponent [e]. *)
Definition mantissa (temp : spec_float) (e : Z) : outcome Z :=
  to_short (ddiv (to_double (fdiv temp (float_of_Z (2 ^ e)))) c001).

(** The result is a [short]; its callers store it in a [uint16_t], so it is kept
    as its 16-bit pattern. *)
Fixpoint conv_loop (n : nat) (e : Z) (temp : spec_float) : outcome Z :=
  match n with
  | O => Done 0xffff
  | S n =>
      m <-! mantissa temp e;
      if (-2048 <? m) && (m <=? 2047) then
        if 0 <=? m then Done (u16 (Z.lor m (Z.shiftl e 11)))
        else Done (u16 (Z.lor (Z.land m 0x87ff) (Z.shiftl e 11)))
      else conv_loop n (e + 1) temp
  end.
Definition ConvetTemp2Uint16 (temp : spec_float) : outcome Z := conv_loop 16 0 temp.

(** The two branches of the code are the same: the sign bit is not used. *)
Definition ConvetUint162Temp (value : Z) : spec_float :=
  let e := Z.shiftr (Z.land value 0x7800) 11 in
  let m := Z.land value 0x07ff in
  to_float (dmul (dmul c001 (double_of_Z m)) (double_of_Z (2 ^ e))).

(** ** What the code means to compute

    The format of the KNX standard (data point type 9): a sign bit, four bits of
    exponent and the mantissa in two's complement; in hundredths of a degree. *)
Definition dpt9_centi (v : Z) : Z :=
  let e := Z.shiftr (Z.land v 0x7800) 11 in
  let m := Z.land v 0x07ff - (if Z.testbit v 15 then 2048 else 0) in
  m * 2 ^ e.

(** A whole number of degrees through the two conversions. *)
Definition encode (t : Z) : outcome Z := ConvetTemp2Uint16 (float_of_Z t).
Definition decode (v : Z) : outcome Z := to_int32 (ConvetUint162Temp v).

(** ** Evaluation over a range *)

Definition range (lo hi : Z) : list Z := seqZ lo (hi + 1 - lo).

Lemma range_all (P : Z -> bool) lo hi :
  forallb P (range lo hi) = true -> forall t, lo <= t <= hi -> P t = true.
Proof.
  intros H t Ht. rewrite forallb_forall in H. apply H, list_elem_of_In, elem_of_seqZ. lia.
Qed.

Definition is_done (o : outcome Z) (f : Z -> bool) : bool :=
  match o with Done v => f v | Undef => false end.

Lemma is_done_spec o f : is_done o f = true -> exists v, o = Done v /\ f v = true.
Proof. destruct o as [v|]; [by exists v|done]. Qed.

(** ** Theorems *)

(** The code is right for every temperature the devices have. *)
Lemma encode_right t :
  -50 <= t <= 81 -> exists v, encode t = Done v /\ 0 <= v < 65536 /\ dpt9_centi v = 100 * t.
Proof.
  intros Ht.
  pose proof (range_all (fun t => is_done (encode t) (fun v => (0 <=? v) && (v <? 65536) && (dpt9_centi v =? 100 * t))) (-50) 81) as H.
  specialize (H ltac:(by vm_compute) t ltac:(lia)).
  apply is_done_spec in H as (v & Hv & E). bprop. exists v. repeat split; done.
Qed.

(** Of a negative code the sign is lost: 2048 units of the mantissa are added. *)
Lemma decode_negative t :
  -50 <= t < 0 ->
  exists w, encode t = Done w /\ 0 <= w < 65536 /\
    decode w = Done (t + 2048 * 2 ^ Z.shiftr (Z.land w 0x7800) 11 / 100) /\
    0 <= t + 2048 * 2 ^ Z.shiftr (Z.land w 0x7800) 11 / 100.
Proof.
  intros Ht.
  pose proof (range_all (fun t => is_done (encode t) (fun w =>
    let r := t + 2048 * 2 ^ Z.shiftr (Z.land w 0x7800) 11 / 100 in
    (0 <=? w) && (w <? 65536) && is_done (decode w) (Z.eqb r) && (0 <=? r))) (-50) (-1)) as H.
  specialize (H ltac:(by vm_compute) t ltac:(lia)).
  apply is_done_spec in H as (w & -> & E). cbv zeta in E. bprop. exists w.
  match goal with H : is_done _ _ = true |- _ => apply is_done_spec in H as (t' & -> & E) end.
  bprop. by subst t'.
Qed.

(** Whole degrees survive the way to the bus and back. *)
Lemma temp_echo t :
  0 <= t <= 81 -> exists w, encode t = Done w /\ 0 <= w < 65536 /\ decode w = Done t.
Proof.
  intros Ht.
  pose proof (range_all (fun t => is_done (encode t)
    (fun w => (0 <=? w) && (w <? 65536) && is_done (decode w) (Z.eqb t))) 0 81) as H.
  specialize (H ltac:(by vm_compute) t ltac:(lia)).
  apply is_done_spec in H as (w & -> & E). bprop. exists w.
  match goal with H : is_done _ _ = true |- _ => apply is_done_spec in H as (t' & -> & E) end.
  bprop. by subst t'.
Qed.

(** So do tenths of a degree that are multiples of five, up to 41 degrees. *)
Definition encode10 (t : Z) : outcome Z := ConvetTemp2Uint16 (to_float (ddiv (double_of_Z t) (double_of_Z 10))).
Definition decode10 (v : Z) : outcome Z := to_int32 (fmul (ConvetUint162Temp v) (float_of_Z 10)).

Lemma temp10_echo t :
  0 <= t <= 410 -> t mod 5 = 0 -> exists w, encode10 t = Done w /\ 0 <= w < 65536 /\ decode10 w = Done t.
Proof.
  intros Ht Hm. apply Z.mod_divide in Hm as [k ->]; [|done].
  pose proof (range_all (fun k => is_done (encode10 (k * 5))
    (fun w => (0 <=? w) && (w <? 65536) && is_done (decode10 w) (Z.eqb (k * 5)))) 0 82) as H.
  specialize (H ltac:(by vm_compute) k ltac:(lia)).
  apply is_done_spec in H as (w & -> & E). bprop. exists w.
  match goal with H : is_done _ _ = true |- _ => apply is_done_spec in H as (t' & -> & E) end.
  bprop. by subst t'.
Qed.

(** The commands the conversion is defined for, and how exact it is: the error
    is less than the unit of the exponent. *)
Lemma encode_bounds t :
  -327 <= t <= 327 ->
  exists w, encode t = Done w /\ 0 <= w < 65536 /\ Z.abs (dpt9_centi w - 100 * t) < 2 ^ Z.shiftr (Z.land w 0x7800) 11 + 1.
Proof.
  intros Ht.
  pose proof (range_all (fun t => is_done (encode t) (fun w => (0 <=? w) && (w <? 65536) &&
    (Z.abs (dpt9_centi w - 100 * t) <? 2 ^ Z.shiftr (Z.land w 0x7800) 11 + 1))) (-327) 327) as H.
  specialize (H ltac:(by vm_compute) t ltac:(lia)).
  apply is_done_spec in H as (w & -> & E). bprop. by exists w.
Qed.

Lemma encode10_defined t : 0 <= t <= 350 -> exists w, encode10 t = Done w /\ 0 <= w < 65536.
Proof.
  intros Ht.
  pose proof (range_all (fun t => is_done (encode10 t) (fun w => (0 <=? w) && (w <? 65536))) 0 350) as H.
  specialize (H ltac:(by vm_compute) t ltac:(lia)).
  apply is_done_spec in H as (w & -> & E). bprop. by exists w.
Qed.

(** Which temperatures a command can carry.  From -327 to 327 degrees
    ConvetTemp2Uint16 is defined, its result fits in 16 bits and is off by at
    most one unit of its exponent; at 328 and -328 the conversion to [short] in
    its first round is undefined. *)
Theorem temp_command_bounds :
  (forall t, -327 <= t <= 327 -> exists w, ConvetTemp2Uint16 (float_of_Z t) = Done w /\ 0 <= w < 65536 /\
     Z.abs (dpt9_centi w - 100 * t) <= 2 ^ Z.shiftr (Z.land w 0x7800) 11) /\
  ConvetTemp2Uint16 (float_of_Z 328) = Undef /\ ConvetTemp2Uint16 (float_of_Z (-328)) = Undef.
Proof.
  split; [|split; reflexivity]. intros t Ht.
  destruct (encode_bounds t Ht) as (w & Hw & Hr & Hb). exists w. split; [done|]. split; [done|lia].
Qed.
