(* ===== verification/KnxPlugins.v ===== *)
(** The plugins of the KNX devices (plugin/compile/KNX_*.c, knx_*_panel.c).

    A plugin translates between the data points of the cloud and the values of
    the KNX bus: [control] takes a cloud object and stores the value to send in
    the point it commands, [report] takes a status point and fills the object for
    the cloud.  One Module per plugin; the functions [knx_dev_control] and
    [knx_dev_report] are the bodies of the functions of that name after the test
    of their pointers, which is [checked]. *)

From S2P Require Import Prelude Device Dpt9.

(** ** KnxObj_t and KnxIf (source/misc_dev_plugins.h) *)

Record KnxObj_t := KnxObj {
  k_localPoint : Z;
  k_value : Z;
  k_cloudPoint : Z;
  k_addr : string;
  k_timestamp : Z
}.

(** [value] is a [uint16_t]. *)
Definition put_value (v : Z) (p : KnxObj_t) : KnxObj_t :=
  KnxObj (k_localPoint p) (u16 v) (k_cloudPoint p) (k_addr p) (k_timestamp p).

Record KnxIf := MkKnxIf {
  control : option (option ty_obj_dp_s -> option KnxObj_t -> outcome (Z * option KnxObj_t));
  report : option (option KnxObj_t -> option ty_obj_dp_s -> outcome (Z * option ty_obj_dp_s))
}.

(** Stores to the members of [ty_obj_dp_value_u], and to [type]. *)
Definition put_dp_bool (b : bool) (o : ty_obj_dp_s) : ty_obj_dp_s :=
  Dp (dpid o) (dptype o) (Z.land (dpvalue o) 0xffffff00 + b2z b) (time_stamp o).
Definition put_dp_value (v : Z) (o : ty_obj_dp_s) : ty_obj_dp_s :=
  Dp (dpid o) (dptype o) (u32 v) (time_stamp o).
Definition put_type (t : Z) (o : ty_obj_dp_s) : ty_obj_dp_s :=
  Dp (dpid o) (u8 t) (dpvalue o) (time_stamp o).

(** [if (!pObj || !pX) return -1; ...; return 0;] *)
Definition checked {A B} (f : A -> B -> outcome B) (a : option A) (b : option B) : outcome (Z * option B) :=
  match a, b with
  | Some x, Some y => r <-! f x y; Done (0, Some r)
  | _, _ => Done (-1, b)
  end.
Definition plugin_if (c : ty_obj_dp_s -> KnxObj_t -> outcome KnxObj_t)
    (r : KnxObj_t -> ty_obj_dp_s -> outcome ty_obj_dp_s) : KnxIf :=
  MkKnxIf (Some (checked c)) (Some (checked r)).

(** [pCtrl->value = pObj->value.dp_bool] and the report of a switch. *)
Definition ctrl_bool (pObj : ty_obj_dp_s) (pCtrl : KnxObj_t) : outcome KnxObj_t :=
  Done (put_value (b2z (dp_bool pObj)) pCtrl).
Definition report_bool (pStatus : KnxObj_t) (pObj : ty_obj_dp_s) : outcome ty_obj_dp_s :=
  Done (put_type PROP_BOOL (put_dp_bool (negb (k_value pStatus =? 0)) pObj)).

(** [pCtrl->value = ConvetTemp2Uint16 (pObj->value.dp_value)] and the reverse. *)
Definition ctrl_temp (pObj : ty_obj_dp_s) (pCtrl : KnxObj_t) : outcome KnxObj_t :=
  v <-! ConvetTemp2Uint16 (float_of_Z (dp_value pObj)); Done (put_value v pCtrl).
Definition report_temp (pStatus : KnxObj_t) (pObj : ty_obj_dp_s) : outcome ty_obj_dp_s :=
  t <-! to_int32 (ConvetUint162Temp (k_value pStatus)); Done (put_type PROP_VALUE (put_dp_value t pObj)).

Definition report_enum (v : Z) (pObj : ty_obj_dp_s) : outcome ty_obj_dp_s :=
  Done (put_type PROP_ENUM (put_dp_value v pObj)).

Module Acd_General.

Definition knx_dev_control (pObj : ty_obj_dp_s) (pCtrl : KnxObj_t) : outcome KnxObj_t :=
  let lp := k_localPoint pCtrl in
  if lp =? ACD_SWITCH then ctrl_bool pObj pCtrl
  else if lp =? ACD_TEMP then ctrl_temp pObj pCtrl
  else if lp =? ACD_MODE then
    if dp_enum pObj =? 0 then Done (put_value 1 pCtrl)
    else if dp_enum pObj =? 1 then Done (put_value 2 pCtrl)
    else if dp_enum pObj =? 2 then Done (put_value 4 pCtrl)
    else if dp_enum pObj =? 3 then Done (put_value 8 pCtrl)
    else Done pCtrl
  else if lp =? ACD_SPEED then
    if dp_enum pObj =? 0 then Done (put_value 0 pCtrl)
    else if dp_enum pObj =? 1 then Done (put_value 1 pCtrl)
    else if dp_enum pObj =? 2 then Done (put_value 2 pCtrl)
    else if dp_enum pObj =? 3 then Done (put_value 4 pCtrl)
    else Done pCtrl
  else Done pCtrl.

Definition knx_dev_report (pStatus : KnxObj_t) (pObj : ty_obj_dp_s) : outcome ty_obj_dp_s :=
  let lp := k_localPoint pStatus in
  let v := k_value pStatus in
  if lp =? ACD_SWITCH_STATUS then report_bool pStatus pObj
  else if lp =? ACD_TEMP_STATUS then report_temp pStatus pObj
  else if lp =? ACD_MODE_STATUS then
    let pObj := put_type PROP_ENUM pObj in
    if v =? 0 then Done pObj
    else if v =? 1 then Done (put_dp_value 0 pObj)
    else if v =? 2 then Done (put_dp_value 1 pObj)
    else if v =? 4 then Done (put_dp_value 2 pObj)
    else if v =? 8 then Done (put_dp_value 3 pObj)
    else Done pObj
  else if lp =? ACD_SPEED_STATUS then
    let pObj :=
      if v =? 0 then put_dp_value 0 pObj
      else if v =? 1 then put_dp_value 1 pObj
      else if v =? 2 then put_dp_value 2 pObj
      else if v =? 4 then put_dp_value 3 pObj
      else pObj in
    Done (put_type PROP_ENUM pObj)
  else if lp =? ACD_ENV_TEMP then report_temp pStatus pObj
  else Done pObj.

Definition KNX_Acd_General : KnxIf := plugin_if knx_dev_control knx_dev_report.

End Acd_General.

Module Acd_STEC.

Definition knx_dev_control (pObj : ty_obj_dp_s) (pCtrl : KnxObj_t) : outcome KnxObj_t :=
  let lp := k_localPoint pCtrl in
  if lp =? ACD_SWITCH then ctrl_bool pObj pCtrl
  else if lp =? ACD_TEMP then ctrl_temp pObj pCtrl
  else if lp =? ACD_MODE then
    if dp_enum pObj =? 0 then Done (put_value 1 pCtrl)
    else if dp_enum pObj =? 1 then Done (put_value 2 pCtrl)
    else if dp_enum pObj =? 2 then Done (put_value 4 pCtrl)
    else if dp_enum pObj =? 3 then Done (put_value 3 pCtrl)
    else Done pCtrl
  else if lp =? ACD_SPEED then
    if dp_enum pObj =? 1 then Done (put_value 3 pCtrl)
    else if dp_enum pObj =? 3 then Done (put_value 1 pCtrl)
    else Done (put_value (dp_enum pObj) pCtrl)
  else Done pCtrl.

Definition knx_dev_report (pStatus : KnxObj_t) (pObj : ty_obj_dp_s) : outcome ty_obj_dp_s :=
  let lp := k_localPoint pStatus in
  let v := k_value pStatus in
  if lp =? ACD_SWITCH_STATUS then report_bool pStatus pObj
  else if lp =? ACD_TEMP_STATUS then report_temp pStatus pObj
  else if lp =? ACD_MODE_STATUS then
    let pObj := put_type PROP_ENUM pObj in
    if v =? 1 then Done (put_dp_value 0 pObj)
    else if v =? 2 then Done (put_dp_value 1 pObj)
    else if v =? 3 then Done (put_dp_value 3 pObj)
    else if v =? 4 then Done (put_dp_value 2 pObj)
    else Done pObj
  else if lp =? ACD_SPEED_STATUS then
    let pObj := put_type PROP_ENUM pObj in
    if v =? 1 then Done (put_dp_value 3 pObj)
    else if v =? 3 then Done (put_dp_value 1 pObj)
    else Done (put_dp_value v pObj)
  else if lp =? ACD_ENV_TEMP then report_temp pStatus pObj
  else Done pObj.

Definition KNX_Aircondition_STEC : KnxIf := plugin_if knx_dev_control knx_dev_report.

End Acd_STEC.

Module Acd_Sdk.

Definition knx_dev_control (pObj : ty_obj_dp_s) (pCtrl : KnxObj_t) : outcome KnxObj_t :=
  let lp := k_localPoint pCtrl in
  if lp =? ACD_SWITCH then ctrl_bool pObj pCtrl
  else if lp =? ACD_TEMP then ctrl_temp pObj pCtrl
  else if lp =? ACD_MODE then
    if dp_enum pObj =? 0 then Done (put_value 0 pCtrl)
    else if dp_enum pObj =? 1 then Done (put_value 1 pCtrl)
    else if dp_enum pObj =? 2 then Done (put_value 3 pCtrl)
    else if dp_enum pObj =? 3 then Done (put_value 2 pCtrl)
    else Done pCtrl
  else if lp =? ACD_SPEED then Done (put_value (dp_enum pObj) pCtrl)
  else Done pCtrl.

Definition knx_dev_report (pStatus : KnxObj_t) (pObj : ty_obj_dp_s) : outcome ty_obj_dp_s :=
  let lp := k_localPoint pStatus in
  let v := k_value pStatus in
  if lp =? ACD_SWITCH_STATUS then report_bool pStatus pObj
  else if lp =? ACD_TEMP_STATUS then report_temp pStatus pObj
  else if lp =? ACD_MODE_STATUS then
    let pObj := put_type PROP_ENUM pObj in
    if v =? 0 then Done (put_dp_value 0 pObj)
    else if v =? 1 then Done (put_dp_value 1 pObj)
    else if v =? 2 then Done (put_dp_value 3 pObj)
    else if v =? 3 then Done (put_dp_value 2 pObj)
    else Done pObj
  else if lp =? ACD_SPEED_STATUS then report_enum v pObj
  else if lp =? ACD_ENV_TEMP then report_temp pStatus pObj
  else Done pObj.

Definition KNX_Aircondition_Sdk_H8C09 : KnxIf := plugin_if knx_dev_control knx_dev_report.

End Acd_Sdk.

Module Acd_Water.

(** [dp_enum + 1] is taken in [uint32_t]. *)
Definition knx_dev_control (pObj : ty_obj_dp_s) (pCtrl : KnxObj_t) : outcome KnxObj_t :=
  let lp := k_localPoint pCtrl in
  if lp =? ACD_SWITCH then ctrl_bool pObj pCtrl
  else if lp =? ACD_TEMP then ctrl_temp pObj pCtrl
  else if lp =? ACD_MODE then
    if dp_enum pObj =? 0 then Done (put_value 1 pCtrl)
    else if dp_enum pObj =? 1 then Done (put_value 2 pCtrl)
    else Done pCtrl
  else if lp =? ACD_SPEED then Done (put_value (u32 (dp_enum pObj + 1)) pCtrl)
  else Done pCtrl.

Definition knx_dev_report (pStatus : KnxObj_t) (pObj : ty_obj_dp_s) : outcome ty_obj_dp_s :=
  let lp := k_localPoint pStatus in
  let v := k_value pStatus in
  if lp =? ACD_SWITCH_STATUS then report_bool pStatus pObj
  else if lp =? ACD_TEMP_STATUS then report_temp pStatus pObj
  else if lp =? ACD_MODE_STATUS then
    let pObj := put_type PROP_ENUM pObj in
    if v =? 1 then Done (put_dp_value 0 pObj)
    else if v =? 2 then Done (put_dp_value 1 pObj)
    else Done pObj
  else if lp =? ACD_SPEED_STATUS then
    let pObj := put_type PROP_ENUM pObj in
    if v =? 1 then Done (put_dp_value 0 pObj)
    else if v =? 2 then Done (put_dp_value 1 pObj)
    else if v =? 3 then Done (put_dp_value 2 pObj)
    else Done pObj
  else if lp =? ACD_ENV_TEMP then report_temp pStatus pObj
  else Done pObj.

Definition KNX_Aircondition_Water : KnxIf := plugin_if knx_dev_control knx_dev_report.

End Acd_Water.

Module Acd_Panel.

Definition knx_dev_control (pObj : ty_obj_dp_s) (pCtrl : KnxObj_t) : outcome KnxObj_t :=
  let lp := k_localPoint pCtrl in
  if lp =? ACD_SWITCH then ctrl_bool pObj pCtrl
  else if lp =? ACD_TEMP then ctrl_temp pObj pCtrl
  else if lp =? ACD_MODE then
    if dp_enum pObj =? 0 then Done (put_value 1 pCtrl)
    else if dp_enum pObj =? 1 then Done (put_value 2 pCtrl)
    else if dp_enum pObj =? 2 then Done (put_value 4 pCtrl)
    else if dp_enum pObj =? 3 then Done (put_value 8 pCtrl)
    else Done pCtrl
  else if lp =? ACD_SPEED then
    if dp_enum pObj =? 0 then Done (put_value 0 pCtrl)
    else if dp_enum pObj =? 1 then Done (put_value 1 pCtrl)
    else if dp_enum pObj =? 2 then Done (put_value 2 pCtrl)
    else if dp_enum pObj =? 3 then Done (put_value 4 pCtrl)
    else Done pCtrl
  else Done pCtrl.

Definition knx_dev_report (pStatus : KnxObj_t) (pObj : ty_obj_dp_s) : outcome ty_obj_dp_s :=
  let lp := k_localPoint pStatus in
  let v := k_value pStatus in
  if lp =? ACD_SWITCH_STATUS then report_bool pStatus pObj
  else if lp =? ACD_TEMP_STATUS then report_temp pStatus pObj
  else if lp =? ACD_MODE_STATUS then
    let pObj := put_type PROP_ENUM pObj in
    if v =? 1 then Done (put_dp_value 0 pObj)
    else if v =? 2 then Done (put_dp_value 1 pObj)
    else if v =? 4 then Done (put_dp_value 2 pObj)
    else if v =? 8 then Done (put_dp_value 3 pObj)
    else Done pObj
  else if lp =? ACD_SPEED_STATUS then
    let pObj :=
      if v =? 0 then put_dp_value 0 pObj
      else if v =? 1 then put_dp_value 1 pObj
      else if v =? 2 then put_dp_value 2 pObj
      else if v =? 4 then put_dp_value 3 pObj
      else pObj in
    Done (put_type PROP_ENUM pObj)
  else if lp =? ACD_ENV_TEMP then report_temp pStatus pObj
  else Done pObj.

Definition knx_acd_panel : KnxIf := plugin_if knx_dev_control knx_dev_report.

End Acd_Panel.

Module Heat_STEC.

(** The set point of the cloud is in tenths of a degree: a division in [double]
    whose result is passed as a [float], and a product in [float]. *)
Definition knx_dev_control (pObj : ty_obj_dp_s) (pCtrl : KnxObj_t) : outcome KnxObj_t :=
  let lp := k_localPoint pCtrl in
  if lp =? HEAT_SWITCH then ctrl_bool pObj pCtrl
  else if lp =? HEAT_TEMP then
    v <-! ConvetTemp2Uint16 (to_float (ddiv (double_of_Z (dp_value pObj)) (double_of_Z 10)));
    Done (put_value v pCtrl)
  else Done pCtrl.

Definition knx_dev_report (pStatus : KnxObj_t) (pObj : ty_obj_dp_s) : outcome ty_obj_dp_s :=
  let lp := k_localPoint pStatus in
  if lp =? HEAT_SWITCH_STATUS then report_bool pStatus pObj
  else if lp =? HEAT_TEMP_STATUS then
    t <-! to_int32 (fmul (ConvetUint162Temp (k_value pStatus)) (float_of_Z 10));
    Done (put_type PROP_VALUE (put_dp_value t pObj))
  else if lp =? HEAT_ENV_TEMP then report_temp pStatus pObj
  else if lp =? HEAT_VALVE_STATUS then report_bool pStatus pObj
  else Done pObj.

Definition KNX_FloorHeating_STEC : KnxIf := plugin_if knx_dev_control knx_dev_report.

End Heat_STEC.

Module Heat_Sdk.

Definition knx_dev_control (pObj : ty_obj_dp_s) (pCtrl : KnxObj_t) : outcome KnxObj_t :=
  let lp := k_localPoint pCtrl in
  if lp =? HEAT_SWITCH then ctrl_bool pObj pCtrl
  else if lp =? HEAT_TEMP then ctrl_temp pObj pCtrl
  else Done pCtrl.

Definition knx_dev_report (pStatus : KnxObj_t) (pObj : ty_obj_dp_s) : outcome ty_obj_dp_s :=
  let lp := k_localPoint pStatus in
  if lp =? HEAT_SWITCH_STATUS then report_bool pStatus pObj
  else if lp =? HEAT_TEMP_STATUS then report_temp pStatus pObj
  else if lp =? HEAT_ENV_TEMP then report_temp pStatus pObj
  else if lp =? HEAT_VALVE_STATUS then report_bool pStatus pObj
  else Done pObj.

Definition KNX_FloorHeating_Sdk_H8C09 : KnxIf := plugin_if knx_dev_control knx_dev_report.

End Heat_Sdk.

Module Heat_Panel.

Definition knx_dev_control (pObj : ty_obj_dp_s) (pCtrl : KnxObj_t) : outcome KnxObj_t :=
  let lp := k_localPoint pCtrl in
  if lp =? HEAT_SWITCH then ctrl_bool pObj pCtrl
  else if lp =? HEAT_TEMP then ctrl_temp pObj pCtrl
  else Done pCtrl.

Definition knx_dev_report (pStatus : KnxObj_t) (pObj : ty_obj_dp_s) : outcome ty_obj_dp_s :=
  let lp := k_localPoint pStatus in
  if lp =? HEAT_SWITCH_STATUS then report_bool pStatus pObj
  else if lp =? HEAT_TEMP_STATUS then report_temp pStatus pObj
  else if lp =? HEAT_ENV_TEMP then report_temp pStatus pObj
  else if lp =? HEAT_VALVE_STATUS then report_bool pStatus pObj
  else Done pObj.

Definition knx_heat_panel : KnxIf := plugin_if knx_dev_control knx_dev_report.

End Heat_Panel.

Module Vent_STEC.

Definition knx_dev_control (pObj : ty_obj_dp_s) (pCtrl : KnxObj_t) : outcome KnxObj_t :=
  let lp := k_localPoint pCtrl in
  if lp =? VENT_SWITCH then ctrl_bool pObj pCtrl
  else if lp =? VENT_SPEED then Done (put_value (dp_enum pObj) pCtrl)
  else Done pCtrl.

Definition knx_dev_report (pStatus : KnxObj_t) (pObj : ty_obj_dp_s) : outcome ty_obj_dp_s :=
  let lp := k_localPoint pStatus in
  if lp =? VENT_SWITCH_STATUS then report_bool pStatus pObj
  else if lp =? VENT_SPEED_STATUS then report_enum (k_value pStatus) pObj
  else if lp =? VENT_ENV_TEMP then report_temp pStatus pObj
  else Done pObj.

Definition KNX_Ventilation_STEC : KnxIf := plugin_if knx_dev_control knx_dev_report.

End Vent_STEC.

Module Vent_Sdk.

Definition knx_dev_control (pObj : ty_obj_dp_s) (pCtrl : KnxObj_t) : outcome KnxObj_t :=
  let lp := k_localPoint pCtrl in
  if lp =? VENT_SWITCH then ctrl_bool pObj pCtrl
  else if lp =? VENT_SPEED then
    let pCtrl := put_value (dp_enum pObj) pCtrl in
    if dp_enum pObj =? 0 then Done (put_value 1 pCtrl)
    else if dp_enum pObj =? 1 then Done (put_value 2 pCtrl)
    else Done pCtrl
  else Done pCtrl.

Definition knx_dev_report (pStatus : KnxObj_t) (pObj : ty_obj_dp_s) : outcome ty_obj_dp_s :=
  let lp := k_localPoint pStatus in
  let v := k_value pStatus in
  if lp =? VENT_SWITCH_STATUS then report_bool pStatus pObj
  else if lp =? VENT_SPEED_STATUS then
    let pObj :=
      if v =? 1 then put_dp_value 0 pObj
      else if v =? 2 then put_dp_value 1 pObj
      else pObj in
    Done (put_type PROP_ENUM pObj)
  else Done pObj.

Definition KNX_Ventilation_Sdk_H8C09 : KnxIf := plugin_if knx_dev_control knx_dev_report.

End Vent_Sdk.

Module Vent_Panel.

Definition knx_dev_control (pObj : ty_obj_dp_s) (pCtrl : KnxObj_t) : outcome KnxObj_t :=
  let lp := k_localPoint pCtrl in
  if lp =? VENT_SWITCH then ctrl_bool pObj pCtrl
  else if lp =? VENT_SPEED then Done (put_value (dp_enum pObj) pCtrl)
  else Done pCtrl.

Definition knx_dev_report (pStatus : KnxObj_t) (pObj : ty_obj_dp_s) : outcome ty_obj_dp_s :=
  let lp := k_localPoint pStatus in
  if lp =? VENT_SWITCH_STATUS then report_bool pStatus pObj
  else if lp =? VENT_SPEED_STATUS then report_enum (k_value pStatus) pObj
  else Done pObj.

Definition knx_vent_panel : KnxIf := plugin_if knx_dev_control knx_dev_report.

End Vent_Panel.

(** ** Round trips

    [row]: a point the cloud commands, the status point the device answers with,
    the type of the data point and the values the product allows. *)

Inductive dom := DBool | DEnum (n : Z) | DTemp (lo hi : Z) | DTenths (lo hi : Z).
Record row := Row { r_cmd : Z; r_status : Z; r_type : Z; r_dom : dom }.

Definition in_dom (d : dom) (v : Z) : Prop :=
  match d with
  | DBool => 0 <= v < 2
  | DEnum n => 0 <= v < n
  | DTemp lo hi => lo <= v <= hi
  | DTenths lo hi => lo <= v <= hi /\ v mod 5 = 0
  end.

(** The plugin turns the value [v] of the cloud into a value [w] of the bus, of
    six bits for a switch, and a status with the value [w] into [v], with the type
    of the data point, whether the object held [w] before or was zero. *)
Definition row_echo (i : KnxIf) (r : row) : Prop :=
  forall v, in_dom (r_dom r) v ->
  exists c rep w, control i = Some c /\ report i = Some rep /\ 0 <= w < 65536 /\
  (r_dom r = DBool -> w < 64) /\
  (forall o p, dpvalue o = v -> k_localPoint p = r_cmd r ->
     c (Some o) (Some p) = Done (0, Some (put_value w p))) /\
  (forall p o, k_localPoint p = r_status r -> k_value p = w -> dpvalue o = w \/ dpvalue o = 0 ->
     rep (Some p) (Some o) = Done (0, Some (Dp (dpid o) (r_type r) v (time_stamp o)))).

Class KnxEcho (i : KnxIf) (rows : list row) : Prop := knx_echo_rows : Forall (row_echo i) rows.

(** One tactic per kind of row; each first finds the bus value of the command by
    running the plugin on a sample point. *)
Ltac echo_with i cmd v :=
  let w := eval vm_compute in
    (match control i with
     | Some c => match c (Some (Dp 0 0 v 0)) (Some (KnxObj cmd 0 0 EmptyString 0)) with
                 | Done (_, Some p) => k_value p | _ => 0 end
     | None => 0 end) in
  do 2 eexists; exists w; split; [reflexivity|split; [reflexivity|split; [done|split; [done|split]]]];
  [ intros [? ? ? ?] [? ? ? ? ?] ? ?; cbn in *; subst; reflexivity
  | intros [? ? ? ? ?] [? ? ? ?] ? ? [?|?]; cbn in *; subst; reflexivity ].

Ltac row_cases :=
  let v := fresh "v" in let Hv := fresh "Hv" in let Hc := fresh "Hc" in
  intros v Hv; cbn in Hv;
  match goal with
  | _ : 0 <= v < 2 |- _ => assert (v = 0 \/ v = 1) as Hc by lia
  | _ : 0 <= v < 3 |- _ => assert (v = 0 \/ v = 1 \/ v = 2) as Hc by lia
  | _ : 0 <= v < 4 |- _ => assert (v = 0 \/ v = 1 \/ v = 2 \/ v = 3) as Hc by lia
  | _ : 0 <= v < 6 |- _ => assert (v = 0 \/ v = 1 \/ v = 2 \/ v = 3 \/ v = 4 \/ v = 5) as Hc by lia
  end;
  repeat (destruct Hc as [Hc|Hc]; [subst v|]); subst;
  match goal with |- exists c rep w, control ?i = _ /\ _ /\ _ /\ _ /\ (forall o p, dpvalue o = ?v -> k_localPoint p = ?cmd -> _) /\ _ =>
    let cmd := eval vm_compute in cmd in echo_with i cmd v end.

Lemma i32_small v : 0 <= v < 2 ^ 31 -> i32 v = v.
Proof.
  intros Hv. unfold i32. cbv zeta. rewrite u32_small by lia.
  destruct (v <? 2 ^ 31) eqn:E; bprop; lia.
Qed.

Lemma put_dp_temp o t : 0 <= t < 2 ^ 31 ->
  put_type PROP_VALUE (put_dp_value t o) = Dp (dpid o) PROP_VALUE t (time_stamp o).
Proof. intros Ht. unfold put_type, put_dp_value. cbn [dpid dpvalue time_stamp]. by rewrite u32_small by lia. Qed.

Ltac row_temp lem :=
  let v := fresh "v" in let Hv := fresh "Hv" in
  intros v Hv; cbn [in_dom r_dom] in Hv;
  let w := fresh "w" in let Hw := fresh "Hw" in let He := fresh "He" in let Hd := fresh "Hd" in
  destruct (lem v) as (w & He & Hw & Hd); [lia..|];
  do 2 eexists; exists w; split; [reflexivity|split; [reflexivity|split; [done|split; [discriminate|split]]]];
  [ intros o p Ho Hp; unfold plugin_if, checked, ctrl_temp;
    match goal with |- obind (?f o p) _ = _ => unfold f end;
    cbv zeta; rewrite Hp; cbn [r_cmd]; cbv [Z.eqb Pos.eqb ACD_SWITCH ACD_TEMP HEAT_SWITCH HEAT_TEMP];
    unfold ctrl_temp, dp_value; rewrite Ho, i32_small by lia;
    unfold encode, encode10 in He; rewrite He; reflexivity
  | intros p o Hp Hk Ho; unfold plugin_if, checked;
    match goal with |- obind (?f p o) _ = _ => unfold f end;
    cbv zeta; rewrite Hp; cbn [r_status];
    cbv [Z.eqb Pos.eqb ACD_SWITCH_STATUS ACD_TEMP_STATUS HEAT_SWITCH_STATUS HEAT_TEMP_STATUS];
    unfold report_temp; rewrite Hk; unfold decode, decode10 in Hd; rewrite Hd;
    cbn [obind]; rewrite put_dp_temp by lia; reflexivity ].

Ltac echo_rows :=
  unfold KnxEcho; repeat constructor; first [row_cases | row_temp temp_echo | row_temp temp10_echo].

Definition acd_rows (modes speeds : Z) : list row :=
  [Row ACD_SWITCH ACD_SWITCH_STATUS PROP_BOOL DBool; Row ACD_TEMP ACD_TEMP_STATUS PROP_VALUE (DTemp 16 32);
   Row ACD_MODE ACD_MODE_STATUS PROP_ENUM (DEnum modes); Row ACD_SPEED ACD_SPEED_STATUS PROP_ENUM (DEnum speeds)].
Definition heat_rows (temps : dom) : list row :=
  [Row HEAT_SWITCH HEAT_SWITCH_STATUS PROP_BOOL DBool; Row HEAT_TEMP HEAT_TEMP_STATUS PROP_VALUE temps].
Definition vent_rows (speeds : Z) : list row :=
  [Row VENT_SWITCH VENT_SWITCH_STATUS PROP_BOOL DBool; Row VENT_SPEED VENT_SPEED_STATUS PROP_ENUM (DEnum speeds)].

#[export] Instance acd_general_echo : KnxEcho Acd_General.KNX_Acd_General (acd_rows 4 4).
Proof. echo_rows. Qed.
#[export] Instance acd_stec_echo : KnxEcho Acd_STEC.KNX_Aircondition_STEC (acd_rows 4 4).
Proof. echo_rows. Qed.
#[export] Instance acd_sdk_echo : KnxEcho Acd_Sdk.KNX_Aircondition_Sdk_H8C09 (acd_rows 4 6).
Proof. echo_rows. Qed.
#[export] Instance acd_water_echo : KnxEcho Acd_Water.KNX_Aircondition_Water (acd_rows 2 3).
Proof. echo_rows. Qed.
#[export] Instance acd_panel_echo : KnxEcho Acd_Panel.knx_acd_panel (acd_rows 4 4).
Proof. echo_rows. Qed.
#[export] Instance heat_stec_echo : KnxEcho Heat_STEC.KNX_FloorHeating_STEC (heat_rows (DTenths 50 350)).
Proof. echo_rows. Qed.
#[export] Instance heat_sdk_echo : KnxEcho Heat_Sdk.KNX_FloorHeating_Sdk_H8C09 (heat_rows (DTemp 0 40)).
Proof. echo_rows. Qed.
#[export] Instance heat_panel_echo : KnxEcho Heat_Panel.knx_heat_panel (heat_rows (DTemp 0 40)).
Proof. echo_rows. Qed.
#[export] Instance vent_stec_echo : KnxEcho Vent_STEC.KNX_Ventilation_STEC (vent_rows 4).
Proof. echo_rows. Qed.
#[export] Instance vent_sdk_echo : KnxEcho Vent_Sdk.KNX_Ventilation_Sdk_H8C09 (vent_rows 2).
Proof. echo_rows. Qed.
#[export] Instance vent_panel_echo : KnxEcho Vent_Panel.knx_vent_panel (vent_rows 4).
Proof. echo_rows. Qed.

(** The plugins and what each echoes; the points for the room temperature. *)
Definition knx_plugins : list (KnxIf * list row) :=
  [(Acd_General.KNX_Acd_General, acd_rows 4 4); (Acd_STEC.KNX_Aircondition_STEC, acd_rows 4 4);
   (Acd_Sdk.KNX_Aircondition_Sdk_H8C09, acd_rows 4 6); (Acd_Water.KNX_Aircondition_Water, acd_rows 2 3);
   (Acd_Panel.knx_acd_panel, acd_rows 4 4); (Heat_STEC.KNX_FloorHeating_STEC, heat_rows (DTenths 50 350));
   (Heat_Sdk.KNX_FloorHeating_Sdk_H8C09, heat_rows (DTemp 0 40)); (Heat_Panel.knx_heat_panel, heat_rows (DTemp 0 40));
   (Vent_STEC.KNX_Ventilation_STEC, vent_rows 4); (Vent_Sdk.KNX_Ventilation_Sdk_H8C09, vent_rows 2);
   (Vent_Panel.knx_vent_panel, vent_rows 4)].
Definition env_points : list (KnxIf * Z) :=
  [(Acd_General.KNX_Acd_General, ACD_ENV_TEMP); (Acd_STEC.KNX_Aircondition_STEC, ACD_ENV_TEMP);
   (Acd_Sdk.KNX_Aircondition_Sdk_H8C09, ACD_ENV_TEMP); (Acd_Water.KNX_Aircondition_Water, ACD_ENV_TEMP);
   (Acd_Panel.knx_acd_panel, ACD_ENV_TEMP); (Heat_STEC.KNX_FloorHeating_STEC, HEAT_ENV_TEMP);
   (Heat_Sdk.KNX_FloorHeating_Sdk_H8C09, HEAT_ENV_TEMP); (Heat_Panel.knx_heat_panel, HEAT_ENV_TEMP);
   (Vent_STEC.KNX_Ventilation_STEC, VENT_ENV_TEMP)].

Lemma echo_row i rows r :
  In (i, rows) knx_plugins -> In r rows -> row_echo i r.
Proof.
  intros Hi Hr.
  assert (Forall (fun '(i, rows) => KnxEcho i rows) knx_plugins) as H
    by (repeat (apply Forall_cons_2; [apply _|]); apply Forall_nil_2).
  rewrite List.Forall_forall in H. specialize (H _ Hi). simpl in H.
  unfold KnxEcho in H. rewrite List.Forall_forall in H. by apply H.
Qed.

(** C17: for each of the 11 KNX plugins, every value the product allows for a
    commanded point becomes one 16-bit value on the bus, and the status point
    with that value is reported as the value of the command, with the type of
    the data point: nothing is lost on the way to the device and back. *)
Theorem knx_plugins_echo i rows r :
  In (i, rows) knx_plugins -> In r rows -> row_echo i r.
Proof. apply echo_row. Qed.

Lemma knx_plugins_echo_witness :
  exists c rep w, control Acd_General.KNX_Acd_General = Some c /\ report Acd_General.KNX_Acd_General = Some rep /\
  0 <= w < 65536 /\ (DTemp 16 32 = DBool -> w < 64) /\
  (forall o p, dpvalue o = 26 -> k_localPoint p = ACD_TEMP -> c (Some o) (Some p) = Done (0, Some (put_value w p))) /\
  (forall p o, k_localPoint p = ACD_TEMP_STATUS -> k_value p = w -> dpvalue o = w \/ dpvalue o = 0 ->
     rep (Some p) (Some o) = Done (0, Some (Dp (dpid o) PROP_VALUE 26 (time_stamp o)))).
Proof.
  refine (knx_plugins_echo Acd_General.KNX_Acd_General (acd_rows 4 4)
    (Row ACD_TEMP ACD_TEMP_STATUS PROP_VALUE (DTemp 16 32)) _ _ 26 _).
  - left. reflexivity.
  - right. left. reflexivity.
  - split; discriminate.
Defined.

(** A room temperature below zero is reported as one above: for each of the
    nine plugins with a room temperature and every whole degree from -50 to -1
    the code [w] of the bus standard is reported as [t] plus 20 degrees or a
    doubling of 20.48, never as [t]. *)
Theorem knx_env_temp_sign_lost i st t :
  In (i, st) env_points -> -50 <= t < 0 ->
  exists rep w r, report i = Some rep /\ 0 <= w < 65536 /\ dpt9_centi w = 100 * t /\ t < 0 <= r /\
  r = t + 2048 * 2 ^ Z.shiftr (Z.land w 0x7800) 11 / 100 /\
  forall p o, k_localPoint p = st -> k_value p = w ->
    rep (Some p) (Some o) = Done (0, Some (put_type PROP_VALUE (put_dp_value r o))).
Proof.
  intros Hi Ht.
  destruct (decode_negative t Ht) as (w & He & Hw & Hd & Hr).
  destruct (encode_right t ltac:(lia)) as (w' & He' & _ & Hc). rewrite He in He'. injection He' as <-.
  assert (report i <> None /\ forall rep p o, report i = Some rep -> k_localPoint p = st ->
    rep (Some p) (Some o) = (r <-! report_temp p o; Done (0, Some r))) as [Hs Hrep].
  { cbn [env_points In] in Hi.
    repeat destruct Hi as [Hi|Hi]; [injection Hi as <- <-..|done];
      (split; [done|]; intros rep p o [= <-] Hp; unfold plugin_if, checked; cbn;
       match goal with |- obind (?f p o) _ = _ => unfold f end; cbv zeta; rewrite Hp; reflexivity). }
  destruct (report i) as [rep|] eqn:E; [|done].
  exists rep, w, (t + 2048 * 2 ^ Z.shiftr (Z.land w 0x7800) 11 / 100).
  split_and!; try done; try lia.
  intros p o Hp Hk. rewrite (Hrep rep) by done. unfold report_temp. rewrite Hk.
  unfold decode in Hd. rewrite Hd. reflexivity.
Qed.

Lemma knx_env_temp_sign_lost_witness :
  exists rep w r, report Acd_General.KNX_Acd_General = Some rep /\ 0 <= w < 65536 /\
  dpt9_centi w = 100 * -5 /\ -5 < 0 <= r /\
  r = -5 + 2048 * 2 ^ Z.shiftr (Z.land w 0x7800) 11 / 100 /\
  forall p o, k_localPoint p = ACD_ENV_TEMP -> k_value p = w ->
    rep (Some p) (Some o) = Done (0, Some (put_type PROP_VALUE (put_dp_value r o))).
Proof.
  apply (knx_env_temp_sign_lost Acd_General.KNX_Acd_General ACD_ENV_TEMP (-5)).
  - left. reflexivity.
  - split; [discriminate|reflexivity].
Defined.
