(* ===== verification/KnxAddr.v ===== *)
(** KNX addresses (readgaddr ... Knx_CompareGroup of source/knxHandle.c). *)

From Stdlib Require Import Ascii.
From S2P Require Import Prelude CMem CStr Dpt9.

Local Open Scope string_scope.
Local Open Scope Z_scope.

(** ** Addresses

    [eibaddr_t] is a [uint16_t]: the result -1 is 65535. *)

Definition slash : directive := Lit "/"%char.
Definition dot : directive := Lit "."%char.

(** The bit fields do not overlap, so [|] on them is [Z.lor]. *)
Definition readgaddr (addr : string) : Z :=
  let '(res, v) := sscanf addr [Num CU NOWIDTH; slash; Num CU NOWIDTH; slash; Num CU NOWIDTH] in
  let hex :=
    let '(res, v) := sscanf addr [Num CX NOWIDTH] in
    match v with
    | [a] => if (res =? 1) && (a <=? 0xFFFF) then a else u16 (-1)
    | _ => u16 (-1)
    end in
  match v with
  | [a; b; c] =>
      if (res =? 3) && (a <=? 0x1F) && (b <=? 0x07) && (c <=? 0xFF)
      then u16 (Z.lor (Z.lor (Z.shiftl a 11) (Z.shiftl b 8)) c) else hex
  | [a; b] =>
      if (res =? 2) && (a <=? 0x1F) && (b <=? 0x7FF)
      then u16 (Z.lor (Z.shiftl a 11) (Z.land b 0x7FF)) else hex
  | _ => hex
  end.

(** The bytes of a value: one when the high byte is zero. *)
Definition readBlock (value : Z) : list Z :=
  if negb (value / 256 =? 0) then [value / 256; value mod 256] else [value mod 256].

(** [None]: a null pointer. *)
Definition isKnxGroupAddr (pBuf : option string) : Z :=
  match pBuf with
  | None => -1
  | Some s =>
      let '(ret, v) := sscanf s [Num CD 2; slash; Num CD 1; slash; Num CD 3] in
      if negb (ret =? 3) then ret else
      match v with
      | [prime; middle; sub] =>
          if (31 <? prime) || (7 <? middle) || (255 <? sub) then -1 else 0
      | _ => 0
      end
  end.

Definition KnxHwAddr (pBuf : option string) : Z :=
  match pBuf with
  | None => u16 (-1)
  | Some s =>
      let '(ret, v) := sscanf s [Num CD 2; dot; Num CD 2; dot; Num CD 3] in
      match v with
      | [prime; middle; sub] =>
          if negb (ret =? 3) then u16 (-1)
          else if (15 <? prime) || (15 <? middle) || (255 <? sub) then u16 (-1)
          else u16 (u16 (u16 (Z.shiftl prime 12) + Z.shiftl middle 8) + sub)
      | _ => u16 (-1)
      end
  end.

Definition Knx_ComparePhy (pPhyA pPhyB : option string) : Z :=
  match pPhyA, pPhyB with
  | Some a, Some b => if negb (KnxHwAddr (Some a) =? KnxHwAddr (Some b)) then -1 else 0
  | _, _ => -1
  end.

Definition Knx_CompareGroup (pGrpA pGrpB : option string) : Z :=
  match pGrpA, pGrpB with
  | Some a, Some b => if negb (readgaddr a =? readgaddr b) then -1 else 0
  | _, _ => -1
  end.

(** ** Facts *)

(** The decimal numeral of a number below 1000. *)
Definition digit (d : Z) : string := String (Ascii.ascii_of_nat (Z.to_nat (48 + d))) EmptyString.
Definition dec (n : Z) : string :=
  if n <? 10 then digit n
  else if n <? 100 then digit (n / 10) +:+ digit (n mod 10)
  else digit (n / 100) +:+ digit (n / 10 mod 10) +:+ digit (n mod 10).

Definition group_text (a b c : Z) : string := dec a +:+ "/" +:+ dec b +:+ "/" +:+ dec c.
Definition hw_text (a b c : Z) : string := dec a +:+ "." +:+ dec b +:+ "." +:+ dec c.

(** Two hexadecimal digits. *)
Definition hex_digit (d : Z) : string :=
  String (Ascii.ascii_of_nat (Z.to_nat (if d <? 10 then 48 + d else 55 + d))) EmptyString.
Definition hex2 (n : Z) : string := hex_digit (n / 16) +:+ hex_digit (n mod 16).

(** The numeral [p] of [n] is read back, with any of the conversions of the code
    that are wide enough, up to the separator or the end. *)
Definition scans (c : conversion) (w : nat) (p : Z -> string) (t : string) (n : Z) : Prop :=
  forall fmt acc, scan (Num c w :: fmt) (p n +:+ t) acc = scan fmt t (acc ++ [n])%list.

Definition token (c : conversion) (w : nat) (s : string) : option (Z * string) :=
  match skip_spaces s with EmptyString => None | s => scan_int c w s end.

Lemma scans_token c w p t n : token c w (p n +:+ t) = Some (n, t) -> scans c w p t n.
Proof.
  unfold token, scans. intros H fmt acc. cbn [scan].
  destruct (skip_spaces _); [done|]. by rewrite H.
Qed.

Lemma scans_range c w p t lo hi :
  map (fun n => token c w (p n +:+ t)) (range lo hi) = map (fun n => Some (n, t)) (range lo hi) ->
  forall n, lo <= n <= hi -> scans c w p t n.
Proof.
  intros H n Hn. apply scans_token.
  assert (In n (range lo hi)) as Hi by (apply list_elem_of_In, elem_of_seqZ; lia).
  induction (range lo hi) as [|m l IH]; [done|]. cbn [map] in H. injection H as Hm Hl.
  destruct Hi as [<-|Hi]; [done|by apply IH].
Qed.

Ltac scan_range := intros; eapply scans_range; [|eassumption]; vm_compute; reflexivity.

Lemma scan_u_slash n r : 0 <= n <= 255 -> scans CU NOWIDTH dec (String "/" r) n.
Proof. scan_range. Qed.
Lemma scan_u_end n : 0 <= n <= 255 -> scans CU NOWIDTH dec "" n.
Proof. scan_range. Qed.
Lemma scan_d2_slash n r : 0 <= n <= 99 -> scans CD 2 dec (String "/" r) n.
Proof. scan_range. Qed.
Lemma scan_d1_slash n r : 0 <= n <= 9 -> scans CD 1 dec (String "/" r) n.
Proof. scan_range. Qed.
Lemma scan_d2_dot n r : 0 <= n <= 99 -> scans CD 2 dec (String "." r) n.
Proof. scan_range. Qed.
Lemma scan_d3_end n : 0 <= n <= 255 -> scans CD 3 dec "" n.
Proof. scan_range. Qed.
Lemma scan_x2 n t : 0 <= n <= 255 -> scans CX 2 hex2 t n.
Proof. scan_range. Qed.

Lemma lor_shl h l n : 0 <= n -> 0 <= l < 2 ^ n -> Z.lor (Z.shiftl h n) l = h * 2 ^ n + l.
Proof.
  intros Hn Hl.
  assert (Z.land (Z.shiftl h n) l = 0) as H0.
  { apply Z.bits_inj'. intros i Hi. rewrite Z.land_spec, Z.bits_0.
    destruct (decide (i < n)); [by rewrite Z.shiftl_spec_low|].
    replace (Z.testbit l i) with false; [apply andb_false_r|].
    symmetry. destruct (decide (l = 0)) as [->|]; [apply Z.bits_0|].
    apply Z.bits_above_log2; [lia|]. apply Z.lt_le_trans with n; [apply Z.log2_lt_pow2; lia|lia]. }
  by rewrite <- Z.add_nocarry_lor, Z.shiftl_mul_pow2.
Qed.

(** The number of a group address with three levels. *)
Definition group_number (a b c : Z) : Z := a * 2048 + b * 256 + c.

Lemma group_bits a b c :
  0 <= a <= 31 -> 0 <= b <= 7 -> 0 <= c <= 255 ->
  Z.lor (Z.lor (Z.shiftl a 11) (Z.shiftl b 8)) c = group_number a b c.
Proof.
  intros Ha Hb Hc. unfold group_number.
  replace (Z.shiftl a 11) with (Z.shiftl (Z.shiftl a 3) 8) by (by rewrite Z.shiftl_shiftl).
  rewrite <- Z.shiftl_lor, lor_shl, lor_shl by lia. lia.
Qed.

Lemma scan_lit a fmt r acc : scan (Lit a :: fmt) (String a r) acc = scan fmt r acc.
Proof. cbn [scan]. by rewrite Ascii.eqb_refl. Qed.

Lemma one_char_app a s : String a "" +:+ s = String a s.
Proof. done. Qed.

(** sscanf of a printed address, one numeral after the other. *)
Ltac scan_text :=
  unfold sscanf, group_text, hw_text, slash, dot;
  rewrite !one_char_app;
  match goal with |- context [dec ?b +:+ String ?s (dec ?c)] => rewrite <- (string_app_nil (dec c)) end;
  repeat first [ rewrite scan_u_slash by lia | rewrite scan_d2_slash by lia | rewrite scan_d1_slash by lia
               | rewrite scan_d2_dot by lia | rewrite scan_u_end by lia | rewrite scan_d3_end by lia
               | rewrite scan_lit ];
  reflexivity.

Lemma scan_group_u a b c :
  0 <= a <= 31 -> 0 <= b <= 7 -> 0 <= c <= 255 ->
  sscanf (group_text a b c) [Num CU NOWIDTH; slash; Num CU NOWIDTH; slash; Num CU NOWIDTH] = (3, [a; b; c]).
Proof. intros. scan_text. Qed.

Lemma scan_group_d a b c :
  0 <= a <= 31 -> 0 <= b <= 7 -> 0 <= c <= 255 ->
  sscanf (group_text a b c) [Num CD 2; slash; Num CD 1; slash; Num CD 3] = (3, [a; b; c]).
Proof. intros. scan_text. Qed.

Lemma scan_hw a b c :
  0 <= a <= 15 -> 0 <= b <= 15 -> 0 <= c <= 255 ->
  sscanf (hw_text a b c) [Num CD 2; dot; Num CD 2; dot; Num CD 3] = (3, [a; b; c]).
Proof. intros. scan_text. Qed.

Lemma readgaddr_text a b c :
  0 <= a <= 31 -> 0 <= b <= 7 -> 0 <= c <= 255 -> readgaddr (group_text a b c) = group_number a b c.
Proof.
  intros Ha Hb Hc. unfold readgaddr. rewrite scan_group_u by done. cbv beta iota zeta.
  rewrite !(proj2 (Z.leb_le _ _)) by lia. cbn [andb Z.eqb Pos.eqb].
  rewrite group_bits by done. apply u16_small. unfold group_number. lia.
Qed.

Lemma isKnxGroupAddr_text a b c :
  0 <= a <= 31 -> 0 <= b <= 7 -> 0 <= c <= 255 -> isKnxGroupAddr (Some (group_text a b c)) = 0.
Proof.
  intros Ha Hb Hc. unfold isKnxGroupAddr. rewrite scan_group_d by done. cbv beta iota zeta.
  by rewrite !(proj2 (Z.ltb_ge _ _)) by lia.
Qed.

Definition hw_number (a b c : Z) : Z := a * 4096 + b * 256 + c.

Lemma KnxHwAddr_text a b c :
  0 <= a <= 15 -> 0 <= b <= 15 -> 0 <= c <= 255 -> KnxHwAddr (Some (hw_text a b c)) = hw_number a b c.
Proof.
  intros Ha Hb Hc. unfold KnxHwAddr, hw_number. rewrite scan_hw by done. cbv beta iota zeta.
  rewrite !(proj2 (Z.ltb_ge _ _)) by lia. cbn [orb negb Z.eqb Pos.eqb].
  rewrite !Z.shiftl_mul_pow2 by lia.
  by rewrite (u16_small (a * 2 ^ 12)), (u16_small (_ + b * 2 ^ 8)), u16_small by lia.
Qed.

(** Every number is one of 16 bits. *)
Lemma scan_digits_nonneg c w s v n : 0 <= v -> 0 <= (scan_digits c w s v n).1.1.
Proof.
  revert s v n. induction w as [|w IH]; intros [|a s] v n Hv; cbn [scan_digits]; try done.
  destruct (digit_in c a) as [d|] eqn:Hd; [|done]. apply IH.
  assert (0 <= d) by (destruct c; cbn in Hd; unfold hex_of, digit_of in Hd; cbv zeta in Hd; repeat case_match; simplify_eq; bprop; lia).
  destruct c; cbn; lia.
Qed.

Lemma scan_x_nonneg w s v r : scan_int CX w s = Some (v, r) -> 0 <= v.
Proof.
  unfold scan_int. repeat case_match; intros [= <- <-];
    (unfold int_value; match goal with E : scan_digits ?c ?w ?s ?v ?n = _ |- _ =>
       pose proof (scan_digits_nonneg c w s v n ltac:(lia)) as Hn; rewrite E in Hn; cbn in Hn end;
     pose proof (u32_range (- z)); unfold u32 in *; repeat case_match; bprop; lia).
Qed.

Lemma readgaddr_range addr : 0 <= readgaddr addr < 65536.
Proof.
  assert (forall z, 0 <= u16 z < 65536) as Hu by (intros; apply u16_range).
  assert (0 <= (let '(res, v) := sscanf addr [Num CX NOWIDTH] in
    match v with
    | [a] => if (res =? 1) && (a <=? 0xFFFF) then a else u16 (-1)
    | _ => u16 (-1)
    end) < 65536) as Hh.
  { unfold sscanf. cbn [scan]. destruct (skip_spaces addr) as [|a s]; [apply Hu|].
    destruct (scan_int CX NOWIDTH (String a s)) as [[x r]|] eqn:E; [|apply Hu].
    apply scan_x_nonneg in E. cbn. change (Z.of_nat 1 =? 1) with true. destruct (x <=? 65535) eqn:El; cbn [andb]; bprop; [lia|apply Hu]. }
  unfold readgaddr. cbv zeta. revert Hh. generalize (sscanf addr [Num CX NOWIDTH]). intros q Hh.
  destruct (sscanf addr _) as [res v].
  destruct v as [|a [|b [|c [|]]]]; try exact Hh;
    match goal with |- context [if ?b then u16 (Z.lor _ _) else _] => destruct b end; first [apply Hu|exact Hh].
Qed.

(** ** Properties of the addresses *)

(** C25: addresses and their numbers.  A printed group address is accepted and
    read back as its 16-bit number, a printed physical address as its own; two
    printed addresses compare equal exactly when they are the same. *)
Theorem knx_addresses a b c a' b' c' :
  0 <= a <= 31 -> 0 <= b <= 7 -> 0 <= c <= 255 -> 0 <= a' <= 31 -> 0 <= b' <= 7 -> 0 <= c' <= 255 ->
  isKnxGroupAddr (Some (group_text a b c)) = 0 /\
  readgaddr (group_text a b c) = group_number a b c /\ 0 <= group_number a b c < 65536 /\
  (Knx_CompareGroup (Some (group_text a b c)) (Some (group_text a' b' c')) = 0 <-> (a, b, c) = (a', b', c')) /\
  (a <= 15 -> KnxHwAddr (Some (hw_text a b c)) = hw_number a b c /\ 0 <= hw_number a b c < 65536 /\
   (a' <= 15 -> Knx_ComparePhy (Some (hw_text a b c)) (Some (hw_text a' b' c')) = 0 <-> (a, b, c) = (a', b', c'))).
Proof.
  intros Ha Hb Hc Ha' Hb' Hc'. split_and!.
  - by apply isKnxGroupAddr_text.
  - by apply readgaddr_text.
  - unfold group_number. lia.
  - unfold group_number. lia.
  - unfold Knx_CompareGroup. rewrite !readgaddr_text by done. unfold group_number.
    destruct (_ =? _) eqn:E; cbn; bprop; split; intros H; try done; [|congruence].
    assert (a = a') by lia. assert (b = b') by lia. assert (c = c') by lia. by subst.
  - intros Ha15. rewrite KnxHwAddr_text by lia. split; [done|]. split; [unfold hw_number; lia|].
    intros Ha15'. unfold Knx_ComparePhy. rewrite !KnxHwAddr_text by lia. unfold hw_number.
    destruct (_ =? _) eqn:E; cbn; bprop; split; intros H; try done; [|congruence].
    assert (a = a') by lia. assert (b = b') by lia. assert (c = c') by lia. by subst.
Qed.

Lemma knx_addresses_witness :
  isKnxGroupAddr (Some (group_text 1 2 3)) = 0 /\ readgaddr (group_text 1 2 3) = 2563.
Proof.
  assert (0 <= 1 <= 31 /\ 0 <= 2 <= 7 /\ 0 <= 3 <= 255) as (H1 & H2 & H3) by (repeat split; discriminate).
  destruct (knx_addresses 1 2 3 1 2 3 H1 H2 H3 H1 H2 H3) as (H & H' & _). split; [exact H|exact H'].
Defined.

(** isKnxGroupAddr returns the number of fields it could read, and its
    callers take 0 for a valid address: a text that begins with anything but a
    blank, a digit or a sign is accepted, although readgaddr gives no group
    address for it unless it is a hexadecimal number. *)
Theorem words_pass_for_addresses a s :
  is_space a = false -> digit_of a = None -> Ascii.nat_of_ascii a <> 45%nat -> Ascii.nat_of_ascii a <> 43%nat ->
  isKnxGroupAddr (Some (String a s)) = 0 /\
  (hex_of a = None -> readgaddr (String a s) = 65535).
Proof.
  intros Hs Hd Hm Hp.
  assert (forall c w, c <> CX -> scan_int c w (String a s) = None) as Hn.
  { intros c w Hc. unfold scan_int. destruct w as [|w]; [destruct c; done|].
    rewrite (proj2 (Nat.eqb_neq _ _) Hm), (proj2 (Nat.eqb_neq _ _) Hp).
    destruct c; [|done|]; cbn [scan_digits digit_in]; rewrite Hd; reflexivity. }
  split.
  - unfold isKnxGroupAddr, sscanf. cbn [scan]. cbn [skip_spaces]. rewrite Hs.
    rewrite Hn by done. reflexivity.
  - intros Hx. unfold readgaddr, sscanf. cbn [scan skip_spaces]. rewrite Hs. rewrite Hn by done.
    assert (scan_int CX NOWIDTH (String a s) = None) as ->; [|reflexivity].
    unfold scan_int. change NOWIDTH with (S (Z.to_nat 999)).
    rewrite (proj2 (Nat.eqb_neq _ _) Hm), (proj2 (Nat.eqb_neq _ _) Hp).
    assert ((Ascii.nat_of_ascii a =? 48)%nat = false) as H48.
    { apply Nat.eqb_neq. intros E. unfold digit_of in Hd. by rewrite E in Hd. }
    rewrite H48. cbn [andb].
    destruct s as [|b s]; [|change (Z.to_nat 999) with (S (Z.to_nat 998))];
      cbn [scan_digits digit_in]; rewrite Hx; reflexivity.
Qed.

Lemma words_pass_for_addresses_witness :
  isKnxGroupAddr (Some "switch") = 0 /\ readgaddr "switch" = 65535.
Proof.
  destruct (words_pass_for_addresses "s"%char "witch" eq_refl eq_refl ltac:(discriminate) ltac:(discriminate)) as [H H'].
  split; [exact H|exact (H' eq_refl)].
Defined.
