(* ===== verification/KnxPacket.v ===== *)
(** Telegrams of the bus monitor (KNX_FakePacket, KNX_ParsePacket of
    source/knxHandle.c). *)

From Stdlib Require Import Ascii.
From S2P Require Import Prelude CStr Dpt9 KnxAddr.

Local Open Scope string_scope.
Local Open Scope Z_scope.

(** ** Telegrams

    [EIB_ADDR + PREFIX_SIZE] is 10: an array for an address holds at most nine
    characters and the terminating zero. *)

Definition ADDR_SIZE : nat := 10.

Record KnxDataType_t := KnxData {
  hwAddr : string;
  groupAddr : string;
  phy : Z;
  bRejected : bool;
  kd_value : Z;
  cmd : string;
  kd_timestamp : Z
}.

(** A block [calloc] has just returned. *)
Definition KnxData0 : KnxDataType_t := KnxData "" "" 0 false 0 "" 0.

Definition set_hwAddr s d := KnxData s (groupAddr d) (phy d) (bRejected d) (kd_value d) (cmd d) (kd_timestamp d).
Definition set_groupAddr s d := KnxData (hwAddr d) s (phy d) (bRejected d) (kd_value d) (cmd d) (kd_timestamp d).
Definition set_phy v d := KnxData (hwAddr d) (groupAddr d) v (bRejected d) (kd_value d) (cmd d) (kd_timestamp d).
Definition set_kvalue v d := KnxData (hwAddr d) (groupAddr d) (phy d) (bRejected d) (u16 v) (cmd d) (kd_timestamp d).
Definition set_cmd s d := KnxData (hwAddr d) (groupAddr d) (phy d) (bRejected d) (kd_value d) s (kd_timestamp d).
Definition set_ktime t d := KnxData (hwAddr d) (groupAddr d) (phy d) (bRejected d) (kd_value d) (cmd d) t.

(** [memcpy(arr, pBuf + from, to - from)] into an array that is zero after the
    string it holds.  A negative length is a huge [size_t]; ten bytes or more
    leave no terminating zero. *)
Definition memcpy_addr (old pBuf : string) (from to : nat) : outcome string :=
  if (to <? from)%nat then Undef
  else if (ADDR_SIZE <=? to - from)%nat then Undef
  else Done (take_string (to - from) (drop_string from pBuf) +:+ drop_string (to - from) old).

Definition KNX_HW_ADDRESS_MIN : Z := 0x1001.
Definition KNX_HW_ADDRESS_MAX : Z := 0x1008.

(** [sscanf(p, "%02x")] and [sscanf(p, "%02x %02x")]: the value stored, [None]
    when the code reports a parse error. *)
Definition value_small (p : string) : option Z :=
  match sscanf p [Num CX 2] with (_, [l]) => Some l | _ => None end.
Definition value_large (p : string) : option Z :=
  match sscanf p [Num CX 2; Blank; Num CX 2] with
  | (_, [h; l]) => Some (u32 (h * 256 + l))
  | (_, [h]) => Some h
  | _ => None
  end.

(** One keyword with its value: [None] when it is absent. *)
Definition keyword (pBuf key : string) (value : string -> option Z) (c : string) (d : KnxDataType_t) :
    option (option KnxDataType_t) :=
  match strstr pBuf key with
  | None => None
  | Some n =>
      match value (drop_string (n + String.length key) pBuf) with
      | Some v => Some (Some (set_cmd c (set_kvalue v d)))
      | None => Some None
      end
  end.

(** The small keyword, else the long one, else nothing. *)
Definition keywords (pBuf key_small key_large c : string) (d : KnxDataType_t) : option KnxDataType_t :=
  match keyword pBuf key_small value_small c d with
  | Some r => r
  | None =>
      match keyword pBuf key_large value_large c d with
      | Some r => r
      | None => Some d
      end
  end.

(** The result and the structure afterwards. *)
Definition KNX_ParsePacket (pBuf : option string) (d : KnxDataType_t) : outcome (Z * KnxDataType_t) :=
  match pBuf with
  | None => Done (-1, d)
  | Some pBuf =>
      let d := set_cmd "" d in
      match strstr pBuf "from ", strstr pBuf " to ", strstr pBuf " hops" with
      | Some ret1, Some ret2, Some ret3 =>
          hw <-! memcpy_addr (hwAddr d) pBuf (ret1 + 5) ret2;
          let d := set_hwAddr hw d in
          grp <-! memcpy_addr (groupAddr d) pBuf (ret2 + 4) ret3;
          let d := set_groupAddr grp d in
          match keywords pBuf "A_GroupValue_Write (small) " "A_GroupValue_Write " "Write" d with
          | None => Done (-1, d)
          | Some d =>
              if strstr pBuf "A_GroupValue_Read" is Some _ then Done (-2, set_cmd "Read" d)
              else if strstr pBuf "repeated" is Some _ then Done (-3, set_cmd "Repeated" d)
              else
                match keywords pBuf "A_GroupValue_Response (small) " "A_GroupValue_Response " "Response" d with
                | None => Done (-1, d)
                | Some d =>
                    let d := set_phy (KnxHwAddr (Some (hwAddr d))) d in
                    if (KNX_HW_ADDRESS_MIN <=? phy d) && (phy d <=? KNX_HW_ADDRESS_MAX) then Done (-4, d)
                    else Done (0, d)
                end
          end
      | _, _, _ => Undef
      end
  end.

(** A telegram made up by the gateway: [None] when the value does not parse. *)
Definition KNX_FakePacket_data (pGrp pValue : string) : option KnxDataType_t :=
  let d := set_groupAddr (take_string 8 pGrp) KnxData0 in
  match value_large pValue with
  | Some v => Some (set_cmd "Write" (set_kvalue v d))
  | None => None
  end.

(** ** When the parser stays inside its arrays *)


(** ** What a telegram says *)

(** The text of a telegram: physical address [a.b.c], group address [x/y/z], and
    the service with its value. *)
Inductive service :=
| WriteSmall (v : Z) | Write1 (v : Z) | Write (h l : Z)
| ResponseSmall (v : Z) | Response1 (v : Z) | Response (h l : Z) | Read.

Definition service_name (sv : service) : string :=
  match sv with
  | WriteSmall _ => "A_GroupValue_Write (small) "
  | Write1 _ | Write _ _ => "A_GroupValue_Write "
  | ResponseSmall _ => "A_GroupValue_Response (small) "
  | Response1 _ | Response _ _ => "A_GroupValue_Response "
  | Read => "A_GroupValue_Read"
  end.
Definition service_value (sv : service) : string :=
  match sv with
  | WriteSmall v | ResponseSmall v | Write1 v | Response1 v => hex2 v
  | Write h l | Response h l => hex2 h +:+ " " +:+ hex2 l
  | Read => ""
  end.
Definition service_ok (sv : service) : Prop :=
  match sv with
  | WriteSmall v | ResponseSmall v | Write1 v | Response1 v => is_u8 v
  | Write h l | Response h l => is_u8 h /\ is_u8 l
  | Read => True
  end.

Definition telegram (a b c x y z : Z) (sv : service) : string :=
  "L_Data low from " +:+ hw_text a b c +:+ " to " +:+ group_text x y z +:+
  (" hops: 06 T_Data_Group " +:+ service_name sv) +:+ service_value sv.

Definition reads (sv : service) : Z :=
  match sv with
  | WriteSmall v | ResponseSmall v | Write1 v | Response1 v => v
  | Write h l | Response h l => h * 256 + l
  | Read => 0
  end.
Definition service_cmd (sv : service) : string :=
  match sv with
  | WriteSmall _ | Write1 _ | Write _ _ => "Write"
  | ResponseSmall _ | Response1 _ | Response _ _ => "Response"
  | Read => "Read"
  end.

(** The keywords of the parser share no character with an address, and only
    their first can be one of a hexadecimal numeral. *)
Definition keys : list string :=
  ["from "; " to "; " hops"; "A_GroupValue_Write (small) "; "A_GroupValue_Write "; "A_GroupValue_Read"; "repeated";
   "A_GroupValue_Response (small) "; "A_GroupValue_Response "].

Definition plain_text (u : string) : Prop := u <> "" /\ forallb (disjoint_chars u) keys = true.

Lemma plain_app u v : plain_text u -> plain_text v -> plain_text (u +:+ v).
Proof.
  intros [Hu Hu'] [Hv Hv']. split; [by destruct u|]. clear Hu Hv.
  rewrite forallb_forall in Hu', Hv' |- *. intros k Hk. specialize (Hu' k Hk). specialize (Hv' k Hk).
  induction u as [|d u IH]; [done|]. rewrite app_cons. cbn in Hu' |- *.
  apply andb_true_iff in Hu' as [-> Hu']. by apply IH.
Qed.

Lemma plain_dec n : 0 <= n <= 255 -> plain_text (dec n).
Proof.
  intros Hn.
  pose proof (range_all (fun n => negb (String.eqb (dec n) "") && forallb (disjoint_chars (dec n)) keys) 0 255) as H.
  specialize (H ltac:(by vm_compute) n Hn). apply andb_true_iff in H as [H1 H2]. split; [|done].
  intros E. by rewrite E in H1.
Qed.

Lemma plain_hw a b c : 0 <= a <= 15 -> 0 <= b <= 15 -> 0 <= c <= 255 -> plain_text (hw_text a b c).
Proof. intros. unfold hw_text. repeat apply plain_app; try (apply plain_dec; lia); by split. Qed.
Lemma plain_group a b c : 0 <= a <= 31 -> 0 <= b <= 7 -> 0 <= c <= 255 -> plain_text (group_text a b c).
Proof. intros. unfold group_text. repeat apply plain_app; try (apply plain_dec; lia); by split. Qed.

(** The value of a service: a first character that occurs in no keyword but as
    its first, and too short to hold a keyword. *)
Definition only_first (d : ascii) (key : string) : bool :=
  match key with String _ key => negb (has_char d key) | EmptyString => false end.
Lemma hex2_first n : 0 <= n <= 255 ->
  exists d e, hex2 n = String d (String e "") /\ forallb (only_first d) keys = true /\
    is_space d = false.
Proof.
  intros Hn.
  pose proof (range_all (fun n => match hex2 n with
     | String d (String e "") => forallb (only_first d) keys && negb (is_space d) | _ => false end) 0 255) as H.
  specialize (H ltac:(by vm_compute) n Hn). cbv beta in H.
  destruct (hex2 n) as [|d [|e [|]]]; try done. apply andb_true_iff in H as [H1 H2].
  exists d, e. split; [done|]. split; [done|]. by apply negb_true_iff.
Qed.

(** ** Searching a telegram *)

Section Telegram.
Variables (a b c x y z : Z) (sv : service).
Hypotheses (Ha : 0 <= a <= 15) (Hb : 0 <= b <= 15) (Hc : 0 <= c <= 255).
Hypotheses (Hx : 0 <= x <= 31) (Hy : 0 <= y <= 7) (Hz : 0 <= z <= 255).
Hypothesis Hsv : service_ok sv.

Let hw := hw_text a b c.
Let grp := group_text x y z.
Let tail := service_value sv.
Let text3 := " hops: 06 T_Data_Group " +:+ service_name sv.

Lemma find_around w u t k :
  In k keys -> plain_text u ->
  strstr (w +:+ u +:+ t) k =
  match strstr w k with
  | Some n => Some n
  | None => match strstr t k with Some n => Some (String.length w + (String.length u + n))%nat | None => None end
  end.
Proof.
  intros Hk [Hu H]. rewrite forallb_forall in H. specialize (H k Hk).
  destruct k as [|k0 k]; [|by apply strstr_around].
  cbn in Hk. intuition discriminate.
Qed.

Lemma find_from : strstr (telegram a b c x y z sv) "from " = Some 11%nat.
Proof. unfold telegram; fold text3 tail. rewrite find_around; [done|by left|by apply plain_hw]. Qed.

Lemma find_to : strstr (telegram a b c x y z sv) " to " = Some (16 + String.length hw)%nat.
Proof.
  unfold telegram; fold text3 tail. rewrite find_around; [|by right; left|by apply plain_hw].
  change (strstr "L_Data low from " " to ") with (@None nat). cbv iota.
  rewrite find_around; [|by right; left|by apply plain_group].
  change (strstr " to " " to ") with (Some 0%nat). cbv iota. unfold hw. f_equal. cbn [String.length]. lia.
Qed.

Lemma find_hops : strstr (telegram a b c x y z sv) " hops" = Some (20 + String.length hw + String.length grp)%nat.
Proof.
  unfold telegram; fold text3 tail. rewrite find_around; [|by do 2 right; left|by apply plain_hw].
  change (strstr "L_Data low from " " hops") with (@None nat). cbv iota.
  rewrite find_around; [|by do 2 right; left|by apply plain_group].
  change (strstr " to " " hops") with (@None nat). cbv iota.
  assert (strstr (text3 +:+ tail) " hops" = Some 0%nat) as ->.
  { unfold text3. rewrite string_app_assoc. reflexivity. }
  unfold hw, grp. f_equal. cbn [String.length]. lia.
Qed.

Lemma tail_first k :
  In k (drop 3 keys) -> strstr (text3 +:+ tail) k = strstr text3 k.
Proof.
  intros Hk. assert (In k keys) as Hk' by (by do 3 right).
  assert (5 < String.length k)%nat as Hlen by (cbn in Hk; intuition (subst; cbn; lia)).
  assert (forall n e, 0 <= n <= 255 -> (String.length e <= 3)%nat -> strstr (text3 +:+ (hex2 n +:+ e)) k = strstr text3 k) as H.
  { intros n e Hn He. destruct (hex2_first n Hn) as (d & e' & -> & Hd & _).
    rewrite forallb_forall in Hd. specialize (Hd k Hk').
    destruct k as [|k0 k]; [done|]. apply negb_true_iff in Hd.
    rewrite app_cons. apply strstr_tail; [done|]. apply strstr_short.
    rewrite app_cons. change ("" +:+ e) with e. cbn [String.length] in Hlen |- *. lia. }
  unfold tail, service_value. destruct sv as [v|v|h l|v|v|h l|]; cbn in Hsv; unfold is_u8 in Hsv.
  all: try (rewrite <- (string_app_nil (hex2 v)); apply H; [lia|cbn; lia]).
  1,2: destruct Hsv; destruct (hex2_first l ltac:(lia)) as (d & e & -> & _); apply H;
    [lia|rewrite string_length_app; cbn; lia].
  by rewrite string_app_nil.
Qed.

Lemma find_late k :
  In k (drop 3 keys) ->
  strstr (telegram a b c x y z sv) k =
  match strstr text3 k with Some n => Some (20 + String.length hw + String.length grp + n)%nat | None => None end.
Proof.
  intros Hk. assert (In k keys) as Hk' by (by do 3 right).
  unfold telegram; fold text3 tail. rewrite find_around; [|done|by apply plain_hw].
  rewrite find_around; [|done|by apply plain_group].
  rewrite (tail_first k Hk).
  assert (strstr "L_Data low from " k = None /\ strstr " to " k = None) as [-> ->].
  { cbn in Hk. intuition (subst; done). }
  destruct (strstr text3 k); [|done]. unfold hw, grp. f_equal. cbn [String.length]. lia.
Qed.

(** What follows a keyword of the last part. *)
Lemma text_after n :
  (n = String.length text3)%nat ->
  drop_string (20 + String.length hw + String.length grp + n) (telegram a b c x y z sv) = tail.
Proof.
  intros ->. unfold telegram.
  replace (20 + String.length hw + String.length grp + String.length text3)%nat
    with (String.length "L_Data low from " + (String.length hw + (String.length " to " + (String.length grp + (String.length text3 + 0)))))%nat
    by (cbn [String.length]; lia).
  by rewrite !drop_string_chunk.
Qed.

Lemma hw_short : (String.length hw <= 9)%nat.
Proof.
  unfold hw, hw_text. rewrite !string_length_app. cbn [String.length].
  assert (forall n, 0 <= n <= 255 -> (String.length (dec n) <= if decide (n <= 15)%Z then 2 else 3)%nat) as H.
  { intros n Hn. pose proof (range_all (fun n => (String.length (dec n) <=? if decide (n <= 15)%Z then 2 else 3)%nat) 0 255) as H.
    specialize (H ltac:(by vm_compute) n Hn). by apply Nat.leb_le. }
  pose proof (H a ltac:(lia)) as H1. pose proof (H b ltac:(lia)) as H2. pose proof (H c ltac:(lia)) as H3.
  rewrite decide_True in H1 by lia. rewrite decide_True in H2 by lia. case_decide; lia.
Qed.

Lemma grp_short : (String.length grp <= 8)%nat.
Proof.
  unfold grp, group_text. rewrite !string_length_app. cbn [String.length].
  assert (forall n, 0 <= n <= 255 -> (String.length (dec n) <= if decide (n <= 7)%Z then 1 else if decide (n <= 31)%Z then 2 else 3)%nat) as H.
  { intros n Hn.
    pose proof (range_all (fun n => (String.length (dec n) <=? if decide (n <= 7)%Z then 1 else if decide (n <= 31)%Z then 2 else 3)%nat) 0 255) as H.
    specialize (H ltac:(by vm_compute) n Hn). by apply Nat.leb_le. }
  pose proof (H x ltac:(lia)) as H1. pose proof (H y ltac:(lia)) as H2. pose proof (H z ltac:(lia)) as H3.
  rewrite decide_True in H2 by lia. repeat case_decide; lia.
Qed.

Lemma copy_hw : memcpy_addr "" (telegram a b c x y z sv) (11 + 5) (16 + String.length hw) = Done hw.
Proof.
  unfold memcpy_addr, ADDR_SIZE. pose proof hw_short.
  destruct (16 + String.length hw <? 11 + 5)%nat eqn:E1; bprop; [lia|].
  destruct (10 <=? 16 + String.length hw - (11 + 5))%nat eqn:E2; [apply Nat.leb_le in E2; lia|].
  replace (16 + String.length hw - (11 + 5))%nat with (String.length hw) by lia.
  unfold telegram. change (11 + 5)%nat with (String.length "L_Data low from ").
  rewrite drop_string_app. fold hw. rewrite take_string_app.
  destruct (String.length hw); by rewrite string_app_nil.
Qed.

Lemma copy_grp :
  memcpy_addr "" (telegram a b c x y z sv) (16 + String.length hw + 4) (20 + String.length hw + String.length grp) = Done grp.
Proof.
  unfold memcpy_addr, ADDR_SIZE. pose proof grp_short.
  destruct (_ <? _)%nat eqn:E1; bprop; [lia|].
  replace (20 + String.length hw + String.length grp - (16 + String.length hw + 4))%nat with (String.length grp) by lia.
  destruct (10 <=? String.length grp)%nat eqn:E2; [apply Nat.leb_le in E2; lia|].
  unfold telegram. fold hw.
  replace (16 + String.length hw + 4)%nat
    with (String.length "L_Data low from " + (String.length hw + (String.length " to " + 0)))%nat by (cbn [String.length]; lia).
  rewrite !drop_string_chunk. cbn [drop_string]. fold grp. rewrite take_string_app.
  destruct (String.length grp); by rewrite string_app_nil.
Qed.

(** A keyword of the last part, absent or the service of the telegram. *)
Lemma keyword_absent k value cm d :
  In k (drop 3 keys) -> strstr text3 k = None -> keyword (telegram a b c x y z sv) k value cm d = None.
Proof. intros Hk H. unfold keyword. by rewrite find_late, H. Qed.

Lemma keyword_found k n value cm d v :
  In k (drop 3 keys) -> strstr text3 k = Some n -> (n + String.length k = String.length text3)%nat ->
  value tail = Some v ->
  keyword (telegram a b c x y z sv) k value cm d = Some (Some (set_cmd cm (set_kvalue v d))).
Proof.
  intros Hk H Hn Hv. unfold keyword. rewrite find_late, H by done.
  rewrite <- Nat.add_assoc, text_after by done. by rewrite Hv.
Qed.

End Telegram.

Lemma value_small_hex2 v : is_u8 v -> value_small (hex2 v) = Some v.
Proof.
  intros Hv. unfold value_small, sscanf. rewrite <- (string_app_nil (hex2 v)).
  unfold is_u8 in Hv. by rewrite scan_x2 by lia.
Qed.

Lemma scan_blank fmt n t acc : 0 <= n <= 255 ->
  scan (Blank :: fmt) (" " +:+ hex2 n +:+ t) acc = scan fmt (hex2 n +:+ t) acc.
Proof.
  intros Hn. destruct (hex2_first n Hn) as (d & e & -> & _ & H).
  rewrite one_char_app, app_cons. cbn [scan skip_spaces]. change (is_space " "%char) with true. cbv iota. by rewrite H.
Qed.

Lemma value_large_hex2 h l : is_u8 h -> is_u8 l -> value_large (hex2 h +:+ " " +:+ hex2 l) = Some (h * 256 + l).
Proof.
  intros Hh Hl. unfold is_u8 in *. unfold value_large, sscanf. rewrite <- (string_app_nil (hex2 l)).
  rewrite scan_x2, scan_blank, scan_x2 by lia. cbn. by rewrite u32_small by lia.
Qed.

Lemma value_large_hex1 v : is_u8 v -> value_large (hex2 v) = Some v.
Proof.
  intros Hv. unfold value_large, sscanf. rewrite <- (string_app_nil (hex2 v)).
  unfold is_u8 in Hv. by rewrite scan_x2 by lia.
Qed.

Ltac in_keys := cbn; tauto.
Ltac keyword_step :=
  repeat first
  [ rewrite keyword_absent by (first [assumption | in_keys | reflexivity | done])
  | erewrite keyword_found by
      (first [assumption | in_keys | reflexivity | by apply value_small_hex2 | by apply value_large_hex2 | by apply value_large_hex1 | done])
  | rewrite find_late by (first [assumption | in_keys | done])
  | match goal with |- context [strstr (?w +:+ service_name ?s) ?k] =>
      let e := constr:(strstr (w +:+ service_name s) k) in
      let r := eval vm_compute in e in change e with r end
  | progress cbv iota beta zeta ].

Lemma telegram_run a b c x y z sv :
  0 <= a <= 15 -> 0 <= b <= 15 -> 0 <= c <= 255 -> 0 <= x <= 31 -> 0 <= y <= 7 -> 0 <= z <= 255 ->
  service_ok sv ->
  KNX_ParsePacket (Some (telegram a b c x y z sv)) KnxData0 =
  match sv with
  | Read => Done (-2, KnxData (hw_text a b c) (group_text x y z) 0 false 0 "Read" 0)
  | _ => Done (if (0x1001 <=? hw_number a b c) && (hw_number a b c <=? 0x1008) then -4 else 0,
      KnxData (hw_text a b c) (group_text x y z) (hw_number a b c) false (reads sv) (service_cmd sv) 0)
  end.
Proof.
  intros Ha Hb Hc Hx Hy Hz Hsv. unfold KNX_ParsePacket.
  rewrite find_from, find_to, find_hops by done. cbv zeta. unfold set_cmd at 1 2 3. cbn [hwAddr KnxData0].
  rewrite copy_hw by done. cbn [obind].
  match goal with |- context [memcpy_addr ?s _ _ _] => change s with "" end.
  rewrite copy_grp by done. cbn [obind]. unfold keywords.
  destruct sv as [v|v|h l|v|v|h l|]; cbn in Hsv; try destruct Hsv as [Hh Hl]; keyword_step.
  7: reflexivity.
  all: unfold set_cmd, set_kvalue, set_groupAddr, set_hwAddr, set_phy, reads;
    cbn [hwAddr groupAddr phy bRejected kd_value cmd kd_timestamp KnxData0];
    rewrite ?KnxHwAddr_text, ?u16_small by (unfold is_u8 in *; lia); unfold KNX_HW_ADDRESS_MIN, KNX_HW_ADDRESS_MAX;
    try (destruct (_ && _)); reflexivity.
Qed.

(** C18: a telegram of the bus is understood.  For every physical address, group
    address and value, a group write or response, of six bits, one byte or two, fills the
    structure with the two addresses, the number of the sender, the value and the
    command; the result is 0, or -4 for the gateway's own eight addresses
    (1.0.1 to 1.0.8).  A group read gives -2. *)
Theorem telegram_parsed a b c x y z sv :
  0 <= a <= 15 -> 0 <= b <= 15 -> 0 <= c <= 255 -> 0 <= x <= 31 -> 0 <= y <= 7 -> 0 <= z <= 255 ->
  service_ok sv ->
  KNX_ParsePacket (Some (telegram a b c x y z sv)) KnxData0 =
  match sv with
  | Read => Done (-2, KnxData (hw_text a b c) (group_text x y z) 0 false 0 "Read" 0)
  | _ => Done (if (0x1001 <=? hw_number a b c) && (hw_number a b c <=? 0x1008) then -4 else 0,
      KnxData (hw_text a b c) (group_text x y z) (hw_number a b c) false (reads sv) (service_cmd sv) 0)
  end.
Proof. apply telegram_run. Qed.

Lemma telegram_parsed_witness :
  KNX_ParsePacket (Some (telegram 1 1 5 2 0 17 (Write 0x0C 0x1A))) KnxData0 =
  Done (0, KnxData "1.1.5" "2/0/17" 0x1105 false 0x0C1A "Write" 0).
Proof.
  refine (telegram_parsed 1 1 5 2 0 17 (Write 0x0C 0x1A) _ _ _ _ _ _ _);
    repeat split; first [discriminate | reflexivity].
Defined.
