(* ===== verification/KnxBus.v ===== *)
(** The bus monitor and the debouncer (source/point.c, and KNX_BusMonitorEntry
    of source/knxHandle.c).

    Three threads share the table of [point.c] and the monitor queue: the bus
    monitor parses telegrams and either stores them in the table, for the groups
    that are debounced, or puts them into the queue; the debouncer puts a stored
    telegram into the queue once its group has been quiet for long enough; the
    device monitor takes them out.  Each function of [point.c] is one critical
    section of [kv_lock], and the debouncer's round another, so they are the
    steps of the model. *)

From Stdlib Require Import Ascii.
From S2P Require Import Prelude CMem Queue CStr Dpt9 KnxAddr KnxPacket.

Local Open Scope string_scope.
Local Open Scope list_scope.
Local Open Scope Z_scope.

(** ** State

    Times are nanoseconds of [CLOCK_MONOTONIC]: [tv_sec] is the time divided by
    10^9, [tv_nsec] the remainder.  The items of the table are in the order of
    the hash's application list, the order of insertion. *)

Record kv_item_t := KvItem {
  pGrp : string;
  pValue : option KnxDataType_t;
  kv_time : Z;
  expire : Z;
  bDone : bool
}.

Record bus := Bus {
  kv_table : list kv_item_t;
  mq : list KnxDataType_t;
  mq_open : bool
}.

Definition MONITOR_QUEUE_SIZE : Z := 200.

Definition now_ms (t : Z) : Z := u64 (t / 10 ^ 9 * 1000 + t mod 10 ^ 9 / 1000000).

Definition get_table : C (env bus) (list kv_item_t) := fun e => Done (kv_table (st e), e).
Definition put_table (l : list kv_item_t) : C (env bus) unit := fun e =>
  Done (tt, Env (mem e) (Bus l (mq (st e)) (mq_open (st e)))).
Definition put_mq (l : list KnxDataType_t) : C (env bus) unit := fun e =>
  Done (tt, Env (mem e) (Bus (kv_table (st e)) l (mq_open (st e)))).

(** [queue_put (pMonitorQueue, pData)]: the queue of Queue.v, limited to 200, of
    structures instead of pointers. *)
Definition queue_put (d : KnxDataType_t) : C (env bus) Z :=
  b ← getS;
  if negb (mq_open b) then mret Q_ERR_NONEWDATA else
  if Z.of_nat (length (mq b)) =? MONITOR_QUEUE_SIZE then mret Q_ERR_NUM_ELEMENTS else
  ok ← calloc;
  if (ok : bool) then _ ← put_mq (mq b ++ [d]); mret Q_OK else mret Q_ERR_MEM.

(** HASH_FIND_STR *)
Fixpoint find_item (l : list kv_item_t) (grp : string) : option (nat * kv_item_t) :=
  match l with
  | [] => None
  | it :: l =>
      if String.eqb (pGrp it) grp then Some (0%nat, it)
      else match find_item l grp with Some (i, x) => Some (S i, x) | None => None end
  end.

(** ** point.c *)

(** The new item is zeroed; its key and its value are allocated unchecked, and
    a null key is passed to [strlen]. *)
Definition kv_set (grp : string) (expire_ms now : Z) : C (env bus) Z :=
  l ← get_table;
  match find_item l grp with
  | Some (i, it) =>
      _ ← put_table (<[i := KvItem (pGrp it) (pValue it) now expire_ms (bDone it)]> l); mret 0
  | None =>
      ok ← calloc;
      if negb ok then mret (-1) else
      okg ← calloc;
      okv ← calloc;
      if negb okg then undef else
      _ ← put_table (l ++ [KvItem grp (if (okv : bool) then Some KnxData0 else None) now expire_ms false]);
      mret 0
  end.

Definition kv_update (grp : string) (d : KnxDataType_t) (now : Z) : C (env bus) Z :=
  l ← get_table;
  match find_item l grp with
  | Some (i, it) =>
      match pValue it with
      | None => undef
      | Some _ => _ ← put_table (<[i := KvItem (pGrp it) (Some d) now (expire it) false]> l); mret 0
      end
  | None => mret (-1)
  end.

(** A copy of the value, when the item is older than its time. *)
Definition kv_get (grp : string) (now : Z) : C (env bus) (option KnxDataType_t) :=
  l ← get_table;
  match find_item l grp with
  | None => mret None
  | Some (_, it) =>
      if (0 <? expire it) && (u64 (now_ms (kv_time it) + expire it) <? now_ms now) then
        ok ← calloc;
        match ok, pValue it with
        | true, Some d => mret (Some d)
        | _, _ => undef
        end
      else mret None
  end.

Definition kv_find (grp : string) : C (env bus) bool :=
  l ← get_table; mret (match find_item l grp with Some _ => true | None => false end).

(** The key and the item are freed, the value is not. *)
Definition kv_del (grp : string) : C (env bus) Z :=
  l ← get_table;
  match find_item l grp with
  | Some (i, _) => _ ← put_table (delete i l); _ ← free; _ ← free; mret 0
  | None => mret (-1)
  end.

Fixpoint kv_clear_loop (l : list kv_item_t) : C (env bus) unit :=
  match l with
  | [] => mret tt
  | _ :: l => _ ← put_table l; _ ← free; _ ← free; kv_clear_loop l
  end.
Definition kv_clear : C (env bus) unit := l ← get_table; kv_clear_loop l.

(** One item in a round of KNX_DevDebounce. *)
Definition due (now : Z) (it : kv_item_t) : bool :=
  negb (bDone it) && (u64 (now_ms (kv_time it) + expire it) <? now_ms now).
Definition set_bDone (it : kv_item_t) : kv_item_t :=
  KvItem (pGrp it) (pValue it) (kv_time it) (expire it) true.

Definition debounce_item (now : Z) (it : kv_item_t) : C (env bus) kv_item_t :=
  if due now it then
    match pValue it with
    | None => undef
    | Some d =>
        if String.eqb (groupAddr d) "" then mret (set_bDone it) else
        ok ← calloc;
        if negb ok then undef else
        _ ← queue_put d;
        mret (set_bDone it)
    end
  else mret it.

Fixpoint debounce_loop (now : Z) (l : list kv_item_t) : C (env bus) (list kv_item_t) :=
  match l with
  | [] => mret []
  | it :: l => it' ← debounce_item now it; l' ← debounce_loop now l; mret (it' :: l')
  end.

Definition debounce_turn (now : Z) : C (env bus) unit :=
  l ← get_table; l' ← debounce_loop now l; put_table l'.

(** ** knxHandle.c

    One packet of the bus, [false] when the thread ends. *)
Definition bus_turn (knxBuf : string) (now : Z) : C (env bus) bool :=
  ok ← calloc;
  if negb ok then mret false else
  '(ret, d) ← lift (KNX_ParsePacket (Some knxBuf) KnxData0);
  if negb (ret =? 0) then _ ← free; mret true else
  let d := set_ktime now d in
  found ← kv_find (groupAddr d);
  if (found : bool) then _ ← kv_update (groupAddr d) d now; mret true
  else
    r ← queue_put d;
    if negb (r =? 0) then _ ← free; mret true else mret true.

(** KNX_FakePacket: a telegram of the gateway's own. *)
Definition KNX_FakePacket (pGrp pValue : string) : C (env bus) unit :=
  ok ← calloc;
  if negb ok then mret tt else
  match KNX_FakePacket_data pGrp pValue with
  | None => free
  | Some d => _ ← queue_put d; mret tt
  end.

(** The device monitor takes the oldest packet and, when it is done with it,
    frees it. *)
Definition take_packet : C (env bus) (option KnxDataType_t) :=
  b ← getS;
  match mq b with
  | [] => mret None
  | d :: l => _ ← put_mq l; _ ← free; _ ← free; mret (Some d)
  end.

(** ** Histories

    What the three threads do, one step after the other; [out] are the packets
    the device monitor has taken.  Before each step the queue has room for the
    packets of a whole round, and memory never runs out: what happens otherwise
    is the subject of [bus_leaks] and of the error codes of Queue.v. *)

Inductive bev := Telegram (s : string) (now : Z) | Tick (now : Z) | Take.

Record hist := Hist { h_env : env bus; h_out : list KnxDataType_t }.
Definition h_table (h : hist) : list kv_item_t := kv_table (st (h_env h)).
Definition h_mq (h : hist) : list KnxDataType_t := mq (st (h_env h)).

(** Every packet that ever entered the queue, in order. *)
Definition h_all (h : hist) : list KnxDataType_t := h_out h ++ h_mq h.

Definition run_bev (ev : bev) (h : hist) : outcome hist :=
  match ev with
  | Telegram s now => obind (bus_turn s now (h_env h)) (fun r => Done (Hist r.2 (h_out h)))
  | Tick now => obind (debounce_turn now (h_env h)) (fun r => Done (Hist r.2 (h_out h)))
  | Take => obind (take_packet (h_env h))
      (fun r => Done (Hist r.2 (match r.1 with Some d => h_out h ++ [d] | None => h_out h end)))
  end.

Definition room (h : hist) : Prop :=
  plan (mem (h_env h)) = [] /\ mq_open (st (h_env h)) = true /\
  Z.of_nat (length (h_mq h) + length (h_table h)) < MONITOR_QUEUE_SIZE.

Inductive history : hist -> list bev -> hist -> Prop :=
| history_nil h : history h [] h
| history_cons h ev h1 evs h2 :
    room h -> run_bev ev h = Done h1 -> history h1 evs h2 -> history h (ev :: evs) h2.

(** ** What a group is promised

    [pending]: the last telegram of a debounced group and when it came, until it
    is passed on. *)

Definition pending : Type := option (KnxDataType_t * Z).

Definition parsed (s : string) : option KnxDataType_t :=
  match KNX_ParsePacket (Some s) KnxData0 with Done (0, d) => Some d | _ => None end.

(** The telegram an event brings for the group [g]. *)
Definition brings (g : string) (ev : bev) : option KnxDataType_t :=
  match ev with
  | Telegram s now =>
      match parsed s with
      | Some d => if String.eqb (groupAddr d) g then Some (set_ktime now d) else None
      | None => None
      end
  | _ => None
  end.

(** A debounced group with the waiting time [x]: its new pending telegram and
    the packets passed on. *)
Definition debounced (x : Z) (g : string) (ev : bev) (p : pending) : pending * list KnxDataType_t :=
  match ev with
  | Telegram _ now => (match brings g ev with Some d => Some (d, now) | None => p end, [])
  | Tick now =>
      match p with
      | Some (d, t) => if u64 (now_ms t + x) <? now_ms now then (None, [d]) else (p, [])
      | None => (None, [])
      end
  | Take => (p, [])
  end.

Fixpoint debounced_all (x : Z) (g : string) (evs : list bev) (p : pending) : pending * list KnxDataType_t :=
  match evs with
  | [] => (p, [])
  | ev :: evs =>
      let '(p1, o1) := debounced x g ev p in
      let '(p2, o2) := debounced_all x g evs p1 in (p2, o1 ++ o2)
  end.

(** Any other group. *)
Definition direct (g : string) (evs : list bev) : list KnxDataType_t :=
  omap (brings g) evs.

Definition of_group (g : string) (l : list KnxDataType_t) : list KnxDataType_t :=
  filter (fun d => groupAddr d = g) l.
Arguments of_group : simpl never.

Definition pend_of (it : kv_item_t) : pending :=
  if bDone it then None else
  match pValue it with
  | Some d => if String.eqb (groupAddr d) "" then None else Some (d, kv_time it)
  | None => None
  end.

(** Keys are not empty and occur once; a value is for its own group. *)
Record table_ok (l : list kv_item_t) : Prop := {
  to_nodup : NoDup (map pGrp l);
  to_item : Forall (fun it => pGrp it <> "" /\
    exists d, pValue it = Some d /\ (groupAddr d = "" \/ groupAddr d = pGrp it)) l
}.

(** ** The steps *)

Lemma find_item_spec l g :
  match find_item l g with
  | Some (i, it) => l !! i = Some it /\ pGrp it = g
  | None => ~ In g (map pGrp l)
  end.
Proof.
  induction l as [|it l IH]; simpl; [tauto|].
  destruct (String.eqb (pGrp it) g) eqn:E; [by apply String.eqb_eq in E|].
  apply String.eqb_neq in E. destruct (find_item l g) as [[i x]|]; [done|]. intros [?|?]; auto.
Qed.

Lemma find_item_lookup l i it :
  NoDup (map pGrp l) -> l !! i = Some it -> find_item l (pGrp it) = Some (i, it).
Proof.
  revert i. induction l as [|x l IH]; intros i Hn Hi; [done|].
  apply NoDup_cons in Hn as [Hx Hn]. destruct i as [|i]; simpl in Hi |- *.
  - injection Hi as ->. by rewrite String.eqb_refl.
  - destruct (String.eqb (pGrp x) (pGrp it)) eqn:E.
    { exfalso. apply Hx. apply String.eqb_eq in E. rewrite E. apply list_elem_of_In, in_map.
      apply list_elem_of_In. by eapply list_elem_of_lookup_2. }
    by rewrite (IH i).
Qed.

Lemma queue_put_run d e :
  plan (mem e) = [] -> mq_open (st e) = true -> Z.of_nat (length (mq (st e))) < MONITOR_QUEUE_SIZE ->
  queue_put d e = Done (Q_OK, Env (Heap [] (live (mem e) + 1)) (Bus (kv_table (st e)) (mq (st e) ++ [d]) true)).
Proof.
  intros Hp Ho Hl. unfold queue_put, mbind, C_bind, getS. rewrite Ho. cbn [negb].
  destruct (_ =? _) eqn:E; bprop; [lia|]. unfold calloc. rewrite Hp. unfold put_mq, mret, C_ret. cbn. by rewrite Ho.
Qed.

Definition fires (now : Z) (it : kv_item_t) : list KnxDataType_t :=
  if due now it then
    match pValue it with
    | Some d => if String.eqb (groupAddr d) "" then [] else [d]
    | None => []
    end
  else [].
Definition after (now : Z) (it : kv_item_t) : kv_item_t := if due now it then set_bDone it else it.

Lemma fires_length now l : (length (concat (map (fires now) l)) <= length l)%nat.
Proof.
  induction l as [|it l IH]; [done|]. simpl. rewrite length_app.
  assert (length (fires now it) <= 1)%nat; [|lia].
  unfold fires. repeat case_match; simpl; lia.
Qed.

Lemma debounce_loop_run now l e :
  Forall (fun it => pValue it <> None) l ->
  plan (mem e) = [] -> mq_open (st e) = true ->
  Z.of_nat (length (mq (st e)) + length l) < MONITOR_QUEUE_SIZE ->
  exists live', debounce_loop now l e =
    Done (map (after now) l, Env (Heap [] live') (Bus (kv_table (st e)) (mq (st e) ++ concat (map (fires now) l)) true)).
Proof.
  revert e. induction l as [|it l IH]; intros [[pl lv] [tb q op]] Hv Hp Ho Hl; cbn in Hp, Ho, Hl; subst pl op.
  { exists lv. cbn. by rewrite app_nil_r. }
  apply Forall_cons in Hv as [Hv Hvs].
  assert (exists lv', debounce_item now it (Env (Heap [] lv) (Bus tb q true)) =
    Done (after now it, Env (Heap [] lv') (Bus tb (q ++ fires now it) true))) as [lv' Hit].
  { unfold debounce_item, after, fires. destruct (due now it); [|exists lv; by rewrite app_nil_r].
    destruct (pValue it) as [d|]; [|done]. destruct (String.eqb (groupAddr d) ""); [exists lv; by rewrite app_nil_r|].
    unfold mbind at 1, C_bind at 1, calloc at 1. cbn [plan mem negb].
    eexists. erewrite bind_done; [|apply queue_put_run; cbn; [done|done|lia]]. reflexivity. }
  destruct (IH (Env (Heap [] lv') (Bus tb (q ++ fires now it) true))) as [lv2 H2]; [done|done|done| |].
  { cbn. rewrite length_app. assert (length (fires now it) <= 1)%nat; [|lia].
    unfold fires. repeat case_match; simpl; lia. }
  exists lv2. cbn [debounce_loop]. rewrite (bind_done _ _ _ _ _ Hit), (bind_done _ _ _ _ _ H2).
  cbn. by rewrite <- app_assoc.
Qed.

Lemma of_group_app g l1 l2 : of_group g (l1 ++ l2) = of_group g l1 ++ of_group g l2.
Proof. apply filter_app. Qed.

Lemma of_group_one g d : of_group g [d] = if decide (groupAddr d = g) then [d] else [].
Proof. reflexivity. Qed.

Lemma fires_own now it d :
  (exists d, pValue it = Some d /\ (groupAddr d = "" \/ groupAddr d = pGrp it)) -> In d (fires now it) ->
  groupAddr d = pGrp it.
Proof.
  intros (d' & Hv & Hg) Hd. unfold fires in Hd. rewrite Hv in Hd.
  destruct (due now it); [|done]. destruct (String.eqb (groupAddr d') "") eqn:E; [done|].
  apply String.eqb_neq in E. destruct Hd as [<-|[]]. by destruct Hg.
Qed.

Lemma of_group_own g l : Forall (fun d => groupAddr d = g) l -> of_group g l = l.
Proof.
  induction 1 as [|d l Hd Hl IH]; [done|]. unfold of_group in *. by rewrite filter_cons_True, IH.
Qed.

Lemma of_group_other g l : Forall (fun d => groupAddr d <> g) l -> of_group g l = [].
Proof.
  induction 1 as [|d l Hd Hl IH]; [done|]. unfold of_group in *. by rewrite filter_cons_False.
Qed.

Lemma table_ok_cons it l : table_ok (it :: l) -> table_ok l.
Proof. intros [Hn Hi]. apply NoDup_cons in Hn as [_ Hn]. apply Forall_cons in Hi as [_ Hi]. by split. Qed.

(** In a round an item fires for its own group, and for no other. *)
Lemma of_group_fires now l g :
  table_ok l ->
  of_group g (concat (map (fires now) l)) =
  match find_item l g with Some (_, it) => fires now it | None => [] end.
Proof.
  induction l as [|it l IH]; intros Hl; [done|].
  pose proof (table_ok_cons _ _ Hl) as Hl'. destruct Hl as [Hn Hi].
  apply NoDup_cons in Hn as [Hit Hn]. apply Forall_cons in Hi as [[_ Hi] _].
  cbn [map concat find_item]. rewrite of_group_app, (IH Hl').
  assert (Forall (fun d => groupAddr d = pGrp it) (fires now it)) as Hown.
  { apply List.Forall_forall. intros d Hd. by eapply fires_own. }
  destruct (String.eqb (pGrp it) g) eqn:E.
  - apply String.eqb_eq in E. subst g. rewrite of_group_own by done.
    destruct (find_item l (pGrp it)) as [[i x]|] eqn:F; [|by rewrite app_nil_r].
    exfalso. apply Hit. pose proof (find_item_spec l (pGrp it)) as Hf. rewrite F in Hf. destruct Hf as [Hx Hk].
    rewrite <- Hk. apply list_elem_of_In, in_map, list_elem_of_In. by eapply list_elem_of_lookup_2.
  - apply String.eqb_neq in E. rewrite (of_group_other g (fires now it)).
    { cbn. destruct (find_item l g) as [[i x]|]; done. }
    eapply Forall_impl; [exact Hown|]. intros d -> ?. done.
Qed.

Lemma pend_after now it :
  (exists d, pValue it = Some d) ->
  (pend_of (after now it), fires now it) = debounced (expire it) (pGrp it) (Tick now) (pend_of it).
Proof.
  intros (d & Hd). unfold after, fires, debounced, pend_of, due. rewrite Hd.
  destruct (bDone it) eqn:Eb; cbn [negb andb]; [by rewrite Eb|].
  destruct (String.eqb (groupAddr d) "") eqn:Ee.
  - destruct (_ <? _); cbn; rewrite ?Hd, ?Eb, ?Ee; done.
  - destruct (_ <? _) eqn:Et; cbn; rewrite ?Hd, ?Eb, ?Ee; done.
Qed.

(** What one step does to a debounced group and to any other. *)
Definition keys_of (l : list kv_item_t) : list (string * Z) := map (fun it => (pGrp it, expire it)) l.

Record simulated (ev : bev) (h h1 : hist) : Prop := {
  sim_keys : keys_of (h_table h1) = keys_of (h_table h);
  sim_ok : table_ok (h_table h1);
  sim_item : forall i it, h_table h !! i = Some it -> exists it1, h_table h1 !! i = Some it1 /\
    (pend_of it1, of_group (pGrp it) (h_all h1)) =
    let '(p, o) := debounced (expire it) (pGrp it) ev (pend_of it) in (p, of_group (pGrp it) (h_all h) ++ o);
  sim_other : forall g, ~ In g (map pGrp (h_table h)) ->
    of_group g (h_all h1) = of_group g (h_all h) ++ option_list (brings g ev)
}.

Lemma keys_of_fst l : map fst (keys_of l) = map pGrp l.
Proof. unfold keys_of. rewrite map_map. done. Qed.

Lemma sim_take h h1 : table_ok (h_table h) -> run_bev Take h = Done h1 -> simulated Take h h1.
Proof.
  intros Hok H. cbn [run_bev] in H. unfold take_packet, mbind, C_bind, getS in H.
  assert (h_table h1 = h_table h /\ h_all h1 = h_all h) as [Ht Ha].
  { unfold h_table, h_all, h_mq. destruct (mq (st (h_env h))) as [|d l] eqn:E; cbn in H; injection H as <-; cbn.
    - by rewrite E.
    - by rewrite <- app_assoc. }
  split.
  - by rewrite Ht.
  - by rewrite Ht.
  - intros i it Hi. exists it. rewrite Ht, Ha. cbn. by rewrite app_nil_r.
  - intros g _. rewrite Ha. cbn. by rewrite app_nil_r.
Qed.

Lemma sim_tick now h h1 :
  table_ok (h_table h) -> room h -> run_bev (Tick now) h = Done h1 -> simulated (Tick now) h h1.
Proof.
  intros Hok (Hp & Ho & Hl) H. cbn [run_bev] in H.
  assert (Forall (fun it => pValue it <> None) (h_table h)) as Hv.
  { eapply Forall_impl; [apply (to_item _ Hok)|]. intros it (_ & d & -> & _). done. }
  destruct (debounce_loop_run now _ _ Hv Hp Ho Hl) as [lv Hrun].
  unfold debounce_turn, mbind, C_bind, get_table in H. unfold h_table in Hrun. rewrite Hrun in H. cbn in H. injection H as <-.
  unfold h_table, h_all, h_mq in *. cbn.
  assert (forall it, pGrp (after now it) = pGrp it /\ expire (after now it) = expire it /\ pValue (after now it) = pValue it) as Ha.
  { intros it. unfold after. by destruct (due now it). }
  split; unfold h_table, h_all, h_mq; cbn.
  - unfold keys_of. rewrite map_map. apply map_ext. intros it. by destruct (Ha it) as (-> & -> & _).
  - destruct Hok as [Hn Hi]. split.
    + rewrite map_map. rewrite (map_ext _ pGrp); [done|]. intros it. by destruct (Ha it).
    + apply Forall_map. eapply Forall_impl; [exact Hi|]. intros it. cbn. by destruct (Ha it) as (-> & _ & ->).
  - intros i it Hi. exists (after now it). split; [by rewrite list_lookup_fmap, Hi|].
    destruct Hok as [Hn Hit]. destruct (Forall_lookup_1 _ _ _ _ Hit Hi) as (_ & d & Hd & _).
    rewrite app_assoc, of_group_app, of_group_fires by done.
    rewrite (find_item_lookup _ i it) by done.
    pose proof (pend_after now it (ex_intro _ d Hd)) as Hpa. cbn [debounced] in Hpa |- *.
    rewrite <- Hpa. done.
  - intros g Hg. rewrite app_assoc, of_group_app, of_group_fires by done.
    pose proof (find_item_spec (kv_table (st (h_env h))) g) as Hf.
    destruct (find_item _ g) as [[i it]|]; [|done]. destruct Hf as [Hi <-]. exfalso. apply Hg.
    apply in_map, list_elem_of_In. by eapply list_elem_of_lookup_2.
Qed.

Lemma parse_run s now e :
  plan (mem e) = [] ->
  bus_turn s now e =
  obind (KNX_ParsePacket (Some s) KnxData0) (fun '(ret, d) =>
    let e := Env (Heap [] (live (mem e) + 1)) (st e) in
    if negb (ret =? 0) then Done (true, Env (Heap [] (live (mem e) - 1)) (st e)) else
    let d := set_ktime now d in
    match find_item (kv_table (st e)) (groupAddr d) with
    | Some (i, it) => (_ ← kv_update (groupAddr d) d now; mret true) e
    | None => (r ← queue_put d; if negb (r =? 0) then _ ← free; mret true else mret true) e
    end).
Proof.
  intros Hp. unfold bus_turn, mbind, C_bind, calloc, lift. rewrite Hp. cbn [negb].
  destruct (KNX_ParsePacket (Some s) KnxData0) as [[ret d]|]; [|done]. cbn [obind].
  destruct (ret =? 0); [|done]. cbn [negb]. unfold kv_find, mbind, C_bind, get_table. cbn [st mem live].
  by destruct (find_item _ _) as [[i it]|].
Qed.

Lemma brings_none g s now :
  (forall d, KNX_ParsePacket (Some s) KnxData0 = Done (0, d) -> groupAddr d <> g) -> brings g (Telegram s now) = None.
Proof.
  intros H. unfold brings, parsed. destruct (KNX_ParsePacket _ _) as [[ret d]|]; [|done].
  destruct ret; try done. destruct (String.eqb (groupAddr d) g) eqn:E; [|done].
  apply String.eqb_eq in E. by destruct (H d).
Qed.

Lemma brings_some g s now d :
  KNX_ParsePacket (Some s) KnxData0 = Done (0, d) -> groupAddr d = g ->
  brings g (Telegram s now) = Some (set_ktime now d).
Proof. intros H <-. unfold brings, parsed. by rewrite H, String.eqb_refl. Qed.

(** Nothing changes for a group the telegram is not for. *)
Lemma sim_same ev h h1 :
  table_ok (h_table h) -> h_table h1 = h_table h -> h_all h1 = h_all h ->
  (forall g, brings g ev = None) -> (exists s now, ev = Telegram s now) -> simulated ev h h1.
Proof.
  intros Hok Ht Ha Hb (s & now & ->). split; rewrite ?Ht, ?Ha; try done.
  - intros i it Hi. exists it. unfold debounced. by rewrite Hb, app_nil_r.
  - intros g _. by rewrite Hb, app_nil_r.
Qed.

Lemma sim_stored s now d h i it lv q :
  table_ok (h_table h) -> KNX_ParsePacket (Some s) KnxData0 = Done (0, d) ->
  find_item (h_table h) (groupAddr d) = Some (i, it) ->
  simulated (Telegram s now) h
    (Hist (Env (Heap q lv) (Bus (<[i := KvItem (pGrp it) (Some (set_ktime now d)) now (expire it) false]> (h_table h))
      (h_mq h) (mq_open (st (h_env h))))) (h_out h)).
Proof.
  intros Hok Hd Hf. pose proof (find_item_spec (h_table h) (groupAddr d)) as Hs. rewrite Hf in Hs. destruct Hs as [Hi Hg].
  destruct Hok as [Hn Hit]. assert (i < length (h_table h))%nat as Hlt by (by eapply lookup_lt_Some).
  assert (forall f : kv_item_t -> string * Z, f (KvItem (pGrp it) (Some (set_ktime now d)) now (expire it) false) = f it ->
    map f (<[i:=KvItem (pGrp it) (Some (set_ktime now d)) now (expire it) false]> (h_table h)) = map f (h_table h)) as Hmap.
  { intros f Hfi. change (map f) with (fmap (M:=list) f). rewrite list_fmap_insert, Hfi, list_insert_id; [done|].
    by rewrite list_lookup_fmap, Hi. }
  assert (map pGrp (<[i:=KvItem (pGrp it) (Some (set_ktime now d)) now (expire it) false]> (h_table h)) = map pGrp (h_table h)) as Hmap'.
  { rewrite <- !keys_of_fst. unfold keys_of. by rewrite Hmap. }
  split.
  - apply Hmap. done.
  - unfold h_table at 1. cbn. split; [by rewrite Hmap'|]. apply Forall_insert; [done|]. cbn.
    destruct (Forall_lookup_1 _ _ _ _ Hit Hi) as (Hne & _). split; [done|].
    exists (set_ktime now d). split; [done|]. right. cbn. congruence.
  - intros j x Hj. unfold h_table at 1. cbn [h_env st kv_table].
    destruct (decide (j = i)) as [->|Hne].
    + assert (x = it) as -> by congruence. eexists. split; [by apply list_lookup_insert_eq|].
      unfold debounced. rewrite (brings_some _ _ _ d) by done. rewrite app_nil_r.
      unfold pend_of. cbn [bDone pValue groupAddr set_ktime kv_time].
      destruct (Forall_lookup_1 _ _ _ _ Hit Hi) as (Hne & _).
      destruct (String.eqb (groupAddr d) "") eqn:E; [apply String.eqb_eq in E; congruence|]. done.
    + exists x. split; [by rewrite list_lookup_insert_ne by done|].
      unfold debounced. rewrite brings_none; [by rewrite app_nil_r|].
      intros d' Hd' E. rewrite Hd in Hd'. injection Hd' as <-. apply Hne.
      assert (find_item (h_table h) (pGrp x) = Some (j, x)) as Hx by (by apply find_item_lookup).
      rewrite <- E, Hf in Hx. by injection Hx as <- _.
  - intros g Hng. rewrite brings_none; [by rewrite app_nil_r|].
    intros d' Hd' E. rewrite Hd in Hd'. injection Hd' as <-. apply Hng. rewrite <- E, <- Hg.
    apply in_map, list_elem_of_In. by eapply list_elem_of_lookup_2.
Qed.

Lemma sim_passed s now d h h1 :
  table_ok (h_table h) -> KNX_ParsePacket (Some s) KnxData0 = Done (0, d) ->
  find_item (h_table h) (groupAddr d) = None ->
  h_table h1 = h_table h -> h_all h1 = h_all h ++ [set_ktime now d] ->
  simulated (Telegram s now) h h1.
Proof.
  intros Hok Hd Hf Ht Ha. pose proof (find_item_spec (h_table h) (groupAddr d)) as Hs. rewrite Hf in Hs.
  split; rewrite ?Ht, ?Ha; try done.
  - intros i it Hi. exists it. split; [done|].
    assert (groupAddr d <> pGrp it) as Hne.
    { intros E. apply Hs. rewrite E. apply in_map, list_elem_of_In. by eapply list_elem_of_lookup_2. }
    unfold debounced. rewrite brings_none; [|congruence].
    rewrite of_group_app, of_group_one. cbn [groupAddr set_ktime]. by rewrite decide_False.
  - intros g Hg. rewrite of_group_app, of_group_one. cbn [groupAddr set_ktime]. case_decide.
    + by rewrite (brings_some _ _ _ d).
    + rewrite brings_none; [done|]. congruence.
Qed.

Lemma sim_telegram s now h h1 :
  table_ok (h_table h) -> room h -> run_bev (Telegram s now) h = Done h1 -> simulated (Telegram s now) h h1.
Proof.
  intros Hok (Hp & Ho & Hl) H. cbn [run_bev] in H. rewrite parse_run in H by done.
  destruct (KNX_ParsePacket (Some s) KnxData0) as [[ret d]|] eqn:Hd; [|done]. cbn [obind] in H. cbv zeta in H.
  destruct (ret =? 0) eqn:Er; cbn [negb] in H; bprop.
  2: { injection H as <-. apply sim_same; try done; [|eauto].
       intros g. apply brings_none. intros d' Hd'. rewrite Hd in Hd'. congruence. }
  subst ret. cbn [st] in H. change (groupAddr (set_ktime now d)) with (groupAddr d) in H.
  destruct (find_item _ _) as [[i it]|] eqn:Hf.
  - pose proof (find_item_spec (h_table h) (groupAddr d)) as Hs. unfold h_table in Hs. rewrite Hf in Hs. destruct Hs as [Hi Hg].
    destruct (Forall_lookup_1 _ _ _ _ (to_item _ Hok) Hi) as (_ & v & Hv & _).
    unfold kv_update, mbind, C_bind, get_table in H. cbn [st] in H. rewrite Hf, Hv in H.
    cbn in H. injection H as <-. by apply sim_stored.
  - erewrite bind_done in H; [|apply queue_put_run; cbn; [done|done|unfold h_mq in Hl; lia]].
    cbn in H. injection H as <-. apply (sim_passed _ _ d); try done.
    unfold h_all, h_mq. cbn. by rewrite app_assoc.
Qed.

Lemma step_simulated ev h h1 :
  table_ok (h_table h) -> room h -> run_bev ev h = Done h1 -> simulated ev h h1.
Proof. destruct ev; [apply sim_telegram|apply sim_tick|intros; by apply sim_take]. Qed.

(** ** The promise to every group *)

Lemma history_refines h evs h' :
  table_ok (h_table h) -> history h evs h' ->
  table_ok (h_table h') /\
  (forall i it, h_table h !! i = Some it -> exists it', h_table h' !! i = Some it' /\
     pGrp it' = pGrp it /\ expire it' = expire it /\
     (pend_of it', of_group (pGrp it) (h_all h')) =
     let '(p, o) := debounced_all (expire it) (pGrp it) evs (pend_of it) in (p, of_group (pGrp it) (h_all h) ++ o)) /\
  (forall g, ~ In g (map pGrp (h_table h)) -> of_group g (h_all h') = of_group g (h_all h) ++ direct g evs).
Proof.
  intros Hok Hh. induction Hh as [h|h ev h1 evs h' Hr Hrun Hh IH].
  { split; [done|]. split; [|intros g _; cbn; by rewrite app_nil_r].
    intros i it Hi. exists it. cbn. by rewrite app_nil_r. }
  destruct (step_simulated ev h h1 Hok Hr Hrun) as [Hk Hok1 Hit Hother].
  destruct (IH Hok1) as (Hok' & Hit' & Hother'). split; [done|]. split.
  - intros i it Hi. destruct (Hit i it Hi) as (it1 & Hi1 & E1).
    assert (pGrp it1 = pGrp it /\ expire it1 = expire it) as [Hg He].
    { assert (keys_of (h_table h1) !! i = Some (pGrp it1, expire it1)) as H1 by (unfold keys_of; by rewrite list_lookup_fmap, Hi1).
      assert (keys_of (h_table h) !! i = Some (pGrp it, expire it)) as H2 by (unfold keys_of; by rewrite list_lookup_fmap, Hi).
      rewrite Hk, H2 in H1. by injection H1 as -> ->. }
    destruct (Hit' i it1 Hi1) as (it' & Hi' & Hg' & He' & E'). rewrite Hg, He in *.
    exists it'. split_and!; try done. cbn [debounced_all].
    destruct (debounced (expire it) (pGrp it) ev (pend_of it)) as [p1 o1]. injection E1 as Ep Eo.
    rewrite Ep, Eo in E'. destruct (debounced_all _ _ evs p1) as [p2 o2]. by rewrite <- app_assoc in E'.
  - intros g Hg. rewrite Hother', Hother by (rewrite <- ?keys_of_fst, ?Hk, ?keys_of_fst; done).
    unfold direct. cbn [omap list_omap]. rewrite <- app_assoc. f_equal. by destruct (brings g ev).
Qed.

(** C6: the debouncer keeps its promise to every group under every interleaving of
    its threads.  For a group in the table, the packets that reach the queue and
    the telegram still waiting are exactly those of a timer of its own, which
    every telegram of the group restarts; for any other group every telegram is
    passed on at once.  Telegrams of different groups do not disturb each
    other. *)
Theorem debounce_refines h evs h' :
  table_ok (h_table h) -> history h evs h' ->
  table_ok (h_table h') /\
  (forall i it, h_table h !! i = Some it -> exists it', h_table h' !! i = Some it' /\
     pGrp it' = pGrp it /\ expire it' = expire it /\
     (pend_of it', of_group (pGrp it) (h_all h')) =
     let '(p, o) := debounced_all (expire it) (pGrp it) evs (pend_of it) in (p, of_group (pGrp it) (h_all h) ++ o)) /\
  (forall g, ~ In g (map pGrp (h_table h)) -> of_group g (h_all h') = of_group g (h_all h) ++ direct g evs).
Proof. apply history_refines. Qed.

(** A table with one group and a history of it. *)
Definition t_busy : hist :=
  Hist (Env (Heap [] 4) (Bus [KvItem "2/0/17" (Some KnxData0) 0 500 true] [] true)) [].
Definition t_text (v : Z) : string := telegram 1 1 5 2 0 17 (WriteSmall v).
Definition t_evs : list bev := [Telegram (t_text 1) 0; Telegram (t_text 2) 100000000; Tick 400000000; Tick 700000000].

Lemma t_busy_ok : table_ok (h_table t_busy).
Proof.
  split; [by apply NoDup_singleton|]. apply Forall_singleton. split; [done|].
  exists KnxData0. split; [done|by left].
Qed.

Lemma t_history : exists h', history t_busy t_evs h' /\ h_mq h' = [KnxData "1.1.5" "2/0/17" 0x1105 false 2 "Write" 100000000].
Proof.
  eexists. split.
  - do 4 (eapply history_cons; [split; [reflexivity|split; reflexivity]|vm_compute; reflexivity|]). apply history_nil.
  - reflexivity.
Qed.

Lemma debounce_refines_witness :
  exists h', history t_busy t_evs h' /\ of_group "2/0/17" (h_all h') = [KnxData "1.1.5" "2/0/17" 0x1105 false 2 "Write" 100000000].
Proof.
  destruct t_history as (h' & Hh & _). exists h'. split; [exact Hh|].
  destruct (debounce_refines t_busy t_evs h' t_busy_ok Hh) as (_ & H & _).
  destruct (H 0%nat _ eq_refl) as (it' & _ & _ & _ & E). vm_compute in E. injection E as _ E. exact E.
Defined.

(** A group whose telegrams have ended: the last one is passed on, once. *)
Lemma debounced_quiet x g d t0 mid :
  Forall (fun ev => brings g ev = None) mid ->
  debounced_all x g mid (Some (d, t0)) = (Some (d, t0), []) \/ debounced_all x g mid (Some (d, t0)) = (None, [d]).
Proof.
  induction 1 as [|ev mid Hev Hmid IH]; [by left|].
  assert (debounced_all x g mid None = (None, [])) as Hnone.
  { clear IH Hev ev. induction Hmid as [|ev mid Hev Hmid IH]; [done|]. cbn [debounced_all].
    assert (debounced x g ev None = (None, [])) as ->; [|by rewrite IH].
    destruct ev; [|done..]. unfold debounced. by rewrite Hev. }
  cbn [debounced_all].
  assert (debounced x g ev (Some (d, t0)) = (Some (d, t0), []) \/ debounced x g ev (Some (d, t0)) = (None, [d])) as [->| ->].
  { destruct ev as [s now|now|]; [left; unfold debounced; by rewrite Hev| |by left].
    unfold debounced. destruct (_ <? _); [by right|by left]. }
  - destruct IH as [->| ->]; [by left|by right].
  - rewrite Hnone. by right.
Qed.

Lemma debounced_all_app x g l1 l2 p :
  debounced_all x g (l1 ++ l2) p =
  let '(p1, o1) := debounced_all x g l1 p in
  let '(p2, o2) := debounced_all x g l2 p1 in (p2, o1 ++ o2).
Proof.
  revert p. induction l1 as [|ev l1 IH]; intros p; cbn [app debounced_all].
  - by destruct (debounced_all x g l2 p).
  - destruct (debounced x g ev p) as [p1 o1]. rewrite IH. destruct (debounced_all x g l1 p1) as [p2 o2].
    destruct (debounced_all x g l2 p2) as [p3 o3]. by rewrite app_assoc.
Qed.

(** C19: no last value is lost.  When a telegram of a debounced group is followed
    by no other of that group, then after the first round of the debouncer that
    comes more than the waiting time later, whatever the threads did between,
    that telegram has been put into the queue, exactly once, and nothing of the
    group waits. *)
Theorem debounce_delivers h s t0 mid t1 h' i it d :
  table_ok (h_table h) -> h_table h !! i = Some it -> brings (pGrp it) (Telegram s t0) = Some d ->
  Forall (fun ev => brings (pGrp it) ev = None) mid ->
  u64 (now_ms t0 + expire it) < now_ms t1 ->
  history h (Telegram s t0 :: mid ++ [Tick t1]) h' ->
  of_group (pGrp it) (h_all h') = of_group (pGrp it) (h_all h) ++ [d] /\
  exists it', h_table h' !! i = Some it' /\ pend_of it' = None.
Proof.
  intros Hok Hi Hd Hmid Ht Hh.
  destruct (history_refines _ _ _ Hok Hh) as (_ & H & _). destruct (H i it Hi) as (it' & Hi' & _ & _ & E).
  cbn [debounced_all] in E. unfold debounced at 1 in E. rewrite Hd, debounced_all_app in E.
  assert (forall p, p = Some (d, t0) \/ p = None -> debounced_all (expire it) (pGrp it) [Tick t1] p =
    (None, match p with Some _ => [d] | None => [] end)) as Hlast.
  { intros p [->| ->]; cbn; [|done]. by rewrite (proj2 (Z.ltb_lt _ _) Ht). }
  destruct (debounced_quiet (expire it) (pGrp it) d t0 mid Hmid) as [Eq|Eq]; rewrite Eq, Hlast in E by tauto;
    injection E as Ep Eo; (split; [exact Eo|by exists it']).
Qed.

Definition t_last : list bev := [Telegram (t_text 2) 100000000; Tick 400000000; Tick 700000000].

Lemma debounce_delivers_witness :
  exists h', history t_busy t_last h' /\ of_group "2/0/17" (h_all h') = [KnxData "1.1.5" "2/0/17" 0x1105 false 2 "Write" 100000000].
Proof.
  assert (exists h', history t_busy t_last h') as (h' & Hh).
  { eexists. do 3 (eapply history_cons; [split; [reflexivity|split; reflexivity]|vm_compute; reflexivity|]). apply history_nil. }
  exists h'. split; [exact Hh|].
  assert (h_table t_busy !! 0%nat = Some (KvItem "2/0/17" (Some KnxData0) 0 500 true)) as Hi by reflexivity.
  refine (proj1 (debounce_delivers t_busy (t_text 2) 100000000 [Tick 400000000] 700000000 h' 0%nat _ _ t_busy_ok Hi _ _ _ Hh)).
  - vm_compute. reflexivity.
  - repeat constructor.
  - reflexivity.
Defined.

(** The paths on which memory or a packet is lost.  Every telegram of a
    debounced group leaves its packet allocated with nothing pointing to it; when
    the queue is full the debouncer marks the item as done, so the packet is
    neither queued nor tried again, and its copy stays allocated; deleting an
    item frees two of its three blocks. *)
Theorem bus_leaks e :
  plan (mem e) = [] ->
  (forall s now d i it v, KNX_ParsePacket (Some s) KnxData0 = Done (0, d) ->
     find_item (kv_table (st e)) (groupAddr d) = Some (i, it) -> pValue it = Some v ->
     exists e', bus_turn s now e = Done (true, e') /\ live (mem e') = live (mem e) + 1 /\
       mq (st e') = mq (st e) /\ length (kv_table (st e')) = length (kv_table (st e))) /\
  (forall now it d, due now it = true -> pValue it = Some d -> groupAddr d <> "" ->
     mq_open (st e) = true -> Z.of_nat (length (mq (st e))) = MONITOR_QUEUE_SIZE ->
     exists e', debounce_item now it e = Done (set_bDone it, e') /\ live (mem e') = live (mem e) + 1 /\ st e' = st e) /\
  (forall g now x, find_item (kv_table (st e)) g = None ->
     exists e', (_ ← kv_set g x now; kv_del g) e = Done (0, e') /\ live (mem e') = live (mem e) + 1 /\ st e' = st e).
Proof.
  intros Hp. split_and!.
  - intros s now d i it v Hd Hf Hv. rewrite parse_run, Hd by done. cbn [obind negb Z.eqb].
    cbn [st]. change (groupAddr (set_ktime now d)) with (groupAddr d). rewrite Hf.
    unfold kv_update, mbind, C_bind, get_table. cbn [st]. rewrite Hf, Hv.
    eexists. split; [reflexivity|]. cbn. by rewrite length_insert.
  - intros now it d Hdue Hv Hne Ho Hl. unfold debounce_item. rewrite Hdue, Hv.
    rewrite (proj2 (String.eqb_neq _ _) Hne).
    unfold queue_put, mbind, C_bind, calloc, getS. rewrite Hp. cbn [negb st]. rewrite Ho, Hl. cbn.
    eexists. split; [reflexivity|done].
  - intros g now x Hf. destruct e as [[pl lv] [tb q op]]. cbn in Hp, Hf. subst pl.
    unfold kv_set, kv_del, mbind, C_bind, get_table, calloc, put_table, free. cbn. rewrite Hf. cbn.
    assert (find_item (tb ++ [KvItem g (Some KnxData0) now x false]) g =
      Some (length tb, KvItem g (Some KnxData0) now x false)) as ->.
    { clear -Hf. induction tb as [|it tb IH]; cbn in Hf |- *; [by rewrite String.eqb_refl|].
      destruct (String.eqb (pGrp it) g); [done|]. destruct (find_item tb g) as [[]|]; [done|]. by rewrite IH. }
    eexists. split; [reflexivity|]. cbn. split; [lia|]. f_equal.
    clear Hf. induction tb as [|it tb IH]; [done|]. simpl. f_equal. apply IH.
Qed.

Lemma bus_leaks_witness :
  exists e', bus_turn (t_text 1) 0 (h_env t_busy) = Done (true, e') /\ live (mem e') = 5 /\ mq (st e') = [] /\
    length (kv_table (st e')) = 1%nat.
Proof.
  refine (proj1 (bus_leaks (h_env t_busy) eq_refl) (t_text 1) 0 _ 0%nat _ _ _ _ _); reflexivity.
Defined.
