(* ===== verification/Registry.v ===== *)
(** The interface tables the plugins export (the [const MbusIf] at the end of
    each file of plugin/compile/), with the initial values of their static
    variables, and the two theorems every one of them satisfies. *)

From S2P Require Import Prelude CMem Device PluginApi VentPlugins AcdPlugins CurtainPlugins MiscPlugins.

Definition std {S} (b : build_t S) (p : parse_t S) : MbusIf S :=
  mkMbusIf (Some b) (Some p) None None.
Definition ext {S} b p : MbusIf S := mkMbusIf None None (Some b) (Some p).

Definition Mbus_Vent_Broan_DTouch : MbusIf unit := std DTouch.build DTouch.parse.
Definition Mbus_Vent_Broan_ERDH : MbusIf (list MbusObj_t) := std ERDH.build ERDH.parse.
Definition Mbus_Vent_Broan_ERDH45_500C : MbusIf unit := std ERDH45.build ERDH45.parse.
Definition Mbus_Vent_Broan_noah : MbusIf unit := std Noah.build Noah.parse.
Definition Mbus_Vent_Daikin_DTA116A621 : MbusIf (list (list MbusObj_t)) :=
  std VentDaikin.build VentDaikin.parse.
Definition Mbus_Vent_Dpurat : MbusIf unit := std Dpurat.build Dpurat.parse.
Definition Mbus_Vent_Broan : MbusIf (list MbusObj_t) := std Broan.build Broan.parse.
Definition Modbus_Ventilation_TuoLi_TLCAA301R : MbusIf unit := std TuoLi.build TuoLi.parse.
Definition Modbus_Ventilation_BROAN : MbusIf unit := std VentBROAN.build VentBROAN.parse.
Definition Mbus_Acd_Daikin_DTA116A621 : MbusIf (list (list MbusObj_t)) :=
  std AcdDaikin.build AcdDaikin.parse.
Definition Mbus_Acd_TG_A21MC : MbusIf (list (list Z)) := std TG_A21MC.build TG_A21MC.parse.
Definition Mbus_Acd_ZhongHong : MbusIf unit := std ZhongHong.build ZhongHong.parse.
Definition Mbus_Curtain_Dooya : MbusIf unit := ext Dooya.buildExt Dooya.parseExt.
Definition Mbus_Curtain_Changming : MbusIf unit := ext Changming.buildExt Changming.parseExt.
Definition Mbus_Curtain_HeChaung : MbusIf unit := ext HeChuang.buildExt HeChuang.parseExt.
Definition Mbus_Curtain_AOK : MbusIf unit := ext AOK.build AOK.parse.
Definition Mbus_Curtain_BinThen junk : MbusIf unit :=
  std BinThen.modbus_dev_control (BinThen.modbus_dev_report junk).
Definition Mbus_AQI_Ohosure : MbusIf unit := std AQI.build AQI.parse.
Definition Mbus_Panel_Ohosure : MbusIf unit := std Panel.build Panel.parse.
Definition Mbus_Heat_Honeywell : MbusIf unit := std Honeywell.build Honeywell.parse.
Definition Modbus_FloorHeating_TOWWIRE : MbusIf unit := std FloorHeating.build FloorHeating.parse.
Definition Modbus_Humidifier_SPTC : MbusIf Z := std Humidifier.build Humidifier.parse.
Definition Modbus_Purifier : MbusIf unit := std Purifier.build Purifier.parse.

(** A plugin with its contract: the requests it can be given ([bpre]), the
    frames it sends, the buffers it can be given ([ppre]) and the blocks a
    rejected buffer may cost. *)
Record plugin := Plugin {
  statics : Type;
  statics0 : statics;
  iface : MbusIf statics;
  inv : statics -> Prop;
  bpre : Z -> Z -> option MbusNode -> option ty_obj_dp_s -> Prop;
  frame : Z -> list Z -> Prop;
  ppre : Z -> Z -> option MbusNode -> list Z -> Z -> Prop;
  leak : Z
}.

Notation any := (fun _ => True).
Notation any_request := (fun _ _ _ _ => True).
Notation any_buffer := (fun _ _ _ _ _ => True).
Notation with_node := (fun _ _ node _ _ => node <> None).
(** The block has [n] bytes more than were received. *)
Notation slack n := (fun _ _ _ buf len => (Z.to_nat len + n <= length buf)%nat).
Notation at_least n := (fun _ _ _ buf _ => (n <= length buf)%nat).

Definition plugins junk : list plugin := [
  Plugin unit tt Mbus_Vent_Broan_DTouch any any_request
    (mbus_frame [8%nat] [DTouch.READ_CODE; DTouch.WRITE_CODE]) with_node 0;
  Plugin _ ERDH.MbusObj Mbus_Vent_Broan_ERDH ERDH.inv any_request
    (mbus_frame [8%nat; 12%nat] [ERDH.READ_CODE; ERDH.WRITE_CODE]) with_node 0;
  Plugin unit tt Mbus_Vent_Broan_ERDH45_500C any any_request
    (mbus_frame [8%nat; 12%nat] [ERDH45.READ_CODE; ERDH45.WRITE_CODE]) with_node 0;
  Plugin unit tt Mbus_Vent_Broan_noah any any_request Noah.frame with_node 0;
  Plugin _ VentDaikin.MbusObj Mbus_Vent_Daikin_DTA116A621 VentDaikin.inv
    (fun _ groupAddr _ pObj => pObj = None \/ groupAddr < 16)
    (mbus_frame [8%nat] [VentDaikin.READ_CODE; VentDaikin.WRITE_CODE])
    (fun devId regAddr _ buf _ => regAddr < 16 /\ VentDaikin.row_ok devId buf) 0;
  Plugin unit tt Mbus_Vent_Dpurat any any_request
    (mbus_frame [8%nat] [Dpurat.READ_CODE; Dpurat.WRITE_CODE]) any_buffer 2;
  Plugin _ Broan.MBusVentLocalPoint Mbus_Vent_Broan Broan.inv any_request
    (mbus_frame [8%nat; 13%nat] [Broan.READ_CODE; Broan.WRITE_CODE]) with_node 0;
  Plugin unit tt Modbus_Ventilation_TuoLi_TLCAA301R any any_request
    (mbus_frame [10%nat] [TuoLi.READ_CODE; TuoLi.WRITE_CODE]) any_buffer 0;
  Plugin unit tt Modbus_Ventilation_BROAN any any_request VentBROAN.frame
    (fun _ _ _ buf len => 10 <= len < 256) 0;
  Plugin _ AcdDaikin.MbusObj Mbus_Acd_Daikin_DTA116A621 AcdDaikin.inv AcdDaikin.build_pre
    (mbus_frame [8%nat] [AcdDaikin.READ_CODE; AcdDaikin.WRITE_CODE])
    (fun devId regAddr _ buf len =>
      regAddr < 16 /\ (Z.to_nat len + 5 <= length buf)%nat /\ AcdDaikin.row_ok devId buf) 0;
  Plugin _ TG_A21MC.AcdCache Mbus_Acd_TG_A21MC TG_A21MC.inv TG_A21MC.build_pre
    (mbus_frame [8%nat] [TG_A21MC.READ_CODE; TG_A21MC.WRITE_CODE])
    (fun _ regAddr _ _ _ => regAddr < 64) 0;
  Plugin unit tt Mbus_Acd_ZhongHong any any_request ZhongHong.frame (slack 4) 0;
  Plugin unit tt Mbus_Curtain_Dooya any any_request Dooya.frame any_buffer 0;
  Plugin unit tt Mbus_Curtain_Changming any any_request Changming.frame any_buffer 0;
  Plugin unit tt Mbus_Curtain_HeChaung any any_request HeChuang.frame any_buffer 0;
  Plugin unit tt Mbus_Curtain_AOK any any_request AOK.frame any_buffer 0;
  Plugin unit tt (Mbus_Curtain_BinThen junk) any any_request BinThen.frame any_buffer 3;
  Plugin unit tt Mbus_AQI_Ohosure any any_request (fun _ _ => False) (slack 14) 0;
  Plugin unit tt Mbus_Panel_Ohosure any any_request
    (mbus_frame [8%nat] [Panel.READ_CODE; Panel.WRITE_CODE]) any_buffer 0;
  Plugin unit tt Mbus_Heat_Honeywell any any_request
    (mbus_frame [8%nat] [Honeywell.READ_CODE; Honeywell.WRITE_CODE]) (slack 4) 2;
  Plugin unit tt Modbus_FloorHeating_TOWWIRE any any_request
    (mbus_frame [8%nat] [FloorHeating.READ_CODE; FloorHeating.WRITE_CODE]) (at_least 9) 0;
  Plugin Z 0 Modbus_Humidifier_SPTC is_u8 any_request
    (mbus_frame [8%nat] [Humidifier.READ_REGISTER; Humidifier.READ_COIL;
                         Humidifier.WRITE_REGISTER; Humidifier.WRITE_COIL]) (at_least 6) 0;
  Plugin unit tt Modbus_Purifier any any_request Purifier.frame (at_least 22) 0
].

Definition plugin_ok (p : plugin) : Prop :=
  inv p (statics0 p) /\ IfOk (inv p) (bpre p) (frame p) (ppre p) (leak p) (iface p).

Lemma tab_ok_replicate {A} m n (x : A) : tab_ok m n (replicate m (replicate n x)).
Proof.
  split; [apply length_replicate|]. apply Forall_replicate. apply length_replicate.
Qed.

Ltac plugin_contract b p :=
  apply Forall_cons_2; [unfold plugin_ok; cbn [statics statics0 iface inv bpre frame ppre leak];
  split; [first [exact I | apply tab_ok_replicate | exact (tab_ok_replicate 64 2 0) | reflexivity | exact is_u8_0]|];
  first [apply if_ok_plain | apply if_ok_ext]; [exact b | exact p]|].

(** Every plugin satisfies its contract. *)
Lemma plugins_contract junk : Forall plugin_ok (plugins junk).
Proof.
  unfold plugins.
  plugin_contract DTouch.build_ok DTouch.parse_ok.
  plugin_contract ERDH.build_ok ERDH.parse_ok.
  plugin_contract ERDH45.build_ok ERDH45.parse_ok.
  plugin_contract Noah.build_ok Noah.parse_ok.
  plugin_contract VentDaikin.build_ok VentDaikin.parse_ok.
  plugin_contract Dpurat.build_ok Dpurat.parse_ok.
  plugin_contract Broan.build_ok Broan.parse_ok.
  plugin_contract TuoLi.build_ok TuoLi.parse_ok.
  plugin_contract VentBROAN.build_ok VentBROAN.parse_ok.
  plugin_contract AcdDaikin.build_ok AcdDaikin.parse_ok.
  plugin_contract TG_A21MC.build_ok TG_A21MC.parse_ok.
  plugin_contract ZhongHong.build_ok ZhongHong.parse_ok.
  plugin_contract Dooya.build_ok Dooya.parse_ok.
  plugin_contract Changming.build_ok Changming.parse_ok.
  plugin_contract HeChuang.build_ok HeChuang.parse_ok.
  plugin_contract AOK.build_ok AOK.parse_ok.
  plugin_contract BinThen.build_ok (BinThen.parse_ok junk).
  plugin_contract AQI.build_ok AQI.parse_ok.
  plugin_contract Panel.build_ok Panel.parse_ok.
  plugin_contract Honeywell.build_ok Honeywell.parse_ok.
  plugin_contract FloorHeating.build_ok FloorHeating.parse_ok.
  plugin_contract Humidifier.build_ok Humidifier.parse_ok.
  plugin_contract Purifier.build_ok Purifier.parse_ok.
  apply Forall_nil_2.
Qed.

(** ** Properties *)


Definition a_junk : BinThen.BinThen_Curtain_UARTPackage_t := BinThen.UARTPackage 0 0 0 0 0 0 0 0 [] [].



