(* ===== verification/Nodes.v ===== *)
(** The device lists of the gateway (source/misc_dev_plugins.h, source/list.c,
    and the search by device id of source/modbusHandle.c).

    A node of [pMbusDevList] points to a structure that begins with a pointer to
    its [MbusBase_t] and continues with pointers to the points of the device;
    [bases] is that base followed by its group members ([pNext]), [points] the
    pointers in the order of the structure. *)

From S2P Require Import Prelude CMem CStr Device PluginApi.

(** The id in a primary key, after the 12 characters of the gateway's MAC
    address; [None] when the key has no number there.  A key shorter than 12
    characters is read past its end. *)
Definition dev_id (pKey : string) : outcome (option Z) :=
  if (String.length pKey <? 12)%nat then Undef else
  Done (match strtol (drop_string 12 pKey) with
        | Some (v, false) => Some (u32 v)
        | _ => None
        end).

(** ** Nodes *)

(** [pvForeignKey] is the primary key of the KNX device it points to. *)
Record DeviceElement_t := Element {
  e_pPrimaryKey : string;
  devId : Z;
  primaryType : Z;
  bMaster : bool;
  pvForeignKey : option string
}.

(** [pSerial] is the number of the serial port structure. *)
Record MbusBase_t (P : Type) := Base {
  pIf : option (MbusIf P);
  element : DeviceElement_t;
  devAddr : Z;
  regAddr : Z;
  delay : Z;
  bFeedback : bool;
  bOnlineCheck : bool;
  hbIgnore : Z;
  bFullDuplex : bool;
  pSerial : option nat;
  lostCnt : Z
}.
Arguments Base {P}.
Arguments pIf {P}.
Arguments element {P}.
Arguments devAddr {P}.
Arguments regAddr {P}.
Arguments delay {P}.
Arguments bFeedback {P}.
Arguments bOnlineCheck {P}.
Arguments hbIgnore {P}.
Arguments bFullDuplex {P}.
Arguments pSerial {P}.
Arguments lostCnt {P}.

Record Node (P : Type) := MkNode {
  base : MbusBase_t P;
  members : list (MbusBase_t P);
  points : list (option MbusObj_t)
}.
Arguments MkNode {P}.
Arguments base {P}.
Arguments members {P}.
Arguments points {P}.

Definition set_points {P} l (n : Node P) : Node P := MkNode (base n) (members n) l.
Definition set_base {P} b (n : Node P) : Node P := MkNode b (members n) (points n).

(** [listSearchKey] with the match function [ModbusDevIdMatch]: the position of
    the first node with the id; a null value does not match. *)
Definition ModbusDevIdMatch {P} (pNode : option (Node P)) (id : Z) : bool :=
  match pNode with Some n => devId (element (base n)) =? id | None => false end.

Fixpoint listSearchKey {P} (l : list (option (Node P))) (id : Z) : option nat :=
  match l with
  | [] => None
  | n :: l =>
      if ModbusDevIdMatch n id then Some 0%nat
      else match listSearchKey l id with Some i => Some (S i) | None => None end
  end.

(** What the plugins read through the node pointer. *)
Definition node_arg {P} (n : Node P) : MbusNode :=
  PluginApi.Node (match points n !! 0%nat with Some (Some _) => true | _ => false end)
    (match points n !! 1%nat with Some (Some _) => true | _ => false end).

Lemma listSearchKey_spec {P} (l : list (option (Node P))) id :
  match listSearchKey l id with
  | Some i => exists n, l !! i = Some (Some n) /\ devId (element (base n)) = id /\
      forall j m, (j < i)%nat -> l !! j = Some (Some m) -> devId (element (base m)) <> id
  | None => forall j m, l !! j = Some (Some m) -> devId (element (base m)) <> id
  end.
Proof.
  induction l as [|x l IH]; simpl; [done|].
  assert (ModbusDevIdMatch x id = false ->
    forall m, x = Some m -> devId (element (base m)) <> id) as Hx.
  { intros H m ->. simpl in H. by apply Z.eqb_neq. }
  destruct (ModbusDevIdMatch x id) eqn:E.
  - destruct x as [n|]; [|done]. exists n. split; [done|]. simpl in E. bprop. split; [done|lia].
  - destruct (listSearchKey l id) as [i|].
    + destruct IH as (n & Hn & Hid & Hj). exists n. split; [done|]. split; [done|].
      intros [|j] m Hlt Hm; simpl in Hm; [apply Hx; [done|congruence]|]. apply (Hj j); [lia|done].
    + intros [|j] m Hm; simpl in Hm; [apply Hx; [done|congruence]|]. by apply (IH j).
Qed.
