(* ===== verification/Monitor.v ===== *)
(** The monitor thread of the Modbus side (ModbusDevMonitor of
    source/modbusHandle.c).

    The receivers put the objects the plugins have parsed into a queue; the
    monitor takes them one by one, stores the value in the point of the device
    it belongs to, synchronises the KNX twin of the device and reports to the
    cloud.  [monitor_turn] is one round of the [while] loop after a successful
    [queue_get_wait]; [monitor] is the loop over the objects of the queue. *)

From S2P Require Import Prelude CMem Device PluginApi Nodes.

Definition MBUS_FORCE_SYNC_NUM : Z := 3.

(** A [TY_OBJ_DP_S] the monitor fills; a string value is the contents of the
    buffer it points to. *)
Inductive payload := Num (v : Z) | Str (l : list Z).
Record TyObj := Ty { ty_dpid : Z; ty_type : Z; ty_value : payload }.

(** What the monitor does outside its own data. *)
Inductive event :=
| KnxGroupWrite (pDevId : string) (o : TyObj)
| Report (pDevId : string) (o : TyObj)
| HbFresh (pDevId : string).

(** [errorCode] is the local buffer the error strings are written to;
    [freed] counts the objects taken from the queue that were freed. *)
Record mst (P : Type) := MSt {
  nodes : list (option (Node P));
  g_bActive : bool;
  errorCode : list Z;
  events : list event;
  freed : Z
}.
Arguments MSt {P}.
Arguments nodes {P}.
Arguments g_bActive {P}.
Arguments errorCode {P}.
Arguments events {P}.
Arguments freed {P}.

(** How a branch of the monitor treats a point: [k_str] for the error code,
    [k_report] is the value of [bReport] it leaves. *)
Record kind := Kind { k_str : bool; k_report : bool }.
Definition plain : kind := Kind false true.
Definition silent : kind := Kind false false.
Definition err_str : kind := Kind true true.

(** The points a branch compares the object with, in the order of its tests, by
    their position in the structure, and whether it frees an object that is
    none of them. *)
Record branch := Branch { tests : list (nat * kind); frees : bool }.

Definition MbusAcd : branch :=
  Branch [(0, plain); (1, plain); (2, plain); (3, plain); (4, silent); (5, err_str)]%nat false.
Definition MbusVent : branch := Branch [(0, plain); (1, plain)]%nat false.
Definition MbusHeat : branch := Branch [(0, plain); (1, plain); (2, silent)]%nat true.
Definition MbusAqi : branch := Branch [(1, plain); (0, plain); (2, silent); (3, silent)]%nat true.
Definition ModbusHumidifier : branch := Branch [(1, plain); (0, plain)]%nat true.
Definition ModbusPurifier : branch := Branch [(0, plain); (1, plain); (2, plain); (3, plain)]%nat true.
Definition MbusCurtain : branch := Branch [(0, plain)]%nat true.
Definition MbusPanel : branch := Branch [(0, plain)]%nat true.

Definition branch_of (primaryType : Z) : option branch :=
  if primaryType =? MODBUS_DEVICE_AIRCONDITION then Some MbusAcd
  else if primaryType =? MODBUS_DEVICE_VENTILATION then Some MbusVent
  else if primaryType =? MODBUS_DEVICE_FLOORHEATING then Some MbusHeat
  else if primaryType =? MODBUS_DEVICE_AQI then Some MbusAqi
  else if primaryType =? MODBUS_DEVICE_HUMIDIFIER then Some ModbusHumidifier
  else if primaryType =? MODBUS_DEVICE_PURIFIER then Some ModbusPurifier
  else if primaryType =? MODBUS_DEVICE_CURTAIN then Some MbusCurtain
  else if primaryType =? MODBUS_DEVICE_PANNEL then Some MbusPanel
  else None.

Section Monitor.
Context {P : Type}.
(** [tuya_user_iot_misc_dev_desc_get(key) != NULL]: the cloud knows the device. *)
Variable desc_get : string -> bool.
Implicit Types s : mst P.

Definition get_node (i : nat) : C (mst P) (Node P) := fun s =>
  match nodes s !! i with Some (Some n) => Done (n, s) | _ => Undef end.
Definition put_node (i : nat) (n : Node P) : C (mst P) unit := fun s =>
  Done (tt, MSt (<[i := Some n]> (nodes s)) (g_bActive s) (errorCode s) (events s) (freed s)).
Definition emit (ev : event) : C (mst P) unit := fun s =>
  Done (tt, MSt (nodes s) (g_bActive s) (errorCode s) (events s ++ [ev]) (freed s)).
Definition free_obj : C (mst P) unit := fun s =>
  Done (tt, MSt (nodes s) (g_bActive s) (errorCode s) (events s) (freed s + 1)).
Definition put_error (b0 b1 : Z) : C (mst P) (list Z) := fun s =>
  let l := <[1%nat := u8 b1]> (<[0%nat := u8 b0]> (errorCode s)) in
  Done (l, MSt (nodes s) (g_bActive s) l (events s) (freed s)).
Definition active : C (mst P) bool := fun s => Done (g_bActive s, s).
Definition search (id : Z) : C (mst P) (option nat) := fun s =>
  Done (listSearchKey (nodes s) id, s).

(** [pNode->pX], of a null or missing pointer undefined. *)
Definition get_point (i k : nat) : C (mst P) MbusObj_t :=
  n ← get_node i;
  match points n !! k with Some (Some p) => mret p | _ => undef end.
Definition put_point (i k : nat) (p : MbusObj_t) : C (mst P) unit :=
  n ← get_node i; put_node i (set_points (<[k := Some p]> (points n)) n).

(** The test for a repeated value: the point after it, and whether the code
    jumps to the heartbeat. *)
Definition repeated (p : MbusObj_t) : MbusObj_t * bool :=
  if valueOld p =? value p then
    if forceSync p <? MBUS_FORCE_SYNC_NUM then (set_forceSync (forceSync p + 1) p, true)
    else (set_valueOld (value p) (set_forceSync 0 (set_forceSync (forceSync p + 1) p)), false)
  else (set_valueOld (value p) (set_forceSync 0 p), false).

(** The body of a matching test: the object for the cloud and whether the KNX
    twin is to be synchronised. *)
Definition on_point (i k : nat) (kd : kind) (pObj : MbusObj_t) : C (mst P) (TyObj * bool) :=
  p ← get_point i k;
  tyObj ← (if k_str kd then
             l ← put_error (Z.shiftr (value pObj) 8) (Z.land (value pObj) 0xff);
             mret (Ty (u8 (cloudPoint p)) PROP_STR (Str l))
           else mret (Ty (u8 (cloudPoint p)) (u8 (type p)) (Num (i32 (value pObj)))));
  let '(p', jump) := repeated (set_rcvValue (rcvValue pObj) (set_value (value pObj) p)) in
  _ ← put_point i k p';
  mret (tyObj, negb jump).

(** The chain of tests of [pObj->localPoint]. *)
Fixpoint find_point (i : nat) (ts : list (nat * kind)) (lp : Z) : C (mst P) (option (nat * kind)) :=
  match ts with
  | [] => mret None
  | (k, kd) :: ts =>
      p ← get_point i k;
      if lp =? localPoint p then mret (Some (k, kd)) else find_point i ts lp
  end.

(** [true] when the thread goes on to the next object, [false] when it returns. *)
Definition monitor_turn (pObj : MbusObj_t) : C (mst P) bool :=
  key ← (match pPrimaryKey pObj with Some key => mret key | None => undef end);
  id ← lift (dev_id key);
  match id with
  | None => mret false
  | Some id =>
  r ← search id;
  match r with
  | None => _ ← free_obj; mret true
  | Some i =>
  n ← get_node i;
  let el := element (base n) in
  if negb (bMaster el) then mret true else
  match branch_of (primaryType el) with
  | None => _ ← free_obj; mret true
  | Some br =>
  t ← find_point i (tests br) (localPoint pObj);
  match t with
  | None => _ ← (if frees br then free_obj else mret tt); mret true
  | Some (k, kd) =>
  '(tyObj, sync) ← on_point i k kd pObj;
  _ ← (match pvForeignKey el with
       | Some fkey => if (sync : bool) then emit (KnxGroupWrite fkey tyObj) else mret tt
       | None => mret tt
       end);
  act ← active;
  _ ← (if act && desc_get (e_pPrimaryKey el) then
         _ ← (if k_report kd then emit (Report key tyObj) else mret tt);
         emit (HbFresh key)
       else mret tt);
  _ ← free_obj;
  mret true
  end end end end.

(** The objects of the queue, one after the other. *)
Fixpoint monitor (q : list MbusObj_t) : C (mst P) bool :=
  match q with
  | [] => mret true
  | o :: q => go ← monitor_turn o; if (go : bool) then monitor q else mret false
  end.

End Monitor.

(** ** What a turn does to a point it finds

    [target s o i k kd p]: in state [s] the object [o] is for the point [p], in
    position [k] of the device [i], of kind [kd]. *)

Section Turn.
Context {P : Type}.
Variable desc_get : string -> bool.
Implicit Types s : mst P.

Record target s (o : MbusObj_t) (key : string) (i : nat) (n : Node P) (br : branch) (k : nat)
    (kd : kind) (p : MbusObj_t) : Prop := {
  tg_key : pPrimaryKey o = Some key;
  tg_id : exists id, dev_id key = Done (Some id) /\ listSearchKey (nodes s) id = Some i;
  tg_node : nodes s !! i = Some (Some n);
  tg_master : bMaster (element (base n)) = true;
  tg_branch : branch_of (primaryType (element (base n))) = Some br;
  tg_ptrs : Forall (fun t => exists q, points n !! t.1 = Some (Some q)) (tests br);
  tg_find : exists pre post, tests br = pre ++ (k, kd) :: post /\
    Forall (fun t => forall q, points n !! t.1 = Some (Some q) -> localPoint q <> localPoint o) pre;
  tg_point : points n !! k = Some (Some p);
  tg_lp : localPoint p = localPoint o
}.

(** The error buffer, the object for the cloud, the point and the events after
    the turn. *)
Definition error_after (l : list Z) (kd : kind) (o : MbusObj_t) : list Z :=
  if k_str kd then <[1%nat := u8 (Z.land (value o) 0xff)]> (<[0%nat := u8 (Z.shiftr (value o) 8)]> l)
  else l.
Definition ty_of (l : list Z) (kd : kind) (o p : MbusObj_t) : TyObj :=
  if k_str kd then Ty (u8 (cloudPoint p)) PROP_STR (Str (error_after l kd o))
  else Ty (u8 (cloudPoint p)) (u8 (type p)) (Num (i32 (value o))).
Definition point_after (o p : MbusObj_t) : MbusObj_t * bool :=
  repeated (set_rcvValue (rcvValue o) (set_value (value o) p)).
Definition events_of (act : bool) (key : string) (el : DeviceElement_t) (kd : kind) (ty : TyObj)
    (jump : bool) : list event :=
  (match pvForeignKey el with Some fkey => if jump then [] else [KnxGroupWrite fkey ty] | None => [] end) ++
  (if act && desc_get (e_pPrimaryKey el)
   then (if k_report kd then [Report key ty] else []) ++ [HbFresh key] else []).

Lemma run_node s i n : nodes s !! i = Some (Some n) -> get_node i s = Done (n, s).
Proof. unfold get_node. by intros ->. Qed.

Lemma run_point s i n k p :
  nodes s !! i = Some (Some n) -> points n !! k = Some (Some p) -> get_point i k s = Done (p, s).
Proof.
  intros Hn Hp. unfold get_point. rewrite (bind_done _ _ _ _ _ (run_node _ _ _ Hn)). by rewrite Hp.
Qed.

Lemma run_put_point s i n k p :
  nodes s !! i = Some (Some n) ->
  put_point i k p s = Done (tt, MSt (<[i := Some (set_points (<[k := Some p]> (points n)) n)]> (nodes s))
    (g_bActive s) (errorCode s) (events s) (freed s)).
Proof. intros Hn. unfold put_point. by rewrite (bind_done _ _ _ _ _ (run_node _ _ _ Hn)). Qed.

Lemma run_find_point s o key i n br k kd p :
  target s o key i n br k kd p ->
  find_point i (tests br) (localPoint o) s = Done (Some (k, kd), s).
Proof.
  intros [_ _ Hn _ _ Hptrs (pre & post & Hts & Hpre) Hp Hlp]. rewrite Hts in Hptrs |- *.
  clear Hts. induction pre as [|[k' kd'] pre IH]; simpl.
  - rewrite (bind_done _ _ _ _ _ (run_point _ _ _ _ _ Hn Hp)). by rewrite Hlp, Z.eqb_refl.
  - apply Forall_cons in Hpre as [Hk Hpre]. apply Forall_cons in Hptrs as [(q & Hq) Hptrs].
    rewrite (bind_done _ _ _ _ _ (run_point _ _ _ _ _ Hn Hq)).
    pose proof (Hk q Hq) as Hne. destruct (localPoint o =? localPoint q) eqn:E; bprop; [congruence|].
    by apply IH.
Qed.

Lemma run_on_point s i n k kd p o :
  nodes s !! i = Some (Some n) -> points n !! k = Some (Some p) ->
  on_point i k kd o s = Done ((ty_of (errorCode s) kd o p, negb (point_after o p).2),
    MSt (<[i := Some (set_points (<[k := Some (point_after o p).1]> (points n)) n)]> (nodes s))
      (g_bActive s) (error_after (errorCode s) kd o) (events s) (freed s)).
Proof.
  intros Hn Hp. unfold on_point. rewrite (bind_done _ _ _ _ _ (run_point _ _ _ _ _ Hn Hp)).
  unfold ty_of, error_after, point_after.
  destruct (k_str kd); (erewrite bind_done; [|reflexivity]);
    destruct (repeated _) as [p' jump]; (erewrite bind_done; [|by apply run_put_point]); reflexivity.
Qed.

(** The turn of an object that has a target. *)
Lemma run_turn s o key i n br k kd p :
  target s o key i n br k kd p ->
  monitor_turn desc_get o s = Done (true,
    MSt (<[i := Some (set_points (<[k := Some (point_after o p).1]> (points n)) n)]> (nodes s))
      (g_bActive s) (error_after (errorCode s) kd o)
      (events s ++ events_of (g_bActive s) key (element (base n)) kd
                     (ty_of (errorCode s) kd o p) (point_after o p).2)
      (freed s + 1)).
Proof.
  intros Ht. pose proof (run_find_point _ _ _ _ _ _ _ _ _ Ht) as Hf.
  destruct Ht as [Hkey (id & Hid & Hs) Hn Hm Hbr _ _ Hp _].
  unfold monitor_turn. rewrite Hkey. erewrite bind_done by reflexivity.
  rewrite Hid. erewrite bind_done by reflexivity. cbv beta iota.
  unfold search at 1. erewrite bind_done by reflexivity. rewrite Hs.
  rewrite (bind_done _ _ _ _ _ (run_node _ _ _ Hn)). cbv zeta. rewrite Hm, Hbr. cbn [negb].
  rewrite (bind_done _ _ _ _ _ Hf). rewrite (bind_done _ _ _ _ _ (run_on_point _ _ _ _ kd _ o Hn Hp)).
  unfold events_of. generalize (ty_of (errorCode s) kd o p) as ty. intros ty.
  unfold mbind, C_bind, emit, free_obj, active, mret, C_ret.
  destruct (pvForeignKey _) as [fkey|], ((point_after o p).2), (g_bActive s),
    (desc_get (e_pPrimaryKey (element (base n)))), (k_report kd); cbn;
    rewrite <- ?app_assoc, ?app_nil_r; reflexivity.
Qed.
(** ** The point after a turn *)

Lemma repeated_fields q :
  localPoint (repeated q).1 = localPoint q /\ value (repeated q).1 = value q /\
  rcvValue (repeated q).1 = rcvValue q /\ type (repeated q).1 = type q /\
  cloudPoint (repeated q).1 = cloudPoint q.
Proof. unfold repeated. by destruct (_ =? _); [destruct (_ <? _)|]. Qed.

Lemma point_after_spec o p :
  0 <= forceSync p <= 3 ->
  let p' := (point_after o p).1 in
  localPoint p' = localPoint p /\ value p' = u32 (value o) /\ rcvValue p' = u32 (rcvValue o) /\
  valueOld p' = u32 (value o) /\
  if (point_after o p).2 then valueOld p = u32 (value o) /\ forceSync p < 3 /\ forceSync p' = forceSync p + 1
  else (valueOld p = u32 (value o) -> forceSync p = 3) /\ forceSync p' = 0.
Proof.
  intros Hf. unfold point_after, repeated, MBUS_FORCE_SYNC_NUM. cbn.
  destruct (valueOld p =? u32 (value o)) eqn:E; [destruct (forceSync p <? 3) eqn:E2|]; cbn; bprop.
  - done.
  - rewrite u32_idemp. split_and!; try done. intros _. lia.
  - rewrite u32_idemp. by split_and!.
Qed.

Lemma target_after s o key i n br k kd p :
  target s o key i n br k kd p ->
  let p' := (point_after o p).1 in
  let n' := set_points (<[k := Some p']> (points n)) n in
  forall act err evs fr,
  target (MSt (<[i := Some n']> (nodes s)) act err evs fr) o key i n' br k kd p'.
Proof.
  intros [Hkey (id & Hid & Hs) Hn Hm Hbr Hptrs (pre & post & Hts & Hpre) Hp Hlp] p' n' act err evs fr.
  assert (localPoint p' = localPoint p) as Hlp'.
  { unfold p', point_after. by destruct (repeated_fields (set_rcvValue (rcvValue o) (set_value (value o) p))). }
  assert (k < length (points n))%nat by (by apply lookup_lt_Some in Hp).
  assert (i < length (nodes s))%nat by (by apply lookup_lt_Some in Hn).
  split; simpl; try done.
  - exists id. split; [done|]. rewrite <- Hs. clear Hs. generalize (nodes s), i, Hn. clear.
    intros l. induction l as [|x l IH]; intros [|i] Hi; simpl in *; try done.
    { injection Hi as ->. done. }
    destruct (ModbusDevIdMatch x id); [done|]. by rewrite IH.
  - by apply list_lookup_insert_eq.
  - eapply Forall_impl; [exact Hptrs|]. intros t (q & Hq). unfold n'. simpl.
    destruct (decide (t.1 = k)) as [->|Hne]; [rewrite list_lookup_insert_eq by done; eauto|].
    rewrite list_lookup_insert_ne by done. eauto.
  - exists pre, post. split; [done|]. eapply Forall_impl; [exact Hpre|]. intros [kt kdt] Ht q. unfold n'. simpl in Ht |- *.
    destruct (decide (kt = k)) as [->|Hne].
    + intros _. exfalso. by apply (Ht p).
    + rewrite list_lookup_insert_ne by done. apply Ht.
  - by rewrite list_lookup_insert_eq.
  - by rewrite Hlp'.
Qed.

Definition is_knx (e : event) : bool := match e with KnxGroupWrite _ _ => true | _ => false end.
Definition is_report (e : event) : bool := match e with Report _ _ => true | _ => false end.
Definition count (f : event -> bool) (l : list event) : Z := Z.of_nat (length (filter (fun e => f e = true) l)).

Lemma count_app f l l' : count f (l ++ l') = count f l + count f l'.
Proof. unfold count. rewrite filter_app, length_app. lia. Qed.

Lemma count_events act key el kd ty jump fkey :
  pvForeignKey el = Some fkey ->
  count is_knx (events_of act key el kd ty jump) = (if jump then 0 else 1) /\
  count is_report (events_of act key el kd ty jump) =
    (if act && desc_get (e_pPrimaryKey el) && k_report kd then 1 else 0).
Proof.
  intros Hf. unfold events_of. rewrite Hf.
  by destruct jump, act, (desc_get (e_pPrimaryKey el)), (k_report kd).
Qed.

Lemma monitor_repeat m s o key i n br k kd p fkey :
  target s o key i n br k kd p -> pvForeignKey (element (base n)) = Some fkey ->
  valueOld p = u32 (value o) -> 0 <= forceSync p <= 3 ->
  exists s', monitor desc_get (replicate m o) s = Done (true, s') /\
    count is_knx (events s') = count is_knx (events s) + (Z.of_nat m + forceSync p) / 4 /\
    count is_report (events s') = count is_report (events s) +
      (if g_bActive s && desc_get (e_pPrimaryKey (element (base n))) && k_report kd
       then Z.of_nat m else 0) /\
    freed s' = freed s + Z.of_nat m.
Proof.
  revert s n p. induction m as [|m IH]; intros s n p Ht Hfk Hold Hfs.
  { exists s. split; [done|]. split_and!; [rewrite Z.div_small; lia| |lia].
    destruct (_ && _); lia. }
  simpl replicate. simpl monitor. rewrite (bind_done _ _ _ _ _ (run_turn _ _ _ _ _ _ _ _ _ Ht)).
  destruct (point_after_spec o p Hfs) as (_ & _ & _ & Hold' & Hj).
  edestruct IH as (s' & Hrun & Hk & Hr & Hf).
  { by apply target_after. }
  { done. }
  { by rewrite Hold'. }
  { destruct (point_after o p).2; destruct Hj; lia. }
  exists s'. split; [exact Hrun|]. cbn in Hk, Hr, Hf. rewrite Hk, Hr, Hf, !count_app.
  destruct (count_events (g_bActive s) key (element (base n)) kd (ty_of (errorCode s) kd o p)
    (point_after o p).2 fkey Hfk) as [-> ->].
  destruct (point_after o p).2.
  - destruct Hj as (_ & ? & ->).
    replace (Z.of_nat m + (forceSync p + 1)) with (Z.of_nat (S m) + forceSync p) by lia.
    destruct (_ && _ && _); lia.
  - destruct Hj as (Hf3 & ->). rewrite (Hf3 Hold).
    replace (Z.of_nat (S m) + 3) with (Z.of_nat m + 0 + 1 * 4) by lia. rewrite Z.div_add by lia.
    destruct (_ && _ && _); lia.
Qed.
End Turn.

(** ** Inversion *)

Section Inversion.
Context {P : Type}.
Variable desc_get : string -> bool.
Implicit Types s : mst P.

Lemma get_node_inv i s n s' :
  get_node i s = Done (n, s') -> s' = s /\ nodes s !! i = Some (Some n).
Proof. unfold get_node. destruct (nodes s !! i) as [[m|]|]; [|done..]. by intros [= -> ->]. Qed.

Lemma get_point_inv i k s p s' n :
  get_point i k s = Done (p, s') -> nodes s !! i = Some (Some n) ->
  s' = s /\ points n !! k = Some (Some p).
Proof.
  unfold get_point. intros H Hn. bind_case H n' s1 Hn'. apply get_node_inv in Hn' as [-> Hn'].
  assert (n' = n) as -> by congruence.
  destruct (points n !! k) as [[q|]|]; [|done..]. by injection H as -> ->.
Qed.

Lemma find_point_inv i ts lp s r n s' :
  find_point i ts lp s = Done (r, s') -> nodes s !! i = Some (Some n) ->
  s' = s /\ (r = None ->
    Forall (fun t => exists q, points n !! t.1 = Some (Some q) /\ localPoint q <> lp) ts).
Proof.
  revert s. induction ts as [|[k kd] ts IH]; simpl; intros s H Hn.
  { injection H as <- <-. auto. }
  bind_case H p s1 Hp. apply (get_point_inv _ _ _ _ _ n) in Hp as [-> Hp]; [|done].
  destruct (lp =? localPoint p) eqn:E; bprop.
  - injection H as <- <-. done.
  - apply IH in H as [-> H]; [|done]. split; [done|]. intros Hr. apply Forall_cons. eauto.
Qed.

Lemma on_point_freed i k kd o s r s' :
  on_point i k kd o s = Done (r, s') -> freed s' = freed s.
Proof.
  unfold on_point. intros H. bind_case H p s1 Hp. unfold get_point in Hp.
  bind_case Hp n s2 Hn. apply get_node_inv in Hn as [-> _].
  destruct (points n !! k) as [[q|]|]; [|done..]. injection Hp as -> <-.
  bind_case H ty s3 Hty. destruct (repeated _) as [p' jump].
  bind_case H u s4 Hu. injection H as _ <-. unfold put_point in Hu.
  bind_case Hu n' s5 Hn'. apply get_node_inv in Hn' as [-> _]. injection Hu as _ <-.
  simpl. destruct (k_str kd); injection Hty as _ <-; done.
Qed.

Lemma leaky_branch t br :
  branch_of t = Some br -> frees br = false ->
  t = MODBUS_DEVICE_AIRCONDITION \/ t = MODBUS_DEVICE_VENTILATION.
Proof.
  unfold branch_of. destruct (t =? MODBUS_DEVICE_AIRCONDITION) eqn:E; bprop; [auto|].
  destruct (t =? MODBUS_DEVICE_VENTILATION) eqn:E2; bprop; [auto|].
  intros H. repeat (destruct (_ =? _); [by injection H as <-|]). done.
Qed.
End Inversion.

(** ** Properties *)

Section Properties.
Context {P : Type}.
Variable desc_get : string -> bool.
Implicit Types s : mst P.

(** C4: An object for a point of a master device updates exactly that point:
    its value and received value are stored, every other point and device is
    unchanged, the object is freed, and a value different from the last one
    synchronised is written to the KNX twin at once. *)
Theorem monitor_updates s o key i n br k kd p :
  target s o key i n br k kd p -> 0 <= forceSync p <= 3 ->
  exists s' p', monitor_turn desc_get o s = Done (true, s') /\
    nodes s' = <[i := Some (set_points (<[k := Some p']> (points n)) n)]> (nodes s) /\
    value p' = u32 (value o) /\ rcvValue p' = u32 (rcvValue o) /\ localPoint p' = localPoint p /\
    valueOld p' = u32 (value o) /\ 0 <= forceSync p' <= 3 /\ freed s' = freed s + 1 /\
    (valueOld p <> u32 (value o) -> forall fkey, pvForeignKey (element (base n)) = Some fkey ->
       exists rest, events s' = events s ++ KnxGroupWrite fkey (ty_of (errorCode s) kd o p) :: rest).
Proof.
  intros Ht Hf. pose proof (run_turn desc_get _ _ _ _ _ _ _ _ _ Ht) as Hrun.
  destruct (point_after_spec o p Hf) as (H1 & H2 & H3 & H4 & H5).
  eexists _, (point_after o p).1. split; [exact Hrun|]. split_and!; try done; simpl.
  - destruct (point_after o p).2; destruct H5; lia.
  - destruct (point_after o p).2; destruct H5; lia.
  - intros Hne fkey Hfk. unfold events_of. rewrite Hfk.
    destruct (point_after o p).2; [by destruct H5|]. by eexists.
Qed.

(** Repeated reports of the same value are throttled towards KNX: of [m]
    further objects with the value already synchronised, every fourth one is
    written to the KNX twin; all of them are reported to the cloud (when the
    gateway is active, the cloud knows the device and the point is reported at
    all) and all are freed. *)
Theorem monitor_throttles m s o key i n br k kd p fkey :
  target s o key i n br k kd p -> pvForeignKey (element (base n)) = Some fkey ->
  valueOld p = u32 (value o) -> 0 <= forceSync p <= 3 ->
  exists s', monitor desc_get (replicate m o) s = Done (true, s') /\
    count is_knx (events s') = count is_knx (events s) + (Z.of_nat m + forceSync p) / 4 /\
    count is_report (events s') = count is_report (events s) +
      (if g_bActive s && desc_get (e_pPrimaryKey (element (base n))) && k_report kd
       then Z.of_nat m else 0) /\
    freed s' = freed s + Z.of_nat m.
Proof. apply monitor_repeat. Qed.

(** A turn leaks the object it took exactly when the device is not a master
    or when the point is unknown to an air conditioner or a ventilation device;
    it ends the thread exactly when the primary key has no number after its
    twelfth character. *)
Theorem monitor_frees s o go s' :
  monitor_turn desc_get o s = Done (go, s') ->
  exists key, pPrimaryKey o = Some key /\
  match dev_id key with
  | Done None => go = false /\ s' = s
  | Done (Some id) => go = true /\
      (freed s' = freed s + 1 \/
       s' = s /\ exists i n, listSearchKey (nodes s) id = Some i /\ nodes s !! i = Some (Some n) /\
         (bMaster (element (base n)) = false \/
          (primaryType (element (base n)) = MODBUS_DEVICE_AIRCONDITION \/
           primaryType (element (base n)) = MODBUS_DEVICE_VENTILATION) /\
          Forall (fun t => exists q, points n !! t.1 = Some (Some q) /\ localPoint q <> localPoint o)
            (match branch_of (primaryType (element (base n))) with Some br => tests br | None => [] end)))
  | Undef => False
  end.
Proof.
  unfold monitor_turn. intros H. bind_case H key0 s1 Hkey.
  destruct (pPrimaryKey o) as [key'|]; [|done]. injection Hkey as <- <-. exists key'. split; [done|].
  bind_case H id s2 Hid. destruct (dev_id key') as [[id'|]|]; [| |done]; injection Hid as <- <-.
  2: { by injection H as <- <-. }
  bind_case H r s3 Hr. injection Hr as <- <-.
  destruct (listSearchKey (nodes s) id') as [i|] eqn:Hs.
  2: { injection H as <- <-. auto. }
  bind_case H n s4 Hn. apply get_node_inv in Hn as [-> Hn].
  destruct (bMaster (element (base n))) eqn:Hm; cbn [negb] in H.
  2: { injection H as <- <-. split; [done|]. right. split; [done|]. exists i, n. auto. }
  destruct (branch_of _) as [br|] eqn:Hbr.
  2: { injection H as <- <-. auto. }
  bind_case H t s5 Ht. apply (find_point_inv _ _ _ _ _ n) in Ht as [-> Ht]; [|done].
  destruct t as [[k kd]|].
  - bind_case H r s6 Hon. destruct r as [ty sync]. apply on_point_freed in Hon.
    bind_case H u1 s7 Hk. bind_case H act s8 Ha. injection Ha as <- <-.
    bind_case H u2 s9 Hr. bind_case H u3 s10 Hf. injection Hf as _ <-. injection H as <- <-.
    split; [done|]. left. simpl. rewrite <- Hon. f_equal.
    transitivity (freed s7); [|destruct (pvForeignKey _), sync; by injection Hk as _ <-].
    destruct (_ && _); [destruct (k_report kd)|]; by injection Hr as _ <-.
  - destruct (frees br) eqn:Hfr; injection H as <- <-; [auto|]. split; [done|]. right.
    split; [done|]. exists i, n. split_and!; [done..|]. right. split; [by apply (leaky_branch _ br)|].
    rewrite Hbr. by apply Ht.
Qed.
End Properties.

(** A ventilation device with a KNX twin, its switch off. *)
Definition vent_key : string := "aabbccddeeff7".
Definition vent_point (lp v fs : Z) : MbusObj_t := MbusObj None 0 lp PROP_BOOL 0 0 v v fs 101 0.
Definition vent_node : Node unit :=
  MkNode (Base None (Element vent_key 7 MODBUS_DEVICE_VENTILATION true (Some "knx-vent"%string)) 1 1 0
    true true 0 false None 0) []
    [Some (vent_point VENT_SWITCH 0 0); Some (vent_point VENT_SPEED 2 3)].
Definition vent_state : mst unit := MSt [Some vent_node] true (replicate 16 0) [] 0.
Definition vent_obj (lp v : Z) : MbusObj_t :=
  set_pPrimaryKey (Some vent_key) (reported lp v).

Lemma vent_target lp v k fs w :
  (k, lp, fs, w) = (0%nat, VENT_SWITCH, 0, 0) \/ (k, lp, fs, w) = (1%nat, VENT_SPEED, 3, 2) ->
  target vent_state (vent_obj lp v) vent_key 0 vent_node MbusVent k plain (vent_point lp w fs).
Proof.
  intros H. split; try done.
  - by exists 7.
  - repeat apply Forall_cons; repeat split; simpl; eauto.
  - destruct H as [[= -> -> -> ->]|[= -> -> -> ->]].
    + by exists [], [(1%nat, plain)].
    + exists [(0%nat, plain)], []. split; [done|]. apply Forall_singleton. by intros q [= <-].
  - by destruct H as [[= -> -> -> ->]|[= -> -> -> ->]].
Defined.

Lemma monitor_updates_witness :
  target vent_state (vent_obj VENT_SWITCH 1) vent_key 0 vent_node MbusVent 0 plain
    (vent_point VENT_SWITCH 0 0) /\
  exists s' p', monitor_turn (fun _ => true) (vent_obj VENT_SWITCH 1) vent_state = Done (true, s') /\
    value p' = 1 /\ exists rest,
      events s' = KnxGroupWrite "knx-vent" (Ty 101 PROP_BOOL (Num 1)) :: rest.
Proof.
  assert (target vent_state (vent_obj VENT_SWITCH 1) vent_key 0 vent_node MbusVent 0 plain
    (vent_point VENT_SWITCH 0 0)) as Ht by (apply vent_target; auto).
  split; [exact Ht|].
  destruct (monitor_updates (fun _ => true) _ _ _ _ _ _ _ _ _ Ht) as (s' & p' & H1 & _ & H2 & _ & _ & _ & _ & _ & H3);
    [simpl; lia|].
  exists s', p'. split; [exact H1|]. split; [exact H2|]. apply H3; [simpl; discriminate|reflexivity].
Defined.

Lemma monitor_throttles_witness :
  exists s', monitor (fun _ => true) (replicate 9 (vent_obj VENT_SPEED 2)) vent_state = Done (true, s') /\
    count is_knx (events s') = 3 /\ count is_report (events s') = 9 /\ freed s' = 9.
Proof.
  refine (monitor_throttles (fun _ => true) 9 vent_state (vent_obj VENT_SPEED 2) vent_key 0 vent_node
    MbusVent 1 plain (vent_point VENT_SPEED 2 3) "knx-vent" _ eq_refl eq_refl _); [|simpl; lia].
  apply vent_target. auto.
Defined.

Lemma monitor_frees_witness :
  exists s', monitor_turn (fun _ => true) (vent_obj HEAT_SWITCH 1) vent_state = Done (true, s') /\
    exists key, Some vent_key = Some key /\ freed s' = 0 /\ true = true.
Proof.
  exists vent_state. split; [vm_compute; reflexivity|].
  destruct (monitor_frees (fun _ => true) vent_state (vent_obj HEAT_SWITCH 1) true vent_state eq_refl)
    as (key & Hk & H).
  exists key. split; [exact Hk|]. split; [reflexivity|].
  injection Hk as <-. exact (proj1 H).
Defined.
