(* ===== verification/Serial.v ===== *)
(** The serial ports (source/serialHandle.c).

    A [Serial_t] is a table of the functions below over its parameter block;
    blocks are named by their position in [params], so that two devices whose
    [Serial_t] were copied from one share a block, as in the code.  [locked] are
    the four mutexes of the ports.  What the kernel answers is an oracle; what
    reaches a port is in [trace]. *)

From S2P Require Import Prelude Device.
From stdpp Require Import pretty.

Open Scope Z_scope.

(** ** Line settings

    What [SerialOpen] asks of [termios]. *)

Inductive parity_t := PNone | POdd | PEven.
Record line := Line { l_csize : Z; l_parity : parity_t; l_two_stop : bool; l_speed : Z }.

Record SerialParam_t := Param {
  sfd : Z;
  port : Z;
  baudrate : Z;
  databits : Z;
  parity : Z;
  stopbits : Z;
  devDesc : string;
  bFullDuplex : bool;
  key : Z;
  rcvLen : Z;
  bRcvRun : bool;
  pMutex : option nat
}.

Definition set_sfd v p := Param v (port p) (baudrate p) (databits p) (parity p) (stopbits p)
  (devDesc p) (bFullDuplex p) (key p) (rcvLen p) (bRcvRun p) (pMutex p).
Definition set_port v p := Param (sfd p) v (baudrate p) (databits p) (parity p) (stopbits p)
  (devDesc p) (bFullDuplex p) (key p) (rcvLen p) (bRcvRun p) (pMutex p).
Definition set_baudrate v p := Param (sfd p) (port p) v (databits p) (parity p) (stopbits p)
  (devDesc p) (bFullDuplex p) (key p) (rcvLen p) (bRcvRun p) (pMutex p).
Definition set_databits v p := Param (sfd p) (port p) (baudrate p) v (parity p) (stopbits p)
  (devDesc p) (bFullDuplex p) (key p) (rcvLen p) (bRcvRun p) (pMutex p).
Definition set_parity v p := Param (sfd p) (port p) (baudrate p) (databits p) v (stopbits p)
  (devDesc p) (bFullDuplex p) (key p) (rcvLen p) (bRcvRun p) (pMutex p).
Definition set_stopbits v p := Param (sfd p) (port p) (baudrate p) (databits p) (parity p) v
  (devDesc p) (bFullDuplex p) (key p) (rcvLen p) (bRcvRun p) (pMutex p).
Definition set_devDesc v p := Param (sfd p) (port p) (baudrate p) (databits p) (parity p) (stopbits p)
  v (bFullDuplex p) (key p) (rcvLen p) (bRcvRun p) (pMutex p).
Definition set_bFullDuplex v p := Param (sfd p) (port p) (baudrate p) (databits p) (parity p) (stopbits p)
  (devDesc p) v (key p) (rcvLen p) (bRcvRun p) (pMutex p).
Definition set_key v p := Param (sfd p) (port p) (baudrate p) (databits p) (parity p) (stopbits p)
  (devDesc p) (bFullDuplex p) v (rcvLen p) (bRcvRun p) (pMutex p).
Definition set_rcvLen v p := Param (sfd p) (port p) (baudrate p) (databits p) (parity p) (stopbits p)
  (devDesc p) (bFullDuplex p) (key p) v (bRcvRun p) (pMutex p).
Definition set_bRcvRun v p := Param (sfd p) (port p) (baudrate p) (databits p) (parity p) (stopbits p)
  (devDesc p) (bFullDuplex p) (key p) (rcvLen p) v (pMutex p).
Definition set_pMutex v p := Param (sfd p) (port p) (baudrate p) (databits p) (parity p) (stopbits p)
  (devDesc p) (bFullDuplex p) (key p) (rcvLen p) (bRcvRun p) v.

Definition line_of (p : SerialParam_t) : line :=
  Line
    (if databits p =? 5 then 5 else if databits p =? 6 then 6 else if databits p =? 7 then 7 else 8)
    (if (parity p =? 111) || (parity p =? 79) then POdd
     else if (parity p =? 101) || (parity p =? 69) then PEven else PNone)
    (stopbits p =? 2)
    (if existsb (Z.eqb (baudrate p)) [1200; 2400; 4800; 9600; 19200; 38400; 57600; 115200]
     then baudrate p else 9600).

(** ** The world of the ports *)

Inductive sev :=
| Opened (fd : Z) (path : string)
| Configured (fd : Z) (l : line)
| Sent (fd : Z) (bytes : list Z)
| Closed (fd : Z)
| RcvQueued (p : nat).

(** [opens] are the results of [open] to come (none: 3), [oks] those of
    [tcsetattr], [epoll_ctl] and [write] (none: success). *)
Record world := W {
  params : list SerialParam_t;
  locked : list bool;
  opens : list Z;
  oks : list bool;
  trace : list sev
}.

Definition get_param (i : nat) : io world SerialParam_t := fun w =>
  match params w !! i with Some p => Ran p w | None => Fault end.
Definition put_param (i : nat) (p : SerialParam_t) : io world unit := fun w =>
  Ran tt (W (<[i := p]> (params w)) (locked w) (opens w) (oks w) (trace w)).
Definition upd_param (i : nat) (f : SerialParam_t -> SerialParam_t) : io world unit :=
  p ← get_param i; put_param i (f p).
Definition emit (e : sev) : io world unit := fun w =>
  Ran tt (W (params w) (locked w) (opens w) (oks w) (trace w ++ [e])).
Definition sys_open : io world Z := fun w =>
  Ran (hd 3 (opens w)) (W (params w) (locked w) (tl (opens w)) (oks w) (trace w)).
Definition sys_ok : io world bool := fun w =>
  Ran (hd true (oks w)) (W (params w) (locked w) (opens w) (tl (oks w)) (trace w)).

Definition set_locked (m : nat) (b : bool) : io world unit := fun w =>
  Ran tt (W (params w) (<[m := b]> (locked w)) (opens w) (oks w) (trace w)).
Definition mutex_lock (m : nat) : io world unit := fun w =>
  match locked w !! m with
  | Some false => set_locked m true w
  | Some true => Blocked
  | None => Fault
  end.
(** [true]: the lock was taken. *)
Definition mutex_trylock (m : nat) : io world bool := fun w =>
  match locked w !! m with
  | Some false => (_ ← set_locked m true; mret true) w
  | Some true => Ran false w
  | None => Fault
  end.
Definition mutex_unlock (m : nat) : io world unit := set_locked m false.
Definition unlock_opt (m : option nat) : io world unit :=
  match m with Some m => mutex_unlock m | None => mret tt end.

(** ** The functions of a [Serial_t]

    [this] is the parameter block, [None] a null [this]. *)

Definition dev_path (p : SerialParam_t) : string := "/dev/ttymxc" +:+ pretty (port p).

(** The part of [SerialOpen] after the lock. *)
Definition open_line (i : nat) : io world Z :=
  p ← get_param i;
  fd ← sys_open;
  _ ← upd_param i (set_sfd fd);
  if fd <? 0 then _ ← unlock_opt (pMutex p); mret (-1) else
  _ ← emit (Opened fd (devDesc p));
  ok ← sys_ok;
  if negb ok then
    _ ← emit (Closed fd); _ ← upd_param i (set_sfd (-1)); _ ← unlock_opt (pMutex p); mret (-1)
  else
  _ ← emit (Configured fd (line_of p));
  ok ← sys_ok;
  if negb ok then
    _ ← emit (Closed fd); _ ← upd_param i (set_sfd (-1)); _ ← unlock_opt (pMutex p); mret (-1)
  else mret 0.

Definition SerialOpen (this : option nat) : io world Z :=
  match this with
  | None => mret (-1)
  | Some i =>
  p ← get_param i;
  _ ← (if String.eqb (devDesc p) "" then upd_param i (set_devDesc (dev_path p)) else mret tt);
  if bFullDuplex p then
    match pMutex p with
    | None => fault
    | Some m => got ← mutex_trylock m; if (got : bool) then open_line i else mret 0
    end
  else
    _ ← (match pMutex p with Some m => mutex_lock m | None => mret tt end);
    open_line i
  end.

Definition SerialOpenExt (this : option nat) (pDevDesc : option string)
    (baudrate databits parity stopbits : Z) : io world Z :=
  match this, pDevDesc with
  | Some i, Some d =>
      (* the buffer of the path has 32 bytes *)
      if (31 <? String.length d)%nat then fault else
      _ ← upd_param i (fun p => set_devDesc d (set_stopbits stopbits (set_parity parity
            (set_databits databits (set_baudrate baudrate p)))));
      _ ← SerialOpen this;
      mret 0
  | _, _ => mret (-1)
  end.

Definition SerialClose (this : option nat) : io world unit :=
  match this with
  | None => mret tt
  | Some i =>
  p ← get_param i;
  if sfd p =? -1 then mret tt else
  _ ← emit (Closed (sfd p));
  _ ← upd_param i (fun p => set_bRcvRun false (set_sfd (-1) p));
  unlock_opt (pMutex p)
  end.

(** A write to a closed descriptor fails. *)
Definition SerialWrite (this : option nat) (pBuf : option (list Z)) (len : Z) : io world Z :=
  match this with
  | None => fault
  | Some i =>
  p ← get_param i;
  match pBuf with
  | None => mret (-1)
  | Some buf =>
  if len =? 0 then mret (-1) else
  if sfd p <? 0 then mret (-1) else
  ok ← sys_ok;
  if negb ok then mret (-1) else
  _ ← emit (Sent (sfd p) (take (Z.to_nat len) buf));
  mret 0
  end end.

(** [pThis] is the serial pointer of a device; the receiver thread gets the
    device. *)
Definition SerialRead (pThis : option nat) : io world Z :=
  match pThis with
  | None => mret (-1)
  | Some i =>
  p ← get_param i;
  if bFullDuplex p && bRcvRun p then mret 0 else
  _ ← emit (RcvQueued i);
  mret 0
  end.

Definition set_if (this : option nat) (ok : bool) (f : SerialParam_t -> SerialParam_t) : io world Z :=
  match this with
  | Some i => if ok then _ ← upd_param i f; mret 0 else mret (-1)
  | None => mret (-1)
  end.

Definition SetPort (this : option nat) (v : Z) : io world Z :=
  set_if this (negb ((v <? 1) || (4 <? v)))
    (fun p => set_port v (set_pMutex (Some (Z.to_nat (v - 1))) p)).
Definition SetBaudrate (this : option nat) (v : Z) : io world Z :=
  set_if this (negb ((v <? 2400) || (115200 <? v))) (set_baudrate v).
Definition SetDatabits (this : option nat) (v : Z) : io world Z :=
  set_if this (negb ((v <? 5) || (8 <? v))) (set_databits v).
Definition SetParity (this : option nat) (v : Z) : io world Z :=
  set_if this (existsb (Z.eqb v) [110; 78; 111; 79; 101; 69]) (set_parity v).
Definition SetStopbits (this : option nat) (v : Z) : io world Z :=
  set_if this (negb ((v <? 1) || (2 <? v))) (set_stopbits v).
Definition SetLock (this : option nat) (m : option nat) : io world Z :=
  match m with Some m => set_if this true (set_pMutex (Some m)) | None => mret (-1) end.
Definition SetFullDuplex (this : option nat) (b : bool) : io world Z := set_if this true (set_bFullDuplex b).
Definition SetKey (this : option nat) (v : Z) : io world Z := set_if this true (set_key (u16 v)).
Definition SetRcvLen (this : option nat) (v : Z) : io world Z := set_if this true (set_rcvLen (u16 v)).
Definition GetPort (i : nat) : io world Z := p ← get_param i; mret (port p).
Definition GetBaudrate (i : nat) : io world Z := p ← get_param i; mret (baudrate p).
Definition GetDatabits (i : nat) : io world Z := p ← get_param i; mret (databits p).
Definition GetParity (i : nat) : io world Z := p ← get_param i; mret (parity p).
Definition GetStopbits (i : nat) : io world Z := p ← get_param i; mret (stopbits p).

(** The block a successful [SerialInit] makes. *)
Definition SerialInit_param : SerialParam_t :=
  Param (-1) 0 0 0 0 0 "" false 0 0 false None.

(** ** Rules *)

Lemma iwp_get_param i p (Q : SerialParam_t -> world -> Prop) w :
  params w !! i = Some p -> Q p w -> iwp (get_param i) Q w.
Proof. unfold iwp, get_param. by intros ->. Qed.

Lemma iwp_upd_param i p f (Q : unit -> world -> Prop) w :
  params w !! i = Some p ->
  Q tt (W (<[i := f p]> (params w)) (locked w) (opens w) (oks w) (trace w)) ->
  iwp (upd_param i f) Q w.
Proof. intros Hp HQ. by apply iwp_bind, (iwp_get_param _ p). Qed.

Lemma iwp_emit e (Q : unit -> world -> Prop) w :
  Q tt (W (params w) (locked w) (opens w) (oks w) (trace w ++ [e])) -> iwp (emit e) Q w.
Proof. done. Qed.

Lemma iwp_sys_open (Q : Z -> world -> Prop) w :
  Q (hd 3 (opens w)) (W (params w) (locked w) (tl (opens w)) (oks w) (trace w)) -> iwp sys_open Q w.
Proof. done. Qed.

Lemma iwp_sys_ok (Q : bool -> world -> Prop) w :
  (forall b l, Q b (W (params w) (locked w) (opens w) l (trace w))) -> iwp sys_ok Q w.
Proof. intros HQ. unfold iwp, sys_ok. apply HQ. Qed.

Lemma iwp_mutex_lock m (Q : unit -> world -> Prop) w :
  (m < length (locked w))%nat ->
  (locked w !! m = Some false ->
   Q tt (W (params w) (<[m := true]> (locked w)) (opens w) (oks w) (trace w))) ->
  iwp (mutex_lock m) Q w.
Proof.
  intros Hm HQ. unfold iwp, mutex_lock.
  destruct (lookup_lt_is_Some_2 _ _ Hm) as [[] E]; rewrite E; [done|by apply HQ].
Qed.

Lemma iwp_mutex_trylock m (Q : bool -> world -> Prop) w :
  (m < length (locked w))%nat ->
  (locked w !! m = Some false ->
   Q true (W (params w) (<[m := true]> (locked w)) (opens w) (oks w) (trace w))) ->
  (locked w !! m = Some true -> Q false w) ->
  iwp (mutex_trylock m) Q w.
Proof.
  intros Hm HQ HQ'. unfold iwp, mutex_trylock.
  destruct (lookup_lt_is_Some_2 _ _ Hm) as [[] E]; rewrite E; [by apply HQ'|by apply HQ].
Qed.

(** ** The invariant of the ports *)

Definition is_open (p : SerialParam_t) : Z := if sfd p =? -1 then 0 else 1.
Definition nopen (l : list SerialParam_t) : Z := fold_right (fun p n => is_open p + n) 0 l.

(** Descriptors opened and not closed yet. *)
Fixpoint balance (t : list sev) : Z :=
  match t with
  | [] => 0
  | Opened _ _ :: t => balance t + 1
  | Closed _ :: t => balance t - 1
  | _ :: t => balance t
  end.

(** A port is locked exactly while one block using it is open, and no
    descriptor is lost. *)
Record ports_ok (w : world) : Prop := {
  po_locked : length (locked w) = 4%nat;
  po_opens : Forall (fun fd => -1 <= fd) (opens w);
  po_params : Forall (fun p => -1 <= sfd p /\ exists m, pMutex p = Some m /\ (m < 4)%nat) (params w);
  po_open : forall i p m, params w !! i = Some p -> pMutex p = Some m -> sfd p <> -1 ->
    locked w !! m = Some true;
  po_owner : forall m, locked w !! m = Some true ->
    exists i p, params w !! i = Some p /\ pMutex p = Some m /\ sfd p <> -1;
  po_unique : forall i j p q m, params w !! i = Some p -> params w !! j = Some q ->
    pMutex p = Some m -> pMutex q = Some m -> sfd p <> -1 -> sfd q <> -1 -> i = j;
  po_balance : balance (trace w) = nopen (params w)
}.

Lemma nopen_insert l i p q :
  l !! i = Some p -> nopen (<[i := q]> l) = nopen l - is_open p + is_open q.
Proof.
  revert i. induction l as [|x l IH]; intros [|i]; simpl; try done.
  - intros [= ->]. lia.
  - intros Hi. rewrite (IH _ Hi). lia.
Qed.

Lemma balance_app t t' : balance (t ++ t') = balance t + balance t'.
Proof. induction t as [|e t IH]; simpl; [done|]. destruct e; lia. Qed.

Definition fds_ok (l : list Z) : Prop := Forall (fun fd => -1 <= fd) l.

Lemma fds_tl l : fds_ok l -> fds_ok (tl l).
Proof. intros H. destruct H; [constructor|done]. Qed.

Lemma fds_hd l : fds_ok l -> -1 <= hd 3 l.
Proof. intros H. destruct H; simpl; [lia|done]. Qed.

Lemma locked_closed w i p m :
  ports_ok w -> params w !! i = Some p -> pMutex p = Some m -> locked w !! m = Some false -> sfd p = -1.
Proof.
  intros Hw Hp Hm Hl. destruct (decide (sfd p = -1)) as [|Hne]; [done|].
  pose proof (po_open _ Hw i p m Hp Hm Hne). congruence.
Qed.

Lemma insert_cases {A} (l : list A) i j x y :
  <[i := x]> l !! j = Some y -> (j = i /\ y = x) \/ (j <> i /\ l !! j = Some y).
Proof. rewrite list_lookup_insert_Some. naive_solver. Qed.

(** Three ways a step leaves the ports: no descriptor changes, one is opened
    on a free port, one is closed. *)
Lemma ports_ok_same w i p q os ok t :
  ports_ok w -> params w !! i = Some p -> sfd q = sfd p -> pMutex q = pMutex p ->
  fds_ok os -> balance t = balance (trace w) ->
  ports_ok (W (<[i := q]> (params w)) (locked w) os ok t).
Proof.
  intros [H1 H2 H3 H4 H5 H6 H7] Hp Hs Hm Hos Ht.
  split; simpl; try done.
  - apply Forall_insert; [done|]. rewrite Hs, Hm. by apply (Forall_lookup_1 _ _ _ _ H3 Hp).
  - intros j r m [[-> ->]|[_ Hj]]%insert_cases; [rewrite Hs, Hm; by apply (H4 i)|by apply (H4 j)].
  - intros m Hl. destruct (H5 m Hl) as (j & r & Hj & Hr & Hne).
    destruct (decide (j = i)) as [->|Hji].
    + assert (r = p) as -> by congruence. exists i, q.
      rewrite list_lookup_insert_eq, Hs, Hm by (by apply lookup_lt_Some in Hp). done.
    + exists j, r. by rewrite list_lookup_insert_ne.
  - intros j k r r' m [[-> ->]|[_ Hj]]%insert_cases [[-> ->]|[_ Hk]]%insert_cases;
      rewrite ?Hs, ?Hm; intros; try done; by eapply H6.
  - rewrite (nopen_insert _ _ _ _ Hp). unfold is_open at 1 2. rewrite Hs. lia.
Qed.

Lemma ports_ok_opened w i p q m os ok t :
  ports_ok w -> params w !! i = Some p -> pMutex p = Some m -> locked w !! m = Some false ->
  0 <= sfd q -> pMutex q = Some m -> fds_ok os -> balance t = balance (trace w) + 1 ->
  ports_ok (W (<[i := q]> (params w)) (<[m := true]> (locked w)) os ok t).
Proof.
  intros Hw Hp Hm Hl Hq Hqm Hos Ht. pose proof (locked_closed _ _ _ _ Hw Hp Hm Hl) as Hsp.
  destruct Hw as [H1 H2 H3 H4 H5 H6 H7].
  assert (m < length (locked w))%nat by (by apply lookup_lt_Some in Hl).
  assert (forall j r, params w !! j = Some r -> pMutex r = Some m -> sfd r <> -1 -> False) as Hfree.
  { intros j r Hj Hr Hne. pose proof (H4 j r m Hj Hr Hne). congruence. }
  split; simpl; try done.
  - by rewrite length_insert.
  - apply Forall_insert; [done|]. split; [lia|]. exists m. split; [done|lia].
  - intros j r m' [[-> ->]|[_ Hj]]%insert_cases Hr Hne.
    + assert (m' = m) as -> by congruence. by rewrite list_lookup_insert_eq.
    + destruct (decide (m' = m)) as [->|]; [by rewrite list_lookup_insert_eq|].
      rewrite list_lookup_insert_ne by done. by apply (H4 j r).
  - intros m' [[-> _]|[Hne Hm']]%insert_cases.
    + exists i, q. rewrite list_lookup_insert_eq by (by apply lookup_lt_Some in Hp).
      split_and!; [done|done|lia].
    + destruct (H5 m' Hm') as (j & r & Hj & Hr & Hr'). exists j, r.
      rewrite list_lookup_insert_ne; [done|]. intros ->. congruence.
  - intros j k r r' m' [[-> ->]|[_ Hj]]%insert_cases [[-> ->]|[_ Hk]]%insert_cases Hr Hr' Hn Hn';
      try done; [| |by eapply H6].
    + assert (m' = m) as -> by congruence. by destruct (Hfree k r').
    + assert (m' = m) as -> by congruence. by destruct (Hfree j r).
  - rewrite (nopen_insert _ _ _ _ Hp). unfold is_open at 1 2. rewrite Hsp.
    destruct (sfd q =? -1) eqn:E; bprop; simpl; lia.
Qed.

Lemma ports_ok_closed w i p q m os ok t :
  ports_ok w -> params w !! i = Some p -> pMutex p = Some m -> sfd p <> -1 ->
  sfd q = -1 -> pMutex q = Some m -> fds_ok os -> balance t = balance (trace w) - 1 ->
  ports_ok (W (<[i := q]> (params w)) (<[m := false]> (locked w)) os ok t).
Proof.
  intros [H1 H2 H3 H4 H5 H6 H7] Hp Hm Hsp Hq Hqm Hos Ht.
  assert (m < length (locked w))%nat.
  { pose proof (H4 i p m Hp Hm Hsp) as E. by apply lookup_lt_Some in E. }
  split; simpl; try done.
  - by rewrite length_insert.
  - apply Forall_insert; [done|]. split; [lia|]. exists m. split; [done|lia].
  - intros j r m' [[-> ->]|[Hji Hj]]%insert_cases Hr Hne; [done|].
    rewrite list_lookup_insert_ne; [by apply (H4 j r)|]. intros <-. apply Hji. by eapply H6.
  - intros m' [[_ ?]|[Hne Hm']]%insert_cases; [done|].
    destruct (H5 m' Hm') as (j & r & Hj & Hr & Hr'). exists j, r.
    rewrite list_lookup_insert_ne; [done|]. intros ->. congruence.
  - intros j k r r' m' [[-> ->]|[_ Hj]]%insert_cases [[-> ->]|[_ Hk]]%insert_cases Hr Hr' Hn Hn';
      try done. by eapply H6.
  - rewrite (nopen_insert _ _ _ _ Hp). unfold is_open at 1 2. rewrite Hq. simpl.
    destruct (sfd p =? -1) eqn:E; bprop; simpl; lia.
Qed.

(** ** Open and close *)

Definition opened_trace (fd : Z) (p : SerialParam_t) : list sev :=
  [Opened fd (devDesc p); Configured fd (line_of p)].

(** Nothing is written to a line. *)
Definition quiet (e : sev) : Prop := match e with Sent _ _ => False | _ => True end.

(** [r] is the result of opening the line of block [i], which is [p], on port
    [m] of [w]. *)
Definition open_post (w : world) (i m : nat) (p : SerialParam_t) (r : Z) (w' : world) : Prop :=
  ports_ok w' /\
  (r = 0 /\ (exists fd, 0 <= fd /\ params w' = <[i := set_sfd fd p]> (params w) /\
     locked w' = <[m := true]> (locked w) /\ trace w' = trace w ++ opened_trace fd p) \/
   r = -1 /\ params w' = <[i := set_sfd (-1) p]> (params w) /\ locked w' = locked w /\
     exists tr, trace w' = trace w ++ tr /\ Forall quiet tr).

Lemma relock (l : list bool) m : l !! m = Some false -> <[m := false]> (<[m := true]> l) = l.
Proof. intros H. by rewrite list_insert_insert_eq, list_insert_id. Qed.

Lemma set_sfd_set a b p : set_sfd a (set_sfd b p) = set_sfd a p.
Proof. done. Qed.

Lemma iwp_open_line w i p m :
  ports_ok w -> params w !! i = Some p -> pMutex p = Some m -> locked w !! m = Some false ->
  iwp (open_line i) (open_post w i m p)
    (W (params w) (<[m := true]> (locked w)) (opens w) (oks w) (trace w)).
Proof.
  intros Hw Hp Hm Hl. pose proof (locked_closed _ _ _ _ Hw Hp Hm Hl) as Hsp.
  pose proof (fds_hd _ (po_opens _ Hw)) as Hfd. pose proof (fds_tl _ (po_opens _ Hw)) as Htl.
  assert (i < length (params w))%nat by (by apply lookup_lt_Some in Hp).
  unfold open_line. apply iwp_bind, (iwp_get_param _ p); [done|].
  apply iwp_bind, iwp_sys_open. apply iwp_bind, (iwp_upd_param _ p); [done|]. simpl.
  set (fd := hd 3 (opens w)) in *. rewrite Hm.
  assert (forall ok t, balance t = 0 -> Forall quiet t ->
    open_post w i m p (-1) (W (<[i := set_sfd (-1) p]> (params w)) (locked w) (tl (opens w)) ok
      (trace w ++ t))) as Hfail.
  { intros ok t Ht Hq. split; [|right; split_and!; try done; by exists t].
    eapply ports_ok_same; try done. rewrite balance_app. lia. }
  destruct (fd <? 0) eqn:E; bprop.
  { apply iwp_bind. simpl. apply iwp_ret. simpl. rewrite (relock _ _ Hl).
    replace fd with (-1) by lia. rewrite <- (app_nil_r (trace w)). by apply Hfail. }
  apply iwp_bind, iwp_emit. apply iwp_bind, iwp_sys_ok. intros [] l; simpl.
  2: { apply iwp_bind, iwp_emit. apply iwp_bind, (iwp_upd_param _ (set_sfd fd p)).
       { simpl. by rewrite list_lookup_insert_eq. }
       apply iwp_bind, iwp_ret. simpl. rewrite (relock _ _ Hl), list_insert_insert_eq.
       rewrite <- ?app_assoc. apply Hfail; [done|by repeat constructor]. }
  apply iwp_bind, iwp_emit. apply iwp_bind, iwp_sys_ok. intros [] l'; simpl.
  2: { apply iwp_bind, iwp_emit. apply iwp_bind, (iwp_upd_param _ (set_sfd fd p)).
       { simpl. by rewrite list_lookup_insert_eq. }
       apply iwp_bind, iwp_ret. simpl. rewrite (relock _ _ Hl), list_insert_insert_eq.
       rewrite <- ?app_assoc. apply Hfail; [done|by repeat constructor]. }
  apply iwp_ret. split.
  - apply (ports_ok_opened w i p); try done. rewrite <- app_assoc, balance_app. simpl. lia.
  - left. split; [done|]. exists fd. simpl. unfold opened_trace. by rewrite <- app_assoc.
Qed.

(** The block once it has the path of its port. *)
Definition with_path (p : SerialParam_t) : SerialParam_t :=
  if String.eqb (devDesc p) "" then set_devDesc (dev_path p) p else p.
Definition at_path (w : world) (i : nat) (p : SerialParam_t) : world :=
  W (<[i := with_path p]> (params w)) (locked w) (opens w) (oks w) (trace w).

Lemma at_path_ok w i p : ports_ok w -> params w !! i = Some p -> ports_ok (at_path w i p).
Proof.
  intros Hw Hp. apply (ports_ok_same w i p); try done; [| |apply Hw];
    unfold with_path; by destruct (String.eqb _ _).
Qed.

Lemma iwp_set_path i p (Q : unit -> world -> Prop) w :
  params w !! i = Some p -> Q tt (at_path w i p) ->
  iwp (if String.eqb (devDesc p) "" then upd_param i (set_devDesc (dev_path p)) else mret tt) Q w.
Proof.
  unfold at_path, with_path. intros Hp HQ. destruct (String.eqb _ _).
  - by apply (iwp_upd_param _ p).
  - rewrite list_insert_id in HQ by done. apply iwp_ret. by destruct w.
Qed.

Lemma iwp_SerialOpen w i p m (Q : Z -> world -> Prop) :
  ports_ok w -> params w !! i = Some p -> pMutex p = Some m ->
  (forall r w', locked w !! m = Some false -> open_post (at_path w i p) i m (with_path p) r w' -> Q r w') ->
  (bFullDuplex p = true -> locked w !! m = Some true -> Q 0 (at_path w i p)) ->
  iwp (SerialOpen (Some i)) Q w.
Proof.
  intros Hw Hp Hm HQ HQ'. unfold SerialOpen.
  assert (m < length (locked w))%nat as Hml.
  { rewrite (po_locked _ Hw). destruct (Forall_lookup_1 _ _ _ _ (po_params _ Hw) Hp) as (_ & m' & ? & ?).
    congruence. }
  assert (pMutex (with_path p) = Some m) as Hm'.
  { unfold with_path. by destruct (String.eqb _ _). }
  assert (params (at_path w i p) !! i = Some (with_path p)) as Hp'.
  { simpl. rewrite list_lookup_insert_eq; [done|]. by apply lookup_lt_Some in Hp. }
  pose proof (at_path_ok _ _ _ Hw Hp) as Hw'.
  apply iwp_bind, (iwp_get_param _ p); [done|]. apply iwp_bind, (iwp_set_path _ p); [done|].
  rewrite Hm. destruct (bFullDuplex p).
  - apply iwp_bind, iwp_mutex_trylock; [done| |].
    + intros Hl. eapply iwp_mono; [by eapply (iwp_open_line (at_path w i p))|]. intros r w' Hr. by apply HQ.
    + intros Hl. by apply iwp_ret, HQ'.
  - apply iwp_bind, iwp_mutex_lock; [done|]. intros Hl.
    eapply iwp_mono; [by eapply (iwp_open_line (at_path w i p))|]. intros r w' Hr. by apply HQ.
Qed.

Definition closed_param (p : SerialParam_t) : SerialParam_t := set_bRcvRun false (set_sfd (-1) p).

Lemma iwp_SerialClose w i p m (Q : unit -> world -> Prop) :
  ports_ok w -> params w !! i = Some p -> pMutex p = Some m ->
  (sfd p = -1 -> Q tt w) ->
  (sfd p <> -1 -> forall w', ports_ok w' -> params w' = <[i := closed_param p]> (params w) ->
     locked w' = <[m := false]> (locked w) -> trace w' = trace w ++ [Closed (sfd p)] ->
     opens w' = opens w -> Q tt w') ->
  iwp (SerialClose (Some i)) Q w.
Proof.
  intros Hw Hp Hm HQ HQ'. unfold SerialClose. apply iwp_bind, (iwp_get_param _ p); [done|].
  destruct (sfd p =? -1) eqn:E; bprop; [by apply iwp_ret, HQ|].
  apply iwp_bind, iwp_emit. apply iwp_bind, (iwp_upd_param _ p); [done|]. rewrite Hm. simpl.
  apply HQ'; try done. apply (ports_ok_closed w i p); try done; [apply Hw|].
  simpl. rewrite balance_app. simpl. lia.
Qed.

Lemma iwp_SerialWrite w i p buf len (Q : Z -> world -> Prop) :
  ports_ok w -> params w !! i = Some p ->
  (forall w', ports_ok w' -> params w' = params w -> locked w' = locked w -> trace w' = trace w ->
     Q (-1) w') ->
  (0 <= sfd p -> len <> 0 -> forall w', ports_ok w' -> params w' = params w -> locked w' = locked w ->
     trace w' = trace w ++ [Sent (sfd p) (take (Z.to_nat len) buf)] -> Q 0 w') ->
  iwp (SerialWrite (Some i) (Some buf) len) Q w.
Proof.
  intros Hw Hp HQ HQ'. unfold SerialWrite. apply iwp_bind, (iwp_get_param _ p); [done|].
  destruct (len =? 0) eqn:E; bprop; [by apply iwp_ret, HQ|].
  destruct (sfd p <? 0) eqn:E'; bprop; [by apply iwp_ret, HQ|].
  apply iwp_bind, iwp_sys_ok. intros b l.
  assert (forall ok t, balance t = balance (trace w) ->
    ports_ok (W (params w) (locked w) (opens w) ok t)) as Hok.
  { intros ok t Ht. pose proof (ports_ok_same w i p p (opens w) ok t Hw Hp eq_refl eq_refl
      (po_opens _ Hw) Ht) as H. by rewrite list_insert_id in H. }
  destruct b; cbn [negb].
  - apply iwp_bind, iwp_emit, iwp_ret. apply HQ'; try done. apply Hok. rewrite balance_app. simpl. lia.
  - apply iwp_ret, HQ; try done. by apply Hok.
Qed.

Lemma iwp_SerialRead w i p (Q : Z -> world -> Prop) :
  ports_ok w -> params w !! i = Some p ->
  (forall w', ports_ok w' -> params w' = params w -> locked w' = locked w ->
     trace w' = trace w ++ (if bFullDuplex p && bRcvRun p then [] else [RcvQueued i]) -> Q 0 w') ->
  iwp (SerialRead (Some i)) Q w.
Proof.
  intros Hw Hp HQ. unfold SerialRead. apply iwp_bind, (iwp_get_param _ p); [done|].
  destruct (bFullDuplex p && bRcvRun p).
  - apply iwp_ret, HQ; try done. by rewrite app_nil_r.
  - apply iwp_bind, iwp_emit, iwp_ret, HQ; try done.
    pose proof (ports_ok_same w i p p (opens w) (oks w) (trace w ++ [RcvQueued i]) Hw Hp eq_refl eq_refl
      (po_opens _ Hw)) as H. rewrite list_insert_id in H by done. apply H.
    rewrite balance_app. simpl. lia.
Qed.

(** ** What a step cannot touch

    [keeps R m]: whenever [m] ends, its start and end are related by [R]. *)

Definition keeps (R : world -> world -> Prop) {A} (m : io world A) : Prop :=
  forall w a w', m w = Ran a w' -> R w w'.

(** Only block [i] changes, and nothing is written to a line. *)
Definition only (i : nat) (w w' : world) : Prop :=
  (forall k, k <> i -> params w' !! k = params w !! k) /\
  exists tr, trace w' = trace w ++ tr /\ Forall quiet tr.

Lemma only_refl i w : only i w w.
Proof. split; [done|]. exists []. by rewrite app_nil_r. Qed.

Lemma only_trans i w1 w2 w3 : only i w1 w2 -> only i w2 w3 -> only i w1 w3.
Proof.
  intros (H1 & t1 & T1 & Q1) (H2 & t2 & T2 & Q2). split.
  - intros k Hk. by rewrite H2, H1.
  - exists (t1 ++ t2). rewrite T2, T1, app_assoc. split; [done|]. by apply Forall_app.
Qed.

Section Only.
Context (i : nat).

Lemma keeps_ret {A} (a : A) : keeps (only i) (mret a).
Proof. intros w ? ? [= _ <-]. apply only_refl. Qed.

Lemma keeps_bind {A B} (m : io world A) (f : A -> io world B) :
  keeps (only i) m -> (forall a, keeps (only i) (f a)) -> keeps (only i) (m ≫= f).
Proof.
  intros Hm Hf w b w'. unfold mbind, io_bind. destruct (m w) as [a w1| |] eqn:E; [|done..].
  intros H. eapply only_trans; [by eapply Hm|by eapply Hf].
Qed.

Lemma keeps_get : keeps (only i) (get_param i).
Proof.
  intros w a w'. unfold get_param. destruct (params w !! i); [|done].
  intros [= _ <-]. apply only_refl.
Qed.

Lemma keeps_upd f : keeps (only i) (upd_param i f).
Proof.
  apply keeps_bind; [apply keeps_get|]. intros p w a w' [= _ <-]. split.
  - intros k Hk. simpl. by rewrite list_lookup_insert_ne.
  - exists []. simpl. by rewrite app_nil_r.
Qed.

Lemma keeps_emit e : quiet e -> keeps (only i) (emit e).
Proof. intros He w a w' [= _ <-]. split; [done|]. exists [e]. split; [done|by repeat constructor]. Qed.

Lemma keeps_same {A} (m : io world A) :
  (forall w a w', m w = Ran a w' -> params w' = params w /\ trace w' = trace w) -> keeps (only i) m.
Proof.
  intros H w a w' E. destruct (H _ _ _ E) as [Hp Ht]. split; [by rewrite Hp|].
  exists []. by rewrite app_nil_r.
Qed.

Lemma keeps_sys_open : keeps (only i) sys_open.
Proof. apply keeps_same. by intros w a w' [= _ <-]. Qed.
Lemma keeps_sys_ok : keeps (only i) sys_ok.
Proof. apply keeps_same. by intros w a w' [= _ <-]. Qed.
Lemma keeps_unlock_opt m : keeps (only i) (unlock_opt m).
Proof. apply keeps_same. destruct m; by intros w a w' [= _ <-]. Qed.
Lemma keeps_mutex_lock m : keeps (only i) (mutex_lock m).
Proof.
  apply keeps_same. intros w a w'. unfold mutex_lock.
  destruct (locked w !! m) as [[]|]; [done| |done]. by intros [= _ <-].
Qed.
Lemma keeps_mutex_trylock m : keeps (only i) (mutex_trylock m).
Proof.
  apply keeps_same. intros w a w'. unfold mutex_trylock.
  destruct (locked w !! m) as [[]|]; [| |done]; by intros [= _ <-].
Qed.
Lemma keeps_fault {A} : keeps (only i) (fault : io world A).
Proof. done. Qed.
End Only.

Ltac keeps_auto :=
  repeat first
    [ apply keeps_ret | apply keeps_get | apply keeps_upd | apply keeps_sys_open | apply keeps_sys_ok
    | apply keeps_unlock_opt | apply keeps_mutex_lock | apply keeps_mutex_trylock | apply keeps_fault
    | apply keeps_emit; exact I | apply keeps_bind; [|intros ?]
    | match goal with |- keeps _ (match ?x with _ => _ end) => destruct x end ].

Lemma keeps_SerialOpen i : keeps (only i) (SerialOpen (Some i)).
Proof. unfold SerialOpen, open_line. keeps_auto. Qed.

Lemma keeps_SerialClose i : keeps (only i) (SerialClose (Some i)).
Proof. unfold SerialClose. keeps_auto. Qed.

Lemma params_path w j p : params w !! j = Some p -> params (at_path w j p) !! j = Some (with_path p).
Proof. intros Hp. simpl. rewrite list_lookup_insert_eq; [done|]. by apply lookup_lt_Some in Hp. Qed.

Lemma run_set_path w i p :
  params w !! i = Some p ->
  (if String.eqb (devDesc p) "" then upd_param i (set_devDesc (dev_path p)) else mret tt) w
  = Ran tt (at_path w i p).
Proof.
  intros Hp. unfold at_path, with_path. destruct (String.eqb _ _).
  - unfold upd_param, mbind, io_bind, get_param. by rewrite Hp.
  - rewrite list_insert_id by done. by destruct w.
Qed.

Lemma SerialOpen_waits w i p m :
  params w !! i = Some p -> pMutex p = Some m -> bFullDuplex p = false ->
  locked w !! m = Some true -> SerialOpen (Some i) w = Blocked.
Proof.
  intros Hp Hm Hd Hl. unfold SerialOpen, mbind, io_bind, upd_param, get_param, put_param, mutex_lock.
  rewrite Hp. destruct (String.eqb _ _); cbn; unfold mbind, io_bind; rewrite ?Hp, Hd, Hm; cbn; by rewrite Hl.
Qed.

(** Nothing but a taken mutex makes a thread wait. *)
Lemma bind_not_blocked {A B} (m : io world A) (f : A -> io world B) w :
  m w <> Blocked -> (forall a w', f a w' <> Blocked) -> (m ≫= f) w <> Blocked.
Proof. unfold mbind, io_bind. intros Hm Hf. destruct (m w); auto. Qed.

Lemma open_line_runs i w : open_line i w <> Blocked.
Proof.
  unfold open_line. repeat (apply bind_not_blocked; [|intros]);
    repeat first [ apply bind_not_blocked; [|intros] | match goal with |- (match ?x with _ => _ end) _ <> _ => destruct x end ];
    try done; unfold get_param; try (by destruct (params _ !! i)); try (destruct (pMutex _); done).
Qed.

Lemma SerialOpen_runs w i p m :
  params w !! i = Some p -> pMutex p = Some m -> locked w !! m = Some false ->
  SerialOpen (Some i) w <> Blocked.
Proof.
  intros Hp Hm Hl. unfold SerialOpen. unfold mbind at 1, io_bind at 1, get_param. rewrite Hp.
  unfold mbind at 1, io_bind at 1.
  assert (exists w1, (if String.eqb (devDesc p) "" then upd_param i (set_devDesc (dev_path p)) else mret tt) w
    = Ran tt w1 /\ locked w1 = locked w) as (w1 & -> & Hl1).
  { destruct (String.eqb _ _); [|by exists w]. eexists. unfold upd_param, mbind, io_bind, get_param.
    rewrite Hp. by split. }
  rewrite Hm. destruct (bFullDuplex p); apply bind_not_blocked;
    [unfold mutex_trylock|intros []|unfold mutex_lock|intros; apply open_line_runs]; rewrite ?Hl1, ?Hl;
    try done. apply open_line_runs.
Qed.

(** ** Properties *)

(** Opening a half-duplex port whose mutex is free either opens and
    configures the line as the block asks and takes the port, or fails with
    the port free and no descriptor left behind; when the mutex is taken the
    thread waits.  The ports stay in order. *)
Theorem serial_open_half w i p m :
  ports_ok w -> params w !! i = Some p -> pMutex p = Some m -> bFullDuplex p = false ->
  match SerialOpen (Some i) w with
  | Ran r w' => locked w !! m = Some false /\ ports_ok w' /\
      (r = 0 /\ (exists fd, 0 <= fd /\ params w' = <[i := set_sfd fd (with_path p)]> (params w) /\
         locked w' = <[m := true]> (locked w) /\
         trace w' = trace w ++ [Opened fd (devDesc (with_path p)); Configured fd (line_of p)]) \/
       r = -1 /\ locked w' = locked w /\ nopen (params w') = nopen (params w))
  | Blocked => locked w !! m = Some true
  | Fault => False
  end.
Proof.
  intros Hw Hp Hm Hd.
  assert (locked w !! m = Some true \/ locked w !! m = Some false) as Hl.
  { destruct (Forall_lookup_1 _ _ _ _ (po_params _ Hw) Hp) as (_ & m' & Hm' & Hlt).
    rewrite <- (po_locked _ Hw) in Hlt. assert (m' = m) as -> by congruence.
    destruct (lookup_lt_is_Some_2 _ _ Hlt) as [[] E]; auto. }
  destruct Hl as [Hl|Hl]; [by rewrite (SerialOpen_waits _ _ _ _ Hp Hm Hd Hl)|].
  pose proof (iwp_SerialOpen w i p m (fun r w' => open_post (at_path w i p) i m (with_path p) r w')
    Hw Hp Hm (fun _ _ _ H => H)) as H. unfold iwp in H. rewrite Hd in H.
  destruct (SerialOpen (Some i) w) as [r w'| |] eqn:E; [| |by apply H].
  2: { exfalso. by apply (SerialOpen_runs w i p m). }
  split; [done|]. destruct H as [Hok H]; [done|]. split; [done|].
  assert (i < length (params w))%nat by (by apply lookup_lt_Some in Hp).
  destruct H as [(-> & fd & Hfd & Hpar & Hlk & Htr)|(-> & Hpar & Hlk & _)]; [left|right].
  - split; [done|]. exists fd. split; [done|]. split; [by rewrite Hpar; simpl; rewrite list_insert_insert_eq|].
    split; [done|]. rewrite Htr. unfold opened_trace, with_path. by destruct (String.eqb _ _).
  - split; [done|]. split; [done|]. rewrite Hpar. simpl. rewrite list_insert_insert_eq.
    rewrite (nopen_insert _ _ _ _ Hp).
    assert (sfd p = -1) as Hs by (by apply (locked_closed w i p m)).
    unfold is_open. rewrite Hs. simpl. lia.
Qed.

Definition a_port (fd : Z) (dup : bool) : SerialParam_t := Param fd 1 9600 8 110 1 "" dup 0 0 false (Some 0%nat).
Definition free_world (dup : bool) : world :=
  W [a_port (-1) dup; a_port (-1) dup] [false; false; false; false] [] [] [].

Lemma free_world_ok dup : ports_ok (free_world dup).
Proof.
  assert (forall i p, params (free_world dup) !! i = Some p -> p = a_port (-1) dup) as Hp.
  { intros [|[|i]] p; simpl; [by intros [= <-]..|done]. }
  assert (forall m, locked (free_world dup) !! m = Some true -> False) as Hl.
  { by intros [|[|[|[|m]]]]. }
  split; try done.
  - apply (Forall_replicate _ 2 (a_port (-1) dup)). split; [simpl; lia|]. exists 0%nat. split; [done|lia].
  - by intros i p m ->%Hp.
  - intros m H. by destruct (Hl m).
  - by intros i j p q m ->%Hp.
Qed.

Lemma serial_open_half_witness :
  ports_ok (free_world false) /\
  match SerialOpen (Some 1%nat) (free_world false) with
  | Ran r w' => ports_ok w'
  | _ => False
  end.
Proof.
  split; [apply free_world_ok|].
  pose proof (serial_open_half (free_world false) 1 (a_port (-1) false) 0 (free_world_ok false)
    eq_refl eq_refl eq_refl) as H.
  assert (match SerialOpen (Some 1%nat) (free_world false) with Ran _ _ => true | _ => false end = true)
    as E by reflexivity.
  destruct (SerialOpen (Some 1%nat) (free_world false)) as [r w'| |]; [|discriminate E..].
  exact (proj1 (proj2 H)).
Defined.

(** On a full-duplex port held by another block, opening reports success
    without opening anything, and what is then written is lost: [SerialWrite]
    fails and no byte reaches a line. *)
Theorem serial_full_duplex_lost w i p j q m buf len :
  ports_ok w -> params w !! i = Some p -> pMutex p = Some m -> bFullDuplex p = true -> sfd p = -1 ->
  params w !! j = Some q -> pMutex q = Some m -> sfd q <> -1 ->
  exists w', SerialOpen (Some i) w = Ran 0 w' /\ trace w' = trace w /\
    SerialWrite (Some i) (Some buf) len w' = Ran (-1) w'.
Proof.
  intros Hw Hp Hm Hd Hs Hq Hmq Hsq. exists (at_path w i p).
  pose proof (po_open _ Hw j q m Hq Hmq Hsq) as Hl.
  pose proof (params_path _ _ _ Hp) as Hp'.
  assert (sfd (with_path p) = -1) as Hs' by (unfold with_path; by destruct (String.eqb _ _)).
  split; [|split; [done|]].
  - unfold SerialOpen, mbind, io_bind. unfold get_param at 1. rewrite Hp.
    pose proof (run_set_path w i p Hp) as E. unfold mbind, io_bind in E. rewrite E.
    rewrite Hd, Hm. unfold mutex_trylock. simpl. by rewrite Hl.
  - unfold SerialWrite, mbind, io_bind. unfold get_param. rewrite Hp'.
    destruct (len =? 0); [done|]. by rewrite Hs'.
Qed.

Definition held_world : world :=
  W [a_port (-1) true; a_port 3 true] [true; false; false; false] [] [] [Opened 3 "/dev/ttymxc1"].

Lemma serial_full_duplex_lost_witness :
  exists w', SerialOpen (Some 0%nat) held_world = Ran 0 w' /\ trace w' = [Opened 3 "/dev/ttymxc1"] /\
    SerialWrite (Some 0%nat) (Some [1; 2]) 2 w' = Ran (-1) w'.
Proof.
  refine (serial_full_duplex_lost held_world 0 (a_port (-1) true) 1 (a_port 3 true) 0 [1; 2] 2
    _ eq_refl eq_refl eq_refl eq_refl eq_refl eq_refl _); [|discriminate].
  assert (forall m, locked held_world !! m = Some true -> m = 0%nat) as Hl.
  { by intros [|[|[|[|m]]]]. }
  split; try done.
  - apply Forall_cons_2; [|apply Forall_cons_2; [|apply Forall_nil_2]];
      (split; [simpl; lia|]; exists 0%nat; split; [done|lia]).
  - intros [|[|i]] p m; simpl; [intros [= <-]..|done]; intros [= <-] Hs; simpl in *; [lia|done].
  - intros m ->%Hl. by exists 1%nat, (a_port 3 true).
  - intros [|[|i]] [|[|j]] p q m; simpl; intros [= <-] [= <-]; simpl; lia || done.
Defined.

Definition std_baud (v : Z) : bool :=
  existsb (Z.eqb v) [1200; 2400; 4800; 9600; 19200; 38400; 57600; 115200].
Definition parity_code (v : Z) : parity_t :=
  if (v =? 111) || (v =? 79) then POdd else if (v =? 101) || (v =? 69) then PEven else PNone.

Definition set_up (v b d y t : Z) (p : SerialParam_t) : SerialParam_t :=
  set_stopbits t (set_parity y (set_databits d (set_baudrate b
    (set_port v (set_pMutex (Some (Z.to_nat (v - 1))) p))))).

(** The setters accept exactly ports 1 to 4, speeds 2400 to 115200, 5 to 8
    data bits, the six parity letters and 1 or 2 stop bits, and reject anything
    else without a change.  A block they have set up selects the mutex of its
    port and makes [SerialOpen] ask for exactly these settings, except that a
    speed that is not a standard one is replaced by 9600. *)
Theorem serial_setters w i p v b d y t :
  params w !! i = Some p ->
  (forall x, ~ 1 <= x <= 4 -> SetPort (Some i) x w = Ran (-1) w) /\
  (forall x, ~ 2400 <= x <= 115200 -> SetBaudrate (Some i) x w = Ran (-1) w) /\
  (forall x, ~ 5 <= x <= 8 -> SetDatabits (Some i) x w = Ran (-1) w) /\
  (forall x, ~ In x [110; 78; 111; 79; 101; 69] -> SetParity (Some i) x w = Ran (-1) w) /\
  (forall x, ~ 1 <= x <= 2 -> SetStopbits (Some i) x w = Ran (-1) w) /\
  (1 <= v <= 4 -> 2400 <= b <= 115200 -> 5 <= d <= 8 -> In y [110; 78; 111; 79; 101; 69] -> 1 <= t <= 2 ->
   exists w' p', (r1 ← SetPort (Some i) v; r2 ← SetBaudrate (Some i) b; r3 ← SetDatabits (Some i) d;
      r4 ← SetParity (Some i) y; r5 ← SetStopbits (Some i) t; mret [r1; r2; r3; r4; r5]) w
      = Ran [0; 0; 0; 0; 0] w' /\ params w' !! i = Some p' /\ pMutex p' = Some (Z.to_nat (v - 1)) /\
     line_of p' = Line d (parity_code y) (t =? 2) (if std_baud b then b else 9600)).
Proof.
  intros Hp.
  assert (forall f, set_if (Some i) true f w =
    Ran 0 (W (<[i := f p]> (params w)) (locked w) (opens w) (oks w) (trace w))) as Hset.
  { intros f. unfold set_if, upd_param, mbind, io_bind, get_param. by rewrite Hp. }
  split_and!.
  1-5: intros x Hx; unfold SetPort, SetBaudrate, SetDatabits, SetParity, SetStopbits;
    match goal with |- set_if _ ?c _ _ = _ => destruct c eqn:E; [|done] end; exfalso; apply Hx.
  1-3,5: bprop; lia.
  { apply existsb_exists in E as (z & Hz & ?). bprop. by subst. }
  intros Hv Hb Hd Hy Ht.
  exists (W (<[i := set_up v b d y t p]> (params w)) (locked w) (opens w) (oks w) (trace w)), (set_up v b d y t p).
  assert (i < length (params w))%nat by (by apply lookup_lt_Some in Hp).
  split_and!; [|by apply list_lookup_insert_eq|done|].
  - unfold SetPort, SetBaudrate, SetDatabits, SetParity, SetStopbits, set_if, upd_param.
    unfold mbind, io_bind, get_param, put_param.
    replace (negb ((v <? 1) || (4 <? v))) with true by (symmetry; apply negb_true_iff, orb_false_iff; lia).
    replace (negb ((b <? 2400) || (115200 <? b))) with true by (symmetry; apply negb_true_iff, orb_false_iff; lia).
    replace (negb ((d <? 5) || (8 <? d))) with true by (symmetry; apply negb_true_iff, orb_false_iff; lia).
    replace (negb ((t <? 1) || (2 <? t))) with true by (symmetry; apply negb_true_iff, orb_false_iff; lia).
    replace (existsb (Z.eqb y) [110; 78; 111; 79; 101; 69]) with true
      by (symmetry; apply existsb_exists; exists y; split; [done|apply Z.eqb_refl]).
    rewrite Hp. cbn. repeat (rewrite list_lookup_insert_eq by (rewrite ?length_insert; done); cbn).
    unfold mret, io_ret. do 2 f_equal. by rewrite !list_insert_insert_eq.
  - unfold line_of, set_up, parity_code, std_baud. simpl. f_equal.
    destruct (d =? 5) eqn:E5; [by bprop|]. destruct (d =? 6) eqn:E6; [by bprop|].
    destruct (d =? 7) eqn:E7; [by bprop|]. bprop. lia.
Qed.

Lemma serial_setters_witness :
  params (free_world false) !! 0%nat = Some (a_port (-1) false) /\
  SetBaudrate (Some 0%nat) 1200 (free_world false) = Ran (-1) (free_world false) /\
  exists w' p', (r1 ← SetPort (Some 0%nat) 2; r2 ← SetBaudrate (Some 0%nat) 14400;
      r3 ← SetDatabits (Some 0%nat) 8; r4 ← SetParity (Some 0%nat) 101;
      r5 ← SetStopbits (Some 0%nat) 1; mret [r1; r2; r3; r4; r5]) (free_world false)
      = Ran [0; 0; 0; 0; 0] w' /\ params w' !! 0%nat = Some p' /\ pMutex p' = Some 1%nat /\
      line_of p' = Line 8 PEven false 9600.
Proof.
  destruct (serial_setters (free_world false) 0 (a_port (-1) false) 2 14400 8 101 1 eq_refl)
    as (_ & H2 & _ & _ & _ & H6).
  split; [reflexivity|]. split; [apply H2; lia|].
  apply H6; [lia|lia|lia|simpl; auto 10|lia].
Defined.
