(* ===== verification/ModbusWrite.v ===== *)
(** Writing to a Modbus device (ModbusDevWrite, Modbus_DevHealth and
    Mbus_SyncAllDevStatus of source/modbusHandle.c).

    The state joins the serial ports, the allocator with the static variables
    of the plugins ([P]), the device list, and a log of what is handed to the
    KNX side and to the cloud.  The plugins are reached through the functions of
    their [MbusIf]; what is assumed of them is the interface of [PluginApi]. *)

From S2P Require Import Prelude CMem Device PluginApi VentPlugins Serial Nodes.

Inductive gev :=
| KnxGroupWrite (pDevId : string) (o : ty_obj_dp_s)
| CloudReport (pDevId : string) (o : ty_obj_dp_s)
| HbFresh (pDevId : string).

Record gst (P : Type) := G {
  ports : world;
  penv : env P;
  gnodes : list (option (Node P));
  g_bActive : bool;
  log : list gev
}.
Arguments G {P}.
Arguments ports {P}.
Arguments penv {P}.
Arguments gnodes {P}.
Arguments g_bActive {P}.
Arguments log {P}.

Section Gateway.
Context {P : Type}.
Implicit Types s : gst P.

Definition on_ports {A} (m : io world A) : io (gst P) A := fun s =>
  match m (ports s) with
  | Ran a w => Ran a (G w (penv s) (gnodes s) (g_bActive s) (log s))
  | Blocked => Blocked
  | Fault => Fault
  end.
Definition on_env {A} (m : C (env P) A) : io (gst P) A := fun s =>
  match m (penv s) with
  | Done (a, e) => Ran a (G (ports s) e (gnodes s) (g_bActive s) (log s))
  | Undef => Fault
  end.
Definition note (e : gev) : io (gst P) unit := fun s =>
  Ran tt (G (ports s) (penv s) (gnodes s) (g_bActive s) (log s ++ [e])).
Definition is_active : io (gst P) bool := fun s => Ran (g_bActive s) s.
Definition search (id : Z) : io (gst P) (option nat) := fun s => Ran (listSearchKey (gnodes s) id) s.
Definition get_node (i : nat) : io (gst P) (Node P) := fun s =>
  match gnodes s !! i with Some (Some n) => Ran n s | _ => Fault end.
Definition put_node (i : nat) (n : Node P) : io (gst P) unit := fun s =>
  Ran tt (G (ports s) (penv s) (<[i := Some n]> (gnodes s)) (g_bActive s) (log s)).

(** [pIf->build(...)] or [pIf->buildExt(...)] for base [b], addressing group
    [groupAddr]; [None] for a null message. *)
Definition call_build (pIf : MbusIf P) (b : MbusBase_t P) (groupAddr : Z) (n : Node P)
    (pObj : option ty_obj_dp_s) : io (gst P) (option Msg_t) :=
  match build pIf, buildExt pIf with
  | Some f, _ => on_env (f (u8 (devAddr b)) (regAddr b) groupAddr (Some (node_arg n)) pObj)
  | None, Some f => on_env (f (devAddr b) (regAddr b) groupAddr pObj)
  | None, None => mret None
  end.

Definition can_build (pIf : MbusIf P) : bool :=
  match build pIf, buildExt pIf with None, None => false | _, _ => true end.

(** [!pMsg->pBuf || pMsg->len == 0], freeing the message. *)
Definition bad_msg (m : Msg_t) : bool := match pBuf m with None => true | Some _ => len m =? 0 end.
Definition free_msg (m : Msg_t) : io (gst P) unit :=
  _ ← (match pBuf m with Some _ => on_env free | None => mret tt end); on_env free.

(** [lostCnt++; if (lostCnt < 3) lostCnt++; else lostCnt = 0;] on a [uint8_t]. *)
Definition lost_step (c : Z) : Z :=
  let c := u8 (c + 1) in if c <? 3 then u8 (c + 1) else 0.
Definition set_lostCnt (c : Z) (b : MbusBase_t P) : MbusBase_t P :=
  Base (pIf b) (element b) (devAddr b) (regAddr b) (delay b) (bFeedback b) (bOnlineCheck b)
    (hbIgnore b) (bFullDuplex b) (pSerial b) c.
Definition set_hbIgnore (h : Z) (b : MbusBase_t P) : MbusBase_t P :=
  Base (pIf b) (element b) (devAddr b) (regAddr b) (delay b) (bFeedback b) (bOnlineCheck b)
    h (bFullDuplex b) (pSerial b) (lostCnt b).

(** Handling the message the plugin has built, the line being open. *)
Definition deliver (i : nat) (n : Node P) (m : Msg_t) : io (gst P) (option Z) :=
  let b := base n in
  if bad_msg m then
    _ ← free_msg m; _ ← on_ports (SerialClose (pSerial b)); mret (Some (-1))
  else
  _ ← on_ports (SerialWrite (pSerial b) (pBuf m) (len m));
  _ ← put_node i (set_base (set_lostCnt (lost_step (lostCnt b)) b) n);
  _ ← (if bFeedback b then _ ← on_ports (SerialRead (pSerial b)); mret tt
       else if negb (bFullDuplex b) then on_ports (SerialClose (pSerial b))
       else mret tt);
  _ ← free_msg m;
  mret None.

(** The message for the device itself; [Some r] when the function returns. *)
Definition write_head (i : nat) (n : Node P) (pIf : MbusIf P) (pObj : ty_obj_dp_s)
    : io (gst P) (option Z) :=
  let b := base n in
  ret ← on_ports (SerialOpen (pSerial b));
  if negb (ret =? 0) then mret None else
  pMsg ← call_build pIf b (regAddr b) n (Some pObj);
  match pMsg with
  | None => _ ← on_ports (SerialClose (pSerial b)); mret (Some (-1))
  | Some m => deliver i n m
  end.

(** The state is passed on when the device does not answer for itself. *)
Definition pass_on (b : MbusBase_t P) (pObj : ty_obj_dp_s) : io (gst P) unit :=
  if bFeedback b then mret tt else
  _ ← (match bMaster (element b), pvForeignKey (element b) with
       | true, Some fkey => note (KnxGroupWrite fkey pObj)
       | _, _ => mret tt
       end);
  act ← is_active;
  if (act : bool) then
    _ ← note (CloudReport (e_pPrimaryKey (element b)) pObj);
    note (HbFresh (e_pPrimaryKey (element b)))
  else mret tt.

(** The [while (pBase)] over the group members [ms]; the frames go out on the
    serial of the first device. *)
Fixpoint write_members (n : Node P) (ms : list (MbusBase_t P)) (pObj : ty_obj_dp_s)
    : io (gst P) Z :=
  match ms with
  | [] => mret 0
  | b :: ms =>
      match pSerial b, pIf b with
      | None, _ => fault
      | Some j, pIf =>
      ret1 ← on_ports (SerialOpen (Some j));
      if negb (ret1 =? 0) then write_members n ms pObj else
      match pIf with
      | None => fault
      | Some pIf =>
      pMsg ← call_build pIf b (regAddr (base n)) n (Some pObj);
      match pMsg with
      | None => mret (-1)
      | Some m =>
      if bad_msg m then _ ← free_msg m; mret (-1) else
      _ ← on_ports (SerialWrite (pSerial (base n)) (pBuf m) (len m));
      _ ← free_msg m;
      _ ← on_ports (SerialClose (Some j));
      write_members n ms pObj
      end end end
  end.

Definition ModbusDevWrite (pDevId : option string) (pObj : option ty_obj_dp_s) : io (gst P) Z :=
  match pDevId, pObj with
  | Some key, Some pObj =>
  match dev_id key with
  | Undef => fault
  | Done None => mret (-1)
  | Done (Some id) =>
  r ← search id;
  match r with
  | None => mret (-1)
  | Some i =>
  n ← get_node i;
  match pIf (base n) with
  | None => mret (-1)
  | Some pIf =>
  if negb (can_build pIf) then mret (-1) else
  match pSerial (base n) with
  | None => mret (-1)
  | Some _ =>
  stop ← write_head i n pIf pObj;
  match stop with
  | Some r => mret r
  | None =>
  _ ← pass_on (base n) pObj;
  write_members n (members n) pObj
  end end end end end
  | _, _ => mret (-1)
  end.

(** ** Polling *)

(** Every sixth call for a device sends its query; the answer is read by the
    receiver thread, which closes the port. *)
Definition Modbus_DevHealth (key : string) : io (gst P) unit :=
  match dev_id key with
  | Undef => fault
  | Done None => mret tt
  | Done (Some id) =>
  r ← search id;
  match r with
  | None => mret tt
  | Some i =>
  n ← get_node i;
  let b := base n in
  _ ← (if bOnlineCheck b then mret tt else note (HbFresh (e_pPrimaryKey (element b))));
  if hbIgnore b <? 5 then put_node i (set_base (set_hbIgnore (hbIgnore b + 1) b) n) else
  let b := set_hbIgnore 0 b in
  let n := set_base b n in
  _ ← put_node i n;
  match pIf b with
  | None => mret tt
  | Some pIf =>
  if negb (can_build pIf) then mret tt else
  pMsg ← call_build pIf b (regAddr b) n None;
  match pMsg with
  | None => mret tt
  | Some m =>
  match pBuf m, pSerial b with
  | None, _ => on_env free
  | Some _, None => on_env free
  | Some _, Some _ =>
  ret ← on_ports (SerialOpen (pSerial b));
  _ ← (if ret =? 0 then
         _ ← on_ports (SerialWrite (pSerial b) (pBuf m) (len m));
         _ ← on_ports (SerialRead (pSerial b)); mret tt
       else mret tt);
  free_msg m
  end end end end end.

(** One device of [Mbus_SyncAllDevStatus]. *)
Definition sync_dev (n : Node P) : io (gst P) unit :=
  let b := base n in
  match pIf b with
  | None => mret tt
  | Some pIf =>
  if negb (can_build pIf) then mret tt else
  pMsg ← call_build pIf b (regAddr b) n None;
  match pMsg with
  | None => mret tt
  | Some m =>
  if bad_msg m then free_msg m else
  match pSerial b with
  | None => on_env free
  | Some _ =>
  ret ← on_ports (SerialOpen (pSerial b));
  _ ← (if ret =? 0 then
         _ ← on_ports (SerialWrite (pSerial b) (pBuf m) (len m));
         if bFeedback b then _ ← on_ports (SerialRead (pSerial b)); mret tt
         else if negb (bFullDuplex b) then on_ports (SerialClose (pSerial b))
         else mret tt
       else mret tt);
  free_msg m
  end end end.

Fixpoint Mbus_SyncAllDevStatus (l : list (option (Node P))) : io (gst P) unit :=
  match l with
  | [] => mret tt
  | n :: l =>
      _ ← (match n with Some n => sync_dev n | None => mret tt end);
      Mbus_SyncAllDevStatus l
  end.

End Gateway.

(** ** Rules *)

Section GatewayRules.
Context {P : Type}.
Implicit Types s : gst P.

Definition with_ports (w : world) s : gst P := G w (penv s) (gnodes s) (g_bActive s) (log s).
Definition with_env (e : env P) s : gst P := G (ports s) e (gnodes s) (g_bActive s) (log s).
Definition with_nodes l s : gst P := G (ports s) (penv s) l (g_bActive s) (log s).
Definition with_log l s : gst P := G (ports s) (penv s) (gnodes s) (g_bActive s) l.

Lemma iwp_on_ports {A} (m : io world A) (Q : A -> gst P -> Prop) s :
  iwp m (fun a w => Q a (with_ports w s)) (ports s) -> iwp (on_ports m) Q s.
Proof. unfold iwp, on_ports. by destruct (m (ports s)). Qed.

Lemma iwp_on_env {A} (m : C (env P) A) (Q : A -> gst P -> Prop) s :
  wp m (fun a e => Q a (with_env e s)) (penv s) -> iwp (on_env m) Q s.
Proof. unfold iwp, wp, on_env. by destruct (m (penv s)) as [[a e]|]. Qed.

(** The bytes of [Sent] events satisfy [okf]. *)
Definition sent_ok (okf : list Z -> Prop) (e : sev) : Prop :=
  match e with Sent _ bs => okf bs | _ => True end.

Definition same_ports (w w' : world) : Prop :=
  forall j p, params w !! j = Some p -> exists p', params w' !! j = Some p' /\
    pMutex p' = pMutex p /\ Serial.bFullDuplex p' = Serial.bFullDuplex p.

(** What a part of a write leaves alone: the ports stay in order, every frame
    sent is one of [okf], the plugins keep their invariant; [d] blocks more are
    live. *)
Record stepped (inv : P -> Prop) (okf : list Z -> Prop) (d : Z) s s' : Prop := {
  sd_ports : ports_ok (ports s');
  sd_same : same_ports (ports s) (ports s');
  sd_inv : inv (st (penv s'));
  sd_live : live (mem (penv s')) = live (mem (penv s)) + d;
  sd_trace : exists tr, trace (ports s') = trace (ports s) ++ tr /\ Forall (sent_ok okf) tr
}.

Lemma same_ports_refl w : same_ports w w.
Proof. intros j p Hp. eauto. Qed.

Lemma same_ports_trans w1 w2 w3 : same_ports w1 w2 -> same_ports w2 w3 -> same_ports w1 w3.
Proof.
  intros H1 H2 j p Hp. destruct (H1 j p Hp) as (p' & Hp' & Hm & Hd).
  destruct (H2 j p' Hp') as (p2 & Hp2 & Hm2 & Hd2). exists p2. split_and!; [done|congruence..].
Qed.

Lemma same_ports_insert w w' i p q :
  params w !! i = Some p -> params w' = <[i := q]> (params w) ->
  pMutex q = pMutex p -> Serial.bFullDuplex q = Serial.bFullDuplex p -> same_ports w w'.
Proof.
  intros Hp Hw Hm Hd j r Hj. rewrite Hw. destruct (decide (j = i)) as [->|Hne].
  - exists q. rewrite list_lookup_insert_eq by (by apply lookup_lt_Some in Hp).
    split_and!; [done|congruence..].
  - exists r. by rewrite list_lookup_insert_ne.
Qed.

Lemma stepped_trans inv okf d1 d2 d s1 s2 s3 :
  stepped inv okf d1 s1 s2 -> stepped inv okf d2 s2 s3 -> d = d1 + d2 -> stepped inv okf d s1 s3.
Proof.
  intros [_ S1 _ L1 (t1 & T1 & F1)] [P2 S2 I2 L2 (t2 & T2 & F2)] ->. split; [done| |done|lia|].
  - by eapply same_ports_trans.
  - exists (t1 ++ t2). rewrite T2, T1, app_assoc. split; [done|]. by apply Forall_app.
Qed.

(** A step of the ports alone. *)
Lemma stepped_ports (inv : P -> Prop) okf s w' tr :
  inv (st (penv s)) -> ports_ok w' -> same_ports (ports s) w' ->
  trace w' = trace (ports s) ++ tr -> Forall (sent_ok okf) tr ->
  stepped inv okf 0 s (with_ports w' s).
Proof. intros Hi Hw Hs Ht Hf. split; simpl; try done; [lia|by exists tr]. Qed.

Lemma stepped_env (inv : P -> Prop) okf d s e :
  ports_ok (ports s) -> inv (st e) -> live (mem e) = live (mem (penv s)) + d ->
  stepped inv okf d s (with_env e s).
Proof.
  intros Hw Hi Hl. split; simpl; try done; [apply same_ports_refl|]. exists []. by rewrite app_nil_r.
Qed.
End GatewayRules.

(** ** Serial steps as steps of the gateway *)

Section Steps.
Context {P : Type}.
Context (inv : P -> Prop) (okf : list Z -> Prop).
Implicit Types s : gst P.

(** Block [j] of the ports of [s] is [p], on port [m]. *)
Definition at_port s (j : nat) (p : SerialParam_t) (m : nat) : Prop :=
  params (ports s) !! j = Some p /\ pMutex p = Some m.

Lemma at_port_step s s' j p m :
  same_ports (ports s) (ports s') -> at_port s j p m ->
  exists p', at_port s' j p' m /\ Serial.bFullDuplex p' = Serial.bFullDuplex p.
Proof. intros Hs [Hp Hm]. destruct (Hs j p Hp) as (p' & ? & ? & ?). exists p'. repeat split; congruence. Qed.

Lemma with_path_mutex p : pMutex (with_path p) = pMutex p.
Proof. unfold with_path. by destruct (String.eqb _ _). Qed.
Lemma with_path_duplex p : Serial.bFullDuplex (with_path p) = Serial.bFullDuplex p.
Proof. unfold with_path. by destruct (String.eqb _ _). Qed.

Lemma params_at_path w j p : params w !! j = Some p -> params (at_path w j p) !! j = Some (with_path p).
Proof. intros Hp. simpl. rewrite list_lookup_insert_eq; [done|]. by apply lookup_lt_Some in Hp. Qed.

Lemma same_at_path w j p : params w !! j = Some p -> same_ports w (at_path w j p).
Proof.
  intros Hp. by eapply same_ports_insert; [|reflexivity|apply with_path_mutex|apply with_path_duplex].
Qed.

(** Opening: on success of a half duplex port it was free and is now taken. *)
Lemma iwp_open s j p m (Q : Z -> gst P -> Prop) :
  ports_ok (ports s) -> inv (st (penv s)) -> at_port s j p m ->
  (forall s', stepped inv okf 0 s s' -> penv s' = penv s -> gnodes s' = gnodes s ->
     (Serial.bFullDuplex p = false -> locked (ports s') = <[m := true]> (locked (ports s)) /\
        locked (ports s) !! m = Some false /\
        exists p', at_port s' j p' m /\ 0 <= sfd p') -> Q 0 s') ->
  (forall s', stepped inv okf 0 s s' -> penv s' = penv s -> gnodes s' = gnodes s ->
     locked (ports s') = locked (ports s) -> Q (-1) s') ->
  iwp (on_ports (SerialOpen (Some j))) Q s.
Proof.
  intros Hw Hi [Hp Hm] HQ HQ'. apply iwp_on_ports.
  pose proof (params_at_path _ _ _ Hp) as Hp'. pose proof (same_at_path _ _ _ Hp) as Hs.
  apply (iwp_SerialOpen _ j p m); [done|done|done| |].
  - intros r w' Hl [Hok [(-> & fd & Hfd & Hpar & Hlk & Htr)|(-> & Hpar & Hlk & tr & Htr & Hq)]].
    + apply HQ; [|done|done|].
      * apply (stepped_ports inv okf s w' (opened_trace fd (with_path p))); try done.
        -- eapply same_ports_trans; [exact Hs|]. by eapply same_ports_insert; [exact Hp'|exact Hpar|..].
        -- by repeat constructor.
      * intros _. split; [done|]. split; [done|]. exists (set_sfd fd (with_path p)). split; [|done].
        split; simpl; [|by rewrite with_path_mutex]. rewrite Hpar, list_lookup_insert_eq; [done|].
        by apply lookup_lt_Some in Hp'.
    + apply HQ'; [|done..]. apply (stepped_ports inv okf s w' tr); try done.
      * eapply same_ports_trans; [exact Hs|]. by eapply same_ports_insert; [exact Hp'|exact Hpar|..].
      * eapply Forall_impl; [exact Hq|]. by intros [].
  - intros Hd Hl. apply HQ; [|done|done|by rewrite Hd].
    apply (stepped_ports inv okf s _ []); try done; [by apply at_path_ok|by rewrite app_nil_r].
Qed.
Lemma iwp_close s j p m (Q : unit -> gst P -> Prop) :
  ports_ok (ports s) -> inv (st (penv s)) -> at_port s j p m ->
  (forall s', stepped inv okf 0 s s' -> penv s' = penv s -> gnodes s' = gnodes s ->
     locked (ports s') = (if sfd p =? -1 then locked (ports s) else <[m := false]> (locked (ports s))) ->
     Q tt s') ->
  iwp (on_ports (SerialClose (Some j))) Q s.
Proof.
  intros Hw Hi [Hp Hm] HQ. apply iwp_on_ports. apply (iwp_SerialClose _ j p m); try done.
  - intros Hs. apply HQ; try done; [|by rewrite Hs].
    apply (stepped_ports inv okf s _ []); try done; [apply same_ports_refl|by rewrite app_nil_r].
  - intros Hs w' Hok Hpar Hl Ht _. apply HQ; try done.
    + eapply (stepped_ports inv okf s w'); try done; [|by repeat constructor].
      by eapply same_ports_insert.
    + simpl. destruct (sfd p =? -1) eqn:E; bprop; done.
Qed.

(** Sending a frame of [okf]. *)
Lemma iwp_send s j p m buf n (Q : Z -> gst P -> Prop) :
  ports_ok (ports s) -> inv (st (penv s)) -> at_port s j p m -> okf (take n buf) ->
  (forall r s', stepped inv okf 0 s s' -> penv s' = penv s -> gnodes s' = gnodes s ->
     params (ports s') = params (ports s) -> locked (ports s') = locked (ports s) -> Q r s') ->
  iwp (on_ports (SerialWrite (Some j) (Some buf) (Z.of_nat n))) Q s.
Proof.
  intros Hw Hi [Hp Hm] Hb HQ. apply iwp_on_ports. apply (iwp_SerialWrite _ j p); try done.
  - intros w' Hok Hpar Hl Ht. apply HQ; try done.
    apply (stepped_ports inv okf s w' []); try done; [intros k q; rewrite Hpar; eauto|].
    by rewrite app_nil_r.
  - intros _ _ w' Hok Hpar Hl Ht. apply HQ; try done.
    eapply (stepped_ports inv okf s w'); try done; [intros k q; rewrite Hpar; eauto|].
    constructor; [|done]. simpl. by rewrite Nat2Z.id.
Qed.

Lemma iwp_recv s j p m (Q : Z -> gst P -> Prop) :
  ports_ok (ports s) -> inv (st (penv s)) -> at_port s j p m ->
  (forall s', stepped inv okf 0 s s' -> penv s' = penv s -> gnodes s' = gnodes s ->
     locked (ports s') = locked (ports s) -> Q 0 s') ->
  iwp (on_ports (SerialRead (Some j))) Q s.
Proof.
  intros Hw Hi [Hp Hm] HQ. apply iwp_on_ports. apply (iwp_SerialRead _ j p); try done.
  intros w' Hok Hpar Hl Ht. apply HQ; try done.
  eapply (stepped_ports inv okf s w'); try done; [intros k q; rewrite Hpar; eauto|].
  destruct (_ && _); by repeat constructor.
Qed.
End Steps.

(** ** Building a message *)

Section Build.
Context {P : Type} (inv : P -> Prop)
  (bpre : Z -> Z -> option MbusNode -> option ty_obj_dp_s -> Prop)
  (ok : Z -> list Z -> Prop)
  (ppre : Z -> Z -> option MbusNode -> list Z -> Z -> Prop) (leak : Z).
Implicit Types s : gst P.

(** The frames device [b] may send. *)
Definition frames_of (b : MbusBase_t P) (buf : list Z) : Prop :=
  match pIf b with
  | Some f => ok (match build f with Some _ => u8 (devAddr b) | None => devAddr b end) buf
  | None => False
  end.

(** A device the gateway can write to: its addresses are 16-bit numbers, its
    plugin satisfies its contract and may be given this request. *)
Definition dev_ok (b : MbusBase_t P) (groupAddr : Z) (n : Node P) (pObj : option ty_obj_dp_s) : Prop :=
  0 <= devAddr b < 65536 /\ 0 <= regAddr b < 65536 /\ 0 <= groupAddr < 65536 /\
  match pIf b with
  | Some f => IfOk inv bpre ok ppre leak f /\ bpre (regAddr b) groupAddr (Some (node_arg n)) pObj
  | None => True
  end.

Lemma iwp_call_build s f b g n pObj (Q : option Msg_t -> gst P -> Prop) :
  pIf b = Some f -> dev_ok b g n pObj -> inv (st (penv s)) ->
  (forall r e, built inv (frames_of b) (live (mem (penv s))) r e -> Q r (with_env e s)) ->
  iwp (call_build f b g n pObj) Q s.
Proof.
  unfold dev_ok, frames_of, call_build. intros Hf (Hd & Hr & Hg & Hok) Hi HQ. rewrite Hf in *.
  destruct Hok as [[Hb _] Hpre].
  destruct (build f) as [fb|]; [|destruct (buildExt f) as [fb|]].
  - apply iwp_on_env. eapply wp_mono; [apply Hb; try done; apply u8_range|]. apply HQ.
  - apply iwp_on_env. eapply wp_mono; [by apply Hb|]. apply HQ.
  - apply iwp_ret. replace s with (with_env (penv s) s) by (by destruct s). by apply HQ.
Qed.

Lemma iwp_free_msg s buf n (Q : unit -> gst P -> Prop) :
  Q tt (with_env (Env (Heap (plan (mem (penv s))) (live (mem (penv s)) - 2)) (st (penv s))) s) ->
  iwp (free_msg (a_msg buf n)) Q s.
Proof.
  intros HQ. unfold free_msg. simpl. apply iwp_bind, iwp_on_env, wp_free, iwp_on_env, wp_free. simpl.
  by replace (live (mem (penv s)) - 1 - 1) with (live (mem (penv s)) - 2) by lia.
Qed.

(** ** Sending a message *)

Context (okf : list Z -> Prop).

Definition lost_node (i : nat) (n : Node P) s : gst P :=
  with_nodes (<[i := Some (set_base (set_lostCnt (lost_step (lostCnt (base n))) (base n)) n)]> (gnodes s)) s.

Lemma stepped_refl s : ports_ok (ports s) -> inv (st (penv s)) -> stepped inv okf 0 s s.
Proof.
  intros Hw Hi. split; try done; [apply same_ports_refl|lia|]. exists []. by rewrite app_nil_r.
Qed.

Lemma stepped_nodes s l : ports_ok (ports s) -> inv (st (penv s)) -> stepped inv okf 0 s (with_nodes l s).
Proof.
  intros Hw Hi. split; simpl; try done; [apply same_ports_refl|lia|]. exists []. by rewrite app_nil_r.
Qed.

Lemma stepped_log s l : ports_ok (ports s) -> inv (st (penv s)) -> stepped inv okf 0 s (with_log l s).
Proof.
  intros Hw Hi. split; simpl; try done; [apply same_ports_refl|lia|]. exists []. by rewrite app_nil_r.
Qed.

Lemma stepped_free s :
  ports_ok (ports s) -> inv (st (penv s)) ->
  stepped inv okf (-2) s
    (with_env (Env (Heap (plan (mem (penv s))) (live (mem (penv s)) - 2)) (st (penv s))) s).
Proof. intros Hw Hi. apply stepped_env; simpl; [done|done|lia]. Qed.

(** The port of [s'] is as free as that of [s]. *)
Definition same_locks s s' : Prop := locked (ports s') = locked (ports s).

(** State [s1], with the line of block [j] on port [m] opened from [s]; [half]:
    the port works half duplex. *)
Definition line_open (half : Prop) s s1 (j m : nat) : Prop :=
  exists p1, at_port s1 j p1 m /\
  (half -> locked (ports s1) = <[m := true]> (locked (ports s)) /\
           locked (ports s) !! m = Some false /\ 0 <= sfd p1).

Lemma line_open_keep half s s1 s2 j m :
  params (ports s2) = params (ports s1) -> locked (ports s2) = locked (ports s1) ->
  line_open half s s1 j m -> line_open half s s2 j m.
Proof. intros Hp Hl (p1 & [Ha Hm] & H). exists p1. unfold at_port. by rewrite Hp, Hl. Qed.

Lemma iwp_open_line_on s j p m (Q : Z -> gst P -> Prop) :
  ports_ok (ports s) -> inv (st (penv s)) -> at_port s j p m ->
  (forall s1, stepped inv okf 0 s s1 -> penv s1 = penv s -> gnodes s1 = gnodes s ->
     line_open (Serial.bFullDuplex p = false) s s1 j m -> Q 0 s1) ->
  (forall s1, stepped inv okf 0 s s1 -> penv s1 = penv s -> gnodes s1 = gnodes s ->
     same_locks s s1 -> Q (-1) s1) ->
  iwp (on_ports (SerialOpen (Some j))) Q s.
Proof.
  intros Hw Hi Hp HQ HQ'. eapply (iwp_open inv okf); try done.
  intros s1 H1 He Hg Hopen. apply HQ; try done.
  destruct (at_port_step _ _ _ _ _ (sd_same _ _ _ _ _ H1) Hp) as (p1 & Hp1 & _).
  exists p1. split; [done|]. intros Hh. destruct (Hopen Hh) as (? & ? & p' & [Hp' _] & ?).
  destruct Hp1 as [Hp1 _]. assert (p' = p1) as -> by congruence. done.
Qed.

(** Closing the line again leaves the port as free as it was. *)
Lemma iwp_close_line half s s1 j m (Q : unit -> gst P -> Prop) :
  ports_ok (ports s1) -> inv (st (penv s1)) -> line_open half s s1 j m ->
  (forall s2, stepped inv okf 0 s1 s2 -> penv s2 = penv s1 -> gnodes s2 = gnodes s1 ->
     (half -> same_locks s s2) -> Q tt s2) ->
  iwp (on_ports (SerialClose (Some j))) Q s1.
Proof.
  intros Hw Hi (p1 & Hp1 & Hh) HQ. eapply (iwp_close inv okf); try done.
  intros s2 H2 He Hg Hl. apply HQ; try done. intros Hhalf.
  destruct (Hh Hhalf) as (Hl1 & Hfree & Hfd). unfold same_locks. rewrite Hl.
  destruct (sfd p1 =? -1) eqn:E; bprop; [lia|]. by rewrite Hl1, relock.
Qed.

Lemma line_open_send half s s1 s2 j m : line_open half s s1 j m -> exists p, at_port s1 j p m.
Proof. intros (p & ? & _). by exists p. Qed.

Definition head_post (half : Prop) s (r : option Z) s' : Prop :=
  stepped inv okf 0 s s' /\ (r = None \/ r = Some (-1)) /\ (half -> same_locks s s').

(** Started in [s1] with the line open since [s]. *)
Lemma iwp_deliver s s0 s1 i n j m buf nn (half : Prop) :
  stepped inv okf 2 s0 s1 -> line_open half s s1 j m -> pSerial (base n) = Some j ->
  okf (take nn buf) ->
  iwp (deliver i n (a_msg buf (Z.of_nat nn)))
    (fun r s' => stepped inv okf 0 s0 s' /\ (r = None \/ r = Some (-1)) /\
       (half /\ bFullDuplex (base n) = false /\ bFeedback (base n) = false -> same_locks s s')) s1.
Proof.
  intros H1 Hline Hs Hb. unfold deliver, bad_msg. cbn [pBuf len a_msg]. rewrite Hs.
  pose proof (sd_ports _ _ _ _ _ H1) as Hw1. pose proof (sd_inv _ _ _ _ _ H1) as Hi1.
  destruct (Z.of_nat nn =? 0).
  - apply iwp_bind, iwp_free_msg. pose proof (stepped_free s1 Hw1 Hi1) as H2.
    apply iwp_bind. eapply (iwp_close_line half s); [apply H2|apply H2|by eapply line_open_keep; [..|exact Hline]|].
    intros s3 H3 _ _ Hl. apply iwp_ret. split; [|split; [by right|tauto]].
    eapply stepped_trans; [exact H1|by eapply stepped_trans|done].
  - destruct (line_open_send _ _ _ s1 _ _ Hline) as [p Hp].
    apply iwp_bind, (iwp_send inv okf _ _ p m); [done..|]. intros _ s2 H2 He2 _ Hp2 Hl2.
    pose proof (sd_ports _ _ _ _ _ H2) as Hw2. pose proof (sd_inv _ _ _ _ _ H2) as Hi2.
    apply iwp_bind. unfold put_node at 1, iwp at 1. cbv beta.
    set (s3 := G _ _ _ _ _). assert (stepped inv okf 0 s2 s3) as H3
      by exact (stepped_nodes s2 _ Hw2 Hi2).
    assert (line_open half s s3 j m) as Hline3 by (by eapply (line_open_keep _ _ s1)).
    assert (forall s4, stepped inv okf 0 s3 s4 -> penv s4 = penv s3 ->
      (half /\ bFullDuplex (base n) = false /\ bFeedback (base n) = false -> same_locks s s4) ->
      iwp (_ ← free_msg (a_msg buf (Z.of_nat nn)); mret None) (fun r s' => stepped inv okf 0 s0 s' /\
         (r = None \/ r = Some (-1)) /\
         (half /\ bFullDuplex (base n) = false /\ bFeedback (base n) = false -> same_locks s s')) s4) as Hend.
    { intros s4 H4 He4 Hl4. apply iwp_bind, iwp_free_msg, iwp_ret. split; [|split; [by left|exact Hl4]].
      pose proof (stepped_free s4 (sd_ports _ _ _ _ _ H4) (sd_inv _ _ _ _ _ H4)) as H5.
      eapply stepped_trans; [exact H1|eapply stepped_trans; [exact H2|eapply stepped_trans;
        [exact H3|by eapply stepped_trans|]|]|]; reflexivity. }
    apply iwp_bind. destruct (bFeedback (base n)) eqn:Hfb; [|destruct (bFullDuplex (base n)) eqn:Hfd].
    + destruct (line_open_send _ _ _ s3 _ _ Hline3) as [p3 Hp3].
      apply iwp_bind, (iwp_recv inv okf _ _ p3 m); [apply H3|apply H3|done|].
      intros s4 H4 He4 _ _. apply iwp_ret, Hend; [done|done|]. by intros (_ & _ & ?).
    + apply iwp_ret, Hend; [|done|by intros (_ & ? & _)]. apply stepped_refl; apply H3.
    + eapply (iwp_close_line half s); [apply H3|apply H3|exact Hline3|].
      intros s4 H4 He4 _ Hl. apply Hend; [done|done|]. intros (? & _). by apply Hl.
Qed.

Lemma iwp_write_head s i n f j p m pObj :
  ports_ok (ports s) -> inv (st (penv s)) -> at_port s j p m ->
  pIf (base n) = Some f -> dev_ok (base n) (regAddr (base n)) n (Some pObj) ->
  pSerial (base n) = Some j -> (forall buf, frames_of (base n) buf -> okf buf) ->
  iwp (write_head i n f pObj)
    (head_post (Serial.bFullDuplex p = false /\ bFullDuplex (base n) = false /\
                bFeedback (base n) = false) s) s.
Proof.
  intros Hw Hi Hp Hf Hdev Hs Hok. unfold write_head. rewrite Hs. apply iwp_bind.
  apply (iwp_open_line_on s j p m); [done..| |].
  2: { intros s1 H1 _ _ Hl. apply iwp_ret. split; [done|]. split; [by left|done]. }
  intros s1 H1 He1 _ Hline. cbn [negb Z.eqb].
  pose proof (sd_ports _ _ _ _ _ H1) as Hw1. pose proof (sd_inv _ _ _ _ _ H1) as Hi1.
  apply iwp_bind, (iwp_call_build _ f); [done|done|done|]. intros [msg|] e [Hie Hmsg].
  2: { assert (stepped inv okf 0 s1 (with_env e s1)) as H2 by (apply stepped_env; [done|done|lia]).
       apply iwp_bind. eapply (iwp_close_line _ s); [apply H2|apply H2|by eapply line_open_keep; [..|exact Hline]|].
       intros s3 H3 _ _ Hl. apply iwp_ret. split; [|split; [by right|intros (? & _); by apply Hl]].
       eapply stepped_trans; [exact H1|by eapply stepped_trans|done]. }
  destruct Hmsg as (Hlive & buf & nn & -> & Hnn & Hfr).
  assert (stepped inv okf 2 s1 (with_env e s1)) as H2 by (apply stepped_env; [done|done|lia]).
  eapply iwp_mono; [eapply (iwp_deliver s s1 (with_env e s1) i n j m buf nn);
    [exact H2|by eapply line_open_keep; [..|exact Hline]|done|by apply Hok]|].
  intros r s' (H3 & Hr & Hl). split; [|split; [done|exact Hl]].
  by eapply stepped_trans; [exact H1|exact H3|].
Qed.

(** Device [b] of group [n] can be written to in [s]: it has a port, a plugin
    that may be given the request, and its frames are among [okf]. *)
Definition ready s (n : Node P) (pObj : ty_obj_dp_s) (b : MbusBase_t P) : Prop :=
  (exists j p m, pSerial b = Some j /\ at_port s j p m) /\
  (exists f, pIf b = Some f) /\ dev_ok b (regAddr (base n)) n (Some pObj) /\
  (forall buf, frames_of b buf -> okf buf).

Lemma ready_step s s' n pObj b :
  same_ports (ports s) (ports s') -> ready s n pObj b -> ready s' n pObj b.
Proof.
  intros Hs ((j & p & m & Hj & Hp) & Hrest). split; [|done].
  destruct (at_port_step _ _ _ _ _ Hs Hp) as (p' & Hp' & _). eauto 6.
Qed.

Lemma iwp_write_members ms s n pObj :
  ports_ok (ports s) -> inv (st (penv s)) -> ready s n pObj (base n) -> Forall (ready s n pObj) ms ->
  iwp (write_members n ms pObj)
    (fun r s' => stepped inv okf 0 s s' /\ (r = 0 \/ r = -1) /\ (ms = [] -> r = 0 /\ s' = s)) s.
Proof.
  revert s. induction ms as [|b ms IH]; intros s Hw Hi Hh Hms; cbn [write_members].
  { apply iwp_ret. split; [by apply stepped_refl|auto]. }
  apply Forall_cons in Hms as [Hb Hms].
  assert (forall s', stepped inv okf 0 s s' ->
    iwp (write_members n ms pObj) (fun r s2 => stepped inv okf 0 s s2 /\ (r = 0 \/ r = -1) /\
      (b :: ms = [] -> r = 0 /\ s2 = s)) s') as Hrest.
  { intros s' H. eapply iwp_mono; [apply IH; [apply H|apply H|..]|].
    - eapply ready_step; [apply H|done].
    - eapply Forall_impl; [exact Hms|]. intros c. apply ready_step, H.
    - intros r s2 (H2 & Hr & _). split; [by eapply stepped_trans|]. split; [done|done]. }
  destruct Hb as ((j & p & m & -> & Hp) & (f & Hf) & Hdev & Hok). rewrite Hf.
  apply iwp_bind, (iwp_open_line_on s j p m); [done..| |by intros s1 H1 _ _ _; apply Hrest].
  intros s1 H1 He1 _ Hline. cbn [negb Z.eqb].
  pose proof (sd_ports _ _ _ _ _ H1) as Hw1. pose proof (sd_inv _ _ _ _ _ H1) as Hi1.
  apply iwp_bind, (iwp_call_build _ f); [done..|]. intros [msg|] e [Hie Hmsg].
  2: { apply iwp_ret. split; [|split; [by right|done]]. eapply stepped_trans; [exact H1| |].
       - apply stepped_env; [done|done|by rewrite Hmsg, Z.add_0_r].
       - done. }
  destruct Hmsg as (Hlive & buf & nn & -> & Hnn & Hfr).
  assert (stepped inv okf 2 s1 (with_env e s1)) as H2 by (apply stepped_env; [done|done|lia]).
  unfold bad_msg. cbn [pBuf len a_msg]. destruct (Z.of_nat nn =? 0).
  { apply iwp_bind, iwp_free_msg, iwp_ret. split; [|split; [by right|done]].
    eapply stepped_trans; [exact H1|eapply stepped_trans; [exact H2|by apply stepped_free|]|]; done. }
  destruct (ready_step _ _ _ _ _ (sd_same _ _ _ _ _ H1) Hh) as ((jh & ph & mh & -> & Hph) & _).
  apply iwp_bind, (iwp_send inv okf _ _ ph mh); [done|done|done|by apply Hok|].
  intros _ s3 H3 _ _ Hl3 _.
  apply iwp_bind, iwp_free_msg.
  pose proof (stepped_free s3 (sd_ports _ _ _ _ _ H3) (sd_inv _ _ _ _ _ H3)) as H4.
  set (s4 := with_env _ s3) in *. destruct Hp as [Hp Hm].
  assert (stepped inv okf 0 s s4) as H04.
  { eapply stepped_trans; [exact H1|eapply stepped_trans; [exact H2|eapply stepped_trans;
      [exact H3|exact H4|]|]|]; reflexivity. }
  destruct (at_port_step s s4 j p m (sd_same _ _ _ _ _ H04)) as (p4 & Hp4 & _); [done|].
  apply iwp_bind, (iwp_close inv okf _ _ p4 m); [apply H04|apply H04|done|].
  intros s5 H5 _ _ _. apply Hrest. by eapply stepped_trans.
Qed.
End Build.

(** ** Inversion *)

Lemma io_inv {S A B} (m : io S A) (f : A -> io S B) s b s' :
  (m ≫= f) s = Ran b s' -> exists a s1, m s = Ran a s1 /\ f a s1 = Ran b s'.
Proof. unfold mbind, io_bind. destruct (m s) as [a s1| |]; [eauto|done..]. Qed.

Tactic Notation "io_case" hyp(H) ident(a) ident(s') ident(Ha) :=
  apply io_inv in H as (a & s' & Ha & H).

Section Inversion.
Context {P : Type}.
Implicit Types s : gst P.

Lemma on_ports_inv {A} (m : io world A) s a s' :
  on_ports m s = Ran a s' -> exists w, m (ports s) = Ran a w /\ s' = with_ports w s.
Proof. unfold on_ports. destruct (m (ports s)) as [a' w| |]; [|done..]. intros [= -> <-]. eauto. Qed.

Lemma on_env_ports {A} (m : C (env P) A) s a s' : on_env m s = Ran a s' -> ports s' = ports s.
Proof. unfold on_env. destruct (m (penv s)) as [[a' e]|]; [|done]. by intros [= _ <-]. Qed.

Lemma call_build_ports f b g n pObj s r s' :
  call_build f b g n pObj s = Ran r s' -> ports s' = ports s.
Proof.
  unfold call_build. destruct (build f); [apply on_env_ports|].
  destruct (buildExt f); [apply on_env_ports|]. by intros [= _ <-].
Qed.

Lemma free_msg_ports m s u s' : free_msg m s = Ran u s' -> ports s' = ports s.
Proof.
  unfold free_msg. intros H. io_case H v s1 H1. apply on_env_ports in H. rewrite H.
  destruct (pBuf m); [by apply on_env_ports in H1|]. by injection H1 as _ <-.
Qed.
End Inversion.

Lemma SerialWrite_closed j buf len w p r w' :
  SerialWrite (Some j) buf len w = Ran r w' -> params w !! j = Some p -> sfd p < 0 -> w' = w.
Proof.
  unfold SerialWrite, mbind, io_bind, get_param. intros H Hp Hs. rewrite Hp in H.
  apply Z.ltb_lt in Hs. rewrite Hs in H. destruct buf; [destruct (len =? 0)|]; by injection H as _ <-.
Qed.

(** ** Properties *)

Section WriteProperties.
Context {P : Type} (inv : P -> Prop)
  (bpre : Z -> Z -> option MbusNode -> option ty_obj_dp_s -> Prop)
  (ok : Z -> list Z -> Prop)
  (ppre : Z -> Z -> option MbusNode -> list Z -> Z -> Prop) (leak : Z).
Implicit Types s : gst P.

Lemma iwp_pass_on s b pObj (Q : unit -> gst P -> Prop) :
  (forall l, Q tt (with_log l s)) -> iwp (pass_on b pObj) Q s.
Proof.
  intros HQ. assert (Q tt s) as H0 by (specialize (HQ (log s)); by destruct s).
  unfold pass_on. destruct (bFeedback b); [done|].
  unfold iwp, mbind, io_bind, is_active, note, mret, io_ret.
  destruct (bMaster (element b)), (pvForeignKey (element b)); cbn;
    destruct s as [w e ns [] lg]; cbn in *; try done; apply HQ.
Qed.

(** A write, step by step; [okf] holds of the frames of the device and of the
    members of its group. *)
Lemma iwp_ModbusDevWrite okf s key id i n f j p m pObj :
  dev_id key = Done (Some id) -> listSearchKey (gnodes s) id = Some i -> gnodes s !! i = Some (Some n) ->
  ports_ok (ports s) -> inv (st (penv s)) ->
  pIf (base n) = Some f -> pSerial (base n) = Some j -> at_port s j p m ->
  Forall (ready inv bpre ok ppre leak okf s n pObj) (base n :: members n) ->
  iwp (ModbusDevWrite (Some key) (Some pObj)) (fun r s' =>
    stepped inv okf 0 s s' /\ (r = 0 \/ r = -1) /\
    (members n = [] -> Serial.bFullDuplex p = false -> bFullDuplex (base n) = false ->
       bFeedback (base n) = false -> locked (ports s') = locked (ports s))) s.
Proof.
  intros Hid Hse Hn Hw Hi Hf Hj Hp Hready. apply Forall_cons in Hready as [Hh Hms].
  unfold ModbusDevWrite. rewrite Hid. apply iwp_bind. unfold search, iwp at 1. rewrite Hse.
  apply iwp_bind. unfold get_node, iwp at 1. rewrite Hn, Hf, Hj.
  destruct (can_build f) eqn:Hcan; cbn [negb].
  2: { apply iwp_ret. split; [by apply stepped_refl|]. split; [by right|done]. }
  destruct Hh as (Hser & Hif & Hdev & Hok).
  apply iwp_bind. eapply iwp_mono; [eapply (iwp_write_head inv bpre ok ppre leak okf s i n f j p m); done|].
  intros stop s1 (H1 & Hstop & Hl1). destruct Hstop as [->| ->].
  2: { apply iwp_ret. split; [done|]. split; [by right|]. intros _ Hd Hfd Hfb. by apply Hl1. }
  apply iwp_bind, iwp_pass_on. intros l.
  pose proof (stepped_log inv okf s1 l (sd_ports _ _ _ _ _ H1) (sd_inv _ _ _ _ _ H1)) as H2.
  assert (forall b, ready inv bpre ok ppre leak okf s n pObj b ->
    ready inv bpre ok ppre leak okf (with_log l s1) n pObj b) as Hst.
  { intros b. apply ready_step. eapply same_ports_trans; [apply H1|apply H2]. }
  eapply iwp_mono; [apply (iwp_write_members inv bpre ok ppre leak okf); [apply H2|apply H2|by apply Hst|]|].
  { eapply Forall_impl; [exact Hms|]. exact Hst. }
  intros r s' (H3 & Hr & Hnil). split; [|split; [done|]].
  - eapply stepped_trans; [exact H1|by eapply stepped_trans|done].
  - intros Hm Hd Hfd Hfb. destruct (Hnil Hm) as [_ ->]. by apply Hl1.
Qed.

(** C3: A write to a device never faults, never leaves the ports in disorder
    and never loses a block of memory, whatever allocations or system calls
    fail; every frame it puts on a line is a frame of the plugin of the device
    or of a member of its group; and a half-duplex port written to without
    waiting for an answer is as free afterwards as it was before. *)
Theorem modbus_write_safe s key id i n f j p m pObj :
  let group_frames buf := exists b, In b (base n :: members n) /\ frames_of ok b buf in
  dev_id key = Done (Some id) -> listSearchKey (gnodes s) id = Some i -> gnodes s !! i = Some (Some n) ->
  ports_ok (ports s) -> inv (st (penv s)) ->
  pIf (base n) = Some f -> pSerial (base n) = Some j -> at_port s j p m ->
  Forall (ready inv bpre ok ppre leak group_frames s n pObj) (base n :: members n) ->
  iwp (ModbusDevWrite (Some key) (Some pObj)) (fun r s' =>
    stepped inv group_frames 0 s s' /\ (r = 0 \/ r = -1) /\
    (members n = [] -> Serial.bFullDuplex p = false -> bFullDuplex (base n) = false ->
       bFeedback (base n) = false -> locked (ports s') = locked (ports s))) s.
Proof. intros gf Hid Hse Hn Hw Hi Hf Hj Hp Hr. by eapply iwp_ModbusDevWrite. Qed.

(** The frames for the members of a group go out on the serial of the first
    device: when that line is closed (a half-duplex port after its own frame)
    and the members have blocks of their own, their ports are opened and closed
    again without a single byte being written. *)
Theorem member_frames_lost n ms pObj jh s p r s' :
  pSerial (base n) = Some jh -> params (ports s) !! jh = Some p -> sfd p < 0 ->
  Forall (fun b => pSerial b <> Some jh) ms ->
  write_members n ms pObj s = Ran r s' ->
  exists tr, trace (ports s') = trace (ports s) ++ tr /\ Forall quiet tr.
Proof.
  intros Hh. revert s. induction ms as [|b ms IH]; intros s Hp Hfd Hms H; cbn [write_members] in H.
  { injection H as _ <-. exists []. by rewrite app_nil_r. }
  apply Forall_cons in Hms as [Hb Hms]. destruct (pSerial b) as [j|] eqn:Hj; [|done].
  assert (jh <> j) as Hne by congruence.
  assert (forall s1, only j (ports s) (ports s1) ->
    write_members n ms pObj s1 = Ran r s' ->
    exists tr, trace (ports s') = trace (ports s) ++ tr /\ Forall quiet tr) as Hrest.
  { intros s1 (H1 & t1 & T1 & Q1) E. apply (IH s1) in E as (t2 & T2 & Q2); [|by rewrite H1|done|done].
    exists (t1 ++ t2). rewrite T2, T1, app_assoc. split; [done|]. by apply Forall_app. }
  io_case H ret s1 H1. apply on_ports_inv in H1 as (w1 & E1 & ->).
  pose proof (keeps_SerialOpen j _ _ _ E1) as K1.
  destruct (negb (ret =? 0)); [exact (Hrest (with_ports w1 s) K1 H)|].
  destruct (pIf b) as [f|]; [|done]. io_case H msg s2 H2. apply call_build_ports in H2.
  assert (only j (ports s) (ports s2)) as K2 by (by rewrite H2).
  destruct msg as [m|]; [|injection H as _ <-; apply K2].
  destruct (bad_msg m).
  { io_case H u s3 H3. apply free_msg_ports in H3. injection H as _ <-. rewrite H3. apply K2. }
  rewrite Hh in H. io_case H u s3 H3. apply on_ports_inv in H3 as (w3 & E3 & ->).
  apply (SerialWrite_closed _ _ _ _ p) in E3 as ->; [|by rewrite (proj1 K2)|done].
  io_case H u2 s4 H4. apply free_msg_ports in H4.
  io_case H u3 s5 H5. apply on_ports_inv in H5 as (w5 & E5 & ->).
  pose proof (keeps_SerialClose j _ _ _ E5) as K5.
  refine (Hrest (with_ports w5 s4) _ H). eapply only_trans; [exact K2|]. rewrite H4 in K5. exact K5.
Qed.

(** When the plugin cannot build the frame of a group member, the write
    returns with the member's port still open and locked: from then on every
    half-duplex open on that port waits for ever. *)
Theorem member_failure_locks n b ms pObj f j p m s s1 s2 :
  pSerial b = Some j -> pIf b = Some f -> ports_ok (ports s) ->
  params (ports s) !! j = Some p -> pMutex p = Some m -> Serial.bFullDuplex p = false ->
  on_ports (SerialOpen (Some j)) s = Ran 0 s1 ->
  call_build f b (regAddr (base n)) n (Some pObj) s1 = Ran None s2 ->
  write_members n (b :: ms) pObj s = Ran (-1) s2 /\ locked (ports s2) !! m = Some true /\
  forall k q, params (ports s2) !! k = Some q -> pMutex q = Some m -> Serial.bFullDuplex q = false ->
    on_ports (SerialOpen (Some k)) s2 = Blocked.
Proof.
  intros Hj Hf Hw Hp Hm Hd Ho Hb. split.
  { cbn [write_members]. rewrite Hj. unfold mbind at 1, io_bind at 1. rewrite Ho. cbn [negb Z.eqb].
    rewrite Hf. unfold mbind at 1, io_bind at 1. by rewrite Hb. }
  pose proof (call_build_ports _ _ _ _ _ _ _ _ Hb) as Hs2.
  apply on_ports_inv in Ho as (w1 & Ho & ->). cbn [ports with_ports] in Hs2. rewrite Hs2.
  assert (locked w1 !! m = Some true) as Hl.
  { pose proof (iwp_SerialOpen (ports s) j p m (fun r w' => r = 0 -> locked w' !! m = Some true) Hw Hp Hm) as H.
    unfold iwp in H. rewrite Ho in H. apply H; [|congruence|done].
    intros r w' Hfree [_ [(_ & fd & _ & _ & -> & _)|(-> & _)]]; [|done]. intros _.
    simpl. rewrite list_lookup_insert_eq; [done|]. simpl in Hfree. by apply lookup_lt_Some in Hfree. }
  split; [done|]. intros k q Hq Hmq Hdq. unfold on_ports.
  by rewrite Hs2, (SerialOpen_waits w1 k q m Hq Hmq Hdq Hl).
Qed.
End WriteProperties.

(** A group of two DTouch devices on two blocks of port 1, written without
    waiting for an answer. *)
Definition dtouch_if : MbusIf unit := mkMbusIf (Some DTouch.build) (Some DTouch.parse) None None.
Definition port1 : SerialParam_t := Param (-1) 1 9600 8 110 1 "" false 0 0 false (Some 0%nat).
Definition dt_key : string := "aabbccddeeff7".
Definition dt_base (block : nat) : MbusBase_t unit :=
  Base (Some dtouch_if) (Element dt_key 7 MODBUS_DEVICE_VENTILATION true None) 1 0 0
    false true 0 false (Some block) 0.
Definition dt_node : Node unit :=
  MkNode (dt_base 0) [dt_base 1] [Some MbusObj0; Some MbusObj0].
Definition dt_world : world := W [port1; port1] [false; false; false; false] [] [] [].
Definition dt_state (plan : list bool) : gst unit :=
  G dt_world (Env (Heap plan 0) tt) [Some dt_node] false [].
Definition dt_obj : ty_obj_dp_s := Dp 39 PROP_BOOL 1 0.

Lemma dt_world_ok : ports_ok dt_world.
Proof.
  assert (forall i p, [port1; port1] !! i = Some p -> p = port1) as Hp.
  { intros [|[|i]] p; simpl; [by intros [= <-]..|done]. }
  assert (forall m, [false; false; false; false] !! m = Some true -> False) as Hl.
  { by intros [|[|[|[|m]]]]. }
  split; simpl; try done.
  - apply (Forall_replicate _ 2 port1). split; [simpl; lia|]. exists 0%nat. split; [done|lia].
  - by intros i p m ->%Hp.
  - intros m H. by destruct (Hl m).
  - by intros i j p q m ->%Hp.
Qed.

Lemma dt_ready okf plan o b :
  b = dt_base 0 \/ b = dt_base 1 ->
  (forall buf, frames_of (mbus_frame [8%nat] [DTouch.READ_CODE; DTouch.WRITE_CODE]) b buf -> okf buf) ->
  ready (fun _ => True) (fun _ _ _ _ => True) (mbus_frame [8%nat] [DTouch.READ_CODE; DTouch.WRITE_CODE])
    (fun _ _ node _ _ => node <> None) 0 okf (dt_state plan) dt_node o b.
Proof.
  intros Hb Hok. split; [|split; [|split; [|exact Hok]]].
  - destruct Hb as [-> | ->]; [exists 0%nat|exists 1%nat]; by exists port1, 0%nat.
  - exists dtouch_if. by destruct Hb as [-> | ->].
  - unfold dev_ok. destruct Hb as [-> | ->]; simpl; (split_and!; try lia; try done);
      apply if_ok_plain; first [exact DTouch.build_ok|exact DTouch.parse_ok].
Qed.

(** The result of a run, without its state. *)
Definition result {S A} (r : res S A) : option A := match r with Ran a _ => Some a | _ => None end.

Lemma modbus_write_safe_witness :
  exists r s', ModbusDevWrite (Some dt_key) (Some dt_obj) (dt_state [true; true; true; false]) = Ran r s' /\
    ports_ok (ports s') /\ live (mem (penv s')) = 0.
Proof.
  set (s := dt_state [true; true; true; false]).
  set (ok := mbus_frame [8%nat] [DTouch.READ_CODE; DTouch.WRITE_CODE]).
  assert (iwp (ModbusDevWrite (Some dt_key) (Some dt_obj)) (fun r s' =>
    stepped (fun _ => True) (fun buf => exists b, In b (base dt_node :: members dt_node) /\
      frames_of ok b buf) 0 s s' /\ (r = 0 \/ r = -1) /\ (members dt_node = [] ->
      Serial.bFullDuplex port1 = false -> bFullDuplex (base dt_node) = false ->
      bFeedback (base dt_node) = false -> locked (ports s') = locked (ports s))) s) as H.
  { apply (modbus_write_safe (fun _ => True) (fun _ _ _ _ => True) ok (fun _ _ node _ _ => node <> None) 0
      s dt_key 7 0%nat dt_node dtouch_if 0%nat port1 0%nat dt_obj);
      try reflexivity; try exact I; [exact dt_world_ok|by split|].
    apply Forall_cons_2; [|apply Forall_cons_2; [|apply Forall_nil_2]].
    - apply dt_ready; [by left|]. intros buf Hb. exists (dt_base 0). split; [by left|exact Hb].
    - apply dt_ready; [by right|]. intros buf Hb. exists (dt_base 1). split; [right; by left|exact Hb]. }
  assert (result (ModbusDevWrite (Some dt_key) (Some dt_obj) s) = Some (-1)) as Hr by reflexivity.
  unfold iwp in H. destruct (ModbusDevWrite _ _ s) as [r s'| |] eqn:E; [|discriminate Hr..].
  exists r, s'. split; [reflexivity|]. destruct H as ([H1 _ _ H2 _] & _). split; [exact H1|exact H2].
Defined.

Lemma member_frames_lost_witness :
  exists r s', write_members dt_node (members dt_node) dt_obj (dt_state []) = Ran r s' /\ r = 0 /\
    exists tr, trace (ports s') = [] ++ tr /\ Forall quiet tr.
Proof.
  assert (result (write_members dt_node (members dt_node) dt_obj (dt_state [])) = Some 0) as Hr
    by reflexivity.
  destruct (write_members dt_node (members dt_node) dt_obj (dt_state [])) as [r s'| |] eqn:E;
    [|discriminate Hr..].
  exists r, s'. split; [reflexivity|]. split; [by injection Hr|].
  apply (member_frames_lost dt_node (members dt_node) dt_obj 0%nat (dt_state []) port1 r s');
    [reflexivity|reflexivity|simpl; lia|by repeat constructor|exact E].
Defined.

Lemma member_failure_locks_witness :
  exists s2, write_members dt_node [dt_base 1] dt_obj (dt_state [false]) = Ran (-1) s2 /\
    locked (ports s2) !! 0%nat = Some true.
Proof.
  assert (result (on_ports (SerialOpen (Some 1%nat)) (dt_state [false])) = Some 0) as Hr by reflexivity.
  assert (result ((_ ← on_ports (SerialOpen (Some 1%nat));
    call_build dtouch_if (dt_base 1) (regAddr (base dt_node)) dt_node (Some dt_obj)) (dt_state [false]))
    = Some None) as Hb by reflexivity.
  unfold mbind, io_bind in Hb.
  destruct (on_ports (SerialOpen (Some 1%nat)) (dt_state [false])) as [r s1| |] eqn:E1;
    [|discriminate Hr..]. injection Hr as ->.
  destruct (call_build dtouch_if (dt_base 1) (regAddr (base dt_node)) dt_node (Some dt_obj) s1)
    as [o s2| |] eqn:E2; [|discriminate Hb..]. injection Hb as ->.
  exists s2.
  destruct (member_failure_locks dt_node (dt_base 1) [] dt_obj dtouch_if 1%nat port1 0%nat
    (dt_state [false]) s1 s2 eq_refl eq_refl dt_world_ok eq_refl eq_refl eq_refl E1 E2) as (H1 & H2 & _).
  split; [exact H1|exact H2].
Defined.
