(* ===== verification/Receiver.v ===== *)
(** The receiver of a serial line (SerialRcvEntry of source/serialHandle.c).

    A receiver waits for bytes on the line of one device, lets the device's
    plugin parse them and puts the objects it returns, stamped with the device,
    into the queue of the monitor.  On a half-duplex line it is started for one
    answer: it ends after the first buffer, or when the answer is late, and
    closes the line. *)

From S2P Require Import Prelude CMem Device PluginApi VentPlugins Serial Nodes ModbusWrite.

(** ** What the system tells the receiver

    A round of the loop: the microseconds since the start, as the [uint32_t] the
    code computes; the result of [epoll_wait] and, for an event, its flags, the
    number of bytes waiting (FIONREAD) and the result of [read], [None] for -1;
    and whether another thread has meanwhile cleared [bRcvRun] (SerialClose
    does). *)

Inductive poll :=
| Nothing
| Event (err hup pollin : bool) (avail : Z) (data : option (list Z)).

Record round := Round { r_diff : Z; r_stop : bool; r_poll : poll }.

(** [accepts] are the results of [queue_put] to come (none: success); [arrived]
    the objects in the queue, [dropped] those it did not take. *)
Record rst (P : Type) := R {
  rports : world;
  renv : env P;
  rlost : Z;
  accepts : list bool;
  arrived : list MbusObj_t;
  dropped : list MbusObj_t
}.
Arguments R {P}.
Arguments rports {P}.
Arguments renv {P}.
Arguments rlost {P}.
Arguments accepts {P}.
Arguments arrived {P}.
Arguments dropped {P}.

Section Receiver.
Context {P : Type}.
Implicit Types s : rst P.

Definition on_ports {A} (m : io world A) : io (rst P) A := fun s =>
  match m (rports s) with
  | Ran a w => Ran a (R w (renv s) (rlost s) (accepts s) (arrived s) (dropped s))
  | Blocked => Blocked
  | Fault => Fault
  end.
Definition on_env {A} (m : C (env P) A) : io (rst P) A := fun s =>
  match m (renv s) with
  | Done (a, e) => Ran a (R (rports s) e (rlost s) (accepts s) (arrived s) (dropped s))
  | Undef => Fault
  end.
Definition set_lost (c : Z) : io (rst P) unit := fun s =>
  Ran tt (R (rports s) (renv s) c (accepts s) (arrived s) (dropped s)).

(** [queue_put (pBase->pMbusDataArrived, *ppObj)]: its failure is only logged. *)
Definition queue_put (o : MbusObj_t) : io (rst P) unit := fun s =>
  Ran tt (if hd true (accepts s)
          then R (rports s) (renv s) (rlost s) (tl (accepts s)) (arrived s ++ [o]) (dropped s)
          else R (rports s) (renv s) (rlost s) (tl (accepts s)) (arrived s) (dropped s ++ [o])).

(** The stamp of the device. *)
Definition stamp (b : MbusBase_t P) (o : MbusObj_t) : MbusObj_t :=
  set_ePrimaryType (primaryType (element b)) (set_pPrimaryKey (Some (e_pPrimaryKey (element b))) o).

(** [for (; *ppObj; ppObj++)]: an array without its terminator is read past its
    end. *)
Fixpoint put_objs (b : MbusBase_t P) (ob : Objs) : io (rst P) unit :=
  match ob with
  | [] => fault
  | None :: _ => mret tt
  | Some o :: ob => _ ← queue_put (stamp b o); put_objs b ob
  end.

(** The parser of the device, for a buffer and the length as it is passed. *)
Definition call_parse (pIf : MbusIf P) (b : MbusBase_t P) (n : Node P) (buf : list Z) (len : Z)
    : io (rst P) (option Objs) :=
  match parse pIf, parseExt pIf with
  | Some f, _ => on_env (f (u8 (devAddr b)) (regAddr b) (Some (node_arg n)) (Some buf) len)
  | None, Some f => on_env (f (devAddr b) (regAddr b) (Some buf) len)
  | None, None => mret None
  end.
Definition can_parse (pIf : MbusIf P) : bool :=
  match parse pIf, parseExt pIf with None, None => false | _, _ => true end.

(** The bytes of the block after [read], and the result of [read]. *)
Definition block_of (avail : Z) (data : option (list Z)) : list Z :=
  match data with
  | Some d => d ++ replicate (Z.to_nat avail - length d) 0
  | None => replicate (Z.to_nat avail) 0
  end.
Arguments block_of : simpl never.
Definition read_result (data : option (list Z)) : Z :=
  match data with Some d => Z.of_nat (length d) | None => -1 end.

(** [true] when the receiver leaves the loop. *)
Definition on_bytes (b : MbusBase_t P) (n : Node P) (avail : Z) (data : option (list Z)) : io (rst P) bool :=
  ok ← on_env calloc;
  if negb ok then mret true else
  match pIf b with
  | None => fault
  | Some pf =>
      if negb (can_parse pf) then _ ← on_env free; mret true else
      r ← call_parse pf b n (block_of avail data) (u16 (read_result data));
      _ ← set_lost 0;
      _ ← on_env free;
      match r with
      | None => mret (negb (bFullDuplex b))
      | Some ob => _ ← put_objs b ob; _ ← on_env free; mret (negb (bFullDuplex b))
      end
  end.

(** The limit of a half-duplex line, in microseconds. *)
Definition limit (b : MbusBase_t P) : Z := u32 (500000 + delay b * 1000).

(** The body of the loop, [true] when it is left. *)
Definition rcv_round (i : nat) (b : MbusBase_t P) (n : Node P) (r : round) : io (rst P) bool :=
  _ ← (if r_stop r then on_ports (upd_param i (set_bRcvRun false)) else mret tt);
  p ← on_ports (get_param i);
  if negb (bRcvRun p) then mret true
  else if negb (bFullDuplex b) && (limit b <=? r_diff r) then mret true
  else
    match r_poll r with
    | Nothing => mret false
    | Event err hup pollin avail data =>
        if err || hup || negb pollin then mret (negb (bFullDuplex b)) else on_bytes b n avail data
    end.

(** [false]: the loop is still running after the rounds given. *)
Fixpoint rcv_loop (i : nat) (b : MbusBase_t P) (n : Node P) (rounds : list round) : io (rst P) bool :=
  match rounds with
  | [] => mret false
  | r :: rounds => left ← rcv_round i b n r; if (left : bool) then mret true else rcv_loop i b n rounds
  end.

(** A failure of [epoll_ctl] is only logged. *)
Definition SerialRcvEntry (i : nat) (b : MbusBase_t P) (n : Node P) (rounds : list round) : io (rst P) bool :=
  _ ← on_ports (upd_param i (set_bRcvRun true));
  left ← rcv_loop i b n rounds;
  if (left : bool) then
    _ ← on_ports sys_ok;
    _ ← on_ports (SerialClose (Some i));
    mret true
  else mret false.

End Receiver.

(** ** Total correctness *)

Lemma SerialClose_not_blocked i w : SerialClose (Some i) w <> Blocked.
Proof.
  unfold SerialClose, get_param, mbind, io_bind. destruct (params w !! i) as [p|] eqn:E; [|done].
  destruct (sfd p =? -1); [done|]. unfold emit, upd_param, get_param, put_param, mbind, io_bind. cbn. rewrite E.
  by destruct (pMutex p).
Qed.

Section Receive.
Context {P : Type} (inv : P -> Prop) (bpre : Z -> Z -> option MbusNode -> option ty_obj_dp_s -> Prop).
Context (okf : Z -> list Z -> Prop) (ppre : Z -> Z -> option MbusNode -> list Z -> Z -> Prop) (leak : Z).
Context (f : MbusIf P) {Hf : IfOk inv bpre okf ppre leak f}.
Variables (b : MbusBase_t P) (n : Node P).
Hypothesis Hpf : pIf b = Some f.
Hypothesis Hdev : 0 <= devAddr b < 65536.
Hypothesis Hreg : 0 <= regAddr b < 65536.
Implicit Types s : rst P.

(** Which of the objects the queue takes, and what is left of the answers. *)
Fixpoint taken (acc : list bool) (l : list MbusObj_t) : list MbusObj_t * list MbusObj_t * list bool :=
  match l with
  | [] => ([], [], acc)
  | o :: l =>
      let '(a, d, acc') := taken (tl acc) l in
      if hd true acc then (o :: a, d, acc') else (a, o :: d, acc')
  end.

(** The state after the objects [l] have been put into the queue. *)
Definition with_taken (l : list MbusObj_t) s : rst P :=
  let '(a, d, acc) := taken (accepts s) l in
  R (rports s) (renv s) (rlost s) acc (arrived s ++ a) (dropped s ++ d).

Lemma put_objs_run ob s :
  last ob = Some None -> put_objs b ob s = Ran tt (with_taken (map (stamp b) (delivered ob)) s).
Proof.
  revert s. induction ob as [|[o|] ob IH]; intros s Hl; [done| |].
  - assert (last ob = Some None) as Hl' by (by destruct ob).
    cbn [put_objs delivered map]. unfold mbind, io_bind, queue_put.
    destruct (hd true (accepts s)) eqn:E; rewrite IH by done; unfold with_taken; cbn [taken rports renv rlost accepts arrived dropped];
      rewrite E; destruct (taken (tl (accepts s)) _) as [[a d] acc]; by rewrite <- app_assoc.
  - destruct s. cbn. by rewrite !app_nil_r.
Qed.

(** What a buffer must be for the plugin to be used as it was proved. *)
Definition heard (r : round) : Prop :=
  match r_poll r with
  | Nothing => True
  | Event _ _ _ avail (Some d) =>
      bytes d /\ 0 <= avail < 65536 /\ (length d <= Z.to_nat avail)%nat /\
      ppre (u8 (devAddr b)) (regAddr b) (Some (node_arg n)) (block_of avail (Some d)) (Z.of_nat (length d))
  | Event _ _ _ _ None => False
  end.

(** The effect of a buffer: the blocks left are at most those a rejected buffer
    may cost, or the objects of the array the plugin returned, which went, with
    the stamp, to the queue. *)
Record received s s' : Prop := {
  rc_ports : rports s' = rports s;
  rc_inv : inv (st (renv s'));
  rc_lost : rlost s' = rlost s \/ rlost s' = 0;
  rc_objs :
    (arrived s' = arrived s /\ dropped s' = dropped s /\
     live (mem (renv s)) <= live (mem (renv s')) <= live (mem (renv s)) + leak) \/
    exists ob a d acc, last ob = Some None /\ taken (accepts s) (map (stamp b) (delivered ob)) = (a, d, acc) /\
      arrived s' = arrived s ++ a /\ dropped s' = dropped s ++ d /\
      live (mem (renv s')) = live (mem (renv s)) + Z.of_nat (length ob) - 1
}.

Hypothesis Hleak : 0 <= leak.

Lemma received_refl s : inv (st (renv s)) -> received s s.
Proof. intros Hi. split; [done|done|by left|left; split_and!; [done|done|lia..]]. Qed.

Lemma block_of_ok avail d :
  bytes d -> 0 <= avail -> (length d <= Z.to_nat avail)%nat ->
  bytes (block_of avail (Some d)) /\ length (block_of avail (Some d)) = Z.to_nat avail.
Proof.
  intros Hb Ha Hl. unfold block_of. split.
  - apply Forall_app. split; [done|]. apply bytes_replicate.
  - rewrite length_app, length_replicate. lia.
Qed.

Lemma runs_on_env {A} (m : C (env P) A) (Q : A -> rst P -> Prop) s :
  wp m (fun a e => Q a (R (rports s) e (rlost s) (accepts s) (arrived s) (dropped s))) (renv s) ->
  runs (on_env m) Q s.
Proof. unfold runs, wp, on_env. by destruct (m (renv s)) as [[a e]|]. Qed.

Lemma runs_call_parse s buf len (Q : option Objs -> rst P -> Prop) :
  inv (st (renv s)) -> bytes buf -> 0 <= len < 65536 -> (Z.to_nat len <= length buf)%nat ->
  ppre (u8 (devAddr b)) (regAddr b) (Some (node_arg n)) buf len -> can_parse f = true ->
  (forall r e, parsed inv leak (live (mem (renv s))) r e ->
     Q r (R (rports s) e (rlost s) (accepts s) (arrived s) (dropped s))) ->
  runs (call_parse f b n buf len) Q s.
Proof.
  intros Hi Hb Hl Hlen Hp Hc HQ. unfold call_parse, can_parse in *.
  pose proof (if_parse (f := f)) as Hok.
  destruct (parse f) as [p|]; [|destruct (parseExt f) as [p|]; [|done]]; apply runs_on_env;
    (eapply wp_mono; [apply Hok; try done; apply u8_range|exact HQ]).
Qed.

Lemma runs_on_bytes s avail d :
  inv (st (renv s)) -> bytes d -> 0 <= avail < 65536 -> (length d <= Z.to_nat avail)%nat ->
  ppre (u8 (devAddr b)) (regAddr b) (Some (node_arg n)) (block_of avail (Some d)) (Z.of_nat (length d)) ->
  runs (on_bytes b n avail (Some d)) (fun left s' => received s s' /\ (bFullDuplex b = false -> left = true)) s.
Proof.
  intros Hi Hb Ha Hl Hp. unfold on_bytes.
  apply runs_bind, runs_on_env, wp_calloc; intros p; cbn [negb].
  2: { apply runs_ret. split; [|done]. split; cbn; [done|done|by left|]. left. split_and!; [done|done|lia..]. }
  rewrite Hpf. destruct (can_parse f) eqn:Hc; cbn [negb].
  2: { apply runs_bind, runs_on_env, wp_free, runs_ret. split; [|done].
       split; cbn; [done|done|by left|]. left. split_and!; [done|done|lia..]. }
  destruct (block_of_ok avail d) as [Hbb Hbl]; [done|lia|done|].
  apply runs_bind. cbn [read_result]. rewrite u16_small by lia.
  apply runs_call_parse; [done|done|lia|rewrite Hbl; lia|done|done|].
  intros r e [Hie Hr]. cbn in Hr.
  apply runs_bind. unfold set_lost at 1, runs at 1. cbn. apply runs_bind, runs_on_env, wp_free. cbn.
  destruct r as [ob|].
  - destruct Hr as [Hlv Hlast]. apply runs_bind. unfold runs at 1. rewrite put_objs_run by done.
    unfold with_taken. cbn. destruct (taken _ _) as [[a d'] acc] eqn:Et.
    apply runs_bind, runs_on_env, wp_free, runs_ret. split; [|by intros ->].
    split; cbn; [done|done|by right|]. right. exists ob, a, d', acc. split_and!; try done. lia.
  - apply runs_ret. split; [|by intros ->]. split; cbn; [done|done|by right|]. left. split_and!; [done|done|lia..].
Qed.

(** A round leaves the loop or, on a half-duplex line, nothing was heard. *)
Lemma runs_rcv_round i s p r :
  bFullDuplex b = false -> params (rports s) !! i = Some p -> inv (st (renv s)) -> heard r ->
  runs (rcv_round i b n r)
    (fun left s' => exists w, received (R w (renv s) (rlost s) (accepts s) (arrived s) (dropped s)) s' /\
       rports s' = w /\ (w = rports s \/ w = W (<[i := set_bRcvRun false p]> (params (rports s))) (locked (rports s))
         (opens (rports s)) (oks (rports s)) (trace (rports s))) /\
       (left = false -> s' = s /\ r_diff r < limit b)) s.
Proof.
  intros Hh Hp Hi Hr. unfold rcv_round. rewrite Hh. cbn [negb andb].
  destruct (r_stop r).
  { apply runs_bind. unfold runs at 1, on_ports, upd_param, get_param, put_param, mbind, io_bind. rewrite Hp.
    unfold runs, mbind, io_bind, on_ports, get_param. cbn [rports params].
    rewrite list_lookup_insert_eq by (by eapply lookup_lt_Some). cbn [bRcvRun set_bRcvRun negb].
    eexists. split; [by apply received_refl|]. split; [done|]. split; [by right|done]. }
  apply runs_bind, runs_ret. apply runs_bind.
  assert (on_ports (get_param i) s = Ran p s) as Hg.
  { unfold on_ports, get_param. rewrite Hp. by destruct s. }
  unfold runs at 1. rewrite Hg.
  assert (exists w, received (R w (renv s) (rlost s) (accepts s) (arrived s) (dropped s)) s /\ rports s = w /\
    (w = rports s \/ w = W (<[i := set_bRcvRun false p]> (params (rports s))) (locked (rports s))
         (opens (rports s)) (oks (rports s)) (trace (rports s)))) as (w & H1 & H2 & H3).
  { exists (rports s). split; [destruct s; by apply received_refl|]. split; [done|by left]. }
  destruct (bRcvRun p); cbn [negb].
  2: { apply runs_ret. by exists w. }
  destruct (limit b <=? r_diff r) eqn:El; bprop.
  { apply runs_ret. by exists w. }
  destruct (r_poll r) as [|err hup pin avail data] eqn:Ep.
  { apply runs_ret. exists w. split_and!; try done. }
  destruct (err || hup || negb pin); [apply runs_ret; by exists w|].
  unfold heard in Hr. rewrite Ep in Hr. destruct data as [d|]; [|done]. destruct Hr as (Hb & Ha & Hl & Hpp).
  eapply runs_mono; [by apply runs_on_bytes|]. intros left s' [Hrc Hleft]. cbv beta.
  exists (rports s). split; [by destruct s|]. split; [apply (rc_ports _ _ Hrc)|]. split; [by left|].
  intros ->. discriminate (Hleft Hh).
Qed.

(** The loop ends at the latest in the first round that is late. *)
Lemma runs_rcv_loop i s p rounds :
  bFullDuplex b = false -> params (rports s) !! i = Some p -> inv (st (renv s)) -> Forall heard rounds ->
  Exists (fun r => limit b <= r_diff r) rounds ->
  runs (rcv_loop i b n rounds)
    (fun left s' => left = true /\ exists w, received (R w (renv s) (rlost s) (accepts s) (arrived s) (dropped s)) s' /\
       rports s' = w /\ (w = rports s \/ w = W (<[i := set_bRcvRun false p]> (params (rports s))) (locked (rports s))
         (opens (rports s)) (oks (rports s)) (trace (rports s)))) s.
Proof.
  intros Hh Hp Hi Hr Hex. induction rounds as [|r rounds IH]; [by apply Exists_nil in Hex|].
  apply Forall_cons in Hr as [Hr Hrs]. cbn [rcv_loop]. apply runs_bind.
  eapply runs_mono; [by eapply runs_rcv_round|]. intros left s' (w & H1 & H2 & H3 & H4). cbv beta.
  destruct left.
  - apply runs_ret. split; [done|]. by exists w.
  - destruct H4 as [-> Hlt]; [done|]. apply IH; [done|].
    apply Exists_cons in Hex as [Hl|Hl]; [lia|done].
Qed.
End Receive.

Section Thread.
Context {P : Type}.
Implicit Types s : rst P.

(** The state [s] with the ports [w]. *)
Definition with_ports (w : world) s : rst P := R w (renv s) (rlost s) (accepts s) (arrived s) (dropped s).

Lemma runs_on_ports {A} (m : io world A) (Q : A -> rst P -> Prop) s :
  runs m (fun a w => Q a (with_ports w s)) (rports s) -> runs (on_ports m) Q s.
Proof. unfold runs, on_ports. by destruct (m (rports s)). Qed.

Lemma runs_upd_param i g w p (Q : unit -> world -> Prop) :
  params w !! i = Some p ->
  Q tt (W (<[i := g p]> (params w)) (locked w) (opens w) (oks w) (trace w)) -> runs (upd_param i g) Q w.
Proof. intros Hp HQ. unfold runs, upd_param, get_param, put_param, mbind, io_bind. by rewrite Hp. Qed.

Lemma received_ports (inv : P -> Prop) leak b w w' s s' :
  received inv leak b (with_ports w s) s' -> received inv leak b (with_ports w' s) (with_ports w' s').
Proof. intros [H1 H2 H3 H4]. by split. Qed.

Lemma runs_sys_ok (Q : bool -> world -> Prop) w :
  (forall b l, Q b (W (params w) (locked w) (opens w) l (trace w))) -> runs sys_ok Q w.
Proof. intros HQ. unfold runs, sys_ok. apply HQ. Qed.

(** The end of the thread: the descriptor is closed and the port released. *)
Lemma runs_rcv_close i s p m (Q : bool -> rst P -> Prop) :
  ports_ok (rports s) -> params (rports s) !! i = Some p -> pMutex p = Some m -> sfd p <> -1 ->
  (forall w, ports_ok w -> params w = <[i := closed_param p]> (params (rports s)) ->
     locked w = <[m := false]> (locked (rports s)) -> trace w = trace (rports s) ++ [Closed (sfd p)] ->
     Q true (with_ports w s)) ->
  runs (_ ← on_ports sys_ok; _ ← on_ports (SerialClose (Some i)); mret true) Q s.
Proof.
  intros Hw Hp Hm Hs HQ. apply runs_bind, runs_on_ports, runs_sys_ok. intros ok l.
  apply runs_bind, runs_on_ports, iwp_runs; [apply SerialClose_not_blocked|].
  apply (iwp_SerialClose _ _ p m); [|done|done|done|].
  - rewrite <- (list_insert_id (params (rports s)) i p) by done. cbn.
    apply (ports_ok_same _ _ p); [done|done|done|done|apply Hw|done].
  - intros _ w H1 H2 H3 H4 _. by apply runs_ret, HQ.
Qed.
End Thread.

(** ** Properties *)


(** The line of a DTouch device: two rounds without an event, its answer, and a
    round that is late. *)
Definition dt_answer : list Z := [1; DTouch.READ_CODE; 8; 0; 1; 0; 3; 0; 3; 0; 0; 0; 0; 0].
Definition dt_rounds : list round :=
  [Round 10000 false Nothing; Round 20000 false Nothing;
   Round 30000 false (Event false false true 14 (Some dt_answer)); Round 600000 false Nothing].
Definition dt_line : rst unit :=
  R (W [a_port (-1) false; a_port 3 false] [true; false; false; false] [] [] [Opened 3 "/dev/ttymxc1"])
    (Env (Heap [] 0) tt) 1 [] [] [].

Lemma dt_line_ok : ports_ok (rports dt_line).
Proof.
  assert (forall m, locked (rports dt_line) !! m = Some true -> m = 0%nat) as Hl.
  { by intros [|[|[|[|m]]]]. }
  split; try done.
  - apply Forall_cons_2; [|apply Forall_cons_2; [|apply Forall_nil_2]];
      (split; [simpl; lia|]; exists 0%nat; split; [done|lia]).
  - intros [|[|i]] p m; simpl; [intros [= <-]..|done]; intros [= <-] Hs; simpl in *; [lia|done].
  - intros m ->%Hl. by exists 1%nat, (a_port 3 false).
  - intros [|[|i]] [|[|j]] p q m; simpl; intros [= <-] [= <-]; simpl; lia || done.
Qed.

(** What came of a run: the points and values that arrived, and the blocks left. *)
Definition summary (r : res (rst unit) bool) : option (list (Z * Z) * Z) :=
  match r with
  | Ran _ s => Some (map (fun o => (localPoint o, value o)) (arrived s), live (mem (renv s)))
  | _ => None
  end.


(** A search in a block of zeros for more bytes than it has. *)
Lemma memmatch_zeros dst k n i :
  dst <> 0 -> (i <= k)%nat -> (k - i < n)%nat -> memmatch_loop (replicate k 0) dst n i = Undef.
Proof.
  intros Hd. revert i. induction n as [|n IH]; intros i Hi Hn; [lia|]. cbn [memmatch_loop].
  unfold rd16be, rd8. destruct (replicate k 0 !! i) as [x|] eqn:E; [|done].
  apply lookup_replicate in E as [-> Hik]. cbn [obind].
  destruct (replicate k 0 !! Datatypes.S i) as [y|] eqn:E'; [|done].
  apply lookup_replicate in E' as [-> Hik']. cbn [obind].
  destruct (dst =? 0 * 256 + 0) eqn:Ed; bprop; [lia|]. apply IH; lia.
Qed.

(** A [read] that fails (-1) is not noticed: its result is passed to the
    parser as a length of 65535, and the search of the DTouch plugin for its
    command then reads past the end of the block. *)
Theorem receiver_read_error (b : MbusBase_t unit) n avail s :
  pIf b = Some dtouch_if -> node_arg n = PluginApi.Node true true -> hd true (plan (mem (renv s))) = true ->
  0 <= avail < 60000 -> on_bytes b n avail None s = Fault.
Proof.
  intros Hf Hn Hp Ha. unfold on_bytes, mbind, io_bind.
  assert (exists p, on_env calloc s = Ran true (R (rports s) (Env (Heap p (live (mem (renv s)) + 1)) (st (renv s)))
    (rlost s) (accepts s) (arrived s) (dropped s))) as [p ->].
  { unfold on_env, calloc. destruct (plan (mem (renv s))) as [|[] p]; [by exists []|by exists p|done]. }
  cbn [negb]. rewrite Hf. cbn [can_parse dtouch_if parse negb]. unfold call_parse. cbn [parse parseExt dtouch_if].
  unfold on_env, DTouch.parse. rewrite Hn. unfold read_result. change (u16 (-1)) with 65535.
  change (65535 <? 8) with false. cbn [pSwitch pSpeed negb orb].
  unfold block_of. unfold find2, memmatch. rewrite memmatch_zeros; [done| |lia|lia].
  pose proof (u8_range (devAddr b)) as Hu. unfold is_u8, DTouch.READ_CODE in *. rewrite u16_small by lia. lia.
Qed.

Lemma receiver_read_error_witness : on_bytes (dt_base 1) dt_node 8 None dt_line = Fault.
Proof. apply (receiver_read_error (dt_base 1) dt_node 8 dt_line); [reflexivity..|lia]. Defined.
