(* ===== verification/KnxDevs.v ===== *)
(** The devices of the KNX bus, the state of the KNX side of the gateway, and
    what it uses to reach the bus and the cloud (source/misc_dev_plugins.h and
    source/knxHandle.c).

    A node of [pKnxDevList] points to one of the structures [KnxAcd_t] ...
    [KnxCurtain_t]; which one is told by [primaryType], by which the code casts.
    The functions of the EIB library, of the cloud and of [exit] are outside the
    program: their results are the oracles of the state, their calls the events
    of the log. *)

From S2P Require Import Prelude CMem CStr Device Queue PluginApi Dpt9 KnxPlugins KnxAddr KnxPacket Serial Nodes.

Local Open Scope string_scope.
Local Open Scope list_scope.
Local Open Scope Z_scope.

(** ** Types *)

Definition KNX_PANEL_ONE_KEY : Z := 8.
Definition KNX_PANEL_EIGHT_KEY : Z := 15.
Definition KNX_DIMMER_ONE_KEY : Z := 39.
Definition KNX_DIMMER_FOUR_KEY : Z := 42.
Definition KNX_MISC_PANEL_ONE_KEY : Z := 43.
Definition KNX_MISC_PANEL_FOUR_KEY : Z := 46.
Definition DEVICE_ATTRI_CONTROLLER : Z := 3.
Definition DEVICE_ATTRI_ACTUATOR : Z := 4.
Definition POINT_ATTR_WRITE_ONLY : Z := 2.

(** [kb_attri] is the member [attri] of the element, which the Modbus side does
    not use; [pvForeignKey] of the element is the primary key of the Modbus
    device the pointer leads to. *)
Record KnxBase_t := KBase {
  kb_pIf : option KnxIf;
  kb_element : DeviceElement_t;
  kb_attri : Z;
  kb_bOnlineCheck : bool;
  kb_hbIgnore : Z
}.

(** [KnxPoints_t]: of [point] the members in use, of the groups the address.
    [kp_value] is the low half of the union [PointValue_t], [kp_max] the [u16] of
    [attr.attr.value.max].  [pCtrl] and [pGroup] are one member. *)
Record KnxPoints_t := KnxPoint {
  kp_id : Z;
  kp_mode : Z;
  kp_max : Z;
  kp_value : Z;
  kp_time : Z;
  kp_pCtrl : option string;
  kp_pFeedback : option string
}.
Definition set_kp_value v k := KnxPoint (kp_id k) (kp_mode k) (kp_max k) v (kp_time k) (kp_pCtrl k) (kp_pFeedback k).
Definition set_kp_time t k := KnxPoint (kp_id k) (kp_mode k) (kp_max k) (kp_value k) t (kp_pCtrl k) (kp_pFeedback k).

(** The members of the union. *)
Definition get_b1 (v : Z) : bool := negb (u8 v =? 0).
Definition get_u8 (v : Z) : Z := u8 v.
Definition put_b1 (b : bool) (v : Z) : Z := Z.land v 0xffffff00 + b2z b.
Definition put_u8 (x v : Z) : Z := Z.land v 0xffffff00 + u8 x.
Definition put_u16 (x v : Z) : Z := Z.land v 0xffff0000 + u16 x.
Definition put_i32 (x : Z) : Z := u32 x.

(** The pointers of [KnxAcd_t], [KnxVent_t] and [KnxHeat_t], in the order of the
    structure. *)
Module Acd.
Definition pSwitch : nat := 0.
Definition pSwitchStatus : nat := 1.
Definition pSpeed : nat := 2.
Definition pSpeedStatus : nat := 3.
Definition pMode : nat := 4.
Definition pModeStatus : nat := 5.
Definition pTemp : nat := 6.
Definition pTempStatus : nat := 7.
Definition pEnvTemp : nat := 8.
Definition pErrorCode : nat := 9.
End Acd.
Module Vent.
Definition pSwitch : nat := 0.
Definition pSwitchStatus : nat := 1.
Definition pSpeed : nat := 2.
Definition pSpeedStatus : nat := 3.
Definition pEnvTemp : nat := 4.
Definition pErrorCode : nat := 5.
End Vent.
Module Heat.
Definition pSwitch : nat := 0.
Definition pSwitchStatus : nat := 1.
Definition pTemp : nat := 2.
Definition pTempStatus : nat := 3.
Definition pEnvTemp : nat := 4.
Definition pValve : nat := 5.
Definition pErrorCode : nat := 6.
End Heat.

(** The arrays [keys] and [chl] have [keySum] entries. *)
Record KnxSmartPanelPoint_t := SmartPoint { sp_key : KnxPoints_t; sp_scene : KnxPoints_t; sp_mode : KnxPoints_t }.
Record KnxDimmerPoint_t := DimmerPoint { dm_key : KnxPoints_t; dm_bright : KnxPoints_t }.

Inductive KnxDev :=
| KnxAcd_t (base : KnxBase_t) (objs : list (option KnxObj_t))
| KnxVent_t (base : KnxBase_t) (objs : list (option KnxObj_t))
| KnxHeat_t (base : KnxBase_t) (objs : list (option KnxObj_t))
| KnxPanel_t (base : KnxBase_t) (keys : list KnxPoints_t)
| KnxSmartPanel_t (base : KnxBase_t) (chl : list KnxSmartPanelPoint_t)
| KnxDimmer_t (base : KnxBase_t) (chl : list KnxDimmerPoint_t)
| KnxCurtain_t (base : KnxBase_t) (pOpen pClose pStop : option KnxPoints_t).

Definition base_of (d : KnxDev) : KnxBase_t :=
  match d with
  | KnxAcd_t b _ | KnxVent_t b _ | KnxHeat_t b _ | KnxPanel_t b _ | KnxSmartPanel_t b _ | KnxDimmer_t b _
  | KnxCurtain_t b _ _ _ => b
  end.
Definition set_kbase (b : KnxBase_t) (d : KnxDev) : KnxDev :=
  match d with
  | KnxAcd_t _ x => KnxAcd_t b x | KnxVent_t _ x => KnxVent_t b x | KnxHeat_t _ x => KnxHeat_t b x
  | KnxPanel_t _ x => KnxPanel_t b x | KnxSmartPanel_t _ x => KnxSmartPanel_t b x | KnxDimmer_t _ x => KnxDimmer_t b x
  | KnxCurtain_t _ x y z => KnxCurtain_t b x y z
  end.
Definition type_of (d : KnxDev) : Z := primaryType (kb_element (base_of d)).
Definition key_of (d : KnxDev) : string := e_pPrimaryKey (kb_element (base_of d)).
Definition in_range (lo hi v : Z) : bool := (lo <=? v) && (v <=? hi).

(** The pointers of a device of type [ty], when the structure is the one the code
    casts to. *)
Definition objs_of (ty : Z) (d : KnxDev) : option (list (option KnxObj_t)) :=
  match d with
  | KnxAcd_t _ o => if ty =? KNX_DEVICE_AIRCONDITION then Some o else None
  | KnxVent_t _ o => if ty =? KNX_DEVICE_VENTILATION then Some o else None
  | KnxHeat_t _ o => if ty =? KNX_DEVICE_FLOORHEATING then Some o else None
  | _ => None
  end.
Definition set_objs (o : list (option KnxObj_t)) (d : KnxDev) : KnxDev :=
  match d with
  | KnxAcd_t b _ => KnxAcd_t b o | KnxVent_t b _ => KnxVent_t b o | KnxHeat_t b _ => KnxHeat_t b o
  | d => d
  end.
Definition obj_at (o : list (option KnxObj_t)) (i : nat) : option KnxObj_t := mjoin (o !! i).

(** ** State *)

Record KnxWriteType_t := KnxWrite { kw_pPrimaryKey : string; kw_devId : Z; kw_obj : ty_obj_dp_s }.

Inductive kev :=
| KReport (key : string) (o : ty_obj_dp_s)
| KFresh (key : string)
| EibOpen
| EibClose
| Apdu (gAddr : Z) (buf : list Z)
| ModeSaved (id chl : Z) (scene : bool)
| Bind (tp : Z) (key : string)
| Unbind (key : string)
| HbCfg (key : string) (time num : Z)
| ResetGw
| Job (name : string).

(** The other half of the gateway: [g_bActive], and [ModbusDevWrite] on a state
    of type [M]. *)
Class ModbusSide (M : Type) := {
  side_active : M -> bool;
  side_write : option string -> option ty_obj_dp_s -> io M Z
}.

(** [eib] are the results of the calls of the EIB library to come: of
    EIBSocketURL (0: a null connection), of EIBOpenT_Group and of EIBSendAPDU
    (-1: an error); with none left all succeed.  [cloud] are those of
    [tuya_user_iot_report_obj_dp] and of [tuya_user_iot_misc_dev_hb_fresh] (none:
    0), [bound] the devices [tuya_user_iot_misc_dev_desc_get] knows.  [junk] is
    what an uninitialised word of the stack holds. *)
Record kst (M : Type) := K {
  devs : list (option KnxDev);
  eib : list Z;
  cloud : list Z;
  bound : string -> bool;
  klog : list kev;
  wq : list KnxWriteType_t;
  hq : list string;
  kheap : heap;
  junk : Z;
  modbus : M
}.
Arguments K {M}.
Arguments devs {M}.
Arguments eib {M}.
Arguments cloud {M}.
Arguments bound {M}.
Arguments klog {M}.
Arguments wq {M}.
Arguments hq {M}.
Arguments kheap {M}.
Arguments junk {M}.
Arguments modbus {M}.

(** [for (int i = 0; ...; i++)] over an array or a list: the body gives [true] to
    leave the loop, and the variables that live across the rounds. *)
Fixpoint loop {S A B} (body : nat -> A -> B -> io S (bool * B)) (i : nat) (l : list A) (acc : B) : io S B :=
  match l with
  | [] => mret acc
  | a :: l =>
      r ← body i a acc;
      if (r : bool * B).1 then mret r.2 else loop body (Datatypes.S i) l r.2
  end.

Section KnxSide.
Context {M : Type} `{ModbusSide M}.
Implicit Types s : kst M.

Definition with_devs l s : kst M := K l (eib s) (cloud s) (bound s) (klog s) (wq s) (hq s) (kheap s) (junk s) (modbus s).
Definition with_log l s : kst M := K (devs s) (eib s) (cloud s) (bound s) l (wq s) (hq s) (kheap s) (junk s) (modbus s).
Definition with_modbus m s : kst M := K (devs s) (eib s) (cloud s) (bound s) (klog s) (wq s) (hq s) (kheap s) (junk s) m.
Definition with_wq l s : kst M := K (devs s) (eib s) (cloud s) (bound s) (klog s) l (hq s) (kheap s) (junk s) (modbus s).
Definition with_hq l s : kst M := K (devs s) (eib s) (cloud s) (bound s) (klog s) (wq s) l (kheap s) (junk s) (modbus s).
Definition with_heap h s : kst M := K (devs s) (eib s) (cloud s) (bound s) (klog s) (wq s) (hq s) h (junk s) (modbus s).
Definition with_eib l s : kst M := K (devs s) l (cloud s) (bound s) (klog s) (wq s) (hq s) (kheap s) (junk s) (modbus s).
Definition with_cloud l s : kst M := K (devs s) (eib s) l (bound s) (klog s) (wq s) (hq s) (kheap s) (junk s) (modbus s).

Definition note (e : kev) : io (kst M) unit := fun s => Ran tt (with_log (klog s ++ [e]) s).
Definition active : io (kst M) bool := fun s => Ran (side_active (modbus s)) s.
Definition get_junk : io (kst M) Z := fun s => Ran (junk s) s.
Definition is_bound (key : string) : io (kst M) bool := fun s => Ran (bound s key) s.
Definition upd_dev (i : nat) (f : KnxDev -> KnxDev) : io (kst M) unit := fun s =>
  Ran tt (with_devs (alter (fmap f) i (devs s)) s).
Definition of_outcome {A} (o : outcome A) : io (kst M) A := fun s =>
  match o with Done a => Ran a s | Undef => Fault end.
Definition on_heap {A} (m : C (env unit) A) : io (kst M) A := fun s =>
  match m (Env (kheap s) tt) with Done (a, e) => Ran a (with_heap (mem e) s) | Undef => Fault end.

(** The next result of the EIB library, [ok] when none is left. *)
Definition eib_call (ok : Z) : io (kst M) Z := fun s => Ran (hd ok (eib s)) (with_eib (tl (eib s)) s).
Definition cloud_call : io (kst M) Z := fun s => Ran (hd 0 (cloud s)) (with_cloud (tl (cloud s)) s).

Definition report_dp (key : string) (o : ty_obj_dp_s) : io (kst M) Z := _ ← note (KReport key o); cloud_call.
Definition hb_fresh (key : string) : io (kst M) Z := _ ← note (KFresh key); cloud_call.
Definition ModbusWrite (key : string) (o : ty_obj_dp_s) : io (kst M) Z := fun s =>
  match side_write (Some key) (Some o) (modbus s) with
  | Ran r m => Ran r (with_modbus m s)
  | Blocked => Blocked
  | Fault => Fault
  end.

(** [exit]: the thread does not go on. *)
Definition exit {A} : io (kst M) A := fun _ => Blocked.

(** EIBSocketURL ... EIBClose: [None] when no connection or no group could be
    opened and the code goes on with the next device, otherwise the result of
    EIBSendAPDU. *)
Definition send_apdu (gAddr : Z) (knxBuf : list Z) : io (kst M) (option Z) :=
  connect ← eib_call 1;
  if connect =? 0 then mret None else
  _ ← note EibOpen;
  opened ← eib_call 0;
  if opened =? -1 then _ ← note EibClose; mret None else
  ret ← eib_call (Z.of_nat (length knxBuf));
  _ ← (if ret =? -1 then mret tt else note (Apdu gAddr knxBuf));
  _ ← note EibClose;
  mret (Some ret).

(** The traversal of [pKnxDevList]; [ret] is -1 at its start, null values are
    passed over. *)
Definition each_dev (body : nat -> KnxDev -> Z -> io (kst M) (bool * Z)) : io (kst M) Z := fun s =>
  loop (fun i d ret => match d with Some d => body i d ret | None => mret (false, ret) end) 0 (devs s) (-1) s.

(** A limited queue, of what its pointers lead to (queue.c, in detail in
    Queue.v): [get]/[set] choose the queue. *)
Definition put_limited {A} (get : kst M -> list A) (set : list A -> kst M -> kst M) (max : Z) (x : A) :
    io (kst M) Z := fun s =>
  if Z.of_nat (length (get s)) =? max then Ran Q_ERR_NUM_ELEMENTS s
  else
    match on_heap calloc s with
    | Ran ok s => if (ok : bool) then Ran Q_OK (set (get s ++ [x]) s) else Ran Q_ERR_MEM s
    | _ => Fault
    end.
Definition WRITE_QUEUE_SIZE : Z := 200.
Definition HEARTBEAT_QUEUE_SIZE : Z := 200.
Definition put_write : KnxWriteType_t -> io (kst M) Z := put_limited wq with_wq WRITE_QUEUE_SIZE.
Definition put_heartbeat : string -> io (kst M) Z := put_limited hq with_hq HEARTBEAT_QUEUE_SIZE.

(** [strncpy (dst, src, MIN (DEVICE_ID_LENGTH, strlen (src)))] into a zeroed
    array. *)
Definition DEVICE_ID_LENGTH : nat := 32.
Definition KnxGroupWrite (pDevId : option string) (pObj : option ty_obj_dp_s) : io (kst M) Z :=
  match pDevId, pObj with
  | Some key, Some o =>
      ok ← on_heap calloc;
      if negb ok then mret (-1) else
      if (String.length key <? 12)%nat then fault else
      let devId := match strtol (drop_string 12 key) with Some (v, _) => u32 v | None => 0 end in
      ret ← put_write (KnxWrite (take_string DEVICE_ID_LENGTH key) devId o);
      if negb (ret =? 0) then mret (-1) else mret 0
  | _, _ => mret (-1)
  end.

End KnxSide.

(** ** Rules *)

Section KnxRules.
Context {M : Type} `{ModbusSide M}.
Implicit Types s : kst M.

(** A loop that stays in its invariant, which may depend on what is left. *)
Lemma runs_loop {A B} (body : nat -> A -> B -> io (kst M) (bool * B)) (I : B -> kst M -> Prop) l i acc s :
  I acc s ->
  (forall j a acc s, l !! j = Some a -> I acc s -> runs (body (i + j)%nat a acc) (fun r s' => I r.2 s') s) ->
  runs (loop body i l acc) I s.
Proof.
  revert i acc s. induction l as [|a l IH]; intros i acc s HI Hb; [done|]. cbn [loop].
  apply runs_bind. eapply runs_mono.
  { specialize (Hb 0%nat a acc s eq_refl HI). rewrite Nat.add_0_r in Hb. exact Hb. }
  intros [[] acc'] s' HI'; cbn in *; [done|]. apply IH; [done|].
  intros j x acc1 s1 Hj HI1. specialize (Hb (Datatypes.S j) x acc1 s1 Hj HI1).
  by rewrite Nat.add_succ_r in Hb.
Qed.

(** Rounds that change nothing, whether they end the loop or not. *)
Definition idle (body : nat -> KnxDev -> Z -> io (kst M) (bool * Z)) s : Prop :=
  forall j d ret, devs s !! j = Some (Some d) -> exists stop, body j d ret s = Ran (stop, ret) s.

Lemma loop_idle {A B} (body : nat -> A -> B -> io (kst M) (bool * B)) l i acc s :
  (forall j a, l !! j = Some a -> exists stop, body (i + j)%nat a acc s = Ran (stop, acc) s) ->
  loop body i l acc s = Ran acc s.
Proof.
  revert i. induction l as [|a l IH]; intros i Hb; [done|]. cbn [loop]. unfold mbind, io_bind.
  destruct (Hb 0%nat a eq_refl) as [stop E]. rewrite Nat.add_0_r in E. rewrite E. cbn.
  destruct stop; [done|]. apply IH. intros j x Hj. destruct (Hb (Datatypes.S j) x Hj) as [stop' E'].
  rewrite Nat.add_succ_r in E'. by exists stop'.
Qed.

Lemma each_dev_idle body s : idle body s -> each_dev body s = Ran (-1) s.
Proof.
  intros Hb. unfold each_dev. apply loop_idle. intros j [d|] Hj; [by apply (Hb j d)|by exists false].
Qed.

Lemma loop_after {A B} (body : nat -> A -> B -> io (kst M) (bool * B)) l i n a acc s stop acc' s1 :
  l !! n = Some a ->
  (forall j x, (j < n)%nat -> l !! j = Some x -> body (i + j)%nat x acc s = Ran (false, acc) s) ->
  body (i + n)%nat a acc s = Ran (stop, acc') s1 ->
  (forall j x, (n < j)%nat -> l !! j = Some x -> exists stop, body (i + j)%nat x acc' s1 = Ran (stop, acc') s1) ->
  loop body i l acc s = Ran acc' s1.
Proof.
  revert i n. induction l as [|x l IH]; intros i [|n] Hn Hpre Hat Hpost; try done.
  - injection Hn as ->. cbn [loop]. unfold mbind, io_bind. rewrite Nat.add_0_r in Hat. rewrite Hat. cbn.
    destruct stop; [done|]. apply loop_idle. intros j y Hj.
    destruct (Hpost (Datatypes.S j) y ltac:(lia) Hj) as [stop E]. rewrite Nat.add_succ_r in E. by exists stop.
  - cbn [loop]. unfold mbind, io_bind. pose proof (Hpre 0%nat x ltac:(lia) eq_refl) as E.
    rewrite Nat.add_0_r in E. rewrite E. cbn. apply (IH (Datatypes.S i) n); [done| | |].
    + intros j y Hj Hy. specialize (Hpre (Datatypes.S j) y ltac:(lia) Hy). by rewrite Nat.add_succ_r in Hpre.
    + by rewrite Nat.add_succ_r in Hat.
    + intros j y Hj Hy. destruct (Hpost (Datatypes.S j) y ltac:(lia) Hy) as [stop' E'].
      rewrite Nat.add_succ_r in E'. by exists stop'.
Qed.

(** The device [n] acts: the others before it are passed over, those after it
    may end the loop. *)
Lemma each_dev_acts body s n d stop ret s1 :
  devs s !! n = Some (Some d) ->
  (forall j d', (j < n)%nat -> devs s !! j = Some (Some d') -> body j d' (-1) s = Ran (false, -1) s) ->
  body n d (-1) s = Ran (stop, ret) s1 ->
  (forall j d', (n < j)%nat -> devs s !! j = Some (Some d') -> exists stop, body j d' ret s1 = Ran (stop, ret) s1) ->
  each_dev body s = Ran ret s1.
Proof.
  intros Hn Hpre Hat Hpost. unfold each_dev. eapply (loop_after _ _ 0 n (Some d)); [done| |exact Hat|].
  - intros j [d'|] Hj Hx; [by apply Hpre|done].
  - intros j [d'|] Hj Hx; [by apply (Hpost j)|by exists false].
Qed.
End KnxRules.
