(* ===== verification/KnxCtrl.v ===== *)
(** Commands to the KNX devices (Knx_AirconditionCtrl ... Knx_CurtainCtrl,
    KNX_DevWriteEntry, KnxGroupRead and Knx_Write1Byte of source/knxHandle.c).

    A command for a device goes through seven functions, one per family, until one
    of them returns 0; each looks for the device in [pKnxDevList], lets its plugin
    compute the value for the bus, reports to the cloud for a device that answers
    for itself, and sends one APDU to the group of the point. *)

From S2P Require Import Prelude CMem CStr Device Queue PluginApi Dpt9 KnxPlugins KnxAddr KnxPacket Serial Nodes KnxDevs.

Local Open Scope string_scope.
Local Open Scope list_scope.
Local Open Scope Z_scope.

Section Ctrl.
Context {M : Type} `{ModbusSide M}.
Implicit Types s : kst M.

(** ** Air conditioners, ventilations, floor heatings

    The three functions are one chain of tests over different points; [points]
    gives them in the order of the chain, [true] for a switch, whose value goes
    into the first bytes of the APDU. *)

(** [uint8_t knxBuf[10] = {0, 0x80};] *)
Definition knxBuf : list Z := [0; 0x80; 0; 0; 0; 0; 0; 0; 0; 0].
Definition or_at (i : nat) (v : Z) (buf : list Z) : list Z := alter (fun x => Z.lor x v) i buf.

(** [readBlock (knxBuf + 2, value)]: the buffer and [dataLen]. *)
Definition put_block (buf : list Z) (value : Z) : list Z * Z :=
  let b := readBlock value in (take 2 buf ++ b ++ drop (2 + length b) buf, Z.of_nat (length b)).

(** The first point of the chain the command is for. *)
Fixpoint find_cmd (objs : list (option KnxObj_t)) (points : list (nat * bool)) (dpid : Z) :
    option (nat * bool * KnxObj_t) :=
  match points with
  | [] => None
  | (i, sw) :: points =>
      match obj_at objs i with
      | Some p => if k_cloudPoint p =? dpid then Some (i, sw, p) else find_cmd objs points dpid
      | None => find_cmd objs points dpid
      end
  end.

(** [pIf->control (&pKnxData->obj, p)], and the bytes to send. *)
Definition control_point (ctl : option ty_obj_dp_s -> option KnxObj_t -> outcome (Z * option KnxObj_t))
    (o : ty_obj_dp_s) (sw : bool) (p : KnxObj_t) : outcome (KnxObj_t * list Z) :=
  r <-! ctl (Some o) (Some p);
  match r.2 with
  | None => Undef
  | Some p =>
      let '(buf, dataLen) :=
        if sw then (or_at 1 (Z.land (k_value p) 0x3f) knxBuf, 0) else put_block knxBuf (k_value p) in
      Done (p, take (Z.to_nat (dataLen + 2)) buf)
  end.

(** The report of the command itself, for an actuator. *)
Definition report_cmd (b : KnxBase_t) (o : ty_obj_dp_s) (ret : Z) : io (kst M) Z :=
  act ← active;
  if act && (kb_attri b =? DEVICE_ATTRI_ACTUATOR) then
    ret ← report_dp (e_pPrimaryKey (kb_element b)) o;
    let ret := if negb (ret =? 0) then -1 else ret in
    _ ← hb_fresh (e_pPrimaryKey (kb_element b));
    mret ret
  else mret ret.

(** The end of a round: the next device after a failure, the end after a
    success. *)
Definition send_to (gAddr : Z) (buf : list Z) (ret : Z) : io (kst M) (bool * Z) :=
  r ← send_apdu gAddr buf;
  match r with None => mret (false, ret) | Some r => mret (negb (r =? -1), r) end.

Definition climate_dev (ty : Z) (points : list (nat * bool)) (w : KnxWriteType_t)
    (i : nat) (d : KnxDev) (ret : Z) : io (kst M) (bool * Z) :=
  let b := base_of d in
  if negb (type_of d =? ty) then mret (false, ret) else
  if negb (kw_devId w =? devId (kb_element b)) then mret (false, ret) else
  match objs_of ty d with
  | None => fault
  | Some objs =>
  match kb_pIf b with
  | None => mret (false, ret)
  | Some pIf =>
  match control pIf with
  | None => mret (false, ret)
  | Some ctl =>
  match find_cmd objs points (dpid (kw_obj w)) with
  | None => mret (false, ret)
  | Some (slot, sw, p) =>
      c ← of_outcome (control_point ctl (kw_obj w) sw p);
      _ ← upd_dev i (fun d => set_objs (<[slot := Some c.1]> objs) d);
      let gAddr := readgaddr (k_addr c.1) in
      if gAddr =? 0xff then mret (false, ret) else
      ret ← report_cmd b (kw_obj w) ret;
      send_to gAddr c.2 ret
  end end end end.

Definition climate_ctrl (ty : Z) (points : list (nat * bool)) (pKnxData : option KnxWriteType_t) : io (kst M) Z :=
  match pKnxData with
  | None => mret (-1)
  | Some w => each_dev (climate_dev ty points w)
  end.

Definition acd_cmds : list (nat * bool) :=
  [(Acd.pSwitch, true); (Acd.pSpeed, false); (Acd.pMode, false); (Acd.pTemp, false)].
Definition vent_cmds : list (nat * bool) := [(Vent.pSwitch, true); (Vent.pSpeed, false)].
Definition heat_cmds : list (nat * bool) := [(Heat.pSwitch, true); (Heat.pTemp, false)].

Definition Knx_AirconditionCtrl := climate_ctrl KNX_DEVICE_AIRCONDITION acd_cmds.
Definition Knx_VentilationCtrl := climate_ctrl KNX_DEVICE_VENTILATION vent_cmds.
Definition Knx_FloorHeatingCtrl := climate_ctrl KNX_DEVICE_FLOORHEATING heat_cmds.

(** ** Panels *)

Definition set_key (j : nat) (k : KnxPoints_t) (d : KnxDev) : KnxDev :=
  match d with KnxPanel_t b keys => KnxPanel_t b (<[j := k]> keys) | d => d end.

(** A point that is only written reports for itself; the result of the report is
    overwritten by that of the heartbeat. *)
Definition report_point (b : KnxBase_t) (k : KnxPoints_t) (o : ty_obj_dp_s) (ret : Z) : io (kst M) Z :=
  act ← active;
  if act && (kp_mode k =? POINT_ATTR_WRITE_ONLY) then
    _ ← report_dp (e_pPrimaryKey (kb_element b)) o;
    hb_fresh (e_pPrimaryKey (kb_element b))
  else mret ret.

Definition group_of (a : option string) : io (kst M) Z :=
  match a with None => fault | Some addr => mret (readgaddr addr) end.

Definition panel_key (i : nat) (b : KnxBase_t) (w : KnxWriteType_t) (j : nat) (k : KnxPoints_t) (acc : Z * bool) :
    io (kst M) (bool * (Z * bool)) :=
  let ret := acc.1 in
  if negb (kp_id k =? dpid (kw_obj w)) then mret (false, (ret, false)) else
  let k := set_kp_value (put_b1 (dp_bool (kw_obj w)) (kp_value k)) k in
  _ ← upd_dev i (set_key j k);
  gAddr ← group_of (kp_pCtrl k);
  ret ← report_point b k (put_dp_bool (get_b1 (kp_value k)) (Dp (u8 (kp_id k)) PROP_BOOL 0 0)) ret;
  r ← send_to gAddr (or_at 1 (b2z (get_b1 (kp_value k))) [0; 0x80]) ret;
  mret (r.1, (r.2, r.1)).

Definition panel_dev (w : KnxWriteType_t) (i : nat) (d : KnxDev) (ret : Z) : io (kst M) (bool * Z) :=
  if negb (in_range KNX_PANEL_ONE_KEY KNX_PANEL_EIGHT_KEY (type_of d)) then mret (false, ret) else
  if negb (kw_devId w =? devId (kb_element (base_of d))) then mret (false, ret) else
  match d with
  | KnxPanel_t b keys =>
      acc ← loop (panel_key i b w) 0 keys (ret, false);
      mret (acc.2, acc.1)
  | _ => fault
  end.

Definition Knx_PanelCtrl (pKnxData : option KnxWriteType_t) : io (kst M) Z :=
  match pKnxData with None => mret (-1) | Some w => each_dev (panel_dev w) end.

(** ** Smart panels

    A channel is a switch or a scene, as its mode says. *)

Fixpoint report_modes (b : KnxBase_t) (chl : list KnxSmartPanelPoint_t) (ret : Z) : io (kst M) Z :=
  match chl with
  | [] => mret ret
  | c :: chl =>
      act ← active;
      if (act : bool) then
        t ← get_junk;
        r ← report_dp (e_pPrimaryKey (kb_element b))
          (Dp (u8 (kp_id (sp_mode c))) PROP_ENUM (get_u8 (kp_value (sp_mode c))) t);
        _ ← hb_fresh (e_pPrimaryKey (kb_element b));
        report_modes b chl (if negb (r =? 0) then -1 else r)
      else report_modes b chl ret
  end.

Definition Knx_SmartPanelModeReport : io (kst M) Z :=
  each_dev (fun _ d ret =>
    if negb (in_range KNX_MISC_PANEL_ONE_KEY KNX_MISC_PANEL_FOUR_KEY (type_of d)) then mret (false, ret) else
    match d with
    | KnxSmartPanel_t b chl => ret ← report_modes b chl ret; mret (false, ret)
    | _ => fault
    end).

Definition set_chl (j : nat) (f : KnxSmartPanelPoint_t -> KnxSmartPanelPoint_t) (d : KnxDev) : KnxDev :=
  match d with KnxSmartPanel_t b chl => KnxSmartPanel_t b (alter f j chl) | d => d end.

(** The mode of a channel is also kept in the configuration file, by the number
    in the key after its 13th character. *)
Definition save_mode (i : nat) (b : KnxBase_t) (w : KnxWriteType_t) (j : nat) (c : KnxSmartPanelPoint_t) :
    io (kst M) unit :=
  let m := set_kp_value (put_u8 (dp_value (kw_obj w)) (kp_value (sp_mode c))) (sp_mode c) in
  _ ← upd_dev i (set_chl j (fun c => SmartPoint (sp_key c) (sp_scene c) m));
  let key := e_pPrimaryKey (kb_element b) in
  if (String.length key <? 13)%nat then fault else
  match strtol (drop_string 13 key) with
  | Some (id, false) =>
      _ ← note (ModeSaved (i32 id) (Z.of_nat j + 1) (negb (get_u8 (kp_value m) =? 0)));
      t ← get_junk;
      _ ← report_dp (kw_pPrimaryKey w) (Dp (dpid (kw_obj w)) PROP_ENUM (dp_enum (kw_obj w)) t);
      mret tt
  | _ => exit
  end.

Definition smart_chl (i : nat) (b : KnxBase_t) (w : KnxWriteType_t) (j : nat) (c : KnxSmartPanelPoint_t)
    (acc : Z * bool) : io (kst M) (bool * (Z * bool)) :=
  let ret := acc.1 in
  let o := kw_obj w in
  if kp_id (sp_key c) =? dpid o then
    if negb (get_u8 (kp_value (sp_mode c)) =? 0) then mret (true, (ret, false)) else
    let k := set_kp_value (put_b1 (dp_bool o) (kp_value (sp_key c))) (sp_key c) in
    _ ← upd_dev i (set_chl j (fun c => SmartPoint k (sp_scene c) (sp_mode c)));
    gAddr ← group_of (kp_pCtrl k);
    r ← send_to gAddr (or_at 1 (b2z (get_b1 (kp_value k))) [0; 0x80]) ret;
    mret (r.1, (r.2, r.1))
  else if kp_id (sp_scene c) =? dpid o then
    if negb (get_u8 (kp_value (sp_mode c)) =? 1) then mret (true, (ret, false)) else
    gAddr ← group_of (kp_pCtrl (sp_scene c));
    r ← send_to gAddr ([0; 0x80] ++ readBlock (get_u8 (kp_value (sp_scene c)))) ret;
    mret (r.1, (r.2, r.1))
  else if kp_id (sp_mode c) =? dpid o then
    _ ← save_mode i b w j c; mret (true, (0, true))
  else mret (false, (ret, false)).

Definition smart_dev (w : KnxWriteType_t) (i : nat) (d : KnxDev) (ret : Z) : io (kst M) (bool * Z) :=
  if negb (in_range KNX_MISC_PANEL_ONE_KEY KNX_MISC_PANEL_FOUR_KEY (type_of d)) then mret (false, ret) else
  if negb (kw_devId w =? devId (kb_element (base_of d))) then mret (false, ret) else
  match d with
  | KnxSmartPanel_t b chl =>
      acc ← loop (smart_chl i b w) 0 chl (ret, false);
      mret (acc.2, acc.1)
  | _ => fault
  end.

Definition Knx_SmartPanelCtrl (pKnxData : option KnxWriteType_t) : io (kst M) Z :=
  match pKnxData with None => mret (-1) | Some w => each_dev (smart_dev w) end.

(** ** Dimmers

    The buffer and [dataLen] live across the channels of a device. *)

Definition set_dim (j : nat) (f : KnxDimmerPoint_t -> KnxDimmerPoint_t) (d : KnxDev) : KnxDev :=
  match d with KnxDimmer_t b chl => KnxDimmer_t b (alter f j chl) | d => d end.

(** [dp_value * 255 / max]: in [int], undefined when it overflows or [max] is 0. *)
Definition bright_of (v max : Z) : outcome Z :=
  x <-! int_of (v * 255); if max =? 0 then Undef else Done (u8 (Z.quot x max)).

Record dim_acc := DimAcc { da_ret : Z; da_found : bool; da_buf : list Z; da_len : Z }.

Definition send_dim (gAddr : Z) (acc : dim_acc) : io (kst M) (bool * dim_acc) :=
  r ← send_to gAddr (take (Z.to_nat (da_len acc + 2)) (da_buf acc)) (da_ret acc);
  mret (r.1, DimAcc r.2 r.1 (da_buf acc) (da_len acc)).

Definition dim_chl (i : nat) (b : KnxBase_t) (w : KnxWriteType_t) (j : nat) (c : KnxDimmerPoint_t) (acc : dim_acc) :
    io (kst M) (bool * dim_acc) :=
  let o := kw_obj w in
  if kp_id (dm_bright c) =? dpid o then
    v ← of_outcome (bright_of (dp_value o) (kp_max (dm_bright c)));
    let k := set_kp_value (put_u8 v (kp_value (dm_bright c))) (dm_bright c) in
    _ ← upd_dev i (set_dim j (fun c => DimmerPoint (dm_key c) k));
    gAddr ← group_of (kp_pCtrl k);
    let '(buf, dataLen) := put_block (da_buf acc) (get_u8 (kp_value k)) in
    ret ← report_point b k (Dp (u8 (kp_id k)) PROP_VALUE (get_u8 (kp_value k)) 0) (da_ret acc);
    send_dim gAddr (DimAcc ret (da_found acc) buf dataLen)
  else if kp_id (dm_key c) =? dpid o then
    let k := set_kp_value (put_b1 (dp_bool o) (kp_value (dm_key c))) (dm_key c) in
    _ ← upd_dev i (set_dim j (fun c => DimmerPoint k (dm_bright c)));
    gAddr ← group_of (kp_pCtrl k);
    let buf := or_at 1 (b2z (get_b1 (kp_value k))) (da_buf acc) in
    ret ← report_point b k (put_dp_bool (dp_bool o) (Dp (u8 (kp_id k)) PROP_BOOL 0 0)) (da_ret acc);
    send_dim gAddr (DimAcc ret (da_found acc) buf (da_len acc))
  else mret (false, acc).

Definition dim_dev (w : KnxWriteType_t) (i : nat) (d : KnxDev) (ret : Z) : io (kst M) (bool * Z) :=
  if negb (in_range KNX_DIMMER_ONE_KEY KNX_DIMMER_FOUR_KEY (type_of d)) then mret (false, ret) else
  if negb (kw_devId w =? devId (kb_element (base_of d))) then mret (false, ret) else
  match d with
  | KnxDimmer_t b chl =>
      acc ← loop (dim_chl i b w) 0 chl (DimAcc ret false knxBuf 0);
      mret (da_found acc, da_ret acc)
  | _ => fault
  end.

Definition Knx_DimmerCtrl (pKnxData : option KnxWriteType_t) : io (kst M) Z :=
  match pKnxData with None => mret (-1) | Some w => each_dev (dim_dev w) end.

(** ** Curtains *)

Inductive curtain_part := POpen | PClose | PStop.
Definition part_of (d : KnxDev) (p : curtain_part) : option KnxPoints_t :=
  match d, p with
  | KnxCurtain_t _ x _ _, POpen => x
  | KnxCurtain_t _ _ x _, PClose => x
  | KnxCurtain_t _ _ _ x, PStop => x
  | _, _ => None
  end.
Definition set_part (p : curtain_part) (k : KnxPoints_t) (d : KnxDev) : KnxDev :=
  match d, p with
  | KnxCurtain_t b _ y z, POpen => KnxCurtain_t b (Some k) y z
  | KnxCurtain_t b x _ z, PClose => KnxCurtain_t b x (Some k) z
  | KnxCurtain_t b x y _, PStop => KnxCurtain_t b x y (Some k)
  | d, _ => d
  end.

(** [addr] is on the stack: when the point is not the one of the command it is
    read although it was never written, which C gives no meaning to. *)
Definition curtain_part_cmd (i : nat) (d : KnxDev) (w : KnxWriteType_t) (p : curtain_part) (value : Z) :
    io (kst M) string :=
  match part_of d p with
  | None => fault
  | Some k =>
      if kp_id k =? dpid (kw_obj w) then
        _ ← upd_dev i (set_part p (set_kp_value (put_i32 value) k));
        match kp_pCtrl k with None => fault | Some addr => mret addr end
      else fault
  end.

Definition curtain_dev (w : KnxWriteType_t) (i : nat) (d : KnxDev) (ret : Z) : io (kst M) (bool * Z) :=
  if negb (type_of d =? KNX_DEVICE_CURTAIN) then mret (false, ret) else
  if negb (kw_devId w =? devId (kb_element (base_of d))) then mret (false, ret) else
  match
    (if dp_enum (kw_obj w) =? 0 then Some (POpen, 0)
     else if dp_enum (kw_obj w) =? 2 then Some (PClose, 1)
     else if dp_enum (kw_obj w) =? 1 then Some (PStop, 0)
     else None)
  with
  | None => mret (false, ret)
  | Some (p, value) =>
      addr ← curtain_part_cmd i d w p value;
      r ← send_to (readgaddr addr) (or_at 1 (Z.land value 0x3f) [0; 0x80]) ret;
      mret (false, r.2)
  end.

Definition Knx_CurtainCtrl (pKnxData : option KnxWriteType_t) : io (kst M) Z :=
  match pKnxData with None => mret (-1) | Some w => each_dev (curtain_dev w) end.

(** ** The writer thread *)

Fixpoint first_success (fs : list (io (kst M) Z)) : io (kst M) unit :=
  match fs with
  | [] => mret tt
  | f :: fs => ret ← f; if ret =? 0 then mret tt else first_success fs
  end.

Definition write_handlers (w : KnxWriteType_t) : list (io (kst M) Z) :=
  [Knx_AirconditionCtrl (Some w); Knx_VentilationCtrl (Some w); Knx_FloorHeatingCtrl (Some w); Knx_PanelCtrl (Some w);
   Knx_SmartPanelCtrl (Some w); Knx_DimmerCtrl (Some w); Knx_CurtainCtrl (Some w)].

(** One turn of KNX_DevWriteEntry; with an empty queue it waits.  The element of
    the queue and the command are freed. *)
Definition write_turn : io (kst M) unit := fun s =>
  match wq s with
  | [] => Blocked
  | w :: l =>
      (_ ← on_heap free; _ ← first_success (write_handlers w); on_heap free) (with_wq l s)
  end.

(** ** Single telegrams *)

(** A read request; the connection is not closed when the group cannot be opened
    or the request not sent. *)
Definition KnxGroupRead (pGroup : option string) : io (kst M) Z :=
  match pGroup with
  | None => mret (-1)
  | Some g =>
      connect ← eib_call 1;
      if connect =? 0 then mret (-1) else
      _ ← note EibOpen;
      let gAddr := readgaddr g in
      opened ← eib_call 0;
      if opened =? -1 then mret (-1) else
      len ← eib_call 2;
      if len =? -1 then mret (-1) else
      _ ← note (Apdu gAddr [0; 0]);
      _ ← note EibClose;
      mret 0
  end.

(** One turn of KNX_DevHealth. *)
Definition health_turn : io (kst M) unit := fun s =>
  match hq s with
  | [] => Blocked
  | g :: l => (_ ← on_heap free; _ ← KnxGroupRead (Some g); on_heap free) (with_hq l s)
  end.

Definition Knx_Write1Byte (pGroupAddr : string) (value : Z) : io (kst M) Z :=
  let gAddr := readgaddr pGroupAddr in
  let '(buf, dataLen) := put_block knxBuf value in
  connect ← eib_call 1;
  if connect =? 0 then mret (-1) else
  _ ← note EibOpen;
  opened ← eib_call 0;
  if opened =? -1 then _ ← note EibClose; mret (-2) else
  ret ← eib_call (dataLen + 2);
  _ ← (if ret =? -1 then mret tt else note (Apdu gAddr (take (Z.to_nat (dataLen + 2)) buf)));
  _ ← note EibClose;
  if ret =? -1 then mret (-3) else mret 0.

End Ctrl.

(** ** What a command may rely on

    [dev_ok]: the structure is the one [primaryType] says, its values fit their
    types and the groups a command needs are there.  [accepts w d]: when the
    command [w] is for [d], the plugin is defined on it, and a curtain command
    names the point it moves. *)

Definition obj_ok (p : KnxObj_t) : Prop := 0 <= k_value p < 65536.
Definition pt_ok (k : KnxPoints_t) : Prop := 0 <= kp_value k < 2 ^ 32 /\ kp_pCtrl k <> None.
Definition opt_ok {A} (P : A -> Prop) (o : option A) : Prop := match o with Some a => P a | None => True end.
Definition chl_ok (key : string) (c : KnxSmartPanelPoint_t) : Prop :=
  pt_ok (sp_key c) /\ pt_ok (sp_scene c) /\ 0 <= kp_value (sp_mode c) < 2 ^ 32 /\
  (13 <= String.length key)%nat /\ exists id, strtol (drop_string 13 key) = Some (id, false).
Definition dim_ok (c : KnxDimmerPoint_t) : Prop :=
  pt_ok (dm_key c) /\ pt_ok (dm_bright c) /\ 0 < kp_max (dm_bright c) < 65536.

Definition dev_ok (d : KnxDev) : Prop :=
  match d with
  | KnxAcd_t _ o => type_of d = KNX_DEVICE_AIRCONDITION /\ Forall (opt_ok obj_ok) o
  | KnxVent_t _ o => type_of d = KNX_DEVICE_VENTILATION /\ Forall (opt_ok obj_ok) o
  | KnxHeat_t _ o => type_of d = KNX_DEVICE_FLOORHEATING /\ Forall (opt_ok obj_ok) o
  | KnxPanel_t _ keys => in_range KNX_PANEL_ONE_KEY KNX_PANEL_EIGHT_KEY (type_of d) = true /\ Forall pt_ok keys
  | KnxSmartPanel_t _ chl =>
      in_range KNX_MISC_PANEL_ONE_KEY KNX_MISC_PANEL_FOUR_KEY (type_of d) = true /\ Forall (chl_ok (key_of d)) chl
  | KnxDimmer_t _ chl => in_range KNX_DIMMER_ONE_KEY KNX_DIMMER_FOUR_KEY (type_of d) = true /\ Forall dim_ok chl
  | KnxCurtain_t _ x y z =>
      type_of d = KNX_DEVICE_CURTAIN /\ forall p, exists k, part_of d p = Some k /\ pt_ok k
  end.

(** What the gateway needs of a KNX plugin: a command sets the value of the
    point and nothing else. *)
Class KnxControlOk (i : KnxIf) (dom : Z -> Prop) : Prop :=
  knx_control_ok : forall ctl o p, control i = Some ctl -> dom (dp_value o) -> obj_ok p ->
    exists v, ctl (Some o) (Some p) = Done (0, Some (put_value v p)) /\ 0 <= v < 65536.

(** The eleven plugins. *)

Lemma put_value_same p : obj_ok p -> put_value (k_value p) p = p.
Proof. intros Hp. destruct p. unfold put_value. cbn in *. by rewrite u16_small. Qed.
Lemma put_value_u16 v p : put_value v p = put_value (u16 v) p.
Proof. unfold put_value. by rewrite (u16_small (u16 v)) by apply u16_range. Qed.
Lemma put_value_twice v v' p : put_value v (put_value v' p) = put_value v p.
Proof. done. Qed.
(** The commands a plugin is defined for: whole degrees, or tenths. *)
Definition whole (v : Z) : Prop := -327 <= v <= 327.
Definition tenths (v : Z) : Prop := 0 <= v <= 350.


Lemma leaf_put v p : exists v', Done (0, Some (put_value v p)) = Done (0, Some (put_value v' p)) /\ 0 <= v' < 65536.
Proof. exists (u16 v). split; [by rewrite put_value_u16|apply u16_range]. Qed.
Lemma leaf_same p : obj_ok p -> exists v', Done (0, Some p) = Done (0, Some (put_value v' p)) /\ 0 <= v' < 65536.
Proof. intros Hp. exists (k_value p). by rewrite put_value_same. Qed.

Ltac control_ok :=
  let Hp := fresh "Hp" in let Ho := fresh "Ho" in
  intros ctl o p [= <-] Ho Hp; unfold plugin_if, checked, ctrl_bool, ctrl_temp;
  match goal with |- exists v, obind (?f o p) _ = _ /\ _ => unfold f end; cbv zeta;
  unfold ctrl_bool, ctrl_temp;
  try (let w := fresh "w" in let E := fresh "E" in unfold whole in Ho; destruct (encode_bounds _ Ho) as (w & E & ? & _); unfold encode in E; rewrite E);
  try (let w := fresh "w" in let E := fresh "E" in destruct (encode10_defined _ Ho) as (w & E & ?); unfold encode10 in E; rewrite E);
  cbn [obind];
  repeat match goal with |- context [if ?b then _ else _] => destruct b end; cbn [obind];
  rewrite ?put_value_twice; first [apply leaf_put|by apply leaf_same].
#[export] Instance acd_general_control : KnxControlOk Acd_General.KNX_Acd_General whole.
Proof. control_ok. Qed.
#[export] Instance acd_stec_control : KnxControlOk Acd_STEC.KNX_Aircondition_STEC whole.
Proof. control_ok. Qed.
#[export] Instance acd_sdk_control : KnxControlOk Acd_Sdk.KNX_Aircondition_Sdk_H8C09 whole.
Proof. control_ok. Qed.
#[export] Instance acd_water_control : KnxControlOk Acd_Water.KNX_Aircondition_Water whole.
Proof. control_ok. Qed.
#[export] Instance acd_panel_control : KnxControlOk Acd_Panel.knx_acd_panel whole.
Proof. control_ok. Qed.
#[export] Instance heat_stec_control : KnxControlOk Heat_STEC.KNX_FloorHeating_STEC tenths.
Proof. control_ok. Qed.
#[export] Instance heat_sdk_control : KnxControlOk Heat_Sdk.KNX_FloorHeating_Sdk_H8C09 whole.
Proof. control_ok. Qed.
#[export] Instance heat_panel_control : KnxControlOk Heat_Panel.knx_heat_panel whole.
Proof. control_ok. Qed.
#[export] Instance vent_stec_control : KnxControlOk Vent_STEC.KNX_Ventilation_STEC whole.
Proof. control_ok. Qed.
#[export] Instance vent_sdk_control : KnxControlOk Vent_Sdk.KNX_Ventilation_Sdk_H8C09 whole.
Proof. control_ok. Qed.
#[export] Instance vent_panel_control : KnxControlOk Vent_Panel.knx_vent_panel whole.
Proof. control_ok. Qed.

Definition accepts (w : KnxWriteType_t) (d : KnxDev) : Prop :=
  let o := kw_obj w in
  kw_devId w = devId (kb_element (base_of d)) ->
  match d with
  | KnxAcd_t b _ | KnxVent_t b _ | KnxHeat_t b _ =>
      opt_ok (fun i => forall ctl p, control i = Some ctl -> obj_ok p ->
        exists v, ctl (Some o) (Some p) = Done (0, Some (put_value v p)) /\ 0 <= v < 65536) (kb_pIf b)
  | KnxDimmer_t _ _ => - 2 ^ 31 <= dp_value o * 255 < 2 ^ 31
  | KnxCurtain_t _ _ _ _ => dp_enum o < 3 -> forall p, opt_ok (fun k => kp_id k = dpid o) (part_of d p)
  | _ => True
  end.

Definition dp_ok (o : ty_obj_dp_s) : Prop := is_u8 (dpid o) /\ is_u8 (dptype o) /\ 0 <= dpvalue o < 2 ^ 32.

(** A group write: two to four bytes, the second with the code of the service. *)
Definition apdu_ok (buf : list Z) : Prop :=
  exists v rest, buf = 0 :: v :: rest /\ 0x80 <= v < 0x100 /\ Forall is_u8 rest /\ (length rest <= 2)%nat.
Definition kev_ok (e : kev) : Prop :=
  match e with
  | Apdu g buf => 0 <= g < 65536 /\ apdu_ok buf
  | KReport _ o => dp_ok o
  | _ => True
  end.

(** Connections opened and not closed. *)
Fixpoint eib_balance (l : list kev) : Z :=
  match l with
  | [] => 0
  | EibOpen :: l => eib_balance l + 1
  | EibClose :: l => eib_balance l - 1
  | _ :: l => eib_balance l
  end.
Lemma eib_balance_app l l' : eib_balance (l ++ l') = eib_balance l + eib_balance l'.
Proof. induction l as [|e l IH]; cbn; [done|]. destruct e; lia. Qed.

(** ** Bytes *)

Lemma land_high k v : 0 <= k <= 32 ->
  Z.land v (Z.shiftl (Z.ones (32 - k)) k) = v / 2 ^ k mod 2 ^ (32 - k) * 2 ^ k.
Proof.
  intros Hk. transitivity (Z.shiftl (Z.land (Z.shiftr v k) (Z.ones (32 - k))) k);
    [|by rewrite Z.shiftl_mul_pow2, Z.land_ones, Z.shiftr_div_pow2 by lia].
  apply Z.bits_inj'. intros n Hn. rewrite Z.land_spec, !Z.shiftl_spec by lia.
  destruct (decide (n < k)).
  - rewrite !(Z.testbit_neg_r _ (n - k)) by lia. by rewrite andb_false_r.
  - rewrite Z.land_spec, Z.shiftr_spec by lia. by replace (n - k + k) with n by lia.
Qed.

Lemma land_hi v : Z.land v 0xffffff00 = v / 256 mod 2 ^ 24 * 256.
Proof. exact (land_high 8 v ltac:(lia)). Qed.

Lemma land_hi_range v x : 0 <= x < 256 -> 0 <= Z.land v 0xffffff00 + x < 2 ^ 32.
Proof. intros Hx. rewrite land_hi. pose proof (Z.mod_pos_bound (v / 256) (2 ^ 24) ltac:(lia)). lia. Qed.

Lemma b2z_range b : 0 <= b2z b < 2.
Proof. destruct b; cbn; lia. Qed.

Lemma put_b1_range b v : 0 <= put_b1 b v < 2 ^ 32.
Proof. apply land_hi_range. pose proof (b2z_range b). lia. Qed.

Lemma put_u8_range x v : 0 <= put_u8 x v < 2 ^ 32.
Proof. apply land_hi_range, u8_range. Qed.

Lemma put_u16_range x v : 0 <= put_u16 x v < 2 ^ 32.
Proof.
  unfold put_u16. rewrite (land_high 16 v ltac:(lia) : Z.land v 0xffff0000 = _).
  pose proof (Z.mod_pos_bound (v / 2 ^ 16) (2 ^ (32 - 16)) ltac:(lia)). pose proof (u16_range x). cbn in *. lia.
Qed.

Lemma put_dp_bool_ok b o : dp_ok o -> dp_ok (put_dp_bool b o).
Proof. intros (H1 & H2 & H3). split; [done|]. split; [done|]. apply land_hi_range. pose proof (b2z_range b). lia. Qed.

Lemma land_3f v : 0 <= Z.land v 0x3f < 64.
Proof. change 0x3f with (Z.ones 6). rewrite Z.land_ones by lia. by apply Z.mod_pos_bound. Qed.

Lemma cmd_byte x : 0 <= x < 64 -> Z.lor 0x80 x = 0x80 + x.
Proof. intros Hx. change 0x80 with (Z.shiftl 2 6). by rewrite lor_shl by (cbn; lia). Qed.

Lemma readBlock_ok v : 0 <= v < 65536 -> Forall is_u8 (readBlock v) /\ (1 <= length (readBlock v) <= 2)%nat.
Proof.
  intros Hv. unfold readBlock, is_u8.
  assert (0 <= v / 256 < 256) by (split; [apply Z.div_pos|apply Z.div_lt_upper_bound]; lia).
  pose proof (Z.mod_pos_bound v 256 ltac:(lia)).
  destruct (negb _); (split; [repeat constructor; lia|cbn; lia]).
Qed.

Lemma apdu_switch x : 0 <= x < 64 -> apdu_ok (or_at 1 x [0; 0x80]).
Proof.
  intros Hx. exists (Z.lor 0x80 x), []. split; [done|]. rewrite cmd_byte by done. split; [lia|]. split; [done|cbn; lia].
Qed.

Lemma apdu_block v : 0 <= v < 65536 -> apdu_ok ([0; 0x80] ++ readBlock v).
Proof. intros Hv. destruct (readBlock_ok v Hv). exists 0x80, (readBlock v). split; [done|]. split; [lia|]. split; [done|lia]. Qed.

Lemma put_block_take v : 0 <= v < 65536 ->
  take (Z.to_nat ((put_block knxBuf v).2 + 2)) (put_block knxBuf v).1 = [0; 0x80] ++ readBlock v.
Proof.
  intros Hv. destruct (readBlock_ok v Hv) as [_ Hl]. unfold put_block. cbn [fst snd].
  replace (Z.to_nat (Z.of_nat (length (readBlock v)) + 2)) with (2 + length (readBlock v))%nat by lia.
  rewrite app_assoc. apply (take_app_length' (take 2 knxBuf ++ readBlock v)). by rewrite length_app.
Qed.

(** The bytes the control functions send for a point. *)
Definition cmd_bytes (sw : bool) (v : Z) : list Z :=
  if sw then [0; Z.lor 0x80 (Z.land v 0x3f)] else [0; 0x80] ++ readBlock v.

Lemma cmd_bytes_ok sw v : 0 <= v < 65536 -> apdu_ok (cmd_bytes sw v).
Proof. intros Hv. destruct sw; [apply (apdu_switch (Z.land v 0x3f)), land_3f|by apply apdu_block]. Qed.

Lemma control_point_run ctl o sw p v :
  0 <= v < 65536 -> ctl (Some o) (Some p) = Done (0, Some (put_value v p)) ->
  control_point ctl o sw p = Done (put_value v p, cmd_bytes sw v).
Proof.
  intros Hv Hc. unfold control_point. rewrite Hc. cbn [obind snd]. cbn [put_value k_value]. rewrite u16_small by done.
  destruct sw; [done|]. pose proof (put_block_take v Hv) as E. destruct (put_block knxBuf v). cbn in E |- *. by rewrite E.
Qed.

Section Safe.
Context {M : Type} `{ModbusSide M} (w : KnxWriteType_t).
Hypothesis Hw : dp_ok (kw_obj w).
Implicit Types s : kst M.

Definition good (d : KnxDev) : Prop := dev_ok d /\ accepts w d.

(** What the functions keep: the devices stay good, what is logged is well
    formed, every connection is closed, and nothing else changes. *)
Record kext s0 s : Prop := {
  kx_devs : Forall (opt_ok good) (devs s);
  kx_len : length (devs s) = length (devs s0);
  kx_log : exists l, klog s = klog s0 ++ l /\ Forall kev_ok l /\ eib_balance l = 0;
  kx_same : bound s = bound s0 /\ wq s = wq s0 /\ hq s = hq s0 /\ kheap s = kheap s0 /\ junk s = junk s0 /\
    modbus s = modbus s0
}.

Lemma kext_refl s : Forall (opt_ok good) (devs s) -> kext s s.
Proof. intros Hd. split; [done|done| |done]. exists []. by rewrite app_nil_r. Qed.

Lemma kext_log s0 s l : Forall kev_ok l -> eib_balance l = 0 -> kext s0 s -> kext s0 (with_log (klog s ++ l) s).
Proof.
  intros Hl Hb [H1 H2 (l0 & Hl0 & Hf & Hb0) H4]. split; [done|done| |done].
  exists (l0 ++ l). cbn. split; [by rewrite Hl0, app_assoc|]. split; [by apply Forall_app|]. rewrite eib_balance_app. lia.
Qed.

Lemma kext_oracles s0 s e c : kext s0 s -> kext s0 (with_eib e (with_cloud c s)).
Proof. by intros [H1 H2 H3 H4]. Qed.

Lemma runs_report_dp s0 s key o (Q : Z -> kst M -> Prop) :
  dp_ok o -> kext s0 s -> (forall r s', kext s0 s' -> Q r s') -> runs (report_dp key o) Q s.
Proof.
  intros Ho Hs HQ. apply HQ. apply (kext_oracles _ _ (eib s) (tl (cloud s)) (kext_log _ _ [KReport key o]
    ltac:(by repeat constructor; try apply Ho) eq_refl Hs)).
Qed.

Lemma runs_hb_fresh s0 s key (Q : Z -> kst M -> Prop) :
  kext s0 s -> (forall r s', kext s0 s' -> Q r s') -> runs (hb_fresh key) Q s.
Proof.
  intros Hs HQ. apply HQ. apply (kext_oracles _ _ (eib s) (tl (cloud s)) (kext_log _ _ [KFresh key]
    ltac:(by repeat constructor) eq_refl Hs)).
Qed.

Lemma runs_note s0 s e (Q : unit -> kst M -> Prop) :
  kev_ok e -> eib_balance [e] = 0 -> kext s0 s -> (forall s', kext s0 s' -> Q tt s') -> runs (note e) Q s.
Proof. intros He Hb Hs HQ. apply HQ, kext_log; [by repeat constructor|done|done]. Qed.

Lemma runs_active s (Q : bool -> kst M -> Prop) : (forall a, Q a s) -> runs active Q s.
Proof. intros HQ. apply HQ. Qed.

Lemma runs_get_junk s (Q : Z -> kst M -> Prop) : (forall a, Q a s) -> runs get_junk Q s.
Proof. intros HQ. apply HQ. Qed.

Lemma runs_upd_dev s0 s i f (Q : unit -> kst M -> Prop) :
  (forall d, good d -> good (f d)) -> kext s0 s -> (forall s', kext s0 s' -> Q tt s') -> runs (upd_dev i f) Q s.
Proof.
  intros Hf [H1 H2 H3 H4] HQ. apply HQ. split; [|by cbn; rewrite length_alter|done|done].
  cbn. apply Forall_alter; [done|]. intros [d|] Hd Hok; [by apply Hf|done].
Qed.

Lemma runs_send_apdu s0 s g buf (Q : option Z -> kst M -> Prop) :
  0 <= g < 65536 -> apdu_ok buf -> kext s0 s -> (forall r s', kext s0 s' -> Q r s') -> runs (send_apdu g buf) Q s.
Proof.
  intros Hg Hb Hs HQ. unfold send_apdu, eib_call, note, runs, mbind, io_bind. cbn.
  destruct (hd 1 (eib s) =? 0); cbn; [apply HQ, (kext_oracles _ _ (tl (eib s)) (cloud s) Hs)|].
  destruct (hd 0 (tl (eib s)) =? -1); cbn.
  { apply HQ. rewrite <- app_assoc.
    apply (kext_oracles _ _ (tl (tl (eib s))) (cloud s) (kext_log _ _ [EibOpen; EibClose] ltac:(by repeat constructor) eq_refl Hs)). }
  destruct (hd (Z.of_nat (length buf)) (tl (tl (eib s))) =? -1); cbn; apply HQ; rewrite <- !app_assoc.
  - apply (kext_oracles _ _ (tl (tl (tl (eib s)))) (cloud s)
      (kext_log _ _ [EibOpen; EibClose] ltac:(by repeat constructor) eq_refl Hs)).
  - apply (kext_oracles _ _ (tl (tl (tl (eib s)))) (cloud s)
      (kext_log _ _ [EibOpen; Apdu g buf; EibClose] ltac:(by repeat constructor; cbn; try tauto) eq_refl Hs)).
Qed.

Lemma runs_send_to s0 s addr buf ret (Q : bool * Z -> kst M -> Prop) :
  apdu_ok buf -> kext s0 s -> (forall r s', kext s0 s' -> Q r s') -> runs (send_to (readgaddr addr) buf ret) Q s.
Proof.
  intros Hb Hs HQ. apply runs_bind, (runs_send_apdu s0); [apply readgaddr_range|done|done|].
  intros [r|] s' Hs'; apply runs_ret; by apply HQ.
Qed.

Lemma runs_report_cmd s0 s b ret (Q : Z -> kst M -> Prop) :
  kext s0 s -> (forall r s', kext s0 s' -> Q r s') -> runs (report_cmd b (kw_obj w) ret) Q s.
Proof.
  intros Hs HQ. apply runs_bind, runs_active. intros a. destruct (_ && _); [|by apply runs_ret, HQ].
  apply runs_bind, (runs_report_dp s0); [done|done|]. intros r s1 Hs1.
  apply runs_bind, (runs_hb_fresh s0); [done|]. intros r' s2 Hs2. by apply runs_ret, HQ.
Qed.

Lemma runs_report_point s0 s b k o ret (Q : Z -> kst M -> Prop) :
  dp_ok o -> kext s0 s -> (forall r s', kext s0 s' -> Q r s') -> runs (report_point b k o ret) Q s.
Proof.
  intros Ho Hs HQ. apply runs_bind, runs_active. intros a. destruct (_ && _); [|by apply runs_ret, HQ].
  apply runs_bind, (runs_report_dp s0); [done|done|]. intros r s1 Hs1. by apply (runs_hb_fresh s0).
Qed.

Lemma runs_group_of s0 s a (Q : Z -> kst M -> Prop) :
  a <> None -> kext s0 s -> (forall addr, a = Some addr -> Q (readgaddr addr) s) -> runs (group_of a) Q s.
Proof. intros Ha Hs HQ. destruct a as [a|]; [|done]. by apply runs_ret, HQ. Qed.

Lemma runs_each_dev s0 s body :
  (forall i d ret s', good d -> kext s0 s' -> runs (body i d ret) (fun _ s'' => kext s0 s'') s') ->
  kext s0 s -> runs (each_dev body) (fun _ s' => kext s0 s') s.
Proof.
  intros Hb Hs. unfold each_dev. apply (runs_loop _ (fun _ s' => kext s0 s')); [done|].
  intros j [d|] acc s' Hj Hs'; [|by apply runs_ret].
  apply Hb; [|done]. exact (Forall_lookup_1 _ _ _ _ (kx_devs _ _ Hs) Hj).
Qed.

(** ** The families *)

Lemma good_set_objs o d : Forall (opt_ok obj_ok) o -> good d -> good (set_objs o d).
Proof. intros Ho [H1 H2]. destruct d; cbn in *; try done; (split; [|done]); (split; [|done]); apply H1. Qed.

Lemma objs_of_good d : good d ->
  type_of d = KNX_DEVICE_AIRCONDITION \/ type_of d = KNX_DEVICE_VENTILATION \/ type_of d = KNX_DEVICE_FLOORHEATING ->
  kw_devId w = devId (kb_element (base_of d)) ->
  exists o, objs_of (type_of d) d = Some o /\ Forall (opt_ok obj_ok) o /\
    opt_ok (fun i => forall ctl p, control i = Some ctl -> obj_ok p ->
      exists v, ctl (Some (kw_obj w)) (Some p) = Done (0, Some (put_value v p)) /\ 0 <= v < 65536) (kb_pIf (base_of d)).
Proof.
  intros [Hd Ha] Ht Hid. specialize (Ha Hid).
  destruct d as [b o|b o|b o|b k|b c|b c|b x y z]; cbn [dev_ok] in Hd; destruct Hd as [Hty Hd].
  1-3: exists o; rewrite Hty; by cbn.
  1-3: destruct Ht as [Ht|[Ht|Ht]]; rewrite Ht in Hty; discriminate Hty.
  destruct Ht as [Ht|[Ht|Ht]]; rewrite Ht in Hty; discriminate Hty.
Qed.

Lemma find_cmd_ok objs pts n slot sw p :
  Forall (opt_ok obj_ok) objs -> find_cmd objs pts n = Some (slot, sw, p) ->
  obj_at objs slot = Some p /\ obj_ok p /\ k_cloudPoint p = n.
Proof.
  intros Ho. induction pts as [|[i b] pts IH]; [done|]. cbn [find_cmd].
  destruct (obj_at objs i) as [q|] eqn:E; [|done].
  destruct (k_cloudPoint q =? n) eqn:En; [|done]. intros [= <- <- <-]. bprop. split; [done|]. split; [|done].
  unfold obj_at in E. destruct (objs !! i) as [[q'|]|] eqn:Ei; cbn in E; simplify_eq.
  exact (Forall_lookup_1 _ _ _ _ Ho Ei).
Qed.

Lemma runs_climate_dev s0 s ty pts i d ret :
  ty = KNX_DEVICE_AIRCONDITION \/ ty = KNX_DEVICE_VENTILATION \/ ty = KNX_DEVICE_FLOORHEATING ->
  good d -> kext s0 s -> runs (climate_dev ty pts w i d ret) (fun _ s' => kext s0 s') s.
Proof.
  intros Hty Hd Hs. unfold climate_dev. destruct (negb (type_of d =? ty)) eqn:E; [by apply runs_ret|].
  destruct (negb (kw_devId w =? _)) eqn:E'; [by apply runs_ret|]. apply negb_false_iff in E, E'. bprop. subst ty.
  destruct (objs_of_good d Hd Hty E') as (o & -> & Ho & Hc).
  destruct (kb_pIf (base_of d)) as [pIf|]; [|by apply runs_ret].
  destruct (control pIf) as [ctl|] eqn:Ectl; [|by apply runs_ret].
  destruct (find_cmd o pts _) as [[[slot sw] p]|] eqn:Ef; [|by apply runs_ret].
  destruct (find_cmd_ok _ _ _ _ _ _ Ho Ef) as (_ & Hp & _).
  destruct (Hc ctl p Ectl Hp) as (v & Hv & Hr).
  apply runs_bind. rewrite (control_point_run _ _ _ _ v Hr Hv). cbn [fst snd].
  apply runs_bind, (runs_upd_dev s0).
  { intros d' Hd'. apply good_set_objs; [|done]. apply Forall_insert; [done|]. cbn. unfold obj_ok. cbn. by rewrite u16_small. }
  { done. }
  intros s1 Hs1. destruct (_ =? 0xff); [by apply runs_ret|].
  apply runs_bind, (runs_report_cmd s0); [done|]. intros r s2 Hs2.
  apply (runs_send_to s0); [by apply cmd_bytes_ok|done|done].
Qed.

Lemma runs_panel_dev s0 s i d ret : good d -> kext s0 s -> runs (panel_dev w i d ret) (fun _ s' => kext s0 s') s.
Proof.
  intros Hd Hs. unfold panel_dev. destruct (negb (in_range _ _ _)) eqn:E; [by apply runs_ret|].
  destruct (negb (kw_devId w =? _)); [by apply runs_ret|]. apply negb_false_iff in E.
  destruct Hd as [Hd _]. destruct d as [b o|b o|b o|b keys|b c|b c|b x y z]; cbn [dev_ok] in Hd; destruct Hd as [Hty Hd];
    try (rewrite Hty in E; discriminate E).
  2,3: unfold in_range, KNX_PANEL_ONE_KEY, KNX_PANEL_EIGHT_KEY, KNX_MISC_PANEL_ONE_KEY, KNX_MISC_PANEL_FOUR_KEY, KNX_DIMMER_ONE_KEY, KNX_DIMMER_FOUR_KEY in *; bprop; lia.
  apply runs_bind, (runs_mono _ (fun _ s' => kext s0 s')); [|intros acc s' Hs'; by apply runs_ret].
  apply (runs_loop _ (fun _ s' => kext s0 s')); [done|]. intros j k acc s1 Hj Hs1. unfold panel_key.
  destruct (negb (kp_id k =? _)); [by apply runs_ret|].
  pose proof (Forall_lookup_1 _ _ _ _ Hd Hj) as [Hk1 Hk2].
  apply runs_bind, (runs_upd_dev s0); [|done|].
  { intros d' [Hd' Ha']. destruct d'; try by split. split; [|done]. destruct Hd' as [? Hd']. split; [done|].
    apply Forall_insert; [done|]. split; [apply put_b1_range|done]. }
  intros s2 Hs2. apply runs_bind, (runs_group_of s0); [done|done|]. intros addr _.
  apply runs_bind, (runs_report_point s0); [|done|].
  { apply put_dp_bool_ok. split; [apply u8_range|]. split; [done|cbn; lia]. }
  intros r s3 Hs3. apply runs_bind, (runs_send_to s0); [|done|].
  { apply apdu_switch. pose proof (b2z_range (get_b1 (kp_value (set_kp_value (put_b1 (dp_bool (kw_obj w)) (kp_value k)) k)))). lia. }
  intros r' s4 Hs4. by apply runs_ret.
Qed.

(** The structure behind a panel, a smart panel or a dimmer. *)
Lemma panel_shape d lo hi : dev_ok d -> in_range lo hi (type_of d) = true ->
  (lo = KNX_MISC_PANEL_ONE_KEY /\ hi = KNX_MISC_PANEL_FOUR_KEY ->
    exists b chl, d = KnxSmartPanel_t b chl /\ Forall (chl_ok (key_of d)) chl) /\
  (lo = KNX_DIMMER_ONE_KEY /\ hi = KNX_DIMMER_FOUR_KEY -> exists b chl, d = KnxDimmer_t b chl /\ Forall dim_ok chl).
Proof.
  unfold in_range. intros Hd Hr. bprop.
  split; intros [-> ->]; destruct d; cbn [dev_ok] in Hd; destruct Hd as [Hty Hd]; try (by eauto);
    exfalso; unfold in_range in Hty;
    unfold KNX_PANEL_ONE_KEY, KNX_PANEL_EIGHT_KEY, KNX_MISC_PANEL_ONE_KEY, KNX_MISC_PANEL_FOUR_KEY,
      KNX_DIMMER_ONE_KEY, KNX_DIMMER_FOUR_KEY, KNX_DEVICE_AIRCONDITION, KNX_DEVICE_VENTILATION,
      KNX_DEVICE_FLOORHEATING, KNX_DEVICE_CURTAIN in *; bprop; lia.
Qed.

Lemma good_set_chl j f d :
  (forall b chl, d = KnxSmartPanel_t b chl -> forall c, chl_ok (key_of d) c -> chl_ok (key_of d) (f c)) ->
  good d -> good (set_chl j f d).
Proof.
  intros Hf [Hd Ha]. destruct d as [| | | |b chl| |]; try by split. split; [|done]. destruct Hd as [? Hd]. split; [done|].
  apply Forall_alter; [done|]. intros c Hc Hok. by apply (Hf b chl).
Qed.

Lemma good_set_dim j f d : (forall c, dim_ok c -> dim_ok (f c)) -> good d -> good (set_dim j f d).
Proof.
  intros Hf [Hd Ha]. destruct d as [| | | | |b chl|]; try by split. split; [|done]. destruct Hd as [? Hd]. split; [done|].
  apply Forall_alter; [done|]. intros c Hc Hok. by apply Hf.
Qed.

Lemma runs_save_mode s0 s i b j c key :
  key = e_pPrimaryKey (kb_element b) -> chl_ok key c -> kext s0 s ->
  runs (save_mode i b w j c) (fun _ s' => kext s0 s') s.
Proof.
  intros -> (_ & _ & _ & Hlen & id & Hid) Hs. unfold save_mode. apply runs_bind, (runs_upd_dev s0); [|done|].
  { intros d Hd. apply good_set_chl; [|done]. intros b' chl -> c' (H1 & H2 & H3 & H4 & H5).
    split; [done|]. split; [done|]. split; [apply put_u8_range|]. by split. }
  intros s1 Hs1. rewrite (proj2 (Nat.ltb_ge _ _) Hlen), Hid.
  apply runs_bind, (runs_note s0); [done|done|done|]. intros s2 Hs2.
  apply runs_bind, runs_get_junk. intros x. apply runs_bind, (runs_report_dp s0); [|done|by intros; apply runs_ret].
  destruct Hw as (H1 & H2 & H3). split; [done|]. split; [done|]. apply u32_range.
Qed.

Lemma runs_smart_dev s0 s i d ret : good d -> kext s0 s -> runs (smart_dev w i d ret) (fun _ s' => kext s0 s') s.
Proof.
  intros Hd Hs. unfold smart_dev. destruct (negb (in_range _ _ _)) eqn:E; [by apply runs_ret|].
  destruct (negb (kw_devId w =? _)); [by apply runs_ret|]. apply negb_false_iff in E.
  destruct (proj1 (panel_shape _ _ _ (proj1 Hd) E) (conj eq_refl eq_refl)) as (b & chl & -> & Hc).
  apply runs_bind, (runs_mono _ (fun _ s' => kext s0 s')); [|intros acc s' Hs'; by apply runs_ret].
  apply (runs_loop _ (fun _ s' => kext s0 s')); [done|]. intros j c acc s1 Hj Hs1. unfold smart_chl.
  pose proof (Forall_lookup_1 _ _ _ _ Hc Hj) as Hok. pose proof Hok as ([Hk1 Hk2] & [Hs1' Hs2'] & Hm & _).
  destruct (kp_id (sp_key c) =? _).
  { destruct (negb _); [by apply runs_ret|]. apply runs_bind, (runs_upd_dev s0); [|done|].
    { intros d Hd'. apply good_set_chl; [|done]. intros b' chl' -> c' (H1 & H2 & H3 & H4 & H5).
      split; [split; [apply put_b1_range|done]|]. by split. }
    intros s2 Hs2. apply runs_bind, (runs_group_of s0); [done|done|]. intros addr _.
    apply runs_bind, (runs_send_to s0); [|done|intros r' s4 Hs4; by apply runs_ret].
    apply apdu_switch. pose proof (b2z_range (get_b1 (kp_value (set_kp_value (put_b1 (dp_bool (kw_obj w)) (kp_value (sp_key c))) (sp_key c))))). lia. }
  destruct (kp_id (sp_scene c) =? _).
  { destruct (negb _); [by apply runs_ret|]. apply runs_bind, (runs_group_of s0); [done|done|]. intros addr _.
    apply runs_bind, (runs_send_to s0); [|done|intros r' s4 Hs4; by apply runs_ret].
    apply apdu_block. pose proof (u8_range (kp_value (sp_scene c))) as Hu. unfold is_u8, get_u8 in *. lia. }
  destruct (kp_id (sp_mode c) =? _); [|by apply runs_ret].
  apply runs_bind. eapply runs_mono; [by eapply runs_save_mode|]. intros [] s2 Hs2. by apply runs_ret.
Qed.

(** The buffer of a dimmer. *)
Definition buf_ok (acc : dim_acc) : Prop :=
  (exists v rest, da_buf acc = 0 :: v :: rest /\ 0x80 <= v < 0x100 /\ Forall is_u8 rest /\ length rest = 8%nat) /\
  0 <= da_len acc <= 2.

Lemma buf_ok_apdu acc : buf_ok acc -> apdu_ok (take (Z.to_nat (da_len acc + 2)) (da_buf acc)).
Proof.
  intros [(v & rest & -> & Hv & Hr & Hl) Hn]. replace (Z.to_nat (da_len acc + 2)) with (2 + Z.to_nat (da_len acc))%nat by lia.
  exists v, (take (Z.to_nat (da_len acc)) rest). split; [done|]. split; [done|]. split; [by apply Forall_take|].
  rewrite length_take. lia.
Qed.

Lemma lor_bit v b : 0x80 <= v < 0x100 -> 0x80 <= Z.lor v (b2z b) < 0x100.
Proof.
  intros Hv. pose proof (range_all (fun v => forallb (fun x => (0x80 <=? Z.lor v x) && (Z.lor v x <? 0x100)) [0; 1]) 0x80 0xff
    ltac:(by vm_compute) v ltac:(lia)) as Ha. cbn [forallb] in Ha. bprop. destruct b; cbn [b2z]; lia.
Qed.

Lemma put_block_buf acc ret found x :
  buf_ok acc -> buf_ok (DimAcc ret found (put_block (da_buf acc) (u8 x)).1 (put_block (da_buf acc) (u8 x)).2).
Proof.
  intros [(v & rest & Hb & Hv & Hr & Hl) Hn]. unfold put_block. cbn [fst snd].
  destruct (readBlock_ok (u8 x)) as [Hb1 Hb2]; [pose proof (u8_range x) as Hu; unfold is_u8 in Hu; lia|].
  split; [|cbn; lia]. cbn [da_buf]. rewrite Hb.
  exists v, (readBlock (u8 x) ++ drop (length (readBlock (u8 x))) rest). split; [done|]. split; [done|]. split.
  - apply Forall_app. split; [done|]. by apply Forall_drop.
  - rewrite length_app, length_drop. lia.
Qed.

Lemma runs_send_dim s0 s addr acc :
  buf_ok acc -> kext s0 s ->
  runs (send_dim (readgaddr addr) acc) (fun r s' => buf_ok r.2 /\ kext s0 s') s.
Proof.
  intros Hb Hs. apply runs_bind, (runs_send_to s0); [by apply buf_ok_apdu|done|].
  intros r s' Hs'. by apply runs_ret.
Qed.

Lemma runs_dim_dev s0 s i d ret : good d -> kext s0 s -> runs (dim_dev w i d ret) (fun _ s' => kext s0 s') s.
Proof.
  intros Hd Hs. unfold dim_dev. destruct (negb (in_range _ _ _)) eqn:E; [by apply runs_ret|].
  destruct (negb (kw_devId w =? _)) eqn:E'; [by apply runs_ret|]. apply negb_false_iff in E, E'. bprop.
  destruct (proj2 (panel_shape _ _ _ (proj1 Hd) E) (conj eq_refl eq_refl)) as (b & chl & -> & Hc).
  pose proof (proj2 Hd E') as Hv. cbn in Hv.
  apply runs_bind, (runs_mono _ (fun acc s' => buf_ok acc /\ kext s0 s')); [|intros acc s' [_ Hs']; by apply runs_ret].
  apply (runs_loop _ (fun acc s' => buf_ok acc /\ kext s0 s')).
  { split; [|done]. split; [|cbn; lia]. exists 0x80, (replicate 8 0). split; [done|]. split; [lia|].
    split; [by apply (bytes_replicate 8)|done]. }
  intros j c acc s1 Hj [Hacc Hs1]. pose proof (Forall_lookup_1 _ _ _ _ Hc Hj) as ([Hk1 Hk2] & [Hb1 Hb2] & Hmax).
  unfold dim_chl. destruct (kp_id (dm_bright c) =? _).
  { assert (exists x, bright_of (dp_value (kw_obj w)) (kp_max (dm_bright c)) = Done (u8 x)) as (x & ->).
    { unfold bright_of, int_of. rewrite (proj2 (Z.leb_le _ _)), (proj2 (Z.ltb_lt _ _)) by lia. cbn [andb obind].
      destruct (_ =? 0) eqn:E0; bprop; [lia|]. by eexists. }
    apply runs_bind. cbn [of_outcome]. apply runs_bind, (runs_upd_dev s0); [|done|].
    { intros d' Hd'. apply good_set_dim; [|done]. intros c' (H1 & H2 & H3). split; [done|]. split; [|done].
      split; [apply put_u8_range|done]. }
    intros s2 Hs2. apply runs_bind, (runs_group_of s0); [done|done|]. intros addr _. cbn [set_kp_value kp_value].
    pose proof (put_block_buf acc 0 false (put_u8 (u8 x) (kp_value (dm_bright c))) Hacc) as Hpb. unfold get_u8.
    destruct (put_block (da_buf acc) _) as [buf n]. cbn [fst snd] in Hpb.
    apply runs_bind, (runs_report_point s0); [|done|].
    { split; [apply u8_range|]. split; [done|]. cbn [dpvalue].
      match goal with |- 0 <= u8 ?y < _ => pose proof (u8_range y) as Hu end. unfold is_u8 in Hu. lia. }
    intros r s3 Hs3. by apply runs_send_dim. }
  destruct (kp_id (dm_key c) =? _); [|by apply runs_ret].
  apply runs_bind, (runs_upd_dev s0); [|done|].
  { intros d' Hd'. apply good_set_dim; [|done]. intros c' (H1 & H2 & H3). split; [|done]. split; [apply put_b1_range|done]. }
  intros s2 Hs2. apply runs_bind, (runs_group_of s0); [done|done|]. intros addr _.
  apply runs_bind, (runs_report_point s0); [|done|].
  { apply put_dp_bool_ok. split; [apply u8_range|]. split; [done|cbn; lia]. }
  intros r s3 Hs3. apply runs_send_dim; [|done]. destruct Hacc as [(v & rest & Hb & Hv' & Hr & Hl) Hn]. split; [|done].
  cbn [da_buf]. rewrite Hb. eexists _, rest. split; [done|]. split; [by apply lor_bit|done].
Qed.

Lemma runs_curtain_dev s0 s i d ret : good d -> kext s0 s -> runs (curtain_dev w i d ret) (fun _ s' => kext s0 s') s.
Proof.
  intros Hd Hs. unfold curtain_dev. destruct (negb (type_of d =? _)) eqn:E; [by apply runs_ret|].
  destruct (negb (kw_devId w =? _)) eqn:E'; [by apply runs_ret|]. apply negb_false_iff in E, E'. bprop.
  destruct Hd as [Hd Ha]. specialize (Ha E').
  destruct d as [b o|b o|b o|b k|b c|b c|b x y z]; cbn [dev_ok] in Hd; destruct Hd as [Hty Hd];
    try (rewrite E in Hty; discriminate Hty).
  assert (dp_enum (kw_obj w) < 3 -> forall p, opt_ok (fun k => kp_id k = dpid (kw_obj w))
    (part_of (KnxCurtain_t b x y z) p)) as Ha' by exact Ha. clear Ha. rename Ha' into Ha.
  assert (forall p v, dp_enum (kw_obj w) < 3 -> 0 <= v < 64 ->
    runs (addr ← curtain_part_cmd i (KnxCurtain_t b x y z) w p v;
      r ← send_to (readgaddr addr) (or_at 1 (Z.land v 0x3f) [0; 0x80]) ret; mret (false, r.2))
      (fun _ s' => kext s0 s') s) as Hcase.
  { intros p v He Hv. destruct (Hd p) as (k & Hk & Hk1 & Hk2). pose proof (Ha He p) as Hid.
    unfold curtain_part_cmd. rewrite Hk in Hid |- *. cbn [opt_ok] in Hid. rewrite Hid, Z.eqb_refl.
    apply runs_bind, runs_bind, (runs_upd_dev s0); [|done|].
    { intros d' [Hd' Ha']. destruct d' as [| | | | | |b' x' y' z']; try by split.
      split.
      - destruct Hd' as [Ht' Hd'].
        assert (pt_ok (set_kp_value (put_i32 v) k)) as Hnew by (split; [apply u32_range|done]).
        destruct p; (split; [done|]); intros [| |]; cbn; try (by eexists);
          first [apply (Hd' POpen)|apply (Hd' PClose)|apply (Hd' PStop)].
      - intros Hid'. assert (accepts w (KnxCurtain_t b' x' y' z')) as Ha2 by done.
        specialize (Ha2 ltac:(by destruct p)). destruct p; intros He' [| |]; cbn; try exact Hid;
          first [apply (Ha2 He' POpen)|apply (Ha2 He' PClose)|apply (Ha2 He' PStop)]. }
    intros s1 Hs1. destruct (kp_pCtrl k) as [addr|]; [|done]. apply runs_ret.
    apply runs_bind, (runs_send_to s0); [|done|intros r s2 Hs2; by apply runs_ret].
    apply apdu_switch, land_3f. }
  destruct (dp_enum (kw_obj w) =? 0) eqn:E0; bprop; [apply Hcase; lia|].
  destruct (dp_enum (kw_obj w) =? 2) eqn:E2; bprop; [apply Hcase; lia|].
  destruct (dp_enum (kw_obj w) =? 1) eqn:E1; bprop; [apply Hcase; lia|]. by apply runs_ret.
Qed.

(** All seven functions. *)
Lemma runs_write_handlers s0 s : Forall (fun f => forall s, kext s0 s -> runs f (fun _ s' => kext s0 s') s) (write_handlers w).
Proof.
  unfold write_handlers. repeat apply Forall_cons_2; try apply Forall_nil_2; intros s1 Hs1; apply runs_each_dev; try done;
    intros i d ret s' Hd Hs'.
  1-3: apply runs_climate_dev; [tauto|done|done].
  - by apply runs_panel_dev.
  - by apply runs_smart_dev.
  - by apply runs_dim_dev.
  - by apply runs_curtain_dev.
Qed.
End Safe.

(** ** Properties *)

Section CtrlProperties.
Context {M : Type} `{ModbusSide M}.
Implicit Types s : kst M.

Lemma runs_first_success w fs s0 s :
  Forall (fun f => forall s, kext w s0 s -> runs f (fun _ s' => kext w s0 s') s) fs -> kext w s0 s ->
  runs (first_success fs) (fun _ s' => kext w s0 s') s.
Proof.
  revert s. induction fs as [|f fs IH]; intros s Hf Hs; [by apply runs_ret|].
  apply Forall_cons in Hf as [Hf Hfs]. apply runs_bind. eapply runs_mono; [by apply Hf|].
  intros r s1 Hs1. cbv beta. destruct (r =? 0); [by apply runs_ret|by apply IH].
Qed.

(** C9: a turn of the writer thread is safe whatever the bus and the cloud
    answer.  For a well-formed list of devices and a command each device it is for
    accepts, the turn ends without a fault; every connection it opened is closed;
    what it sent are group writes of two to four bytes to 16-bit groups, what it
    reported are objects of the right width; the devices stay well formed, and the
    element and the command are freed. *)
Theorem knx_write_safe w l s :
  wq s = w :: l -> dp_ok (kw_obj w) -> Forall (opt_ok (good w)) (devs s) ->
  runs write_turn (fun _ s' =>
    Forall (opt_ok (good w)) (devs s') /\ length (devs s') = length (devs s) /\
    (exists t, klog s' = klog s ++ t /\ Forall kev_ok t /\ eib_balance t = 0) /\
    wq s' = l /\ hq s' = hq s /\ live (kheap s') = live (kheap s) - 2 /\ modbus s' = modbus s) s.
Proof.
  intros Hq Hw Hd. unfold write_turn, runs. rewrite Hq.
  change (runs (_ ← on_heap free; _ ← first_success (write_handlers w); on_heap free) (fun _ s' =>
    Forall (opt_ok (good w)) (devs s') /\ length (devs s') = length (devs s) /\
    (exists t, klog s' = klog s ++ t /\ Forall kev_ok t /\ eib_balance t = 0) /\
    wq s' = l /\ hq s' = hq s /\ live (kheap s') = live (kheap s) - 2 /\ modbus s' = modbus s) (with_wq l s)).
  set (s1 := with_heap (Heap (plan (kheap s)) (live (kheap s) - 1)) (with_wq l s)).
  apply runs_bind. change (runs (mret tt) (fun _ s' => runs (_ ← first_success (write_handlers w); on_heap free) (fun _ s' =>
    Forall (opt_ok (good w)) (devs s') /\ length (devs s') = length (devs s) /\
    (exists t, klog s' = klog s ++ t /\ Forall kev_ok t /\ eib_balance t = 0) /\
    wq s' = l /\ hq s' = hq s /\ live (kheap s') = live (kheap s) - 2 /\ modbus s' = modbus s) s') s1).
  apply runs_ret, runs_bind. eapply runs_mono.
  { apply (runs_first_success w _ s1); [by apply runs_write_handlers|by apply kext_refl]. }
  intros _ s2 [H1 H2 H3 (H4 & H5 & H6 & H7 & H8 & H9)]. unfold runs, on_heap. cbn.
  split; [done|]. split; [done|]. split; [done|]. split; [done|]. split; [done|]. rewrite H7. split; [cbn; lia|done].
Qed.
End CtrlProperties.

(** ** A small bus

    An air conditioner that is an actuator, and a curtain; the Modbus side does
    nothing. *)

Definition quiet_side : ModbusSide unit := {| side_active := fun _ => true; side_write := fun _ _ => mret 0 |}.

Definition k_base (i : option KnxIf) (ty id attri : Z) (key : string) : KnxBase_t :=
  KBase i (Element key id ty true None) attri true 0.
Definition k_acd : KnxDev :=
  KnxAcd_t (k_base (Some Acd_General.KNX_Acd_General) KNX_DEVICE_AIRCONDITION 7 DEVICE_ATTRI_ACTUATOR "dev.knx.acd.7")
    [Some (KnxObj ACD_SWITCH 0 1 "1/2/3" 0); Some (KnxObj ACD_SWITCH_STATUS 0 1 "1/2/4" 0); None; None; None; None;
     Some (KnxObj ACD_TEMP 0 3 "1/2/5" 0); Some (KnxObj ACD_TEMP_STATUS 0 3 "1/2/6" 0); None; None].
Definition k_point (id : Z) (addr : string) : KnxPoints_t := KnxPoint id 0 100 0 0 (Some addr) (Some addr).
Definition k_curtain : KnxDev :=
  KnxCurtain_t (k_base None KNX_DEVICE_CURTAIN 9 DEVICE_ATTRI_ACTUATOR "dev.knx.cur.9")
    (Some (k_point 1 "1/3/1")) (Some (k_point 1 "1/3/2")) (Some (k_point 1 "1/3/3")).
Definition k_bus (l : list KnxWriteType_t) : kst unit :=
  K [Some k_acd; None; Some k_curtain] [] [] (fun _ => true) [] l [] (Heap [] 2) 0 tt.

Lemma knx_write_safe_witness :
  let w := KnxWrite "dev.knx.acd.7" 7 (Dp 3 PROP_VALUE 26 0) in
  runs (write_turn (H := quiet_side)) (fun _ s' => length (devs s') = 3%nat /\ live (kheap s') = 0) (k_bus [w]).
Proof.
  intros w. eapply runs_mono.
  - refine (knx_write_safe (H := quiet_side) w [] (k_bus [w]) eq_refl _ _).
    + split; [split; [discriminate|reflexivity]|]. split; split; (discriminate || reflexivity).
    + apply Forall_cons_2; [|apply Forall_cons_2; [done|apply Forall_cons_2; [|by apply Forall_nil_2]]].
      * split; [split; [done|repeat constructor; discriminate]|].
        intros _ ctl p Hc Hp. by apply (acd_general_control ctl _ p Hc).
      * split; [|done]. split; [done|]. intros [| |]; eexists; (split; [reflexivity|]); repeat split; discriminate.
  - intros [] s' (Hd & Hl & Hg & Hq & Hh & Hv & Hm). split; [exact Hl|]. rewrite Hv. reflexivity.
Defined.
