(* ===== verification/KnxReport.v ===== *)
(** Telegrams of the KNX devices (Knx_AcdReport ... Knx_CurtainReport,
    KNX_DevMonitorEntry, KNX_DevStateSync and Knx_RequestHB of
    source/knxHandle.c).

    A telegram goes through seven functions, one per family; each looks for the
    devices with a status point on the group of the telegram, stores the value,
    lets the plugin translate it, and passes the object on: to the cloud for a
    master, otherwise to the Modbus device the KNX device stands for. *)

From S2P Require Import Prelude CMem CStr Device Queue PluginApi Dpt9 KnxPlugins KnxAddr KnxPacket Serial Nodes ModbusWrite KnxDevs.

Local Open Scope string_scope.
Local Open Scope list_scope.
Local Open Scope Z_scope.

(** The Modbus side is that of ModbusWrite.v. *)
#[export] Instance gst_side P : ModbusSide (gst P) :=
  {| side_active := g_bActive; side_write := ModbusDevWrite |}.

Section Report.
Context {M : Type} `{ModbusSide M}.
Implicit Types s : kst M.

(** ** Air conditioners, ventilations, floor heatings

    A status point of the chain of tests: its slot; whether its time is stamped,
    whether it goes to the cloud for a device that is not a master ([bFlag]), and
    whether the raw value is put into the object before the plugin translates
    it. *)
Record status_point := Status { sp_slot : nat; sp_stamp : bool; sp_flag : bool; sp_raw : bool }.

Fixpoint find_status (objs : list (option KnxObj_t)) (points : list status_point) (grp : string) :
    option (status_point * KnxObj_t) :=
  match points with
  | [] => None
  | r :: points =>
      match obj_at objs (sp_slot r) with
      | Some p =>
          if Knx_CompareGroup (Some (k_addr p)) (Some grp) =? 0 then Some (r, p) else find_status objs points grp
      | None => find_status objs points grp
      end
  end.

Definition stamp_value (r : status_point) (v ts : Z) (p : KnxObj_t) : KnxObj_t :=
  KnxObj (k_localPoint p) (u16 v) (k_cloudPoint p) (k_addr p) (if sp_stamp r then ts else k_timestamp p).

(** The object before the translation: zeroed, with the id of the point. *)
Definition raw_dp (r : status_point) (p : KnxObj_t) (v : Z) : ty_obj_dp_s :=
  Dp (u8 (k_cloudPoint p)) 0 (if sp_raw r then v else 0) 0.

(** [pIf->report (pKnxObj, &Obj)] *)
Definition translate (rep : option KnxObj_t -> option ty_obj_dp_s -> outcome (Z * option ty_obj_dp_s))
    (p : KnxObj_t) (o : ty_obj_dp_s) : outcome ty_obj_dp_s :=
  r <-! rep (Some p) (Some o); match r.2 with Some o => Done o | None => Undef end.

(** A report to the cloud whose failure is kept as -1. *)
Definition report_ret (key : string) (o : ty_obj_dp_s) : io (kst M) Z :=
  ret ← report_dp key o; mret (if negb (ret =? 0) then -1 else ret).

(** The key of the Modbus device behind [pvForeignKey]; a null pointer is
    followed. *)
Definition foreign (b : KnxBase_t) : io (kst M) string :=
  match pvForeignKey (kb_element b) with Some k => mret k | None => fault end.

(** A master reports to the cloud and refreshes its heartbeat. *)
Definition to_cloud (b : KnxBase_t) (o : ty_obj_dp_s) (ret : Z) : io (kst M) Z :=
  act ← active;
  if (act : bool) then
    ret ← report_ret (e_pPrimaryKey (kb_element b)) o;
    _ ← hb_fresh (e_pPrimaryKey (kb_element b));
    mret ret
  else mret ret.

(** A point that is only read is reported for the Modbus device, when the cloud
    knows it. *)
Definition flagged (b : KnxBase_t) (o : ty_obj_dp_s) (ret : Z) : io (kst M) Z :=
  act ← active;
  if negb act then mret ret else
  key ← foreign b;
  known ← is_bound key;
  if (known : bool) then report_ret key o else mret ret.

Definition acd_route (b : KnxBase_t) (flag : bool) (o : ty_obj_dp_s) (ret : Z) : io (kst M) Z :=
  if bMaster (kb_element b) then to_cloud b o ret
  else if negb flag then key ← foreign b; ModbusWrite key o
  else flagged b o ret.

(** As above, but the result of [ModbusDevWrite] is not kept. *)
Definition vent_route (b : KnxBase_t) (flag : bool) (o : ty_obj_dp_s) (ret : Z) : io (kst M) Z :=
  if bMaster (kb_element b) then to_cloud b o ret
  else if negb flag then key ← foreign b; _ ← ModbusWrite key o; mret ret
  else flagged b o ret.

Definition heat_route (b : KnxBase_t) (flag : bool) (o : ty_obj_dp_s) (ret : Z) : io (kst M) Z :=
  if bMaster (kb_element b) then to_cloud b o ret else mret ret.

(** The common part of the three functions: the point found, its value stored,
    the object translated and routed.  A missing plugin is passed over, or, for a
    heating ([strict]), its null pointer is followed. *)
Definition on_status (i : nat) (d : KnxDev) (objs : list (option KnxObj_t)) (points : list status_point)
    (strict : bool) (route : KnxBase_t -> bool -> ty_obj_dp_s -> Z -> io (kst M) Z)
    (pData : KnxDataType_t) (ts ret : Z) : io (kst M) (bool * Z) :=
  let b := base_of d in
  match find_status objs points (groupAddr pData) with
  | None => mret (false, ret)
  | Some (r, p) =>
      let v := kd_value pData in
      let p := stamp_value r v ts p in
      _ ← upd_dev i (fun d => set_objs (<[sp_slot r := Some p]> objs) d);
      match (match kb_pIf b with Some pIf => report pIf | None => None end) with
      | None => if strict then fault else mret (false, ret)
      | Some rep =>
          o ← of_outcome (translate rep p (raw_dp r p v));
          ret ← route b (sp_flag r) o ret;
          mret (false, ret)
      end
  end.

(** A master the cloud does not know: [break] in most functions. *)
Definition unbound (b : KnxBase_t) : io (kst M) bool :=
  if bMaster (kb_element b) then known ← is_bound (e_pPrimaryKey (kb_element b)); mret (negb known) else mret false.

Definition acd_points : list status_point :=
  [Status Acd.pSwitchStatus true false true; Status Acd.pSpeedStatus true false true;
   Status Acd.pModeStatus true false true; Status Acd.pTempStatus true false true;
   Status Acd.pEnvTemp true true true; Status Acd.pErrorCode false true false].
Definition vent_points : list status_point :=
  [Status Vent.pSwitchStatus true false true; Status Vent.pSpeedStatus true false true;
   Status Vent.pErrorCode false true false; Status Vent.pEnvTemp false true true].
Definition heat_points : list status_point :=
  [Status Heat.pSwitchStatus true false false; Status Heat.pTempStatus true false false;
   Status Heat.pEnvTemp false false false; Status Heat.pValve false false false;
   Status Heat.pErrorCode false false false].

Definition acd_dev (pData : KnxDataType_t) (ts : Z) (i : nat) (d : KnxDev) (ret : Z) : io (kst M) (bool * Z) :=
  if negb (type_of d =? KNX_DEVICE_AIRCONDITION) then mret (false, ret) else
  stop ← unbound (base_of d);
  if (stop : bool) then mret (true, ret) else
  match objs_of KNX_DEVICE_AIRCONDITION d with
  | None => fault
  | Some objs => on_status i d objs acd_points false acd_route pData ts ret
  end.

Definition vent_dev (pData : KnxDataType_t) (ts : Z) (i : nat) (d : KnxDev) (ret : Z) : io (kst M) (bool * Z) :=
  if negb (type_of d =? KNX_DEVICE_VENTILATION) then mret (false, ret) else
  stop ← unbound (base_of d);
  if (stop : bool) then mret (false, ret) else
  match objs_of KNX_DEVICE_VENTILATION d with
  | None => fault
  | Some objs => on_status i d objs vent_points false vent_route pData ts ret
  end.

Definition heat_dev (pData : KnxDataType_t) (ts : Z) (i : nat) (d : KnxDev) (ret : Z) : io (kst M) (bool * Z) :=
  if negb (type_of d =? KNX_DEVICE_FLOORHEATING) then mret (false, ret) else
  stop ← unbound (base_of d);
  if (stop : bool) then mret (true, ret) else
  if bRejected pData && (kb_attri (base_of d) =? DEVICE_ATTRI_CONTROLLER) then mret (false, ret) else
  match objs_of KNX_DEVICE_FLOORHEATING d with
  | None => fault
  | Some objs => on_status i d objs heat_points true heat_route pData ts ret
  end.

(** [ts]: the time of the clock. *)
Definition Knx_AcdReport (pData : option KnxDataType_t) (ts : Z) : io (kst M) Z :=
  match pData with None => mret (-1) | Some d => each_dev (acd_dev d ts) end.
Definition Knx_VentReport (pData : option KnxDataType_t) (ts : Z) : io (kst M) Z :=
  match pData with None => mret (-1) | Some d => each_dev (vent_dev d ts) end.
Definition Knx_HeatReport (pData : option KnxDataType_t) (ts : Z) : io (kst M) Z :=
  match pData with None => mret (-1) | Some d => each_dev (heat_dev d ts) end.

(** ** Panels *)

Definition same_group (a : option string) (pData : KnxDataType_t) : bool :=
  match a with Some addr => Knx_CompareGroup (Some addr) (Some (groupAddr pData)) =? 0 | None => false end.

(** [point.value.b1 = (bool) pData->value; Obj.value.dp_bool = pData->value] *)
Definition bool_of (pData : KnxDataType_t) : bool := negb (kd_value pData =? 0).
Definition bool_dp (k : KnxPoints_t) (pData : KnxDataType_t) : ty_obj_dp_s :=
  put_dp_bool (bool_of pData) (Dp (u8 (kp_id k)) PROP_BOOL 0 0).

(** A panel that is not a master moves a curtain: off closes (2), on opens (0). *)
Definition panel_key_report (i : nat) (b : KnxBase_t) (pData : KnxDataType_t) (ts : Z)
    (j : nat) (k : KnxPoints_t) (ret : Z) : io (kst M) (bool * Z) :=
  if negb (same_group (kp_pFeedback k) pData) then mret (false, ret) else
  _ ← upd_dev i (fun d =>
    match d with
    | KnxPanel_t b keys =>
        KnxPanel_t b (alter (fun k => set_kp_value (put_b1 (bool_of pData) (kp_value k)) (set_kp_time ts k)) j keys)
    | d => d
    end);
  let o := bool_dp k pData in
  if negb (bMaster (kb_element b)) then
    key ← foreign b;
    _ ← ModbusWrite key (put_dp_value (if bool_of pData then 0 else 2) o);
    mret (false, ret)
  else ret ← to_cloud b o ret; mret (false, ret).

Definition panel_report_dev (pData : KnxDataType_t) (ts : Z) (i : nat) (d : KnxDev) (ret : Z) : io (kst M) (bool * Z) :=
  stop ← unbound (base_of d);
  if (stop : bool) then mret (true, ret) else
  if negb (in_range KNX_PANEL_ONE_KEY KNX_PANEL_EIGHT_KEY (type_of d)) then mret (false, ret) else
  match d with
  | KnxPanel_t b keys => ret ← loop (panel_key_report i b pData ts) 0 keys ret; mret (false, ret)
  | _ => fault
  end.

Definition smart_chl_report (i : nat) (b : KnxBase_t) (pData : KnxDataType_t) (ts : Z)
    (j : nat) (c : KnxSmartPanelPoint_t) (ret : Z) : io (kst M) (bool * Z) :=
  if negb (same_group (kp_pFeedback (sp_key c)) pData) then mret (false, ret) else
  _ ← upd_dev i (fun d =>
    match d with
    | KnxSmartPanel_t b chl =>
        KnxSmartPanel_t b (alter (fun c =>
          SmartPoint (set_kp_value (put_b1 (bool_of pData) (kp_value (sp_key c))) (set_kp_time ts (sp_key c)))
            (sp_scene c) (sp_mode c)) j chl)
    | d => d
    end);
  ret ← to_cloud b (bool_dp (sp_key c) pData) ret;
  mret (false, ret).

Definition smart_report_dev (pData : KnxDataType_t) (ts : Z) (i : nat) (d : KnxDev) (ret : Z) : io (kst M) (bool * Z) :=
  stop ← unbound (base_of d);
  if (stop : bool) then mret (true, ret) else
  if negb (in_range KNX_MISC_PANEL_ONE_KEY KNX_MISC_PANEL_FOUR_KEY (type_of d)) then mret (false, ret) else
  match d with
  | KnxSmartPanel_t b chl => ret ← loop (smart_chl_report i b pData ts) 0 chl ret; mret (false, ret)
  | _ => fault
  end.

(** ** Dimmers *)

(** [(uint16_t) (value * max / 255.0)]: the product in [int], the quotient in
    [double]. *)
Definition bright_back (v max : Z) : outcome Z :=
  x <-! int_of (v * max); to_int 0 65535 (ddiv (double_of_Z x) (double_of_Z 255)).

(** What a part of the body does next: the rest of the round, the next round, or
    the end of the loop. *)
Inductive next := Go | NextRound | Leave.

(** An actuator reports while the gateway is active, and ends the loop. *)
Definition dim_route (b : KnxBase_t) (o : ty_obj_dp_s) (ret : Z) : io (kst M) (next * Z) :=
  if negb (kb_attri b =? DEVICE_ATTRI_ACTUATOR) then mret (Go, ret) else
  act ← active;
  if negb act then mret (NextRound, ret) else
  ret ← report_ret (e_pPrimaryKey (kb_element b)) o;
  _ ← hb_fresh (e_pPrimaryKey (kb_element b));
  mret (Leave, ret).

Definition upd_chl (i j : nat) (f : KnxDimmerPoint_t -> KnxDimmerPoint_t) : io (kst M) unit :=
  upd_dev i (fun d => match d with KnxDimmer_t b chl => KnxDimmer_t b (alter f j chl) | d => d end).

Definition dim_bright_report (i : nat) (b : KnxBase_t) (pData : KnxDataType_t) (j : nat) (c : KnxDimmerPoint_t)
    (o : ty_obj_dp_s) (ret : Z) : io (kst M) (next * Z * ty_obj_dp_s) :=
  let k := dm_bright c in
  if negb (same_group (kp_pFeedback k) pData) then mret (Go, ret, o) else
  v ← of_outcome (bright_back (kd_value pData) (kp_max k));
  _ ← upd_chl i j (fun c => DimmerPoint (dm_key c) (set_kp_value (put_u16 v (kp_value (dm_bright c))) (dm_bright c)));
  let o := Dp (u8 (kp_id k)) PROP_VALUE v 0 in
  r ← dim_route b o ret;
  mret (r, o).

(** A rejected telegram is answered with a write whose device id is the address
    of the group. *)
Definition dim_key_report (i : nat) (b : KnxBase_t) (pData : KnxDataType_t) (j : nat) (c : KnxDimmerPoint_t)
    (o : ty_obj_dp_s) (ret : Z) : io (kst M) (next * Z) :=
  let k := dm_key c in
  if negb (same_group (kp_pFeedback k) pData) then mret (Go, ret) else
  let o := put_dp_bool (bool_of pData) (Dp (u8 (kp_id k)) PROP_BOOL (dpvalue o) 0) in
  if bRejected pData then
    match kp_pFeedback (dm_bright c) with
    | None => fault
    | Some g => _ ← KnxGroupWrite (Some g) (Some o); mret (Leave, ret)
    end
  else
  _ ← upd_chl i j (fun c => DimmerPoint (set_kp_value (put_b1 (bool_of pData) (kp_value (dm_key c))) (dm_key c)) (dm_bright c));
  dim_route b o ret.

Definition dim_chl_report (i : nat) (b : KnxBase_t) (pData : KnxDataType_t)
    (j : nat) (c : KnxDimmerPoint_t) (ret : Z) : io (kst M) (bool * Z) :=
  r ← dim_bright_report i b pData j c (Dp 0 0 0 0) ret;
  match r with
  | (Leave, ret, _) => mret (true, ret)
  | (NextRound, ret, _) => mret (false, ret)
  | (Go, ret, o) =>
      r ← dim_key_report i b pData j c o ret;
      mret (match r.1 with Leave => true | _ => false end, r.2)
  end.

Definition dim_report_dev (pData : KnxDataType_t) (i : nat) (d : KnxDev) (ret : Z) : io (kst M) (bool * Z) :=
  stop ← unbound (base_of d);
  if (stop : bool) then mret (true, ret) else
  if negb (in_range KNX_DIMMER_ONE_KEY KNX_DIMMER_FOUR_KEY (type_of d)) then mret (false, ret) else
  match d with
  | KnxDimmer_t b chl => ret ← loop (dim_chl_report i b pData) 0 chl ret; mret (false, ret)
  | _ => fault
  end.

(** ** Curtains

    The object is zeroed after its type is set, so its type stays 0; each of the
    three points may overwrite it. *)

Definition curtain_point (k : option KnxPoints_t) (pData : KnxDataType_t) (when : Z -> bool) (v : Z) (o : ty_obj_dp_s) :
    option KnxPoints_t * ty_obj_dp_s :=
  match k with
  | Some p =>
      if same_group (kp_pCtrl p) pData && when (kd_value pData)
      then (Some (set_kp_value (put_i32 (kd_value pData)) p), Dp (u8 (kp_id p)) (dptype o) v (time_stamp o))
      else (k, o)
  | None => (None, o)
  end.

Definition curtain_report_dev (pData : KnxDataType_t) (i : nat) (d : KnxDev) (ret : Z) : io (kst M) (bool * Z) :=
  if negb (type_of d =? KNX_DEVICE_CURTAIN) then mret (false, ret) else
  match d with
  | KnxCurtain_t b pOpen pClose pStop =>
      let '(pOpen, o) := curtain_point pOpen pData (Z.eqb 1) 0 (Dp 0 0 0 0) in
      let '(pClose, o) := curtain_point pClose pData (Z.eqb 0) 2 o in
      let '(pStop, o) := curtain_point pStop pData (fun _ => true) 1 o in
      _ ← upd_dev i (fun _ => KnxCurtain_t b pOpen pClose pStop);
      if dpid o =? 0 then mret (false, ret) else
      if kb_attri b =? DEVICE_ATTRI_CONTROLLER then
        key ← foreign b; ret ← ModbusWrite key o; mret (false, ret)
      else if kb_attri b =? DEVICE_ATTRI_ACTUATOR then
        (if bMaster (kb_element b) then ret ← to_cloud b o ret; mret (false, ret) else mret (false, ret))
      else mret (false, ret)
  | _ => fault
  end.

Definition Knx_PanelReport (pData : option KnxDataType_t) (ts : Z) : io (kst M) Z :=
  match pData with None => mret (-1) | Some d => each_dev (panel_report_dev d ts) end.
Definition Knx_SmartPanelReport (pData : option KnxDataType_t) (ts : Z) : io (kst M) Z :=
  match pData with None => mret (-1) | Some d => each_dev (smart_report_dev d ts) end.
Definition Knx_DimmerReport (pData : option KnxDataType_t) : io (kst M) Z :=
  match pData with None => mret (-1) | Some d => each_dev (dim_report_dev d) end.
Definition Knx_CurtainReport (pData : option KnxDataType_t) : io (kst M) Z :=
  match pData with None => mret (-1) | Some d => each_dev (curtain_report_dev d) end.

(** ** The monitor thread

    The body of KNX_DevMonitorEntry for a packet, which it frees. *)
Definition monitor_packet (d : KnxDataType_t) (ts : Z) : io (kst M) unit :=
  _ ← Knx_AcdReport (Some d) ts;
  _ ← Knx_VentReport (Some d) ts;
  _ ← Knx_HeatReport (Some d) ts;
  _ ← Knx_PanelReport (Some d) ts;
  _ ← Knx_SmartPanelReport (Some d) ts;
  _ ← Knx_DimmerReport (Some d);
  _ ← Knx_CurtainReport (Some d);
  on_heap free.

(** ** Asking for the state

    The groups whose state is read, from the queue KNX_DevHealth serves. *)

Definition ask (addr : string) : io (kst M) unit :=
  ok ← on_heap calloc;
  if negb ok then mret tt else
  ret ← put_heartbeat addr;
  if negb (ret =? 0) then on_heap free else mret tt.
Definition ask_obj (o : option KnxObj_t) : io (kst M) unit :=
  match o with Some p => ask (k_addr p) | None => mret tt end.
Definition ask_group (a : option string) : io (kst M) unit :=
  match a with Some addr => ask addr | None => mret tt end.
Definition ask_point (k : KnxPoints_t) : io (kst M) unit :=
  if negb (kp_mode k =? POINT_ATTR_WRITE_ONLY) then ask_group (kp_pFeedback k) else mret tt.

Fixpoint each {A} (f : A -> io (kst M) unit) (l : list A) : io (kst M) unit :=
  match l with [] => mret tt | a :: l => _ ← f a; each f l end.

Definition sync_slots (ty : Z) : list nat :=
  if ty =? KNX_DEVICE_AIRCONDITION
  then [Acd.pSwitchStatus; Acd.pSpeedStatus; Acd.pModeStatus; Acd.pTempStatus; Acd.pEnvTemp; Acd.pErrorCode]
  else if ty =? KNX_DEVICE_VENTILATION then [Vent.pSwitchStatus; Vent.pSpeedStatus; Vent.pErrorCode]
  else [Heat.pSwitchStatus; Heat.pTempStatus; Heat.pEnvTemp; Heat.pErrorCode].

(** [pCurtain->pOpen->pGroup]: the pointer to the point is not tested. *)
Definition ask_part (k : option KnxPoints_t) : io (kst M) unit :=
  match k with Some k => ask_group (kp_pCtrl k) | None => fault end.

Definition sync_knx (d : KnxDev) : io (kst M) unit :=
  if negb (bMaster (kb_element (base_of d))) then mret tt else
  let ty := type_of d in
  if (ty =? KNX_DEVICE_AIRCONDITION) || (ty =? KNX_DEVICE_VENTILATION) || (ty =? KNX_DEVICE_FLOORHEATING) then
    match objs_of ty d with
    | Some o => each (fun slot => ask_obj (obj_at o slot)) (sync_slots ty)
    | None => fault
    end
  else if in_range KNX_PANEL_ONE_KEY KNX_PANEL_EIGHT_KEY ty then
    match d with KnxPanel_t _ keys => each ask_point keys | _ => fault end
  else if in_range KNX_MISC_PANEL_ONE_KEY KNX_MISC_PANEL_FOUR_KEY ty then
    match d with KnxSmartPanel_t _ chl => each (fun c => ask_point (sp_key c)) chl | _ => fault end
  else if in_range KNX_DIMMER_ONE_KEY KNX_DIMMER_FOUR_KEY ty then
    match d with
    | KnxDimmer_t _ chl => each (fun c => _ ← ask_point (dm_key c); ask_point (dm_bright c)) chl
    | _ => fault
    end
  else if ty =? KNX_DEVICE_CURTAIN then
    match d with
    | KnxCurtain_t _ x y z => _ ← ask_part x; _ ← ask_part y; ask_part z
    | _ => fault
    end
  else mret tt.

Definition KNX_DevStateSync : io (kst M) unit := fun s =>
  each (fun d => match d with Some d => sync_knx d | None => mret tt end) (devs s) s.

(** The search by primary key (KnxDevIdMatch of main.c). *)
Fixpoint find_knx (l : list (option KnxDev)) (key : string) : option (nat * KnxDev) :=
  match l with
  | [] => None
  | Some d :: l =>
      if String.eqb (key_of d) key then Some (0%nat, d)
      else match find_knx l key with Some (i, d) => Some (Datatypes.S i, d) | None => None end
  | None :: l => match find_knx l key with Some (i, d) => Some (Datatypes.S i, d) | None => None end
  end.

Definition set_khbIgnore (h : Z) (b : KnxBase_t) : KnxBase_t :=
  KBase (kb_pIf b) (kb_element b) (kb_attri b) (kb_bOnlineCheck b) h.

Definition ask_first (d : KnxDev) : io (kst M) unit :=
  let ty := type_of d in
  if (ty =? KNX_DEVICE_AIRCONDITION) || (ty =? KNX_DEVICE_VENTILATION) || (ty =? KNX_DEVICE_FLOORHEATING) then
    match objs_of ty d with Some o => ask_obj (obj_at o 1) | None => fault end
  else if in_range KNX_PANEL_ONE_KEY KNX_PANEL_EIGHT_KEY ty then
    match d with KnxPanel_t _ (k :: _) => ask_group (kp_pFeedback k) | _ => fault end
  else if in_range KNX_MISC_PANEL_ONE_KEY KNX_MISC_PANEL_FOUR_KEY ty then
    match d with KnxSmartPanel_t _ (c :: _) => ask_group (kp_pFeedback (sp_key c)) | _ => fault end
  else if in_range KNX_DIMMER_ONE_KEY KNX_DIMMER_FOUR_KEY ty then
    match d with KnxDimmer_t _ (c :: _) => ask_group (kp_pFeedback (dm_bright c)) | _ => fault end
  else if ty =? KNX_DEVICE_CURTAIN then
    match d with KnxCurtain_t _ x _ _ => ask_part x | _ => fault end
  else mret tt.

Definition Knx_RequestHB (pDevId : option string) : io (kst M) Z := fun s =>
  match pDevId with
  | None => Ran (-1) s
  | Some key =>
      match find_knx (devs s) key with
      | None => Ran (-1) s
      | Some (i, d) =>
          let b := base_of d in
          (if negb (kb_bOnlineCheck b) then _ ← hb_fresh (key_of d); mret 0 else
           if kb_hbIgnore b <? 5 then
             _ ← upd_dev i (set_kbase (set_khbIgnore (kb_hbIgnore b + 1) b)); mret 0 else
           _ ← upd_dev i (set_kbase (set_khbIgnore 0 b));
           _ ← ask_first d;
           mret 0) s
      end
  end.
End Report.
