(* ===== verification/KnxLoop.v ===== *)
(** A command on its way to a KNX device and back: the turn of the writer thread
    that sends it, the telegram with which the device answers, and the report of
    the monitor thread (KnxCtrl.v, KnxPacket.v and KnxReport.v together). *)

From S2P Require Import Prelude CMem CStr Device Queue PluginApi Dpt9 KnxPlugins KnxAddr KnxPacket Serial Nodes KnxDevs KnxCtrl KnxReport.

Local Open Scope string_scope.
Local Open Scope list_scope.
Local Open Scope Z_scope.

(** ** The three families of climate devices *)

Inductive family := FAcd | FVent | FHeat.
Definition fam_type (f : family) : Z :=
  match f with
  | FAcd => KNX_DEVICE_AIRCONDITION | FVent => KNX_DEVICE_VENTILATION | FHeat => KNX_DEVICE_FLOORHEATING
  end.
Definition fam_cmds (f : family) : list (nat * bool) :=
  match f with FAcd => acd_cmds | FVent => vent_cmds | FHeat => heat_cmds end.
Definition fam_points (f : family) : list status_point :=
  match f with FAcd => acd_points | FVent => vent_points | FHeat => heat_points end.
Definition fam_dev (f : family) (b : KnxBase_t) (o : list (option KnxObj_t)) : KnxDev :=
  match f with FAcd => KnxAcd_t b o | FVent => KnxVent_t b o | FHeat => KnxHeat_t b o end.
Definition fam_turn (f : family) : nat := match f with FAcd => 0 | FVent => 1 | FHeat => 2 end.

(** The structure is the one of [primaryType]. *)
Definition shape_ok (d : KnxDev) : Prop :=
  match d with
  | KnxAcd_t _ _ => type_of d = KNX_DEVICE_AIRCONDITION
  | KnxVent_t _ _ => type_of d = KNX_DEVICE_VENTILATION
  | KnxHeat_t _ _ => type_of d = KNX_DEVICE_FLOORHEATING
  | KnxPanel_t _ _ => in_range KNX_PANEL_ONE_KEY KNX_PANEL_EIGHT_KEY (type_of d) = true
  | KnxSmartPanel_t _ _ => in_range KNX_MISC_PANEL_ONE_KEY KNX_MISC_PANEL_FOUR_KEY (type_of d) = true
  | KnxDimmer_t _ _ => in_range KNX_DIMMER_ONE_KEY KNX_DIMMER_FOUR_KEY (type_of d) = true
  | KnxCurtain_t _ _ _ _ => type_of d = KNX_DEVICE_CURTAIN
  end.

Section Loop.
Context {M : Type} `{ModbusSide M}.
Implicit Types s : kst M.

(** ** Sending *)

(** What the bus makes of an APDU: the answers of the EIB library that are used
    up, the events, and the result. *)
Definition sent_log (e : list Z) (g : Z) (buf : list Z) : list kev :=
  if hd 1 e =? 0 then []
  else if hd 0 (tl e) =? -1 then [EibOpen; EibClose]
  else if hd (Z.of_nat (length buf)) (tl (tl e)) =? -1 then [EibOpen; EibClose]
  else [EibOpen; Apdu g buf; EibClose].
Definition sent_rest (e : list Z) : list Z :=
  if hd 1 e =? 0 then tl e else if hd 0 (tl e) =? -1 then tl (tl e) else tl (tl (tl e)).
Definition sent_ret (e : list Z) (buf : list Z) (ret : Z) : bool * Z :=
  if hd 1 e =? 0 then (false, ret)
  else if hd 0 (tl e) =? -1 then (false, ret)
  else (negb (hd (Z.of_nat (length buf)) (tl (tl e)) =? -1), hd (Z.of_nat (length buf)) (tl (tl e))).

Lemma send_to_run g buf ret s :
  send_to g buf ret s =
  Ran (sent_ret (eib s) buf ret) (with_eib (sent_rest (eib s)) (with_log (klog s ++ sent_log (eib s) g buf) s)).
Proof.
  unfold send_to, send_apdu, eib_call, note, mbind, io_bind, mret, io_ret, sent_ret, sent_rest, sent_log. cbn.
  destruct (hd 1 (eib s) =? 0); cbn; [by rewrite app_nil_r|].
  destruct (hd 0 (tl (eib s)) =? -1); cbn; [by rewrite <- app_assoc|].
  destruct (hd (Z.of_nat (length buf)) (tl (tl (eib s))) =? -1) eqn:E; cbn; rewrite ?E, <- ?app_assoc; done.
Qed.

(** What the cloud is told of a command at once. *)
Definition told (b : KnxBase_t) (o : ty_obj_dp_s) (act : bool) : list kev :=
  if act && (kb_attri b =? DEVICE_ATTRI_ACTUATOR)
  then [KReport (e_pPrimaryKey (kb_element b)) o; KFresh (e_pPrimaryKey (kb_element b))] else [].
Definition told_rest (b : KnxBase_t) (act : bool) (c : list Z) : list Z :=
  if act && (kb_attri b =? DEVICE_ATTRI_ACTUATOR) then tl (tl c) else c.
Definition told_ret (b : KnxBase_t) (act : bool) (c : list Z) (ret : Z) : Z :=
  if act && (kb_attri b =? DEVICE_ATTRI_ACTUATOR) then (if hd 0 c =? 0 then hd 0 c else -1) else ret.

Lemma report_cmd_run b o ret s :
  let act := side_active (modbus s) in
  report_cmd b o ret s =
  Ran (told_ret b act (cloud s) ret) (with_cloud (told_rest b act (cloud s)) (with_log (klog s ++ told b o act) s)).
Proof.
  cbv zeta. unfold report_cmd, active, report_dp, hb_fresh, cloud_call, note, mbind, io_bind, mret, io_ret, told_ret, told_rest, told.
  cbn. destruct (_ && _); cbn; [|rewrite app_nil_r; by destruct s].
  rewrite <- app_assoc. cbn. destruct (hd 0 (cloud s) =? 0); done.
Qed.

(** ** The writer thread *)

(** The command is for the device [n] only. *)
Definition only_for (w : KnxWriteType_t) (n : nat) (l : list (option KnxDev)) : Prop :=
  forall j d, l !! j = Some (Some d) -> (kw_devId w = devId (kb_element (base_of d)) <-> j = n).

Lemma climate_pass ty pts w i d ret s :
  type_of d <> ty \/ kw_devId w <> devId (kb_element (base_of d)) -> climate_dev ty pts w i d ret s = Ran (false, ret) s.
Proof.
  intros Hd. unfold climate_dev. destruct (type_of d =? ty) eqn:E; bprop; [|done]. cbn [negb].
  destruct (kw_devId w =? _) eqn:E'; bprop; [|done]. by destruct Hd.
Qed.

Lemma families_differ f d lo hi :
  type_of d = fam_type f -> (lo, hi) = (KNX_PANEL_ONE_KEY, KNX_PANEL_EIGHT_KEY) \/
    (lo, hi) = (KNX_MISC_PANEL_ONE_KEY, KNX_MISC_PANEL_FOUR_KEY) \/ (lo, hi) = (KNX_DIMMER_ONE_KEY, KNX_DIMMER_FOUR_KEY) ->
  in_range lo hi (type_of d) = false.
Proof. intros -> [[= -> ->]|[[= -> ->]|[= -> ->]]]; by destruct f. Qed.

(** Each of the seven functions passes over the devices that are not its own. *)
Definition others (f : family) (w : KnxWriteType_t) (d : KnxDev) : Prop :=
  type_of d = fam_type f \/ kw_devId w <> devId (kb_element (base_of d)).

Lemma pass_by (test : bool) (w : KnxWriteType_t) d ret s (m : io (kst M) (bool * Z)) :
  test = false \/ kw_devId w <> devId (kb_element (base_of d)) ->
  (if negb test then mret (false, ret) else
   if negb (kw_devId w =? devId (kb_element (base_of d))) then mret (false, ret) else m) s = Ran (false, ret) s.
Proof.
  intros Ht. destruct test; [|done]. destruct (kw_devId w =? _) eqn:E; bprop; [|done]. by destruct Ht.
Qed.

Lemma handlers_pass f w s k g :
  (forall j d, devs s !! j = Some (Some d) -> others f w d) ->
  write_handlers w !! k = Some g -> k <> fam_turn f -> g s = Ran (-1) s.
Proof.
  intros Hd Hk Hne. unfold write_handlers in Hk.
  destruct k as [|[|[|[|[|[|[|k]]]]]]]; [..|discriminate Hk].
  all: injection Hk as <-; apply each_dev_idle; intros j d ret Hj; exists false.
  all: specialize (Hd j d Hj).
  1-3: apply climate_pass; destruct Hd as [->|Hd]; [left; intros E; by destruct f|by right].
  4: unfold curtain_dev; apply pass_by; destruct Hd as [->|Hd]; [left; by destruct f|by right].
  all: unfold panel_dev, smart_dev, dim_dev; apply pass_by; destruct Hd as [Hd|Hd]; [left|by right];
    apply (families_differ f d _ _ Hd); tauto.
Qed.

Lemma first_success_only fs k g r s s1 :
  fs !! k = Some g ->
  (forall j g' s', fs !! j = Some g' -> j <> k -> s' = s \/ s' = s1 -> g' s' = Ran (-1) s') ->
  g s = Ran r s1 -> first_success fs s = Ran tt s1.
Proof.
  revert k. induction fs as [|g' fs IH]; intros k Hk Ho Hg; [done|]. cbn [first_success]. unfold mbind, io_bind.
  destruct k as [|k].
  - injection Hk as ->. rewrite Hg. destruct (r =? 0); [done|].
    assert (forall fs', (forall j g' s', fs' !! j = Some g' -> s' = s1 -> g' s' = Ran (-1) s') ->
      first_success fs' s1 = Ran tt s1) as Hrest.
    { clear. induction fs' as [|g fs' IH]; intros Ho; [done|]. cbn [first_success]. unfold mbind, io_bind.
      rewrite (Ho 0%nat g s1 eq_refl eq_refl). cbn. apply IH. intros j g' s' Hj. by apply (Ho (Datatypes.S j)). }
    apply Hrest. intros j g' s' Hj ->. by apply (Ho (Datatypes.S j)); [| |right].
  - rewrite (Ho 0%nat g' s eq_refl ltac:(done) (or_introl eq_refl)). cbn.
    apply (IH k Hk); [|done]. intros j g1 s' Hj Hne. apply (Ho (Datatypes.S j)); [done|congruence].
Qed.

(** The command [w] is for the point [p] in [slot] of the device [n], and the
    plugin gives it the value [v]. *)
Record command (f : family) (w : KnxWriteType_t) (n : nat) (l : list (option KnxDev)) (b : KnxBase_t)
    (objs : list (option KnxObj_t)) (slot : nat) (sw : bool) (p : KnxObj_t) (v : Z) : Prop := {
  cm_dev : l !! n = Some (Some (fam_dev f b objs));
  cm_type : primaryType (kb_element b) = fam_type f;
  cm_only : only_for w n l;
  cm_point : find_cmd objs (fam_cmds f) (dpid (kw_obj w)) = Some (slot, sw, p);
  cm_plugin : exists i ctl, kb_pIf b = Some i /\ control i = Some ctl /\
    ctl (Some (kw_obj w)) (Some p) = Done (0, Some (put_value v p));
  cm_value : 0 <= v < 65536;
  cm_group : readgaddr (k_addr p) <> 0xff
}.

(** The state after the function of the family. *)
Definition commanded (f : family) (w : KnxWriteType_t) (n : nat) (b : KnxBase_t) (objs : list (option KnxObj_t))
    (slot : nat) (sw : bool) (p : KnxObj_t) (v : Z) s : kst M :=
  let act := side_active (modbus s) in
  K (<[n := Some (fam_dev f b (<[slot := Some (put_value v p)]> objs))]> (devs s))
    (sent_rest (eib s)) (told_rest b act (cloud s)) (bound s)
    (klog s ++ told b (kw_obj w) act ++ sent_log (eib s) (readgaddr (k_addr p)) (cmd_bytes sw v))
    (wq s) (hq s) (kheap s) (junk s) (modbus s).

Lemma base_of_fam f b objs : base_of (fam_dev f b objs) = b.
Proof. by destruct f. Qed.
Lemma objs_of_fam f b objs : objs_of (fam_type f) (fam_dev f b objs) = Some objs.
Proof. by destruct f. Qed.
Lemma set_objs_fam f b objs o : set_objs o (fam_dev f b objs) = fam_dev f b o.
Proof. by destruct f. Qed.

Lemma alter_some (g : KnxDev -> KnxDev) n d (l : list (option KnxDev)) :
  l !! n = Some (Some d) -> alter (fmap g) n l = <[n := Some (g d)]> l.
Proof. intros Hn. rewrite list_insert_alter. apply list_alter_ext; [|done]. intros x Hx. by rewrite Hn in Hx; simplify_eq. Qed.

Section Command.
Context (f : family) (w : KnxWriteType_t) (n : nat) (b : KnxBase_t) (objs : list (option KnxObj_t)).
Context (slot : nat) (sw : bool) (p : KnxObj_t) (v : Z).

Lemma command_others l d j :
  command f w n l b objs slot sw p v -> l !! j = Some (Some d) -> others f w d.
Proof.
  intros [Hn Ht Ho _ _ _ _] Hj. destruct (decide (j = n)) as [->|Hne].
  - left. rewrite Hn in Hj. injection Hj as <-. unfold type_of. by rewrite base_of_fam.
  - right. intros E. by apply Hne, (Ho j d).
Qed.

Lemma commanded_others s d j :
  command f w n (devs s) b objs slot sw p v -> devs (commanded f w n b objs slot sw p v s) !! j = Some (Some d) ->
  others f w d.
Proof.
  intros Hc Hj. cbn in Hj. destruct (decide (j = n)) as [->|Hne].
  - rewrite list_lookup_insert_eq in Hj by (eapply lookup_lt_Some, cm_dev, Hc). injection Hj as <-. left.
    unfold type_of. rewrite base_of_fam. apply (cm_type _ _ _ _ _ _ _ _ _ _ Hc).
  - rewrite list_lookup_insert_ne in Hj by done. by eapply command_others.
Qed.

Lemma climate_dev_run s ret :
  command f w n (devs s) b objs slot sw p v ->
  climate_dev (fam_type f) (fam_cmds f) w n (fam_dev f b objs) ret s =
  Ran (sent_ret (eib s) (cmd_bytes sw v) (told_ret b (side_active (modbus s)) (cloud s) ret))
    (commanded f w n b objs slot sw p v s).
Proof.
  intros [Hn Ht Ho Hp (i & ctl & Hi & Hctl & Hv) Hr Hg]. unfold climate_dev, type_of.
  rewrite base_of_fam, objs_of_fam, Ht, Z.eqb_refl, Hi, Hctl, Hp. cbn [negb].
  rewrite (proj2 (Z.eqb_eq _ _)); cbn [negb].
  2: { rewrite (proj2 (Ho n _ Hn) eq_refl). by rewrite base_of_fam. }
  rewrite (control_point_run _ _ _ _ v Hr Hv). cbn [of_outcome fst snd put_value k_addr].
  unfold mbind, io_bind, upd_dev, of_outcome. cbn [fst snd].
  rewrite (proj2 (Z.eqb_neq _ _)) by done. rewrite report_cmd_run, send_to_run. unfold commanded. cbn.
  rewrite (alter_some _ _ _ _ Hn), set_objs_fam, <- app_assoc. done.
Qed.

Lemma ctrl_run s :
  command f w n (devs s) b objs slot sw p v ->
  climate_ctrl (fam_type f) (fam_cmds f) (Some w) s =
  Ran (sent_ret (eib s) (cmd_bytes sw v) (told_ret b (side_active (modbus s)) (cloud s) (-1))).2
    (commanded f w n b objs slot sw p v s).
Proof.
  intros Hc. unfold climate_ctrl. eapply each_dev_acts; [apply Hc| |rewrite climate_dev_run by done; by rewrite (surjective_pairing (sent_ret _ _ _))|].
  - intros j d Hj Hd. apply climate_pass. right. intros E. apply (cm_only _ _ _ _ _ _ _ _ _ _ Hc j d Hd) in E. lia.
  - intros j d Hj Hd. exists false. apply climate_pass. right. intros E.
    apply (cm_only _ _ _ _ _ _ _ _ _ _ Hc j d Hd) in E. lia.
Qed.

Lemma write_turn_run l s :
  wq s = w :: l -> command f w n (devs s) b objs slot sw p v ->
  write_turn s = Ran tt (with_heap (Heap (plan (kheap s)) (live (kheap s) - 2))
    (with_wq l (commanded f w n b objs slot sw p v s))).
Proof.
  intros Hq Hc. unfold write_turn. rewrite Hq.
  set (s1 := with_heap (Heap (plan (kheap s)) (live (kheap s) - 1)) (with_wq l s)).
  assert (first_success (write_handlers w) s1 = Ran tt (commanded f w n b objs slot sw p v s1)) as Hf.
  { eapply (first_success_only _ (fam_turn f) (climate_ctrl (fam_type f) (fam_cmds f) (Some w))).
    - by destruct f.
    - intros j g s' Hj Hne Hs'. eapply (handlers_pass f w s' j g); [|done|done]. intros j' d Hd.
      destruct Hs' as [->| ->]; [by eapply command_others|by eapply (commanded_others s1)].
    - by apply (ctrl_run s1). }
  change ((_ ← on_heap free; _ ← first_success (write_handlers w); on_heap free) (with_wq l s) =
    Ran tt (with_heap (Heap (plan (kheap s)) (live (kheap s) - 2)) (with_wq l (commanded f w n b objs slot sw p v s)))).
  unfold mbind, io_bind. change (on_heap free (with_wq l s)) with (@Ran (kst M) unit tt s1). cbv iota beta.
  rewrite Hf. unfold on_heap. cbn. unfold commanded, s1, with_heap, with_wq. cbn. do 3 f_equal. lia.
Qed.
End Command.

(** ** The monitor thread *)

(** No point of the device is on the group of the telegram. *)
Definition deaf (pData : KnxDataType_t) (d : KnxDev) : Prop :=
  let out a := same_group a pData = false in
  match d with
  | KnxAcd_t _ o => find_status o acd_points (groupAddr pData) = None
  | KnxVent_t _ o => find_status o vent_points (groupAddr pData) = None
  | KnxHeat_t _ o => find_status o heat_points (groupAddr pData) = None
  | KnxPanel_t _ keys => Forall (fun k => out (kp_pFeedback k)) keys
  | KnxSmartPanel_t _ chl => Forall (fun c => out (kp_pFeedback (sp_key c))) chl
  | KnxDimmer_t _ chl => Forall (fun c => out (kp_pFeedback (dm_bright c)) /\ out (kp_pFeedback (dm_key c))) chl
  | KnxCurtain_t _ x y z => Forall (opt_ok (fun k => out (kp_pCtrl k))) [x; y; z]
  end.

Definition kind (d : KnxDev) : nat :=
  match d with
  | KnxAcd_t _ _ => 0 | KnxVent_t _ _ => 1 | KnxHeat_t _ _ => 2 | KnxPanel_t _ _ => 3 | KnxSmartPanel_t _ _ => 4
  | KnxDimmer_t _ _ => 5 | KnxCurtain_t _ _ _ _ => 6
  end.

Definition report_bodies (pData : KnxDataType_t) (ts : Z) : list (nat -> KnxDev -> Z -> io (kst M) (bool * Z)) :=
  [acd_dev pData ts; vent_dev pData ts; heat_dev pData ts; panel_report_dev pData ts; smart_report_dev pData ts;
   dim_report_dev pData; curtain_report_dev pData].

(** The traversal ends, or goes on, at a master the cloud does not know. *)
Definition unknown s (d : KnxDev) : bool :=
  bMaster (kb_element (base_of d)) && negb (bound s (e_pPrimaryKey (kb_element (base_of d)))).

Lemma unbound_run d s : unbound (base_of d) s = Ran (unknown s d) s.
Proof. unfold unbound, unknown. by destruct (bMaster _). Qed.

Lemma loop_deaf {A} (body : nat -> A -> Z -> io (kst M) (bool * Z)) l ret s :
  Forall (fun a => forall j ret, body j a ret s = Ran (false, ret) s) l -> loop body 0 l ret s = Ran ret s.
Proof.
  intros Hl. apply loop_idle. intros j a Hj. exists false. apply (Forall_lookup_1 _ _ _ _ Hl Hj).
Qed.

(** Which function is for a device is told by its type. *)
Lemma kind_type d : shape_ok d ->
  (type_of d =? KNX_DEVICE_AIRCONDITION) = (kind d =? 0)%nat /\ (type_of d =? KNX_DEVICE_VENTILATION) = (kind d =? 1)%nat /\
  (type_of d =? KNX_DEVICE_FLOORHEATING) = (kind d =? 2)%nat /\
  in_range KNX_PANEL_ONE_KEY KNX_PANEL_EIGHT_KEY (type_of d) = (kind d =? 3)%nat /\
  in_range KNX_MISC_PANEL_ONE_KEY KNX_MISC_PANEL_FOUR_KEY (type_of d) = (kind d =? 4)%nat /\
  in_range KNX_DIMMER_ONE_KEY KNX_DIMMER_FOUR_KEY (type_of d) = (kind d =? 5)%nat /\
  (type_of d =? KNX_DEVICE_CURTAIN) = (kind d =? 6)%nat.
Proof.
  destruct d; cbn [shape_ok kind Nat.eqb]; intros E; try (rewrite E; done).
  all: unfold in_range, KNX_PANEL_ONE_KEY, KNX_PANEL_EIGHT_KEY, KNX_MISC_PANEL_ONE_KEY, KNX_MISC_PANEL_FOUR_KEY,
    KNX_DIMMER_ONE_KEY, KNX_DIMMER_FOUR_KEY, KNX_DEVICE_AIRCONDITION, KNX_DEVICE_VENTILATION,
    KNX_DEVICE_FLOORHEATING, KNX_DEVICE_CURTAIN in *; bprop; split_and!;
    repeat match goal with
    | |- (_ =? _) = _ => apply Z.eqb_neq; lia
    | |- (_ <=? _) && (_ <=? _) = true => apply andb_true_iff; split; apply Z.leb_le; lia
    | |- (_ <=? _) && (_ <=? _) = false => apply andb_false_iff; rewrite !Z.leb_gt; lia
    end.
Qed.

(** A round of a report function that changes nothing; a known device does not
    end the loop. *)
Definition still (r : res (kst M) (bool * Z)) (d : KnxDev) (ret : Z) s : Prop :=
  exists stop, r = Ran (stop, ret) s /\ (unknown s d = false -> stop = false).

Lemma still_pass d ret s : still (Ran (false, ret) s) d ret s.
Proof. by exists false. Qed.

Lemma still_unbound d ret s (stop : bool) (m : io (kst M) (bool * Z)) :
  still (m s) d ret s ->
  still ((u ← unbound (base_of d); if (u : bool) then mret (stop, ret) else m) s) d ret s.
Proof.
  intros Hm. unfold mbind, io_bind. rewrite unbound_run. destruct (unknown s d) eqn:E; [|done].
  exists stop. split; [done|]. by rewrite E.
Qed.

Lemma on_status_deaf i d objs pts strict route pData ts ret s :
  find_status objs pts (groupAddr pData) = None ->
  on_status (M := M) i d objs pts strict route pData ts ret s = Ran (false, ret) s.
Proof. intros Hf. unfold on_status. by rewrite Hf. Qed.

Lemma curtain_point_deaf k pData wh v o :
  opt_ok (fun k => same_group (kp_pCtrl k) pData = false) k -> curtain_point k pData wh v o = (k, o).
Proof. destruct k as [k|]; [|done]. cbn. by intros ->. Qed.

Lemma upd_dev_same i d s :
  devs s !! i = Some (Some d) -> upd_dev i (fun _ => d) s = Ran tt s.
Proof. intros Hi. unfold upd_dev. rewrite (alter_some _ _ _ _ Hi), list_insert_id by done. by destruct s. Qed.

Lemma dim_chl_deaf i b pData j c ret s :
  same_group (kp_pFeedback (dm_bright c)) pData = false -> same_group (kp_pFeedback (dm_key c)) pData = false ->
  dim_chl_report (M := M) i b pData j c ret s = Ran (false, ret) s.
Proof.
  intros H1 H2. unfold dim_chl_report, dim_bright_report, dim_key_report, mbind, io_bind. by rewrite H1; cbn; rewrite H2.
Qed.

Lemma report_idle pData ts k g i d ret s :
  report_bodies pData ts !! k = Some g -> shape_ok d -> (kind d = k -> deaf pData d) ->
  devs s !! i = Some (Some d) -> still (g i d ret s) d ret s.
Proof.
  intros Hk Hs Hd Hi. destruct (kind_type d Hs) as (T1 & T2 & T3 & T4 & T5 & T6 & T7).
  destruct k as [|[|[|[|[|[|[|k]]]]]]]; [..|discriminate Hk]; injection Hk as <-.
  - unfold acd_dev. rewrite T1. destruct (kind d =? 0)%nat eqn:E; [|apply still_pass]. apply Nat.eqb_eq in E. specialize (Hd E).
    destruct d; try done. apply (still_unbound (KnxAcd_t base objs)). cbn. rewrite on_status_deaf by done. apply still_pass.
  - unfold vent_dev. rewrite T2. destruct (kind d =? 1)%nat eqn:E; [|apply still_pass]. apply Nat.eqb_eq in E. specialize (Hd E).
    destruct d; try done. apply (still_unbound (KnxVent_t base objs)). cbn. rewrite on_status_deaf by done. apply still_pass.
  - unfold heat_dev. rewrite T3. destruct (kind d =? 2)%nat eqn:E; [|apply still_pass]. apply Nat.eqb_eq in E. specialize (Hd E).
    destruct d; try done. apply (still_unbound (KnxHeat_t base objs)). destruct (_ && _); [apply still_pass|].
    cbn. rewrite on_status_deaf by done. apply still_pass.
  - unfold panel_report_dev. apply still_unbound. rewrite T4. destruct (kind d =? 3)%nat eqn:E; [|apply still_pass].
    apply Nat.eqb_eq in E. specialize (Hd E). destruct d; try done. cbn [negb]. unfold mbind, io_bind.
    rewrite loop_deaf; [apply still_pass|]. eapply Forall_impl; [exact Hd|]. intros c Hc j ret'.
    unfold panel_key_report. by rewrite Hc.
  - unfold smart_report_dev. apply still_unbound. rewrite T5. destruct (kind d =? 4)%nat eqn:E; [|apply still_pass].
    apply Nat.eqb_eq in E. specialize (Hd E). destruct d; try done. cbn [negb]. unfold mbind, io_bind.
    rewrite loop_deaf; [apply still_pass|]. eapply Forall_impl; [exact Hd|]. intros c Hc j ret'.
    unfold smart_chl_report. by rewrite Hc.
  - unfold dim_report_dev. apply still_unbound. rewrite T6. destruct (kind d =? 5)%nat eqn:E; [|apply still_pass].
    apply Nat.eqb_eq in E. specialize (Hd E). destruct d; try done. cbn [negb]. unfold mbind, io_bind.
    rewrite loop_deaf; [apply still_pass|]. eapply Forall_impl; [exact Hd|]. intros c [Hc Hc'] j ret'.
    by apply dim_chl_deaf.
  - unfold curtain_report_dev. rewrite T7. destruct (kind d =? 6)%nat eqn:E; [|apply still_pass].
    apply Nat.eqb_eq in E. specialize (Hd E). destruct d; try done. cbn [negb].
    cbn [deaf] in Hd. apply Forall_cons in Hd as [Hx Hd]. apply Forall_cons in Hd as [Hy Hd].
    apply Forall_cons in Hd as [Hz _].
    rewrite !curtain_point_deaf by done. unfold mbind, io_bind.
    rewrite upd_dev_same by done. apply still_pass.
Qed.

(** A telegram for the point [q] of the device [n], which the plugin turns into
    the object [o]. *)
Record heard (f : family) (pData : KnxDataType_t) (ts : Z) (n : nat) s (b : KnxBase_t)
    (objs : list (option KnxObj_t)) (st : status_point) (q : KnxObj_t) (o : ty_obj_dp_s) : Prop := {
  hd_dev : devs s !! n = Some (Some (fam_dev f b objs));
  hd_type : primaryType (kb_element b) = fam_type f;
  hd_master : bMaster (kb_element b) = true;
  hd_bound : bound s (e_pPrimaryKey (kb_element b)) = true;
  hd_point : find_status objs (fam_points f) (groupAddr pData) = Some (st, q);
  hd_plugin : exists i rep, kb_pIf b = Some i /\ report i = Some rep /\
    translate rep (stamp_value st (kd_value pData) ts q) (raw_dp st (stamp_value st (kd_value pData) ts q) (kd_value pData)) = Done o;
  hd_accepted : bRejected pData = false;
  hd_others : forall j d, j <> n -> devs s !! j = Some (Some d) -> shape_ok d /\ deaf pData d;
  hd_before : forall j d, (j < n)%nat -> devs s !! j = Some (Some d) -> unknown s d = false
}.

(** The state after the report. *)
Definition announced (b : KnxBase_t) (o : ty_obj_dp_s) (act : bool) : list kev :=
  if act then [KReport (e_pPrimaryKey (kb_element b)) o; KFresh (e_pPrimaryKey (kb_element b))] else [].
Definition reported (f : family) (pData : KnxDataType_t) (ts : Z) (n : nat) (b : KnxBase_t)
    (objs : list (option KnxObj_t)) (st : status_point) (q : KnxObj_t) (o : ty_obj_dp_s) s : kst M :=
  let act := side_active (modbus s) in
  K (<[n := Some (fam_dev f b (<[sp_slot st := Some (stamp_value st (kd_value pData) ts q)]> objs))]> (devs s))
    (eib s) (if act then tl (tl (cloud s)) else cloud s) (bound s) (klog s ++ announced b o act)
    (wq s) (hq s) (kheap s) (junk s) (modbus s).

Lemma to_cloud_run b o ret s :
  exists ret', to_cloud b o ret s =
    Ran ret' (with_cloud (if side_active (modbus s) then tl (tl (cloud s)) else cloud s)
      (with_log (klog s ++ announced b o (side_active (modbus s))) s)).
Proof.
  unfold to_cloud, active, report_ret, report_dp, hb_fresh, cloud_call, note, announced, mbind, io_bind, mret, io_ret. cbn.
  destruct (side_active (modbus s)); cbn.
  - eexists. rewrite <- app_assoc. done.
  - exists ret. rewrite app_nil_r. by destruct s.
Qed.

Section Heard.
Context (f : family) (pData : KnxDataType_t) (ts : Z) (n : nat) (b : KnxBase_t) (objs : list (option KnxObj_t)).
Context (st : status_point) (q : KnxObj_t) (o : ty_obj_dp_s).

Lemma on_status_run strict route s ret :
  heard f pData ts n s b objs st q o ->
  (forall flag ret s, route b flag o ret s = to_cloud b o ret s) ->
  exists ret', on_status n (fam_dev f b objs) objs (fam_points f) strict route pData ts ret s =
    Ran (false, ret') (reported f pData ts n b objs st q o s).
Proof.
  intros [Hn Ht Hm Hb Hp (i & rep & Hi & Hrep & Ho) _ _ _] Hr. unfold on_status.
  rewrite base_of_fam, Hp, Hi, Hrep, Ho. unfold mbind, io_bind, upd_dev, of_outcome. rewrite Hr.
  rewrite (alter_some _ _ _ _ Hn), set_objs_fam.
  match goal with |- context [to_cloud b o ret ?s1] => destruct (to_cloud_run b o ret s1) as [ret' E] end.
  rewrite E. by exists ret'.
Qed.

Lemma report_dev_run s ret :
  heard f pData ts n s b objs st q o ->
  exists g ret', report_bodies pData ts !! fam_turn f = Some g /\
    g n (fam_dev f b objs) ret s = Ran (false, ret') (reported f pData ts n b objs st q o s).
Proof.
  intros Hh. pose proof (fun strict route => on_status_run strict route s ret Hh) as Hrun.
  destruct Hh as [Hn Ht Hm Hb _ _ Hr _ _].
  assert (unbound (base_of (fam_dev f b objs)) s = Ran false s) as Hu.
  { rewrite unbound_run. unfold unknown. rewrite base_of_fam, Hm, Hb. done. }
  assert (type_of (fam_dev f b objs) =? fam_type f = true) as Hty.
  { unfold type_of. rewrite base_of_fam, Ht. apply Z.eqb_refl. }
  destruct f.
  - destruct (Hrun false acd_route) as [ret' E].
    { intros flag r s'. unfold acd_route. by rewrite Hm. }
    exists (acd_dev pData ts), ret'. split; [done|]. unfold acd_dev. cbn [fam_type] in Hty. rewrite Hty. cbn [negb].
    unfold mbind, io_bind. rewrite Hu. exact E.
  - destruct (Hrun false vent_route) as [ret' E].
    { intros flag r s'. unfold vent_route. by rewrite Hm. }
    exists (vent_dev pData ts), ret'. split; [done|]. unfold vent_dev. cbn [fam_type] in Hty. rewrite Hty. cbn [negb].
    unfold mbind, io_bind. rewrite Hu. exact E.
  - destruct (Hrun true heat_route) as [ret' E].
    { intros flag r s'. unfold heat_route. by rewrite Hm. }
    exists (heat_dev pData ts), ret'. split; [done|]. unfold heat_dev. cbn [fam_type] in Hty. rewrite Hty. cbn [negb].
    unfold mbind, io_bind. rewrite Hu, Hr. exact E.
Qed.

Lemma reported_lookup s j :
  j <> n -> devs (reported f pData ts n b objs st q o s) !! j = devs s !! j.
Proof. intros Hj. cbn. by rewrite list_lookup_insert_ne by done. Qed.

(** The devices on which the other functions work, before and after. *)
Lemma heard_idle s s' k g :
  heard f pData ts n s b objs st q o -> s' = s \/ s' = reported f pData ts n b objs st q o s ->
  report_bodies pData ts !! k = Some g -> k <> fam_turn f -> each_dev g s' = Ran (-1) s'.
Proof.
  intros Hh Hs' Hk Hne. apply each_dev_idle. intros j d ret Hj.
  assert (shape_ok d /\ (kind d = k -> deaf pData d)) as [Hsh Hd].
  { destruct (decide (j = n)) as [->|Hj'].
    - assert (exists o', d = fam_dev f b o') as [o' ->].
      { destruct Hs' as [->| ->].
        - rewrite (hd_dev _ _ _ _ _ _ _ _ _ _ Hh) in Hj. injection Hj as <-. eauto.
        - cbn in Hj. rewrite list_lookup_insert_eq in Hj by (eapply lookup_lt_Some, hd_dev, Hh). injection Hj as <-. eauto. }
      pose proof (hd_type _ _ _ _ _ _ _ _ _ _ Hh). split; [by destruct f|]. intros <-. by destruct f.
    - assert (devs s !! j = Some (Some d)) as Hj2 by (destruct Hs' as [->| ->]; [done|by rewrite <- (reported_lookup s j)]).
      destruct (hd_others _ _ _ _ _ _ _ _ _ _ Hh j d Hj' Hj2). by split. }
  destruct (report_idle pData ts k g j d ret s' Hk Hsh Hd Hj) as (stop & E & _). by exists stop.
Qed.

Lemma heard_run s :
  heard f pData ts n s b objs st q o ->
  exists g ret, report_bodies pData ts !! fam_turn f = Some g /\
    each_dev g s = Ran ret (reported f pData ts n b objs st q o s).
Proof.
  intros Hh. destruct (report_dev_run s (-1) Hh) as (g & ret & Hg & E). exists g, ret. split; [done|].
  eapply each_dev_acts; [apply Hh| |exact E|].
  - intros j d Hj Hd. destruct (hd_others _ _ _ _ _ _ _ _ _ _ Hh j d ltac:(lia) Hd) as [Hsh Hdf].
    destruct (report_idle pData ts _ g j d (-1) s Hg Hsh (fun _ => Hdf) Hd) as (stop & -> & Hstop).
    rewrite Hstop; [done|]. by apply (hd_before _ _ _ _ _ _ _ _ _ _ Hh j).
  - intros j d Hj Hd. destruct (hd_others _ _ _ _ _ _ _ _ _ _ Hh j d ltac:(lia) Hd) as [Hsh Hdf].
    destruct (report_idle pData ts _ g j d ret (reported f pData ts n b objs st q o s) Hg Hsh (fun _ => Hdf)) as (stop & -> & _).
    + by rewrite reported_lookup by lia.
    + by exists stop.
Qed.

Lemma monitor_packet_run s :
  heard f pData ts n s b objs st q o ->
  monitor_packet pData ts s =
  Ran tt (with_heap (Heap (plan (kheap s)) (live (kheap s) - 1)) (reported f pData ts n b objs st q o s)).
Proof.
  intros Hh. destruct (heard_run s Hh) as (g & ret & Hg & E).
  assert (forall k g s', s' = s \/ s' = reported f pData ts n b objs st q o s ->
    report_bodies pData ts !! k = Some g -> k <> fam_turn f -> each_dev g s' = Ran (-1) s') as Hi
    by (intros k g' s' Hs'; by apply (heard_idle s s' k g' Hh)).
  pose proof (fun k g => Hi k g s (or_introl eq_refl)) as H1.
  pose proof (fun k g => Hi k g _ (or_intror eq_refl)) as H2. clear Hi.
  unfold monitor_packet, Knx_AcdReport, Knx_VentReport, Knx_HeatReport, Knx_PanelReport, Knx_SmartPanelReport,
    Knx_DimmerReport, Knx_CurtainReport, mbind, io_bind.
  destruct f; cbn [fam_turn] in *; injection Hg as <-.
  - rewrite E. rewrite (H2 1%nat), (H2 2%nat), (H2 3%nat), (H2 4%nat), (H2 5%nat), (H2 6%nat) by done. done.
  - rewrite (H1 0%nat) by done. rewrite E.
    rewrite (H2 2%nat), (H2 3%nat), (H2 4%nat), (H2 5%nat), (H2 6%nat) by done. done.
  - rewrite (H1 0%nat), (H1 1%nat) by done. rewrite E.
    rewrite (H2 3%nat), (H2 4%nat), (H2 5%nat), (H2 6%nat) by done. done.
Qed.
End Heard.

(** ** From the command to the report *)

(** The payload of a group write, as the device puts it into its telegram. *)
Definition carried (buf : list Z) : option service :=
  match buf with
  | [_; c] => Some (WriteSmall (Z.land c 0x3f))
  | [_; _; v] => Some (Write1 v)
  | [_; _; h; l] => Some (Write h l)
  | _ => None
  end.

Lemma carried_cmd sw v :
  0 <= v < 65536 -> (sw = true -> v < 64) ->
  exists sv, carried (cmd_bytes sw v) = Some sv /\ service_ok sv /\ reads sv = v /\ sv <> Read.
Proof.
  intros Hv Hs. destruct sw.
  - specialize (Hs eq_refl). exists (WriteSmall v). split; [|split; [cbn; unfold is_u8; lia|done]].
    cbn. do 2 f_equal. assert (forall x, 0 <= x < 64 -> Z.land x 63 = x) as H6.
    { intros x Hx. change 63 with (Z.ones 6). rewrite Z.land_ones by lia. apply Z.mod_small. lia. }
    rewrite (H6 v), cmd_byte by lia. pose proof (range_all (fun v => Z.land (0x80 + v) 63 =? v) 0 63 ltac:(by vm_compute) v ltac:(lia)) as E.
    by apply Z.eqb_eq in E.
  - pose proof (Z.div_mod v 256 ltac:(lia)) as E. pose proof (Z.mod_pos_bound v 256 ltac:(lia)).
    assert (0 <= v / 256 < 256) by (split; [apply Z.div_pos|apply Z.div_lt_upper_bound]; lia).
    unfold cmd_bytes, readBlock. destruct (v / 256 =? 0) eqn:E0; bprop.
    + exists (Write1 (v mod 256)). split; [done|]. split; [cbn [service_ok]; unfold is_u8; lia|]. split; [cbn [reads]; lia|done].
    + exists (Write (v / 256) (v mod 256)). split; [done|]. split; [cbn [service_ok]; unfold is_u8; lia|]. split; [cbn [reads]; lia|done].
Qed.

(** The slots of the commands are not those of the states. *)
Lemma find_status_command f objs slot sw p p' m grp :
  find_cmd objs (fam_cmds f) m = Some (slot, sw, p) ->
  find_status (<[slot := Some p']> objs) (fam_points f) grp = find_status objs (fam_points f) grp.
Proof.
  intros Hc. assert (Forall (fun st => sp_slot st <> slot) (fam_points f)) as Hd.
  { assert (In slot (map fst (fam_cmds f))) as Hin.
    { revert Hc. induction (fam_cmds f) as [|[i b] l IH]; cbn; [done|].
      destruct (obj_at objs i) as [q|]; [|by auto]. destruct (k_cloudPoint q =? m); [|by auto].
      intros [= <- <- <-]. by left. }
    destruct f; cbn in Hin; repeat destruct Hin as [<-|Hin]; repeat constructor; done. }
  induction (fam_points f) as [|st l IH]; [done|]. apply Forall_cons in Hd as [Hne Hd]. cbn [find_status].
  assert (obj_at (<[slot := Some p']> objs) (sp_slot st) = obj_at objs (sp_slot st)) as ->
    by (unfold obj_at; by rewrite list_lookup_insert_ne).
  destruct (obj_at objs (sp_slot st)); [|by apply IH]. destruct (_ =? 0); [done|by apply IH].
Qed.

(** The device [n] has the plugin [i], the point [p] of the row [r] for the
    command and the point [q] for the state, on the group [grp] no other device
    listens to. *)
Record wired (f : family) (w : KnxWriteType_t) (n : nat) s (b : KnxBase_t) (objs : list (option KnxObj_t))
    (i : KnxIf) (r : row) (slot : nat) (sw : bool) (p : KnxObj_t) (st : status_point) (q : KnxObj_t) (grp : string) :
    Prop := {
  wd_dev : devs s !! n = Some (Some (fam_dev f b objs));
  wd_type : primaryType (kb_element b) = fam_type f;
  wd_only : only_for w n (devs s);
  wd_master : bMaster (kb_element b) = true;
  wd_bound : bound s (e_pPrimaryKey (kb_element b)) = true;
  wd_plugin : kb_pIf b = Some i;
  wd_cmd : find_cmd objs (fam_cmds f) (dpid (kw_obj w)) = Some (slot, sw, p);
  wd_cmd_point : k_localPoint p = r_cmd r;
  wd_switch : sw = true -> r_dom r = DBool;
  wd_group : readgaddr (k_addr p) <> 0xff;
  wd_status : find_status objs (fam_points f) grp = Some (st, q);
  wd_status_point : k_localPoint q = r_status r;
  wd_others : forall j d, j <> n -> devs s !! j = Some (Some d) ->
    shape_ok d /\ forall pData, groupAddr pData = grp -> deaf pData d;
  wd_before : forall j d, (j < n)%nat -> devs s !! j = Some (Some d) -> unknown s d = false
}.

(** ** Properties *)

(** A turn of the writer thread with a command for one climate device.  The
    plugin's value is stored in the point, an actuator's command is reported to
    the cloud, and on a working bus one group write with the value goes to the
    group of the point, in a connection that is closed again; the six functions of
    the other families do nothing, although none of them is skipped. *)
Theorem knx_command_sent f w l s n b objs slot sw p v :
  wq s = w :: l -> command f w n (devs s) b objs slot sw p v ->
  runs write_turn (fun _ s' =>
    klog s' = klog s ++ told b (kw_obj w) (side_active (modbus s)) ++
      sent_log (eib s) (readgaddr (k_addr p)) (cmd_bytes sw v) /\
    devs s' = <[n := Some (fam_dev f b (<[slot := Some (put_value v p)]> objs))]> (devs s) /\
    wq s' = l /\ hq s' = hq s /\ live (kheap s') = live (kheap s) - 2 /\ modbus s' = modbus s) s.
Proof.
  intros Hq Hc. apply runs_done. eexists _, _. split; [by eapply write_turn_run|]. done.
Qed.

(** A command that never reaches the bus is reported as done.  When no
    connection to the bus can be opened, the function of the family returns 0 for
    an actuator, after telling the cloud the commanded value, and sends nothing. *)
Theorem knx_command_lost f w s n b objs slot sw p v :
  command f w n (devs s) b objs slot sw p v ->
  kb_attri b = DEVICE_ATTRI_ACTUATOR -> side_active (modbus s) = true -> hd 0 (cloud s) = 0 -> hd 1 (eib s) = 0 ->
  runs (climate_ctrl (fam_type f) (fam_cmds f) (Some w)) (fun ret s' =>
    ret = 0 /\
    klog s' = klog s ++ [KReport (e_pPrimaryKey (kb_element b)) (kw_obj w); KFresh (e_pPrimaryKey (kb_element b))]) s.
Proof.
  intros Hc Ha Hact Hcl He. apply runs_done. eexists _, _. split; [by eapply ctrl_run|].
  unfold commanded, sent_ret, sent_log, told_ret, told. cbn. rewrite Ha, Hact, Hcl, He. cbn. done.
Qed.

(** C10: a command comes back as the state of the device.  For each of the 11
    plugins and every value the product allows: after the turn of the writer thread
    the device answers on its status group with the payload it was sent; the
    telegram is parsed, and the turn of the monitor thread reports to the cloud
    exactly the commanded value, for the status point, with the type of the data
    point, once. *)
Theorem knx_command_report f w l s n b objs i rows r slot sw p st q v ha hb hc x y z ts :
  In (i, rows) knx_plugins -> In r rows -> in_dom (r_dom r) v ->
  wq s = w :: l -> dpvalue (kw_obj w) = v -> eib s = [] -> side_active (modbus s) = true ->
  wired f w n s b objs i r slot sw p st q (group_text x y z) ->
  0 <= ha <= 15 -> 0 <= hb <= 15 -> 0 <= hc <= 255 -> 0 <= x <= 31 -> 0 <= y <= 7 -> 0 <= z <= 255 ->
  ~ 0x1001 <= hw_number ha hb hc <= 0x1008 ->
  runs write_turn (fun _ s1 => exists buf sv d,
    klog s1 = klog s ++ told b (kw_obj w) true ++ [EibOpen; Apdu (readgaddr (k_addr p)) buf; EibClose] /\
    carried buf = Some sv /\
    KNX_ParsePacket (Some (telegram ha hb hc x y z sv)) KnxData0 = Done (0, d) /\
    runs (monitor_packet d ts) (fun _ s2 =>
      klog s2 = klog s1 ++ [KReport (e_pPrimaryKey (kb_element b)) (Dp (u8 (k_cloudPoint q)) (r_type r) v 0);
        KFresh (e_pPrimaryKey (kb_element b))] /\
      live (kheap s2) = live (kheap s) - 3) s1) s.
Proof.
  intros Hi Hr Hv Hq Hov He Hact [W1 W2 W3 W4 W5 W6 W7 W8 W9 W10 W11 W12 W13 W14] Ha Hb Hc Hx Hy Hz Hgw.
  destruct (echo_row i rows r Hi Hr v Hv) as (c & rep & wv & Hctl & Hrep & Hwv & Hsmall & Hcmd & Hst).
  assert (command f w n (devs s) b objs slot sw p wv) as Hcom.
  { split; try done. exists i, c. split; [done|]. split; [done|]. by apply Hcmd. }
  destruct (carried_cmd sw wv Hwv ltac:(intros E; apply Hsmall, W9, E)) as (sv & Hsv & Hok & Hreads & Hnr).
  set (d := KnxData (hw_text ha hb hc) (group_text x y z) (hw_number ha hb hc) false wv (service_cmd sv) 0).
  assert (KNX_ParsePacket (Some (telegram ha hb hc x y z sv)) KnxData0 = Done (0, d)) as Hparse.
  { rewrite telegram_run by done. destruct ((0x1001 <=? _) && _) eqn:E; bprop; [lia|]. unfold d. rewrite <- Hreads. by destruct sv. }
  apply runs_done. eexists _, _. split; [by eapply write_turn_run|]. exists (cmd_bytes sw wv), sv, d.
  set (s1 := with_heap _ _).
  assert (klog s1 = klog s ++ told b (kw_obj w) true ++ [EibOpen; Apdu (readgaddr (k_addr p)) (cmd_bytes sw wv); EibClose]) as Hlog.
  { cbn. rewrite Hact. unfold sent_log. rewrite He. cbn.
    destruct (Z.of_nat (length (cmd_bytes sw wv)) =? -1) eqn:E; bprop; [lia|done]. }
  split; [done|]. split; [done|]. split; [done|].
  set (o := Dp (u8 (k_cloudPoint q)) (r_type r) v 0).
  assert (heard f d ts n s1 b (<[slot := Some (put_value wv p)]> objs) st q o) as Hh.
  { split; try done.
    - cbn. by rewrite list_lookup_insert_eq by (eapply lookup_lt_Some, W1).
    - rewrite (find_status_command _ _ _ _ _ _ _ _ W7). done.
    - exists i, rep. split; [done|]. split; [done|]. unfold translate. cbn [kd_value d].
      rewrite (Hst _ (raw_dp st (stamp_value st wv ts q) wv)); [done|done|cbn; by rewrite u16_small|].
      unfold raw_dp. cbn. destruct (sp_raw st); tauto.
    - intros j d' Hj Hd'. cbn in Hd'. rewrite list_lookup_insert_ne in Hd' by done.
      destruct (W13 j d' Hj Hd') as [H1 H2]. split; [done|by apply H2].
    - intros j d' Hj Hd'. cbn in Hd'. rewrite list_lookup_insert_ne in Hd' by lia. by apply (W14 j d'). }
  apply runs_done. eexists _, _. split; [by eapply monitor_packet_run|]. cbn [klog with_heap reported].
  assert (side_active (modbus s1) = true) as -> by exact Hact. split; [done|]. cbn. lia.
Qed.
End Loop.

(** ** Examples *)

Definition k_temp : KnxWriteType_t := KnxWrite "dev.knx.acd.7" 7 (Dp 3 PROP_VALUE 26 0).
Definition k_temp_point : KnxObj_t := KnxObj ACD_TEMP 0 3 "1/2/5" 0.
Definition k_objs : list (option KnxObj_t) := match k_acd with KnxAcd_t _ o => o | _ => [] end.

(** The code of 26 degrees: 0x0D14. *)
Lemma k_command l : l = devs (k_bus []) ->
  command FAcd k_temp 0 l (base_of k_acd) k_objs Acd.pTemp false k_temp_point 0x0D14.
Proof.
  intros ->. split; try done.
  - intros [|[|[|j]]] d Hd; cbn in Hd; try done; injection Hd as <-; cbn; split; done.
  - eexists _, _. split; [reflexivity|]. split; [reflexivity|]. reflexivity.
Qed.

Lemma knx_command_sent_witness :
  runs (write_turn (H := quiet_side)) (fun _ s' =>
    klog s' = [KReport "dev.knx.acd.7" (Dp 3 PROP_VALUE 26 0); KFresh "dev.knx.acd.7"; EibOpen;
      Apdu 0x0a05 [0; 0x80; 0x0D; 0x14]; EibClose]) (k_bus [k_temp]).
Proof.
  eapply runs_mono.
  - refine (knx_command_sent (H := quiet_side) FAcd k_temp [] (k_bus [k_temp]) 0 _ _ _ _ _ _ eq_refl _).
    by apply k_command.
  - intros _ s' [E _]. rewrite E. reflexivity.
Defined.

(** The bus does not answer: the first call of the EIB library fails. *)
Lemma knx_command_lost_witness :
  runs (climate_ctrl (H := quiet_side) KNX_DEVICE_AIRCONDITION acd_cmds (Some k_temp)) (fun ret s' =>
    ret = 0 /\ klog s' = [KReport "dev.knx.acd.7" (Dp 3 PROP_VALUE 26 0); KFresh "dev.knx.acd.7"])
    (with_eib [0] (k_bus [])).
Proof.
  refine (knx_command_lost (H := quiet_side) FAcd k_temp (with_eib [0] (k_bus [])) 0 (base_of k_acd) k_objs
    Acd.pTemp false k_temp_point 0x0D14 _ eq_refl eq_refl eq_refl eq_refl).
  by apply k_command.
Defined.

Lemma knx_command_report_witness :
  runs (write_turn (H := quiet_side)) (fun _ s1 => exists d,
    runs (monitor_packet (H := quiet_side) d 0) (fun _ s2 => exists buf,
      klog s2 = [KReport "dev.knx.acd.7" (Dp 3 PROP_VALUE 26 0); KFresh "dev.knx.acd.7"; EibOpen;
        Apdu 0x0a05 buf; EibClose; KReport "dev.knx.acd.7" (Dp 3 PROP_VALUE 26 0); KFresh "dev.knx.acd.7"]) s1)
    (k_bus [k_temp]).
Proof.
  eapply runs_mono.
  - refine (knx_command_report (H := quiet_side) FAcd k_temp [] (k_bus [k_temp]) 0 (base_of k_acd) k_objs
      Acd_General.KNX_Acd_General (acd_rows 4 4) (Row ACD_TEMP ACD_TEMP_STATUS PROP_VALUE (DTemp 16 32))
      Acd.pTemp false k_temp_point (Status Acd.pTempStatus true false true) (KnxObj ACD_TEMP_STATUS 0 3 "1/2/6" 0)
      26 1 1 5 1 2 6 0 _ _ _ eq_refl eq_refl eq_refl eq_refl _ _ _ _ _ _ _ _);
      try (split; discriminate).
    + by left.
    + by right; left.
    + split; try done.
      * apply (cm_only _ _ _ _ _ _ _ _ _ _ (k_command _ eq_refl)).
      * intros [|[|[|j]]] d Hne Hd; cbn in Hd; try done. injection Hd as <-. split; [done|].
        intros pData Hg. repeat constructor; cbn; unfold same_group; rewrite Hg; reflexivity.
      * intros j d Hj. lia.
    + intros [E1 E2]. by destruct E1.
  - intros _ s1 (buf & sv & d & E1 & _ & _ & Hr). exists d. eapply runs_mono; [exact Hr|].
    intros _ s2 [E2 _]. exists buf. rewrite E2, E1. reflexivity.
Defined.
