(* ===== verification/DioScan.v ===== *)
(** The digital inputs (di_scan of source/main.c): once a second the command of
    each input prints its level; a counter filters the readings, and a change that
    lasts is reported to the cloud. *)

From S2P Require Import Prelude CMem CStr Device PluginApi Dpt9 KnxPlugins KnxDevs KnxCtrl.

Local Open Scope string_scope.
Local Open Scope list_scope.
Local Open Scope Z_scope.

Definition DI_LEVEL_LOW : Z := 0.
Definition DI_LEVEL_HIGH : Z := 1.

(** [di_key] is the primary key of the element, [di_value] a byte. *)
Record DiDev_t := DiDev {
  di_key : string;
  eLevel : Z;
  dataPoint : Z;
  di_value : Z;
  status : Z;
  retryNum : Z;
  retryCnt : Z
}.
Definition set_di_value v d := DiDev (di_key d) (eLevel d) (dataPoint d) v (status d) (retryNum d) (retryCnt d).
Definition set_status x d := DiDev (di_key d) (eLevel d) (dataPoint d) (di_value d) x (retryNum d) (retryCnt d).
Definition set_retryCnt c d := DiDev (di_key d) (eLevel d) (dataPoint d) (di_value d) (status d) (retryNum d) c.

Definition triggered (d : DiDev_t) : bool := eLevel d =? di_value d.

(** One reading after it is stored: the device, and the level to report. *)
Definition di_step (d : DiDev_t) : outcome (DiDev_t * option Z) :=
  if triggered d then
    if retryCnt d <? retryNum d then Done (set_retryCnt (retryNum d) d, None) else
    twice <-! int_of (retryNum d * 2);
    if retryCnt d <? twice then Done (set_retryCnt (retryCnt d + 1) d, None)
    else if negb (status d =? DI_LEVEL_LOW) then Done (set_status DI_LEVEL_LOW d, Some DI_LEVEL_LOW)
    else Done (d, None)
  else
    if retryNum d <? retryCnt d then Done (set_retryCnt (retryNum d) d, None)
    else if negb (retryCnt d =? 0) then
      cnt <-! int_of (retryCnt d - 1); Done (set_retryCnt cnt d, None)
    else if negb (status d =? DI_LEVEL_HIGH) then Done (set_status DI_LEVEL_HIGH d, Some DI_LEVEL_HIGH)
    else Done (d, None).

Section Scan.
Context {M : Type} `{ModbusSide M}.

(** The body of the loop for one input.  [text] is what the command printed, up
    to the end of its first line; a null stream is read. *)
Definition di_one (d : DiDev_t) (text : option string) : io (kst M) DiDev_t :=
  match text with
  | None => fault
  | Some buf =>
      let '(v, erange) := match strtol buf with Some r => r | None => (0, false) end in
      let d := set_di_value (u8 v) d in
      if (erange : bool) then mret d else
      r ← of_outcome (di_step d);
      match r.2 with
      | None => mret r.1
      | Some level =>
          act ← active;
          if negb act then mret r.1 else
          t ← get_junk;
          _ ← report_dp (di_key d) (Dp (dataPoint d) PROP_ENUM level t);
          mret r.1
      end
  end.

(** A pass over [pDioDevList]; null values are passed over. *)
Fixpoint di_pass (l : list (option DiDev_t)) (texts : list (option string)) : io (kst M) (list (option DiDev_t)) :=
  match l, texts with
  | Some d :: l, t :: texts => d ← di_one d t; r ← di_pass l texts; mret (Some d :: r)
  | None :: l, _ :: texts => r ← di_pass l texts; mret (None :: r)
  | l, _ => mret l
  end.
End Scan.

(** ** Filtering *)

(** The readings as they arrive: the device after them, and what was reported. *)
Fixpoint di_steps (d : DiDev_t) (vs : list Z) : outcome (DiDev_t * list Z) :=
  match vs with
  | [] => Done (d, [])
  | v :: vs =>
      r <-! di_step (set_di_value v d);
      q <-! di_steps r.1 vs;
      Done (q.1, (match r.2 with Some x => [x] | None => [] end) ++ q.2)
  end.

(** The counter runs between 0 and twice the number of retries. *)
Definition di_ok (d : DiDev_t) : Prop := 0 <= retryCnt d <= 2 * retryNum d /\ 2 * retryNum d < 2 ^ 31.

Definition level_of (trig : bool) : Z := if trig then DI_LEVEL_LOW else DI_LEVEL_HIGH.
Definition on_side (d : DiDev_t) (b : bool) (v : Z) : Prop := (eLevel d =? v) = b.

(** Steps still to make on the side [b] before the level is reported. *)
Definition steps_left (d : DiDev_t) (b : bool) : Z :=
  if b then (if retryCnt d <? retryNum d then 1 + retryNum d else 2 * retryNum d - retryCnt d)
  else (if retryNum d <? retryCnt d then 1 + retryNum d else retryCnt d).

Lemma int_of_small z : - 2 ^ 31 <= z < 2 ^ 31 -> int_of z = Done z.
Proof. intros Hz. unfold int_of. by rewrite (proj2 (Z.leb_le _ _)), (proj2 (Z.ltb_lt _ _)) by lia. Qed.

(** A reading on the side [b]: the counter moves, or the level is decided. *)
Lemma di_step_side d b v :
  di_ok d -> on_side d b v ->
  exists d' o, di_step (set_di_value v d) = Done (d', o) /\ di_ok d' /\
    eLevel d' = eLevel d /\ retryNum d' = retryNum d /\
    (if b then retryNum d <= retryCnt d' else retryCnt d' <= retryNum d) /\
    (0 < steps_left d b -> steps_left d' b = steps_left d b - 1 /\ status d' = status d /\ o = None) /\
    (steps_left d b = 0 -> steps_left d' b = 0 /\ status d' = level_of b /\
      o = if status d =? level_of b then None else Some (level_of b)).
Proof.
  intros [H1 H2] Hb. unfold on_side in Hb. destruct d as [k e dp v0 st n c]. cbn in *.
  unfold di_step, triggered, set_di_value, steps_left, di_ok. cbn. rewrite Hb.
  destruct b; cbn [level_of].
  - destruct (c <? n) eqn:E1; bprop.
    { eexists _, _. split; [reflexivity|]. cbn. split_and!; try done; try lia. intros _.
      rewrite (proj2 (Z.ltb_ge n n)) by lia. split_and!; [lia|done|done]. }
    rewrite int_of_small by lia. cbn [obind]. destruct (c <? n * 2) eqn:E2; bprop.
    { eexists _, _. split; [reflexivity|]. cbn. split_and!; try done; try lia. intros _.
      rewrite (proj2 (Z.ltb_ge (c + 1) n)) by lia. split_and!; [lia|done|done]. }
    destruct (st =? DI_LEVEL_LOW) eqn:E3; cbn; eexists _, _; (split; [reflexivity|]); cbn; split_and!; try done; try lia;
      intros _; rewrite (proj2 (Z.ltb_ge c n)) by lia; bprop; split_and!; try done; lia.
  - destruct (n <? c) eqn:E1; bprop.
    { eexists _, _. split; [reflexivity|]. cbn. split_and!; try done; try lia. intros _.
      rewrite (proj2 (Z.ltb_ge n n)) by lia. split_and!; [lia|done|done]. }
    destruct (c =? 0) eqn:E2; bprop; cbn [negb].
    + subst c. destruct (st =? DI_LEVEL_HIGH) eqn:E3; cbn; eexists _, _; (split; [reflexivity|]); cbn; split_and!; try done; try lia;
        intros _; rewrite (proj2 (Z.ltb_ge n 0)) by lia; bprop; split_and!; try done; lia.
    + rewrite int_of_small by lia. cbn [obind]. eexists _, _. split; [reflexivity|]. cbn. split_and!; try done; try lia.
      intros _. rewrite (proj2 (Z.ltb_ge n (c - 1))) by lia. split_and!; [lia|done|done].
Qed.

Lemma di_steps_side b vs d :
  di_ok d -> Forall (on_side d b) vs ->
  exists d' rs, di_steps d vs = Done (d', rs) /\ di_ok d' /\
    (Z.of_nat (length vs) <= steps_left d b -> status d' = status d /\ rs = []) /\
    (steps_left d b < Z.of_nat (length vs) -> status d' = level_of b /\
      rs = if status d =? level_of b then [] else [level_of b]).
Proof.
  revert d. induction vs as [|v vs IH]; intros d Hd Hvs.
  { exists d, []. cbn [di_steps length]. split_and!; try done. intros Hs. exfalso. destruct Hd. unfold steps_left in Hs.
    destruct b; [destruct (_ <? _) eqn:E in Hs|destruct (_ <? _) eqn:E in Hs]; bprop; lia. }
  apply Forall_cons in Hvs as [Hv Hvs].
  destruct (di_step_side d b v Hd Hv) as (d1 & o & E1 & Hd1 & He & Hn & _ & Hpos & Hzero).
  destruct (IH d1 Hd1) as (d2 & rs & E2 & Hd2 & Hle & Hgt).
  { eapply Forall_impl; [exact Hvs|]. intros w Hw. unfold on_side in *. by rewrite He. }
  exists d2, ((match o with Some x => [x] | None => [] end) ++ rs). cbn [di_steps]. rewrite E1. cbn [obind fst snd].
  rewrite E2. cbn [obind fst snd length]. split; [done|]. split; [done|].
  assert (0 <= steps_left d b) as Hnn.
  { destruct Hd. unfold steps_left. destruct b; [destruct (_ <? _) eqn:E|destruct (_ <? _) eqn:E]; bprop; lia. }
  destruct (decide (steps_left d b = 0)) as [Ez|Ez].
  - destruct (Hzero Ez) as (Hs1 & Hst & ->). split; [lia|]. intros _.
    assert (status d2 = level_of b /\ rs = []) as [H1 ->].
    { destruct (decide (length vs = 0)%nat) as [E0|E0].
      - destruct (Hle ltac:(lia)) as [-> ->]. by rewrite Hst.
      - destruct (Hgt ltac:(lia)) as [-> ->]. by rewrite Hst, Z.eqb_refl. }
    split; [done|]. destruct (status d =? level_of b); by rewrite ?app_nil_r.
  - destruct (Hpos ltac:(lia)) as (Hs1 & Hst & ->). cbn [app]. rewrite Hs1, Hst in *. split; intros Hl.
    + apply Hle. lia.
    + apply Hgt. lia.
Qed.

(** ** Properties *)

(** A reading on one side, then readings on the other. *)
Lemma debounced d x vs b :
  di_ok d -> on_side d (negb b) x -> Forall (on_side d b) vs ->
  exists d1 r1 d2 r2, di_steps d [x] = Done (d1, r1) /\ di_steps d1 vs = Done (d2, r2) /\ di_ok d2 /\
    (Z.of_nat (length vs) <= retryNum d -> status d2 = status d1 /\ r2 = []) /\
    (retryNum d + 2 <= Z.of_nat (length vs) -> status d2 = level_of b /\
      r2 = if status d1 =? level_of b then [] else [level_of b]).
Proof.
  intros Hd Hx Hvs. destruct (di_step_side d (negb b) x Hd Hx) as (d1 & o & E1 & Hd1 & He & Hn & Hc & _).
  destruct (di_steps_side b vs d1 Hd1) as (d2 & rs & E2 & Hd2 & Hle & Hgt).
  { eapply Forall_impl; [exact Hvs|]. intros w Hw. unfold on_side in *. by rewrite He. }
  exists d1, ((match o with Some x => [x] | None => [] end) ++ []), d2, rs. cbn [di_steps]. rewrite E1.
  cbn [obind fst snd]. split; [done|]. split; [done|]. split; [done|].
  assert (retryNum d <= steps_left d1 b <= retryNum d + 1) as Hb.
  { destruct Hd, Hd1. unfold steps_left. rewrite Hn in *.
    destruct b; cbn [negb] in Hc; destruct (_ <? _) eqn:E; bprop; lia. }
  split; intros Hl; [apply Hle; lia|apply Hgt; lia].
Qed.

(** A change of an input is reported when it lasts, and only then.  After a
    reading on one side, up to [retryNum] readings on the other side change and
    report nothing; from [retryNum + 2] readings on the level is the one of that
    side, and it was reported once if it is new.  The counter stays between 0 and
    twice the number of retries, and no reading overflows. *)
Theorem di_debounced d x vs b :
  di_ok d -> on_side d (negb b) x -> Forall (on_side d b) vs ->
  exists d1 r1 d2 r2, di_steps d [x] = Done (d1, r1) /\ di_steps d1 vs = Done (d2, r2) /\ di_ok d2 /\
    (Z.of_nat (length vs) <= retryNum d -> status d2 = status d1 /\ r2 = []) /\
    (retryNum d + 2 <= Z.of_nat (length vs) -> status d2 = level_of b /\
      r2 = if status d1 =? level_of b then [] else [level_of b]).
Proof. apply debounced. Qed.

(** A new input, as ParseDiCfg makes it. *)
Definition di_new : DiDev_t := DiDev "dev.di.1" DI_LEVEL_HIGH 1 0 (-1) 3 0.

Lemma di_debounced_witness :
  exists d1 r1 d2 r2, di_steps di_new [0] = Done (d1, r1) /\ di_steps d1 [1; 1; 1; 1; 1] = Done (d2, r2) /\ di_ok d2 /\
    (5 <= 3 -> status d2 = status d1 /\ r2 = []) /\
    (3 + 2 <= 5 -> status d2 = DI_LEVEL_LOW /\ r2 = if status d1 =? DI_LEVEL_LOW then [] else [DI_LEVEL_LOW]).
Proof.
  refine (di_debounced di_new 0 [1; 1; 1; 1; 1] true _ eq_refl _).
  - split; [split; discriminate|reflexivity].
  - repeat constructor.
Defined.
