(* ===== verification/Gateway.v ===== *)
(** The callbacks of the cloud (_dev_obj_cmd_cb ... _misc_dev_hb_cb and the
    functions they call, source/main.c).

    A command of the cloud for a device goes to the Modbus side at once, or into
    the queue of the KNX writer.  [tp_of] is the kind of a device the cloud knows;
    that and whether it knows the device ([bound]) is what
    [tuya_user_iot_misc_dev_desc_get] tells. *)

From S2P Require Import Prelude CMem CStr Device PluginApi Dpt9 KnxPlugins KnxAddr Serial Nodes KnxDevs KnxCtrl KnxReport.

Local Open Scope string_scope.
Local Open Scope list_scope.
Local Open Scope Z_scope.

Definition DEV_TP_ZIGBEE : Z := 10.
Definition DEV_TP_485 : Z := 15.
Definition DEV_TP_KNX : Z := 16.
Definition DEV_TP_USR1 : Z := 17.

Record KnxScene_t := KnxScene { remap : Z; scene_addr : string; scene_value : Z }.
Record ty_obj_cmd_s := Cmd { cid : option string; dps : list ty_obj_dp_s }.

(** The counters of _misc_dev_hb_cb, which are static variables. *)
Record hb_state := Hb { knx_first : bool; knx_cnt : Z; mbus_first : bool; mbus_cnt : Z }.

Section Callbacks.
Context {M : Type} `{ModbusSide M} (tp_of : string -> Z).
Implicit Types s : kst M.

Definition desc_get (key : string) : io (kst M) (option Z) := fun s =>
  Ran (if bound s key then Some (tp_of key) else None) s.

(** ** Commands *)

Definition KnxSceneIdMatch (sc : option KnxScene_t) (id : Z) : bool :=
  match sc with Some sc => remap sc =? id | None => false end.
Fixpoint find_scene (l : list (option KnxScene_t)) (id : Z) : option KnxScene_t :=
  match l with
  | [] => None
  | sc :: l => if KnxSceneIdMatch sc id then sc else find_scene l id
  end.

(** A data point of the gateway itself; [false]: the callback returns -1. *)
Definition gateway_dp (scenes : list (option KnxScene_t)) (o : ty_obj_dp_s) : io (kst M) bool :=
  if dpid o =? 34 then _ ← note ResetGw; mret true
  else if dpid o =? 101 then
    match find_scene scenes (dp_value o) with
    | None => mret false
    | Some sc => _ ← Knx_Write1Byte (scene_addr sc) (scene_value sc); mret true
    end
  else mret true.

(** A data point of a device.  [z3] are the keys of [pZ3List]; a node found there
    is read as a device, which it is not. *)
Definition device_dp (z3 : list string) (key : string) (o : ty_obj_dp_s) : io (kst M) bool :=
  d ← desc_get key;
  match d with
  | None => mret false
  | Some tp =>
      _ ← report_dp key o;
      if tp =? DEV_TP_ZIGBEE then if existsb (String.eqb key) z3 then fault else mret false
      else if tp =? DEV_TP_485 then _ ← ModbusWrite key o; mret true
      else if tp =? DEV_TP_KNX then _ ← KnxGroupWrite (Some key) (Some o); mret true
      else mret true
  end.

Fixpoint each_dp (f : ty_obj_dp_s -> io (kst M) bool) (l : list ty_obj_dp_s) : io (kst M) Z :=
  match l with
  | [] => mret 0
  | o :: l => ok ← f o; if (ok : bool) then each_dp f l else mret (-1)
  end.

Definition _dev_obj_cmd_cb (scenes : list (option KnxScene_t)) (z3 : list string) (dp : ty_obj_cmd_s) : io (kst M) Z :=
  match cid dp with
  | None => each_dp (gateway_dp scenes) (dps dp)
  | Some key => each_dp (device_dp z3 key) (dps dp)
  end.

(** ** Binding *)

(** A loop over a list of devices, each with its key and whether it takes part. *)
Fixpoint each_key (f : string -> io (kst M) unit) (l : list (option (string * bool))) : io (kst M) unit :=
  match l with
  | [] => mret tt
  | Some (key, true) :: l => _ ← f key; each_key f l
  | _ :: l => each_key f l
  end.

Definition bind_one (tp : Z) (key : string) : io (kst M) unit :=
  d ← desc_get key;
  match d with
  | None => _ ← note (Bind tp key); _ ← cloud_call; mret tt
  | Some _ => mret tt
  end.
Definition unbind_one (key : string) : io (kst M) unit :=
  d ← desc_get key;
  match d with
  | None => mret tt
  | Some _ => _ ← note (Unbind key); _ ← cloud_call; mret tt
  end.

Definition knx_keys (only_master : bool) (l : list (option KnxDev)) : list (option (string * bool)) :=
  map (option_map (fun d => (key_of d, implb only_master (bMaster (kb_element (base_of d)))))) l.

Definition Knx_DevBind (pLst : option (list (option KnxDev))) (permit : bool) : io (kst M) Z :=
  match pLst with
  | None => mret (-1)
  | Some l => if negb permit then mret 0 else _ ← each_key (bind_one DEV_TP_KNX) (knx_keys true l); mret 0
  end.

(** The id of the device to remove is not used. *)
Definition Knx_DevUnbind (pLst : option (list (option KnxDev))) (pDevId : string) : io (kst M) Z :=
  match pLst with
  | None => mret (-1)
  | Some l => _ ← each_key unbind_one (knx_keys false l); mret (-1)
  end.

(** A Modbus device: its element and [bGroupMember]. *)
Definition mbus_keys (skip_members : bool) (l : list (option (DeviceElement_t * bool))) : list (option (string * bool)) :=
  map (option_map (fun d => (e_pPrimaryKey d.1, bMaster d.1 && negb (skip_members && d.2)))) l.

Definition Modbus_DevBind (pLst : option (list (option (DeviceElement_t * bool)))) (permit : bool) : io (kst M) Z :=
  match pLst with
  | None => mret (-1)
  | Some l =>
      _ ← (if permit then each_key (bind_one DEV_TP_485) (mbus_keys true l) else mret tt); mret 0
  end.
Definition Modbus_DevUnbind (pLst : option (list (option (DeviceElement_t * bool)))) (pDevId : string) : io (kst M) Z :=
  match pLst with
  | None => mret (-1)
  | Some l => _ ← each_key unbind_one (mbus_keys false l); mret (-1)
  end.

(** An input or output: [szName] and the key; only names that start with "DI"
    take part. *)
Definition is_di (szName : string) : bool :=
  match szName with
  | String a (String b _) => (Ascii.nat_of_ascii a =? 68)%nat && (Ascii.nat_of_ascii b =? 73)%nat
  | _ => false
  end.
Definition dio_keys (l : list (option (string * string))) : list (option (string * bool)) :=
  map (option_map (fun d => (d.2, is_di d.1))) l.

Definition dio_bind_one (permit : bool) (key : string) : io (kst M) unit :=
  d ← desc_get key;
  match d with
  | None => if permit then _ ← note (Bind DEV_TP_USR1 key); _ ← cloud_call; mret tt else mret tt
  | Some _ => _ ← note (HbCfg key 300 3); _ ← cloud_call; mret tt
  end.
Definition DIO_DevBind (pLst : option (list (option (string * string)))) (permit : bool) : io (kst M) Z :=
  match pLst with
  | None => mret (-1)
  | Some l => _ ← each_key (dio_bind_one permit) (dio_keys l); mret 0
  end.
Definition DIO_DevUnbind (pLst : option (list (option (string * string)))) (pDevId : string) : io (kst M) Z :=
  match pLst with
  | None => mret (-1)
  | Some l => _ ← each_key unbind_one (dio_keys l); mret (-1)
  end.

(** [pMbusDevList] and [pDioDevList]. *)
Record lists := Lists { mbus_list : list (option (DeviceElement_t * bool)); dio_list : list (option (string * string)) }.

Definition _misc_dev_add_cb (l : lists) (permit : bool) : io (kst M) unit := fun s =>
  (if permit then
     _ ← Knx_DevBind (Some (devs s)) permit;
     _ ← Modbus_DevBind (Some (mbus_list l)) permit;
     _ ← DIO_DevBind (Some (dio_list l)) permit;
     mret tt
   else mret tt) s.

(** A Zigbee device is deleted by the cloud library. *)
Definition _misc_dev_del_cb (l : lists) (dev_id : string) : io (kst M) unit := fun s =>
  (d ← desc_get dev_id;
   match d with
   | None => mret tt
   | Some tp =>
       if tp =? DEV_TP_ZIGBEE then _ ← cloud_call; mret tt
       else if tp =? DEV_TP_KNX then _ ← Knx_DevUnbind (Some (devs s)) dev_id; mret tt
       else if tp =? DEV_TP_485 then _ ← Modbus_DevUnbind (Some (mbus_list l)) dev_id; mret tt
       else if tp =? DEV_TP_USR1 then _ ← DIO_DevUnbind (Some (dio_list l)) dev_id; mret tt
       else mret tt
   end) s.

(** ** Heartbeats

    The first two heartbeats of a KNX device, and the first of a Modbus device,
    start a query of all devices in the thread pool; later ones ask the device. *)
Definition _misc_dev_hb_cb (dev_id : string) (h : hb_state) : io (kst M) hb_state :=
  d ← desc_get dev_id;
  match d with
  | None => mret h
  | Some tp =>
      if tp =? DEV_TP_KNX then
        if negb (knx_first h) then
          let cnt := u32 (knx_cnt h + 1) in
          _ ← note (Job "KNX_DevStateSync");
          mret (Hb (2 <=? cnt) cnt (mbus_first h) (mbus_cnt h))
        else _ ← Knx_RequestHB (Some dev_id); mret h
      else if tp =? DEV_TP_485 then
        if negb (mbus_first h) then
          let cnt := u32 (mbus_cnt h + 1) in
          _ ← note (Job "Mbus_SyncAllDevStatus");
          mret (Hb (knx_first h) (knx_cnt h) (1 <=? cnt) cnt)
        else _ ← note (Job "Modbus_DevHealth"); mret h
      else if tp =? DEV_TP_USR1 then _ ← hb_fresh dev_id; mret h
      else mret h
  end.
End Callbacks.

(** ** Unbinding all devices

    The loop of _gw_active_status_changed_cb and _gw_reset_cb: [ids] are what is
    left of the traversal; the device is only advanced after a success.  [rets] are
    the results of the calls to come; [None] when [fuel] rounds are not enough. *)
Fixpoint unbind_loop (fuel : nat) (ids : list string) (rets : nat -> Z) (log : list string) : option (list string) :=
  match ids with
  | [] => Some log
  | id :: rest =>
      match fuel with
      | O => None
      | S fuel =>
          if negb (rets (length log) =? 0) then unbind_loop fuel ids rets (log ++ [id])
          else unbind_loop fuel rest rets (log ++ [id])
      end
  end.

(** ** Facts *)

Section CallbackFacts.
Context {M : Type} `{ModbusSide M} (tp_of : string -> Z).
Implicit Types s : kst M.

(** The command in the queue of the writer. *)
Definition queued (key : string) (o : ty_obj_dp_s) : KnxWriteType_t :=
  KnxWrite (take_string DEVICE_ID_LENGTH key) (match strtol (drop_string 12 key) with Some (v, _) => u32 v | None => 0 end) o.

Lemma KnxGroupWrite_run key o s :
  (12 <= String.length key)%nat -> plan (kheap s) = [] ->
  KnxGroupWrite (Some key) (Some o) s =
  if Z.of_nat (length (wq s)) =? WRITE_QUEUE_SIZE
  then Ran (-1) (with_heap (Heap [] (live (kheap s) + 1)) s)
  else Ran 0 (with_wq (wq s ++ [queued key o]) (with_heap (Heap [] (live (kheap s) + 2)) s)).
Proof.
  intros Hk Hp. unfold KnxGroupWrite, mbind, io_bind, on_heap, calloc. cbn [mem st]. rewrite Hp. cbn [with_heap].
  rewrite (proj2 (Nat.ltb_ge _ _)) by lia. cbn [negb]. unfold put_write, put_limited. cbn [wq with_heap kheap].
  destruct (_ =? WRITE_QUEUE_SIZE); [done|]. cbn. unfold with_heap, with_wq. cbn. do 3 f_equal. lia.
Qed.

Lemma report_dp_run key o s :
  report_dp key o s = Ran (hd 0 (cloud s)) (with_cloud (tl (cloud s)) (with_log (klog s ++ [KReport key o]) s)).
Proof. done. Qed.

(** The state after a command for a KNX device. *)
Definition after_dp (key : string) (o : ty_obj_dp_s) s : kst M :=
  let full := Z.of_nat (length (wq s)) =? WRITE_QUEUE_SIZE in
  K (devs s) (eib s) (tl (cloud s)) (bound s) (klog s ++ [KReport key o])
    (if full then wq s else wq s ++ [queued key o]) (hq s) (Heap [] (live (kheap s) + if full then 1 else 2))
    (junk s) (modbus s).

Lemma knx_dp_run z3 key o s :
  (12 <= String.length key)%nat -> plan (kheap s) = [] -> bound s key = true -> tp_of key = DEV_TP_KNX ->
  device_dp tp_of z3 key o s = Ran true (after_dp key o s).
Proof.
  intros Hk Hp Hb Ht. unfold device_dp, mbind, io_bind, desc_get. rewrite Hb, Ht.
  change (DEV_TP_KNX =? DEV_TP_ZIGBEE) with false. change (DEV_TP_KNX =? DEV_TP_485) with false.
  change (DEV_TP_KNX =? DEV_TP_KNX) with true. cbv iota. rewrite report_dp_run, KnxGroupWrite_run by done.
  unfold after_dp. cbn [wq with_cloud with_log kheap live]. by destruct (_ =? WRITE_QUEUE_SIZE).
Qed.

Lemma knx_dps_run z3 key os s :
  (12 <= String.length key)%nat -> plan (kheap s) = [] -> bound s key = true -> tp_of key = DEV_TP_KNX ->
  (length (wq s) <= 200)%nat ->
  runs (each_dp (device_dp tp_of z3 key) os) (fun ret s' =>
    ret = 0 /\ klog s' = klog s ++ map (KReport key) os /\
    wq s' = wq s ++ take (200 - length (wq s)) (map (queued key) os) /\
    live (kheap s') = live (kheap s) + Z.of_nat (length os) + Z.of_nat (Nat.min (length os) (200 - length (wq s))) /\
    devs s' = devs s /\ modbus s' = modbus s) s.
Proof.
  intros Hk. revert s. induction os as [|o os IH]; intros s Hp Hb Ht Hq.
  { apply runs_ret. cbn. rewrite take_nil, !app_nil_r. split_and!; try done. lia. }
  cbn [each_dp]. apply runs_bind. unfold runs at 1. rewrite knx_dp_run by done. cbv iota.
  eapply runs_mono.
  - apply IH; try done. unfold after_dp. cbn [wq].
    destruct (_ =? WRITE_QUEUE_SIZE) eqn:E; [done|]. rewrite length_app. unfold WRITE_QUEUE_SIZE in E. bprop. cbn. lia.
  - unfold after_dp. cbn. intros r s' (H1 & H2 & H3 & H4 & H5 & H6).
    split; [done|]. split; [by rewrite H2, <- app_assoc|].
    destruct (_ =? WRITE_QUEUE_SIZE) eqn:E; unfold WRITE_QUEUE_SIZE in E; bprop.
    + replace (200 - length (wq s))%nat with 0%nat in * by lia. cbn [take] in *. rewrite Nat.min_0_r in *.
      split_and!; try done. lia.
    + rewrite length_app in *. cbn [length] in *.
      replace (200 - length (wq s))%nat with (S (200 - (length (wq s) + 1)))%nat by lia. cbn [take].
      split_and!; try done; [by rewrite H3, <- app_assoc|cbn [length]; lia].
Qed.

(** Unbinding goes over all devices. *)
Lemma unbind_one_run key s :
  unbind_one tp_of key s =
  Ran tt (if bound s key then with_cloud (tl (cloud s)) (with_log (klog s ++ [Unbind key]) s) else s).
Proof. unfold unbind_one, mbind, io_bind, desc_get. by destruct (bound s key). Qed.

Lemma unbind_keys_run l s :
  exists c, each_key (unbind_one tp_of) l s =
    Ran tt (with_cloud c (with_log (klog s ++
      map Unbind (omap (fun k => match k with Some (key, true) => if bound s key then Some key else None | _ => None end) l)) s)).
Proof.
  revert s. induction l as [|[[key []]|] l IH]; intros s.
  - exists (cloud s). cbn. unfold with_log, with_cloud. cbn. rewrite app_nil_r. by destruct s.
  - cbn [each_key]. unfold mbind at 1, io_bind. rewrite unbind_one_run. cbv iota. simpl omap. destruct (bound s key) eqn:E.
    + destruct (IH (with_cloud (tl (cloud s)) (with_log (klog s ++ [Unbind key]) s))) as [c Hc]. rewrite Hc. exists c.
      unfold with_log, with_cloud. cbn. by rewrite <- app_assoc.
    + destruct (IH s) as [c Hc]. rewrite Hc. by exists c.
  - apply IH.
  - apply IH.
Qed.
End CallbackFacts.

(** The number of successes in [n] results from position [k]. *)
Definition successes (rets : nat -> Z) (k n : nat) : nat := length (filter (fun j => rets j = 0) (seq k n)).

Lemma successes_S rets k n :
  successes rets k (S n) = ((if decide (rets k = 0%Z) then 1 else 0) + successes rets (S k) n)%nat.
Proof. unfold successes. cbn [seq]. rewrite filter_cons. by destruct (decide (rets k = 0)). Qed.

Lemma unbind_loop_count fuel ids rets log log' :
  unbind_loop fuel ids rets log = Some log' ->
  exists n, successes rets (length log) n = length ids /\ length log' = (length log + n)%nat.
Proof.
  revert fuel ids log. intros fuel. induction fuel as [|fuel IH]; intros [|id ids] log E; cbn in E; try done.
  1,2: injection E as <-; exists 0%nat; split; [done|lia].
  destruct (rets (length log) =? 0) eqn:E0; bprop; cbn [negb] in E;
    destruct (IH _ _ E) as (n & Hn & Hl); rewrite length_app in Hn, Hl; cbn in Hn, Hl;
    rewrite Nat.add_1_r in Hn; exists (S n); rewrite successes_S, Hn.
  - rewrite decide_True by done. cbn. split; [done|lia].
  - rewrite decide_False by done. cbn. split; [done|lia].
Qed.

Lemma unbind_loop_runs n ids rets log :
  successes rets (length log) n = length ids -> exists log', unbind_loop n ids rets log = Some log'.
Proof.
  revert ids log. induction n as [|n IH]; intros ids log Hn.
  { destruct ids; [by eexists|done]. }
  rewrite successes_S in Hn. destruct ids as [|id ids]; [by eexists|]. cbn [unbind_loop].
  destruct (rets (length log) =? 0) eqn:E0; bprop; cbn [negb].
  - rewrite decide_True in Hn by done. apply IH. rewrite length_app, Nat.add_1_r. cbn in Hn. lia.
  - rewrite decide_False in Hn by done. apply IH. rewrite length_app, Nat.add_1_r. cbn in Hn. done.
Qed.

(** ** Properties *)

(** Commands of the cloud for a KNX device.  Each is acknowledged to the
    cloud at once and queued for the writer thread in the order of the message,
    with the number in the key as the device id, up to the 200 commands the queue
    holds; the others are lost although they were acknowledged, one block of
    memory each. *)
Theorem knx_cloud_commands {M} `{ModbusSide M} tp_of scenes z3 key os (s : kst M) :
  (12 <= String.length key)%nat -> plan (kheap s) = [] -> bound s key = true -> tp_of key = DEV_TP_KNX ->
  (length (wq s) <= 200)%nat ->
  runs (_dev_obj_cmd_cb tp_of scenes z3 (Cmd (Some key) os)) (fun ret s' =>
    ret = 0 /\ klog s' = klog s ++ map (KReport key) os /\
    wq s' = wq s ++ take (200 - length (wq s)) (map (queued key) os) /\
    live (kheap s') = live (kheap s) + Z.of_nat (length os) + Z.of_nat (Nat.min (length os) (200 - length (wq s))) /\
    devs s' = devs s /\ modbus s' = modbus s) s.
Proof. apply knx_dps_run. Qed.

(** Removing one KNX device removes them all: every device of the list the
    cloud knows is unbound, whichever was asked for. *)
Theorem knx_delete_unbinds_all {M} `{ModbusSide M} tp_of l key (s : kst M) :
  bound s key = true -> tp_of key = DEV_TP_KNX ->
  runs (_misc_dev_del_cb tp_of l key) (fun _ s' =>
    klog s' = klog s ++ map Unbind (filter (fun k => bound s k = true) (omap (option_map key_of) (devs s)))) s.
Proof.
  intros Hb Ht. unfold _misc_dev_del_cb, runs, mbind, io_bind, desc_get. rewrite Hb, Ht.
  change (DEV_TP_KNX =? DEV_TP_ZIGBEE) with false. change (DEV_TP_KNX =? DEV_TP_KNX) with true. cbv iota.
  unfold Knx_DevUnbind, mbind, io_bind. destruct (unbind_keys_run tp_of (knx_keys false (devs s)) s) as [c ->]. cbn.
  do 2 f_equal. unfold knx_keys. induction (devs s) as [|[d|] ds IH]; [done| |done].
  cbn [map option_map omap list_omap implb]. destruct (bound s (key_of d)) eqn:E.
  - rewrite filter_cons_True by done. by rewrite <- IH.
  - rewrite filter_cons_False by congruence. exact IH.
Qed.

(** Unbinding all devices, after the gateway was removed, ends exactly when
    as many calls succeed as there are devices; a device the cloud does not
    unbind is tried for ever, and none after it is unbound. *)
Theorem unbind_loop_ends ids rets :
  (exists fuel log, unbind_loop fuel ids rets [] = Some log) <-> exists n, successes rets 0 n = length ids.
Proof.
  split.
  - intros (fuel & log & E). destruct (unbind_loop_count _ _ _ _ _ E) as (n & Hn & _). by exists n.
  - intros (n & Hn). exists n. by apply (unbind_loop_runs n ids rets []).
Qed.

(** ** Examples *)

Lemma knx_cloud_commands_witness :
  runs (_dev_obj_cmd_cb (H := quiet_side) (fun _ => DEV_TP_KNX) [] [] (Cmd (Some "02c7ecdad9257") [Dp 1 PROP_BOOL 1 0; Dp 3 PROP_VALUE 26 0]))
    (fun ret s' => ret = 0 /\ wq s' = [KnxWrite "02c7ecdad9257" 7 (Dp 1 PROP_BOOL 1 0); KnxWrite "02c7ecdad9257" 7 (Dp 3 PROP_VALUE 26 0)])
    (k_bus []).
Proof.
  eapply runs_mono.
  - refine (knx_cloud_commands (H := quiet_side) _ _ _ "02c7ecdad9257" _ (k_bus []) _ eq_refl eq_refl eq_refl _); cbn; lia.
  - intros r s' (Hr & _ & Hq & _). split; [exact Hr|]. rewrite Hq. reflexivity.
Defined.

Lemma knx_delete_unbinds_all_witness :
  runs (_misc_dev_del_cb (fun _ => DEV_TP_KNX) (Lists [] []) "dev.knx.acd.7")
    (fun _ s' => klog s' = [Unbind "dev.knx.acd.7"; Unbind "dev.knx.cur.9"]) (k_bus []).
Proof.
  eapply runs_mono.
  - exact (knx_delete_unbinds_all (H := quiet_side) _ _ "dev.knx.acd.7" (k_bus []) eq_refl eq_refl).
  - intros r s' Hl. rewrite Hl. reflexivity.
Defined.
