(* ===== verification/Groups.v ===== *)
(** The links between devices made at the start (ModbusDevGroup,
    associateModbusDev and associateKnxDev of source/main.c).

    A device is found with ModbusDevIdMatch, which reads the key it is given as a
    32-bit number.  [pNext] of a base is the position of the next one. *)

From stdpp Require Import sets.
From S2P Require Import Prelude CMem CStr Device PluginApi Dpt9 KnxPlugins KnxAddr Serial Nodes KnxDevs KnxCtrl KnxReport.

Local Open Scope string_scope.
Local Open Scope list_scope.
Local Open Scope Z_scope.

(** The first four bytes of a string, the terminating zero included. *)
Fixpoint bytes_of (s : string) : list Z :=
  match s with
  | String a s => Z.of_nat (Ascii.nat_of_ascii a) :: bytes_of s
  | EmptyString => [0]
  end.
Definition key_word (s : string) : outcome Z :=
  match bytes_of s with
  | a :: b :: c :: d :: _ => Done (a + 256 * (b + 256 * (c + 256 * d)))
  | _ => Undef
  end.

(** ** Groups *)

Record mnode := MN { m_devId : Z; m_next : option nat }.
Record Group_t := Group { g_pPrimaryKey : string; g_ppForeignKey : list string }.
Abbreviation table := (list (option mnode)).

Definition next_of (tab : table) (i : nat) : option nat := match tab !! i with Some (Some m) => m_next m | _ => None end.
Definition set_next (i j : nat) (tab : table) : table := alter (fmap (fun m => MN (m_devId m) (Some j))) i tab.

Fixpoint find_word (tab : table) (w : Z) : option nat :=
  match tab with
  | [] => None
  | m :: tab =>
      if match m with Some m => m_devId m =? w | None => false end then Some 0%nat
      else match find_word tab w with Some i => Some (S i) | None => None end
  end.
Definition search_key (tab : table) (key : string) : outcome (option nat) :=
  w <-! key_word key; Done (find_word tab w).

(** To the end of the chain; a chain longer than the list is a cycle. *)
Fixpoint walk (fuel : nat) (tab : table) (cur : nat) : option nat :=
  match next_of tab cur with
  | None => Some cur
  | Some n => match fuel with O => None | S fuel => walk fuel tab n end
  end.

(** [Blocked]: the loop never ends.  A member that is not found is looked for
    again and again. *)
Fixpoint add_members (cur : nat) (ms : list string) (tab : table) : res table unit :=
  match ms with
  | [] => Ran tt tab
  | m :: ms =>
      match search_key tab m with
      | Undef => Fault
      | Done None => Blocked
      | Done (Some j) =>
          match walk (length tab) tab cur with
          | None => Blocked
          | Some last => add_members last ms (set_next last j tab)
          end
      end
  end.

Fixpoint ModbusDevGroup (groups : list (option Group_t)) (tab : table) : res table unit :=
  match groups with
  | [] => Ran tt tab
  | None :: groups => ModbusDevGroup groups tab
  | Some g :: groups =>
      match search_key tab (g_pPrimaryKey g) with
      | Undef => Fault
      | Done None => Ran tt tab
      | Done (Some o) =>
          match add_members o (g_ppForeignKey g) tab with
          | Ran _ tab => ModbusDevGroup groups tab
          | r => r
          end
      end
  end.

(** ** KNX and Modbus devices *)

Section Associate.
(** [pForeignKey] of a device, by its primary key. *)
Context (foreign_key : string -> option string).

Definition set_foreign (k : string) (e : DeviceElement_t) : DeviceElement_t :=
  Element (e_pPrimaryKey e) (devId e) (primaryType e) (bMaster e) (Some k).
Definition set_knx_foreign (k : string) (d : KnxDev) : KnxDev :=
  let b := base_of d in
  set_kbase (KBase (kb_pIf b) (set_foreign k (kb_element b)) (kb_attri b) (kb_bOnlineCheck b) (kb_hbIgnore b)) d.

Definition sides : Type := list (option DeviceElement_t) * list (option KnxDev).

(** The two devices point to each other. *)
Definition link (i j : nat) (mkey kkey : string) (s : sides) : sides :=
  (alter (fmap (set_foreign kkey)) i s.1, alter (fmap (set_knx_foreign mkey)) j s.2).

Definition associate_modbus (i : nat) (s : sides) : sides :=
  match s.1 !! i with
  | Some (Some e) =>
      if negb (bMaster e) then s else
      match foreign_key (e_pPrimaryKey e) with
      | None => s
      | Some key =>
          match find_knx s.2 key with
          | None => s
          | Some (j, d) => link i j (e_pPrimaryKey e) (key_of d) s
          end
      end
  | _ => s
  end.
Definition associateModbusDev (s : sides) : sides := foldl (fun s i => associate_modbus i s) s (seq 0 (length s.1)).

Fixpoint find_element (l : list (option DeviceElement_t)) (w : Z) : option (nat * DeviceElement_t) :=
  match l with
  | [] => None
  | Some e :: l =>
      if devId e =? w then Some (0%nat, e)
      else match find_element l w with Some (i, e) => Some (S i, e) | None => None end
  | None :: l => match find_element l w with Some (i, e) => Some (S i, e) | None => None end
  end.

Definition associate_knx (j : nat) (s : sides) : outcome sides :=
  match s.2 !! j with
  | Some (Some d) =>
      if negb (bMaster (kb_element (base_of d))) then Done s else
      if negb (type_of d =? KNX_DEVICE_VENTILATION) then Done s else
      match foreign_key (key_of d) with
      | None => Done s
      | Some key =>
          w <-! key_word key;
          match find_element s.1 w with
          | None => Done s
          | Some (i, e) => Done (link i j (e_pPrimaryKey e) (key_of d) s)
          end
      end
  | _ => Done s
  end.
Definition associateKnxDev (s : sides) : outcome sides :=
  foldl (fun o j => s <-! o; associate_knx j s) (Done s) (seq 0 (length s.2)).
End Associate.

(** ** Chains *)

Inductive chain (tab : table) : nat -> list nat -> Prop :=
| chain_end i : next_of tab i = None -> chain tab i [i]
| chain_step i j l : next_of tab i = Some j -> chain tab j l -> chain tab i (i :: l).

Lemma chain_suffix tab o l1 x l2 : chain tab o (l1 ++ x :: l2) -> chain tab x (x :: l2).
Proof.
  intros Hc. remember (l1 ++ x :: l2) as L eqn:E. revert l1 E.
  induction Hc as [i Hn|i j l Hn Hc IH]; intros [|y l1] E; simplify_eq/=.
  - by constructor.
  - by destruct l1.
  - by eapply chain_step.
  - by eapply IH.
Qed.

Lemma walk_last tab cur l fuel :
  chain tab cur l -> (length l <= S fuel)%nat -> walk fuel tab cur = last l.
Proof.
  intros Hc. revert fuel. induction Hc as [i Hn|i j l Hn Hc IH]; intros fuel Hl.
  - destruct fuel; cbn; by rewrite Hn.
  - assert (l <> []) as Hne by (by destruct Hc).
    destruct fuel as [|fuel]; cbn in Hl |- *; [destruct l; [done|cbn in Hl; lia]|]. rewrite Hn, IH by lia. by destruct l.
Qed.

Lemma next_set i j k tab :
  next_of (set_next i j tab) k = if decide (k = i) then (match tab !! i with Some (Some _) => Some j | _ => None end) else next_of tab k.
Proof.
  unfold next_of, set_next. destruct (decide (k = i)) as [->|Hne].
  - rewrite list_lookup_alter_eq. by destruct (tab !! i) as [[m|]|].
  - by rewrite list_lookup_alter_ne.
Qed.

Lemma chain_snoc tab o l x j :
  chain tab o l -> last l = Some x -> NoDup (l ++ [j]) -> is_Some (mjoin (tab !! x)) -> next_of tab j = None ->
  chain (set_next x j tab) o (l ++ [j]).
Proof.
  intros Hc Hx Hnd Htab Hj.
  assert (x <> j) as Hxj.
  { intros ->. apply last_Some in Hx as [l' ->]. rewrite <- app_assoc in Hnd. apply NoDup_app in Hnd as (_ & _ & Hnd).
    by inversion Hnd; subst; set_solver. }
  assert (next_of (set_next x j tab) j = None) as Hj' by (rewrite next_set; by case_decide).
  induction Hc as [i Hn|i k l Hn Hc IH]; cbn in Hx.
  - injection Hx as ->. apply chain_step with j; [|by constructor]. rewrite next_set, decide_True by done.
    destruct (tab !! x) as [[m|]|]; try done; by destruct Htab.
  - cbn [app]. assert (l <> []) as Hne by (by destruct Hc).
    assert (last l = Some x) as Hx' by (by destruct l).
    apply NoDup_cons in Hnd as [Hi Hnd]. apply chain_step with k; [|by apply IH].
    rewrite next_set, decide_False; [done|]. intros ->. apply last_Some in Hx' as [l' ->]. apply Hi. set_solver.
Qed.

Lemma set_next_same i j k tab : m_devId <$> mjoin (set_next i j tab !! k) = m_devId <$> mjoin (tab !! k).
Proof.
  unfold set_next. destruct (decide (k = i)) as [->|Hne]; [|by rewrite list_lookup_alter_ne].
  rewrite list_lookup_alter_eq. by destruct (tab !! i) as [[m|]|].
Qed.

Lemma find_word_set i j tab w : find_word (set_next i j tab) w = find_word tab w.
Proof.
  revert i. induction tab as [|m tab IH]; intros i; [done|]. destruct i as [|i]; cbn.
  - destruct m as [m|]; cbn; done.
  - specialize (IH i). unfold set_next in IH. by rewrite IH.
Qed.

Lemma add_members_run tab o l cur ms js :
  chain tab o l -> cur ∈ l -> Forall2 (fun m j => search_key tab m = Done (Some j)) ms js ->
  NoDup (l ++ js) -> Forall (fun i => is_Some (mjoin (tab !! i))) (l ++ js) -> Forall (fun j => next_of tab j = None) js ->
  exists tab', add_members cur ms tab = Ran tt tab' /\ chain tab' o (l ++ js) /\ length tab' = length tab /\
    (forall k, m_devId <$> mjoin (tab' !! k) = m_devId <$> mjoin (tab !! k)) /\
    (forall k, k ∉ l ++ js -> next_of tab' k = next_of tab k).
Proof.
  intros Hc Hcur Hf. revert tab l cur Hc Hcur Hf. revert js. induction ms as [|m ms IH]; intros js tab l cur Hc Hcur Hf Hnd Hin Hno.
  { apply Forall2_nil_inv_l in Hf as ->. exists tab. rewrite app_nil_r. by split_and!. }
  apply Forall2_cons_inv_l in Hf as (j & js' & Hm & Hf & ->).
  apply Forall_cons in Hno as [Hj Hno].
  apply list_elem_of_split in Hcur as (l1 & l2 & ->).
  assert (exists x, last (l1 ++ cur :: l2) = Some x /\ last (cur :: l2) = Some x) as (x & Hx & Hx').
  { rewrite last_app_cons. destruct (last (cur :: l2)) as [x|] eqn:E; [by exists x|]. by apply last_None in E. }
  assert (length (cur :: l2) <= S (length tab))%nat as Hlen.
  { apply NoDup_app in Hnd as (Hnd & _). apply NoDup_app in Hnd as (_ & _ & Hnd).
    assert (length (cur :: l2) <= length (seq 0 (length tab)))%nat as Hle; [|by rewrite length_seq in Hle; lia].
    apply NoDup_incl_length; [by apply NoDup_ListNoDup|]. intros y Hy. apply in_seq.
    assert (is_Some (mjoin (tab !! y))) as Hy'.
    { rewrite Forall_forall in Hin. apply Hin. apply list_elem_of_In in Hy. set_solver. }
    destruct (tab !! y) eqn:Ey; [apply lookup_lt_Some in Ey; lia|by destruct Hy']. }
  cbn [add_members]. rewrite Hm, (walk_last _ _ _ _ (chain_suffix _ _ _ _ _ Hc) Hlen), Hx'.
  destruct (IH js' (set_next x j tab) ((l1 ++ cur :: l2) ++ [j]) x) as (tab' & E & H1 & H2 & H3 & H4).
  - apply chain_snoc; try done.
    + rewrite cons_middle, app_assoc in Hnd. apply NoDup_app in Hnd. tauto.
    + rewrite Forall_forall in Hin. apply Hin. apply last_Some in Hx as [l' ->]. set_solver.
  - apply last_Some in Hx as [l' ->]. set_solver.
  - eapply Forall2_impl; [exact Hf|]. intros m' j' Hs. unfold search_key in *. destruct (key_word m'); [|done]. cbn in *.
    by rewrite find_word_set.
  - by rewrite <- app_assoc.
  - rewrite <- app_assoc. eapply Forall_impl; [exact Hin|]. intros k [y Hk]. pose proof (set_next_same x j k tab) as E.
    rewrite Hk in E. destruct (mjoin (set_next x j tab !! k)); [by eexists|done].
  - rewrite Forall_forall in Hno |- *. intros k Hk. rewrite next_set, decide_False; [by apply Hno|]. intros ->.
    apply last_Some in Hx as [l' Hl']. rewrite Hl' in Hnd. apply NoDup_app in Hnd as (_ & Hd & _). apply (Hd x); set_solver.
  - exists tab'. rewrite <- app_assoc in H1, H4. split; [done|]. split; [done|].
    split; [rewrite H2; unfold set_next; apply length_alter|].
    split; [intros k; by rewrite H3, set_next_same|]. intros k Hk. rewrite H4 by done. rewrite next_set, decide_False; [done|].
    intros ->. apply Hk. apply last_Some in Hx as [l' ->]. set_solver.
Qed.

(** ** Links *)

Section Links.
Context (foreign_key : string -> option string).
Implicit Types s : sides.

(** The KNX device a Modbus device is linked to. *)
Definition target s (i : nat) : option nat :=
  match s.1 !! i with
  | Some (Some e) =>
      if bMaster e then
        match foreign_key (e_pPrimaryKey e) with Some k => fst <$> find_knx s.2 k | None => None end
      else None
  | _ => None
  end.

Lemma key_set_foreign m d : key_of (set_knx_foreign m d) = key_of d.
Proof. by destruct d. Qed.

Lemma find_knx_lookup l key j d : find_knx l key = Some (j, d) -> l !! j = Some (Some d).
Proof.
  revert j. induction l as [|[x|] l IH]; intros j; [done| |]; cbn [find_knx].
  - destruct (String.eqb (key_of x) key); [by intros [= <- <-]|].
    destruct (find_knx l key) as [[i y]|]; [|done]. intros [= <- <-]. by apply IH.
  - destruct (find_knx l key) as [[i y]|]; [|done]. intros [= <- <-]. by apply IH.
Qed.

Lemma find_knx_alter m j l key :
  fst <$> find_knx (alter (fmap (set_knx_foreign m)) j l) key = fst <$> find_knx l key.
Proof.
  revert j. induction l as [|x l IH]; intros j; [done|]. destruct j as [|j].
  - destruct x as [x|]; [|done]. cbn. rewrite key_set_foreign. by destruct (String.eqb _ _).
  - specialize (IH j). change (alter (fmap (set_knx_foreign m)) (S j) (x :: l)) with (x :: alter (fmap (set_knx_foreign m)) j l).
    destruct x as [x|]; cbn [find_knx]; [destruct (String.eqb _ _); [done|]|];
      destruct (find_knx l key) as [[? ?]|], (find_knx (alter _ j l) key) as [[? ?]|]; cbn in *; by simplify_eq.
Qed.

Lemma target_link i j a k s i' : target (link i j a k s) i' = target s i'.
Proof.
  unfold target, link. cbn [fst snd]. destruct (decide (i' = i)) as [->|Hne].
  - rewrite list_lookup_alter_eq. destruct (s.1 !! i) as [[e|]|]; cbn; [|done..].
    destruct (bMaster e); [|done]. destruct (foreign_key (e_pPrimaryKey e)); [|done]. apply find_knx_alter.
  - rewrite list_lookup_alter_ne by done. destruct (s.1 !! i') as [[e|]|]; [|done..].
    destruct (bMaster e); [|done]. destruct (foreign_key (e_pPrimaryKey e)); [|done]. apply find_knx_alter.
Qed.

Lemma associate_modbus_run i s :
  associate_modbus foreign_key i s =
  match target s i, s.1 !! i with
  | Some j, Some (Some e) =>
      match s.2 !! j with Some (Some d) => link i j (e_pPrimaryKey e) (key_of d) s | _ => s end
  | _, _ => s
  end.
Proof.
  unfold associate_modbus, target. destruct (s.1 !! i) as [[e|]|]; [|done..].
  destruct (bMaster e); [|done]. cbn [negb]. destruct (foreign_key (e_pPrimaryKey e)) as [k|]; [|done].
  destruct (find_knx s.2 k) as [[j d]|] eqn:E; [|done]. cbn. by rewrite (find_knx_lookup _ _ _ _ E).
Qed.

Lemma associate_target i s i' : target (associate_modbus foreign_key i s) i' = target s i'.
Proof.
  rewrite associate_modbus_run. destruct (target s i) as [j|]; [|done]. destruct (s.1 !! i) as [[e|]|]; [|done..].
  destruct (s.2 !! j) as [[d|]|]; [apply target_link|done..].
Qed.

Lemma associate_other i s i' : i' <> i -> (associate_modbus foreign_key i s).1 !! i' = s.1 !! i'.
Proof.
  intros Hne. rewrite associate_modbus_run. destruct (target s i) as [j|]; [|done]. destruct (s.1 !! i) as [[e|]|]; [|done..].
  destruct (s.2 !! j) as [[d|]|]; [|done..]. unfold link. cbn [fst]. by rewrite list_lookup_alter_ne.
Qed.

Lemma associate_not_target i s j : target s i <> Some j -> (associate_modbus foreign_key i s).2 !! j = s.2 !! j.
Proof.
  intros Hne. rewrite associate_modbus_run. destruct (target s i) as [j'|]; [|done]. destruct (s.1 !! i) as [[e|]|]; [|done..].
  destruct (s.2 !! j') as [[d|]|]; [|done..]. unfold link. cbn [snd]. rewrite list_lookup_alter_ne; [done|congruence].
Qed.

Lemma associate_untouched ks s i j :
  i ∉ ks -> (forall i', i' ∈ ks -> target s i' <> Some j) ->
  let s' := foldl (fun s i => associate_modbus foreign_key i s) s ks in s'.1 !! i = s.1 !! i /\ s'.2 !! j = s.2 !! j.
Proof.
  revert s. induction ks as [|i0 ks IH]; intros s Hi Ht; [done|]. cbn [foldl].
  apply not_elem_of_cons in Hi as [Hne Hi].
  destruct (IH (associate_modbus foreign_key i0 s) Hi) as [H1 H2].
  { intros i' Hi'. rewrite associate_target. apply Ht. by right. }
  cbv zeta in H1, H2. rewrite H1, H2, associate_other, associate_not_target; [done| |done]. apply Ht. by left.
Qed.

Lemma associate_linked ks s i e j d :
  NoDup ks -> i ∈ ks -> target s i = Some j -> s.1 !! i = Some (Some e) -> s.2 !! j = Some (Some d) ->
  (forall i', i' ∈ ks -> i' <> i -> target s i' <> Some j) ->
  let s' := foldl (fun s i => associate_modbus foreign_key i s) s ks in
  s'.1 !! i = Some (Some (set_foreign (key_of d) e)) /\ s'.2 !! j = Some (Some (set_knx_foreign (e_pPrimaryKey e) d)).
Proof.
  revert s. induction ks as [|i0 ks IH]; intros s Hnd Hi Ht He Hd Ho; [by apply not_elem_of_nil in Hi|].
  apply NoDup_cons in Hnd as [Hi0 Hnd]. cbn [foldl]. destruct (decide (i0 = i)) as [->|Hne].
  - destruct (associate_untouched ks (associate_modbus foreign_key i s) i j Hi0) as [H1 H2].
    { intros i' Hi'. rewrite associate_target. apply Ho; [by right|]. by intros ->. }
    cbv zeta in H1, H2 |- *. rewrite H1, H2, associate_modbus_run, Ht, He, Hd. unfold link. cbn [fst snd].
    rewrite !list_lookup_alter_eq, He, Hd. done.
  - apply elem_of_cons in Hi as [->|Hi]; [done|]. apply IH; try done.
    + by rewrite associate_target.
    + by rewrite associate_other by done.
    + rewrite associate_not_target; [done|]. apply Ho; [by left|done].
    + intros i' Hi' Hne'. rewrite associate_target. apply Ho; [by right|done].
Qed.
End Links.

(** A key that begins with the MAC address of the gateway in hexadecimal. *)
Definition mac_key (s : string) : Prop :=
  exists a b c d r, s = String a (String b (String c (String d r))) /\ (48 <= Ascii.nat_of_ascii d)%nat.

Lemma mac_key_word s : mac_key s -> exists w, key_word s = Done w /\ 0x30000000 <= w.
Proof.
  intros (a & b & c & d & r & -> & Hd).
  exists (Z.of_nat (Ascii.nat_of_ascii a) + 256 * (Z.of_nat (Ascii.nat_of_ascii b) + 256 * (Z.of_nat (Ascii.nat_of_ascii c) +
    256 * Z.of_nat (Ascii.nat_of_ascii d)))). split; [unfold key_word; cbn [bytes_of]; destruct r; reflexivity|]. lia.
Qed.

Lemma find_word_none tab w :
  Forall (fun m => match m with Some m => m_devId m < w | None => True end) tab -> find_word tab w = None.
Proof.
  induction tab as [|m tab IH]; intros Ht; [done|]. apply Forall_cons in Ht as [Hm Ht]. cbn. rewrite IH by done.
  destruct m as [m|]; [|done]. destruct (m_devId m =? w) eqn:E; bprop; [lia|done].
Qed.

(** ** Properties *)

(** C40: no group is ever formed.  The members are searched by key with a function
    that compares the first four characters of the key, as a number, with the ids
    of the devices; for keys that begin with a MAC address and ids below 805306368
    the owner of the first group is not found and the function ends. *)
Theorem groups_never_formed groups tab :
  Forall (fun m => match m with Some m => m_devId m < 0x30000000 | None => True end) tab ->
  Forall (fun g => match g with Some g => mac_key (g_pPrimaryKey g) | None => True end) groups ->
  ModbusDevGroup groups tab = Ran tt tab.
Proof.
  intros Ht. induction groups as [|[g|] groups IH]; intros Hg; [done| |]; apply Forall_cons in Hg as [Hg Hgs]; [|by apply IH].
  destruct (mac_key_word _ Hg) as (w & Hw & Hlo). cbn [ModbusDevGroup]. unfold search_key. rewrite Hw. cbn [obind].
  rewrite find_word_none; [done|]. eapply Forall_impl; [exact Ht|]. intros [m|]; [lia|done].
Qed.


(** A Modbus master and the KNX device its foreign key names point to each
    other after the start, when no other Modbus master names the same device; the
    rest of both stays. *)
Theorem associated_both_ways foreign_key s i e j d :
  target foreign_key s i = Some j -> s.1 !! i = Some (Some e) -> s.2 !! j = Some (Some d) ->
  (forall i', i' <> i -> target foreign_key s i' <> Some j) ->
  let s' := associateModbusDev foreign_key s in
  s'.1 !! i = Some (Some (set_foreign (key_of d) e)) /\ s'.2 !! j = Some (Some (set_knx_foreign (e_pPrimaryKey e) d)).
Proof.
  intros Ht He Hd Ho. apply associate_linked; try done.
  - apply NoDup_seq.
  - apply elem_of_seq. apply lookup_lt_Some in He. lia.
  - intros i' _. apply Ho.
Qed.

(** ** Examples *)

Lemma groups_never_formed_witness :
  ModbusDevGroup [Some (Group "02c7ecdad9252101" ["02c7ecdad9252102"])] [Some (MN 2101 None); Some (MN 2102 None)] =
  Ran tt [Some (MN 2101 None); Some (MN 2102 None)].
Proof.
  apply groups_never_formed.
  - repeat constructor.
  - repeat constructor. do 5 eexists. split; [reflexivity|]. by apply Nat.leb_le.
Defined.


Lemma associated_both_ways_witness :
  let s' := associateModbusDev (fun _ => Some "dev.knx.acd.7")
    ([Some (Element "02c7ecdad9252101" 2101 5 true None)], [None; Some k_acd]) in
  s'.1 !! 0%nat = Some (Some (Element "02c7ecdad9252101" 2101 5 true (Some "dev.knx.acd.7"))) /\
  s'.2 !! 1%nat = Some (Some (set_knx_foreign "02c7ecdad9252101" k_acd)).
Proof.
  refine (associated_both_ways (fun _ => Some "dev.knx.acd.7")
    ([Some (Element "02c7ecdad9252101" 2101 5 true None)], [None; Some k_acd]) 0
    (Element "02c7ecdad9252101" 2101 5 true None) 1 k_acd eq_refl eq_refl eq_refl _).
  intros [|[|i']] Hne; [done|discriminate..].
Defined.
