(* ===== verification/KnxMonitor.v ===== *)
(** Safety of the KNX monitor thread (KNX_DevMonitorEntry and the functions of
    KnxReport.v), against what it needs of the Modbus side: an interface that
    ModbusDevWrite implements (Composed.v). *)

From S2P Require Import Prelude CMem CStr Device Queue PluginApi Dpt9 KnxPlugins KnxAddr KnxPacket Serial Nodes KnxDevs KnxCtrl KnxReport KnxLoop.

Local Open Scope string_scope.
Local Open Scope list_scope.
Local Open Scope Z_scope.

(** The Modbus side keeps [I]: writing an object to a device whose key is one of
    [key_ok] waits, or ends without a fault. *)
Class ModbusSafe (M : Type) `{ModbusSide M} (I : M -> Prop) (key_ok : string -> Prop) : Prop :=
  modbus_safe : forall key o m, I m -> key_ok key -> dp_ok o -> iwp (side_write (Some key) (Some o)) (fun _ m' => I m') m.

(** What a plugin promises the monitor: it translates a value that is a
    temperature the conversions are defined on. *)
Definition is_temp (v : Z) : Prop := decode v <> Undef /\ decode10 v <> Undef.
Lemma is_temp_by v t t' : decode v = Done t -> decode10 v = Done t' -> is_temp v.
Proof. intros E E'. split; [by rewrite E|by rewrite E']. Qed.
Class KnxReportOk (i : KnxIf) : Prop :=
  knx_report_ok : forall rep p o, report i = Some rep -> is_temp (k_value p) -> dp_ok o ->
    exists r o', rep (Some p) (Some o) = Done (r, Some o') /\ dp_ok o'.

Lemma put_type_ok t o : dp_ok o -> dp_ok (put_type t o).
Proof. intros (H1 & H2 & H3). split; [done|]. split; [apply u8_range|done]. Qed.
Lemma put_dp_value_ok v o : dp_ok o -> dp_ok (put_dp_value v o).
Proof. intros (H1 & H2 & H3). split; [done|]. split; [done|apply u32_range]. Qed.
Lemma done_ok o : dp_ok o -> exists r o', Done (0, Some o) = Done (r, Some o') /\ dp_ok o'.
Proof. eauto. Qed.
#[local] Hint Resolve put_type_ok put_dp_value_ok put_dp_bool_ok done_ok : core.

Ltac report_ok :=
  intros rep p o [= <-] [Hd Hd10] Ho; unfold decode, decode10 in *; unfold plugin_if, checked;
  match goal with |- exists r o', obind (?f p o) _ = _ /\ _ => unfold f end; cbv zeta;
  unfold report_bool, report_temp, report_enum;
  repeat match goal with
  | |- context [if ?b then _ else _] => destruct b
  | |- context [obind (to_int32 ?x) _] => destruct (to_int32 x); [|done]
  end; cbn [obind]; auto 6.

#[export] Instance acd_general_report : KnxReportOk Acd_General.KNX_Acd_General.
Proof. report_ok. Qed.
#[export] Instance acd_stec_report : KnxReportOk Acd_STEC.KNX_Aircondition_STEC.
Proof. report_ok. Qed.
#[export] Instance acd_sdk_report : KnxReportOk Acd_Sdk.KNX_Aircondition_Sdk_H8C09.
Proof. report_ok. Qed.
#[export] Instance acd_water_report : KnxReportOk Acd_Water.KNX_Aircondition_Water.
Proof. report_ok. Qed.
#[export] Instance acd_panel_report : KnxReportOk Acd_Panel.knx_acd_panel.
Proof. report_ok. Qed.
#[export] Instance heat_stec_report : KnxReportOk Heat_STEC.KNX_FloorHeating_STEC.
Proof. report_ok. Qed.
#[export] Instance heat_sdk_report : KnxReportOk Heat_Sdk.KNX_FloorHeating_Sdk_H8C09.
Proof. report_ok. Qed.
#[export] Instance heat_panel_report : KnxReportOk Heat_Panel.knx_heat_panel.
Proof. report_ok. Qed.
#[export] Instance vent_stec_report : KnxReportOk Vent_STEC.KNX_Ventilation_STEC.
Proof. report_ok. Qed.
#[export] Instance vent_sdk_report : KnxReportOk Vent_Sdk.KNX_Ventilation_Sdk_H8C09.
Proof. report_ok. Qed.
#[export] Instance vent_panel_report : KnxReportOk Vent_Panel.knx_vent_panel.
Proof. report_ok. Qed.

(** ** Well-formed devices *)

(** The structure is the one of the type, and its values fit their types. *)
Definition typed (d : KnxDev) : Prop :=
  shape_ok d /\
  match d with
  | KnxAcd_t _ o | KnxVent_t _ o | KnxHeat_t _ o => Forall (opt_ok obj_ok) o
  | KnxPanel_t _ keys => Forall (fun k => 0 <= kp_value k < 2 ^ 32) keys
  | KnxSmartPanel_t _ chl => Forall (fun c => 0 <= kp_value (sp_key c) < 2 ^ 32) chl
  | KnxDimmer_t _ chl => Forall (fun c => 0 <= kp_value (dm_key c) < 2 ^ 32 /\ 0 <= kp_value (dm_bright c) < 2 ^ 32) chl
  | KnxCurtain_t _ x y z => Forall (opt_ok (fun k => 0 <= kp_value k < 2 ^ 32)) [x; y; z]
  end.

Section Monitor.
Context {M : Type} `{ModbusSide M} (I : M -> Prop) (key_ok : string -> Prop) `{!ModbusSafe M I key_ok}.
(** The values the telegrams carry. *)
Context (V : Z -> Prop).
Hypothesis Hvalues : forall v, V v -> 0 <= v < 65536.
Implicit Types s : kst M.

Definition foreign_ok (b : KnxBase_t) : Prop := exists k, pvForeignKey (kb_element b) = Some k /\ key_ok k.

(** The plugin can translate the values. *)
Definition translates (i : KnxIf) : Prop :=
  forall rep p o, report i = Some rep -> V (k_value p) -> dp_ok o ->
  exists r o', rep (Some p) (Some o) = Done (r, Some o') /\ dp_ok o'.

Lemma translates_ok i : KnxReportOk i -> (forall v, V v -> is_temp v) -> translates i.
Proof. intros Hi Hv rep p o Hr Hp Ho. apply (Hi rep); auto. Qed.

(** What the functions rely on for a device that hears the telegram. *)
Definition hears (d : KnxDev) : Prop :=
  match d with
  | KnxAcd_t b _ | KnxVent_t b _ => (bMaster (kb_element b) = false -> foreign_ok b) /\ opt_ok translates (kb_pIf b)
  | KnxHeat_t b _ => exists i, kb_pIf b = Some i /\ report i <> None /\ translates i
  | KnxPanel_t b _ => bMaster (kb_element b) = false -> foreign_ok b
  | KnxSmartPanel_t _ _ => True
  | KnxDimmer_t _ chl => Forall (fun c => forall v, V v -> bright_back v (kp_max (dm_bright c)) <> Undef) chl
  | KnxCurtain_t b _ _ _ => kb_attri b = DEVICE_ATTRI_CONTROLLER -> foreign_ok b
  end.
Definition sound (d : KnxDev) : Prop := typed d /\ hears d.

(** What the functions keep. *)
Record minv s0 s : Prop := {
  mi_devs : Forall (opt_ok sound) (devs s);
  mi_len : length (devs s) = length (devs s0);
  mi_log : exists l, klog s = klog s0 ++ l /\ Forall kev_ok l /\ eib_balance l = 0;
  mi_modbus : I (modbus s);
  mi_same : bound s = bound s0 /\ wq s = wq s0 /\ hq s = hq s0 /\ kheap s = kheap s0
}.

Lemma minv_refl s : Forall (opt_ok sound) (devs s) -> I (modbus s) -> minv s s.
Proof. intros Hd Hi. split; [done|done| |done|done]. exists []. by rewrite app_nil_r. Qed.

Lemma minv_log s0 s l c :
  Forall kev_ok l -> eib_balance l = 0 -> minv s0 s -> minv s0 (with_cloud c (with_log (klog s ++ l) s)).
Proof.
  intros Hl Hb [H1 H2 (l0 & Hl0 & Hf & Hb0) H4 H5]. split; [done|done| |done|done].
  exists (l0 ++ l). cbn. split; [by rewrite Hl0, app_assoc|]. split; [by apply Forall_app|]. rewrite eib_balance_app. lia.
Qed.

(** ** Rules *)

Lemma iwp_report_dp s0 s key o (Q : Z -> kst M -> Prop) :
  dp_ok o -> minv s0 s -> (forall r s', minv s0 s' -> Q r s') -> iwp (report_dp key o) Q s.
Proof. intros Ho Hs HQ. apply HQ. by apply (minv_log _ _ [KReport key o] (tl (cloud s))); [repeat constructor; apply Ho| |]. Qed.

Lemma iwp_hb_fresh s0 s key (Q : Z -> kst M -> Prop) :
  minv s0 s -> (forall r s', minv s0 s' -> Q r s') -> iwp (hb_fresh key) Q s.
Proof. intros Hs HQ. apply HQ. by apply (minv_log _ _ [KFresh key] (tl (cloud s))); [repeat constructor| |]. Qed.

Lemma iwp_active s (Q : bool -> kst M -> Prop) : (forall a, Q a s) -> iwp active Q s.
Proof. intros HQ. apply HQ. Qed.
Lemma iwp_is_bound s key (Q : bool -> kst M -> Prop) : (forall a, Q a s) -> iwp (is_bound key) Q s.
Proof. intros HQ. apply HQ. Qed.

Lemma iwp_upd_dev s0 s i f (Q : unit -> kst M -> Prop) :
  (forall d, sound d -> sound (f d)) -> minv s0 s -> (forall s', minv s0 s' -> Q tt s') -> iwp (upd_dev i f) Q s.
Proof.
  intros Hf [H1 H2 H3 H4 H5] HQ. apply HQ. split; [|by cbn; rewrite length_alter|done..].
  cbn. apply Forall_alter; [done|]. intros [d|] Hd Hok; [by apply Hf|done].
Qed.

Lemma iwp_foreign s b (Q : string -> kst M -> Prop) :
  foreign_ok b -> (forall k, key_ok k -> Q k s) -> iwp (foreign b) Q s.
Proof. intros (k & Hk & Hok) HQ. unfold foreign. rewrite Hk. by apply iwp_ret, HQ. Qed.

Lemma iwp_ModbusWrite s0 s key o (Q : Z -> kst M -> Prop) :
  key_ok key -> dp_ok o -> minv s0 s -> (forall r s', minv s0 s' -> Q r s') -> iwp (ModbusWrite key o) Q s.
Proof.
  intros Hk Ho [H1 H2 H3 H4 H5] HQ. pose proof (modbus_safe key o (modbus s) H4 Hk Ho) as Hw.
  unfold iwp, ModbusWrite in *. destruct (side_write (Some key) (Some o) (modbus s)) as [r m| |]; [|done..].
  by apply HQ.
Qed.

Lemma iwp_loop {A B} (body : nat -> A -> B -> io (kst M) (bool * B)) (J : B -> kst M -> Prop) l i acc s :
  J acc s ->
  (forall j a acc s, l !! j = Some a -> J acc s -> iwp (body (i + j)%nat a acc) (fun r s' => J r.2 s') s) ->
  iwp (loop body i l acc) J s.
Proof.
  revert i acc s. induction l as [|a l IH]; intros i acc s HJ Hb; [done|]. cbn [loop].
  apply iwp_bind. eapply iwp_mono.
  { specialize (Hb 0%nat a acc s eq_refl HJ). rewrite Nat.add_0_r in Hb. exact Hb. }
  intros [[] acc'] s' HJ'; cbn in *; [done|]. apply IH; [done|].
  intros j x acc1 s1 Hj HJ1. specialize (Hb (S j) x acc1 s1 Hj HJ1). by rewrite Nat.add_succ_r in Hb.
Qed.

Lemma iwp_each_dev s0 s body :
  (forall i d ret s', sound d -> minv s0 s' -> iwp (body i d ret) (fun _ s'' => minv s0 s'') s') ->
  minv s0 s -> iwp (each_dev body) (fun _ s' => minv s0 s') s.
Proof.
  intros Hb Hs. unfold each_dev, iwp. apply (iwp_loop _ (fun _ s' => minv s0 s')); [done|].
  intros j [d|] acc s' Hj Hs'; [|by apply iwp_ret].
  apply Hb; [|done]. exact (Forall_lookup_1 _ _ _ _ (mi_devs _ _ Hs) Hj).
Qed.

Lemma iwp_to_cloud s0 s b o ret (Q : Z -> kst M -> Prop) :
  dp_ok o -> minv s0 s -> (forall r s', minv s0 s' -> Q r s') -> iwp (to_cloud b o ret) Q s.
Proof.
  intros Ho Hs HQ. apply iwp_bind, iwp_active. intros [|]; [|by apply iwp_ret, HQ].
  apply iwp_bind, iwp_bind, (iwp_report_dp s0); [done..|]. intros r s1 Hs1. apply iwp_ret.
  apply iwp_bind, (iwp_hb_fresh s0); [done|]. intros r' s2 Hs2. by apply iwp_ret, HQ.
Qed.

Lemma iwp_flagged s0 s b o ret (Q : Z -> kst M -> Prop) :
  foreign_ok b -> dp_ok o -> minv s0 s -> (forall r s', minv s0 s' -> Q r s') -> iwp (flagged b o ret) Q s.
Proof.
  intros Hf Ho Hs HQ. apply iwp_bind, iwp_active. intros [|]; cbn [negb]; [|by apply iwp_ret, HQ].
  apply iwp_bind, iwp_foreign; [done|]. intros k _. apply iwp_bind, iwp_is_bound. intros [|]; [|by apply iwp_ret, HQ].
  apply iwp_bind, (iwp_report_dp s0); [done..|]. intros r s1 Hs1. by apply iwp_ret, HQ.
Qed.

(** A continuation that may end the loop at an unknown master. *)
Lemma iwp_unbound s b (Q : bool * Z -> kst M -> Prop) stop ret (m : io (kst M) (bool * Z)) :
  Q (stop, ret) s -> iwp m Q s ->
  iwp (u ← unbound b; if (u : bool) then mret (stop, ret) else m) Q s.
Proof.
  intros HQ Hm. apply iwp_bind. unfold unbound. destruct (bMaster _); [|by apply iwp_ret].
  apply iwp_bind, iwp_is_bound. intros [|]; by apply iwp_ret.
Qed.

(** ** The bodies, for a telegram *)

Context (pData : KnxDataType_t) (ts : Z).
Hypothesis HV : V (kd_value pData).
Hypothesis Haccepted : bRejected pData = false.

Lemma find_status_some objs points g r p :
  find_status objs points g = Some (r, p) -> obj_at objs (sp_slot r) = Some p.
Proof.
  induction points as [|x points IH]; [done|]. cbn [find_status].
  destruct (obj_at objs (sp_slot x)) as [q|] eqn:E; [|exact IH]. destruct (_ =? 0); [by intros [= <- <-]|exact IH].
Qed.

Lemma sound_set_objs o d : Forall (opt_ok obj_ok) o -> sound d -> sound (set_objs o d).
Proof. intros Ho [[H1 H2] H3]. by destruct d. Qed.

Lemma stamp_ok r p : obj_ok (stamp_value r (kd_value pData) ts p).
Proof. unfold obj_ok. cbn. apply u16_range. Qed.

Lemma iwp_on_status s0 s i d objs points (strict : bool) route ret :
  Forall (opt_ok obj_ok) objs ->
  opt_ok translates (kb_pIf (base_of d)) ->
  (if strict then exists i, kb_pIf (base_of d) = Some i /\ report i <> None else True) ->
  (forall flag o ret s, dp_ok o -> minv s0 s -> iwp (route (base_of d) flag o ret) (fun _ s' => minv s0 s') s) ->
  minv s0 s -> iwp (on_status i d objs points strict route pData ts ret) (fun _ s' => minv s0 s') s.
Proof.
  intros Ho Ht Hs Hr Hm. unfold on_status. cbv zeta.
  destruct (find_status _ _ _) as [[r p]|] eqn:E; [|by apply iwp_ret].
  apply find_status_some in E.
  apply iwp_bind, (iwp_upd_dev s0).
  { intros d'. apply sound_set_objs. apply Forall_insert; [done|]. apply stamp_ok. }
  { done. }
  intros s1 Hm1. destruct (kb_pIf (base_of d)) as [f|] eqn:Ef.
  - destruct (report f) as [rep|] eqn:Er.
    + destruct (Ht rep (stamp_value r (kd_value pData) ts p) 
        (raw_dp r (stamp_value r (kd_value pData) ts p) (kd_value pData)) Er) as (x & o' & E' & Ho').
      { cbn. by rewrite u16_small by (by apply Hvalues). }
      { unfold raw_dp, dp_ok. cbn. split; [apply u8_range|]. split; [done|]. pose proof (Hvalues _ HV). destruct (sp_raw r); lia. }
      unfold translate. rewrite E'. cbn [obind].
      apply iwp_bind, iwp_ret, iwp_bind. eapply iwp_mono; [by apply Hr|]. intros x' s2 Hm2. by apply iwp_ret.
    + destruct strict; [|by apply iwp_ret]. destruct Hs as (i' & [= <-] & Hs). done.
  - destruct strict; [|by apply iwp_ret]. by destruct Hs as (i' & [=] & _).
Qed.

(** The routes, for a device that is a master or stands for a known one. *)
Lemma iwp_acd_route s0 s b flag o ret :
  (bMaster (kb_element b) = false -> foreign_ok b) -> dp_ok o -> minv s0 s ->
  iwp (acd_route b flag o ret) (fun _ s' => minv s0 s') s.
Proof.
  intros Hf Ho Hm. unfold acd_route. destruct (bMaster _); [by apply (iwp_to_cloud s0)|].
  destruct flag; [by apply (iwp_flagged s0); [apply Hf| | |]|]. cbn [negb].
  apply iwp_bind, iwp_foreign; [by apply Hf|]. intros k Hk. by apply (iwp_ModbusWrite s0).
Qed.

Lemma iwp_vent_route s0 s b flag o ret :
  (bMaster (kb_element b) = false -> foreign_ok b) -> dp_ok o -> minv s0 s ->
  iwp (vent_route b flag o ret) (fun _ s' => minv s0 s') s.
Proof.
  intros Hf Ho Hm. unfold vent_route. destruct (bMaster _); [by apply (iwp_to_cloud s0)|].
  destruct flag; [by apply (iwp_flagged s0); [apply Hf| | |]|]. cbn [negb].
  apply iwp_bind, iwp_foreign; [by apply Hf|]. intros k Hk. apply iwp_bind, (iwp_ModbusWrite s0); [done..|].
  intros r s' Hm'. by apply iwp_ret.
Qed.

(** The structure the code casts to. *)
Lemma typed_objs ty d : typed d -> type_of d = ty ->
  ty = KNX_DEVICE_AIRCONDITION \/ ty = KNX_DEVICE_VENTILATION \/ ty = KNX_DEVICE_FLOORHEATING ->
  exists o, objs_of ty d = Some o /\ Forall (opt_ok obj_ok) o /\ 
    kind d = if ty =? KNX_DEVICE_AIRCONDITION then 0%nat else if ty =? KNX_DEVICE_VENTILATION then 1%nat else 2%nat.
Proof.
  intros [Hs Ho] E Ht. destruct Ht as [-> | [-> | ->]]; destruct d; cbn [shape_ok] in Hs; rewrite E in Hs;
    try discriminate Hs; (eexists; split; [reflexivity|by split]).
Qed.

Lemma iwp_acd_dev s0 s i d ret : sound d -> minv s0 s -> iwp (acd_dev pData ts i d ret) (fun _ s' => minv s0 s') s.
Proof.
  intros [Ht Hh] Hm. unfold acd_dev. destruct (type_of d =? _) eqn:E; cbn [negb]; [bprop|by apply iwp_ret].
  apply iwp_unbound; [done|]. destruct (typed_objs _ _ Ht E) as (o & Eo & Ho & Hk); [by left|].
  rewrite Eo. destruct d; try done. apply iwp_on_status; try done; [apply Hh|].
  intros flag x r s1 Hx Hm1. by apply iwp_acd_route; [apply Hh| |].
Qed.

Lemma iwp_vent_dev s0 s i d ret : sound d -> minv s0 s -> iwp (vent_dev pData ts i d ret) (fun _ s' => minv s0 s') s.
Proof.
  intros [Ht Hh] Hm. unfold vent_dev. destruct (type_of d =? _) eqn:E; cbn [negb]; [bprop|by apply iwp_ret].
  apply iwp_unbound; [done|]. destruct (typed_objs _ _ Ht E) as (o & Eo & Ho & Hk); [by right; left|].
  rewrite Eo. destruct d; try done. apply iwp_on_status; try done; [apply Hh|].
  intros flag x r s1 Hx Hm1. by apply iwp_vent_route; [apply Hh| |].
Qed.

Lemma iwp_heat_dev s0 s i d ret : sound d -> minv s0 s -> iwp (heat_dev pData ts i d ret) (fun _ s' => minv s0 s') s.
Proof.
  intros [Ht Hh] Hm. unfold heat_dev. destruct (type_of d =? _) eqn:E; cbn [negb]; [bprop|by apply iwp_ret].
  apply iwp_unbound; [done|]. rewrite Haccepted. cbn [andb].
  destruct (typed_objs _ _ Ht E) as (o & Eo & Ho & Hk); [by right; right|].
  rewrite Eo. destruct d; try done. destruct Hh as (f & Ef & Hr & Hf). cbn [base_of] in *.
  apply iwp_on_status; try done; cbn [base_of]; [by rewrite Ef|by exists f|].
  intros flag x r s1 Hx Hm1. unfold heat_route. cbn [base_of].
  destruct (bMaster _); [by apply (iwp_to_cloud s0)|by apply iwp_ret].
Qed.

(** A loop over the keys of a device. *)
Lemma iwp_keys {A} s0 s (body : nat -> A -> Z -> io (kst M) (bool * Z)) l ret :
  (forall j a ret s, l !! j = Some a -> minv s0 s -> iwp (body j a ret) (fun _ s' => minv s0 s') s) ->
  minv s0 s -> iwp (ret ← loop body 0 l ret; mret (false, ret)) (fun _ s' => minv s0 s') s.
Proof.
  intros Hb Hm. apply iwp_bind. eapply iwp_mono.
  - apply (iwp_loop _ (fun _ s' => minv s0 s')); [done|]. intros j a acc s1 Ha Hm1. by apply Hb.
  - intros r s1 Hm1. by apply iwp_ret.
Qed.

Lemma iwp_to_cloud' s0 s b o ret : dp_ok o -> minv s0 s ->
  iwp (ret ← to_cloud b o ret; mret (false, ret)) (fun _ s' => minv s0 s') s.
Proof. intros Ho Hm. apply iwp_bind, (iwp_to_cloud s0); [done..|]. intros r s1 Hm1. by apply iwp_ret. Qed.

Lemma bool_dp_ok k : dp_ok (bool_dp k pData).
Proof. apply put_dp_bool_ok. split; [apply u8_range|]. by split. Qed.

(** The structure of a device of a range of types. *)
Lemma kind_of d n : typed d -> n = kind d -> match n with
  | 3%nat => exists b keys, d = KnxPanel_t b keys
  | 4%nat => exists b chl, d = KnxSmartPanel_t b chl
  | 5%nat => exists b chl, d = KnxDimmer_t b chl
  | 6%nat => exists b x y z, d = KnxCurtain_t b x y z
  | _ => True
  end.
Proof. intros _ ->. destruct d; cbn; eauto. Qed.

Lemma iwp_panel_report_dev s0 s i d ret :
  sound d -> minv s0 s -> iwp (panel_report_dev pData ts i d ret) (fun _ s' => minv s0 s') s.
Proof.
  intros [Ht Hh] Hm. unfold panel_report_dev. apply iwp_unbound; [done|].
  destruct (kind_type d (proj1 Ht)) as (_ & _ & _ & -> & _).
  destruct (kind d =? 3)%nat eqn:E; cbn [negb]; [|by apply iwp_ret]. apply Nat.eqb_eq in E.
  destruct (kind_of d 3 Ht (eq_sym E)) as (b & keys & ->). apply iwp_keys; [|done].
  intros j k r s1 Hk Hm1. unfold panel_key_report. destruct (same_group _ _); cbn [negb]; [|by apply iwp_ret].
  apply iwp_bind, (iwp_upd_dev s0); [|done|].
  { intros [b' o|b' o|b' o|b' l|b' l|b' l|b' x y z] Hs; try exact Hs. destruct Hs as [[Hs1 Hs2] Hs3]. split; [split|]; try done.
    cbn. apply Forall_alter; [exact Hs2|]. intros x _ _. apply put_b1_range. }
  intros s2 Hm2. pose proof (bool_dp_ok k) as Ho. destruct (bMaster _) eqn:Em; cbn [negb]; [by apply iwp_to_cloud'|].
  apply iwp_bind, iwp_foreign; [by apply Hh|]. intros key Hkey.
  apply iwp_bind, (iwp_ModbusWrite s0); [done| |done|].
  - destruct Ho as (H1 & H2 & H3). split; [exact H1|]. split; [exact H2|]. apply u32_range.
  - intros r' s3 Hm3. by apply iwp_ret.
Qed.

Lemma iwp_smart_report_dev s0 s i d ret :
  sound d -> minv s0 s -> iwp (smart_report_dev pData ts i d ret) (fun _ s' => minv s0 s') s.
Proof.
  intros [Ht Hh] Hm. unfold smart_report_dev. apply iwp_unbound; [done|].
  destruct (kind_type d (proj1 Ht)) as (_ & _ & _ & _ & -> & _).
  destruct (kind d =? 4)%nat eqn:E; cbn [negb]; [|by apply iwp_ret]. apply Nat.eqb_eq in E.
  destruct (kind_of d 4 Ht (eq_sym E)) as (b & chl & ->). apply iwp_keys; [|done].
  intros j c r s1 Hk Hm1. unfold smart_chl_report. destruct (same_group _ _); cbn [negb]; [|by apply iwp_ret].
  apply iwp_bind, (iwp_upd_dev s0); [|done|].
  { intros [b' o|b' o|b' o|b' l|b' l|b' l|b' x y z] Hs; try exact Hs. destruct Hs as [[Hs1 Hs2] Hs3]. split; [split|]; try done.
    cbn. apply Forall_alter; [exact Hs2|]. intros x _ _. apply put_b1_range. }
  intros s2 Hm2. apply iwp_to_cloud'; [apply bool_dp_ok|done].
Qed.

(** A channel of a dimmer. *)
Definition chl_sound (c : KnxDimmerPoint_t) : Prop :=
  (0 <= kp_value (dm_key c) < 2 ^ 32 /\ 0 <= kp_value (dm_bright c) < 2 ^ 32) /\
  forall v, V v -> bright_back v (kp_max (dm_bright c)) <> Undef.

Lemma sound_dimmer b chl : sound (KnxDimmer_t b chl) <-> shape_ok (KnxDimmer_t b chl) /\ Forall chl_sound chl.
Proof.
  split.
  - intros [[H1 H2] H3]. split; [exact H1|]. apply Forall_and. by split.
  - intros [H1 H2]. apply Forall_and in H2 as [H2 H3]. by repeat split.
Qed.

Lemma iwp_upd_chl s0 s i j f (Q : unit -> kst M -> Prop) :
  (forall c, chl_sound c -> chl_sound (f c)) -> minv s0 s -> (forall s', minv s0 s' -> Q tt s') -> iwp (upd_chl i j f) Q s.
Proof.
  intros Hf Hm HQ. apply (iwp_upd_dev s0); [|done|done].
  intros [b' o|b' o|b' o|b' l|b' l|b' l|b' x y z] Hs; try exact Hs.
  apply sound_dimmer in Hs as [Hs Hl]. apply sound_dimmer. split; [exact Hs|].
  apply Forall_alter; [done|]. intros c _. apply Hf.
Qed.

Lemma iwp_dim_route s0 s b o ret (Q : next * Z -> kst M -> Prop) :
  dp_ok o -> minv s0 s -> (forall r s', minv s0 s' -> Q r s') -> iwp (dim_route b o ret) Q s.
Proof.
  intros Ho Hm HQ. unfold dim_route. destruct (kb_attri b =? _); cbn [negb]; [|by apply iwp_ret, HQ].
  apply iwp_bind, iwp_active. intros [|]; cbn [negb]; [|by apply iwp_ret, HQ].
  apply iwp_bind, iwp_bind, (iwp_report_dp s0); [done..|]. intros r s1 Hs1. apply iwp_ret.
  apply iwp_bind, (iwp_hb_fresh s0); [done|]. intros r' s2 Hs2. by apply iwp_ret, HQ.
Qed.

Lemma bright_back_range v max : bright_back v max <> Undef -> exists w, bright_back v max = Done w /\ 0 <= w < 65536.
Proof.
  unfold bright_back, to_int. destruct (int_of _) as [x|]; cbn [obind]; [|done].
  destruct (sf_trunc _) as [w|]; cbn [obind]; [|done]. destruct (_ && _) eqn:E; [|done]. bprop.
  intros _. exists w. split; [done|lia].
Qed.

Lemma iwp_dim_bright s0 s i b j c o ret (Q : next * Z * ty_obj_dp_s -> kst M -> Prop) :
  chl_sound c -> dp_ok o -> minv s0 s -> (forall r s', dp_ok r.2 -> minv s0 s' -> Q r s') ->
  iwp (dim_bright_report i b pData j c o ret) Q s.
Proof.
  intros [_ Hc] Ho Hm HQ. unfold dim_bright_report. cbv zeta. destruct (same_group _ _); cbn [negb]; [|by apply iwp_ret, HQ].
  destruct (bright_back_range _ _ (Hc _ HV)) as (v & -> & Hv).
  apply iwp_bind, iwp_ret, iwp_bind, (iwp_upd_chl s0); [|done|].
  { intros c' [[H1 H2] H3]. split; [split; [exact H1|]|exact H3]. apply put_u16_range. }
  intros s1 Hm1. apply iwp_bind, (iwp_dim_route s0); [|done|].
  { split; [apply u8_range|]. split; [done|]. cbn. lia. }
  intros r s2 Hm2. apply iwp_ret, HQ; [|done]. split; [apply u8_range|]. split; [done|]. cbn. lia.
Qed.

Lemma iwp_dim_key s0 s i b j c o ret (Q : next * Z -> kst M -> Prop) :
  dp_ok o -> minv s0 s -> (forall r s', minv s0 s' -> Q r s') -> iwp (dim_key_report i b pData j c o ret) Q s.
Proof.
  intros Ho Hm HQ. unfold dim_key_report. cbv zeta. destruct (same_group _ _); cbn [negb]; [|by apply iwp_ret, HQ].
  rewrite Haccepted. apply iwp_bind, (iwp_upd_chl s0); [|done|].
  { intros c' [[H1 H2] H3]. split; [split; [|exact H2]|exact H3]. apply put_b1_range. }
  intros s1 Hm1. apply (iwp_dim_route s0); [|done..].
  apply put_dp_bool_ok. split; [apply u8_range|]. split; [done|]. apply Ho.
Qed.

Lemma iwp_dim_report_dev s0 s i d ret :
  sound d -> minv s0 s -> iwp (dim_report_dev pData i d ret) (fun _ s' => minv s0 s') s.
Proof.
  intros Hd Hm. unfold dim_report_dev. apply iwp_unbound; [done|]. pose proof (proj1 Hd) as Ht.
  destruct (kind_type d (proj1 Ht)) as (_ & _ & _ & _ & _ & -> & _).
  destruct (kind d =? 5)%nat eqn:E; cbn [negb]; [|by apply iwp_ret]. apply Nat.eqb_eq in E.
  destruct (kind_of d 5 Ht (eq_sym E)) as (b & chl & ->). apply sound_dimmer in Hd as [_ Hl]. apply iwp_keys; [|done].
  intros j c r s1 Hc Hm1. pose proof (Forall_lookup_1 _ _ _ _ Hl Hc) as Hok.
  apply iwp_bind, (iwp_dim_bright s0); [done|by repeat split|done|].
  intros [[[] r2] o] s2 Ho Hm2; try by apply iwp_ret.
  apply iwp_bind, (iwp_dim_key s0); [exact Ho|done|]. intros r3 s3 Hm3. by apply iwp_ret.
Qed.

(** The object a curtain makes of the telegram. *)
Lemma curtain_point_ok k w v o k' o' :
  curtain_point k pData w v o = (k', o') -> 0 <= v < 2 ^ 32 ->
  opt_ok (fun k => 0 <= kp_value k < 2 ^ 32) k -> dp_ok o ->
  opt_ok (fun k => 0 <= kp_value k < 2 ^ 32) k' /\ dp_ok o'.
Proof.
  unfold curtain_point. destruct k as [p|]; [destruct (_ && _)|]; intros [= <- <-] Hv Hk Ho; try done.
  split; [apply u32_range|]. split; [apply u8_range|]. split; [apply Ho|exact Hv].
Qed.

Lemma iwp_curtain_report_dev s0 s i d ret :
  sound d -> minv s0 s -> iwp (curtain_report_dev pData i d ret) (fun _ s' => minv s0 s') s.
Proof.
  intros [Ht Hh] Hm. unfold curtain_report_dev.
  destruct (kind_type d (proj1 Ht)) as (_ & _ & _ & _ & _ & _ & ->).
  destruct (kind d =? 6)%nat eqn:E; cbn [negb]; [|by apply iwp_ret]. apply Nat.eqb_eq in E.
  destruct (kind_of d 6 Ht (eq_sym E)) as (b & x & y & z & ->). destruct Ht as [Hs Hk].
  apply Forall_cons in Hk as [Hx Hk]. apply Forall_cons in Hk as [Hy Hk]. apply Forall_cons in Hk as [Hz _].
  destruct (curtain_point x _ _ _ _) as [x' o1] eqn:E1. destruct (curtain_point y _ _ _ _) as [y' o2] eqn:E2.
  destruct (curtain_point z _ _ _ _) as [z' o] eqn:E3.
  apply curtain_point_ok in E1 as [Hx' Ho1]; [|done|done|by repeat split].
  apply curtain_point_ok in E2 as [Hy' Ho2]; [|done..]. apply curtain_point_ok in E3 as [Hz' Ho]; [|done..].
  apply iwp_bind, (iwp_upd_dev s0); [|done|].
  { intros _ _. split; [split; [exact Hs|]|exact Hh]. by repeat constructor. }
  intros s1 Hm1. destruct (dpid o =? 0); [by apply iwp_ret|].
  destruct (kb_attri b =? DEVICE_ATTRI_CONTROLLER) eqn:Ea; bprop.
  - apply iwp_bind, iwp_foreign; [by apply Hh|]. intros key Hkey.
    apply iwp_bind, (iwp_ModbusWrite s0); [done..|]. intros r s2 Hm2. by apply iwp_ret.
  - destruct (_ =? _); [|by apply iwp_ret]. destruct (bMaster _); [by apply iwp_to_cloud'|by apply iwp_ret].
Qed.

(** ** The packet *)

(** A report function, then the rest. *)
Lemma iwp_report s0 s body (m : io (kst M) unit) (Q : unit -> kst M -> Prop) :
  (forall i d ret s', sound d -> minv s0 s' -> iwp (body i d ret) (fun _ s'' => minv s0 s'') s') ->
  minv s0 s -> (forall s', minv s0 s' -> iwp m Q s') -> iwp (_ ← each_dev body; m) Q s.
Proof.
  intros Hb Hs HQ. apply iwp_bind. eapply iwp_mono; [by apply (iwp_each_dev s0)|]. intros r s' Hs'. by apply HQ.
Qed.

Lemma monitor_packet_safe s :
  Forall (opt_ok sound) (devs s) -> I (modbus s) ->
  iwp (monitor_packet pData ts) (fun _ s' =>
    Forall (opt_ok sound) (devs s') /\ length (devs s') = length (devs s) /\
    (exists l, klog s' = klog s ++ l /\ Forall kev_ok l /\ eib_balance l = 0) /\ I (modbus s') /\
    bound s' = bound s /\ wq s' = wq s /\ hq s' = hq s /\ live (kheap s') = live (kheap s) - 1) s.
Proof.
  intros Hd Hi. pose proof (minv_refl s Hd Hi) as Hm. unfold monitor_packet.
  apply (iwp_report s); [intros *; apply iwp_acd_dev|exact Hm|clear Hm; intros s1 Hm].
  apply (iwp_report s); [intros *; apply iwp_vent_dev|exact Hm|clear Hm; intros s2 Hm].
  apply (iwp_report s); [intros *; apply iwp_heat_dev|exact Hm|clear Hm; intros s3 Hm].
  apply (iwp_report s); [intros *; apply iwp_panel_report_dev|exact Hm|clear Hm; intros s4 Hm].
  apply (iwp_report s); [intros *; apply iwp_smart_report_dev|exact Hm|clear Hm; intros s5 Hm].
  apply (iwp_report s); [intros *; apply iwp_dim_report_dev|exact Hm|clear Hm; intros s6 Hm].
  apply (iwp_report s); [intros *; apply iwp_curtain_report_dev|exact Hm|clear Hm; intros s7 Hm].
  destruct Hm as [H1 H2 H3 H4 (H5 & H6 & H7 & H8)].
  unfold iwp, on_heap. cbn. rewrite H8. by split_and!.
Qed.
End Monitor.
