(* ===== verification/Composed.v ===== *)
(** The two sides of the gateway together: ModbusDevWrite (ModbusWrite.v)
    implements the interface the KNX monitor thread relies on (KnxMonitor.v).

    A write changes of the device list one counter, [lostCnt] of the device
    written to; everything the next write needs of the list, of the ports and of
    the plugins is still there. *)

From S2P Require Import Prelude CMem CStr Device Queue PluginApi VentPlugins Dpt9 KnxPlugins KnxAddr KnxPacket Serial Nodes ModbusWrite KnxDevs KnxCtrl KnxReport KnxLoop KnxMonitor.

Local Open Scope string_scope.
Local Open Scope list_scope.
Local Open Scope Z_scope.

(** ** What a write changes of the device list *)

Section Nodes.
Context {P : Type}.
Implicit Types s : gst P.

Definition same_nodes {A} (m : io (gst P) A) : Prop := forall s a s', m s = Ran a s' -> gnodes s' = gnodes s.

Lemma same_ret {A} (a : A) : same_nodes (mret a).
Proof. by intros s b s' [= _ <-]. Qed.
Lemma same_fault {A} : same_nodes (A := A) fault.
Proof. done. Qed.
Lemma same_bind {A B} (m : io (gst P) A) (f : A -> io (gst P) B) :
  same_nodes m -> (forall a, same_nodes (f a)) -> same_nodes (m ≫= f).
Proof.
  intros Hm Hf s b s' H. apply io_inv in H as (a & s1 & H1 & H2).
  etransitivity; [exact (Hf _ _ _ _ H2)|exact (Hm _ _ _ H1)].
Qed.
Lemma same_ports_only {A} (m : io world A) : same_nodes (on_ports m).
Proof. intros s a s' H. by apply on_ports_inv in H as (w & _ & ->). Qed.
Lemma same_env_only {A} (m : C (env P) A) : same_nodes (on_env m).
Proof. intros s a s'. unfold on_env. destruct (m _) as [[b e]|]; [|done]. by intros [= _ <-]. Qed.
Lemma same_note e : same_nodes (ModbusWrite.note e).
Proof. by intros s a s' [= _ <-]. Qed.
Lemma same_active : same_nodes is_active.
Proof. by intros s a s' [= _ <-]. Qed.
#[local] Hint Resolve same_ret same_fault same_bind same_ports_only same_env_only same_note same_active : core.

Ltac same_auto :=
  repeat match goal with
  | |- same_nodes (_ ≫= _) => apply same_bind; [|intros ?]
  | |- same_nodes (if ?b then _ else _) => destruct b
  | |- same_nodes (match ?o with _ => _ end) => destruct o
  end; auto.

Lemma same_free m : same_nodes (free_msg m).
Proof. unfold free_msg. same_auto. Qed.
Lemma same_build f b g n o : same_nodes (call_build f b g n o).
Proof. unfold call_build. same_auto. Qed.
#[local] Hint Resolve same_free same_build : core.
Lemma same_pass b o : same_nodes (pass_on b o).
Proof. unfold pass_on. same_auto. Qed.
Lemma same_members n ms o : same_nodes (write_members n ms o).
Proof. induction ms as [|b ms IH]; cbn [write_members]; same_auto. Qed.

(** A counter of a device, or nothing. *)
Definition with_lost (c : Z) (n : Node P) : Node P := set_base (set_lostCnt c (base n)) n.
Definition counted i (n : Node P) s s' : Prop :=
  gnodes s' = gnodes s \/ exists c, gnodes s' = <[i := Some (with_lost c n)]> (gnodes s).

Lemma head_counted i n f o s r s' : write_head i n f o s = Ran r s' -> counted i n s s'.
Proof.
  unfold write_head. intros H. io_case H ret s1 H1. apply same_ports_only in H1.
  destruct (negb _); [injection H as _ <-; by left|].
  io_case H msg s2 H2. apply same_build in H2.
  destruct msg as [m|]; [|left; rewrite <- H1, <- H2; refine (same_bind _ _ _ _ _ _ _ H); auto].
  unfold deliver in H. destruct (bad_msg m).
  { left. rewrite <- H1, <- H2. refine (same_bind _ _ _ _ _ _ _ H); [auto|same_auto]. }
  io_case H u s3 H3. apply same_ports_only in H3. io_case H u' s4 H4. injection H4 as _ <-.
  right. exists (lost_step (lostCnt (base n))). unfold with_lost. rewrite <- H1, <- H2, <- H3.
  refine (same_bind _ _ _ _ (G _ _ _ _ _) _ _ H); same_auto.
Qed.

Lemma write_counted key o s r s' : ModbusDevWrite (Some key) (Some o) s = Ran r s' ->
  gnodes s' = gnodes s \/ exists i n, gnodes s !! i = Some (Some n) /\ counted i n s s'.
Proof.
  unfold ModbusDevWrite. destruct (dev_id key) as [[id|]|]; [|intros [= _ <-]; by left|done].
  intros H. io_case H x s1 H1. injection H1 as <- <-. destruct (listSearchKey _ _) as [i|]; [|injection H as _ <-; by left].
  io_case H n s1 H1. unfold get_node in H1. destruct (gnodes s !! i) as [[n'|]|] eqn:En; [|done..].
  injection H1 as -> <-. destruct (pIf (base n)) as [f|]; [|injection H as _ <-; by left].
  destruct (can_build f); cbn [negb] in H; [|injection H as _ <-; by left].
  destruct (pSerial (base n)); [|injection H as _ <-; by left].
  io_case H stop s1 H1. apply head_counted in H1.
  right. exists i, n. split; [done|]. unfold counted in *.
  destruct stop as [r'|]; [injection H as _ <-; exact H1|].
  rewrite (same_bind _ _ (same_pass _ _) (fun _ => same_members _ _ _) _ _ _ H). exact H1.
Qed.

Lemma search_insert (l : list (option (Node P))) i n n' id :
  l !! i = Some (Some n) -> devId (element (base n')) = devId (element (base n)) ->
  listSearchKey (<[i := Some n']> l) id = listSearchKey l id.
Proof.
  intros Hi Hid. revert i Hi. induction l as [|x l IH]; intros [|i] Hi; [done..| |]; cbn in *.
  - injection Hi as ->. cbn. by rewrite Hid.
  - by rewrite IH.
Qed.
End Nodes.

(** ** What the monitor needs of the Modbus side *)

Section Side.
Context {P : Type} (inv : P -> Prop)
  (bpre : Z -> Z -> option MbusNode -> option ty_obj_dp_s -> Prop)
  (ok : Z -> list Z -> Prop)
  (ppre : Z -> Z -> option MbusNode -> list Z -> Z -> Prop) (leak : Z) (okf : list Z -> Prop).
Implicit Types s : gst P.

Definition ready_for s (n : Node P) : Prop :=
  forall o, KnxCtrl.dp_ok o -> Forall (ready inv bpre ok ppre leak okf s n o) (base n :: members n).

(** The device of the key is in the list, on a port, with a plugin that may be
    given any object, and so are the members of its group. *)
Definition writable s (key : string) : Prop := exists id i n f j p m,
  dev_id key = Done (Some id) /\ listSearchKey (gnodes s) id = Some i /\ gnodes s !! i = Some (Some n) /\
  pIf (base n) = Some f /\ pSerial (base n) = Some j /\ at_port s j p m /\ ready_for s n.

(** With [n] blocks of memory live, and only frames of [okf] sent so far. *)
Record side_ok (keys : string -> Prop) (n : Z) s : Prop := {
  so_ports : ports_ok (ports s);
  so_inv : inv (st (penv s));
  so_keys : forall key, keys key -> writable s key;
  so_live : live (mem (penv s)) = n;
  so_sent : Forall (sent_ok okf) (trace (ports s))
}.

Lemma ready_for_lost s s' n c :
  same_ports (ports s) (ports s') -> ready_for s n -> ready_for s' (with_lost c n).
Proof.
  intros Hs Hn o Ho. specialize (Hn o Ho). apply Forall_cons in Hn as [Hh Hm]. apply Forall_cons. split.
  - exact (ready_step _ _ _ _ _ _ _ _ _ _ _ Hs Hh).
  - eapply Forall_impl; [exact Hm|]. intros b Hb. exact (ready_step _ _ _ _ _ _ _ _ _ _ _ Hs Hb).
Qed.

Lemma with_lost_same n : with_lost (P := P) (lostCnt (base n)) n = n.
Proof. by destruct n as [[] ? ?]. Qed.

Lemma writable_step s s' key :
  same_ports (ports s) (ports s') ->
  (gnodes s' = gnodes s \/ exists i n, gnodes s !! i = Some (Some n) /\ counted i n s s') ->
  writable s key -> writable s' key.
Proof.
  intros Hs Hg (id & i & n & f & j & p & m & Hid & Hi & Hn & Hf & Hj & Hp & Hr).
  destruct (at_port_step _ _ _ _ _ Hs Hp) as (p' & Hp' & _).
  assert (exists c, gnodes s' !! i = Some (Some (with_lost c n)) /\ listSearchKey (gnodes s') id = Some i) as (c & Hn' & Hi').
  { destruct Hg as [->|(k & x & Hk & [->|(c & ->)])]; [exists (lostCnt (base n)); by rewrite with_lost_same..|].
    rewrite (search_insert _ _ x) by done. destruct (decide (k = i)) as [->|Hne].
    - exists c. rewrite list_lookup_insert_eq by (by apply lookup_lt_Some in Hn). by simplify_eq.
    - exists (lostCnt (base n)). by rewrite list_lookup_insert_ne, with_lost_same. }
  exists id, i, (with_lost c n), f, j, p', m. split_and!; try done. by apply (ready_for_lost s).
Qed.

(** ModbusDevWrite keeps it: the writes that follow are safe as well. *)
#[export] Instance gateway_modbus_safe keys n : ModbusSafe (gst P) (side_ok keys n) keys.
Proof.
  intros key o s [Hw Hi Hk Hl Ht] Hkey Ho.
  destruct (Hk key Hkey) as (id & i & nd & f & j & p & m & Hid & Hse & Hn & Hf & Hj & Hp & Hr).
  pose proof (iwp_ModbusDevWrite inv bpre ok ppre leak okf s key id i nd f j p m o Hid Hse Hn Hw Hi Hf Hj Hp (Hr o Ho)) as H.
  cbn [side_write gst_side]. pose proof (write_counted key o s) as Hc. unfold iwp in *.
  destruct (ModbusDevWrite (Some key) (Some o) s) as [r s'| |] eqn:E; [|done..].
  destruct H as ([H1 H2 H3 H4 (tr & Et & H5)] & _ & _).
  split; [exact H1|exact H3| |lia|rewrite Et; by apply Forall_app].
  intros key' Hkey'. apply (writable_step s); [exact H2|by apply (Hc r)|by apply Hk].
Qed.

(** ** The loop of KNX_DevMonitorEntry

    The packets of its queue, each with the time of its turn. *)
Fixpoint monitor_packets (l : list (KnxDataType_t * Z)) : io (kst (gst P)) unit :=
  match l with
  | [] => mret tt
  | (d, ts) :: l => _ ← monitor_packet d ts; monitor_packets l
  end.

End Side.

(** ** A panel for a ventilation

    A ventilation of the bus that stands for the group of two DTouch devices of
    ModbusWrite.v, and an air conditioner of its own. *)
Definition v_twin : KnxDev :=
  KnxVent_t (KBase (Some Vent_STEC.KNX_Ventilation_STEC)
    (Element "dev.knx.ven.5" 5 KNX_DEVICE_VENTILATION false (Some dt_key)) DEVICE_ATTRI_CONTROLLER true 0)
    [None; Some (KnxObj VENT_SWITCH_STATUS 0 39 "1/5/1" 0); None; Some (KnxObj VENT_SPEED_STATUS 0 40 "1/5/2" 0); None; None].
Definition c_state (plan : list bool) : kst (gst unit) :=
  K [Some v_twin; Some k_acd] [] [] (fun _ => true) [] [] [] (Heap [] 2) 0 (dt_state plan).

