(* ===== verification/Xml.v ===== *)
(** What the configuration parsers share (source/parseXML.c).

    The documents are read with libxml2, which is outside the program: [LibXml]
    are its functions, of which only what the names of elements are compared by is
    assumed.  The parsers see the trees it makes.

    A parser may end the process ([Exited]), repeat one round of a loop for ever
    ([Hung]) or do what C leaves undefined ([Crashed]). *)

From stdpp Require Import pretty.
From S2P Require Import Prelude CMem CStr Device Serial.

Local Open Scope string_scope.
Local Open Scope list_scope.
Local Open Scope Z_scope.

(** ** Trees

    A node is an element or holds text; [x_attrs] are its attributes, [x_kids] its children in their order ([xmlChildrenNode], then [next]). *)

Inductive xnode := XNode {
  is_elem : bool;
  x_name : string;
  x_content : option string;
  x_attrs : list (string * string);
  x_kids : list xnode
}.

(** [xmlXPathEval] gives the nodes of the set, none when it is empty or the
    evaluation fails. *)
Class LibXml := {
  xmlDoc : Type;
  xmlReadFile : string -> option xmlDoc;
  xmlXPathEval : xmlDoc -> string -> list xnode;
  xmlStrcasecmp : string -> string -> Z;
  xmlGetProp : xnode -> string -> option string
}.

(** The comparison ignores the case of the letters of ASCII; of an attribute the
    text is found by its name. *)
Definition lower_char (a : Ascii.ascii) : Ascii.ascii :=
  let n := Ascii.nat_of_ascii a in
  if (65 <=? n)%nat && (n <=? 90)%nat then Ascii.ascii_of_nat (n + 32) else a.
Fixpoint lower (s : string) : string :=
  match s with EmptyString => EmptyString | String a s => String (lower_char a) (lower s) end.
Fixpoint find_text {A} (l : list (string * A)) (a : string) : option A :=
  match l with
  | [] => None
  | (b, v) :: l => if String.eqb a b then Some v else find_text l a
  end.
Class LibXmlOk `{LibXml} : Prop := {
  strcasecmp_ok : forall a b, xmlStrcasecmp a b = 0 <-> lower a = lower b;
  getprop_ok : forall x a, xmlGetProp x a = find_text (x_attrs x) a
}.

(** A library over given files: each is the list of its sets of nodes, by their
    expressions. *)
Definition tree_lib (files : list (string * list (string * list xnode))) : LibXml := {|
  xmlDoc := list (string * list xnode);
  xmlReadFile := find_text files;
  xmlXPathEval d e := default [] (find_text d e);
  xmlStrcasecmp a b := if String.eqb (lower a) (lower b) then 0 else 1;
  xmlGetProp x a := find_text (x_attrs x) a
|}.
#[export] Instance tree_lib_ok files : @LibXmlOk (tree_lib files).
Proof.
  split; [|done]. intros a b. cbn. destruct (String.eqb_spec (lower a) (lower b)); [done|]. split; [done|].
  by intros.
Qed.

(** ** The state of a parser

    [p_list] is the list the devices are added to, [p_ports] the world of the
    serial ports. *)

Inductive stop := Exited | Hung | Crashed.
Inductive pres (S A : Type) := Got (a : A) (s : S) | Stopped (w : stop).
Arguments Got {S A}.
Arguments Stopped {S A}.
Definition par (S A : Type) : Type := S -> pres S A.

#[export] Instance par_ret S : MRet (par S) := fun A a s => Got a s.
#[export] Instance par_bind S : MBind (par S) :=
  fun A B f m s => match m s with Got a s' => f a s' | Stopped w => Stopped w end.
Definition stopped {S A} (w : stop) : par S A := fun _ => Stopped w.

Record pst (D : Type) := PSt { p_list : list D; p_ports : world; p_heap : heap }.
Arguments PSt {D}.
Arguments p_list {D}.
Arguments p_ports {D}.
Arguments p_heap {D}.

Section Parser.
Context {D : Type}.
Implicit Types s : pst D.

Definition with_plist l s : pst D := PSt l (p_ports s) (p_heap s).
Definition with_pports w s : pst D := PSt (p_list s) w (p_heap s).
Definition with_pheap h s : pst D := PSt (p_list s) (p_ports s) h.

(** [false]: the allocation failed. *)
Definition pcalloc : par (pst D) bool := fun s =>
  match calloc (Env (p_heap s) tt) with Done (ok, e) => Got ok (with_pheap (mem e) s) | Undef => Stopped Crashed end.
Definition pfree : par (pst D) unit := fun s =>
  match free (Env (p_heap s) tt) with Done (_, e) => Got tt (with_pheap (mem e) s) | Undef => Stopped Crashed end.
Definition listAddNodeTail (d : D) : par (pst D) unit := fun s => Got tt (with_plist (p_list s ++ [d]) s).

(** A function of a serial port. *)
Definition on_line {A} (m : io world A) : par (pst D) A := fun s =>
  match m (p_ports s) with
  | Ran a w => Got a (with_pports w s)
  | Blocked => Stopped Hung
  | Fault => Stopped Crashed
  end.

(** ** Loops

    A round of a [while] goes on with the next node, or starts over with the same
    one ([continue] before the pointer is moved). *)
Inductive turn (A : Type) := Next (a : A) | Again (a : A).
Arguments Next {A}.
Arguments Again {A}.

Fixpoint retry {A} (n : nat) (f : A -> par (pst D) (turn A)) (a : A) : par (pst D) A :=
  match n with
  | O => stopped Hung
  | S n => r ← f a; match r with Next a => mret a | Again a => retry n f a end
  end.

(** A round that starts over has met a failed allocation, of which [plan] has
    finitely many, or does so for ever. *)
Fixpoint while_nodes {A} (f : xnode -> A -> par (pst D) (turn A)) (l : list xnode) (a : A) : par (pst D) A :=
  match l with
  | [] => mret a
  | x :: l => fun s => (a ← retry (S (length (plan (p_heap s)))) (f x) a; while_nodes f l a) s
  end.

(** [for] over the nodes of a set, where [continue] leaves the round. *)
Fixpoint for_nodes (f : xnode -> par (pst D) unit) (l : list xnode) : par (pst D) unit :=
  match l with [] => mret tt | x :: l => _ ← f x; for_nodes f l end.

Section Lib.
Context `{LibXml}.

Definition same_name (a b : string) : bool := xmlStrcasecmp a b =? 0.

(** [if (!xmlStrcasecmp (pNode->name, ...)) ... else if ...] *)
Definition handler (A : Type) : Type := xnode -> A -> par (pst D) (turn A).
Fixpoint tags {A} (l : list (string * handler A)) : handler A := fun x a =>
  match l with
  | [] => mret (Next a)
  | (t, h) :: l => if same_name (x_name x) t then h x a else tags l x a
  end.
(** One chain of tests after another. *)
Definition both {A} (f g : handler A) : handler A := fun x a =>
  r ← f x a; match r with Next a => g x a | Again a => mret (Again a) end.

(** [XML_GET_CONTENT (pNode->xmlChildrenNode)]: the pointer to the first child is
    followed; an element has no content. *)
Definition XML_GET_CONTENT (x : xnode) : par (pst D) (option string) :=
  match x_kids x with
  | [] => stopped Crashed
  | k :: _ => mret (if is_elem k then None else x_content k)
  end.

Definition XmlGetNode (d : xmlDoc) (xpath : string) : option (list xnode) :=
  match xmlXPathEval d xpath with [] => None | l => Some l end.

(** The frame of a parser: the document, the nodes, a round for each. *)
Definition parse_cells (pDocPath : option string) (xpath : string) (f : xnode -> par (pst D) unit) : par (pst D) Z :=
  match pDocPath with
  | None => mret (-1)
  | Some path =>
      match xmlReadFile path with
      | None => mret (-1)
      | Some d =>
          match XmlGetNode d xpath with
          | None => mret (-1)
          | Some l => _ ← for_nodes f l; mret 0
          end
      end
  end.
End Lib.
End Parser.
Arguments Next {A}.
Arguments Again {A}.

(** How a branch goes on when something is missing. *)
Inductive fate := Skip | Retry | Exit | Crash.
Definition end_round {D A} (f : fate) (a : A) : par (pst D) (turn A) :=
  match f with
  | Skip => mret (Next a)
  | Retry => mret (Again a)
  | Exit => stopped Exited
  | Crash => stopped Crashed
  end.

(** [errno = 0; n = strtol (s, NULL, 10)] and whether [errno] is set then. *)
Definition strtol_errno (s : string) : Z * bool := match strtol s with Some r => r | None => (0, false) end.
Definition atoi (s : string) : Z := (strtol_errno s).1.

(** [memcmp (p, word, n) == 0] for a word of [n] characters: its first difference
    is at the end of [p] at the latest. *)
Definition starts (word p : string) : bool := prefix_of word p.

(** [strncpy (dst, src, MIN (strlen (src), n))] over what [dst] holds. *)
Definition strncpy_over (dst src : string) (n : nat) : string :=
  let src := take_string n src in src +:+ drop_string (String.length src) dst.

(** The first character, 0 of an empty string. *)
Definition first_char (s : string) : Z :=
  match s with String a _ => Z.of_nat (Ascii.nat_of_ascii a) | EmptyString => 0 end.
Definition is_letter (lo up : Ascii.ascii) (s : string) : bool :=
  match s with String a _ => Ascii.eqb a lo || Ascii.eqb a up | EmptyString => false end.

(** ** Rules

    [pwp ok m Q s]: the parser [m] ends in a state of [Q] or stops for a reason
    of [ok]. *)

Definition pwp {S A} (ok : stop -> Prop) (m : par S A) (Q : A -> S -> Prop) (s : S) : Prop :=
  match m s with Got a s' => Q a s' | Stopped w => ok w end.

Lemma pwp_ret {S A} ok (a : A) (Q : A -> S -> Prop) s : Q a s -> pwp ok (mret a) Q s.
Proof. done. Qed.

Lemma pwp_bind {S A B} ok (f : A -> par S B) (m : par S A) (Q : B -> S -> Prop) s :
  pwp ok m (fun a => pwp ok (f a) Q) s -> pwp ok (a ← m; f a) Q s.
Proof. unfold pwp, mbind, par_bind. by destruct (m s). Qed.

Lemma pwp_stopped {S A} (ok : stop -> Prop) w (Q : A -> S -> Prop) s : ok w -> pwp ok (stopped w) Q s.
Proof. done. Qed.

Lemma pwp_conseq {S A} ok (m : par S A) (P Q : A -> S -> Prop) s :
  pwp ok m P s -> (forall a s', P a s' -> Q a s') -> pwp ok m Q s.
Proof. unfold pwp. destruct (m s); eauto. Qed.

Section Rules.
Context {D : Type} (ok : stop -> Prop) (Hcrash : ok Crashed) (Hhung : ok Hung).
Implicit Types s : pst D.

Lemma pwp_pcalloc (Q : bool -> pst D -> Prop) s :
  (forall b h, Q b (with_pheap h s)) -> pwp ok pcalloc Q s.
Proof. intros HQ. unfold pwp, pcalloc, calloc. destruct (plan _) as [|[] p]; apply HQ. Qed.

Lemma pwp_pfree (Q : unit -> pst D -> Prop) s :
  (forall h, Q tt (with_pheap h s)) -> pwp ok pfree Q s.
Proof. intros HQ. apply HQ. Qed.

Lemma pwp_listAddNodeTail d (Q : unit -> pst D -> Prop) s :
  Q tt (with_plist (p_list s ++ [d]) s) -> pwp ok (listAddNodeTail d) Q s.
Proof. done. Qed.

Lemma pwp_on_line {A} (m : io world A) (Q : A -> pst D -> Prop) s :
  (forall a w, m (p_ports s) = Ran a w -> Q a (with_pports w s)) -> pwp ok (on_line m) Q s.
Proof. intros HQ. unfold pwp, on_line. destruct (m (p_ports s)); eauto. Qed.

(** A property of what a loop carries and of the state, kept by each of its
    rounds, however they end. *)
Definition turned {A} (I : A -> pst D -> Prop) (t : turn A) : pst D -> Prop :=
  match t with Next a | Again a => I a end.

Lemma pwp_retry {A} (I : A -> pst D -> Prop) f n a s :
  (forall a s, I a s -> pwp ok (f a) (turned I) s) -> I a s -> pwp ok (retry n f a) I s.
Proof.
  intros Hf. revert a s. induction n as [|n IH]; intros a s Ha; [done|].
  apply pwp_bind. eapply pwp_conseq; [by apply Hf|]. intros [b|b] s' Hb; [done|by apply IH].
Qed.

Lemma pwp_while_nodes {A} (I : A -> pst D -> Prop) f l a s :
  (forall x a s, I a s -> pwp ok (f x a) (turned I) s) -> I a s -> pwp ok (while_nodes f l a) I s.
Proof.
  intros Hf. revert a s. induction l as [|x l IH]; intros a s Ha; [done|].
  apply (pwp_bind ok (fun a => while_nodes f l a) (retry _ (f x) a)).
  eapply pwp_conseq; [apply pwp_retry, Ha; apply Hf|]. eauto.
Qed.

Lemma pwp_for_nodes (I : pst D -> Prop) f l s :
  (forall x s, I s -> pwp ok (f x) (fun _ => I) s) -> I s -> pwp ok (for_nodes f l) (fun _ => I) s.
Proof.
  intros Hf. revert s. induction l as [|x l IH]; intros s Hs; [done|].
  apply pwp_bind. eapply pwp_conseq; [by apply Hf|]. eauto.
Qed.

Section Lib.
Context `{LibXml}.

Lemma pwp_tags {A} (I : A -> pst D -> Prop) (l : list (string * handler A)) x a s :
  Forall (fun h => forall x a s, I a s -> pwp ok (h.2 x a) (turned I) s) l ->
  I a s -> pwp ok (tags l x a) (turned I) s.
Proof.
  intros Hl Ha. induction Hl as [|[t h] l Hh Hl IH]; [done|]. simpl.
  destruct (same_name _ _); [by apply Hh|done].
Qed.

Lemma pwp_both {A} (I : A -> pst D -> Prop) (f g : handler A) x a s :
  (forall x a s, I a s -> pwp ok (f x a) (turned I) s) ->
  (forall x a s, I a s -> pwp ok (g x a) (turned I) s) ->
  I a s -> pwp ok (both f g x a) (turned I) s.
Proof.
  intros Hf Hg Ha. apply pwp_bind. eapply pwp_conseq; [by apply Hf|].
  intros [b|b] s' Hb; [by apply Hg|done].
Qed.

Lemma pwp_content x (Q : option string -> pst D -> Prop) s :
  (forall c, Q c s) -> pwp ok (XML_GET_CONTENT x) Q s.
Proof. intros HQ. unfold XML_GET_CONTENT. by destruct (x_kids x); [|apply HQ]. Qed.

Lemma pwp_parse_cells (I : pst D -> Prop) path xpath f s :
  (forall x s, I s -> pwp ok (f x) (fun _ => I) s) -> I s -> pwp ok (parse_cells path xpath f) (fun _ => I) s.
Proof.
  intros Hf Hs. unfold parse_cells. destruct path as [p|]; [|done]. destruct (xmlReadFile p) as [d|]; [|done].
  destruct (XmlGetNode d xpath) as [l|]; [|done]. apply pwp_bind.
  eapply pwp_conseq; [by apply pwp_for_nodes|]. done.
Qed.
End Lib.

Lemma pwp_end_round {A} (I : A -> pst D -> Prop) f a s :
  ok Exited -> I a s -> pwp ok (end_round f a) (turned I) s.
Proof. by destruct f. Qed.
End Rules.
