(* ===== verification/Cells.v ===== *)
(** The elements every device of the configuration has (source/parseXML.c).

    A parser fills the structure of a device while it walks the elements of a cell.
    The branches of the parsers for the library, the product and the keys differ in
    what they do when something is missing; the handlers below take that as a
    parameter. *)

From stdpp Require Import pretty.
From S2P Require Import Prelude CMem CStr Device Serial Xml.

Local Open Scope string_scope.
Local Open Scope list_scope.
Local Open Scope Z_scope.

(** ** CommunicateMode_e *)

Definition DEVICE_TYPE_UNKNOWN : Z := 0.
Definition DEVICE_TYPE_ZIGBEE : Z := 1.
Definition DEVICE_TYPE_MODBUS : Z := 2.
Definition DEVICE_TYPE_KNX : Z := 3.
Definition DEVICE_TYPE_RF433 : Z := 4.
Definition DEVICE_TYPE_DIO : Z := 5.

(** ** The structure [DeviceElement_t]

    [None] is a null pointer.  [pvForeignKey] is set later, by main.c. *)

Record CfgElement := El {
  szName : option string;
  szPlugin : option string;
  el_pPrimaryKey : option string;
  el_devId : Z;
  szUUID : option string;
  szAuthKey : option string;
  pProductId : option string;
  pForeignKey : option string;
  el_primaryType : Z;
  foreignType : Z;
  el_bMaster : bool;
  attri : Z
}.
(** As [calloc] leaves it. *)
Definition El0 : CfgElement := El None None None 0 None None None None 0 0 false 0.

Definition set_szName v e := El v (szPlugin e) (el_pPrimaryKey e) (el_devId e) (szUUID e) (szAuthKey e)
  (pProductId e) (pForeignKey e) (el_primaryType e) (foreignType e) (el_bMaster e) (attri e).
Definition set_szPlugin v e := El (szName e) v (el_pPrimaryKey e) (el_devId e) (szUUID e) (szAuthKey e)
  (pProductId e) (pForeignKey e) (el_primaryType e) (foreignType e) (el_bMaster e) (attri e).
Definition set_el_pPrimaryKey v e := El (szName e) (szPlugin e) v (el_devId e) (szUUID e) (szAuthKey e)
  (pProductId e) (pForeignKey e) (el_primaryType e) (foreignType e) (el_bMaster e) (attri e).
Definition set_el_devId v e := El (szName e) (szPlugin e) (el_pPrimaryKey e) v (szUUID e) (szAuthKey e)
  (pProductId e) (pForeignKey e) (el_primaryType e) (foreignType e) (el_bMaster e) (attri e).
Definition set_szUUID v e := El (szName e) (szPlugin e) (el_pPrimaryKey e) (el_devId e) v (szAuthKey e)
  (pProductId e) (pForeignKey e) (el_primaryType e) (foreignType e) (el_bMaster e) (attri e).
Definition set_szAuthKey v e := El (szName e) (szPlugin e) (el_pPrimaryKey e) (el_devId e) (szUUID e) v
  (pProductId e) (pForeignKey e) (el_primaryType e) (foreignType e) (el_bMaster e) (attri e).
Definition set_pProductId v e := El (szName e) (szPlugin e) (el_pPrimaryKey e) (el_devId e) (szUUID e) (szAuthKey e)
  v (pForeignKey e) (el_primaryType e) (foreignType e) (el_bMaster e) (attri e).
Definition set_pForeignKey v e := El (szName e) (szPlugin e) (el_pPrimaryKey e) (el_devId e) (szUUID e) (szAuthKey e)
  (pProductId e) v (el_primaryType e) (foreignType e) (el_bMaster e) (attri e).
Definition set_el_primaryType v e := El (szName e) (szPlugin e) (el_pPrimaryKey e) (el_devId e) (szUUID e) (szAuthKey e)
  (pProductId e) (pForeignKey e) v (foreignType e) (el_bMaster e) (attri e).
Definition set_foreignType v e := El (szName e) (szPlugin e) (el_pPrimaryKey e) (el_devId e) (szUUID e) (szAuthKey e)
  (pProductId e) (pForeignKey e) (el_primaryType e) v (el_bMaster e) (attri e).
Definition set_el_bMaster v e := El (szName e) (szPlugin e) (el_pPrimaryKey e) (el_devId e) (szUUID e) (szAuthKey e)
  (pProductId e) (pForeignKey e) (el_primaryType e) (foreignType e) v (attri e).
Definition set_attri v e := El (szName e) (szPlugin e) (el_pPrimaryKey e) (el_devId e) (szUUID e) (szAuthKey e)
  (pProductId e) (pForeignKey e) (el_primaryType e) (foreignType e) (el_bMaster e) v.

(** A structure with such an element. *)
Class HasElement (D : Type) := { get_el : D -> CfgElement; put_el : CfgElement -> D -> D }.
Class HasElementOk (D : Type) `{HasElement D} : Prop := get_put_el : forall e d, get_el (put_el e d) = e.

(** ** Keys *)

Definition DEVICE_ID_LENGTH : nat := 32.

(** The number [foreignType] a text of the configuration names. *)
Definition foreign_of (t : string) : option Z :=
  if starts "ZIGBEE" t then Some DEVICE_TYPE_ZIGBEE
  else if starts "MODBUS" t then Some DEVICE_TYPE_MODBUS
  else if starts "KNX" t then Some DEVICE_TYPE_KNX
  else if starts "RF433" t then Some DEVICE_TYPE_RF433
  else None.

(** [snprintf (dst, DEVICE_ID_LENGTH, "%s%x%s", g_Mac, ty, key)] for a [ty] of one
    digit, which [%d] prints alike. *)
Definition key_text (g_Mac : string) (ty : Z) (key : string) : string :=
  take_string (DEVICE_ID_LENGTH - 1) (g_Mac +:+ pretty ty +:+ key).
(** [strtol (key + 12, NULL, 10)] as the [uint32_t] [devId]: the block of the key has
    33 bytes, zero after the text. *)
Definition key_id (key : string) : Z := u32 (atoi (drop_string 12 key)).

(** ** What a round over the elements of a cell carries

    The device and the local variables [pPrimaryKey], [pForeignKey] and [pItem]. *)

Record loc (D : Type) := Loc {
  l_dev : D;
  l_pkey : option string;
  l_fkey : option string;
  l_item : option xnode
}.
Arguments Loc {D}.
Arguments l_dev {D}.
Arguments l_pkey {D}.
Arguments l_fkey {D}.
Arguments l_item {D}.

Section Handlers.
Context {D : Type} `{HasElement D} `{LibXml}.
Variable g_Mac : string.
Implicit Types l : loc D.
Local Notation hnd := (@handler D (loc D)).

Definition map_dev (f : D -> D) l : loc D := Loc (f (l_dev l)) (l_pkey l) (l_fkey l) (l_item l).
Definition map_el (f : CfgElement -> CfgElement) l : loc D := map_dev (fun d => put_el (f (get_el d)) d) l.
Definition set_pkey k l : loc D := Loc (l_dev l) k (l_fkey l) (l_item l).
Definition set_fkey k l : loc D := Loc (l_dev l) (l_pkey l) k (l_item l).
Definition set_item i l : loc D := Loc (l_dev l) (l_pkey l) (l_fkey l) i.

(** [dst = calloc (1, strlen (text) + 1)], then [strcpy]; [fail]: what a failed
    allocation leads to. *)
Definition copy_text (dst : option string -> CfgElement -> CfgElement) (fail : fate)
    (done : CfgElement -> CfgElement) (t : string) l : par (pst D) (turn (loc D)) :=
  ok ← pcalloc;
  if (ok : bool) then mret (Next (map_el (fun e => done (dst (Some t) e)) l))
  else end_round fail (map_el (dst None) l).

Definition SharedLibrary (null fail : fate) : hnd := fun x l =>
  c ← XML_GET_CONTENT x;
  match c with
  | None => end_round null l
  | Some t => copy_text set_szPlugin fail id t l
  end.

(** [done]: what is set besides. *)
Definition ProductID (fail : fate) (done : CfgElement -> CfgElement) : hnd := fun x l =>
  c ← XML_GET_CONTENT x;
  match c with
  | None => mret (Next l)
  | Some t => copy_text set_pProductId fail done t l
  end.

(** The key of a device of the communication type [comm]; [before]: what is set
    before the block is allocated. *)
Definition PrimaryKey (comm : Z) (before : CfgElement -> CfgElement) (null fail : fate) : hnd := fun x l =>
  c ← XML_GET_CONTENT x;
  match c with
  | None => end_round null l
  | Some t =>
      let l := map_el before l in
      ok ← pcalloc;
      if (ok : bool) then
        let k := key_text g_Mac comm t in
        mret (Next (map_el (fun e => set_el_devId (key_id k) (set_el_pPrimaryKey (Some k) e)) l))
      else end_round fail (map_el (set_el_pPrimaryKey None) l)
  end.

(** The text is kept in the local variable; the block for the key is filled at the
    end of the cell. *)
Definition ForeignKey (null fail : fate) : hnd := fun x l =>
  c ← XML_GET_CONTENT x;
  let l := set_fkey c l in
  match c with
  | None => end_round null l
  | Some _ =>
      ok ← pcalloc;
      if (ok : bool) then mret (Next (map_el (set_pForeignKey (Some "")) l))
      else end_round fail (map_el (set_pForeignKey None) l)
  end.

(** [other]: what the type becomes of another text ([None]: it stays). *)
Definition ForeignType (null : fate) (other : option Z) : hnd := fun x l =>
  c ← XML_GET_CONTENT x;
  match c with
  | None => end_round null l
  | Some t =>
      match foreign_of t with
      | Some v => mret (Next (map_el (set_foreignType v) l))
      | None =>
          match other with
          | Some v => mret (Next (map_el (set_foreignType v) l))
          | None => mret (Next l)
          end
      end
  end.

(** Whether there is a text and its first character is one of the two. *)
Definition when_letter (lo up : Ascii.ascii) (f : D -> D) : hnd := fun x l =>
  c ← XML_GET_CONTENT x;
  match c with
  | Some t => mret (Next (if is_letter lo up t then map_dev f l else l))
  | None => mret (Next l)
  end.

(** [errno = 0; n = strtol (...); if (errno != 0) exit (EXIT_FAILURE);] *)
Definition number (t : string) : par (pst D) Z :=
  let '(v, err) := strtol_errno t in if (err : bool) then stopped Exited else mret v.

(** The end of a cell: the foreign key is written into its block. *)
Definition put_foreign (comm : Z) l : par (pst D) (loc D) :=
  match l_fkey l with
  | Some k =>
      match pForeignKey (get_el (l_dev l)) with
      | Some _ => mret (map_el (set_pForeignKey (Some (key_text g_Mac comm k))) l)
      | None => stopped Crashed
      end
  | None => mret l
  end.
Definition write_foreign l : par (pst D) (loc D) :=
  let ty := foreignType (get_el (l_dev l)) in
  if ty =? DEVICE_TYPE_UNKNOWN then mret l else put_foreign ty l.
End Handlers.
