(* ===== verification/CellRules.v ===== *)
(** What the handlers of Cells.v keep: whatever a document holds, the element of a
    device stays well formed, and with it any invariant of a round that only asks this
    of it. *)

From stdpp Require Import pretty.
From S2P Require Import Prelude CMem CStr Device Serial Xml Cells.

Local Open Scope string_scope.
Local Open Scope list_scope.
Local Open Scope Z_scope.

(** ** Well-formed elements *)

Create HintDb xml.

Definition is_i32 (v : Z) : Prop := - 2 ^ 31 <= v < 2 ^ 31.

Definition text_ok (k : option string) : Prop :=
  match k with Some k => (String.length k < DEVICE_ID_LENGTH)%nat | None => True end.

(** The keys fit their blocks, the id is the one of the key. *)
Record element_typed (g_Mac : string) (comm : Z) (types : list Z) (e : CfgElement) : Prop := {
  et_key : forall k, el_pPrimaryKey e = Some k -> el_devId e = key_id k /\ exists t, k = key_text g_Mac comm t;
  et_foreign : text_ok (pForeignKey e);
  et_foreignType : DEVICE_TYPE_UNKNOWN <= foreignType e <= DEVICE_TYPE_RF433;
  et_type : el_primaryType e ∈ types
}.

(** ** Numbers and keys *)

Lemma strtol_range t v e : strtol_errno t = (v, e) -> is_i32 v.
Proof.
  unfold strtol_errno, strtol, is_i32. intros E.
  assert (- 2 ^ 31 <= (strtol_errno t).1 < 2 ^ 31) as H; [|by unfold strtol_errno, strtol in H; rewrite E in H].
  clear E. unfold strtol_errno, strtol. set (r := match skip_spaces t with EmptyString => _ | String _ _ => _ end).
  destruct r as [neg s]. destruct (digits s 0 0) as [x n]. destruct (n =? 0)%nat; [simpl; lia|].
  set (y := if neg then - x else x). destruct (y <? - 2 ^ 31) eqn:E1; [simpl; lia|].
  destruct (2 ^ 31 - 1 <? y) eqn:E2; simpl; bprop; lia.
Qed.

Lemma take_string_length n s : (String.length (take_string n s) <= n)%nat.
Proof. revert s. induction n as [|n IH]; intros [|a s]; simpl; try lia. specialize (IH s). lia. Qed.

Lemma key_text_length g_Mac c t : (String.length (key_text g_Mac c t) < DEVICE_ID_LENGTH)%nat.
Proof. pose proof (take_string_length (DEVICE_ID_LENGTH - 1) (g_Mac +:+ pretty c +:+ t)). unfold key_text, DEVICE_ID_LENGTH in *. lia. Qed.

Lemma foreign_range t v : foreign_of t = Some v -> DEVICE_TYPE_UNKNOWN <= v <= DEVICE_TYPE_RF433.
Proof.
  unfold foreign_of, DEVICE_TYPE_UNKNOWN, DEVICE_TYPE_RF433, DEVICE_TYPE_ZIGBEE, DEVICE_TYPE_MODBUS, DEVICE_TYPE_KNX.
  repeat case_match; intros [= <-]; lia.
Qed.

(** ** Numbers written in decimal *)

Lemma digit_of_char d : (d < 10)%N -> digit_of (pretty_N_char d) = Some (Z.of_N d).
Proof.
  intros Hd. assert (d = 0 \/ d = 1 \/ d = 2 \/ d = 3 \/ d = 4 \/ d = 5 \/ d = 6 \/ d = 7 \/ d = 8 \/ d = 9)%N as H by lia.
  by destruct_or! H; subst d.
Qed.

(** The digits of [x] before [s] are read as [x]; there is a first one. *)
Lemma digits_pretty x s acc n :
  exists k, digits (pretty_N_go x s) acc n = digits s (acc * 10 ^ Z.of_nat k + Z.of_N x) (n + k)
    /\ ((0 < x)%N -> (0 < k)%nat /\ exists a r d, pretty_N_go x s = String a r /\ digit_of a = Some d).
Proof.
  revert s. induction (N.lt_wf_0 x) as [x _ IH]; intros s.
  destruct (decide (x = 0)%N) as [->|Hx].
  { exists 0%nat. rewrite pretty_N_go_0. split; [f_equal; lia|lia]. }
  rewrite pretty_N_go_step by lia. destruct (IH (x `div` 10)%N) with (s := String (pretty_N_char (x `mod` 10)) s) as (k & Hk & Hh).
  { apply N.div_lt; lia. }
  assert (x `mod` 10 < 10)%N as Hm by (apply N.mod_lt; lia).
  exists (S k). split.
  - rewrite Hk. cbn [digits]. rewrite digit_of_char by done.
    rewrite Nat2Z.inj_succ, Z.pow_succ_r by lia. f_equal; [|lia].
    pose proof (N.div_mod x 10 ltac:(lia)) as E. apply (f_equal Z.of_N) in E.
    rewrite N2Z.inj_add, N2Z.inj_mul in E. change (Z.of_N 10) with 10 in E. lia.
  - intros _. split; [lia|]. destruct (decide (x `div` 10 = 0)%N) as [E|E].
    + rewrite E, pretty_N_go_0. eexists _, _, _. split; [done|by apply digit_of_char].
    + apply Hh. by apply N.neq_0_lt_0.
Qed.

Lemma digits_of_N x : exists k, digits (pretty x) 0 0 = (Z.of_N x, S k) /\ exists a r d, pretty x = String a r /\ digit_of a = Some d.
Proof.
  unfold pretty, pretty_N. destruct (decide (x = 0)%N) as [->|Hx]; [exists 0%nat; split; [done|by eexists _, _, _]|].
  destruct (digits_pretty x "" 0 0) as ([|k] & Hk & Hh); [lia|]. exists k.
  split; [|apply Hh; lia]. rewrite Hk. cbn [digits]. f_equal; lia.
Qed.

Lemma digit_plain a d : digit_of a = Some d ->
  is_space a = false /\ (Ascii.nat_of_ascii a =? 45)%nat = false /\ (Ascii.nat_of_ascii a =? 43)%nat = false.
Proof.
  unfold digit_of, is_space. intros H. destruct ((48 <=? Z.of_nat (Ascii.nat_of_ascii a)) && _) eqn:E; [|done].
  bprop. split_and!; [|by apply Nat.eqb_neq; lia..].
  apply orb_false_iff. split; [apply Nat.eqb_neq; lia|]. apply andb_false_iff. right. apply Nat.leb_gt. lia.
Qed.

Lemma strtol_pretty z : is_i32 z -> strtol (pretty z) = Some (z, false).
Proof.
  unfold is_i32. intros Hz. destruct z as [|p|p]; [done|..].
  - change (pretty (Z.pos p)) with (pretty (N.pos p)).
    destruct (digits_of_N (N.pos p)) as (k & Hd & a & r & d & Er & Ha). apply digit_plain in Ha as (H1 & H2 & H3).
    unfold strtol. rewrite Er. cbn [skip_spaces]. rewrite H1, H2, H3, <- Er, Hd. cbn [Nat.eqb].
    change (Z.of_N (N.pos p)) with (Z.pos p).
    destruct (Z.ltb_spec (Z.pos p) (- 2 ^ 31)); [lia|]. by destruct (Z.ltb_spec (2 ^ 31 - 1) (Z.pos p)); [lia|].
  - change (pretty (Z.neg p)) with ("-" +:+ pretty (N.pos p)).
    destruct (digits_of_N (N.pos p)) as (k & Hd & _).
    unfold strtol. rewrite app_cons. change ("" +:+ pretty (N.pos p)) with (pretty (N.pos p)).
    cbn [skip_spaces]. match goal with |- context [is_space ?a] => change (is_space a) with false end. cbn match.
    match goal with |- context [(Ascii.nat_of_ascii ?a =? 45)%nat] => change (Ascii.nat_of_ascii a =? 45)%nat with true end.
    cbn match. rewrite Hd. cbn [Nat.eqb].
    change (- Z.of_N (N.pos p)) with (Z.neg p).
    destruct (Z.ltb_spec (Z.neg p) (- 2 ^ 31)); [lia|]. by destruct (Z.ltb_spec (2 ^ 31 - 1) (Z.neg p)); [lia|].
Qed.

Lemma strtol_errno_pretty z : is_i32 z -> strtol_errno (pretty z) = (z, false).
Proof. intros Hz. unfold strtol_errno. by rewrite strtol_pretty. Qed.

(** ** Elements *)

Section Element.
Context (g_Mac : string) (comm : Z) (types : list Z).
Local Notation typed := (element_typed g_Mac comm types).

Lemma et_plugin v e : typed e -> typed (set_szPlugin v e).
Proof. intros []. by split. Qed.
Lemma et_product v e : typed e -> typed (set_pProductId v e).
Proof. intros []. by split. Qed.
Lemma et_master v e : typed e -> typed (set_el_bMaster v e).
Proof. intros []. by split. Qed.
Lemma et_attri v e : typed e -> typed (set_attri v e).
Proof. intros []. by split. Qed.
Lemma et_set_type v e : v ∈ types -> typed e -> typed (set_el_primaryType v e).
Proof. intros ? []. by split. Qed.
Lemma et_no_key e : typed e -> typed (set_el_pPrimaryKey None e).
Proof. intros []. by split. Qed.
Lemma et_put_key t e :
  typed e -> typed (set_el_devId (key_id (key_text g_Mac comm t)) (set_el_pPrimaryKey (Some (key_text g_Mac comm t)) e)).
Proof. intros []. split; try done. intros k [= <-]. eauto. Qed.
Lemma et_set_foreign k e : text_ok k -> typed e -> typed (set_pForeignKey k e).
Proof. intros ? []. by split. Qed.
Lemma et_set_foreignType v e : DEVICE_TYPE_UNKNOWN <= v <= DEVICE_TYPE_RF433 -> typed e -> typed (set_foreignType v e).
Proof. intros ? []. by split. Qed.
End Element.
#[export] Hint Resolve et_plugin et_product et_master et_attri et_set_type et_no_key et_put_key et_set_foreign
  et_set_foreignType : xml.

(** ** The handlers of the element keep an invariant of the element

    [I l s]: what a round carries and the state.  It holds of the device through [E],
    of its element, does not depend on the allocator, and only the device of [l]
    matters. *)

Section ElementHandlers.
Context {D : Type} `{HasElementOk D} `{LibXml} (g_Mac : string) (ok : stop -> Prop).
Context (Hexit : ok Exited) (Hcrash : ok Crashed) (Hhung : ok Hung).
Context (comm : Z) (types : list Z) (I : loc D -> pst D -> Prop).
Hypothesis Iheap : forall l s h, I l s -> I l (with_pheap h s).
Hypothesis Iel : forall l s f, (forall e, element_typed g_Mac comm types e -> element_typed g_Mac comm types (f e)) ->
  I l s -> I (map_el f l) s.
Hypothesis Ifkey : forall k l s, I l s -> I (set_fkey k l) s.
Hypothesis Iitem : forall k l s, I l s -> I (set_item k l) s.
Definition keeps (h : @handler D (loc D)) : Prop :=
  forall x l s, I l s -> pwp ok (h x l) (turned I) s.

Lemma keeps_copy dst fail done t l s :
  (forall v e, element_typed g_Mac comm types e -> element_typed g_Mac comm types (dst v e)) ->
  (forall e, element_typed g_Mac comm types e -> element_typed g_Mac comm types (done e)) ->
  I l s -> pwp ok (copy_text dst fail done t l) (turned I) s.
Proof.
  intros Hd Hf Hl. apply pwp_bind, pwp_pcalloc. intros [] h.
  - apply pwp_ret. apply Iel; auto.
  - apply pwp_end_round; auto.
Qed.

Lemma keeps_SharedLibrary null fail : keeps (SharedLibrary null fail).
Proof.
  intros x l s Hl. apply pwp_bind, pwp_content; [done|]. intros [t|].
  - apply keeps_copy; auto with xml.
  - by apply pwp_end_round.
Qed.

Lemma keeps_ProductID fail done :
  (forall e, element_typed g_Mac comm types e -> element_typed g_Mac comm types (done e)) -> keeps (ProductID fail done).
Proof.
  intros Hf x l s Hl. apply pwp_bind, pwp_content; [done|]. intros [t|]; [|done].
  apply keeps_copy; auto with xml.
Qed.

Lemma keeps_PrimaryKey before null fail :
  (forall e, element_typed g_Mac comm types e -> element_typed g_Mac comm types (before e)) ->
  keeps (PrimaryKey g_Mac comm before null fail).
Proof.
  intros Hb x l s Hl. apply pwp_bind, pwp_content; [done|]. intros [t|]; [|by apply pwp_end_round].
  apply (Iel _ _ before) in Hl; [|done]. apply pwp_bind, pwp_pcalloc. intros [] h.
  - apply pwp_ret. apply Iel; auto with xml.
  - apply pwp_end_round; auto with xml.
Qed.

Lemma keeps_ForeignKey null fail : keeps (ForeignKey null fail).
Proof.
  intros x l s Hl. apply pwp_bind, pwp_content; [done|]. intros c. apply (Ifkey c) in Hl.
  destruct c as [t|]; [|by apply pwp_end_round]. apply pwp_bind, pwp_pcalloc. intros [] h.
  - apply pwp_ret. apply Iel; auto. intros e. apply et_set_foreign. unfold text_ok, DEVICE_ID_LENGTH. simpl. lia.
  - apply pwp_end_round; auto. apply Iel; auto. intros e. by apply et_set_foreign.
Qed.

Lemma keeps_ForeignType null other :
  (forall v, other = Some v -> DEVICE_TYPE_UNKNOWN <= v <= DEVICE_TYPE_RF433) -> keeps (ForeignType null other).
Proof.
  intros Ho x l s Hl. apply pwp_bind, pwp_content; [done|]. intros [t|]; [|by apply pwp_end_round].
  destruct (foreign_of t) as [v|] eqn:E.
  - apply pwp_ret. apply Iel; [|done]. intros e. apply et_set_foreignType. by eapply foreign_range.
  - destruct other as [v|]; [|done]. apply pwp_ret. apply Iel; [|done]. intros e. apply et_set_foreignType. auto.
Qed.

Lemma keeps_when_letter lo up (f : D -> D) :
  (forall l s, I l s -> I (map_dev f l) s) -> keeps (when_letter lo up f).
Proof.
  intros Hf x l s Hl. apply pwp_bind, pwp_content; [done|]. intros [t|]; [|done].
  apply pwp_ret. destruct (is_letter lo up t); simpl; auto.
Qed.

Lemma pwp_number t (Q : Z -> pst D -> Prop) s : (forall v, is_i32 v -> Q v s) -> pwp ok (number t) Q s.
Proof.
  intros HQ. unfold number. destruct (strtol_errno t) as [v []] eqn:E; [done|]. apply HQ. by eapply strtol_range.
Qed.

Lemma pwp_put_foreign c l (s : pst D) : I l s -> pwp ok (put_foreign g_Mac c l) I s.
Proof.
  intros Hl. unfold put_foreign. destruct (l_fkey l) as [k|]; [|done].
  destruct (pForeignKey _); [|done]. apply Iel; [|done]. intros e. apply et_set_foreign. apply key_text_length.
Qed.

Lemma pwp_write_foreign l (s : pst D) : I l s -> pwp ok (write_foreign g_Mac l) I s.
Proof. intros Hl. unfold write_foreign. destruct (_ =? _); [done|by apply pwp_put_foreign]. Qed.
End ElementHandlers.

(** Handlers put together. *)
Lemma keeps_tags {D} `{LibXml} ok (I : loc D -> pst D -> Prop) (l : list (string * @handler D (loc D))) :
  Forall (fun t => keeps ok I t.2) l -> keeps ok I (tags l).
Proof. intros Hl x a s. by apply pwp_tags. Qed.
Lemma keeps_both {D} ok (I : loc D -> pst D -> Prop) (f g : @handler D (loc D)) :
  keeps ok I f -> keeps ok I g -> keeps ok I (both f g).
Proof. intros Hf Hg x a s. by apply pwp_both. Qed.
