(* ===== verification/ParseModbus.v ===== *)
(** The Modbus half of the configuration (ParseMbus...Cfg and ParseMbus...Key of
    source/parseXML.c).

    A cell of an air conditioner, a ventilation, a floor heating, an air sensor or a
    panel describes a line and an [Item] with one [Cell] for every device on it: the
    structure made for the line is copied for each of them.  A humidifier, a purifier
    and a curtain are cells of their own.

    The families share the handlers of their elements; what a family does with a
    missing text or a failed allocation is a parameter, and the lists of elements
    follow the chains of tests of the code. *)

From Stdlib Require Import Ascii.
From stdpp Require Import pretty.
From S2P Require Import Prelude CMem CStr Device Serial Xml Cells.

Local Open Scope string_scope.
Local Open Scope list_scope.
Local Open Scope Z_scope.

(** ** Devices

    [mb_pSerial] is the block of the serial port: copies of a [Serial_t] share it.
    [md_objs] are the pointers of the structure, in its order. *)

Record MbusCfg := MCfg {
  mb_el : CfgElement;
  mb_devAddr : Z;
  mb_regAddr : Z;
  mb_delay : Z;
  mb_bFeedback : bool;
  mb_bOnlineCheck : bool;
  mb_bFullDuplex : bool;
  mb_bGroupMember : bool;
  mb_pSerial : option nat
}.
Record MbusDev := MDev { md_base : MbusCfg; md_objs : list (option MbusObj_t) }.

Definition set_mb_el v b := MCfg v (mb_devAddr b) (mb_regAddr b) (mb_delay b) (mb_bFeedback b) (mb_bOnlineCheck b)
  (mb_bFullDuplex b) (mb_bGroupMember b) (mb_pSerial b).
Definition set_mb_devAddr v b := MCfg (mb_el b) v (mb_regAddr b) (mb_delay b) (mb_bFeedback b) (mb_bOnlineCheck b)
  (mb_bFullDuplex b) (mb_bGroupMember b) (mb_pSerial b).
Definition set_mb_regAddr v b := MCfg (mb_el b) (mb_devAddr b) v (mb_delay b) (mb_bFeedback b) (mb_bOnlineCheck b)
  (mb_bFullDuplex b) (mb_bGroupMember b) (mb_pSerial b).
Definition set_mb_delay v b := MCfg (mb_el b) (mb_devAddr b) (mb_regAddr b) v (mb_bFeedback b) (mb_bOnlineCheck b)
  (mb_bFullDuplex b) (mb_bGroupMember b) (mb_pSerial b).
Definition set_mb_bFeedback v b := MCfg (mb_el b) (mb_devAddr b) (mb_regAddr b) (mb_delay b) v (mb_bOnlineCheck b)
  (mb_bFullDuplex b) (mb_bGroupMember b) (mb_pSerial b).
Definition set_mb_bOnlineCheck v b := MCfg (mb_el b) (mb_devAddr b) (mb_regAddr b) (mb_delay b) (mb_bFeedback b) v
  (mb_bFullDuplex b) (mb_bGroupMember b) (mb_pSerial b).
Definition set_mb_bFullDuplex v b := MCfg (mb_el b) (mb_devAddr b) (mb_regAddr b) (mb_delay b) (mb_bFeedback b)
  (mb_bOnlineCheck b) v (mb_bGroupMember b) (mb_pSerial b).
Definition set_mb_bGroupMember v b := MCfg (mb_el b) (mb_devAddr b) (mb_regAddr b) (mb_delay b) (mb_bFeedback b)
  (mb_bOnlineCheck b) (mb_bFullDuplex b) v (mb_pSerial b).

Definition on_base (f : MbusCfg -> MbusCfg) (d : MbusDev) : MbusDev := MDev (f (md_base d)) (md_objs d).
Definition put_obj (k : nat) (o : option MbusObj_t) (d : MbusDev) : MbusDev := MDev (md_base d) (<[k := o]> (md_objs d)).

#[export] Instance mbus_element : HasElement MbusDev :=
  {| get_el d := mb_el (md_base d); put_el e := on_base (set_mb_el e) |}.
#[export] Instance mbus_element_ok : HasElementOk MbusDev.
Proof. done. Qed.

(** ** The serial port of a line

    [SerialInit] of source/serialHandle.c: the number of the new block, [None] a null
    pointer.  The oracle of the ports answers for [thpool_init] and [epoll_create]. *)

Definition new_param : io world nat := fun w =>
  Ran (length (params w)) (W (params w ++ [SerialInit_param]) (locked w) (opens w) (oks w) (trace w)).

Definition SerialInit : par (pst MbusDev) (option nat) :=
  ok ← pcalloc; if negb ok then mret None else
  ok ← pcalloc; if negb ok then _ ← pfree; mret None else
  ok ← on_line sys_ok; if negb ok then _ ← pfree; _ ← pfree; mret None else
  i ← on_line new_param; mret (Some i).

Section Parsers.
Context `{LibXml}.
Variable g_Mac : string.
Local Notation P := (par (pst MbusDev)).
Local Notation loc := (loc MbusDev).
Local Notation hnd := (@handler MbusDev loc).

(** ** The elements of a line *)

Definition u16_number (set : Z -> MbusCfg -> MbusCfg) : hnd := fun x l =>
  c ← XML_GET_CONTENT x;
  match c with
  | None => mret (Next l)
  | Some t => v ← number t; mret (Next (map_dev (on_base (set (u16 v))) l))
  end.
Definition DeviceAddr : hnd := u16_number set_mb_devAddr.
Definition Delay : hnd := u16_number set_mb_delay.

(** A setting of the serial port; a refused one ends the process. *)
Definition set_line (set : option nat -> Z -> io world Z) (l : loc) (v : Z) : P (turn loc) :=
  ret ← on_line (set (mb_pSerial (md_base (l_dev l))) v);
  if ret =? 0 then mret (Next l) else stopped Exited.
Definition line_number (set : option nat -> Z -> io world Z) : hnd := fun x l =>
  c ← XML_GET_CONTENT x;
  match c with None => mret (Next l) | Some t => v ← number t; set_line set l v end.
Definition Port : hnd := line_number SetPort.
Definition Baudrate : hnd := line_number SetBaudrate.
Definition Databit : hnd := line_number SetDatabits.
Definition Stopbit : hnd := line_number SetStopbits.
Definition Parity : hnd := fun x l =>
  c ← XML_GET_CONTENT x;
  match c with None => mret (Next l) | Some t => set_line SetParity l (first_char t) end.

Definition Feedback : hnd := when_letter "N"%char "n"%char (on_base (set_mb_bFeedback false)).
Definition OnlineCheck : hnd := when_letter "N"%char "n"%char (on_base (set_mb_bOnlineCheck false)).
Definition OnlineCheckYN : hnd := fun x l =>
  c ← XML_GET_CONTENT x;
  match c with
  | None => mret (Next l)
  | Some t =>
      mret (Next (if is_letter "N"%char "n"%char t then map_dev (on_base (set_mb_bOnlineCheck false)) l
                  else if is_letter "Y"%char "y"%char t then map_dev (on_base (set_mb_bOnlineCheck true)) l else l))
  end.

(** [open] and [recv] of the port. *)
Definition start_line (b : MbusCfg) : P unit :=
  _ ← on_line (SerialOpen (mb_pSerial b)); _ ← on_line (SerialRead (mb_pSerial b)); mret tt.

Definition FullDuplex (start : bool) : hnd := fun x l =>
  c ← XML_GET_CONTENT x;
  match c with
  | None => mret (Next l)
  | Some t =>
      if is_letter "Y"%char "y"%char t then
        let l := map_dev (on_base (set_mb_bFullDuplex true)) l in
        _ ← on_line (SetFullDuplex (mb_pSerial (md_base (l_dev l))) true);
        _ ← (if start then start_line (md_base (l_dev l)) else mret tt);
        mret (Next l)
      else mret (Next l)
  end.

(** ** The points of a line

    A point of the configuration, as [calloc] and the assignments leave it. *)
Definition new_point (lp ty old v : Z) : MbusObj_t :=
  set_cloudPoint v (set_forceSync 0 (set_valueOld old (set_type ty (set_localPoint lp MbusObj0)))).
Definition NO_VALUE : Z := 2 ^ 32 - 1.

(** An element with the children [DataPoint]; the log message after the loop reads
    the pointer [seen]. *)
Definition Point_seen (seen : nat) (null : fate) (slot : nat) (lp ty old : Z) : hnd := fun x l =>
  l ← while_nodes (tags [
        ("DataPoint", fun c l =>
           t ← XML_GET_CONTENT c;
           match t with
           | None => end_round null l
           | Some t =>
               ok ← pcalloc;
               if negb ok then stopped Exited else
               v ← number t; mret (Next (map_dev (put_obj slot (Some (new_point lp ty old v))) l))
           end)]) (x_kids x) l;
  match md_objs (l_dev l) !! seen with Some (Some _) => mret (Next l) | _ => stopped Crashed end.
Definition Point (null : fate) (slot : nat) (lp ty : Z) : hnd := Point_seen slot null slot lp ty NO_VALUE.

Definition Item : hnd := fun x l => mret (Next (set_item (Some x) l)).

(** ** A new structure

    [calloc] of the structure and of its base, [SerialInit]; [None]: the round is
    left. *)
Definition new_device (name : string) (ty : Z) (n : nat) : P (option MbusDev) :=
  ok ← pcalloc; if negb ok then mret None else
  ok ← pcalloc; if negb ok then mret None else
  pSerial ← SerialInit;
  match pSerial with
  | None => mret None
  | Some _ =>
      mret (Some (MDev (MCfg (set_el_bMaster false (set_el_primaryType ty (set_szName (Some name) El0)))
                         0 0 0 true true false false pSerial) (replicate n None)))
  end.

Definition master : CfgElement -> CfgElement := set_el_bMaster true.

(** ** The devices of an item

    The copies of the points in [slots], of the base and of the [Serial_t]; [None]:
    an allocation failed. *)
Fixpoint copy_objs (slots : list nat) (from to : list (option MbusObj_t)) : P (option (list (option MbusObj_t))) :=
  match slots with
  | [] => mret (Some to)
  | k :: slots =>
      match from !! k with
      | Some (Some o) =>
          ok ← pcalloc;
          if (ok : bool) then copy_objs slots from (<[k := Some o]> to) else mret None
      | _ => copy_objs slots from to
      end
  end.

Definition deep_copy (slots : list nat) (group : bool) (proto : MbusDev) (pCell : xnode) : P (option MbusDev) :=
  ok ← pcalloc; if negb ok then mret None else
  objs ← copy_objs slots (md_objs proto) (replicate (length (md_objs proto)) None);
  match objs with
  | None => mret None
  | Some objs =>
      ok ← pcalloc; if negb ok then mret None else
      ok ← pcalloc; if negb ok then mret None else
      _ ← (if mb_bFullDuplex (md_base proto) then start_line (md_base proto) else mret tt);
      let d := MDev (md_base proto) objs in
      mret (Some (if group && bool_decide (is_Some (xmlGetProp pCell "group"))
                  then on_base (set_mb_bGroupMember true) d else d))
  end.

Definition RoomNo : hnd := fun x l =>
  c ← XML_GET_CONTENT x;
  match c with
  | None => mret (Again l)
  | Some t => v ← number t; mret (Next (map_dev (on_base (set_mb_regAddr (u16 v))) l))
  end.

(** A [Cell] of the item. *)
Definition item_cell (slots : list nat) (group : bool) (keys : list (string * hnd)) (proto : MbusDev)
    : @handler MbusDev unit := fun pCell _ =>
  d ← deep_copy slots group proto pCell;
  match d with
  | None => mret (Again tt)
  | Some d =>
      l ← while_nodes (tags keys) (x_kids pCell) (Loc d None None None);
      l ← write_foreign g_Mac l;
      _ ← listAddNodeTail (l_dev l);
      mret (Next tt)
  end.
Definition item_cells (slots : list nat) (group : bool) (keys : list (string * hnd)) (pItem : xnode) (proto : MbusDev) : P Z :=
  _ ← while_nodes (tags [("Cell", item_cell slots group keys proto)]) (x_kids pItem) tt; mret 0.

(** ** The rounds of the parsers *)

Definition line_cell (name : string) (ty : Z) (n : nat) (ts : list (string * hnd))
    (key : xnode -> MbusDev -> P Z) (x : xnode) : P unit :=
  d ← new_device name ty n;
  match d with
  | None => mret tt
  | Some d =>
      l ← while_nodes (tags ts) (x_kids x) (Loc d None None None);
      match l_item l with
      | None => mret tt
      | Some pItem =>
          ret ← key pItem (l_dev l);
          if ret =? -1 then mret tt else _ ← pfree; _ ← pfree; pfree
      end
  end.

Definition own_cell (name : string) (ty : Z) (n : nat) (ts : list (string * hnd)) (x : xnode) : P unit :=
  d ← new_device name ty n;
  match d with
  | None => mret tt
  | Some d =>
      l ← while_nodes (tags ts) (x_kids x) (Loc d None None None);
      l ← write_foreign g_Mac l;
      listAddNodeTail (l_dev l)
  end.

(** ** Air conditioners: [MbusAcd_t] *)

Definition acd_item : list (string * hnd) := [
    ("PrimaryKey", PrimaryKey g_Mac DEVICE_TYPE_MODBUS (set_el_primaryType MODBUS_DEVICE_AIRCONDITION) Exit Retry);
    ("ForeignKey", ForeignKey Retry Retry);
    ("ForeignType", ForeignType Crash (Some DEVICE_TYPE_UNKNOWN));
    ("RoomNo", RoomNo)].
Definition ParseMbusAcdKey : xnode -> MbusDev -> P Z :=
  item_cells [0; 1; 2; 3; 4; 5]%nat true acd_item.
Definition acd_line : list (string * hnd) := [
  ("SharedLibrary", SharedLibrary Exit Retry); ("ProductID", ProductID Exit master); ("DeviceAddr", DeviceAddr);
  ("Port", Port); ("Baudrate", Baudrate); ("Databit", Databit); ("Parity", Parity); ("Stopbit", Stopbit);
  ("Feedback", Feedback); ("OnlineCheck", OnlineCheckYN); ("FullDuplex", FullDuplex false); ("Delay", Delay)].
Definition acd_controls : list (string * hnd) := [
  ("Switch", Point Exit 0 ACD_SWITCH PROP_BOOL); ("Speed", Point Exit 1 ACD_SPEED PROP_ENUM);
  ("Mode", Point Exit 2 ACD_MODE PROP_ENUM); ("Temp", Point Exit 3 ACD_TEMP PROP_VALUE)].
Definition acd_sensors : list (string * hnd) := [
  ("EnvTemp", Point Skip 4 ACD_ENV_TEMP PROP_VALUE); ("Fault", Point Skip 5 ACD_ERROR_CODE PROP_STR)].
Definition acd_tags : list (string * hnd) := acd_line ++ acd_controls ++ acd_sensors ++ [("Item", Item)].
Definition ParseMbusAcdCfg (pDocPath : option string) : P Z :=
  parse_cells pDocPath "/Device/Modbus/AirCondition/Cell"
    (line_cell "AirCondition" MODBUS_DEVICE_AIRCONDITION 6 acd_tags ParseMbusAcdKey).

(** ** Ventilations: [MbusVent_t]

    From [Humi] on the log messages read [pSpeed]. *)

Definition vent_item : list (string * hnd) := [
    ("PrimaryKey", PrimaryKey g_Mac DEVICE_TYPE_MODBUS (set_el_primaryType MODBUS_DEVICE_VENTILATION) Exit Retry);
    ("ForeignKey", ForeignKey Retry Retry);
    ("ForeignType", ForeignType Exit (Some DEVICE_TYPE_UNKNOWN));
    ("RoomNo", RoomNo)].
Definition ParseMbusVentKey : xnode -> MbusDev -> P Z :=
  item_cells [0; 1; 6]%nat true vent_item.
Definition vent_line : list (string * hnd) := [
  ("SharedLibrary", SharedLibrary Skip Retry); ("ProductID", ProductID Skip master); ("DeviceAddr", DeviceAddr);
  ("Port", Port); ("Baudrate", Baudrate); ("Databit", Databit); ("Parity", Parity); ("Stopbit", Stopbit);
  ("Feedback", Feedback); ("OnlineCheck", OnlineCheck); ("FullDuplex", FullDuplex false); ("Delay", Delay)].
Definition vent_controls : list (string * hnd) := [
  ("Switch", Point Skip 0 VENT_SWITCH PROP_BOOL); ("Speed", Point Skip 1 VENT_SPEED PROP_ENUM);
  ("Humi", Point_seen 1 Skip 2 VENT_HUMI PROP_VALUE NO_VALUE); ("Mode", Point_seen 1 Skip 4 VENT_MODE PROP_ENUM NO_VALUE)].
Definition vent_sensors : list (string * hnd) := [
  ("Valve", Point_seen 1 Skip 5 VENT_VALVE PROP_BOOL NO_VALUE);
  ("EnvHumi", Point_seen 1 Skip 3 VENT_ENV_HUMI PROP_VALUE NO_VALUE);
  ("Fault", Point_seen 1 Skip 6 FREATURE_FAULT PROP_STR NO_VALUE)].
Definition vent_tags : list (string * hnd) := vent_line ++ vent_controls ++ vent_sensors ++ [("Item", Item)].
Definition ParseMbusVentCfg (pDocPath : option string) : P Z :=
  parse_cells pDocPath "/Device/Modbus/Ventilation/Cell"
    (line_cell "Ventilation" MODBUS_DEVICE_VENTILATION 7 vent_tags ParseMbusVentKey).

(** ** Floor heatings: [MbusHeat_t]

    The log message of the fault reads [pEnvTemp]. *)

Definition heat_item : list (string * hnd) := [
    ("PrimaryKey", PrimaryKey g_Mac DEVICE_TYPE_MODBUS (set_el_primaryType MODBUS_DEVICE_FLOORHEATING) Skip Retry);
    ("ForeignKey", ForeignKey Retry Retry);
    ("ForeignType", ForeignType Exit (Some DEVICE_TYPE_UNKNOWN));
    ("RoomNo", RoomNo)].
Definition ParseMbusHeatKey : xnode -> MbusDev -> P Z :=
  item_cells [0; 1; 2]%nat true heat_item.
Definition heat_line : list (string * hnd) := [
  ("SharedLibrary", SharedLibrary Skip Retry); ("ProductID", ProductID Exit master); ("DeviceAddr", DeviceAddr);
  ("Port", Port); ("Baudrate", Baudrate); ("Databit", Databit); ("Parity", Parity); ("Stopbit", Stopbit);
  ("Feedback", Feedback); ("OnlineCheck", OnlineCheck); ("FullDuplex", FullDuplex false); ("Delay", Delay)].
Definition heat_points : list (string * hnd) := [
  ("Switch", Point Skip 0 HEAT_SWITCH PROP_BOOL); ("Temp", Point Skip 1 HEAT_TEMP PROP_VALUE);
  ("EnvTemp", Point Skip 2 HEAT_ENV_TEMP PROP_VALUE);
  ("Fault", Point_seen 2 Skip 3 HEAT_ENV_TEMP PROP_VALUE NO_VALUE)].
Definition heat_tags : list (string * hnd) := heat_line ++ heat_points ++ [("Item", Item)].
Definition ParseMbusHeatCfg (pDocPath : option string) : P Z :=
  parse_cells pDocPath "/Device/Modbus/FloorHeating/Cell"
    (line_cell "FloorHeating" MODBUS_DEVICE_FLOORHEATING 4 heat_tags ParseMbusHeatKey).

(** ** Air sensors: [MbusAqi_t] *)

Definition aqi_item : list (string * hnd) := [
    ("PrimaryKey", PrimaryKey g_Mac DEVICE_TYPE_MODBUS (set_el_primaryType MODBUS_DEVICE_FLOORHEATING) Skip Retry);
    ("ForeignKey", ForeignKey Retry Retry);
    ("ForeignType", ForeignType Exit (Some DEVICE_TYPE_UNKNOWN));
    ("RoomNo", RoomNo)].
Definition ParseMbusAqiKey : xnode -> MbusDev -> P Z :=
  item_cells [1; 0; 2; 3]%nat false aqi_item.
Definition aqi_line : list (string * hnd) := [
  ("SharedLibrary", SharedLibrary Skip Retry); ("ProductID", ProductID Exit master); ("DeviceAddr", DeviceAddr);
  ("Port", Port); ("Baudrate", Baudrate); ("Databit", Databit); ("Parity", Parity); ("Stopbit", Stopbit);
  ("Feedback", Feedback); ("OnlineCheck", OnlineCheck); ("FullDuplex", FullDuplex true); ("Delay", Delay)].
Definition aqi_points : list (string * hnd) := [
  ("Humi", Point Skip 1 AQI_HUMI PROP_VALUE); ("Temp", Point Skip 0 AQI_TEMP PROP_VALUE);
  ("PM25", Point Skip 2 AQI_PM25 PROP_VALUE); ("CO2", Point Skip 3 AQI_CO2 PROP_VALUE)].
Definition aqi_tags : list (string * hnd) := aqi_line ++ aqi_points ++ [("Item", Item)].
Definition ParseMbusAqiCfg (pDocPath : option string) : P Z :=
  parse_cells pDocPath "/Device/Modbus/AQI/Cell"
    (line_cell "AQI" MODBUS_DEVICE_AQI 4 aqi_tags ParseMbusAqiKey).

(** ** Humidifiers: [ModbusHumidifier_t] *)

Definition humidifier_keys : list (string * hnd) := [
  ("SharedLibrary", SharedLibrary Skip Retry); ("ProductID", ProductID Exit master);
  ("PrimaryKey", PrimaryKey g_Mac DEVICE_TYPE_MODBUS id Skip Exit);
  ("ForeignKey", ForeignKey Retry Retry); ("ForeignType", ForeignType Exit (Some DEVICE_TYPE_UNKNOWN))].
Definition humidifier_line : list (string * hnd) := [
  ("DeviceAddr", DeviceAddr);
  ("Port", Port); ("Baudrate", Baudrate); ("Databit", Databit); ("Parity", Parity); ("Stopbit", Stopbit);
  ("Feedback", Feedback); ("OnlineCheck", OnlineCheck); ("FullDuplex", FullDuplex false); ("Delay", Delay)].
Definition humidifier_points : list (string * hnd) := [
  ("Switch", Point Skip 0 HUMIDIFIER_SWITCH PROP_BOOL); ("Humidity", Point Skip 1 HUMIDIFIER_HUMIDITY_SET PROP_VALUE)].
Definition humidifier_tags : list (string * hnd) := humidifier_keys ++ humidifier_line ++ humidifier_points.
Definition ParseModbusHumidifierCfg (pDocPath : option string) : P Z :=
  parse_cells pDocPath "/Device/Modbus/Humidifier/Cell"
    (own_cell "Humidifier" MODBUS_DEVICE_HUMIDIFIER 2 humidifier_tags).

(** ** Purifiers: [ModbusPurifier_t] *)

Definition purifier_keys : list (string * hnd) := [
  ("SharedLibrary", SharedLibrary Skip Retry); ("ProductID", ProductID Exit master);
  ("PrimaryKey", PrimaryKey g_Mac DEVICE_TYPE_MODBUS id Skip Retry);
  ("ForeignKey", ForeignKey Retry Retry); ("ForeignType", ForeignType Exit (Some DEVICE_TYPE_UNKNOWN))].
Definition purifier_line : list (string * hnd) := [
  ("DeviceAddr", DeviceAddr);
  ("Port", Port); ("Baudrate", Baudrate); ("Databit", Databit); ("Parity", Parity); ("Stopbit", Stopbit);
  ("Feedback", Feedback); ("OnlineCheck", OnlineCheck); ("FullDuplex", FullDuplex false); ("Delay", Delay)].
Definition purifier_points : list (string * hnd) := [
  ("Flow", Point Skip 0 PURIFIER_FLOW PROP_VALUE); ("TDS", Point Skip 1 PURIFIER_TDS PROP_VALUE);
  ("FilterTime", Point Skip 2 PURIFIER_PP_FILTER_TIME PROP_VALUE); ("Reset", Point Skip 3 PURIFIER_RESET PROP_BOOL)].
Definition purifier_tags : list (string * hnd) := purifier_keys ++ purifier_line ++ purifier_points.
Definition ParseModbusPurifierCfg (pDocPath : option string) : P Z :=
  parse_cells pDocPath "/Device/Modbus/Purifier/Cell"
    (own_cell "Purifier" MODBUS_DEVICE_PURIFIER 4 purifier_tags).

(** ** Panels: [MbusPanel_t] *)

Definition panel_item : list (string * hnd) := [
    ("PrimaryKey", PrimaryKey g_Mac DEVICE_TYPE_MODBUS (set_el_primaryType MODBUS_DEVICE_VENTILATION) Skip Retry);
    ("ForeignKey", ForeignKey Retry Retry);
    ("ForeignType", ForeignType Exit (Some DEVICE_TYPE_UNKNOWN));
    ("RoomNo", RoomNo)].
Definition ParseMbusPanelKey : xnode -> MbusDev -> P Z :=
  item_cells [0%nat] false panel_item.
Definition panel_line : list (string * hnd) := [
  ("SharedLibrary", SharedLibrary Skip Retry); ("ProductID", ProductID Exit master); ("DeviceAddr", DeviceAddr);
  ("Port", Port); ("Baudrate", Baudrate); ("Databit", Databit); ("Parity", Parity); ("Stopbit", Stopbit);
  ("Feedback", Feedback); ("OnlineCheck", OnlineCheck); ("FullDuplex", FullDuplex false); ("Delay", Delay)].
Definition panel_tags : list (string * hnd) :=
  panel_line ++ [("Switch", Point Skip 0 PANEL_SWITCH PROP_BOOL); ("Item", Item)].
Definition ParseMbusPanelCfg (pDocPath : option string) : P Z :=
  parse_cells pDocPath "/Device/Modbus/Panel/Cell"
    (line_cell "Panel" MODBUS_DEVICE_PANNEL 1 panel_tags ParseMbusPanelKey).

(** ** Curtains: [MbusCurtain_t] *)

Definition curtain_keys : list (string * hnd) := [
  ("SharedLibrary", SharedLibrary Skip Retry); ("ProductID", ProductID Exit master);
  ("PrimaryKey", PrimaryKey g_Mac DEVICE_TYPE_MODBUS (set_el_primaryType MODBUS_DEVICE_CURTAIN) Skip Retry);
  ("ForeignKey", ForeignKey Retry Retry); ("ForeignType", ForeignType Exit (Some DEVICE_TYPE_UNKNOWN))].
Definition curtain_line : list (string * hnd) := [
  ("DeviceAddr", DeviceAddr);
  ("Port", Port); ("Baudrate", Baudrate); ("Databit", Databit); ("Parity", Parity); ("Stopbit", Stopbit);
  ("Feedback", Feedback); ("OnlineCheck", OnlineCheck); ("FullDuplex", FullDuplex false); ("Delay", Delay)].
Definition curtain_points : list (string * hnd) := [
  ("Switch", Point Skip 0 CURTAIN_SWITCH PROP_ENUM); ("Fault", Point Skip 1 FREATURE_FAULT PROP_VALUE);
  ("Direction", Point_seen 3 Skip 3 CURTAIN_DIRECTION PROP_BOOL 0); ("Position", Point Skip 2 FEATURE_POS PROP_STR)].
Definition curtain_tags : list (string * hnd) := curtain_keys ++ curtain_line ++ curtain_points.
Definition ParseMbusCurtainCfg (pDocPath : option string) : P Z :=
  parse_cells pDocPath "/Device/Modbus/Curtain/Cell"
    (own_cell "Curtain" MODBUS_DEVICE_CURTAIN 4 curtain_tags).
End Parsers.
