(* ===== verification/ModbusConfig.v ===== *)
(** What the parsers of the Modbus devices make of a configuration.

    Whatever the document holds, the devices a parser adds are well formed
    ([dev_typed]) and the settings of the ports are ones the lines have. *)

From Stdlib Require Import Ascii.
From stdpp Require Import pretty.
From S2P Require Import Prelude CMem CStr Device Serial Xml Cells CellRules ParseModbus.

Local Open Scope string_scope.
Local Open Scope list_scope.
Local Open Scope Z_scope.

(** ** Families

    The types a device can have, the point of each pointer (its number, its type and
    [valueOld]) and the parser. *)

Record family := Family {
  f_name : string;
  f_types : list Z;
  f_points : list (Z * Z * Z);
  f_parse : forall `{LibXml}, string -> option string -> par (pst MbusDev) Z
}.
Definition value_point (lp ty : Z) : Z * Z * Z := (lp, ty, NO_VALUE).

Definition F_acd : family := Family "AirCondition" [MODBUS_DEVICE_AIRCONDITION]
  [value_point ACD_SWITCH PROP_BOOL; value_point ACD_SPEED PROP_ENUM; value_point ACD_MODE PROP_ENUM;
   value_point ACD_TEMP PROP_VALUE; value_point ACD_ENV_TEMP PROP_VALUE; value_point ACD_ERROR_CODE PROP_STR]
  (@ParseMbusAcdCfg).
Definition F_vent : family := Family "Ventilation" [MODBUS_DEVICE_VENTILATION]
  [value_point VENT_SWITCH PROP_BOOL; value_point VENT_SPEED PROP_ENUM; value_point VENT_HUMI PROP_VALUE;
   value_point VENT_ENV_HUMI PROP_VALUE; value_point VENT_MODE PROP_ENUM; value_point VENT_VALVE PROP_BOOL;
   value_point FREATURE_FAULT PROP_STR]
  (@ParseMbusVentCfg).
Definition F_heat : family := Family "FloorHeating" [MODBUS_DEVICE_FLOORHEATING]
  [value_point HEAT_SWITCH PROP_BOOL; value_point HEAT_TEMP PROP_VALUE; value_point HEAT_ENV_TEMP PROP_VALUE;
   value_point HEAT_ENV_TEMP PROP_VALUE]
  (@ParseMbusHeatCfg).
Definition F_aqi : family := Family "AQI" [MODBUS_DEVICE_AQI; MODBUS_DEVICE_FLOORHEATING]
  [value_point AQI_TEMP PROP_VALUE; value_point AQI_HUMI PROP_VALUE; value_point AQI_PM25 PROP_VALUE;
   value_point AQI_CO2 PROP_VALUE]
  (@ParseMbusAqiCfg).
Definition F_humidifier : family := Family "Humidifier" [MODBUS_DEVICE_HUMIDIFIER]
  [value_point HUMIDIFIER_SWITCH PROP_BOOL; value_point HUMIDIFIER_HUMIDITY_SET PROP_VALUE]
  (@ParseModbusHumidifierCfg).
Definition F_purifier : family := Family "Purifier" [MODBUS_DEVICE_PURIFIER]
  [value_point PURIFIER_FLOW PROP_VALUE; value_point PURIFIER_TDS PROP_VALUE;
   value_point PURIFIER_PP_FILTER_TIME PROP_VALUE; value_point PURIFIER_RESET PROP_BOOL]
  (@ParseModbusPurifierCfg).
Definition F_panel : family := Family "Panel" [MODBUS_DEVICE_PANNEL; MODBUS_DEVICE_VENTILATION]
  [value_point PANEL_SWITCH PROP_BOOL]
  (@ParseMbusPanelCfg).
Definition F_curtain : family := Family "Curtain" [MODBUS_DEVICE_CURTAIN]
  [value_point CURTAIN_SWITCH PROP_ENUM; value_point FREATURE_FAULT PROP_VALUE; value_point FEATURE_POS PROP_STR;
   (CURTAIN_DIRECTION, PROP_BOOL, 0)]
  (@ParseMbusCurtainCfg).
Definition families : list family :=
  [F_acd; F_vent; F_heat; F_aqi; F_humidifier; F_purifier; F_panel; F_curtain].

(** ** Well-formed devices *)

Definition point_typed (row : Z * Z * Z) (o : option MbusObj_t) : Prop :=
  match o with
  | None => True
  | Some p => exists v, p = new_point row.1.1 row.1.2 row.2 v /\ is_i32 v
  end.

(** [n]: the number of blocks of serial ports. *)
Record base_typed (g_Mac : string) (types : list Z) (n : nat) (b : MbusCfg) : Prop := {
  bt_element : element_typed g_Mac DEVICE_TYPE_MODBUS types (mb_el b);
  bt_devAddr : 0 <= mb_devAddr b < 65536;
  bt_regAddr : 0 <= mb_regAddr b < 65536;
  bt_delay : 0 <= mb_delay b < 65536;
  bt_pSerial : exists i, mb_pSerial b = Some i /\ (i < n)%nat
}.
Record dev_typed (g_Mac : string) (f : family) (n : nat) (d : MbusDev) : Prop := {
  dt_base : base_typed g_Mac (f_types f) n (md_base d);
  dt_objs : Forall2 point_typed (f_points f) (md_objs d)
}.

(** A setting is 0 until the configuration gives one. *)
Record param_typed (p : SerialParam_t) : Prop := {
  pt_port : port p = 0 /\ pMutex p = None \/ 1 <= port p <= 4 /\ pMutex p = Some (Z.to_nat (port p - 1));
  pt_baudrate : baudrate p = 0 \/ 2400 <= baudrate p <= 115200;
  pt_databits : databits p = 0 \/ 5 <= databits p <= 8;
  pt_parity : parity p ∈ [0; 110; 78; 111; 79; 101; 69];
  pt_stopbits : 0 <= stopbits p <= 2
}.

(** ** The settings of the ports *)

Definition settings_ok (n : nat) (w : world) : Prop := (n <= length (params w))%nat /\ Forall param_typed (params w).

(** A function of the ports that keeps them so. *)
Definition safe_io {A} (m : io world A) : Prop :=
  forall n w, settings_ok n w -> match m w with Ran _ w' => settings_ok n w' | _ => True end.

Lemma safe_ret {A} (a : A) : safe_io (mret a).
Proof. by intros n w Hw. Qed.
Lemma safe_fault {A} : safe_io (A := A) fault.
Proof. by intros n w Hw. Qed.
Lemma safe_bind {A B} (m : io world A) (f : A -> io world B) : safe_io m -> (forall a, safe_io (f a)) -> safe_io (m ≫= f).
Proof.
  intros Hm Hf n w Hw. unfold mbind, io_bind. specialize (Hm n w Hw). destruct (m w); [|done..]. by apply Hf.
Qed.
Lemma safe_get i : safe_io (get_param i).
Proof. intros n w Hw. unfold get_param. by destruct (params w !! i). Qed.
Lemma safe_upd i f : (forall p, param_typed p -> param_typed (f p)) -> safe_io (upd_param i f).
Proof.
  intros Hf n w [Hn Hw]. unfold upd_param, mbind, io_bind, get_param, put_param.
  destruct (params w !! i) as [p|] eqn:E; [|done]. split; simpl; [by rewrite length_insert|].
  apply Forall_insert; [done|]. apply Hf. by eapply Forall_lookup_1.
Qed.
Lemma safe_emit e : safe_io (emit e).
Proof. by intros n w Hw. Qed.
Lemma safe_open : safe_io sys_open.
Proof. by intros n w Hw. Qed.
Lemma safe_ok : safe_io sys_ok.
Proof. by intros n w Hw. Qed.
Lemma safe_set_locked m b : safe_io (set_locked m b).
Proof. by intros n w Hw. Qed.
Lemma safe_lock m : safe_io (mutex_lock m).
Proof. intros n w Hw. unfold mutex_lock. by destruct (locked w !! m) as [[]|]. Qed.
Lemma safe_trylock m : safe_io (mutex_trylock m).
Proof. intros n w Hw. unfold mutex_trylock. by destruct (locked w !! m) as [[]|]. Qed.
Create HintDb ports.
#[export] Hint Resolve safe_ret safe_fault safe_bind safe_get safe_upd safe_emit safe_open safe_ok safe_set_locked
  safe_lock safe_trylock : ports.

Lemma typed_same p q :
  port q = port p -> pMutex q = pMutex p -> baudrate q = baudrate p -> databits q = databits p -> parity q = parity p ->
  stopbits q = stopbits p -> param_typed p -> param_typed q.
Proof. intros E1 E2 E3 E4 E5 E6 []. split; by rewrite ?E1, ?E2, ?E3, ?E4, ?E5, ?E6. Qed.
Ltac same_settings := intros p Hp; by apply (typed_same p).

Lemma safe_unlock m : safe_io (unlock_opt m).
Proof. destruct m; unfold unlock_opt, mutex_unlock; auto with ports. Qed.
Lemma safe_set_sfd i fd : safe_io (upd_param i (set_sfd fd)).
Proof. apply safe_upd. same_settings. Qed.
Lemma safe_set_devDesc i v : safe_io (upd_param i (set_devDesc v)).
Proof. apply safe_upd. same_settings. Qed.
#[export] Hint Resolve safe_unlock safe_set_sfd safe_set_devDesc : ports.

Lemma safe_open_line i : safe_io (open_line i).
Proof.
  unfold open_line. apply safe_bind; [auto with ports|]. intros p. apply safe_bind; [auto with ports|]. intros fd.
  apply safe_bind; [auto with ports|]. intros _. destruct (fd <? 0); [auto with ports|].
  apply safe_bind; [auto with ports|]. intros _. apply safe_bind; [auto with ports|]. intros [|]; simpl;
  [|auto 6 with ports]. apply safe_bind; [auto with ports|]. intros _. apply safe_bind; [auto with ports|].
  intros [|]; simpl; auto 6 with ports.
Qed.

Lemma safe_SerialOpen i : safe_io (SerialOpen i).
Proof.
  destruct i as [i|]; [|apply safe_ret]. apply safe_bind; [auto with ports|]. intros p.
  apply safe_bind; [destruct (String.eqb _ _); auto with ports|]. intros _. destruct (bFullDuplex p).
  - destruct (pMutex p) as [m|]; [|auto with ports]. apply safe_bind; [auto with ports|].
    intros [|]; [apply safe_open_line|auto with ports].
  - apply safe_bind; [destruct (pMutex p); auto with ports|]. intros _. apply safe_open_line.
Qed.

Lemma safe_SerialRead i : safe_io (SerialRead i).
Proof.
  destruct i as [i|]; [|apply safe_ret]. apply safe_bind; [auto with ports|]. intros p.
  destruct (_ && _); auto with ports.
Qed.

Lemma safe_set_if i (b : bool) f : (b = true -> forall p, param_typed p -> param_typed (f p)) -> safe_io (set_if i b f).
Proof.
  intros Hf. destruct i as [i|]; [|apply safe_ret]. unfold set_if. destruct b; [|apply safe_ret].
  apply safe_bind; [by apply safe_upd, Hf|auto with ports].
Qed.

Lemma safe_SetPort i v : safe_io (SetPort i v).
Proof. apply safe_set_if. intros E p []. bprop. split; try done. right. simpl. split; [lia|done]. Qed.
Lemma safe_SetBaudrate i v : safe_io (SetBaudrate i v).
Proof. apply safe_set_if. intros E p []. bprop. split; try done. right. simpl. lia. Qed.
Lemma safe_SetDatabits i v : safe_io (SetDatabits i v).
Proof. apply safe_set_if. intros E p []. bprop. split; try done. right. simpl. lia. Qed.
Lemma safe_SetStopbits i v : safe_io (SetStopbits i v).
Proof. apply safe_set_if. intros E p []. bprop. split; try done. simpl. lia. Qed.
Lemma safe_SetParity i v : safe_io (SetParity i v).
Proof.
  apply safe_set_if. intros (x & Hx & E)%existsb_exists p []. split; try done. simpl. bprop. subst.
  right. by apply list_elem_of_In.
Qed.
Lemma safe_SetFullDuplex i b : safe_io (SetFullDuplex i b).
Proof. apply safe_set_if. intros _. same_settings. Qed.
#[export] Hint Resolve safe_SerialOpen safe_SerialRead safe_SetPort safe_SetBaudrate safe_SetDatabits safe_SetStopbits
  safe_SetParity safe_SetFullDuplex : ports.

(** ** The rounds *)

Lemma dev_typed_mono g_Mac f n m d : (n <= m)%nat -> dev_typed g_Mac f n d -> dev_typed g_Mac f m d.
Proof. intros Hn [[He Ha Hr Hd (i & Hi & Hlt)] Ho]. split; [split|]; try done. exists i. split; [done|lia]. Qed.

Section Rounds.
Context `{LibXml} (g_Mac : string) (f : family) (ok : stop -> Prop).
Context (Hexit : ok Exited) (Hcrash : ok Crashed) (Hhung : ok Hung).
Context (l0 : list MbusDev) (n0 : nat).
Implicit Types s : pst MbusDev.

Definition blocks s : nat := length (params (p_ports s)).
Record pinv s : Prop := {
  pi_list : exists l, p_list s = l0 ++ l /\ Forall (dev_typed g_Mac f (blocks s)) l;
  pi_params : Forall param_typed (params (p_ports s));
  pi_blocks : (n0 <= blocks s)%nat
}.
Definition rinv (l : loc MbusDev) s : Prop := dev_typed g_Mac f (blocks s) (l_dev l) /\ pinv s.

Lemma pinv_heap s h : pinv s -> pinv (with_pheap h s).
Proof. intros []. by split. Qed.
Lemma rinv_heap l s h : rinv l s -> rinv l (with_pheap h s).
Proof. intros [Hd Hs]. split; [done|by apply pinv_heap]. Qed.
Lemma rinv_dev g l s : (forall n d, dev_typed g_Mac f n d -> dev_typed g_Mac f n (g d)) -> rinv l s -> rinv (map_dev g l) s.
Proof. intros Hg [Hd Hs]. split; [by apply Hg|done]. Qed.
Lemma rinv_base g l s :
  (forall n b, base_typed g_Mac (f_types f) n b -> base_typed g_Mac (f_types f) n (g b)) ->
  rinv l s -> rinv (map_dev (on_base g) l) s.
Proof. intros Hg. apply rinv_dev. intros n d [Hb Ho]. split; [by apply Hg|done]. Qed.
Lemma rinv_el l s g :
  (forall e, element_typed g_Mac DEVICE_TYPE_MODBUS (f_types f) e -> element_typed g_Mac DEVICE_TYPE_MODBUS (f_types f) (g e)) ->
  rinv l s -> rinv (map_el g l) s.
Proof.
  intros Hg. apply (rinv_base (fun b => set_mb_el (g (mb_el b)) b)). intros n b []. split; try done. simpl. by apply Hg.
Qed.
Lemma rinv_fkey k l s : rinv l s -> rinv (set_fkey k l) s.
Proof. exact id. Qed.
Lemma rinv_item k l s : rinv l s -> rinv (set_item k l) s.
Proof. exact id. Qed.
Hint Resolve pinv_heap rinv_heap rinv_el rinv_fkey rinv_item : core.

Lemma pwp_safe {A} (m : io world A) (Q : A -> pst MbusDev -> Prop) s :
  safe_io m -> pinv s ->
  (forall a w, (blocks s <= length (params w))%nat -> pinv (with_pports w s) -> Q a (with_pports w s)) ->
  pwp ok (on_line m) Q s.
Proof.
  intros Hm [(l & El & Hl) Hp Hn0] HQ. apply pwp_on_line; [done..|]. intros a w E.
  specialize (Hm (blocks s) (p_ports s)). rewrite E in Hm. destruct Hm as [Hn Hw]; [by split|].
  apply HQ; [done|]. split; [|done|unfold blocks in *; simpl; lia]. exists l. split; [done|]. eapply Forall_impl; [done|]. intros d. by apply dev_typed_mono.
Qed.

Lemma rinv_on_line {A} (m : io world A) l s : safe_io m -> rinv l s -> pwp ok (on_line m) (fun _ => rinv l) s.
Proof. intros Hm [Hd Hs]. apply pwp_safe; [done..|]. intros _ w Hn Hw. split; [|done]. by eapply dev_typed_mono. Qed.

Local Notation keeps := (keeps ok rinv).

Lemma keeps_u16 set :
  (forall v n b, 0 <= v < 65536 -> base_typed g_Mac (f_types f) n b -> base_typed g_Mac (f_types f) n (set v b)) ->
  keeps (u16_number set).
Proof.
  intros Hset x l s Hl. apply pwp_bind, pwp_content; [done|]. intros [t|]; [|done].
  apply pwp_bind, pwp_number; [done|]. intros v _. apply rinv_base; [|done]. intros n b. apply Hset, u16_range.
Qed.

Lemma keeps_set_line set l v s : (forall i, safe_io (set i v)) -> rinv l s -> pwp ok (set_line set l v) (turned rinv) s.
Proof.
  intros Hset Hl. apply pwp_bind. eapply pwp_conseq; [by apply rinv_on_line|]. intros r s' Hs'. by destruct (r =? 0).
Qed.

Lemma keeps_line_number set : (forall i v, safe_io (set i v)) -> keeps (line_number set).
Proof.
  intros Hset x l s Hl. apply pwp_bind, pwp_content; [done|]. intros [t|]; [|done].
  apply pwp_bind, pwp_number; [done|]. intros v _. by apply keeps_set_line.
Qed.

Lemma keeps_Parity : keeps Parity.
Proof.
  intros x l s Hl. apply pwp_bind, pwp_content; [done|]. intros [t|]; [|done].
  apply keeps_set_line; [auto with ports|done].
Qed.

Lemma bt_flag (g : MbusCfg -> MbusCfg) n b :
  mb_el (g b) = mb_el b -> mb_devAddr (g b) = mb_devAddr b -> mb_regAddr (g b) = mb_regAddr b -> mb_delay (g b) = mb_delay b ->
  mb_pSerial (g b) = mb_pSerial b -> base_typed g_Mac (f_types f) n b -> base_typed g_Mac (f_types f) n (g b).
Proof. intros E1 E2 E3 E4 E5 []. split; by rewrite ?E1, ?E2, ?E3, ?E4, ?E5. Qed.
Ltac flag := apply rinv_base; [intros; by apply bt_flag|done].

Lemma keeps_Feedback : keeps Feedback.
Proof. apply keeps_when_letter; [done..|]. intros l s Hl. flag. Qed.
Lemma keeps_OnlineCheck : keeps OnlineCheck.
Proof. apply keeps_when_letter; [done..|]. intros l s Hl. flag. Qed.
Lemma keeps_OnlineCheckYN : keeps OnlineCheckYN.
Proof.
  intros x l s Hl. apply pwp_bind, pwp_content; [done|]. intros [t|]; [|done].
  apply pwp_ret. destruct (is_letter _ _ t); [flag|]. destruct (is_letter _ _ t); [flag|done].
Qed.

Lemma pwp_start_line b l s : rinv l s -> pwp ok (start_line b) (fun _ => rinv l) s.
Proof.
  intros Hl. apply pwp_bind. eapply pwp_conseq; [apply (rinv_on_line _ l); auto with ports|]. intros ? s1 H1.
  apply pwp_bind. eapply pwp_conseq; [apply (rinv_on_line _ l); auto with ports|]. done.
Qed.

Lemma keeps_FullDuplex b : keeps (FullDuplex b).
Proof.
  intros x l s Hl. apply pwp_bind, pwp_content; [done|]. intros [t|]; [|done].
  destruct (is_letter _ _ t); [|done].
  apply (rinv_base (set_mb_bFullDuplex true)) in Hl; [|intros; by apply bt_flag].
  apply pwp_bind. eapply pwp_conseq; [apply rinv_on_line; [auto with ports|exact Hl]|]. intros ? s1 H1.
  apply pwp_bind. apply (pwp_conseq _ _ (fun _ => rinv (map_dev (on_base (set_mb_bFullDuplex true)) l))); [|done].
  destruct b; [by apply pwp_start_line|done].
Qed.

Lemma keeps_Point_seen seen null slot lp ty old :
  f_points f !! slot = Some (lp, ty, old) -> keeps (Point_seen seen null slot lp ty old).
Proof.
  intros Hp x l s Hl. apply pwp_bind. eapply pwp_conseq.
  - apply (pwp_while_nodes ok Hhung rinv); [|exact Hl]. intros c l' s' Hl'. apply pwp_tags; [|done].
    constructor; [|constructor]. clear c l' s' Hl'. intros c l' s' Hl'. simpl.
    apply pwp_bind, pwp_content; [done|]. intros [t|]; [|by apply pwp_end_round].
    apply pwp_bind, pwp_pcalloc. intros [] h; [|done]. simpl.
    apply pwp_bind, pwp_number; [done|]. intros v Hv. apply rinv_dev; [|by apply rinv_heap].
    intros n d [Hb Ho]. split; [done|]. simpl. rewrite <- (list_insert_id _ _ _ Hp).
    apply Forall2_insert; [done|]. by exists v.
  - intros l' s' Hl'. by destruct (md_objs (l_dev l') !! seen) as [[]|].
Qed.
Lemma keeps_Point null slot lp ty : f_points f !! slot = Some (value_point lp ty) -> keeps (Point null slot lp ty).
Proof. apply keeps_Point_seen. Qed.

Lemma keeps_Item : keeps Item.
Proof. intros x l s Hl. exact Hl. Qed.

Lemma keeps_RoomNo : keeps RoomNo.
Proof.
  intros x l s Hl. apply pwp_bind, pwp_content; [done|]. intros [t|]; [|done].
  apply pwp_bind, pwp_number; [done|]. intros v _. apply rinv_base; [|done].
  intros n b []. split; try done. apply u16_range.
Qed.

(** A loop over the elements of a cell. *)
Lemma pwp_tag_loop ts l nodes s :
  Forall (fun t => keeps t.2) ts -> rinv l s -> pwp ok (while_nodes (tags ts) nodes l) rinv s.
Proof. intros Hts. apply pwp_while_nodes; [done|]. intros x a s' Ha. by apply pwp_tags. Qed.

(** ** Structures *)

Lemma safe_new_param s (Q : nat -> pst MbusDev -> Prop) :
  pinv s -> (forall w, (blocks s < length (params w))%nat -> pinv (with_pports w s) -> Q (blocks s) (with_pports w s)) ->
  pwp ok (on_line new_param) Q s.
Proof.
  intros [(l & El & Hl) Hp Hn0] HQ. apply HQ; simpl; [rewrite length_app; simpl; unfold blocks; lia|].
  split; simpl.
  - exists l. split; [done|]. eapply Forall_impl; [done|]. intros d. apply dev_typed_mono.
    unfold blocks. simpl. rewrite length_app. lia.
  - apply Forall_app. split; [done|]. constructor; [|constructor].
    split; simpl; [by left|by left|by left|by left|lia].
  - unfold blocks in *. simpl. rewrite length_app. lia.
Qed.

Lemma pwp_SerialInit s :
  pinv s -> pwp ok SerialInit (fun i s' => pinv s' /\ forall k, i = Some k -> (k < blocks s')%nat) s.
Proof.
  intros Hs. unfold SerialInit.
  apply pwp_bind, pwp_pcalloc. intros [] h; [|split; [by apply pinv_heap|done]]. cbn [negb].
  apply pwp_bind, pwp_pcalloc. intros [] h'; cbn [negb].
  2:{ apply pwp_bind, pwp_pfree. intros h2. split; [by repeat apply pinv_heap|done]. }
  apply pwp_bind, (pwp_safe sys_ok); [auto with ports|by repeat apply pinv_heap|]. intros b w _ Hw. destruct b; cbn [negb].
  - apply pwp_bind, safe_new_param; [done|]. intros w' Hlt Hw'. split; [done|]. intros k [= <-]. done.
  - apply pwp_bind, pwp_pfree. intros h2. apply pwp_bind, pwp_pfree. intros h3.
    split; [by repeat apply pinv_heap|done].
Qed.

Lemma pwp_new_device name ty s :
  ty ∈ f_types f -> pinv s ->
  pwp ok (new_device name ty (length (f_points f))) (fun d s' => pinv s' /\ forall x, d = Some x -> dev_typed g_Mac f (blocks s') x) s.
Proof.
  intros Hty Hs. unfold new_device.
  apply pwp_bind, pwp_pcalloc. intros [] h; [|split; [by apply pinv_heap|done]]. cbn [negb].
  apply pwp_bind, pwp_pcalloc. intros [] h'; [|split; [by repeat apply pinv_heap|done]]. cbn [negb].
  apply pwp_bind. eapply pwp_conseq; [apply pwp_SerialInit; by repeat apply pinv_heap|].
  intros [i|] s' [Hs' Hi]; (split; [done|]); [|done]. intros x [= <-].
  split; [split|]; try (simpl; lia).
  - by split.
  - exists i. split; [done|by apply Hi].
  - simpl. apply Forall2_same_length_lookup_2; [by rewrite length_replicate|].
    intros i' x y _ [-> _]%lookup_replicate. done.
Qed.

Lemma pwp_copy_objs slots from to s :
  Forall2 point_typed (f_points f) from -> Forall2 point_typed (f_points f) to -> pinv s ->
  pwp ok (copy_objs slots from to)
    (fun o s' => pinv s' /\ blocks s' = blocks s /\ forall x, o = Some x -> Forall2 point_typed (f_points f) x) s.
Proof.
  intros Hf. revert to s. induction slots as [|k slots IH]; intros to s Ht Hs.
  { split; [done|]. split; [done|]. by intros x [= <-]. }
  simpl. destruct (from !! k) as [[o|]|] eqn:E; [|by apply IH..].
  apply pwp_bind, pwp_pcalloc. intros [] h; [|split; [by apply pinv_heap|done]].
  eapply pwp_conseq; [apply IH; [|by apply pinv_heap]|intros o' s' H'; exact H'].
  destruct (Forall2_lookup_r _ _ _ _ _ Hf E) as (row & Hrow & Ho).
  rewrite <- (list_insert_id _ _ _ Hrow). by apply Forall2_insert.
Qed.

Lemma pwp_deep_copy slots group proto pCell s :
  dev_typed g_Mac f (blocks s) proto -> pinv s ->
  pwp ok (deep_copy slots group proto pCell) (fun d s' => pinv s' /\ (blocks s <= blocks s')%nat /\
    forall x, d = Some x -> dev_typed g_Mac f (blocks s') x) s.
Proof.
  intros Hd Hs. unfold deep_copy.
  apply pwp_bind, pwp_pcalloc. intros [] h; [|split_and!; [by apply pinv_heap|done|done]]. cbn [negb].
  apply pwp_bind. eapply pwp_conseq.
  { apply pwp_copy_objs; [apply Hd| |by apply pinv_heap].
    apply Forall2_same_length_lookup_2.
    - rewrite length_replicate. by apply (Forall2_length point_typed), Hd.
    - intros i' x y _ [-> _]%lookup_replicate. done. }
  intros [objs|] s1 (H1 & E1 & Ho); [|split_and!; [done|by rewrite E1|done]].
  apply pwp_bind, pwp_pcalloc. intros [] h1; [|split_and!; [by repeat apply pinv_heap|unfold blocks in *; simpl in *; lia|done]]. cbn [negb].
  apply pwp_bind, pwp_pcalloc. intros [] h2; [|split_and!; [by repeat apply pinv_heap|unfold blocks in *; simpl in *; lia|done]]. cbn [negb].
  set (s2 := with_pheap h2 _).
  assert (rinv (Loc (MDev (md_base proto) objs) None None None) s2) as Hr.
  { split; [|by repeat apply pinv_heap]. unfold s2, blocks in *. simpl in *. rewrite E1. split; [apply Hd|by apply Ho]. }
  assert (blocks s2 = blocks s) as E2 by (unfold s2, blocks in *; simpl in *; lia).
  clearbody s2. apply pwp_bind.
  apply (pwp_conseq _ _ (fun _ s' => rinv (Loc (MDev (md_base proto) objs) None None None) s' /\ (blocks s2 <= blocks s')%nat)).
  { destruct (mb_bFullDuplex _); [|by split].
    apply pwp_bind, pwp_safe; [auto with ports|apply Hr|]. intros _ w Hw Hi.
    apply pwp_bind, pwp_safe; [auto with ports|done|]. intros _ w' Hw' Hi'. split; [split; [|done]|unfold blocks in *; simpl in *; lia].
    eapply dev_typed_mono; [|apply Hr]. unfold blocks in *; simpl in *; lia. }
  intros _ s3 [[H3 H3'] Hle]. split; [done|]. split; [lia|]. intros x [= <-]. simpl in H3.
  destruct (group && _); [|done]. destruct H3 as [Hb Hobj]. split; [|done]. by apply bt_flag.
Qed.

Lemma keeps_list s d : pinv s -> dev_typed g_Mac f (blocks s) d -> pwp ok (listAddNodeTail d) (fun _ => pinv) s.
Proof.
  intros [(l & El & Hl) Hp Hn0] Hd. split; [|done|done]. exists (l ++ [d]). simpl. rewrite El, <- app_assoc. split; [done|].
  apply Forall_app. split; [done|]. by constructor.
Qed.

Lemma pwp_foreign_list l s :
  rinv l s -> pwp ok (l ← write_foreign g_Mac l; listAddNodeTail (l_dev l)) (fun _ => pinv) s.
Proof.
  intros Hl. apply pwp_bind. eapply pwp_conseq.
  { apply (pwp_write_foreign g_Mac ok Hcrash DEVICE_TYPE_MODBUS (f_types f) rinv); [|exact Hl]. auto. }
  intros l' s' [Hd Hs]. by apply keeps_list.
Qed.

End Rounds.

(** ** Parsers *)

Section Parsers.
Context `{LibXml} (g_Mac : string) (f : family) (ok : stop -> Prop).
Context (Hexit : ok Exited) (Hcrash : ok Crashed) (Hhung : ok Hung).
Variable l0 : list MbusDev.
Implicit Types s : pst MbusDev.
Local Notation pinv := (pinv g_Mac f l0).
Local Notation keep ts := (forall n, Forall (fun t => keeps ok (rinv g_Mac f l0 n) t.2) ts).

Lemma pinv_weaken n m s : (n <= m)%nat -> pinv m s -> pinv n s.
Proof. intros Hn []. split; [done|done|lia]. Qed.

Lemma keeps_item_cells n slots group ts pItem proto s :
  keep ts -> dev_typed g_Mac f (blocks s) proto -> pinv n s ->
  pwp ok (item_cells g_Mac slots group ts pItem proto) (fun _ => pinv n) s.
Proof.
  intros Hts Hd Hs. apply pwp_bind.
  apply (pwp_conseq _ _ (fun _ => pinv (blocks s))).
  2:{ intros _ s' Hs'. apply (pinv_weaken _ (blocks s)); [apply Hs|done]. }
  apply (pwp_while_nodes ok Hhung (fun _ => pinv (blocks s))); [|by destruct Hs; split].
  clear Hs. intros x [] s1 Hs1. apply pwp_tags; [|done]. constructor; [|constructor]. clear x s1 Hs1.
  intros x [] s1 Hs1. simpl. unfold item_cell. apply pwp_bind. eapply pwp_conseq.
  { apply (pwp_deep_copy g_Mac f ok Hcrash Hhung l0 (blocks s)); [|done]. eapply dev_typed_mono; [|done]. apply Hs1. }
  intros [d|] s2 (Hs2 & H2 & Hd2); [|done].
  apply pwp_bind. eapply pwp_conseq.
  { apply (pwp_tag_loop g_Mac f ok Hhung l0 (blocks s)); [done|]. split; [by apply Hd2|done]. }
  intros l s3 H3. apply pwp_bind. eapply pwp_conseq.
  { apply (pwp_write_foreign g_Mac ok Hcrash DEVICE_TYPE_MODBUS (f_types f)); [|exact H3].
    intros l' s' g. apply rinv_el. }
  intros l' s4 [H4 H4']. apply pwp_bind. eapply pwp_conseq; [by apply (keeps_list g_Mac f ok l0 (blocks s))|]. done.
Qed.

Lemma keeps_line_cell n0 name ty n ts key x s :
  keep ts -> ty ∈ f_types f -> n = length (f_points f) ->
  (forall it proto m s, dev_typed g_Mac f (blocks s) proto -> pinv m s -> pwp ok (key it proto) (fun _ => pinv m) s) ->
  pinv n0 s -> pwp ok (line_cell name ty n ts key x) (fun _ => pinv n0) s.
Proof.
  intros Hts Hty -> Hkey Hs. apply pwp_bind. eapply pwp_conseq; [by apply (pwp_new_device g_Mac f ok Hcrash Hhung l0 n0)|].
  intros [d|] s1 [H1 Hd]; [|done]. apply pwp_bind. eapply pwp_conseq.
  { apply (pwp_tag_loop g_Mac f ok Hhung l0 n0); [done|]. split; [by apply Hd|done]. }
  intros l s2 [H2 H2']. destruct (l_item l) as [it|]; [|done].
  apply pwp_bind. eapply pwp_conseq; [by apply Hkey|]. intros r s3 H3. destruct (r =? -1); [done|].
  apply pwp_bind, pwp_pfree. intros h1. apply pwp_bind, pwp_pfree. intros h2. apply pwp_pfree. intros h3.
  by repeat apply pinv_heap.
Qed.

Lemma keeps_own_cell n0 name ty n ts x s :
  keep ts -> ty ∈ f_types f -> n = length (f_points f) ->
  pinv n0 s -> pwp ok (own_cell g_Mac name ty n ts x) (fun _ => pinv n0) s.
Proof.
  intros Hts Hty -> Hs. apply pwp_bind. eapply pwp_conseq; [by apply (pwp_new_device g_Mac f ok Hcrash Hhung l0 n0)|].
  intros [d|] s1 [H1 Hd]; [|done]. apply pwp_bind. eapply pwp_conseq.
  { apply (pwp_tag_loop g_Mac f ok Hhung l0 n0); [done|]. split; [by apply Hd|done]. }
  intros l s2 H2. by apply (pwp_foreign_list g_Mac f ok Hcrash l0 n0).
Qed.

(** ** The handlers of the element, of the round of a device *)

Lemma dev_SharedLibrary n null fail : keeps ok (rinv g_Mac f l0 n) (SharedLibrary null fail).
Proof. apply (keeps_SharedLibrary g_Mac ok Hexit Hcrash DEVICE_TYPE_MODBUS (f_types f)); auto using rinv_heap, rinv_el. Qed.
Lemma dev_ProductID n fail : keeps ok (rinv g_Mac f l0 n) (ProductID fail master).
Proof.
  apply (keeps_ProductID g_Mac ok Hexit Hcrash DEVICE_TYPE_MODBUS (f_types f)); auto using rinv_heap, rinv_el.
  intros e. apply et_master.
Qed.
Lemma dev_PrimaryKey n ty null fail : ty ∈ f_types f ->
  keeps ok (rinv g_Mac f l0 n) (PrimaryKey g_Mac DEVICE_TYPE_MODBUS (set_el_primaryType ty) null fail).
Proof.
  intros Hty. apply (keeps_PrimaryKey g_Mac ok Hexit Hcrash DEVICE_TYPE_MODBUS (f_types f)); auto using rinv_heap, rinv_el.
  intros e. by apply et_set_type.
Qed.
Lemma dev_PrimaryKey_id n null fail : keeps ok (rinv g_Mac f l0 n) (PrimaryKey g_Mac DEVICE_TYPE_MODBUS id null fail).
Proof. apply (keeps_PrimaryKey g_Mac ok Hexit Hcrash DEVICE_TYPE_MODBUS (f_types f)); auto using rinv_heap, rinv_el. Qed.
Lemma dev_ForeignKey n null fail : keeps ok (rinv g_Mac f l0 n) (ForeignKey null fail).
Proof. apply (keeps_ForeignKey g_Mac ok Hexit Hcrash DEVICE_TYPE_MODBUS (f_types f)); auto using rinv_heap, rinv_el. Qed.
Lemma dev_ForeignType n null : keeps ok (rinv g_Mac f l0 n) (ForeignType null (Some DEVICE_TYPE_UNKNOWN)).
Proof.
  apply (keeps_ForeignType g_Mac ok Hexit Hcrash DEVICE_TYPE_MODBUS (f_types f)); auto using rinv_heap, rinv_el.
  intros v [= <-]. done.
Qed.
Lemma dev_DeviceAddr n : keeps ok (rinv g_Mac f l0 n) DeviceAddr.
Proof. apply keeps_u16; [done..|]. intros v k b Hv []. by split. Qed.
Lemma dev_Delay n : keeps ok (rinv g_Mac f l0 n) Delay.
Proof. apply keeps_u16; [done..|]. intros v k b Hv []. by split. Qed.
End Parsers.

(** One handler after another. *)
Ltac keep_tag := cbn [snd];
  lazymatch goal with
  | |- keeps _ _ (SharedLibrary _ _) => by apply dev_SharedLibrary
  | |- keeps _ _ (ProductID _ _) => by apply dev_ProductID
  | |- keeps _ _ DeviceAddr => by apply dev_DeviceAddr
  | |- keeps _ _ Delay => by apply dev_Delay
  | |- keeps _ _ Parity => by apply keeps_Parity
  | |- keeps _ _ Feedback => by apply keeps_Feedback
  | |- keeps _ _ OnlineCheck => by apply keeps_OnlineCheck
  | |- keeps _ _ OnlineCheckYN => by apply keeps_OnlineCheckYN
  | |- keeps _ _ (FullDuplex _) => by apply keeps_FullDuplex
  | |- keeps _ _ (Point _ _ _ _) => by apply keeps_Point
  | |- keeps _ _ (Point_seen _ _ _ _ _ _) => by apply keeps_Point_seen
  | |- keeps _ _ Item => by apply keeps_Item
  | |- keeps _ _ RoomNo => by apply keeps_RoomNo
  | |- keeps _ _ (ForeignKey _ _) => by apply dev_ForeignKey
  | |- keeps _ _ (ForeignType _ _) => by apply dev_ForeignType
  | |- keeps _ _ (PrimaryKey _ _ id _ _) => by apply dev_PrimaryKey_id
  | |- keeps _ _ (PrimaryKey _ _ _ _ _) => apply dev_PrimaryKey; [done..|by repeat constructor]
  | |- _ => apply keeps_line_number; auto with ports
  end.
Ltac keep_tags :=
  intros n; repeat apply Forall_app_2; repeat first [apply Forall_nil_2 | apply Forall_cons_2]; keep_tag.

Ltac line_parser :=
  intros x s' Hs'; eapply keeps_line_cell; [done..|keep_tags|by left|done| |exact Hs'];
  intros it proto m t Hp Ht; eapply keeps_item_cells; [done..|keep_tags|exact Hp|exact Ht].
Ltac own_parser := intros x s' Hs'; eapply keeps_own_cell; [done..|keep_tags|by left|done|exact Hs'].

Lemma families_keep `{LibXml} g_Mac f path l0 n0 s :
  f ∈ families -> pinv g_Mac f l0 n0 s -> pwp (fun _ => True) (f_parse f g_Mac path) (fun _ => pinv g_Mac f l0 n0) s.
Proof.
  intros Hf Hs. unfold families in Hf.
  repeat apply elem_of_cons in Hf as [-> | Hf]; [apply pwp_parse_cells; [|exact Hs]..|by apply elem_of_nil in Hf].
  - line_parser.
  - line_parser.
  - line_parser.
  - line_parser.
  - own_parser.
  - own_parser.
  - line_parser.
  - own_parser.
Qed.

(** ** Properties *)

(** C13: whatever a configuration holds, the devices a Modbus parser adds to the list are well formed: every pointer
    is null or leads to a fresh point with the number, the type and the first value of its place in the structure, the
    addresses and the delay are 16-bit numbers, the keys fit their blocks, the device id is the one of the key, the
    type is one of the family's, and the serial pointer leads to a block; the devices that were in the list stay, and
    every setting of a port is unset or one the line has. *)
Theorem modbus_cfg_typed `{LibXml} g_Mac f path (s s' : pst MbusDev) r :
  f ∈ families -> Forall param_typed (params (p_ports s)) -> f_parse f g_Mac path s = Got r s' ->
  (exists l, p_list s' = p_list s ++ l /\ Forall (dev_typed g_Mac f (length (params (p_ports s')))) l) /\
  Forall param_typed (params (p_ports s')).
Proof.
  intros Hf Hp E. pose proof (families_keep g_Mac f path (p_list s) 0 s Hf) as Hk. unfold pwp in Hk. rewrite E in Hk.
  destruct Hk as [Hl Hp' _]; [|done]. split; [|done|lia]. exists []. by rewrite app_nil_r.
Qed.

(** An air conditioner and a curtain. *)
Definition leaf (name t : string) : xnode := XNode true name None [] [XNode false "text" (Some t) [] []].
Definition elem (name : string) (l : list xnode) : xnode := XNode true name None [] l.
Definition sample : list (string * list (string * list xnode)) := [("cfg.xml", [
  ("/Device/Modbus/AirCondition/Cell", [elem "Cell" [
     leaf "SharedLibrary" "acd.so"; leaf "DeviceAddr" "7"; leaf "Port" "2"; leaf "Baudrate" "9600";
     elem "Switch" [leaf "DataPoint" "101"];
     elem "Item" [elem "Cell" [leaf "PrimaryKey" "123"; leaf "RoomNo" "3"]]]])])].
Definition sample_st : pst MbusDev := PSt [] (W [] [false; false; false; false] [] [] []) (Heap [] 0).

Lemma modbus_cfg_typed_witness :
  exists s', f_parse (H := tree_lib sample) F_acd "AABBCCDDEEFF" (Some "cfg.xml") sample_st = Got 0 s' /\
    length (p_list s') = 1%nat /\
    Forall (dev_typed "AABBCCDDEEFF" F_acd (length (params (p_ports s')))) (p_list s').
Proof.
  eexists. split; [vm_compute; reflexivity|]. split; [reflexivity|].
  edestruct (modbus_cfg_typed (H := tree_lib sample) "AABBCCDDEEFF" F_acd (Some "cfg.xml") sample_st) as [(l & El & Hl) _];
    [by left|constructor|vm_compute; reflexivity|].
  simpl app in El. rewrite El. exact Hl.
Defined.
