(* ===== verification/XmlPrint.v ===== *)
(** Documents as they are written, and how the loops of the parsers walk them.

    A document is indented: text lies between the elements.  [steps f l c c']: the
    loop [f] passes the nodes [l], from the device, the list and the ports [c] to
    [c'], when no allocation fails. *)

From stdpp Require Import pretty.
From S2P Require Import Prelude CMem CStr Device Serial Xml Cells CellRules.

Local Open Scope string_scope.
Local Open Scope list_scope.
Local Open Scope Z_scope.

(** ** Writing *)

Definition text (t : string) : xnode := XNode false "text" (Some t) [] [].
Definition blank : xnode := text " ".
Fixpoint indent (l : list xnode) : list xnode :=
  match l with [] => [blank] | x :: l => blank :: x :: indent l end.
Definition leaf (name t : string) : xnode := XNode true name None [] [text t].
Definition elem (name : string) (attrs : list (string * string)) (l : list xnode) : xnode :=
  XNode true name None attrs (indent l).
Definition opt_leaf {A} (show : A -> string) (name : string) (v : option A) : list xnode :=
  match v with Some a => [leaf name (show a)] | None => [] end.
Definition yes_no (b : bool) : string := if b then "Y" else "N".
Definition with_opt {A T} (v : option A) (f : A -> T -> T) (t : T) : T := match v with Some a => f a t | None => t end.

(** ** Tests by name *)

Fixpoint find_tag {A} (l : list (string * A)) (name : string) : option A :=
  match l with
  | [] => None
  | (t, h) :: l => if String.eqb (lower name) (lower t) then Some h else find_tag l name
  end.

Section Walk.
Context {D : Type} `{LibXmlOk}.

Lemma same_name_spec a b : same_name a b = String.eqb (lower a) (lower b).
Proof.
  unfold same_name. destruct (String.eqb_spec (lower a) (lower b)) as [E|E].
  - apply strcasecmp_ok in E. rewrite E. done.
  - apply Z.eqb_neq. by intros ?%strcasecmp_ok.
Qed.

Lemma tags_find {A} (ts : list (string * @handler D A)) x a :
  tags ts x a = match find_tag ts (x_name x) with Some h => h x a | None => mret (Next a) end.
Proof. induction ts as [|[t h] ts IH]; [done|]. simpl. rewrite same_name_spec. by destruct (String.eqb _ _). Qed.

(** ** Loops *)

Lemma while_next {A} (f : xnode -> A -> par (pst D) (turn A)) x l a s a' s' :
  f x a s = Got (Next a') s' -> while_nodes f (x :: l) a s = while_nodes f l a' s'.
Proof. intros E. cbn [while_nodes retry]. unfold mbind, par_bind. by rewrite E. Qed.

Lemma while_indent {A} (f : xnode -> A -> par (pst D) (turn A)) l a s :
  (forall a s, f blank a s = Got (Next a) s) -> while_nodes f (indent l) a s = while_nodes f l a s.
Proof.
  intros Hb. revert a s. induction l as [|x l IH]; intros a s; simpl indent.
  - by rewrite (while_next _ _ _ _ _ a s).
  - rewrite (while_next _ _ _ _ _ a s) by done. cbn [while_nodes]. unfold mbind, par_bind.
    destruct (retry _ _ a s) as [a' s'|]; [apply IH|done].
Qed.

Lemma while_tags_indent {A} (ts : list (string * @handler D A)) l a s :
  find_tag ts "text" = None -> while_nodes (tags ts) (indent l) a s = while_nodes (tags ts) l a s.
Proof. intros Ht. apply while_indent. intros a' s'. rewrite tags_find. change (x_name blank) with "text". by rewrite Ht. Qed.

(** What a loop carries, the list of the devices and the ports. *)
Definition conf (A : Type) : Type := A * list D * world.
Definition at_conf {A} (c : conf A) (n : Z) : pst D := PSt c.1.2 c.2 (Heap [] n).

Definition steps {A} (f : xnode -> A -> par (pst D) (turn A)) (l : list xnode) (c c' : conf A) : Prop :=
  forall n, exists n', forall rest,
    while_nodes f (l ++ rest) c.1.1 (at_conf c n) = while_nodes f rest c'.1.1 (at_conf c' n').

Lemma steps_nil {A} f (c : conf A) : steps f [] c c.
Proof. intros n. by exists n. Qed.

Lemma steps_app {A} f l l' (c c' c'' : conf A) : steps f l c c' -> steps f l' c' c'' -> steps f (l ++ l') c c''.
Proof.
  intros H1 H2 n. destruct (H1 n) as [n1 E1]. destruct (H2 n1) as [n2 E2]. exists n2. intros rest.
  by rewrite <- app_assoc, E1, E2.
Qed.

Lemma steps_cons {A} f x l (c c' c'' : conf A) : steps f [x] c c' -> steps f l c' c'' -> steps f (x :: l) c c''.
Proof. apply (steps_app f [x]). Qed.

Lemma steps_one {A} f x (c c' : conf A) :
  (forall n, exists n', f x c.1.1 (at_conf c n) = Got (Next c'.1.1) (at_conf c' n')) -> steps f [x] c c'.
Proof. intros Hf n. destruct (Hf n) as [n' E]. exists n'. intros rest. by apply while_next. Qed.

Lemma steps_tag {A} (ts : list (string * @handler D A)) x h c c' :
  find_tag ts (x_name x) = Some h ->
  (forall n, exists n', h x c.1.1 (at_conf c n) = Got (Next c'.1.1) (at_conf c' n')) -> steps (tags ts) [x] c c'.
Proof. intros Hh Hx. apply steps_one. intros n. rewrite tags_find, Hh. apply Hx. Qed.

(** An optional element: without it nothing changes. *)
Lemma steps_opt {A B} (ts : list (string * @handler D A)) (show : B -> string) name v h c c' :
  find_tag ts name = Some h ->
  (v = None -> c = c') ->
  (forall b, v = Some b -> forall n, exists n', h (leaf name (show b)) c.1.1 (at_conf c n) = Got (Next c'.1.1) (at_conf c' n')) ->
  steps (tags ts) (opt_leaf show name v) c c'.
Proof.
  intros Hh Hn Hs. destruct v as [b|]; simpl; [|rewrite Hn by done; apply steps_nil].
  eapply steps_tag; [done|]. by apply Hs.
Qed.

Lemma steps_end {A} f l (c c' : conf A) n :
  steps f l c c' -> exists n', while_nodes f l c.1.1 (at_conf c n) = Got c'.1.1 (at_conf c' n').
Proof. intros Hs. destruct (Hs n) as [n' E]. exists n'. specialize (E []). by rewrite app_nil_r in E. Qed.

(** [acts h name g]: the round [h] passes the elements [name] to the handler [g]. *)
Definition acts {A} (h : @handler D A) (name : string) (g : @handler D A) : Prop :=
  forall x a s, x_name x = name -> h x a s = g x a s.

Lemma acts_tags {A} (ts : list (string * @handler D A)) name g : find_tag ts name = Some g -> acts (tags ts) name g.
Proof. intros Hg x a s <-. by rewrite tags_find, Hg. Qed.
Lemma acts_skip {A} (ts : list (string * @handler D A)) name : find_tag ts name = None -> acts (tags ts) name (fun _ a => mret (Next a)).
Proof. intros Hg x a s <-. by rewrite tags_find, Hg. Qed.
Lemma acts_both_left {A} (f h : @handler D A) name g :
  acts f name g -> acts h name (fun _ a => mret (Next a)) -> acts (both f h) name g.
Proof.
  intros Hf Hh x a s E. unfold both, mbind, par_bind. rewrite Hf by done.
  destruct (g x a s) as [[b|b] s'|]; [by rewrite Hh|done..].
Qed.
Lemma acts_both_right {A} (f h : @handler D A) name g :
  acts f name (fun _ a => mret (Next a)) -> acts h name g -> acts (both f h) name g.
Proof. intros Hf Hh x a s E. unfold both, mbind, par_bind. rewrite Hf by done. cbv. by rewrite <- Hh. Qed.

Lemma steps_acts {A} (h : @handler D A) x g (c c' : conf A) :
  acts h (x_name x) g ->
  (forall n, exists n', g x c.1.1 (at_conf c n) = Got (Next c'.1.1) (at_conf c' n')) -> steps h [x] c c'.
Proof. intros Ha Hg. apply steps_one. intros n. destruct (Hg n) as [n' E]. exists n'. by rewrite Ha. Qed.

(** An optional element that changes what the loop carries. *)
Lemma steps_with {A B} (h : @handler D A) (show : B -> string) name v g f a L w :
  acts h name g ->
  (forall b n, v = Some b -> exists n', g (leaf name (show b)) a (PSt L w (Heap [] n)) = Got (Next (f b a)) (PSt L w (Heap [] n'))) ->
  steps h (opt_leaf show name v) (a, L, w) (with_opt v f a, L, w).
Proof.
  intros Ha Hg. destruct v as [b|]; simpl; [|apply steps_nil]. eapply steps_acts; [exact Ha|]. intros n. by apply Hg.
Qed.

(** An indented loop. *)
Lemma steps_indent {A} (ts : list (string * @handler D A)) l (c c' : conf A) n :
  find_tag ts "text" = None -> steps (tags ts) l c c' ->
  exists n', while_nodes (tags ts) (indent l) c.1.1 (at_conf c n) = Got c'.1.1 (at_conf c' n').
Proof. intros Ht Hs. rewrite while_tags_indent by done. by apply steps_end. Qed.
End Walk.

Lemma bind_got {S A B} (m : par S A) (f : A -> par S B) s a s' : m s = Got a s' -> (a ← m; f a) s = f a s'.
Proof. unfold mbind, par_bind. by intros ->. Qed.
