(* ===== verification/ModbusPrint.v ===== *)
(** The Modbus parsers read back what is written.

    [mb_line] is a line of the configuration with the devices on it, [mb_own] a device
    with a cell of its own; [line_doc] and [own_doc] write them as a cell of the
    document, [line_devs] and [own_dev] are the devices they stand for. *)

From Stdlib Require Import Ascii.
From stdpp Require Import pretty.
From S2P Require Import Prelude CMem CStr Device Serial Xml Cells CellRules ParseModbus ModbusConfig XmlPrint.

Local Open Scope string_scope.
Local Open Scope list_scope.
Local Open Scope Z_scope.

(** ** What is written *)

Record mb_settings := Settings {
  ms_plugin : option string;
  ms_product : option string;
  ms_addr : option Z;
  ms_port : option Z;
  ms_baudrate : option Z;
  ms_databit : option Z;
  ms_parity : option ascii;
  ms_stopbit : option Z;
  ms_feedback : bool;
  ms_online : bool;
  ms_delay : option Z
}.
(** The text of a key and the device it is linked to: how that communicates and its
    key. *)
Record mb_unit := Unit { mu_key : string; mu_foreign : option (Z * string); mu_room : option Z; mu_group : bool }.
Record mb_line := Line_ { ml_settings : mb_settings; ml_points : list (option Z); ml_units : list mb_unit }.

Definition foreign_name (ty : Z) : string :=
  if ty =? DEVICE_TYPE_ZIGBEE then "ZIGBEE" else if ty =? DEVICE_TYPE_MODBUS then "MODBUS"
  else if ty =? DEVICE_TYPE_KNX then "KNX" else "RF433".
Definition foreign_doc (f : option (Z * string)) : list xnode :=
  match f with Some (ty, k) => [leaf "ForeignKey" k; leaf "ForeignType" (foreign_name ty)] | None => [] end.

Definition library_doc (c : mb_settings) : list xnode :=
  opt_leaf id "SharedLibrary" (ms_plugin c) ++ opt_leaf id "ProductID" (ms_product c).
Definition line_settings_doc (c : mb_settings) : list xnode :=
  opt_leaf pretty "DeviceAddr" (ms_addr c) ++
  opt_leaf pretty "Port" (ms_port c) ++ opt_leaf pretty "Baudrate" (ms_baudrate c) ++
  opt_leaf pretty "Databit" (ms_databit c) ++ opt_leaf (fun a => String a "") "Parity" (ms_parity c) ++
  opt_leaf pretty "Stopbit" (ms_stopbit c) ++ [leaf "Feedback" (yes_no (ms_feedback c))] ++
  [leaf "OnlineCheck" (yes_no (ms_online c))] ++ opt_leaf pretty "Delay" (ms_delay c).

(** The points, by the names of their elements and their places in the structure. *)
Definition point_doc (name : string) (v : option Z) : list xnode :=
  match v with Some v => [elem name [] [leaf "DataPoint" (pretty v)]] | None => [] end.
Definition cloud_at (l : list (option Z)) (k : nat) : option Z := mjoin (l !! k).
Definition points_doc (names : list (string * nat * nat)) (l : list (option Z)) : list xnode :=
  flat_map (fun n => point_doc n.1.1 (cloud_at l n.1.2)) names.

Definition unit_doc (u : mb_unit) : xnode :=
  elem "Cell" (if mu_group u then [("group", "1")] else [])
    (leaf "PrimaryKey" (mu_key u) :: foreign_doc (mu_foreign u) ++ opt_leaf pretty "RoomNo" (mu_room u)).
Record mb_own := Own { mo_settings : mb_settings; mo_key : option string; mo_foreign : option (Z * string); mo_points : list (option Z) }.
Definition own_doc (names : list (string * nat * nat)) (c : mb_own) : xnode :=
  elem "Cell" [] (library_doc (mo_settings c) ++ opt_leaf id "PrimaryKey" (mo_key c) ++ foreign_doc (mo_foreign c) ++
    line_settings_doc (mo_settings c) ++ points_doc names (mo_points c)).
Definition line_doc (names : list (string * nat * nat)) (c : mb_line) : xnode :=
  elem "Cell" [] (library_doc (ml_settings c) ++ line_settings_doc (ml_settings c) ++
    points_doc names (ml_points c) ++ [elem "Item" [] (map unit_doc (ml_units c))]).

(** ** What it stands for *)

Definition line_param (c : mb_settings) : SerialParam_t :=
  with_opt (ms_stopbit c) set_stopbits (with_opt (ms_parity c) (fun a => set_parity (Z.of_nat (nat_of_ascii a)))
  (with_opt (ms_databit c) set_databits (with_opt (ms_baudrate c) set_baudrate
  (with_opt (ms_port c) (fun v p => set_port v (set_pMutex (Some (Z.to_nat (v - 1))) p)) SerialInit_param)))).

Definition point_of (row : Z * Z * Z) (v : option Z) : option MbusObj_t := option_map (new_point row.1.1 row.1.2 row.2) v.
Definition points_of (rows : list (Z * Z * Z)) (l : list (option Z)) : list (option MbusObj_t) :=
  imap (fun k row => point_of row (cloud_at l k)) rows.

Section Devices.
Variable g_Mac : string.

(** The element of a device: what its cell gives and its key. *)
Definition cfg_element (name : string) (ty : Z) (c : mb_settings) (key : option string) (foreign : option (Z * string)) : CfgElement :=
  El (Some name) (ms_plugin c) (option_map (key_text g_Mac DEVICE_TYPE_MODBUS) key)
    (match key with Some k => key_id (key_text g_Mac DEVICE_TYPE_MODBUS k) | None => 0 end)
    None None (ms_product c) (option_map (fun f => key_text g_Mac f.1 f.2) foreign) ty
    (match foreign with Some f => f.1 | None => DEVICE_TYPE_UNKNOWN end) (bool_decide (is_Some (ms_product c))) 0.
Definition cfg_base (name : string) (ty : Z) (c : mb_settings) key foreign (room : Z) (group : bool) (i : nat) : MbusCfg :=
  MCfg (cfg_element name ty c key foreign) (default 0 (ms_addr c)) room (default 0 (ms_delay c))
    (ms_feedback c) (ms_online c) false group (Some i).
End Devices.

(** ** What can be written *)

Definition opt_in (lo hi : Z) (v : option Z) : Prop := match v with Some v => lo <= v <= hi | None => True end.
Record settings_valid (c : mb_settings) : Prop := {
  sv_addr : opt_in 0 65535 (ms_addr c);
  sv_port : opt_in 1 4 (ms_port c);
  sv_baudrate : opt_in 2400 115200 (ms_baudrate c);
  sv_databit : opt_in 5 8 (ms_databit c);
  sv_parity : match ms_parity c with Some a => a ∈ ["n"; "N"; "o"; "O"; "e"; "E"]%char | None => True end;
  sv_stopbit : opt_in 1 2 (ms_stopbit c);
  sv_delay : opt_in 0 65535 (ms_delay c)
}.
Definition foreign_valid (f : option (Z * string)) : Prop :=
  match f with Some f => DEVICE_TYPE_ZIGBEE <= f.1 <= DEVICE_TYPE_RF433 | None => True end.
Definition unit_valid (u : mb_unit) : Prop := foreign_valid (mu_foreign u) /\ opt_in 0 65535 (mu_room u).

(** A point whose log message reads another one is written with that one. *)
Definition points_valid (names : list (string * nat * nat)) (l : list (option Z)) : Prop :=
  Forall (fun v => opt_in (- 2 ^ 31) (2 ^ 31 - 1) v) l /\
  Forall (fun n => is_Some (cloud_at l n.1.2) -> is_Some (cloud_at l n.2)) names.
Record line_valid (names : list (string * nat * nat)) (c : mb_line) : Prop := {
  lv_settings : settings_valid (ml_settings c);
  lv_points : points_valid names (ml_points c);
  lv_units : Forall unit_valid (ml_units c)
}.

(** ** Reading a line *)

Section Read.
Context `{LibXmlOk} (g_Mac : string).
Implicit Types (l : loc MbusDev) (L : list MbusDev) (w : world).
Local Notation hnd := (@handler MbusDev (loc MbusDev)).

(** The handlers a parser has for the elements; their fates do not matter here. *)
Record library_tags (ts : list (string * hnd)) : Prop := {
  tg_text : find_tag ts "text" = None;
  tg_plugin : exists a b, find_tag ts "SharedLibrary" = Some (SharedLibrary a b);
  tg_product : exists a, find_tag ts "ProductID" = Some (ProductID a master)
}.
Record settings_tags (ts : list (string * hnd)) : Prop := {
  tg_addr : find_tag ts "DeviceAddr" = Some DeviceAddr;
  tg_port : find_tag ts "Port" = Some Port;
  tg_baudrate : find_tag ts "Baudrate" = Some Baudrate;
  tg_databit : find_tag ts "Databit" = Some Databit;
  tg_parity : find_tag ts "Parity" = Some Parity;
  tg_stopbit : find_tag ts "Stopbit" = Some Stopbit;
  tg_feedback : find_tag ts "Feedback" = Some Feedback;
  tg_online : find_tag ts "OnlineCheck" = Some OnlineCheck \/ find_tag ts "OnlineCheck" = Some OnlineCheckYN;
  tg_delay : find_tag ts "Delay" = Some Delay
}.
Record key_tags (ts : list (string * hnd)) (before : CfgElement -> CfgElement) : Prop := {
  tg_key : exists a b, find_tag ts "PrimaryKey" = Some (PrimaryKey g_Mac DEVICE_TYPE_MODBUS before a b);
  tg_foreign : exists a b, find_tag ts "ForeignKey" = Some (ForeignKey a b);
  tg_foreignType : exists a, find_tag ts "ForeignType" = Some (ForeignType a (Some DEVICE_TYPE_UNKNOWN))
}.
Definition point_tags (rows : list (Z * Z * Z)) (names : list (string * nat * nat)) (ts : list (string * hnd)) : Prop :=
  Forall (fun n => exists a row, rows !! n.1.2 = Some row /\
    find_tag ts n.1.1 = Some (Point_seen n.2 a n.1.2 row.1.1 row.1.2 row.2)) names.

Ltac handled := intros n; eexists; reflexivity.
(** An element that only changes the device. *)
Lemma r_opt {B} ts (show : B -> string) name v h l l' L w :
  find_tag ts name = Some h -> (v = None -> l = l') ->
  (forall b n, v = Some b -> exists n', h (leaf name (show b)) l (PSt L w (Heap [] n)) = Got (Next l') (PSt L w (Heap [] n'))) ->
  steps (tags ts) (opt_leaf show name v) (l, L, w) (l', L, w).
Proof.
  intros Hh Hn Hs. eapply steps_opt; [done|by intros ->%Hn|]. intros b Hb n. destruct (Hs b n Hb) as [n' E]. by exists n'.
Qed.

Lemma map_el_id l g : g (get_el (l_dev l)) = get_el (l_dev l) -> l = map_el g l.
Proof.
  intros E. unfold map_el, map_dev. rewrite E. by destruct l as [[[] ?] ? ? ?].
Qed.
Lemma map_base_id l g : g (md_base (l_dev l)) = md_base (l_dev l) -> l = map_dev (on_base g) l.
Proof. intros E. unfold map_dev, on_base. rewrite E. by destruct l as [[] ? ? ?]. Qed.

Lemma r_plugin ts v l L w : library_tags ts -> szPlugin (get_el (l_dev l)) = None ->
  steps (tags ts) (opt_leaf id "SharedLibrary" v) (l, L, w) (map_el (set_szPlugin v) l, L, w).
Proof.
  intros [_ (a & b & Hh) _] E. eapply r_opt; [done| |].
  - intros ->. apply map_el_id. destruct (get_el _). simpl in *. by subst.
  - intros t n ->. eexists. reflexivity.
Qed.

Lemma r_product ts v l L w : library_tags ts ->
  pProductId (get_el (l_dev l)) = None -> el_bMaster (get_el (l_dev l)) = false ->
  steps (tags ts) (opt_leaf id "ProductID" v) (l, L, w)
    (map_el (fun e => set_el_bMaster (bool_decide (is_Some v)) (set_pProductId v e)) l, L, w).
Proof.
  intros [_ _ (a & Hh)] E E'. eapply r_opt; [done| |].
  - intros ->. apply map_el_id. destruct (get_el _). simpl in *. by subst.
  - intros t n ->. eexists. reflexivity.
Qed.

Lemma r_number v : is_i32 v -> forall (s : pst MbusDev), number (pretty v) s = Got v s.
Proof. intros Hv s. unfold number. by rewrite strtol_errno_pretty. Qed.
Lemma u16_i32 v : 0 <= v <= 65535 -> is_i32 v.
Proof. unfold is_i32. lia. Qed.

Lemma r_u16 set v l (s : pst MbusDev) name : 0 <= v <= 65535 ->
  u16_number set (leaf name (pretty v)) l s = Got (Next (map_dev (on_base (set v)) l)) s.
Proof.
  intros Hv. unfold u16_number. change (XML_GET_CONTENT (leaf name (pretty v))) with (@mret (par (pst MbusDev)) _ _ (Some (pretty v))).
  unfold mret, par_ret, mbind, par_bind. rewrite r_number by by apply u16_i32. by rewrite u16_small by lia.
Qed.

Lemma r_addr ts v l L w : settings_tags ts -> opt_in 0 65535 v -> mb_devAddr (md_base (l_dev l)) = 0 ->
  steps (tags ts) (opt_leaf pretty "DeviceAddr" v) (l, L, w) (map_dev (on_base (set_mb_devAddr (default 0 v))) l, L, w).
Proof.
  intros Ht Hv E. eapply r_opt; [apply Ht| |].
  - intros ->. apply map_base_id. destruct (md_base _). simpl in *. by subst.
  - intros t n ->. exists n. by apply r_u16.
Qed.
Lemma r_delay ts v l L w : settings_tags ts -> opt_in 0 65535 v -> mb_delay (md_base (l_dev l)) = 0 ->
  steps (tags ts) (opt_leaf pretty "Delay" v) (l, L, w) (map_dev (on_base (set_mb_delay (default 0 v))) l, L, w).
Proof.
  intros Ht Hv E. eapply r_opt; [apply Ht| |].
  - intros ->. apply map_base_id. destruct (md_base _). simpl in *. by subst.
  - intros t n ->. exists n. by apply r_u16.
Qed.

Lemma r_feedback ts (b : bool) l L w : settings_tags ts -> mb_bFeedback (md_base (l_dev l)) = true ->
  steps (tags ts) [leaf "Feedback" (yes_no b)] (l, L, w) (map_dev (on_base (set_mb_bFeedback b)) l, L, w).
Proof.
  intros Ht E. eapply steps_tag; [apply Ht|]. intros n. exists n. destruct b; [|done].
  rewrite <- (map_base_id l); [done|]. destruct (md_base _). simpl in *. by subst.
Qed.
Lemma r_online ts (b : bool) l L w : settings_tags ts -> mb_bOnlineCheck (md_base (l_dev l)) = true ->
  steps (tags ts) [leaf "OnlineCheck" (yes_no b)] (l, L, w) (map_dev (on_base (set_mb_bOnlineCheck b)) l, L, w).
Proof.
  intros Ht E. destruct (tg_online _ Ht) as [Hh | Hh]; (eapply steps_tag; [exact Hh|]); intros n; exists n; [|by destruct b].
  destruct b; [|done]. rewrite <- (map_base_id l); [done|]. destruct (md_base _). simpl in *. by subst.
Qed.

Lemma r_set_if i (b : bool) g ps p lk os ok t : b = true -> i = length ps ->
  set_if (Some i) b g (W (ps ++ [p]) lk os ok t) = Ran 0 (W (ps ++ [g p]) lk os ok t).
Proof.
  intros -> ->. unfold set_if, upd_param, mbind, io_bind, get_param, put_param. simpl.
  rewrite lookup_app_r, Nat.sub_diag by lia. simpl. f_equal. f_equal.
  by rewrite insert_app_r_alt, Nat.sub_diag by lia.
Qed.

Lemma r_set_line i (b : bool) g set l v L ps p lk os ok t n :
  mb_pSerial (md_base (l_dev l)) = Some i -> set (Some i) v = set_if (Some i) b g -> b = true -> i = length ps ->
  set_line set l v (PSt L (W (ps ++ [p]) lk os ok t) (Heap [] n)) = Got (Next l) (PSt L (W (ps ++ [g p]) lk os ok t) (Heap [] n)).
Proof.
  intros Es Eset Hb Hi. unfold set_line, on_line, mbind, par_bind. rewrite Es, Eset. simpl p_ports.
  by rewrite r_set_if by done.
Qed.

Lemma r_line ts name set (b : Z -> bool) (g : Z -> SerialParam_t -> SerialParam_t) i v l L ps p lk os ok t :
  find_tag ts name = Some (line_number set) ->
  (forall z, set (Some i) z = set_if (Some i) (b z) (g z)) -> (forall z, v = Some z -> is_i32 z /\ b z = true) ->
  mb_pSerial (md_base (l_dev l)) = Some i -> i = length ps ->
  steps (tags ts) (opt_leaf pretty name v) (l, L, W (ps ++ [p]) lk os ok t) (l, L, W (ps ++ [with_opt v g p]) lk os ok t).
Proof.
  intros Hh Hset Hv Es Hi. eapply steps_opt; [exact Hh|by intros ->|]. intros z -> n. exists n.
  destruct (Hv z eq_refl) as [Hz Hb]. unfold line_number.
  change (XML_GET_CONTENT (leaf name (pretty z))) with (@mret (par (pst MbusDev)) _ _ (Some (pretty z))).
  unfold mret, par_ret, mbind, par_bind. rewrite r_number by done. by apply (r_set_line i (b z) (g z)).
Qed.

Lemma r_parity ts i v l L ps p lk os ok t :
  settings_tags ts -> (match v with Some a => a ∈ ["n"; "N"; "o"; "O"; "e"; "E"]%char | None => True end) ->
  mb_pSerial (md_base (l_dev l)) = Some i -> i = length ps ->
  steps (tags ts) (opt_leaf (fun a => String a "") "Parity" v) (l, L, W (ps ++ [p]) lk os ok t)
    (l, L, W (ps ++ [with_opt v (fun a => set_parity (Z.of_nat (nat_of_ascii a))) p]) lk os ok t).
Proof.
  intros Ht Hv Es Hi. eapply steps_opt; [apply Ht|by intros ->|]. intros a -> n. exists n. unfold Parity.
  change (XML_GET_CONTENT (leaf "Parity" (String a ""))) with (@mret (par (pst MbusDev)) _ _ (Some (String a ""))).
  unfold mret, par_ret, mbind, par_bind.
  apply (r_set_line i (existsb (Z.eqb (Z.of_nat (nat_of_ascii a))) [110; 78; 111; 79; 101; 69])); try done.
  rewrite !elem_of_cons, elem_of_nil in Hv. destruct_or! Hv; by subst.
Qed.

Lemma in_bounds lo hi z : lo <= z <= hi -> - 2 ^ 31 <= lo -> hi < 2 ^ 31 -> is_i32 z /\ negb ((z <? lo) || (hi <? z)) = true.
Proof. unfold is_i32. intros. split; [lia|]. destruct (z <? lo) eqn:?, (hi <? z) eqn:?; bprop; lia || done. Qed.

(** A whole line. *)
Definition after_library (c : mb_settings) l : loc MbusDev :=
  map_el (fun e => set_el_bMaster (bool_decide (is_Some (ms_product c))) (set_pProductId (ms_product c) e))
    (map_el (set_szPlugin (ms_plugin c)) l).
Definition after_settings (c : mb_settings) l : loc MbusDev :=
  map_dev (on_base (set_mb_delay (default 0 (ms_delay c)))) (map_dev (on_base (set_mb_bOnlineCheck (ms_online c)))
    (map_dev (on_base (set_mb_bFeedback (ms_feedback c))) (map_dev (on_base (set_mb_devAddr (default 0 (ms_addr c)))) l))).

Record no_library l : Prop := {
  fr_plugin : szPlugin (get_el (l_dev l)) = None;
  fr_product : pProductId (get_el (l_dev l)) = None;
  fr_master : el_bMaster (get_el (l_dev l)) = false
}.
Record fresh (i : nat) l : Prop := {
  fr_addr : mb_devAddr (md_base (l_dev l)) = 0;
  fr_feedback : mb_bFeedback (md_base (l_dev l)) = true;
  fr_online : mb_bOnlineCheck (md_base (l_dev l)) = true;
  fr_delay : mb_delay (md_base (l_dev l)) = 0;
  fr_serial : mb_pSerial (md_base (l_dev l)) = Some i
}.

Lemma r_library ts c l L w : library_tags ts -> no_library l ->
  steps (tags ts) (library_doc c) (l, L, w) (after_library c l, L, w).
Proof.
  intros Ht []. eapply steps_app; [by apply r_plugin|]. by apply r_product.
Qed.

Lemma r_settings ts c l L i ps lk os ok t :
  settings_tags ts -> settings_valid c -> fresh i l -> i = length ps ->
  steps (tags ts) (line_settings_doc c) (l, L, W (ps ++ [SerialInit_param]) lk os ok t)
    (after_settings c l, L, W (ps ++ [line_param c]) lk os ok t).
Proof.
  intros Ht [] [] Hi. eapply steps_app; [by apply r_addr|].
  eapply steps_app; [eapply (r_line _ _ _ (fun v => negb ((v <? 1) || (4 <? v)))); [apply Ht|done| |done|done]|].
  { intros z Hz. rewrite Hz in *. by apply in_bounds. }
  eapply steps_app; [eapply (r_line _ _ _ (fun v => negb ((v <? 2400) || (115200 <? v)))); [apply Ht|done| |done|done]|].
  { intros z Hz. rewrite Hz in *. by apply in_bounds. }
  eapply steps_app; [eapply (r_line _ _ _ (fun v => negb ((v <? 5) || (8 <? v)))); [apply Ht|done| |done|done]|].
  { intros z Hz. rewrite Hz in *. by apply in_bounds. }
  eapply steps_app; [by eapply r_parity|].
  eapply steps_app; [eapply (r_line _ _ _ (fun v => negb ((v <? 1) || (2 <? v)))); [apply Ht|done| |done|done]|].
  { intros z Hz. rewrite Hz in *. by apply in_bounds. }
  eapply steps_app; [by apply r_feedback|]. eapply steps_app; [by apply r_online|]. by apply r_delay.
Qed.

(** ** Reading points *)

Lemma r_content name t (s : pst MbusDev) {A} (k : option string -> par (pst MbusDev) A) :
  (c ← XML_GET_CONTENT (leaf name t); k c) s = k (Some t) s.
Proof. done. Qed.

Lemma r_point seen null slot row name v l L w n :
  is_i32 v -> (slot < length (md_objs (l_dev l)))%nat ->
  (exists p, <[slot := point_of row (Some v)]> (md_objs (l_dev l)) !! seen = Some (Some p)) ->
  exists n', Point_seen seen null slot row.1.1 row.1.2 row.2 (elem name [] [leaf "DataPoint" (pretty v)]) l (PSt L w (Heap [] n)) =
    Got (Next (map_dev (put_obj slot (point_of row (Some v))) l)) (PSt L w (Heap [] n')).
Proof.
  intros Hv Hslot [p Hp]. eexists. unfold Point_seen. erewrite bind_got.
  2:{ change (x_kids (elem name [] [leaf "DataPoint" (pretty v)])) with (indent [leaf "DataPoint" (pretty v)]).
      rewrite while_tags_indent by done. erewrite while_next; [reflexivity|]. rewrite tags_find. cbn [find_tag].
      change (x_name (leaf "DataPoint" (pretty v))) with "DataPoint". rewrite String.eqb_refl, r_content.
      unfold pcalloc, mbind, par_bind. simpl. rewrite r_number by done. reflexivity. }
  simpl. unfold point_of in Hp. simpl in Hp. by rewrite Hp.
Qed.

(** The pointers after the elements [names] have been read. *)
Definition put_point (rows : list (Z * Z * Z)) (cl : list (option Z)) (objs : list (option MbusObj_t)) (k : nat) : list (option MbusObj_t) :=
  match cloud_at cl k, rows !! k with Some v, Some row => <[k := point_of row (Some v)]> objs | _, _ => objs end.
Definition put_points rows cl (names : list (string * nat * nat)) objs := fold_left (put_point rows cl) (map (fun n => n.1.2) names) objs.

(** The element of a point that another one's message reads comes first. *)
Fixpoint ordered (done : list nat) (names : list (string * nat * nat)) : bool :=
  match names with
  | [] => true
  | n :: names => existsb (Nat.eqb n.2) (n.1.2 :: done) && ordered (n.1.2 :: done) names
  end.

Lemma put_point_length rows cl objs k : length (put_point rows cl objs k) = length objs.
Proof. unfold put_point. destruct (cloud_at cl k), (rows !! k); by rewrite ?length_insert. Qed.
Lemma put_points_length rows cl names objs : length (put_points rows cl names objs) = length objs.
Proof.
  unfold put_points. revert objs. induction names as [|n names IH]; intros objs; [done|]. simpl.
  by rewrite IH, put_point_length.
Qed.

Lemma r_points ts rows cl names d pk fk it L w :
  point_tags rows names ts -> length (md_objs d) = length rows ->
  Forall (fun v => opt_in (- 2 ^ 31) (2 ^ 31 - 1) v) cl ->
  Forall (fun n => is_Some (cloud_at cl n.1.2) -> is_Some (cloud_at cl n.2)) names ->
  forall done, ordered done names = true ->
  (forall k, k ∈ done -> is_Some (cloud_at cl k) -> exists p, md_objs d !! k = Some (Some p)) ->
  steps (tags ts) (points_doc names cl) (Loc d pk fk it, L, w)
    (Loc (MDev (md_base d) (put_points rows cl names (md_objs d))) pk fk it, L, w).
Proof.
  intros Ht Hlen Hcl Hn. revert d Hlen. induction Ht as [|n names (a & row & Hrow & Hh) Ht IH]; intros d Hlen done Hord Hd.
  { destruct d. apply steps_nil. }
  apply Forall_cons in Hn as [Hn Hns]. cbn [ordered] in Hord. apply andb_true_iff in Hord as [Ho Hord].
  pose proof (lookup_lt_Some _ _ _ Hrow) as Hlt.
  set (d' := MDev (md_base d) (put_point rows cl (md_objs d) n.1.2)).
  assert (forall k, k ∈ n.1.2 :: done -> is_Some (cloud_at cl k) -> exists p, md_objs d' !! k = Some (Some p)) as Hd'.
  { intros k Hk Hc. simpl. unfold put_point. destruct (cloud_at cl n.1.2) as [v|] eqn:Ev.
    - rewrite Hrow. destruct (decide (k = n.1.2)) as [->|Hne]; [rewrite list_lookup_insert_eq by lia; by eexists|].
      rewrite list_lookup_insert_ne by done. apply Hd; [|done]. by apply elem_of_cons in Hk as [? |?].
    - apply elem_of_cons in Hk as [-> |Hk]; [by rewrite Ev in Hc; destruct Hc|by apply Hd]. }
  change (points_doc (n :: names) cl) with (point_doc n.1.1 (cloud_at cl n.1.2) ++ points_doc names cl).
  apply (steps_app _ _ _ _ (Loc d' pk fk it, L, w)).
  2:{ apply (IH Hns d') with (done := n.1.2 :: done); try done. simpl. by rewrite put_point_length. }
  unfold d', put_point in *. destruct (cloud_at cl n.1.2) as [v|] eqn:Ev; [|destruct d; apply steps_nil].
  rewrite Hrow in *. simpl point_doc. eapply steps_tag; [exact Hh|]. intros m. simpl.
  assert (is_i32 v) as Hv.
  { unfold cloud_at in Ev. destruct (cl !! n.1.2) as [o|] eqn:Eo; [|done]. simpl in Ev. subst o.
    apply (Forall_lookup_1 _ _ _ _ Hcl) in Eo. simpl in Eo. unfold is_i32. lia. }
  apply (r_point n.2 a n.1.2 row n.1.1 v (Loc d pk fk it)); [done|simpl; lia|].
  apply (Hd' n.2); [|by apply Hn]. apply existsb_exists in Ho as (k & Hk & E). apply Nat.eqb_eq in E. subst k.
  by apply list_elem_of_In.
Qed.

Lemma put_points_other rows cl names objs k :
  k ∉ map (fun n => n.1.2) names -> put_points rows cl names objs !! k = objs !! k.
Proof.
  unfold put_points. generalize (map (fun n : string * nat * nat => n.1.2) names). intros ks. revert objs.
  induction ks as [|j ks IH]; intros objs Hk; [done|]. simpl. apply not_elem_of_cons in Hk as [Hj Hk].
  rewrite IH by done. unfold put_point. destruct (cloud_at cl j), (rows !! j); try done. by rewrite list_lookup_insert_ne.
Qed.

Lemma put_points_at rows cl names objs k row :
  k ∈ map (fun n => n.1.2) names -> rows !! k = Some row -> length objs = length rows ->
  (cloud_at cl k = None -> objs !! k = Some None) ->
  put_points rows cl names objs !! k = Some (point_of row (cloud_at cl k)).
Proof.
  unfold put_points. generalize (map (fun n : string * nat * nat => n.1.2) names). intros ks Hk Hrow. revert objs Hk.
  assert (forall ks objs, length objs = length rows -> objs !! k = Some (point_of row (cloud_at cl k)) ->
    fold_left (put_point rows cl) ks objs !! k = Some (point_of row (cloud_at cl k))) as Hkeep.
  { clear ks. induction ks as [|j ks IH]; intros objs Hl Ho; [done|]. simpl. apply IH; [by rewrite put_point_length|].
    unfold put_point. destruct (cloud_at cl j) as [v|] eqn:Ev; [|done]. destruct (rows !! j) as [r|] eqn:Er; [|done].
    destruct (decide (k = j)) as [->|]; [|by rewrite list_lookup_insert_ne].
    rewrite list_lookup_insert_eq; [|by apply lookup_lt_Some in Ho]. congruence. }
  induction ks as [|j ks IH]; intros objs Hk Hl Hn; [by apply elem_of_nil in Hk|]. simpl.
  destruct (decide (k = j)) as [->|Hne].
  - apply Hkeep; [by rewrite put_point_length|]. unfold put_point. destruct (cloud_at cl j) as [v|] eqn:Ev; [|by apply Hn].
    rewrite Hrow. apply list_lookup_insert_eq. rewrite Hl. by apply lookup_lt_Some in Hrow.
  - apply IH; [by apply elem_of_cons in Hk as [? |?]|by rewrite put_point_length|].
    intros Hc. unfold put_point. destruct (cloud_at cl j), (rows !! j); try (by apply Hn).
    rewrite list_lookup_insert_ne by done. by apply Hn.
Qed.

Lemma put_points_all rows cl names :
  (forall k, (k < length rows)%nat -> k ∈ map (fun n : string * nat * nat => n.1.2) names) ->
  put_points rows cl names (replicate (length rows) None) = points_of rows cl.
Proof.
  intros Hall. apply list_eq. intros k. unfold points_of. rewrite list_lookup_imap.
  destruct (rows !! k) as [row|] eqn:E; simpl.
  - pose proof (lookup_lt_Some _ _ _ E) as Hk. apply put_points_at; [by apply Hall|done|by rewrite length_replicate|].
    intros _. by apply lookup_replicate_2.
  - apply lookup_ge_None. rewrite put_points_length, length_replicate. by apply lookup_ge_None.
Qed.

(** ** Reading keys *)

Lemma r_key ts before k l L w : key_tags ts before ->
  steps (tags ts) [leaf "PrimaryKey" k] (l, L, w)
    (map_el (fun e => set_el_devId (key_id (key_text g_Mac DEVICE_TYPE_MODBUS k))
      (set_el_pPrimaryKey (Some (key_text g_Mac DEVICE_TYPE_MODBUS k)) e)) (map_el before l), L, w).
Proof. intros [(a & b & Hh) _ _]. eapply steps_tag; [exact Hh|]. intros n. by exists (n + 1). Qed.

Definition after_foreign (f : option (Z * string)) l : loc MbusDev :=
  match f with
  | Some (ty, k) => map_el (set_foreignType ty) (map_el (set_pForeignKey (Some "")) (set_fkey (Some k) l))
  | None => l
  end.

Lemma foreign_of_name ty : DEVICE_TYPE_ZIGBEE <= ty <= DEVICE_TYPE_RF433 -> foreign_of (foreign_name ty) = Some ty.
Proof.
  unfold DEVICE_TYPE_ZIGBEE, DEVICE_TYPE_RF433. intros Hty. assert (ty = 1 \/ ty = 2 \/ ty = 3 \/ ty = 4) as E by lia.
  by destruct_or! E; subst.
Qed.

Lemma r_foreign ts before f l L w : key_tags ts before -> foreign_valid f ->
  steps (tags ts) (foreign_doc f) (l, L, w) (after_foreign f l, L, w).
Proof.
  intros [_ (a & b & Hh) (a' & Hh')] Hf. destruct f as [[ty k]|]; [|apply steps_nil].
  apply (steps_cons _ _ _ _ (map_el (set_pForeignKey (Some "")) (set_fkey (Some k) l), L, w)).
  - eapply steps_tag; [exact Hh|]. intros n. by exists (n + 1).
  - eapply steps_tag; [exact Hh'|]. intros n. exists n. unfold ForeignType. rewrite r_content.
    simpl in Hf. by rewrite foreign_of_name.
Qed.

Lemma r_write f l (s : pst MbusDev) :
  l_fkey l = None -> foreignType (get_el (l_dev l)) = DEVICE_TYPE_UNKNOWN -> pForeignKey (get_el (l_dev l)) = None -> foreign_valid f ->
  exists l', write_foreign g_Mac (after_foreign f l) s = Got l' s /\
    l_dev l' = put_el (set_foreignType (match f with Some f => f.1 | None => DEVICE_TYPE_UNKNOWN end)
      (set_pForeignKey (option_map (fun f => key_text g_Mac f.1 f.2) f) (get_el (l_dev l)))) (l_dev l).
Proof.
  intros Hk Ht Hp Hf. destruct f as [[ty k]|].
  - unfold write_foreign. simpl in *. destruct (ty =? DEVICE_TYPE_UNKNOWN) eqn:E; [unfold DEVICE_TYPE_ZIGBEE, DEVICE_TYPE_UNKNOWN in *; bprop; lia|].
    unfold put_foreign. simpl. eexists. split; [reflexivity|]. done.
  - exists l. destruct l as [[[e ? ? ? ? ? ? ? ?] ?] ? ? ?]. destruct e. simpl in *. by subst.
Qed.

Lemma r_room ts v l L w : find_tag ts "RoomNo" = Some RoomNo -> opt_in 0 65535 v -> mb_regAddr (md_base (l_dev l)) = 0 ->
  steps (tags ts) (opt_leaf pretty "RoomNo" v) (l, L, w) (map_dev (on_base (set_mb_regAddr (default 0 v))) l, L, w).
Proof.
  intros Ht Hv E. eapply r_opt; [apply Ht| |].
  - intros ->. apply map_base_id. destruct (md_base _). simpl in *. by subst.
  - intros t n ->. exists n. unfold RoomNo. rewrite r_content. unfold mbind, par_bind. rewrite r_number by by apply u16_i32.
    simpl in Hv. by rewrite u16_small by lia.
Qed.

(** ** The devices of an item *)

(** A step that computes. *)
Ltac pstep := erewrite bind_got; [|reflexivity]; cbv beta iota; cbn [negb].

(** The pointers that are copied. *)
Definition copied (slots : list nat) (objs : list (option MbusObj_t)) : list (option MbusObj_t) :=
  imap (fun k o => if bool_decide (k ∈ slots) then o else None) objs.

Lemma r_copy_objs slots from to L w n :
  length to = length from -> exists n' o, copy_objs slots from to (PSt L w (Heap [] n)) = Got (Some o) (PSt L w (Heap [] n')) /\
    length o = length from /\
    forall k, (k < length from)%nat -> o !! k = if bool_decide (k ∈ slots) then Some (default None (match from !! k with Some (Some p) => Some (Some p) | _ => to !! k end)) else to !! k.
Proof.
  revert to n. induction slots as [|j slots IH]; intros to n Hl.
  { exists n, to. split; [done|]. split; [done|]. intros k _. by rewrite bool_decide_eq_false_2 by apply not_elem_of_nil. }
  assert (forall k, (k < length from)%nat -> to !! k = Some (default None (to !! k))) as Hto.
  { intros k Hk. destruct (lookup_lt_is_Some_2 to k) as [x E]; [lia|]. by rewrite E. }
  simpl. destruct (from !! j) as [[p|]|] eqn:Ej.
  2, 3: (destruct (IH to n Hl) as (n' & o & E & Ho & Hk); exists n', o; split; [done|]; split; [done|]; intros k Hlt;
    rewrite Hk by done; destruct (decide (k = j)) as [->|Hne];
    [rewrite Ej, (bool_decide_eq_true_2 (j ∈ j :: slots)) by left; case_bool_decide; [done|by apply Hto]
    |by rewrite (bool_decide_ext (k ∈ j :: slots) (k ∈ slots)) by (rewrite elem_of_cons; naive_solver)]).
  destruct (IH (<[j := Some p]> to) (n + 1)) as (n' & o & E & Ho & Hk); [by rewrite length_insert|].
  exists n', o. split; [done|]. split; [done|]. intros k Hlt. rewrite Hk by done.
  destruct (decide (k = j)) as [->|Hne].
  - rewrite Ej, (bool_decide_eq_true_2 (j ∈ j :: slots)) by left. simpl. case_bool_decide; [done|].
    apply list_lookup_insert_eq. lia.
  - rewrite list_lookup_insert_ne by done.
    by rewrite (bool_decide_ext (k ∈ j :: slots) (k ∈ slots)) by (rewrite elem_of_cons; naive_solver).
Qed.

Lemma r_copy slots objs L w n :
  exists n', copy_objs slots objs (replicate (length objs) None) (PSt L w (Heap [] n)) = Got (Some (copied slots objs)) (PSt L w (Heap [] n')).
Proof.
  destruct (r_copy_objs slots objs (replicate (length objs) None) L w n) as (n' & o & E & Ho & Hk); [apply length_replicate|].
  exists n'. rewrite E. do 2 f_equal. apply list_eq. intros k. unfold copied. rewrite list_lookup_imap.
  destruct (objs !! k) as [x|] eqn:Ex; simpl; [|apply lookup_ge_None; rewrite Ho; by apply lookup_ge_None].
  pose proof (lookup_lt_Some _ _ _ Ex) as Hlt. rewrite Hk by done. rewrite Ex, lookup_replicate_2 by done.
  case_bool_decide; [|done]. by destruct x.
Qed.

(** The device of a unit, from the one made for the line. *)
Definition unit_dev (slots : list nat) (group : bool) (ty : Z) (proto : MbusDev) (u : mb_unit) : MbusDev :=
  MDev
    (set_mb_el (set_foreignType (match mu_foreign u with Some f => f.1 | None => DEVICE_TYPE_UNKNOWN end)
       (set_pForeignKey (option_map (fun f => key_text g_Mac f.1 f.2) (mu_foreign u))
       (set_el_devId (key_id (key_text g_Mac DEVICE_TYPE_MODBUS (mu_key u)))
       (set_el_pPrimaryKey (Some (key_text g_Mac DEVICE_TYPE_MODBUS (mu_key u)))
       (set_el_primaryType ty (mb_el (md_base proto)))))))
    (set_mb_regAddr (default 0 (mu_room u))
    (set_mb_bGroupMember (group && mu_group u) (md_base proto))))
    (copied slots (md_objs proto)).

Record proto_ok (d : MbusDev) : Prop := {
  po_duplex : mb_bFullDuplex (md_base d) = false;
  po_group : mb_bGroupMember (md_base d) = false;
  po_reg : mb_regAddr (md_base d) = 0;
  po_foreign : pForeignKey (get_el d) = None;
  po_foreignType : foreignType (get_el d) = DEVICE_TYPE_UNKNOWN
}.

Lemma r_deep_copy slots group proto u L w n :
  proto_ok proto ->
  exists n', deep_copy slots group proto (unit_doc u) (PSt L w (Heap [] n)) =
    Got (Some (MDev (set_mb_bGroupMember (group && mu_group u) (md_base proto)) (copied slots (md_objs proto)))) (PSt L w (Heap [] n')).
Proof.
  intros [Hd Hg _ _ _]. destruct (r_copy slots (md_objs proto) L w (n + 1)) as [n1 E]. exists (n1 + 1 + 1).
  unfold deep_copy. pstep. erewrite bind_got; [|exact E]. cbv iota beta. pstep. pstep. rewrite Hd. pstep.
  assert (bool_decide (is_Some (xmlGetProp (unit_doc u) "group")) = mu_group u) as Eg.
  { rewrite getprop_ok. unfold unit_doc. by destruct (mu_group u). }
  rewrite Eg. destruct (group && mu_group u); [done|]. simpl. do 3 f_equal.
  destruct (md_base proto). simpl in *. by subst.
Qed.

Lemma r_item_cell slots group ty ts proto u L w n :
  key_tags ts (set_el_primaryType ty) -> find_tag ts "text" = None -> find_tag ts "RoomNo" = Some RoomNo ->
  proto_ok proto -> unit_valid u ->
  exists n', item_cell g_Mac slots group ts proto (unit_doc u) tt (PSt L w (Heap [] n)) =
    Got (Next tt) (PSt (L ++ [unit_dev slots group ty proto u]) w (Heap [] n')).
Proof.
  intros Hk Ht Hr Hp [Hf Hroom]. destruct (r_deep_copy slots group proto u L w n Hp) as [n1 E1].
  destruct Hp as [Hd Hg Hreg Hfk Hft].
  set (d := MDev _ _) in E1. set (l0 := Loc d None None None).
  set (l1 := map_el (fun e => set_el_devId (key_id (key_text g_Mac DEVICE_TYPE_MODBUS (mu_key u)))
      (set_el_pPrimaryKey (Some (key_text g_Mac DEVICE_TYPE_MODBUS (mu_key u))) e)) (map_el (set_el_primaryType ty) l0)).
  set (l2 := map_dev (on_base (set_mb_regAddr (default 0 (mu_room u)))) (after_foreign (mu_foreign u) l1)).
  assert (steps (tags ts) (leaf "PrimaryKey" (mu_key u) :: foreign_doc (mu_foreign u) ++ opt_leaf pretty "RoomNo" (mu_room u))
    (l0, L, w) (l2, L, w)) as Hs.
  { eapply steps_cons; [by eapply r_key|]. eapply steps_app; [by eapply r_foreign|]. apply r_room; [done..|].
    by destruct (mu_foreign u) as [[]|]. }
  destruct (steps_indent _ _ _ _ n1 Ht Hs) as [n2 E2].
  destruct (r_write (mu_foreign u) (map_dev (on_base (set_mb_regAddr (default 0 (mu_room u)))) l1) (PSt L w (Heap [] n2))) as (l3 & E3 & Hl3);
    [done..|].
  exists n2. unfold item_cell. erewrite bind_got; [|exact E1]. cbv iota beta.
  erewrite bind_got; [|exact E2]. simpl.
  replace l2 with (after_foreign (mu_foreign u) (map_dev (on_base (set_mb_regAddr (default 0 (mu_room u)))) l1))
    by (unfold l2; by destruct (mu_foreign u) as [[]|]).
  erewrite bind_got; [|exact E3]. unfold listAddNodeTail, mbind, par_bind. simpl. rewrite Hl3. done.
Qed.

Lemma r_item_cells slots group ty ts proto us L w n :
  key_tags ts (set_el_primaryType ty) -> find_tag ts "text" = None -> find_tag ts "RoomNo" = Some RoomNo ->
  proto_ok proto -> Forall unit_valid us ->
  exists n', item_cells g_Mac slots group ts (elem "Item" [] (map unit_doc us)) proto (PSt L w (Heap [] n)) =
    Got 0 (PSt (L ++ map (unit_dev slots group ty proto) us) w (Heap [] n')).
Proof.
  intros Hk Ht Hr Hp Hus.
  assert (steps (tags [("Cell", item_cell g_Mac slots group ts proto)]) (map unit_doc us) (tt, L, w)
    (tt, L ++ map (unit_dev slots group ty proto) us, w)) as Hs.
  { clear n. revert L. induction Hus as [|u us Hu Hus IH]; intros L; cbn [map]; [rewrite app_nil_r; apply steps_nil|].
    apply (steps_cons _ _ _ _ (tt, L ++ [unit_dev slots group ty proto u], w)).
    - eapply steps_tag; [reflexivity|]. intros n. by apply r_item_cell.
    - specialize (IH (L ++ [unit_dev slots group ty proto u])). by rewrite <- app_assoc in IH. }
  destruct (steps_indent _ _ _ _ n (eq_refl : find_tag [("Cell", item_cell g_Mac slots group ts proto)] "text" = None) Hs) as [n' E].
  exists n'. unfold item_cells.
  erewrite bind_got; [|exact E]. done.
Qed.

(** ** The cell of a line *)

Lemma r_new_device name ty rows L ps lk os t n :
  exists n', new_device name ty rows (PSt L (W ps lk os [] t) (Heap [] n)) =
    Got (Some (MDev (MCfg (set_el_bMaster false (set_el_primaryType ty (set_szName (Some name) El0)))
                     0 0 0 true true false false (Some (length ps))) (replicate rows None)))
        (PSt L (W (ps ++ [SerialInit_param]) lk os [] t) (Heap [] n')).
Proof. eexists. reflexivity. Qed.

(** The device made for a line. *)
Definition line_proto (name : string) (ty : Z) (rows : list (Z * Z * Z)) (c : mb_settings) (cl : list (option Z)) (i : nat) : MbusDev :=
  MDev (cfg_base g_Mac name ty c None None 0 false i) (points_of rows cl).

Lemma r_line_start name ty rows names ts c cl L ps lk os t n :
  library_tags ts -> settings_tags ts -> point_tags rows names ts -> ordered [] names = true ->
  (forall k, (k < length rows)%nat -> k ∈ map (fun n : string * nat * nat => n.1.2) names) ->
  settings_valid c -> points_valid names cl ->
  exists n' d0, new_device name ty (length rows) (PSt L (W ps lk os [] t) (Heap [] n)) =
      Got (Some d0) (PSt L (W (ps ++ [SerialInit_param]) lk os [] t) (Heap [] n')) /\
    no_library (Loc d0 None None None) /\
    steps (tags ts) (line_settings_doc c ++ points_doc names cl)
      (after_library c (Loc d0 None None None), L, W (ps ++ [SerialInit_param]) lk os [] t)
      (Loc (line_proto name ty rows c cl (length ps)) None None None, L, W (ps ++ [line_param c]) lk os [] t).
Proof.
  intros Hl Hs Hp Ho Hall Hc [Hcl Hn]. destruct (r_new_device name ty (length rows) L ps lk os t n) as [n1 E].
  eexists n1, _. split; [exact E|]. split; [by split|].
  eapply steps_app; [eapply r_settings; [done..|by split|done]|].
  match goal with |- steps _ _ (?l, _, _) _ => set (l1 := l) end.
  assert (l1 = Loc (MDev (cfg_base g_Mac name ty c None None 0 false (length ps)) (replicate (length rows) None)) None None None) as ->
    by done.
  replace (line_proto name ty rows c cl (length ps)) with
    (MDev (cfg_base g_Mac name ty c None None 0 false (length ps)) (put_points rows cl names (replicate (length rows) None)))
    by (unfold line_proto; by rewrite put_points_all).
  eapply r_points with (done := []) (d := MDev _ _); [done|apply length_replicate|done..|]. by intros k ?%elem_of_nil.
Qed.

Lemma r_line_cell name ty kty rows names slots group ts ks c L ps lk os t n :
  library_tags ts -> settings_tags ts -> point_tags rows names ts -> find_tag ts "Item" = Some Item ->
  key_tags ks (set_el_primaryType kty) -> find_tag ks "text" = None -> find_tag ks "RoomNo" = Some RoomNo ->
  ordered [] names = true ->
  (forall k, (k < length rows)%nat -> k ∈ map (fun n : string * nat * nat => n.1.2) names) ->
  line_valid names c ->
  exists n', line_cell name ty (length rows) ts (item_cells g_Mac slots group ks) (line_doc names c)
      (PSt L (W ps lk os [] t) (Heap [] n)) =
    Got tt (PSt (L ++ map (unit_dev slots group kty (line_proto name ty rows (ml_settings c) (ml_points c) (length ps))) (ml_units c))
      (W (ps ++ [line_param (ml_settings c)]) lk os [] t) (Heap [] n')).
Proof.
  intros Hl Hs Hp Hi Hk Hkt Hkr Ho Hall [Hc Hpt Hu].
  destruct (r_line_start name ty rows names ts (ml_settings c) (ml_points c) L ps lk os t n) as (n1 & d0 & E1 & Hf & H2); [done..|].
  set (proto := line_proto name ty rows (ml_settings c) (ml_points c) (length ps)) in *.
  set (it := elem "Item" [] (map unit_doc (ml_units c))).
  assert (steps (tags ts) (library_doc (ml_settings c) ++ (line_settings_doc (ml_settings c) ++ points_doc names (ml_points c)) ++ [it])
    (Loc d0 None None None, L, W (ps ++ [SerialInit_param]) lk os [] t)
    (Loc proto None None (Some it), L, W (ps ++ [line_param (ml_settings c)]) lk os [] t)) as Hst.
  { eapply steps_app; [by apply r_library|]. eapply steps_app; [exact H2|].
    eapply steps_tag; [exact Hi|]. intros m. by exists m. }
  destruct (steps_indent _ _ _ _ n1 (tg_text _ Hl) Hst) as [n2 E2].
  destruct (r_item_cells slots group kty ks proto (ml_units c) L (W (ps ++ [line_param (ml_settings c)]) lk os [] t) n2)
    as [n3 E3]; [done..|by split|done|].
  eexists. unfold line_cell. erewrite bind_got; [|exact E1]. cbv beta iota.
  replace (x_kids (line_doc names c)) with (indent (library_doc (ml_settings c) ++ (line_settings_doc (ml_settings c) ++ points_doc names (ml_points c)) ++ [it]))
    by (unfold line_doc; simpl; by rewrite <- app_assoc).
  erewrite bind_got; [|exact E2]. cbn [at_conf fst snd l_item l_dev]. erewrite bind_got; [|exact E3]. reflexivity.
Qed.

(** ** A cell of its own *)

Definition own_dev (name : string) (ty : Z) (rows : list (Z * Z * Z)) (i : nat) (c : mb_own) : MbusDev :=
  MDev (cfg_base g_Mac name ty (mo_settings c) (mo_key c) (mo_foreign c) 0 false i) (points_of rows (mo_points c)).

Definition after_key (before : CfgElement -> CfgElement) (k : option string) l : loc MbusDev :=
  match k with
  | Some k => map_el (fun e => set_el_devId (key_id (key_text g_Mac DEVICE_TYPE_MODBUS k))
      (set_el_pPrimaryKey (Some (key_text g_Mac DEVICE_TYPE_MODBUS k)) e)) (map_el before l)
  | None => l
  end.

Lemma r_own_cell name ty rows names ts before c L ps lk os t n :
  library_tags ts -> settings_tags ts -> point_tags rows names ts -> key_tags ts before ->
  before = id \/ before = set_el_primaryType ty -> ordered [] names = true ->
  (forall k, (k < length rows)%nat -> k ∈ map (fun n : string * nat * nat => n.1.2) names) ->
  settings_valid (mo_settings c) -> foreign_valid (mo_foreign c) -> points_valid names (mo_points c) ->
  exists n', own_cell g_Mac name ty (length rows) ts (own_doc names c) (PSt L (W ps lk os [] t) (Heap [] n)) =
    Got tt (PSt (L ++ [own_dev name ty rows (length ps) c]) (W (ps ++ [line_param (mo_settings c)]) lk os [] t) (Heap [] n')).
Proof.
  intros Hl Hs Hp Hk Hb Ho Hall Hc Hf [Hcl Hn].
  destruct (r_new_device name ty (length rows) L ps lk os t n) as [n1 E1].
  match type of E1 with _ = Got (Some ?d) _ => set (d0 := d) in E1 end.
  set (l2 := after_key before (mo_key c) (after_library (mo_settings c) (Loc d0 None None None))).
  set (l3 := after_settings (mo_settings c) l2).
  set (l4 := Loc (MDev (md_base (l_dev l3)) (points_of rows (mo_points c))) None None None).
  assert (steps (tags ts) (library_doc (mo_settings c) ++ opt_leaf id "PrimaryKey" (mo_key c) ++ foreign_doc (mo_foreign c) ++
      line_settings_doc (mo_settings c) ++ points_doc names (mo_points c))
    (Loc d0 None None None, L, W (ps ++ [SerialInit_param]) lk os [] t)
    (after_foreign (mo_foreign c) l4, L, W (ps ++ [line_param (mo_settings c)]) lk os [] t)) as Hst.
  { eapply steps_app; [by apply r_library|].
    apply (steps_app _ _ _ _ (l2, L, W (ps ++ [SerialInit_param]) lk os [] t)).
    { unfold l2. destruct (mo_key c); [by apply r_key|apply steps_nil]. }
    eapply steps_app; [by eapply r_foreign|].
    eapply steps_app; [apply (r_settings _ _ _ _ (length ps)); [done..| |done]; unfold l2; by destruct (mo_key c), (mo_foreign c) as [[]|]|].
    set (l5 := after_settings (mo_settings c) (after_foreign (mo_foreign c) l2)).
    replace l5 with (Loc (MDev (md_base (l_dev l5)) (replicate (length rows) None)) None (option_map snd (mo_foreign c)) None)
      by (unfold l5, l2; by destruct (mo_key c), (mo_foreign c) as [[]|]).
    replace (after_foreign (mo_foreign c) l4) with
      (Loc (MDev (md_base (l_dev l5)) (put_points rows (mo_points c) names (replicate (length rows) None))) None (option_map snd (mo_foreign c)) None)
      by (rewrite put_points_all by done; unfold l5, l4, l3, l2; by destruct (mo_key c), (mo_foreign c) as [[]|]).
    apply r_points with (done := []) (d := MDev (md_base (l_dev l5)) (replicate (length rows) None));
      [done|apply length_replicate|done..|]. by intros k ?%elem_of_nil. }
  destruct (steps_indent _ _ _ _ n1 (tg_text _ Hl) Hst) as [n2 E2].
  destruct (r_write (mo_foreign c) l4 (PSt L (W (ps ++ [line_param (mo_settings c)]) lk os [] t) (Heap [] n2))) as (l6 & E3 & Hl6);
    [done|unfold l4, l3, l2; by destruct (mo_key c), Hb as [-> | ->]..|done|].
  exists n2. unfold own_cell. erewrite bind_got; [|exact E1]. cbv beta iota.
  change (x_kids (own_doc names c)) with (indent (library_doc (mo_settings c) ++ opt_leaf id "PrimaryKey" (mo_key c) ++
    foreign_doc (mo_foreign c) ++ line_settings_doc (mo_settings c) ++ points_doc names (mo_points c))).
  erewrite bind_got; [|exact E2]. cbn [at_conf fst snd]. erewrite bind_got; [|exact E3].
  unfold listAddNodeTail. rewrite Hl6. unfold l4, l3, l2, own_dev. by destruct (mo_key c), Hb as [-> | ->].
Qed.
End Read.

(** ** The families whose cells describe lines

    [lf_names]: the elements of the points, the places they are read to and the places
    the log messages read; [lf_slots]: the places that are copied to the devices;
    [lf_type]: the type of the devices. *)

Record line_family := LineFamily {
  lf_family : family;
  lf_xpath : string;
  lf_names : list (string * nat * nat);
  lf_slots : list nat;
  lf_group : bool;
  lf_type : Z
}.
Definition own (name : string) (k : nat) : string * nat * nat := (name, k, k).

Definition L_acd : line_family := LineFamily F_acd "/Device/Modbus/AirCondition/Cell"
  [own "Switch" 0; own "Speed" 1; own "Mode" 2; own "Temp" 3; own "EnvTemp" 4; own "Fault" 5]
  [0; 1; 2; 3; 4; 5]%nat true MODBUS_DEVICE_AIRCONDITION.
Definition L_vent : line_family := LineFamily F_vent "/Device/Modbus/Ventilation/Cell"
  [own "Switch" 0; own "Speed" 1; ("Humi", 2, 1)%nat; ("Mode", 4, 1)%nat; ("Valve", 5, 1)%nat; ("EnvHumi", 3, 1)%nat;
   ("Fault", 6, 1)%nat]
  [0; 1; 6]%nat true MODBUS_DEVICE_VENTILATION.
Definition L_heat : line_family := LineFamily F_heat "/Device/Modbus/FloorHeating/Cell"
  [own "Switch" 0; own "Temp" 1; own "EnvTemp" 2; ("Fault", 3, 2)%nat]
  [0; 1; 2]%nat true MODBUS_DEVICE_FLOORHEATING.
Definition L_aqi : line_family := LineFamily F_aqi "/Device/Modbus/AQI/Cell"
  [own "Humi" 1; own "Temp" 0; own "PM25" 2; own "CO2" 3]
  [1; 0; 2; 3]%nat false MODBUS_DEVICE_FLOORHEATING.
Definition L_panel : line_family := LineFamily F_panel "/Device/Modbus/Panel/Cell"
  [own "Switch" 0] [0%nat] false MODBUS_DEVICE_VENTILATION.
Definition line_families : list line_family := [L_acd; L_vent; L_heat; L_aqi; L_panel].

Definition lf_points (F : line_family) : list (Z * Z * Z) := f_points (lf_family F).
(** The device of the unit [u] on the line [c] with the block [i]. *)
Definition line_dev (g_Mac : string) (F : line_family) (i : nat) (c : mb_line) (u : mb_unit) : MbusDev :=
  MDev (cfg_base g_Mac (f_name (lf_family F)) (lf_type F) (ml_settings c) (Some (mu_key u)) (mu_foreign u)
          (default 0 (mu_room u)) (lf_group F && mu_group u) i)
       (copied (lf_slots F) (points_of (lf_points F) (ml_points c))).
Fixpoint line_devs (g_Mac : string) (F : line_family) (i : nat) (cs : list mb_line) : list MbusDev :=
  match cs with [] => [] | c :: cs => map (line_dev g_Mac F i c) (ml_units c) ++ line_devs g_Mac F (S i) cs end.

Section Parsers.
Context `{LibXmlOk} (g_Mac : string).

(** What a parser of lines does with the cells of a document. *)
Definition reads_line (F : line_family) (f : xnode -> par (pst MbusDev) unit) : Prop :=
  forall c L ps lk os t n, line_valid (lf_names F) c ->
  exists n', f (line_doc (lf_names F) c) (PSt L (W ps lk os [] t) (Heap [] n)) =
    Got tt (PSt (L ++ map (line_dev g_Mac F (length ps) c) (ml_units c)) (W (ps ++ [line_param (ml_settings c)]) lk os [] t) (Heap [] n')).

Lemma reads_lines F f cs L ps lk os t n :
  reads_line F f -> Forall (line_valid (lf_names F)) cs ->
  exists n', for_nodes f (map (line_doc (lf_names F)) cs) (PSt L (W ps lk os [] t) (Heap [] n)) =
    Got tt (PSt (L ++ line_devs g_Mac F (length ps) cs) (W (ps ++ map (fun c => line_param (ml_settings c)) cs) lk os [] t) (Heap [] n')).
Proof.
  intros Hf Hcs. revert L ps n. induction Hcs as [|c cs Hc Hcs IH]; intros L ps n.
  { exists n. simpl. by rewrite !app_nil_r. }
  destruct (Hf c L ps lk os t n Hc) as [n1 E1].
  destruct (IH (L ++ map (line_dev g_Mac F (length ps) c) (ml_units c)) (ps ++ [line_param (ml_settings c)]) n1) as [n2 E2].
  exists n2. cbn [map for_nodes]. erewrite bind_got; [|exact E1]. rewrite E2. cbn [line_devs].
  rewrite <- !app_assoc, length_app. simpl. by rewrite Nat.add_1_r.
Qed.

Lemma reads_document F f (L : list MbusDev) ps lk os t n path d cs :
  reads_line F f -> Forall (line_valid (lf_names F)) cs -> cs <> [] ->
  xmlReadFile path = Some d -> xmlXPathEval d (lf_xpath F) = map (line_doc (lf_names F)) cs ->
  exists n', parse_cells (Some path) (lf_xpath F) f (PSt L (W ps lk os [] t) (Heap [] n)) =
    Got 0 (PSt (L ++ line_devs g_Mac F (length ps) cs) (W (ps ++ map (fun c => line_param (ml_settings c)) cs) lk os [] t) (Heap [] n')).
Proof.
  intros Hf Hcs Hne Hd Hx. destruct (reads_lines F f cs L ps lk os t n Hf Hcs) as [n' E]. exists n'.
  unfold parse_cells. rewrite Hd. unfold XmlGetNode. rewrite Hx. destruct cs as [|c cs]; [done|].
  cbn [map] in *. by erewrite bind_got; [|exact E].
Qed.

Lemma all_places N ks :
  forallb (fun k => existsb (Nat.eqb k) ks) (seq 0 N) = true -> forall k, (k < N)%nat -> k ∈ ks.
Proof.
  intros Hb k Hk. rewrite forallb_forall in Hb. specialize (Hb k). destruct (existsb (Nat.eqb k) ks) eqn:E.
  - apply existsb_exists in E as (j & Hj & ->%Nat.eqb_eq). by apply list_elem_of_In.
  - exfalso. enough (false = true) by done. apply Hb, list_elem_of_In, elem_of_seq. lia.
Qed.
Ltac line_reader F ts ks :=
  intros c L ps lk os t n Hc;
  destruct (r_line_cell g_Mac (f_name (lf_family F)) (hd 0 (f_types (lf_family F))) (lf_type F) (lf_points F) (lf_names F)
    (lf_slots F) (lf_group F) ts ks c L ps lk os t n) as [n' E]; [..|exists n'; exact E];
  [split; [done|by do 2 eexists|by eexists]|split; first [left; done|right; done|done]|repeat (apply Forall_cons; split; [do 2 eexists; split; reflexivity|]); by apply Forall_nil
  |done|split; [by do 2 eexists|by do 2 eexists|by eexists]|done|done|done|by apply all_places|exact Hc].

Lemma reads_acd : reads_line L_acd (line_cell "AirCondition" MODBUS_DEVICE_AIRCONDITION 6 acd_tags (ParseMbusAcdKey g_Mac)).
Proof. line_reader L_acd (@acd_tags H) (acd_item g_Mac). Qed.
Lemma reads_vent : reads_line L_vent (line_cell "Ventilation" MODBUS_DEVICE_VENTILATION 7 vent_tags (ParseMbusVentKey g_Mac)).
Proof. line_reader L_vent (@vent_tags H) (vent_item g_Mac). Qed.
Lemma reads_heat : reads_line L_heat (line_cell "FloorHeating" MODBUS_DEVICE_FLOORHEATING 4 heat_tags (ParseMbusHeatKey g_Mac)).
Proof. line_reader L_heat (@heat_tags H) (heat_item g_Mac). Qed.
Lemma reads_aqi : reads_line L_aqi (line_cell "AQI" MODBUS_DEVICE_AQI 4 aqi_tags (ParseMbusAqiKey g_Mac)).
Proof. line_reader L_aqi (@aqi_tags H) (aqi_item g_Mac). Qed.
Lemma reads_panel : reads_line L_panel (line_cell "Panel" MODBUS_DEVICE_PANNEL 1 panel_tags (ParseMbusPanelKey g_Mac)).
Proof. line_reader L_panel (@panel_tags H) (panel_item g_Mac). Qed.


(** ** The families with cells of their own *)

Definition own_families : list (family * string * list (string * nat * nat)) :=
  [(F_humidifier, "/Device/Modbus/Humidifier/Cell", [own "Switch" 0; own "Humidity" 1]);
   (F_purifier, "/Device/Modbus/Purifier/Cell", [own "Flow" 0; own "TDS" 1; own "FilterTime" 2; own "Reset" 3]);
   (F_curtain, "/Device/Modbus/Curtain/Cell", [own "Switch" 0; own "Fault" 1; own "Direction" 3; own "Position" 2])].

Record own_valid (names : list (string * nat * nat)) (c : mb_own) : Prop := {
  ov_settings : settings_valid (mo_settings c);
  ov_foreign : foreign_valid (mo_foreign c);
  ov_points : points_valid names (mo_points c)
}.
Definition family_dev (f : family) (i : nat) (c : mb_own) : MbusDev :=
  own_dev g_Mac (f_name f) (hd 0 (f_types f)) (f_points f) i c.

Lemma reads_owns f names g cs L ps lk os t n :
  (forall c L ps n, own_valid names c -> exists n', g (own_doc names c) (PSt L (W ps lk os [] t) (Heap [] n)) =
    Got tt (PSt (L ++ [family_dev f (length ps) c]) (W (ps ++ [line_param (mo_settings c)]) lk os [] t) (Heap [] n'))) ->
  Forall (own_valid names) cs ->
  exists n', for_nodes g (map (own_doc names) cs) (PSt L (W ps lk os [] t) (Heap [] n)) =
    Got tt (PSt (L ++ imap (fun k => family_dev f (length ps + k)) cs) (W (ps ++ map (fun c => line_param (mo_settings c)) cs) lk os [] t) (Heap [] n')).
Proof.
  intros Hg Hcs. revert L ps n. induction Hcs as [|c cs Hc Hcs IH]; intros L ps n.
  { exists n. simpl. by rewrite !app_nil_r. }
  destruct (Hg c L ps n Hc) as [n1 E1].
  destruct (IH (L ++ [family_dev f (length ps) c]) (ps ++ [line_param (mo_settings c)]) n1) as [n2 E2].
  exists n2. cbn [map for_nodes]. erewrite bind_got; [|exact E1]. rewrite E2. rewrite <- !app_assoc. cbn [imap app].
  rewrite Nat.add_0_r. do 4 f_equal. apply imap_ext. intros k x _. simpl. f_equal. rewrite length_app. simpl. lia.
Qed.

Lemma reads_own_document f names g xpath (L : list MbusDev) ps lk os t n path d cs :
  (forall c L ps n, own_valid names c -> exists n', g (own_doc names c) (PSt L (W ps lk os [] t) (Heap [] n)) =
    Got tt (PSt (L ++ [family_dev f (length ps) c]) (W (ps ++ [line_param (mo_settings c)]) lk os [] t) (Heap [] n'))) ->
  Forall (own_valid names) cs -> cs <> [] ->
  xmlReadFile path = Some d -> xmlXPathEval d xpath = map (own_doc names) cs ->
  exists n', parse_cells (Some path) xpath g (PSt L (W ps lk os [] t) (Heap [] n)) =
    Got 0 (PSt (L ++ imap (fun k => family_dev f (length ps + k)) cs) (W (ps ++ map (fun c => line_param (mo_settings c)) cs) lk os [] t) (Heap [] n')).
Proof.
  intros Hg Hcs Hne Hd Hx. destruct (reads_owns f names g cs L ps lk os t n Hg Hcs) as [n' E]. exists n'.
  unfold parse_cells. rewrite Hd. unfold XmlGetNode. rewrite Hx. destruct cs as [|c cs]; [done|].
  cbn [map] in *. by erewrite bind_got; [|exact E].
Qed.

Ltac own_reader f names ts before :=
  intros ? ? ? ? [? ? ?];
  apply (r_own_cell g_Mac (f_name f) (hd 0 (f_types f)) (f_points f) names ts before);
  [split; [done|by do 2 eexists|by eexists]|split; first [left; done|right; done|done]
  |repeat (apply Forall_cons; split; [do 2 eexists; split; reflexivity|]); by apply Forall_nil
  |split; [by do 2 eexists|by do 2 eexists|by eexists]|first [by left|by right]|done|by apply all_places|done..].

(** The parsers of humidifiers, purifiers and curtains, whose cells are devices of their own, read back any
    document they are given: one serial port and one device per cell, exactly as written, in their order. *)
Theorem modbus_owns_read f xpath names cs (L : list MbusDev) ps lk os t n path d :
  (f, xpath, names) ∈ own_families -> Forall (own_valid names) cs -> cs <> [] ->
  xmlReadFile path = Some d -> xmlXPathEval d xpath = map (own_doc names) cs ->
  exists n', f_parse f g_Mac (Some path) (PSt L (W ps lk os [] t) (Heap [] n)) =
    Got 0 (PSt (L ++ imap (fun k => family_dev f (length ps + k)) cs) (W (ps ++ map (fun c => line_param (mo_settings c)) cs) lk os [] t) (Heap [] n')).
Proof.
  intros HF Hcs Hne Hd Hx. unfold own_families in HF.
  repeat apply elem_of_cons in HF as [[= -> -> ->] | HF]; [..|by apply elem_of_nil in HF].
  - eapply (reads_own_document F_humidifier); [|done..]. own_reader F_humidifier [own "Switch" 0; own "Humidity" 1] (humidifier_tags g_Mac) (@id CfgElement).
  - eapply (reads_own_document F_purifier); [|done..].
    own_reader F_purifier [own "Flow" 0; own "TDS" 1; own "FilterTime" 2; own "Reset" 3] (purifier_tags g_Mac) (@id CfgElement).
  - eapply (reads_own_document F_curtain); [|done..].
    own_reader F_curtain [own "Switch" 0; own "Fault" 1; own "Direction" 3; own "Position" 2] (curtain_tags g_Mac)
      (set_el_primaryType MODBUS_DEVICE_CURTAIN).
Qed.
End Parsers.

(** ** Witnesses *)

Definition sample_settings : mb_settings :=
  Settings (Some "acd.so") (Some "pid") (Some 7) (Some 2) (Some 9600) (Some 8) (Some "N"%char) (Some 1) true false (Some 50).
Definition sample_line : mb_line :=
  Line_ sample_settings [Some 101; Some 102; None; Some 104; None; Some 106]
    [Unit "17" (Some (DEVICE_TYPE_KNX, "55")) (Some 3) true; Unit "18" None None false].
Definition line_lib : LibXml := tree_lib [("cfg.xml", [(lf_xpath L_acd, map (line_doc (lf_names L_acd)) [sample_line])])].

Lemma sample_valid : settings_valid sample_settings.
Proof. split; cbn; try lia. apply (bool_decide_unpack _). reflexivity. Qed.
Lemma sample_line_valid : Forall (line_valid (lf_names L_acd)) [sample_line].
Proof.
  constructor; [|constructor]. split; [apply sample_valid|split|].
  - repeat (apply Forall_cons_2; [cbn; lia || done|]). by apply Forall_nil_2.
  - repeat (apply Forall_cons_2; [done|]). by apply Forall_nil_2.
  - repeat (apply Forall_cons_2; [split; cbn; lia || done|]). by apply Forall_nil_2.
Qed.


Definition sample_own : mb_own := Own sample_settings (Some "21") (Some (DEVICE_TYPE_KNX, "9")) [Some 101; None; Some 103; Some 104].
Definition own_names : list (string * nat * nat) := [own "Switch" 0; own "Fault" 1; own "Direction" 3; own "Position" 2].
Definition own_xpath : string := "/Device/Modbus/Curtain/Cell".
Definition own_lib : LibXml := tree_lib [("cfg.xml", [(own_xpath, map (own_doc own_names) [sample_own])])].
Lemma sample_own_valid : Forall (own_valid own_names) [sample_own].
Proof.
  constructor; [|constructor]. split; [apply sample_valid|by cbn|split].
  - repeat (apply Forall_cons_2; [cbn; lia || done|]). by apply Forall_nil_2.
  - repeat (apply Forall_cons_2; [done|]). by apply Forall_nil_2.
Qed.

Lemma modbus_owns_read_witness :
  Forall (own_valid own_names) [sample_own] /\
  exists n', f_parse (H := own_lib) F_curtain "AABBCCDDEEFF" (Some "cfg.xml") sample_st =
    Got 0 (PSt [family_dev "AABBCCDDEEFF" F_curtain 0 sample_own]
             (W [line_param sample_settings] [false; false; false; false] [] [] []) (Heap [] n')).
Proof.
  split; [exact sample_own_valid|].
  destruct (modbus_owns_read (H := own_lib) "AABBCCDDEEFF" F_curtain own_xpath own_names [sample_own] [] [] [false; false; false; false] [] [] 0
    "cfg.xml" [(own_xpath, map (own_doc own_names) [sample_own])]) as [n' E];
    [by do 2 right; left|exact sample_own_valid|done|reflexivity|reflexivity|].
  exists n'. exact E.
Defined.
