(* ===== verification/ConfigMonitor.v ===== *)
(** From the configuration to the cloud: the monitor on the devices a configuration
    describes.

    [node_of] is a device of the configuration as main.c completes it: its plugin is
    loaded and its foreign key resolved to the device of the KNX bus. *)

From stdpp Require Import pretty.
From S2P Require Import Prelude CMem CStr Device PluginApi Serial Nodes Monitor MiscPlugins Xml Cells CellRules ParseModbus ModbusConfig XmlPrint ModbusPrint.

Local Open Scope string_scope.
Local Open Scope list_scope.
Local Open Scope Z_scope.

Definition node_of {P} (plugin : option (MbusIf P)) (fkey : option string) (d : MbusDev) : Node P :=
  let e := mb_el (md_base d) in
  MkNode (Base plugin (Element (default "" (el_pPrimaryKey e)) (el_devId e) (el_primaryType e) (el_bMaster e) fkey)
            (mb_devAddr (md_base d)) (mb_regAddr (md_base d)) (mb_delay (md_base d)) (mb_bFeedback (md_base d))
            (mb_bOnlineCheck (md_base d)) 0 (mb_bFullDuplex (md_base d)) (mb_pSerial (md_base d)) 0)
    [] (md_objs d).

Lemma lookup_points rows cl slots k row :
  rows !! k = Some row -> k ∈ slots -> copied slots (points_of rows cl) !! k = Some (point_of row (cloud_at cl k)).
Proof.
  intros Hr Hk. unfold copied, points_of. rewrite !list_lookup_imap, Hr. simpl. by rewrite bool_decide_eq_true_2.
Qed.

(** The keys the monitor finds a number in. *)
Lemma dev_id_key_id key id : dev_id key = Done (Some id) -> id = key_id key.
Proof.
  unfold dev_id, key_id, atoi, strtol_errno. destruct (_ <? 12)%nat; [done|].
  destruct (strtol _) as [[v []]|]; intros [= <-]. done.
Qed.

Section ConfigMonitor.
Context {P : Type} (desc_get : string -> bool) (g_Mac : string).
Implicit Types s : mst P.

(** The device of the unit [u] of the line [c] stands at the place [i] of the list,
    the first with its id. *)
Record placed s (F : line_family) (c : mb_line) (u : mb_unit) (i : nat) (n : Node P) : Prop := {
  pl_node : exists plugin fkey j, n = node_of plugin fkey (line_dev g_Mac F j c u);
  pl_at : nodes s !! i = Some (Some n);
  pl_first : exists id, dev_id (key_text g_Mac DEVICE_TYPE_MODBUS (mu_key u)) = Done (Some id) /\ listSearchKey (nodes s) id = Some i;
  pl_master : ms_product (ml_settings c) <> None
}.

Lemma placed_points s F c u i n k row :
  placed s F c u i n -> lf_points F !! k = Some row -> k ∈ lf_slots F ->
  points n !! k = Some (point_of row (cloud_at (ml_points c) k)).
Proof. intros [(pl & fk & j & ->) _ _ _] Hr Hk. by apply lookup_points. Qed.

(** A family whose tests find a point by its number: the places the branch of the
    type tests are copied to the devices, and their numbers differ. *)
Definition tested (F : line_family) : list (nat * kind) :=
  match branch_of (lf_type F) with Some br => tests br | None => [] end.
Definition distinct_tests (F : line_family) : Prop :=
  Forall (fun t => t.1 ∈ lf_slots F /\ is_Some (lf_points F !! t.1)) (tested F) /\
  NoDup (map (fun t => fst <$> (fst <$> lf_points F !! t.1)) (tested F)).

Lemma placed_target s F c u i n k kd row v o key :
  placed s F c u i n -> branch_of (lf_type F) <> None -> distinct_tests F ->
  key = key_text g_Mac DEVICE_TYPE_MODBUS (mu_key u) ->
  Forall (fun t => is_Some (cloud_at (ml_points c) t.1)) (tested F) ->
  (k, kd) ∈ tested F -> lf_points F !! k = Some row -> cloud_at (ml_points c) k = Some v ->
  pPrimaryKey o = Some key -> localPoint o = row.1.1 ->
  exists br, branch_of (lf_type F) = Some br /\
    target s o key i n br k kd (new_point row.1.1 row.1.2 row.2 v).
Proof.
  intros Hp Hbr [Hslots Hnd] Hkey Hcfg Hk Hrow Hv Ho Hlp. unfold tested in *.
  destruct (branch_of (lf_type F)) as [br|] eqn:Ebr; [|done]. exists br. split; [done|].
  assert (forall t, t ∈ tests br -> exists r w, lf_points F !! t.1 = Some r /\ cloud_at (ml_points c) t.1 = Some w /\
    points n !! t.1 = Some (Some (new_point r.1.1 r.1.2 r.2 w))) as Hpts.
  { intros t Ht. rewrite Forall_forall in Hslots, Hcfg. destruct (Hslots t Ht) as [Hs [r Hr]].
    destruct (Hcfg t Ht) as [w Hw]. exists r, w. split; [done|]. split; [done|].
    rewrite (placed_points _ _ _ _ _ _ _ _ Hp Hr Hs), Hw. done. }
  pose proof Hp as [(pl & fk & j & En) Hat (id & Hid & Hsearch) Hm].
  split.
  - done.
  - subst key. by exists id.
  - done.
  - subst n. simpl. by apply bool_decide_eq_true_2, not_eq_None_Some.
  - by subst n.
  - apply Forall_forall. intros t Ht. destruct (Hpts t Ht) as (r & w & _ & _ & E). by eexists.
  - apply list_elem_of_split in Hk as (pre & post & E). exists pre, post. split; [done|].
    apply Forall_forall. intros t Ht q Hq. rewrite E in Hpts, Hnd.
    destruct (Hpts t) as (r & w & Hr & _ & Ept); [by apply elem_of_app; left|].
    rewrite Ept in Hq. injection Hq as <-. rewrite Hlp. simpl. intros Eq.
    rewrite map_app, map_cons in Hnd. apply NoDup_app in Hnd as (_ & Hnd & _).
    apply (Hnd (Some row.1.1)).
    + apply list_elem_of_In, in_map_iff. exists t. rewrite Hr. simpl. split; [by rewrite Eq|by apply list_elem_of_In].
    + simpl. rewrite Hrow. by left.
  - destruct (Hpts (k, kd) Hk) as (r & w & Hr & Hw & E). simpl in *. congruence.
  - done.
Qed.

(** The state after the turn of such an object. *)
Lemma placed_turn s F c u i n k kd row v o key :
  placed s F c u i n -> branch_of (lf_type F) <> None -> distinct_tests F ->
  key = key_text g_Mac DEVICE_TYPE_MODBUS (mu_key u) ->
  Forall (fun t => is_Some (cloud_at (ml_points c) t.1)) (tested F) ->
  (k, kd) ∈ tested F -> lf_points F !! k = Some row -> cloud_at (ml_points c) k = Some v ->
  pPrimaryKey o = Some key -> localPoint o = row.1.1 ->
  let p := new_point row.1.1 row.1.2 row.2 v in
  exists s', monitor_turn desc_get o s = Done (true, s') /\
    events s' = events s ++ events_of desc_get (g_bActive s) key (element (base n)) kd (ty_of (errorCode s) kd o p) (point_after o p).2 /\
    nodes s' = <[i := Some (set_points (<[k := Some (point_after o p).1]> (points n)) n)]> (nodes s).
Proof.
  intros Hp Hbr Hd Hkey Hcfg Hk Hrow Hv Ho Hlp.
  destruct (placed_target _ _ _ _ _ _ _ _ _ _ _ _ Hp Hbr Hd Hkey Hcfg Hk Hrow Hv Ho Hlp) as (br & Ebr & Ht).
  eexists. split; [by apply (run_turn desc_get) in Ht|]. done.
Qed.

(** An object with a number none of the points has: it is freed, when the branch does
    so, and nothing else happens. *)
Lemma placed_unknown s F c u i n br o key :
  placed s F c u i n -> branch_of (lf_type F) = Some br ->
  Forall (fun t => t.1 ∈ lf_slots F /\ is_Some (lf_points F !! t.1)) (tested F) ->
  key = key_text g_Mac DEVICE_TYPE_MODBUS (mu_key u) ->
  Forall (fun t => is_Some (cloud_at (ml_points c) t.1)) (tested F) ->
  Forall (fun r => r.1.1 <> localPoint o) (lf_points F) -> pPrimaryKey o = Some key ->
  exists s', monitor_turn desc_get o s = Done (true, s') /\ events s' = events s /\ nodes s' = nodes s.
Proof.
  intros Hp Hbr Hslots Hkey Hcfg Hne Ho. unfold tested in *. rewrite Hbr in *.
  assert (forall ts, ts ⊆ tests br -> find_point i ts (localPoint o) s = Done (None, s)) as Hfind.
  { induction ts as [|[k kd] ts IH]; intros Hts; [done|]. cbn [find_point].
    assert ((k, kd) ∈ tests br) as Hin by (apply Hts; left).
    destruct (proj1 (Forall_forall _ _) Hslots _ Hin) as [Hs [r Hr]]. destruct (proj1 (Forall_forall _ _) Hcfg _ Hin) as [w Hw].
    simpl in Hs, Hr, Hw. pose proof (placed_points _ _ _ _ _ _ _ _ Hp Hr Hs) as Hpt. rewrite Hw in Hpt.
    rewrite (bind_done _ _ _ _ _ (run_point _ _ _ _ _ (pl_at _ _ _ _ _ _ Hp) Hpt)).
    change (localPoint (new_point r.1.1 r.1.2 r.2 w)) with r.1.1.
    assert (r.1.1 <> localPoint o) as Hr' by exact (Forall_lookup_1 _ _ _ _ Hne Hr).
    destruct (localPoint o =? r.1.1) eqn:E; bprop; [congruence|]. apply IH. intros t Ht. apply Hts. by right. }
  destruct Hp as [(pl & fk & j & En) Hat (id & Hid & Hsearch) Hm]. subst key.
  unfold monitor_turn. rewrite Ho. erewrite bind_done by reflexivity. rewrite Hid. erewrite bind_done by reflexivity.
  cbv beta iota. unfold search at 1. erewrite bind_done by reflexivity. rewrite Hsearch.
  rewrite (bind_done _ _ _ _ _ (run_node _ _ _ Hat)). cbv zeta. subst n. simpl (bMaster _).
  rewrite bool_decide_eq_true_2 by by apply not_eq_None_Some. cbn [negb].
  change (primaryType _) with (lf_type F). rewrite Hbr, (bind_done _ _ _ _ _ (Hfind _ (reflexivity _))).
  destruct (frees br); eexists; done.
Qed.

Ltac distinct_table := split; [done|split;
  [repeat (apply Forall_cons; split; [split; [apply (bool_decide_unpack _); by vm_compute|by eexists]|]); by apply Forall_nil
  |apply (bool_decide_unpack _); by vm_compute]].
Lemma tables_distinct F : F ∈ [L_acd; L_vent; L_heat] -> branch_of (lf_type F) <> None /\ distinct_tests F.
Proof.
  intros HF. repeat apply elem_of_cons in HF as [-> | HF]; [| | |by apply elem_of_nil in HF].
  - distinct_table.
  - distinct_table.
  - distinct_table.
Qed.


Lemma bind_case_o {A B} (o : outcome A) (f : A -> outcome B) r : obind o f = Done r -> exists a, o = Done a /\ f a = Done r.
Proof. destruct o as [a|]; [|done]. by exists a. Qed.

(** The numbers of the points the plugin of the air sensor reports. *)
Lemma aqi_points devAddr regAddr node buf len e obs e' :
  AQI.parse devAddr regAddr node buf len e = Done (Some obs, e') ->
  map localPoint (delivered obs) = [HEAT_TEMP; HEAT_SWITCH; HEAT_ENV_TEMP; HEAT_ENV_TEMP].
Proof.
  unfold AQI.parse. destruct buf as [buf|]; [|done]. destruct (len <? _); [done|]. intros E.
  apply bind_inv in E as (pos & e1 & _ & E). destruct pos as [pos|]; [|done].
  apply bind_inv in E as (x & e2 & _ & E). destruct (x =? _); [|done].
  apply bind_inv in E as (ob & e3 & E3 & E). destruct ob as [ob|]; [|done].
  assert (ob = replicate 4 (Some MbusObj0) ++ [None]) as ->.
  { unfold NewMbusObjs in E3. apply bind_inv in E3 as ([] & e4 & _ & E3); [|done].
    apply bind_inv in E3 as ([] & e5 & _ & E3); [|done]. by injection E3 as <- _. }
  apply bind_inv in E as (ob' & e6 & E6 & E). injection E as <- _.
  unfold lift in E6. simpl obind in E6.
  destruct (rd16be buf (pos + 11)) as [te|]; [|done]. destruct (rd16be buf (pos + 13)) as [hu|]; [|done].
  destruct (rd16be buf (pos + 15)) as [pm|]; [|done]. destruct (rd16be buf (pos + 19)) as [co|]; [|done].
  by injection E6 as <- _.
Qed.

(** C33: an air sensor is never heard. The plugin numbers its readings like a floor heating, the configuration numbers
    the points of the sensor with the numbers of the sensor (and gives the device the type of a floor heating): the
    monitor finds no point for any reading, so none is stored, synchronised or reported. *)
Theorem air_sensor_silent devAddr regAddr node buf len e obs e' s c u i n key :
  AQI.parse devAddr regAddr node buf len e = Done (Some obs, e') -> placed s L_aqi c u i n ->
  key = key_text g_Mac DEVICE_TYPE_MODBUS (mu_key u) ->
  Forall (fun t => is_Some (cloud_at (ml_points c) t.1)) (tested L_aqi) ->
  length (delivered obs) = 4%nat /\
  forall o r, r ∈ delivered obs -> localPoint o = localPoint r -> pPrimaryKey o = Some key ->
    exists s', monitor_turn desc_get o s = Done (true, s') /\ events s' = events s /\ nodes s' = nodes s.
Proof.
  intros E Hp Hkey Hcfg. apply aqi_points in E. split; [apply (f_equal length) in E; by rewrite length_map in E|].
  intros o r Hr Hlp Ho. apply (placed_unknown s L_aqi c u i n MbusHeat o key); try done.
  - repeat (apply Forall_cons; split; [split; [apply (bool_decide_unpack _); by vm_compute|by eexists]|]); by apply Forall_nil.
  - assert (localPoint r ∈ [HEAT_TEMP; HEAT_SWITCH; HEAT_ENV_TEMP; HEAT_ENV_TEMP]) as Hin.
    { rewrite <- E. apply list_elem_of_In, in_map. by apply list_elem_of_In. }
    rewrite Hlp. repeat apply elem_of_cons in Hin as [-> | Hin]; [..|by apply elem_of_nil in Hin];
      apply (bool_decide_unpack _); by vm_compute.
Qed.
End ConfigMonitor.

(** ** Witnesses *)

Definition conf_settings : mb_settings := Settings None (Some "pid") (Some 1) (Some 1) (Some 9600) (Some 8) None (Some 1) true true None.
Definition conf_line (l : list (option Z)) : mb_line := Line_ conf_settings l [Unit "7" None None false].
Definition conf_node (F : line_family) (l : list (option Z)) : Node unit :=
  node_of None None (line_dev "aabbccddeeff" F 0 (conf_line l) (Unit "7" None None false)).
Definition conf_state (F : line_family) (l : list (option Z)) : mst unit := MSt [Some (conf_node F l)] true (replicate 16 0) [] 0.
Definition conf_obj (lp v : Z) : MbusObj_t := set_pPrimaryKey (Some "aabbccddeeff27") (reported lp v).

Lemma conf_placed F l :
  placed "aabbccddeeff" (conf_state F l) F (conf_line l) (Unit "7" None None false) 0 (conf_node F l).
Proof. split; [by exists None, None, 0%nat|done|by exists 27|done]. Qed.


Definition aqi_frame : list Z := [1; 0x42; 0; 0; 0; 0; 0; 0; 0; 0; 0; 0; 50; 0; 40; 0; 9; 0; 0; 1; 0x90].
Definition aqi_run : outcome (option Objs * env unit) := AQI.parse 1 0 None (Some aqi_frame) 21 (Env (Heap [] 0) tt).
Definition aqi_obs : Objs := match aqi_run with Done (Some obs, _) => obs | _ => [] end.
Definition aqi_env : env unit := match aqi_run with Done (_, e) => e | _ => Env (Heap [] 0) tt end.

Lemma air_sensor_silent_witness :
  let cl := [Some 1; Some 2; Some 3; Some 4] in
  AQI.parse 1 0 None (Some aqi_frame) 21 (Env (Heap [] 0) tt) = Done (Some aqi_obs, aqi_env) /\
  exists s', monitor_turn (fun _ => true) (conf_obj HEAT_TEMP 25) (conf_state L_aqi cl) = Done (true, s') /\ events s' = [].
Proof.
  intros cl. assert (AQI.parse 1 0 None (Some aqi_frame) 21 (Env (Heap [] 0) tt) = Done (Some aqi_obs, aqi_env)) as E
    by (vm_compute; reflexivity).
  split; [exact E|].
  destruct (air_sensor_silent (fun _ => true) "aabbccddeeff" 1 0 None (Some aqi_frame) 21 (Env (Heap [] 0) tt) aqi_obs aqi_env
    (conf_state L_aqi cl) (conf_line cl) (Unit "7" None None false) 0 (conf_node L_aqi cl) "aabbccddeeff27") as [_ Hs];
    [exact E|apply conf_placed|reflexivity|repeat constructor; by eexists|].
  destruct (Hs (conf_obj HEAT_TEMP 25) (set_value 25 (set_localPoint HEAT_TEMP MbusObj0))) as (s' & Er & Hev & _);
    [vm_compute; left|reflexivity|reflexivity|].
  exists s'. split; [exact Er|exact Hev].
Defined.
