(* ===== verification/ParseKnx.v ===== *)
(** The air conditioners, ventilations and floor heatings of the KNX bus in the
    configuration (ParseKnxAcdCfg, ParseKnxVentCfg and ParseKnxHeatCfg of
    source/parseXML.c).

    A cell is one device; an element of a point gives the group addresses it is
    commanded and heard at and the data point of the cloud. *)

From Stdlib Require Import Ascii.
From stdpp Require Import pretty.
From S2P Require Import Prelude CMem CStr Device KnxPlugins KnxAddr KnxDevs Serial Xml Cells.

Local Open Scope string_scope.
Local Open Scope list_scope.
Local Open Scope Z_scope.

(** ** Devices

    [KnxBase_t] and the pointers of the structure, in its order. *)

Record KnxCfg := KCfg {
  kc_el : CfgElement;
  kc_phyAddr : string;
  kc_phy : Z;
  kc_bFeedback : bool;
  kc_bOnlineCheck : bool
}.
Record KnxCfgDev := KDev { kd_base : KnxCfg; kd_objs : list (option KnxObj_t) }.

Definition set_kc_el v b := KCfg v (kc_phyAddr b) (kc_phy b) (kc_bFeedback b) (kc_bOnlineCheck b).
Definition set_kc_phyAddr v b := KCfg (kc_el b) v (kc_phy b) (kc_bFeedback b) (kc_bOnlineCheck b).
Definition set_kc_phy v b := KCfg (kc_el b) (kc_phyAddr b) v (kc_bFeedback b) (kc_bOnlineCheck b).
Definition set_kc_bFeedback v b := KCfg (kc_el b) (kc_phyAddr b) (kc_phy b) v (kc_bOnlineCheck b).
Definition set_kc_bOnlineCheck v b := KCfg (kc_el b) (kc_phyAddr b) (kc_phy b) (kc_bFeedback b) v.

Definition on_kbase (f : KnxCfg -> KnxCfg) (d : KnxCfgDev) : KnxCfgDev := KDev (f (kd_base d)) (kd_objs d).
Definition put_kobj (k : nat) (o : option KnxObj_t) (d : KnxCfgDev) : KnxCfgDev := KDev (kd_base d) (<[k := o]> (kd_objs d)).

(** A structure that begins with [KnxBase_t]. *)
Class HasKnxBase (D : Type) := { get_kb : D -> KnxCfg; on_kb : (KnxCfg -> KnxCfg) -> D -> D }.
Class HasKnxBaseOk (D : Type) `{HasKnxBase D} : Prop := get_on_kb : forall f d, get_kb (on_kb f d) = f (get_kb d).

#[export] Instance knx_element {D} `{HasKnxBase D} : HasElement D :=
  {| get_el d := kc_el (get_kb d); put_el e := on_kb (set_kc_el e) |}.
#[export] Instance knx_element_ok {D} `{HasKnxBaseOk D} : HasElementOk D.
Proof. intros e d. simpl. by rewrite get_on_kb. Qed.

#[export] Instance climate_base : HasKnxBase KnxCfgDev := {| get_kb := kd_base; on_kb := on_kbase |}.
#[export] Instance climate_base_ok : HasKnxBaseOk KnxCfgDev.
Proof. done. Qed.

Definition EIB_ADDR : nat := 9.

Definition KnxObj0 : KnxObj_t := KnxObj 0 0 0 "" 0.
Definition set_k_cloudPoint v o := KnxObj (k_localPoint o) (k_value o) v (k_addr o) (k_timestamp o).
(** The address, the number and the time of a point. *)
Definition set_group (lp : Z) (t : string) (time : Z) o :=
  KnxObj lp (k_value o) (k_cloudPoint o) (strncpy_over (k_addr o) t EIB_ADDR) time.

(** ** The elements of a device *)

Definition actuator (e : CfgElement) : CfgElement := set_attri DEVICE_ATTRI_ACTUATOR (set_el_bMaster true e).

Section Elements.
Context {D : Type} `{HasKnxBase D} `{LibXml}.
Local Notation hnd := (@handler D (loc D)).

(** [keep]: the number of the address is kept besides. *)
Definition PhyAddr (keep : bool) : hnd := fun x l =>
  c ← XML_GET_CONTENT x;
  match c with
  | None => mret (Next l)
  | Some t =>
      let l := map_dev (on_kb (fun b => set_kc_phyAddr (strncpy_over (kc_phyAddr b) t EIB_ADDR) b)) l in
      mret (Next (if keep then map_dev (on_kb (fun b => set_kc_phy (KnxHwAddr (Some (kc_phyAddr b))) b)) l else l))
  end.

Definition KFeedback : hnd := when_letter "N"%char "n"%char (on_kb (set_kc_bFeedback false)).
Definition KOnlineCheck : hnd := when_letter "N"%char "n"%char (on_kb (set_kc_bOnlineCheck false)).
Definition DeviceAttr : hnd := fun x l =>
  c ← XML_GET_CONTENT x;
  match c with
  | None => mret (Next l)
  | Some t =>
      mret (Next (if is_letter "C"%char "c"%char t then map_el (set_attri DEVICE_ATTRI_CONTROLLER) l
                  else if is_letter "A"%char "a"%char t then map_el (set_attri DEVICE_ATTRI_ACTUATOR) l else l))
  end.
End Elements.

Section Parsers.
Context `{LibXml}.
(** [g_Mac] and what the monotonic clock shows. *)
Variable (g_Mac : string) (now : Z).
Local Notation P := (par (pst KnxCfgDev)).
Local Notation loc := (loc KnxCfgDev).
Local Notation hnd := (@handler KnxCfgDev loc).

(** ** Points

    The parts of an element: a child with a group address for the place [slot], and the
    child with the data point, which is kept in [dp]. *)

Definition acc : Type := loc * Z.
Definition group_addr (slot : nat) (lp : Z) (stamp : bool) : @handler KnxCfgDev acc := fun x a =>
  c ← XML_GET_CONTENT x;
  match c with
  | None => mret (Next a)
  | Some t =>
      if negb (isKnxGroupAddr (Some t) =? 0) then stopped Exited else
      ok ← pcalloc;
      if negb ok then stopped Exited else
      mret (Next (map_dev (put_kobj slot (Some (set_group lp t (if stamp then now else 0) KnxObj0))) a.1, a.2))
  end.
Definition data_point : @handler KnxCfgDev acc := fun x a =>
  c ← XML_GET_CONTENT x;
  match c with None => mret (Next a) | Some t => dp ← number t; mret (Next (a.1, dp)) end.

(** [if (pX) pX->cloudPoint = dp;] *)
Definition put_cloud (dp : Z) (l : loc) (slot : nat) : loc :=
  match kd_objs (l_dev l) !! slot with
  | Some (Some o) => map_dev (put_kobj slot (Some (set_k_cloudPoint dp o))) l
  | _ => l
  end.
(** [if (pX) { free (pX); pX = NULL; }] *)
Fixpoint drop_points (slots : list nat) (l : loc) : P loc :=
  match slots with
  | [] => mret l
  | slot :: slots =>
      match kd_objs (l_dev l) !! slot with
      | Some (Some _) => _ ← pfree; drop_points slots (map_dev (put_kobj slot None) l)
      | _ => drop_points slots l
      end
  end.

Definition KPoint (parts : list (string * (nat * Z * bool))) : hnd := fun x l =>
  '(l, dp) ← while_nodes
    (tags (map (fun p => (p.1, group_addr p.2.1.1 p.2.1.2 p.2.2)) parts ++ [("DataPoint", data_point)])) (x_kids x) (l, 0);
  let slots := map (fun p => p.2.1.1) parts in
  if (0 <? dp) && (dp <? 200) then mret (Next (fold_left (put_cloud dp) slots l))
  else l ← drop_points slots l; mret (Next l).

(** A change of the structure a pointer leads to. *)
Definition upd_kobj (slot : nat) (f : KnxObj_t -> KnxObj_t) (l : loc) : P loc :=
  match kd_objs (l_dev l) !! slot with
  | Some (Some o) => mret (map_dev (put_kobj slot (Some (f o))) l)
  | _ => stopped Crashed
  end.
(** The structure is given back when it has no number or its data point is too large. *)
Definition keep_point (slot : nat) (l : loc) : P (turn loc) :=
  match kd_objs (l_dev l) !! slot with
  | Some (Some o) =>
      if (k_localPoint o =? FEATURE_UNKNOWN) || (200 <? k_cloudPoint o)
      then l ← drop_points [slot] l; mret (Next l) else mret (Next l)
  | _ => stopped Crashed
  end.

(** ** The rounds of the parsers *)

Definition knx_cell (name : string) (ty : Z) (n : nat) (h : hnd) (x : xnode) : P unit :=
  ok ← pcalloc;
  if negb ok then mret tt else
  let e := set_attri DEVICE_ATTRI_CONTROLLER (set_el_bMaster false (set_el_primaryType ty (set_szName (Some name) El0))) in
  l ← while_nodes h (x_kids x) (Loc (KDev (KCfg e "" 0 true true) (replicate n None)) None None None);
  l ← (if el_bMaster (get_el (l_dev l)) then put_foreign g_Mac (foreignType (get_el (l_dev l))) l else mret l);
  listAddNodeTail (l_dev l).

Definition library : hnd := tags [("SharedLibrary", SharedLibrary Skip Retry)].

(** ** Air conditioners: [KnxAcd_t] *)

Definition kacd_base : list (string * hnd) := [
  ("ProductID", ProductID Exit actuator); ("PhyAddr", PhyAddr true);
  ("PrimaryKey", PrimaryKey g_Mac DEVICE_TYPE_KNX id Skip Retry); ("ForeignKey", ForeignKey Retry Retry);
  ("ForeignType", ForeignType Exit None); ("Feedback", KFeedback); ("OnlineCheck", KOnlineCheck);
  ("DeviceAttr", DeviceAttr)].
Definition kacd_switch : hnd := KPoint [("Ctrl", (Acd.pSwitch, ACD_SWITCH, false)); ("Status", (Acd.pSwitchStatus, ACD_SWITCH_STATUS, false))].
Definition kacd_speed : hnd := KPoint [("Ctrl", (Acd.pSpeed, ACD_SPEED, false)); ("Status", (Acd.pSpeedStatus, ACD_SPEED_STATUS, false))].
Definition kacd_mode : hnd := KPoint [("Ctrl", (Acd.pMode, ACD_MODE, false)); ("Status", (Acd.pModeStatus, ACD_MODE_STATUS, false))].
Definition kacd_temp : hnd := KPoint [("Ctrl", (Acd.pTemp, ACD_TEMP, false)); ("Status", (Acd.pTempStatus, ACD_TEMP_STATUS, false))].
Definition kacd_envTemp : hnd := KPoint [("Temp", (Acd.pEnvTemp, ACD_ENV_TEMP, true))].
Definition kacd_fault : hnd := KPoint [("Ctrl", (Acd.pErrorCode, FREATURE_FAULT, false))].
Definition kacd_tags : list (string * hnd) := kacd_base ++ [
  ("Switch", kacd_switch); ("Speed", kacd_speed); ("Mode", kacd_mode); ("Temp", kacd_temp); ("EnvTemp", kacd_envTemp);
  ("Fault", kacd_fault)].
Definition ParseKnxAcdCfg (pDocPath : option string) : P Z :=
  parse_cells pDocPath "/Device/KNX/AirCondition/Cell"
    (knx_cell "Aircondition" KNX_DEVICE_AIRCONDITION 10 (both library (tags kacd_tags))).

(** ** Ventilations: [KnxVent_t] *)

Definition kvent_base : list (string * hnd) := [
  ("ProductID", ProductID Exit actuator); ("PhyAddr", PhyAddr false);
  ("PrimaryKey", PrimaryKey g_Mac DEVICE_TYPE_KNX id Skip Retry); ("ForeignKey", ForeignKey Skip Retry);
  ("ForeignType", ForeignType Exit None); ("Feedback", KFeedback); ("OnlineCheck", KOnlineCheck);
  ("DeviceAttr", DeviceAttr)].
Definition kvent_switch : hnd := KPoint [("Ctrl", (Vent.pSwitch, VENT_SWITCH, false)); ("Status", (Vent.pSwitchStatus, VENT_SWITCH_STATUS, true))].
Definition kvent_speed : hnd := KPoint [("Ctrl", (Vent.pSpeed, VENT_SPEED, false)); ("Status", (Vent.pSpeedStatus, VENT_SPEED_STATUS, true))].

(** The structure is made first; a missing or bad address and a missing or bad data
    point end the process. *)
Definition kvent_envTemp : hnd := fun x l =>
  ok ← pcalloc;
  if negb ok then stopped Exited else
  l ← while_nodes (tags [
        ("Temp", fun c l =>
           t ← XML_GET_CONTENT c;
           match t with
           | None => stopped Exited
           | Some t =>
               if negb (isKnxGroupAddr (Some t) =? 0) then stopped Exited else
               l ← upd_kobj Vent.pEnvTemp (set_group VENT_ENV_TEMP t now) l; mret (Next l)
           end);
        ("DataPoint", fun c l =>
           t ← XML_GET_CONTENT c;
           match t with
           | None => stopped Exited
           | Some t => v ← number t; l ← upd_kobj Vent.pEnvTemp (set_k_cloudPoint v) l; mret (Next l)
           end)]) (x_kids x) (map_dev (put_kobj Vent.pEnvTemp (Some KnxObj0)) l);
  keep_point Vent.pEnvTemp l.

(** A failed allocation leaves the element, a bad address or data point the child; the
    number [strtol] gave is kept. *)
Definition kvent_fault : hnd := fun x l =>
  ok ← pcalloc;
  if negb ok then mret (Next (map_dev (put_kobj Vent.pErrorCode None) l)) else
  l ← while_nodes (tags [
        ("Ctrl", fun c l =>
           t ← XML_GET_CONTENT c;
           match t with
           | None => mret (Next l)
           | Some t =>
               if negb (isKnxGroupAddr (Some t) =? 0) then mret (Next l) else
               l ← upd_kobj Vent.pErrorCode (set_group FREATURE_FAULT t now) l; mret (Next l)
           end);
        ("DataPoint", fun c l =>
           t ← XML_GET_CONTENT c;
           match t with
           | None => mret (Next l)
           | Some t => l ← upd_kobj Vent.pErrorCode (set_k_cloudPoint (atoi t)) l; mret (Next l)
           end)]) (x_kids x) (map_dev (put_kobj Vent.pErrorCode (Some KnxObj0)) l);
  keep_point Vent.pErrorCode l.
Definition kvent_tags : list (string * hnd) := kvent_base ++ [
  ("Switch", kvent_switch); ("Speed", kvent_speed); ("EnvTemp", kvent_envTemp); ("Fault", kvent_fault)].
Definition ParseKnxVentCfg (pDocPath : option string) : P Z :=
  parse_cells pDocPath "/Device/KNX/Ventilation/Cell"
    (knx_cell "Ventilation" KNX_DEVICE_VENTILATION 6 (both library (tags kvent_tags))).

(** ** Floor heatings: [KnxHeat_t] *)

Definition kheat_base : list (string * hnd) := [
  ("ProductID", ProductID Exit actuator); ("PhyAddr", PhyAddr false);
  ("PrimaryKey", PrimaryKey g_Mac DEVICE_TYPE_KNX id Skip Retry); ("ForeignKey", ForeignKey Skip Retry);
  ("ForeignType", ForeignType Crash None); ("Feedback", KFeedback); ("OnlineCheck", KOnlineCheck);
  ("DeviceAttr", DeviceAttr)].
Definition kheat_switch : hnd := KPoint [("Ctrl", (Heat.pSwitch, HEAT_SWITCH, false)); ("Status", (Heat.pSwitchStatus, HEAT_SWITCH_STATUS, true))].
Definition kheat_temp : hnd := KPoint [("Ctrl", (Heat.pTemp, HEAT_TEMP, false)); ("Status", (Heat.pTempStatus, HEAT_TEMP_STATUS, true))].
Definition kheat_valve : hnd := KPoint [("Status", (Heat.pValve, HEAT_VALVE_STATUS, false))].
Definition kheat_envTemp : hnd := KPoint [("Temp", (Heat.pEnvTemp, HEAT_ENV_TEMP, true))].
Definition kheat_fault : hnd := KPoint [("Ctrl", (Heat.pErrorCode, FREATURE_FAULT, true))].
Definition kheat_tags : list (string * hnd) := kheat_base ++ [
  ("Switch", kheat_switch); ("Temp", kheat_temp); ("Valve", kheat_valve); ("EnvTemp", kheat_envTemp); ("Fault", kheat_fault)].
Definition ParseKnxHeatCfg (pDocPath : option string) : P Z :=
  parse_cells pDocPath "/Device/KNX/FloorHeating/Cell"
    (knx_cell "FloorHeating" KNX_DEVICE_FLOORHEATING 7 (both library (tags kheat_tags))).
End Parsers.
