(* ===== verification/KnxConfig.v ===== *)
(** What the parsers of the KNX devices make of a configuration.

    Whatever the document holds, the devices they add are ones the KNX functions can
    work with: [typed], which the safety of the monitor (KnxMonitor.v) asks of a
    device, holds of them as main.c completes them. *)

From stdpp Require Import pretty.
From S2P Require Import Prelude CMem CStr Device Nodes KnxPlugins KnxAddr KnxDevs KnxCtrl KnxReport KnxMonitor Serial Xml Cells CellRules ParseKnx.

Local Open Scope string_scope.
Local Open Scope list_scope.
Local Open Scope Z_scope.

(** ** Well-formed devices *)

Record kfamily := KFamily {
  kf_type : Z;
  kf_points : list Z;
  kf_parse : forall `{LibXml}, string -> Z -> option string -> par (pst KnxCfgDev) Z
}.
Definition K_acd : kfamily := KFamily KNX_DEVICE_AIRCONDITION
  [ACD_SWITCH; ACD_SWITCH_STATUS; ACD_SPEED; ACD_SPEED_STATUS; ACD_MODE; ACD_MODE_STATUS; ACD_TEMP; ACD_TEMP_STATUS;
   ACD_ENV_TEMP; FREATURE_FAULT] (@ParseKnxAcdCfg).
Definition K_vent : kfamily := KFamily KNX_DEVICE_VENTILATION
  [VENT_SWITCH; VENT_SWITCH_STATUS; VENT_SPEED; VENT_SPEED_STATUS; VENT_ENV_TEMP; FREATURE_FAULT] (@ParseKnxVentCfg).
Definition K_heat : kfamily := KFamily KNX_DEVICE_FLOORHEATING
  [HEAT_SWITCH; HEAT_SWITCH_STATUS; HEAT_TEMP; HEAT_TEMP_STATUS; HEAT_ENV_TEMP; HEAT_VALVE_STATUS; FREATURE_FAULT]
  (@ParseKnxHeatCfg).
Definition kfamilies : list kfamily := [K_acd; K_vent; K_heat].

(** A point as the parsers leave it: no value yet, an address that fits its member. *)
Record point_ok (lps : list Z) (o : KnxObj_t) : Prop := {
  po_lp : k_localPoint o ∈ lps;
  po_value : k_value o = 0;
  po_addr : (String.length (k_addr o) <= EIB_ADDR)%nat;
  po_cloud : is_i32 (k_cloudPoint o)
}.
Definition slot_ok (lps : list Z) (o : option KnxObj_t) : Prop := match o with Some o => point_ok lps o | None => True end.

Record kdev_ok (g_Mac : string) (F : kfamily) (d : KnxCfgDev) : Prop := {
  ko_element : element_typed g_Mac DEVICE_TYPE_KNX [kf_type F] (kc_el (kd_base d));
  ko_phyAddr : (String.length (kc_phyAddr (kd_base d)) <= EIB_ADDR)%nat;
  ko_phy : 0 <= kc_phy (kd_base d) < 65536;
  ko_objs : Forall2 (fun lp => slot_ok [lp]) (kf_points F) (kd_objs d)
}.

(** ** Texts *)

Lemma strncpy_over_length dst src n :
  (String.length dst <= n)%nat -> (String.length (strncpy_over dst src n) <= n)%nat.
Proof.
  intros Hd. unfold strncpy_over. rewrite string_length_app. set (k := String.length (take_string n src)).
  pose proof (take_string_length n src) as Hk. fold k in Hk.
  assert (forall s m, String.length (drop_string m s) = (String.length s - m)%nat) as Hdrop.
  { clear. induction s as [|a s IH]; intros [|m]; simpl; try lia. apply IH. }
  rewrite Hdrop. lia.
Qed.

Lemma hw_range t : 0 <= KnxHwAddr t < 65536.
Proof.
  unfold KnxHwAddr. destruct t as [t|]; [|apply u16_range]. destruct (sscanf _ _) as [r v].
  repeat case_match; apply u16_range.
Qed.

(** ** The rounds *)

Section Rounds.
Context `{LibXml} (g_Mac : string) (now : Z) (F : kfamily) (ok : stop -> Prop).
Context (Hexit : ok Exited) (Hcrash : ok Crashed) (Hhung : ok Hung).
Variable l0 : list KnxCfgDev.
Implicit Types s : pst KnxCfgDev.

Definition kinv s : Prop := exists l, p_list s = l0 ++ l /\ Forall (kdev_ok g_Mac F) l.
Definition krinv (l : loc KnxCfgDev) s : Prop := kdev_ok g_Mac F (l_dev l) /\ kinv s.
Local Notation keeps := (keeps ok krinv).

Lemma krinv_heap l s h : krinv l s -> krinv l (with_pheap h s).
Proof. exact id. Qed.
Lemma krinv_base g l s :
  (forall b, (String.length (kc_phyAddr b) <= EIB_ADDR)%nat -> 0 <= kc_phy b < 65536 ->
     (String.length (kc_phyAddr (g b)) <= EIB_ADDR)%nat /\ 0 <= kc_phy (g b) < 65536 /\ kc_el (g b) = kc_el b) ->
  krinv l s -> krinv (map_dev (on_kbase g) l) s.
Proof.
  intros Hg [[He Ha Hp Ho] Hs]. split; [|done]. destruct (Hg (kd_base (l_dev l)) Ha Hp) as (Ha' & Hp' & E).
  split; simpl; try done. by rewrite E.
Qed.
Lemma krinv_el l s g :
  (forall e, element_typed g_Mac DEVICE_TYPE_KNX [kf_type F] e -> element_typed g_Mac DEVICE_TYPE_KNX [kf_type F] (g e)) ->
  krinv l s -> krinv (map_el g l) s.
Proof. intros Hg [[He Ha Hp Ho] Hs]. split; [|done]. split; simpl; try done. by apply Hg. Qed.
Lemma krinv_fkey k l s : krinv l s -> krinv (set_fkey k l) s.
Proof. exact id. Qed.

Lemma krinv_obj slot lp o l s :
  kf_points F !! slot = Some lp -> slot_ok [lp] o -> krinv l s -> krinv (map_dev (put_kobj slot o) l) s.
Proof.
  intros Hlp Ho [[He Ha Hp Hobj] Hs]. split; [|done]. split; simpl; try done.
  rewrite <- (list_insert_id _ _ _ Hlp). by apply Forall2_insert.
Qed.
Lemma krinv_at slot l s o :
  krinv l s -> kd_objs (l_dev l) !! slot = Some o -> exists lp, kf_points F !! slot = Some lp /\ slot_ok [lp] o.
Proof. intros [[_ _ _ Hobj] _] Ho. by apply (Forall2_lookup_r _ _ _ _ _ Hobj) in Ho. Qed.

(** ** Elements *)

Lemma keeps_PhyAddr b : keeps (PhyAddr b).
Proof.
  intros x l s Hl. apply pwp_bind, pwp_content; [done|]. intros [t|]; [|done]. apply pwp_ret.
  apply (krinv_base (fun b => set_kc_phyAddr (strncpy_over (kc_phyAddr b) t EIB_ADDR) b)) in Hl.
  2:{ intros c Ha Hp. split; [by apply strncpy_over_length|]. by split. }
  destruct b; [|exact Hl]. apply (krinv_base (fun b => set_kc_phy (KnxHwAddr (Some (kc_phyAddr b))) b)); [|done].
  intros c Ha Hp. split; [done|]. split; [apply hw_range|done].
Qed.

Lemma keeps_DeviceAttr : keeps DeviceAttr.
Proof.
  intros x l s Hl. apply pwp_bind, pwp_content; [done|]. intros [t|]; [|done]. apply pwp_ret. simpl.
  destruct (is_letter _ _ t); [|destruct (is_letter _ _ t); [|done]]; (apply krinv_el; [|done]); auto with xml.
Qed.

Lemma keeps_KFeedback : keeps KFeedback.
Proof. apply keeps_when_letter; [done..|]. intros l s. by apply krinv_base. Qed.
Lemma keeps_KOnlineCheck : keeps KOnlineCheck.
Proof. apply keeps_when_letter; [done..|]. intros l s. by apply krinv_base. Qed.

(** ** Points *)

Lemma group_ok lp t time o : point_ok [lp] o \/ o = KnxObj0 -> point_ok [lp] (set_group lp t time o).
Proof.
  intros Ho. assert (k_value o = 0 /\ (String.length (k_addr o) <= EIB_ADDR)%nat /\ is_i32 (k_cloudPoint o)) as (Hv & Ha & Hc).
  { destruct Ho as [[]| ->]; [done|]. unfold is_i32. simpl. unfold EIB_ADDR. split_and!; lia. }
  split; [by left|done|by apply strncpy_over_length|done].
Qed.

Definition ainv (a : acc) s : Prop := krinv a.1 s /\ is_i32 a.2.

Lemma keeps_group slot lp stamp : kf_points F !! slot = Some lp ->
  forall x a s, ainv a s -> pwp ok (group_addr now slot lp stamp x a) (turned ainv) s.
Proof.
  intros Hlp x a s [Ha Hd]. apply pwp_bind, pwp_content; [done|]. intros [t|]; [|done].
  destruct (negb _); [done|]. apply pwp_bind, pwp_pcalloc. intros [] h; [|done]. split; [|done].
  eapply krinv_obj; [done| |done]. apply group_ok. by right.
Qed.

Lemma keeps_data_point x a s : ainv a s -> pwp ok (data_point x a) (turned ainv) s.
Proof.
  intros [Ha Hd]. apply pwp_bind, pwp_content; [done|]. intros [t|]; [|done].
  apply pwp_bind, pwp_number; [done|]. done.
Qed.

Lemma put_cloud_keeps dp slot l s : is_i32 dp -> krinv l s -> krinv (put_cloud dp l slot) s.
Proof.
  intros Hd Hl. unfold put_cloud. destruct (kd_objs _ !! slot) as [[o|]|] eqn:E; [|done..].
  destruct (krinv_at _ _ _ _ Hl E) as (lp & Hlp & []). by eapply krinv_obj.
Qed.

Lemma pwp_drop_points slots l s : krinv l s -> pwp ok (drop_points slots l) krinv s.
Proof.
  revert l s. induction slots as [|slot slots IH]; intros l s Hl; [done|]. simpl.
  destruct (kd_objs _ !! slot) as [[o|]|] eqn:E; [|by apply IH..].
  destruct (krinv_at _ _ _ _ Hl E) as (lp & Hlp & _). apply pwp_bind, pwp_pfree. intros h. apply IH.
  by eapply krinv_obj.
Qed.

Lemma keeps_KPoint parts :
  Forall (fun p => kf_points F !! p.2.1.1 = Some p.2.1.2) parts -> keeps (KPoint now parts).
Proof.
  intros Hp x l s Hl. apply pwp_bind. eapply pwp_conseq.
  - apply (pwp_while_nodes ok Hhung ainv); [|split; [exact Hl|unfold is_i32; simpl; lia]].
    intros c a s' Ha. apply pwp_tags; [|done]. apply Forall_app_2.
    + apply Forall_map. eapply Forall_impl; [exact Hp|]. intros p Hpp. simpl. clear c a s' Ha. intros c a s' Ha. by apply keeps_group.
    + constructor; [|constructor]. simpl. apply keeps_data_point.
  - intros [l' dp] s' [Hl' Hd]. simpl in *. destruct (_ && _).
    + apply pwp_ret. simpl. clear Hp Hl. generalize (map (fun p : string * (nat * Z * bool) => p.2.1.1) parts). intros slots.
      revert l' Hl'. induction slots as [|slot slots IH]; intros l' Hl'; [done|]. simpl. apply IH. by apply put_cloud_keeps.
    + apply pwp_bind. eapply pwp_conseq; [by apply pwp_drop_points|]. done.
Qed.

(** A structure that is made before its address is known: everything else is well
    formed. *)
Definition xinv (slot : nat) (lp : Z) (l : loc KnxCfgDev) s : Prop :=
  krinv (map_dev (put_kobj slot None) l) s /\
  exists o, kd_objs (l_dev l) !! slot = Some (Some o) /\ point_ok [lp; FEATURE_UNKNOWN] o.

Lemma put_put slot o o' (l : loc KnxCfgDev) :
  map_dev (put_kobj slot o) (map_dev (put_kobj slot o') l) = map_dev (put_kobj slot o) l.
Proof. unfold map_dev, put_kobj. simpl. by rewrite list_insert_insert_eq. Qed.

Lemma xinv_put slot lp o o' l s :
  kf_points F !! slot = Some lp -> point_ok [lp; FEATURE_UNKNOWN] o ->
  krinv (map_dev (put_kobj slot None) l) s -> o' = Some o -> xinv slot lp (map_dev (put_kobj slot o') l) s.
Proof.
  intros Hlp Ho Hl ->. split; [by rewrite put_put|]. exists o. split; [|done]. simpl. apply list_lookup_insert_eq.
  destruct Hl as [[_ _ _ Hobj] _]. apply Forall2_length in Hobj. simpl in Hobj. rewrite length_insert in Hobj.
  rewrite <- Hobj. by eapply lookup_lt_Some.
Qed.

Lemma xinv_upd slot lp f l s (Q : loc KnxCfgDev -> pst KnxCfgDev -> Prop) :
  kf_points F !! slot = Some lp -> (forall o, point_ok [lp; FEATURE_UNKNOWN] o -> point_ok [lp; FEATURE_UNKNOWN] (f o)) ->
  xinv slot lp l s -> (forall l', xinv slot lp l' s -> Q l' s) -> pwp ok (upd_kobj slot f l) Q s.
Proof.
  intros Hlp Hf [Hl (o & Eo & Ho)] HQ. unfold upd_kobj. rewrite Eo. apply HQ.
  exact (xinv_put slot lp (f o) _ l s Hlp (Hf o Ho) Hl eq_refl).
Qed.

Lemma keep_point_ok slot lp l s :
  kf_points F !! slot = Some lp -> xinv slot lp l s -> pwp ok (keep_point slot l) (turned krinv) s.
Proof.
  intros Hlp [Hl (o & Eo & Ho)]. unfold keep_point. rewrite Eo. destruct ((_ =? _) || _) eqn:E.
  - simpl. rewrite Eo. apply pwp_bind, pwp_bind, pwp_pfree. intros h. exact Hl.
  - apply orb_false_iff in E as [E _]. bprop. apply pwp_ret. simpl.
    replace l with (map_dev (put_kobj slot (Some o)) (map_dev (put_kobj slot None) l)).
    + eapply krinv_obj; [done| |exact Hl]. destruct Ho as [Hin ? ? ?]. split; try done.
      apply elem_of_cons in Hin as [? | Hin%list_elem_of_singleton]; [subst; by left|done].
    + rewrite put_put. unfold map_dev, put_kobj. destruct l as [[b objs] ? ? ?]. simpl in *. by rewrite list_insert_id.
Qed.

Lemma point0_ok lp : point_ok [lp; FEATURE_UNKNOWN] KnxObj0.
Proof. split; simpl; [by right; left|done|unfold EIB_ADDR; lia|unfold is_i32; lia]. Qed.
Lemma group_ok2 lp t time o : point_ok [lp; FEATURE_UNKNOWN] o -> point_ok [lp; FEATURE_UNKNOWN] (set_group lp t time o).
Proof. intros []. split; simpl; [by left|done|by apply strncpy_over_length|done]. Qed.
Lemma cloud_ok2 lp v o : is_i32 v -> point_ok [lp; FEATURE_UNKNOWN] o -> point_ok [lp; FEATURE_UNKNOWN] (set_k_cloudPoint v o).
Proof. intros Hv []. by split. Qed.

Lemma xinv_new slot lp l s h : kf_points F !! slot = Some lp -> krinv l s ->
  xinv slot lp (map_dev (put_kobj slot (Some KnxObj0)) l) (with_pheap h s).
Proof. intros Hlp Hl. eapply xinv_put; [done|apply point0_ok| |done]. by eapply krinv_obj. Qed.

Ltac child Hlp := eapply xinv_upd; [exact Hlp|intros; by auto using group_ok2, cloud_ok2|eassumption|intros; by apply pwp_ret].

Lemma keeps_vent_envTemp : F = K_vent -> keeps (kvent_envTemp now).
Proof.
  intros HF x l s Hl. assert (kf_points F !! Vent.pEnvTemp = Some VENT_ENV_TEMP) as Hlp by (by rewrite HF).
  apply pwp_bind, pwp_pcalloc. intros [] h; [|done]. simpl negb. cbv iota. apply pwp_bind. eapply pwp_conseq.
  - apply (pwp_while_nodes ok Hhung (xinv Vent.pEnvTemp VENT_ENV_TEMP)); [|by apply xinv_new].
    intros c l' s' Hl'. apply pwp_tags; [|done]. repeat (apply Forall_cons_2; [|]); [..|by apply Forall_nil_2];
      clear c l' s' Hl'; intros c l' s' Hl'; simpl; (apply pwp_bind, pwp_content; [done|]); intros [t|]; try done.
    + destruct (negb _); [done|]. apply pwp_bind. child Hlp.
    + apply pwp_bind, pwp_number; [done|]. intros v Hv. apply pwp_bind. child Hlp.
  - intros l' s' Hl'. by apply (keep_point_ok _ VENT_ENV_TEMP).
Qed.

Lemma keeps_vent_fault : F = K_vent -> keeps (kvent_fault now).
Proof.
  intros HF x l s Hl. assert (kf_points F !! Vent.pErrorCode = Some FREATURE_FAULT) as Hlp by (by rewrite HF).
  apply pwp_bind, pwp_pcalloc. intros [] h; simpl negb; cbv iota; [|apply pwp_ret; by eapply krinv_obj].
  apply pwp_bind. eapply pwp_conseq.
  - apply (pwp_while_nodes ok Hhung (xinv Vent.pErrorCode FREATURE_FAULT)); [|by apply xinv_new].
    intros c l' s' Hl'. apply pwp_tags; [|done]. repeat (apply Forall_cons_2; [|]); [..|by apply Forall_nil_2];
      clear c l' s' Hl'; intros c l' s' Hl'; simpl; (apply pwp_bind, pwp_content; [done|]); intros [t|]; try done.
    + destruct (negb _); [done|]. apply pwp_bind. child Hlp.
    + apply pwp_bind. assert (is_i32 (atoi t)) by (unfold atoi; destruct (strtol_errno t) eqn:E; by eapply strtol_range).
      child Hlp.
  - intros l' s' Hl'. by apply (keep_point_ok _ FREATURE_FAULT).
Qed.

(** ** Elements and cells *)

Lemma k_SharedLibrary null fail : keeps (SharedLibrary null fail).
Proof. apply (keeps_SharedLibrary g_Mac ok Hexit Hcrash DEVICE_TYPE_KNX [kf_type F]); auto using krinv_heap, krinv_el. Qed.
Lemma k_ProductID fail : keeps (ProductID fail actuator).
Proof.
  apply (keeps_ProductID g_Mac ok Hexit Hcrash DEVICE_TYPE_KNX [kf_type F]); auto using krinv_heap, krinv_el.
  intros e He. by apply et_attri, et_master.
Qed.
Lemma k_PrimaryKey null fail : keeps (PrimaryKey g_Mac DEVICE_TYPE_KNX id null fail).
Proof. apply (keeps_PrimaryKey g_Mac ok Hexit Hcrash DEVICE_TYPE_KNX [kf_type F]); auto using krinv_heap, krinv_el. Qed.
Lemma k_ForeignKey null fail : keeps (ForeignKey null fail).
Proof. apply (keeps_ForeignKey g_Mac ok Hexit Hcrash DEVICE_TYPE_KNX [kf_type F]); auto using krinv_heap, krinv_el. Qed.
Lemma k_ForeignType null : keeps (ForeignType null None).
Proof. apply (keeps_ForeignType g_Mac ok Hexit Hcrash DEVICE_TYPE_KNX [kf_type F]); auto using krinv_heap, krinv_el. done. Qed.

Lemma keeps_knx_cell name h x s :
  keeps h -> kinv s -> pwp ok (knx_cell g_Mac name (kf_type F) (length (kf_points F)) h x) (fun _ => kinv) s.
Proof.
  intros Hh Hs. apply pwp_bind, pwp_pcalloc. intros [] h0; [|done]. cbn [negb]. apply pwp_bind. eapply pwp_conseq.
  { apply (pwp_while_nodes ok Hhung krinv); [exact Hh|]. split; [|done]. split; simpl.
    - split; try done. by left.
    - unfold EIB_ADDR. lia.
    - lia.
    - apply Forall2_same_length_lookup_2; [by rewrite length_replicate|]. intros i lp o _ [-> _]%lookup_replicate. done. }
  intros l s1 Hl. apply pwp_bind. eapply pwp_conseq.
  { instantiate (1 := krinv). destruct (el_bMaster _); [|done].
    apply (pwp_put_foreign g_Mac ok Hcrash DEVICE_TYPE_KNX [kf_type F] krinv); [|exact Hl]. intros l' s' g. apply krinv_el. }
  intros l' s2 [Hd (L & EL & HL)]. exists (L ++ [l_dev l']). simpl. rewrite EL, <- app_assoc. split; [done|].
  apply Forall_app. split; [done|]. by constructor.
Qed.
End Rounds.

Ltac knx_tag :=
  cbn [snd];
  lazymatch goal with
  | |- keeps _ _ (SharedLibrary _ _) => by apply k_SharedLibrary
  | |- keeps _ _ (ProductID _ _) => by apply k_ProductID
  | |- keeps _ _ (PhyAddr _) => by apply keeps_PhyAddr
  | |- keeps _ _ (PrimaryKey _ _ _ _ _) => by apply k_PrimaryKey
  | |- keeps _ _ (ForeignKey _ _) => by apply k_ForeignKey
  | |- keeps _ _ (ForeignType _ _) => by apply k_ForeignType
  | |- keeps _ _ KFeedback => by apply keeps_KFeedback
  | |- keeps _ _ KOnlineCheck => by apply keeps_KOnlineCheck
  | |- keeps _ _ DeviceAttr => by apply keeps_DeviceAttr
  | |- keeps _ _ (kvent_envTemp _) => by apply keeps_vent_envTemp
  | |- keeps _ _ (kvent_fault _) => by apply keeps_vent_fault
  | |- _ => apply keeps_KPoint; [done..|]; repeat first [apply Forall_nil_2 | apply Forall_cons_2; [reflexivity|]]
  end.
Ltac knx_tags :=
  apply keeps_tags; repeat apply Forall_app_2; repeat first [apply Forall_nil_2 | apply Forall_cons_2]; knx_tag.

Lemma kfamilies_keep `{LibXml} g_Mac now F path l0 s :
  F ∈ kfamilies -> kinv g_Mac F l0 s ->
  pwp (fun _ => True) (kf_parse F g_Mac now path) (fun _ => kinv g_Mac F l0) s.
Proof.
  intros HF Hs. unfold kfamilies in HF.
  repeat apply elem_of_cons in HF as [-> | HF]; [apply pwp_parse_cells; [|exact Hs]..|by apply elem_of_nil in HF].
  all: intros x s' Hs'; lazymatch goal with |- pwp _ _ (fun _ => kinv _ ?F _) _ =>
    apply (keeps_knx_cell g_Mac F) end; try exact Hs'; try done.
  all: apply keeps_both; knx_tags.
Qed.

(** ** The devices as main.c completes them *)

Definition knx_node (pIf : option KnxIf) (fkey : option string) (d : KnxCfgDev) : option KnxDev :=
  let e := kc_el (kd_base d) in
  let b := KBase pIf (Element (default "" (el_pPrimaryKey e)) (el_devId e) (el_primaryType e) (el_bMaster e) fkey)
             (attri e) (kc_bOnlineCheck (kd_base d)) 0 in
  if el_primaryType e =? KNX_DEVICE_AIRCONDITION then Some (KnxAcd_t b (kd_objs d))
  else if el_primaryType e =? KNX_DEVICE_VENTILATION then Some (KnxVent_t b (kd_objs d))
  else if el_primaryType e =? KNX_DEVICE_FLOORHEATING then Some (KnxHeat_t b (kd_objs d))
  else None.

(** ** Properties *)

Lemma slots_typed lps objs : Forall2 (fun lp => slot_ok [lp]) lps objs -> Forall (KnxCtrl.opt_ok KnxCtrl.obj_ok) objs.
Proof.
  intros Ho. induction Ho as [|lp [o|] lps objs Ho _ IH]; constructor; try done.
  destruct Ho as [_ Hv _ _]. simpl. unfold KnxCtrl.obj_ok. rewrite Hv. lia.
Qed.

Lemma knx_node_typed g_Mac F pIf fkey d :
  F ∈ kfamilies -> kdev_ok g_Mac F d -> exists n, knx_node pIf fkey d = Some n /\ typed n.
Proof.
  intros HF [He _ _ Ho]. destruct He as [_ _ _ Ht%list_elem_of_singleton].
  unfold kfamilies in HF. unfold knx_node, typed, KnxLoop.shape_ok, type_of. rewrite Ht.
  repeat apply elem_of_cons in HF as [-> | HF]; [..|by apply elem_of_nil in HF];
    eexists; (split; [reflexivity|]); simpl; (split; [done|]); by eapply slots_typed.
Qed.


(** A floor heating with a bad data point and a good one. *)
Definition kleaf (name t : string) : xnode := XNode true name None [] [XNode false "text" (Some t) [] []].
Definition kelem (name : string) (l : list xnode) : xnode := XNode true name None [] l.
Definition knx_sample : list (string * list (string * list xnode)) := [("cfg.xml", [
  ("/Device/KNX/FloorHeating/Cell", [kelem "Cell" [
     kleaf "SharedLibrary" "heat.so"; kleaf "PrimaryKey" "7"; kleaf "PhyAddr" "1.1.7";
     kelem "Switch" [kleaf "Ctrl" "1/2/3"; kleaf "Status" "1/2/4"; kleaf "DataPoint" "101"];
     kelem "Temp" [kleaf "Ctrl" "1/2/5"; kleaf "DataPoint" "201"]]])])].
Definition knx_sample_st : pst KnxCfgDev := PSt [] (W [] [] [] [] []) (Heap [] 0).

