(* ===== verification/ParsePanels.v ===== *)
(** The panels, dimmers and curtains of the KNX bus in the configuration
    (ParseKnxPanelCfg, ParseKnxSmartPanelCfg, ParseKnxDimmerCfg and ParseKnxCurtainCfg
    of source/parseXML.c).

    A panel or dimmer has a channel for every [channel] element.  The structure grows
    with [realloc], so a member of a new channel that no element sets holds whatever
    the memory held. *)

From Stdlib Require Import Ascii.
From stdpp Require Import pretty.
From S2P Require Import Prelude CMem CStr Device KnxPlugins KnxAddr KnxDevs Serial Xml Cells ParseKnx.

Local Open Scope string_scope.
Local Open Scope list_scope.
Local Open Scope Z_scope.

(** ** Points

    The members of [KnxPoints_t] the parsers set: of the unions [value] and [oldValue]
    the low byte, of [max], [min], [step] and [scaling] the low half, of a group the
    address.  [None]: as [realloc] left it. *)

Record KnxPointsCfg := PointsCfg {
  pc_id : option Z;
  pc_feature : option Z;
  pc_type : option Z;
  pc_mode : option Z;
  pc_value : option Z;
  pc_oldValue : option Z;
  pc_threshold : option Z;
  pc_timestamp : option Z;
  pc_max : option Z;
  pc_min : option Z;
  pc_step : option Z;
  pc_scaling : option Z;
  pc_pCtrl : option (option string);
  pc_pFeedback : option (option string)
}.
Definition wild_point : KnxPointsCfg := PointsCfg None None None None None None None None None None None None None None.
(** As [calloc] leaves it. *)
Definition zero_point : KnxPointsCfg :=
  let z := Some 0 in PointsCfg z z z z z z z z z z z z (Some None) (Some None).

Definition set_pc_id v p := PointsCfg v (pc_feature p) (pc_type p) (pc_mode p) (pc_value p) (pc_oldValue p) (pc_threshold p)
  (pc_timestamp p) (pc_max p) (pc_min p) (pc_step p) (pc_scaling p) (pc_pCtrl p) (pc_pFeedback p).
Definition set_pc_feature v p := PointsCfg (pc_id p) v (pc_type p) (pc_mode p) (pc_value p) (pc_oldValue p) (pc_threshold p)
  (pc_timestamp p) (pc_max p) (pc_min p) (pc_step p) (pc_scaling p) (pc_pCtrl p) (pc_pFeedback p).
Definition set_pc_type v p := PointsCfg (pc_id p) (pc_feature p) v (pc_mode p) (pc_value p) (pc_oldValue p) (pc_threshold p)
  (pc_timestamp p) (pc_max p) (pc_min p) (pc_step p) (pc_scaling p) (pc_pCtrl p) (pc_pFeedback p).
Definition set_pc_mode v p := PointsCfg (pc_id p) (pc_feature p) (pc_type p) v (pc_value p) (pc_oldValue p) (pc_threshold p)
  (pc_timestamp p) (pc_max p) (pc_min p) (pc_step p) (pc_scaling p) (pc_pCtrl p) (pc_pFeedback p).
Definition set_pc_value v p := PointsCfg (pc_id p) (pc_feature p) (pc_type p) (pc_mode p) v (pc_oldValue p) (pc_threshold p)
  (pc_timestamp p) (pc_max p) (pc_min p) (pc_step p) (pc_scaling p) (pc_pCtrl p) (pc_pFeedback p).
Definition set_pc_oldValue v p := PointsCfg (pc_id p) (pc_feature p) (pc_type p) (pc_mode p) (pc_value p) v (pc_threshold p)
  (pc_timestamp p) (pc_max p) (pc_min p) (pc_step p) (pc_scaling p) (pc_pCtrl p) (pc_pFeedback p).
(** The threshold and the time of a point. *)
Definition set_pc_stamp t v p := PointsCfg (pc_id p) (pc_feature p) (pc_type p) (pc_mode p) (pc_value p) (pc_oldValue p) t
  v (pc_max p) (pc_min p) (pc_step p) (pc_scaling p) (pc_pCtrl p) (pc_pFeedback p).
Definition set_pc_max v p := PointsCfg (pc_id p) (pc_feature p) (pc_type p) (pc_mode p) (pc_value p) (pc_oldValue p) (pc_threshold p)
  (pc_timestamp p) v (pc_min p) (pc_step p) (pc_scaling p) (pc_pCtrl p) (pc_pFeedback p).
Definition set_pc_min v p := PointsCfg (pc_id p) (pc_feature p) (pc_type p) (pc_mode p) (pc_value p) (pc_oldValue p) (pc_threshold p)
  (pc_timestamp p) (pc_max p) v (pc_step p) (pc_scaling p) (pc_pCtrl p) (pc_pFeedback p).
Definition set_pc_step v p := PointsCfg (pc_id p) (pc_feature p) (pc_type p) (pc_mode p) (pc_value p) (pc_oldValue p) (pc_threshold p)
  (pc_timestamp p) (pc_max p) (pc_min p) v (pc_scaling p) (pc_pCtrl p) (pc_pFeedback p).
Definition set_pc_scaling v p := PointsCfg (pc_id p) (pc_feature p) (pc_type p) (pc_mode p) (pc_value p) (pc_oldValue p) (pc_threshold p)
  (pc_timestamp p) (pc_max p) (pc_min p) (pc_step p) v (pc_pCtrl p) (pc_pFeedback p).
Definition set_pc_pCtrl v p := PointsCfg (pc_id p) (pc_feature p) (pc_type p) (pc_mode p) (pc_value p) (pc_oldValue p) (pc_threshold p)
  (pc_timestamp p) (pc_max p) (pc_min p) (pc_step p) (pc_scaling p) v (pc_pFeedback p).
Definition set_pc_pFeedback v p := PointsCfg (pc_id p) (pc_feature p) (pc_type p) (pc_mode p) (pc_value p) (pc_oldValue p) (pc_threshold p)
  (pc_timestamp p) (pc_max p) (pc_min p) (pc_step p) (pc_scaling p) (pc_pCtrl p) v.

Definition POINT_TYPE_BOOL : Z := 0.
Definition POINT_TYPE_U8 : Z := 2.
Definition POINT_TYPE_I32 : Z := 5.
Definition POINT_ATTR_READ_WRITE : Z := 0.
Definition POINT_ATTR_READ_ONLY : Z := 1.

(** What is set when a group address has been stored. *)
Definition described (feature type : Z) (p : KnxPointsCfg) : KnxPointsCfg :=
  set_pc_oldValue (Some 0) (set_pc_type (Some type) (set_pc_feature (Some feature) p)).

(** ** Devices with channels

    [KnxPanel_t], [KnxSmartPanel_t] and [KnxDimmer_t]: the array at the end of the
    structure has room for the channels of [kc_room], of which [keySum] are counted. *)

Record KeyedCfg (A : Type) := Keyed { ky_base : KnxCfg; keySum : nat; ky_room : list A }.
Arguments Keyed {A}.
Arguments ky_base {A}.
Arguments keySum {A}.
Arguments ky_room {A}.

#[export] Instance keyed_base {A} : HasKnxBase (KeyedCfg A) :=
  {| get_kb := ky_base; on_kb f d := Keyed (f (ky_base d)) (keySum d) (ky_room d) |}.
#[export] Instance keyed_base_ok {A} : HasKnxBaseOk (KeyedCfg A).
Proof. done. Qed.

Record KnxSmartPanelCfg := SmartCfg { sc_key : KnxPointsCfg; sc_scene : KnxPointsCfg; sc_mode : KnxPointsCfg }.
Definition on_sc_key f c := SmartCfg (f (sc_key c)) (sc_scene c) (sc_mode c).
Definition on_sc_scene f c := SmartCfg (sc_key c) (f (sc_scene c)) (sc_mode c).
Definition on_sc_mode f c := SmartCfg (sc_key c) (sc_scene c) (f (sc_mode c)).
Record KnxDimmerCfg := DimCfg { dc_key : KnxPointsCfg; dc_bright : KnxPointsCfg }.
Definition on_dc_key f c := DimCfg (f (dc_key c)) (dc_bright c).
Definition on_dc_bright f c := DimCfg (dc_key c) (f (dc_bright c)).

(** [KnxCurtain_t]. *)
Record KnxCurtainCfg := CurtainCfg {
  cu_base : KnxCfg;
  cu_pOpen : option KnxPointsCfg;
  cu_pClose : option KnxPointsCfg;
  cu_pStop : option KnxPointsCfg
}.
#[export] Instance curtain_base : HasKnxBase KnxCurtainCfg :=
  {| get_kb := cu_base; on_kb f d := CurtainCfg (f (cu_base d)) (cu_pOpen d) (cu_pClose d) (cu_pStop d) |}.
#[export] Instance curtain_base_ok : HasKnxBaseOk KnxCurtainCfg.
Proof. done. Qed.

(** ** What the parsers share *)

Section Parts.
Context {D : Type} `{LibXml}.
Local Notation P := (par (pst D)).
Local Notation hnd := (@handler D (loc D)).

(** [while (pAttr)]: the attributes of an element; the text is asked for by the name. *)
Fixpoint each_attr {T} (ts : list (string * (string -> T -> P T))) (x : xnode) (l : list (string * string)) (a : T) : P T :=
  match l with
  | [] => mret a
  | (name, _) :: l =>
      a ← (fix first ts := match ts with
           | [] => mret a
           | (t, h) :: ts =>
               if same_name name t then match xmlGetProp x t with Some v => h v a | None => mret a end else first ts
           end) ts;
      each_attr ts x l a
  end.

(** [pointer = calloc (1, sizeof (KnxGroup_t))], then [strncpy]; [fail]: what a failed
    allocation leads to, [done]: what is set after. *)
Definition group_child (fail : fate) (put : option string -> D -> D) (done : D -> D) : hnd := fun x l =>
  c ← XML_GET_CONTENT x;
  match c with
  | None => mret (Next l)
  | Some t =>
      ok ← pcalloc;
      if (ok : bool) then mret (Next (map_dev (fun d => done (put (Some (take_string EIB_ADDR t)) d)) l))
      else end_round fail (map_dev (put None) l)
  end.

(** [strict]: a number that does not fit ends the process. *)
Definition store_number (strict : bool) (set : Z -> D -> D) (t : string) (l : loc D) : P (loc D) :=
  let '(v, err) := strtol_errno t in
  if err && strict then stopped Exited else mret (map_dev (set v) l).
Definition number_child (strict : bool) (set : Z -> D -> D) : hnd := fun x l =>
  c ← XML_GET_CONTENT x;
  match c with None => mret (Next l) | Some t => l ← store_number strict set t l; mret (Next l) end.

(** [while (pChild)]: the handlers of the children of an element. *)
Definition children (ts : list (string * hnd)) : hnd := fun x l =>
  l ← while_nodes (tags ts) (x_kids x) l; mret (Next l).

(** The local variables [pPrimaryKey] and [pForeignKey] of the function: they are not
    reset from one cell to the next. *)
Definition keys : Type := option string * option string.

Definition LocalKey : hnd := fun x l =>
  c ← XML_GET_CONTENT x;
  let l := set_pkey c l in
  match c with Some _ => mret (Next l) | None => mret (Again l) end.

Fixpoint for_cells (f : xnode -> keys -> P keys) (l : list xnode) (k : keys) : P keys :=
  match l with [] => mret k | x :: l => k ← f x k; for_cells f l k end.
Definition parse_keyed (pDocPath : option string) (xpath : string) (f : xnode -> keys -> P keys) : P Z :=
  match pDocPath with
  | None => mret (-1)
  | Some path =>
      match xmlReadFile path with
      | None => mret (-1)
      | Some d =>
          match XmlGetNode d xpath with
          | None => mret (-1)
          | Some l => _ ← for_cells f l (None, None); mret 0
          end
      end
  end.

Definition mode_of (v : string) : Z :=
  if same_name v "rd" then POINT_ATTR_READ_ONLY
  else if same_name v "wr" then POINT_ATTR_WRITE_ONLY else POINT_ATTR_READ_WRITE.
End Parts.

(** ** Channels *)

Section Keyed.
Context {A : Type} `{LibXml}.
Variable g_Mac : string.
Local Notation D := (KeyedCfg A).
Local Notation P := (par (pst D)).
Local Notation hnd := (@handler D (loc D)).

(** [realloc] to one channel more than are counted. *)
Definition grow (wild : A) (d : D) : D :=
  Keyed (ky_base d) (keySum d) (if (length (ky_room d) <=? keySum d)%nat then ky_room d ++ [wild] else ky_room d).
Definition new_channel (wild : A) (l : loc D) : P (loc D) :=
  ok ← pcalloc;
  if (ok : bool) then _ ← pfree; mret (map_dev (grow wild) l) else stopped Exited.
Definition at_key (f : A -> A) (d : D) : D := Keyed (ky_base d) (keySum d) (alter f (keySum d) (ky_room d)).
Definition count_key (d : D) : D := Keyed (ky_base d) (S (keySum d)) (ky_room d).

(** The end of a cell; [false]: the device is left out (and lost). *)
Definition write_pkey (l : loc D) : P (bool * loc D) :=
  match l_pkey l with
  | None => mret (true, l)
  | Some t =>
      ok ← pcalloc;
      if (ok : bool) then
        let k := key_text g_Mac DEVICE_TYPE_KNX t in
        mret (true, map_el (fun e => set_el_devId (key_id k) (set_el_pPrimaryKey (Some k) e)) l)
      else mret (false, map_el (set_el_pPrimaryKey None) l)
  end.
Definition keyed_type (first : Z) (d : D) : Z := first + Z.of_nat (keySum d) - 1.
Definition keyed_cell (name : string) (first : Z) (fail : fate) (h : hnd) (x : xnode) (k : keys) : P keys :=
  ok ← pcalloc;
  if negb ok then match fail with Exit => stopped Exited | _ => mret k end else
  let e := set_attri DEVICE_ATTRI_CONTROLLER (set_el_bMaster false (set_szName (Some name) El0)) in
  l ← while_nodes h (x_kids x) (Loc (Keyed (KCfg e "" 0 false true) 0 []) k.1 k.2 None);
  let l := map_el (set_el_primaryType (keyed_type first (l_dev l))) l in
  '(kept, l) ← write_pkey l;
  if negb kept then mret (l_pkey l, l_fkey l) else
  l ← (if el_bMaster (get_el (l_dev l)) then put_foreign g_Mac (foreignType (get_el (l_dev l))) l else mret l);
  _ ← listAddNodeTail (l_dev l);
  mret (l_pkey l, l_fkey l).

(** The elements all three know. *)
Definition keyed_base_tags (fkey_fail : fate) : list (string * hnd) := [
  ("ProductID", ProductID Exit actuator); ("PhyAddr", PhyAddr false); ("PrimaryKey", LocalKey);
  ("ForeignKey", ForeignKey Retry fkey_fail); ("ForeignType", ForeignType Exit None); ("OnlineCheck", KOnlineCheck)].
End Keyed.

Section Parsers.
Context `{LibXml}.
Variable (g_Mac : string) (now : Z).

(** ** Panels: [KnxPanel_t] *)

Definition panel_parts : list (string * @handler (KeyedCfg KnxPointsCfg) (loc (KeyedCfg KnxPointsCfg))) := [
  ("Switch", group_child Exit (fun a => at_key (set_pc_pCtrl (Some a))) (at_key (described PANEL_SWITCH POINT_TYPE_BOOL)));
  ("Status", group_child Exit (fun a => at_key (set_pc_pFeedback (Some a)))
     (at_key (fun p => set_pc_stamp (Some 500) (Some now) (described PANEL_SWITCH_STATUS POINT_TYPE_BOOL p))));
  ("DataPoint", number_child false (fun v => at_key (set_pc_id (Some (u16 v)))))].
(** A channel without children is not counted. *)
Definition panel_channel : @handler (KeyedCfg KnxPointsCfg) (loc (KeyedCfg KnxPointsCfg)) := fun x l =>
  l ← new_channel wild_point l;
  l ← each_attr [("mode", fun v l => mret (map_dev (at_key (set_pc_mode (Some (mode_of v)))) l))] x (x_attrs x) l;
  match x_kids x with
  | [] => mret (Next l)
  | kids => l ← while_nodes (tags panel_parts) kids l; mret (Next (map_dev count_key l))
  end.
Definition kpanel_tags : list (string * @handler (KeyedCfg KnxPointsCfg) (loc (KeyedCfg KnxPointsCfg))) :=
  keyed_base_tags Exit ++ [("DeviceAttr", DeviceAttr); ("channel", panel_channel)].
Definition ParseKnxPanelCfg (pDocPath : option string) : par (pst (KeyedCfg KnxPointsCfg)) Z :=
  parse_keyed pDocPath "/Device/KNX/Panel/Cell"
    (keyed_cell g_Mac "Panel" KNX_PANEL_ONE_KEY Skip
       (both (tags [("SharedLibrary", SharedLibrary Skip Retry)]) (tags kpanel_tags))).

(** ** Smart panels: [KnxSmartPanel_t] *)

Local Notation SD := (KeyedCfg KnxSmartPanelCfg).
Definition smart_switch : list (string * @handler SD (loc SD)) := [
  ("Ctrl", group_child Crash (fun a => at_key (on_sc_key (set_pc_pCtrl (Some a)))) (at_key (on_sc_key (described PANEL_SWITCH POINT_TYPE_BOOL))));
  ("Status", group_child Crash (fun a => at_key (on_sc_key (set_pc_pFeedback (Some a))))
     (at_key (on_sc_key (fun p => set_pc_stamp (Some 500) (Some now) (described PANEL_SWITCH_STATUS POINT_TYPE_BOOL p)))));
  ("DataPoint", number_child false (fun v => at_key (on_sc_key (set_pc_id (Some (u16 v))))))].
Definition smart_scene : list (string * @handler SD (loc SD)) := [
  ("addr", group_child Crash (fun a => at_key (on_sc_scene (set_pc_pCtrl (Some a))))
     (at_key (on_sc_scene (fun p => set_pc_stamp (Some 500) (Some now) (described FEATURE_SCENE POINT_TYPE_U8 p)))));
  ("value", number_child true (fun v => at_key (on_sc_scene (fun p => set_pc_value (Some (u8 v)) (set_pc_type (Some POINT_TYPE_U8) p)))));
  ("DataPoint", number_child true (fun v => at_key (on_sc_scene (set_pc_id (Some (u16 v))))))].
Definition smart_select : @handler SD (loc SD) := fun x l =>
  c ← XML_GET_CONTENT x;
  match c with
  | None => mret (Next l)
  | Some t =>
      let chosen v := mret (Next (map_dev (at_key (on_sc_mode (fun p =>
        set_pc_value (Some v) (set_pc_type (Some POINT_TYPE_U8) (set_pc_feature (Some FEATURE_MODE) p))))) l)) in
      if same_name t "switch" then chosen 0 else if same_name t "scene" then chosen 1 else stopped Exited
  end.
Definition smart_mode : list (string * @handler SD (loc SD)) := [
  ("select", smart_select); ("DataPoint", number_child true (fun v => at_key (on_sc_mode (set_pc_id (Some (u16 v))))))].
Definition smart_channel : @handler SD (loc SD) := fun x l =>
  l ← new_channel (SmartCfg wild_point wild_point wild_point) l;
  l ← while_nodes (tags [("switch", children smart_switch); ("scene", children smart_scene); ("mode", children smart_mode)]) (x_kids x) l;
  mret (Next (map_dev count_key l)).
Definition smart_tags : list (string * @handler SD (loc SD)) :=
  keyed_base_tags Retry ++ [("DeviceAttr", DeviceAttr); ("channel", smart_channel)].
Definition ParseKnxSmartPanelCfg (pDocPath : option string) : par (pst SD) Z :=
  parse_keyed pDocPath "/Device/KNX/SmartPanel/Cell"
    (keyed_cell g_Mac "Panel" KNX_MISC_PANEL_ONE_KEY Skip (tags smart_tags)).

(** ** Dimmers: [KnxDimmer_t] *)

Local Notation DD := (KeyedCfg KnxDimmerCfg).
Definition dimmer_switch : list (string * @handler DD (loc DD)) := [
  ("Ctrl", group_child Skip (fun a => at_key (on_dc_key (set_pc_pCtrl (Some a)))) (at_key (on_dc_key (described PANEL_SWITCH POINT_TYPE_BOOL))));
  ("Status", group_child Skip (fun a => at_key (on_dc_key (set_pc_pFeedback (Some a)))) (at_key (on_dc_key (described PANEL_SWITCH_STATUS POINT_TYPE_BOOL))));
  ("DataPoint", number_child true (fun v => at_key (on_dc_key (set_pc_id (Some (u16 v))))))].
Definition dimmer_bright : list (string * @handler DD (loc DD)) := [
  ("Ctrl", group_child Skip (fun a => at_key (on_dc_bright (set_pc_pCtrl (Some a)))) (at_key (on_dc_bright (described DIMMING_BRIGHTNESS POINT_TYPE_U8))));
  ("Status", group_child Skip (fun a => at_key (on_dc_bright (set_pc_pFeedback (Some a)))) (at_key (on_dc_bright (described DIMMING_BRIGHTNESS_STATUS POINT_TYPE_U8))));
  ("DataPoint", number_child true (fun v => at_key (on_dc_bright (set_pc_id (Some (u16 v))))))].
(** The smallest value alone may be a number that does not fit. *)
Definition dimmer_range : list (string * (string -> loc DD -> par (pst DD) (loc DD))) := [
  ("max", store_number true (fun v => at_key (on_dc_bright (set_pc_max (Some (u16 v))))));
  ("min", store_number false (fun v => at_key (on_dc_bright (set_pc_min (Some (u16 v))))));
  ("step", store_number true (fun v => at_key (on_dc_bright (set_pc_step (Some (u16 v))))));
  ("scaling", store_number true (fun v => at_key (on_dc_bright (set_pc_scaling (Some (u16 v))))))].
Definition dimmer_brightness : @handler DD (loc DD) := fun x l =>
  l ← each_attr dimmer_range x (x_attrs x) l; children dimmer_bright x l.
Definition dimmer_mode (v : string) (l : loc DD) : par (pst DD) (loc DD) :=
  mret (map_dev (at_key (fun c => on_dc_bright (set_pc_mode (Some (mode_of v))) (on_dc_key (set_pc_mode (Some (mode_of v))) c))) l).
Definition dimmer_channel : @handler DD (loc DD) := fun x l =>
  l ← new_channel (DimCfg wild_point wild_point) l;
  l ← each_attr [("mode", dimmer_mode)] x (x_attrs x) l;
  l ← while_nodes (tags [("Switch", children dimmer_switch); ("Brightness", dimmer_brightness)]) (x_kids x) l;
  mret (Next (map_dev count_key l)).
Definition dimmer_tags : list (string * @handler DD (loc DD)) :=
  ("SharedLibrary", SharedLibrary Skip Retry) :: keyed_base_tags Retry ++ [("channel", dimmer_channel)].
Definition ParseKnxDimmerCfg (pDocPath : option string) : par (pst DD) Z :=
  parse_keyed pDocPath "/Device/KNX/Dimmer/Cell"
    (keyed_cell g_Mac "Dimmer" KNX_DIMMER_ONE_KEY Exit (tags dimmer_tags)).

(** ** Curtains: [KnxCurtain_t] *)

Local Notation CP := (par (pst KnxCurtainCfg)).
Local Notation cloc := (loc KnxCurtainCfg).

(** The key is written into its block at once, as that of a device of the bus. *)
Definition CurtainForeignKey : @handler KnxCurtainCfg cloc := fun x l =>
  c ← XML_GET_CONTENT x;
  match c with
  | None => mret (Again l)
  | Some t =>
      ok ← pcalloc;
      if (ok : bool) then mret (Next (map_el (set_pForeignKey (Some (key_text g_Mac DEVICE_TYPE_KNX t))) l))
      else mret (Again (map_el (set_pForeignKey None) l))
  end.

(** A point and the block of its group. *)
Definition curtain_point (put : option KnxPointsCfg -> KnxCurtainCfg -> KnxCurtainCfg) (feature : Z) :
    @handler KnxCurtainCfg (cloc * Z) := fun x a =>
  c ← XML_GET_CONTENT x;
  match c with
  | None => stopped Exited
  | Some t =>
      ok ← pcalloc;
      if negb ok then stopped Exited else
      ok ← pcalloc;
      if negb ok then stopped Exited else
      mret (Next (map_dev (put (Some (described feature POINT_TYPE_I32 (set_pc_pCtrl (Some (Some (take_string EIB_ADDR t))) zero_point)))) a.1, a.2))
  end.
Definition curtain_id : @handler KnxCurtainCfg (cloc * Z) := fun x a =>
  c ← XML_GET_CONTENT x;
  match c with None => stopped Exited | Some t => v ← number t; mret (Next (a.1, u16 v)) end.

Definition put_open p d := CurtainCfg (cu_base d) p (cu_pClose d) (cu_pStop d).
Definition put_close p d := CurtainCfg (cu_base d) (cu_pOpen d) p (cu_pStop d).
Definition put_stop p d := CurtainCfg (cu_base d) (cu_pOpen d) (cu_pClose d) p.

Definition curtain_control : @handler KnxCurtainCfg cloc := fun x l =>
  match x_kids x with
  | [] => stopped Exited
  | kids =>
      '(l, dp) ← while_nodes (tags [("open", curtain_point put_open CURTAIN_OPEN); ("close", curtain_point put_close CURTAIN_CLOSE);
                                   ("DataPoint", curtain_id)]) kids (l, 0);
      mret (Next (map_dev (fun d => put_close (set_pc_id (Some dp) <$> cu_pClose d) (put_open (set_pc_id (Some dp) <$> cu_pOpen d) d)) l))
  end.
Definition curtain_pause : @handler KnxCurtainCfg cloc := fun x l =>
  match x_kids x with
  | [] => stopped Exited
  | kids =>
      '(l, dp) ← while_nodes (tags [("pause", curtain_point put_stop CURTAIN_STOP); ("DataPoint", curtain_id)]) kids (l, 0);
      mret (Next (map_dev (fun d => put_stop (set_pc_id (Some dp) <$> cu_pStop d) d) l))
  end.
Definition curtain_nothing : @handler KnxCurtainCfg cloc := fun _ l => mret (Next l).
Definition kcurtain_tags : list (string * @handler KnxCurtainCfg cloc) := [
  ("ProductID", ProductID Exit actuator); ("PrimaryKey", PrimaryKey g_Mac DEVICE_TYPE_KNX id Retry Retry);
  ("ForeignKey", CurtainForeignKey); ("ForeignType", ForeignType Exit None); ("OnlineCheck", KOnlineCheck);
  ("control", curtain_control); ("pause", curtain_pause);
  ("Fault", curtain_nothing); ("reversal", curtain_nothing); ("position", curtain_nothing)].
Definition curtain_cell (x : xnode) : CP unit :=
  ok ← pcalloc;
  if negb ok then mret tt else
  let e := set_attri DEVICE_ATTRI_CONTROLLER (set_el_bMaster false (set_szName (Some "Curtain") (set_el_primaryType KNX_DEVICE_CURTAIN El0))) in
  l ← while_nodes (tags kcurtain_tags) (x_kids x) (Loc (CurtainCfg (KCfg e "" 0 false true) None None None) None None None);
  listAddNodeTail (l_dev l).
Definition ParseKnxCurtainCfg (pDocPath : option string) : CP Z :=
  parse_cells pDocPath "/Device/KNX/Curtain/Cell" curtain_cell.
End Parsers.
