(* ===== verification/PanelPrint.v ===== *)
(** What the parsers of the panels and dimmers of the KNX bus read.

    [keyed_doc] is a panel or dimmer as a cell of the document writes it; [read_cells]
    gives the devices the parser makes of the cells, or that the process crashes.  The
    keys that one cell leaves in the local variables reach the next. *)

From Stdlib Require Import Ascii.
From stdpp Require Import pretty.
From S2P Require Import Prelude CMem CStr Device KnxDevs Serial Xml Cells CellRules ParseKnx ParsePanels XmlPrint.

Local Open Scope string_scope.
Local Open Scope list_scope.
Local Open Scope Z_scope.

(** ** Cells with channels *)

Record keyed_doc (C : Type) := KeyedDoc {
  kd_plugin : option string;
  kd_product : option string;
  kd_phyAddr : option string;
  kd_key : option string;
  kd_foreign : option (Z * string);
  kd_online : bool;
  kd_channels : list C
}.
Arguments KeyedDoc {C}.
Arguments kd_plugin {C}.
Arguments kd_product {C}.
Arguments kd_phyAddr {C}.
Arguments kd_key {C}.
Arguments kd_foreign {C}.
Arguments kd_online {C}.
Arguments kd_channels {C}.

Definition foreign_word (ty : Z) : string :=
  if ty =? DEVICE_TYPE_ZIGBEE then "ZIGBEE" else if ty =? DEVICE_TYPE_MODBUS then "MODBUS"
  else if ty =? DEVICE_TYPE_KNX then "KNX" else "RF433".

Section Keyed.
Context {A C : Type} (chan_doc : C -> xnode) (chan_of : C -> A) (chan_valid : C -> Prop).
Context (g_Mac name : string) (first : Z) (lib : bool).

Definition cell_doc (c : keyed_doc C) : xnode :=
  elem "Cell" [] (opt_leaf id "SharedLibrary" (kd_plugin c) ++ opt_leaf id "ProductID" (kd_product c) ++
    opt_leaf id "PhyAddr" (kd_phyAddr c) ++ opt_leaf id "PrimaryKey" (kd_key c) ++
    opt_leaf snd "ForeignKey" (kd_foreign c) ++ opt_leaf (fun f => foreign_word f.1) "ForeignType" (kd_foreign c) ++
    [leaf "OnlineCheck" (yes_no (kd_online c))] ++ map chan_doc (kd_channels c)).

Definition or_else {T} (a b : option T) : option T := match a with Some _ => a | None => b end.
(** The keys after a cell. *)
Definition keys_after (k : keys) (c : keyed_doc C) : keys := (or_else (kd_key c) k.1, or_else (snd <$> kd_foreign c) k.2).

Definition master (c : keyed_doc C) : bool := bool_decide (is_Some (kd_product c)).
Definition keyed_dev (k : keys) (c : keyed_doc C) : KeyedCfg A :=
  let key := key_text g_Mac DEVICE_TYPE_KNX <$> (keys_after k c).1 in
  Keyed (KCfg
    (El (Some name) (if lib then kd_plugin c else None) key (match key with Some t => key_id t | None => 0 end) None None (kd_product c)
       (match kd_foreign c with Some f => Some (if master c then key_text g_Mac f.1 f.2 else "") | None => None end)
       (first + Z.of_nat (length (kd_channels c)) - 1)
       (match kd_foreign c with Some f => f.1 | None => DEVICE_TYPE_UNKNOWN end) (master c)
       (if master c then DEVICE_ATTRI_ACTUATOR else DEVICE_ATTRI_CONTROLLER))
    (match kd_phyAddr c with Some t => take_string EIB_ADDR t | None => "" end) 0 false (kd_online c))
  (length (kd_channels c)) (map chan_of (kd_channels c)).
(** A master that inherits a foreign key and has none of its own: the key is printed
    into a null pointer. *)
Definition fatal (k : keys) (c : keyed_doc C) : bool :=
  master c && bool_decide (is_Some k.2) && negb (bool_decide (is_Some (kd_foreign c))).

(** The devices of the cells, and whether the parser gets through. *)
Fixpoint read_cells (k : keys) (l : list (keyed_doc C)) : option (list (KeyedCfg A)) :=
  match l with
  | [] => Some []
  | c :: l => if fatal k c then None else cons (keyed_dev k c) <$> read_cells (keys_after k c) l
  end.

Record keyed_valid (c : keyed_doc C) : Prop := {
  kv_foreign : match kd_foreign c with Some f => DEVICE_TYPE_ZIGBEE <= f.1 <= DEVICE_TYPE_RF433 | None => True end;
  kv_channels : Forall chan_valid (kd_channels c)
}.

(** ** What a parser does with the elements *)

Context `{LibXmlOk}.
Local Notation D := (KeyedCfg A).
Local Notation hnd := (@handler D (loc D)).
Implicit Types (l : loc D) (L : list D) (w : world).

Record keyed_reader (h : hnd) (channel : hnd) : Prop := {
  kr_text : acts h "text" (fun _ l => mret (Next l));
  kr_plugin : acts h "SharedLibrary" (if lib then SharedLibrary Skip Retry else fun _ l => mret (Next l));
  kr_product : acts h "ProductID" (ProductID Exit actuator);
  kr_phyAddr : acts h "PhyAddr" (PhyAddr false);
  kr_key : acts h "PrimaryKey" LocalKey;
  kr_foreign : exists a b, acts h "ForeignKey" (ForeignKey a b);
  kr_foreignType : exists a, acts h "ForeignType" (ForeignType a None);
  kr_online : acts h "OnlineCheck" KOnlineCheck;
  kr_channel : acts h "channel" channel;
  kr_chan_name : forall c, x_name (chan_doc c) = "channel";
  kr_chan : forall c l L w n, chan_valid c -> length (ky_room (l_dev l)) = keySum (l_dev l) ->
    exists n', channel (chan_doc c) l (PSt L w (Heap [] n)) =
      Got (Next (map_dev (fun d => Keyed (ky_base d) (S (keySum d)) (ky_room d ++ [chan_of c])) l)) (PSt L w (Heap [] n'))
}.

(** The device and the local variables after the elements. *)
Definition with_channels (cs : list C) (d : D) : D :=
  Keyed (ky_base d) (keySum d + length cs) (ky_room d ++ map chan_of cs).
Definition after_cell (c : keyed_doc C) l : loc D :=
  map_dev (with_channels (kd_channels c))
  (map_dev (on_kb (fun b => if kd_online c then b else set_kc_bOnlineCheck false b))
  (with_opt (kd_foreign c) (fun f => map_el (set_foreignType f.1))
  (with_opt (kd_foreign c) (fun f l => map_el (set_pForeignKey (Some "")) (set_fkey (Some f.2) l))
  (with_opt (kd_key c) (fun t => set_pkey (Some t))
  (with_opt (kd_phyAddr c) (fun t => map_dev (on_kb (fun b => set_kc_phyAddr (strncpy_over (kc_phyAddr b) t EIB_ADDR) b)))
  (with_opt (kd_product c) (fun t => map_el (fun e => actuator (set_pProductId (Some t) e)))
  (with_opt (kd_plugin c) (fun t => if lib then map_el (set_szPlugin (Some t)) else id) l))))))).

Lemma foreign_of_word ty : DEVICE_TYPE_ZIGBEE <= ty <= DEVICE_TYPE_RF433 -> foreign_of (foreign_word ty) = Some ty.
Proof.
  unfold DEVICE_TYPE_ZIGBEE, DEVICE_TYPE_RF433. intros Hty. assert (ty = 1 \/ ty = 2 \/ ty = 3 \/ ty = 4) as E by lia.
  by destruct_or! E; subst.
Qed.

Definition add_channel (c : C) (d : D) : D := Keyed (ky_base d) (S (keySum d)) (ky_room d ++ [chan_of c]).
Lemma with_channels_cons c cs (d : D) : with_channels (c :: cs) d = with_channels cs (add_channel c d).
Proof. unfold with_channels, add_channel. simpl. by rewrite Nat.add_succ_r, <- app_assoc. Qed.

Lemma r_channels h channel cs l L w :
  keyed_reader h channel -> Forall chan_valid cs -> length (ky_room (l_dev l)) = keySum (l_dev l) ->
  steps h (map chan_doc cs) (l, L, w) (map_dev (with_channels cs) l, L, w).
Proof.
  intros Hh Hcs. revert l. induction Hcs as [|c cs Hc _ IH]; intros l Hl; simpl map.
  - replace (map_dev _ l) with l; [apply steps_nil|]. destruct l as [[b n r] ? ? ?]. unfold map_dev, with_channels. simpl.
    by rewrite app_nil_r, Nat.add_0_r.
  - eapply (steps_cons _ _ _ _ (map_dev (add_channel c) l, L, w)).
    + eapply steps_acts; [rewrite (kr_chan_name _ _ Hh); apply Hh|]. intros n. by apply (kr_chan _ _ Hh).
    + replace (map_dev (with_channels (c :: cs)) l) with (map_dev (with_channels cs) (map_dev (add_channel c) l)).
      2:{ unfold map_dev. simpl. by rewrite with_channels_cons. }
      apply IH. simpl. rewrite length_app. simpl. lia.
Qed.

Lemma r_cell h channel c l L w :
  keyed_reader h channel -> keyed_valid c -> length (ky_room (l_dev l)) = keySum (l_dev l) ->
  steps h (opt_leaf id "SharedLibrary" (kd_plugin c) ++ opt_leaf id "ProductID" (kd_product c) ++
    opt_leaf id "PhyAddr" (kd_phyAddr c) ++ opt_leaf id "PrimaryKey" (kd_key c) ++
    opt_leaf snd "ForeignKey" (kd_foreign c) ++ opt_leaf (fun f => foreign_word f.1) "ForeignType" (kd_foreign c) ++
    [leaf "OnlineCheck" (yes_no (kd_online c))] ++ map chan_doc (kd_channels c)) (l, L, w) (after_cell c l, L, w).
Proof.
  intros Hh [Hf Hc] Hl. destruct (kr_foreign _ _ Hh) as (fa & fb & Hfk). destruct (kr_foreignType _ _ Hh) as (fc & Hft).
  eapply steps_app; [eapply steps_with with (f := (fun t => if lib then map_el (set_szPlugin (Some t)) else id)); [apply Hh|]|].
  { intros t n _. destruct lib; [by exists (n + 1)|by exists n]. }
  eapply steps_app; [eapply steps_with with (f := (fun t => map_el (fun e => actuator (set_pProductId (Some t) e)))); [apply Hh|]|].
  { intros t n _. by exists (n + 1). }
  eapply steps_app; [eapply steps_with with (f := (fun t => map_dev (on_kb (fun b => set_kc_phyAddr (strncpy_over (kc_phyAddr b) t EIB_ADDR) b)))); [apply Hh|]|].
  { intros t n _. by exists n. }
  eapply steps_app; [eapply steps_with with (f := (fun t => set_pkey (Some t))); [apply Hh|]|].
  { intros t n _. by exists n. }
  eapply steps_app; [eapply steps_with with (f := (fun f l => map_el (set_pForeignKey (Some "")) (set_fkey (Some f.2) l))); [exact Hfk|]|].
  { intros t n _. by exists (n + 1). }
  eapply steps_app; [eapply steps_with with (f := (fun f => map_el (set_foreignType f.1))); [exact Hft|]|].
  { intros f n Ef. exists n. unfold ForeignType. rewrite Ef in Hf. simpl in Hf.
    change (XML_GET_CONTENT (leaf "ForeignType" (foreign_word f.1))) with (@mret (par (pst D)) _ _ (Some (foreign_word f.1))).
    unfold mret, par_ret, mbind, par_bind. by rewrite foreign_of_word. }
  eapply steps_app; [eapply steps_acts; [apply Hh|]|].
  { intros n. exists n. instantiate (1 := (_, L, w)). simpl.
    match goal with |- KOnlineCheck _ ?l0 _ = _ =>
      instantiate (1 := map_dev (on_kb (fun b => if kd_online c then b else set_kc_bOnlineCheck false b)) l0) end.
    destruct (kd_online c); [|done]. simpl. unfold KOnlineCheck, when_letter. do 3 f_equal.
    unfold map_dev, on_kb. simpl. by destruct (with_opt _ _ _) as [[] ? ? ?]. }
  apply r_channels with channel; [done|done|]. simpl.
  destruct (kd_foreign c), (kd_key c), (kd_phyAddr c), (kd_product c), (kd_plugin c), lib; exact Hl.
Qed.
(** ** Whole cells *)

(** The device of a cell before its end. *)
Definition start_dev : D :=
  Keyed (KCfg (set_attri DEVICE_ATTRI_CONTROLLER (set_el_bMaster false (set_szName (Some name) El0))) "" 0 false true) 0 [].
(** The end of a cell. *)
Definition end_cell (l : loc D) : par (pst D) keys :=
  let l := map_el (set_el_primaryType (keyed_type first (l_dev l))) l in
  '(kept, l) ← write_pkey g_Mac l;
  if negb kept then mret (l_pkey l, l_fkey l) else
  l ← (if el_bMaster (get_el (l_dev l)) then put_foreign g_Mac (foreignType (get_el (l_dev l))) l else mret l);
  _ ← listAddNodeTail (l_dev l);
  mret (l_pkey l, l_fkey l).

Lemma strncpy_over_nil t n : strncpy_over "" t n = take_string n t.
Proof.
  unfold strncpy_over. assert (forall m, drop_string m "" = "") as -> by (by intros []).
  apply string_app_nil.
Qed.

Definition read_dev (c : keyed_doc C) : KeyedCfg A :=
  Keyed (KCfg
    (El (Some name) (if lib then kd_plugin c else None) None 0 None None (kd_product c)
       (match kd_foreign c with Some _ => Some "" | None => None end) 0
       (match kd_foreign c with Some f => f.1 | None => DEVICE_TYPE_UNKNOWN end) (master c)
       (if master c then DEVICE_ATTRI_ACTUATOR else DEVICE_ATTRI_CONTROLLER))
    (match kd_phyAddr c with Some t => take_string EIB_ADDR t | None => "" end) 0 false (kd_online c))
  (length (kd_channels c)) (map chan_of (kd_channels c)).

Lemma after_cell_dev c k :
  after_cell c (Loc start_dev k.1 k.2 None) = Loc (read_dev c) (keys_after k c).1 (keys_after k c).2 None.
Proof.
  unfold read_dev, after_cell, keys_after, master. generalize (fun t => strncpy_over_nil t EIB_ADDR).
  generalize strncpy_over (take_string EIB_ADDR). intros over take Hover.
  destruct c as [plugin product phy key foreign online chs], k as [pk fk].
  destruct plugin, product, key, foreign, online, lib; destruct phy; unfold map_el, map_dev, set_pkey, set_fkey, start_dev; cbn; rewrite ?Hover; reflexivity.
Qed.

Lemma r_end_cell c k L w n :
  if fatal k c then end_cell (after_cell c (Loc start_dev k.1 k.2 None)) (PSt L w (Heap [] n)) = Stopped Crashed
  else exists n', end_cell (after_cell c (Loc start_dev k.1 k.2 None)) (PSt L w (Heap [] n)) =
    Got (keys_after k c) (PSt (L ++ [keyed_dev k c]) w (Heap [] n')).
Proof.
  rewrite after_cell_dev. unfold fatal, keyed_dev, read_dev, master, end_cell.
  destruct c as [plugin product phy key foreign online chs], k as [pk fk]. unfold keys_after. cbn [kd_foreign kd_product kd_key fst snd].
  generalize (or_else key pk). intros pk'.
  destruct product, foreign as [[ty t]|], fk; destruct pk'; first [reflexivity | eexists; reflexivity].
Qed.

Lemma r_keyed_cell h channel fail c k L w n :
  keyed_reader h channel -> keyed_valid c ->
  if fatal k c then keyed_cell g_Mac name first fail h (cell_doc c) k (PSt L w (Heap [] n)) = Stopped Crashed
  else exists n', keyed_cell g_Mac name first fail h (cell_doc c) k (PSt L w (Heap [] n)) =
    Got (keys_after k c) (PSt (L ++ [keyed_dev k c]) w (Heap [] n')).
Proof.
  intros Hh Hc. assert (exists n1, keyed_cell g_Mac name first fail h (cell_doc c) k (PSt L w (Heap [] n)) =
    end_cell (after_cell c (Loc start_dev k.1 k.2 None)) (PSt L w (Heap [] n1))) as [n1 ->].
  2:{ pose proof (r_end_cell c k L w n1) as He. by destruct (fatal k c). }
  destruct (steps_end _ _ _ _ (n + 1) (r_cell h channel c (Loc start_dev k.1 k.2 None) L w Hh Hc eq_refl)) as [n1 E].
  exists n1. change (keyed_cell g_Mac name first fail h (cell_doc c) k (PSt L w (Heap [] n))) with
    ((l ← while_nodes h (x_kids (cell_doc c)) (Loc start_dev k.1 k.2 None); end_cell l) (PSt L w (Heap [] (n + 1)))).
  erewrite bind_got; [reflexivity|]. unfold cell_doc, elem. simpl x_kids. rewrite while_indent; [exact E|].
  intros a s. by apply (kr_text _ _ Hh).
Qed.

Lemma r_for_cells h channel fail cs k L w n :
  keyed_reader h channel -> Forall keyed_valid cs ->
  match read_cells k cs with
  | None => for_cells (keyed_cell g_Mac name first fail h) (map cell_doc cs) k (PSt L w (Heap [] n)) = Stopped Crashed
  | Some ds => exists k' n', for_cells (keyed_cell g_Mac name first fail h) (map cell_doc cs) k (PSt L w (Heap [] n)) =
      Got k' (PSt (L ++ ds) w (Heap [] n'))
  end.
Proof.
  intros Hh Hcs. revert k L n. induction Hcs as [|c cs Hc _ IH]; intros k L n; simpl.
  { exists k, n. by rewrite app_nil_r. }
  pose proof (r_keyed_cell h channel fail c k L w n Hh Hc) as Hcell. destruct (fatal k c).
  { unfold mbind, par_bind. by rewrite Hcell. }
  destruct Hcell as [n1 E]. specialize (IH (keys_after k c) (L ++ [keyed_dev k c]) n1).
  destruct (read_cells (keys_after k c) cs) as [ds|]; simpl.
  - destruct IH as (k' & n' & E'). exists k', n'. rewrite (bind_got _ _ _ _ _ E), E', <- app_assoc. done.
  - by rewrite (bind_got _ _ _ _ _ E).
Qed.
End Keyed.

(** A parser that reads the cells of the document. *)
Definition cells_read {A C} `{LibXml} (parse : option string -> par (pst (KeyedCfg A)) Z) (xpath : string) (chan_doc : C -> xnode)
    (chan_of : C -> A) (chan_valid : C -> Prop) (g_Mac name : string) (first : Z) (lib : bool) : Prop :=
  forall path d cs L w n,
    xmlReadFile path = Some d -> xmlXPathEval d xpath = map (cell_doc chan_doc) cs -> cs <> [] ->
    Forall (keyed_valid chan_valid) cs ->
    match read_cells chan_of g_Mac name first lib (None, None) cs with
    | None => parse (Some path) (PSt L w (Heap [] n)) = Stopped Crashed
    | Some ds => exists n', parse (Some path) (PSt L w (Heap [] n)) = Got 0 (PSt (L ++ ds) w (Heap [] n'))
    end.

Lemma keyed_cells_read {A C} `{LibXmlOk} xpath chan_doc (chan_of : C -> A) chan_valid g_Mac name first lib fail h channel :
  keyed_reader chan_doc chan_of chan_valid lib h channel ->
  cells_read (fun p => parse_keyed p xpath (keyed_cell g_Mac name first fail h)) xpath chan_doc chan_of chan_valid g_Mac name first lib.
Proof.
  intros Hh path d cs L w n Hd Hx Hne Hcs.
  pose proof (r_for_cells chan_doc chan_of chan_valid g_Mac name first lib h channel fail cs (None, None) L w n Hh Hcs) as Hr.
  unfold parse_keyed, XmlGetNode. rewrite Hd, Hx. destruct (map (cell_doc chan_doc) cs) as [|x xs] eqn:E; [by destruct cs|].
  destruct (read_cells _ _ _ _ _ _ _) as [ds|].
  - destruct Hr as (k' & n' & Hr). exists n'. by rewrite (bind_got _ _ _ _ _ Hr).
  - unfold mbind, par_bind. by rewrite Hr.
Qed.

(** ** Written attributes *)

Definition opt_attr {B} (show : B -> string) (name : string) (v : option B) : list (string * string) :=
  match v with Some b => [(name, show b)] | None => [] end.
Fixpoint find_named {T} (ts : list (string * T)) (name : string) : option (string * T) :=
  match ts with
  | [] => None
  | (t, h) :: ts => if String.eqb (lower name) (lower t) then Some (t, h) else find_named ts name
  end.

Lemma each_attr_cons {D S} `{LibXmlOk} (ts : list (string * (string -> S -> par (pst D) S))) x name v (ats : list (string * string)) t h (a : S) (s : pst D) :
  find_named ts name = Some (t, h) -> xmlGetProp x t = Some v ->
  each_attr ts x ((name, v) :: ats) a s = (a ← h v a; each_attr ts x ats a) s.
Proof.
  intros Hf Hx. cbn [each_attr]. unfold mbind, par_bind.
  match goal with |- match ?e _ with _ => _ end = _ => assert (e s = h v a s) as E end.
  { induction ts as [|[t' h'] ts IH]; [done|]. simpl in Hf. rewrite same_name_spec.
    destruct (String.eqb _ _); [|by apply IH]. injection Hf as -> ->. by rewrite Hx. }
  by rewrite E.
Qed.

(** ** Channels

    [with_last]: the structure has grown by a channel that is not counted yet. *)

Section Channels.
Context {A : Type} `{LibXmlOk}.
Local Notation D := (KeyedCfg A).
Implicit Types (l : loc D) (L : list D) (w : world).

Definition with_last (a : A) (d : D) : D := Keyed (ky_base d) (keySum d) (ky_room d ++ [a]).
Definition full l : Prop := length (ky_room (l_dev l)) = keySum (l_dev l).

Lemma at_last f a l : full l -> map_dev (at_key f) (map_dev (with_last a) l) = map_dev (with_last (f a)) l.
Proof.
  intros Hl. unfold map_dev, at_key, with_last. simpl. f_equal. f_equal. unfold full in Hl. rewrite <- Hl.
  by rewrite alter_app_r_alt, Nat.sub_diag.
Qed.
Lemma at_at (f g : A -> A) l : map_dev (fun d => at_key f (at_key g d)) l = map_dev (at_key (fun a => f (g a))) l.
Proof. unfold map_dev, at_key. simpl. do 2 f_equal. generalize (keySum (l_dev l)).
  induction (ky_room (l_dev l)) as [|x r IH]; intros [|n]; [done..|]. apply (f_equal (cons x)), IH.
Qed.

(** An optional element of a channel. *)
Lemma last_opt {B} h (show : B -> string) name v g f a l L w :
  acts h name g -> full l ->
  (forall b l n, v = Some b -> exists n', g (leaf name (show b)) l (PSt L w (Heap [] n)) =
     Got (Next (map_dev (at_key (f b)) l)) (PSt L w (Heap [] n'))) ->
  steps h (opt_leaf show name v) (map_dev (with_last a) l, L, w) (map_dev (with_last (with_opt v f a)) l, L, w).
Proof.
  intros Ha Hl Hg. destruct v as [b|]; simpl; [|apply steps_nil]. eapply steps_acts; [exact Ha|]. intros n.
  rewrite <- (at_last (f b) a l) by done. by apply Hg.
Qed.

(** The same on a part of a channel. *)
Lemma last_opt_in {B P} (put : P -> A) (f : B -> P -> P) h (show : B -> string) name v g F k l L w :
  acts h name g -> full l ->
  (forall b l n, v = Some b -> exists n', g (leaf name (show b)) l (PSt L w (Heap [] n)) =
     Got (Next (map_dev (at_key (F b)) l)) (PSt L w (Heap [] n'))) ->
  (forall b k, F b (put k) = put (f b k)) ->
  steps h (opt_leaf show name v) (map_dev (with_last (put k)) l, L, w) (map_dev (with_last (put (with_opt v f k))) l, L, w).
Proof.
  intros Ha Hl Hg Hf. replace (put (with_opt v f k)) with (with_opt v F (put k)); [by eapply last_opt|].
  destruct v; simpl; [apply Hf|done].
Qed.

Lemma last_group fail put done name t l L w n :
  exists n', group_child fail (fun a => at_key (put a)) (at_key done) (leaf name t) l (PSt L w (Heap [] n)) =
    Got (Next (map_dev (at_key (fun p => done (put (Some (take_string EIB_ADDR t)) p))) l)) (PSt L w (Heap [] n')).
Proof. exists (n + 1). rewrite <- at_at. reflexivity. Qed.

Lemma last_number strict set name v l L w n : is_i32 v ->
  exists n', number_child strict (fun v => at_key (set v)) (leaf name (pretty v)) l (PSt L w (Heap [] n)) =
    Got (Next (map_dev (at_key (set v)) l)) (PSt L w (Heap [] n')).
Proof.
  intros Hv. exists n. unfold number_child.
  change (XML_GET_CONTENT (leaf name (pretty v))) with (@mret (par (pst D)) _ _ (Some (pretty v))).
  unfold store_number, mret, par_ret, mbind, par_bind. by rewrite strtol_errno_pretty.
Qed.

(** The elements inside a part of a channel. *)
Lemma last_children ts h kids name l a a' L w :
  acts h name (children ts) -> find_tag ts "text" = None ->
  steps (tags ts) kids (map_dev (with_last a) l, L, w) (map_dev (with_last a') l, L, w) ->
  steps h [elem name [] kids] (map_dev (with_last a) l, L, w) (map_dev (with_last a') l, L, w).
Proof.
  intros Ha Ht Hs. eapply steps_acts; [exact Ha|]. intros n. destruct (steps_indent ts kids _ _ n Ht Hs) as [n' E]. exists n'.
  unfold children. by rewrite (bind_got _ _ _ _ _ E).
Qed.

Lemma r_new_channel wild l L w n : full l ->
  exists n', new_channel wild l (PSt L w (Heap [] n)) = Got (map_dev (with_last wild) l) (PSt L w (Heap [] n')).
Proof.
  intros Hl. eexists. unfold new_channel. erewrite bind_got; [|reflexivity]. cbv iota. erewrite bind_got; [|reflexivity].
  unfold map_dev, grow, with_last, full in *. rewrite Hl, Nat.leb_refl. reflexivity.
Qed.

(** ** Attributes *)

(** An optional attribute. *)
Lemma attr_opt {B} (ts : list (string * (string -> loc D -> par (pst D) (loc D)))) x (show : B -> string) name v (ats : list (string * string)) h f a (c : loc D) (s : pst D) :
  find_named ts name = Some (name, h) -> full c ->
  (forall b, v = Some b -> xmlGetProp x name = Some (show b)) ->
  (forall b c, v = Some b -> h (show b) c s = Got (map_dev (at_key (f b)) c) s) ->
  each_attr ts x (opt_attr show name v ++ ats) (map_dev (with_last a) c) s =
  each_attr ts x ats (map_dev (with_last (with_opt v f a)) c) s.
Proof.
  intros Hf Hc Hx Hh. destruct v as [b|]; [|done]. simpl app. erewrite each_attr_cons; [|exact Hf|by apply Hx].
  rewrite (bind_got _ _ _ _ _ (Hh b _ eq_refl)). simpl with_opt. by rewrite at_last.
Qed.
End Channels.

(** ** The three parsers *)

Record panel_chl := PanelChl { pl_mode : option string; pl_switch : option string; pl_status : option string; pl_dp : option Z }.
Record smart_chl := SmartChl {
  sl_switch : option string; sl_status : option string; sl_dp : option Z;
  sl_addr : option string; sl_value : option Z; sl_scene_dp : option Z;
  sl_select : option bool; sl_mode_dp : option Z
}.
Record dimmer_chl := DimmerChl {
  dl_mode : option string; dl_switch : option string; dl_status : option string; dl_dp : option Z;
  dl_max : option Z; dl_min : option Z; dl_step : option Z; dl_scaling : option Z;
  dl_bright : option string; dl_bright_status : option string; dl_bright_dp : option Z
}.

Definition panel_doc (c : panel_chl) : xnode :=
  elem "channel" (opt_attr id "mode" (pl_mode c))
    (opt_leaf id "Switch" (pl_switch c) ++ opt_leaf id "Status" (pl_status c) ++ opt_leaf pretty "DataPoint" (pl_dp c)).
Definition select_word (scene : bool) : string := if scene then "scene" else "switch".
Definition smart_doc (c : smart_chl) : xnode :=
  elem "channel" [] [
    elem "switch" [] (opt_leaf id "Ctrl" (sl_switch c) ++ opt_leaf id "Status" (sl_status c) ++ opt_leaf pretty "DataPoint" (sl_dp c));
    elem "scene" [] (opt_leaf id "addr" (sl_addr c) ++ opt_leaf pretty "value" (sl_value c) ++ opt_leaf pretty "DataPoint" (sl_scene_dp c));
    elem "mode" [] (opt_leaf select_word "select" (sl_select c) ++ opt_leaf pretty "DataPoint" (sl_mode_dp c))].
Definition dimmer_doc (c : dimmer_chl) : xnode :=
  elem "channel" (opt_attr id "mode" (dl_mode c)) [
    elem "Switch" [] (opt_leaf id "Ctrl" (dl_switch c) ++ opt_leaf id "Status" (dl_status c) ++ opt_leaf pretty "DataPoint" (dl_dp c));
    elem "Brightness" (opt_attr pretty "max" (dl_max c) ++ opt_attr pretty "min" (dl_min c) ++ opt_attr pretty "step" (dl_step c) ++
        opt_attr pretty "scaling" (dl_scaling c))
      (opt_leaf id "Ctrl" (dl_bright c) ++ opt_leaf id "Status" (dl_bright_status c) ++ opt_leaf pretty "DataPoint" (dl_bright_dp c))].

Definition ctrl_read (feature type : Z) (t : string) (p : KnxPointsCfg) : KnxPointsCfg :=
  described feature type (set_pc_pCtrl (Some (Some (take_string EIB_ADDR t))) p).
Definition status_read (feature type : Z) (t : string) (p : KnxPointsCfg) : KnxPointsCfg :=
  described feature type (set_pc_pFeedback (Some (Some (take_string EIB_ADDR t))) p).
Definition id_read (v : Z) : KnxPointsCfg -> KnxPointsCfg := set_pc_id (Some (u16 v)).

Definition opt_i32 (v : option Z) : Prop := forall z, v = Some z -> is_i32 z.

Section Families.
Context `{LibXmlOk} (g_Mac : string) (now : Z).
Definition stamped (p : KnxPointsCfg) : KnxPointsCfg := set_pc_stamp (Some 500) (Some now) p.

(** A channel: a member without an element is left as [realloc] gave it. *)
Definition panel_point (c : panel_chl) : KnxPointsCfg :=
  with_opt (pl_dp c) id_read
  (with_opt (pl_status c) (fun t p => stamped (status_read PANEL_SWITCH_STATUS POINT_TYPE_BOOL t p))
  (with_opt (pl_switch c) (ctrl_read PANEL_SWITCH POINT_TYPE_BOOL)
  (with_opt (pl_mode c) (fun m => set_pc_mode (Some (mode_of m))) wild_point))).
Definition smart_point (c : smart_chl) : KnxSmartPanelCfg :=
  SmartCfg
    (with_opt (sl_dp c) id_read
    (with_opt (sl_status c) (fun t p => stamped (status_read PANEL_SWITCH_STATUS POINT_TYPE_BOOL t p))
    (with_opt (sl_switch c) (ctrl_read PANEL_SWITCH POINT_TYPE_BOOL) wild_point)))
    (with_opt (sl_scene_dp c) id_read
    (with_opt (sl_value c) (fun v p => set_pc_value (Some (u8 v)) (set_pc_type (Some POINT_TYPE_U8) p))
    (with_opt (sl_addr c) (fun t p => stamped (ctrl_read FEATURE_SCENE POINT_TYPE_U8 t p)) wild_point)))
    (with_opt (sl_mode_dp c) id_read
    (with_opt (sl_select c) (fun b p => set_pc_value (Some (b2z b)) (set_pc_type (Some POINT_TYPE_U8) (set_pc_feature (Some FEATURE_MODE) p))) wild_point)).
Definition dimmer_point (c : dimmer_chl) : KnxDimmerCfg :=
  DimCfg
    (with_opt (dl_dp c) id_read
    (with_opt (dl_status c) (status_read PANEL_SWITCH_STATUS POINT_TYPE_BOOL)
    (with_opt (dl_switch c) (ctrl_read PANEL_SWITCH POINT_TYPE_BOOL)
    (with_opt (dl_mode c) (fun m => set_pc_mode (Some (mode_of m))) wild_point))))
    (with_opt (dl_bright_dp c) id_read
    (with_opt (dl_bright_status c) (status_read DIMMING_BRIGHTNESS_STATUS POINT_TYPE_U8)
    (with_opt (dl_bright c) (ctrl_read DIMMING_BRIGHTNESS POINT_TYPE_U8)
    (with_opt (dl_scaling c) (fun v => set_pc_scaling (Some (u16 v)))
    (with_opt (dl_step c) (fun v => set_pc_step (Some (u16 v)))
    (with_opt (dl_min c) (fun v => set_pc_min (Some (u16 v)))
    (with_opt (dl_max c) (fun v => set_pc_max (Some (u16 v)))
    (with_opt (dl_mode c) (fun m => set_pc_mode (Some (mode_of m))) wild_point)))))))).

Definition panel_valid (c : panel_chl) : Prop := opt_i32 (pl_dp c).
Definition smart_valid (c : smart_chl) : Prop := opt_i32 (sl_dp c) /\ opt_i32 (sl_value c) /\ opt_i32 (sl_scene_dp c) /\ opt_i32 (sl_mode_dp c).
Definition dimmer_valid (c : dimmer_chl) : Prop :=
  opt_i32 (dl_dp c) /\ opt_i32 (dl_max c) /\ opt_i32 (dl_min c) /\ opt_i32 (dl_step c) /\ opt_i32 (dl_scaling c) /\ opt_i32 (dl_bright_dp c).

Lemma count_last {A} (a : A) (l : loc (KeyedCfg A)) :
  map_dev count_key (map_dev (with_last a) l) = map_dev (fun d => Keyed (ky_base d) (S (keySum d)) (ky_room d ++ [a])) l.
Proof. done. Qed.

Lemma r_panel_channel c l L w n : panel_valid c -> full l ->
  exists n', panel_channel now (panel_doc c) l (PSt L w (Heap [] n)) =
    Got (Next (map_dev (fun d => Keyed (ky_base d) (S (keySum d)) (ky_room d ++ [panel_point c])) l)) (PSt L w (Heap [] n')).
Proof.
  intros Hc Hl. destruct (r_new_channel wild_point l L w n Hl) as [n1 E1].
  assert (exists n', while_nodes (tags (panel_parts now)) (x_kids (panel_doc c))
    (map_dev (with_last (with_opt (pl_mode c) (fun m => set_pc_mode (Some (mode_of m))) wild_point)) l) (PSt L w (Heap [] n1)) =
    Got (map_dev (with_last (panel_point c)) l) (PSt L w (Heap [] n'))) as [n' E'].
  { apply (steps_indent (panel_parts now) _ (_, L, w) (_, L, w)); [done|].
    eapply steps_app; [eapply last_opt; [by apply acts_tags|done|intros; apply last_group]|].
    eapply steps_app; [eapply last_opt; [by apply acts_tags|done|intros; apply last_group]|].
    eapply last_opt; [by apply acts_tags|done|]. intros b l' m Hb. apply (last_number _ (fun v => set_pc_id (Some (u16 v)))). by apply Hc. }
  exists n'. unfold panel_channel. rewrite (bind_got _ _ _ _ _ E1).
  erewrite bind_got.
  2:{ change (x_attrs (panel_doc c)) with (opt_attr id "mode" (pl_mode c)). rewrite <- (app_nil_r (opt_attr _ _ _)).
      rewrite (attr_opt _ (panel_doc c) id "mode" (pl_mode c) [] (fun v l => mret (map_dev (at_key (set_pc_mode (Some (mode_of v)))) l))
        (fun m => set_pc_mode (Some (mode_of m)))); [reflexivity|done..| |done].
      intros b Hb. rewrite getprop_ok. unfold panel_doc. by rewrite Hb. }
  destruct (x_kids (panel_doc c)) as [|k ks] eqn:Ek; [exfalso; revert Ek; unfold panel_doc, elem; cbn [x_kids]; by destruct (_ ++ _)|].
  by rewrite (bind_got _ _ _ _ _ E').
Qed.

Lemma r_smart_select b l L w n :
  smart_select (leaf "select" (select_word b)) l (PSt L w (Heap [] n)) =
  Got (Next (map_dev (at_key (on_sc_mode (fun p => set_pc_value (Some (b2z b)) (set_pc_type (Some POINT_TYPE_U8) (set_pc_feature (Some FEATURE_MODE) p))))) l))
    (PSt L w (Heap [] n)).
Proof.
  unfold smart_select. change (XML_GET_CONTENT (leaf "select" (select_word b))) with (@mret (par (pst (KeyedCfg KnxSmartPanelCfg))) _ _ (Some (select_word b))).
  unfold mret, par_ret, mbind, par_bind. rewrite !same_name_spec. by destruct b.
Qed.

(** An element of a part of a channel. *)
Ltac part put f :=
  eapply (last_opt_in put f); [by apply acts_tags|done|intros; first [apply last_group|apply last_number; eauto]|done].

Lemma r_smart_parts c l L w : smart_valid c -> full l ->
  steps (tags [("switch", children (smart_switch now)); ("scene", children (smart_scene now)); ("mode", children smart_mode)])
    [elem "switch" [] (opt_leaf id "Ctrl" (sl_switch c) ++ opt_leaf id "Status" (sl_status c) ++ opt_leaf pretty "DataPoint" (sl_dp c));
     elem "scene" [] (opt_leaf id "addr" (sl_addr c) ++ opt_leaf pretty "value" (sl_value c) ++ opt_leaf pretty "DataPoint" (sl_scene_dp c));
     elem "mode" [] (opt_leaf select_word "select" (sl_select c) ++ opt_leaf pretty "DataPoint" (sl_mode_dp c))]
    (map_dev (with_last (SmartCfg wild_point wild_point wild_point)) l, L, w) (map_dev (with_last (smart_point c)) l, L, w).
Proof.
  intros (Hd & Hv & Hsd & Hmd) Hl. set (k := sc_key (smart_point c)). set (e := sc_scene (smart_point c)).
  apply (steps_cons _ _ _ _ (map_dev (with_last (SmartCfg k wild_point wild_point)) l, L, w));
    [|apply (steps_cons _ _ _ _ (map_dev (with_last (SmartCfg k e wild_point)) l, L, w))].
  - eapply last_children; [by apply acts_tags|done|]. pose (P k := SmartCfg k wild_point wild_point).
    change (SmartCfg wild_point wild_point wild_point) with (P wild_point). change (SmartCfg k wild_point wild_point) with (P k).
    eapply steps_app; [part P (ctrl_read PANEL_SWITCH POINT_TYPE_BOOL)|].
    eapply steps_app; [part P (fun t p => stamped (status_read PANEL_SWITCH_STATUS POINT_TYPE_BOOL t p))|]. part P id_read.
  - eapply last_children; [by apply acts_tags|done|]. pose (P s := SmartCfg k s wild_point).
    change (SmartCfg k wild_point wild_point) with (P wild_point). change (SmartCfg k e wild_point) with (P e).
    eapply steps_app; [part P (fun t p => stamped (ctrl_read FEATURE_SCENE POINT_TYPE_U8 t p))|].
    eapply steps_app; [part P (fun v p => set_pc_value (Some (u8 v)) (set_pc_type (Some POINT_TYPE_U8) p))|]. part P id_read.
  - eapply last_children; [by apply acts_tags|done|]. pose (P m := SmartCfg k e m).
    change (SmartCfg k e wild_point) with (P wild_point). change (smart_point c) with (P (sc_mode (smart_point c))).
    eapply steps_app; [|part P id_read].
    eapply (last_opt_in P (fun b p => set_pc_value (Some (b2z b)) (set_pc_type (Some POINT_TYPE_U8) (set_pc_feature (Some FEATURE_MODE) p))));
      [by apply acts_tags|done|intros b l' m Hb; exists m; apply r_smart_select|done].
Qed.

Lemma r_smart_channel c l L w n : smart_valid c -> full l ->
  exists n', smart_channel now (smart_doc c) l (PSt L w (Heap [] n)) =
    Got (Next (map_dev (fun d => Keyed (ky_base d) (S (keySum d)) (ky_room d ++ [smart_point c])) l)) (PSt L w (Heap [] n')).
Proof.
  intros Hc Hl. destruct (r_new_channel (SmartCfg wild_point wild_point wild_point) l L w n Hl) as [n1 E1].
  pose proof (r_smart_parts c l L w Hc Hl) as Hp. eapply steps_indent in Hp as [n' E']; [|done]. exists n'.
  unfold smart_channel. rewrite (bind_got _ _ _ _ _ E1). by erewrite bind_got; [|exact E'].
Qed.

(** The attributes of the brightness. *)
Definition range_attrs (c : dimmer_chl) : list (string * string) :=
  opt_attr pretty "max" (dl_max c) ++ opt_attr pretty "min" (dl_min c) ++ opt_attr pretty "step" (dl_step c) ++
  opt_attr pretty "scaling" (dl_scaling c).
Definition ranged (c : dimmer_chl) (p : KnxPointsCfg) : KnxPointsCfg :=
  with_opt (dl_scaling c) (fun v => set_pc_scaling (Some (u16 v)))
  (with_opt (dl_step c) (fun v => set_pc_step (Some (u16 v)))
  (with_opt (dl_min c) (fun v => set_pc_min (Some (u16 v)))
  (with_opt (dl_max c) (fun v => set_pc_max (Some (u16 v))) p))).

Lemma with_dbright {B} (v : option B) f c : with_opt v (fun b => on_dc_bright (f b)) c = on_dc_bright (with_opt v f) c.
Proof. destruct v; [done|]. by destruct c. Qed.

Lemma r_stored strict (set : Z -> KnxPointsCfg -> KnxPointsCfg) v (l : loc (KeyedCfg KnxDimmerCfg)) s : is_i32 v ->
  store_number strict (fun v => at_key (on_dc_bright (set v))) (pretty v) l s = Got (map_dev (at_key (on_dc_bright (set v))) l) s.
Proof. intros Hv. unfold store_number. by rewrite strtol_errno_pretty. Qed.

Lemma r_range c x k p l s : dimmer_valid c -> full l -> x_attrs x = range_attrs c ->
  each_attr dimmer_range x (range_attrs c) (map_dev (with_last (DimCfg k p)) l) s = Got (map_dev (with_last (DimCfg k (ranged c p))) l) s.
Proof.
  intros (_ & Hmax & Hmin & Hstep & Hscal & _) Hl Hx.
  assert (forall t, xmlGetProp x t = find_text (range_attrs c) t) as Hp by (intros t; by rewrite getprop_ok, Hx).
  unfold range_attrs at 1. rewrite <- (app_nil_r (opt_attr pretty "scaling" _)).
  erewrite (attr_opt _ _ pretty "max"); [|reflexivity|done| |intros b c0 Hb; apply (r_stored true (fun v => set_pc_max (Some (u16 v)))); by apply Hmax].
  2:{ intros b Hb. rewrite Hp. unfold range_attrs. by rewrite Hb. }
  erewrite (attr_opt _ _ pretty "min"); [|reflexivity|done| |intros b c0 Hb; apply (r_stored false (fun v => set_pc_min (Some (u16 v)))); by apply Hmin].
  2:{ intros b Hb. rewrite Hp. unfold range_attrs. rewrite Hb. by destruct (dl_max c). }
  erewrite (attr_opt _ _ pretty "step"); [|reflexivity|done| |intros b c0 Hb; apply (r_stored true (fun v => set_pc_step (Some (u16 v)))); by apply Hstep].
  2:{ intros b Hb. rewrite Hp. unfold range_attrs. rewrite Hb. by destruct (dl_max c), (dl_min c). }
  erewrite (attr_opt _ _ pretty "scaling"); [|reflexivity|done| |intros b c0 Hb; apply (r_stored true (fun v => set_pc_scaling (Some (u16 v)))); by apply Hscal].
  2:{ intros b Hb. rewrite Hp. unfold range_attrs. rewrite Hb. by destruct (dl_max c), (dl_min c), (dl_step c). }
  rewrite !with_dbright. reflexivity.
Qed.

Lemma r_dimmer_parts c l L w k b : dimmer_valid c -> full l ->
  steps (tags [("Switch", children dimmer_switch); ("Brightness", dimmer_brightness)])
    [elem "Switch" [] (opt_leaf id "Ctrl" (dl_switch c) ++ opt_leaf id "Status" (dl_status c) ++ opt_leaf pretty "DataPoint" (dl_dp c));
     elem "Brightness" (range_attrs c) (opt_leaf id "Ctrl" (dl_bright c) ++ opt_leaf id "Status" (dl_bright_status c) ++ opt_leaf pretty "DataPoint" (dl_bright_dp c))]
    (map_dev (with_last (DimCfg k b)) l, L, w)
    (map_dev (with_last (DimCfg
       (with_opt (dl_dp c) id_read (with_opt (dl_status c) (status_read PANEL_SWITCH_STATUS POINT_TYPE_BOOL)
          (with_opt (dl_switch c) (ctrl_read PANEL_SWITCH POINT_TYPE_BOOL) k)))
       (with_opt (dl_bright_dp c) id_read (with_opt (dl_bright_status c) (status_read DIMMING_BRIGHTNESS_STATUS POINT_TYPE_U8)
          (with_opt (dl_bright c) (ctrl_read DIMMING_BRIGHTNESS POINT_TYPE_U8) (ranged c b)))))) l, L, w).
Proof.
  intros Hc Hl. pose proof Hc as (Hd & _ & _ & _ & _ & Hbd).
  match goal with |- steps _ _ _ (map_dev (with_last (DimCfg ?k1 ?b1)) _, _, _) => set (k' := k1); set (b' := b1) end.
  apply (steps_cons _ _ _ _ (map_dev (with_last (DimCfg k' b)) l, L, w)).
  - eapply last_children; [by apply acts_tags|done|]. pose (P k := DimCfg k b).
    change (DimCfg k b) with (P k). change (DimCfg k' b) with (P k').
    eapply steps_app; [part P (ctrl_read PANEL_SWITCH POINT_TYPE_BOOL)|].
    eapply steps_app; [part P (status_read PANEL_SWITCH_STATUS POINT_TYPE_BOOL)|]. part P id_read.
  - eapply steps_acts; [by apply acts_tags|]. intros n.
    assert (exists n', children dimmer_bright (elem "Brightness" (range_attrs c)
       (opt_leaf id "Ctrl" (dl_bright c) ++ opt_leaf id "Status" (dl_bright_status c) ++ opt_leaf pretty "DataPoint" (dl_bright_dp c)))
       (map_dev (with_last (DimCfg k' (ranged c b))) l) (PSt L w (Heap [] n)) =
       Got (Next (map_dev (with_last (DimCfg k' b')) l)) (PSt L w (Heap [] n'))) as [n' E].
    2:{ exists n'. unfold dimmer_brightness. erewrite bind_got; [exact E|]. by apply r_range. }
    pose (P b := DimCfg k' b). change (DimCfg k' (ranged c b)) with (P (ranged c b)). change (DimCfg k' b') with (P b').
    assert (steps (tags dimmer_bright)
      (opt_leaf id "Ctrl" (dl_bright c) ++ opt_leaf id "Status" (dl_bright_status c) ++ opt_leaf pretty "DataPoint" (dl_bright_dp c))
      (map_dev (with_last (P (ranged c b))) l, L, w) (map_dev (with_last (P b')) l, L, w)) as Hs.
    { eapply steps_app; [part P (ctrl_read DIMMING_BRIGHTNESS POINT_TYPE_U8)|].
      eapply steps_app; [part P (status_read DIMMING_BRIGHTNESS_STATUS POINT_TYPE_U8)|]. part P id_read. }
    apply (steps_indent _ _ _ _ n) in Hs as [n' E]; [|done]. exists n'. unfold children. by erewrite bind_got; [|exact E].
Qed.

Lemma r_dimmer_mode c l L w n : full l ->
  each_attr [("mode", dimmer_mode)] (dimmer_doc c) (x_attrs (dimmer_doc c)) (map_dev (with_last (DimCfg wild_point wild_point)) l) (PSt L w (Heap [] n)) =
  Got (map_dev (with_last (DimCfg (with_opt (dl_mode c) (fun m => set_pc_mode (Some (mode_of m))) wild_point)
                                  (with_opt (dl_mode c) (fun m => set_pc_mode (Some (mode_of m))) wild_point))) l) (PSt L w (Heap [] n)).
Proof.
  intros Hl. change (x_attrs (dimmer_doc c)) with (opt_attr id "mode" (dl_mode c)). rewrite <- (app_nil_r (opt_attr _ _ _)).
  rewrite (attr_opt _ (dimmer_doc c) id "mode" (dl_mode c) [] dimmer_mode
    (fun m c => on_dc_bright (set_pc_mode (Some (mode_of m))) (on_dc_key (set_pc_mode (Some (mode_of m))) c))); [|done|done| |done].
  - cbn [each_attr]. by destruct (dl_mode c).
  - intros b Hb. rewrite getprop_ok. unfold dimmer_doc. by rewrite Hb.
Qed.

Lemma r_dimmer_channel c l L w n : dimmer_valid c -> full l ->
  exists n', dimmer_channel (dimmer_doc c) l (PSt L w (Heap [] n)) =
    Got (Next (map_dev (fun d => Keyed (ky_base d) (S (keySum d)) (ky_room d ++ [dimmer_point c])) l)) (PSt L w (Heap [] n')).
Proof.
  intros Hc Hl. destruct (r_new_channel (DimCfg wild_point wild_point) l L w n Hl) as [n1 E1].
  set (m := with_opt (dl_mode c) (fun m => set_pc_mode (Some (mode_of m))) wild_point).
  pose proof (r_dimmer_parts c l L w m m Hc Hl) as Hp. apply (steps_indent _ _ _ _ n1) in Hp as [n' E']; [|done]. exists n'.
  unfold dimmer_channel. rewrite (bind_got _ _ _ _ _ E1). rewrite (bind_got _ _ _ _ _ (r_dimmer_mode c l L w n1 Hl)).
  by erewrite bind_got; [|exact E'].
Qed.

(** ** What the parsers do with the elements *)

Ltac reader :=
  split; [..|done|];
  try (first [by apply acts_tags | by apply acts_skip |
    by (apply acts_both_right; [apply acts_skip|apply acts_tags]) |
    by (apply acts_both_right; [apply acts_skip|apply acts_skip]) |
    by (apply acts_both_left; [apply acts_tags|apply acts_skip]) |
    by (eexists _, _; apply acts_tags) | by (eexists _; apply acts_tags) |
    by (eexists _, _; apply acts_both_right; [by apply acts_skip|by apply acts_tags]) |
    by (eexists _; apply acts_both_right; [by apply acts_skip|by apply acts_tags]) ]).

Lemma panel_reader : keyed_reader panel_doc panel_point panel_valid true
  (both (tags [("SharedLibrary", SharedLibrary Skip Retry)]) (tags (kpanel_tags now))) (panel_channel now).
Proof. reader. intros. by apply r_panel_channel. Qed.
Lemma smart_reader : keyed_reader smart_doc smart_point smart_valid false (tags (smart_tags now)) (smart_channel now).
Proof. reader. intros. by apply r_smart_channel. Qed.
Lemma dimmer_reader : keyed_reader dimmer_doc dimmer_point dimmer_valid true (tags dimmer_tags) dimmer_channel.
Proof. reader. intros. by apply r_dimmer_channel. Qed.
End Families.

(** ** Properties *)

Section Properties.
Context `{LibXmlOk} (g_Mac : string) (now : Z).

Lemma panels_cells_read : cells_read (ParseKnxPanelCfg g_Mac now) "/Device/KNX/Panel/Cell" panel_doc (panel_point now) panel_valid
  g_Mac "Panel" KNX_PANEL_ONE_KEY true.
Proof. eapply keyed_cells_read, panel_reader. Qed.

(** C29: the parsers of the panels, smart panels and dimmers of the KNX bus read the documents they are given: when no
    allocation fails, cells with a plugin, a product, an address, keys and channels become exactly the written devices,
    in order, behind those that were there; the type counts the channels, and a member of a channel that has no element
    is left as [realloc] gave it.  A key that a cell does not give is the one of the last cell before that gave one, and
    the process crashes exactly when that makes a master print an inherited foreign key without a block for it. *)
Theorem panels_read :
  cells_read (ParseKnxPanelCfg g_Mac now) "/Device/KNX/Panel/Cell" panel_doc (panel_point now) panel_valid
    g_Mac "Panel" KNX_PANEL_ONE_KEY true /\
  cells_read (ParseKnxSmartPanelCfg g_Mac now) "/Device/KNX/SmartPanel/Cell" smart_doc (smart_point now) smart_valid
    g_Mac "Panel" KNX_MISC_PANEL_ONE_KEY false /\
  cells_read (ParseKnxDimmerCfg g_Mac) "/Device/KNX/Dimmer/Cell" dimmer_doc dimmer_point dimmer_valid
    g_Mac "Dimmer" KNX_DIMMER_ONE_KEY true.
Proof.
  split; [exact panels_cells_read|]. split; [eapply keyed_cells_read, smart_reader; exact now|].
  eapply keyed_cells_read, dimmer_reader; exact now.
Qed.

(** The keys of a panel reach the next one.  When the second of two panels gives no primary key it gets that of the
    first, and with it the same device id: the cloud cannot tell the two apart.  When it gives a product but no foreign key
    and the first gave one, the process crashes. *)
Theorem panel_keys_leak c1 c2 k path d L w n :
  keyed_valid panel_valid c1 -> keyed_valid panel_valid c2 -> kd_key c1 = Some k -> kd_key c2 = None ->
  xmlReadFile path = Some d -> xmlXPathEval d "/Device/KNX/Panel/Cell" = map (cell_doc panel_doc) [c1; c2] ->
  if master c2 && bool_decide (is_Some (kd_foreign c1)) && negb (bool_decide (is_Some (kd_foreign c2)))
  then ParseKnxPanelCfg g_Mac now (Some path) (PSt L w (Heap [] n)) = Stopped Crashed
  else exists d1 d2 n', ParseKnxPanelCfg g_Mac now (Some path) (PSt L w (Heap [] n)) = Got 0 (PSt (L ++ [d1; d2]) w (Heap [] n')) /\
    el_pPrimaryKey (get_el d2) = Some (key_text g_Mac DEVICE_TYPE_KNX k) /\
    el_pPrimaryKey (get_el d1) = el_pPrimaryKey (get_el d2) /\ el_devId (get_el d1) = el_devId (get_el d2).
Proof.
  intros H1 H2 E1 E2 Hd Hx.
  assert (Forall (keyed_valid panel_valid) [c1; c2]) as Hcs
    by (apply Forall_cons_2; [exact H1|]; apply Forall_cons_2; [exact H2|]; apply Forall_nil_2).
  pose proof (panels_cells_read path d [c1; c2] L w n Hd Hx ltac:(discriminate) Hcs) as Hr. clear - E1 E2 Hr.
  destruct c1 as [g1 p1 a1 k1 f1 o1 ch1], c2 as [g2 p2 a2 k2 f2 o2 ch2]. simpl in E1, E2. subst k1 k2.
  unfold master. cbn [kd_product kd_foreign].
  destruct p1, p2, f1, f2; cbn -[key_text key_id ParseKnxPanelCfg] in Hr |- *; try exact Hr;
    destruct Hr as [n' Hr]; eexists _, _, n'; (split; [exact Hr|]); by repeat split.
Qed.
End Properties.

(** ** Samples *)

Definition sample_panel (product : option string) (key : option string) (foreign : option (Z * string)) : keyed_doc panel_chl :=
  KeyedDoc (Some "panel.so") product (Some "1.1.9") key foreign true
    [PanelChl (Some "rd") (Some "1/2/3") (Some "1/2/4") (Some 1); PanelChl None (Some "1/2/5") None (Some 2)].
Definition panel_lib (cs : list (keyed_doc panel_chl)) : LibXml :=
  tree_lib [("cfg.xml", [("/Device/KNX/Panel/Cell", map (cell_doc panel_doc) cs)])].
Definition panel_world : world := W [] [] [] [] [].
Lemma sample_panel_valid product key : keyed_valid panel_valid (sample_panel product key None).
Proof.
  split; [done|]. repeat (apply Forall_cons_2; [intros z [= <-]; unfold is_i32; lia|]). by apply Forall_nil_2.
Qed.

Lemma panels_read_witness :
  let cs := [sample_panel (Some "pid") (Some "7") None] in
  exists n', @ParseKnxPanelCfg (panel_lib cs) "AABBCCDDEEFF" 5 (Some "cfg.xml") (PSt [] panel_world (Heap [] 0)) =
    Got 0 (PSt [keyed_dev (@panel_point (panel_lib cs) 5) "AABBCCDDEEFF" "Panel" KNX_PANEL_ONE_KEY true (None, None) (sample_panel (Some "pid") (Some "7") None)]
      panel_world (Heap [] n')).
Proof.
  intros cs. destruct (panels_read (H := panel_lib cs) "AABBCCDDEEFF" 5) as [Hr _].
  refine (Hr "cfg.xml" _ cs [] panel_world 0 eq_refl eq_refl _ _); [discriminate|].
  apply Forall_cons_2; [apply sample_panel_valid|apply Forall_nil_2].
Defined.

Lemma panel_keys_leak_witness :
  let c1 := sample_panel (Some "pid") (Some "7") None in let c2 := sample_panel None None None in
  exists d1 d2 n', @ParseKnxPanelCfg (panel_lib [c1; c2]) "AABBCCDDEEFF" 5 (Some "cfg.xml") (PSt [] panel_world (Heap [] 0)) =
    Got 0 (PSt [d1; d2] panel_world (Heap [] n')) /\ el_devId (get_el d1) = el_devId (get_el d2).
Proof.
  intros c1 c2.
  destruct (panel_keys_leak (H := panel_lib [c1; c2]) "AABBCCDDEEFF" 5 c1 c2 "7" "cfg.xml" _ [] panel_world 0
    (sample_panel_valid _ _) (sample_panel_valid _ _) eq_refl eq_refl eq_refl eq_refl) as (d1 & d2 & n' & E & _ & _ & E').
  exists d1, d2, n'. split; [exact E|exact E'].
Defined.
