(* ===== verification/PanelConfig.v ===== *)
(** What the parsers of the panels, dimmers and curtains of the KNX bus make of a
    configuration, whatever it holds: the structures are the ones of the types, as
    long as the channels can be counted by them, and the addresses fit their
    members. *)

From stdpp Require Import pretty.
From S2P Require Import Prelude CMem CStr Device Nodes KnxPlugins KnxAddr KnxDevs KnxCtrl KnxReport KnxMonitor Serial Xml Cells CellRules ParseKnx KnxConfig ParsePanels.

Local Open Scope string_scope.
Local Open Scope list_scope.
Local Open Scope Z_scope.

(** ** Well-formed points *)

Definition group_fits (g : option (option string)) : Prop := forall a, g = Some (Some a) -> (String.length a <= EIB_ADDR)%nat.
(** What is set fits; what is wild is not looked at. *)
Record points_ok (p : KnxPointsCfg) : Prop := {
  pk_ctrl : group_fits (pc_pCtrl p);
  pk_feedback : group_fits (pc_pFeedback p);
  pk_id : forall v, pc_id p = Some v -> 0 <= v < 65536
}.
Definition smart_ok (c : KnxSmartPanelCfg) : Prop := points_ok (sc_key c) /\ points_ok (sc_scene c) /\ points_ok (sc_mode c).
Definition dimmer_ok (c : KnxDimmerCfg) : Prop := points_ok (dc_key c) /\ points_ok (dc_bright c).
(** A point of a curtain: nothing of it is wild. *)
Definition curtain_point_ok (feature : Z) (o : option KnxPointsCfg) : Prop :=
  match o with
  | Some p => exists a id, (String.length a <= EIB_ADDR)%nat /\ 0 <= id < 65536 /\
      p = set_pc_id (Some id) (described feature POINT_TYPE_I32 (set_pc_pCtrl (Some (Some a)) zero_point))
  | None => True
  end.

Lemma wild_ok : points_ok wild_point.
Proof. by split. Qed.
Lemma ok_described f t p : points_ok p -> points_ok (described f t p).
Proof. intros []. by split. Qed.
Lemma ok_ctrl g p : group_fits g -> points_ok p -> points_ok (set_pc_pCtrl g p).
Proof. intros Hg []. by split. Qed.
Lemma ok_feedback g p : group_fits g -> points_ok p -> points_ok (set_pc_pFeedback g p).
Proof. intros Hg []. by split. Qed.
Lemma ok_id v p : points_ok p -> points_ok (set_pc_id (Some (u16 v)) p).
Proof. intros []. split; try done. intros z [= <-]. apply u16_range. Qed.
Lemma ok_stamp a b p : points_ok p -> points_ok (set_pc_stamp a b p).
Proof. intros []. by split. Qed.
Lemma ok_mode v p : points_ok p -> points_ok (set_pc_mode v p).
Proof. intros []. by split. Qed.
Lemma ok_value v p : points_ok p -> points_ok (set_pc_value v p).
Proof. intros []. by split. Qed.
Lemma ok_type v p : points_ok p -> points_ok (set_pc_type v p).
Proof. intros []. by split. Qed.
Lemma ok_feature v p : points_ok p -> points_ok (set_pc_feature v p).
Proof. intros []. by split. Qed.
Lemma ok_max v p : points_ok p -> points_ok (set_pc_max v p).
Proof. intros []. by split. Qed.
Lemma ok_min v p : points_ok p -> points_ok (set_pc_min v p).
Proof. intros []. by split. Qed.
Lemma ok_step v p : points_ok p -> points_ok (set_pc_step v p).
Proof. intros []. by split. Qed.
Lemma ok_scaling v p : points_ok p -> points_ok (set_pc_scaling v p).
Proof. intros []. by split. Qed.
Lemma ok_sc_key f c : (forall p, points_ok p -> points_ok (f p)) -> smart_ok c -> smart_ok (on_sc_key f c).
Proof. intros Hf (? & ? & ?). split_and!; auto. by apply Hf. Qed.
Lemma ok_sc_scene f c : (forall p, points_ok p -> points_ok (f p)) -> smart_ok c -> smart_ok (on_sc_scene f c).
Proof. intros Hf (? & ? & ?). split_and!; auto. by apply Hf. Qed.
Lemma ok_sc_mode f c : (forall p, points_ok p -> points_ok (f p)) -> smart_ok c -> smart_ok (on_sc_mode f c).
Proof. intros Hf (? & ? & ?). split_and!; auto. by apply Hf. Qed.
Lemma ok_dc_key f c : (forall p, points_ok p -> points_ok (f p)) -> dimmer_ok c -> dimmer_ok (on_dc_key f c).
Proof. intros Hf (? & ?). split; auto. by apply Hf. Qed.
Lemma ok_dc_bright f c : (forall p, points_ok p -> points_ok (f p)) -> dimmer_ok c -> dimmer_ok (on_dc_bright f c).
Proof. intros Hf (? & ?). split; auto. by apply Hf. Qed.
Lemma fits_none : group_fits (Some None).
Proof. done. Qed.
Lemma fits_text t : group_fits (Some (Some (take_string EIB_ADDR t))).
Proof. intros a Ha. assert (a = take_string EIB_ADDR t) as -> by congruence. apply take_string_length. Qed.

Create HintDb panels discriminated.
#[export] Hint Resolve wild_ok ok_described ok_ctrl ok_feedback ok_id ok_stamp ok_mode ok_value ok_type ok_feature
  ok_max ok_min ok_step ok_scaling ok_sc_key ok_sc_scene ok_sc_mode ok_dc_key ok_dc_bright fits_none fits_text : panels.

(** ** Devices with channels *)

Record keyed_ok {A} (P : A -> Prop) (g_Mac : string) (type : Z) (d : KeyedCfg A) : Prop := {
  yo_element : element_typed g_Mac DEVICE_TYPE_KNX [type] (kc_el (ky_base d));
  yo_phyAddr : (String.length (kc_phyAddr (ky_base d)) <= EIB_ADDR)%nat;
  yo_room : (keySum d <= length (ky_room d) <= S (keySum d))%nat;
  yo_points : Forall P (ky_room d)
}.

Section Rounds.
Context {A : Type} `{LibXml} (P : A -> Prop) (g_Mac name : string) (first : Z).
Context (ok : stop -> Prop) (Hexit : ok Exited) (Hcrash : ok Crashed) (Hhung : ok Hung).
Local Notation D := (KeyedCfg A).
Variable l0 : list D.
Implicit Types (l : loc D) (s : pst D).

Definition yinv s : Prop := exists ds, p_list s = l0 ++ ds /\ Forall (fun d => keyed_ok P g_Mac (keyed_type first d) d) ds.
Definition yrinv l s : Prop := keyed_ok P g_Mac 0 (l_dev l) /\ yinv s.
Local Notation keeps := (keeps ok yrinv).

Lemma yrinv_heap l s h : yrinv l s -> yrinv l (with_pheap h s).
Proof. exact id. Qed.
Lemma yrinv_el l s g :
  (forall e, element_typed g_Mac DEVICE_TYPE_KNX [0] e -> element_typed g_Mac DEVICE_TYPE_KNX [0] (g e)) ->
  yrinv l s -> yrinv (map_el g l) s.
Proof. intros Hg [[He Ha Hp Ho] Hs]. split; [|done]. split; simpl; try done. by apply Hg. Qed.
Lemma yrinv_fkey k l s : yrinv l s -> yrinv (set_fkey k l) s.
Proof. exact id. Qed.
Lemma yrinv_pkey k l s : yrinv l s -> yrinv (set_pkey k l) s.
Proof. exact id. Qed.
(** The structure has room for one channel more than are counted. *)
Definition grown l s : Prop := yrinv l s /\ length (ky_room (l_dev l)) = S (keySum (l_dev l)).

Lemma grown_key f l s : (forall a, P a -> P (f a)) -> grown l s -> grown (map_dev (at_key f) l) s.
Proof.
  intros Hf [[[He Ha Hp Ho] Hs] Hr]. split; [split; [split|]|]; simpl; try done.
  - by rewrite length_alter.
  - apply Forall_alter; [done|]. intros x _. apply Hf.
  - by rewrite length_alter.
Qed.
Lemma counted l s : grown l s -> yrinv (map_dev count_key l) s.
Proof. intros [[[He Ha Hp Ho] Hs] Hr]. split; [split|]; simpl; try done. lia. Qed.

Lemma yrinv_base g l s :
  (forall b, (String.length (kc_phyAddr b) <= EIB_ADDR)%nat ->
     (String.length (kc_phyAddr (g b)) <= EIB_ADDR)%nat /\ kc_el (g b) = kc_el b) ->
  yrinv l s -> yrinv (map_dev (on_kb g) l) s.
Proof.
  intros Hg [[He Ha Hp Ho] Hs]. split; [|done]. destruct (Hg (ky_base (l_dev l)) Ha) as (Ha' & E).
  split; simpl; try done. by rewrite E.
Qed.

(** ** Elements of a cell *)

Lemma yk_PhyAddr : keeps (PhyAddr false).
Proof.
  intros x l s Hl. apply pwp_bind, pwp_content; [done|]. intros [t|]; [|done]. apply pwp_ret. apply yrinv_base; [|done].
  intros b Hb. split; [by apply strncpy_over_length|done].
Qed.
Lemma yk_OnlineCheck : keeps KOnlineCheck.
Proof. apply keeps_when_letter; [done..|]. intros l s. by apply yrinv_base. Qed.
Lemma yk_DeviceAttr : keeps DeviceAttr.
Proof.
  intros x l s Hl. apply pwp_bind, pwp_content; [done|]. intros [t|]; [|done]. apply pwp_ret. simpl.
  destruct (is_letter _ _ t); [|destruct (is_letter _ _ t); [|done]]; (apply yrinv_el; [|done]); auto with xml.
Qed.
Lemma yk_LocalKey : keeps LocalKey.
Proof. intros x l s Hl. apply pwp_bind, pwp_content; [done|]. intros [t|]; exact Hl. Qed.
Lemma yk_SharedLibrary null fail : keeps (SharedLibrary null fail).
Proof. apply (keeps_SharedLibrary g_Mac ok Hexit Hcrash DEVICE_TYPE_KNX [0]); auto using yrinv_heap, yrinv_el. Qed.
Lemma yk_ProductID fail : keeps (ProductID fail actuator).
Proof.
  apply (keeps_ProductID g_Mac ok Hexit Hcrash DEVICE_TYPE_KNX [0]); auto using yrinv_heap, yrinv_el.
  intros e He. by apply et_attri, et_master.
Qed.
Lemma yk_ForeignKey null fail : keeps (ForeignKey null fail).
Proof. apply (keeps_ForeignKey g_Mac ok Hexit Hcrash DEVICE_TYPE_KNX [0]); auto using yrinv_heap, yrinv_el. Qed.
Lemma yk_ForeignType null : keeps (ForeignType null None).
Proof. apply (keeps_ForeignType g_Mac ok Hexit Hcrash DEVICE_TYPE_KNX [0]); auto using yrinv_heap, yrinv_el. done. Qed.

(** ** Elements of a channel *)

Definition chl_keeps (h : @handler D (loc D)) : Prop := forall x l s, grown l s -> pwp ok (h x l) (turned grown) s.

Lemma ck_group fail put done :
  (forall g a, group_fits (Some g) -> P a -> P (put g a)) -> (forall a, P a -> P (done a)) ->
  chl_keeps (group_child fail (fun g => at_key (put g)) (at_key done)).
Proof.
  intros Hput Hdone x l s Hl. apply pwp_bind, pwp_content; [by idtac|]. intros [t|]; [|by idtac].
  apply pwp_bind, pwp_pcalloc. intros [] h.
  - apply pwp_ret. apply (grown_key (put (Some (take_string EIB_ADDR t)))) in Hl; [|intros a; apply Hput, fits_text].
    by apply (grown_key done) in Hl.
  - apply pwp_end_round; [done..|]. apply grown_key; [|done]. intros a. apply Hput, fits_none.
Qed.

Lemma ck_store strict set t l s (Q : loc D -> pst D -> Prop) :
  (forall v a, P a -> P (set v a)) -> grown l s -> (forall l, grown l s -> Q l s) ->
  pwp ok (store_number strict (fun v => at_key (set v)) t l) Q s.
Proof.
  intros Hset Hl HQ. unfold store_number. destruct (strtol_errno t) as [v e]. destruct (e && strict); [done|].
  apply HQ, grown_key; auto.
Qed.
Lemma ck_number strict set : (forall v a, P a -> P (set v a)) -> chl_keeps (number_child strict (fun v => at_key (set v))).
Proof.
  intros Hset x l s Hl. apply pwp_bind, pwp_content; [done|]. intros [t|]; [|done].
  apply pwp_bind. eapply ck_store; [done|exact Hl|]. intros l' Hl'. exact Hl'.
Qed.
Lemma ck_tags ts x l s : Forall (fun t => chl_keeps t.2) ts -> grown l s -> pwp ok (tags ts x l) (turned grown) s.
Proof. intros Ht. by apply pwp_tags. Qed.
Lemma ck_loop ts l s kids : Forall (fun t => chl_keeps t.2) ts -> grown l s -> pwp ok (while_nodes (tags ts) kids l) grown s.
Proof. intros Ht. apply pwp_while_nodes; [done|]. intros x l' s'. by apply ck_tags. Qed.
Lemma ck_children ts : Forall (fun t => chl_keeps t.2) ts -> chl_keeps (children ts).
Proof. intros Ht x l s Hl. apply pwp_bind. eapply pwp_conseq; [by apply ck_loop|]. done. Qed.

Lemma ck_attrs (ts : list (string * (string -> loc D -> par (pst D) (loc D)))) x ats l s :
  Forall (fun t => forall v l s, grown l s -> pwp ok (t.2 v l) grown s) ts -> grown l s -> pwp ok (each_attr ts x ats l) grown s.
Proof.
  intros Ht. revert l s. induction ats as [|[n v] ats IH]; intros l s Hl; [done|]. cbn [each_attr]. apply pwp_bind.
  eapply pwp_conseq; [|intros l' s' Hl'; apply IH, Hl']. clear IH.
  induction Ht as [|[t h] ts Hh _ IH]; [done|]. destruct (same_name n t); [|exact IH].
  destruct (xmlGetProp x t); [by apply Hh|done].
Qed.

Lemma ck_new wild l s (Q : loc D -> pst D -> Prop) :
  P wild -> yrinv l s -> (forall l s, grown l s -> Q l s) -> pwp ok (new_channel wild l) Q s.
Proof.
  intros Hw [[He Ha Hp Ho] Hs] HQ. apply pwp_bind, pwp_pcalloc. intros [] h; [|done]. apply pwp_bind, pwp_pfree. intros h'.
  apply pwp_ret, HQ. assert (length (if (length (ky_room (l_dev l)) <=? keySum (l_dev l))%nat then ky_room (l_dev l) ++ [wild] else ky_room (l_dev l))
    = S (keySum (l_dev l))) as Hlen.
  { destruct (Nat.leb_spec (length (ky_room (l_dev l))) (keySum (l_dev l))); [rewrite length_app; simpl|]; lia. }
  split; [split; [split|]|]; simpl; try done.
  - lia.
  - destruct (_ <=? _)%nat; [|done]. by apply Forall_app_2; [|constructor].
Qed.

(** ** Cells *)

Lemma yk_cell fail h x k s :
  keeps h -> yinv s -> pwp ok (keyed_cell g_Mac name first fail h x k) (fun _ => yinv) s.
Proof.
  intros Hh Hs. apply pwp_bind, pwp_pcalloc. intros [] h0; cbn [negb]; cbv iota; [|by destruct fail].
  apply pwp_bind. eapply pwp_conseq.
  { apply (pwp_while_nodes ok Hhung yrinv); [exact Hh|]. split; [|done]. split; simpl.
    - split; try done. by left.
    - unfold EIB_ADDR. lia.
    - lia.
    - constructor. }
  intros l s1 [[He Ha Hp Ho] Hs1]. set (fin l s := keyed_ok P g_Mac (keyed_type first (l_dev l)) (l_dev l) /\ yinv s).
  assert (forall l s g, (forall e, element_typed g_Mac DEVICE_TYPE_KNX [keyed_type first (l_dev l)] e ->
            element_typed g_Mac DEVICE_TYPE_KNX [keyed_type first (l_dev l)] (g e)) -> fin l s -> fin (map_el g l) s) as Hel.
  { intros l' s' g Hg [[He' Ha' Hp' Ho'] Hs']. split; [|done]. split; simpl; try done. by apply Hg. }
  assert (fin (map_el (set_el_primaryType (keyed_type first (l_dev l))) l) s1) as Hl.
  { split; [|done]. split; simpl; try done. destruct He as [H1 H2 H3 _]. split; try done. by left. }
  revert Hl. generalize (map_el (set_el_primaryType (keyed_type first (l_dev l))) l). clear l He Ha Hp Ho Hs1. intros l Hl.
  apply pwp_bind. eapply (pwp_conseq _ _ (fun r s => fin r.2 s)).
  { unfold write_pkey. destruct (l_pkey l) as [t|]; [|exact Hl]. apply pwp_bind, pwp_pcalloc. intros [] h1.
    - apply pwp_ret. simpl. apply Hel; [|exact Hl]. intros e. apply et_put_key.
    - apply pwp_ret. simpl. apply Hel; [|exact Hl]. intros e. apply et_no_key. }
  intros [kept l'] s2 Hl'. simpl in Hl'. destruct kept; cbn [negb]; cbv iota; [|apply Hl'].
  apply pwp_bind. eapply (pwp_conseq _ _ fin).
  { destruct (el_bMaster _); [|exact Hl']. unfold put_foreign. destruct (l_fkey l') as [t|]; [|exact Hl'].
    destruct (pForeignKey _); [|done]. apply pwp_ret. apply Hel; [|exact Hl']. intros e. apply et_set_foreign, key_text_length. }
  intros l'' s3 [Hd (ds & Eds & Hds)]. apply pwp_bind, pwp_ret. exists (ds ++ [l_dev l'']). simpl.
  rewrite Eds, <- app_assoc. split; [done|]. apply Forall_app_2; [done|]. by constructor.
Qed.

Lemma yk_parse fail h path xpath s :
  keeps h -> yinv s -> pwp ok (parse_keyed path xpath (keyed_cell g_Mac name first fail h)) (fun _ => yinv) s.
Proof.
  intros Hh Hs. unfold parse_keyed. destruct path as [p|]; [|done]. destruct (xmlReadFile p) as [d|]; [|done].
  destruct (XmlGetNode d xpath) as [l|]; [|done]. apply pwp_bind. generalize ((None, None) : keys). revert s Hs.
  induction l as [|x l IH]; intros s Hs k; [done|]. cbn [for_cells]. apply pwp_bind.
  eapply pwp_conseq; [by apply yk_cell|]. intros k' s' Hs'. by apply IH.
Qed.
End Rounds.

(** ** The three parsers *)

Section Families.
Context `{LibXml} (g_Mac : string) (now : Z).
Local Notation ok := (fun _ : stop => True).

Ltac base_tag :=
  cbn [snd];
  lazymatch goal with
  | |- keeps _ _ (SharedLibrary _ _) => by apply yk_SharedLibrary
  | |- keeps _ _ (ProductID _ _) => by apply yk_ProductID
  | |- keeps _ _ (PhyAddr _) => by apply yk_PhyAddr
  | |- keeps _ _ LocalKey => by apply yk_LocalKey
  | |- keeps _ _ (ForeignKey _ _) => by apply yk_ForeignKey
  | |- keeps _ _ (ForeignType _ _) => by apply yk_ForeignType
  | |- keeps _ _ KOnlineCheck => by apply yk_OnlineCheck
  | |- keeps _ _ DeviceAttr => by apply yk_DeviceAttr
  | |- _ => idtac
  end.
Ltac base_tags :=
  apply keeps_tags; repeat apply Forall_app_2; repeat first [apply Forall_nil_2 | apply Forall_cons_2]; base_tag.
(** The elements of a channel. *)
Ltac chl_tags :=
  repeat first [apply Forall_nil_2 | apply Forall_cons_2]; cbn [snd];
  first [apply ck_group; [done|..]; intros; eauto 8 with panels | apply ck_number; [done..|]; intros; eauto 8 with panels | idtac].

Lemma panel_channel_keeps l0 : keeps ok (yrinv points_ok g_Mac KNX_PANEL_ONE_KEY l0) (panel_channel now).
Proof.
  intros x l s Hl. apply pwp_bind. eapply ck_new; [done|apply wild_ok|exact Hl|]. clear l s Hl. intros l s Hl.
  apply pwp_bind. eapply pwp_conseq; [apply ck_attrs; [|exact Hl]|].
  - apply Forall_cons_2; [|apply Forall_nil_2]. intros v l' s' Hl'. apply pwp_ret. apply grown_key; [|exact Hl'].
    intros p. apply ok_mode.
  - intros l1 s1 Hl1. destruct (x_kids x) as [|k ks]; [apply Hl1|]. apply pwp_bind.
    eapply pwp_conseq; [apply ck_loop; [done| |exact Hl1]|intros l2 s2 Hl2; by apply counted].
    unfold panel_parts. chl_tags.
Qed.

Lemma smart_select_keeps l0 : chl_keeps smart_ok g_Mac KNX_MISC_PANEL_ONE_KEY ok l0 smart_select.
Proof.
  intros x l s Hl. apply pwp_bind, pwp_content; [done|]. intros [t|]; [|done]. cbv zeta.
  assert (forall v, pwp ok (mret (Next (map_dev (at_key (on_sc_mode (fun p =>
    set_pc_value (Some v) (set_pc_type (Some POINT_TYPE_U8) (set_pc_feature (Some FEATURE_MODE) p))))) l))) (turned (grown smart_ok g_Mac KNX_MISC_PANEL_ONE_KEY l0)) s) as Hv.
  { intros v. apply pwp_ret. apply grown_key; [|exact Hl]. intros c. apply ok_sc_mode. intros p Hp. auto with panels. }
  destruct (same_name t "switch"); [apply Hv|]. destruct (same_name t "scene"); [apply Hv|done].
Qed.

Lemma smart_channel_keeps l0 : keeps ok (yrinv smart_ok g_Mac KNX_MISC_PANEL_ONE_KEY l0) (smart_channel now).
Proof.
  intros x l s Hl. apply pwp_bind. eapply ck_new; [done| |exact Hl|]. { split_and!; apply wild_ok. }
  clear l s Hl. intros l s Hl. apply pwp_bind.
  eapply pwp_conseq; [apply ck_loop; [done| |exact Hl]|intros l2 s2 Hl2; by apply counted].
  repeat apply Forall_cons_2; [..|by apply Forall_nil_2]; cbn [snd]; (apply ck_children; [done|]).
  - unfold smart_switch. chl_tags.
  - unfold smart_scene. chl_tags.
  - apply Forall_cons_2; [apply smart_select_keeps|]. chl_tags.
Qed.

Lemma dimmer_channel_keeps l0 : keeps ok (yrinv dimmer_ok g_Mac KNX_DIMMER_ONE_KEY l0) dimmer_channel.
Proof.
  intros x l s Hl. apply pwp_bind. eapply ck_new; [done| |exact Hl|]. { split; apply wild_ok. }
  clear l s Hl. intros l s Hl. apply pwp_bind. eapply pwp_conseq; [apply ck_attrs; [|exact Hl]|].
  { apply Forall_cons_2; [|apply Forall_nil_2]. intros v l' s' Hl'. apply pwp_ret. apply grown_key; [|exact Hl'].
    intros c Hc. auto with panels. }
  clear l s Hl. intros l s Hl. apply pwp_bind.
  eapply pwp_conseq; [apply ck_loop; [done| |exact Hl]|intros l2 s2 Hl2; by apply counted].
  apply Forall_cons_2; [|apply Forall_cons_2; [|apply Forall_nil_2]]; cbn [snd].
  - apply ck_children; [done|]. unfold dimmer_switch. chl_tags.
  - clear l s Hl. intros y l s Hl. apply pwp_bind. eapply pwp_conseq; [apply ck_attrs; [|exact Hl]|].
    + unfold dimmer_range. repeat first [apply Forall_nil_2 | apply Forall_cons_2]; cbn [snd]; intros v l' s' Hl';
        (eapply ck_store; [done| |exact Hl'|done]); intros; auto with panels.
    + intros l' s' Hl'. apply ck_children; [done| |exact Hl']. unfold dimmer_bright. chl_tags.
Qed.

Lemma panel_parsed path s :
  pwp ok (ParseKnxPanelCfg g_Mac now path) (fun _ => yinv points_ok g_Mac KNX_PANEL_ONE_KEY (p_list s)) s.
Proof.
  apply yk_parse; [done..| |]; [|exists []; by rewrite app_nil_r]. apply keeps_both; base_tags. apply panel_channel_keeps.
Qed.

Lemma smart_parsed path s :
  pwp ok (ParseKnxSmartPanelCfg g_Mac now path) (fun _ => yinv smart_ok g_Mac KNX_MISC_PANEL_ONE_KEY (p_list s)) s.
Proof. apply yk_parse; [done..| |]; [|exists []; by rewrite app_nil_r]. base_tags. apply smart_channel_keeps. Qed.

Lemma dimmer_parsed path s :
  pwp ok (ParseKnxDimmerCfg g_Mac path) (fun _ => yinv dimmer_ok g_Mac KNX_DIMMER_ONE_KEY (p_list s)) s.
Proof. apply yk_parse; [done..| |]; [|exists []; by rewrite app_nil_r]. base_tags. apply dimmer_channel_keeps. Qed.

(** C32: whatever a configuration holds, the devices the parsers of the panels, smart panels and dimmers add are well
    formed: the array has room for the channels that are counted and one more at most, the type is the first of the
    family's plus the number of channels less one, the addresses fit their members, the keys fit their blocks and the
    device id is the one of the key; the devices that were in the list stay. *)
Theorem panel_cfg_typed (path : option string) (sp sp' : pst (KeyedCfg KnxPointsCfg)) (ss ss' : pst (KeyedCfg KnxSmartPanelCfg)) (sd sd' : pst (KeyedCfg KnxDimmerCfg)) (r : Z) :
  (ParseKnxPanelCfg g_Mac now path sp = Got r sp' ->
   exists l, p_list sp' = p_list sp ++ l /\ Forall (fun d => keyed_ok points_ok g_Mac (keyed_type KNX_PANEL_ONE_KEY d) d) l) /\
  (ParseKnxSmartPanelCfg g_Mac now path ss = Got r ss' ->
   exists l, p_list ss' = p_list ss ++ l /\ Forall (fun d => keyed_ok smart_ok g_Mac (keyed_type KNX_MISC_PANEL_ONE_KEY d) d) l) /\
  (ParseKnxDimmerCfg g_Mac path sd = Got r sd' ->
   exists l, p_list sd' = p_list sd ++ l /\ Forall (fun d => keyed_ok dimmer_ok g_Mac (keyed_type KNX_DIMMER_ONE_KEY d) d) l).
Proof.
  split_and!; intros E.
  - pose proof (panel_parsed path sp) as Hp. unfold pwp in Hp. rewrite E in Hp. exact Hp.
  - pose proof (smart_parsed path ss) as Hp. unfold pwp in Hp. rewrite E in Hp. exact Hp.
  - pose proof (dimmer_parsed path sd) as Hp. unfold pwp in Hp. rewrite E in Hp. exact Hp.
Qed.
End Families.

(** ** Curtains *)

Record curtain_ok (g_Mac : string) (d : KnxCurtainCfg) : Prop := {
  uo_element : element_typed g_Mac DEVICE_TYPE_KNX [KNX_DEVICE_CURTAIN] (kc_el (cu_base d));
  uo_open : curtain_point_ok CURTAIN_OPEN (cu_pOpen d);
  uo_close : curtain_point_ok CURTAIN_CLOSE (cu_pClose d);
  uo_stop : curtain_point_ok CURTAIN_STOP (cu_pStop d)
}.

(** The structure as the KNX functions see it. *)
Definition points_of_cfg (p : KnxPointsCfg) : option KnxPoints_t :=
  dp ← pc_id p; m ← pc_mode p; mx ← pc_max p; v ← pc_value p; t ← pc_timestamp p; c ← pc_pCtrl p; f ← pc_pFeedback p;
  Some (KnxPoint dp m mx v t c f).
Definition curtain_node (fkey : option string) (d : KnxCurtainCfg) : KnxDev :=
  let e := kc_el (cu_base d) in
  KnxCurtain_t (KBase None (Element (default "" (el_pPrimaryKey e)) (el_devId e) (el_primaryType e) (el_bMaster e) fkey) (attri e)
      (kc_bOnlineCheck (cu_base d)) 0)
    (cu_pOpen d ≫= points_of_cfg) (cu_pClose d ≫= points_of_cfg) (cu_pStop d ≫= points_of_cfg).

Section Curtains.
Context `{LibXml} (g_Mac : string).
Local Notation ok := (fun _ : stop => True).
Variable l0 : list KnxCurtainCfg.
Implicit Types (l : loc KnxCurtainCfg) (s : pst KnxCurtainCfg).

Definition uinv s : Prop := exists ds, p_list s = l0 ++ ds /\ Forall (curtain_ok g_Mac) ds.
Definition urinv l s : Prop := curtain_ok g_Mac (l_dev l) /\ uinv s.
Local Notation keeps := (keeps ok urinv).

Lemma urinv_heap l s h : urinv l s -> urinv l (with_pheap h s).
Proof. exact id. Qed.
Lemma urinv_el l s g :
  (forall e, element_typed g_Mac DEVICE_TYPE_KNX [KNX_DEVICE_CURTAIN] e -> element_typed g_Mac DEVICE_TYPE_KNX [KNX_DEVICE_CURTAIN] (g e)) ->
  urinv l s -> urinv (map_el g l) s.
Proof. intros Hg [[He H1 H2 H3] Hs]. split; [|done]. split; simpl; try done. by apply Hg. Qed.
Lemma urinv_fkey k l s : urinv l s -> urinv (set_fkey k l) s.
Proof. exact id. Qed.

Lemma uk_ProductID fail : keeps (ProductID fail actuator).
Proof.
  apply (keeps_ProductID g_Mac ok I I DEVICE_TYPE_KNX [KNX_DEVICE_CURTAIN]); auto using urinv_heap, urinv_el.
  intros e He. by apply et_attri, et_master.
Qed.
Lemma uk_PrimaryKey null fail : keeps (PrimaryKey g_Mac DEVICE_TYPE_KNX id null fail).
Proof. apply (keeps_PrimaryKey g_Mac ok I I DEVICE_TYPE_KNX [KNX_DEVICE_CURTAIN]); auto using urinv_heap, urinv_el. Qed.
Lemma uk_ForeignType null : keeps (ForeignType null None).
Proof. apply (keeps_ForeignType g_Mac ok I I DEVICE_TYPE_KNX [KNX_DEVICE_CURTAIN]); auto using urinv_heap, urinv_el. done. Qed.
Lemma uk_ForeignKey : keeps (CurtainForeignKey g_Mac).
Proof.
  intros x l s Hl. apply pwp_bind, pwp_content; [done|]. intros [t|]; [|done]. apply pwp_bind, pwp_pcalloc. intros [] h; apply pwp_ret;
    (apply urinv_el; [|exact Hl]); intros e; [apply et_set_foreign, key_text_length|by apply et_set_foreign].
Qed.
Lemma uk_OnlineCheck : keeps KOnlineCheck.
Proof. apply keeps_when_letter; [done..|]. intros l s [[He H1 H2 H3] Hs]. by split. Qed.

(** The points of an element, and the data point that is kept for its end. *)
Definition uacc (a : loc KnxCurtainCfg * Z) s : Prop := urinv a.1 s /\ 0 <= a.2 < 65536.

Lemma uk_point put feature :
  (forall o d, curtain_point_ok feature o -> curtain_ok g_Mac d -> curtain_ok g_Mac (put o d)) ->
  forall x a s, uacc a s -> pwp ok (curtain_point put feature x a) (turned uacc) s.
Proof.
  intros Hput x a s [[Hl Hs] Ha]. apply pwp_bind, pwp_content; [done|]. intros [t|]; [|done].
  apply pwp_bind, pwp_pcalloc. intros [] h; [|done]. apply pwp_bind, pwp_pcalloc. intros [] h'; [|done]. apply pwp_ret.
  split; [|exact Ha]. split; [|exact Hs]. apply Hput; [|exact Hl]. exists (take_string EIB_ADDR t), 0.
  split; [apply take_string_length|]. split; [lia|]. unfold described, set_pc_pCtrl, zero_point. reflexivity.
Qed.
Lemma uk_id x a s : uacc a s -> pwp ok (curtain_id x a) (turned uacc) s.
Proof.
  intros [Hl Ha]. apply pwp_bind, pwp_content; [done|]. intros [t|]; [|done]. apply pwp_bind, pwp_number; [done|].
  intros v Hv. apply pwp_ret. split; [exact Hl|apply u16_range].
Qed.

Lemma ok_curtain_id feature dp o : 0 <= dp < 65536 -> curtain_point_ok feature o -> curtain_point_ok feature (set_pc_id (Some dp) <$> o).
Proof. intros Hd. destruct o as [p|]; [|done]. intros (a & v & Ha & _ & ->). exists a, dp. split; [exact Ha|]. by split. Qed.
Lemma ok_put_open o d : curtain_point_ok CURTAIN_OPEN o -> curtain_ok g_Mac d -> curtain_ok g_Mac (put_open o d).
Proof. intros Ho []. by split. Qed.
Lemma ok_put_close o d : curtain_point_ok CURTAIN_CLOSE o -> curtain_ok g_Mac d -> curtain_ok g_Mac (put_close o d).
Proof. intros Ho []. by split. Qed.
Lemma ok_put_stop o d : curtain_point_ok CURTAIN_STOP o -> curtain_ok g_Mac d -> curtain_ok g_Mac (put_stop o d).
Proof. intros Ho []. by split. Qed.

Lemma uk_part ts f :
  Forall (fun t => forall x a s, uacc a s -> pwp ok (t.2 x a) (turned uacc) s) ts ->
  (forall dp d, 0 <= dp < 65536 -> curtain_ok g_Mac d -> curtain_ok g_Mac (f dp d)) ->
  forall kids l s, urinv l s ->
  pwp ok ('(l, dp) ← while_nodes (tags ts) kids (l, 0); mret (Next (map_dev (f dp) l))) (turned urinv) s.
Proof.
  intros Ht Hf kids l s Hl. apply pwp_bind. eapply pwp_conseq.
  - apply (pwp_while_nodes ok I uacc); [|split; [exact Hl|simpl; lia]]. intros x a s' Ha. by apply pwp_tags.
  - intros [l' dp] s' [[Hd Hs] Hdp]. apply pwp_ret. split; [|exact Hs]. by apply Hf.
Qed.

Lemma uk_control : keeps curtain_control.
Proof.
  intros x l s Hl. unfold curtain_control. destruct (x_kids x) as [|k ks]; [done|].
  apply (uk_part _ (fun dp d => put_close (set_pc_id (Some dp) <$> cu_pClose d) (put_open (set_pc_id (Some dp) <$> cu_pOpen d) d))); [| |exact Hl].
  - repeat (apply Forall_cons_2; [|]); [..|apply Forall_nil_2]; cbn [snd].
    + apply uk_point, ok_put_open.
    + apply uk_point, ok_put_close.
    + apply uk_id.
  - intros dp d Hd Ho. apply ok_put_close; [|apply ok_put_open; [|done]]; apply ok_curtain_id; try done; apply Ho.
Qed.
Lemma uk_pause : keeps curtain_pause.
Proof.
  intros x l s Hl. unfold curtain_pause. destruct (x_kids x) as [|k ks]; [done|].
  apply (uk_part _ (fun dp d => put_stop (set_pc_id (Some dp) <$> cu_pStop d) d)); [| |exact Hl].
  - repeat (apply Forall_cons_2; [|]); [..|apply Forall_nil_2]; cbn [snd]; [apply uk_point, ok_put_stop|apply uk_id].
  - intros dp d Hd Ho. apply ok_put_stop; [|done]. apply ok_curtain_id; [done|apply Ho].
Qed.

Lemma uk_cell x s : uinv s -> pwp ok (curtain_cell g_Mac x) (fun _ => uinv) s.
Proof.
  intros Hs. apply pwp_bind, pwp_pcalloc. intros [] h; [|done]. cbn [negb]. cbv iota. apply pwp_bind. eapply pwp_conseq.
  - apply (pwp_while_nodes ok I urinv).
    + apply keeps_tags. unfold kcurtain_tags. repeat (apply Forall_cons_2; [|]); [..|apply Forall_nil_2]; cbn [snd];
        [apply uk_ProductID|apply uk_PrimaryKey|apply uk_ForeignKey|apply uk_ForeignType|apply uk_OnlineCheck|apply uk_control|apply uk_pause|..];
        intros y l' s' Hl'; exact Hl'.
    + split; [|exact Hs]. split; [|exact Logic.I..]. split; try done. by left.
  - intros l s' [Hl (ds & E & Hds)]. exists (ds ++ [l_dev l]). simpl. rewrite E, <- app_assoc. split; [done|].
    apply Forall_app_2; [done|]. by constructor.
Qed.
End Curtains.

Lemma curtain_value feature o :
  curtain_point_ok feature o ->
  match o ≫= points_of_cfg with
  | Some k => kp_value k = 0 /\ kp_pCtrl k <> None /\ o <> None
  | None => o = None
  end.
Proof. destruct o as [p|]; [|done]. by intros (a & v & _ & _ & ->). Qed.

Lemma curtain_parsed `{LibXml} g_Mac path (s : pst KnxCurtainCfg) :
  pwp (fun _ => True) (ParseKnxCurtainCfg g_Mac path) (fun _ => uinv g_Mac (p_list s)) s.
Proof. apply pwp_parse_cells; [intros; by apply uk_cell|]. exists []. by rewrite app_nil_r. Qed.

(** Whatever a configuration holds, the curtains the parser adds are ones the KNX functions can work with: the type is
    the one of the structure, every point that is there has its number, a data point of 16 bits and a group that fits
    its member (nothing of it is wild), so that [typed] holds and no group address is read through a null pointer. *)
Theorem curtain_cfg_typed `{LibXml} g_Mac path (s s' : pst KnxCurtainCfg) r :
  ParseKnxCurtainCfg g_Mac path s = Got r s' ->
  exists l, p_list s' = p_list s ++ l /\ Forall (curtain_ok g_Mac) l /\
    forall fkey d, d ∈ l -> typed (curtain_node fkey d) /\
      match curtain_node fkey d with
      | KnxCurtain_t _ x y z => Forall (opt_ok pt_ok) [x; y; z] /\ (x = None <-> cu_pOpen d = None) /\
          (y = None <-> cu_pClose d = None) /\ (z = None <-> cu_pStop d = None)
      | _ => False
      end.
Proof.
  intros E. pose proof (curtain_parsed g_Mac path s) as Hp.
  unfold pwp in Hp. rewrite E in Hp. destruct Hp as (l & El & Hl). exists l. split; [done|]. split; [done|].
  intros fkey d Hd. rewrite Forall_forall in Hl. destruct (Hl d Hd) as [[_ _ _ Ht%list_elem_of_singleton] H1 H2 H3].
  apply curtain_value in H1, H2, H3. unfold typed, KnxLoop.shape_ok, type_of, curtain_node. cbn [base_of kb_element primaryType].
  destruct (cu_pOpen d ≫= _), (cu_pClose d ≫= _), (cu_pStop d ≫= _); destruct_and?; split_and!;
    try (rewrite ?H1, ?H2, ?H3); repeat first [apply Forall_cons_2 | apply Forall_nil_2]; cbn; unfold pt_ok;
    try done; try lia; repeat match goal with E : kp_value _ = 0 |- _ => rewrite E; clear E end; try (by split); try lia; split; congruence.
Qed.

(** A curtain and a dimmer. *)
Definition curtain_sample : list (string * list (string * list xnode)) := [("cfg.xml", [
  ("/Device/KNX/Curtain/Cell", [kelem "Cell" [kleaf "PrimaryKey" "9"; kelem "control" [kleaf "open" "1/3/1"; kleaf "DataPoint" "4"]]]);
  ("/Device/KNX/Dimmer/Cell", [kelem "Cell" [kleaf "PrimaryKey" "5"; kelem "channel" [kelem "Switch" [kleaf "Ctrl" "1/4/1"]]]])])].

Lemma curtain_cfg_typed_witness :
  exists s' d, @ParseKnxCurtainCfg (tree_lib curtain_sample) "AABBCCDDEEFF" (Some "cfg.xml") (PSt [] (W [] [] [] [] []) (Heap [] 0)) = Got 0 s' /\
    p_list s' = [d] /\ typed (curtain_node None d).
Proof.
  eexists _, _. split; [vm_compute; reflexivity|]. split; [reflexivity|].
  edestruct (curtain_cfg_typed (H := tree_lib curtain_sample) "AABBCCDDEEFF" (Some "cfg.xml") (PSt [] (W [] [] [] [] []) (Heap [] 0)))
    as (l & El & _ & Hl); [vm_compute; reflexivity|].
  simpl app in El. subst l. apply (Hl None). by left.
Defined.

Lemma panel_cfg_typed_witness :
  exists s' d, @ParseKnxDimmerCfg (tree_lib curtain_sample) "AABBCCDDEEFF" (Some "cfg.xml") (PSt [] (W [] [] [] [] []) (Heap [] 0)) = Got 0 s' /\
    p_list s' = [d] /\ keyed_ok dimmer_ok "AABBCCDDEEFF" KNX_DIMMER_ONE_KEY d.
Proof.
  eexists _, _. split; [vm_compute; reflexivity|]. split; [reflexivity|].
  pose proof (fun sd' => proj2 (proj2 (panel_cfg_typed (H := tree_lib curtain_sample) "AABBCCDDEEFF" 0 (Some "cfg.xml")
    (PSt [] (W [] [] [] [] []) (Heap [] 0)) (PSt [] (W [] [] [] [] []) (Heap [] 0)) (PSt [] (W [] [] [] [] []) (Heap [] 0))
    (PSt [] (W [] [] [] [] []) (Heap [] 0)) (PSt [] (W [] [] [] [] []) (Heap [] 0)) sd' 0))) as Hd.
  edestruct Hd as (l & El & Hl); [vm_compute; reflexivity|]. simpl app in El. subst l. rewrite Forall_forall in Hl.
  lazymatch goal with |- keyed_ok _ _ _ ?d => exact (Hl d ltac:(by left)) end.
Defined.
