(* ===== verification/ParseMisc.v ===== *)
(** The other parts of the configuration: the gateway itself, the Zigbee devices, the
    switches of the buses, digital inputs and outputs, the scenes of the KNX bus and
    the groups (source/parseXML.c). *)

From Stdlib Require Import Ascii.
From stdpp Require Import pretty.
From S2P Require Import Prelude CMem CStr Device Serial DioScan Gateway Xml Cells ParseKnx ParsePanels.

Local Open Scope string_scope.
Local Open Scope list_scope.
Local Open Scope Z_scope.

(** The nodes a parser works on. *)
Definition doc_nodes `{LibXml} (pDocPath : option string) (xpath : string) : option (list xnode) :=
  match pDocPath with
  | None => None
  | Some path => match xmlReadFile path with Some d => XmlGetNode d xpath | None => None end
  end.

(** [pointer = calloc (1, strlen (text) + 1)], then [strcpy], when there is a text. *)
Definition element_text {D} `{HasElement D} `{LibXml} (dst : option string -> CfgElement -> CfgElement) (fail : fate) :
    @handler D (loc D) := fun x l =>
  c ← XML_GET_CONTENT x;
  match c with None => mret (Next l) | Some t => copy_text dst fail id t l end.

(** ** The gateway *)

#[export] Instance self_element : HasElement CfgElement := {| get_el e := e; put_el e _ := e |}.

Section Gateway.
Context `{LibXml}.

(** Of every node of the set the elements are copied into [*pElement]. *)
Definition element_tags : list (string * @handler CfgElement (loc CfgElement)) := [
  ("UUID", element_text set_szUUID Retry); ("AuthKey", element_text set_szAuthKey Retry);
  ("ProductID", element_text set_pProductId Exit)].
Fixpoint element_nodes (l : list xnode) (e : loc CfgElement) : par (pst CfgElement) (loc CfgElement) :=
  match l with [] => mret e | x :: l => e ← while_nodes (tags element_tags) (x_kids x) e; element_nodes l e end.
Definition ParseDeviceElement (pDocPath : option string) (pElement : option CfgElement) :
    par (pst CfgElement) (Z * option CfgElement) :=
  match pElement, doc_nodes pDocPath "/Device/Gateway" with
  | Some e, Some l => e ← element_nodes l (Loc e None None None); mret (0, Some (l_dev e))
  | e, _ => mret (-1, e)
  end.

(** [Gateway_t]: of a point the number of the data point. *)
Record Gateway_t := Gw {
  gw_pProductId : option string;
  gw_pState : option Z;
  gw_pReset : option Z;
  gw_pAlarm : option Z;
  gw_pScene : option Z;
  gw_pFault : option Z;
  gw_pPos : option Z
}.
Definition Gw0 : Gateway_t := Gw None None None None None None None.
Definition put_product v g := Gw v (gw_pState g) (gw_pReset g) (gw_pAlarm g) (gw_pScene g) (gw_pFault g) (gw_pPos g).
Definition put_state v g := Gw (gw_pProductId g) v (gw_pReset g) (gw_pAlarm g) (gw_pScene g) (gw_pFault g) (gw_pPos g).
Definition put_reset v g := Gw (gw_pProductId g) (gw_pState g) v (gw_pAlarm g) (gw_pScene g) (gw_pFault g) (gw_pPos g).
Definition put_alarm v g := Gw (gw_pProductId g) (gw_pState g) (gw_pReset g) v (gw_pScene g) (gw_pFault g) (gw_pPos g).
Definition put_scene v g := Gw (gw_pProductId g) (gw_pState g) (gw_pReset g) (gw_pAlarm g) v (gw_pFault g) (gw_pPos g).
Definition put_pos v g := Gw (gw_pProductId g) (gw_pState g) (gw_pReset g) (gw_pAlarm g) (gw_pScene g) (gw_pFault g) v.

(** The blocks are used without a test for null. *)
Definition gw_product : @handler unit (option Gateway_t) := fun x g =>
  c ← XML_GET_CONTENT x;
  match c with
  | None => mret (Next g)
  | Some t =>
      ok ← pcalloc;
      match g with
      | Some g => if (ok : bool) then mret (Next (Some (put_product (Some t) g))) else stopped Crashed
      | None => stopped Crashed
      end
  end.
Definition gw_point (strict : bool) (put : option Z -> Gateway_t -> Gateway_t) : @handler unit (option Gateway_t) := fun x g =>
  c ← XML_GET_CONTENT x;
  match c with
  | None => mret (Next g)
  | Some t =>
      ok ← pcalloc;
      match g with
      | Some g =>
          if negb ok then stopped Crashed else
          let '(v, err) := strtol_errno t in
          if err && strict then stopped Exited else mret (Next (Some (put (Some (u16 v)) g)))
      | None => stopped Crashed
      end
  end.
(** The fault is stored where the reset is. *)
Definition gateway_tags : list (string * @handler unit (option Gateway_t)) := [
  ("ProductID", gw_product); ("state", gw_point false put_state); ("reset", gw_point false put_reset);
  ("alarm", gw_point false put_alarm); ("scene", gw_point true put_scene); ("fault", gw_point false put_reset);
  ("pos", gw_point true put_pos)].
Definition ParseGatewayCfg (pDocPath : option string) : par (pst unit) (option Gateway_t) :=
  match doc_nodes pDocPath "/Device/Gateway" with
  | None => mret None
  | Some l =>
      ok ← pcalloc;
      while_nodes (tags gateway_tags) (match l with x :: _ => x_kids x | [] => [] end) (if (ok : bool) then Some Gw0 else None)
  end.

(** ** Switches

    An attribute with one of two words sets [*pEnabled]. *)

Definition switch_attr (name yes no : string) (x : xnode) (b : bool) : par (pst unit) bool :=
  each_attr [(name, fun v (b : bool) => mret (if same_name v yes then true else if same_name v no then false else b))] x (x_attrs x) b.
Fixpoint switch_nodes (name yes no : string) (l : list xnode) (b : bool) : par (pst unit) bool :=
  match l with [] => mret b | x :: l => b ← switch_attr name yes no x b; switch_nodes name yes no l b end.
Definition parse_switch (xpath name yes no : string) (pDocPath : option string) (b : bool) : par (pst unit) (Z * bool) :=
  match doc_nodes pDocPath xpath with
  | None => mret (-1, b)
  | Some l => b ← switch_nodes name yes no l b; mret (0, b)
  end.
Definition ParseZigbeeCfg := parse_switch "/Device/Zigbee" "module" "pass" "bad".
Definition ParseKnxCfg := parse_switch "/Device/KNX" "autoAck" "enabled" "disabled".

(** ** Zigbee devices: [Z3Dev_t] *)

Record Z3Cfg := Z3C { z3_el : CfgElement; z3_uddd : Z }.
#[export] Instance z3_element : HasElement Z3Cfg := {| get_el := z3_el; put_el e d := Z3C e (z3_uddd d) |}.
Definition z3_round : @handler Z3Cfg (loc Z3Cfg) :=
  both (tags [("SharedLibrary", element_text set_szPlugin Retry)])
  (both (tags [("UUID", element_text set_szUUID Retry)])
  (both (tags [("AuthKey", element_text set_szAuthKey Retry)])
        (tags [("ProductID", element_text set_pProductId Crash)]))).
(** [assert (pZ3Dev != NULL)] ends the process. *)
Definition z3_cell (x : xnode) : par (pst Z3Cfg) unit :=
  ok ← pcalloc;
  if negb ok then stopped Exited else
  l ← while_nodes z3_round (x_kids x) (Loc (Z3C El0 0) None None None);
  listAddNodeTail (Z3C (z3_el (l_dev l)) 0x8000200).
Definition ParseZ3Cfg (pDocPath : option string) : par (pst Z3Cfg) Z := parse_cells pDocPath "/Device/Zigbee/Cell" z3_cell.
End Gateway.

(** ** Digital inputs and outputs: [DiDev_t], [DoDev_t]

    Of an input [cmd] is the command its level is read with; of an output only what
    the parser sets. *)

Record DioCfg := DioC { io_el : CfgElement; io_eLevel : Z; io_dataPoint : Z; io_channel : Z; io_cmd : string; io_status : Z; io_retryNum : Z; io_retryCnt : Z }.
#[export] Instance dio_element : HasElement DioCfg :=
  {| get_el := io_el; put_el e d := DioC e (io_eLevel d) (io_dataPoint d) (io_channel d) (io_cmd d) (io_status d) (io_retryNum d) (io_retryCnt d) |}.
Definition set_io_eLevel v d := DioC (io_el d) v (io_dataPoint d) (io_channel d) (io_cmd d) (io_status d) (io_retryNum d) (io_retryCnt d).
Definition set_io_dataPoint v d := DioC (io_el d) (io_eLevel d) v (io_channel d) (io_cmd d) (io_status d) (io_retryNum d) (io_retryCnt d).
Definition set_io_channel v d := DioC (io_el d) (io_eLevel d) (io_dataPoint d) v (io_cmd d) (io_status d) (io_retryNum d) (io_retryCnt d).
Definition set_io_cmd v d := DioC (io_el d) (io_eLevel d) (io_dataPoint d) (io_channel d) v (io_status d) (io_retryNum d) (io_retryCnt d).

Definition DO_LEVEL_OPEN : Z := 0.
Definition DO_LEVEL_CLOSE : Z := 1.

Section Dio.
Context `{LibXml}.
Variable g_Mac : string.
Local Notation P := (par (pst DioCfg)).
Local Notation hnd := (@handler DioCfg (loc DioCfg)).

Definition Trigger : hnd := fun x l =>
  c ← XML_GET_CONTENT x;
  match c with
  | None => stopped Exited
  | Some t =>
      mret (Next (if starts "low" t then map_dev (set_io_eLevel DI_LEVEL_LOW) l
                  else if starts "high" t then map_dev (set_io_eLevel DI_LEVEL_HIGH) l else l))
  end.
Definition Output : hnd := fun x l =>
  c ← XML_GET_CONTENT x;
  match c with
  | None => mret (Next l)
  | Some t =>
      mret (Next (if starts "open" t then map_dev (set_io_eLevel DO_LEVEL_OPEN) l
                  else if starts "close" t then map_dev (set_io_eLevel DO_LEVEL_CLOSE) l else l))
  end.
(** The file of an input. *)
Definition di_cmd (channel : Z) (cmd : string) : string :=
  if (1 <=? channel) && (channel <=? 4) then "cat /sys/class/dry-interface/di" +:+ pretty channel +:+ "/value" else cmd.
Definition DiChannel (v : Z) (d : DioCfg) : DioCfg :=
  let d := set_io_channel (u8 v) d in set_io_cmd (di_cmd (io_channel d) (io_cmd d)) d.

(** What inputs and outputs share; the text of the product is copied without a test. *)
Definition dio_round (own : list (string * hnd)) : hnd :=
  both (tags [("UUID", element_text set_szUUID Retry)])
  (both (tags [("AUTHKEY", element_text set_szAuthKey Retry)])
  (tags ([("ProductID", ProductID Crash (set_el_bMaster true)); ("PrimaryKey", LocalKey); ("ForeignKey", ForeignKey Retry Retry);
          ("ForeignType", ForeignType Exit None)] ++ own ++ [("DataPoint", number_child false (fun v => set_io_dataPoint (u8 v)))]))).

Definition dio_cell (d : DioCfg) (h : hnd) (x : xnode) (k : keys) : P keys :=
  ok ← pcalloc;
  if negb ok then mret k else
  l ← while_nodes h (x_kids x) (Loc d k.1 k.2 None);
  '(kept, l) ← match l_pkey l with
    | None => mret (true, l)
    | Some t =>
        ok ← pcalloc;
        if (ok : bool) then mret (true, map_el (set_el_pPrimaryKey (Some (key_text g_Mac DEVICE_TYPE_DIO t))) l)
        else mret (false, map_el (set_el_pPrimaryKey None) l)
    end;
  if negb kept then mret (l_pkey l, l_fkey l) else
  l ← (if el_bMaster (get_el (l_dev l)) then put_foreign g_Mac (foreignType (get_el (l_dev l))) l else mret l);
  _ ← listAddNodeTail (l_dev l);
  mret (l_pkey l, l_fkey l).
Definition Di0 : DioCfg := DioC (set_szName (Some "DI") El0) 0 0 0 "" (-1) 3 0.
Definition Do0 : DioCfg := DioC (set_szName (Some "DO") El0) 0 0 0 "" 0 0 0.
Definition ParseDiCfg (pDocPath : option string) : P Z :=
  parse_keyed pDocPath "/Device/DI/Cell" (dio_cell Di0 (dio_round [("Trigger", Trigger); ("Channel", number_child false DiChannel)])).
Definition ParseDoCfg (pDocPath : option string) : P Z :=
  parse_keyed pDocPath "/Device/DO/Cell"
    (dio_cell Do0 (dio_round [("Output", Output); ("Channel", number_child false (fun v => set_io_channel (u8 v)))])).
End Dio.

(** ** Scenes: [KnxScene_t] *)

Record SceneCfg := SceneC { sn_scene : KnxScene_t; sn_addrName : string }.
Definition DEVICE_NAME_LENGTH : nat := 32.
Definition set_remap v s := SceneC (KnxScene v (scene_addr (sn_scene s)) (scene_value (sn_scene s))) (sn_addrName s).
Definition set_scene_addr v s := SceneC (KnxScene (remap (sn_scene s)) v (scene_value (sn_scene s))) (sn_addrName s).
Definition set_scene_value v s := SceneC (KnxScene (remap (sn_scene s)) (scene_addr (sn_scene s)) v) (sn_addrName s).
Definition set_addrName v s := SceneC (sn_scene s) v.

Section Scenes.
Context `{LibXml}.
Local Notation hnd := (@handler SceneCfg (loc SceneCfg)).

Definition scene_text (set : string -> SceneCfg -> SceneCfg) : hnd := fun x l =>
  c ← XML_GET_CONTENT x; match c with None => mret (Next l) | Some t => mret (Next (map_dev (set t) l)) end.
(** A number that does not fit is only logged. *)
Definition scene_tags : list (string * hnd) := [
  ("id", number_child false set_remap);
  ("addr", scene_text (fun t s => set_scene_addr (strncpy_over (scene_addr (sn_scene s)) t EIB_ADDR) s));
  ("value", number_child false (fun v => set_scene_value (u8 v)));
  ("name", scene_text (fun t s => set_addrName (strncpy_over (sn_addrName s) t DEVICE_NAME_LENGTH) s))].
Definition scene_cell (x : xnode) : par (pst SceneCfg) unit :=
  ok ← pcalloc;
  if negb ok then mret tt else
  l ← while_nodes (tags scene_tags) (x_kids x) (Loc (SceneC (KnxScene 0 "" 0) "") None None None);
  listAddNodeTail (l_dev l).
Definition ParseKnxSceneCfg (pDocPath : option string) : par (pst SceneCfg) Z :=
  parse_cells pDocPath "/Device/KNX/scene/Cell | /Device/KNX/Scene/Cell | /Device/KNX/Scene/cell | /Device/KNX/scene/cell" scene_cell.
End Scenes.

(** ** Groups: [Group_t]

    [gc_ppForeignKey] is the array of [memberSum] pointers. *)

Record GroupCfg := GroupC {
  gc_groupId : Z;
  gc_deviceType : Z;
  gc_pPrimaryKey : option string;
  gc_ppForeignKey : list (option string)
}.
Definition Group0 : GroupCfg := GroupC 0 0 None [].
Definition set_groupId v g := GroupC v (gc_deviceType g) (gc_pPrimaryKey g) (gc_ppForeignKey g).
Definition set_deviceType v g := GroupC (gc_groupId g) v (gc_pPrimaryKey g) (gc_ppForeignKey g).
Definition set_gc_pPrimaryKey v g := GroupC (gc_groupId g) (gc_deviceType g) v (gc_ppForeignKey g).
Definition set_ppForeignKey v g := GroupC (gc_groupId g) (gc_deviceType g) (gc_pPrimaryKey g) v.

Section Groups.
Context `{LibXml}.
Variable g_Mac : string.
Local Notation P := (par (pst GroupCfg)).
(** The group and [memberIdx]. *)
Local Notation hnd := (@handler GroupCfg (GroupCfg * nat)).

Definition group_attrs : list (string * (string -> GroupCfg * Z -> P (GroupCfg * Z))) := [
  ("type", fun v a => mret (if same_name v "485" then (set_deviceType DEVICE_TYPE_MODBUS a.1, a.2)
                            else if same_name v "KNX" then (set_deviceType DEVICE_TYPE_KNX a.1, a.2) else a));
  ("member_sum", fun v a => mret (a.1, atoi v))].

(** What is printed into the block of a key: nothing for another type. *)
Definition group_key (ty : Z) (t : string) : string :=
  if ty =? DEVICE_TYPE_MODBUS then key_text g_Mac DEVICE_TYPE_MODBUS t
  else if ty =? DEVICE_TYPE_KNX then key_text g_Mac DEVICE_TYPE_KNX t else "".
Definition group_id : hnd := fun x a =>
  c ← XML_GET_CONTENT x; match c with None => mret (Next a) | Some t => mret (Next (set_groupId (u16 (atoi t)) a.1, a.2)) end.
Definition group_primary : hnd := fun x a =>
  c ← XML_GET_CONTENT x;
  match c with
  | None => mret (Next a)
  | Some t =>
      ok ← pcalloc;
      if (ok : bool) then mret (Next (set_gc_pPrimaryKey (Some (group_key (gc_deviceType a.1) t)) a.1, a.2))
      else mret (Again (set_gc_pPrimaryKey None a.1, a.2))
  end.
(** The place of the array is written even when there is none. *)
Definition group_member : hnd := fun x a =>
  c ← XML_GET_CONTENT x;
  match c with
  | None => mret (Next a)
  | Some t =>
      ok ← pcalloc;
      if (length (gc_ppForeignKey a.1) <=? a.2)%nat then stopped Crashed else
      if (ok : bool) then
        mret (Next (set_ppForeignKey (<[a.2 := Some (group_key (gc_deviceType a.1) t)]> (gc_ppForeignKey a.1)) a.1, S a.2))
      else mret (Again (set_ppForeignKey (<[a.2 := None]> (gc_ppForeignKey a.1)) a.1, a.2))
  end.
Definition group_tags : list (string * hnd) := [("group_id", group_id); ("PrimaryKey", group_primary); ("ForeignKey", group_member)].

(** A negative number of members is too large for [calloc]; without one the end mark
    is written before the block. *)
Definition group_cell (x : xnode) : P unit :=
  ok ← pcalloc;
  if negb ok then mret tt else
  '(g, memberSum) ← each_attr group_attrs x (x_attrs x) (Group0, 0);
  if memberSum <? 0 then stopped Exited else
  ok ← pcalloc;
  if negb ok then stopped Exited else
  if memberSum =? 0 then stopped Crashed else
  a ← while_nodes (tags group_tags) (x_kids x) (set_ppForeignKey (replicate (Z.to_nat memberSum) None) g, O);
  listAddNodeTail a.1.
Definition ParseGroupCfg (pDocPath : option string) (pPath : string) : P Z := parse_cells pDocPath pPath group_cell.
End Groups.
