(* ===== verification/GroupConfig.v ===== *)
(** What the parser of the groups makes of a document: the groups, or how the process
    ends.  The number of members the document promises decides: the array of the keys
    has as many places, and ModbusDevGroup (Groups.v) goes through it up to a null
    pointer. *)

From stdpp Require Import pretty.
From S2P Require Import Prelude CMem CStr Device Serial Xml Cells CellRules ParseKnx ParsePanels ParseMisc XmlPrint PanelPrint.

Local Open Scope string_scope.
Local Open Scope list_scope.
Local Open Scope Z_scope.

(** ** What is written *)

Record group_doc := GroupDoc {
  gd_knx : option bool;
  gd_member_sum : option Z;
  gd_id : option Z;
  gd_key : option string;
  gd_members : list string
}.
Definition type_word (knx : bool) : string := if knx then "KNX" else "485".
Definition group_cell_doc (c : group_doc) : xnode :=
  elem "Cell" (opt_attr type_word "type" (gd_knx c) ++ opt_attr pretty "member_sum" (gd_member_sum c))
    (opt_leaf pretty "group_id" (gd_id c) ++ opt_leaf id "PrimaryKey" (gd_key c) ++ map (leaf "ForeignKey") (gd_members c)).

(** ** What it stands for *)

Definition group_type (c : group_doc) : Z :=
  match gd_knx c with Some knx => if knx then DEVICE_TYPE_KNX else DEVICE_TYPE_MODBUS | None => 0 end.
Definition places (c : group_doc) : Z := default 0 (gd_member_sum c).
Section Groups.
Context (g_Mac : string).
Definition group_cfg (c : group_doc) : GroupCfg :=
  GroupC (match gd_id c with Some v => u16 v | None => 0 end) (group_type c) (group_key g_Mac (group_type c) <$> gd_key c)
    (map (fun t => Some (group_key g_Mac (group_type c) t)) (gd_members c) ++ replicate (Z.to_nat (places c) - length (gd_members c)) None).
(** How the process ends over a group, if it does. *)
Definition group_stops (c : group_doc) : option stop :=
  if places c <? 0 then Some Exited
  else if (places c =? 0) || (places c <? Z.of_nat (length (gd_members c))) then Some Crashed else None.
Fixpoint read_groups (l : list group_doc) : stop + list GroupCfg :=
  match l with
  | [] => inr []
  | c :: l =>
      match group_stops c with
      | Some w => inl w
      | None => match read_groups l with inl w => inl w | inr gs => inr (group_cfg c :: gs) end
      end
  end.

Definition group_valid (c : group_doc) : Prop := opt_i32 (gd_member_sum c) /\ opt_i32 (gd_id c).

(** ** Reading *)

Context `{LibXmlOk}.
Implicit Types (g : GroupCfg) (L : list GroupCfg) (w : world).

Lemma atoi_pretty v : is_i32 v -> atoi (pretty v) = v.
Proof. intros Hv. unfold atoi. by rewrite strtol_errno_pretty. Qed.

Lemma r_group_attrs c s : group_valid c ->
  each_attr group_attrs (group_cell_doc c) (x_attrs (group_cell_doc c)) (Group0, 0) s = Got (set_deviceType (group_type c) Group0, places c) s.
Proof.
  intros [Hs _]. assert (forall t, xmlGetProp (group_cell_doc c) t =
    find_text (opt_attr type_word "type" (gd_knx c) ++ opt_attr pretty "member_sum" (gd_member_sum c)) t) as Hp
    by (intros t; by rewrite getprop_ok).
  change (x_attrs (group_cell_doc c)) with (opt_attr type_word "type" (gd_knx c) ++ opt_attr pretty "member_sum" (gd_member_sum c)).
  revert Hp. generalize (group_cell_doc c). intros x Hp. unfold group_type, places.
  assert (forall a, each_attr group_attrs x (opt_attr pretty "member_sum" (gd_member_sum c)) a s =
    Got (match gd_member_sum c with Some v => (a.1, v) | None => a end) s) as Hsum.
  { intros a. destruct (gd_member_sum c) as [v|]; [|done]. simpl opt_attr. erewrite each_attr_cons; [|reflexivity|].
    - cbn [each_attr]. unfold mbind, par_bind, mret, par_ret. by rewrite atoi_pretty by by apply Hs.
    - rewrite Hp. by destruct (gd_knx c) as [[]|]. }
  destruct (gd_knx c) as [knx|]; simpl app.
  - erewrite each_attr_cons; [|reflexivity|by rewrite Hp]. unfold mbind at 1, par_bind at 1. cbv beta. unfold mret at 1, par_ret at 1.
    rewrite !same_name_spec, Hsum. destruct knx, (gd_member_sum c); reflexivity.
  - rewrite Hsum. by destruct (gd_member_sum c).
Qed.

Lemma r_member t g k L w n :
  tags (group_tags g_Mac) (leaf "ForeignKey" t) (g, k) (PSt L w (Heap [] n)) =
  if (length (gc_ppForeignKey g) <=? k)%nat then Stopped Crashed
  else Got (Next (set_ppForeignKey (<[k := Some (group_key g_Mac (gc_deviceType g) t)]> (gc_ppForeignKey g)) g, S k)) (PSt L w (Heap [] (n + 1))).
Proof.
  rewrite tags_find. change (find_tag (group_tags g_Mac) (x_name (leaf "ForeignKey" t))) with (Some (group_member g_Mac)).
  cbv iota. unfold group_member, mbind, par_bind, mret, par_ret. simpl. by destruct (_ <=? _)%nat.
Qed.
Lemma while_stop {D A} (f : xnode -> A -> par (pst D) (turn A)) x l a s st :
  f x a s = Stopped st -> while_nodes f (x :: l) a s = Stopped st.
Proof. intros E. cbn [while_nodes retry]. unfold mbind, par_bind. by rewrite E. Qed.

(** The members one after another, in the places that are left. *)
Lemma r_members ms g filled k L w n :
  gc_ppForeignKey g = filled ++ replicate k None ->
  while_nodes (tags (group_tags g_Mac)) (map (leaf "ForeignKey") ms) (g, length filled) (PSt L w (Heap [] n)) =
  if (length ms <=? k)%nat
  then Got (set_ppForeignKey (filled ++ map (fun t => Some (group_key g_Mac (gc_deviceType g) t)) ms ++ replicate (k - length ms) None) g,
            (length filled + length ms)%nat) (PSt L w (Heap [] (n + Z.of_nat (length ms))))
  else Stopped Crashed.
Proof.
  revert g filled k n. induction ms as [|t ms IH]; intros g filled k n Hg.
  { cbn [length Nat.leb map while_nodes]. rewrite Nat.sub_0_r, Nat.add_0_r, Z.add_0_r. destruct g. simpl in *. by subst. }
  cbn [map]. destruct k as [|k].
  - rewrite app_nil_r in Hg. apply while_stop. rewrite r_member, Hg. by rewrite Nat.leb_refl.
  - set (key := Some (group_key g_Mac (gc_deviceType g) t)).
    rewrite (while_next _ _ _ _ _ (set_ppForeignKey (filled ++ key :: replicate k None) g, S (length filled)) (PSt L w (Heap [] (n + 1)))).
    2:{ rewrite r_member, Hg, length_app, length_replicate. rewrite (proj2 (Nat.leb_gt _ _)) by lia. fold key.
        by rewrite insert_app_r_alt, Nat.sub_diag by lia. }
    specialize (IH (set_ppForeignKey (filled ++ key :: replicate k None) g) (filled ++ [key]) k (n + 1)).
    rewrite length_app in IH. simpl length in IH. rewrite Nat.add_1_r in IH. rewrite IH.
    2:{ simpl. by rewrite <- app_assoc. }
    cbn [length Nat.leb]. destruct (length ms <=? k)%nat; [|done]. rewrite <- app_assoc. simpl. f_equal.
    + by rewrite Nat.add_succ_r.
    + do 2 f_equal. lia.
Qed.

Definition after_keys (c : group_doc) g : GroupCfg :=
  with_opt (gd_key c) (fun t => set_gc_pPrimaryKey (Some (group_key g_Mac (gc_deviceType g) t))) (with_opt (gd_id c) (fun v => set_groupId (u16 v)) g).

Lemma r_group_loop c g L w n : group_valid c -> gc_ppForeignKey g = replicate (Z.to_nat (places c)) None ->
  exists n', while_nodes (tags (group_tags g_Mac)) (x_kids (group_cell_doc c)) (g, O) (PSt L w (Heap [] n)) =
  if (length (gd_members c) <=? Z.to_nat (places c))%nat
  then Got (set_ppForeignKey (map (fun t => Some (group_key g_Mac (gc_deviceType g) t)) (gd_members c) ++
         replicate (Z.to_nat (places c) - length (gd_members c)) None) (after_keys c g), length (gd_members c)) (PSt L w (Heap [] n'))
  else Stopped Crashed.
Proof.
  intros [_ Hid] Hg. change (x_kids (group_cell_doc c)) with
    (indent (opt_leaf pretty "group_id" (gd_id c) ++ opt_leaf id "PrimaryKey" (gd_key c) ++ map (leaf "ForeignKey") (gd_members c))).
  rewrite while_tags_indent by done.
  assert (steps (tags (group_tags g_Mac)) (opt_leaf pretty "group_id" (gd_id c) ++ opt_leaf id "PrimaryKey" (gd_key c))
    ((g, O), L, w) ((after_keys c g, O), L, w)) as Hs.
  { replace (after_keys c g, O) with
      (with_opt (gd_key c) (fun t (a : GroupCfg * nat) => (set_gc_pPrimaryKey (Some (group_key g_Mac (gc_deviceType a.1) t)) a.1, a.2))
      (with_opt (gd_id c) (fun v (a : GroupCfg * nat) => (set_groupId (u16 v) a.1, a.2)) (g, O))).
    2:{ unfold after_keys. by destruct (gd_key c), (gd_id c). }
    eapply steps_app; eapply steps_with; [by apply acts_tags| |by apply acts_tags|].
    - intros v m Hv. exists m. unfold group_id.
      change (XML_GET_CONTENT (leaf "group_id" (pretty v))) with (@mret (par (pst GroupCfg)) _ _ (Some (pretty v))).
      unfold mret, par_ret, mbind, par_bind. rewrite atoi_pretty by (by apply Hid). reflexivity.
    - intros t m _. exists (m + 1). reflexivity. }
  destruct (Hs n) as [n1 E]. rewrite app_assoc. exists (n1 + Z.of_nat (length (gd_members c))). rewrite E.
  assert (gc_ppForeignKey (after_keys c g) = [] ++ replicate (Z.to_nat (places c)) None) as Ha.
  { unfold after_keys. destruct (gd_key c), (gd_id c); exact Hg. }
  cbn [fst]. change O with (@length (option string) []). rewrite (r_members _ _ [] _ L w n1 Ha).
  replace (gc_deviceType (after_keys c g)) with (gc_deviceType g) by (unfold after_keys; by destruct (gd_key c), (gd_id c)).
  done.
Qed.

Lemma r_group c L w n : group_valid c ->
  match group_stops c with
  | Some st => group_cell g_Mac (group_cell_doc c) (PSt L w (Heap [] n)) = Stopped st
  | None => exists n', group_cell g_Mac (group_cell_doc c) (PSt L w (Heap [] n)) = Got tt (PSt (L ++ [group_cfg c]) w (Heap [] n'))
  end.
Proof.
  intros Hc. unfold group_cell.
  assert (forall (f : bool -> par (pst GroupCfg) unit) m, (ok ← pcalloc; f ok) (PSt L w (Heap [] m)) = f true (PSt L w (Heap [] (m + 1)))) as E0 by done.
  rewrite E0. cbn [negb]. rewrite (bind_got _ _ _ _ _ (r_group_attrs c _ Hc)). unfold group_stops.
  destruct (places c <? 0) eqn:Eneg; [done|]. rewrite E0. cbn [negb]. destruct (places c =? 0) eqn:Ezero; [done|]. cbn [orb]. bprop.
  destruct (r_group_loop c (set_ppForeignKey (replicate (Z.to_nat (places c)) None) (set_deviceType (group_type c) Group0)) L w (n + 1 + 1) Hc eq_refl)
    as [n' E]. destruct (places c <? Z.of_nat (length (gd_members c))) eqn:Em; bprop.
  - rewrite (proj2 (Nat.leb_gt _ _)) in E by lia. unfold mbind, par_bind. by rewrite E.
  - rewrite (proj2 (Nat.leb_le _ _)) in E by lia. exists n'. rewrite (bind_got _ _ _ _ _ E).
    unfold listAddNodeTail, with_plist. simpl. do 3 f_equal. unfold group_cfg, after_keys. by destruct (gd_key c), (gd_id c).
Qed.

Lemma r_groups cs L w n : Forall group_valid cs ->
  match read_groups cs with
  | inl st => for_nodes (group_cell g_Mac) (map group_cell_doc cs) (PSt L w (Heap [] n)) = Stopped st
  | inr gs => exists n', for_nodes (group_cell g_Mac) (map group_cell_doc cs) (PSt L w (Heap [] n)) = Got tt (PSt (L ++ gs) w (Heap [] n'))
  end.
Proof.
  intros Hcs. revert L n. induction Hcs as [|c cs Hc _ IH]; intros L n; simpl.
  { exists n. by rewrite app_nil_r. }
  pose proof (r_group c L w n Hc) as Hg. destruct (group_stops c) as [st|].
  { unfold mbind, par_bind. by rewrite Hg. }
  destruct Hg as [n1 E]. specialize (IH (L ++ [group_cfg c]) n1). destruct (read_groups cs) as [st|gs].
  - by rewrite (bind_got _ _ _ _ _ E).
  - destruct IH as [n' E']. exists n'. rewrite (bind_got _ _ _ _ _ E), E', <- app_assoc. done.
Qed.

(** C31: the parser of the groups reads every document of groups it is given, when no allocation fails: the groups it adds are
    the written ones with their keys, or the process ends.  It exits over a negative number of members; it writes outside
    its array over a group without that number, or with more members than it says.  The array of a group that is read is
    as long as the number says, and has the null pointer its reader stops at exactly when there are fewer members: the
    number has to count one more. *)
Theorem groups_read cs L w n path xpath d :
  Forall group_valid cs -> cs <> [] -> xmlReadFile path = Some d -> xmlXPathEval d xpath = map group_cell_doc cs ->
  match read_groups cs with
  | inl st => ParseGroupCfg g_Mac (Some path) xpath (PSt L w (Heap [] n)) = Stopped st
  | inr gs => exists n', ParseGroupCfg g_Mac (Some path) xpath (PSt L w (Heap [] n)) = Got 0 (PSt (L ++ gs) w (Heap [] n')) /\
      Forall2 (fun c g => Z.of_nat (length (gc_ppForeignKey g)) = places c /\
        (None ∈ gc_ppForeignKey g <-> Z.of_nat (length (gd_members c)) < places c)) cs gs
  end.
Proof.
  intros Hcs Hne Hd Hx. pose proof (r_groups cs L w n Hcs) as Hr. unfold ParseGroupCfg, parse_cells, XmlGetNode. rewrite Hd, Hx.
  destruct (map group_cell_doc cs) as [|x xs] eqn:Em; [by destruct cs|]. destruct (read_groups cs) as [st|gs] eqn:Eg.
  { unfold mbind, par_bind. by rewrite Hr. }
  destruct Hr as [n' Hr]. exists n'. split; [by rewrite (bind_got _ _ _ _ _ Hr)|]. clear Hcs Hne Hx Em Hr. revert gs Eg.
  induction cs as [|c cs IH]; intros gs Eg; simpl in Eg; [injection Eg as <-; constructor|].
  destruct (group_stops c) eqn:Es; [done|]. destruct (read_groups cs) as [|gs'] eqn:E'; [done|]. injection Eg as <-.
  constructor; [|by apply IH]. unfold group_stops in Es. destruct (places c <? 0) eqn:?; [done|].
  destruct ((places c =? 0) || _) eqn:Eo; [done|]. apply orb_false_iff in Eo as [_ Eo]. bprop. unfold group_cfg. cbn [gc_ppForeignKey].
  rewrite length_app, length_map, length_replicate. split; [lia|]. rewrite elem_of_app. split.
  - intros [Hin|Hin]; [by apply list_elem_of_fmap in Hin as (? & ? & _)|]. apply elem_of_replicate in Hin as [_ Hn]. lia.
  - intros Hlt. right. apply elem_of_replicate. split; [done|]. lia.
Qed.
End Groups.

(** The groups of the sample configuration, and one whose number counts the members only. *)
Definition sample_group (sum : Z) : group_doc := GroupDoc (Some false) (Some sum) (Some 1) (Some "100") ["101"; "102"].
Definition group_lib (cs : list group_doc) : LibXml := tree_lib [("cfg.xml", [("/Device/Group/AirCondition/Cell", map group_cell_doc cs)])].

Lemma groups_read_witness :
  let cs := [sample_group 3; sample_group 2] in
  exists n', @ParseGroupCfg (group_lib cs) "AABBCCDDEEFF" (Some "cfg.xml") "/Device/Group/AirCondition/Cell" (PSt [] (W [] [] [] [] []) (Heap [] 0)) =
    Got 0 (PSt (map (group_cfg "AABBCCDDEEFF") cs) (W [] [] [] [] []) (Heap [] n')) /\
    None ∉ gc_ppForeignKey (group_cfg "AABBCCDDEEFF" (sample_group 2)).
Proof.
  intros cs. assert (Forall group_valid cs) as Hcs.
  { repeat (apply Forall_cons_2; [split; intros z [= <-]; unfold is_i32; lia|]). by apply Forall_nil_2. }
  destruct (groups_read "AABBCCDDEEFF" (H := group_lib cs) cs [] (W [] [] [] [] []) 0 "cfg.xml" "/Device/Group/AirCondition/Cell" _ Hcs
    ltac:(discriminate) eq_refl eq_refl) as (n' & E & Hg).
  exists n'. split; [exact E|]. inversion_clear Hg as [|? ? ? ? _ Hg']. inversion_clear Hg' as [|? ? ? ? [_ Hn] _].
  intros Hin. apply Hn in Hin. vm_compute in Hin. discriminate.
Defined.
