(* ===== verification/InputConfig.v ===== *)
(** The digital inputs and outputs of a configuration, and that a change of a
    configured input reaches the cloud (DioScan.v). *)

From stdpp Require Import pretty.
From S2P Require Import Prelude CMem CStr Device DioScan Serial Xml Cells CellRules ParseKnx ParsePanels ParseMisc.

Local Open Scope string_scope.
Local Open Scope list_scope.
Local Open Scope Z_scope.

(** The structure the scan works on. *)
Definition di_of (d : DioCfg) : DiDev_t :=
  DiDev (default "" (el_pPrimaryKey (io_el d))) (io_eLevel d) (io_dataPoint d) 0 (io_status d) (io_retryNum d) (io_retryCnt d).

(** What the parsers keep of the structure they start with. *)
Record dio_ok (d0 d : DioCfg) : Prop := {
  io_level : io_eLevel d = 0 \/ io_eLevel d = 1;
  io_dp : 0 <= io_dataPoint d < 256;
  io_chan : 0 <= io_channel d < 256;
  io_same : io_status d = io_status d0 /\ io_retryNum d = io_retryNum d0 /\ io_retryCnt d = io_retryCnt d0
}.

Section Rounds.
Context `{LibXml} (g_Mac : string) (d0 : DioCfg).
Local Notation ok := (fun _ : stop => True).
Variable l0 : list DioCfg.
Implicit Types (l : loc DioCfg) (s : pst DioCfg).

Definition oinv s : Prop := exists ds, p_list s = l0 ++ ds /\ Forall (dio_ok d0) ds.
Definition orinv l s : Prop := dio_ok d0 (l_dev l) /\ oinv s.
Local Notation keeps := (keeps ok orinv).

Lemma orinv_el l s g : orinv l s -> orinv (map_el g l) s.
Proof. intros [[] Hs]. split; [|exact Hs]. by split. Qed.
Lemma orinv_dev l s g : (forall d, dio_ok d0 d -> dio_ok d0 (g d)) -> orinv l s -> orinv (map_dev g l) s.
Proof. intros Hg [Hd Hs]. split; [by apply Hg|exact Hs]. Qed.

(** The handlers of the element do not touch the rest. *)
Lemma ok_text dst fail : keeps (element_text dst fail).
Proof.
  intros x l s Hl. apply pwp_bind, pwp_content; [done|]. intros [t|]; [|exact Hl]. apply pwp_bind, pwp_pcalloc. intros [] h.
  - apply pwp_ret, orinv_el, Hl.
  - apply pwp_end_round; [done..|]. by apply orinv_el.
Qed.
Lemma ok_product fail : keeps (ProductID fail (set_el_bMaster true)).
Proof.
  intros x l s Hl. apply pwp_bind, pwp_content; [done|]. intros [t|]; [|exact Hl]. apply pwp_bind, pwp_pcalloc. intros [] h.
  - apply pwp_ret, orinv_el, Hl.
  - apply pwp_end_round; [done..|]. by apply orinv_el.
Qed.
Lemma ok_key : keeps LocalKey.
Proof. intros x l s Hl. apply pwp_bind, pwp_content; [done|]. intros [t|]; exact Hl. Qed.
Lemma ok_foreign : keeps (ForeignKey Retry Retry).
Proof.
  intros x l s Hl. apply pwp_bind, pwp_content; [done|]. intros [t|]; [|exact Hl].
  apply pwp_bind, pwp_pcalloc. intros [] h; apply pwp_ret; by apply orinv_el.
Qed.
Lemma ok_foreignType : keeps (ForeignType Exit None).
Proof.
  intros x l s Hl. apply pwp_bind, pwp_content; [done|]. intros [t|]; [|done].
  destruct (foreign_of t); apply pwp_ret; [by apply orinv_el|exact Hl].
Qed.
Lemma ok_number set : (forall v d, dio_ok d0 d -> dio_ok d0 (set v d)) -> keeps (number_child false set).
Proof.
  intros Hset x l s Hl. apply pwp_bind, pwp_content; [done|]. intros [t|]; [|exact Hl]. apply pwp_bind. unfold store_number.
  destruct (strtol_errno t) as [v e]. rewrite andb_false_r. apply pwp_ret, pwp_ret, orinv_dev; auto.
Qed.
Lemma ok_level v d : v = 0 \/ v = 1 -> dio_ok d0 d -> dio_ok d0 (set_io_eLevel v d).
Proof. intros Hv []. by split. Qed.
Lemma ok_Trigger : keeps Trigger.
Proof.
  intros x l s Hl. apply pwp_bind, pwp_content; [done|]. intros [t|]; [|done]. apply pwp_ret.
  destruct (starts "low" t); [|destruct (starts "high" t); [|exact Hl]]; (apply orinv_dev; [|exact Hl]); intros d; apply ok_level; [by left|by right].
Qed.
Lemma ok_Output : keeps Output.
Proof.
  intros x l s Hl. apply pwp_bind, pwp_content; [done|]. intros [t|]; [|exact Hl]. apply pwp_ret.
  destruct (starts "open" t); [|destruct (starts "close" t); [|exact Hl]]; (apply orinv_dev; [|exact Hl]); intros d; apply ok_level; [by left|by right].
Qed.

Lemma ok_round own : Forall (fun t => keeps t.2) own -> keeps (dio_round own).
Proof.
  intros Ho. unfold dio_round. repeat apply keeps_both; apply keeps_tags; repeat apply Forall_app_2;
    repeat first [exact Ho | apply Forall_nil_2 | apply Forall_cons_2]; cbn [snd];
    first [apply ok_text | apply ok_product | apply ok_key | apply ok_foreign | apply ok_foreignType | apply ok_number].
  intros v d []. split; try done. apply u8_range.
Qed.

Lemma ok_cell h x k s : dio_ok d0 d0 -> keeps h -> oinv s -> pwp ok (dio_cell g_Mac d0 h x k) (fun _ => oinv) s.
Proof.
  intros Hd Hh Hs. apply pwp_bind, pwp_pcalloc. intros [] h0; [|exact Hs]. cbn [negb]. apply pwp_bind. eapply pwp_conseq.
  { apply (pwp_while_nodes ok I orinv); [exact Hh|]. split; [exact Hd|exact Hs]. }
  intros l s1 Hl. apply pwp_bind. eapply (pwp_conseq _ _ (fun r s => orinv r.2 s)).
  { destruct (l_pkey l) as [t|]; [|exact Hl]. apply pwp_bind, pwp_pcalloc. intros [] h1; apply pwp_ret; by apply orinv_el. }
  intros [kept l'] s2 Hl'. simpl in Hl'. destruct kept; cbn [negb]; cbv iota; [|apply Hl']. apply pwp_bind. eapply (pwp_conseq _ _ orinv).
  { destruct (el_bMaster _); [|exact Hl']. unfold put_foreign. destruct (l_fkey l'); [|exact Hl'].
    destruct (pForeignKey _); [|done]. apply pwp_ret. by apply orinv_el. }
  intros l'' s3 [Hd' (ds & E & Hds)]. apply pwp_bind, pwp_ret. exists (ds ++ [l_dev l'']). simpl. rewrite E, <- app_assoc.
  split; [done|]. apply Forall_app_2; [done|]. by constructor.
Qed.
Lemma ok_parse h path xpath s :
  dio_ok d0 d0 -> keeps h -> oinv s -> pwp ok (parse_keyed path xpath (dio_cell g_Mac d0 h)) (fun _ => oinv) s.
Proof.
  intros Hd Hh Hs. unfold parse_keyed. destruct path as [p|]; [|done]. destruct (xmlReadFile p) as [d|]; [|done].
  destruct (XmlGetNode d xpath) as [l|]; [|done]. apply pwp_bind. generalize ((None, None) : keys). revert s Hs.
  induction l as [|x l IH]; intros s Hs k; [done|]. cbn [for_cells]. apply pwp_bind.
  eapply pwp_conseq; [by apply ok_cell|]. intros k' s' Hs'. by apply IH.
Qed.
End Rounds.

Lemma di_cfg_ok `{LibXml} g_Mac path (s s' : pst DioCfg) r :
  ParseDiCfg g_Mac path s = Got r s' -> oinv Di0 (p_list s) s'.
Proof.
  intros E. assert (pwp (fun _ => True) (ParseDiCfg g_Mac path) (fun _ => oinv Di0 (p_list s)) s) as Hp.
  { apply ok_parse.
    - split; [by left|cbn; lia..|done].
    - apply ok_round. apply Forall_cons_2; [apply ok_Trigger|]. apply Forall_cons_2; [|apply Forall_nil_2].
      apply ok_number. intros v d []. split; try done. apply u8_range.
    - exists []. by rewrite app_nil_r. }
  unfold pwp in Hp. by rewrite E in Hp.
Qed.


Definition input_sample : list (string * list (string * list xnode)) :=
  let leaf name t := XNode true name None [] [XNode false "text" (Some t) [] []] in
  [("cfg.xml", [("/Device/DI/Cell", [XNode true "Cell" None [] [leaf "PrimaryKey" "1"; leaf "Channel" "2"; leaf "Trigger" "high"; leaf "DataPoint" "1"]])])].
