(* ===== verification/ThreadPool.v ===== *)
(** The thread pool (source/thpool.c).

    The queue of the jobs is modelled at the level of its pointers, the threads as
    program counters: a section between [pthread_mutex_lock] and
    [pthread_mutex_unlock] is one turn.  [pthread_cond_signal] wakes one of the
    threads that wait, of the turn's choice, and a thread may wake without a signal.
    What runs is a list of turns of any threads in any order. *)

From S2P Require Import Prelude.
From stdpp Require Import gmap fin_maps.

Local Open Scope Z_scope.

(** ** Data

    [J] is a function with its argument; [prev] links a job to the one that was
    added after it. *)

Record job (J : Type) := Job { function : J; prev : option nat }.
Arguments Job {J}.
Arguments function {J}.
Arguments prev {J}.

(** [v] of [has_jobs], the binary semaphore. *)
Record jobqueue (J : Type) := JobQueue { front : option nat; rear : option nat; has_jobs : Z; len : Z }.
Arguments JobQueue {J}.
Arguments front {J}.
Arguments rear {J}.
Arguments has_jobs {J}.
Arguments len {J}.

(** Where a thread is in [thread_do]: before it counts itself alive ([New]), at the
    test of the loop, at the test of the semaphore or asleep in [bsem_wait], past it
    ([Got]), past the second test ([Up]), before [jobqueue_pull], in the function of
    a job (with the block of the job), before it counts itself idle ([Down]), past
    the loop, ended. *)
Inductive thread (J : Type) :=
| New | Loop | Test | Asleep | Got | Up | Pull | Run (b : nat) (j : J) | Down | End | Dead.
Arguments New {J}.
Arguments Loop {J}.
Arguments Test {J}.
Arguments Asleep {J}.
Arguments Got {J}.
Arguments Up {J}.
Arguments Pull {J}.
Arguments Run {J}.
Arguments Down {J}.
Arguments End {J}.
Arguments Dead {J}.

(** A caller of [thpool_wait]: elsewhere, at the test, asleep, returned. *)
Inductive caller := Away | Tests | Sleeps | Back.

(** [blocks]: the jobs that are allocated; [added], [started] and [finished] are a log. *)
Record thpool_ (J : Type) := Pool {
  threads : list (thread J);
  num_threads_alive : Z;
  num_threads_working : Z;
  queue : jobqueue J;
  blocks : gmap nat (job J);
  threads_keepalive : bool;
  waits : caller;
  added : list J;
  started : list J;
  finished : list J
}.
Arguments Pool {J}.
Arguments threads {J}.
Arguments num_threads_alive {J}.
Arguments num_threads_working {J}.
Arguments queue {J}.
Arguments blocks {J}.
Arguments threads_keepalive {J}.
Arguments waits {J}.
Arguments added {J}.
Arguments started {J}.
Arguments finished {J}.

Section Pool.
Context {J : Type}.
Local Notation thread := (thread J).
Local Notation thpool_ := (thpool_ J).
Implicit Types p : thpool_.
Local Notation M := (C thpool_).

Definition set_threads l p := Pool l (num_threads_alive p) (num_threads_working p) (queue p) (blocks p) (threads_keepalive p) (waits p) (added p) (started p) (finished p).
Definition set_alive n p := Pool (threads p) n (num_threads_working p) (queue p) (blocks p) (threads_keepalive p) (waits p) (added p) (started p) (finished p).
Definition set_working n p := Pool (threads p) (num_threads_alive p) n (queue p) (blocks p) (threads_keepalive p) (waits p) (added p) (started p) (finished p).
Definition set_queue q p := Pool (threads p) (num_threads_alive p) (num_threads_working p) q (blocks p) (threads_keepalive p) (waits p) (added p) (started p) (finished p).
Definition set_blocks m p := Pool (threads p) (num_threads_alive p) (num_threads_working p) (queue p) m (threads_keepalive p) (waits p) (added p) (started p) (finished p).
Definition set_keepalive b p := Pool (threads p) (num_threads_alive p) (num_threads_working p) (queue p) (blocks p) b (waits p) (added p) (started p) (finished p).
Definition set_waits c p := Pool (threads p) (num_threads_alive p) (num_threads_working p) (queue p) (blocks p) (threads_keepalive p) c (added p) (started p) (finished p).
Definition log_added j p := Pool (threads p) (num_threads_alive p) (num_threads_working p) (queue p) (blocks p) (threads_keepalive p) (waits p) (added p ++ [j]) (started p) (finished p).
Definition log_started j p := Pool (threads p) (num_threads_alive p) (num_threads_working p) (queue p) (blocks p) (threads_keepalive p) (waits p) (added p) (started p ++ [j]) (finished p).
Definition log_finished j p := Pool (threads p) (num_threads_alive p) (num_threads_working p) (queue p) (blocks p) (threads_keepalive p) (waits p) (added p) (started p) (finished p ++ [j]).

Definition set_ends f r n (q : jobqueue J) : jobqueue J := JobQueue f r (has_jobs q) n.
Definition set_v v (q : jobqueue J) : jobqueue J := JobQueue (front q) (rear q) v (len q).

(** ** Memory *)

Definition upd (f : thpool_ -> thpool_) : M unit := fun p => Done (tt, f p).
Definition get {A} (f : thpool_ -> A) : M A := fun p => Done (f p, p).
Definition load (b : nat) : M (job J) := fun p =>
  match blocks p !! b with Some x => Done (x, p) | None => Undef end.
Definition store (b : nat) (x : job J) : M unit := fun p =>
  match blocks p !! b with Some _ => Done (tt, set_blocks (<[b := x]> (blocks p)) p) | None => Undef end.
Definition malloc (x : job J) : M nat := fun p =>
  let b := fresh (dom (blocks p)) in Done (b, set_blocks (<[b := x]> (blocks p)) p).
Definition free (b : nat) : M unit := fun p =>
  match blocks p !! b with Some _ => Done (tt, set_blocks (delete b (blocks p)) p) | None => Undef end.

(** ** The semaphore

    [w] is the thread a signal wakes, [None] when none waits. *)

Definition is_asleep (t : thread) : bool := match t with Asleep => true | _ => false end.
Definition wake (w : option nat) (l : list thread) : list thread :=
  match w with Some i => <[i := Test]> l | None => l end.
Definition wake_ok (w : option nat) (l : list thread) : bool :=
  match w with
  | Some i => match l !! i with Some t => is_asleep t | None => false end
  | None => forallb (fun t => negb (is_asleep t)) l
  end.
Definition bsem_post (w : option nat) : M unit :=
  upd (fun p => set_threads (wake w (threads p)) (set_queue (set_v 1 (queue p)) p)).
Definition bsem_post_all : M unit :=
  upd (fun p => set_threads (map (fun t => if is_asleep t then Test else t) (threads p)) (set_queue (set_v 1 (queue p)) p)).

(** ** The queue of jobs *)

Definition jobqueue_push (newjob : nat) (w : option nat) : M unit :=
  x ← load newjob;
  _ ← store newjob (Job (function x) None);
  q ← get queue;
  _ ← (if len q =? 0 then upd (set_queue (set_ends (Some newjob) (Some newjob) (len q) q))
       else match rear q with
            | None => undef
            | Some r =>
                y ← load r;
                _ ← store r (Job (function y) (Some newjob));
                upd (set_queue (set_ends (front q) (Some newjob) (len q) q))
            end);
  q ← get queue;
  _ ← (if len q =? 2 ^ 31 - 1 then undef else upd (set_queue (set_ends (front q) (rear q) (len q + 1) q)));
  bsem_post w.

Definition jobqueue_pull (w : option nat) : M (option nat) :=
  q ← get queue;
  _ ← (if len q =? 0 then mret tt
       else if len q =? 1 then upd (set_queue (set_ends None None 0 q))
       else match front q with
            | None => undef
            | Some b =>
                x ← load b;
                _ ← upd (set_queue (set_ends (prev x) (rear q) (len q - 1) q));
                bsem_post w
            end);
  mret (front q).

(** ** thread_do *)

Definition goes (i : nat) (t : thread) : M unit := upd (fun p => set_threads (<[i := t]> (threads p)) p).

(** Whether a turn of a thread at [Pull] posts the semaphore. *)
Definition pull_posts (q : jobqueue J) : bool := negb (len q =? 0) && negb (len q =? 1).

Definition thread_do (i : nat) (t : thread) (w : option nat) : M unit :=
  match t with
  | New => _ ← upd (fun p => set_alive (num_threads_alive p + 1) p); goes i Loop
  | Loop => k ← get threads_keepalive; goes i (if k : bool then Test else End)
  | Test =>
      q ← get queue;
      if negb (has_jobs q =? 1) then goes i Asleep
      else _ ← upd (set_queue (set_v 0 q)); goes i Got
  | Got => k ← get threads_keepalive; goes i (if k : bool then Up else Loop)
  | Up => _ ← upd (fun p => set_working (num_threads_working p + 1) p); goes i Pull
  | Pull =>
      job_p ← jobqueue_pull w;
      match job_p with
      | None => goes i Down
      | Some b => x ← load b; _ ← upd (log_started (function x)); goes i (Run b (function x))
      end
  | Run b j => _ ← upd (log_finished j); _ ← free b; goes i Down
  | Down =>
      _ ← upd (fun p => set_working (num_threads_working p - 1) p);
      n ← get num_threads_working;
      _ ← (if n =? 0 then upd (fun p => set_waits (match waits p with Sleeps => Tests | c => c end) p) else mret tt);
      goes i Loop
  | End => _ ← upd (fun p => set_alive (num_threads_alive p - 1) p); goes i Dead
  | Asleep | Dead => undef
  end.

(** ** The functions of the pool *)

(** The first part of [thpool_init]: the structure, its semaphore and the array are
    allocated, and a thread for each place; the call returns when [init_done].  A
    thread that is not allocated makes it wait for ever. *)
Definition init_pool (num_threads : Z) : thpool_ :=
  Pool (replicate (Z.to_nat (Z.max 0 num_threads)) New) 0 0 (JobQueue None None 0 0) ∅ true Away [] [] [].
(** [pool], [sem], [array]: whether the structure, the semaphore of its queue and the
    array of the threads could be allocated. *)
Definition thpool_init (pool sem array : bool) (num_threads : Z) : option thpool_ :=
  if negb pool then None else if negb sem then None else if negb array then None else Some (init_pool num_threads).
Definition init_done (num_threads : Z) (p : thpool_) : bool := num_threads_alive p =? Z.max 0 num_threads.

Definition thpool_add_work (j : J) (ok : bool) (w : option nat) : M Z :=
  if negb ok then mret (-1) else
  newjob ← malloc (Job j None);
  _ ← upd (log_added j);
  _ ← jobqueue_push newjob w;
  mret 0.

(** One test of the loop of [thpool_wait]. *)
Definition thpool_wait : M unit :=
  q ← get queue; n ← get num_threads_working;
  upd (set_waits (if negb (len q =? 0) || negb (n =? 0) then Sleeps else Back)).

(** [threads_keepalive = 0] of [thpool_destroy], then [bsem_post_all] again and
    again. *)
Definition thpool_destroy : M unit := upd (set_keepalive false).

(** The end of [thpool_destroy], when no thread is alive; [None]: more turns of the
    loop than [fuel]. *)
Fixpoint jobqueue_clear (fuel : nat) : M (option unit) :=
  match fuel with
  | O => mret None
  | S fuel =>
      q ← get queue;
      if len q =? 0 then
        _ ← upd (set_queue (JobQueue None None 0 0)); mret (Some tt)
      else
        job_p ← jobqueue_pull None;
        _ ← match job_p with Some b => free b | None => mret tt end;
        jobqueue_clear fuel
  end.

(** ** Turns *)

Inductive turn :=
| AddWork (j : J) (ok : bool) (w : option nat)
| Step (i : nat) (w : option nat)
| Spurious (i : nat)
| CallWait | WaitTurn | WaitSpurious
| Destroy | PostAll.

Definition run_turn (t : turn) : M unit :=
  match t with
  | AddWork j ok w => _ ← thpool_add_work j ok w; mret tt
  | Step i w => l ← get threads; match l !! i with Some t => thread_do i t w | None => undef end
  | Spurious i => goes i Test
  | CallWait => upd (set_waits Tests)
  | WaitTurn => thpool_wait
  | WaitSpurious => upd (set_waits Tests)
  | Destroy => thpool_destroy
  | PostAll => bsem_post_all
  end.

(** When a turn can be taken: a job that does not end has no turn any more; [ends]
    tells which do. *)
Variable ends : J -> bool.

Definition thread_can (t : thread) : bool :=
  match t with Asleep | Dead => false | Run _ j => ends j | _ => true end.
Definition enabled (t : turn) (p : thpool_) : bool :=
  match t with
  | AddWork _ ok w => negb ok || wake_ok w (threads p)
  | Step i w =>
      match threads p !! i with
      | Some t => thread_can t && match t with Pull => negb (pull_posts (queue p)) || wake_ok w (threads p) | _ => true end
      | None => false
      end
  | Spurious i => match threads p !! i with Some t => is_asleep t | None => false end
  | CallWait => match waits p with Away | Back => true | _ => false end
  | WaitTurn => match waits p with Tests => true | _ => false end
  | WaitSpurious => match waits p with Sleeps => true | _ => false end
  | Destroy => true
  | PostAll => negb (threads_keepalive p)
  end.

Inductive reachable (p0 : thpool_) : thpool_ -> Prop :=
| reach_start : reachable p0 p0
| reach_turn t p p' : reachable p0 p -> enabled t p = true -> run_turn t p = Done (tt, p') -> reachable p0 p'.

Definition run_turns (ts : list turn) (p : thpool_) : option thpool_ :=
  foldl (fun o t => p ← o; if enabled t p then match run_turn t p with Done (_, p') => Some p' | Undef => None end else None) (Some p) ts.
End Pool.
Arguments turn : clear implicits.
