(* ===== verification/PoolRules.v ===== *)
(** What holds of the thread pool whatever turns are taken.

    [pool_ok] relates the pointers, the counters and the log; [awake] says that no
    wake-up is lost.  Every turn that can be taken is defined and keeps both; the
    turns of the threads themselves reduce [measure]. *)

From S2P Require Import Prelude ThreadPool.
From stdpp Require Import gmap fin_maps.

Local Open Scope Z_scope.

(** ** Sums over the threads *)

Section Sums.
Context {J : Type}.
Local Notation thread := (thread J).
Implicit Types l : list thread.

Fixpoint total (f : thread -> Z) l : Z := match l with [] => 0 | t :: l => f t + total f l end.
Definition jobs_of (t : thread) : list (nat * J) := match t with Run b j => [(b, j)] | _ => [] end.
Definition running l : list (nat * J) := l ≫= jobs_of.

Lemma total_app f l1 l2 : total f (l1 ++ l2) = total f l1 + total f l2.
Proof. induction l1 as [|t l1 IH]; cbn; [done|]. rewrite IH. lia. Qed.

Lemma total_insert f l i a b : l !! i = Some a -> total f (<[i := b]> l) = total f l - f a + f b.
Proof.
  intros Hi. pose proof (f_equal (total f) (take_drop_middle l i a Hi)) as E.
  rewrite insert_take_drop by (by eapply lookup_lt_Some). rewrite total_app in *. cbn in *. lia.
Qed.

Lemma total_map f g l : (forall t, f (g t) = f t) -> total f (map g l) = total f l.
Proof. intros Hg. induction l as [|t l IH]; cbn; [done|]. by rewrite Hg, IH. Qed.

Lemma total_nonneg f l : (forall t, 0 <= f t) -> 0 <= total f l.
Proof. intros Hf. induction l as [|t l IH]; cbn; [done|]. pose proof (Hf t). lia. Qed.

Lemma total_member f l i a : (forall t, 0 <= f t) -> l !! i = Some a -> f a <= total f l.
Proof.
  intros Hf Hi. pose proof (total_insert f l i a New Hi). pose proof (total_nonneg f (<[i := New]> l) Hf).
  pose proof (Hf New). revert l i Hi H H0. induction l as [|t l IH]; intros [|i] Hi _ _; cbn in *; try done.
  - injection Hi as ->. pose proof (total_nonneg f l Hf). lia.
  - pose proof (Hf t). specialize (IH i Hi). pose proof (total_insert f l i a New Hi).
    pose proof (total_nonneg f (<[i := New]> l) Hf). lia.
Qed.

Lemma running_insert l i a b : l !! i = Some a -> running (<[i := b]> l) ++ jobs_of a ≡ₚ running l ++ jobs_of b.
Proof.
  intros Hi. pose proof (f_equal running (take_drop_middle l i a Hi)) as E.
  rewrite insert_take_drop by (by eapply lookup_lt_Some). unfold running in *. rewrite <- E, !bind_app. cbn. solve_Permutation.
Qed.

(** A turn that starts and ends no job. *)
Lemma running_same l i a b : l !! i = Some a -> jobs_of a = [] -> jobs_of b = [] -> running (<[i := b]> l) ≡ₚ running l.
Proof. intros Hi Ha Hb. pose proof (running_insert l i a b Hi) as H. by rewrite Ha, Hb, !app_nil_r in H. Qed.

Lemma running_map g l : (forall t, jobs_of (g t) = jobs_of t) -> running (map g l) = running l.
Proof. intros Hg. induction l as [|t l IH]; cbn; [done|]. unfold running in IH. by rewrite Hg, IH. Qed.

Lemma running_member l b j : (b, j) ∈ running l <-> Run b j ∈ l.
Proof.
  unfold running. rewrite list_elem_of_bind. split.
  - intros (t & Hr & Ht). destruct t; cbn in Hr; try (by apply elem_of_nil in Hr). apply list_elem_of_singleton in Hr as [= -> ->]. done.
  - intros Hr. exists (Run b j). split; [by apply list_elem_of_singleton|done].
Qed.

Lemma Exists_insert (P : thread -> Prop) l i a b : l !! i = Some a -> (P a -> P b) -> Exists P l -> Exists P (<[i := b]> l).
Proof.
  intros Hi Hab (x & Hx & HP)%Exists_exists. apply list_elem_of_lookup in Hx as [k Hk]. apply Exists_exists.
  destruct (decide (i = k)) as [<-|Hne].
  - rewrite Hi in Hk. injection Hk as ->. exists b. split; [|by apply Hab].
    apply list_elem_of_lookup. exists i. apply list_lookup_insert_eq. by eapply lookup_lt_Some.
  - exists x. split; [|done]. apply list_elem_of_lookup. exists k. by rewrite list_lookup_insert_ne.
Qed.

Lemma Exists_here (P : thread -> Prop) l i a b : l !! i = Some a -> P b -> Exists P (<[i := b]> l).
Proof.
  intros Hi Hb. apply Exists_exists. exists b. split; [|done]. apply list_elem_of_lookup. exists i.
  apply list_lookup_insert_eq. by eapply lookup_lt_Some.
Qed.

(** ** Waking *)

Lemma wake_total f w l : f Asleep = f Test -> wake_ok w l = true -> total f (wake w l) = total f l.
Proof.
  intros Hf Hw. destruct w as [i|]; [|done]. cbn in *. destruct (l !! i) as [t|] eqn:Hi; [|done].
  destruct t; try done. rewrite (total_insert f l i _ _ Hi), Hf. lia.
Qed.

Lemma wake_total_le f w l : f Asleep <= f Test <= f Asleep + 1 -> wake_ok w l = true -> total f (wake w l) <= total f l + 1.
Proof.
  intros Hf Hw. destruct w as [i|]; cbn in *; [|lia]. destruct (l !! i) as [t|] eqn:Hi; [|done].
  destruct t; try done. rewrite (total_insert f l i _ _ Hi). lia.
Qed.

Lemma wake_running w l : wake_ok w l = true -> running (wake w l) ≡ₚ running l.
Proof.
  intros Hw. destruct w as [i|]; [|done]. cbn in *. destruct (l !! i) as [t|] eqn:Hi; [|done].
  destruct t; try done. by apply (running_same l i Asleep).
Qed.

Lemma wake_exists w l (P : thread -> Prop) : wake_ok w l = true -> ~ P Asleep -> Exists P l -> Exists P (wake w l).
Proof.
  intros Hw HP HE. destruct w as [i|]; [|done]. cbn in *. destruct (l !! i) as [t|] eqn:Hi; [|done].
  destruct t; try done. by eapply Exists_insert.
Qed.

(** A signal finds a thread that waits, if there is one. *)
Lemma wake_some l : exists w, wake_ok w l = true.
Proof.
  destruct (forallb (fun t => negb (is_asleep t)) l) eqn:E; [by exists None|].
  induction l as [|t l IH]; [done|]. cbn in E. destruct (is_asleep t) eqn:Et; cbn in E; [by exists (Some O)|].
  destruct IH as [[i|] Hw]; [done|by exists (Some (S i))|]. cbn in Hw. by rewrite Hw in E.
Qed.

Lemma wake_lookup w l i t : wake_ok w l = true -> l !! i = Some t -> t <> Asleep -> wake w l !! i = Some t.
Proof.
  intros Hw Hi Ht. destruct w as [k|]; [|done]. cbn in *. destruct (l !! k) as [t'|] eqn:Hk; [|done].
  destruct (decide (k = i)) as [->|Hne]; [|by rewrite list_lookup_insert_ne]. rewrite Hi in Hk. injection Hk as ->. by destruct t'.
Qed.

Lemma wake_after w l : wake_ok w l = true -> Exists (fun t => t = Test) (wake w l) \/ Forall (fun t => t <> Asleep) (wake w l).
Proof.
  intros Hw. destruct w as [i|]; cbn in *.
  - left. destruct (l !! i) eqn:Hi; [|done]. by eapply Exists_here.
  - right. apply Is_true_true, forallb_True in Hw. revert Hw. by induction 1 as [|[] l]; constructor.
Qed.
End Sums.
Arguments running : simpl never.

(** ** The queue of the jobs stands for a list

    [ds] are the blocks with their jobs, the oldest first. *)

Section Linked.
Context {J : Type}.
Implicit Types (m : gmap nat (job J)) (ds : list (nat * J)).

Definition hd_ptr ds : option nat := match ds with (b, _) :: _ => Some b | [] => None end.
Fixpoint linked m ds : Prop :=
  match ds with [] => True | (b, j) :: ds => m !! b = Some (Job j (hd_ptr ds)) /\ linked m ds end.

Lemma linked_ext m m' ds : (forall b, b ∈ ds.*1 -> m' !! b = m !! b) -> linked m ds -> linked m' ds.
Proof.
  induction ds as [|[b j] ds IH]; [done|]. cbn. intros Hm [Hb Hl]. split.
  - rewrite Hm; [done|]. by left.
  - apply IH; [|done]. intros c Hc. apply Hm. by right.
Qed.

Lemma linked_insert m ds b x : b ∉ ds.*1 -> linked m ds -> linked (<[b := x]> m) ds.
Proof. intros Hb. apply linked_ext. intros c Hc. apply lookup_insert_ne. by intros ->. Qed.

Lemma linked_delete m ds b : b ∉ ds.*1 -> linked m ds -> linked (delete b m) ds.
Proof. intros Hb. apply linked_ext. intros c Hc. apply lookup_delete_ne. by intros ->. Qed.

Lemma linked_last m ds r j : NoDup ds.*1 -> linked m ds -> last ds = Some (r, j) -> m !! r = Some (Job j None).
Proof.
  intros _. induction ds as [|[b j'] ds IH]; [done|]. cbn [linked]. intros [Hb Hl] Hr.
  destruct ds as [|d ds]; [|by apply IH]. injection Hr as -> ->. done.
Qed.

(** The last one is linked to a new one. *)
Lemma linked_snoc m ds r j b j' :
  NoDup (ds.*1 ++ [b]) -> linked m ds -> last ds = Some (r, j) ->
  linked (<[r := Job j (Some b)]> (<[b := Job j' None]> m)) (ds ++ [(b, j')]).
Proof.
  induction ds as [|[c k] ds IH]; [done|]. cbn [linked]. intros Hn [Hc Hl] Hr.
  cbn in Hn. apply NoDup_cons in Hn as [Hcn Hn]. apply not_elem_of_app in Hcn as [Hcd Hcb].
  assert (c <> b) as Hne by (intros ->; apply Hcb; by left).
  destruct ds as [|d ds].
  - injection Hr as -> ->. cbn. rewrite lookup_insert_eq, lookup_insert_ne, lookup_insert_eq by done. done.
  - cbn [app linked]. split; [|by apply IH].
    assert (r ∈ (d :: ds).*1) as Hin.
    { change (last (d :: ds) = Some (r, j)) in Hr. apply last_Some in Hr as [l' ->]. rewrite fmap_app. apply elem_of_app. right. by left. }
    rewrite !lookup_insert_ne; [|done|by intros ->]. rewrite Hc. by destruct d.
Qed.

Lemma hd_ptr_snoc ds b j : hd_ptr (ds ++ [(b, j)]) = match ds with [] => Some b | _ => hd_ptr ds end.
Proof. by destruct ds as [|[]]. Qed.
End Linked.

(** ** The invariant *)

Section Invariant.
Context {J : Type} (ends : J -> bool).
Local Notation thread := (thread J).
Local Notation thpool_ := (thpool_ J).
Implicit Types (p : thpool_) (ds : list (nat * J)).

Definition INT_MAX : Z := 2 ^ 31 - 1.
Definition is_alive (t : thread) : Z := match t with New | Dead => 0 | _ => 1 end.
Definition is_working (t : thread) : Z := match t with Pull | Run _ _ | Down => 1 | _ => 0 end.

(** The blocks that are allocated are those of the jobs in the queue and of the jobs
    that run. *)
Record heap_ok (m : gmap nat (job J)) ds (l : list thread) : Prop := {
  heap_linked : linked m ds;
  heap_nodup : NoDup (ds.*1 ++ (running l).*1);
  heap_dom : forall b, is_Some (m !! b) <-> b ∈ ds.*1 ++ (running l).*1
}.
Record queue_ok (q : jobqueue J) ds : Prop := {
  q_front : front q = hd_ptr ds;
  q_rear : rear q = fst <$> last ds;
  q_len : len q = Z.of_nat (length ds);
  q_max : len q <= INT_MAX;
  q_v : has_jobs q = 0 \/ has_jobs q = 1
}.
Record pool_ok p ds : Prop := {
  p_heap : heap_ok (blocks p) ds (threads p);
  p_queue : queue_ok (queue p) ds;
  p_added : added p = started p ++ ds.*2;
  p_started : started p ≡ₚ finished p ++ (running (threads p)).*2;
  p_finished : Forall (fun j => ends j = true) (finished p);
  p_working : num_threads_working p = total is_working (threads p);
  p_alive : num_threads_alive p = total is_alive (threads p)
}.

Lemma heap_ok_ext m ds l l' : running l' ≡ₚ running l -> heap_ok m ds l -> heap_ok m ds l'.
Proof.
  intros Hr [Hl Hn Hd]. pose proof (Permutation_map fst Hr) as Hf. split; [done|by rewrite Hf|].
  intros b. rewrite Hd, !elem_of_app. by rewrite (Permutation_map fst Hr).
Qed.

(** A turn of thread [i] from [a] to [b] that starts and ends no job. *)
Lemma pool_goes p ds i a b :
  threads p !! i = Some a -> jobs_of a = [] -> jobs_of b = [] -> pool_ok p ds ->
  pool_ok (Pool (<[i := b]> (threads p)) (num_threads_alive p - is_alive a + is_alive b)
    (num_threads_working p - is_working a + is_working b) (queue p) (blocks p) (threads_keepalive p) (waits p)
    (added p) (started p) (finished p)) ds.
Proof.
  intros Hi Ha Hb [Hh Hq Had Hst Hfin Hw Hal]. pose proof (running_same _ i a b Hi Ha Hb) as Hr.
  split; cbn; [by eapply heap_ok_ext|done|done| |done|by rewrite Hw, (total_insert _ _ _ _ _ Hi)|by rewrite Hal, (total_insert _ _ _ _ _ Hi)].
  by rewrite Hr.
Qed.

Lemma pool_wake p ds w : wake_ok w (threads p) = true -> pool_ok p ds -> pool_ok (set_threads (wake w (threads p)) p) ds.
Proof.
  intros Hw [Hh Hq Had Hst Hfin Hwk Hal]. pose proof (wake_running w _ Hw) as Hr.
  split; cbn; [by eapply heap_ok_ext|done|done|by rewrite Hr|done|by rewrite wake_total|by rewrite wake_total].
Qed.

(** Changes of what the invariant does not mention. *)
Lemma pool_v p ds v : v = 0 \/ v = 1 -> pool_ok p ds -> pool_ok (set_queue (set_v v (queue p)) p) ds.
Proof. intros Hv [Hh [? ? ? ? _] ? ? ? ? ?]. by split. Qed.
Lemma pool_keepalive p ds b : pool_ok p ds -> pool_ok (set_keepalive b p) ds.
Proof. by intros []. Qed.
Lemma pool_waits p ds c : pool_ok p ds -> pool_ok (set_waits c p) ds.
Proof. by intros []. Qed.

(** ** The operations *)

Lemma wp_bsem_post (Q : unit -> thpool_ -> Prop) w p :
  Q tt (set_threads (wake w (threads p)) (set_queue (set_v 1 (queue p)) p)) -> wp (bsem_post w) Q p.
Proof. done. Qed.

Lemma heap_push m ds l b j j' r :
  heap_ok m ds l -> m !! b = None -> last ds = Some (r, j) ->
  heap_ok (<[r := Job j (Some b)]> (<[b := Job j' None]> m)) (ds ++ [(b, j')]) l.
Proof.
  intros [Hl Hn Hd] Hb Hr. assert (b ∉ ds.*1 ++ (running l).*1) as Hnb by (rewrite <- Hd, Hb; by intros []).
  assert (is_Some (m !! r)) as Hmr.
  { apply Hd. apply last_Some in Hr as [l' ->]. rewrite fmap_app, !elem_of_app. left. right. by left. }
  split.
  - apply linked_snoc; [|done|done]. apply NoDup_app in Hn as (Hn & _ & _). apply NoDup_app. split; [done|].
    split; [|apply NoDup_singleton]. intros x Hx ->%list_elem_of_singleton. apply Hnb, elem_of_app. by left.
  - rewrite fmap_app, <- app_assoc, (Permutation_app_comm [(b, j')].*1), app_assoc. apply NoDup_app.
    split; [done|]. split; [|apply NoDup_singleton]. intros x Hx ->%list_elem_of_singleton. done.
  - intros c. rewrite fmap_app, !elem_of_app.
    destruct (decide (c = r)) as [->|Hcr]; [rewrite lookup_insert_eq; split; [intros _|by eexists]|].
    + apply Hd, elem_of_app in Hmr. tauto.
    + rewrite lookup_insert_ne by done. destruct (decide (c = b)) as [->|Hcb].
      * rewrite lookup_insert_eq. split; [intros _; left; right; by left|by eexists].
      * rewrite lookup_insert_ne, Hd, elem_of_app by done. cbn. set_solver.
Qed.

Lemma heap_push_first m l b j' :
  heap_ok m [] l -> m !! b = None -> heap_ok (<[b := Job j' None]> m) [(b, j')] l.
Proof.
  intros [Hl Hn Hd] Hb. assert (b ∉ (running l).*1) as Hnb by (intros H; apply Hd in H; rewrite Hb in H; by destruct H).
  split; cbn.
  - by rewrite lookup_insert_eq.
  - apply NoDup_cons. by split.
  - intros c. destruct (decide (c = b)) as [->|Hcb].
    + rewrite lookup_insert_eq. split; [intros _; by left|by eexists].
    + rewrite lookup_insert_ne, Hd by done. cbn. set_solver.
Qed.

Lemma heap_pull m ds l i b j :
  l !! i = Some Pull -> heap_ok m ((b, j) :: ds) l -> heap_ok m ds (<[i := Run b j]> l).
Proof.
  intros Hi [[_ Hl] Hn Hd]. pose proof (running_insert l i Pull (Run b j) Hi) as Hr. cbn in Hr. rewrite app_nil_r in Hr.
  pose proof (Permutation_map fst Hr) as Hf. rewrite map_app in Hf. cbn in Hf.
  assert (ds.*1 ++ (running (<[i := Run b j]> l)).*1 ≡ₚ ((b, j) :: ds).*1 ++ (running l).*1) as Hp.
  { cbn. unfold fmap, list_fmap in *. rewrite Hf. solve_Permutation. }
  split; [done|by rewrite Hp|]. intros c. by rewrite Hp.
Qed.

Lemma heap_finish m ds l i b j :
  l !! i = Some (Run b j) -> heap_ok m ds l -> heap_ok (delete b m) ds (<[i := Down]> l) /\ is_Some (m !! b).
Proof.
  intros Hi [Hl Hn Hd]. pose proof (running_insert l i (Run b j) Down Hi) as Hr. cbn in Hr. rewrite app_nil_r in Hr.
  pose proof (Permutation_map fst Hr) as Hf. rewrite map_app in Hf. cbn in Hf.
  assert (ds.*1 ++ (running l).*1 ≡ₚ b :: ds.*1 ++ (running (<[i := Down]> l)).*1) as Hp.
  { unfold fmap, list_fmap in *. rewrite <- Hf. solve_Permutation. }
  rewrite Hp in Hn. apply NoDup_cons in Hn as [Hb Hn]. split; [split; [|done|]|].
  - apply linked_delete; [|done]. intros H. apply Hb, elem_of_app. by left.
  - intros c. destruct (decide (c = b)) as [->|Hne].
    + rewrite lookup_delete_eq. split; [by intros []|done].
    + rewrite lookup_delete_ne, Hd, Hp, elem_of_cons by done. naive_solver.
  - apply Hd. rewrite Hp. by left.
Qed.

(** ** No wake-up is lost *)

Definition at_work (t : thread) : Prop := match t with Got | Up | Pull => True | _ => False end.
Definition in_pool (t : thread) : Prop := match t with End | Dead => False | _ => True end.
Record awake p : Prop := {
  aw_pool : Forall in_pool (threads p);
  aw_jobs : len (queue p) <> 0 -> has_jobs (queue p) = 1 \/ Exists at_work (threads p);
  aw_v : has_jobs (queue p) = 1 -> Exists (fun t => t = Test) (threads p) \/ Forall (fun t => t <> Asleep) (threads p);
  aw_waits : waits p = Sleeps -> len (queue p) <> 0 \/ num_threads_working p <> 0
}.

Lemma wake_pool w l : Forall in_pool l -> Forall in_pool (wake w l).
Proof. destruct w; [|done]. intros H. by apply Forall_insert. Qed.

(** What the turns of the threads use up. *)
Definition weight (t : thread) : Z :=
  match t with
  | Got => 8 | Up => 7 | Pull => 6 | Run _ _ => 5 | Down => 4 | New => 3 | Loop => 2 | Test | End => 1 | Asleep | Dead => 0
  end.
Definition measure p : Z :=
  9 * len (queue p) + 8 * has_jobs (queue p) + total weight (threads p) + match waits p with Tests => 1 | _ => 0 end.
Definition internal (t : turn J) : bool := match t with Step _ _ | WaitTurn => true | _ => false end.

(** The work of a thread makes [Test] and [Asleep] of others what they were. *)
Lemma awake_goes p i a b :
  threads p !! i = Some a -> (len (queue p) <> 0 -> at_work a -> at_work b) -> (in_pool a -> in_pool b) -> a <> Test -> b <> Asleep -> awake p ->
  awake (set_threads (<[i := b]> (threads p)) p).
Proof.
  intros Hi Hab Hin Ha Hb [H0 H1 H2 H3]. pose proof (Forall_lookup_1 _ _ _ _ H0 Hi) as Ha0. split; cbn; [..|done].
  - apply Forall_insert; auto.
  - intros Hn. destruct (H1 Hn) as [?|HE]; [by left|right]. eapply Exists_insert; eauto.
  - intros Hv. destruct (H2 Hv) as [HE|HF]; [left; by eapply Exists_insert|right; by apply Forall_insert].
Qed.

(** ** Turns *)

Record good p : Prop := {
  good_ok : exists ds, pool_ok p ds;
  good_awake : threads_keepalive p = true -> awake p
}.
(** [p'] after a turn of a thread in [p]. *)
Record steps_to p p' : Prop := {
  st_good : good p';
  st_measure : measure p' < measure p;
  st_added : added p' = added p;
  st_keepalive : threads_keepalive p' = threads_keepalive p;
  st_threads : length (threads p') = length (threads p)
}.
(** The turn is defined and leads there. *)
Definition wsteps (m : C thpool_ unit) p : Prop := exists p', m p = Done (tt, p') /\ steps_to p p'.

(** A turn that changes the place of one thread and the counters. *)
Lemma step_move p i a b al wk :
  al = num_threads_alive p - is_alive a + is_alive b -> wk = num_threads_working p - is_working a + is_working b ->
  good p -> threads p !! i = Some a -> jobs_of a = [] -> jobs_of b = [] ->
  (threads_keepalive p = true -> len (queue p) <> 0 -> at_work a -> at_work b) ->
  (threads_keepalive p = true -> in_pool a -> in_pool b) ->
  a <> Test -> b <> Asleep -> weight b < weight a -> is_working a - is_working b <= 0 ->
  steps_to p (Pool (<[i := b]> (threads p)) al wk (queue p) (blocks p) (threads_keepalive p) (waits p) (added p) (started p) (finished p)).
Proof.
  intros -> -> [[ds Hok] Haw] Hi Ha Hb Hab Hin Hat Hbs Hw Hwk.
  assert (0 <= num_threads_working p) as Hpos by (rewrite (p_working _ _ Hok); by apply total_nonneg; intros []).
  split; cbn; try done; [split|..].
  - exists ds. by apply pool_goes.
  - cbn. intros Hk. destruct (awake_goes p i a b Hi (Hab Hk) (Hin Hk) Hat Hbs (Haw Hk)) as [H0 H1 H2 H3]. split; [done..|].
    cbn in *. intros Hs. destruct (H3 Hs); [by left|right]. lia.
  - unfold measure. cbn. rewrite (total_insert _ _ _ _ _ Hi). lia.
  - apply length_insert.
Qed.

Ltac moves p i a b := eexists; split; [reflexivity|]; apply (step_move p i a b); cbn; try lia; try done.

Lemma step_New p i w : good p -> threads p !! i = Some New -> wsteps (thread_do i New w) p.
Proof. intros Hg Hi. moves p i (@New J) (@Loop J). Qed.

Lemma step_Loop p i w : good p -> threads p !! i = Some Loop -> wsteps (thread_do i Loop w) p.
Proof.
  intros Hg Hi. unfold wsteps, thread_do, mbind, C_bind, get, goes, upd. destruct (threads_keepalive p) eqn:Ek.
  - moves p i (@Loop J) (@Test J).
  - moves p i (@Loop J) (@End J). by rewrite Ek.
Qed.

Lemma step_Got p i w : good p -> threads p !! i = Some Got -> wsteps (thread_do i Got w) p.
Proof.
  intros Hg Hi. unfold wsteps, thread_do, mbind, C_bind, get, goes, upd. destruct (threads_keepalive p) eqn:Ek.
  - moves p i (@Got J) (@Up J).
  - moves p i (@Got J) (@Loop J). by rewrite Ek.
Qed.

Lemma step_Up p i w : good p -> threads p !! i = Some Up -> wsteps (thread_do i Up w) p.
Proof. intros Hg Hi. moves p i (@Up J) (@Pull J). Qed.

Lemma step_End p i w : good p -> threads p !! i = Some End -> wsteps (thread_do i End w) p.
Proof. intros Hg Hi. moves p i (@End J) (@Dead J). Qed.

(** At the test of the semaphore a thread goes to sleep or takes it. *)
Lemma step_Test p i w : good p -> threads p !! i = Some Test -> wsteps (thread_do i Test w) p.
Proof.
  intros [[ds Hok] Haw] Hi. unfold wsteps, thread_do, mbind, C_bind, get, goes, upd.
  destruct (has_jobs (queue p) =? 1) eqn:Ev; cbn.
  - apply Z.eqb_eq in Ev. eexists; split; [reflexivity|]. split; cbn; [split|..]; try done.
    + exists ds. pose proof (pool_goes (set_queue (set_v 0 (queue p)) p) ds i Test Got Hi eq_refl eq_refl (pool_v p ds 0 (or_introl eq_refl) Hok)) as H.
      cbn in H. by rewrite !Z.sub_0_r, !Z.add_0_r, Z.sub_add in H.
    + cbn. intros Hk. destruct (Haw Hk) as [H0 H1 H2 H3]. split; cbn; [by apply Forall_insert| |done|done]. intros _. right. by eapply Exists_here.
    + unfold measure. cbn. rewrite (total_insert _ _ _ _ _ Hi), Ev. cbn. lia.
    + apply length_insert.
  - apply Z.eqb_neq in Ev. eexists; split; [reflexivity|]. split; cbn; [split|..]; try done.
    + exists ds. pose proof (pool_goes _ ds i Test Asleep Hi eq_refl eq_refl Hok) as H.
      cbn in H. by rewrite !Z.sub_0_r, !Z.add_0_r, Z.sub_add in H.
    + cbn. intros Hk. destruct (Haw Hk) as [H0 H1 H2 H3]. split; cbn; [by apply Forall_insert| |done|done].
      intros Hn. destruct (H1 Hn) as [?|HE]; [done|right]. by eapply Exists_insert.
    + unfold measure. cbn. rewrite (total_insert _ _ _ _ _ Hi). cbn. lia.
    + apply length_insert.
Qed.

(** The last thread at work wakes the caller of [thpool_wait]. *)
Lemma step_Down p i w : good p -> threads p !! i = Some Down -> wsteps (thread_do i Down w) p.
Proof.
  intros [[ds Hok] Haw] Hi. unfold wsteps, thread_do, mbind, C_bind, get, goes, upd. cbn.
  pose proof (pool_goes _ ds i Down Loop Hi eq_refl eq_refl Hok) as H. cbn in H.
  rewrite !Z.add_0_r, Z.sub_add in H.
  destruct (num_threads_working p - 1 =? 0) eqn:En; cbn; eexists; (split; [reflexivity|]); (split; cbn; [split|..]); try done.
  - exists ds. apply (pool_waits _ ds (match waits p with Sleeps => Tests | c => c end)) in H. exact H.
  - cbn. intros Hk. destruct (awake_goes p i Down Loop Hi (fun _ => id) id) as [H0 H1 H2 H3]; try done; [by apply Haw|].
    split; cbn in *; [done..|]. by destruct (waits p).
  - unfold measure. cbn. rewrite (total_insert _ _ _ _ _ Hi). cbn. destruct (waits p); lia.
  - apply length_insert.
  - exists ds. exact H.
  - cbn. intros Hk. destruct (awake_goes p i Down Loop Hi (fun _ => id) id) as [H0 H1 H2 H3]; try done; [by apply Haw|].
    split; cbn in *; [done..|]. apply Z.eqb_neq in En. intros _. by right.
  - unfold measure. cbn. rewrite (total_insert _ _ _ _ _ Hi). cbn. lia.
  - apply length_insert.
Qed.

(** ** Jobs *)

Lemma queue_pull q b j ds f n :
  queue_ok q ((b, j) :: ds) -> n = len q - 1 -> f = hd_ptr ds ->
  queue_ok (set_ends f (match ds with [] => None | _ => rear q end) n q) ds.
Proof.
  intros [Hf Hr Hl Hm Hv] -> ->. cbn in Hl. split; cbn; [done|by destruct ds|lia|lia|done].
Qed.

Lemma step_pull_none p i w :
  good p -> threads p !! i = Some Pull -> len (queue p) = 0 -> wsteps (thread_do i Pull w) p.
Proof.
  intros Hg Hi Hl. destruct (good_ok _ Hg) as [ds Hok]. pose proof (p_queue _ _ Hok) as [Hf _ Hlen _ _].
  assert (ds = []) as -> by (destruct ds; [done|]; rewrite Hl in Hlen; cbn in Hlen; lia).
  unfold wsteps, thread_do, jobqueue_pull, mbind, C_bind, get, goes, upd. rewrite Hl. cbn. rewrite Hf. cbn.
  moves p i (@Pull J) (@Down J).
Qed.

(** The oldest job starts. *)
Lemma started_ok p ds i b j q l :
  pool_ok p ((b, j) :: ds) -> threads p !! i = Some Pull -> queue_ok q ds ->
  running l ≡ₚ running (threads p) -> l !! i = Some Pull -> (forall f, f Asleep = f Test -> total f l = total f (threads p)) ->
  pool_ok (Pool (<[i := Run b j]> l) (num_threads_alive p) (num_threads_working p) q (blocks p) (threads_keepalive p)
    (waits p) (added p) (started p ++ [j]) (finished p)) ds.
Proof.
  intros [Hh _ Had Hst Hfin Hw Hal] Hi Hq Hr Hli Htot.
  assert (running (<[i := Run b j]> l) ≡ₚ running (<[i := Run b j]> (threads p))) as Hrr.
  { pose proof (running_insert l i Pull (Run b j) Hli) as H1. pose proof (running_insert _ i Pull (Run b j) Hi) as H2.
    cbn in H1, H2. rewrite app_nil_r in H1, H2. by rewrite H1, H2, Hr. }
  split; cbn.
  - eapply heap_ok_ext; [exact Hrr|]. by apply heap_pull.
  - done.
  - rewrite Had. by rewrite <- app_assoc.
  - pose proof (running_insert l i Pull (Run b j) Hli) as H1. cbn in H1. rewrite app_nil_r, Hr in H1.
    apply (Permutation_map snd) in H1. rewrite map_app in H1. cbn in H1. unfold fmap, list_fmap in *. rewrite H1, Hst. solve_Permutation.
  - done.
  - rewrite (total_insert _ _ _ _ _ Hli), Htot, Hw by done. cbn. lia.
  - rewrite (total_insert _ _ _ _ _ Hli), Htot, Hal by done. cbn. lia.
Qed.

Lemma step_Pull p i w :
  good p -> threads p !! i = Some Pull -> negb (pull_posts (queue p)) || wake_ok w (threads p) = true ->
  wsteps (thread_do i Pull w) p.
Proof.
  intros Hg Hi Hw. destruct (good_ok _ Hg) as [ds Hok]. pose proof (p_queue _ _ Hok) as Hq.
  destruct ds as [|[b j] ds]; [apply step_pull_none; [done..|by rewrite (q_len _ _ Hq)]|].
  pose proof Hq as [Hf Hr Hlen Hm Hv]. pose proof (p_heap _ _ Hok) as [[Hb _] _ _].
  unfold wsteps, thread_do, jobqueue_pull, mbind, C_bind, get, goes, upd, load, bsem_post, upd. unfold pull_posts in Hw.
  cbn in Hlen. destruct (len (queue p) =? 0) eqn:E0; [lia|]. destruct (len (queue p) =? 1) eqn:E1; cbn in Hw |- *.
  - assert (ds = []) as -> by (destruct ds; [done|cbn in Hlen; lia]). rewrite Hf. cbn. rewrite Hb. cbn.
    eexists; split; [reflexivity|]. split; cbn; [split|..]; try done.
    + exists []. apply (started_ok p [] i b j _ (threads p)); try done.
    + cbn. intros Hk. destruct (good_awake _ Hg Hk) as [H0 H1 H2 H3]. split; cbn; [by apply Forall_insert|done| |].
      * intros Hv1. destruct (H2 Hv1) as [HE|HF]; [left; by eapply Exists_insert|right; by apply Forall_insert].
      * intros _. right. rewrite (p_working _ _ Hok).
        pose proof (total_member is_working (threads p) i Pull ltac:(by intros []) Hi). cbn in *. lia.
    + unfold measure. cbn. rewrite (total_insert _ _ _ _ _ Hi). cbn. lia.
    + apply length_insert.
  - rewrite Hf. cbn. rewrite Hb. cbn. rewrite Hb. cbn.
    assert (exists d ds', ds = d :: ds') as (d & ds' & Hds) by (destruct ds; [cbn in Hlen; lia|by eauto]).
    pose proof (wake_lookup w _ i Pull Hw Hi ltac:(done)) as Hli.
    eexists; split; [reflexivity|]. split; cbn; [split|..]; try done.
    + exists ds. apply (started_ok p ds i b j (JobQueue (hd_ptr ds) (rear (queue p)) 1 (len (queue p) - 1)) (wake w (threads p))); try done.
      * pose proof (queue_pull _ b j ds (hd_ptr ds) (len (queue p) - 1) Hq eq_refl eq_refl) as [? ? ? ? _]. subst ds.
        split; cbn in *; try done. by right.
      * by apply wake_running.
      * intros f Hff. by apply wake_total.
    + cbn. intros Hk. split; cbn; [apply Forall_insert; [|done]; apply wake_pool, (good_awake _ Hg Hk)|by left| |].
      * intros _. destruct (wake_after w _ Hw) as [HE|HF]; [left; by eapply Exists_insert|right; by apply Forall_insert].
      * intros _. left. subst ds. cbn in Hlen. lia.
    + unfold measure. cbn. rewrite (total_insert _ _ _ _ _ Hli).
      pose proof (wake_total_le weight w (threads p) ltac:(cbn; lia) Hw). cbn. lia.
    + rewrite length_insert. destruct w; [apply length_insert|done].
Qed.

(** A job that ends gives its block back. *)
Lemma step_Run p i b j w :
  good p -> threads p !! i = Some (Run b j) -> ends j = true -> wsteps (thread_do i (Run b j) w) p.
Proof.
  intros [[ds [Hh Hq Had Hst Hfin Hw Hal]] Haw] Hi He. destruct (heap_finish _ _ _ _ _ _ Hi Hh) as [Hh' [x Hx]].
  unfold wsteps, thread_do, mbind, C_bind, get, goes, upd, free. cbn. rewrite Hx. cbn.
  eexists; split; [reflexivity|]. split; cbn; [split|..]; try done.
  - exists ds. split; cbn; try done.
    + pose proof (running_insert _ i (Run b j) Down Hi) as Hr. cbn in Hr. rewrite app_nil_r in Hr.
      apply (Permutation_map snd) in Hr. rewrite map_app in Hr. cbn in Hr. unfold fmap, list_fmap in *. rewrite Hst, <- Hr. solve_Permutation.
    + apply Forall_app. by repeat constructor.
    + rewrite (total_insert _ _ _ _ _ Hi), Hw. cbn. lia.
    + rewrite (total_insert _ _ _ _ _ Hi), Hal. cbn. lia.
  - cbn. intros Hk. destruct (awake_goes p i (Run b j) Down Hi ltac:(done) ltac:(done) ltac:(done) ltac:(done) (Haw Hk)) as [H0 H1 H2 H3]. by split.
  - unfold measure. cbn. rewrite (total_insert _ _ _ _ _ Hi). cbn. lia.
  - apply length_insert.
Qed.

(** Every turn of a thread. *)
Lemma step_thread p i w : good p -> enabled ends (Step i w) p = true -> wsteps (run_turn (Step i w)) p.
Proof.
  intros Hg He. cbn in He. unfold run_turn. destruct (threads p !! i) as [t|] eqn:Hi; [|done].
  apply andb_true_iff in He as [Hc Hw]. assert (wsteps (thread_do i t w) p) as (p' & E & H).
  { destruct t; try done; [by apply step_New|by apply step_Loop|by apply step_Test|by apply step_Got|by apply step_Up
    |by apply step_Pull|by apply step_Run|by apply step_Down|by apply step_End]. }
  exists p'. split; [|done]. unfold mbind, C_bind, get. cbn. by rewrite Hi.
Qed.

(** ** Turns of others *)

Lemma queue_push q b j ds n :
  queue_ok q ds -> len q < INT_MAX -> n = len q + 1 ->
  queue_ok (JobQueue (match ds with [] => Some b | _ => front q end) (Some b) 1 n) (ds ++ [(b, j)]).
Proof.
  intros [Hf Hr Hl Hm Hv] Hmax ->. split; cbn; [|by rewrite last_snoc|rewrite length_app; cbn; lia|lia|by right].
  rewrite hd_ptr_snoc. by destruct ds.
Qed.

(** [p] with a job pushed. *)
Definition pushed w f b n m p : thpool_ :=
  Pool (wake w (threads p)) (num_threads_alive p) (num_threads_working p) (JobQueue f (Some b) 1 n) m (threads_keepalive p)
    (waits p) (added p) (started p) (finished p).

Lemma push_first p b x w :
  blocks p !! b = Some x -> len (queue p) = 0 ->
  jobqueue_push b w p = Done (tt, pushed w (Some b) b 1 (<[b := Job (function x) None]> (blocks p)) p).
Proof.
  intros Hb Hl. unfold jobqueue_push. erewrite bind_done; [|unfold load; by rewrite Hb].
  erewrite bind_done; [|unfold store; by rewrite Hb]. erewrite bind_done; [|reflexivity]. cbn [queue set_blocks].
  rewrite Hl. cbn [Z.eqb]. done.
Qed.

Lemma push_more p b x r y w :
  blocks p !! b = Some x -> len (queue p) <> 0 -> len (queue p) <> INT_MAX -> rear (queue p) = Some r ->
  blocks p !! r = Some y -> b <> r ->
  jobqueue_push b w p = Done (tt, pushed w (front (queue p)) b (len (queue p) + 1)
    (<[r := Job (function y) (Some b)]> (<[b := Job (function x) None]> (blocks p))) p).
Proof.
  intros Hb H0 Hm Hr Hy Hne. unfold jobqueue_push. erewrite bind_done; [|unfold load; by rewrite Hb].
  erewrite bind_done; [|unfold store; by rewrite Hb]. erewrite bind_done; [|reflexivity]. cbn [queue set_blocks].
  apply Z.eqb_neq in H0, Hm. rewrite H0, Hr. erewrite bind_done.
  2: { erewrite bind_done; [|unfold load; cbn [blocks set_blocks]; by rewrite lookup_insert_ne, Hy].
       erewrite bind_done; [reflexivity|]. unfold store. cbn [blocks set_blocks]. by rewrite lookup_insert_ne, Hy. }
  erewrite bind_done; [|reflexivity]. cbn [queue set_blocks set_queue set_ends len]. unfold INT_MAX in Hm. rewrite Hm. done.
Qed.

Lemma add_runs p ds j w :
  pool_ok p ds -> wake_ok w (threads p) = true -> len (queue p) < INT_MAX ->
  exists b m q, thpool_add_work j true w p =
    Done (0, Pool (wake w (threads p)) (num_threads_alive p) (num_threads_working p) q m (threads_keepalive p) (waits p)
      (added p ++ [j]) (started p) (finished p)) /\
    heap_ok m (ds ++ [(b, j)]) (threads p) /\ queue_ok q (ds ++ [(b, j)]) /\ has_jobs q = 1.
Proof.
  intros [Hh Hq Had Hst Hfin Hw Hal] Hwk Hmax. pose proof Hq as [Hf Hr Hl Hm Hv].
  set (b := fresh (dom (blocks p))). assert (blocks p !! b = None) as Hb by (apply not_elem_of_dom, is_fresh).
  set (p1 := log_added j (set_blocks (<[b := Job j None]> (blocks p)) p)).
  assert (blocks p1 !! b = Some (Job j None)) as Hb1 by apply lookup_insert_eq.
  assert (forall p', jobqueue_push b w p1 = Done (tt, p') -> thpool_add_work j true w p = Done (0, p')) as Hrun.
  { intros p' E. unfold thpool_add_work. cbn [negb]. erewrite bind_done; [|reflexivity]. erewrite bind_done; [|reflexivity].
    by erewrite bind_done; [|exact E]. }
  exists b. destruct ds as [|d ds].
  - do 2 eexists. split; [apply Hrun, (push_first p1 b _ w Hb1); exact Hl|]. cbn [blocks p1 log_added set_blocks function].
    rewrite insert_insert_eq. split_and!; [by apply heap_push_first| |done].
    apply (queue_push (queue p) b j [] 1) in Hq; [exact Hq|done|cbn in Hl; lia].
  - destruct (last (d :: ds)) as [[r jr]|] eqn:Elast; [|by apply last_None in Elast].
    assert (blocks p !! r = Some (Job jr None)) as Hbr.
    { destruct Hh as [Hlk Hn _]. apply NoDup_app in Hn as (Hn & _ & _). by apply (linked_last _ (d :: ds)). }
    assert (b <> r) as Hne by (intros E; rewrite E, Hbr in Hb; done).
    do 2 eexists. split; [apply Hrun, (push_more p1 b (Job j None) r (Job jr None) w Hb1); try done|].
    + cbn [queue p1 log_added set_blocks]. rewrite Hl. cbn. lia.
    + cbn [queue p1 log_added set_blocks]. lia.
    + cbn [blocks p1 log_added set_blocks]. by rewrite lookup_insert_ne.
    + cbn [blocks p1 log_added set_blocks function]. rewrite insert_insert_eq. split_and!; [by apply heap_push| |done].
      apply (queue_push (queue p) b j (d :: ds) (len (queue p) + 1)) in Hq; [exact Hq|done|lia].
Qed.

Lemma good_add p j w :
  good p -> wake_ok w (threads p) = true -> len (queue p) < INT_MAX ->
  exists p', thpool_add_work j true w p = Done (0, p') /\ good p' /\ threads p' = wake w (threads p) /\
    added p' = added p ++ [j] /\ started p' = started p /\ finished p' = finished p /\ threads_keepalive p' = threads_keepalive p.
Proof.
  intros [[ds Hok] Haw] Hw Hmax. destruct (add_runs p ds j w Hok Hw Hmax) as (b & m & q & E & Hh & Hq & Hv).
  destruct Hok as [_ _ Had Hst Hfin Hwk Hal]. pose proof (wake_running w _ Hw) as Hr.
  eexists. split; [exact E|]. split; [split|done]; cbn.
  - exists (ds ++ [(b, j)]). split; cbn; try done; [by eapply heap_ok_ext| |by rewrite Hr|by rewrite wake_total|by rewrite wake_total].
    rewrite Had, fmap_app. cbn. by rewrite app_assoc.
  - intros Hk. split; cbn; [apply wake_pool, (Haw Hk)|by left| |].
    + intros _. by apply wake_after.
    + intros _. left. rewrite (q_len _ _ Hq), length_app. cbn. lia.
Qed.

Lemma good_test p i t : good p -> threads p !! i = Some t -> is_asleep t = true -> good (set_threads (<[i := Test]> (threads p)) p).
Proof.
  intros [[ds Hok] Haw] Hi Ht. destruct t; try done. split.
  - exists ds. apply (pool_wake p ds (Some i)); [|done]. cbn. by rewrite Hi.
  - intros Hk. destruct (Haw Hk) as [H0 H1 H2 H3]. split; cbn; [by apply Forall_insert| |intros _; left; by eapply Exists_here|done].
    intros Hn. destruct (H1 Hn) as [?|HE]; [by left|right]. by eapply Exists_insert.
Qed.

Lemma good_postall p : good p -> good (set_threads (map (fun t => if is_asleep t then Test else t) (threads p)) (set_queue (set_v 1 (queue p)) p)).
Proof.
  intros [[ds [Hh Hq Had Hst Hfin Hw Hal]] Haw].
  pose proof (running_map (fun t => if is_asleep t then Test else t) (threads p) ltac:(by intros [])) as Hr.
  split; cbn.
  - exists ds. split; cbn; try done.
    + eapply heap_ok_ext; [|exact Hh]. by rewrite Hr.
    + destruct Hq. split; cbn; try done. by right.
    + by rewrite Hr.
    + rewrite total_map; [done|by intros []].
    + rewrite total_map; [done|by intros []].
  - intros Hk. destruct (Haw Hk) as [H0 H1 H2 H3]. split; cbn; [|by left| |done].
    { rewrite Forall_forall in H0. apply Forall_forall. intros t (t' & -> & Ht)%list_elem_of_fmap. pose proof (H0 _ Ht). by destruct t'. }
    intros _. right. apply Forall_forall. intros t (t' & -> & _)%list_elem_of_fmap. by destruct t'.
Qed.

(** ** Everything that can be reached *)

Lemma push_full p b w r : len (queue p) = INT_MAX -> jobqueue_push b w p <> Done r.
Proof.
  intros Hm (x & s1 & E1 & H)%bind_inv. assert (queue s1 = queue p) as Q1 by (unfold load in E1; destruct (blocks p !! b); by simplify_eq/=).
  apply bind_inv in H as ([] & s2 & E2 & H).
  assert (queue s2 = queue p) as Q2 by (unfold store in E2; destruct (blocks s1 !! b); by simplify_eq/=).
  apply bind_inv in H as (q & s3 & [= <- <-] & H). rewrite Q2, Hm in H. cbn [Z.eqb INT_MAX] in H.
  apply bind_inv in H as ([] & s4 & E4 & H). assert (len (queue s4) = INT_MAX) as Q4.
  { destruct (rear (queue p)); [|done]. apply bind_inv in E4 as (y & s5 & E5 & E4). apply bind_inv in E4 as ([] & s6 & E6 & [= <-]).
    done. }
  apply bind_inv in H as (q4 & s7 & [= <- <-] & H). rewrite Q4 in H. by apply bind_inv in H as (? & ? & ? & _).
Qed.

Lemma add_room p j w r : good p -> thpool_add_work j true w p = Done r -> len (queue p) < INT_MAX.
Proof.
  intros [[ds Hok] _] E. pose proof (q_max _ _ (p_queue _ _ Hok)) as Hle.
  destruct (decide (len (queue p) = INT_MAX)) as [Hm|]; [|lia]. exfalso. revert E. unfold thpool_add_work. cbn [negb].
  intros (b & s1 & [= <- <-] & E)%bind_inv. apply bind_inv in E as ([] & s2 & [= <-] & E).
  apply bind_inv in E as ([] & s3 & E & _). by apply push_full in E.
Qed.

Lemma good_init n : good (init_pool n).
Proof.
  assert (running (replicate (Z.to_nat (Z.max 0 n)) (@New J)) = []) as Hr by (induction (Z.to_nat (Z.max 0 n)) as [|k IH]; cbn; done).
  split.
  - exists []. split; cbn; rewrite ?Hr; try done.
    + split; cbn; rewrite ?Hr; [done|by apply NoDup_nil_2|]. intros b. rewrite lookup_empty. cbn. split; [by intros []|by intros ?%elem_of_nil].
    + split; cbn; try done. by left.
    + induction (Z.to_nat (Z.max 0 n)); cbn in *; [done|]. unfold running in *. cbn in *. auto.
    + induction (Z.to_nat (Z.max 0 n)); cbn in *; [done|]. unfold running in *. cbn in *. auto.
  - intros _. split; cbn; [by apply Forall_replicate|done|done|done].
Qed.

(** A turn from a good state that is defined leads to a good one. *)
Lemma good_turn t p p' : good p -> enabled ends t p = true -> run_turn t p = Done (tt, p') -> good p'.
Proof.
  intros Hg He E. destruct t as [j ok w|i w|i| | | | |].
  - cbn in E. apply bind_inv in E as (r & s & E & [= <-]). destruct ok; cbn in He.
    + pose proof (add_room p j w _ Hg E) as Hmax. destruct (good_add p j w Hg He Hmax) as (p2 & E2 & H2 & _).
      rewrite E in E2. by injection E2 as -> ->.
    + cbn in E. by injection E as <- <-.
  - destruct (step_thread p i w Hg He) as (p2 & E2 & []). rewrite E in E2. by injection E2 as ->.
  - cbn in He, E. destruct (threads p !! i) as [t|] eqn:Hi; [|done]. injection E as <-. by eapply good_test.
  - injection E as <-. destruct Hg as [[ds Hok] Haw]. split; [exists ds; by apply pool_waits|].
    intros Hk. destruct (Haw Hk). by split.
  - cbn in E. unfold thpool_wait, mbind, C_bind, get, upd in E. injection E as <-. destruct Hg as [[ds Hok] Haw].
    split; [exists ds; by apply pool_waits|]. intros Hk. destruct (Haw Hk). split; cbn; [done..|].
    destruct (len (queue p) =? 0) eqn:E1, (num_threads_working p =? 0) eqn:E2; cbn; try done; intros _.
    + right. by apply Z.eqb_neq.
    + left. by apply Z.eqb_neq.
    + left. by apply Z.eqb_neq.
  - injection E as <-. destruct Hg as [[ds Hok] Haw]. split; [exists ds; by apply pool_waits|].
    intros Hk. destruct (Haw Hk). by split.
  - injection E as <-. destruct Hg as [[ds Hok] Haw]. split; [exists ds; by apply pool_keepalive|done].
  - injection E as <-. by apply good_postall.
Qed.

Lemma good_reachable n p : reachable ends (init_pool n) p -> good p.
Proof. induction 1; [apply good_init|]. by eapply good_turn. Qed.

(** Turns that can be taken are defined. *)
Lemma turn_defined t p : good p -> enabled ends t p = true -> (forall j w, t = AddWork j true w -> len (queue p) < INT_MAX) ->
  exists p', run_turn t p = Done (tt, p').
Proof.
  intros Hg He Hroom. destruct t as [j ok w|i w|i| | | | |]; [| |by eexists..].
  - destruct ok; [|by eexists]. destruct (good_add p j w Hg He (Hroom j w eq_refl)) as (p2 & E2 & _). exists p2.
    unfold run_turn. by erewrite bind_done; [|exact E2].
  - destruct (step_thread p i w Hg He) as (p2 & E2 & _). by exists p2.
Qed.

(** A turn of the pool itself. *)
Lemma step_internal t p p' : good p -> internal t = true -> enabled ends t p = true -> run_turn t p = Done (tt, p') -> steps_to p p'.
Proof.
  intros Hg Hint He E. pose proof (good_turn t p p' Hg He E) as Hg'. destruct t as [| i w| | | | | |]; try done.
  - destruct (step_thread p i w Hg He) as (p2 & E2 & H). rewrite E in E2. by injection E2 as ->.
  - cbn in E, He. unfold thpool_wait, mbind, C_bind, get, upd in E. injection E as <-. split; try done.
    unfold measure. cbn. destruct (waits p); try done. destruct (_ || _); lia.
Qed.
End Invariant.
