(* ===== verification/PoolRuns.v ===== *)
(** What the thread pool promises: jobs start in the order they are added, each once;
    whoever waits for them returns when all are done; the pool comes to rest only with
    nothing left to do or with every thread in a job that never ends. *)

From stdpp Require Import gmap fin_maps.
From S2P Require Import Prelude ThreadPool PoolRules.

Local Open Scope Z_scope.

Section Runs.
Context {J : Type} (ends : J -> bool).
Local Notation thpool_ := (thpool_ J).
Implicit Types p : thpool_.

(** The pool is at rest: only a job added, a wake-up without a signal or a call changes it. *)
Definition quiet p : Prop := forall t, internal t = true -> enabled ends t p = false.
Definition endless (j : J) : bool := negb (ends j).
(** A thread that is taken for good. *)
Definition taken (t : thread J) : Prop := exists b j, t = Run b j /\ ends j = false.

(** Turns of the pool itself. *)
Inductive inner : list (turn J) -> thpool_ -> thpool_ -> Prop :=
| inner_nil p : inner [] p p
| inner_cons t ts p p1 p2 :
    internal t = true -> enabled ends t p = true -> run_turn t p = Done (tt, p1) -> inner ts p1 p2 -> inner (t :: ts) p p2.

Lemma quiet_thread p i t : quiet p -> threads p !! i = Some t -> t = Asleep \/ t = Dead \/ taken t.
Proof.
  intros Hq Hi. destruct (wake_some (threads p)) as [w Hw].
  assert (enabled ends (Step i w) p = false) as He by by apply Hq. cbn in He. rewrite Hi in He.
  destruct t as [| | | | | | |b j| | |]; cbn in He; try done; [by left| | |by right; left].
  - by rewrite Hw, orb_true_r in He.
  - rewrite andb_true_r in He. right. right. by exists b, j.
Qed.

Lemma inner_facts ts p p' : good ends p -> inner ts p p' ->
  good ends p' /\ Z.of_nat (length ts) + measure p' <= measure p /\ added p' = added p /\
  threads_keepalive p' = threads_keepalive p /\ length (threads p') = length (threads p).
Proof.
  intros Hg Hr. induction Hr as [p|t ts p p1 p2 Hi He E Hr IH]; [cbn; split_and!; [done|lia|done..]|].
  destruct (step_internal ends t p p1 Hg Hi He E) as [Hg1 Hm Ha Hk Hl]. destruct (IH Hg1) as (H1 & H2 & H3 & H4 & H5).
  split_and!; [done|cbn [length]; lia|by rewrite H3|by rewrite H4|by rewrite H5].
Qed.

Lemma weight_nonneg (t : thread J) : 0 <= weight t.
Proof. by destruct t. Qed.

Lemma measure_nonneg p : good ends p -> 0 <= measure p.
Proof.
  intros [[ds Hok] _]. destruct (p_queue _ _ _ Hok) as [_ _ Hl _ Hv]. pose proof (total_nonneg weight (threads p) weight_nonneg).
  unfold measure. destruct (waits p); lia.
Qed.

(** From every state the pool comes to rest by turns of its own. *)
Lemma inner_ends p : good ends p -> exists ts p', inner ts p p' /\ quiet p'.
Proof.
  remember (Z.to_nat (measure p)) as n eqn:Hn. revert p Hn. induction (lt_wf n) as [n _ IH]. intros p -> Hg.
  assert ((exists t, internal t = true /\ enabled ends t p = true) \/ quiet p) as [(t & Hi & He)|Hq]; [| |by exists [], p; split; [constructor|]].
  - destruct (wake_some (threads p)) as [w Hw].
    destruct (decide (Exists (fun t => thread_can ends t = true) (threads p))) as [HE|HE].
    { apply Exists_exists in HE as (t & Ht & Hc). apply list_elem_of_lookup in Ht as [i Hi]. left. exists (Step i w).
      split; [done|]. cbn. rewrite Hi, Hc, Hw, orb_true_r. by destruct t. }
    destruct (waits p) eqn:Ew; [|by left; exists WaitTurn; split; [done|cbn; by rewrite Ew]| |]; right.
    all: intros [| i w'| | | | | |] Hi; try done; cbn; rewrite ?Ew; try done.
    all: destruct (threads p !! i) as [t|] eqn:Ht; [|done]; destruct (thread_can ends t) eqn:Hc; [|done];
      destruct HE; apply Exists_exists; exists t; split; [|done]; apply list_elem_of_lookup; by exists i.
  - destruct (turn_defined ends t p Hg He) as [p1 E]; [by intros j w ->|].
    destruct (step_internal ends t p p1 Hg Hi He E) as [Hg1 Hm _ _ _].
    destruct (IH (Z.to_nat (measure p1))) with (p := p1) as (ts & p' & Hr & Hq); [|done|done|].
    { pose proof (measure_nonneg p1 Hg1). lia. }
    exists (t :: ts), p'. split; [by econstructor|done].
Qed.

(** ** Starving *)

Definition count_endless (l : list J) : nat := length (List.filter endless l).

Lemma count_endless_app l1 l2 : count_endless (l1 ++ l2) = (count_endless l1 + count_endless l2)%nat.
Proof. unfold count_endless. by rewrite List.filter_app, length_app. Qed.

Lemma count_endless_perm l1 l2 : l1 ≡ₚ l2 -> count_endless l1 = count_endless l2.
Proof. unfold count_endless. induction 1; cbn; repeat (destruct (endless _); cbn); congruence. Qed.

Lemma count_endless_le l : (count_endless l <= length l)%nat.
Proof. apply List.filter_length_le. Qed.

Lemma count_endless_ends l : Forall (fun j => ends j = true) l -> count_endless l = 0%nat.
Proof. unfold count_endless, endless. induction 1 as [|j l Hj Hl IH]; [done|]. cbn. by rewrite Hj. Qed.

Lemma count_endless_prefix l1 l2 : l1 `prefix_of` l2 -> (count_endless l1 <= count_endless l2)%nat.
Proof. intros [k ->]. rewrite count_endless_app. lia. Qed.

Lemma count_endless_sublist l1 l2 : l1 `sublist_of` l2 -> (count_endless l1 <= count_endless l2)%nat.
Proof. unfold count_endless. induction 1; cbn; [done|..]; destruct (endless _); cbn; lia. Qed.

Lemma running_bound (l : list (thread J)) : (length (running l) <= length l)%nat.
Proof. induction l as [|t l IH]; [done|]. unfold running in *. cbn. rewrite length_app. destruct t; cbn; lia. Qed.

(** A thread that runs no job. *)
Lemma running_less (l : list (thread J)) i t : l !! i = Some t -> jobs_of t = [] -> (length (running l) < length l)%nat.
Proof.
  revert i. induction l as [|t' l IH]; intros [|i] Hi Ht; try done; unfold running in *; cbn in *; rewrite length_app.
  - injection Hi as ->. rewrite Ht. cbn. pose proof (running_bound l). unfold running in *. lia.
  - specialize (IH i Hi Ht). destruct t'; cbn; lia.
Qed.

(** The number of threads does not change. *)
Lemma turn_length t p p' : good ends p -> enabled ends t p = true -> run_turn t p = Done (tt, p') -> length (threads p') = length (threads p).
Proof.
  intros Hg He E. destruct (internal t) eqn:Hi; [by destruct (step_internal ends t p p' Hg Hi He E)|].
  destruct t as [j ok w|i w|i| | | | |]; try done; try (by injection E as <-).
  - cbn in E. apply bind_inv in E as (r & s & E & [= <-]). destruct ok; cbn in He; [|by injection E as <- <-].
    pose proof (add_room ends p j w _ Hg E) as Hmax. destruct (good_add ends p j w Hg He Hmax) as (p2 & E2 & _ & H2 & _).
    rewrite E in E2. injection E2 as -> ->. rewrite H2. destruct w; [apply length_insert|done].
  - injection E as <-. apply length_insert.
  - injection E as <-. apply length_map.
Qed.

Lemma reach_length n p : reachable ends (init_pool n) p -> length (threads p) = Z.to_nat (Z.max 0 n).
Proof.
  induction 1 as [|t p p' Hr IH He E]; [apply length_replicate|]. rewrite <- IH.
  eapply turn_length; [by eapply good_reachable|done..].
Qed.

(** How the log grows: by the oldest job of the queue, when a thread starts it. *)
Lemma turn_started t p p' : good ends p -> enabled ends t p = true -> run_turn t p = Done (tt, p') ->
  started p' = started p \/ exists i j, threads p !! i = Some Pull /\ started p' = started p ++ [j].
Proof.
  intros Hg He E. destruct t as [j ok w|i w|i| | | | |]; try (by injection E as <-; left).
  - cbn in E. apply bind_inv in E as (r & s & E & [= <-]). destruct ok; cbn in He; [|by injection E as <- <-; left].
    pose proof (add_room ends p j w _ Hg E) as Hmax. destruct (good_add ends p j w Hg He Hmax) as (p2 & E2 & _ & _ & _ & H2 & _).
    rewrite E in E2. injection E2 as -> ->. by left.
  - unfold run_turn in E. apply bind_inv in E as (l & s0 & [= <- <-] & E). destruct (threads p !! i) as [t|] eqn:Hi; [|done].
    destruct t as [| | | | | | |b j| | |]; unfold thread_do in E; try done.
    + apply bind_inv in E as ([] & s & [= <-] & [= <-]). by left.
    + apply bind_inv in E as (k & s & [= <- <-] & [= <-]). by left.
    + apply bind_inv in E as (q & s & [= <- <-] & E). destruct (negb _); [by injection E as <-; left|].
      apply bind_inv in E as ([] & s & [= <-] & [= <-]). by left.
    + apply bind_inv in E as (k & s & [= <- <-] & [= <-]). by left.
    + apply bind_inv in E as ([] & s & [= <-] & [= <-]). by left.
    + apply bind_inv in E as (o & s & E1 & E). assert (started s = started p) as Hs.
      { unfold jobqueue_pull in E1. apply bind_inv in E1 as (q & s1 & [= <- <-] & E1). apply bind_inv in E1 as ([] & s2 & E1 & [= <- <-]).
        destruct (_ =? 0); [by injection E1 as <-|]. destruct (_ =? 1); [by injection E1 as <-|].
        destruct (front _); [|done]. apply bind_inv in E1 as (x & s3 & E3 & E1). unfold load in E3.
        destruct (blocks p !! n); [|done]. injection E3 as <- <-. apply bind_inv in E1 as ([] & s4 & [= <-] & [= <-]). done. }
      destruct o as [b|]; [|injection E as <-; by left]. apply bind_inv in E as (x & s1 & E2 & E).
      unfold load in E2. destruct (blocks s !! b) as [y|]; [|done]. injection E2 as <- <-.
      apply bind_inv in E as ([] & s3 & [= <-] & [= <-]). right. exists i, (function y). by rewrite <- Hs.
    + apply bind_inv in E as ([] & s & [= <-] & E). apply bind_inv in E as ([] & s1 & E1 & [= <-]). unfold free in E1. cbn in E1.
      destruct (blocks p !! b); [|done]. injection E1 as <-. by left.
    + apply bind_inv in E as ([] & s & [= <-] & E). apply bind_inv in E as (k & s1 & [= <- <-] & E).
      apply bind_inv in E as ([] & s2 & E1 & [= <-]). destruct (_ =? 0); injection E1 as <-; by left.
    + apply bind_inv in E as ([] & s & [= <-] & [= <-]). by left.
Qed.

(** What [jobqueue_pull] leaves alone. *)
Lemma pull_frame w p o s : jobqueue_pull w p = Done (o, s) ->
  started s = started p /\ finished s = finished p /\ (threads s = threads p \/ pull_posts (queue p) = true /\ threads s = wake w (threads p)).
Proof.
  unfold jobqueue_pull, pull_posts. intros (q & s1 & [= <- <-] & E)%bind_inv. apply bind_inv in E as ([] & s2 & E & [= _ <-]).
  destruct (_ =? 0); [injection E as <-; auto|]. destruct (_ =? 1); [injection E as <-; auto|].
  destruct (front _) as [b|]; [|done]. apply bind_inv in E as (x & s3 & E3 & E). unfold load in E3.
  destruct (blocks p !! b); [|done]. injection E3 as <- <-. apply bind_inv in E as ([] & s4 & [= <-] & [= <-]). auto.
Qed.

(** A turn of another thread leaves a job that runs where it is; a job is finished by
    its own thread. *)
Lemma turn_finished t p p' : good ends p -> enabled ends t p = true -> run_turn t p = Done (tt, p') ->
  (finished p' = finished p /\ (forall k b j, threads p !! k = Some (Run b j) -> threads p' !! k = Some (Run b j))) \/
  (exists i w b j, t = Step i w /\ threads p !! i = Some (Run b j) /\ finished p' = finished p ++ [j] /\ threads p' = <[i := Down]> (threads p)).
Proof.
  assert (forall i a b (l : list (thread J)), l !! i = Some a -> jobs_of a = [] -> forall k b' j', l !! k = Some (Run b' j') -> <[i := b]> l !! k = Some (Run b' j')) as Hins.
  { intros i a b l Hi Ha k b' j' Hk. rewrite list_lookup_insert_ne; [done|]. intros ->. rewrite Hi in Hk. injection Hk as ->. done. }
  intros Hg He E. destruct t as [j ok w|i w|i| | | | |].
  - left. cbn in E. apply bind_inv in E as (r & s & E & [= <-]). destruct ok; cbn in He; [|by injection E as <- <-].
    pose proof (add_room ends p j w _ Hg E) as Hmax. destruct (good_add ends p j w Hg He Hmax) as (p2 & E2 & _ & Ht & _ & _ & H2 & _).
    rewrite E in E2. injection E2 as -> ->. split; [done|]. intros k b j' Hk. rewrite Ht. by apply wake_lookup.
  - unfold run_turn in E. apply bind_inv in E as (l & s0 & [= <- <-] & E). destruct (threads p !! i) as [t|] eqn:Hi; [|done].
    cbn in He. rewrite Hi in He. pose proof (fun b => Hins i t b (threads p) Hi) as Hj.
    destruct t as [| | | | | | |b j| | |]; unfold thread_do in E; try done; cbn in He; [left..|right|left|left].
    + apply bind_inv in E as ([] & s & [= <-] & [= <-]). split; [done|]. by apply Hj.
    + apply bind_inv in E as (k & s & [= <- <-] & [= <-]). split; [done|]. by apply Hj.
    + apply bind_inv in E as (q & s & [= <- <-] & E). destruct (negb _); [injection E as <-; split; [done|]; by apply Hj|].
      apply bind_inv in E as ([] & s & [= <-] & [= <-]). split; [done|]. by apply Hj.
    + apply bind_inv in E as (k & s & [= <- <-] & [= <-]). split; [done|]. by apply Hj.
    + apply bind_inv in E as ([] & s & [= <-] & [= <-]). split; [done|]. by apply Hj.
    + apply bind_inv in E as (o & s & E1 & E). destruct (pull_frame _ _ _ _ E1) as (_ & Hf & Ht).
      assert (forall k b' j', threads p !! k = Some (Run b' j') -> threads s !! k = Some (Run b' j')) as Hk.
      { intros k b' j' Hk. destruct Ht as [->|[Hp ->]]; [done|]. apply wake_lookup; [|done|done]. by rewrite Hp in He. }
      assert (threads s !! i = Some Pull) as Hi' by (destruct Ht as [->|[Hp ->]]; [done|]; apply wake_lookup; [by rewrite Hp in He|done|done]).
      destruct o as [b|].
      * apply bind_inv in E as (x & s1 & E2 & E). unfold load in E2. destruct (blocks s !! b) as [y|]; [|done]. injection E2 as <- <-.
        apply bind_inv in E as ([] & s3 & [= <-] & [= <-]). split; [done|]. intros k b' j' Hr. cbn. by apply (Hins i Pull), Hk.
      * injection E as <-. split; [done|]. intros k b' j' Hr. cbn. by apply (Hins i Pull), Hk.
    + apply bind_inv in E as ([] & s & [= <-] & E). apply bind_inv in E as ([] & s1 & E1 & [= <-]). unfold free in E1. cbn in E1.
      destruct (blocks p !! b); [|done]. injection E1 as <-. by exists i, w, b, j.
    + apply bind_inv in E as ([] & s & [= <-] & E). apply bind_inv in E as (k & s1 & [= <- <-] & E).
      apply bind_inv in E as ([] & s2 & E1 & [= <-]). destruct (_ =? 0); injection E1 as <-; (split; [done|]); by apply Hj.
    + apply bind_inv in E as ([] & s & [= <-] & [= <-]). split; [done|]. by apply Hj.
  - left. cbn in He. injection E as <-. destruct (threads p !! i) as [t|] eqn:Hi; [|done]. split; [done|]. cbn. apply (Hins i t); [done|by destruct t].
  - left. by injection E as <-.
  - left. by injection E as <-.
  - left. by injection E as <-.
  - left. by injection E as <-.
  - left. injection E as <-. split; [done|]. cbn. intros k b j Hk. by rewrite list_lookup_fmap, Hk.
Qed.

(** A job starts only when a thread is free of endless ones. *)
Lemma started_after n p k : reachable ends (init_pool n) p ->
  (Z.to_nat (Z.max 0 n) <= count_endless (take k (started p)))%nat -> (length (started p) <= k)%nat.
Proof.
  intros Hr. revert k. induction Hr as [|t p p' Hr IH He E]; intros k Hk; [cbn in *; lia|].
  pose proof (good_reachable ends n p Hr) as Hg. destruct (turn_started t p p' Hg He E) as [Hs|(i & j & Hi & Hs)]; rewrite Hs in *; [by apply IH|].
  rewrite length_app. cbn [length]. destruct (decide (k <= length (started p))%nat) as [Hle|]; [|lia]. exfalso.
  rewrite take_app_le in Hk by done. pose proof Hg as [[ds Hok] _].
  pose proof (count_endless_prefix (take k (started p)) (started p) ltac:(exists (drop k (started p)); by rewrite take_drop)) as H1.
  rewrite (count_endless_perm _ _ (p_started _ _ _ Hok)), count_endless_app, (count_endless_ends (finished p)) in H1 by apply (p_finished _ _ _ Hok).
  pose proof (count_endless_le (running (threads p)).*2) as H2. rewrite length_fmap in H2.
  pose proof (running_less (threads p) i Pull Hi eq_refl) as H3. rewrite (reach_length n p Hr) in H3. lia.
Qed.

(** ** Rest *)

Lemma working_none (l : list (thread J)) : total is_working l = 0 -> running l = [].
Proof.
  induction l as [|t l IH]; [done|]. cbn [total]. intros H. pose proof (total_nonneg is_working l ltac:(by intros [])).
  unfold running in *. cbn. rewrite IH by (destruct t; cbn in *; lia). by destruct t; cbn in *; try lia.
Qed.

Lemma asleep_none (l : list (thread J)) : Forall (fun t => t = Asleep) l -> running l = [] /\ total is_working l = 0.
Proof. induction 1 as [|t l -> Hl [IH1 IH2]]; [done|]. unfold running in *. cbn. by rewrite IH1, IH2. Qed.

Lemma taken_running (l : list (thread J)) : Forall taken l -> count_endless (running l).*2 = length l.
Proof.
  unfold count_endless, endless, running. induction 1 as [|t l (b & j & -> & Hj) Hl IH]; [done|]. cbn. rewrite Hj. cbn. by rewrite IH.
Qed.

Lemma endless_running p ds : pool_ok ends p ds -> count_endless (running (threads p)).*2 = count_endless (started p).
Proof.
  intros Hok. by rewrite (count_endless_perm _ _ (p_started _ _ _ Hok)), count_endless_app, (count_endless_ends (finished p)) by apply (p_finished _ _ _ Hok).
Qed.

(** At rest either every thread is taken or no job waits. *)
Lemma quiet_cases p ds : quiet p -> pool_ok ends p ds -> awake p -> Forall taken (threads p) \/ ds = [].
Proof.
  intros Hq Hok [H0 H1 H2 _]. pose proof (q_len _ _ (p_queue _ _ _ Hok)) as Hl. destruct ds as [|d ds]; [by right|left]. cbn [length] in Hl.
  assert (Forall (fun t => t <> Asleep) (threads p)) as Hn.
  { destruct H1 as [Hv|(t & Ht & Hw)%Exists_exists]; [lia| |].
    - destruct (H2 Hv) as [(t & Ht & ->)%Exists_exists|Hn]; [|done]. apply list_elem_of_lookup in Ht as [i Hi].
      by destruct (quiet_thread p i Test Hq Hi) as [|[|(b & j & ? & _)]].
    - apply list_elem_of_lookup in Ht as [i Hi]. by destruct (quiet_thread p i t Hq Hi) as [->|[->|(b & j & -> & _)]]. }
  apply Forall_lookup. intros i t Hi. pose proof (Forall_lookup_1 _ _ _ _ Hn Hi). pose proof (Forall_lookup_1 _ _ _ _ H0 Hi) as Hp.
  by destruct (quiet_thread p i t Hq Hi) as [->|[->|Ht]].
Qed.
End Runs.

(** ** What the pool promises *)

Section Theorems.
Context {J : Type} (ends : J -> bool).

(** C21: In whatever order the threads, the callers and the signals take turns, the
    list of blocks from [front] holds exactly the jobs added and not started, oldest
    first, so jobs start in the order they were added and none is lost or started
    twice; the jobs started are those finished and those that run, at most one for
    each thread; no block is lost or freed twice: those allocated are the blocks of
    the jobs in the queue and of the jobs that run; and every turn that can be taken
    is free of undefined behaviour, as long as the length of the queue fits an
    [int]. *)
Theorem pool_jobs (n : Z) (p : thpool_ J) : reachable ends (init_pool n) p ->
  exists ds,
    linked (blocks p) ds /\ front (queue p) = hd_ptr ds /\ len (queue p) = Z.of_nat (length ds) /\
    added p = started p ++ ds.*2 /\
    started p ≡ₚ finished p ++ (running (threads p)).*2 /\
    Z.of_nat (length (running (threads p))) <= Z.max 0 n /\
    NoDup (ds.*1 ++ (running (threads p)).*1) /\
    (forall b, is_Some (blocks p !! b) <-> b ∈ ds.*1 ++ (running (threads p)).*1) /\
    (forall t, enabled ends t p = true -> len (queue p) < INT_MAX -> exists p', run_turn t p = Done (tt, p')).
Proof.
  intros Hr. pose proof (good_reachable ends n p Hr) as Hg. pose proof Hg as [[ds Hok] _].
  destruct Hok as [[Hl Hn Hd] [Hf _ Hlen _ _] Ha Hs _ _ _]. exists ds. split_and!; try done.
  - pose proof (running_bound (threads p)) as H. rewrite (reach_length ends n p Hr) in H. lia.
  - intros t He Hlt. by eapply turn_defined.
Qed.

Lemma rest_cases (n : Z) (p : thpool_ J) : reachable ends (init_pool n) p -> threads_keepalive p = true ->
  (forall ts p', inner ends ts p p' -> Z.of_nat (length ts) <= measure p) /\
  (exists ts p', inner ends ts p p' /\ quiet ends p') /\
  (forall ts p', inner ends ts p p' -> quiet ends p' ->
    added p' = added p /\
    (Forall (taken ends) (threads p') \/ started p' = added p) /\
    (Z.of_nat (count_endless ends (added p)) < n -> started p' = added p) /\
    (count_endless ends (added p) = 0%nat -> 0 < n ->
       finished p' ≡ₚ added p /\ waits p' <> Tests /\ waits p' <> Sleeps)).
Proof.
  intros Hr Hk. pose proof (good_reachable ends n p Hr) as Hg. split_and!.
  { intros ts p' Hi. destruct (inner_facts ends ts p p' Hg Hi) as (Hg' & Hm & _). pose proof (measure_nonneg ends p' Hg'). lia. }
  { by apply inner_ends. }
  intros ts p' Hi Hq. destruct (inner_facts ends ts p p' Hg Hi) as (Hg' & _ & Ha & Hk' & Hl). rewrite Hk in Hk'.
  rewrite (reach_length ends n p Hr) in Hl. pose proof Hg' as [[ds Hok] Haw]. specialize (Haw Hk').
  pose proof (p_added _ _ _ Hok) as Had. rewrite Ha in Had.
  pose proof (endless_running ends p' ds Hok) as He.
  assert (Z.of_nat (count_endless ends (added p)) < n -> ds = []) as Hds.
  { intros Hlt. destruct (quiet_cases ends p' ds Hq Hok Haw) as [Ht|]; [|done]. rewrite (taken_running ends _ Ht), Hl in He.
    rewrite Had, count_endless_app in Hlt. lia. }
  split_and!; [done| | |].
  - destruct (quiet_cases ends p' ds Hq Hok Haw) as [?| ->]; [by left|right]. by rewrite Had, app_nil_r.
  - intros Hlt. by rewrite Had, (Hds Hlt), app_nil_r.
  - intros H0 Hn. rewrite (Hds ltac:(lia)) in *. cbn in Had. rewrite app_nil_r in Had.
    assert (Forall (fun t => t = Asleep) (threads p')) as HA.
    { apply Forall_lookup. intros i t Ht. pose proof (Forall_lookup_1 _ _ _ _ (aw_pool _ Haw) Ht).
      destruct (quiet_thread ends p' i t Hq Ht) as [|[->|(b & j & -> & Hj)]]; [done..|].
      rewrite <- Had in He. rewrite H0 in He.
      assert (j ∈ (running (threads p')).*2) as Hin.
      { apply list_elem_of_fmap. exists (b, j). split; [done|]. apply running_member. apply list_elem_of_lookup. by exists i. }
      apply list_elem_of_split in Hin as (l1 & l2 & E). rewrite E in He. unfold count_endless in He. rewrite List.filter_app, length_app in He.
      cbn in He. unfold endless in He at 2. rewrite Hj in He. cbn in He. lia. }
    destruct (asleep_none _ HA) as [H1 H2]. split_and!.
    + rewrite Had, (p_started _ _ _ Hok), H1. cbn. by rewrite app_nil_r.
    + intros Hw. specialize (Hq WaitTurn eq_refl). cbn in Hq. by rewrite Hw in Hq.
    + intros Hw. destruct (aw_waits _ Haw Hw) as [Hn0|Hn0]; [by rewrite (q_len _ _ (p_queue _ _ _ Hok)) in Hn0|].
      by rewrite (p_working _ _ _ Hok), H2 in Hn0.
Qed.

(** C7: As long as the pool is not destroyed no wake-up is lost.  From every state it
    can reach, the threads and the caller take only so many turns of their own
    before the pool is at rest, and it can come to rest; at rest every thread is in
    a job that never ends, or every job added has started; so with fewer endless jobs
    than threads all are started, and with none all are finished and nobody waits. *)
Theorem pool_comes_to_rest (n : Z) (p : thpool_ J) : reachable ends (init_pool n) p -> threads_keepalive p = true ->
  (forall ts p', inner ends ts p p' -> Z.of_nat (length ts) <= measure p) /\
  (exists ts p', inner ends ts p p' /\ quiet ends p') /\
  (forall ts p', inner ends ts p p' -> quiet ends p' ->
    added p' = added p /\
    (Forall (taken ends) (threads p') \/ started p' = added p) /\
    (Z.of_nat (count_endless ends (added p)) < n -> started p' = added p) /\
    (count_endless ends (added p) = 0%nat -> 0 < n ->
       finished p' ≡ₚ added p /\ waits p' <> Tests /\ waits p' <> Sleeps)).
Proof. apply rest_cases. Qed.

(** A caller that [thpool_wait] lets go finds every job that was added finished,
    in whatever state the threads are: a job is never between the queue and its
    thread without one of them counting it. *)
Theorem pool_wait (n : Z) (p p' : thpool_ J) :
  reachable ends (init_pool n) p -> run_turn WaitTurn p = Done (tt, p') -> waits p' = Back -> finished p' ≡ₚ added p'.
Proof.
  intros Hr E Hb. pose proof (good_reachable ends n p Hr) as [[ds Hok] _].
  cbn in E. unfold thpool_wait, mbind, C_bind, get, upd in E. injection E as <-. cbn in *.
  destruct (len (queue p) =? 0) eqn:E1; [|done]. destruct (num_threads_working p =? 0) eqn:E2; [|done].
  apply Z.eqb_eq in E1, E2. rewrite (q_len _ _ (p_queue _ _ _ Hok)) in E1. destruct ds; [|done].
  rewrite (p_working _ _ _ Hok) in E2. rewrite (p_added _ _ _ Hok), (p_started _ _ _ Hok), (working_none _ E2). cbn.
  by rewrite !app_nil_r.
Qed.

(** Once as many jobs that never end have been added as the pool has threads, no
    job added after them ever starts, in whatever order the threads take turns. *)
Lemma started_prefix (n : Z) (p : thpool_ J) (pre : list J) :
  reachable ends (init_pool n) p -> pre `prefix_of` added p -> n <= Z.of_nat (count_endless ends pre) ->
  started p `prefix_of` pre.
Proof.
  intros Hr Hpre Hn. pose proof (good_reachable ends n p Hr) as [[ds Hok] _].
  assert (started p `prefix_of` added p) as Hst by (rewrite (p_added _ _ _ Hok); by eexists).
  destruct (prefix_weak_total _ _ _ Hst Hpre) as [|[k Hk]]; [done|].
  assert (length (started p) <= length pre)%nat as Hle.
  { eapply started_after; [done|]. rewrite Hk, take_app_length. lia. }
  rewrite Hk, length_app in Hle. destruct k; [|cbn in Hle; lia]. rewrite Hk, app_nil_r. done.
Qed.

(** The queue is emptied block by block. *)
Lemma clear_queue ds (p : thpool_ J) fuel :
  queue_ok (queue p) ds -> linked (blocks p) ds -> NoDup ds.*1 -> (length ds < fuel)%nat ->
  exists p', jobqueue_clear fuel p = Done (Some tt, p') /\ queue p' = JobQueue None None 0 0 /\
    forall b, is_Some (blocks p' !! b) <-> is_Some (blocks p !! b) /\ b ∉ ds.*1.
Proof.
  revert p fuel. induction ds as [|[b j] ds IH]; intros p [|fuel] Hq Hl Hn Hf; try (cbn in Hf; lia).
  - cbn [jobqueue_clear]. unfold mbind, C_bind, get, upd. rewrite (q_len _ _ Hq). cbn. eexists. split; [reflexivity|].
    split; [done|]. cbn. intros b. split; [intros H; by split; [|intros ?%elem_of_nil]|by intros []].
  - pose proof Hq as [Hfr Hr Hlen Hm Hv]. cbn in Hlen, Hfr. cbn [length] in Hf. cbn in Hl. destruct Hl as [Hb Hl].
    cbn in Hn. apply NoDup_cons in Hn as [Hbn Hn]. cbn [jobqueue_clear].
    assert (exists q', queue_ok q' ds /\ exists th, (o ← jobqueue_pull None; _ ← match o with Some b => free b | None => mret tt end; jobqueue_clear fuel) p
      = jobqueue_clear fuel (set_blocks (delete b (blocks p)) (set_threads th (set_queue q' p)))) as (q' & Hq' & th & E).
    { unfold jobqueue_pull, mbind, C_bind, get, upd, load, free, bsem_post, upd. rewrite Hfr.
      destruct (len (queue p) =? 0) eqn:E0; [lia|]. destruct (len (queue p) =? 1) eqn:E1; cbn; rewrite Hb; cbn; rewrite ?Hb.
      - exists (set_ends None None 0 (queue p)). split; [|by exists (threads p); destruct p].
        destruct ds; [split; cbn; try done; lia|cbn in Hlen; lia].
      - exists (set_v 1 (set_ends (hd_ptr ds) (rear (queue p)) (len (queue p) - 1) (queue p))). split; [|by exists (threads p); destruct p].
        pose proof (queue_pull _ b j ds (hd_ptr ds) (len (queue p) - 1) Hq eq_refl eq_refl) as [? ? ? ? _].
        destruct ds; [cbn in Hlen; lia|]. split; cbn in *; try done. by right. }
    destruct (IH (set_blocks (delete b (blocks p)) (set_threads th (set_queue q' p))) fuel) as (p' & E' & H1 & H2);
      [done|by apply linked_delete|done|lia|].
    exists p'. split; [|split; [done|]].
    + unfold mbind, C_bind in E |- *. unfold get at 1. cbn beta iota. destruct (len (queue p) =? 0) eqn:E0; [lia|].
      etransitivity; [exact E|exact E'].
    + intros c. rewrite H2. cbn. rewrite elem_of_cons. destruct (decide (c = b)) as [->|Hne].
      * rewrite lookup_delete_eq. split; [by intros [[] _]|]. intros [_ Hc]. destruct Hc. by left.
      * rewrite lookup_delete_ne by done. naive_solver.
Qed.

(** When [thpool_destroy] has seen the last thread go, emptying the queue frees
    what is left: as many turns of the loop as jobs wait, each block once, and no
    block of a job remains. *)
Theorem pool_freed (n : Z) (p : thpool_ J) :
  reachable ends (init_pool n) p -> num_threads_alive p = 0 ->
  exists p', jobqueue_clear (S (Z.to_nat (len (queue p)))) p = Done (Some tt, p') /\
    blocks p' = ∅ /\ queue p' = JobQueue None None 0 0.
Proof.
  intros Hr H0. pose proof (good_reachable ends n p Hr) as [[ds Hok] _]. pose proof Hok as [[Hl Hn Hd] Hq _ _ _ _ Hal].
  assert (running (threads p) = []) as Hrun.
  { rewrite Hal in H0. clear -H0. induction (threads p) as [|t l IH]; [done|]. cbn [total] in H0.
    pose proof (total_nonneg is_alive l ltac:(by intros [])). unfold running in *. cbn. rewrite IH by (destruct t; cbn in *; lia).
    by destruct t; cbn in *; try lia. }
  rewrite Hrun, app_nil_r in Hn. rewrite Hrun in Hd. cbn in Hd. setoid_rewrite app_nil_r in Hd.
  destruct (clear_queue ds p (S (Z.to_nat (len (queue p)))) Hq Hl Hn) as (p' & E & H1 & H2).
  { rewrite (q_len _ _ Hq). lia. }
  exists p'. split; [done|]. split; [|done]. apply map_empty. intros b. destruct (blocks p' !! b) eqn:Eb; [|done].
  assert (is_Some (blocks p' !! b)) as Hs by by eexists. apply H2 in Hs as [Hs Hb]. by apply Hd in Hs.
Qed.
End Theorems.

(** ** Runs *)

Lemma run_turns_reach {J} (ends : J -> bool) ts p0 p p' :
  reachable ends p0 p -> run_turns ends ts p = Some p' -> reachable ends p0 p'.
Proof.
  unfold run_turns. revert p. induction ts as [|t ts IH]; intros p Hr E; [by injection E as <-|]. cbn [foldl] in E.
  change (Some p ≫= ?f) with (f p) in E. cbn beta in E. destruct (enabled ends t p) eqn:He.
  - destruct (run_turn t p) as [[[] p1]|] eqn:E1; [|exfalso; clear -E; induction ts; [done|by apply IHts]].
    apply (IH p1); [by eapply reach_turn|exact E].
  - exfalso. clear -E. induction ts; [done|by apply IHts].
Qed.

(** One thread; a job is added while it sleeps, another while it runs the first. *)
Definition demo_turns : list (turn nat) :=
  [Step 0 None; Step 0 None; Step 0 None; AddWork 1%nat true (Some 0%nat); Step 0 None; Step 0 None; Step 0 None; Step 0 None;
   AddWork 2%nat true None; CallWait].
Definition demo_pool : thpool_ nat := default (init_pool 1) (run_turns (fun _ => true) demo_turns (init_pool 1)).
(** Then the thread runs the second job, and the caller of [thpool_wait] tests. *)
Definition demo_more : list (turn nat) := WaitTurn :: replicate 10 (Step 0 None).
Definition demo_done : thpool_ nat := default (init_pool 1) (run_turns (fun _ => true) demo_more demo_pool).

Lemma demo_reachable : reachable (fun _ => true) (init_pool 1) demo_pool.
Proof. eapply (run_turns_reach _ demo_turns); [constructor|]. by vm_compute. Qed.

Lemma demo_done_reachable : reachable (fun _ => true) (init_pool 1) demo_done.
Proof. eapply (run_turns_reach _ demo_more); [apply demo_reachable|]. by vm_compute. Qed.

Lemma pool_jobs_witness : exists ds, linked (blocks demo_pool) ds /\ [1%nat; 2%nat] = [1%nat] ++ ds.*2.
Proof.
  destruct (pool_jobs (fun _ => true) 1 demo_pool demo_reachable) as (ds & H1 & _ & _ & H2 & _). exists ds.
  split; [exact H1|exact H2].
Defined.

Lemma pool_comes_to_rest_witness :
  exists ts p', inner (fun _ => true) ts demo_pool p' /\ quiet (fun _ => true) p' /\ finished p' ≡ₚ [1%nat; 2%nat] /\ waits p' <> Sleeps.
Proof.
  destruct (pool_comes_to_rest (fun _ => true) 1 demo_pool demo_reachable eq_refl) as (_ & (ts & p' & Hi & Hq) & H).
  exists ts, p'. split; [exact Hi|split; [exact Hq|]]. destruct (H ts p' Hi Hq) as (_ & _ & _ & Hf).
  destruct (Hf eq_refl eq_refl) as (H1 & _ & H3). split; [exact H1|exact H3].
Defined.

Lemma pool_wait_witness : exists p', run_turn WaitTurn demo_done = Done (tt, p') /\ waits p' = Back /\ finished p' ≡ₚ [1%nat; 2%nat].
Proof.
  eexists. split; [reflexivity|]. split; [reflexivity|].
  exact (pool_wait (fun _ => true) 1 demo_done _ demo_done_reachable eq_refl eq_refl).
Defined.

Definition demo_ended : thpool_ nat :=
  default (init_pool 1) (run_turns (fun _ => true) (Destroy :: replicate 4 (Step 0 None)) demo_pool).

(** The pool is destroyed while the first job runs; the second never starts. *)
Lemma pool_freed_witness : exists p', jobqueue_clear 2 demo_ended = Done (Some tt, p') /\ blocks p' = ∅ /\ started demo_ended = [1%nat].
Proof.
  assert (reachable (fun _ => true) (init_pool 1) demo_ended) as Hr.
  { eapply (run_turns_reach _ (Destroy :: replicate 4 (Step 0 None))); [apply demo_reachable|]. by vm_compute. }
  destruct (pool_freed (fun _ => true) 1 demo_ended Hr eq_refl) as (p' & E & Hb & _).
  exists p'. split; [exact E|split; [exact Hb|reflexivity]].
Defined.
