(* ===== verification/AdList.v ===== *)
(** The doubly linked list (source/list.c), at the level of its pointers, and what it
    promises: in a store that holds any number of lists every function does to the
    chain of one list what the function of its name does to a list. *)

From stdpp Require Import gmap fin_maps.
From S2P Require Import Prelude.

Local Open Scope Z_scope.

(** ** Data

    [value] is a pointer of the user, 0 the null pointer. *)

Record listNode := LNode { prev : option nat; next : option nat; value : Z }.
Record list_t := LList {
  head : option nat;
  tail : option nat;
  dup : option (Z -> Z);
  free : bool;
  match_ : option (Z -> Z -> bool);
  len : Z
}.
(** [from_head]: the direction is [AL_START_HEAD]. *)
Record listIter := LIter { iter_next : option nat; from_head : bool }.

Definition set_prev p (n : listNode) := LNode p (next n) (value n).
Definition set_next p (n : listNode) := LNode (prev n) p (value n).
Definition set_head p (q : list_t) := LList p (tail q) (dup q) (free q) (match_ q) (len q).
Definition set_tail p (q : list_t) := LList (head q) p (dup q) (free q) (match_ q) (len q).
(** An [unsigned long] has 32 bits here. *)
Definition set_len n (q : list_t) := LList (head q) (tail q) (dup q) (free q) (match_ q) (u32 n).
Definition set_methods (d : list_t) (q : list_t) := LList (head q) (tail q) (dup d) (free d) (match_ d) (len q).

(** The nodes and the lists that are allocated; [mallocs] tells which allocations
    succeed, [released] is what the function [free] of a list was called with. *)
Record lst := LSt {
  nodes : gmap nat listNode;
  lists : gmap nat list_t;
  mallocs : list bool;
  released : list Z
}.

(** ** Memory *)

Local Notation M := (C lst).
Definition getl (l : nat) : M list_t := fun s =>
  match lists s !! l with Some q => Done (q, s) | None => Undef end.
Definition putl (l : nat) (q : list_t) : M unit := fun s =>
  Done (tt, LSt (nodes s) (<[l := q]> (lists s)) (mallocs s) (released s)).
Definition load (a : nat) : M listNode := fun s =>
  match nodes s !! a with Some n => Done (n, s) | None => Undef end.
Definition store (a : nat) (n : listNode) : M unit := fun s =>
  match nodes s !! a with Some _ => Done (tt, LSt (<[a := n]> (nodes s)) (lists s) (mallocs s) (released s)) | None => Undef end.
Definition deref (p : option nat) : M nat := match p with Some a => mret a | None => undef end.
Definition upd (a : option nat) (f : listNode -> listNode) : M unit := a ← deref a; n ← load a; store a (f n).
Definition updl (l : nat) (f : list_t -> list_t) : M unit := q ← getl l; putl l (f q).

(** Whether the next allocation succeeds. *)
Definition ask : M bool := fun s =>
  Done (default true (hd_error (mallocs s)), LSt (nodes s) (lists s) (List.tl (mallocs s)) (released s)).
Definition new_node (v : Z) : M (option nat) :=
  ok ← ask;
  if negb ok then mret None
  else fun s => let a := fresh (dom (nodes s)) in
    Done (Some a, LSt (<[a := LNode None None v]> (nodes s)) (lists s) (mallocs s) (released s)).
Definition free_node (a : nat) : M unit := fun s =>
  match nodes s !! a with Some _ => Done (tt, LSt (delete a (nodes s)) (lists s) (mallocs s) (released s)) | None => Undef end.
Definition free_list (l : nat) : M unit := fun s => Done (tt, LSt (nodes s) (delete l (lists s)) (mallocs s) (released s)).
Definition free_value (q : list_t) (v : Z) : M unit :=
  if free q then fun s => Done (tt, LSt (nodes s) (lists s) (mallocs s) (released s ++ [v])) else mret tt.

(** ** list.c *)

Definition listCreate : M (option nat) :=
  ok ← ask;
  if negb ok then mret None
  else fun s => let l := fresh (dom (lists s)) in
    Done (Some l, LSt (nodes s) (<[l := LList None None None false None 0]> (lists s)) (mallocs s) (released s)).

Fixpoint empty_loop (l : nat) (len : nat) (current : option nat) : M unit :=
  match len with
  | O => mret tt
  | S len =>
      a ← deref current; n ← load a;
      q ← getl l; _ ← free_value q (value n);
      _ ← free_node a;
      empty_loop l len (next n)
  end.
Definition listEmpty (l : nat) : M unit :=
  q ← getl l;
  _ ← empty_loop l (Z.to_nat (len q)) (head q);
  updl l (fun q => set_len 0 (set_tail None (set_head None q))).
Definition listRelease (l : nat) : M unit :=
  _ ← listEmpty l; free_list l.

Definition listAddNodeHead (l : nat) (v : Z) : M (option nat) :=
  o ← new_node v;
  match o with
  | None => mret None
  | Some node =>
      q ← getl l;
      _ ← (if len q =? 0 then
             _ ← putl l (set_tail (Some node) (set_head (Some node) q)); store node (LNode None None v)
           else
             _ ← store node (LNode None (head q) v);
             _ ← upd (head q) (set_prev (Some node));
             putl l (set_head (Some node) q));
      _ ← updl l (fun q => set_len (len q + 1) q);
      mret (Some l)
  end.

Definition listAddNodeTail (l : nat) (v : Z) : M (option nat) :=
  o ← new_node v;
  match o with
  | None => mret None
  | Some node =>
      q ← getl l;
      _ ← (if len q =? 0 then
             _ ← putl l (set_tail (Some node) (set_head (Some node) q)); store node (LNode None None v)
           else
             _ ← store node (LNode (tail q) None v);
             _ ← upd (tail q) (set_next (Some node));
             putl l (set_tail (Some node) q));
      _ ← updl l (fun q => set_len (len q + 1) q);
      mret (Some l)
  end.

(** Whether two pointers are the same. *)
Definition same (p : option nat) (a : nat) : bool := bool_decide (p = Some a).

Definition listInsertNode (l old_node : nat) (v : Z) (after : bool) : M (option nat) :=
  o ← new_node v;
  match o with
  | None => mret None
  | Some node =>
      old ← load old_node;
      q ← getl l;
      _ ← (if after then
             _ ← store node (LNode (Some old_node) (next old) v);
             if same (tail q) old_node then putl l (set_tail (Some node) q) else mret tt
           else
             _ ← store node (LNode (prev old) (Some old_node) v);
             if same (head q) old_node then putl l (set_head (Some node) q) else mret tt);
      n ← load node;
      _ ← match prev n with Some p => upd (Some p) (set_next (Some node)) | None => mret tt end;
      n ← load node;
      _ ← match next n with Some p => upd (Some p) (set_prev (Some node)) | None => mret tt end;
      _ ← updl l (fun q => set_len (len q + 1) q);
      mret (Some l)
  end.

Definition listDelNode (l node : nat) : M unit :=
  n ← load node;
  _ ← match prev n with Some p => upd (Some p) (set_next (next n)) | None => updl l (set_head (next n)) end;
  n ← load node;
  _ ← match next n with Some p => upd (Some p) (set_prev (prev n)) | None => updl l (set_tail (prev n)) end;
  q ← getl l; _ ← free_value q (value n);
  _ ← free_node node;
  updl l (fun q => set_len (len q - 1) q).

Definition listGetIterator (l : nat) (direction : Z) : M (option listIter) :=
  ok ← ask;
  if negb ok then mret None
  else q ← getl l; mret (Some (if direction =? 0 then LIter (head q) true else LIter (tail q) false)).
Definition listRewind (l : nat) : M listIter := q ← getl l; mret (LIter (head q) true).
Definition listRewindTail (l : nat) : M listIter := q ← getl l; mret (LIter (tail q) false).
Definition listNext (it : listIter) : M (option nat * listIter) :=
  match iter_next it with
  | None => mret (None, it)
  | Some a => n ← load a; mret (Some a, LIter (if from_head it then next n else prev n) (from_head it))
  end.

(** [fuel]: more turns than the list has nodes; no loop runs out of it (below). *)
Fixpoint dup_loop (fuel : nat) (copy : nat) (it : listIter) : M (option nat) :=
  match fuel with
  | O => undef
  | S fuel =>
      '(o, it) ← listNext it;
      match o with
      | None => mret (Some copy)
      | Some node =>
          n ← load node;
          c ← getl copy;
          let v := match dup c with Some f => f (value n) | None => value n end in
          if (match dup c with Some _ => v =? 0 | None => false end) then
            _ ← listRelease copy; mret None
          else
            r ← listAddNodeTail copy v;
            match r with
            | None => _ ← free_value c v; _ ← listRelease copy; mret None
            | Some _ => dup_loop fuel copy it
            end
      end
  end.
Definition listDup (orig : nat) : M (option nat) :=
  o ← listCreate;
  match o with
  | None => mret None
  | Some copy =>
      q ← getl orig;
      _ ← updl copy (set_methods q);
      it ← listRewind orig;
      dup_loop (S (Z.to_nat (len q))) copy it
  end.

Fixpoint search_loop (fuel : nat) (l : nat) (key : Z) (it : listIter) : M (option nat) :=
  match fuel with
  | O => undef
  | S fuel =>
      '(o, it) ← listNext it;
      match o with
      | None => mret None
      | Some node =>
          n ← load node; q ← getl l;
          if (match match_ q with Some f => f (value n) key | None => key =? value n end) then mret (Some node)
          else search_loop fuel l key it
      end
  end.
Definition listSearchKey (l : nat) (key : Z) : M (option nat) :=
  it ← listRewind l; q ← getl l; search_loop (S (Z.to_nat (len q))) l key it.

(** [while (index-- && n)] *)
Fixpoint index_loop (index : nat) (fwd : bool) (n : option nat) : M (option nat) :=
  match index, n with
  | S index, Some a => e ← load a; index_loop index fwd (if fwd then next e else prev e)
  | _, _ => mret n
  end.
Definition listIndex (l : nat) (index : Z) : M (option nat) :=
  q ← getl l;
  if index <? 0 then index_loop (Z.to_nat (- index - 1)) false (tail q)
  else index_loop (Z.to_nat index) true (head q).

Definition listRotateTailToHead (l : nat) : M unit :=
  q ← getl l;
  if len q <=? 1 then mret tt else
  t ← deref (tail q); e ← load t;
  _ ← putl l (set_tail (prev e) q);
  _ ← upd (prev e) (set_next None);
  _ ← upd (head q) (set_prev (Some t));
  _ ← upd (Some t) (set_prev None);
  _ ← upd (Some t) (set_next (head q));
  updl l (set_head (Some t)).

Definition listRotateHeadToTail (l : nat) : M unit :=
  q ← getl l;
  if len q <=? 1 then mret tt else
  h ← deref (head q); e ← load h;
  _ ← putl l (set_head (next e) q);
  _ ← upd (next e) (set_prev None);
  _ ← upd (tail q) (set_next (Some h));
  _ ← upd (Some h) (set_next None);
  _ ← upd (Some h) (set_prev (tail q));
  updl l (set_tail (Some h)).

Definition listJoin (l o : nat) : M unit :=
  qo ← getl o;
  if len qo =? 0 then mret tt else
  ql ← getl l;
  _ ← upd (head qo) (set_prev (tail ql));
  _ ← match tail ql with
      | Some t => upd (Some t) (set_next (head qo))
      | None => updl l (set_head (head qo))
      end;
  _ ← updl l (fun q => set_len (len q + len qo) (set_tail (tail qo) q));
  updl o (fun q => set_len 0 (set_tail None (set_head None q))).

(** ** Chains

    [dlseg m p ds n]: in [m] the nodes of [ds] are linked both ways, the first one
    back to [p] and the last one on to [n]. *)

Definition first_of (ds : list (nat * Z)) (n : option nat) : option nat := match ds with (a, _) :: _ => Some a | [] => n end.
Definition last_of (p : option nat) (ds : list (nat * Z)) : option nat := foldl (fun _ d => Some d.1) p ds.

Fixpoint dlseg (m : gmap nat listNode) (p : option nat) (ds : list (nat * Z)) (n : option nat) : Prop :=
  match ds with
  | [] => True
  | (a, v) :: ds => m !! a = Some (LNode p (first_of ds n) v) /\ dlseg m (Some a) ds n
  end.

Lemma first_of_app d1 d2 n : first_of (d1 ++ d2) n = first_of d1 (first_of d2 n).
Proof. by destruct d1 as [|[]]. Qed.

Lemma last_of_app p d1 d2 : last_of p (d1 ++ d2) = last_of (last_of p d1) d2.
Proof. apply foldl_app. Qed.

Lemma last_of_cons p a v d : last_of p ((a, v) :: d) = last_of (Some a) d.
Proof. done. Qed.

Lemma dlseg_app m p d1 d2 n : dlseg m p (d1 ++ d2) n <-> dlseg m p d1 (first_of d2 n) /\ dlseg m (last_of p d1) d2 n.
Proof.
  revert p. induction d1 as [|[a v] d1 IH]; intros p; [naive_solver|]. cbn [app dlseg]. rewrite IH, first_of_app, last_of_cons. tauto.
Qed.

Lemma dlseg_ext m m' p ds n : (forall a, a ∈ ds.*1 -> m' !! a = m !! a) -> dlseg m p ds n -> dlseg m' p ds n.
Proof.
  revert p. induction ds as [|[a v] ds IH]; intros p; [done|]. cbn. intros Hm [H1 H2]. split.
  - rewrite Hm; [done|]. by left.
  - apply IH; [|done]. intros b Hb. apply Hm. by right.
Qed.

Lemma dlseg_insert m p ds n a e : a ∉ ds.*1 -> dlseg m p ds n -> dlseg (<[a := e]> m) p ds n.
Proof. intros Ha. apply dlseg_ext. intros b Hb. apply lookup_insert_ne. by intros ->. Qed.

Lemma dlseg_delete m p ds n a : a ∉ ds.*1 -> dlseg m p ds n -> dlseg (delete a m) p ds n.
Proof. intros Ha. apply dlseg_ext. intros b Hb. apply lookup_delete_ne. by intros ->. Qed.

Lemma dlseg_in m p ds n a : dlseg m p ds n -> a ∈ ds.*1 -> is_Some (m !! a).
Proof.
  revert p. induction ds as [|[b v] ds IH]; intros p; [by intros _ ?%elem_of_nil|]. cbn. intros [H1 H2] [->|Hi]%elem_of_cons; [by rewrite H1|].
  by apply (IH (Some b)).
Qed.

(** The link of the first node back, and of the last one on. *)
Lemma dlseg_back m p p' a v ds n :
  a ∉ ds.*1 -> dlseg m p ((a, v) :: ds) n -> dlseg (<[a := LNode p' (first_of ds n) v]> m) p' ((a, v) :: ds) n.
Proof. cbn. intros Ha [_ H]. split; [by rewrite lookup_insert_eq|by apply dlseg_insert]. Qed.

Lemma dlseg_on m p a v ds n n' :
  a ∉ ds.*1 -> dlseg m p (ds ++ [(a, v)]) n -> dlseg (<[a := LNode (last_of p ds) n' v]> m) p (ds ++ [(a, v)]) n'.
Proof.
  rewrite !dlseg_app. cbn. intros Ha [H1 [H2 _]]. split; [by apply dlseg_insert|]. split; [|done]. by rewrite lookup_insert_eq.
Qed.

Lemma last_of_snoc p d a v : last_of p (d ++ [(a, v)]) = Some a.
Proof. by rewrite last_of_app. Qed.

Lemma nonempty_snoc (ds : list (nat * Z)) : ds <> [] -> exists d a v, ds = d ++ [(a, v)].
Proof. intros H. destruct (exists_last H) as (d & [a v] & ->). by exists d, a, v. Qed.

(** ** The store *)

Record rep (m : gmap nat listNode) (q : list_t) (ds : list (nat * Z)) : Prop := {
  rep_head : head q = first_of ds None;
  rep_tail : tail q = last_of None ds;
  rep_len : len q = Z.of_nat (length ds);
  rep_seg : dlseg m None ds None;
  rep_nodup : NoDup ds.*1
}.
(** [L] gives for each list its nodes with their values: no node is in two lists, and
    every node that is allocated is in one. *)
Record wf (s : lst) (L : gmap nat (list (nat * Z))) : Prop := {
  wf_rep : forall l ds, L !! l = Some ds -> exists q, lists s !! l = Some q /\ rep (nodes s) q ds;
  wf_lists : dom (lists s) = dom L;
  wf_apart : forall l1 l2 d1 d2 a, L !! l1 = Some d1 -> L !! l2 = Some d2 -> a ∈ d1.*1 -> a ∈ d2.*1 -> l1 = l2;
  wf_nodes : forall a, is_Some (nodes s !! a) -> exists l ds, L !! l = Some ds /\ a ∈ ds.*1
}.
Definition meth (q : list_t) := (dup q, free q, match_ q).
Definition methods (s : lst) := meth <$> lists s.

Lemma wf_start ml : wf (LSt ∅ ∅ ml []) ∅.
Proof. split; cbn; try done. by intros a [? ?]. Qed.

Lemma wf_in s L l ds a : wf s L -> L !! l = Some ds -> a ∈ ds.*1 -> is_Some (nodes s !! a).
Proof. intros Hw Hl Ha. destruct (wf_rep _ _ Hw l ds Hl) as (q & _ & Hr). by eapply dlseg_in; [apply (rep_seg _ _ _ Hr)|]. Qed.

(** One list changes: its new nodes were its own or not allocated, and those it lost
    are gone. *)
Lemma wf_update s L l q ds m' q' ds' ml rel :
  wf s L -> L !! l = Some ds -> lists s !! l = Some q -> rep m' q' ds' ->
  (forall a, a ∈ ds'.*1 -> a ∈ ds.*1 \/ nodes s !! a = None) ->
  (forall a, a ∉ ds'.*1 -> m' !! a = if decide (a ∈ ds.*1) then None else nodes s !! a) ->
  wf (LSt m' (<[l := q']> (lists s)) ml rel) (<[l := ds']> L).
Proof.
  intros Hw Hl Hq Hr Hnew Hold.
  assert (forall l2 d2 a, l2 <> l -> L !! l2 = Some d2 -> a ∈ d2.*1 -> a ∉ ds.*1 /\ a ∉ ds'.*1) as Hap.
  { intros l2 d2 a Hne H2 Ha. assert (a ∉ ds.*1) as Hn by (intros Hd; apply Hne; by eapply (wf_apart _ _ Hw)).
    split; [done|]. intros Hd. destruct (Hnew a Hd) as [|Hnone]; [done|]. destruct (wf_in s L l2 d2 a Hw H2 Ha) as [? H]. by rewrite Hnone in H. }
  split; cbn.
  - intros l2 d2 [[<- <-]|[Hne H2]]%lookup_insert_Some; [exists q'; by rewrite lookup_insert_eq|].
    destruct (wf_rep _ _ Hw l2 d2 H2) as (q2 & E2 & [R1 R2 R3 R4 R5]). exists q2. rewrite lookup_insert_ne by done.
    split; [done|]. split; try done. eapply dlseg_ext; [|done]. intros a Ha.
    destruct (Hap l2 d2 a ltac:(done) H2 Ha) as [Hn1 Hn2]. rewrite (Hold a Hn2). by rewrite decide_False.
  - rewrite !dom_insert_L. by rewrite (wf_lists _ _ Hw).
  - intros l1 l2 d1 d2 a [[<- <-]|[Hn1 H1]]%lookup_insert_Some [[<- <-]|[Hn2 H2]]%lookup_insert_Some Ha1 Ha2; [done| | |].
    + exfalso. by destruct (Hap l2 d2 a ltac:(done) H2 Ha2).
    + exfalso. by destruct (Hap l1 d1 a ltac:(done) H1 Ha1).
    + by eapply (wf_apart _ _ Hw).
  - intros a Ha. destruct (decide (a ∈ ds'.*1)) as [Hin|Hn]; [exists l, ds'; by rewrite lookup_insert_eq|].
    rewrite (Hold a Hn) in Ha. destruct (decide (a ∈ ds.*1)) as [|Hd]; [by destruct Ha|].
    destruct (wf_nodes _ _ Hw a Ha) as (l2 & d2 & H2 & Hin). exists l2, d2. split; [|done].
    rewrite lookup_insert_ne; [done|]. intros <-. rewrite Hl in H2. by injection H2 as ->.
Qed.

Lemma methods_same s l q q' : lists s !! l = Some q -> meth q' = meth q -> meth <$> <[l := q']> (lists s) = methods s.
Proof. intros Hl Hm. rewrite fmap_insert, Hm. apply insert_id. unfold methods. by rewrite lookup_fmap, Hl. Qed.

(** ** Rules *)

Lemma wp_getl l q (Q : list_t -> lst -> Prop) s : lists s !! l = Some q -> Q q s -> wp (getl l) Q s.
Proof. intros H HQ. unfold wp, getl. by rewrite H. Qed.

Lemma wp_putl l q (Q : unit -> lst -> Prop) s :
  Q tt (LSt (nodes s) (<[l := q]> (lists s)) (mallocs s) (released s)) -> wp (putl l q) Q s.
Proof. done. Qed.

Lemma wp_updl l f q (Q : unit -> lst -> Prop) s : lists s !! l = Some q ->
  Q tt (LSt (nodes s) (<[l := f q]> (lists s)) (mallocs s) (released s)) -> wp (updl l f) Q s.
Proof. intros H HQ. unfold updl. apply wp_bind. eapply wp_getl; [done|]. by apply wp_putl. Qed.

Lemma wp_ld a n (Q : listNode -> lst -> Prop) s : nodes s !! a = Some n -> Q n s -> wp (load a) Q s.
Proof. intros H HQ. unfold wp, load. by rewrite H. Qed.

Lemma wp_st a n n' (Q : unit -> lst -> Prop) s : nodes s !! a = Some n ->
  Q tt (LSt (<[a := n']> (nodes s)) (lists s) (mallocs s) (released s)) -> wp (store a n') Q s.
Proof. intros H HQ. unfold wp, store. by rewrite H. Qed.

Lemma wp_upd p a f n (Q : unit -> lst -> Prop) s : p = Some a -> nodes s !! a = Some n ->
  Q tt (LSt (<[a := f n]> (nodes s)) (lists s) (mallocs s) (released s)) -> wp (upd p f) Q s.
Proof. intros -> H HQ. unfold upd, deref. apply wp_bind, wp_ret, wp_bind. eapply wp_ld; [done|]. by eapply wp_st. Qed.

Lemma wp_new_node v (Q : option nat -> lst -> Prop) s :
  (hd_error (mallocs s) = Some false -> Q None (LSt (nodes s) (lists s) (List.tl (mallocs s)) (released s))) ->
  (forall a, nodes s !! a = None -> Q (Some a) (LSt (<[a := LNode None None v]> (nodes s)) (lists s) (List.tl (mallocs s)) (released s))) ->
  wp (new_node v) Q s.
Proof.
  intros H1 H2. unfold new_node, ask, wp, mbind, C_bind. destruct (mallocs s) as [|[] ml] eqn:E; cbn; [|apply H2; apply not_elem_of_dom, is_fresh|by apply H1].
  apply H2. apply not_elem_of_dom, is_fresh.
Qed.

Lemma wp_free_node a n (Q : unit -> lst -> Prop) s : nodes s !! a = Some n ->
  Q tt (LSt (delete a (nodes s)) (lists s) (mallocs s) (released s)) -> wp (free_node a) Q s.
Proof. intros H HQ. unfold wp, free_node. by rewrite H. Qed.

Lemma wp_free_value q v (Q : unit -> lst -> Prop) s :
  Q tt (LSt (nodes s) (lists s) (mallocs s) (released s ++ (if free q then [v] else []))) -> wp (free_value q v) Q s.
Proof. unfold wp, free_value. destruct (free q); [done|]. rewrite app_nil_r. by destruct s. Qed.

(** ** The functions

    [became s L rel s']: in [s'] the lists are those of [L], the functions of the
    lists are what they were and the values [rel] have been freed. *)

Definition became (s : lst) (L : gmap nat (list (nat * Z))) (rel : list Z) (s' : lst) : Prop :=
  wf s' L /\ methods s' = methods s /\ released s' = released s ++ rel.
(** There is room for one more in the counter. *)
Definition room (ds : list (nat * Z)) : Prop := Z.of_nat (length ds) + 1 < 2 ^ 32.

Lemma wf_failed s L : wf s L -> became s L [] (LSt (nodes s) (lists s) (List.tl (mallocs s)) (released s)).
Proof. intros [H1 H2 H3 H4]. split_and!; [by split|done|by rewrite app_nil_r]. Qed.

(** One list becomes another, with the same functions. *)
Lemma became_update s L l q ds m' q' ds' ml rel :
  wf s L -> L !! l = Some ds -> lists s !! l = Some q -> meth q' = meth q -> rep m' q' ds' ->
  (forall a, a ∈ ds'.*1 -> a ∈ ds.*1 \/ nodes s !! a = None) ->
  (forall a, a ∉ ds'.*1 -> m' !! a = if decide (a ∈ ds.*1) then None else nodes s !! a) ->
  became s (<[l := ds']> L) rel (LSt m' (<[l := q']> (lists s)) ml (released s ++ rel)).
Proof.
  intros Hw Hl Hq Hm Hr H1 H2. split_and!; [by eapply wf_update|by apply (methods_same s l q)|done].
Qed.

Lemma u32_room n : 0 <= n < 2 ^ 32 -> u32 n = n.
Proof. intros H. unfold u32. by apply Z.mod_small. Qed.

(** A node that is not allocated is in no list. *)
Lemma wf_fresh s L l ds a : wf s L -> L !! l = Some ds -> nodes s !! a = None -> a ∉ ds.*1.
Proof. intros Hw Hl Ha Hin. destruct (wf_in s L l ds a Hw Hl Hin) as [? H]. by rewrite Ha in H. Qed.

Lemma len_cons {A} (x : A) l : (Z.of_nat (length (x :: l)) =? 0) = false.
Proof. done. Qed.
Lemma len_snoc {A} (x : A) l : (Z.of_nat (length (l ++ [x])) =? 0) = false.
Proof. by destruct l. Qed.

Ltac lookups := rewrite ?lookup_insert_eq; repeat (rewrite lookup_insert_ne by done).

Lemma wp_AddNodeHead l v s L ds : wf s L -> L !! l = Some ds -> room ds ->
  wp (listAddNodeHead l v) (fun r s' =>
    (r = None /\ hd_error (mallocs s) = Some false /\ became s L [] s') \/
    (r = Some l /\ exists a, nodes s !! a = None /\ became s (<[l := (a, v) :: ds]> L) [] s')) s.
Proof.
  intros Hw Hl Hroom. destruct (wf_rep _ _ Hw l ds Hl) as (q & Hq & [Rh Rt Rl Rs Rn]). unfold listAddNodeHead.
  apply wp_bind, wp_new_node; [intros Hf; apply wp_ret; left; split_and!; [done..|by apply wf_failed]|].
  intros a Ha. pose proof (wf_fresh s L l ds a Hw Hl Ha) as Hna. apply wp_bind. eapply wp_getl; [exact Hq|]. apply wp_bind.
  rewrite Rl. destruct ds as [|[h hv] ds].
  - apply wp_bind, wp_putl. eapply wp_st; [cbn; by lookups|]. cbn. apply wp_bind. eapply wp_updl; [cbn; by lookups|]. apply wp_ret.
    right. split; [done|]. exists a. split; [done|]. cbn. rewrite insert_insert_eq, insert_insert_eq, <- (app_nil_r (released s)).
    eapply became_update; try done.
    + split; cbn; try done; [by rewrite Rl|by rewrite lookup_insert_eq|by apply NoDup_singleton].
    + intros b [->|[]%elem_of_nil]%elem_of_cons. by right.
    + cbn. intros b Hb. rewrite lookup_insert_ne; [done|]. intros ->. apply Hb. by left.
  - rewrite len_cons. cbn in Rh, Rs, Hna. rewrite Rh. destruct Rs as [Hh Rs].
    apply not_elem_of_cons in Hna as [Hah Hna]. cbn in Rn. apply NoDup_cons in Rn as [Hhd Rn].
    apply wp_bind. eapply wp_st; [cbn; by lookups|]. apply wp_bind. eapply (wp_upd (Some h) h); [done|cbn; lookups; by lookups|].
    apply wp_putl. apply wp_bind. eapply wp_updl; [cbn; by lookups|]. apply wp_ret. right. split; [done|]. exists a. split; [done|].
    cbn. rewrite !insert_insert_eq, <- (app_nil_r (released s)). eapply became_update; try done.
    + split; cbn.
      * done.
      * by rewrite Rt.
      * rewrite Rl, u32_room; [cbn; lia|]. unfold room in Hroom. cbn in *. lia.
      * rewrite lookup_insert_ne by done. rewrite !lookup_insert_eq. split_and!; [done..|].
        apply dlseg_insert; [done|]. by apply dlseg_insert.
      * apply NoDup_cons. split; [by apply not_elem_of_cons|]. by apply NoDup_cons.
    + intros b [->|Hb]%elem_of_cons; [by right|by left].
    + cbn. intros b Hb. apply not_elem_of_cons in Hb as [Hb1 Hb2]. rewrite decide_False by done.
      apply not_elem_of_cons in Hb2 as [Hb2 _]. by rewrite !lookup_insert_ne.
Qed.

Lemma not_in_snoc a (d : list (nat * Z)) b v : a ∉ (d ++ [(b, v)]).*1 <-> a ∉ d.*1 /\ a <> b.
Proof. rewrite fmap_app, not_elem_of_app. cbn. rewrite list_elem_of_singleton. done. Qed.

Lemma NoDup_snoc (d : list (nat * Z)) b v : NoDup (d ++ [(b, v)]).*1 <-> NoDup d.*1 /\ b ∉ d.*1.
Proof.
  rewrite fmap_app, NoDup_app. cbn. split.
  - intros (H1 & H2 & _). split; [done|]. intros Hb. by apply (H2 b Hb), list_elem_of_singleton.
  - intros (H1 & H2). split_and!; [done| |by apply NoDup_singleton]. by intros x Hx ->%list_elem_of_singleton.
Qed.

Lemma wp_AddNodeTail l v s L ds : wf s L -> L !! l = Some ds -> room ds ->
  wp (listAddNodeTail l v) (fun r s' =>
    (r = None /\ hd_error (mallocs s) = Some false /\ became s L [] s') \/
    (r = Some l /\ exists a, nodes s !! a = None /\ became s (<[l := ds ++ [(a, v)]]> L) [] s')) s.
Proof.
  intros Hw Hl Hroom. destruct (wf_rep _ _ Hw l ds Hl) as (q & Hq & [Rh Rt Rl Rs Rn]). unfold listAddNodeTail.
  apply wp_bind, wp_new_node; [intros Hf; apply wp_ret; left; split_and!; [done..|by apply wf_failed]|].
  intros a Ha. pose proof (wf_fresh s L l ds a Hw Hl Ha) as Hna. apply wp_bind. eapply wp_getl; [exact Hq|]. apply wp_bind.
  rewrite Rl. destruct (decide (ds = [])) as [->|Hne].
  - apply wp_bind, wp_putl. eapply wp_st; [cbn; by lookups|]. cbn. apply wp_bind. eapply wp_updl; [cbn; by lookups|]. apply wp_ret.
    right. split; [done|]. exists a. split; [done|]. cbn. rewrite insert_insert_eq, insert_insert_eq, <- (app_nil_r (released s)).
    eapply became_update; try done.
    + split; cbn; try done; [by rewrite Rl|by rewrite lookup_insert_eq|by apply NoDup_singleton].
    + intros b [->|[]%elem_of_nil]%elem_of_cons. by right.
    + cbn. intros b Hb. rewrite lookup_insert_ne; [done|]. intros ->. apply Hb. by left.
  - destruct (nonempty_snoc ds Hne) as (d & t & tv & ->). apply not_in_snoc in Hna as [Hna Hat]. apply NoDup_snoc in Rn as [Rn Htd].
    rewrite last_of_snoc in Rt. rewrite len_snoc.
    pose proof Rs as Rs0. apply dlseg_app in Rs as [Rs [Ht _]]. cbn in Ht.
    apply wp_bind. eapply wp_st; [cbn; by lookups|]. apply wp_bind. eapply (wp_upd (tail q) t); [done|cbn; lookups; by lookups|].
    apply wp_putl. apply wp_bind. eapply wp_updl; [cbn; by lookups|]. apply wp_ret. right. split; [done|]. exists a. split; [done|].
    cbn. rewrite !insert_insert_eq, <- (app_nil_r (released s)). eapply became_update; try done.
    + split; cbn.
      * rewrite Rh. by destruct d.
      * by rewrite last_of_snoc.
      * unfold room in Hroom. rewrite Rl, u32_room by lia. rewrite (length_app _ [(a, v)]). cbn. lia.
      * apply dlseg_app. rewrite last_of_snoc. cbn. rewrite Rt. split; [|lookups; by lookups].
        apply (dlseg_on _ None t tv d None (Some a)); [done|]. apply dlseg_insert; [by apply not_in_snoc|done].
      * apply NoDup_snoc. split; [by apply NoDup_snoc|by apply not_in_snoc].
    + intros b. rewrite fmap_app. cbn. intros [Hb| ->%list_elem_of_singleton]%elem_of_app; [by left|by right].
    + cbn. intros b Hb. apply not_in_snoc in Hb as [Hb1 Hb2]. rewrite decide_False by done.
      apply not_in_snoc in Hb1 as [_ Hb1]. by rewrite !lookup_insert_ne.
Qed.

(** ** Links *)

Definition link (x : option nat) (f : listNode -> listNode) (m : gmap nat listNode) : gmap nat listNode :=
  match x with Some a => alter f a m | None => m end.

Lemma link_ne x f m b : x <> Some b -> link x f m !! b = m !! b.
Proof. destruct x as [a|]; [|done]. intros H. apply lookup_alter_ne. by intros ->. Qed.

Lemma first_of_in e b : first_of e None = Some b -> b ∈ e.*1.
Proof. destruct e as [|[a v] e]; [done|]. intros [= ->]. by left. Qed.

Lemma last_of_in e b : last_of None e = Some b -> b ∈ e.*1.
Proof.
  destruct (decide (e = [])) as [->|Hne]; [done|]. destruct (nonempty_snoc e Hne) as (d & t & tv & ->). rewrite last_of_snoc.
  intros [= ->]. rewrite fmap_app. apply elem_of_app. right. by left.
Qed.

Lemma seg_link_out m p e n x f : (forall b, x = Some b -> b ∉ e.*1) -> dlseg m p e n -> dlseg (link x f m) p e n.
Proof. intros Hx. apply dlseg_ext. intros a Ha. apply link_ne. intros ->. by apply (Hx a eq_refl). Qed.

Lemma seg_on m p e n n' : NoDup e.*1 -> dlseg m p e n -> dlseg (link (last_of None e) (set_next n') m) p e n'.
Proof.
  destruct (decide (e = [])) as [->|Hne]; [done|]. destruct (nonempty_snoc e Hne) as (d & t & tv & ->). rewrite last_of_snoc.
  intros [Hd Ht]%NoDup_snoc. rewrite !dlseg_app. cbn. intros [H1 [H2 _]]. rewrite lookup_alter_eq, H2. split_and!; [|done..].
  apply (seg_link_out _ _ _ _ (Some t)); [|done]. by intros b [= ->].
Qed.

Lemma seg_back m p p' e n : NoDup e.*1 -> dlseg m p e n -> dlseg (link (first_of e None) (set_prev p') m) p' e n.
Proof.
  destruct e as [|[a v] e]; [done|]. cbn. intros [Ha _]%NoDup_cons [H1 H2]. rewrite lookup_alter_eq, H1. split; [done|].
  apply (seg_link_out _ _ _ _ (Some a)); [|done]. by intros b [= ->].
Qed.

Lemma link_dom x f m a : is_Some (link x f m !! a) <-> is_Some (m !! a).
Proof. destruct x as [b|]; [|done]. cbn. rewrite lookup_alter. case_decide; [subst|done]. by rewrite fmap_is_Some. Qed.

Lemma wp_link_opt x f (Q : unit -> lst -> Prop) s :
  (forall a, x = Some a -> is_Some (nodes s !! a)) -> Q tt (LSt (link x f (nodes s)) (lists s) (mallocs s) (released s)) ->
  wp (match x with Some p => upd (Some p) f | None => mret tt end) Q s.
Proof.
  intros Hx HQ. destruct x as [a|]; [|apply wp_ret; by destruct s]. destruct (Hx a eq_refl) as [n Hn].
  eapply wp_upd; [done|exact Hn|]. replace (<[a:=f n]> (nodes s)) with (alter f a (nodes s)); [done|].
  apply map_eq. intros b. destruct (decide (a = b)) as [->|]; [by rewrite lookup_alter_eq, lookup_insert_eq, Hn|].
  by rewrite lookup_alter_ne, lookup_insert_ne.
Qed.

(** The parts of a list do not share nodes. *)
Lemma NoDup_split (e1 e2 : list (nat * Z)) : NoDup (e1 ++ e2).*1 -> NoDup e1.*1 /\ NoDup e2.*1 /\ (forall a, a ∈ e1.*1 -> a ∈ e2.*1 -> False).
Proof. rewrite fmap_app, NoDup_app. intros (H1 & H2 & H3). split_and!; [done..|]. intros a Ha Hb. by apply (H2 a Ha). Qed.

(** A node linked in between two parts. *)
Lemma seg_between m e1 e2 a v :
  NoDup (e1 ++ e2).*1 -> a ∉ (e1 ++ e2).*1 -> dlseg m None (e1 ++ e2) None ->
  dlseg (link (first_of e2 None) (set_prev (Some a)) (link (last_of None e1) (set_next (Some a))
    (<[a := LNode (last_of None e1) (first_of e2 None) v]> m))) None (e1 ++ (a, v) :: e2) None.
Proof.
  intros (H1 & H2 & H3)%NoDup_split Ha (S1 & S2)%dlseg_app. rewrite fmap_app in Ha. apply not_elem_of_app in Ha as [Ha1 Ha2].
  apply dlseg_app. cbn. split; [|split].
  - apply seg_link_out; [intros b Hb%first_of_in Hc; eauto|]. eapply seg_on; [done|]. by apply dlseg_insert.
  - rewrite !link_ne; [apply lookup_insert_eq|by intros ?%last_of_in|by intros ?%first_of_in].
  - eapply seg_back; [done|]. apply seg_link_out; [intros b Hb%last_of_in Hc; eauto|]. by apply dlseg_insert.
Qed.

Lemma wf_between s L l q e1 e2 a v ml q' :
  wf s L -> L !! l = Some (e1 ++ e2) -> lists s !! l = Some q -> nodes s !! a = None -> meth q' = meth q ->
  head q' = first_of e1 (Some a) -> tail q' = last_of (Some a) e2 -> len q' = Z.of_nat (S (length (e1 ++ e2))) ->
  became s (<[l := e1 ++ (a, v) :: e2]> L) [] (LSt (link (first_of e2 None) (set_prev (Some a)) (link (last_of None e1) (set_next (Some a))
    (<[a := LNode (last_of None e1) (first_of e2 None) v]> (nodes s)))) (<[l := q']> (lists s)) ml (released s)).
Proof.
  intros Hw Hl Hq Ha Hm Hh Ht Hlen. destruct (wf_rep _ _ Hw l _ Hl) as (q0 & Hq0 & [Rh Rt Rl Rs Rn]).
  pose proof (wf_fresh s L l _ a Hw Hl Ha) as Hna. rewrite Hq in Hq0. injection Hq0 as <-. rewrite <- (app_nil_r (released s)).
  pose proof (NoDup_split _ _ Rn) as (N1 & N2 & N3). pose proof Hna as Hna'. rewrite fmap_app in Hna'. apply not_elem_of_app in Hna' as [Ha1 Ha2].
  eapply became_update; try done.
  - split; [by rewrite first_of_app|by rewrite last_of_app|rewrite Hlen, !length_app; cbn; lia|by apply seg_between|].
    rewrite fmap_app. cbn. apply NoDup_app. split_and!; [done| |by apply NoDup_cons].
    intros b Hb [->|Hc]%elem_of_cons; [done|]. by eapply N3.
  - intros b. rewrite !fmap_app. cbn. rewrite !elem_of_app, elem_of_cons. intros [?|[->|?]]; eauto.
  - intros b Hb. rewrite fmap_app in Hb. cbn in Hb. apply not_elem_of_app in Hb as [Hb1 Hb2]. apply not_elem_of_cons in Hb2 as [Hb2 Hb3].
    rewrite !link_ne, lookup_insert_ne; [|done|by intros ?%last_of_in|by intros ?%first_of_in].
    rewrite decide_False; [done|]. rewrite fmap_app, elem_of_app. tauto.
Qed.

Lemma last_of_nonempty p p' d : d <> [] -> last_of p d = last_of p' d.
Proof. intros H. destruct (nonempty_snoc d H) as (d' & t & tv & ->). by rewrite !last_of_snoc. Qed.

(** Whether the node is the last one, or the first one. *)
Lemma same_tail d1 o ov d2 : NoDup (d1 ++ (o, ov) :: d2).*1 -> same (last_of None (d1 ++ (o, ov) :: d2)) o = bool_decide (d2 = []).
Proof.
  intros Hn. unfold same. rewrite last_of_app. cbn. change (foldl _ (Some o) d2) with (last_of (Some o) d2).
  apply bool_decide_ext. split; [|by intros ->]. intros H. destruct (decide (d2 = [])) as [|Hd]; [done|exfalso].
  rewrite (last_of_nonempty _ None) in H by done. apply last_of_in in H. apply NoDup_split in Hn as (_ & Hn & _). cbn in Hn.
  by apply NoDup_cons in Hn as [Hn _].
Qed.

Lemma same_head d1 o ov d2 : NoDup (d1 ++ (o, ov) :: d2).*1 -> same (first_of (d1 ++ (o, ov) :: d2) None) o = bool_decide (d1 = []).
Proof.
  intros Hn. unfold same. rewrite first_of_app. cbn. apply bool_decide_ext. split; [|by intros ->].
  destruct d1 as [|[b bv] d1]; [done|]. cbn. intros [= ->]. cbn in Hn. apply NoDup_cons in Hn as [Hn _]. destruct Hn.
  rewrite fmap_app. apply elem_of_app. right. by left.
Qed.

Lemma dlseg_mid m d1 o ov d2 :
  dlseg m None (d1 ++ (o, ov) :: d2) None -> m !! o = Some (LNode (last_of None d1) (first_of d2 None) ov).
Proof. by intros (_ & H & _)%dlseg_app. Qed.

(** What is left of the insertion once the node is linked to its neighbours. *)
Lemma wp_insert_links (l a : nat) (P N : option nat) v (Q : option nat -> lst -> Prop) s :
  nodes s !! a = Some (LNode P N v) -> P <> Some a -> N <> Some a ->
  (forall b, P = Some b \/ N = Some b -> is_Some (nodes s !! b)) ->
  (forall q, lists s !! l = Some q -> Q (Some l) (LSt (link N (set_prev (Some a)) (link P (set_next (Some a)) (nodes s)))
     (<[l := set_len (len q + 1) q]> (lists s)) (mallocs s) (released s))) ->
  is_Some (lists s !! l) ->
  wp (n ← load a;
      _ ← match prev n with Some p => upd (Some p) (set_next (Some a)) | None => mret tt end;
      n ← load a;
      _ ← match next n with Some p => upd (Some p) (set_prev (Some a)) | None => mret tt end;
      _ ← updl l (fun q => set_len (len q + 1) q);
      mret (Some l)) Q s.
Proof.
  intros Ha HP HN Hin HQ [q Hq]. apply wp_bind. eapply wp_ld; [exact Ha|]. apply wp_bind, wp_link_opt; [cbn; eauto|]. cbn.
  apply wp_bind. eapply wp_ld; [cbn; by rewrite link_ne|]. apply wp_bind, wp_link_opt; [cbn; intros b ->; apply link_dom; eauto|]. cbn.
  apply wp_bind. eapply wp_updl; [exact Hq|]. apply wp_ret. by apply HQ.
Qed.

Lemma wp_insert_between l a s L q e1 e2 v q' ml (Q : option nat -> lst -> Prop) :
  wf s L -> L !! l = Some (e1 ++ e2) -> lists s !! l = Some q -> nodes s !! a = None -> meth q' = meth q -> len q' = len q ->
  head q' = first_of e1 (Some a) -> tail q' = last_of (Some a) e2 -> room (e1 ++ e2) ->
  (forall s', became s (<[l := e1 ++ (a, v) :: e2]> L) [] s' -> Q (Some l) s') ->
  wp (n ← load a;
      _ ← match prev n with Some p => upd (Some p) (set_next (Some a)) | None => mret tt end;
      n ← load a;
      _ ← match next n with Some p => upd (Some p) (set_prev (Some a)) | None => mret tt end;
      _ ← updl l (fun q => set_len (len q + 1) q);
      mret (Some l)) Q
    (LSt (<[a := LNode (last_of None e1) (first_of e2 None) v]> (nodes s)) (<[l := q']> (lists s)) ml (released s)).
Proof.
  intros Hw Hl Hq Ha Hm Hlen Hh Ht Hroom HQ. destruct (wf_rep _ _ Hw l _ Hl) as (q0 & Hq0 & [Rh Rt Rl Rs Rn]).
  rewrite Hq in Hq0. injection Hq0 as <-. unfold room in Hroom. pose proof (wf_fresh s L l _ a Hw Hl Ha) as Hna.
  rewrite fmap_app in Hna. apply not_elem_of_app in Hna as [Hn1 Hn2].
  apply (wp_insert_links l a (last_of None e1) (first_of e2 None) v).
  - cbn. by lookups.
  - by intros ?%last_of_in.
  - by intros ?%first_of_in.
  - cbn. intros b Hb. assert (b ∈ (e1 ++ e2).*1) as Hin.
    { rewrite fmap_app. apply elem_of_app. destruct Hb as [?%last_of_in|?%first_of_in]; [by left|by right]. }
    destruct (decide (b = a)) as [->|]; [by lookups|]. rewrite lookup_insert_ne by done. by apply (wf_in s L l (e1 ++ e2)).
  - cbn. intros q2. rewrite lookup_insert_eq. intros [= <-]. apply HQ. rewrite insert_insert_eq.
    eapply wf_between; try done. cbn. rewrite Hlen, Rl, u32_room by lia. lia.
  - cbn. rewrite lookup_insert_eq. by eexists.
Qed.

Lemma wp_InsertNode l o v after s L d1 ov d2 : wf s L -> L !! l = Some (d1 ++ (o, ov) :: d2) -> room (d1 ++ (o, ov) :: d2) ->
  wp (listInsertNode l o v after) (fun r s' =>
    (r = None /\ hd_error (mallocs s) = Some false /\ became s L [] s') \/
    (r = Some l /\ exists a, nodes s !! a = None /\
       became s (<[l := if after then d1 ++ (o, ov) :: (a, v) :: d2 else d1 ++ (a, v) :: (o, ov) :: d2]> L) [] s')) s.
Proof.
  intros Hw Hl Hroom. destruct (wf_rep _ _ Hw l _ Hl) as (q & Hq & [Rh Rt Rl Rs Rn]). unfold listInsertNode.
  apply wp_bind, wp_new_node; [intros Hf; apply wp_ret; left; split_and!; [done..|by apply wf_failed]|].
  intros a Ha. pose proof (dlseg_mid _ _ _ _ _ Rs) as Ho. assert (a <> o) as Hao by (intros ->; by rewrite Ha in Ho).
  apply wp_bind. eapply wp_ld; [cbn; lookups; exact Ho|]. cbn. apply wp_bind. eapply wp_getl; [exact Hq|]. apply wp_bind.
  assert (d1 ++ (o, ov) :: d2 = (d1 ++ [(o, ov)]) ++ d2) as Ed by by rewrite <- app_assoc.
  assert (forall d, d1 ++ (o, ov) :: d = (d1 ++ [(o, ov)]) ++ d) as Ed' by (intros d; by rewrite <- app_assoc).
  destruct after; (apply wp_bind; eapply wp_st; [cbn; by lookups|]); cbn; rewrite insert_insert_eq.
  - rewrite Rt, same_tail by done. rewrite Ed in Hl, Hroom. rewrite <- (last_of_snoc None d1 o ov).
    destruct (bool_decide_reflect (d2 = [])) as [->|Hd2].
    + apply wp_putl. cbn [nodes lists mallocs released]. apply (wp_insert_between l a s L q (d1 ++ [(o, ov)]) [] v); try done.
      * cbn. by rewrite Rh, !first_of_app.
      * intros s' Hs'. right. split; [done|]. exists a. by rewrite Ed'.
    + apply wp_ret. rewrite <- (insert_id (lists s) l q Hq) at 1. apply (wp_insert_between l a s L q (d1 ++ [(o, ov)]) d2 v); try done.
      * by rewrite Rh, !first_of_app.
      * rewrite Rt, last_of_app, last_of_cons. by apply last_of_nonempty.
      * intros s' Hs'. right. split; [done|]. exists a. by rewrite Ed'.
  - rewrite Rh, same_head by done. change (Some o) with (first_of ((o, ov) :: d2) None).
    destruct (bool_decide_reflect (d1 = [])) as [->|Hd1].
    + apply wp_putl. cbn [nodes lists mallocs released]. apply (wp_insert_between l a s L q [] ((o, ov) :: d2) v); try done.
      intros s' Hs'. right. split; [done|]. by exists a.
    + apply wp_ret. rewrite <- (insert_id (lists s) l q Hq) at 1. apply (wp_insert_between l a s L q d1 ((o, ov) :: d2) v); try done.
      * rewrite Rh, first_of_app. by destruct d1 as [|[]].
      * by rewrite Rt, last_of_app.
      * intros s' Hs'. right. split; [done|]. by exists a.
Qed.

(** ** Removing *)

Lemma wp_link_or l x f g q (Q : unit -> lst -> Prop) s :
  lists s !! l = Some q -> (forall a, x = Some a -> is_Some (nodes s !! a)) ->
  Q tt (LSt (link x f (nodes s)) (<[l := match x with Some _ => q | None => g q end]> (lists s)) (mallocs s) (released s)) ->
  wp (match x with Some p => upd (Some p) f | None => updl l g end) Q s.
Proof.
  intros Hq Hx HQ. destruct x as [a|]; [|by eapply wp_updl].
  apply (wp_link_opt (Some a)); [done|]. by rewrite insert_id in HQ.
Qed.

Lemma fmap_mid (d1 d2 : list (nat * Z)) a v b : b ∈ (d1 ++ (a, v) :: d2).*1 <-> b ∈ (d1 ++ d2).*1 \/ b = a.
Proof. rewrite !fmap_app. cbn. rewrite !elem_of_app, elem_of_cons. tauto. Qed.

Lemma NoDup_mid (d1 d2 : list (nat * Z)) a v : NoDup (d1 ++ (a, v) :: d2).*1 <-> NoDup (d1 ++ d2).*1 /\ a ∉ (d1 ++ d2).*1.
Proof. rewrite !fmap_app. cbn. rewrite (Permutation_cons_append _ a), app_assoc, <- Permutation_cons_append, NoDup_cons. tauto. Qed.

Lemma wf_removed s L l q d1 a v d2 ml rel q' :
  wf s L -> L !! l = Some (d1 ++ (a, v) :: d2) -> lists s !! l = Some q -> meth q' = meth q ->
  head q' = first_of (d1 ++ d2) None -> tail q' = last_of None (d1 ++ d2) -> len q' = Z.of_nat (length (d1 ++ d2)) ->
  became s (<[l := d1 ++ d2]> L) rel (LSt (delete a (link (first_of d2 None) (set_prev (last_of None d1)) (link (last_of None d1) (set_next (first_of d2 None))
    (nodes s)))) (<[l := q']> (lists s)) ml (released s ++ rel)).
Proof.
  intros Hw Hl Hq Hm Hh Ht Hlen. destruct (wf_rep _ _ Hw l _ Hl) as (q0 & Hq0 & [Rh Rt Rl Rs Rn]).
  rewrite Hq in Hq0. injection Hq0 as <-. apply NoDup_mid in Rn as [Rn Ha]. pose proof (NoDup_split _ _ Rn) as (N1 & N2 & N3).
  pose proof Ha as Ha'. rewrite fmap_app in Ha'. apply not_elem_of_app in Ha' as [Ha1 Ha2].
  apply dlseg_app in Rs as [S1 [_ S2]]. cbn in S1. eapply became_update; try done.
  - split; [done..| |done]. apply dlseg_delete; [done|]. apply dlseg_app. split.
    + apply seg_link_out; [intros b Hb%first_of_in Hc; eauto|]. by eapply seg_on.
    + eapply seg_back; [done|]. apply seg_link_out; [intros b Hb%last_of_in Hc; eauto|done].
  - intros b Hb. left. apply fmap_mid. by left.
  - intros b Hb. destruct (decide (b = a)) as [->|Hne].
    + rewrite lookup_delete_eq, decide_True; [done|]. apply fmap_mid. by right.
    + rewrite lookup_delete_ne, !link_ne by (done || (rewrite fmap_app in Hb; apply not_elem_of_app in Hb as [? ?]; by intros ?%last_of_in) ||
        (rewrite fmap_app in Hb; apply not_elem_of_app in Hb as [? ?]; by intros ?%first_of_in)).
      rewrite decide_False; [done|]. rewrite fmap_mid. tauto.
Qed.

Lemma wp_DelNode l a s L d1 v d2 q : wf s L -> L !! l = Some (d1 ++ (a, v) :: d2) -> lists s !! l = Some q ->
  Z.of_nat (length (d1 ++ (a, v) :: d2)) < 2 ^ 32 ->
  wp (listDelNode l a) (fun _ s' => became s (<[l := d1 ++ d2]> L) (if free q then [v] else []) s') s.
Proof.
  intros Hw Hl Hq Hroom. destruct (wf_rep _ _ Hw l _ Hl) as (q0 & Hq0 & [Rh Rt Rl Rs Rn]). rewrite Hq in Hq0. injection Hq0 as <-.
  pose proof (dlseg_mid _ _ _ _ _ Rs) as Hn. pose proof Rn as Rn0. apply NoDup_mid in Rn as [_ Ha].
  assert (forall b, last_of None d1 = Some b -> b <> a /\ is_Some (nodes s !! b)) as H1.
  { intros b Hb%last_of_in. assert (b ∈ (d1 ++ d2).*1) by (rewrite fmap_app; apply elem_of_app; by left).
    split; [by intros ->|]. eapply wf_in; [done..|]. apply fmap_mid. by left. }
  assert (forall b, first_of d2 None = Some b -> b <> a /\ is_Some (nodes s !! b)) as H2.
  { intros b Hb%first_of_in. assert (b ∈ (d1 ++ d2).*1) by (rewrite fmap_app; apply elem_of_app; by right).
    split; [by intros ->|]. eapply wf_in; [done..|]. apply fmap_mid. by left. }
  unfold listDelNode. apply wp_bind. eapply wp_ld; [exact Hn|]. cbn.
  apply wp_bind. eapply wp_link_or; [exact Hq|by intros b [_ ?]%H1|]. apply wp_bind. eapply wp_ld; [cbn; rewrite link_ne; [exact Hn|by intros [? _]%H1]|].
  cbn. apply wp_bind. eapply wp_link_or; [cbn; by lookups|cbn; intros b [_ ?]%H2; by apply link_dom|]. cbn. rewrite insert_insert_eq.
  apply wp_bind. eapply wp_getl; [cbn; by lookups|]. apply wp_bind, wp_free_value. cbn.
  apply wp_bind. eapply wp_free_node; [cbn; rewrite !link_ne; [exact Hn|by intros [? _]%H1|by intros [? _]%H2]|]. cbn.
  eapply wp_updl; [cbn; by lookups|]. cbn. rewrite insert_insert_eq.
  set (q' := match first_of d2 None with Some _ => _ | None => _ end).
  replace (free q') with (free q) by (subst q'; by destruct (first_of d2 None), (last_of None d1)).
  apply (wf_removed s L l q d1 a v d2); try done.
  - subst q'. by destruct (first_of d2 None), (last_of None d1).
  - subst q'. destruct d1 as [|[b bv] d1]; [by destruct d2 as [|[]]|]. cbn.
    destruct (nonempty_snoc ((b, bv) :: d1) ltac:(done)) as (e & t & tv & E). change (foldl _ (Some b) d1) with (last_of None ((b, bv) :: d1)).
    rewrite E, last_of_snoc. destruct (first_of d2 None); cbn; by rewrite Rh.
  - subst q'. destruct (decide (d2 = [])) as [->|Hd2].
    + cbn. rewrite app_nil_r. by destruct (last_of None d1).
    + destruct d2 as [|[b bv] d2]; [done|]. cbn. rewrite last_of_app, last_of_cons. rewrite last_of_app, !last_of_cons in Rt. by destruct (last_of None d1).
  - assert (len q' = len q) as -> by (subst q'; by destruct (first_of d2 None), (last_of None d1)).
    rewrite Rl in *. rewrite !length_app in *. cbn [length] in *. cbn. rewrite u32_room; lia.
Qed.

(** ** Emptying *)

Definition drop_nodes (ds : list (nat * Z)) (m : gmap nat listNode) : gmap nat listNode := foldl (fun m d => delete d.1 m) m ds.

Lemma drop_nodes_lookup ds m b : drop_nodes ds m !! b = if decide (b ∈ ds.*1) then None else m !! b.
Proof.
  revert m. induction ds as [|[a v] ds IH]; intros m; [done|]. unfold drop_nodes in *. cbn. rewrite IH.
  destruct (decide (b ∈ ds.*1)) as [Hb|Hb]; [rewrite decide_True; [done|by right]|].
  destruct (decide (b = a)) as [->|Hne]; [rewrite lookup_delete_eq, decide_True; [done|by left]|].
  rewrite lookup_delete_ne, decide_False; [done| |done]. by intros [?|?]%elem_of_cons.
Qed.

Lemma wp_empty_loop l q ds p (Q : unit -> lst -> Prop) s :
  lists s !! l = Some q -> dlseg (nodes s) p ds None -> NoDup ds.*1 ->
  Q tt (LSt (drop_nodes ds (nodes s)) (lists s) (mallocs s) (released s ++ (if free q then ds.*2 else []))) ->
  wp (empty_loop l (length ds) (first_of ds None)) Q s.
Proof.
  revert p s. induction ds as [|[a v] ds IH]; intros p s Hq Hs Hn HQ; cbn [empty_loop length first_of].
  - apply wp_ret. cbn in HQ. destruct (free q); rewrite app_nil_r in HQ; by destruct s.
  - cbn in Hs, Hn. destruct Hs as [Ha Hs]. apply NoDup_cons in Hn as [Hna Hn].
    unfold deref. apply wp_bind, wp_ret, wp_bind. eapply wp_ld; [exact Ha|]. apply wp_bind. eapply wp_getl; [exact Hq|].
    apply wp_bind, wp_free_value, wp_bind. eapply wp_free_node; [exact Ha|]. cbn. apply (IH (Some a)); [done|by apply dlseg_delete|done|].
    cbn. rewrite <- app_assoc. unfold drop_nodes in *. cbn in HQ. by destruct (free q).
Qed.

Lemma lrep_empty m q : head q = None -> tail q = None -> len q = 0 -> rep m q [].
Proof. intros. split; [done..|]. by apply NoDup_nil_2. Qed.

Lemma wp_Empty l s L ds q : wf s L -> L !! l = Some ds -> lists s !! l = Some q ->
  wp (listEmpty l) (fun _ s' => became s (<[l := []]> L) (if free q then ds.*2 else []) s') s.
Proof.
  intros Hw Hl Hq. destruct (wf_rep _ _ Hw l _ Hl) as (q0 & Hq0 & [Rh Rt Rl Rs Rn]). rewrite Hq in Hq0. injection Hq0 as <-.
  unfold listEmpty. apply wp_bind. eapply wp_getl; [exact Hq|]. apply wp_bind. rewrite Rl, Nat2Z.id, Rh.
  eapply wp_empty_loop; [done..|]. eapply wp_updl; [done|]. cbn. eapply became_update; try done; [by apply lrep_empty|by intros ? ?%elem_of_nil|].
  intros b _. apply drop_nodes_lookup.
Qed.

Lemma wf_delete s L l : wf s L -> L !! l = Some [] -> wf (LSt (nodes s) (delete l (lists s)) (mallocs s) (released s)) (delete l L).
Proof.
  intros Hw Hl. split; cbn.
  - intros l2 d2 [Hne H2]%lookup_delete_Some. destruct (wf_rep _ _ Hw l2 d2 H2) as (q2 & E & R). exists q2. by rewrite lookup_delete_ne.
  - rewrite !dom_delete_L. by rewrite (wf_lists _ _ Hw).
  - intros l1 l2 d1 d2 a [_ H1]%lookup_delete_Some [_ H2]%lookup_delete_Some. by apply (wf_apart _ _ Hw l1 l2 d1 d2 a).
  - intros a Ha. destruct (wf_nodes _ _ Hw a Ha) as (l2 & d2 & H2 & Hin). exists l2, d2. split; [|done].
    rewrite lookup_delete_ne; [done|]. intros <-. rewrite Hl in H2. injection H2 as <-. by apply elem_of_nil in Hin.
Qed.

Lemma wp_Release l s L ds q : wf s L -> L !! l = Some ds -> lists s !! l = Some q ->
  wp (listRelease l) (fun _ s' => wf s' (delete l L) /\ methods s' = delete l (methods s) /\
    released s' = released s ++ (if free q then ds.*2 else [])) s.
Proof.
  intros Hw Hl Hq. unfold listRelease. apply wp_bind. eapply wp_mono; [by eapply wp_Empty|]. cbn. intros [] s' (Hw' & Hm & Hr).
  unfold free_list, wp. split_and!; [|by unfold methods in *; cbn; rewrite fmap_delete, Hm|done].
  rewrite <- (delete_insert_eq L l []). apply wf_delete; [done|]. apply lookup_insert_eq.
Qed.

Lemma wp_Create s L : wf s L ->
  wp listCreate (fun r s' =>
    (r = None /\ hd_error (mallocs s) = Some false /\ became s L [] s') \/
    (exists l, r = Some l /\ L !! l = None /\ wf s' (<[l := []]> L) /\ methods s' = <[l := (None, false, None)]> (methods s) /\ released s' = released s)) s.
Proof.
  intros Hw. unfold listCreate, ask, wp, mbind, C_bind, mret, C_ret.
  assert (forall ml, (exists l, Some (fresh (dom (lists s))) = Some l /\ L !! l = None /\
     wf (LSt (nodes s) (<[fresh (dom (lists s)) := LList None None None false None 0]> (lists s)) ml (released s)) (<[l := []]> L) /\
     methods (LSt (nodes s) (<[fresh (dom (lists s)) := LList None None None false None 0]> (lists s)) ml (released s)) = <[l := (None, false, None)]> (methods s) /\
     released s = released s)) as Hok.
  { intros ml. set (l := fresh (dom (lists s))). assert (l ∉ dom (lists s)) as Hl by apply is_fresh. exists l.
    assert (L !! l = None) as HL by (apply not_elem_of_dom; by rewrite <- (wf_lists _ _ Hw)). split_and!; [done..| | |done].
    - split; cbn.
      + intros l2 d2 [[<- <-]|[Hne H2]]%lookup_insert_Some; [exists (LList None None None false None 0); rewrite lookup_insert_eq; split; [done|by apply lrep_empty]|].
        destruct (wf_rep _ _ Hw l2 d2 H2) as (q2 & E & R). exists q2. by rewrite lookup_insert_ne.
      + rewrite !dom_insert_L. by rewrite (wf_lists _ _ Hw).
      + intros l1 l2 d1 d2 a [[<- <-]|[Hn1 H1]]%lookup_insert_Some [[<- <-]|[Hn2 H2]]%lookup_insert_Some Ha1 Ha2; try done;
          [by apply elem_of_nil in Ha1|by apply elem_of_nil in Ha2|by eapply (wf_apart _ _ Hw)].
      + intros a Ha. destruct (wf_nodes _ _ Hw a Ha) as (l2 & d2 & H2 & Hin). exists l2, d2. rewrite lookup_insert_ne; [done|]. intros <-. by rewrite HL in H2.
    - unfold methods. cbn. by rewrite fmap_insert. }
  destruct (mallocs s) as [|[] ml] eqn:E; cbn; [right; apply Hok|right; apply Hok|left].
  split_and!; [done..|]. pose proof (wf_failed s L Hw) as H. by rewrite E in H.
Qed.

(** ** Joining *)

Lemma wp_Join l o s L d1 d2 : wf s L -> L !! l = Some d1 -> L !! o = Some d2 -> l <> o -> Z.of_nat (length (d1 ++ d2)) < 2 ^ 32 ->
  wp (listJoin l o) (fun _ s' => became s (<[o := []]> (<[l := d1 ++ d2]> L)) [] s') s.
Proof.
  intros Hw Hl Ho Hne Hroom. destruct (wf_rep _ _ Hw l _ Hl) as (q1 & Hq1 & [Rh1 Rt1 Rl1 Rs1 Rn1]).
  destruct (wf_rep _ _ Hw o _ Ho) as (q2 & Hq2 & [Rh2 Rt2 Rl2 Rs2 Rn2]).
  assert (forall a, a ∈ d1.*1 -> a ∈ d2.*1 -> False) as Hap by (intros a Ha Hb; apply Hne; by eapply (wf_apart _ _ Hw)).
  unfold listJoin. apply wp_bind. eapply wp_getl; [exact Hq2|]. rewrite Rl2. destruct d2 as [|[h hv] d2].
  { cbn. apply wp_ret. rewrite app_nil_r, (insert_id L l) by done. rewrite insert_id by done. split_and!; [done..|by rewrite app_nil_r]. }
  rewrite len_cons. apply wp_bind. eapply wp_getl; [exact Hq1|]. rewrite Rh2, Rt1, Rt2.
  destruct Rs2 as [Hh Rs2']. pose proof (conj Hh Rs2') as Rs2. change (dlseg (nodes s) None ((h, hv) :: d2) None) in Rs2.
  apply wp_bind. apply (wp_link_opt (Some h)); [intros b [= <-]; by eexists|]. cbn [first_of].
  apply wp_bind. eapply wp_link_or; [exact Hq1|cbn; intros b Hb%last_of_in; apply (link_dom (Some h)); by apply (wf_in s L l d1 b Hw Hl)|]. cbn [nodes lists mallocs released].
  apply wp_bind. eapply wp_updl; [cbn; by lookups|]. cbn [nodes lists mallocs released]. eapply wp_updl; [cbn; rewrite insert_insert_eq, lookup_insert_ne by done; exact Hq2|].
  cbn [nodes lists mallocs released]. rewrite !insert_insert_eq.
  set (D := (h, hv) :: d2) in *. set (m' := link (last_of None d1) _ _).
  set (q'' := set_len 0 _). set (q' := set_len (_ + _) _).
  assert (wf (LSt (drop_nodes D (nodes s)) (<[o := q'']> (lists s)) [] (released s)) (<[o := []]> L)) as Hw1.
  { eapply wf_update; [done|exact Ho|exact Hq2|by apply lrep_empty|by intros ? ?%elem_of_nil|]. intros b _. apply drop_nodes_lookup. }
  assert (wf (LSt m' (<[l := q']> (<[o := q'']> (lists s))) (mallocs s) (released s)) (<[l := d1 ++ D]> (<[o := []]> L))) as Hw2.
  { change (<[o := q'']> (lists s)) with (lists (LSt (drop_nodes D (nodes s)) (<[o := q'']> (lists s)) [] (released s))).
    eapply (wf_update _ _ l q1 d1); [exact Hw1|by rewrite lookup_insert_ne|cbn; by rewrite lookup_insert_ne| | |].
    - split.
      + subst q'. rewrite first_of_app. destruct d1 as [|[b bv] d1]; [done|]. cbn [first_of] in *.
        destruct (nonempty_snoc ((b, bv) :: d1) ltac:(done)) as (e & t & tv & E). by rewrite E, last_of_snoc.
      + subst q'. rewrite last_of_app. subst D. rewrite last_of_cons. by destruct (last_of None d1).
      + assert (len q' = u32 (len q1 + Z.of_nat (length D))) as -> by (subst q'; by destruct (last_of None d1)).
        rewrite Rl1, !length_app in *. rewrite u32_room; lia.
      + apply dlseg_app. split.
        * eapply seg_on; [done|]. apply seg_link_out; [by intros b [= <-] Hc; eapply Hap; [exact Hc|left]|done].
        * apply seg_link_out; [intros b Hb%last_of_in Hc; eauto|]. by apply (seg_back _ None _ D).
      + rewrite fmap_app. apply NoDup_app. split_and!; try done.
    - intros a. rewrite fmap_app. intros [Ha|Ha]%elem_of_app; [by left|right]. cbn [nodes]. rewrite drop_nodes_lookup. by rewrite decide_True.
    - cbn [nodes]. intros a Ha. rewrite fmap_app in Ha. apply not_elem_of_app in Ha as [Ha1 Ha2]. rewrite decide_False by done.
      rewrite drop_nodes_lookup, decide_False by done. subst m'. rewrite !link_ne; [done| |by intros ?%last_of_in].
      intros [= ->]. apply Ha2. by left. }
  rewrite insert_insert_ne in Hw2 by done. rewrite (insert_insert_ne L) in Hw2 by done.
  split_and!; [exact Hw2| |by rewrite app_nil_r].
  unfold methods. cbn. rewrite !fmap_insert. rewrite !insert_id; [done| |rewrite lookup_insert_ne by done]; rewrite lookup_fmap.
  - by rewrite Hq1; subst q'; destruct (last_of None d1).
  - by rewrite Hq2.
Qed.

(** ** Rotating *)

Lemma wp_upd_link a f (Q : unit -> lst -> Prop) s : is_Some (nodes s !! a) ->
  Q tt (LSt (link (Some a) f (nodes s)) (lists s) (mallocs s) (released s)) -> wp (upd (Some a) f) Q s.
Proof. intros Ha. apply (wp_link_opt (Some a)). by intros b [= <-]. Qed.

Lemma short_list (ds : list (nat * Z)) : (Z.of_nat (length ds) <=? 1) = true -> ds = [] \/ exists x, ds = [x].
Proof. intros H%Z.leb_le. destruct ds as [|x [|y ds]]; [by left|right; by exists x|cbn in H; lia]. Qed.

(** The same nodes in another order. *)
Lemma wf_reorder s L l q ds ds' m' q' ml :
  wf s L -> L !! l = Some ds -> lists s !! l = Some q -> meth q' = meth q -> rep m' q' ds' -> (forall a, a ∈ ds'.*1 <-> a ∈ ds.*1) ->
  (forall a, a ∉ ds.*1 -> m' !! a = nodes s !! a) ->
  became s (<[l := ds']> L) [] (LSt m' (<[l := q']> (lists s)) ml (released s)).
Proof.
  intros Hw Hl Hq Hm Hr Hp Ho. rewrite <- (app_nil_r (released s)). eapply became_update; try done.
  - intros a Ha. left. by apply Hp.
  - intros a Ha. rewrite decide_False; [apply Ho|]; by rewrite <- Hp.
Qed.

Definition rotate_right (ds : list (nat * Z)) : list (nat * Z) := match last ds with Some x => x :: removelast ds | None => [] end.
Definition rotate_left (ds : list (nat * Z)) : list (nat * Z) := match ds with x :: ds => ds ++ [x] | [] => [] end.

Lemma wf_same s L l ds : wf s L -> L !! l = Some ds -> became s (<[l := ds]> L) [] s.
Proof. intros Hw Hl. rewrite insert_id by done. split_and!; [done..|by rewrite app_nil_r]. Qed.

(** A chain with its last two nodes and its first one apart. *)
Lemma wp_RotateTailToHead l s L ds : wf s L -> L !! l = Some ds ->
  wp (listRotateTailToHead l) (fun _ s' => became s (<[l := rotate_right ds]> L) [] s') s.
Proof.
  intros Hw Hl. destruct (wf_rep _ _ Hw l _ Hl) as (q & Hq & [Rh Rt Rl Rs Rn]). unfold listRotateTailToHead.
  apply wp_bind. eapply wp_getl; [exact Hq|]. rewrite Rl. destruct (_ <=? 1) eqn:E1.
  { apply wp_ret. destruct (short_list ds E1) as [->|[[a v] ->]]; by apply wf_same. }
  destruct ds as [|[h hv] ds]; [done|]. destruct (decide (ds = [])) as [->|Hd]; [done|]. destruct (nonempty_snoc ds Hd) as (e & t & tv & ->).
  clear Hd E1. rewrite last_of_cons, last_of_snoc in Rt. rewrite Rt, Rh. change ((h, hv) :: e ++ [(t, tv)]) with (((h, hv) :: e) ++ [(t, tv)]) in *.
  set (d := (h, hv) :: e) in *. apply NoDup_snoc in Rn as [Nd Ht]. apply dlseg_app in Rs as [Rs [Hnt _]]. cbn [first_of] in *.
  assert (exists p, last_of None d = Some p /\ p ∈ d.*1) as (p & Hp & Hpd).
  { destruct (nonempty_snoc d ltac:(done)) as (e' & p & pv & E). rewrite E, last_of_snoc. exists p. split; [done|].
    rewrite fmap_app. apply elem_of_app. right. by left. }
  assert (h ∈ d.*1) as Hhd by (subst d; by left).
  unfold deref. apply wp_bind, wp_ret, wp_bind. eapply wp_ld; [exact Hnt|]. cbn [prev]. rewrite Hp.
  assert (forall b, b ∈ d.*1 -> is_Some (nodes s !! b)) as Hin by (intros b Hb; by eapply dlseg_in).
  apply wp_bind, wp_putl, wp_bind. apply wp_upd_link; [cbn; auto|].
  apply wp_bind, wp_upd_link; [apply (link_dom (Some p)); cbn; auto|]. cbn [nodes lists mallocs released].
  apply wp_bind, wp_upd_link; [cbn [nodes]; rewrite !link_dom; by rewrite Hnt|].
  apply wp_bind, wp_upd_link; [cbn [nodes]; rewrite !link_dom; by rewrite Hnt|]. cbn [nodes lists mallocs released].
  eapply wp_updl; [cbn; by lookups|]. cbn [nodes lists mallocs released]. rewrite insert_insert_eq.
  replace (rotate_right (d ++ [(t, tv)])) with ((t, tv) :: d) by (unfold rotate_right; by rewrite last_snoc, removelast_last).
  eapply wf_reorder; try done.
  - split.
    + done.
    + cbn [tail set_head set_tail]. rewrite <- Hp, last_of_cons. by apply last_of_nonempty.
    + change (len (set_head (Some t) (set_tail (Some p) q))) with (len q). rewrite Rl, length_app. cbn [length]. lia.
    + cbn [dlseg]. split.
      * cbn [link]. rewrite !lookup_alter_eq, !lookup_alter_ne; [|by intros ->..]. by rewrite Hnt.
      * apply (seg_link_out _ _ _ _ (Some t)); [by intros b [= <-]|]. apply (seg_link_out _ _ _ _ (Some t)); [by intros b [= <-]|].
        apply (seg_back _ None (Some t) d); [done|]. rewrite <- Hp. by eapply seg_on.
    + cbn [fmap list_fmap fst]. by apply NoDup_cons.
  - intros a. rewrite fmap_app, elem_of_app. cbn. rewrite !elem_of_cons, elem_of_nil. tauto.
  - intros a. rewrite fmap_app. intros [Ha1 Ha2]%not_elem_of_app. rewrite !link_ne; [done|intros [= ->]..]; try done. all: apply Ha2; by left.
Qed.

Lemma wp_RotateHeadToTail l s L ds : wf s L -> L !! l = Some ds ->
  wp (listRotateHeadToTail l) (fun _ s' => became s (<[l := rotate_left ds]> L) [] s') s.
Proof.
  intros Hw Hl. destruct (wf_rep _ _ Hw l _ Hl) as (q & Hq & [Rh Rt Rl Rs Rn]). unfold listRotateHeadToTail.
  apply wp_bind. eapply wp_getl; [exact Hq|]. rewrite Rl. destruct (_ <=? 1) eqn:E1.
  { apply wp_ret. destruct (short_list ds E1) as [->|[[a v] ->]]; by apply wf_same. }
  destruct ds as [|[h hv] d]; [done|]. destruct (decide (d = [])) as [->|Hd]; [done|]. clear E1.
  cbn in Rn. apply NoDup_cons in Rn as [Hh Nd]. destruct Rs as [Hnh Rs]. rewrite last_of_cons, (last_of_nonempty _ None) in Rt by done.
  destruct d as [|[b bv] e] eqn:E; [done|]. cbn [first_of] in *. rewrite <- E in *.
  assert (exists p, last_of None d = Some p /\ p ∈ d.*1) as (p & Hp & Hpd).
  { destruct (nonempty_snoc d Hd) as (e' & p & pv & E'). rewrite E', last_of_snoc. exists p. split; [done|].
    rewrite fmap_app. apply elem_of_app. right. by left. }
  assert (b ∈ d.*1) as Hbd by (rewrite E; by left). assert (first_of d None = Some b) as Hfd by by rewrite E.
  rewrite Rh, Rt, Hp. unfold deref. apply wp_bind, wp_ret, wp_bind. eapply wp_ld; [exact Hnh|]. cbn [next].
  assert (forall b, b ∈ d.*1 -> is_Some (nodes s !! b)) as Hin by (intros c Hc; by eapply dlseg_in).
  apply wp_bind, wp_putl, wp_bind. apply wp_upd_link; [cbn; auto|].
  apply wp_bind, wp_upd_link; [apply (link_dom (Some b)); cbn; auto|]. cbn [nodes lists mallocs released].
  apply wp_bind, wp_upd_link; [cbn [nodes]; rewrite !link_dom; by rewrite Hnh|].
  apply wp_bind, wp_upd_link; [cbn [nodes]; rewrite !link_dom; by rewrite Hnh|]. cbn [nodes lists mallocs released].
  eapply wp_updl; [cbn; by lookups|]. cbn [nodes lists mallocs released]. rewrite insert_insert_eq. cbn [rotate_left].
  eapply wf_reorder; try done.
  - split.
    + cbn [head set_head set_tail]. by rewrite first_of_app, E.
    + by rewrite last_of_snoc.
    + change (len (set_tail (Some h) (set_head (Some b) q))) with (len q). rewrite Rl, length_app. cbn [length]. lia.
    + apply dlseg_app. rewrite Hp. cbn [dlseg first_of]. split.
      * apply (seg_link_out _ _ _ _ (Some h)); [by intros c [= <-]|]. apply (seg_link_out _ _ _ _ (Some h)); [by intros c [= <-]|].
        rewrite <- Hp. eapply seg_on; [done|]. rewrite <- Hfd. by eapply seg_back.
      * split; [|done]. cbn [link]. rewrite !lookup_alter_eq, !lookup_alter_ne; [|by intros ->..]. by rewrite Hnh.
    + by apply NoDup_snoc.
  - intros a. rewrite fmap_app, elem_of_app. cbn. rewrite !elem_of_cons, elem_of_nil. tauto.
  - intros a. cbn [fmap list_fmap fst]. intros [Ha1 Ha2]%not_elem_of_cons. rewrite !link_ne; [done|intros [= ->]..]; done.
Qed.

(** ** Searching *)

Definition matches (q : list_t) (key : Z) (d : nat * Z) : bool :=
  match match_ q with Some f => f d.2 key | None => key =? d.2 end.

Lemma wp_next m ds p (Q : option nat * listIter -> lst -> Prop) s :
  nodes s = m -> dlseg m p ds None ->
  Q (first_of ds None, LIter (match ds with [] => None | _ :: ds => first_of ds None end) true) s ->
  wp (listNext (LIter (first_of ds None) true)) Q s.
Proof.
  intros <- Hs HQ. destruct ds as [|[a v] ds]; [by apply wp_ret|]. destruct Hs as [Ha _]. unfold listNext. cbn [iter_next first_of].
  apply wp_bind. eapply wp_ld; [exact Ha|]. by apply wp_ret.
Qed.

Lemma wp_search_loop l q key ds p fuel (Q : option nat -> lst -> Prop) s :
  lists s !! l = Some q -> dlseg (nodes s) p ds None -> (length ds < fuel)%nat -> Q (fst <$> List.find (matches q key) ds) s ->
  wp (search_loop fuel l key (LIter (first_of ds None) true)) Q s.
Proof.
  intros Hq. revert p fuel. induction ds as [|[a v] ds IH]; intros p [|fuel] Hs Hf HQ; try (cbn in Hf; lia); cbn [search_loop].
  - apply wp_bind. eapply wp_next; [done..|]. by apply wp_ret.
  - apply wp_bind. eapply wp_next; [done|exact Hs|]. destruct Hs as [Ha Hs]. cbn [first_of].
    apply wp_bind. eapply wp_ld; [exact Ha|]. apply wp_bind. eapply wp_getl; [exact Hq|]. cbn [value].
    cbn [List.find] in HQ. unfold matches in HQ at 1. cbn [snd] in HQ. destruct (match match_ q with Some f => f v key | None => key =? v end).
    + by apply wp_ret.
    + apply (IH (Some a)); [done|cbn in Hf; lia|done].
Qed.

Lemma wp_SearchKey l key s L ds q : wf s L -> L !! l = Some ds -> lists s !! l = Some q ->
  wp (listSearchKey l key) (fun r s' => r = fst <$> List.find (matches q key) ds /\ s' = s) s.
Proof.
  intros Hw Hl Hq. destruct (wf_rep _ _ Hw l _ Hl) as (q0 & Hq0 & [Rh Rt Rl Rs Rn]). rewrite Hq in Hq0. injection Hq0 as <-.
  unfold listSearchKey, listRewind. apply wp_bind, wp_bind. eapply wp_getl; [exact Hq|]. apply wp_ret, wp_bind. eapply wp_getl; [exact Hq|].
  rewrite Rh. eapply wp_search_loop; [exact Hq|exact Rs|rewrite Rl; lia|done].
Qed.

Lemma wp_index_fwd ds p i (Q : option nat -> lst -> Prop) s :
  dlseg (nodes s) p ds None -> Q (fst <$> ds !! i) s -> wp (index_loop i true (first_of ds None)) Q s.
Proof.
  revert p i. induction ds as [|[a v] ds IH]; intros p [|i] Hs HQ; cbn [index_loop first_of]; try (by apply wp_ret).
  destruct Hs as [Ha Hs]. apply wp_bind. eapply wp_ld; [exact Ha|]. by apply (IH (Some a)).
Qed.

Lemma wp_index_bwd ds n i (Q : option nat -> lst -> Prop) s :
  dlseg (nodes s) None ds n -> Q (fst <$> reverse ds !! i) s -> wp (index_loop i false (last_of None ds)) Q s.
Proof.
  revert n i. induction ds as [|[a v] ds IH] using rev_ind; intros n i Hs HQ; [by destruct i; apply wp_ret|].
  rewrite last_of_snoc. rewrite reverse_snoc in HQ. destruct i as [|i]; cbn [index_loop]; [by apply wp_ret|].
  apply dlseg_app in Hs as [Hs [Ha _]]. apply wp_bind. eapply wp_ld; [exact Ha|]. by eapply IH.
Qed.

(** The element a possibly negative index names. *)
Definition at_index (ds : list (nat * Z)) (index : Z) : option (nat * Z) :=
  if index <? 0 then reverse ds !! Z.to_nat (- index - 1) else ds !! Z.to_nat index.

Lemma wp_Index l i s L ds : wf s L -> L !! l = Some ds -> wp (listIndex l i) (fun r s' => r = fst <$> at_index ds i /\ s' = s) s.
Proof.
  intros Hw Hl. destruct (wf_rep _ _ Hw l _ Hl) as (q & Hq & [Rh Rt Rl Rs Rn]). unfold listIndex, at_index.
  apply wp_bind. eapply wp_getl; [exact Hq|]. rewrite Rh, Rt. destruct (i <? 0); [by eapply wp_index_bwd|by eapply wp_index_fwd].
Qed.

(** ** Copying *)

Definition dup_of (c : list_t) (v : Z) : Z := match dup c with Some f => f v | None => v end.

Lemma methods_lookup s l q : lists s !! l = Some q -> methods s !! l = Some (meth q).
Proof. unfold methods. rewrite lookup_fmap. by intros ->. Qed.

Lemma lists_of_methods s l f : methods s !! l = Some f -> exists q, lists s !! l = Some q /\ meth q = f.
Proof. unfold methods. rewrite lookup_fmap. destruct (lists s !! l) as [q|]; [|done]. intros [= <-]. by exists q. Qed.

Lemma wp_dup_loop c orig ds f fuel suf p dc L s :
  wf s (<[c := dc]> L) -> L !! c = None -> L !! orig = Some ds -> methods s !! c = Some f ->
  (exists pre, ds = pre ++ suf /\ dc.*2 = map (fun v => match f.1.1 with Some g => g v | None => v end) pre.*2) ->
  dlseg (nodes s) p suf None -> (length suf < fuel)%nat -> Z.of_nat (length ds) < 2 ^ 32 ->
  wp (dup_loop fuel c (LIter (first_of suf None) true)) (fun r s' =>
    (r = Some c /\ exists dc', wf s' (<[c := dc']> L) /\ methods s' = methods s /\ released s' = released s /\
       dc'.*2 = map (fun v => match f.1.1 with Some g => g v | None => v end) ds.*2) \/
    (r = None /\ wf s' L /\ methods s' = delete c (methods s) /\ exists rel, released s' = released s ++ rel)) s.
Proof.
  revert fuel p dc s. induction suf as [|[a v] suf IH]; intros [|fuel] p dc s Hw Hc Ho Hm (pre & -> & Hdc) Hs Hf Hmax; try (cbn in Hf; lia); cbn [dup_loop].
  - apply wp_bind. eapply wp_next; [done..|]. apply wp_ret. left. split; [done|]. exists dc. by rewrite app_nil_r.
  - apply wp_bind. eapply wp_next; [done|exact Hs|]. pose proof Hs as [Ha Hs']. cbn [first_of].
    apply wp_bind. eapply wp_ld; [exact Ha|]. destruct (lists_of_methods s c f Hm) as (q & Hq & Hqf).
    apply wp_bind. eapply wp_getl; [exact Hq|]. cbn [value].
    assert (dup q = f.1.1) as -> by by rewrite <- Hqf.
    set (g := fun v => match f.1.1 with Some g => g v | None => v end) in *. change (match f.1.1 with Some f0 => f0 v | None => v end) with (g v).
    assert (forall s1 rel, became s (<[c := dc]> L) rel s1 -> wp (_ ← listRelease c; mret None) (fun r s' =>
      (r = Some c /\ exists dc', wf s' (<[c := dc']> L) /\ methods s' = methods s /\ released s' = released s /\ dc'.*2 = map g (pre ++ (a, v) :: suf).*2) \/
      (r = None /\ wf s' L /\ methods s' = delete c (methods s) /\ exists rel, released s' = released s ++ rel)) s1) as Hrel.
    { intros s1 rel (Hw1 & Hm1 & Hrl1). apply wp_bind. rewrite <- Hm1 in Hm. destruct (lists_of_methods s1 c f Hm) as (q1 & Hq1 & _).
      eapply wp_mono; [eapply wp_Release; [exact Hw1|apply lookup_insert_eq|exact Hq1]|]. cbn. intros [] s2 (Hw2 & Hm2 & Hrl2).
      apply wp_ret. right. split_and!; [done| |by rewrite Hm2, Hm1|]; [by rewrite delete_insert_id in Hw2|].
      rewrite Hrl1, <- app_assoc in Hrl2. by eexists. }
    destruct (match f.1.1 with Some _ => g v =? 0 | None => false end).
    { eapply (Hrel s []). split_and!; [done..|by rewrite app_nil_r]. }
    apply wp_bind. assert (length dc = length pre) as Hlen by (by rewrite <- (length_fmap snd dc), Hdc, length_map, length_fmap).
    eapply wp_mono; [eapply wp_AddNodeTail; [exact Hw|apply lookup_insert_eq|]|].
    { unfold room. rewrite Hlen. rewrite length_app in Hmax. cbn in Hmax. lia. }
    intros r s1 [(-> & _ & Hs1)|(-> & b & Hb & (Hw1 & Hm1 & Hr1))].
    + apply wp_bind, wp_free_value. destruct Hs1 as ([H1 H2 H3 H4] & Hm1 & Hr1).
      eapply (Hrel _ (if free q then [g v] else [])). split_and!; [by split|done|cbn; by rewrite Hr1, app_nil_r].
    + rewrite insert_insert_eq in Hw1. rewrite app_nil_r in Hr1. assert (c <> orig) as Hne by (intros ->; by rewrite Hc in Ho).
      eapply wp_mono; [apply (IH fuel (Some a) (dc ++ [(b, g v)]) s1); [done..|by rewrite Hm1| |
        |cbn in Hf; lia|done]|].
      * exists (pre ++ [(a, v)]). rewrite <- app_assoc. split; [done|]. rewrite !fmap_app, Hdc. reflexivity.
      * destruct (wf_rep _ _ Hw1 orig (pre ++ (a, v) :: suf)) as (qo & _ & R); [by rewrite lookup_insert_ne|].
        pose proof (rep_seg _ _ _ R) as Hso. by apply dlseg_app in Hso as [_ [_ Hso]].
      * rewrite <- Hr1, <- Hm1. intros r s2 [(-> & dc' & H1 & H2 & H3 & H4)|(-> & H1 & H2 & H3)]; [left; split; [done|]; by exists dc'|by right].
Qed.

Lemma wf_methods s L l q q' : wf s L -> lists s !! l = Some q -> head q' = head q -> tail q' = tail q -> len q' = len q ->
  wf (LSt (nodes s) (<[l := q']> (lists s)) (mallocs s) (released s)) L.
Proof.
  intros [H1 H2 H3 H4] Hq Eh Et El. split; cbn; [|by rewrite dom_insert_lookup_L|done..].
  intros l2 d2 Hd2. destruct (H1 l2 d2 Hd2) as (q2 & E2 & R). destruct (decide (l2 = l)) as [->|Hne].
  - exists q'. rewrite lookup_insert_eq. split; [done|]. rewrite Hq in E2. injection E2 as <-. destruct R. split; congruence.
  - exists q2. by rewrite lookup_insert_ne.
Qed.

Lemma wp_Dup orig s L ds f : wf s L -> L !! orig = Some ds -> methods s !! orig = Some f -> Z.of_nat (length ds) < 2 ^ 32 ->
  wp (listDup orig) (fun r s' =>
    (exists c dc, r = Some c /\ L !! c = None /\ wf s' (<[c := dc]> L) /\ methods s' = <[c := f]> (methods s) /\ released s' = released s /\
       dc.*2 = map (fun v => match f.1.1 with Some g => g v | None => v end) ds.*2) \/
    (r = None /\ wf s' L /\ methods s' = methods s /\ exists rel, released s' = released s ++ rel)) s.
Proof.
  intros Hw Ho Hf Hmax. unfold listDup. apply wp_bind. eapply wp_mono; [by apply wp_Create|].
  intros r s1 [(-> & _ & (H1 & H2 & H3))|(c & -> & Hc & Hw1 & Hm1 & Hr1)]; [apply wp_ret; right; split_and!; [done..|by eexists]|].
  assert (c <> orig) as Hne by (intros ->; by rewrite Hc in Ho).
  destruct (lists_of_methods s1 orig f) as (q & Hq & Hqf); [by rewrite Hm1, lookup_insert_ne|].
  destruct (lists_of_methods s1 c (None, false, None)) as (qc & Hqc & _); [by rewrite Hm1, lookup_insert_eq|].
  apply wp_bind. eapply wp_getl; [exact Hq|]. apply wp_bind. eapply wp_updl; [exact Hqc|].
  pose proof (wf_methods s1 _ c qc (set_methods q qc) Hw1 Hqc eq_refl eq_refl eq_refl) as Hw2. set (s2 := LSt _ _ _ _) in *.
  assert (methods s2 = <[c := f]> (methods s)) as Hm2.
  { unfold methods, s2. cbn [lists]. rewrite fmap_insert. change (meth <$> lists s1) with (methods s1). rewrite Hm1, insert_insert_eq. by rewrite <- Hqf. }
  destruct (wf_rep _ _ Hw2 orig ds) as (q2 & Hq2 & [Rh Rt Rl Rs Rn]); [by rewrite lookup_insert_ne|].
  assert (q2 = q) as -> by (unfold s2 in Hq2; cbn in Hq2; rewrite lookup_insert_ne in Hq2 by done; congruence).
  unfold listRewind. apply wp_bind, wp_bind. eapply wp_getl; [exact Hq2|]. apply wp_ret. rewrite Rh.
  eapply wp_mono; [eapply (wp_dup_loop c orig ds f); [exact Hw2|exact Hc|exact Ho|by rewrite Hm2, lookup_insert_eq|by exists []|exact Rs|rewrite Rl; lia|done]|].
  intros r s3 [(-> & dc & H1 & H2 & H3 & H4)|(-> & H1 & H2 & rel & H3)].
  - left. exists c, dc. split_and!; try done; [congruence|]. by rewrite H3.
  - right. split_and!; [done..| |exists rel; by rewrite <- Hr1]. rewrite H2, Hm2. apply delete_insert_id.
    destruct (methods s !! c) as [f'|] eqn:E; [|done]. destruct (lists_of_methods s c f' E) as (q' & Hq' & _).
    assert (is_Some (L !! c)) as [? E'] by (apply elem_of_dom; rewrite <- (wf_lists _ _ Hw); apply elem_of_dom; by exists q').
    by rewrite Hc in E'.
Qed.

(** ** What the lists promise *)

Inductive lop :=
| Create | Empty (l : nat) | Release (l : nat)
| AddHead (l : nat) (v : Z) | AddTail (l : nat) (v : Z) | Insert (l old : nat) (v : Z) (after : bool) | Del (l node : nat)
| Search (l : nat) (key : Z) | Index (l : nat) (i : Z)
| RotateTail (l : nat) | RotateHead (l : nat) | Join (l o : nat) | Dup (l : nat).

Definition run_lop (op : lop) : C lst (option nat) :=
  match op with
  | Create => listCreate
  | Empty l => _ ← listEmpty l; mret None
  | Release l => _ ← listRelease l; mret None
  | AddHead l v => listAddNodeHead l v
  | AddTail l v => listAddNodeTail l v
  | Insert l old v after => listInsertNode l old v after
  | Del l node => _ ← listDelNode l node; mret None
  | Search l key => listSearchKey l key
  | Index l i => listIndex l i
  | RotateTail l => _ ← listRotateTailToHead l; mret None
  | RotateHead l => _ ← listRotateHeadToTail l; mret None
  | Join l o => _ ← listJoin l o; mret None
  | Dup l => listDup l
  end.

(** What a call may be given: lists that exist, nodes of them, and no more elements
    than the counter counts. *)
Definition allowed (L : gmap nat (list (nat * Z))) (op : lop) : Prop :=
  match op with
  | Create => True
  | Empty l | Release l | Search l _ | Index l _ | RotateTail l | RotateHead l => is_Some (L !! l)
  | AddHead l _ | AddTail l _ => exists ds, L !! l = Some ds /\ room ds
  | Insert l a _ _ | Del l a => exists ds, L !! l = Some ds /\ room ds /\ a ∈ ds.*1
  | Join l o => l <> o /\ exists d1 d2, L !! l = Some d1 /\ L !! o = Some d2 /\ Z.of_nat (length (d1 ++ d2)) < 2 ^ 32
  | Dup l => exists ds, L !! l = Some ds /\ room ds
  end.

(** [dup], [free] and [match] of a list. *)
Definition funs : Type := option (Z -> Z) * bool * option (Z -> Z -> bool).

(** What the calls do to the lists: [fs] are the functions of the lists, [r] is the
    result, [rel] what is freed. *)
Definition does (fs : gmap nat funs) (L : gmap nat (list (nat * Z))) (op : lop)
    (r : option nat) (L' : gmap nat (list (nat * Z))) (rel : list Z) : Prop :=
  match op with
  | Create => exists l, r = Some l /\ L !! l = None /\ L' = <[l := []]> L /\ rel = []
  | Empty l => exists ds (f : funs), L !! l = Some ds /\ fs !! l = Some f /\ L' = <[l := []]> L /\ rel = if f.1.2 then ds.*2 else []
  | Release l => exists ds (f : funs), L !! l = Some ds /\ fs !! l = Some f /\ L' = delete l L /\ rel = if f.1.2 then ds.*2 else []
  | AddHead l v => exists ds a, L !! l = Some ds /\ r = Some l /\ L' = <[l := (a, v) :: ds]> L /\ rel = []
  | AddTail l v => exists ds a, L !! l = Some ds /\ r = Some l /\ L' = <[l := ds ++ [(a, v)]]> L /\ rel = []
  | Insert l o v after => exists d1 ov d2 a, L !! l = Some (d1 ++ (o, ov) :: d2) /\ r = Some l /\
      L' = <[l := if after then d1 ++ (o, ov) :: (a, v) :: d2 else d1 ++ (a, v) :: (o, ov) :: d2]> L /\ rel = []
  | Del l a => exists d1 v d2 (f : funs), L !! l = Some (d1 ++ (a, v) :: d2) /\ fs !! l = Some f /\ L' = <[l := d1 ++ d2]> L /\ rel = if f.1.2 then [v] else []
  | Search l key => exists ds (f : funs), L !! l = Some ds /\ fs !! l = Some f /\ L' = L /\ rel = [] /\
      r = fst <$> List.find (fun d => match f.2 with Some m => m d.2 key | None => key =? d.2 end) ds
  | Index l i => exists ds, L !! l = Some ds /\ L' = L /\ rel = [] /\ r = fst <$> at_index ds i
  | RotateTail l => exists ds, L !! l = Some ds /\ L' = <[l := rotate_right ds]> L /\ rel = []
  | RotateHead l => exists ds, L !! l = Some ds /\ L' = <[l := rotate_left ds]> L /\ rel = []
  | Join l o => exists d1 d2, L !! l = Some d1 /\ L !! o = Some d2 /\ L' = <[o := []]> (<[l := d1 ++ d2]> L) /\ rel = []
  | Dup l => exists ds (f : funs) c dc, L !! l = Some ds /\ fs !! l = Some f /\ r = Some c /\ L !! c = None /\ L' = <[c := dc]> L /\ rel = [] /\
      dc.*2 = map (fun v => match f.1.1 with Some g => g v | None => v end) ds.*2
  end.

(** Which calls may fail for want of memory, or of a copy. *)
Definition may_fail (s : lst) (op : lop) : Prop :=
  match op with
  | Create | AddHead _ _ | AddTail _ _ | Insert _ _ _ _ => hd_error (mallocs s) = Some false
  | Dup _ => True
  | _ => False
  end.

Lemma wf_has_methods s L l ds : wf s L -> L !! l = Some ds -> exists q, lists s !! l = Some q /\ methods s !! l = Some (meth q).
Proof. intros Hw Hl. destruct (wf_rep _ _ Hw l ds Hl) as (q & Hq & _). exists q. split; [done|]. by apply methods_lookup. Qed.

Lemma in_split_fst (a : nat) (ds : list (nat * Z)) : a ∈ ds.*1 -> exists d1 v d2, ds = d1 ++ (a, v) :: d2.
Proof. intros ([a' v] & -> & (d1 & d2 & ->)%list_elem_of_split)%list_elem_of_fmap. by exists d1, v, d2. Qed.

(** Every function on lists, from any store with any number of lists. *)
Lemma wp_run_lop op s L : wf s L -> allowed L op ->
  wp (run_lop op) (fun r s' => exists L' rel, wf s' L' /\ released s' = released s ++ rel /\
    (does (methods s) L op r L' rel \/ may_fail s op /\ r = None /\ L' = L)) s.
Proof.
  intros Hw Hok.
  assert (forall r L' rel s', became s L' rel s' -> does (methods s) L op r L' rel -> exists L' rel, wf s' L' /\ released s' = released s ++ rel /\
    (does (methods s) L op r L' rel \/ may_fail s op /\ r = None /\ L' = L)) as Hdo by (intros r L' rel s' (H1 & _ & H2) H; exists L', rel; by split_and!; [..|left]).
  assert (forall s', may_fail s op -> became s L [] s' -> exists L' rel, wf s' L' /\ released s' = released s ++ rel /\
    (does (methods s) L op None L' rel \/ may_fail s op /\ None = None :> option nat /\ L' = L)) as Hno by (intros s' H (H1 & _ & H2); exists L, []; by split_and!; [..|right]).
  destruct op as [|l|l|l v|l v|l o v after|l a|l key|l i|l|l|l o|l]; cbn [run_lop allowed does may_fail] in *.
  - eapply wp_mono; [by apply wp_Create|]. intros r s' [(-> & Hf & H)|(l & -> & Hl & H1 & H2 & H3)]; [by apply Hno|].
    exists (<[l := []]> L), []. rewrite app_nil_r. split_and!; [done..|]. left. by exists l.
  - destruct Hok as [ds Hl]. destruct (wf_has_methods s L l ds Hw Hl) as (q & Hq & Hm).
    apply wp_bind. eapply wp_mono; [by eapply wp_Empty|]. intros [] s' H. apply wp_ret. eapply Hdo; [exact H|]. by exists ds, (meth q).
  - destruct Hok as [ds Hl]. destruct (wf_has_methods s L l ds Hw Hl) as (q & Hq & Hm).
    apply wp_bind. eapply wp_mono; [by eapply wp_Release|]. intros [] s' (H1 & H2 & H3). apply wp_ret.
    exists (delete l L), (if free q then ds.*2 else []). split_and!; [done..|]. left. by exists ds, (meth q).
  - destruct Hok as (ds & Hl & Hr). eapply wp_mono; [by eapply wp_AddNodeHead|]. intros r s' [(-> & Hf & H)|(-> & a & _ & H)]; [by apply Hno|].
    eapply Hdo; [exact H|]. by exists ds, a.
  - destruct Hok as (ds & Hl & Hr). eapply wp_mono; [by eapply wp_AddNodeTail|]. intros r s' [(-> & Hf & H)|(-> & a & _ & H)]; [by apply Hno|].
    eapply Hdo; [exact H|]. by exists ds, a.
  - destruct Hok as (ds & Hl & Hr & (d1 & ov & d2 & ->)%in_split_fst). eapply wp_mono; [by eapply wp_InsertNode|].
    intros r s' [(-> & Hf & H)|(-> & a & _ & H)]; [by apply Hno|]. eapply Hdo; [exact H|]. by exists d1, ov, d2, a.
  - destruct Hok as (ds & Hl & Hr & (d1 & v & d2 & ->)%in_split_fst). destruct (wf_has_methods s L l _ Hw Hl) as (q & Hq & Hm).
    apply wp_bind. eapply wp_mono; [eapply wp_DelNode; [done..|unfold room in Hr; lia]|]. intros [] s' H. apply wp_ret. eapply Hdo; [exact H|].
    by exists d1, v, d2, (meth q).
  - destruct Hok as [ds Hl]. destruct (wf_has_methods s L l ds Hw Hl) as (q & Hq & Hm).
    eapply wp_mono; [by eapply wp_SearchKey|]. intros r s' [-> ->]. exists L, []. rewrite app_nil_r. split_and!; [done..|]. left. by exists ds, (meth q).
  - destruct Hok as [ds Hl]. eapply wp_mono; [by eapply wp_Index|]. intros r s' [-> ->]. exists L, []. rewrite app_nil_r. split_and!; [done..|]. left. by exists ds.
  - destruct Hok as [ds Hl]. apply wp_bind. eapply wp_mono; [by eapply wp_RotateTailToHead|]. intros [] s' H. apply wp_ret. eapply Hdo; [exact H|]. by exists ds.
  - destruct Hok as [ds Hl]. apply wp_bind. eapply wp_mono; [by eapply wp_RotateHeadToTail|]. intros [] s' H. apply wp_ret. eapply Hdo; [exact H|]. by exists ds.
  - destruct Hok as (Hne & d1 & d2 & Hl & Ho & Hmax). apply wp_bind. eapply wp_mono; [by eapply wp_Join|]. intros [] s' H. apply wp_ret.
    eapply Hdo; [exact H|]. by exists d1, d2.
  - destruct Hok as (ds & Hl & Hr). destruct (wf_has_methods s L l ds Hw Hl) as (q & Hq & Hm). unfold room in Hr.
    eapply wp_mono; [eapply wp_Dup; [done..|lia]|]. intros r s' [(c & dc & -> & Hc & H1 & H2 & H3 & H4)|(-> & H1 & H2 & rel & H3)].
    + exists (<[c := dc]> L), []. rewrite app_nil_r. split_and!; [done..|]. left. by exists ds, (meth q), c, dc.
    + exists L, rel. split_and!; [done..|]. by right.
Qed.

(** C8: Wherever any number of lists are laid out in memory, sharing no node, every
    function of list.c that is given lists that exist, nodes of them and room in the
    counter ends without a fault, whatever allocations fail: it leaves the memory laid
    out again, no node lost, and does to the lists what its name says, or fails and
    leaves them as they were; it frees exactly the values of the elements it drops,
    when the list has a function for it. *)
Theorem lists_refine (op : lop) (s : lst) (L : gmap nat (list (nat * Z))) :
  wf s L -> allowed L op ->
  exists r s' L' rel, run_lop op s = Done (r, s') /\ wf s' L' /\ released s' = released s ++ rel /\
    (does (methods s) L op r L' rel \/ may_fail s op /\ r = None /\ L' = L).
Proof.
  intros Hw Hok. pose proof (wp_run_lop op s L Hw Hok) as H. unfold wp in H. destruct (run_lop op s) as [[r s']|]; [|done].
  destruct H as (L' & rel & H). by exists r, s', L', rel.
Qed.

(** A list is created, 5 and then 7 are appended, 7 is found. *)
Lemma lists_refine_witness :
  exists s L l a b, wf s L /\ L !! l = Some [(a, 5); (b, 7)] /\ exists s', run_lop (Search l 7) s = Done (Some b, s').
Proof.
  destruct (lists_refine Create (LSt ∅ ∅ [] []) ∅ (wf_start []) I) as (r0 & s0 & L0 & rel0 & E0 & W0 & _ & [D0|(F & _)]); [|discriminate F].
  vm_compute in E0. injection E0 as <- <-. destruct D0 as (l & [= <-] & _ & -> & _).
  assert (is_Some ((<[0%nat := []]> ∅ : gmap nat (list (nat * Z))) !! 0%nat)) as _ by by eexists.
  edestruct (lists_refine (AddTail 0 5) _ _ W0) as (r1 & s1 & L1 & rel1 & E1 & W1 & _ & [D1|(F & _)]); [by exists []| |discriminate F].
  vm_compute in E1. injection E1 as <- <-. destruct D1 as (ds & a & [= <-] & _ & -> & _).
  edestruct (lists_refine (AddTail 0 7) _ _ W1) as (r2 & s2 & L2 & rel2 & E2 & W2 & _ & [D2|(F & _)]); [by exists [(a, 5)]| |discriminate F].
  vm_compute in E2. injection E2 as <- <-. destruct D2 as (ds & b & [= <-] & _ & -> & _).
  edestruct (lists_refine (Search 0 7) _ _ W2) as (r3 & s3 & L3 & rel3 & E3 & _ & _ & [D3|(F & _)]); [by eexists| |by destruct F].
  destruct D3 as (ds & f & [= <-] & Hf & _ & _ & ->).
  assert (f = (None, false, None)) as -> by (vm_compute in Hf; by injection Hf as <-).
  eexists _, _, 0%nat, a, b. split; [exact W2|]. split; [reflexivity|]. exists s3. exact E3.
Defined.
