(* ===== verification/Startup.v ===== *)
(** The start of the gateway (source/main.c): the parsers run one after the other, the
    plugins are loaded, and the jobs are given to the thread pool. *)

From stdpp Require Import gmap fin_maps.
From Stdlib Require Import Ascii.
From S2P Require Import Prelude ThreadPool PoolRules PoolRuns CMem CStr Device KnxDevs Serial DioScan Gateway Xml Cells CellRules ParseModbus ModbusConfig ParseKnx KnxConfig ParsePanels PanelConfig ParseMisc.

Local Open Scope string_scope.
Local Open Scope list_scope.
Local Open Scope Z_scope.

(** ** The configuration

    [HasSysDev_t] tells which parts the configuration has. *)

Record HasSysDev_t := HasSysDev {
  bZ3 : bool; bMbusAcd : bool; bMbusVent : bool; bMbusHeat : bool; bMbusAqi : bool; bMbusHumidifier : bool; bMbusPurifier : bool;
  bKnxAcd : bool; bKnxVent : bool; bKnxHeat : bool; bKnxPanel : bool; bKnxCurtain : bool; bDi : bool; bDo : bool; bGroup : bool
}.
Definition no_dev : HasSysDev_t := HasSysDev false false false false false false false false false false false false false false false.
Definition set_bZ3 h := HasSysDev true (bMbusAcd h) (bMbusVent h) (bMbusHeat h) (bMbusAqi h) (bMbusHumidifier h) (bMbusPurifier h) (bKnxAcd h) (bKnxVent h) (bKnxHeat h) (bKnxPanel h) (bKnxCurtain h) (bDi h) (bDo h) (bGroup h).
Definition set_bMbusAcd h := HasSysDev (bZ3 h) true (bMbusVent h) (bMbusHeat h) (bMbusAqi h) (bMbusHumidifier h) (bMbusPurifier h) (bKnxAcd h) (bKnxVent h) (bKnxHeat h) (bKnxPanel h) (bKnxCurtain h) (bDi h) (bDo h) (bGroup h).
Definition set_bMbusVent h := HasSysDev (bZ3 h) (bMbusAcd h) true (bMbusHeat h) (bMbusAqi h) (bMbusHumidifier h) (bMbusPurifier h) (bKnxAcd h) (bKnxVent h) (bKnxHeat h) (bKnxPanel h) (bKnxCurtain h) (bDi h) (bDo h) (bGroup h).
Definition set_bMbusHeat h := HasSysDev (bZ3 h) (bMbusAcd h) (bMbusVent h) true (bMbusAqi h) (bMbusHumidifier h) (bMbusPurifier h) (bKnxAcd h) (bKnxVent h) (bKnxHeat h) (bKnxPanel h) (bKnxCurtain h) (bDi h) (bDo h) (bGroup h).
Definition set_bMbusAqi h := HasSysDev (bZ3 h) (bMbusAcd h) (bMbusVent h) (bMbusHeat h) true (bMbusHumidifier h) (bMbusPurifier h) (bKnxAcd h) (bKnxVent h) (bKnxHeat h) (bKnxPanel h) (bKnxCurtain h) (bDi h) (bDo h) (bGroup h).
Definition set_bKnxAcd h := HasSysDev (bZ3 h) (bMbusAcd h) (bMbusVent h) (bMbusHeat h) (bMbusAqi h) (bMbusHumidifier h) (bMbusPurifier h) true (bKnxVent h) (bKnxHeat h) (bKnxPanel h) (bKnxCurtain h) (bDi h) (bDo h) (bGroup h).
Definition set_bKnxVent h := HasSysDev (bZ3 h) (bMbusAcd h) (bMbusVent h) (bMbusHeat h) (bMbusAqi h) (bMbusHumidifier h) (bMbusPurifier h) (bKnxAcd h) true (bKnxHeat h) (bKnxPanel h) (bKnxCurtain h) (bDi h) (bDo h) (bGroup h).
Definition set_bKnxHeat h := HasSysDev (bZ3 h) (bMbusAcd h) (bMbusVent h) (bMbusHeat h) (bMbusAqi h) (bMbusHumidifier h) (bMbusPurifier h) (bKnxAcd h) (bKnxVent h) true (bKnxPanel h) (bKnxCurtain h) (bDi h) (bDo h) (bGroup h).
Definition set_bKnxCurtain h := HasSysDev (bZ3 h) (bMbusAcd h) (bMbusVent h) (bMbusHeat h) (bMbusAqi h) (bMbusHumidifier h) (bMbusPurifier h) (bKnxAcd h) (bKnxVent h) (bKnxHeat h) (bKnxPanel h) true (bDi h) (bDo h) (bGroup h).
Definition set_bDi h := HasSysDev (bZ3 h) (bMbusAcd h) (bMbusVent h) (bMbusHeat h) (bMbusAqi h) (bMbusHumidifier h) (bMbusPurifier h) (bKnxAcd h) (bKnxVent h) (bKnxHeat h) (bKnxPanel h) (bKnxCurtain h) true (bDo h) (bGroup h).
Definition set_bDo h := HasSysDev (bZ3 h) (bMbusAcd h) (bMbusVent h) (bMbusHeat h) (bMbusAqi h) (bMbusHumidifier h) (bMbusPurifier h) (bKnxAcd h) (bKnxVent h) (bKnxHeat h) (bKnxPanel h) (bKnxCurtain h) (bDi h) true (bGroup h).

(** An element of [pKnxDevList]. *)
Inductive knx_cfg :=
| KClimate (d : KnxCfgDev) | KPanel (d : KeyedCfg KnxPointsCfg) | KSmart (d : KeyedCfg KnxSmartPanelCfg) | KDimmer (d : KeyedCfg KnxDimmerCfg) | KCurtain (d : KnxCurtainCfg).

(** The lists and switches of main.c, the ports and the heap. *)
Record gate := Gate {
  pGw : option Gateway_t;
  pKnxScene : list SceneCfg;
  pZ3List : list Z3Cfg;
  pMbusDevList : list MbusDev;
  pKnxDevList : list knx_cfg;
  pDioDevList : list DioCfg;
  pGroupList : list GroupCfg;
  g_HasSysDev : HasSysDev_t;
  bZigbeeModuleEnabled : bool;
  bKnxAutoAcKEnabled : bool;
  ports : world;
  gheap : heap
}.
Definition set_gw v g := Gate v (pKnxScene g) (pZ3List g) (pMbusDevList g) (pKnxDevList g) (pDioDevList g) (pGroupList g) (g_HasSysDev g) (bZigbeeModuleEnabled g) (bKnxAutoAcKEnabled g) (ports g) (gheap g).
Definition set_scenes v g := Gate (pGw g) v (pZ3List g) (pMbusDevList g) (pKnxDevList g) (pDioDevList g) (pGroupList g) (g_HasSysDev g) (bZigbeeModuleEnabled g) (bKnxAutoAcKEnabled g) (ports g) (gheap g).
Definition set_z3 v g := Gate (pGw g) (pKnxScene g) v (pMbusDevList g) (pKnxDevList g) (pDioDevList g) (pGroupList g) (g_HasSysDev g) (bZigbeeModuleEnabled g) (bKnxAutoAcKEnabled g) (ports g) (gheap g).
Definition set_mbus v g := Gate (pGw g) (pKnxScene g) (pZ3List g) v (pKnxDevList g) (pDioDevList g) (pGroupList g) (g_HasSysDev g) (bZigbeeModuleEnabled g) (bKnxAutoAcKEnabled g) (ports g) (gheap g).
Definition set_knx v g := Gate (pGw g) (pKnxScene g) (pZ3List g) (pMbusDevList g) v (pDioDevList g) (pGroupList g) (g_HasSysDev g) (bZigbeeModuleEnabled g) (bKnxAutoAcKEnabled g) (ports g) (gheap g).
Definition set_dio v g := Gate (pGw g) (pKnxScene g) (pZ3List g) (pMbusDevList g) (pKnxDevList g) v (pGroupList g) (g_HasSysDev g) (bZigbeeModuleEnabled g) (bKnxAutoAcKEnabled g) (ports g) (gheap g).
Definition set_groups v g := Gate (pGw g) (pKnxScene g) (pZ3List g) (pMbusDevList g) (pKnxDevList g) (pDioDevList g) v (g_HasSysDev g) (bZigbeeModuleEnabled g) (bKnxAutoAcKEnabled g) (ports g) (gheap g).
Definition set_has v g := Gate (pGw g) (pKnxScene g) (pZ3List g) (pMbusDevList g) (pKnxDevList g) (pDioDevList g) (pGroupList g) v (bZigbeeModuleEnabled g) (bKnxAutoAcKEnabled g) (ports g) (gheap g).
Definition set_switches z k g := Gate (pGw g) (pKnxScene g) (pZ3List g) (pMbusDevList g) (pKnxDevList g) (pDioDevList g) (pGroupList g) (g_HasSysDev g) z k (ports g) (gheap g).
Definition set_mem w h g := Gate (pGw g) (pKnxScene g) (pZ3List g) (pMbusDevList g) (pKnxDevList g) (pDioDevList g) (pGroupList g) (g_HasSysDev g) (bZigbeeModuleEnabled g) (bKnxAutoAcKEnabled g) w h.
(** Nothing parsed yet: the lists of [listCreate]. *)
Definition gate0 (w : world) (h : heap) : gate := Gate None [] [] [] [] [] [] no_dev false true w h.

(** A parser at work on one list: it only adds to the end of it.  The serial ports are
    only in reach of the parsers of Modbus devices. *)
Definition on_list {D A} (put : list D -> gate -> gate) (m : par (pst D) A) : par gate A := fun g =>
  match m (PSt [] (ports g) (gheap g)) with
  | Got a s => Got a (put (p_list s) (set_mem (ports g) (p_heap s) g))
  | Stopped w => Stopped w
  end.
Definition add_mbus (l : list MbusDev) g := set_mbus (pMbusDevList g ++ l) g.
Definition on_mbus (m : par (pst MbusDev) Z) : par gate Z := fun g =>
  match m (PSt [] (ports g) (gheap g)) with
  | Got a s => Got a (add_mbus (p_list s) (set_mem (p_ports s) (p_heap s) g))
  | Stopped w => Stopped w
  end.
Definition gmodify (f : gate -> gate) : par gate unit := fun g => Got tt (f g).
Definition gread {A} (f : gate -> A) : par gate A := fun g => Got (f g) g.
(** [if (ret == 0) g_HasSysDev.b = true;] *)
Definition flagged (f : HasSysDev_t -> HasSysDev_t) (m : par gate Z) : par gate unit :=
  ret ← m; if ret =? 0 then gmodify (fun g => set_has (f (g_HasSysDev g)) g) else mret tt.
Definition add_z3 (l : list Z3Cfg) g := set_z3 (pZ3List g ++ l) g.
Definition add_knx {D} (k : D -> knx_cfg) (l : list D) g := set_knx (pKnxDevList g ++ map k l) g.
Definition add_scenes (l : list SceneCfg) g := set_scenes (pKnxScene g ++ l) g.
Definition add_dio (l : list DioCfg) g := set_dio (pDioDevList g ++ l) g.
Definition add_groups (l : list GroupCfg) g := set_groups (pGroupList g ++ l) g.

Section Config.
Context `{LibXml}.
Variable (g_Mac : string) (now : Z).
Local Notation P := (par gate).

(** [pGw->pProductId] is read whatever the parser gave. *)
Definition gateway_cfg (path : option string) : P unit :=
  o ← on_list (fun _ g => g) (ParseGatewayCfg path);
  match o with Some w => gmodify (set_gw (Some w)) | None => stopped Crashed end.
Definition switches (path : option string) : P unit :=
  z ← gread bZigbeeModuleEnabled; k ← gread bKnxAutoAcKEnabled;
  '(_, z) ← on_list (fun _ g => g) (ParseZigbeeCfg path z);
  '(_, k) ← on_list (fun _ g => g) (ParseKnxCfg path k);
  gmodify (set_switches z k).

Definition mbus_cfg (path : option string) : P unit :=
  _ ← flagged set_bMbusAcd (on_mbus (ParseMbusAcdCfg g_Mac path));
  _ ← flagged set_bMbusVent (on_mbus (ParseMbusVentCfg g_Mac path));
  _ ← flagged set_bMbusHeat (on_mbus (ParseMbusHeatCfg g_Mac path));
  _ ← flagged set_bMbusAqi (on_mbus (ParseMbusAqiCfg g_Mac path));
  flagged set_bMbusAqi (on_mbus (ParseMbusPanelCfg g_Mac path)).
Definition knx_dev_cfg (path : option string) : P unit :=
  _ ← flagged set_bKnxAcd (on_list (add_knx KClimate) (ParseKnxAcdCfg g_Mac now path));
  _ ← flagged set_bKnxVent (on_list (add_knx KClimate) (ParseKnxVentCfg g_Mac now path));
  _ ← flagged set_bKnxHeat (on_list (add_knx KClimate) (ParseKnxHeatCfg g_Mac now path));
  _ ← on_list add_scenes (ParseKnxSceneCfg path);
  _ ← on_list (add_knx KPanel) (ParseKnxPanelCfg g_Mac now path);
  _ ← on_list (add_knx KDimmer) (ParseKnxDimmerCfg g_Mac path);
  _ ← on_list (add_knx KSmart) (ParseKnxSmartPanelCfg g_Mac now path);
  _ ← on_list (add_knx KCurtain) (ParseKnxCurtainCfg g_Mac path); mret tt.
Definition dio_cfg (path : option string) : P unit :=
  _ ← flagged set_bDi (on_list add_dio (ParseDiCfg g_Mac path));
  flagged set_bDo (on_list add_dio (ParseDoCfg g_Mac path)).
Definition group_cfg (path : option string) : P unit :=
  _ ← on_list add_groups (ParseGroupCfg g_Mac path "/Device/Group/AirCondition/Cell");
  _ ← on_list add_groups (ParseGroupCfg g_Mac path "/Device/Group/Curtain/Cell"); mret tt.

(** [readable]: what [access] says of the file. *)
Definition main_cfg (readable : bool) (path : option string) : P unit :=
  _ ← gateway_cfg path;
  if negb readable then stopped Exited else
  _ ← flagged set_bZ3 (on_list add_z3 (ParseZ3Cfg path));
  _ ← mbus_cfg path;
  _ ← knx_dev_cfg path;
  _ ← flagged set_bKnxCurtain (on_mbus (ParseMbusCurtainCfg g_Mac path));
  _ ← dio_cfg path;
  _ ← group_cfg path;
  switches path.
End Config.

(** ** Jobs *)

(** The functions that are given to the pool of main.c. *)
Inductive entry :=
| ThreadDogEntry | KNX_BusMonitorEntry | KNX_DevMonitorEntry | KNX_DevDebounce | KNX_DevWriteEntry | KNX_DevHealth
| ModbusDevMonitor | key_scan | flashLight | di_scan | fakeServer | RunLedThread | ReportPosThread | ReportBindPosThread
| Mbus_DelaySyncAllDevStatus | Mbus_SyncAllDevStatus | Modbus_DevHealth | KNX_DevStateSync.

(** Which of them return: [key_scan] when the key cannot be opened, the monitor of
    the bus when the connection fails or ends, and what the callbacks of the cloud
    ask for; every other is a loop without an end. *)
Definition returns (key bus : bool) (e : entry) : bool :=
  match e with
  | key_scan => negb key
  | KNX_BusMonitorEntry => negb bus
  | Mbus_SyncAllDevStatus | Modbus_DevHealth | KNX_DevStateSync => true
  | _ => false
  end.

(** [queues]: the four queues of KNX could be created. *)
Definition KnxInit (queues : bool) : list entry :=
  if queues then [ThreadDogEntry; KNX_BusMonitorEntry; KNX_DevMonitorEntry; KNX_DevDebounce; KNX_DevWriteEntry; KNX_DevHealth] else [].
Definition ModbusInit (queue : bool) : list entry := if queue then [ModbusDevMonitor] else [].
Definition Mbus_ForceSyncDevStatus : list entry := [Mbus_DelaySyncAllDevStatus].

(** What [main] gives to the pool. *)
Definition main_jobs (queues queue bDi : bool) : list entry :=
  KnxInit queues ++ ModbusInit queue ++ [key_scan; flashLight] ++ (if bDi then [di_scan] else []) ++
  [fakeServer; RunLedThread; ReportPosThread; ReportBindPosThread] ++ Mbus_ForceSyncDevStatus.
Definition main `{LibXml} (g_Mac : string) (now : Z) (readable : bool) (path : option string) (queues queue : bool) : par gate (list entry) :=
  _ ← main_cfg g_Mac now readable path; h ← gread g_HasSysDev; mret (main_jobs queues queue (bDi h)).
Definition thpool : thpool_ entry := init_pool 15.

(** ** The configuration is read *)

Section Read.
Context `{LibXml} (g_Mac : string) (now : Z).
Local Notation ok := (fun _ : stop => True).

(** The families [main] has a parser run for. *)
Definition main_families : list family := [F_acd; F_vent; F_heat; F_aqi; F_panel; F_curtain].
Definition mbus_dev_ok (n : nat) (d : MbusDev) : Prop := exists f, f ∈ main_families /\ dev_typed g_Mac f n d.
Definition knx_dev_ok (k : knx_cfg) : Prop :=
  match k with
  | KClimate d => exists F, F ∈ kfamilies /\ kdev_ok g_Mac F d
  | KPanel d => keyed_ok points_ok g_Mac (keyed_type KNX_PANEL_ONE_KEY d) d
  | KSmart d => keyed_ok smart_ok g_Mac (keyed_type KNX_MISC_PANEL_ONE_KEY d) d
  | KDimmer d => keyed_ok dimmer_ok g_Mac (keyed_type KNX_DIMMER_ONE_KEY d) d
  | KCurtain d => curtain_ok g_Mac d
  end.
Record gate_ok (di : bool) (g : gate) : Prop := {
  go_mbus : Forall (mbus_dev_ok (length (params (ports g)))) (pMbusDevList g);
  go_ports : Forall param_typed (params (ports g));
  go_knx : Forall knx_dev_ok (pKnxDevList g);
  go_di : bDi (g_HasSysDev g) = di
}.

Lemma pwp_on_list {D A} (put : list D -> gate -> gate) (m : par (pst D) A) (Q : A -> gate -> Prop) g :
  pwp ok m (fun a s => Q a (put (p_list s) (set_mem (ports g) (p_heap s) g))) (PSt [] (ports g) (gheap g)) ->
  pwp ok (on_list put m) Q g.
Proof. unfold pwp, on_list. by destruct (m _). Qed.

Lemma pwp_gread {A} (f : gate -> A) (Q : A -> gate -> Prop) g : Q (f g) g -> pwp ok (gread f) Q g.
Proof. done. Qed.

Lemma pwp_any {S A} (m : par S A) (Q : A -> S -> Prop) s : (forall a s', m s = Got a s' -> Q a s') -> pwp ok m Q s.
Proof. unfold pwp. destruct (m s); auto. Qed.

Lemma pwp_flagged f m di (g : gate) :
  (forall h, bDi (f h) = bDi h) -> pwp ok m (fun _ => gate_ok di) g -> pwp ok (flagged f m) (fun _ => gate_ok di) g.
Proof.
  intros Hf Hm. unfold flagged. apply pwp_bind. eapply pwp_conseq; [exact Hm|]. intros r g' [H1 H2 H3 H4]. cbn.
  destruct (r =? 0); [|by apply pwp_ret]. unfold gmodify, pwp. split; cbn; try done. by rewrite Hf.
Qed.

(** A parser of another list changes nothing of these. *)
Lemma gate_other {D A} (put : list D -> gate -> gate) (m : par (pst D) A) di g :
  (forall l g, pMbusDevList (put l g) = pMbusDevList g /\ ports (put l g) = ports g /\ pKnxDevList (put l g) = pKnxDevList g /\
     g_HasSysDev (put l g) = g_HasSysDev g) ->
  gate_ok di g -> pwp ok (on_list put m) (fun _ => gate_ok di) g.
Proof.
  intros Hput [H1 H2 H3 H4]. apply pwp_on_list, pwp_any. intros a s _.
  destruct (Hput (p_list s) (set_mem (ports g) (p_heap s) g)) as (E1 & E2 & E3 & E4).
  split; [by rewrite E1, E2|by rewrite E2|by rewrite E3|by rewrite E4].
Qed.

Lemma main_families_in f : f ∈ main_families -> f ∈ families.
Proof.
  unfold main_families. intros Hf.
  repeat apply elem_of_cons in Hf as [-> | Hf]; [..|by apply elem_of_nil in Hf].
  - by apply (list_elem_of_lookup_2 families 0).
  - by apply (list_elem_of_lookup_2 families 1).
  - by apply (list_elem_of_lookup_2 families 2).
  - by apply (list_elem_of_lookup_2 families 3).
  - by apply (list_elem_of_lookup_2 families 6).
  - by apply (list_elem_of_lookup_2 families 7).
Qed.

Lemma gate_mbus f path di g : f ∈ main_families -> gate_ok di g -> pwp ok (on_mbus (f_parse f g_Mac path)) (fun _ => gate_ok di) g.
Proof.
  intros Hf [H1 H2 H3 H4]. pose proof (families_keep g_Mac f path [] (length (params (ports g))) (PSt [] (ports g) (gheap g)) (main_families_in f Hf)) as Hk.
  unfold pwp, on_mbus in *. destruct (f_parse f g_Mac path (PSt [] (ports g) (gheap g))) as [r s|]; [|done].
  destruct Hk as [(l & El & Hl) Hp Hn]; [split; cbn; [by exists []|done|unfold blocks; cbn; lia]|]. cbn in El. unfold blocks in *.
  split; cbn; [|done..]. apply Forall_app_2.
  - eapply Forall_impl; [exact H1|]. intros d (f' & Hf' & Hd). exists f'. split; [done|]. by eapply dev_typed_mono.
  - rewrite El. eapply Forall_impl; [exact Hl|]. intros d Hd. by exists f.
Qed.

Lemma gate_knx {D} (k : D -> knx_cfg) (m : par (pst D) Z) di g :
  pwp ok m (fun _ s => Forall (fun d => knx_dev_ok (k d)) (p_list s)) (PSt [] (ports g) (gheap g)) ->
  gate_ok di g -> pwp ok (on_list (add_knx k) m) (fun _ => gate_ok di) g.
Proof.
  intros Hm [H1 H2 H3 H4]. apply pwp_on_list. eapply pwp_conseq; [exact Hm|]. intros a s Hs. split; cbn; try done.
  apply Forall_app_2; [done|]. by apply Forall_fmap.
Qed.

Definition has_inputs (path : option string) : bool := match doc_nodes path "/Device/DI/Cell" with Some _ => true | None => false end.

Lemma keyed_result {D} path xpath f (s s' : pst D) r : parse_keyed path xpath f s = Got r s' ->
  r = match doc_nodes path xpath with Some _ => 0 | None => -1 end.
Proof.
  unfold parse_keyed, doc_nodes. destruct path as [p|]; [|by intros [= <- _]]. destruct (xmlReadFile p) as [d|]; [|by intros [= <- _]].
  destruct (XmlGetNode d xpath); [|by intros [= <- _]]. unfold mbind, par_bind. destruct (for_cells _ _ _ _); [|done]. by intros [= <- _].
Qed.

Lemma gate_di path g : gate_ok false g -> pwp ok (flagged set_bDi (on_list add_dio (ParseDiCfg g_Mac path))) (fun _ => gate_ok (has_inputs path)) g.
Proof.
  intros Hg. unfold flagged. apply pwp_bind, pwp_on_list, pwp_any. intros r s E.
  apply keyed_result in E. destruct Hg as [H1 H2 H3 H4].
  unfold has_inputs. destruct (doc_nodes path "/Device/DI/Cell"); subst r; cbn.
  - unfold gmodify, pwp. by split.
  - unfold pwp. by split.
Qed.

Lemma climate_parsed F path g : F ∈ kfamilies ->
  pwp ok (kf_parse F g_Mac now path) (fun _ s => Forall (fun d => knx_dev_ok (KClimate d)) (p_list s)) (PSt [] (ports g) (gheap g)).
Proof.
  intros HF. eapply pwp_conseq; [apply (kfamilies_keep g_Mac now F path []); [done|by exists []]|].
  intros r s (l & El & Hl). rewrite El. eapply Forall_impl; [exact Hl|]. intros d Hd. by exists F.
Qed.

(** What the steps of [main] keep. *)
Ltac other := eapply gate_other; [intros l g'; by split_and!|].
Ltac climate F := eapply gate_knx; [by apply (climate_parsed F), (list_elem_of_lookup_2 kfamilies _)|].

Lemma gate_mbus_cfg path di g : gate_ok di g -> pwp ok (mbus_cfg g_Mac path) (fun _ => gate_ok di) g.
Proof.
  intros Hg. unfold mbus_cfg.
  apply pwp_bind. eapply pwp_conseq; [apply pwp_flagged; [done|]; apply (gate_mbus F_acd); [by apply (list_elem_of_lookup_2 main_families 0)|done]|]. clear g Hg. intros ? g Hg. cbv beta in Hg.
  apply pwp_bind. eapply pwp_conseq; [apply pwp_flagged; [done|]; apply (gate_mbus F_vent); [by apply (list_elem_of_lookup_2 main_families 1)|done]|]. clear g Hg. intros ? g Hg. cbv beta in Hg.
  apply pwp_bind. eapply pwp_conseq; [apply pwp_flagged; [done|]; apply (gate_mbus F_heat); [by apply (list_elem_of_lookup_2 main_families 2)|done]|]. clear g Hg. intros ? g Hg. cbv beta in Hg.
  apply pwp_bind. eapply pwp_conseq; [apply pwp_flagged; [done|]; apply (gate_mbus F_aqi); [by apply (list_elem_of_lookup_2 main_families 3)|done]|]. clear g Hg. intros ? g Hg. cbv beta in Hg.
  apply pwp_flagged; [done|]; apply (gate_mbus F_panel); [by apply (list_elem_of_lookup_2 main_families 4)|done].
Qed.

Lemma gate_knx_cfg path di g : gate_ok di g -> pwp ok (knx_dev_cfg g_Mac now path) (fun _ => gate_ok di) g.
Proof.
  intros Hg. unfold knx_dev_cfg.
  apply pwp_bind. eapply pwp_conseq; [apply pwp_flagged; [done|]; apply gate_knx; [apply (climate_parsed K_acd), (list_elem_of_lookup_2 kfamilies 0); done|done]|]. clear g Hg. intros ? g Hg. cbv beta in Hg.
  apply pwp_bind. eapply pwp_conseq; [apply pwp_flagged; [done|]; apply gate_knx; [apply (climate_parsed K_vent), (list_elem_of_lookup_2 kfamilies 1); done|done]|]. clear g Hg. intros ? g Hg. cbv beta in Hg.
  apply pwp_bind. eapply pwp_conseq; [apply pwp_flagged; [done|]; apply gate_knx; [apply (climate_parsed K_heat), (list_elem_of_lookup_2 kfamilies 2); done|done]|]. clear g Hg. intros ? g Hg. cbv beta in Hg.
  apply pwp_bind. eapply pwp_conseq; [other; exact Hg|]. clear g Hg. intros ? g Hg. cbv beta in Hg.
  apply pwp_bind. eapply pwp_conseq; [apply gate_knx; [|done]; eapply pwp_conseq; [apply panel_parsed|intros r s (l & El & Hl); by rewrite El]|]. clear g Hg. intros ? g Hg. cbv beta in Hg.
  apply pwp_bind. eapply pwp_conseq; [apply gate_knx; [|done]; eapply pwp_conseq; [apply dimmer_parsed|intros r s (l & El & Hl); by rewrite El]|]. clear g Hg. intros ? g Hg. cbv beta in Hg.
  apply pwp_bind. eapply pwp_conseq; [apply gate_knx; [|done]; eapply pwp_conseq; [apply smart_parsed|intros r s (l & El & Hl); by rewrite El]|]. clear g Hg. intros ? g Hg. cbv beta in Hg.
  apply pwp_bind. eapply pwp_conseq; [apply gate_knx; [|done]; eapply pwp_conseq; [apply curtain_parsed|intros r s (l & El & Hl); by rewrite El]|]. clear g Hg. intros ? g Hg. cbv beta in Hg.
  by apply pwp_ret.
Qed.

Lemma gate_main_cfg readable path w h : Forall param_typed (params w) ->
  pwp ok (main_cfg g_Mac now readable path) (fun _ g => gate_ok (has_inputs path) g /\ readable = true) (gate0 w h).
Proof.
  intros Hw. assert (gate_ok false (gate0 w h)) as Hg by by split. unfold main_cfg. apply pwp_bind. unfold gateway_cfg. apply pwp_bind.
  eapply pwp_conseq; [other; exact Hg|]. intros [gw|] g1 H1; [|done]. unfold gmodify at 1. cbn.
  assert (gate_ok false (set_gw (Some gw) g1)) as Hg1 by (by destruct H1; split). generalize dependent (set_gw (Some gw) g1). clear g1 H1 Hg. intros g Hg.
  destruct readable; [|done]. cbn [negb].
  apply pwp_bind. eapply pwp_conseq; [apply pwp_flagged; [done|]; other; exact Hg|]. clear g Hg. intros ? g Hg. cbv beta in Hg.
  apply pwp_bind. eapply pwp_conseq; [by apply gate_mbus_cfg|]. clear g Hg. intros ? g Hg. cbv beta in Hg.
  apply pwp_bind. eapply pwp_conseq; [by apply gate_knx_cfg|]. clear g Hg. intros ? g Hg. cbv beta in Hg.
  apply pwp_bind. eapply pwp_conseq; [apply pwp_flagged; [done|]; apply (gate_mbus F_curtain); [by apply (list_elem_of_lookup_2 main_families 5)|done]|]. clear g Hg. intros ? g Hg. cbv beta in Hg.
  apply pwp_bind. unfold dio_cfg. apply pwp_bind. eapply pwp_conseq; [by apply gate_di|]. clear g Hg. intros ? g Hg. cbv beta in Hg.
  eapply pwp_conseq; [apply pwp_flagged; [done|]; other; exact Hg|]. clear g Hg. intros ? g Hg. cbv beta in Hg.
  apply pwp_bind. unfold group_cfg. apply pwp_bind. eapply pwp_conseq; [other; exact Hg|]. clear g Hg. intros ? g Hg. cbv beta in Hg.
  apply pwp_bind. eapply pwp_conseq; [other; exact Hg|]. clear g Hg. intros ? g Hg. cbv beta in Hg. apply pwp_ret.
  unfold switches. apply pwp_bind, pwp_gread, pwp_bind, pwp_gread, pwp_bind. eapply pwp_conseq; [other; exact Hg|]. intros [z0 z] g1 H1.
  apply pwp_bind. eapply pwp_conseq; [other; exact H1|]. intros [k0 k] g2 [E1 E2 E3 E4]. unfold gmodify, pwp. split; [by split|done].
Qed.

Lemma main_read readable path queues queue w h jobs g :
  Forall param_typed (params w) -> main g_Mac now readable path queues queue (gate0 w h) = Got jobs g ->
  gate_ok (has_inputs path) g /\ jobs = main_jobs queues queue (has_inputs path).
Proof.
  intros Hw E. pose proof (gate_main_cfg readable path w h Hw) as Hp. unfold pwp in Hp. unfold main, mbind, par_bind, gread in E.
  destruct (main_cfg g_Mac now readable path (gate0 w h)) as [[] g1|]; [|done]. injection E as <- <-. destruct Hp as [Hg _].
  split; [done|]. by rewrite (go_di _ _ Hg).
Qed.

Lemma main_families_types n d : mbus_dev_ok n d ->
  el_primaryType (mb_el (md_base d)) <> MODBUS_DEVICE_HUMIDIFIER /\ el_primaryType (mb_el (md_base d)) <> MODBUS_DEVICE_PURIFIER.
Proof.
  intros (f & Hf & [Hb _]). pose proof (et_type _ _ _ _ (bt_element _ _ _ _ Hb)) as Ht. unfold main_families in Hf.
  repeat apply elem_of_cons in Hf as [-> | Hf]; [..|by apply elem_of_nil in Hf]; cbn in Ht;
    repeat apply elem_of_cons in Ht as [-> | Ht]; try done; by apply elem_of_nil in Ht.
Qed.

(** C23: Whatever the configuration holds, when [main] gets through it every Modbus device
    is a well-formed one of an air conditioner, ventilation, floor heating, air sensor,
    panel or curtain and never a humidifier or purifier, whose parsers [main] does not
    call; every KNX device is one its functions can work with; every setting of a port
    is unset or one the line has; and [di_scan] is started exactly when the file has a
    cell of an input. *)
Theorem start_devices (readable : bool) (path : option string) (queues queue : bool) (w : world) (h : heap) (jobs : list entry) (g : gate) :
  Forall param_typed (params w) -> main g_Mac now readable path queues queue (gate0 w h) = Got jobs g ->
  Forall (fun d => mbus_dev_ok (length (params (ports g))) d /\
    el_primaryType (mb_el (md_base d)) <> MODBUS_DEVICE_HUMIDIFIER /\ el_primaryType (mb_el (md_base d)) <> MODBUS_DEVICE_PURIFIER) (pMbusDevList g) /\
  Forall param_typed (params (ports g)) /\ Forall knx_dev_ok (pKnxDevList g) /\
  jobs = main_jobs queues queue (has_inputs path).
Proof.
  intros Hw E. destruct (main_read readable path queues queue w h jobs g Hw E) as [[H1 H2 H3 _] Hj]. split_and!; try done.
  eapply Forall_impl; [exact H1|]. intros d Hd. split; [done|]. by apply main_families_types in Hd.
Qed.
End Read.


(** Without digital inputs a thread is left: as long as what is added besides the
    loops of [main] returns, the pool comes to rest, and only with every job started. *)
Theorem main_pool_serves `{LibXml} (g_Mac : string) (now : Z) (readable : bool) (path : option string) (queues queue key bus : bool)
    (w : world) (h : heap) (jobs later : list entry) (g : gate) (p : thpool_ entry) :
  Forall param_typed (params w) -> main g_Mac now readable path queues queue (gate0 w h) = Got jobs g -> has_inputs path = false ->
  reachable (returns key bus) thpool p -> threads_keepalive p = true -> added p ≡ₚ jobs ++ later ->
  Forall (fun e => returns key bus e = true) later ->
  (exists ts p', inner (returns key bus) ts p p' /\ PoolRuns.quiet (returns key bus) p') /\
  (forall ts p', inner (returns key bus) ts p p' -> PoolRuns.quiet (returns key bus) p' -> started p' = added p).
Proof.
  intros Hw E Hi Hr Hk Ha Hl. destruct (main_read g_Mac now readable path queues queue w h jobs g Hw E) as [_ ->]. rewrite Hi in *.
  destruct (rest_cases (returns key bus) 15 p Hr Hk) as (_ & He & H'). split; [exact He|].
  intros ts p' Hin Hq. destruct (H' ts p' Hin Hq) as (_ & _ & Hs & _). apply Hs.
  rewrite (count_endless_perm _ _ _ Ha), count_endless_app, (count_endless_ends _ later Hl). by destruct key, bus, queues, queue.
Qed.

(** The jobs of [l] added before a thread has its first turn. *)
Definition start (key bus : bool) (l : list entry) : thpool_ entry :=
  default thpool (run_turns (returns key bus) (map (fun e => AddWork e true None) l) thpool).

(** ** A configuration *)

(** The gateway, an air conditioner, a humidifier; with an input or without. *)
Definition start_file (di : bool) : list (string * list (string * list xnode)) := [("cfg.xml", [
  ("/Device/Gateway", [elem "Gateway" [leaf "ProductID" "gw"]]);
  ("/Device/Modbus/AirCondition/Cell", [elem "Cell" [
     leaf "SharedLibrary" "acd.so"; leaf "DeviceAddr" "7"; leaf "Port" "2"; leaf "Baudrate" "9600";
     elem "Switch" [leaf "DataPoint" "101"]; elem "Item" [elem "Cell" [leaf "PrimaryKey" "123"; leaf "RoomNo" "3"]]]]);
  ("/Device/Modbus/Humidifier/Cell", [elem "Cell" [leaf "SharedLibrary" "h.so"; leaf "PrimaryKey" "124"]])]
  ++ (if di then [("/Device/DI/Cell", [elem "Cell" [leaf "PrimaryKey" "125"; leaf "Channel" "1"]])] else []))].
Definition start_world : world := W [] [false; false; false; false] [] [] [].
Definition start_run (di : bool) : pres gate (list entry) :=
  main (H := tree_lib (start_file di)) "AABBCCDDEEFF" 0 true (Some "cfg.xml") true true (gate0 start_world (Heap [] 0)).
Definition start_gate (di : bool) : gate := match start_run di with Got _ g => g | Stopped _ => gate0 start_world (Heap [] 0) end.
Definition start_jobs (di : bool) : list entry := match start_run di with Got l _ => l | Stopped _ => [] end.

Lemma start_devices_witness : length (pMbusDevList (start_gate true)) = 1%nat /\
  Forall (fun d => el_primaryType (mb_el (md_base d)) <> MODBUS_DEVICE_HUMIDIFIER) (pMbusDevList (start_gate true)) /\
  start_jobs true = main_jobs true true true.
Proof.
  destruct (start_devices (H := tree_lib (start_file true)) "AABBCCDDEEFF" 0 true (Some "cfg.xml") true true start_world (Heap [] 0) (start_jobs true) (start_gate true))
    as (H1 & _ & _ & H2); [by constructor|by vm_compute|]. split; [by vm_compute|]. split; [|exact H2].
  eapply Forall_impl; [exact H1|]. intros d (_ & Hd & _). exact Hd.
Defined.

(** The jobs of [l] added before a thread has its first turn. *)
Definition start_pool (l : list entry) : thpool_ entry :=
  default thpool (run_turns (returns true true) (map (fun e => AddWork e true None) l) thpool).


Lemma main_pool_serves_witness :
  exists ts p', inner (returns true true) ts (start_pool (start_jobs false ++ [KNX_DevStateSync])) p' /\ started p' = start_jobs false ++ [KNX_DevStateSync].
Proof.
  assert (reachable (returns true true) thpool (start_pool (start_jobs false ++ [KNX_DevStateSync]))) as Hr.
  { eapply (run_turns_reach _ (map (fun e => AddWork e true None) (start_jobs false ++ [KNX_DevStateSync]))); [constructor|]. by vm_compute. }
  destruct (main_pool_serves (H := tree_lib (start_file false)) "AABBCCDDEEFF" 0 true (Some "cfg.xml") true true true true start_world (Heap [] 0)
    (start_jobs false) [KNX_DevStateSync] (start_gate false) _ ltac:(by constructor) ltac:(by vm_compute) ltac:(by vm_compute) Hr) as [(ts & p' & Hi & Hq) HS];
    [by vm_compute|by vm_compute|by repeat constructor|].
  exists ts, p'. split; [exact Hi|]. rewrite (HS ts p' Hi Hq). by vm_compute.
Defined.
