(* ===== verification/Loader.v ===== *)
(** The loaders of the plugins (source/main.c) and the libraries the build makes of
    plugin/compile/. *)

From Stdlib Require Import Ascii.
From S2P Require Import Prelude CMem CStr Device PluginApi KnxPlugins Registry Serial Xml Cells ParseModbus ParseKnx ParseMisc.

Local Open Scope list_scope.
Local Open Scope string_scope.

Definition DEVICE_LIBRARY_PATH : string := "/opt/smarthome/plugin/".
Definition SHARED_LIBRARY_LENGTH : nat := 64.
Definition PATH_SIZE : nat := 128.

(** [strcpy] and [strncat] into [path]. *)
Definition lib_path (szPlugin : string) : string :=
  DEVICE_LIBRARY_PATH ++ String.substring 0 (Nat.min (PATH_SIZE - String.length DEVICE_LIBRARY_PATH - 1) (String.length szPlugin)) szPlugin.

(** [strchr (dlsymbol, '.')], and [*ptr = 0]. *)
Fixpoint before_dot (s : string) : option string :=
  match s with
  | "" => None
  | String c s => if Ascii.eqb c "." then Some "" else String c <$> before_dot s
  end.
Definition dlsymbol (szPlugin : string) : option string :=
  before_dot (String.substring 0 (Nat.min SHARED_LIBRARY_LENGTH (String.length szPlugin)) szPlugin).

(** What [pIf] leads to: nothing, an interface, an interface of a library that has been
    closed. *)
Inductive pif (I : Type) := Null | Loaded (i : I) | Unmapped (i : I).
Arguments Null {I}.
Arguments Loaded {I}.
Arguments Unmapped {I}.

(** [access], [dlopen] and [dlsym] of the system, with the handles [L]. *)
Record system (L I : Type) := System {
  access : string -> bool;
  dlopen : string -> option L;
  dlsym : L -> string -> option I
}.
Arguments access {L I}.
Arguments dlopen {L I}.
Arguments dlsym {L I}.

Section Load.
Context {L I : Type} (sys : system L I).

(** Up to [dlsym]: [None] leaves the pointer as it is. *)
Definition find_symbol (szPlugin : string) : option (option I) :=
  if negb (access sys (lib_path szPlugin)) then None else
  match dlopen sys (lib_path szPlugin) with
  | None => None
  | Some h => match dlsymbol szPlugin with None => None | Some s => Some (dlsym sys h s) end
  end.

(** One turn of [LoadModbusPlugin] and [LoadKnxPlugin]; [complete] is their last test. *)
Definition load_one (complete : I -> bool) (szPlugin : option string) (pIf : pif I) : pif I :=
  match szPlugin with
  | None => pIf
  | Some s =>
      match find_symbol s with
      | None => pIf
      | Some None => Null
      | Some (Some i) => if complete i then Loaded i else Unmapped i
      end
  end.

(** [LoadZ3Plugin] takes the length of the name without a test. *)
Definition load_z3 (szPlugin : option string) (pZ3 : pif I) : outcome (pif I) :=
  match szPlugin with
  | None => Undef
  | Some s =>
      match find_symbol s with
      | None => Done pZ3
      | Some None => Done Null
      | Some (Some i) => Done (Loaded i)
      end
  end.
End Load.

Definition is_some {A} (o : option A) : bool := match o with Some _ => true | None => false end.
Definition mbus_complete {S} (i : MbusIf S) : bool :=
  negb ((negb (is_some (build i)) && negb (is_some (buildExt i))) || (negb (is_some (parse i)) && negb (is_some (parseExt i)))).
Definition knx_complete (i : KnxIf) : bool := negb (negb (is_some (control i)) || negb (is_some (report i))).

(** The lists after the configuration is read: no pointer is set yet. *)
Definition LoadModbusPlugin {L S} (sys : system L (MbusIf S)) (l : list MbusDev) : list (MbusDev * pif (MbusIf S)) :=
  map (fun d => (d, load_one sys mbus_complete (szPlugin (mb_el (md_base d))) Null)) l.
Definition LoadKnxPlugin {L D} (sys : system L KnxIf) (el : D -> CfgElement) (l : list D) : list (D * pif KnxIf) :=
  map (fun d => (d, load_one sys knx_complete (szPlugin (el d)) Null)) l.
Fixpoint LoadZ3Plugin {L I} (sys : system L I) (l : list Z3Cfg) : outcome (list (Z3Cfg * pif I)) :=
  match l with
  | [] => Done []
  | d :: l => p <-! load_z3 sys (szPlugin (z3_el d)) Null; r <-! LoadZ3Plugin sys l; Done ((d, p) :: r)
  end.

(** ** The libraries

    Each file of plugin/compile/ becomes a library of its name; the second name is that
    of the interface it exports. *)

Definition libs : list (string * string) := [
  ("KNX_Acd_General", "KNX_Acd_General"); ("KNX_Aircondition_STEC", "KNX_Aircondition_STEC");
  ("KNX_Aircondition_Sdk_H8C09", "KNX_Aircondition_Sdk_H8C09"); ("KNX_Aircondition_Water", "KNX_Aircondition_Water");
  ("KNX_FloorHeating_STEC", "KNX_FloorHeating_STEC"); ("KNX_FloorHeating_Sdk_H8C09", "KNX_FloorHeating_Sdk_H8C09");
  ("KNX_Ventilation_STEC", "KNX_Ventilation_STEC"); ("KNX_Ventilation_Sdk_H8C09", "KNX_Ventilation_Sdk_H8C09");
  ("Mbus_AQI_Ohosure", "Mbus_AQI_Ohosure"); ("Mbus_Acd_Daikin_DTA116A621", "Mbus_Acd_Daikin_DTA116A621");
  ("Mbus_Acd_TG_A21MC", "Mbus_Acd_TG_A21MC"); ("Mbus_Acd_ZhongHong", "Mbus_Acd_ZhongHong"); ("Mbus_Curtain_AOK", "Mbus_Curtain_AOK");
  ("Mbus_Curtain_BinThen", "Mbus_Curtain_BinThen"); ("Mbus_Curtain_Changming", "Mbus_Curtain_Changming");
  ("Mbus_Curtain_Dooya", "Mbus_Curtain_Dooya"); ("Mbus_Curtain_HeChuang", "Mbus_Curtain_HeChaung");
  ("Mbus_Heat_Honeywell", "Mbus_Heat_Honeywell"); ("Mbus_Panel_Ohosure", "Mbus_Panel_Ohosure"); ("Mbus_Vent_Broan", "Mbus_Vent_Broan");
  ("Mbus_Vent_Broan_DTouch", "Mbus_Vent_Broan_DTouch"); ("Mbus_Vent_Broan_ERDH", "Mbus_Vent_Broan_ERDH");
  ("Mbus_Vent_Broan_ERDH45_500C", "Mbus_Vent_Broan_ERDH45_500C"); ("Mbus_Vent_Broan_noah", "Mbus_Vent_Broan_noah");
  ("Mbus_Vent_Daikin_DTA116A621", "Mbus_Vent_Daikin_DTA116A621"); ("Mbus_Vent_Dpurat", "Mbus_Vent_Dpurat");
  ("Modbus_FloorHeating_TOWWIRE", "Modbus_FloorHeating_TOWWIRE"); ("Modbus_Humidifier_SPTC", "Modbus_Humidifier_SPTC");
  ("Modbus_Purifier", "Modbus_Purifier"); ("Modbus_Ventilation_BROAN", "Modbus_Ventilation_BROAN");
  ("Modbus_Ventilation_TuoLi_TLCAA301R", "Modbus_Ventilation_TuoLi_TLCAA301R");
  ("knx_acd_panel", "knx_acd_panel"); ("knx_heat_panel", "knx_heat_panel"); ("knx_vent_panel", "knx_vent_panel")].

(** ** Names *)

Fixpoint no_dot (s : string) : bool := match s with "" => true | String c s => negb (Ascii.eqb c ".") && no_dot s end.

Lemma substring_all s n : (String.length s <= n)%nat -> String.substring 0 n s = s.
Proof. revert n. induction s as [|c s IH]; intros [|n] H; cbn in *; try done; try lia. by rewrite IH by lia. Qed.

Lemma before_dot_name f n s : no_dot f = true -> (String.length f < n)%nat -> before_dot (String.substring 0 n (f ++ String "." s)) = Some f.
Proof.
  revert n. induction f as [|c f IH]; intros [|n] Hf Hn; try (cbn in Hn; lia); [done|].
  cbn in Hf, Hn. apply andb_true_iff in Hf as [Hc Hf].
  change (String.substring 0 (S n) (String c f +:+ String "." s)) with (String c (String.substring 0 n (f +:+ String "." s))).
  cbn [before_dot]. destruct (Ascii.eqb c "."); [done|]. by rewrite IH by (done || lia).
Qed.

Lemma dlsymbol_name f : no_dot f = true -> (String.length f < SHARED_LIBRARY_LENGTH)%nat -> dlsymbol (f ++ ".so") = Some f.
Proof.
  intros Hf Hn. unfold dlsymbol. apply before_dot_name; [done|]. rewrite string_length_app. unfold SHARED_LIBRARY_LENGTH in *.
  change (String.length ".so") with 3%nat. lia.
Qed.

Lemma lib_path_name f : (String.length f < SHARED_LIBRARY_LENGTH)%nat -> lib_path (f ++ ".so") = DEVICE_LIBRARY_PATH ++ f ++ ".so".
Proof.
  intros Hn. unfold lib_path. f_equal. apply substring_all.
  assert (PATH_SIZE - String.length DEVICE_LIBRARY_PATH - 1 = 105)%nat as -> by done.
  rewrite string_length_app. unfold SHARED_LIBRARY_LENGTH in Hn. change (String.length ".so") with 3%nat. lia.
Qed.

(** ** What is loaded *)

(** A system that holds the libraries [ls], each with one interface [i]. *)
Definition installed {I} (ls : list (string * string)) (i : string -> I) (sys : system string I) : Prop :=
  forall f e, (f, e) ∈ ls ->
    access sys (DEVICE_LIBRARY_PATH ++ f ++ ".so") = true /\ dlopen sys (DEVICE_LIBRARY_PATH ++ f ++ ".so") = Some f /\
    forall s, dlsym sys f s = if String.eqb s e then Some (i e) else None.

Lemma load_installed {I} ls (i : string -> I) (sys : system string I) complete f e p :
  installed ls i sys -> (f, e) ∈ ls -> no_dot f = true -> (String.length f < SHARED_LIBRARY_LENGTH)%nat ->
  load_one sys complete (Some (f ++ ".so")) p =
    if String.eqb f e then (if complete (i e) then Loaded (i e) else Unmapped (i e)) else Null.
Proof.
  intros Hs Hin Hd Hl. destruct (Hs f e Hin) as (Ha & Ho & Hy). unfold load_one, find_symbol.
  rewrite lib_path_name, Ha, Ho, dlsymbol_name, Hy by done. cbn [negb]. by destruct (String.eqb f e).
Qed.

Lemma libs_names : Forall (fun l => no_dot l.1 = true /\ (String.length l.1 < SHARED_LIBRARY_LENGTH)%nat /\
  (String.eqb l.1 l.2 = negb (String.eqb l.1 "Mbus_Curtain_HeChuang"))) libs.
Proof. repeat constructor; vm_compute; lia. Qed.


(** A system with the libraries, all with the interface of one plugin. *)
Definition lib_sys : system string (MbusIf unit) := {|
  access _ := true;
  dlopen p := Some (String.substring 22 (String.length p - 25) p);
  dlsym f s := match List.find (fun l => String.eqb l.1 f) libs with
    | Some l => if String.eqb s l.2 then Some Mbus_Vent_Dpurat else None
    | None => None
    end
|}.

Lemma lib_sys_installed : installed libs (fun _ => Mbus_Vent_Dpurat) lib_sys.
Proof.
  assert (Forall (fun l => dlopen lib_sys (DEVICE_LIBRARY_PATH ++ l.1 ++ ".so") = Some l.1 /\ List.find (fun k => String.eqb k.1 l.1) libs = Some l) libs) as H
    by (repeat constructor).
  intros f e Hin. rewrite Forall_forall in H. destruct (H _ Hin) as [H1 H2]. split_and!; [done|exact H1|].
  intros s. cbn [dlsym lib_sys]. cbn [fst] in H2. by rewrite H2.
Qed.

Definition curtain_named (f : string) : MbusDev :=
  MDev (MCfg (set_szPlugin (Some (f ++ ".so")) El0) 0 0 0 true true false false None) [].

