(* ===== verification/ThreadDog.v ===== *)
(** The thread that reads the bus and the dog that restarts it (source/knxHandle.c),
    over the thread pool.

    [KNX_BusMonitorEntry] works off what the connection gives it, one answer of
    [select] after the other; whenever it returns it has closed the connection and put
    its entry of [threadDog] into the queue of the dog.  The second part lets the
    threads of the pool, the monitor and the dog take turns in any order. *)

From stdpp Require Import gmap fin_maps.
From S2P Require Import Prelude CMem KnxAddr KnxPacket KnxBus ThreadPool PoolRules PoolRuns Startup.

Local Open Scope Z_scope.

(** ** The monitor of the bus *)

(** What one pass of the loop meets: a call that fails, no whole packet yet, a packet. *)
Inductive answer := SelectFails | PollFails | NoPacket | GetFails | Packet (knxBuf : string) (now : Z).
(** The connections that are open and the entries put for the dog. *)
Record monitor := Monitor { m_bus : env bus; m_open : Z; m_posts : Z }.

Definition EIBSocketURL : C monitor unit := fun s => Done (tt, Monitor (m_bus s) (m_open s + 1) (m_posts s)).
Definition EIBClose : C monitor unit := fun s => Done (tt, Monitor (m_bus s) (m_open s - 1) (m_posts s)).
Definition tell_dog : C monitor unit := fun s => Done (tt, Monitor (m_bus s) (m_open s) (m_posts s + 1)).
Definition on_bus {A} (m : C (env bus) A) : C monitor A := fun s =>
  match m (m_bus s) with Done (a, e) => Done (a, Monitor e (m_open s) (m_posts s)) | Undef => Undef end.

(** [true]: the loop is left. *)
Fixpoint monitor_loop (l : list answer) : C monitor bool :=
  match l with
  | [] => mret false
  | NoPacket :: l => monitor_loop l
  | Packet knxBuf now :: l => go ← on_bus (bus_turn knxBuf now); if go : bool then monitor_loop l else mret true
  | _ :: _ => mret true
  end.
(** [connect], [vbus]: the connection and the monitor could be opened; [true]: the
    function returned. *)
Definition KNX_BusMonitorEntry_run (connect vbus : bool) (l : list answer) : C monitor bool :=
  if negb connect then _ ← tell_dog; mret true else
  _ ← EIBSocketURL;
  if negb vbus then _ ← EIBClose; _ ← tell_dog; mret true else
  crashed ← monitor_loop l;
  if (crashed : bool) then _ ← EIBClose; _ ← tell_dog; mret true else mret false.

Lemma loop_frame l s r s' : monitor_loop l s = Done (r, s') -> m_open s' = m_open s /\ m_posts s' = m_posts s.
Proof.
  revert s. induction l as [|[]]; intros s E; cbn [monitor_loop] in E; try (by injection E as <- <-); [by apply IHl|].
  apply bind_inv in E as (go & s1 & E1 & E). unfold on_bus in E1. destruct (bus_turn _ _ _) as [[a e]|]; [|done]. injection E1 as <- <-.
  destruct a; [by apply IHl in E|by injection E as <- <-].
Qed.

(** Each run of the monitor that returns has closed what it opened and told the dog
    once; one that still runs holds one connection and has told nothing. *)
Lemma monitor_returns connect vbus l s r s' : KNX_BusMonitorEntry_run connect vbus l s = Done (r, s') ->
  m_open s' = m_open s + (if r then 0 else 1) /\ m_posts s' = m_posts s + (if r then 1 else 0).
Proof.
  unfold KNX_BusMonitorEntry_run. destruct connect; cbn [negb]; [|intros [= <- <-]; cbn; lia].
  intros (u & s1 & [= _ <-] & E)%bind_inv. destruct vbus; cbn [negb] in E; [|injection E as <- <-; cbn; lia].
  apply bind_inv in E as (c & s2 & E2 & E). apply loop_frame in E2 as [H1 H2]. cbn in H1, H2.
  destruct c; injection E as <- <-; cbn; lia.
Qed.

(** ** The dog *)

Definition THREAD_NO_KNX_BUS_MONITOR : Z := 1.
Definition THREAD_NO_KNX_DEV_MONITOR : Z := 2.
Definition THREAD_NO_KNX_DEV_WRITE : Z := 3.

(** [hThpool]: whether the member holds the pool; [KnxInit] stores it three times into
    the first entry. *)
Record ThreadDog_t := Dog { id : Z; name : string; hThpool : bool }.
Definition threadDog : list ThreadDog_t := [
  Dog THREAD_NO_KNX_BUS_MONITOR "KNX_BusMonitorEntry" true;
  Dog THREAD_NO_KNX_DEV_MONITOR "KNX_DevMonitorEntry" false;
  Dog THREAD_NO_KNX_DEV_WRITE "KNX_DevWriteEntry" false].
Definition DOG_QUEUE_SIZE : nat := 10.

(** The job the dog adds for an entry; the pool it is added to must be there. *)
Definition dog_job (d : ThreadDog_t) : option entry :=
  if id d =? THREAD_NO_KNX_BUS_MONITOR then Some KNX_BusMonitorEntry
  else if id d =? THREAD_NO_KNX_DEV_MONITOR then Some KNX_DevMonitorEntry
  else if id d =? THREAD_NO_KNX_DEV_WRITE then Some KNX_DevWriteEntry
  else None.

(** ** The pool, the monitor and the dog

    [dogs]: what is in [pDogQueue], as places in [threadDog]; [hand]: what the dog took
    and sleeps over; [leaving]: the blocks of the monitors that have told the dog and
    have not returned to the pool; [lost]: entries and jobs that found no room;
    [booted]: [KnxInit] has added the monitor. *)
Record sys := Sys {
  pool : thpool_ entry;
  dogs : list nat;
  hand : option nat;
  leaving : list nat;
  lost : nat;
  booted : bool
}.

(** [ok]: memory for the entry of the queue, or for the job, could be allocated. *)
Inductive sturn :=
| PoolTurn (t : ThreadPool.turn entry)
| KnxAdds (ok : bool) (w : option nat)
| BusEnds (b : nat) (ok : bool)
| DogGets
| DogAdds (ok : bool) (w : option nat).

#[export] Instance entry_eq : EqDecision entry.
Proof. solve_decision. Defined.
#[export] Instance thread_eq : EqDecision (thread entry).
Proof. solve_decision. Defined.

Section Sys.
Variable key : bool.
Local Notation ends := (returns key false).

Definition runs (b : nat) (e : entry) (p : thpool_ entry) : bool := bool_decide (Run b e ∈ threads p).
Definition dog_awake (p : thpool_ entry) : bool := existsb (fun t => match t with Run _ ThreadDogEntry => true | _ => false end) (threads p).

(** A turn of the pool: only the dog and [KnxInit] add the monitor, and its job goes on
    to its end when it has told the dog. *)
Definition sys_enabled (t : sturn) (s : sys) : bool :=
  match t with
  | PoolTurn t =>
      enabled ends t (pool s) &&
      match t with
      | AddWork e _ _ => negb (bool_decide (e = KNX_BusMonitorEntry))
      | Step i _ => match threads (pool s) !! i with Some (Run b KNX_BusMonitorEntry) => bool_decide (b ∈ leaving s) | _ => true end
      | _ => true
      end
  | KnxAdds ok w => negb (booted s) && (negb ok || wake_ok w (threads (pool s)))
  | BusEnds b _ => runs b KNX_BusMonitorEntry (pool s) && negb (bool_decide (b ∈ leaving s))
  | DogGets => dog_awake (pool s) && bool_decide (hand s = None) && bool_decide (dogs s <> [])
  | DogAdds ok w => bool_decide (hand s <> None) && (negb ok || wake_ok w (threads (pool s)))
  end.

(** A turn that finds no memory. *)
Definition no_memory (t : sturn) : bool :=
  match t with KnxAdds ok _ | BusEnds _ ok | DogAdds ok _ => negb ok | _ => false end.

(** The block of a job that ends with this turn. *)
Definition ending (t : ThreadPool.turn entry) (p : thpool_ entry) : option nat :=
  match t with Step i _ => match threads p !! i with Some (Run b KNX_BusMonitorEntry) => Some b | _ => None end | _ => None end.

Definition add_monitor (ok : bool) (w : option nat) (s : sys) (k : thpool_ entry -> nat -> sys) : outcome sys :=
  match thpool_add_work KNX_BusMonitorEntry ok w (pool s) with
  | Done (r, p) => Done (k p (if r =? 0 then lost s else S (lost s)))
  | Undef => Undef
  end.
Definition sys_run (t : sturn) (s : sys) : outcome sys :=
  match t with
  | PoolTurn t =>
      match run_turn t (pool s) with
      | Done (_, p) => Done (Sys p (dogs s) (hand s) (match ending t (pool s) with Some b => filter (fun c => c <> b) (leaving s) | None => leaving s end) (lost s) (booted s))
      | Undef => Undef
      end
  | KnxAdds ok w => add_monitor ok w s (fun p n => Sys p (dogs s) (hand s) (leaving s) n true)
  | BusEnds b ok =>
      if ok && (length (dogs s) <? DOG_QUEUE_SIZE)%nat then Done (Sys (pool s) (dogs s ++ [0%nat]) (hand s) (leaving s ++ [b]) (lost s) (booted s))
      else Done (Sys (pool s) (dogs s) (hand s) (leaving s ++ [b]) (S (lost s)) (booted s))
  | DogGets =>
      match dogs s with d :: q => Done (Sys (pool s) q (Some d) (leaving s) (lost s) (booted s)) | [] => Undef end
  | DogAdds ok w =>
      match hand s with
      | None => Undef
      | Some d =>
          match threadDog !! d with
          | None => Undef
          | Some dog =>
              if negb (hThpool dog) then Undef else
              match dog_job dog with
              | Some KNX_BusMonitorEntry => add_monitor ok w s (fun p n => Sys p (dogs s) None (leaving s) n (booted s))
              | _ => Undef
              end
          end
      end
  end.

Definition sys0 : sys := Sys thpool [] None [] 0 false.
Inductive sys_reachable : sys -> Prop :=
| sys_start : sys_reachable sys0
| sys_turn t s s' : sys_reachable s -> sys_enabled t s = true -> sys_run t s = Done s' -> sys_reachable s'.

(** Where the one monitor is: waiting for a thread, on the bus, asked back. *)
Definition monitors (l : list entry) : nat := length (filter (fun e => e = KNX_BusMonitorEntry) l).
Definition waiting (s : sys) : nat := monitors (drop (length (started (pool s))) (added (pool s))).
Definition watching (s : sys) : nat :=
  length (filter (fun r => r.2 = KNX_BusMonitorEntry /\ r.1 ∉ leaving s) (running (threads (pool s)))).
Definition asked (s : sys) : nat := length (dogs s) + match hand s with Some _ => 1 | None => 0 end.
Definition unbooted (s : sys) : nat := if booted s then 0 else 1.

(** ** The monitor is kept *)

Lemma monitors_app l1 l2 : monitors (l1 ++ l2) = (monitors l1 + monitors l2)%nat.
Proof. unfold monitors. by rewrite filter_app, length_app. Qed.

Lemma monitors_one e : monitors [e] = if decide (e = KNX_BusMonitorEntry) then 1%nat else 0%nat.
Proof. unfold monitors. rewrite filter_cons. by destruct (decide _). Qed.

Lemma monitors_perm l1 l2 : l1 ≡ₚ l2 -> monitors l1 = monitors l2.
Proof. intros Hp. unfold monitors. by rewrite Hp. Qed.

Lemma filter_remove (l : list nat) b : NoDup l -> b ∈ l -> length l = S (length (filter (fun c => c <> b) l)).
Proof.
  intros Hn Hb. change (S (length ?k)) with (length (b :: k)). apply Permutation_length, NoDup_Permutation; [done| |].
  - apply NoDup_cons. split; [by intros [? _]%list_elem_of_filter|by apply NoDup_filter].
  - intros c. rewrite elem_of_cons, list_elem_of_filter. destruct (decide (c = b)) as [->|]; naive_solver.
Qed.

Lemma filter_firsts {A} (P : nat * A -> Prop) `{forall x, Decision (P x)} (l : list (nat * A)) : NoDup l.*1 -> NoDup (filter P l).*1.
Proof.
  intros Hn. apply (sublist_NoDup _ l.*1); [done|]. clear Hn. induction l as [|x l IH]; [done|]. rewrite filter_cons.
  destruct (decide (P x)); cbn; by constructor.
Qed.

(** What a turn of the pool adds to the log. *)
Lemma turn_added t p p' : good ends p -> enabled ends t p = true -> run_turn t p = Done (tt, p') ->
  added p' = added p ++ match t with AddWork e true _ => [e] | _ => [] end.
Proof.
  intros Hg He E. destruct t as [e ok w|i w|i| | | | |]; rewrite ?app_nil_r.
  - cbn in E. apply bind_inv in E as (r & q & E & [= <-]). destruct ok; cbn in He; [|injection E as <- <-; by rewrite app_nil_r].
    pose proof (add_room ends p e w _ Hg E) as Hmax. destruct (good_add ends p e w Hg He Hmax) as (p2 & E2 & _ & _ & H2 & _).
    rewrite E in E2. by injection E2 as -> ->.
  - by destruct (step_internal ends (Step i w) p p' Hg eq_refl He E).
  - by injection E as <-.
  - by injection E as <-.
  - by destruct (step_internal ends WaitTurn p p' Hg eq_refl He E).
  - by injection E as <-.
  - by injection E as <-.
  - by injection E as <-.
Qed.

Record sys_ok (s : sys) : Prop := {
  s_pool : good ends (pool s);
  s_dogs : Forall (fun d => d = 0%nat) (dogs s);
  s_hand : forall d, hand s = Some d -> d = 0%nat;
  s_nodup : NoDup (leaving s);
  s_leaving : forall b, b ∈ leaving s -> Run b KNX_BusMonitorEntry ∈ threads (pool s);
  s_count : (monitors (added (pool s)) + asked s + lost s + unbooted s = 1 + monitors (finished (pool s)) + length (leaving s))%nat
}.

Lemma add_kept ok w p r p' : good ends p -> negb ok || wake_ok w (threads p) = true ->
  thpool_add_work KNX_BusMonitorEntry ok w p = Done (r, p') ->
  good ends p' /\ r = (if ok then 0 else -1) /\ monitors (added p') = (monitors (added p) + (if ok then 1 else 0))%nat /\
  finished p' = finished p /\ (forall b j, Run b j ∈ threads p -> Run b j ∈ threads p').
Proof.
  intros Hg He E. destruct ok; cbn in He; [|injection E as <- <-; split_and!; try done; lia].
  pose proof (add_room ends p _ w _ Hg E) as Hmax.
  destruct (good_add ends p KNX_BusMonitorEntry w Hg He Hmax) as (p2 & E2 & Hg2 & Ht & Ha & _ & Hf & _).
  rewrite E in E2. injection E2 as -> ->. split_and!; try done.
  - by rewrite Ha, monitors_app, monitors_one.
  - intros b j [i Hi]%list_elem_of_lookup. apply list_elem_of_lookup. exists i. rewrite Ht. by apply wake_lookup.
Qed.

(** A job that a turn ends. *)
Lemma ending_finishes t p p' b : run_turn t p = Done (tt, p') -> ending t p = Some b -> finished p' = finished p ++ [KNX_BusMonitorEntry].
Proof.
  destruct t as [|i w| | | | | |]; try done. unfold run_turn, ending. intros (l & q & [= <- <-] & E)%bind_inv.
  destruct (threads p !! i) as [[| | | | | | |c []| | |]|]; try done. intros _. unfold thread_do in E.
  apply bind_inv in E as ([] & q & [= <-] & E). apply bind_inv in E as ([] & q & E1 & [= <-]). unfold free in E1. cbn in E1.
  destruct (blocks p !! c); [|done]. by injection E1 as <-.
Qed.

Lemma pool_turn_kept t s s' : sys_ok s -> sys_enabled (PoolTurn t) s = true -> sys_run (PoolTurn t) s = Done s' -> sys_ok s'.
Proof.
  intros [Hg Hd Hh Hn Hl Hc] He E. cbn in He, E. apply andb_true_iff in He as [He Hx].
  destruct (run_turn t (pool s)) as [[[] p']|] eqn:Et; [|done]. injection E as <-.
  pose proof (good_turn ends t _ _ Hg He Et) as Hg'. pose proof (turn_added t _ _ Hg He Et) as Ha.
  assert (monitors (added p') = monitors (added (pool s))) as Hm.
  { rewrite Ha, monitors_app. destruct t as [e ok w| | | | | | |]; try (cbn; lia). destruct ok; [|cbn; lia].
    rewrite monitors_one. by destruct (decide _); [rewrite bool_decide_true in Hx|lia]. }
  destruct (turn_finished ends t _ _ Hg He Et) as [[Hf Hr]|(i & w & b & j & -> & Hi & Hf & Ht)].
  - assert (ending t (pool s) = None) as ->.
    { destruct (ending t (pool s)) as [b|] eqn:Ee; [|done]. pose proof (ending_finishes _ _ _ _ Et Ee) as H. rewrite Hf in H.
      apply (f_equal length) in H. rewrite length_app in H. cbn in H. lia. }
    split; cbn; try done; [|by rewrite Hm, Hf]. intros b Hb. apply Hl, list_elem_of_lookup in Hb as [k Hk]. apply list_elem_of_lookup. exists k. by apply Hr.
  - assert (forall c, c ∈ leaving s -> c <> b \/ j <> KNX_BusMonitorEntry -> Run c KNX_BusMonitorEntry ∈ threads p') as Hstay.
    { intros c Hcl Hne. apply Hl, list_elem_of_lookup in Hcl as [k Hk]. apply list_elem_of_lookup. exists k.
      rewrite Ht, list_lookup_insert_ne; [done|]. intros ->. rewrite Hi in Hk. injection Hk as -> ->. naive_solver. }
    cbn in Hx. rewrite Hi in Hx. cbn [ending]. rewrite Hi. destruct (decide (j = KNX_BusMonitorEntry)) as [->|Hj].
    + apply bool_decide_eq_true in Hx. pose proof (filter_remove _ _ Hn Hx) as Hlen.
      split; cbn; try done; [by apply NoDup_filter|intros c [Hcb Hcl]%list_elem_of_filter; apply Hstay; auto|].
      rewrite Hm, Hf, monitors_app, monitors_one, decide_True by done. unfold asked, unbooted in *. cbn. lia.
    + assert (match j with KNX_BusMonitorEntry => Some b | _ => None end = None) as -> by by destruct j.
      split; cbn; try done; [auto|]. rewrite Hm, Hf, monitors_app, monitors_one, decide_False by done. unfold asked, unbooted in *. cbn. lia.
Qed.

Lemma sys_ok_turn t s s' : sys_ok s -> sys_enabled t s = true -> sys_run t s = Done s' -> sys_ok s'.
Proof.
  intros Hok He E. destruct t as [t|ok w|b ok| |ok w]; [by eapply pool_turn_kept|..]; destruct Hok as [Hg Hd Hh Hn Hl Hc]; cbn in He, E.
  - apply andb_true_iff in He as [Hb He]. unfold add_monitor in E.
    destruct (thpool_add_work _ ok w (pool s)) as [[r p]|] eqn:Ea; [|done]. injection E as <-.
    destruct (add_kept ok w _ _ _ Hg He Ea) as (Hg' & -> & Hm & Hf & Hr).
    split; cbn; try done; [intros b Hbl; by apply Hr, Hl|]. rewrite Hm, Hf. unfold asked, unbooted in *. cbn in *.
    destruct (booted s); [done|]. destruct ok; cbn in *; lia.
  - apply andb_true_iff in He as [Hr Hb]. apply negb_true_iff, bool_decide_eq_false in Hb. apply bool_decide_eq_true in Hr.
    assert (NoDup (leaving s ++ [b])) as Hn'.
    { apply NoDup_app. split_and!; [done| |apply NoDup_singleton]. intros c Hcl ->%list_elem_of_singleton. done. }
    assert (forall c, c ∈ leaving s ++ [b] -> Run c KNX_BusMonitorEntry ∈ threads (pool s)) as Hl'.
    { intros c [?| ->%list_elem_of_singleton]%elem_of_app; auto. }
    destruct (ok && _); injection E as <-; split; cbn; try done.
    + apply Forall_app. by repeat constructor.
    + unfold asked, unbooted in *. cbn. rewrite !length_app. cbn. lia.
    + unfold asked, unbooted in *. cbn. rewrite !length_app. cbn. lia.
  - apply andb_true_iff in He as [[_ Hn0]%andb_true_iff Hq]. apply bool_decide_eq_true in Hn0. destruct (dogs s) as [|d q] eqn:Ed; [done|]. injection E as <-.
    apply Forall_cons in Hd as [-> Hd]. split; cbn; try done; [by intros ? [= <-]|]. unfold asked, unbooted in *. cbn. rewrite Ed, Hn0 in Hc. cbn in Hc. lia.
  - apply andb_true_iff in He as [Hn0 He]. destruct (hand s) as [d|] eqn:Eh; [|done]. rewrite (Hh d eq_refl) in E. cbn in E.
    unfold add_monitor in E. destruct (thpool_add_work _ ok w (pool s)) as [[r p]|] eqn:Ea; [|done]. injection E as <-.
    destruct (add_kept ok w _ _ _ Hg He Ea) as (Hg' & -> & Hm & Hf & Hr).
    split; cbn; try done; [intros b Hbl; by apply Hr, Hl|]. rewrite Hm, Hf. unfold asked, unbooted in *. rewrite Eh in Hc. cbn in *.
    destruct ok; cbn in *; lia.
Qed.

Lemma sys_ok_reachable s : sys_reachable s -> sys_ok s.
Proof.
  induction 1 as [|t s s' _ IH He E]; [|by eapply sys_ok_turn]. split; cbn; try done; [apply good_init|by constructor|by intros ? ?%elem_of_nil].
Qed.

(** The monitor that was added is waiting, running or finished. *)
Lemma monitors_where s : sys_ok s ->
  (monitors (added (pool s)) = waiting s + (watching s + length (leaving s)) + monitors (finished (pool s)))%nat.
Proof.
  intros [[[ds Hok] _] _ _ Hn Hl _]. set (l := running (threads (pool s))) in *.
  pose proof (p_added _ _ _ Hok) as Ha. pose proof (p_started _ _ _ Hok) as Hs. fold l in Hs.
  unfold waiting. rewrite Ha at 2. rewrite drop_app_length. rewrite Ha, monitors_app, (monitors_perm _ _ Hs), monitors_app.
  assert (monitors l.*2 = (watching s + length (leaving s))%nat) as ->; [|lia].
  assert (NoDup l.*1) as Hnl by (destruct (p_heap _ _ _ Hok) as [_ Hh _]; by apply NoDup_app in Hh as (_ & _ & Hh)).
  assert (leaving s ≡ₚ (filter (fun r => r.2 = KNX_BusMonitorEntry /\ r.1 ∈ leaving s) l).*1) as Hp.
  { apply NoDup_Permutation; [done|by apply filter_firsts|].
    intros b. rewrite list_elem_of_fmap. setoid_rewrite list_elem_of_filter. split.
    - intros Hb. exists (b, KNX_BusMonitorEntry). split_and!; [done..|by apply running_member, Hl].
    - intros ([c e] & -> & [_ Hb] & _). exact Hb. }
  rewrite Hp, length_fmap. unfold watching, monitors. fold l. clear. induction l as [|[b e] l IH]; [done|].
  rewrite fmap_cons, !filter_cons. cbn [fst snd]. repeat case_decide; cbn [length]; try lia; naive_solver.
Qed.
Lemma monitor_kept s : sys_reachable s -> (waiting s + watching s + asked s + lost s + unbooted s = 1)%nat.
Proof. intros Hr%sys_ok_reachable. pose proof (monitors_where s Hr). pose proof (s_count s Hr). lia. Qed.

(** A monitor on the bus finds the queue of the dog empty. *)
Lemma watching_runs b s : runs b KNX_BusMonitorEntry (pool s) = true -> b ∉ leaving s -> (1 <= watching s)%nat.
Proof.
  intros Hr%bool_decide_eq_true Hb. unfold watching. apply running_member, list_elem_of_split in Hr as (l1 & l2 & ->).
  rewrite filter_app, filter_cons, decide_True by done. rewrite length_app. cbn [length]. lia.
Qed.

Lemma nothing_lost s t s' : sys_reachable s -> sys_enabled t s = true -> sys_run t s = Done s' -> lost s' <> lost s -> no_memory t = true.
Proof.
  intros Hr He E Hl. pose proof (sys_ok_reachable s Hr) as [Hg _ _ _ _ _].
  destruct t as [t|ok w|b ok| |ok w]; cbn in He, E |- *.
  - destruct (run_turn t (pool s)) as [[[] p']|]; [|done]. by injection E as <-.
  - apply andb_true_iff in He as [_ He]. unfold add_monitor in E.
    destruct (thpool_add_work _ ok w (pool s)) as [[r p]|] eqn:Ea; [|done]. injection E as <-.
    destruct (add_kept ok w _ _ _ Hg He Ea) as (_ & -> & _). by destruct ok.
  - destruct ok; [|done]. apply andb_true_iff in He as [Hb Hn]. apply negb_true_iff, bool_decide_eq_false in Hn.
    pose proof (watching_runs b s Hb Hn). pose proof (monitor_kept s Hr) as H1. unfold asked in H1.
    destruct (dogs s); [by injection E as <-|cbn in H1; lia].
  - destruct (dogs s); [done|]. by injection E as <-.
  - apply andb_true_iff in He as [_ He]. destruct (hand s); [|done]. destruct (threadDog !! n); [|done].
    destruct (hThpool _); [|done]. destruct (dog_job _) as [[]|]; try done. unfold add_monitor in E.
    destruct (thpool_add_work _ ok w (pool s)) as [[r p]|] eqn:Ea; [|done]. injection E as <-.
    destruct (add_kept ok w _ _ _ Hg He Ea) as (_ & -> & _). by destruct ok.
Qed.

Lemma add_defined ok w p : good ends p -> negb ok || wake_ok w (threads p) = true -> len (ThreadPool.queue p) < INT_MAX ->
  exists r p', thpool_add_work KNX_BusMonitorEntry ok w p = Done (r, p').
Proof.
  intros Hg He Hm. destruct ok; [|by do 2 eexists]. destruct (good_add ends p KNX_BusMonitorEntry w Hg He Hm) as (p' & E & _). by exists 0, p'.
Qed.

Lemma sys_defined s t : sys_reachable s -> sys_enabled t s = true -> len (ThreadPool.queue (pool s)) < INT_MAX -> exists s', sys_run t s = Done s'.
Proof.
  intros Hr He Hm. pose proof (sys_ok_reachable s Hr) as [Hg _ Hh _ _ _].
  destruct t as [t|ok w|b ok| |ok w]; cbn in He |- *.
  - apply andb_true_iff in He as [He _]. destruct (turn_defined ends t _ Hg He ltac:(done)) as [p' ->]. by eexists.
  - apply andb_true_iff in He as [_ He]. unfold add_monitor. destruct (add_defined ok w _ Hg He Hm) as (r & p' & ->). by eexists.
  - case_match; by eexists.
  - apply andb_true_iff in He as [_ Hq]. apply bool_decide_eq_true in Hq. destruct (dogs s); [done|by eexists].
  - apply andb_true_iff in He as [H0 He]. destruct (hand s) as [d|]; [|done]. rewrite (Hh d eq_refl). cbn.
    unfold add_monitor. destruct (add_defined ok w _ Hg He Hm) as (r & p' & ->). by eexists.
Qed.

(** C22: From the moment [KnxInit] has added it there is one monitor of the bus, in
    whatever order the threads, the monitor and the dog take turns: it waits for a
    thread, is on the bus, is asked back by an entry in the queue or the hand of the
    dog, or it is lost; and it is lost only where no memory is left for an entry of
    the queue or a job: the queue of the dog is never full, and the dog, though only
    the first entry of [threadDog] holds the pool, never touches another. *)
Theorem bus_monitor_kept (s : sys) : sys_reachable s ->
  (waiting s + watching s + asked s + lost s + unbooted s = 1)%nat /\
  (forall t s', sys_enabled t s = true -> sys_run t s = Done s' -> lost s' <> lost s -> no_memory t = true) /\
  (forall t, sys_enabled t s = true -> len (ThreadPool.queue (pool s)) < INT_MAX -> exists s', sys_run t s = Done s').
Proof.
  intros Hr. split_and!; [by apply monitor_kept|intros t s'; by apply nothing_lost|intros t; by apply sys_defined].
Qed.
End Sys.

(** ** A run *)

Definition sys_turns (key : bool) (ts : list sturn) (s : sys) : option sys :=
  foldl (fun o t => s ← o; if sys_enabled key t s then match sys_run t s with Done s' => Some s' | Undef => None end else None) (Some s) ts.

Lemma sys_turns_none key ts : foldl (fun o t => s ← o; if sys_enabled key t s then match sys_run t s with Done s' => Some s' | Undef => None end else None) None ts = None.
Proof. by induction ts. Qed.

Lemma sys_turns_reach key ts s s' : sys_reachable key s -> sys_turns key ts s = Some s' -> sys_reachable key s'.
Proof.
  unfold sys_turns. revert s. induction ts as [|t ts IH]; intros s Hr E; [by injection E as <-|]. cbn [foldl] in E.
  change (Some s ≫= ?f) with (f s) in E. cbn beta in E. destruct (sys_enabled key t s) eqn:He; [|by rewrite sys_turns_none in E].
  destruct (sys_run t s) as [s1|] eqn:E1; [|by rewrite sys_turns_none in E]. apply (IH s1); [by eapply sys_turn|exact E].
Qed.

(** The first thread is the dog's, the second the monitor's; the monitor tells the dog
    and the dog takes its entry. *)
Definition dog_turns : list sturn :=
  [PoolTurn (AddWork ThreadDogEntry true None); KnxAdds true None] ++
  replicate 6 (PoolTurn (Step 0 None)) ++ replicate 6 (PoolTurn (Step 1 None)) ++
  [BusEnds 1 true; DogGets; PoolTurn (Step 1 None)].
Definition dog_state : sys := default sys0 (sys_turns true dog_turns sys0).

Lemma bus_monitor_kept_witness : sys_reachable true dog_state /\ hand dog_state = Some 0%nat /\ leaving dog_state = [] /\
  waiting dog_state = 0%nat /\ exists s', sys_run (DogAdds true None) dog_state = Done s' /\ waiting s' = 1%nat.
Proof.
  assert (sys_reachable true dog_state) as Hr by (eapply (sys_turns_reach true dog_turns); [constructor|by vm_compute]).
  destruct (bus_monitor_kept true dog_state Hr) as (H1 & _ & H3).
  split; [exact Hr|]. split; [by vm_compute|]. split; [by vm_compute|]. split; [by vm_compute|].
  destruct (H3 (DogAdds true None)) as [s' E]; [by vm_compute|by vm_compute|]. exists s'. split; [exact E|].
  vm_compute in E. injection E as <-. by vm_compute.
Defined.
