(* ===== verification/Identity.v ===== *)
(** Who the gateway is: its MAC address (GetMac, source/hal_wired.c) and its licence
    (source/production_utils.c).

    The licence is a line of text, [uuid:<uuid> key:<key>], that the program
    /opt/smarthome/bin/license gives for an address and that is kept in a file.  What
    the shell is told is a list of commands; what it answers are arguments. *)

From Stdlib Require Import Ascii.
From stdpp Require Import strings.
From S2P Require Import Prelude CStr.

Local Open Scope list_scope.
Local Open Scope string_scope.
Local Open Scope Z_scope.

(** ** Addresses *)

(** [%02x] of a byte; [char] is unsigned on the target. *)
Definition hex_char (d : Z) : ascii := ascii_of_nat (Z.to_nat (if d <? 10 then 48 + d else 87 + d)).
Definition x02 (n : Z) : string := String (hex_char (n / 16)) (String (hex_char (n mod 16)) "").
Fixpoint joined (sep : string) (l : list string) : string :=
  match l with [] => "" | [s] => s | s :: l => s +:+ sep +:+ joined sep l end.

(** [sock], [ioctl]: whether the socket and the request succeed; [sa_data]: the
    address of the interface.  The text of [pMac] and the result. *)
Definition GetMac (sock ioctl : bool) (sa_data : list Z) (pMac : string) : Z * string :=
  if negb sock then (-1, pMac) else
  if negb ioctl then (-1, pMac) else
  (0, take_string 12 (joined "" (map x02 (take 6 sa_data)))).

(** The byte [i] of a text in an array of zeros. *)
Definition byte_at (s : string) (i : nat) : Z :=
  match String.get i s with Some a => Z.of_nat (nat_of_ascii a) | None => 0 end.

(** [urandom]: what could be read of /dev/urandom, [None] when it cannot be opened. *)
Definition generate_random_unicast_mac (urandom : option (list Z)) (rand : nat -> Z) (mac_addr : list Z) : list Z :=
  let l := match urandom with
           | None => map (fun i => Z.land (rand i) 0xFF) (seq 0 6)
           | Some r => (take 6 r ++ drop (length (take 6 r)) mac_addr)%list
           end in
  match l with
  | b :: l => Z.lor (Z.land b 0xFE) 0x02 :: l
  | [] => []
  end.

(** ** The licence *)

Definition SPACE : string := " ".

Definition GetUuid (pJson : option string) (ok : bool) : option string :=
  match pJson with
  | None => None
  | Some s =>
      match strstr s "uuid:" with
      | None => None
      | Some i =>
          let rest := drop_string (i + 5) s in
          match strstr rest SPACE with
          | None => None
          | Some n => if negb ok then None else Some (take_string n rest)
          end
      end
  end.

(** 32 bytes are copied, whatever the length of the block; [room] is the array the
    text is in. *)
Definition GetKey (pJson : option string) (room : nat) (ok : bool) : outcome (option string) :=
  match pJson with
  | None => Done None
  | Some s =>
      match strstr s "key:" with
      | None => Done None
      | Some i =>
          let rest := drop_string (i + 4) s in
          if negb ok then Done None
          else if (String.length rest + 1 <? 32)%nat then Undef
          else if (room <? i + 4 + 32)%nat then Undef
          else Done (Some (take_string 32 rest))
      end
  end.

Definition LICENSES_SIZE : nat := 256.
Definition CMD_SIZE : nat := 128.
(** [snprintf (cmd, sizeof (cmd) - 1, ...)] *)
Definition cmd (s : string) : string := take_string (CMD_SIZE - 2) s.
(** [fgets (licenses, sizeof (licenses) - 1, fd)] of an output. *)
Fixpoint first_line (s : string) : string :=
  match s with
  | "" => ""
  | String a s => String a (if Ascii.eqb a "010" then "" else first_line s)
  end.
Definition fgets (s : string) : string := take_string (LICENSES_SIZE - 2) (first_line s).

Definition license_cmd (pMac : string) : string :=
  cmd ("/opt/smarthome/bin/license " +:+ joined ":" (map (fun i => x02 (byte_at pMac i)) (seq 0 6))).
Definition store_cmd (licenses : string) : string := cmd ("echo " +:+ licenses +:+ " > /tmp/license").

(** [None]: the process exits. *)
Definition license_read (licenses : string) (ok : bool) : outcome (list string * option (string * string)) :=
  let uuid := GetUuid (Some licenses) ok in
  key <-! GetKey (Some licenses) LICENSES_SIZE ok;
  match uuid, key with
  | Some uuid, Some key => Done ([], Some (uuid, key))
  | _, _ => Done (["rm /opt/smarthome/tmp/license"], None)
  end.

(** [here]: the file is there; [tool]: what the program prints, [None] when it cannot
    be run; [cat]: the file. *)
Definition GetLicenses (pMac : string) (here : bool) (tool cat : option string) (ok : bool) : outcome (list string * option (string * string)) :=
  let read l := match cat with
    | None => Undef
    | Some c => r <-! license_read (fgets c) ok; Done ((l ++ ["cat /opt/smarthome/tmp/license"] ++ r.1)%list, r.2)
    end in
  if here then read []
  else
    match tool with
    | None => Done ([license_cmd pMac], None)
    | Some t =>
        if String.eqb (fgets t) "" then Done ([license_cmd pMac], None)
        else read [license_cmd pMac; store_cmd (fgets t); cmd "cp /tmp/license /opt/smarthome/tmp/"; "rm /tmp/license"; "sync"]
    end.

(** ** Texts *)

Lemma fgets_line s : has_char "010" s = false -> (String.length s < LICENSES_SIZE - 2)%nat ->
  fgets (s +:+ String "010" "") = s +:+ String "010" "".
Proof.
  unfold fgets. intros Hc Hn. generalize dependent (LICENSES_SIZE - 2)%nat. induction s as [|a s IH]; intros [|n] Hn; cbn [String.length] in Hn; try lia; [by destruct n|].
  cbn [has_char] in Hc. apply orb_false_iff in Hc as [Ha Hc]. rewrite Ascii.eqb_sym in Ha.
  change (String a s +:+ String "010" "") with (String a (s +:+ String "010" "")). cbn [first_line take_string]. rewrite Ha. cbn [take_string].
  f_equal. apply IH; [done|lia].
Qed.

Lemma has_char_app a s t : has_char a (s +:+ t) = has_char a s || has_char a t.
Proof. induction s as [|b s IH]; [done|]. change (String b s +:+ t) with (String b (s +:+ t)). cbn [has_char]. by rewrite IH, orb_assoc. Qed.

(** A licence as it is printed. *)
Definition licence (uuid key : string) : string := "uuid:" +:+ uuid +:+ " key:" +:+ key.

Lemma uuid_read u k : has_char " " u = false -> GetUuid (Some (licence u k)) true = Some u.
Proof.
  intros Hu. unfold GetUuid, licence. change (strstr ("uuid:" +:+ u +:+ " key:" +:+ k) "uuid:") with (Some 0%nat). cbv beta iota zeta.
  change (drop_string (0 + 5) ("uuid:" +:+ u +:+ " key:" +:+ k)) with (u +:+ " key:" +:+ k). unfold SPACE. rewrite strstr_skip by done.
  change (strstr (" key:" +:+ k) " ") with (Some 0%nat). cbv beta iota. rewrite Nat.add_0_r. cbn [negb]. by rewrite take_string_app.
Qed.

Lemma prefix_key s : has_char ":" s = false -> prefix_of "key:" s = false.
Proof.
  intros H. destruct s as [|a [|b [|c [|d s]]]]; cbn [prefix_of]; rewrite ?andb_false_r; try done.
  cbn [has_char] in H. repeat apply orb_false_iff in H as [? H]. replace (Ascii.eqb ":" d) with false by done. by rewrite !andb_false_r.
Qed.

Lemma no_key s : has_char ":" s = false -> strstr s "key:" = None.
Proof.
  induction s as [|a s IH]; intros H; [done|]. cbn [strstr]. rewrite prefix_key by done.
  cbn [has_char] in H. apply orb_false_iff in H as [_ H]. by rewrite IH.
Qed.

Lemma key_found u k : has_char ":" u = false -> strstr (licence u k) "key:" = Some (String.length u + 6)%nat.
Proof.
  intros Hu. unfold licence. rewrite <- string_app_assoc.
  change (("uuid:" +:+ u) +:+ " key:" +:+ k) with (("uuid:" +:+ u) +:+ String " " "" +:+ ("key:" +:+ k)).
  rewrite strstr_before by done. change (strstr (String " " "" +:+ "key:" +:+ k) "key:") with (Some 1%nat).
  replace (strstr ("uuid:" +:+ u) "key:") with (@None nat).
  - f_equal. rewrite string_length_app. cbn. lia.
  - symmetry. change ("uuid:" +:+ u) with (String "u" (String "u" (String "i" (String "d" (String ":" u))))).
    cbn [strstr]. rewrite no_key by done. done.
Qed.

Lemma key_rest u k : drop_string (String.length u + 6 + 4) (licence u k) = k.
Proof.
  unfold licence. replace (String.length u + 6 + 4)%nat with (String.length "uuid:" + (String.length u + (String.length " key:" + 0)))%nat by (cbn; lia).
  by rewrite !drop_string_chunk.
Qed.

(** ** The licence is read *)

Lemma licence_length u k : String.length (licence u k) = (10 + String.length u + String.length k)%nat.
Proof. unfold licence. rewrite !string_length_app. cbn. lia. Qed.

Lemma key_read u k t : has_char ":" u = false -> String.length k = 32%nat -> (String.length u + 42 <= LICENSES_SIZE)%nat ->
  GetKey (Some (licence u (k +:+ t))) LICENSES_SIZE true = Done (Some k).
Proof.
  intros Hu Hk Hl. unfold GetKey. rewrite key_found, key_rest by done. cbn [negb]. rewrite string_length_app, Hk.
  destruct (_ <? 32)%nat eqn:E1; [apply Nat.ltb_lt in E1; lia|]. destruct (LICENSES_SIZE <? _)%nat eqn:E2; [apply Nat.ltb_lt in E2; lia|].
  by rewrite <- Hk, take_string_app.
Qed.

Lemma licence_app u k t : licence u k +:+ t = licence u (k +:+ t).
Proof. unfold licence. by rewrite !string_app_assoc. Qed.

(** A licence of the tool that has been stored is read back, with or without the end
    of its line. *)
Theorem licence_read (u k pMac : string) (tool : option string) :
  has_char " " u = false -> has_char ":" u = false -> has_char "010" (u +:+ k) = false ->
  String.length k = 32%nat -> (String.length u + 44 < LICENSES_SIZE)%nat ->
  GetLicenses pMac true tool (Some (licence u k +:+ String "010" "")) true =
    Done (["cat /opt/smarthome/tmp/license"], Some (u, k)).
Proof.
  intros H1 H2 H3 Hk Hl. unfold GetLicenses. rewrite fgets_line.
  - rewrite licence_app. unfold license_read. rewrite uuid_read, key_read by (done || lia). done.
  - unfold licence. rewrite has_char_app in H3. apply orb_false_iff in H3 as [H3 H4]. by rewrite !has_char_app, H3, H4.
  - rewrite licence_length. lia.
Qed.

(** A text is read safely exactly when at least 31 characters follow its "key:". *)
Theorem key_bounds (s : string) :
  (String.length s < LICENSES_SIZE - 1)%nat ->
  GetKey (Some s) LICENSES_SIZE true = Undef <->
  exists i, strstr s "key:" = Some i /\ (String.length (drop_string (i + 4) s) < 31)%nat.
Proof.
  intros Hl. unfold GetKey. destruct (strstr s "key:") as [i|] eqn:Ei; [|split; [done|by intros (? & ? & _)]]. cbn [negb].
  destruct (_ <? 32)%nat eqn:E1.
  - apply Nat.ltb_lt in E1. split; [intros _; exists i; split; [done|lia]|done].
  - apply Nat.ltb_ge in E1. split; [|intros (? & [= <-] & ?); lia].
    destruct (LICENSES_SIZE <? _)%nat eqn:E2; [|done]. apply Nat.ltb_lt in E2. exfalso.
    assert (forall n t, String.length (drop_string n t) = String.length t - n)%nat as Hd.
    { intros n. induction n as [|n IH]; intros [|a t]; cbn; done. }
    rewrite Hd in E1. lia.
Qed.

(** ** The licence that is asked for *)

Lemma x02_length n : String.length (x02 n) = 2%nat.
Proof. done. Qed.

Lemma hex_code d : 0 <= d < 16 -> Z.of_nat (nat_of_ascii (hex_char d)) = if d <? 10 then 48 + d else 87 + d.
Proof. intros Hd. unfold hex_char. rewrite nat_ascii_embedding; destruct (d <? 10) eqn:E; lia. Qed.

(** The address [GetMac] leaves: the digits of the bytes. *)
Lemma mac_text a b c d e f :
  GetMac true true [a; b; c; d; e; f] "" = (0, x02 a +:+ x02 b +:+ x02 c +:+ x02 d +:+ x02 e +:+ x02 f).
Proof. done. Qed.

(** The text of the address is what [GetLicenses] takes for its bytes. *)
Definition asked (a b c : Z) : list Z :=
  map (fun n => Z.of_nat (nat_of_ascii (hex_char n))) [a / 16; a mod 16; b / 16; b mod 16; c / 16; c mod 16].

Lemma license_cmd_digits a b c d e f :
  license_cmd (GetMac true true [a; b; c; d; e; f] "").2 =
  "/opt/smarthome/bin/license " +:+ joined ":" (map x02 (asked a b c)).
Proof. rewrite mac_text. unfold license_cmd, cmd. reflexivity. Qed.

(** C37: A gateway does not ask for a licence of its own: the text of its address is
    taken for the bytes, so the licence depends on the first three bytes alone, which
    are those of the vendor, and any two gateways that share them ask for the same
    one.  The line the tool prints is stored with its end, as two commands: the
    first prints the licence to the output, the second empties the file. *)
Theorem licence_asked (a b c : Z) (own own' : list Z) (here : bool) (tool cat : option string) (ok : bool) :
  length own = 3%nat -> length own' = 3%nat ->
  GetLicenses (GetMac true true (a :: b :: c :: own) "").2 here tool cat ok =
    GetLicenses (GetMac true true (a :: b :: c :: own') "").2 here tool cat ok /\
  forall t text, tool = Some (t +:+ String "010" "") -> has_char "010" t = false -> (String.length t <= 105)%nat -> cat = Some text ->
    forall cs r, GetLicenses (GetMac true true (a :: b :: c :: own) "").2 false tool cat ok = Done (cs, r) ->
    take 2 cs = ["/opt/smarthome/bin/license " +:+ joined ":" (map x02 (asked a b c));
                 "echo " +:+ t +:+ String "010" " > /tmp/license"].
Proof.
  destruct own as [|d [|e [|f [|]]]]; try done. destruct own' as [|d' [|e' [|f' [|]]]]; try done. intros _ _.
  unfold GetLicenses. rewrite !license_cmd_digits. split; [done|].
  intros t text -> Ht Hl -> cs r. rewrite fgets_line by (done || (unfold LICENSES_SIZE; lia)).
  replace (String.eqb (t +:+ String "010" "") "") with false by by destruct t.
  destruct (license_read (fgets text) ok) as [[x y]|]; [|done]. cbn [obind]. intros [= <- _]. cbn [take app]. f_equal. f_equal.
  unfold store_cmd, cmd. rewrite string_app_assoc. apply take_string_all. rewrite !string_length_app. cbn [String.length]. unfold CMD_SIZE. cbn. lia.
Qed.

(** The address is one of a single device, and locally administered, whatever the
    bytes that are drawn; the other 46 bits are theirs. *)
Theorem random_mac (urandom : option (list Z)) (rand : nat -> Z) (mac : list Z) :
  length mac = 6%nat ->
  let l := match urandom with Some r => (take 6 r ++ drop (length (take 6 r)) mac)%list | None => map (fun i => Z.land (rand i) 0xFF) (seq 0 6) end in
  exists b rest, generate_random_unicast_mac urandom rand mac = b :: rest /\ length rest = 5%nat /\
    Z.testbit b 0 = false /\ Z.testbit b 1 = true /\
    (forall i, 2 <= i < 8 -> Z.testbit b i = Z.testbit (List.hd 0 l) i) /\ rest = List.tl l.
Proof.
  intros Hm l. assert (length l = 6%nat) as Hl.
  { unfold l. destruct urandom as [r|]; [|done]. rewrite length_app, length_drop, length_take. lia. }
  unfold generate_random_unicast_mac. fold l. destruct l as [|b0 rest]; [done|]. cbn in Hl. exists (Z.lor (Z.land b0 0xFE) 0x02), rest.
  rewrite !Z.lor_spec, !Z.land_spec. split_and!; [done|lia|by rewrite andb_false_r|by rewrite orb_true_r| |done].
  intros i Hi. rewrite Z.lor_spec, Z.land_spec. cbn [List.hd].
  assert (i = 2 \/ i = 3 \/ i = 4 \/ i = 5 \/ i = 6 \/ i = 7) as Hc by lia.
  destruct Hc as [->|[->|[->|[->|[->| ->]]]]]; cbn; by rewrite andb_true_r, orb_false_r.
Qed.

(** Two gateways of one vendor; a licence in its file. *)
Lemma licence_asked_witness :
  GetLicenses (GetMac true true [0x00; 0x1a; 0x2b; 1; 2; 3] "").2 false (Some "uuid:u key:k") (Some "") true =
  GetLicenses (GetMac true true [0x00; 0x1a; 0x2b; 7; 8; 9] "").2 false (Some "uuid:u key:k") (Some "") true /\
  asked 0x00 0x1a 0x2b = [0x30; 0x30; 0x31; 0x61; 0x32; 0x62].
Proof.
  split; [|reflexivity]. exact (proj1 (licence_asked 0x00 0x1a 0x2b [1; 2; 3] [7; 8; 9] false (Some "uuid:u key:k") (Some "") true eq_refl eq_refl)).
Defined.

Lemma licence_read_witness :
  GetLicenses "" true None (Some (licence "hxkjbc065f8a5fb123d0" "p77G073w43hfKARbp3qNMJjnciBkwS3q" +:+ String "010" "")) true =
  Done (["cat /opt/smarthome/tmp/license"], Some ("hxkjbc065f8a5fb123d0", "p77G073w43hfKARbp3qNMJjnciBkwS3q")).
Proof. apply (licence_read "hxkjbc065f8a5fb123d0" "p77G073w43hfKARbp3qNMJjnciBkwS3q" "" None); try reflexivity. unfold LICENSES_SIZE. cbn. lia. Defined.

Lemma key_bounds_witness : GetKey (Some "key:0123") LICENSES_SIZE true = Undef.
Proof. apply (key_bounds "key:0123"); [unfold LICENSES_SIZE; cbn; lia|]. exists 0%nat. split; [reflexivity|cbn; lia]. Defined.
