(* ===== verification/CloudEvents.v ===== *)
(** What the cloud and the button tell the gateway (source/main.c): devices that are
    bound and where they are (ReportPosThread, ReportBindPosThread and the callbacks
    that feed their queues), Zigbee devices, and the button (key_scan). *)

From Stdlib Require Import Ascii.
From S2P Require Import Prelude CMem CStr Device PluginApi Dpt9 KnxPlugins KnxAddr Serial Nodes KnxDevs KnxCtrl KnxReport Groups Gateway.

Local Open Scope string_scope.
Local Open Scope list_scope.
Local Open Scope Z_scope.

(** ** State

    What the program asks of the cloud, in order: reports of positions and modes,
    heartbeats, and the calls for Zigbee devices.  [key] is empty for the gateway. *)

Inductive gev :=
| Pos (key : option string) (pos : string)
| ModeOf (key : string) (dp value : Z)
| HbSet (key : string) (time num : Z)
| HbFresh (key : string)
| ReadAttr (key : string)
| ZigDel (key : string)
| ZigUpgrade (key img : string)
| Unbound (key : string)
| Version (key ver : string)
| System (command : string)
| Led (on : bool).

(** A node of [pZ3List]: its key, and the model its plugin tells, [None] without a
    plugin. *)
Record z3dev := Z3 { zkey : string; zmodel : option string }.

(** [misc] are the devices the cloud knows, in the order of its traversal, with their
    kinds; [mbs] the Modbus devices as their ids and [bOnlineCheck]; [posq] and [bindq]
    what is in [pPosQueue] and [pBindPosQueue]; [rets] the results of calls to come
    (none: 0), [allocs] those of allocations (none: success); [g_bOnline] and [g_bActive]
    are always set together. *)
Record gst := GSt {
  kdevs : list (option KnxDev);
  mbs : list (option (Z * bool));
  z3s : list z3dev;
  misc : list (string * Z);
  posq : nat;
  bindq : list string;
  rets : list Z;
  allocs : list bool;
  g_bOnline : bool;
  glog : list gev
}.
Definition with_z3s l g := GSt (kdevs g) (mbs g) l (misc g) (posq g) (bindq g) (rets g) (allocs g) (g_bOnline g) (glog g).
Definition with_posq n g := GSt (kdevs g) (mbs g) (z3s g) (misc g) n (bindq g) (rets g) (allocs g) (g_bOnline g) (glog g).
Definition with_bindq l g := GSt (kdevs g) (mbs g) (z3s g) (misc g) (posq g) l (rets g) (allocs g) (g_bOnline g) (glog g).
Definition with_rets l g := GSt (kdevs g) (mbs g) (z3s g) (misc g) (posq g) (bindq g) l (allocs g) (g_bOnline g) (glog g).
Definition with_allocs l g := GSt (kdevs g) (mbs g) (z3s g) (misc g) (posq g) (bindq g) (rets g) l (g_bOnline g) (glog g).
Definition with_glog l g := GSt (kdevs g) (mbs g) (z3s g) (misc g) (posq g) (bindq g) (rets g) (allocs g) (g_bOnline g) l.
Definition with_online b g := GSt (kdevs g) (mbs g) (z3s g) (misc g) (posq g) (bindq g) (rets g) (allocs g) b (glog g).

Local Notation M := (io gst).
Definition gget {A} (f : gst -> A) : M A := fun g => Ran (f g) g.
Definition gput (f : gst -> gst) : M unit := fun g => Ran tt (f g).
(** A call of the cloud. *)
Definition call (e : gev) : M Z := fun g => Ran (hd 0 (rets g)) (with_rets (tl (rets g)) (with_glog (glog g ++ [e]) g)).
(** A call whose result is not looked at. *)
Definition tell (e : gev) : M unit := gput (fun g => with_glog (glog g ++ [e]) g).
Definition galloc : M bool := fun g => Ran (hd true (allocs g)) (with_allocs (tl (allocs g)) g).

Definition gwait : M unit := fun _ => Blocked.

Definition POS_QUEUE_SIZE : nat := 10.
Definition BIND_QUEUE_SIZE : nat := 200.
(** [queue_put] on the two limited queues; [false]: it fails. *)
Definition put_pos : M bool :=
  n ← gget posq;
  if (n =? POS_QUEUE_SIZE)%nat then mret false else
  ok ← galloc; if (ok : bool) then _ ← gput (with_posq (S n)); mret true else mret false.
Definition put_bind (key : string) : M bool :=
  l ← gget bindq;
  if (length l =? BIND_QUEUE_SIZE)%nat then mret false else
  ok ← galloc; if (ok : bool) then _ ← gput (with_bindq (l ++ [key])); mret true else mret false.

(** [tuya_user_iot_misc_dev_desc_get] *)
Fixpoint kind_of (l : list (string * Z)) (key : string) : option Z :=
  match l with
  | [] => None
  | (id, tp) :: l => if String.eqb id key then Some tp else kind_of l key
  end.
Definition desc (key : string) : M (option Z) := gget (fun g => kind_of (misc g) key).

(** ** The status of the gateway *)

(** The loop over all devices when the gateway was removed is [unbind_loop]. *)
Definition _gw_online_status_changed_cb (online : bool) : M Z :=
  _ ← (if online then tell (System "echo heartbeat > /sys/class/leds/chip-heartbeat/trigger") else mret tt);
  _ ← gput (with_online online);
  _ ← tell (Led online);
  if negb online then mret 0 else _ ← put_pos; mret 0.
Definition _gw_active_registered : M Z := _ ← put_pos; mret 0.

(** ** Binding *)

Fixpoint find_mbs (l : list (option (Z * bool))) (w : Z) : option bool :=
  match l with
  | [] => None
  | Some (id, b) :: l => if id =? w then Some b else find_mbs l w
  | None :: l => find_mbs l w
  end.

Definition __test_switch_read_attr (dev_id : string) : M unit := _ ← call (ReadAttr dev_id); mret tt.

Definition start_beat (dev_id : string) (tp : Z) : M unit :=
  r ← call (HbSet dev_id 300 6);
  if negb (r =? 0) then mret tt else
  r ← call (HbFresh dev_id);
  if negb (r =? 0) then mret tt else
  if tp =? DEV_TP_ZIGBEE then __test_switch_read_attr dev_id else mret tt.
Definition _misc_dev_bind_ifm_cb (dev_id : string) (result : Z) : M unit :=
  if negb (result =? 0) then mret tt else
  d ← desc dev_id;
  match d with
  | None => mret tt
  | Some tp =>
      _ ← put_bind dev_id;
      ds ← gget kdevs;
      if match find_knx ds dev_id with Some (_, k) => negb (kb_bOnlineCheck (base_of k)) | None => false end then mret tt else
      ms ← gget mbs;
      w ← match key_word dev_id with Done w => mret w | Undef => fault end;
      if match find_mbs ms w with Some check => negb check | None => false end then mret tt else
      start_beat dev_id tp
  end.

Definition misc_heartbeat_cfg : M unit := fun g =>
  (fix go (l : list (string * Z)) : M unit :=
     match l with
     | [] => mret tt
     | (id, tp) :: l => if negb (tp =? DEV_TP_ZIGBEE) then _ ← call (HbSet id 300 6); go l else go l
     end) (misc g) g.

Definition _misc_dev_upgrade_cb (dev_id img : string) : M unit :=
  d ← desc dev_id;
  match d with
  | None => mret tt
  | Some tp => if tp =? DEV_TP_ZIGBEE then _ ← call (ZigUpgrade dev_id img); mret tt else mret tt
  end.
Definition _misc_dev_reset_cb (dev_id : string) : M unit :=
  d ← desc dev_id;
  match d with
  | None => mret tt
  | Some tp => if tp =? DEV_TP_ZIGBEE then _ ← call (ZigDel dev_id); mret tt else mret tt
  end.

(** ** Where the devices are

    Data point 199 of a device is its number, what follows the 13 characters of the
    address and the type in its id (an array of zeros of the SDK, so that a shorter id
    has an empty number); a smart panel also tells the mode of each channel. *)

Fixpoint report_panel (b : KnxBase_t) (chl : list KnxSmartPanelPoint_t) : M unit :=
  match chl with
  | [] => mret tt
  | c :: chl =>
      _ ← call (ModeOf (e_pPrimaryKey (kb_element b)) (u8 (kp_id (sp_mode c))) (get_u8 (kp_value (sp_mode c))));
      report_panel b chl
  end.
Definition report_pos (id : string) : M unit :=
  _ ← call (Pos (Some id) (drop_string 13 id));
  ds ← gget kdevs;
  match find_knx ds id with
  | None => mret tt
  | Some (_, d) =>
      if in_range KNX_MISC_PANEL_ONE_KEY KNX_MISC_PANEL_FOUR_KEY (type_of d) then
        match d with KnxSmartPanel_t b chl => report_panel b chl | _ => fault end
      else mret tt
  end.
Fixpoint report_all (l : list (string * Z)) : M unit :=
  match l with [] => mret tt | (id, _) :: l => _ ← report_pos id; report_all l end.

(** One turn of each thread; it waits while its queue is empty. *)
Definition ReportPosThread : M unit :=
  n ← gget posq;
  match n with
  | O => gwait
  | S n =>
      _ ← gput (with_posq n);
      _ ← call (Pos None "0");
      _ ← call (Pos None "0");
      l ← gget misc; report_all l
  end.
Definition ReportBindPosThread : M unit :=
  l ← gget bindq;
  match l with
  | [] => gwait
  | id :: l => _ ← gput (with_bindq l); report_pos id
  end.

(** ** Zigbee devices

    The node that is found is taken for the device it leads to: what the functions
    read and write there are the links of the list. *)

(** [Z3ModelIdMatch]: the first device of the model without a key; a device without a
    plugin is read through a null pointer. *)
Fixpoint find_model (l : list z3dev) (model : string) : outcome (option nat) :=
  match l with
  | [] => Done None
  | d :: l =>
      match zmodel d with
      | None => Undef
      | Some m =>
          if String.eqb m model && String.eqb (zkey d) "" then Done (Some 0%nat)
          else r <-! find_model l model; Done (S <$> r)
      end
  end.
(** [Z3DevIdMatch] *)
Fixpoint find_z3 (l : list z3dev) (key : string) : option nat :=
  match l with
  | [] => None
  | d :: l => if String.eqb (zkey d) key then Some 0%nat else S <$> find_z3 l key
  end.

Definition __my_z3_dev_join (model_id : string) : M unit :=
  l ← gget z3s;
  match find_model l model_id with
  | Done None => mret tt
  | _ => fault
  end.
Definition __my_z3_dev_leave (dev_id : string) : M unit :=
  l ← gget z3s;
  match find_z3 l dev_id with
  | None => mret tt
  | Some i => _ ← gput (with_z3s (delete i l)); _ ← call (Unbound dev_id); mret tt
  end.
Definition __my_z3_dev_report (dev_id : string) : M unit :=
  _ ← call (HbFresh dev_id);
  l ← gget z3s;
  match find_z3 l dev_id with None => mret tt | Some _ => fault end.
Definition __my_z3_dev_notify : M unit := fun g =>
  (fix go (l : list (string * Z)) : M unit :=
     match l with
     | [] => mret tt
     | (id, tp) :: l =>
         if tp =? DEV_TP_ZIGBEE then _ ← __test_switch_read_attr id; _ ← call (HbSet id 120 3); go l else go l
     end) (misc g) g.
Definition __my_z3_dev_version (dev_id : string) : M unit := _ ← call (HbFresh dev_id); mret tt.
Definition __my_z3_dev_upgrade_end (dev_id : string) : M unit := _ ← call (Version dev_id "8.8.8"); mret tt.

(** ** The button

    [key_press] and [key_release] are the counters of [key_scan]; [engineering] tells
    whether the file of the mode is there, [writable] whether it can be made and
    removed. *)

Record input_event := Event { ev_type : Z; ev_code : Z; ev_value : Z }.
Inductive kact := StatusLed | Reset | Reboot.
Record kstate := Keys { key_press : Z; key_release : Z; engineering : bool; kacts : list kact }.
Definition EV_KEY : Z := 1.
Definition BTN_MISC : Z := 256.
Definition incr (n : Z) : outcome Z := if n =? 2 ^ 31 - 1 then Undef else Done (n + 1).
Definition act (a : kact) (s : kstate) : kstate := Keys (key_press s) (key_release s) (engineering s) (kacts s ++ [a]).
Definition set_press (n : Z) (s : kstate) : kstate := Keys n (key_release s) (engineering s) (kacts s).
Definition set_release (n : Z) (s : kstate) : kstate := Keys (key_press s) n (engineering s) (kacts s).

Definition EngineeringMode (writable : bool) (s : kstate) : Z * kstate :=
  if engineering s || negb writable then (-1, s) else (0, Keys (key_press s) (key_release s) true (kacts s)).
Definition BusinessMode (writable : bool) (s : kstate) : Z * kstate :=
  if negb (engineering s) || negb writable then (-1, s) else (0, Keys (key_press s) (key_release s) false (kacts s)).

(** One event [key_scan] has read. *)
Definition key_turn (writable : bool) (e : input_event) (s : kstate) : outcome kstate :=
  if negb (ev_type e =? EV_KEY) then Done s else
  if negb (ev_code e <? BTN_MISC) then Done s else
  if negb (ev_code e =? 171) then Done s else
  if 1 <=? ev_value e then
    n <-! incr (key_press s);
    let s := set_press n s in
    Done (if n =? 250 then act StatusLed s else s)
  else if ev_value e =? 0 then
    s <-! (if 250 <? key_press s then Done (act Reset s) else
           n <-! incr (key_release s);
           let s := set_release n s in
           if n =? 5 then
             let '(ret, s) := EngineeringMode writable s in
             let s := if negb (ret =? 0) then (BusinessMode writable s).2 else s in
             Done (act Reboot s)
           else Done s);
    Done (set_press 0 s)
  else Done s.
Fixpoint key_scan (writable : bool) (l : list input_event) (s : kstate) : outcome kstate :=
  match l with [] => Done s | e :: l => s <-! key_turn writable e s; key_scan writable l s end.

(** ** The button *)

Definition down : input_event := Event EV_KEY 171 2.
Definition up : input_event := Event EV_KEY 171 0.
(** A press that is repeated [n] times, and let go. *)
Definition press (n : nat) : list input_event := replicate n down ++ [up].

(** What [n] of the presses do, the short ones among them counted from [rel]. *)
Fixpoint effects (rel : Z) (ns : list nat) : list kact :=
  match ns with
  | [] => []
  | n :: ns =>
      (if (250 <=? n)%nat then [StatusLed] else []) ++
      (if (250 <? n)%nat then Reset :: effects rel ns
       else (if rel + 1 =? 5 then [Reboot] else []) ++ effects (rel + 1) ns)
  end.
Definition shorts (ns : list nat) : Z := Z.of_nat (length (filter (fun n => n <= 250)%nat ns)).

Lemma key_scan_app w l1 l2 s : key_scan w (l1 ++ l2) s = (s <-! key_scan w l1 s; key_scan w l2 s).
Proof. revert s. induction l1 as [|e l1 IH]; intros s; [done|]. cbn [app key_scan]. destruct (key_turn w e s); [apply IH|done]. Qed.

(** A comparison whose other result cannot be. *)
Ltac settle b := let E := fresh in destruct b eqn:E; bprop; try (exfalso; lia).

Lemma key_down w n p r e a : 0 <= p -> p + Z.of_nat n < 2 ^ 31 ->
  key_scan w (replicate n down) (Keys p r e a) =
  Done (Keys (p + Z.of_nat n) r e (a ++ (if (p <? 250) && (250 <=? p + Z.of_nat n) then [StatusLed] else []))).
Proof.
  revert p a. induction n as [|n IH]; intros p a Hp Hn.
  - cbn [replicate key_scan]. replace (p + Z.of_nat 0) with p by lia. settle (p <? 250); cbn [andb]; [settle (250 <=? p)|]; by rewrite app_nil_r.
  - cbn [replicate key_scan]. unfold key_turn. cbn [ev_type ev_code ev_value down negb Z.eqb].
    change (EV_KEY =? EV_KEY) with true. change (171 <? BTN_MISC) with true. cbn. unfold incr.
    destruct (p =? 2 ^ 31 - 1) eqn:E; bprop; [lia|]. cbn [obind]. unfold set_press, act. cbn [key_release engineering kacts key_press].
    replace (p + Z.of_nat (S n)) with (p + 1 + Z.of_nat n) by lia.
    destruct (p + 1 =? 250) eqn:E1; bprop; rewrite IH by lia; do 2 f_equal.
    + settle (p + 1 <? 250). settle (p <? 250). settle (250 <=? p + 1 + Z.of_nat n). cbn. by rewrite app_nil_r.
    + f_equal. settle (p <? 250); settle (p + 1 <? 250); done.
Qed.

Lemma key_press_one w n r e a : Z.of_nat n < 2 ^ 31 -> 0 <= r < 2 ^ 31 - 1 ->
  key_scan w (press n) (Keys 0 r e a) =
  Done (if (250 <? n)%nat then Keys 0 r e (a ++ [StatusLed; Reset])
        else Keys 0 (r + 1) (if (r + 1 =? 5) && w then negb e else e)
          (a ++ (if (250 <=? n)%nat then [StatusLed] else []) ++ (if r + 1 =? 5 then [Reboot] else []))).
Proof.
  intros Hn Hr. unfold press. rewrite key_scan_app, key_down by lia. cbn [obind key_scan].
  unfold key_turn. cbn [ev_type ev_code ev_value up]. change (EV_KEY =? EV_KEY) with true. change (171 <? BTN_MISC) with true. cbn [negb Z.eqb Z.leb Z.compare].
  change (0 <? 250) with true. cbn [andb key_press key_release]. replace (0 + Z.of_nat n) with (Z.of_nat n) by lia. cbn [Pos.eqb].
  destruct (250 <? n)%nat eqn:E1.
  - apply Nat.ltb_lt in E1. settle (250 <? Z.of_nat n). settle (250 <=? Z.of_nat n).
    unfold act, set_press. cbn. by rewrite <- app_assoc.
  - apply Nat.ltb_ge in E1. settle (250 <? Z.of_nat n). unfold incr. cbn [key_release].
    destruct (r =? 2 ^ 31 - 1) eqn:E2; bprop; [lia|]. cbn [obind]. unfold set_release.
    replace (250 <=? n)%nat with (250 <=? Z.of_nat n) by (settle (250 <=? Z.of_nat n); symmetry; [apply Nat.leb_le|apply Nat.leb_gt]; lia).
    destruct (r + 1 =? 5) eqn:E3; bprop.
    + unfold EngineeringMode, BusinessMode, act, set_press. cbn. destruct e, w; cbn; by rewrite <- app_assoc.
    + unfold set_press. cbn. by rewrite app_nil_r.
Qed.

Lemma shorts_cons n ns : shorts (n :: ns) = (if (250 <? n)%nat then 0 else 1) + shorts ns.
Proof.
  unfold shorts. rewrite filter_cons. destruct (250 <? n)%nat eqn:E; [apply Nat.ltb_lt in E; rewrite decide_False by lia; lia|].
  apply Nat.ltb_ge in E. rewrite decide_True by lia. cbn [length]. lia.
Qed.

Lemma shorts_nonneg ns : 0 <= shorts ns <= Z.of_nat (length ns).
Proof. unfold shorts. pose proof (length_filter (fun n => n <= 250)%nat ns). lia. Qed.

Lemma key_presses_run w ns r e a :
  Forall (fun n => Z.of_nat n < 2 ^ 31) ns -> 0 <= r -> r + Z.of_nat (length ns) < 2 ^ 31 ->
  key_scan w (concat (map press ns)) (Keys 0 r e a) =
  Done (Keys 0 (r + shorts ns) (if (r <? 5) && (5 <=? r + shorts ns) && w then negb e else e) (a ++ effects r ns)).
Proof.
  revert r e a. induction ns as [|n ns IH]; intros r e a Hn Hr Hl.
  { cbn [map concat key_scan effects]. rewrite app_nil_r. change (shorts []) with 0. replace (r + 0) with r by lia.
    by settle (r <? 5); cbn [andb]; [settle (5 <=? r)|]. }
  apply Forall_cons in Hn as [Hn Hns]. cbn [length] in Hl. cbn [map concat]. rewrite key_scan_app, key_press_one by lia. cbn [obind].
  rewrite shorts_cons. cbn [effects]. pose proof (shorts_nonneg ns). destruct (250 <? n)%nat eqn:E.
  - rewrite IH by (done || lia). apply Nat.ltb_lt in E. replace (250 <=? n)%nat with true by (symmetry; apply Nat.leb_le; lia).
    rewrite Z.add_0_l. by rewrite <- app_assoc.
  - rewrite IH by (done || lia). replace (r + (1 + shorts ns)) with (r + 1 + shorts ns) by lia. do 2 f_equal; [|by rewrite <- !app_assoc].
    settle (r + 1 =? 5); settle (r <? 5); settle (r + 1 <? 5); cbn [andb]; settle (5 <=? r + 1 + shorts ns); by destruct w.
Qed.



(** ** Positions *)

(** What the cloud is told of one device. *)
Definition told (ds : list (option KnxDev)) (id : string) : list gev :=
  Pos (Some id) (drop_string 13 id) ::
  match find_knx ds id with
  | Some (_, KnxSmartPanel_t b chl) =>
      map (fun c => ModeOf (e_pPrimaryKey (kb_element b)) (u8 (kp_id (sp_mode c))) (get_u8 (kp_value (sp_mode c)))) chl
  | _ => []
  end.
Definition devices_ok (g : gst) : Prop := Forall (opt_ok dev_ok) (kdevs g).
(** The state after the calls [l]. *)
Definition told_all (l : list gev) (g : gst) : gst := with_rets (drop (length l) (rets g)) (with_glog (glog g ++ l) g).

Lemma told_all_app l1 l2 g : told_all l2 (told_all l1 g) = told_all (l1 ++ l2) g.
Proof. unfold told_all, with_rets, with_glog. cbn. by rewrite drop_drop, length_app, <- app_assoc. Qed.

Lemma told_all_nil g : told_all [] g = g.
Proof. unfold told_all, with_rets, with_glog. cbn. rewrite app_nil_r. by destruct g. Qed.

Lemma call_run e g : call e g = Ran (hd 0 (rets g)) (told_all [e] g).
Proof. unfold call, told_all, with_rets, with_glog. cbn. do 2 f_equal. Qed.

Lemma report_panel_run b chl g :
  report_panel b chl g = Ran tt (told_all (map (fun c => ModeOf (e_pPrimaryKey (kb_element b)) (u8 (kp_id (sp_mode c))) (get_u8 (kp_value (sp_mode c)))) chl) g).
Proof.
  revert g. induction chl as [|c chl IH]; intros g; [by rewrite told_all_nil|]. cbn [report_panel map]. unfold mbind, io_bind. rewrite call_run, IH.
  by rewrite told_all_app.
Qed.

Lemma report_pos_run id g : devices_ok g -> report_pos id g = Ran tt (told_all (told (kdevs g) id) g).
Proof.
  intros Hd. unfold report_pos, told, mbind, io_bind. rewrite call_run. unfold gget. change (kdevs (told_all _ g)) with (kdevs g).
  destruct (find_knx (kdevs g) id) as [[i d]|] eqn:E; [|done]. apply find_knx_lookup in E.
  pose proof (Forall_lookup_1 _ _ _ _ Hd E) as Hdev. cbn in Hdev.
  destruct (in_range KNX_MISC_PANEL_ONE_KEY KNX_MISC_PANEL_FOUR_KEY (type_of d)) eqn:Er.
  - destruct (panel_shape d _ _ Hdev Er) as [H _]. destruct H as (b & chl & -> & _); [done|]. rewrite report_panel_run. by rewrite told_all_app.
  - destruct d as [| | | |b chl| |]; try done. cbn in Hdev. destruct Hdev as [Hty _]. by rewrite Hty in Er.
Qed.

Lemma report_all_run l g : devices_ok g -> report_all l g = Ran tt (told_all (concat (map (fun d => told (kdevs g) d.1) l)) g).
Proof.
  revert g. induction l as [|[id tp] l IH]; intros g Hd; [by rewrite told_all_nil|]. cbn [report_all map concat fst]. unfold mbind, io_bind.
  rewrite report_pos_run by done. rewrite IH by done. change (kdevs (told_all _ g)) with (kdevs g). by rewrite told_all_app.
Qed.

(** A turn of the thread tells the cloud the position of the gateway, twice, and of
    every device the cloud knows, in its order, each smart panel followed by the modes
    of its channels. *)
Theorem positions_told (n : nat) (g : gst) : devices_ok g -> posq g = S n ->
  ReportPosThread g = Ran tt (told_all ([Pos None "0"; Pos None "0"] ++ concat (map (fun d => told (kdevs g) d.1) (misc g))) (with_posq n g)).
Proof.
  intros Hd Hn. unfold ReportPosThread, mbind, io_bind, gget, gput. rewrite Hn, !call_run. rewrite told_all_app.
  rewrite report_all_run by done. change (misc (told_all _ _)) with (misc g). change (kdevs (told_all _ _)) with (kdevs g). by rewrite told_all_app.
Qed.

(** ** Binding and positions as turns *)

Inductive bind_turn := Bound (dev_id : string) (result : Z) | Thread.
Definition run_bind (t : bind_turn) (g : gst) : res gst unit :=
  match t with
  | Bound id r => _misc_dev_bind_ifm_cb id r g
  | Thread => match bindq g with [] => Ran tt g | _ => ReportBindPosThread g end
  end.
Fixpoint run_binds (ts : list bind_turn) : M unit :=
  match ts with [] => mret tt | t :: ts => _ ← run_bind t; run_binds ts end.

(** The devices whose positions have been told. *)
Definition placed (l : list gev) : list string := omap (fun e => match e with Pos (Some id) _ => Some id | _ => None end) l.
Definition known (l : list (string * Z)) (t : bind_turn) : option string :=
  match t with Bound id 0 => match kind_of l id with Some _ => Some id | None => None end | _ => None end.

Lemma placed_app l1 l2 : placed (l1 ++ l2) = placed l1 ++ placed l2.
Proof. apply omap_app. Qed.

Lemma placed_told ds id : placed (told ds id) = [id].
Proof.
  unfold told. cbn. f_equal. destruct (find_knx ds id) as [[i [| | | |b chl| |]]|]; try done. by induction chl.
Qed.

(** What follows the position: heartbeats. *)
Definition beats (l : list gev) : Prop := Forall (fun e => match e with HbSet _ _ _ | HbFresh _ | ReadAttr _ => True | _ => False end) l.

Lemma placed_beats l : beats l -> placed l = [].
Proof. induction 1 as [|[] l Hl _ IH]; done. Qed.

Definition queued_bind (id : string) (g : gst) : gst := with_allocs [] (with_bindq (bindq g ++ [id]) g).

Lemma start_beat_run id tp g : exists es, beats (HbSet id 300 6 :: es) /\ start_beat id tp g = Ran tt (told_all (HbSet id 300 6 :: es) g).
Proof.
  unfold start_beat, mbind, io_bind. rewrite call_run.
  destruct (negb _); [exists []; split; [by repeat constructor|done]|]. rewrite call_run, told_all_app.
  destruct (negb _); [exists [HbFresh id]; split; [by repeat constructor|done]|].
  destruct (tp =? DEV_TP_ZIGBEE); [|exists [HbFresh id]; split; [by repeat constructor|done]].
  exists [HbFresh id; ReadAttr id]. split; [by repeat constructor|]. unfold __test_switch_read_attr, mbind, io_bind. by rewrite call_run, told_all_app.
Qed.

Lemma find_mbs_none l w : Forall (fun m => match m with Some m => m.1 < 0x30000000 | None => True end) l -> 0x30000000 <= w -> find_mbs l w = None.
Proof.
  intros Hl Hw. induction Hl as [|[[id b]|] l Hm Hl IH]; [done| |done]. cbn in *. by settle (id =? w).
Qed.

Lemma bind_run id tp g : kind_of (misc g) id = Some tp -> mac_key id -> allocs g = [] -> (length (bindq g) < BIND_QUEUE_SIZE)%nat ->
  exists es, beats es /\ _misc_dev_bind_ifm_cb id 0 g = Ran tt (told_all es (queued_bind id g)) /\
    (match find_knx (kdevs g) id with Some (_, d) => kb_bOnlineCheck (base_of d) = false -> es = [] | None => True end) /\
    (find_knx (kdevs g) id = None -> Forall (fun m => match m with Some m => m.1 < 0x30000000 | None => True end) (mbs g) ->
       exists es', es = HbSet id 300 6 :: es').
Proof.
  intros Hk Hm Ha Hl. destruct (mac_key_word id Hm) as (w & Hw & Hlo).
  unfold _misc_dev_bind_ifm_cb, mbind, io_bind, desc, put_bind, gget, gput, galloc, mbind, io_bind. cbn [negb Z.eqb]. rewrite Hk.
  destruct (length (bindq g) =? BIND_QUEUE_SIZE)%nat eqn:El; [apply Nat.eqb_eq in El; lia|]. rewrite Ha. cbn [hd tl mret io_ret].
  change (with_bindq _ (with_allocs [] g)) with (queued_bind id g). change (kdevs (queued_bind id g)) with (kdevs g).
  assert (beats []) as Hb0 by constructor.
  destruct (find_knx (kdevs g) id) as [[i d]|] eqn:Ek.
  - destruct (kb_bOnlineCheck (base_of d)) eqn:Ec; cbn [negb]; [|exists []; split_and!; [done|by rewrite told_all_nil|done|done]].
    rewrite Hw. cbn. destruct (match find_mbs (mbs g) w with Some _ => _ | None => _ end); [exists []; split_and!; [done|by rewrite told_all_nil|done|done]|].
    destruct (start_beat_run id tp (queued_bind id g)) as (es & Hb & E). eexists. split; [exact Hb|]. split; [exact E|done].
  - rewrite Hw. cbn. destruct (find_mbs (mbs g) w) as [check|] eqn:Em.
    + destruct (negb check); [exists []; split_and!; [done|by rewrite told_all_nil|done|]|].
      * intros _ Hmb. by rewrite (find_mbs_none _ _ Hmb Hlo) in Em.
      * destruct (start_beat_run id tp (queued_bind id g)) as (es & Hb & E). eexists. split; [exact Hb|]. split_and!; [exact E|done|by eauto].
    + destruct (start_beat_run id tp (queued_bind id g)) as (es & Hb & E). eexists. split; [exact Hb|]. split_and!; [exact E|done|by eauto].
Qed.

(** The devices are placed in the order in which they were bound. *)
Definition order_kept (g : gst) (t : bind_turn) (g' : gst) : Prop :=
  placed (glog g') ++ bindq g' = placed (glog g) ++ bindq g ++ option_list (known (misc g) t) /\
  misc g' = misc g /\ kdevs g' = kdevs g /\ allocs g' = [] /\ (length (bindq g') <= S (length (bindq g)))%nat.

Lemma run_bind_turn t g :
  devices_ok g -> allocs g = [] -> (length (bindq g) < BIND_QUEUE_SIZE)%nat -> (forall id r, t = Bound id r -> mac_key id) ->
  runs (run_bind t) (fun _ g' => order_kept g t g') g.
Proof.
  intros Hd Ha Hl Hm. unfold runs. destruct t as [id r|]; cbn [run_bind].
  - destruct (decide (r = 0)) as [->|Hr].
    + destruct (kind_of (misc g) id) as [tp|] eqn:Ek.
      * destruct (bind_run id tp g Ek (Hm id 0 eq_refl) Ha Hl) as (es & Hb & -> & _). unfold order_kept. cbn. rewrite Ek. cbn.
        rewrite placed_app, (placed_beats es Hb), app_nil_r. split_and!; try done. rewrite length_app. cbn. lia.
      * unfold _misc_dev_bind_ifm_cb, mbind, io_bind, desc, gget. cbn. rewrite Ek. cbn. unfold order_kept. cbn. rewrite Ek, app_nil_r. by split_and!; try lia.
    + unfold _misc_dev_bind_ifm_cb. destruct (r =? 0) eqn:E; bprop; [done|]. cbn. unfold order_kept. cbn.
      replace (match r with 0 => _ | _ => None end) with (@None string) by by destruct r. rewrite app_nil_r. by split_and!; try lia.
  - destruct (bindq g) as [|id l] eqn:Eq; [unfold order_kept; rewrite Eq; cbn; rewrite ?app_nil_r; split_and!; try done; lia|].
    unfold ReportBindPosThread, mbind, io_bind, gget, gput. rewrite Eq. cbn. rewrite report_pos_run by done. unfold order_kept. cbn.
    rewrite Eq, placed_app, placed_told, <- app_assoc. cbn. rewrite app_nil_r. split_and!; try done. lia.
Qed.


(** A KNX device that is not to be checked gets no heartbeat when it is bound; a
    Modbus device always gets one, whatever [bOnlineCheck] says: it is searched with a
    function that reads the key as a number, and is not found. *)
Theorem bind_heartbeat (id : string) (tp : Z) (g : gst) :
  kind_of (misc g) id = Some tp -> mac_key id -> allocs g = [] -> (length (bindq g) < BIND_QUEUE_SIZE)%nat ->
  runs (_misc_dev_bind_ifm_cb id 0) (fun _ g' =>
    bindq g' = bindq g ++ [id] /\
    (forall i d, find_knx (kdevs g) id = Some (i, d) -> kb_bOnlineCheck (base_of d) = false -> glog g' = glog g) /\
    (find_knx (kdevs g) id = None -> Forall (fun m => match m with Some m => m.1 < 0x30000000 | None => True end) (mbs g) ->
       exists es, glog g' = glog g ++ HbSet id 300 6 :: es)) g.
Proof.
  intros Hk Hm Ha Hl. unfold runs. destruct (bind_run id tp g Hk Hm Ha Hl) as (es & _ & -> & H1 & H2). cbn. split_and!; [done| |].
  - intros i d Ed Hc. rewrite Ed in H1. rewrite (H1 Hc). by rewrite app_nil_r.
  - intros Hn Hb. destruct (H2 Hn Hb) as [es' ->]. by exists es'.
Qed.

(** A Modbus device whose heartbeat is switched off, and a device of the bus. *)
Definition bound_gateway : gst :=
  GSt [Some k_acd; None; Some k_curtain] [Some (7, false)] [] [("aabbccddeeff17", DEV_TP_485); ("aabbccddeeff29", DEV_TP_KNX)] 0 [] [] [] true [].

Lemma bound_devices_ok : devices_ok bound_gateway.
Proof.
  repeat apply Forall_cons_2; try apply Forall_nil_2; cbn [opt_ok]; [|done|].
  - split; [done|repeat constructor; discriminate].
  - split; [done|]. intros [| |]; eexists; (split; [reflexivity|]); repeat split; discriminate.
Qed.

Lemma a_mac_key r : mac_key (String "a"%char (String "a"%char (String "b"%char (String "b"%char r)))).
Proof. do 4 eexists. exists r. split; [reflexivity|]. by apply Nat.leb_le. Qed.


Lemma bind_heartbeat_witness :
  runs (_misc_dev_bind_ifm_cb "aabbccddeeff17" 0) (fun _ g' => exists es, glog g' = HbSet "aabbccddeeff17" 300 6 :: es) bound_gateway.
Proof.
  eapply runs_mono; [apply (bind_heartbeat "aabbccddeeff17" DEV_TP_485 bound_gateway eq_refl (a_mac_key _) eq_refl)|].
  - unfold BIND_QUEUE_SIZE. cbn. lia.
  - intros u g' (_ & _ & H). apply H; [reflexivity|]. repeat constructor.
Defined.
