(* ===== verification/XmlUpdate.v ===== *)
(** Changes of the configuration file (XmlUpdateNode and the Update* functions of
    source/parseXML.c).

    The functions name a node by an XPath expression, give it a text and write the
    file.  libxml2 does all three: [XmlEdit] are its functions, over files, documents
    and pointers to nodes, and [XmlEditOk] is what is used of them.  What an expression
    means is said for the expressions the program prints: steps to the children of a
    name, the nth of them, or those with a child of a given number or text. *)

From Stdlib Require Import Ascii.
From stdpp Require Import pretty.
From S2P Require Import Prelude CMem CStr Device KnxDevs Serial Xml Cells CellRules ParseKnx ParsePanels XmlPrint PanelPrint.

Local Open Scope string_scope.
Local Open Scope list_scope.
Local Open Scope Z_scope.

(** ** Expressions *)

Inductive test := Any | Nth (n : Z) | NumIs (child : string) (z : Z) | TextIs (child t : string).
Record xstep := Step { st_name : string; st_test : test }.

Definition QUOTE : string := String "034" "".
Definition show_test (t : test) : string :=
  match t with
  | Any => ""
  | Nth n => "[" +:+ pretty n +:+ "]"
  | NumIs c z => "[" +:+ c +:+ "=" +:+ pretty z +:+ "]"
  | TextIs c s => "[" +:+ c +:+ "=" +:+ QUOTE +:+ s +:+ QUOTE +:+ "]"
  end.
Fixpoint show_path (p : list xstep) : string :=
  match p with [] => "" | s :: p => "/" +:+ st_name s +:+ show_test (st_test s) +:+ show_path p end.

(** ** What an expression selects *)

Fixpoint string_value (x : xnode) : string :=
  match x with
  | XNode true _ _ _ l => (fix go l := match l with [] => "" | k :: l => string_value k +:+ go l end) l
  | XNode false n c _ _ => if String.eqb n "text" then default "" c else ""
  end.
Definition names (n : string) (x : xnode) : bool := is_elem x && String.eqb (x_name x) n.
Definition with_kids (l : list xnode) (x : xnode) : xnode := XNode (is_elem x) (x_name x) (x_content x) (x_attrs x) l.

(** [number ()]: the number an element's text stands for. *)
Class XNumber := xml_number : string -> option Z.

Section Select.
Context `{XNumber}.

Definition holds (t : test) (i : Z) (x : xnode) : bool :=
  match t with
  | Any => true
  | Nth n => i =? n
  | NumIs c z => existsb (fun k => names c k && bool_decide (xml_number (string_value k) = Some z)) (x_kids x)
  | TextIs c s => existsb (fun k => names c k && String.eqb (string_value k) s) (x_kids x)
  end.
Fixpoint sel_kids (s : xstep) (i : Z) (l : list xnode) : list xnode :=
  match l with
  | [] => []
  | k :: l =>
      if names (st_name s) k then (if holds (st_test s) i k then [k] else []) ++ sel_kids s (i + 1) l
      else sel_kids s i l
  end.
Fixpoint nodes (p : list xstep) (x : xnode) : list xnode :=
  match p with [] => [x] | s :: p => concat (map (nodes p) (sel_kids s 1 (x_kids x))) end.

(** The tree after the first of the nodes has got [v] as its content. *)
Fixpoint upd_kids (s : xstep) (g : xnode -> option xnode) (i : Z) (l : list xnode) : option (list xnode) :=
  match l with
  | [] => None
  | k :: l =>
      if names (st_name s) k then
        match if holds (st_test s) i k then g k else None with
        | Some k' => Some (k' :: l)
        | None => cons k <$> upd_kids s g (i + 1) l
        end
      else cons k <$> upd_kids s g i l
  end.
Fixpoint replaced (v : string) (p : list xstep) (x : xnode) : option xnode :=
  match p with
  | [] => Some (with_kids [text v] x)
  | s :: p => (fun l => with_kids l x) <$> upd_kids s (replaced v p) 1 (x_kids x)
  end.

End Select.

(** ** The library *)

Class XmlEdit := {
  xml_doc : Type;
  xml_disk : Type;
  xml_ptr : Type;
  xml_read : xml_disk -> string -> option xml_doc;
  xml_save : string -> xml_doc -> xml_disk -> xml_disk;
  xml_tree : xml_doc -> xnode;
  xml_node : xml_doc -> xml_ptr -> xnode;
  xml_select : xml_doc -> string -> list xml_ptr;
  xml_set : xml_ptr -> string -> xml_doc -> xml_doc;
  xml_num :: XNumber;
  xml_casecmp : string -> string -> Z;
  xml_prop : xnode -> string -> option string
}.

(** The library of the parsers, on the files as they are. *)
Definition lib_on `{XmlEdit} (k : xml_disk) : LibXml := {|
  xmlDoc := xml_doc;
  xmlReadFile := xml_read k;
  xmlXPathEval d e := map (xml_node d) (xml_select d e);
  xmlStrcasecmp := xml_casecmp;
  xmlGetProp := xml_prop
|}.

(** A text without references to entities. *)
Definition plain (v : string) : bool := negb (String.eqb v "") && negb (has_char "&" v) && negb (has_char "<" v).

(** What is used of the library for an expression: it selects the nodes, and the first
    of them can be given a text. *)
Definition xpath_ok `{XmlEdit} (p : list xstep) : Prop :=
  (forall d, map (xml_node d) (xml_select d (show_path p)) = nodes p (xml_tree d)) /\
  (forall d a l v, plain v = true -> xml_select d (show_path p) = a :: l ->
     replaced v p (xml_tree d) = Some (xml_tree (xml_set a v d))).
Class XmlEditOk `{XmlEdit} : Prop := {
  lib_on_ok : forall k, @LibXmlOk (lib_on k);
  save_read : forall u d k, exists d', xml_read (xml_save u d k) u = Some d' /\ xml_tree d' = xml_tree d;
  number_pretty : forall z, is_i32 z -> xml_number (pretty z) = Some z
}.

(** ** The functions *)

Section Update.
Context `{XmlEdit}.

Definition XmlUpdateNode (pXpathObj : option (list xml_ptr)) (value : option string) (d : xml_doc) : Z * xml_doc :=
  match pXpathObj, value with
  | Some l, Some v => match l with [] => (-1, d) | a :: _ => (0, xml_set a v d) end
  | _, _ => (-1, d)
  end.

(** [snprintf (xpath, sizeof (xpath), ...)] *)
Definition XPATH_SIZE : nat := 128.
Definition printed (s : string) : string := take_string (XPATH_SIZE - 1) s.

Definition update (pUrl xpath : string) (pValue : option string) (k : xml_disk) : Z * xml_disk :=
  match xml_read k pUrl with
  | None => (-1, k)
  | Some d =>
      match xml_select d xpath with
      | [] => (-1, k)
      | l => (0, xml_save pUrl (XmlUpdateNode (Some l) pValue d).2 k)
      end
  end.

Definition UpdateKnxSmartPanelMode (pUrl : string) (priKey chl : Z) (pValue : option string) : xml_disk -> Z * xml_disk :=
  update pUrl (printed ("/Device/KNX/SmartPanel/Cell[PrimaryKey=" +:+ pretty priKey +:+ "]/channel[" +:+ pretty chl +:+ "]/mode/select")) pValue.
Definition UpdateKnxVentSpeedCtrlGrp (pUrl pValueOld : string) (pValueNew : option string) : xml_disk -> Z * xml_disk :=
  update pUrl (printed ("/Device/KNX/Ventilation/Cell/Speed[Ctrl=" +:+ QUOTE +:+ pValueOld +:+ QUOTE +:+ "]/Ctrl")) pValueNew.
Definition UpdateKnxDimmerSwitchCtrlGrp (pUrl : string) (priKey : Z) (pValue : option string) : xml_disk -> Z * xml_disk :=
  update pUrl (printed ("/Device/KNX/Dimmer/Cell[PrimaryKey=" +:+ pretty priKey +:+ "]/channel/Switch/Ctrl")) pValue.
Definition UpdateKnxDimmerSwitchStatusGrp (pUrl : string) (priKey : Z) (pValue : option string) : xml_disk -> Z * xml_disk :=
  update pUrl (printed ("/Device/KNX/Dimmer/Cell[PrimaryKey=" +:+ pretty priKey +:+ "]/channel/Switch/Status")) pValue.
Definition UpdateKnxDimmerBrightnessCtrlGrp (pUrl : string) (priKey : Z) (pValue : option string) : xml_disk -> Z * xml_disk :=
  update pUrl (printed ("/Device/KNX/Dimmer/Cell[PrimaryKey=" +:+ pretty priKey +:+ "]/channel/Brightness/Ctrl")) pValue.
Definition UpdateKnxDimmerBrightnessStatusGrp (pUrl : string) (priKey : Z) (pValue : option string) : xml_disk -> Z * xml_disk :=
  update pUrl (printed ("/Device/KNX/Dimmer/Cell[PrimaryKey=" +:+ pretty priKey +:+ "]/channel/Brightness/Status")) pValue.
Definition UpdateKnxDimmerGrp (pUrl : string) (priKey : Z) (pSCValue pSSValue pBCValue pBSValue : option string) (k : xml_disk) : Z * xml_disk :=
  let k := (UpdateKnxDimmerSwitchCtrlGrp pUrl priKey pSCValue k).2 in
  let k := (UpdateKnxDimmerSwitchStatusGrp pUrl priKey pSSValue k).2 in
  let k := (UpdateKnxDimmerBrightnessCtrlGrp pUrl priKey pBCValue k).2 in
  let k := (UpdateKnxDimmerBrightnessStatusGrp pUrl priKey pBSValue k).2 in
  (0, k).
End Update.

(** ** The first of a list that can be changed *)

Fixpoint upd_first {A} (g : A -> option A) (l : list A) : option (list A) :=
  match l with
  | [] => None
  | x :: l => match g x with Some y => Some (y :: l) | None => cons x <$> upd_first g l end
  end.

Lemma upd_first_app {A} (g : A -> option A) l1 l2 :
  upd_first g (l1 ++ l2) = match upd_first g l1 with Some l => Some (l ++ l2) | None => app l1 <$> upd_first g l2 end.
Proof.
  induction l1 as [|x l1 IH]; cbn; [by destruct (upd_first g l2)|]. destruct (g x); [done|]. rewrite IH.
  by destruct (upd_first g l1), (upd_first g l2).
Qed.

Lemma upd_first_concat {A B} (g : B -> option B) (g' : A -> option A) (h : A -> list B) l :
  (forall x, h <$> g' x = upd_first g (h x)) ->
  (fun l => concat (map h l)) <$> upd_first g' l = upd_first g (concat (map h l)).
Proof.
  intros Hg. induction l as [|x l IH]; [done|]. cbn. rewrite upd_first_app, <- Hg, <- IH.
  destruct (g' x); [done|]. cbn. by destruct (upd_first g' l).
Qed.

Lemma upd_first_map {A B} (g : B -> option B) (g' : A -> option A) (h : A -> B) l :
  (forall x, g (h x) = h <$> g' x) -> upd_first g (map h l) = map h <$> upd_first g' l.
Proof.
  intros Hg. induction l as [|x l IH]; [done|]. cbn. rewrite Hg, IH. destruct (g' x); [done|]. cbn. by destruct (upd_first g' l).
Qed.

Lemma concat_single {A} (l : list A) : concat (map (fun x => [x]) l) = l.
Proof. induction l as [|x l IH]; [done|]. cbn. by rewrite IH. Qed.

(** ** Changing a tree *)

Section Replace.
Context `{XNumber}.

Definition positional (t : test) : bool := match t with Nth _ => true | _ => false end.

Lemma holds_any_place t i j x : positional t = false -> holds t i x = holds t j x.
Proof. by destruct t. Qed.

Lemma replaced_names v p x y n : replaced v p x = Some y -> names n y = names n x.
Proof. destruct p as [|s p]; cbn; [by intros [= <-]|]. destruct (upd_kids _ _ _ _); [|done]. by intros [= <-]. Qed.

Lemma upd_kids_any n t (g : xnode -> option xnode) i j l :
  positional t = false -> (forall x y, g x = Some y -> names n y = names n x) ->
  sel_kids (Step n Any) j <$> upd_kids (Step n t) g i l =
  upd_first (fun k => if holds t 0 k then g k else None) (sel_kids (Step n Any) j l).
Proof.
  intros Ht Hg. revert i j. induction l as [|k l IH]; intros i j; [done|]. cbn.
  rewrite (holds_any_place t i 0 k Ht). destruct (names n k) eqn:En; cbn; rewrite ?En; [|rewrite <- (IH i); destruct (upd_kids _ _ i l); cbn; by rewrite ?En].
  destruct (if holds t 0 k then g k else None) as [k'|] eqn:Eg.
  - destruct (holds t 0 k); [|done]. cbn. by rewrite (Hg _ _ Eg), En.
  - rewrite <- (IH (i + 1)). destruct (upd_kids _ _ (i + 1) l); cbn; by rewrite ?En.
Qed.

(** The nodes of a path without tests, after a change below them. *)
Lemma nodes_replaced pre n t v p x :
  positional t = false ->
  nodes (map (fun m => Step m Any) pre ++ [Step n Any]) <$> replaced v (map (fun m => Step m Any) pre ++ Step n t :: p) x =
  upd_first (fun c => if holds t 0 c then replaced v p c else None) (nodes (map (fun m => Step m Any) pre ++ [Step n Any]) x).
Proof.
  intros Ht. revert x. induction pre as [|m pre IH]; intros x; cbn [map app nodes replaced].
  - rewrite concat_single, <- (upd_kids_any n t (replaced v p) 1 1) by (done || (intros; by eapply replaced_names)).
    destruct (upd_kids _ _ _ _) as [l|]; [|done]. cbn. f_equal. apply concat_single.
  - rewrite <- (upd_first_concat _ (replaced v (map (fun m => Step m Any) pre ++ Step n t :: p))) by done.
    set (r := replaced v (map (fun m => Step m Any) pre ++ Step n t :: p)).
    rewrite <- (upd_kids_any m Any r 1 1 (x_kids x) eq_refl (fun x y => replaced_names v _ x y m) : _ = upd_first r _). by destruct (upd_kids _ _ _ _).
Qed.

Lemma upd_kids_fails s g i l : upd_kids s g i l = None <-> Forall (fun k => g k = None) (sel_kids s i l).
Proof.
  revert i. induction l as [|k l IH]; intros i; [split; [intros _; apply Forall_nil_2|done]|]. cbn. destruct (names _ k).
  - destruct (holds _ i k); cbn; [rewrite Forall_cons|]; rewrite <- IH; destruct (upd_kids s g (i + 1) l), (g k); cbn; naive_solver.
  - rewrite <- IH. destruct (upd_kids s g i l); cbn; naive_solver.
Qed.

(** Something is changed exactly when something is selected. *)
Lemma nothing_selected v p x : replaced v p x = None <-> nodes p x = [].
Proof.
  revert x. induction p as [|s p IH]; intros x; [done|]. cbn. rewrite fmap_None, upd_kids_fails.
  induction (sel_kids s 1 (x_kids x)) as [|k l IHl]; [split; [done|intros _; apply Forall_nil_2]|].
  cbn. rewrite Forall_cons, IH, IHl. split; [by intros [-> ->]|by intros E%app_eq_nil].
Qed.

(** ** Written elements *)

Lemma upd_kids_indent s g i l : upd_kids s g i (indent l) = indent <$> upd_kids s g i l.
Proof.
  revert i. induction l as [|k l IH]; intros i; [done|]. cbn. destruct (names _ k).
  - destruct (if holds _ i k then g k else None); [done|]. rewrite IH. by destruct (upd_kids s g (i + 1) l).
  - rewrite IH. by destruct (upd_kids s g i l).
Qed.

Lemma upd_kids_skip s g i l1 l2 : Forall (fun k => names (st_name s) k = false) l1 ->
  upd_kids s g i (l1 ++ l2) = app l1 <$> upd_kids s g i l2.
Proof.
  induction 1 as [|k l1 Hk _ IH]; cbn; [by destruct (upd_kids s g i l2)|]. rewrite Hk, IH. by destruct (upd_kids s g i l2).
Qed.

Lemma replaced_elem v s p name ats l :
  replaced v (s :: p) (elem name ats l) = elem name ats <$> upd_kids s (replaced v p) 1 l.
Proof. cbn [replaced elem x_kids]. rewrite upd_kids_indent. by destruct (upd_kids _ _ _ l). Qed.

(** The [n]th of a list, counted from [i]. *)
Fixpoint upd_nth {A} (n i : Z) (g : A -> option A) (l : list A) : option (list A) :=
  match l with
  | [] => None
  | x :: l => match if i =? n then g x else None with Some y => Some (y :: l) | None => cons x <$> upd_nth n (i + 1) g l end
  end.

Lemma upd_kids_nth {A} name n g (g' : A -> option A) (doc : A -> xnode) i l :
  (forall x, names name (doc x) = true) -> (forall x, g (doc x) = doc <$> g' x) ->
  upd_kids (Step name (Nth n)) g i (map doc l) = map doc <$> upd_nth n i g' l.
Proof.
  intros Hn Hg. revert i. induction l as [|x l IH]; intros i; [done|]. cbn. rewrite Hn, Hg, IH.
  destruct (i =? n); [destruct (g' x); [done|]|]; cbn; by destruct (upd_nth n (i + 1) g' l).
Qed.
End Replace.

(** ** The modes of smart panels *)

Lemma pretty_go_length k x s : (x < 10 ^ N.of_nat k)%N -> (String.length (pretty_N_go x s) <= k + String.length s)%nat.
Proof.
  revert x s. induction k as [|k IH]; intros x s Hx.
  { change (10 ^ N.of_nat 0)%N with 1%N in Hx. replace x with 0%N by lia. by rewrite pretty_N_go_0. }
  destruct (decide (x = 0)%N) as [->|]; [rewrite pretty_N_go_0; lia|]. rewrite pretty_N_go_step by lia.
  etransitivity; [apply IH|cbn; lia]. rewrite Nat2N.inj_succ, N.pow_succ_r' in Hx. apply N.Div0.div_lt_upper_bound. lia.
Qed.

Lemma pretty_length z : is_i32 z -> (String.length (pretty z) <= 11)%nat.
Proof.
  intros Hz. unfold is_i32 in Hz.
  assert (forall x, (x < 10 ^ 10)%N -> (String.length (pretty x) <= 10)%nat) as Hn.
  { intros x Hx. unfold pretty, pretty_N. destruct (decide (x = 0)%N); [cbn; lia|]. rewrite (pretty_go_length 10) by done. cbn. lia. }
  destruct z as [|p|p].
  - cbn. lia.
  - change (pretty (Z.pos p)) with (pretty (N.pos p)). rewrite Hn; lia.
  - change (pretty (Z.neg p)) with ("-" +:+ pretty (N.pos p)). rewrite string_length_app. cbn [String.length]. specialize (Hn (N.pos p)). lia.
Qed.

Definition smart_pre : list string := ["Device"; "KNX"; "SmartPanel"].
Definition smart_cells : list xstep := map (fun m => Step m Any) smart_pre ++ [Step "Cell" Any].
Definition mode_path (id chl : Z) : list xstep :=
  map (fun m => Step m Any) smart_pre ++
  Step "Cell" (NumIs "PrimaryKey" id) :: [Step "channel" (Nth chl); Step "mode" Any; Step "select" Any].

Lemma mode_xpath id chl : is_i32 id -> is_i32 chl ->
  printed ("/Device/KNX/SmartPanel/Cell[PrimaryKey=" +:+ pretty id +:+ "]/channel[" +:+ pretty chl +:+ "]/mode/select") =
  show_path (mode_path id chl).
Proof.
  intros H1 H2. pose proof (pretty_length id H1). pose proof (pretty_length chl H2). unfold printed. rewrite take_string_all.
  - cbn. rewrite !string_app_assoc. done.
  - rewrite !string_length_app. cbn [String.length]. unfold XPATH_SIZE. lia.
Qed.

Section Modes.
Context `{XNumber}.

(** A written panel after a change of the mode of channel [chl]; a channel without
    the element is none. *)
Definition key_is (id : Z) (c : keyed_doc smart_chl) : bool :=
  match kd_key c with Some t => bool_decide (xml_number t = Some id) | None => false end.
Definition set_select (scene : bool) (c : smart_chl) : option smart_chl :=
  match sl_select c with
  | Some _ => Some (SmartChl (sl_switch c) (sl_status c) (sl_dp c) (sl_addr c) (sl_value c) (sl_scene_dp c) (Some scene) (sl_mode_dp c))
  | None => None
  end.
Definition put_channels (c : keyed_doc smart_chl) (l : list smart_chl) : keyed_doc smart_chl :=
  KeyedDoc (kd_plugin c) (kd_product c) (kd_phyAddr c) (kd_key c) (kd_foreign c) (kd_online c) l.
Definition change_mode (id chl : Z) (scene : bool) : list (keyed_doc smart_chl) -> option (list (keyed_doc smart_chl)) :=
  upd_first (fun c => if key_is id c then put_channels c <$> upd_nth chl 1 (set_select scene) (kd_channels c) else None).

Lemma existsb_indent f l : f blank = false -> existsb f (indent l) = existsb f l.
Proof. intros Hb. induction l as [|x l IH]; cbn; rewrite Hb; [done|]. by rewrite IH. Qed.

Lemma key_holds id c : holds (NumIs "PrimaryKey" id) 0 (cell_doc smart_doc c) = key_is id c.
Proof.
  destruct c as [g p a k f o chs]. unfold holds, cell_doc, elem, key_is. cbn [x_kids kd_plugin kd_product kd_phyAddr kd_key kd_foreign kd_online kd_channels].
  rewrite existsb_indent by done. rewrite !existsb_app.
  assert (existsb (fun k => names "PrimaryKey" k && bool_decide (xml_number (string_value k) = Some id)) (map smart_doc chs) = false) as ->.
  { induction chs as [|c chs IH]; [done|]. exact IH. }
  destruct g, p, a, f; destruct k as [t|]; cbn; rewrite ?string_app_nil, ?orb_false_r; done.
Qed.

Lemma select_replaced scene c :
  replaced (select_word scene) [Step "mode" Any; Step "select" Any] (smart_doc c) = smart_doc <$> set_select scene c.
Proof.
  unfold smart_doc, set_select. rewrite replaced_elem. destruct c as [? ? ? ? ? ? [b|] [dp|]]; reflexivity.
Qed.

Lemma cell_replaced scene chl c :
  replaced (select_word scene) [Step "channel" (Nth chl); Step "mode" Any; Step "select" Any] (cell_doc smart_doc c) =
  (fun l => cell_doc smart_doc (put_channels c l)) <$> upd_nth chl 1 (set_select scene) (kd_channels c).
Proof.
  unfold cell_doc. rewrite replaced_elem. rewrite !app_assoc. rewrite upd_kids_skip.
  - rewrite (upd_kids_nth "channel" chl _ (set_select scene) smart_doc 1) by (done || apply select_replaced).
    destruct (upd_nth _ _ _ _) as [l|]; [|done]. cbn [fmap option_fmap option_map]. unfold put_channels. cbn. by rewrite <- !app_assoc.
  - destruct c as [g p a k f o chs]. cbn. destruct g, p, a, k, f; by repeat constructor.
Qed.

Lemma cells_changed id chl scene x cs :
  nodes smart_cells x = map (cell_doc smart_doc) cs ->
  nodes smart_cells <$> replaced (select_word scene) (mode_path id chl) x = map (cell_doc smart_doc) <$> change_mode id chl scene cs.
Proof.
  intros Hx. unfold smart_cells, mode_path. rewrite nodes_replaced by done. fold smart_cells. rewrite Hx.
  apply upd_first_map. intros c. rewrite key_holds. destruct (key_is id c); [|done]. rewrite cell_replaced.
  by destruct (upd_nth _ _ _ _).
Qed.
End Modes.

Section Kept.
Context `{XmlEditOk}.

(** A change of a node that is there reaches the file, one of a node that is not
    leaves it alone. *)
Lemma updated p u v k d :
  xpath_ok p -> plain v = true -> xml_read k u = Some d ->
  match replaced v p (xml_tree d) with
  | None => update u (show_path p) (Some v) k = (-1, k)
  | Some x => exists k' d', update u (show_path p) (Some v) k = (0, k') /\ xml_read k' u = Some d' /\ xml_tree d' = x
  end.
Proof.
  intros [H1 H2] Hv Hd. unfold update. rewrite Hd. specialize (H1 d). specialize (H2 d).
  destruct (xml_select d (show_path p)) as [|a l].
  - by rewrite (proj2 (nothing_selected v p (xml_tree d))).
  - rewrite (H2 a l v Hv eq_refl). destruct (save_read u (xml_set a v d) k) as (d' & E1 & E2). by exists (xml_save u (xml_set a v d) k), d'.
Qed.

Lemma change_mode_cells id chl scene cs : change_mode id chl scene cs <> Some [].
Proof. unfold change_mode. destruct cs as [|c cs]; [done|]. cbn. destruct (if key_is id c then _ else _); [done|]. by destruct (upd_first _ cs). Qed.

Lemma changed_valid id chl scene cs cs' : change_mode id chl scene cs = Some cs' ->
  Forall (keyed_valid smart_valid) cs -> Forall (keyed_valid smart_valid) cs'.
Proof.
  unfold change_mode. intros E Hcs. revert cs' E. induction Hcs as [|c cs Hc Hcs IH]; intros cs' E; [done|]. cbn in E.
  destruct (if key_is id c then _ else _) as [c'|] eqn:Ec.
  - injection E as <-. apply Forall_cons_2; [|done]. destruct (key_is id c); [|done]. destruct (upd_nth _ _ _ _) as [l|] eqn:El; [|done].
    injection Ec as <-. destruct Hc as [Hf Hl]. split; [exact Hf|]. cbn. clear - Hl El. revert l El. generalize 1.
    induction Hl as [|x chs Hx Hl IH]; intros i l E; [done|]. cbn in E. destruct (if i =? chl then _ else _) as [y|] eqn:Ex.
    + injection E as <-. apply Forall_cons_2; [|done]. destruct (i =? chl); [|done]. unfold set_select in Ex. destruct (sl_select x); [|done]. injection Ex as <-. exact Hx.
    + destruct (upd_nth _ _ _ _) as [l'|] eqn:El; [|done]. injection E as <-. apply Forall_cons_2; [done|]. by apply (IH (i + 1)).
  - destruct (upd_first _ cs) as [l|]; [|done]. injection E as <-. apply Forall_cons_2; [done|]. by apply IH.
Qed.

(** The number the writer of KNX finds in the key of a panel is the one its cell
    gives. *)
Lemma saved_key g_Mac id : String.length g_Mac = 12%nat -> is_i32 id ->
  strtol (drop_string 13 (key_text g_Mac DEVICE_TYPE_KNX (pretty id))) = Some (id, false).
Proof.
  intros Hg Hid. unfold key_text. pose proof (pretty_length id Hid). rewrite take_string_all.
  - rewrite <- string_app_assoc. replace 13%nat with (String.length (g_Mac +:+ pretty DEVICE_TYPE_KNX)).
    + rewrite drop_string_app. by apply strtol_pretty.
    + rewrite string_length_app, Hg. reflexivity.
  - rewrite !string_length_app, Hg. change (String.length (pretty DEVICE_TYPE_KNX)) with 1%nat. unfold DEVICE_ID_LENGTH. lia.
Qed.

End Kept.

(** ** Files *)

(** A library that knows some expressions, over a list of files. *)
Definition edit_number : XNumber := fun s => match strtol s with Some (z, false) => Some z | _ => None end.
Definition edit_lib (ps : list (list xstep)) : XmlEdit := {|
  xml_doc := xnode;
  xml_disk := list (string * xnode);
  xml_ptr := list xstep * nat;
  xml_read k u := find_text k u;
  xml_save u d k := (u, d) :: k;
  xml_tree d := d;
  xml_node d a := default blank (@nodes edit_number a.1 d !! a.2);
  xml_select d e := match List.find (fun p => String.eqb (show_path p) e) ps with
    | Some p => map (pair p) (seq 0 (length (@nodes edit_number p d))) | None => [] end;
  xml_set a v d := default d (@replaced edit_number v a.1 d);
  xml_num := edit_number;
  xml_casecmp a b := if String.eqb (lower a) (lower b) then 0 else 1;
  xml_prop x a := find_text (x_attrs x) a
|}.

Lemma edit_lib_ok ps : @XmlEditOk (edit_lib ps).
Proof.
  split.
  - intros k. split; [|done]. intros a b. cbn. destruct (String.eqb_spec (lower a) (lower b)); [done|]. by split.
  - intros u d k. exists d. cbn. by rewrite String.eqb_refl.
  - intros z Hz. change (@xml_number (@xml_num (edit_lib ps))) with edit_number. unfold edit_number. by rewrite strtol_pretty.
Qed.

Lemma nth_nodes {A} (x : A) l : map (fun i => default x (l !! i)) (seq 0 (length l)) = l.
Proof.
  induction l as [|y l IH]; [done|]. cbn. f_equal. rewrite <- seq_shift, map_map. exact IH.
Qed.

Lemma edit_xpath ps p : List.find (fun q => String.eqb (show_path q) (show_path p)) ps = Some p -> @xpath_ok (edit_lib ps) p.
Proof.
  intros Hp. split.
  - intros d. cbn. rewrite Hp, map_map. apply (nth_nodes blank (@nodes edit_number p d)).
  - intros d a l v _. cbn. rewrite Hp. intros E.
    destruct (@nodes edit_number p d) as [|x xs] eqn:En; [done|]. cbn in E. injection E as <- _. cbn.
    destruct (@replaced edit_number v p d) as [y|] eqn:Er; [done|]. apply nothing_selected in Er. by rewrite Er in En.
Qed.

Definition sample_smart (key : string) : keyed_doc smart_chl :=
  KeyedDoc None (Some "pid") (Some "1.1.9") (Some key) None true
    [SmartChl (Some "1/2/3") None (Some 1) None None (Some 2) (Some false) (Some 3);
     SmartChl (Some "1/2/4") None (Some 4) (Some "1/3/1") (Some 7) (Some 5) (Some false) (Some 6)].
Definition smart_file (cs : list (keyed_doc smart_chl)) : xnode :=
  XNode true "" None [] [elem "Device" [] [elem "KNX" [] [elem "SmartPanel" [] (map (cell_doc smart_doc) cs)]]].

Lemma sample_smart_valid key : keyed_valid smart_valid (sample_smart key).
Proof.
  split; [done|]. repeat apply Forall_cons_2; try apply Forall_nil_2; cbn; (split_and!; intros z E; (discriminate E || injection E as <-); unfold is_i32; lia).
Qed.

